(* ===== verification/_CoqProject ===== *)
-Q . S2P
Prelude.v
Text.v
Hex.v
Decimal.v
Padding.v
Buffer.v
Asn1Tlv.v
Asn1Value.v
Sorting.v
Asn1Node.v
Asn1Schema.v
Asn1Create.v
Asn1Tables.v
Asn1Decode.v
Asn1DecodeSpec.v
Asn1ValidateSpec.v
Asn1Safe.v
Asn1CreateSpec.v
Asn1Build.v
Asn1Roundtrip.v
Asn1Access.v
Asn1Strings.v
Asn1Cases.v
Record.v
Armor.v
ArmorSpec.v
Base64.v
Chain.v
StateM.v
Attributes.v
AttrStore.v
AttrOps.v
AttrObjects.v
AttrContract.v
AttrRead.v
Enumerator.v
EnumSpec.v
EnumClient.v
SecurePool.v
SecureMemory.v
SecureBlock.v
SecureGrow.v
SecureHeap.v
SecureSpec.v
OpenSsh.v
OpenSshSpec.v
OpenSshSafe.v
OpenSshAttrs.v
OpenSshCases.v
Oid.v
Dn.v
DnSpec.v
DnBuild.v
DnCases.v
Crypto.v
Dh.v
Exchange.v
ExchangeSpec.v
ExchangeSafe.v
ExchangeCases.v
OpenPgp.v
OpenPgpSpec.v
OpenPgpSafe.v
OpenPgpBlocks.v
OpenPgpKeys.v
OpenPgpRecords.v
OpenPgpCases.v
