(* ===== verification/Prelude.v ===== *)
(** A verified model of the core of GCR.

    GCR is a C library for certificates, keys and secrets on the desktop.  Under [src/]
    it has three layers: [egg/], helpers without a state of their own (encodings, buffers,
    ASN.1, secure memory); [gck/], a GObject binding of PKCS#11; and [gcr/], certificates,
    trust, parsing and prompting on top of both.  This library models the parts of each
    layer that decide something themselves and do not hand their work on to a crypto
    library, D-Bus or GTK, and proves what they promise.

    * How the code is modelled

    Bytes are [Z]; a block of memory is a [list Z], or, for the allocator of secure
    memory, a map from 64-bit addresses to bytes.  Machine integers are [Z] with their
    wrap-around written out ([u8], [u16], [u32], [u64], [s32]).  A C function becomes a
    Rocq function of the same name with the same tests in the same order.  Its result is
    of type [res] (this file) when it only computes: [Ok], one of the function's own error
    returns ([Err]), or [Ub] for an access outside a block, an undefined expression or a
    failed assertion of the code itself.  Where functions share a state they are state
    transformers ([StateM]), reasoned about by weakest preconditions ([wp]).  Loops that
    are not structural take fuel, and a theorem of the file says how much is enough.

    What is not under [src/] - GLib's conversions, the C library, the kernel's pages,
    random numbers, the PKCS#11 modules - is a parameter, a class where there are several:
    [System] (pages that can be locked), [Environment] (fresh memory, PKCS#11 constants),
    [Certificates] and [TrustStore] (names in certificates; pins, anchors and issuers),
    [Pkcs11] (the calls of a module, on a world they change).
    The laws of a class state documented behaviour, and a concrete instance with every law
    shown comes with the witnesses.

    * The files

    [Prelude], [StateM], [Text]: results, machine integers, blocks, digits; state
    transformers; the C library's and GLib's functions on strings.

    [Hex] - [src/egg/egg-hex.c].  Encoding and decoding with any delimiter and group size
    are inverse ([hex_roundtrip]) and the nested loops are a plain decoder
    ([hex_decode_refines]).  Fuel: the length of the text.

    [Decimal] - [src/egg/egg-decimal.c].  The bytes have the value of the digits, no byte
    is written outside ([egg_decimal_decode_correct]).  Fuel: eight rounds per character,
    a round halves the number.

    [Padding] - [src/egg/egg-padding.c].  PKCS#1 types 1 and 2, PKCS#7 and zero padding:
    unpadding inverts padding, and PKCS#7 unpadding accepts exactly the padded blocks.

    [Buffer] - [src/egg/egg-buffer.c].  Every operation on the growing block; what is
    written is the encoding, at the end, or nothing; reading stays inside.

    [Asn1Tlv], [Asn1Value] - the TLV layer and the contents of primitive types of
    [src/egg/egg-asn1x.c].  The parser terminates (fuel: the length of the input, and every
    element takes a byte), and is safe on any input in which no element begins with a tag that
    runs to the end of the input ([tags_closed]); it inverts the writer; times, numbers, bits and object
    identifiers come back.

    [Sorting] - [g_list_sort]: the class, its laws (a stable sort), insertion sort.

    [Asn1Node], [Asn1Schema] - the trees of nodes of [egg-asn1x.c]: definitions, options,
    values, messages; a pointer to a node is a path.  What every operation keeps of a tree
    ([keeps]), and what a tree needs for the code not to run into nothing ([schema_ok]).

    [Asn1Create], [Asn1Tables], [Asn1CreateSpec] - [egg_asn1x_create] over the generated
    tables [pk.asn.h], [pkix.asn.h] and [test.asn.h].  The loop over a table builds the
    tree that the table spells ([build_tree_rows]), and the types that the program asks for
    can be made ([program_tables_create]).  Fuel: identifiers nested 20 deep.

    [Asn1Decode], [Asn1DecodeSpec], [Asn1ValidateSpec], [Asn1Safe] -
    [egg_asn1x_decode_full] and [egg_asn1x_validate].  Decoding ends with a verdict
    ([egg_asn1x_decode_full_safe]); what it accepts matches the definition element by
    element ([matched]) and is well typed ([well_typed], which validation decides); both
    relations are inductive.  Fuel: two calls for each level of the tree ([decode_fuel]).

    [Asn1Build], [Asn1Roundtrip] - [egg_asn1x_encode].  Encoding what was decoded gives the
    same bytes ([decode_encode_roundtrip]) for the trees that are [rebuilds], a bool that
    names what the encoder does not give back.  [Asn1Access] - the getters and setters.
    [Asn1Cases] - the theorems on trees of the program's tables, and concrete inputs for
    which the code does not do what it should.

    [Record] - [src/gcr/gcr-record.c].  GnuPG's colon-separated records, with escapes and
    typed columns.

    [Chain] - [src/gcr/gcr-certificate-chain.c].  The builder meets an abstract
    specification of certificate chains ([build_chain_sound]), and ends unless the issuers found
    go round in a circle ([build_chain_terminates]).  The calls of clients and threads are a
    transition system of tasks over the chain object, of this library's own making ([step]);
    building on a thread gives the same result.  The trust store is a function: it may say
    anything, but does not change during a build.

    [Attributes], [AttrStore], [AttrOps], [AttrObjects], [AttrContract], [AttrRead] -
    [src/gck/gck-attributes.c].  The functions, in the order of the source; the invariant
    of the counted values; what each function does to what a client sees; the contract
    [effect] and the refinement [attrs_refine]; typed values, equality and text.

    [SecurePool], [SecureMemory], [SecureBlock], [SecureGrow], [SecureHeap], [SecureSpec]
    - [src/egg/egg-secure-memory.c].  Memory byte by byte, the pool of records, rings and
    guards; the layout invariant of a block; the allocator as a whole; and its contract as
    a map from pointers to contents ([secure_refines]), with what clients may rely on
    ([secure_clients], [secure_bounds], [secure_free_clears]).  Fuel: the number of cells
    of a block for walks along rings, [secure_refines] shows that it suffices.
    [Armor], [ArmorSpec], [Base64] - [src/egg/egg-armor.c].  PEM text.  Reading is safe for
    the texts that are [plain] ([armor_parse_safe]; the byte behind a text that ends with dashes
    is read, [guarded]; the examples of [Base64] are texts for which it is not safe) and finds
    what was written ([armor_roundtrip]), but nothing if that is empty or, without headers, its
    last line of base64 is full.  GLib's base64 is a
    class; [Base64] has an instance.  Fuel: the length of the text, a turn takes at least
    the first line of an armor.

    [Enumerator], [EnumSpec], [EnumClient] - [src/gck/gck-enumerator.c].  The states of an
    enumeration and the functions that go on and back; three plain nested loops over
    modules, slots and objects and the proof that the states go through just these; and
    what a client gets for its calls ([enumerate_refines], [enumerate_all],
    [enumerator_safe]).  PKCS#11 modules are the class [Pkcs11].  Fuel: a run ends since
    each step takes a module or a slot or goes on within one ([smaller]), and a search
    ends when modules keep to [Pkcs11Laws]; the code relies on modules that tell what they are
    ([informs]), and what it does with others is part of [enumerator_safe].

    [OpenSsh], [OpenSshSpec], [OpenSshSafe], [OpenSshAttrs], [OpenSshCases] -
    [src/gcr/gcr-openssh.c].  Files of public keys: what is written is read
    ([openssh_reads_keys]); any file is read safely, bad lines are passed over
    ([openssh_parse_safe], with the exceptions as a bool on lines, [defined_line]); and the
    calls on the builder make the attributes they name ([builder_holds]).  Fuel: the length
    of the file, a turn takes a line.

    [Oid], [Dn], [DnSpec], [DnBuild], [DnCases] - [src/egg/egg-oid.c], [src/egg/egg-dn.c].
    Distinguished names over the node trees: the loops by index go over the pairs
    ([dn_reads_pairs]), a name that is built is read again ([dn_built_reads]), and the table
    of identifiers fits the definitions, but for five entries ([oid_table_types]).  Fuel: one
    more than the longest list of children ([width]).  [Asn1Strings] - string nodes and
    choices of them, built and decoded.

    [Crypto], [Dh] - [src/egg/egg-crypto-libgcrypt.c], [src/egg/egg-hkdf-libgcrypt.c],
    [src/egg/egg-dh.c], [src/egg/egg-dh-libgcrypt.c].  Libgcrypt is the class [Gcrypt], its
    handles are known by the laws of [GcryptLaws] and [CipherLaws].  Key derivation is that
    of RFC 5869 ([hkdf_is_rfc5869]; fuel 255 is the bound of the loop), key agreement works
    for every group of the table ([dh_agreement]; the fuel of the draws is how often a
    generator may give zero).

    [Exchange], [ExchangeSpec], [ExchangeSafe], [ExchangeCases] -
    [src/gcr/gcr-secret-exchange.c].  An exchange of secrets between two sides, each a
    record that its calls pass on; GLib's key files are the class [KeyFiles].  From end to
    end every secret sent is the one received ([secrets_arrive]), and no text that is
    received does harm ([exchange_safe]).  What a second beginning loses and what wrong
    padding leaves unwritten are lemmas of [ExchangeSafe]; [ExchangeCases] has a library and
    key files that keep the laws, and computes exchanges with them.


    [OpenPgp], [OpenPgpSpec], [OpenPgpSafe], [OpenPgpBlocks], [OpenPgpKeys],
    [OpenPgpRecords], [OpenPgpCases] - [src/gcr/gcr-openpgp.c].  Readers that move a pointer
    over the data, as a monad; the division of data in packets as a function of the bytes;
    a rule for sequences of readers ([yields]) by which every reader keeps to the data.  For
    data of any kind the blocks are those of the division and the records of the known schemas
    ([openpgp_parse_blocks]; what is
    excepted are [tame_packet]'s attributes and empty user ids), and a keyring of
    version 4 keys and user ids that is written is read as what it says, record by record ([openpgp_reads_keyring]).  Fuel: one
    more than the bytes, a packet or subpacket takes one at least.
    * How the parts use one another

    The writers of [Attributes] ask whether memory is secure, as [egg_secure_check] of
    [SecureMemory] would tell (the argument [checked]).  [Decimal], the digits and the
    weakest preconditions are shared.  [Asn1Value] reads the trees of [Asn1Tlv],
    and [Asn1Decode], [Asn1Build] and [Asn1Access] apply it to the values of nodes.
    [Enumerator] keeps what objects have in the entries of [Attributes].
    [OpenSsh] reads the keys of a line with [Buffer], [Decimal] and the base64 of [Armor],
    encodes curves and points with [Asn1Build], and fills a builder of [Attributes].
    [Dn] makes and reads values with [Asn1Create], [Asn1Build] and [Asn1Access].
    [Exchange] pads with [Padding], writes the base64 of [Armor], and derives its key with
    [Dh] and [Crypto].
    [OpenPgp] fills the columns of [Record], with the digits of [Hex] and the digests of
    [Crypto].
    [Chain] sees a certificate through the interface [Certificates], which names what the
    ASN.1 functions extract from its bytes.

    * Not modelled, and why

    Of the modelled files: in [egg-asn1x.c] the dump for debugging, reference counts and
    allocators of bytes, [g_convert] and the construction of a [GDateTime];
    warnings and traces, which have no effect; the lock around the secure allocator (every
    function runs under it, so that calls do not interleave); the ownership of strings in
    [gcr-record.c].

    Of the rest of the tree: files that wrap a library (the variants for GnuTLS,
    [egg-fips-*], [gck-uri.c], [gcr-parser-libgcrypt.c], [gcr-parser-gnutls.c]); GObject shells around PKCS#11 calls (most of [gck-module.c],
    [gck-slot.c], [gck-session.c], [gck-object.c], [gck-call.c]); D-Bus peers and prompts
    ([gcr-system-prompt.c], [gcr-system-prompter.c], [gcr-prompt.c]); processes
    ([gcr-gnupg-process.c], [gcr-ssh-agent-process.c], [gcr-ssh-askpass.c]); tests,
    tools, generated tables, translations and build files.
    What is left with logic of its own leans on what is not in the tree: [gcr-parser.c] tries
    formats and passwords around the decryption of a crypto library, with trees read as
    [Asn1Decode], [Asn1Access], [OpenSsh] and [Armor] do; the SSH agent passes messages in
    the buffers of [Buffer] between sockets, processes and threads. *)

From Stdlib Require Import Ascii String.
From Stdlib Require Export ZArith Lia.
From stdpp Require Export prelude gmap strings.

#[export] Set Default Goal Selector "!".
Local Open Scope Z_scope.

(** Linear arithmetic with division and remainder by constants. *)
Ltac lia_div := Z.div_mod_to_equations; lia.

(** Closes a decidable closed goal by evaluation. *)
Ltac decide_now := apply (bool_decide_unpack _); vm_compute; exact I.

(** * Results of C functions

    [Ok a]: the function returned normally with result [a].
    [Err e]: the function took one of its own error returns ([e] says which).
    [Ub]: the function read or wrote outside its buffer, evaluated an
    expression C leaves undefined, or failed one of its own assertions. *)
Inductive res (E A : Type) : Type :=
  | Ok (a : A)
  | Err (e : E)
  | Ub.
Arguments Ok {E A} a.
Arguments Err {E A} e.
Arguments Ub {E A}.

#[export] Instance res_ret E : MRet (res E) := fun A a => Ok a.
#[export] Instance res_bind E : MBind (res E) := fun A B f m =>
  match m with Ok a => f a | Err e => Err e | Ub => Ub end.
#[export] Instance res_fmap E : FMap (res E) := fun A B f m =>
  match m with Ok a => Ok (f a) | Err e => Err e | Ub => Ub end.

#[export] Instance res_eq_dec E A `{EqDecision E} `{EqDecision A} : EqDecision (res E A).
Proof. solve_decision. Defined.

Definition is_Ok {E A} (r : res E A) : Prop := exists a, r = Ok a.
Definition defined {E A} (r : res E A) : Prop := r <> Ub.

(** [or_ub o]: the value of a memory access that must succeed. *)
Definition or_ub {E A} (o : option A) : res E A :=
  match o with Some a => Ok a | None => Ub end.

(** [g_assert (b)]: the process is aborted when the condition is false. *)
Definition c_assert {E} (b : bool) : res E unit := if b then Ok tt else Ub.

(** An error return guarded by a condition: [if (b) return e]. *)
Definition fail_if {E} (b : bool) (e : E) : res E unit := if b then Err e else Ok tt.

Lemma bind_Ok E A B (m : res E A) (f : A -> res E B) b :
  m ≫= f = Ok b <-> exists a, m = Ok a /\ f a = Ok b.
Proof.
  destruct m; simpl; split; try (intros [? [? ?]]; discriminate);
    try discriminate; [eauto | intros [? [H ?]]; by inversion H].
Qed.

Lemma or_ub_Ok E A (o : option A) a : @or_ub E A o = Ok a <-> o = Some a.
Proof. destruct o; simpl; split; congruence. Qed.

Lemma c_assert_true E b : b = true -> @c_assert E b = Ok tt.
Proof. by intros ->. Qed.

Lemma c_assert_Ok E b u : @c_assert E b = Ok u <-> b = true.
Proof. destruct b, u; simpl; naive_solver. Qed.

(** One step of the monad: the head of a sequence is a value. *)
Ltac run := cbn [mbind res_bind or_ub fail_if].

(** * Machine integers *)

Definition u8 (z : Z) : Z := z mod 2 ^ 8.
Definition u16 (z : Z) : Z := z mod 2 ^ 16.
Definition u32 (z : Z) : Z := z mod 2 ^ 32.
Definition u64 (z : Z) : Z := z mod 2 ^ 64.
Definition G_MAXULONG : Z := 2 ^ 64 - 1.
(** Conversion of an unsigned 32-bit pattern to [gint]. *)
Definition s32 (z : Z) : Z := (z + 2 ^ 31) mod 2 ^ 32 - 2 ^ 31.

Definition is_byte (z : Z) : Prop := 0 <= z < 256.
Abbreviation bytes := (Forall is_byte).

#[export] Instance is_byte_dec z : Decision (is_byte z).
Proof. unfold is_byte. apply _. Defined.

Lemma u32_small z : 0 <= z < 2 ^ 32 -> u32 z = z.
Proof. apply Z.mod_small. Qed.
Lemma u64_small z : 0 <= z < 2 ^ 64 -> u64 z = z.
Proof. apply Z.mod_small. Qed.
Lemma u8_small z : 0 <= z < 256 -> u8 z = z.
Proof. apply Z.mod_small. Qed.
Lemma u16_small z : 0 <= z < 2 ^ 16 -> u16 z = z.
Proof. apply Z.mod_small. Qed.
Lemma u32_range z : 0 <= u32 z < 2 ^ 32.
Proof. apply Z.mod_pos_bound. lia. Qed.
Lemma u8_range z : is_byte (u8 z).
Proof. unfold is_byte, u8. change 256 with (2 ^ 8). apply Z.mod_pos_bound. lia. Qed.
Lemma s32_small z : - 2 ^ 31 <= z < 2 ^ 31 -> s32 z = z.
Proof. intros H. unfold s32. rewrite Z.mod_small; lia. Qed.

(** Masks are remainders. *)
Lemma land_255 z : Z.land z 255 = z mod 256.
Proof. change 255 with (Z.ones 8). by rewrite Z.land_ones. Qed.
Lemma land_127 z : Z.land z 127 = z mod 128.
Proof. change 127 with (Z.ones 7). by rewrite Z.land_ones. Qed.
Lemma land_31 z : Z.land z 31 = z mod 32.
Proof. change 31 with (Z.ones 5). by rewrite Z.land_ones. Qed.
Lemma land_15 z : Z.land z 15 = z mod 16.
Proof. change 15 with (Z.ones 4). by rewrite Z.land_ones. Qed.

(** Disjoint [or] is addition. *)
Lemma lor_shift_add a b n : 0 <= n -> 0 <= b < 2 ^ n ->
  Z.lor (Z.shiftl a n) b = a * 2 ^ n + b.
Proof.
  intros Hn Hb. pose proof (Z.add_lor_land (Z.shiftl a n) b) as HA.
  assert (HL : Z.land (Z.shiftl a n) b = 0).
  { apply Z.bits_inj'. intros i Hi. rewrite Z.land_spec, Z.bits_0.
    destruct (Z.lt_ge_cases i n).
    - rewrite Z.shiftl_spec_low by lia. done.
    - destruct (decide (b = 0)) as [->|]; [by rewrite Z.bits_0, andb_false_r|].
      rewrite (Z.bits_above_log2 b i), andb_false_r; [done|lia|].
      assert (Z.log2 b < n) by (apply Z.log2_lt_pow2; lia). lia. }
  rewrite HL, Z.shiftl_mul_pow2 in HA by lia. rewrite Z.shiftl_mul_pow2 by lia. lia.
Qed.

(** The same with the low part written first, as in [byte |= bit << at]. *)
Lemma lor_add_shift a b n : 0 <= n -> 0 <= b < 2 ^ n ->
  Z.lor b (Z.shiftl a n) = b + a * 2 ^ n.
Proof. intros. rewrite Z.lor_comm, lor_shift_add by lia. lia. Qed.

(** * Byte buffers and C strings *)

Abbreviation Zlen l := (Z.of_nat (length l)) (only parsing).

(** Read the byte at a (signed) offset; [None] is an out-of-bounds read. *)
Definition rd (b : list Z) (i : Z) : option Z :=
  if 0 <=? i then b !! Z.to_nat i else None.

(** Overwrite [length v] bytes at [off]; [None] when they do not fit. *)
Definition wr (b : list Z) (off : Z) (v : list Z) : option (list Z) :=
  if (0 <=? off) && (off + Zlen v <=? Zlen b)
  then Some (take (Z.to_nat off) b ++ v ++ drop (Z.to_nat off + length v) b)
  else None.

(** [n] bytes from offset [off]; [None] when they are not all in the buffer. *)
Definition slice (b : list Z) (off n : Z) : option (list Z) :=
  if (0 <=? off) && (0 <=? n) && (off + n <=? Zlen b)
  then Some (take (Z.to_nat n) (drop (Z.to_nat off) b))
  else None.

(** [memchr]/[strchr]: index of the first [c]. *)
Fixpoint index_of (c : Z) (l : list Z) : option nat :=
  match l with
  | [] => None
  | x :: l' => if x =? c then Some 0%nat else S <$> index_of c l'
  end.

(** The C string held by a buffer: the bytes before the first NUL. *)
Fixpoint c_str (l : list Z) : list Z :=
  match l with
  | [] => []
  | x :: l' => if x =? 0 then [] else x :: c_str l'
  end.

(** Bytes of a string literal. *)
Fixpoint lit (s : String.string) : list Z :=
  match s with
  | String.EmptyString => []
  | String.String a s' => Z.of_nat (Ascii.nat_of_ascii a) :: lit s'
  end.

Lemma rd_lookup b i x : rd b i = Some x <-> 0 <= i /\ b !! Z.to_nat i = Some x.
Proof. unfold rd. destruct (Z.leb_spec 0 i); split; naive_solver lia. Qed.

Lemma rd_Some_iff b i : is_Some (rd b i) <-> 0 <= i < Zlen b.
Proof.
  unfold rd. destruct (Z.leb_spec 0 i) as [Hi|Hi].
  - rewrite lookup_lt_is_Some. lia.
  - split; [by intros [? ?]|lia].
Qed.

Lemma rd_ge b i : Zlen b <= i -> rd b i = None.
Proof.
  intros H. destruct (rd b i) eqn:E; [|done].
  assert (is_Some (rd b i)) as Hs%rd_Some_iff by eauto. lia.
Qed.

Lemma rd_bytes b i x : bytes b -> rd b i = Some x -> is_byte x.
Proof. intros Hb [_ H]%rd_lookup. by eapply Forall_lookup_1. Qed.

Lemma rd_app_l b1 b2 i : i < Zlen b1 -> rd (b1 ++ b2) i = rd b1 i.
Proof. intros H. unfold rd. destruct (Z.leb_spec 0 i); [|done]. rewrite lookup_app_l; [done|lia]. Qed.

Lemma rd_app_r b1 b2 i : Zlen b1 <= i -> rd (b1 ++ b2) i = rd b2 (i - Zlen b1).
Proof.
  intros H. unfold rd. destruct (Z.leb_spec 0 i), (Z.leb_spec 0 (i - Zlen b1)); try lia.
  rewrite lookup_app_r by lia. f_equal. lia.
Qed.

Lemma rd_middle b1 x b2 : rd (b1 ++ x :: b2) (Zlen b1) = Some x.
Proof.
  unfold rd. destruct (Z.leb_spec 0 (Zlen b1)); [|lia].
  by rewrite Nat2Z.id, list_lookup_middle.
Qed.

Lemma wr_length b off v b' : wr b off v = Some b' -> length b' = length b.
Proof.
  unfold wr. case_match eqn:E; [|done]. intros [= <-].
  apply andb_true_iff in E as [?%Z.leb_le ?%Z.leb_le].
  rewrite !length_app, length_take, length_drop. lia.
Qed.

Lemma slice_length b off n v : slice b off n = Some v -> Zlen v = n.
Proof.
  unfold slice. case_match eqn:E; [|done]. intros [= <-].
  apply andb_true_iff in E as [[?%Z.leb_le ?%Z.leb_le]%andb_true_iff ?%Z.leb_le].
  rewrite length_take, length_drop. lia.
Qed.

Lemma slice_app b1 v b2 : slice (b1 ++ v ++ b2) (Zlen b1) (Zlen v) = Some v.
Proof.
  unfold slice. rewrite !length_app.
  destruct (Z.leb_spec 0 (Zlen b1)), (Z.leb_spec 0 (Zlen v)),
    (Z.leb_spec (Zlen b1 + Zlen v) (Z.of_nat (length b1 + (length v + length b2)))); try lia.
  simpl. f_equal. rewrite !Nat2Z.id, drop_app_length, take_app_length. done.
Qed.

Lemma slice_pre b b1 v b2 : b = b1 ++ v ++ b2 -> slice b (Zlen b1) (Zlen v) = Some v.
Proof. intros ->. apply slice_app. Qed.

Lemma slice_all b : slice b 0 (Zlen b) = Some b.
Proof. pose proof (slice_app [] b []) as H. by rewrite app_nil_r in H. Qed.

Lemma wr_app b1 old b2 v : length old = length v ->
  wr (b1 ++ old ++ b2) (Zlen b1) v = Some (b1 ++ v ++ b2).
Proof.
  intros Hl. unfold wr. rewrite !length_app.
  destruct (Z.leb_spec 0 (Zlen b1)),
    (Z.leb_spec (Zlen b1 + Zlen v) (Z.of_nat (length b1 + (length old + length b2)))); try lia.
  simpl. f_equal. rewrite Nat2Z.id, take_app_length. f_equal. f_equal.
  rewrite drop_app_add, <- Hl. by rewrite drop_app_length.
Qed.

Lemma index_of_Some c l i : index_of c l = Some i <-> l !! i = Some c /\ c ∉ take i l.
Proof.
  revert i; induction l as [|x l IH]; intros i; simpl.
  - rewrite lookup_nil. naive_solver.
  - destruct (Z.eqb_spec x c) as [->|Hne].
    + split; [intros [= <-]; split; [done|set_solver]|].
      destruct i; simpl; [done|]. set_solver.
    + destruct i as [|i]; simpl.
      * split; [by destruct (index_of c l)|]. intros [[= ?] _]. done.
      * transitivity (index_of c l = Some i).
        { destruct (index_of c l); simpl; naive_solver. }
        rewrite IH. set_solver.
Qed.

Lemma index_of_None c l : index_of c l = None <-> c ∉ l.
Proof.
  induction l as [|x l IH]; simpl; [set_solver|].
  destruct (Z.eqb_spec x c) as [->|Hne]; [set_solver|].
  rewrite fmap_None, IH. set_solver.
Qed.

Lemma c_str_app_nul s t : 0 ∉ s -> c_str (s ++ 0 :: t) = s.
Proof.
  induction s as [|x s IH]; intros Hn; simpl; [done|].
  destruct (Z.eqb_spec x 0) as [->|]; [set_solver|]. rewrite IH; set_solver.
Qed.

Lemma c_str_id s : 0 ∉ s -> c_str s = s.
Proof.
  induction s as [|x s IH]; intros Hn; simpl; [done|].
  destruct (Z.eqb_spec x 0) as [->|]; [set_solver|]. rewrite IH; set_solver.
Qed.

Lemma c_str_no_nul s : 0 ∉ c_str s.
Proof.
  induction s as [|x s IH]; simpl; [set_solver|].
  destruct (Z.eqb_spec x 0); set_solver.
Qed.

Lemma split_old {A} (old a b : list A) : length old = length (a ++ b) ->
  exists o1 o2, old = o1 ++ o2 /\ length o1 = length a /\ length o2 = length b.
Proof.
  rewrite length_app. intros H. exists (take (length a) old), (drop (length a) old).
  rewrite take_drop, length_take, length_drop. split_and!; [done|lia|lia].
Qed.

(** Lengths of lists, as rewriting rules for arithmetic. *)
Create Rewrite HintDb zlen.
#[export] Hint Rewrite @length_app @length_fmap @length_take @length_drop @length_replicate
  @length_rev @length_cons @length_nil Nat2Z.inj_add : zlen.
Ltac zlen := autorewrite with zlen in *; lia.

(** An assertion on lengths and offsets that holds by arithmetic. *)
Ltac c_cond := first [apply Z.leb_le | apply Z.ltb_lt | apply Z.eqb_eq]; first [lia | zlen].
Ltac assert_ok := rewrite c_assert_true by c_cond; run.

(** Decides the comparisons of the goal that arithmetic settles. *)
Ltac zbool :=
  repeat match goal with
  | |- context [?a <=? ?b] =>
      first [rewrite (proj2 (Z.leb_le a b)) by lia | rewrite (proj2 (Z.leb_gt a b)) by lia]
  | |- context [?a <? ?b] =>
      first [rewrite (proj2 (Z.ltb_lt a b)) by lia | rewrite (proj2 (Z.ltb_ge a b)) by lia]
  | |- context [?a =? ?b] =>
      first [rewrite (proj2 (Z.eqb_eq a b)) by lia | rewrite (proj2 (Z.eqb_neq a b)) by lia]
  end; cbn [andb orb negb].

(** A boolean property of the numbers of a range, checked on each of them. *)
Lemma range_check (P : Z -> bool) lo n : forallb P (seqZ lo n) = true ->
  forall z, lo <= z < lo + n -> P z = true.
Proof. rewrite forallb_forall. intros H z Hz. apply H, list_elem_of_In, elem_of_seqZ. lia. Qed.

(** * Big-endian numbers *)

Fixpoint be_acc (a : Z) (l : list Z) : Z :=
  match l with [] => a | x :: l' => be_acc (a * 256 + x) l' end.
Definition be_val (l : list Z) : Z := be_acc 0 l.

Fixpoint be_bytes (n : nat) (v : Z) : list Z :=
  match n with O => [] | S n' => be_bytes n' (v / 256) ++ [v mod 256] end.

Lemma be_acc_eq a l : be_acc a l = a * 256 ^ Zlen l + be_val l.
Proof.
  unfold be_val. revert a; induction l as [|x l IH]; intros a; simpl be_acc.
  - simpl. lia.
  - rewrite IH, (IH (0 * 256 + x)). simpl length. rewrite Nat2Z.inj_succ, Z.pow_succ_r by lia. lia.
Qed.

Lemma be_val_nil : be_val [] = 0.
Proof. done. Qed.
Lemma be_val_cons x l : be_val (x :: l) = x * 256 ^ Zlen l + be_val l.
Proof. unfold be_val at 1. simpl. by rewrite be_acc_eq. Qed.
Lemma be_val_app l k : be_val (l ++ k) = be_val l * 256 ^ Zlen k + be_val k.
Proof.
  induction l as [|x l IH]; simpl; [done|].
  rewrite !be_val_cons, IH, length_app, Nat2Z.inj_add, Z.pow_add_r by lia. lia.
Qed.
Lemma be_val_snoc l x : be_val (l ++ [x]) = be_val l * 256 + x.
Proof. rewrite be_val_app, be_val_cons. simpl. rewrite be_val_nil. lia. Qed.

Lemma be_val_bound l : bytes l -> 0 <= be_val l < 256 ^ Zlen l.
Proof.
  induction 1 as [|x l Hx Hl IH]; [done|].
  rewrite be_val_cons. simpl length. rewrite Nat2Z.inj_succ, Z.pow_succ_r by lia.
  unfold is_byte in Hx. nia.
Qed.

Lemma be_val_zeros n l : be_val (replicate n 0 ++ l) = be_val l.
Proof. induction n; [done|]. simpl. by rewrite be_val_cons, IHn. Qed.

Lemma be_bytes_length n v : length (be_bytes n v) = n.
Proof. revert v; induction n; intros; simpl; [done|]. rewrite length_app, IHn. simpl. lia. Qed.

Lemma be_bytes_bytes n v : bytes (be_bytes n v).
Proof.
  revert v; induction n; intros; simpl; [constructor|].
  apply Forall_app. split; [done|]. constructor; [|done].
  unfold is_byte. apply Z.mod_pos_bound. lia.
Qed.

Lemma be_val_bytes n v : be_val (be_bytes n v) = v mod 256 ^ Z.of_nat n.
Proof.
  revert v; induction n as [|n IH]; intros v; simpl be_bytes.
  - simpl. by rewrite Z.mod_1_r.
  - rewrite be_val_snoc, IH, Nat2Z.inj_succ, Z.pow_succ_r, Z.rem_mul_r by lia. lia.
Qed.

Lemma be_bytes_val l : bytes l -> be_bytes (length l) (be_val l) = l.
Proof.
  induction l as [|x l IH] using rev_ind; intros Hb; [done|].
  apply Forall_app in Hb as [Hl Hx]. inversion_clear Hx as [|?? Hx' _].
  rewrite length_app, Nat.add_1_r. simpl. rewrite be_val_snoc. unfold is_byte in Hx'.
  rewrite Z.div_add_l, Z.div_small, Z.add_0_r, IH by (done || lia).
  f_equal. f_equal. rewrite Z.add_comm, Z.mod_add, Z.mod_small; lia.
Qed.

Lemma be_val_inj l k : bytes l -> bytes k -> length l = length k ->
  be_val l = be_val k -> l = k.
Proof.
  intros Hl Hk Hlen Hv. rewrite <- (be_bytes_val l), <- (be_bytes_val k) by done. congruence.
Qed.

(** * Little-endian numbers *)

Fixpoint le_bytes (n : nat) (v : Z) : list Z :=
  match n with O => [] | S n => v mod 256 :: le_bytes n (v / 256) end.

Fixpoint le_val (l : list Z) : Z :=
  match l with [] => 0 | b :: l => b + 256 * le_val l end.

Lemma le_bytes_length n v : length (le_bytes n v) = n.
Proof. revert v. induction n; intros v; cbn; auto. Qed.

Lemma le_val_bytes n v : le_val (le_bytes n v) = v mod 256 ^ Z.of_nat n.
Proof.
  revert v. induction n as [|n IH]; intros v; [by rewrite Z.mod_1_r|].
  cbn [le_bytes le_val]. rewrite IH, Nat2Z.inj_succ, Z.pow_succ_r by lia.
  rewrite Z.rem_mul_r by lia. lia.
Qed.

(** The number whose digits are [ds], most significant first, after [a]. *)
Fixpoint ms_val (b a : Z) (ds : list Z) : Z :=
  match ds with [] => a | d :: ds => ms_val b (a * b + d) ds end.

Lemma ms_val_snoc b a ds d : ms_val b a (ds ++ [d]) = ms_val b a ds * b + d.
Proof. revert a; induction ds; intros; simpl; [done|]. by rewrite IHds. Qed.

Lemma ms_val_ge b a ds : 1 <= b -> 0 <= a -> Forall (fun d => 0 <= d) ds -> a <= ms_val b a ds.
Proof.
  intros Hb Ha Hds. revert a Ha; induction Hds as [|d ds Hd Hds IH]; intros a Ha; simpl; [lia|].
  specialize (IH (a * b + d)). nia.
Qed.

Lemma ms_val_bounds b a ds : 1 <= b -> 0 <= a -> Forall (fun d => 0 <= d < b) ds ->
  a * b ^ Zlen ds <= ms_val b a ds < (a + 1) * b ^ Zlen ds.
Proof.
  intros Hb Ha Hds. revert a Ha; induction Hds as [|d ds Hd Hds IH]; intros a Ha; cbn [ms_val length].
  { simpl. lia. }
  rewrite Nat2Z.inj_succ, Z.pow_succ_r by lia. specialize (IH (a * b + d) ltac:(nia)).
  assert (0 < b ^ Zlen ds) by (apply Z.pow_pos_nonneg; lia). nia.
Qed.

(** * Decimal text *)

Definition is_digit (c : Z) : bool := (48 <=? c) && (c <=? 57).

Definition digits (ds : list Z) : list Z := (fun d => 48 + d) <$> ds.

Lemma is_digit_48 d : 0 <= d < 10 -> is_digit (48 + d) = true.
Proof. intros Hd. unfold is_digit. destruct (Z.leb_spec 48 (48 + d)), (Z.leb_spec (48 + d) 57); lia. Qed.

(** [printf] of a [guint]; each round prints one digit. *)
Fixpoint utoa (fuel : nat) (n : Z) (acc : list Z) : list Z :=
  match fuel with
  | O => acc
  | S fuel => if n <? 10 then (48 + n) :: acc else utoa fuel (n / 10) ((48 + n mod 10) :: acc)
  end.

Definition print_u (n : Z) : list Z := utoa 10 n [].

(** [printf] of a [gulong]. *)
Definition print_lu (n : Z) : list Z := utoa 20 n [].

(** The digits [%u] prints. *)
Lemma utoa_digits fuel : forall n acc, 0 <= n < 10 ^ Z.of_nat fuel -> (1 <= fuel)%nat ->
  exists ds, utoa fuel n acc = digits ds ++ acc /\ Forall (fun d => 0 <= d < 10) ds /\
    ms_val 10 0 ds = n /\ (1 <= length ds <= fuel)%nat.
Proof.
  induction fuel as [|fuel IH]; intros n acc Hn Hf; [lia|]. cbn [utoa].
  rewrite Nat2Z.inj_succ, Z.pow_succ_r in Hn by lia.
  destruct (Z.ltb_spec n 10).
  - exists [n]. split_and!; [done|repeat constructor; lia|simpl; lia|simpl; lia|simpl; lia].
  - assert (1 <= fuel)%nat by (destruct fuel; [simpl in Hn; lia|lia]).
    destruct (IH (n / 10) ((48 + n mod 10) :: acc)) as (ds & -> & Hr & Hv & Hl); [lia_div|done|].
    exists (ds ++ [n mod 10]). unfold digits. rewrite fmap_app, <- app_assoc. split_and!.
    + done.
    + apply Forall_app. split; [done|]. repeat constructor; lia_div.
    + rewrite ms_val_snoc, Hv. lia_div.
    + rewrite length_app. simpl. lia.
    + rewrite length_app. simpl. lia.
Qed.

Lemma utoa_fuel fuel : forall n acc, (1 <= fuel)%nat -> 0 <= n < 10 ^ Z.of_nat fuel ->
  utoa (S fuel) n acc = utoa fuel n acc.
Proof.
  induction fuel as [|fuel IH]; intros n acc Hf Hn; [lia|].
  rewrite Nat2Z.inj_succ, Z.pow_succ_r in Hn by lia. cbn [utoa]. destruct (Z.ltb_spec n 10); [done|].
  assert (1 <= fuel)%nat by (destruct fuel; [simpl in Hn; lia|lia]). apply (IH (n / 10)); [done|lia_div].
Qed.

Lemma print_u_digits n : 0 <= n < 10 ^ 9 ->
  exists ds, print_u n = digits ds /\ Forall (fun d => 0 <= d < 10) ds /\ ms_val 10 0 ds = n /\
    (1 <= length ds <= 9)%nat.
Proof.
  intros Hn. unfold print_u. rewrite utoa_fuel by (lia || exact Hn).
  destruct (utoa_digits 9 n [] Hn ltac:(lia)) as (ds & -> & H). exists ds. by rewrite app_nil_r.
Qed.
