(* ===== verification/Text.v ===== *)
(** Text: what the C library's and GLib's string functions compute, on bytes, and the
    lemmas that splitting, searching and stripping need. *)

From S2P Require Import Prelude.
Local Open Scope Z_scope.

(** * Spaces *)

(** [isspace] in the C locale, and [g_ascii_isspace], which leaves out the vertical tab. *)
Definition is_space (c : Z) : bool := (c =? 32) || ((9 <=? c) && (c <=? 13)).
Definition ascii_space (c : Z) : bool := (c =? 32) || (c =? 9) || (c =? 10) || (c =? 12) || (c =? 13).

(** [g_strchug], [g_strchomp], [g_strstrip]. *)
Fixpoint chug (s : list Z) : list Z :=
  match s with c :: t => if ascii_space c then chug t else s | [] => [] end.
Definition chomp (s : list Z) : list Z := reverse (chug (reverse s)).
Definition strip (s : list Z) : list Z := chomp (chug s).

(** * Splitting *)

(** Reference: the pieces between delimiters. *)
Fixpoint split_on (d : Z) (l : list Z) : list (list Z) :=
  match l with
  | [] => [[]]
  | c :: l =>
    if c =? d then [] :: split_on d l
    else match split_on d l with p :: ps => (c :: p) :: ps | [] => [] end
  end.

Lemma split_on_nonempty d l : exists p ps, split_on d l = p :: ps.
Proof.
  induction l as [|c l (p & ps & IH)]; cbn [split_on]; [by eexists _, _|].
  case_match; [by eexists _, _|]. rewrite IH. by eexists _, _.
Qed.

Lemma split_on_index d l : split_on d l =
  match index_of d l with Some i => take i l :: split_on d (drop (S i) l) | None => [l] end.
Proof.
  induction l as [|c l IH]; cbn [split_on index_of]; [done|]. destruct (Z.eqb_spec c d); [done|].
  rewrite IH. by destruct (index_of d l).
Qed.

Lemma split_on_lines d ls : Forall (fun l => d ∉ l) ls ->
  split_on d (concat ((fun l => l ++ [d]) <$> ls)) = ls ++ [[]].
Proof.
  induction 1 as [|l ls Hl Hls IH]; [done|]. cbn [fmap list_fmap concat]. rewrite <- app_assoc. cbn [app].
  rewrite split_on_index.
  assert (index_of d (l ++ d :: concat ((fun l => l ++ [d]) <$> ls)) = Some (length l)) as ->.
  { apply index_of_Some. rewrite list_lookup_middle, take_app_length by done. done. }
  rewrite take_app_length, <- Nat.add_1_r, drop_app_add. cbn [skipn app]. by rewrite skipn_O, IH.
Qed.

(** [g_strsplit] with one character and no limit: no string has no pieces. *)
Definition g_strsplit (d : Z) (s : list Z) : list (list Z) := match s with [] => [] | _ => split_on d s end.

(** * C strings *)

Lemma c_str_prefix s : c_str s `prefix_of` s.
Proof. induction s as [|x s IH]; cbn [c_str]; [done|]. destruct (x =? 0); [apply prefix_nil|by apply prefix_cons]. Qed.

Lemma c_str_length s : (length (c_str s) <= length s)%nat.
Proof. apply prefix_length, c_str_prefix. Qed.

Lemma c_str_lookup s i x : c_str s !! i = Some x -> s !! i = Some x.
Proof. intros Hi. eapply prefix_lookup_Some; [exact Hi|apply c_str_prefix]. Qed.

(** * Searching *)

(** [g_strstr_len]: the first place of [needle] before the end and before a NUL. *)
Fixpoint strstr (needle h : list Z) : option nat :=
  if bool_decide (needle `prefix_of` h) then Some 0%nat
  else match h with
       | [] => None
       | c :: h => if c =? 0 then None else S <$> strstr needle h
       end.

(** The last place of a character. *)
Fixpoint last_index (c : Z) (l : list Z) : option nat :=
  match l with
  | [] => None
  | x :: l => match last_index c l with Some i => Some (S i) | None => if x =? c then Some 0%nat else None end
  end.

Lemma strstr_Some needle h i : strstr needle h = Some i ->
  needle `prefix_of` drop i h /\ (i + length needle <= length h)%nat /\ 0 ∉ take i h.
Proof.
  revert i. induction h as [|c h IH]; intros i; cbn [strstr]; case_bool_decide as Hp.
  - intros [= <-]. split_and!; [done|by apply prefix_length in Hp|apply not_elem_of_nil].
  - done.
  - intros [= <-]. split_and!; [done|by apply prefix_length in Hp|apply not_elem_of_nil].
  - destruct (Z.eqb_spec c 0); [done|]. destruct (strstr needle h) as [j|]; [|done]. intros [= <-].
    destruct (IH j eq_refl) as (H1 & H2 & H3). cbn [drop take length]. split_and!; [done|lia|]. by apply not_elem_of_cons.
Qed.

(** Nothing is found before the place. *)
Lemma strstr_first needle h i j : strstr needle h = Some i -> needle `prefix_of` drop j h -> (i <= j)%nat.
Proof.
  revert i j. induction h as [|c h IH]; intros i j; cbn [strstr]; case_bool_decide as Hp; try (intros [= <-]; lia).
  destruct (Z.eqb_spec c 0); [done|]. destruct (strstr needle h) as [k|]; [|done]. intros [= <-] Hj.
  destruct j as [|j]; [done|]. cbn [drop] in Hj. specialize (IH k j eq_refl Hj). lia.
Qed.

Lemma strstr_here needle h : needle `prefix_of` h -> strstr needle h = Some 0%nat.
Proof. intros Hp. destruct h; cbn [strstr]; by rewrite bool_decide_eq_true_2. Qed.

(** A prefix that has to stop at a character it does not have. *)
Lemma prefix_sep (needle x y : list Z) c : c ∉ needle -> needle `prefix_of` x ++ c :: y -> needle `prefix_of` x.
Proof.
  intros Hc [z Hz]. destruct (app_eq_inv _ _ _ _ Hz) as [(k & -> & E)|(k & -> & E)]; [by exists k|].
  destruct k as [|d k]; [exists []; by rewrite !app_nil_r|]. injection E as <- _. set_solver.
Qed.

(** A search is stopped by a character that [needle] does not have. *)
Lemma strstr_sep needle x y c : needle <> [] -> c ∉ needle -> 0 ∉ x -> c <> 0 -> strstr needle x = None ->
  strstr needle (x ++ c :: y) = (fun i => length x + S i)%nat <$> strstr needle y.
Proof.
  intros Hne Hc Hx Hc0. assert (forall z, needle `prefix_of` z ++ c :: y -> needle `prefix_of` z) as Hsep by (intros z; by apply prefix_sep).
  induction x as [|d x IH]; intros Hn.
  - cbn [app strstr]. rewrite bool_decide_eq_false_2.
    + rewrite (proj2 (Z.eqb_neq _ _) Hc0). by destruct (strstr needle y).
    + intros Hp. apply (Hsep []) in Hp. by apply prefix_nil_inv in Hp.
  - cbn [app strstr] in Hn |- *. apply not_elem_of_cons in Hx as [Hd Hx]. case_bool_decide as Hp; [done|].
    rewrite bool_decide_eq_false_2 by (intros Hq; apply Hp; by apply (Hsep (d :: x))).
    destruct (Z.eqb_spec d 0); [done|]. destruct (strstr needle x) eqn:E; [done|]. rewrite IH by done. by destruct (strstr needle y).
Qed.

Lemma strstr_sep_None needle x y c : needle <> [] -> c ∉ needle -> 0 ∉ x -> c <> 0 -> strstr needle x = None ->
  strstr needle y = None -> strstr needle (x ++ c :: y) = None.
Proof. intros H1 H2 H3 H4 H5 H6. by rewrite strstr_sep, H6 by done. Qed.

(** What does not have the first character does not have [needle]. *)
Lemma strstr_absent c needle h : c ∉ h -> strstr (c :: needle) h = None.
Proof.
  induction h as [|d h IH]; intros Hc; cbn [strstr]; (rewrite bool_decide_eq_false_2; [|intros [k Hk]; set_solver]); [done|].
  apply not_elem_of_cons in Hc as [_ Hc]. rewrite (IH Hc). by destruct (d =? 0).
Qed.

(** ... and it can be skipped. *)
Lemma strstr_skip c needle x y : c ∉ x -> 0 ∉ x -> strstr (c :: needle) (x ++ y) = (fun i => length x + i)%nat <$> strstr (c :: needle) y.
Proof.
  induction x as [|d x IH]; intros Hc H0; cbn [app]; [by destruct (strstr _ y)|].
  apply not_elem_of_cons in Hc as [Hd Hc]. apply not_elem_of_cons in H0 as [H0d H0]. cbn [strstr].
  rewrite bool_decide_eq_false_2 by (intros [k [= ? ?]]; done). rewrite (proj2 (Z.eqb_neq _ _)) by done. rewrite IH by done.
  by destruct (strstr (c :: needle) y).
Qed.

Lemma last_index_None c l : last_index c l = None <-> c ∉ l.
Proof.
  induction l as [|x l IH]; cbn [last_index]; [by split; [intros _; apply not_elem_of_nil|]|]. rewrite not_elem_of_cons, <- IH.
  destruct (last_index c l); [naive_solver|]. destruct (Z.eqb_spec x c); naive_solver.
Qed.

Lemma last_index_Some c l i : last_index c l = Some i -> l !! i = Some c /\ c ∉ drop (S i) l.
Proof.
  revert i. induction l as [|x l IH]; intros i; cbn [last_index]; [done|]. destruct (last_index c l) as [k|] eqn:E.
  - intros [= <-]. by apply IH.
  - apply last_index_None in E. destruct (Z.eqb_spec x c) as [->|]; [|done]. by intros [= <-].
Qed.

(** * Numbers *)

Fixpoint skip_spaces (s : list Z) : list Z :=
  match s with c :: t => if is_space c then skip_spaces t else s | [] => [] end.

(** The digits at the front, and what is behind them. *)
Fixpoint strtol_digits (v : Z) (s : list Z) : Z * list Z :=
  match s with
  | c :: t => if is_digit c then strtol_digits (v * 10 + (c - 48)) t else (v, s)
  | [] => (v, [])
  end.

(** [strtoul (s, &end, 10)]: the value and the text at [end].  Without digits [end] is
    [s]; a value that does not fit is the largest one, and a sign negates in the type. *)
Definition strtoul (s : list Z) : Z * list Z :=
  let t := skip_spaces s in
  let '(neg, t) := match t with c :: u => if c =? 45 then (true, u) else if c =? 43 then (false, u) else (false, t) | [] => (false, t) end in
  match t with
  | c :: _ =>
    if is_digit c then
      let '(v, rest) := strtol_digits 0 t in
      (if 2 ^ 64 <=? v then 2 ^ 64 - 1 else if neg : bool then u64 (- v) else v, rest)
    else (0, s)
  | [] => (0, s)
  end.

(** [g_ascii_isalpha]. *)
Definition is_alpha (c : Z) : bool := ((65 <=? c) && (c <=? 90)) || ((97 <=? c) && (c <=? 122)).
