(* ===== verification/Hex.v ===== *)
(** Hexadecimal text: [src/egg/egg-hex.c].

    [egg_hex_decode_full] is the two nested loops of the code over the text
    still to be read; [egg_hex_encode_full] is its single loop.  The outer
    decoding loop runs with fuel [length text]: each iteration consumes at
    least one character ([hex_loop_total]), so the fuel never runs out. *)

From S2P Require Import Prelude.
Local Open Scope Z_scope.

Definition HEXC_UPPER : list Z := lit "0123456789ABCDEF".
Definition HEXC_LOWER : list Z := lit "0123456789abcdef".

(** [g_ascii_toupper], of GLib's documented behaviour. *)
Definition g_ascii_toupper (c : Z) : Z := if (97 <=? c) && (c <=? 122) then c - 32 else c.

(** [strchr (s, c)]: the terminating NUL of [s] is part of the string. *)
Definition strchr (s : list Z) (c : Z) : option nat := index_of c (s ++ [0]).

(** One digit: [pos = strchr (HEXC_UPPER, g_ascii_toupper (c))], then
    [j = pos - HEXC_UPPER; j & 0xf]. *)
Definition hex_digit (c : Z) : option Z :=
  (fun pos => Z.land (Z.of_nat pos) 15) <$> strchr HEXC_UPPER (g_ascii_toupper c).

(** The inner loop: reads up to [group] bytes of two digits each.  Returns
    the text left, the final [state] and the bytes decoded so far. *)
Fixpoint hex_group (group part state cur : Z) (acc data : list Z) : list Z * Z * list Z :=
  match data with
  | [] => ([], state, acc)
  | c :: rest =>
    if part <? group then
      match hex_digit c with
      | None => (data, -1, acc)
      | Some j =>
        if state =? 0 then hex_group group part 1 (Z.shiftl j 4) acc rest
        else hex_group group (part + 1) 0 0 (acc ++ [Z.lor cur j]) rest
      end
    else (data, state, acc)
  end.

(** The delimiter expected before every group but the first: the text after
    it, or [None] when it is not there. *)
Definition hex_delim (delim : option (list Z)) (acc data : list Z) : option (list Z) :=
  match delim with
  | Some d =>
    if bool_decide (acc <> []) then
      if (Zlen data <? Zlen d) || negb (bool_decide (take (length d) data = d))
      then None else Some (drop (length d) data)
    else Some data
  | None => Some data
  end.

Fixpoint hex_loop (fuel : nat) (delim : option (list Z)) (group : Z) (acc data : list Z)
    : res unit (list Z) :=
  match data with
  | [] => Ok acc
  | _ =>
    match fuel with
    | O => Ub
    | S fuel' =>
      match hex_delim delim acc data with
      | None => Err tt
      | Some data1 =>
        let '(data2, state, acc') := hex_group group 0 0 0 acc data1 in
        if state =? 0 then hex_loop fuel' delim group acc' data2 else Err tt
      end
    end
  end.

(** [n_data = -1] means a NUL-terminated string; otherwise the buffer holds
    (at least) [n_data] characters. *)
Definition hex_input (data : list Z) (n_data : Z) : res unit (list Z) :=
  if n_data =? -1 then Ok (c_str data) else or_ub (slice data 0 n_data).

Definition egg_hex_decode_full (data : list Z) (n_data : Z) (delim : option (list Z))
    (group : Z) : res unit (list Z) :=
  if group <? 1 then Err tt else
  text ← hex_input data n_data;
  hex_loop (length text) delim group [] text.

Definition egg_hex_decode (data : list Z) (n_data : Z) : res unit (list Z) :=
  egg_hex_decode_full data n_data None 1.

(** [hexc[j]] for the two digits of one byte. *)
Definition hex_pair (hexc : list Z) (b : Z) : list Z :=
  [default 0 (rd hexc (Z.land (Z.shiftr b 4) 15)); default 0 (rd hexc (Z.land b 15))].

Fixpoint hex_encode_loop (hexc : list Z) (delim : option (list Z)) (group n : Z)
    (data : list Z) : list Z :=
  match data with
  | [] => []
  | b :: rest =>
    (match delim with
     | Some d => if negb (group =? 0) && negb (n =? 0) && (n mod group =? 0) then d else []
     | None => []
     end) ++ hex_pair hexc b ++ hex_encode_loop hexc delim group (n + 1) rest
  end.

Definition egg_hex_encode_full (data : list Z) (upper_case : bool) (delim : option (list Z))
    (group : Z) : list Z :=
  hex_encode_loop (if upper_case then HEXC_UPPER else HEXC_LOWER) delim group 0 data.

Definition egg_hex_encode (data : list Z) : list Z := egg_hex_encode_full data true None 0.

(** * Lemmas *)

Lemma hex_digit_encode (upper : bool) j : 0 <= j < 16 ->
  hex_digit (default 0 (rd (if upper then HEXC_UPPER else HEXC_LOWER) j)) = Some j.
Proof.
  intros Hj. apply (bool_decide_unpack _), Is_true_true.
  exact (range_check (fun j => bool_decide (hex_digit (default 0
    (rd (if upper then HEXC_UPPER else HEXC_LOWER) j)) = Some j)) 0 16
    ltac:(destruct upper; vm_compute; done) j Hj).
Qed.

Lemma hex_digit_range c j : hex_digit c = Some j -> 0 <= j < 16.
Proof.
  unfold hex_digit. rewrite fmap_Some. intros (pos & _ & ->).
  rewrite land_15. apply Z.mod_pos_bound. lia.
Qed.

Lemma nibbles b : is_byte b ->
  Z.lor (Z.shiftl (Z.land (Z.shiftr b 4) 15) 4) (Z.land b 15) = b.
Proof.
  intros Hb. unfold is_byte in Hb.
  rewrite !land_15, Z.shiftr_div_pow2, lor_shift_add by (try apply Z.mod_pos_bound; lia).
  change (2 ^ 4) with 16. rewrite (Z.mod_small (b / 16)) by (split; [|apply Z.div_lt_upper_bound]; [apply Z.div_pos|..]; lia).
  pose proof (Z.div_mod b 16). lia.
Qed.

Lemma byte_nibbles_range b : 0 <= Z.land (Z.shiftr b 4) 15 < 16 /\ 0 <= Z.land b 15 < 16.
Proof. rewrite !land_15. split; apply Z.mod_pos_bound; lia. Qed.

(** Decoding the two digits of [b] with room in the group. *)
Lemma hex_group_pair upper group part acc b rest : is_byte b -> part < group ->
  hex_group group part 0 0 acc (hex_pair (if upper : bool then HEXC_UPPER else HEXC_LOWER) b ++ rest)
  = hex_group group (part + 1) 0 0 (acc ++ [b]) rest.
Proof.
  intros Hb Hp. destruct (byte_nibbles_range b) as [H1 H2].
  unfold hex_pair. simpl.
  destruct (Z.ltb_spec part group); [|lia].
  rewrite !hex_digit_encode by done. simpl. by rewrite nibbles.
Qed.

Lemma hex_group_stop group part acc data : group <= part ->
  hex_group group part 0 0 acc data = (data, 0, acc).
Proof. intros. destruct data; simpl; [done|]. destruct (Z.ltb_spec part group); [lia|done]. Qed.

(** The inner loop makes progress or fails. *)
Lemma hex_group_length group part state cur acc data data' st acc' :
  hex_group group part state cur acc data = (data', st, acc') ->
  (length data' <= length data)%nat.
Proof.
  revert part state cur acc; induction data as [|c rest IH]; intros part state cur acc; simpl.
  - intros [= <- <- <-]. done.
  - destruct (part <? group); [|intros [= <- <- <-]; done].
    destruct (hex_digit c); [|intros [= <- <- <-]; done].
    destruct (state =? 0); intros H%IH; lia.
Qed.

Lemma hex_delim_length delim acc data data1 :
  hex_delim delim acc data = Some data1 -> (length data1 <= length data)%nat.
Proof.
  unfold hex_delim. repeat case_match; intros ?; simplify_eq; rewrite ?length_drop; lia.
Qed.

Lemma hex_loop_total fuel delim group acc data : 1 <= group -> (length data <= fuel)%nat ->
  hex_loop fuel delim group acc data <> Ub.
Proof.
  intros Hg. revert acc data; induction fuel as [|fuel IH]; intros acc data Hf.
  - destruct data; simpl in *; [done|lia].
  - simpl. destruct data as [|c rest]; [done|].
    destruct (hex_delim _ _ _) as [data1|] eqn:Hd; [|done].
    apply hex_delim_length in Hd. simpl in Hd, Hf.
    destruct (hex_group _ _ _ _ _ _) as [[data2 st] acc'] eqn:Hgr.
    destruct (Z.eqb_spec st 0) as [->|]; [|done]. apply IH.
    destruct data1 as [|c1 r1]; simpl in Hgr.
    + injection Hgr as <- _. simpl. lia.
    + destruct (Z.ltb_spec 0 group); [|lia].
      destruct (hex_digit c1); [|by injection Hgr].
      apply hex_group_length in Hgr. simpl in Hd. lia.
Qed.

(** The encoder's output for [data] once the delimiter in front of its first
    byte, if any, has been taken off. *)
Definition hex_undelimited (hexc : list Z) (delim : option (list Z)) (group n : Z)
    (data : list Z) : list Z :=
  match data with
  | [] => []
  | b :: rest => hex_pair hexc b ++ hex_encode_loop hexc delim group (n + 1) rest
  end.

Lemma hex_encode_undelimited hexc delim group n data : n mod group <> 0 ->
  hex_encode_loop hexc delim group n data = hex_undelimited hexc delim group n data.
Proof.
  intros Hm. destruct data as [|b rest]; [done|]. simpl.
  destruct delim; [|done]. destruct (Z.eqb_spec (n mod group) 0); [done|].
  by rewrite !andb_false_r.
Qed.

Lemma mod_succ n g : 1 <= g -> (n + 1) mod g = if n mod g + 1 =? g then 0 else n mod g + 1.
Proof.
  intros Hg. pose proof (Z.mod_pos_bound n g ltac:(lia)).
  rewrite <- Zplus_mod_idemp_l. destruct (Z.eqb_spec (n mod g + 1) g) as [->|].
  - apply Z.mod_same. lia.
  - apply Z.mod_small. lia.
Qed.

(** One run of the inner loop over encoded text. *)
Lemma hex_group_encode (upper : bool) delim group data : forall n acc,
  1 <= group -> bytes data ->
  let hexc := if upper then HEXC_UPPER else HEXC_LOWER in
  exists m, hex_group group (n mod group) 0 0 acc (hex_undelimited hexc delim group n data)
    = (hex_encode_loop hexc delim group (n + Z.of_nat m) (drop m data), 0, acc ++ take m data)
    /\ (data <> [] -> (0 < m)%nat) /\ (m <= length data)%nat /\
    ((m < length data)%nat -> (n + Z.of_nat m) mod group = 0).
Proof.
  induction data as [|b rest IH]; intros n acc Hg Hb hexc.
  { exists 0%nat. simpl. rewrite app_nil_r. split; [done|]. split; [done|]. lia. }
  inversion_clear Hb as [|?? Hb0 Hb1].
  pose proof (Z.mod_pos_bound n group ltac:(lia)) as Hm.
  cbn [hex_undelimited]. unfold hexc at 1. rewrite hex_group_pair by (done || lia). fold hexc.
  pose proof (mod_succ n group Hg) as Hs.
  destruct (Z.eqb_spec (n mod group + 1) group) as [Hlast|Hmore].
  - rewrite hex_group_stop by lia. exists 1%nat. simpl. rewrite drop_0.
    split; [done|]. split; [lia|]. split; [lia|]. intros _. done.
  - rewrite <- Hs, hex_encode_undelimited by lia.
    destruct (IH (n + 1) (acc ++ [b])) as (m & Heq & _ & Hle & Hend); [done|done|].
    exists (S m). fold hexc in Heq. rewrite Heq. split_and!; [|lia|simpl; lia|].
    + simpl. rewrite <- app_assoc. simpl. do 3 f_equal. lia.
    + simpl. intros. replace (n + Z.of_nat (S m)) with (n + 1 + Z.of_nat m) by lia.
      apply Hend. lia.
Qed.

Lemma hex_delim_encode hexc delim group acc data : 1 <= group -> data <> [] ->
  Zlen acc mod group = 0 ->
  hex_delim delim acc (hex_encode_loop hexc delim group (Zlen acc) data)
  = Some (hex_undelimited hexc delim group (Zlen acc) data).
Proof.
  intros Hg Hd Hm. destruct data as [|b rest]; [done|]. cbn [hex_encode_loop hex_undelimited].
  destruct delim as [d|]; [|done]. unfold hex_delim.
  destruct (Z.eqb_spec group 0); [lia|]. rewrite Hm.
  destruct (Z.eqb_spec (Zlen acc) 0) as [H0|H0]; cbn [negb andb Z.eqb].
  - destruct acc; [|simpl in H0; lia]. by rewrite bool_decide_eq_false_2 by (intros ?; done).
  - rewrite bool_decide_eq_true_2 by (intros ->; done).
    rewrite length_app, take_app_length, drop_app_length.
    destruct (Z.ltb_spec (Z.of_nat (length d + length (hex_pair hexc b ++ hex_encode_loop hexc (Some d) group (Zlen acc + 1) rest)))
      (Zlen d)); [lia|].
    by rewrite bool_decide_eq_true_2.
Qed.

Lemma hex_pair_length hexc b : length (hex_pair hexc b) = 2%nat.
Proof. done. Qed.

Lemma hex_loop_encode (upper : bool) delim group : forall len data fuel acc,
  (length data <= len)%nat ->
  1 <= group -> bytes data -> Zlen acc mod group = 0 ->
  let hexc := if upper then HEXC_UPPER else HEXC_LOWER in
  let text := hex_encode_loop hexc delim group (Zlen acc) data in
  (length text <= fuel)%nat ->
  hex_loop fuel delim group acc text = Ok (acc ++ data).
Proof.
  induction len as [|len IH]; intros data fuel acc Hlen Hg Hb Hmod hexc text Hf.
  { destruct data; [|simpl in Hlen; lia]. destruct fuel; simpl; by rewrite app_nil_r. }
  destruct data as [|b rest]; [destruct fuel; simpl; by rewrite app_nil_r|].
  assert (Hdel : hex_delim delim acc text = Some (hex_undelimited hexc delim group (Zlen acc) (b :: rest)))
    by by apply hex_delim_encode.
  assert (Hne : text <> []).
  { subst text. cbn [hex_encode_loop]. intros [_ [H _]%app_nil]%app_nil. done. }
  destruct (hex_group_encode upper delim group (b :: rest) (Zlen acc) acc Hg Hb)
    as (m & Hgr & Hpos & Hle & Hend). fold hexc in Hgr. rewrite Hmod in Hgr.
  specialize (Hpos ltac:(done)).
  destruct fuel as [|fuel]; [destruct text; [done|simpl in Hf; lia]|].
  cbn [hex_loop]. destruct text as [|t0 ts] eqn:Et; [done|]. rewrite Hdel, Hgr. cbn [Z.eqb].
  destruct (decide (m < length (b :: rest))%nat) as [Hlt|Hge].
  - assert (Zlen acc + Z.of_nat m = Zlen (acc ++ take m (b :: rest))) as Hl.
    { rewrite length_app, length_take. lia. }
    rewrite Hl. rewrite IH; [by rewrite <- app_assoc, take_drop| |done| | |].
    + rewrite length_drop. simpl in *. lia.
    + by apply Forall_drop.
    + rewrite <- Hl. by apply Hend.
    + fold hexc. rewrite <- Hl.
      assert (Hdrop : (length (hex_encode_loop hexc delim group (Zlen acc + Z.of_nat m) (drop m (b :: rest)))
         < length (t0 :: ts))%nat).
      { apply (hex_delim_length delim acc) in Hdel.
        revert Hgr Hdel. cbn [hex_undelimited]. unfold hexc at 1.
        rewrite hex_group_pair by (first [by inversion Hb | lia]). fold hexc.
        intros Hgr Hdel. apply hex_group_length in Hgr.
        rewrite length_app, hex_pair_length in Hdel. lia. }
      lia.
  - rewrite drop_ge, take_ge by lia. destruct fuel; done.
Qed.

(** The reference decoder: two digits per byte, anything else refused. *)
Fixpoint hex_ref (data : list Z) : option (list Z) :=
  match data with
  | [] => Some []
  | [_] => None
  | a :: b :: rest =>
    hi ← hex_digit a; lo ← hex_digit b; out ← hex_ref rest; Some (Z.lor (Z.shiftl hi 4) lo :: out)
  end.

Definition of_ref (acc : list Z) (o : option (list Z)) : res unit (list Z) :=
  match o with Some out => Ok (acc ++ out) | None => Err tt end.

Lemma hex_group_ref group : forall len data part acc,
  (length data <= len)%nat -> 1 <= group -> 0 <= part <= group ->
  let '(data', st, acc') := hex_group group part 0 0 acc data in
  if st =? 0 then of_ref acc' (hex_ref data') = of_ref acc (hex_ref data)
  else hex_ref data = None.
Proof.
  induction len as [|len IH]; intros data part acc Hlen Hg Hp.
  { destruct data; [done|simpl in Hlen; lia]. }
  destruct (Z.ltb_spec part group) as [Hlt|]; [|by rewrite hex_group_stop by lia].
  destruct data as [|a data]; [done|]. simpl hex_group.
  destruct (Z.ltb_spec part group); [|lia].
  destruct data as [|b rest].
  { by destruct (hex_digit a). }
  destruct (hex_digit a) as [hi|] eqn:Ea; [|simpl; rewrite ?Ea; done].
  simpl. destruct (Z.ltb_spec part group); [|lia].
  destruct (hex_digit b) as [lo|] eqn:Eb; [|simpl; rewrite ?Ea; simpl; rewrite ?Eb; done].
  specialize (IH rest (part + 1) (acc ++ [Z.lor (Z.shiftl hi 4) lo])).
  destruct (hex_group _ _ _ _ _ _) as [[data' st] acc'] eqn:E.
  specialize (IH ltac:(simpl in Hlen; lia) Hg ltac:(lia)).
  simpl. rewrite ?Ea; simpl; rewrite ?Eb; simpl.
  destruct (Z.eqb_spec st 0).
  - rewrite IH. destruct (hex_ref rest); simpl; [|done]. by rewrite <- app_assoc.
  - by rewrite IH.
Qed.

(** * Properties *)

(** Decoding what [egg_hex_encode_full] wrote gives the bytes back, for
    upper and lower case, with or without a delimiter (of any content, empty or
    made of hexadecimal digits included) and for every group size. *)
Theorem hex_roundtrip (data : list Z) (upper : bool) (delim : option (list Z)) (group : Z) :
  1 <= group -> bytes data ->
  let text := egg_hex_encode_full data upper delim group in
  egg_hex_decode_full text (Zlen text) delim group = Ok data.
Proof.
  intros Hg Hb text. unfold egg_hex_decode_full, hex_input.
  destruct (Z.ltb_spec group 1); [lia|].
  destruct (Z.eqb_spec (Zlen text) (-1)); [lia|].
  rewrite slice_all. simpl.
  by apply (hex_loop_encode upper delim group (length data) data (length text) []).
Qed.

Lemma hex_roundtrip_witness :
  egg_hex_decode_full (lit "0a:ff:10") 8 (Some (lit ":")) 1 = Ok [10; 255; 16].
Proof.
  apply (hex_roundtrip [10; 255; 16] false (Some (lit ":")) 1); [lia|].
  decide_now.
Defined.

(** Without a delimiter the grouped decoding loops compute the reference
    decoder, whatever the group size: every pair of digits gives one byte, an
    odd number of digits or any other character gives the error return. *)
Theorem hex_decode_refines (text : list Z) (group : Z) :
  1 <= group ->
  egg_hex_decode_full text (Zlen text) None group = of_ref [] (hex_ref text).
Proof.
  intros Hg. unfold egg_hex_decode_full, hex_input.
  destruct (Z.ltb_spec group 1); [lia|].
  destruct (Z.eqb_spec (Zlen text) (-1)); [lia|]. rewrite slice_all. simpl.
  assert (forall fuel acc data, (length data <= fuel)%nat ->
    hex_loop fuel None group acc data = of_ref acc (hex_ref data)) as Hl; [|by apply Hl].
  induction fuel as [|fuel IH]; intros acc data Hf.
  { destruct data; simpl in *; [by rewrite app_nil_r|lia]. }
  destruct data as [|c rest]; [simpl; by rewrite app_nil_r|].
  pose proof (hex_group_ref group _ (c :: rest) 0 acc (le_n _) Hg ltac:(lia)) as Hr.
  cbn [hex_loop hex_delim].
  destruct (hex_group group 0 0 0 acc (c :: rest)) as [[data' st] acc'] eqn:E.
  destruct (Z.eqb_spec st 0) as [->|]; [|by rewrite Hr].
  rewrite IH; [done|]. revert E. simpl.
  destruct (Z.ltb_spec 0 group); [|lia]. destruct (hex_digit c).
  - intros Hgl%hex_group_length. simpl in Hf. lia.
  - intros [=].
Qed.

Lemma hex_decode_refines_witness :
  egg_hex_decode_full (lit "0aF") 3 None 2 = Err tt.
Proof. apply (hex_decode_refines (lit "0aF") 2). lia. Defined.

(** A NUL inside a counted string is taken for the digit 0, because [strchr]
    finds the terminator of [HEXC_UPPER]. *)
Lemma hex_decode_accepts_nul : egg_hex_decode [0; 0; 52; 49] 4 = Ok [0; 65].
Proof. reflexivity. Qed.
