(* ===== verification/Decimal.v ===== *)
(** Decimal text to big-endian bytes: [src/egg/egg-decimal.c].

    The digits still to be divided are the list [digits[cleared .. n_digits)];
    the output buffer [usg] is filled from its last byte towards the front,
    one bit at a time ([at_byte], [at_bit]).  Running [at_byte] below the
    buffer is the code's own failed assertion, hence [Ub].  The main loop has
    fuel [8 * n_data]: it emits one bit per iteration, and
    [egg_decimal_decode_correct] shows that neither the fuel nor the buffer
    runs out. *)

From S2P Require Import Prelude.
Local Open Scope Z_scope.

(** The scan of the text: leading zeros are dropped, anything but a digit
    refused.  [saw] is [saw_non_zero]. *)
Fixpoint decimal_scan (saw : bool) (data : list Z) : option (list Z) :=
  match data with
  | [] => Some []
  | ch :: rest =>
    if (ch <? 48) || (57 <? ch) then None
    else if negb (ch =? 48) || saw
         then cons (ch - 48) <$> decimal_scan true rest
         else decimal_scan saw rest
  end.

(** One division of the digits by two.  [front] says that every digit before
    this one has been cleared ([i == cleared]). *)
Fixpoint decimal_halve (front : bool) (carry : Z) (digits : list Z) : list Z :=
  match digits with
  | [] => []
  | d :: rest =>
    let d' := d / 2 + carry in
    let carry' := if d mod 2 =? 1 then 5 else 0 in
    if front && (d' =? 0) then decimal_halve true carry' rest
    else d' :: decimal_halve false carry' rest
  end.

Record decimal_out := DecimalOut { usg : list Z; at_byte : Z; at_bit : Z }.

(** [*at_byte |= bit << at_bit; if (at_bit++ == 7) ...] *)
Definition decimal_emit (o : decimal_out) (bit : Z) : res unit decimal_out :=
  b ← or_ub (rd (usg o) (at_byte o));
  usg' ← or_ub (wr (usg o) (at_byte o) [u8 (Z.lor b (Z.shiftl bit (at_bit o)))]);
  if at_bit o =? 7
  then c_assert (0 <=? at_byte o - 1);; Ok (DecimalOut usg' (at_byte o - 1) 0)
  else Ok (DecimalOut usg' (at_byte o) (at_bit o + 1)).

Fixpoint decimal_loop (fuel : nat) (digits : list Z) (o : decimal_out) : res unit decimal_out :=
  match digits with
  | [] => Ok o
  | _ =>
    match fuel with
    | O => Ub
    | S fuel' =>
      o' ← decimal_emit o (List.last digits 0 mod 2);
      decimal_loop fuel' (decimal_halve true 0 digits) o'
    end
  end.

(** [data] holds [n_data] characters; a negative [n_data] means a
    NUL-terminated string. *)
Definition egg_decimal_decode (data : list Z) (n_data : Z) : res unit (list Z) :=
  text ← (if n_data <? 0 then Ok (c_str data) else or_ub (slice data 0 n_data));
  match decimal_scan false text with
  | None => Err tt
  | Some digits =>
    o ← decimal_loop (8 * length text) digits
          (DecimalOut (replicate (length text) 0) (Zlen text - 1) 0);
    let first := if at_bit o =? 0 then at_byte o + 1 else at_byte o in
    Ok (drop (Z.to_nat first) (usg o))
  end.

(** * Lemmas *)

(** The number a list of decimal digits stands for. *)
Fixpoint dec_acc (a : Z) (l : list Z) : Z :=
  match l with [] => a | d :: l' => dec_acc (a * 10 + d) l' end.
Definition dec_val (l : list Z) : Z := dec_acc 0 l.

Lemma dec_acc_eq a l : dec_acc a l = a * 10 ^ Zlen l + dec_val l.
Proof.
  unfold dec_val. revert a; induction l as [|x l IH]; intros a; simpl dec_acc.
  - simpl. lia.
  - rewrite IH, (IH (0 * 10 + x)). simpl length. rewrite Nat2Z.inj_succ, Z.pow_succ_r by lia. lia.
Qed.

Lemma dec_val_cons d l : dec_val (d :: l) = d * 10 ^ Zlen l + dec_val l.
Proof. unfold dec_val at 1. simpl. by rewrite dec_acc_eq. Qed.

Definition is_digit (d : Z) : Prop := 0 <= d < 10.
Abbreviation digits_ok := (Forall is_digit).

Lemma dec_val_bound l : digits_ok l -> 0 <= dec_val l < 10 ^ Zlen l.
Proof.
  induction 1 as [|x l Hx Hl IH]; [done|].
  rewrite dec_val_cons. simpl length. rewrite Nat2Z.inj_succ, Z.pow_succ_r by lia.
  unfold is_digit in Hx. nia.
Qed.

(** The scan keeps the value and leaves no leading zero. *)
Lemma decimal_scan_spec saw text digits a : decimal_scan saw text = Some digits ->
  (saw = true \/ a = 0) ->
  digits_ok digits /\ (length digits <= length text)%nat /\
  dec_acc a digits = dec_acc a ((fun ch => ch - 48) <$> text) /\
  (saw = false -> head digits <> Some 0).
Proof.
  revert saw digits a; induction text as [|ch rest IH]; intros saw digits a Hs Ha; simpl in *.
  { injection Hs as <-. by repeat constructor. }
  destruct (Z.ltb_spec ch 48), (Z.ltb_spec 57 ch); simpl in Hs; try done.
  destruct (negb (ch =? 48) || saw) eqn:E.
  - apply fmap_Some in Hs as (d & Hd & ->).
    destruct (IH true d (a * 10 + (ch - 48)) Hd) as (?&?&?&_); [by left|]. simpl.
    split_and!; [constructor; [unfold is_digit; lia|done]|lia|done|].
    intros ->. rewrite orb_false_r in E. destruct (Z.eqb_spec ch 48); [done|]. simpl. intros Hh. injection Hh as Hh. lia.
  - apply orb_false_iff in E as [E ->]. destruct (Z.eqb_spec ch 48) as [->|]; [|done].
    destruct Ha as [? | ->]; [done|].
    destruct (IH false digits 0 Hs) as (?&?&?&?); [by right|]. split_and!; [done|lia|done|done].
Qed.

Lemma decimal_scan_None saw text :
  decimal_scan saw text = None <-> Exists (fun ch => ~ 48 <= ch <= 57) text.
Proof.
  revert saw; induction text as [|ch rest IH]; intros saw; simpl.
  { split; [done|]. by inversion 1. }
  rewrite Exists_cons.
  destruct (Z.ltb_spec ch 48), (Z.ltb_spec 57 ch); simpl; try (split; [left; lia|done]).
  destruct (_ || saw); rewrite ?fmap_None, IH; (split; [by right|intros [?|?]; [lia|done]]).
Qed.

Definition carry_bit (carry : Z) : Z := if carry =? 5 then 1 else 0.

Lemma decimal_halve_spec front carry ds : (carry = 0 \/ carry = 5) -> digits_ok ds ->
  dec_val (decimal_halve front carry ds) = (carry_bit carry * 10 ^ Zlen ds + dec_val ds) / 2 /\
  digits_ok (decimal_halve front carry ds) /\
  (front = false -> length (decimal_halve front carry ds) = length ds) /\
  (front = true -> head (decimal_halve front carry ds) <> Some 0).
Proof.
  intros Hc Hds. revert front carry Hc; induction Hds as [|d ds Hd Hds IH]; intros front carry Hc.
  { simpl. unfold carry_bit. destruct Hc as [->| ->]; by repeat constructor. }
  set (carry' := if d mod 2 =? 1 then 5 else 0).
  set (d' := d / 2 + carry).
  assert (Hc' : carry' = 0 \/ carry' = 5) by (unfold carry'; case_match; auto).
  assert (Hd' : is_digit d') by (unfold is_digit, d' in *; lia_div).
  assert (Hval : (carry_bit carry * 10 ^ Zlen (d :: ds) + dec_val (d :: ds)) / 2
    = d' * 10 ^ Zlen ds + (carry_bit carry' * 10 ^ Zlen ds + dec_val ds) / 2).
  { rewrite dec_val_cons. simpl length. rewrite Nat2Z.inj_succ, Z.pow_succ_r by lia.
    rewrite <- Z.div_add_l by lia. f_equal. unfold d', carry', carry_bit.
    unfold is_digit in Hd. pose proof (Z.div_mod d 2 ltac:(lia)). pose proof (Z.mod_pos_bound d 2 ltac:(lia)).
    destruct Hc as [->| ->]; destruct (Z.eqb_spec (d mod 2) 1); simpl; nia. }
  assert (Hlen : forall f, (f = false -> length (decimal_halve f carry' ds) = length ds) /\
     dec_val (decimal_halve f carry' ds) = (carry_bit carry' * 10 ^ Zlen ds + dec_val ds) / 2 /\
     digits_ok (decimal_halve f carry' ds) /\
     (f = true -> head (decimal_halve f carry' ds) <> Some 0)).
  { intros f. destruct (IH f carry' Hc') as (?&?&?&?). done. }
  change (decimal_halve front carry (d :: ds)) with
    (if front && (d' =? 0) then decimal_halve true carry' ds
     else d' :: decimal_halve false carry' ds).
  rewrite Hval.
  destruct (front && (d' =? 0)) eqn:E.
  - apply andb_true_iff in E as [-> E%Z.eqb_eq]. rewrite E.
    destruct (Hlen true) as (_&->&?&Hh). split_and!; [lia|done|done|by auto].
  - destruct (Hlen false) as (Hl&Hv&?&_). rewrite dec_val_cons, Hv, Hl by done.
    split_and!; [done|by constructor|by intros; simpl; rewrite Hl|].
    intros ->. simpl in E. apply Z.eqb_neq in E. simpl. intros Hh. by injection Hh.
Qed.

Lemma dec_acc_app a l k : dec_acc a (l ++ k) = dec_acc (dec_acc a l) k.
Proof. revert a; induction l as [|x l IH]; intros a; simpl; [done|apply IH]. Qed.

Lemma dec_val_last ds : List.last ds 0 mod 2 = dec_val ds mod 2.
Proof.
  induction ds as [|d ds _] using rev_ind; [done|].
  rewrite List.last_last. unfold dec_val. rewrite dec_acc_app. simpl.
  replace (dec_acc 0 ds * 10 + d) with (d + (dec_acc 0 ds * 5) * 2) by lia.
  by rewrite Z.mod_add.
Qed.

(** * The main loop *)

(** Bits written so far. *)
Definition bits_out (o : decimal_out) : Z := 8 * (Zlen (usg o) - 1 - at_byte o) + at_bit o.

Record decimal_inv (n : nat) (N : Z) (digits : list Z) (o : decimal_out) : Prop := {
  di_len : length (usg o) = n;
  di_at : 0 <= at_byte o < Z.of_nat n /\ 0 <= at_bit o < 8;
  di_bytes : bytes (usg o);
  di_low : be_val (usg o) < 2 ^ bits_out o;
  di_val : be_val (usg o) + 2 ^ bits_out o * dec_val digits = N;
  di_min : bits_out o = 0 \/ 2 ^ (bits_out o - 1) <= N;
  di_digits : digits_ok digits /\ head digits <> Some 0 }.

(** The byte under the cursor, and the untouched zeros in front of it. *)
Lemma decimal_cursor n N digits o : decimal_inv n N digits o ->
  exists l1 b l2, usg o = l1 ++ b :: l2 /\ Zlen l1 = at_byte o /\ be_val l1 = 0 /\
    0 <= b < 2 ^ at_bit o /\ bits_out o = 8 * Zlen l2 + at_bit o.
Proof.
  intros [Hlen [Ha Hb] Hby Hlow _ _ _].
  destruct (usg o !! Z.to_nat (at_byte o)) as [b|] eqn:E;
    [|apply lookup_ge_None in E; lia].
  pose proof (take_drop_middle _ _ _ E) as Hsplit.
  set (l1 := take _ _) in Hsplit. set (l2 := drop _ _) in Hsplit.
  assert (Hl1 : Zlen l1 = at_byte o) by (unfold l1; rewrite length_take; lia).
  assert (Hbits : bits_out o = 8 * Zlen l2 + at_bit o).
  { unfold bits_out, l2. rewrite length_drop. lia. }
  rewrite <- Hsplit in Hby, Hlow. apply Forall_app in Hby as [H1 H2].
  inversion_clear H2 as [|?? H3 H4].
  rewrite be_val_app, be_val_cons in Hlow. simpl length in Hlow.
  pose proof (be_val_bound _ H1). pose proof (be_val_bound _ H4). unfold is_byte in H3.
  rewrite Hbits, Z.pow_add_r, Nat2Z.inj_succ, Z.pow_succ_r, Z.pow_mul_r in Hlow by lia.
  change (2 ^ 8) with 256 in Hlow.
  assert (0 < 256 ^ Zlen l2) by (apply Z.pow_pos_nonneg; lia).
  assert (2 ^ at_bit o <= 2 ^ 8) by (apply Z.pow_le_mono_r; lia). change (2 ^ 8) with 256 in *.
  exists l1, b, l2. split_and!; [done|done|nia|lia|nia|done].
Qed.

Lemma pow_10_lt n : (0 < n)%nat -> 10 ^ Z.of_nat n < 2 ^ (8 * Z.of_nat n - 1).
Proof.
  induction n as [|n IH]; [lia|]. intros _. destruct (decide (n = 0%nat)) as [->|]; [done|].
  rewrite Nat2Z.inj_succ, Z.pow_succ_r by lia.
  replace (8 * Z.succ (Z.of_nat n) - 1) with (8 + (8 * Z.of_nat n - 1)) by lia.
  rewrite Z.pow_add_r by lia. specialize (IH ltac:(lia)). lia.
Qed.

Lemma dec_val_pos digits : digits_ok digits -> digits <> [] -> head digits <> Some 0 ->
  0 < dec_val digits.
Proof.
  intros Hd Hne Hh. destruct digits as [|d ds]; [done|]. rewrite dec_val_cons.
  inversion_clear Hd as [|?? Hd0 Hds]. pose proof (dec_val_bound _ Hds). unfold is_digit in Hd0.
  assert (d <> 0) by (intros ->; done).
  assert (0 < 10 ^ Zlen ds) by (apply Z.pow_pos_nonneg; lia). nia.
Qed.

Lemma decimal_room n N digits o : decimal_inv n N digits o -> digits <> [] ->
  N < 10 ^ Z.of_nat n -> bits_out o < 8 * Z.of_nat n - 1.
Proof.
  intros Hi Hne HN. pose proof Hi as [Hlen [Ha Hb] Hby Hlow Hval _ [Hd Hh]].
  pose proof (dec_val_pos _ Hd Hne Hh). pose proof (be_val_bound _ Hby).
  pose proof (pow_10_lt n ltac:(lia)).
  destruct (Z.lt_ge_cases (bits_out o) (8 * Z.of_nat n - 1)) as [|Hge]; [done|].
  assert (2 ^ (8 * Z.of_nat n - 1) <= 2 ^ bits_out o) by (apply Z.pow_le_mono_r; lia). nia.
Qed.

(** Writing one bit at the cursor. *)
Lemma decimal_emit_eq o l1 b l2 bit : usg o = l1 ++ b :: l2 -> Zlen l1 = at_byte o ->
  0 <= at_bit o < 8 -> 0 <= b < 2 ^ at_bit o -> 0 <= bit < 2 ->
  let b' := b + bit * 2 ^ at_bit o in
  is_byte b' /\
  decimal_emit o bit =
    if at_bit o =? 7
    then c_assert (0 <=? at_byte o - 1);; Ok (DecimalOut (l1 ++ b' :: l2) (at_byte o - 1) 0)
    else Ok (DecimalOut (l1 ++ b' :: l2) (at_byte o) (at_bit o + 1)).
Proof.
  intros Hu Hl1 Hb Hbr Hbit b'.
  assert (Hn : Z.lor b (Z.shiftl bit (at_bit o)) = b') by by apply lor_add_shift; lia.
  assert (Hb' : is_byte b').
  { assert (2 ^ (at_bit o + 1) <= 2 ^ 8) as Hp by (apply Z.pow_le_mono_r; lia).
    rewrite Z.pow_add_r in Hp by lia. unfold is_byte, b'. nia. }
  split; [done|]. unfold decimal_emit. rewrite Hu, <- Hl1, rd_middle. simpl. rewrite Hn.
  unfold u8. rewrite Z.mod_small by (change (2 ^ 8) with 256; done).
  pose proof (wr_app l1 [b] l2 [b'] eq_refl) as Hw. simpl in Hw. by rewrite Hw.
Qed.

(** The arithmetic of one step, for a state whose buffer gained the bit. *)
Lemma decimal_inv_step n N digits o o' :
  decimal_inv n N digits o -> digits <> [] -> bytes (usg o') -> length (usg o') = n ->
  be_val (usg o') = be_val (usg o) + dec_val digits mod 2 * 2 ^ bits_out o ->
  0 <= at_byte o' < Z.of_nat n -> 0 <= at_bit o' < 8 -> bits_out o' = bits_out o + 1 ->
  decimal_inv n N (decimal_halve true 0 digits) o'.
Proof.
  intros [Hlen [Ha Hb] Hby Hlow Hval Hmin [Hd Hh]] Hne Hby' Hlen' Hbe Hab Habt Hbo.
  destruct (decimal_halve_spec true 0 digits) as (Hv & Hd' & _ & Hh'); [by left|done|].
  unfold carry_bit in Hv. simpl in Hv. rewrite Z.mul_0_l, Z.add_0_l in Hv.
  assert (0 <= bits_out o) by (unfold bits_out; lia).
  assert (Hpk : 0 < 2 ^ bits_out o) by (apply Z.pow_pos_nonneg; lia).
  assert (Hp1 : 2 ^ bits_out o' = 2 * 2 ^ bits_out o) by (rewrite Hbo, Z.pow_add_r by lia; lia).
  pose proof (dec_val_pos _ Hd Hne Hh). pose proof (Z.mod_pos_bound (dec_val digits) 2 ltac:(lia)).
  pose proof (Z.div_mod (dec_val digits) 2 ltac:(lia)). pose proof (be_val_bound _ Hby).
  constructor; rewrite ?Hp1; [done|done|done| | | |by auto].
  - rewrite Hbe. nia.
  - rewrite Hbe, Hv, <- Hval. nia.
  - right. rewrite Hbo. replace (bits_out o + 1 - 1) with (bits_out o) by lia. nia.
Qed.

Lemma decimal_step n N digits o : decimal_inv n N digits o -> digits <> [] ->
  N < 10 ^ Z.of_nat n ->
  exists o', decimal_emit o (List.last digits 0 mod 2) = Ok o' /\
    decimal_inv n N (decimal_halve true 0 digits) o' /\ bits_out o' = bits_out o + 1.
Proof.
  intros Hi Hne HN. pose proof (decimal_room _ _ _ _ Hi Hne HN) as Hroom.
  pose proof (decimal_cursor _ _ _ _ Hi) as (l1 & b & l2 & Hu & Hl1 & Hz & Hbr & Hbits).
  pose proof Hi as [Hlen [Ha Hb] Hby _ _ _ _]. rewrite dec_val_last.
  set (bit := dec_val digits mod 2).
  assert (Hbb : 0 <= bit < 2) by (apply Z.mod_pos_bound; lia).
  destruct (decimal_emit_eq o l1 b l2 bit Hu Hl1 Hb Hbr Hbb) as [Hb' He].
  set (b' := b + bit * 2 ^ at_bit o) in *. set (usg' := l1 ++ b' :: l2) in *.
  assert (Hlen' : length usg' = n) by (rewrite <- Hlen, Hu; unfold usg'; by rewrite !length_app).
  assert (Hby' : bytes usg').
  { unfold usg'. rewrite Hu, Forall_app, Forall_cons in Hby. rewrite Forall_app, Forall_cons. naive_solver. }
  assert (Hbe : be_val usg' = be_val (usg o) + bit * 2 ^ bits_out o).
  { unfold usg'. rewrite Hu, Hbits, !be_val_app, !be_val_cons. simpl length.
    rewrite Z.pow_add_r, Z.pow_mul_r by lia. change (2 ^ 8) with 256. unfold b'. lia. }
  assert (Hgo : forall ab abit, 0 <= ab < Z.of_nat n -> 0 <= abit < 8 ->
    8 * (Z.of_nat n - 1 - ab) + abit = bits_out o + 1 ->
    decimal_inv n N (decimal_halve true 0 digits) (DecimalOut usg' ab abit) /\
    bits_out (DecimalOut usg' ab abit) = bits_out o + 1).
  { intros ab abit ? ? Hk. assert (bits_out (DecimalOut usg' ab abit) = bits_out o + 1) as Hbo.
    { unfold bits_out in *. simpl. by rewrite Hlen'. }
    split; [|done]. by apply (decimal_inv_step n N digits o). }
  unfold bits_out in Hroom, Hgo at 1. rewrite Hlen in Hroom. rewrite He.
  assert (Hk : bits_out o = 8 * (Z.of_nat n - 1 - at_byte o) + at_bit o) by (unfold bits_out; by rewrite Hlen).
  destruct (Z.eqb_spec (at_bit o) 7) as [E|E].
  - destruct (Z.leb_spec 0 (at_byte o - 1)); [|lia]. simpl. eexists. split; [done|]. apply Hgo; lia.
  - eexists. split; [done|]. apply Hgo; lia.
Qed.

Lemma decimal_loop_spec n N fuel : forall digits o, decimal_inv n N digits o ->
  N < 10 ^ Z.of_nat n -> 8 * Z.of_nat n - bits_out o <= Z.of_nat fuel ->
  exists o', decimal_loop fuel digits o = Ok o' /\ decimal_inv n N [] o'.
Proof.
  induction fuel as [|fuel IH]; intros digits o Hi HN Hf.
  - destruct digits as [|d ds]; [by exists o|].
    pose proof (decimal_room _ _ _ _ Hi ltac:(done) HN). lia.
  - destruct digits as [|d ds]; [by exists o|].
    destruct (decimal_step _ _ _ _ Hi ltac:(done) HN) as (o' & He & Hi' & Hbo).
    cbn [decimal_loop]. rewrite He. simpl. apply (IH _ _ Hi' HN). lia.
Qed.

(** The initial state, before the first bit. *)
Lemma decimal_inv_init n digits : (0 < n)%nat -> digits_ok digits -> head digits <> Some 0 ->
  decimal_inv n (dec_val digits) digits (DecimalOut (replicate n 0) (Z.of_nat n - 1) 0).
Proof.
  intros Hn Hd Hh.
  assert (bits_out (DecimalOut (replicate n 0) (Z.of_nat n - 1) 0) = 0) as Hb.
  { unfold bits_out. simpl. rewrite length_replicate. lia. }
  assert (be_val (replicate n 0) = 0) as Hz.
  { rewrite <- (app_nil_r (replicate n 0)). apply be_val_zeros. }
  constructor; rewrite ?Hb; simpl; [by rewrite length_replicate|lia| | | |by left|done].
  - apply Forall_replicate. unfold is_byte. lia.
  - rewrite Hz. lia.
  - rewrite Hz. lia.
Qed.

(** No leading zero: the value reaches the weight of the first byte. *)
Lemma head_nonzero l : bytes l -> (l <> [] -> 2 ^ (8 * Zlen l - 8) <= be_val l) -> head l <> Some 0.
Proof.
  intros Hb Hv [=Hh]. destruct l as [|x l]; [done|]. injection Hh as ->.
  specialize (Hv ltac:(done)). rewrite be_val_cons in Hv. inversion_clear Hb as [|?? _ Hb'].
  pose proof (be_val_bound _ Hb'). simpl length in Hv.
  replace (8 * Z.of_nat (S (length l)) - 8) with (8 * Zlen l) in Hv by lia.
  rewrite Z.pow_mul_r in Hv by lia. change (2 ^ 8) with 256 in Hv. lia.
Qed.

(** * Properties *)

(** The decimal number written by a text of digits. *)
Definition decimal_value (text : list Z) : Z := dec_val ((fun ch => ch - 48) <$> text).

Lemma decimal_decode_digits (text : list Z) :
  Forall (fun ch => 48 <= ch <= 57) text ->
  exists out, egg_decimal_decode text (Zlen text) = Ok out /\
    bytes out /\ be_val out = decimal_value text /\ head out <> Some 0.
Proof.
  intros Hall. unfold egg_decimal_decode.
  destruct (Z.ltb_spec (Zlen text) 0); [lia|]. rewrite slice_all. run.
  destruct (decimal_scan false text) as [digits|] eqn:Hs.
  2: { apply decimal_scan_None in Hs. apply Exists_exists in Hs as (ch & Hin & Hch).
       by rewrite Forall_forall in Hall; apply Hall in Hin. }
  destruct (decimal_scan_spec _ _ _ 0 Hs) as (Hd & Hle & Hv & Hh); [by right|].
  specialize (Hh eq_refl). fold (dec_val digits) (dec_val ((fun ch => ch - 48) <$> text)) in Hv.
  destruct (decide (text = [])) as [->|Hne].
  { simpl in Hs. injection Hs as <-. by exists []. }
  assert (0 < length text)%nat by (destruct text; [done|simpl; lia]).
  pose proof (decimal_inv_init (length text) digits ltac:(lia) Hd Hh) as Hi.
  destruct (decimal_loop_spec _ _ (8 * length text) _ _ Hi) as (o & Hl & Hi').
  { pose proof (dec_val_bound _ Hd). assert (10 ^ Zlen digits <= 10 ^ Zlen text) by (apply Z.pow_le_mono_r; lia). lia. }
  { unfold bits_out. simpl. rewrite length_replicate. lia. }
  rewrite Hl. run. destruct (decimal_cursor _ _ _ _ Hi') as (l1 & b & l2 & Hu & Hl1 & Hz & Hbr & Hbits).
  pose proof Hi' as [Hlen [Ha Hb] Hby Hlow Hval Hmin _].
  change (dec_val []) with 0 in Hval. rewrite Z.mul_0_r, Z.add_0_r in Hval.
  unfold decimal_value. rewrite <- Hv, <- Hval. rewrite <- Hval in Hmin. clear Hval.
  rewrite Hu in *. apply Forall_app in Hby as [H1 H2]. inversion_clear H2 as [|?? H3 H4].
  rewrite be_val_app, Hz, be_val_cons, Z.mul_0_l, Z.add_0_l in *.
  pose proof (be_val_bound _ H4) as H4b.
  eexists. split; [done|]. destruct (Z.eqb_spec (at_bit o) 0) as [E|E].
  - rewrite E in Hbr, Hbits. assert (b = 0) as -> by lia.
    replace (Z.to_nat (at_byte o + 1)) with (length l1 + 1)%nat by lia.
    rewrite drop_app_add. simpl. rewrite drop_0. split_and!; [done|lia|].
    apply head_nonzero; [done|]. intros Hl2. destruct Hmin as [Hm|Hm]; [destruct l2; [done|simpl in Hbits; lia]|].
    replace (8 * Zlen l2 - 8) with (bits_out o - 1 - 7) by lia.
    assert (2 ^ (bits_out o - 1 - 7) <= 2 ^ (bits_out o - 1)) by (apply Z.pow_le_mono_r; lia). lia.
  - replace (Z.to_nat (at_byte o)) with (length l1) by lia. rewrite drop_app_length.
    split_and!; [by constructor|by rewrite be_val_cons|]. intros [= ->].
    assert (2 ^ (8 * Zlen l2) <= 2 ^ (bits_out o - 1)) as Hp by (apply Z.pow_le_mono_r; lia).
    rewrite Z.pow_mul_r in Hp by lia. change (2 ^ 8) with 256 in Hp. lia.
Qed.

(** On a text of decimal digits [egg_decimal_decode] never runs outside
    its buffer nor fails its assertion, and returns the big-endian bytes of
    exactly that number, without a leading zero byte. *)
Theorem egg_decimal_decode_correct (text : list Z) :
  Forall (fun ch => 48 <= ch <= 57) text ->
  exists out, egg_decimal_decode text (Zlen text) = Ok out /\
    bytes out /\ be_val out = decimal_value text /\ head out <> Some 0.
Proof. apply decimal_decode_digits. Qed.

Lemma egg_decimal_decode_correct_witness :
  Forall (fun ch => 48 <= ch <= 57) (lit "00256") /\ egg_decimal_decode (lit "00256") 5 = Ok [1; 0].
Proof.
  split; [decide_now|].
  destruct (egg_decimal_decode_correct (lit "00256")) as (out & H & _ & Hv & Hh).
  { decide_now. }
  vm_compute in H. injection H as <-. reflexivity.
Defined.

Lemma decimal_decode_other (text : list Z) :
  Exists (fun ch => ~ 48 <= ch <= 57) text ->
  egg_decimal_decode text (Zlen text) = Err tt.
Proof.
  intros Hex. unfold egg_decimal_decode.
  destruct (Z.ltb_spec (Zlen text) 0); [lia|]. rewrite slice_all. run.
  by rewrite (proj2 (decimal_scan_None false text) Hex).
Qed.

(** A text with a character that is not a decimal digit is refused. *)
Theorem egg_decimal_decode_rejects (text : list Z) :
  Exists (fun ch => ~ 48 <= ch <= 57) text ->
  egg_decimal_decode text (Zlen text) = Err tt.
Proof. apply decimal_decode_other. Qed.

Lemma egg_decimal_decode_rejects_witness : egg_decimal_decode (lit "12x") 3 = Err tt.
Proof.
  apply (egg_decimal_decode_rejects (lit "12x")).
  apply Exists_cons_tl, Exists_cons_tl, Exists_cons_hd. change (~ 48 <= 120 <= 57). lia.
Defined.
