(* ===== verification/Padding.v ===== *)
(** Block padding: [src/egg/egg-padding.c].

    Every operation returns the size it computes and, when the caller asked
    for the data ([want]), the buffer it fills.  [gsize] arithmetic wraps at
    2^64; a failed [g_assert] is [Ub].  The allocator is the caller's: [alloc n]
    says whether it returns memory for [n] bytes.  [egg_random] is the crypto
    library's generator: [egg_random i n] are the [n] bytes of its [i]-th call. *)

From S2P Require Import Prelude.
Local Open Scope Z_scope.

(** * Filling with non-zero random bytes *)

Section Random.
Context (egg_random : nat -> nat -> list Z).

Fixpoint count_zeros (data : list Z) : nat :=
  match data with
  | [] => 0
  | d :: rest => if d =? 0 then S (count_zeros rest) else count_zeros rest
  end.

(** The replacement loop: each zero byte takes the next byte of [rnd], which
    holds one byte per zero. *)
Fixpoint replace_zeros (data rnd : list Z) : list Z :=
  match data with
  | [] => []
  | d :: rest =>
    if d =? 0 then default 0 (head rnd) :: replace_zeros rest (tail rnd)
    else d :: replace_zeros rest rnd
  end.

(** [while (n_zero > 0)]; [call] numbers the calls of the generator, and the
    fuel bounds them. *)
Fixpoint fill_loop (fuel call : nat) (data : list Z) : res unit (list Z) :=
  match count_zeros data with
  | O => Ok data
  | S _ as n_zero =>
    match fuel with
    | O => Ub
    | S fuel' => fill_loop fuel' (S call) (replace_zeros data (egg_random call n_zero))
    end
  end.

Definition fill_random_nonzero (fuel : nat) (n_data : Z) : res unit (list Z) :=
  fill_loop fuel 1 (egg_random 0 (Z.to_nat n_data)).

Lemma count_zeros_0 data : count_zeros data = 0%nat <-> 0 ∉ data.
Proof.
  induction data as [|d rest IH]; simpl; [set_solver|].
  destruct (Z.eqb_spec d 0) as [->|]; [set_solver|]. rewrite IH. set_solver.
Qed.

Lemma replace_zeros_length data rnd : length (replace_zeros data rnd) = length data.
Proof. revert rnd; induction data as [|d rest IH]; intros rnd; simpl; [done|]. case_match; simpl; by rewrite IH. Qed.

Lemma replace_zeros_nonzero data rnd : length rnd = count_zeros data -> 0 ∉ rnd ->
  0 ∉ replace_zeros data rnd.
Proof.
  revert rnd; induction data as [|d rest IH]; intros rnd Hl Hn; simpl in *; [set_solver|].
  destruct (Z.eqb_spec d 0).
  - destruct rnd as [|x rnd]; [done|]. simpl in *. specialize (IH rnd). set_solver.
  - specialize (IH rnd). set_solver.
Qed.

Lemma fill_loop_Ok fuel call data out : fill_loop fuel call data = Ok out ->
  length out = length data /\ 0 ∉ out.
Proof.
  revert call data; induction fuel as [|fuel IH]; intros call data; simpl.
  - destruct (count_zeros data) eqn:E; [|done]. intros [= <-]. by rewrite <- count_zeros_0.
  - destruct (count_zeros data) eqn:E.
    + intros [= <-]. by rewrite <- count_zeros_0.
    + intros [H1 H2]%IH. by rewrite replace_zeros_length in H1.
Qed.

(** The loop ends at the latest at the first call that returns no zero. *)
Lemma fill_loop_terminates k fuel call data :
  (forall i n, length (egg_random i n) = n) ->
  (forall n, 0 ∉ egg_random (call + k) n) -> (k < fuel)%nat ->
  exists out, fill_loop fuel call data = Ok out.
Proof.
  intros Hlen. revert fuel call data; induction k as [|k IH]; intros fuel call data Hk Hf;
    (destruct fuel as [|fuel]; [lia|]); simpl; destruct (count_zeros data) eqn:E; eauto.
  - rewrite Nat.add_0_r in Hk. eexists. destruct fuel; simpl;
      rewrite (proj2 (count_zeros_0 _)); try done; apply replace_zeros_nonzero; rewrite ?Hlen; auto.
  - apply IH; [|lia]. intros n1. replace (S call + k)%nat with (call + S k)%nat by lia. apply Hk.
Qed.
End Random.

(** * The padding functions *)

Section Padding.
Context (alloc : Z -> bool) (egg_random : nat -> nat -> list Z).

(** The size of the padded data, and the tail of every padding function:
    allocate [MAX (n_padded, 1)] bytes and fill them, if asked to. *)
Definition pad_result (want : bool) (n_padded : Z) (filled : list Z)
    : res unit (Z * option (list Z)) :=
  if want then
    if alloc (Z.max n_padded 1) then Ok (n_padded, Some filled) else Err tt
  else Ok (n_padded, None).

(** The tail of the unpadding functions: [n_raw + 1] bytes, NUL terminated. *)
Definition unpad_result (want : bool) (raw : list Z) : res unit (Z * option (list Z)) :=
  if want then
    if alloc (Zlen raw + 1) then Ok (Zlen raw, Some (raw ++ [0])) else Err tt
  else Ok (Zlen raw, None).

Definition egg_padding_zero_pad (block : Z) (raw : list Z) (want : bool)
    : res unit (Z * option (list Z)) :=
  if block =? 0 then Err tt else
  let n_raw := Zlen raw in
  let n_padded := u64 (u64 (n_raw + u64 (block - 1)) / block * block) in
  c_assert (n_raw <=? n_padded);;
  let n_pad := n_padded - n_raw in
  c_assert (n_pad <? block);;
  pad_result want n_padded (replicate (Z.to_nat n_pad) 0 ++ raw).

(** The sizes shared by [egg_padding_pkcs1_pad_01] and [..._pad_02]. *)
Definition pkcs1_sizes (block : Z) (raw : list Z) : res unit (Z * Z) :=
  if (block =? 0) || negb (3 <? block) then Err tt else
  let n_raw := Zlen raw in
  let n_padded := u64 (u64 (u64 (n_raw + 3) + u64 (block - 1)) / block * block) in
  c_assert (n_raw <=? n_padded);;
  let n_pad := n_padded - n_raw in
  c_assert (n_pad <=? block);;
  c_assert (3 <=? n_pad);;
  Ok (n_padded, n_pad).

Definition egg_padding_pkcs1_pad_01 (block : Z) (raw : list Z) (want : bool)
    : res unit (Z * option (list Z)) :=
  '(n_padded, n_pad) ← pkcs1_sizes block raw;
  pad_result want n_padded
    ([0; 1] ++ replicate (Z.to_nat (n_pad - 3)) 255 ++ [0] ++ raw).

Definition egg_padding_pkcs1_pad_02 (fuel : nat) (block : Z) (raw : list Z) (want : bool)
    : res unit (Z * option (list Z)) :=
  '(n_padded, n_pad) ← pkcs1_sizes block raw;
  if want then
    if alloc (Z.max n_padded 1) then
      ps ← fill_random_nonzero egg_random fuel (n_pad - 3);
      Ok (n_padded, Some ([0; 2] ++ ps ++ [0] ++ raw))
    else Err tt
  else Ok (n_padded, None).

Definition unpad_pkcs1 (bt block : Z) (padded : list Z) (want : bool)
    : res unit (Z * option (list Z)) :=
  if negb (block =? 0) && negb (Zlen padded mod block =? 0) then Err tt else
  p0 ← or_ub (rd padded 0);
  if negb (p0 =? 0) then Err tt else
  p1 ← or_ub (rd padded 1);
  if negb (p1 =? bt) then Err tt else
  match index_of 0 (drop 2 padded) with
  | None => Err tt
  | Some at_ => unpad_result want (drop (at_ + 1) (drop 2 padded))
  end.

Definition egg_padding_pkcs1_unpad_01 := unpad_pkcs1 1.
Definition egg_padding_pkcs1_unpad_02 := unpad_pkcs1 2.

Definition egg_padding_pkcs7_pad (block : Z) (raw : list Z) (want : bool)
    : res unit (Z * option (list Z)) :=
  if (block =? 0) || negb (block <? 256) then Err tt else
  let n_raw := Zlen raw in
  let n_padded := u64 (u64 (n_raw + block) / block * block) in
  c_assert (n_raw <? n_padded);;
  let n_pad := n_padded - n_raw in
  c_assert ((0 <? n_pad) && (n_pad <=? block));;
  pad_result want n_padded (raw ++ replicate (Z.to_nat n_pad) n_pad).

Definition egg_padding_pkcs7_unpad (block : Z) (padded : list Z) (want : bool)
    : res unit (Z * option (list Z)) :=
  let n_padded := Zlen padded in
  if n_padded =? 0 then Err tt else
  n_pad ← or_ub (rd padded (n_padded - 1));
  if (n_pad =? 0) || (256 <? n_pad) then Err tt else
  if n_padded <? n_pad then Err tt else
  if negb (block =? 0) && (block <? n_pad) then Err tt else
  if negb (forallb (fun b => b =? n_pad) (drop (Z.to_nat (n_padded - n_pad)) padded))
  then Err tt else
  unpad_result want (take (Z.to_nat (n_padded - n_pad)) padded).

(** * Lemmas *)

Lemma round_up n block : 0 <= n -> 0 < block ->
  let r := (n + (block - 1)) / block * block in r mod block = 0 /\ n <= r < n + block.
Proof. intros. subst r. split; [by apply Z.mod_mul; lia|]. 
  pose proof (Z.div_mod (n + (block - 1)) block ltac:(lia)).
  pose proof (Z.mod_pos_bound (n + (block - 1)) block ltac:(lia)). nia.
Qed.

Lemma u64_round_up n block : 0 <= n -> 0 < block -> n + block <= 2 ^ 64 ->
  u64 (u64 (n + u64 (block - 1)) / block * block) = (n + (block - 1)) / block * block.
Proof.
  intros Hn Hb Hf. pose proof (round_up n block Hn Hb) as [_ Hr].
  rewrite (u64_small (block - 1)), (u64_small (n + (block - 1))), u64_small by lia. done.
Qed.

(** PKCS#1 sizes, exactly: the code's assertion [n_pad <= block] fails when the
    data leaves one or two bytes of room in its last block. *)
Lemma pkcs1_sizes_eq block raw : 3 < block -> Zlen raw + 3 + block <= 2 ^ 64 ->
  let r := (Zlen raw + 3) mod block in
  let n_padded := (Zlen raw + 3 + (block - 1)) / block * block in
  pkcs1_sizes block raw =
    if (r =? 1) || (r =? 2) then Ub else Ok (n_padded, n_padded - Zlen raw).
Proof.
  intros Hb Hf r n_padded. pose proof (round_up (Zlen raw + 3) block ltac:(lia) ltac:(lia)) as [Hm Hr].
  fold n_padded in Hm, Hr. unfold pkcs1_sizes.
  destruct (Z.eqb_spec block 0); [lia|]. destruct (Z.ltb_spec 3 block); [|lia]. cbn [negb orb].
  rewrite (u64_small (Zlen raw + 3)), u64_round_up by lia. fold n_padded.
  destruct (Z.leb_spec (Zlen raw) n_padded); [|lia]. cbn [c_assert mbind res_bind].
  pose proof (Z.mod_pos_bound (Zlen raw + 3) block ltac:(lia)) as Hrb. fold r in Hrb.
  assert (Hcase : r = 0 /\ n_padded = Zlen raw + 3 \/ 0 < r /\ n_padded = Zlen raw + 3 + block - r).
  { pose proof (Z.div_mod (Zlen raw + 3) block ltac:(lia)) as Hd1. fold r in Hd1.
    unfold n_padded in *. set (q := (Zlen raw + 3) / block) in *.
    set (q' := (Zlen raw + 3 + (block - 1)) / block) in *.
    destruct (decide (r = 0)); [left|right]; (split; [lia|]).
    - assert (q' = q) by nia. nia.
    - assert (q' = q + 1) by nia. nia. }
  destruct (Z.eqb_spec r 1), (Z.eqb_spec r 2), (Z.leb_spec (n_padded - Zlen raw) block); simpl; try lia; try done.
  destruct (Z.leb_spec 3 (n_padded - Zlen raw)); [done|lia].
Qed.

Lemma index_of_app_l c l1 l2 : c ∉ l1 -> index_of c (l1 ++ c :: l2) = Some (length l1).
Proof.
  intros Hn. apply index_of_Some. rewrite take_app_length. split; [|done].
  by apply list_lookup_middle.
Qed.

(** Removing PKCS#1 padding of the right shape. *)
Lemma unpad_pkcs1_shape bt block ps raw want : 0 ∉ ps ->
  block = 0 \/ Zlen ([0; bt] ++ ps ++ [0] ++ raw) mod block = 0 ->
  unpad_pkcs1 bt block ([0; bt] ++ ps ++ [0] ++ raw) want = unpad_result want raw.
Proof.
  intros Hps Hb. unfold unpad_pkcs1.
  assert (negb (block =? 0) && negb (Zlen ([0; bt] ++ ps ++ [0] ++ raw) mod block =? 0) = false) as ->.
  { destruct Hb as [->|Hb]; [done|]. rewrite Hb, Z.eqb_refl. by rewrite andb_false_r. }
  simpl. rewrite Z.eqb_refl. simpl. rewrite drop_0, index_of_app_l by done.
  f_equal. rewrite (drop_app_add ps (0 :: raw) 1). simpl. by rewrite drop_0.
Qed.

(** * PKCS#7 *)

Lemma forallb_replicate (n : nat) v : forallb (fun b => b =? v) (replicate n v) = true.
Proof. induction n; simpl; [done|]. by rewrite Z.eqb_refl. Qed.

Lemma forallb_eq_replicate l v : forallb (fun b => b =? v) l = true -> l = replicate (length l) v.
Proof.
  induction l as [|x l IH]; simpl; [done|].
  intros [Hx%Z.eqb_eq Hl]%andb_true_iff. subst. by f_equal; apply IH.
Qed.

Lemma pkcs7_pad_eq block raw want : 0 < block < 256 -> Zlen raw + block < 2 ^ 64 ->
  exists k, 0 < k <= block /\ (Zlen raw + k) mod block = 0 /\
    egg_padding_pkcs7_pad block raw want
    = pad_result want (Zlen raw + k) (raw ++ replicate (Z.to_nat k) k).
Proof.
  intros Hb Hf. exists ((Zlen raw + block) / block * block - Zlen raw).
  pose proof (Z.div_mod (Zlen raw + block) block ltac:(lia)) as Hd.
  pose proof (Z.mod_pos_bound (Zlen raw + block) block ltac:(lia)) as Hm.
  set (np := (Zlen raw + block) / block * block) in *.
  assert (Hnp : Zlen raw < np <= Zlen raw + block) by nia.
  split; [lia|]. split.
  { replace (Zlen raw + (np - Zlen raw)) with np by lia. apply Z.mod_mul. lia. }
  unfold egg_padding_pkcs7_pad.
  destruct (Z.eqb_spec block 0); [lia|]. destruct (Z.ltb_spec block 256); [|lia]. cbn [negb orb].
  rewrite (u64_small (Zlen raw + block)) by lia. fold np. rewrite u64_small by lia.
  destruct (Z.ltb_spec (Zlen raw) np); [|lia].
  destruct (Z.ltb_spec 0 (np - Zlen raw)), (Z.leb_spec (np - Zlen raw) block); try lia.
  simpl. f_equal. lia.
Qed.

Lemma pkcs7_unpad_shape block raw k want : 0 < k <= 256 -> block = 0 \/ k <= block ->
  egg_padding_pkcs7_unpad block (raw ++ replicate (Z.to_nat k) k) want = unpad_result want raw.
Proof.
  intros Hk Hb. unfold egg_padding_pkcs7_unpad.
  assert (Hl : Zlen (raw ++ replicate (Z.to_nat k) k) = Zlen raw + k)
    by (rewrite length_app, length_replicate; lia).
  rewrite Hl. destruct (Z.eqb_spec (Zlen raw + k) 0); [lia|].
  assert (rd (raw ++ replicate (Z.to_nat k) k) (Zlen raw + k - 1) = Some k) as ->.
  { rewrite rd_app_r by lia. apply rd_lookup. split; [lia|]. apply lookup_replicate. lia. }
  cbn [or_ub mbind res_bind].
  destruct (Z.eqb_spec k 0), (Z.ltb_spec 256 k), (Z.ltb_spec (Zlen raw + k) k); try lia. cbn [orb].
  assert (negb (block =? 0) && (block <? k) = false) as ->.
  { destruct (Z.eqb_spec block 0), (Z.ltb_spec block k); try done. lia. }
  replace (Z.to_nat (Zlen raw + k - k)) with (length raw) by lia.
  by rewrite drop_app_length, take_app_length, forallb_replicate.
Qed.

(** What the acceptance test of [egg_padding_pkcs7_unpad] establishes. *)
Lemma pkcs7_unpad_inv block padded want r : bytes padded ->
  egg_padding_pkcs7_unpad block padded want = Ok r ->
  exists raw k, padded = raw ++ replicate (Z.to_nat k) k /\ 0 < k < 256 /\
    (block <> 0 -> k <= block) /\ unpad_result want raw = Ok r.
Proof.
  intros Hby. unfold egg_padding_pkcs7_unpad.
  destruct (Z.eqb_spec (Zlen padded) 0); [done|].
  destruct (rd padded (Zlen padded - 1)) as [k|] eqn:E; [|done].
  pose proof (rd_bytes _ _ _ Hby E) as Hk. unfold is_byte in Hk. cbn [or_ub mbind res_bind].
  destruct (Z.eqb_spec k 0), (Z.ltb_spec 256 k); try done.
  destruct (Z.ltb_spec (Zlen padded) k); [done|].
  destruct (Z.eqb_spec block 0), (Z.ltb_spec block k); try done; cbn [negb orb andb];
    (destruct (forallb _ _) eqn:Ef; [|done]); intros Hr;
    (exists (take (Z.to_nat (Zlen padded - k)) padded), k);
    apply forallb_eq_replicate in Ef; rewrite length_drop in Ef;
    replace (length padded - Z.to_nat (Zlen padded - k))%nat with (Z.to_nat k) in Ef by lia;
    rewrite <- Ef, take_drop; (split_and!; [done|lia|lia|lia|done]).
Qed.
End Padding.

(** * Properties *)

(** PKCS#7 round trip.  For every block size from 1 to 255, padding
    succeeds, fills whole blocks, and unpadding gives back the data (with the
    courtesy NUL after it). *)
Theorem pkcs7_roundtrip (alloc : Z -> bool) (block : Z) (raw : list Z) :
  (forall n, alloc n = true) -> 0 < block < 256 -> Zlen raw + block < 2 ^ 64 ->
  exists padded, egg_padding_pkcs7_pad alloc block raw true = Ok (Zlen padded, Some padded) /\
    Zlen padded mod block = 0 /\
    egg_padding_pkcs7_unpad alloc block padded true = Ok (Zlen raw, Some (raw ++ [0])).
Proof.
  intros Ha Hb Hf. destruct (pkcs7_pad_eq alloc block raw true Hb Hf) as (k & Hk & Hm & He).
  exists (raw ++ replicate (Z.to_nat k) k).
  assert (Zlen (raw ++ replicate (Z.to_nat k) k) = Zlen raw + k) as ->
    by (rewrite length_app, length_replicate; lia).
  rewrite He, pkcs7_unpad_shape by lia. unfold pad_result, unpad_result. by rewrite !Ha.
Qed.

Lemma pkcs7_roundtrip_witness :
  exists padded, egg_padding_pkcs7_pad (fun _ => true) 4 [1; 2; 3; 4; 5] true = Ok (Zlen padded, Some padded) /\
    Zlen padded mod 4 = 0 /\
    egg_padding_pkcs7_unpad (fun _ => true) 4 padded true = Ok (5, Some [1; 2; 3; 4; 5; 0]).
Proof. apply (pkcs7_roundtrip (fun _ => true) 4 [1; 2; 3; 4; 5]); [done|lia|simpl; lia]. Defined.

(** C39: [egg_padding_pkcs7_unpad] accepts exactly the buffers that end in [k]
    bytes of value [k], for some [k] from 1 to 255 not above the block size, and
    never reads outside the buffer. *)
Theorem pkcs7_unpad_iff (alloc : Z -> bool) (block : Z) (padded raw : list Z) :
  (forall n, alloc n = true) -> bytes padded ->
  (egg_padding_pkcs7_unpad alloc block padded true = Ok (Zlen raw, Some (raw ++ [0])) <->
   exists k, padded = raw ++ replicate (Z.to_nat k) k /\ 0 < k < 256 /\ (block = 0 \/ k <= block))
  /\ egg_padding_pkcs7_unpad alloc block padded true <> Ub.
Proof.
  intros Ha Hby. split; [split|].
  - intros (raw' & k & -> & Hk & Hb & Hr)%pkcs7_unpad_inv; [|done].
    unfold unpad_result in Hr. rewrite Ha in Hr. injection Hr as _ Hr.
    apply (inj (fun l => l ++ [0])) in Hr as ->. exists k. split_and!; [done|lia|lia|lia].
  - intros (k & -> & Hk & Hb). rewrite pkcs7_unpad_shape by lia. unfold unpad_result. by rewrite Ha.
  - unfold egg_padding_pkcs7_unpad. destruct (Z.eqb_spec (Zlen padded) 0); [done|].
    destruct (rd_Some_iff padded (Zlen padded - 1)) as [_ [k ->]]; [lia|].
    unfold unpad_result. simpl. repeat case_match; done.
Qed.

Lemma pkcs7_unpad_iff_witness :
  egg_padding_pkcs7_unpad (fun _ => true) 8 [7; 2; 2] true = Ok (1, Some [7; 0]).
Proof.
  apply (pkcs7_unpad_iff (fun _ => true) 8 [7; 2; 2] [7]); [done|decide_now|].
  exists 2. split_and!; [done|lia|lia|by right].
Defined.

(** PKCS#1 type 1 round trip, with the exact condition under which the
    padding function runs at all: its assertion [n_pad <= block] fails when
    the data leaves one or two bytes in its last block. *)
Theorem pkcs1_01_roundtrip (alloc : Z -> bool) (block : Z) (raw : list Z) :
  (forall n, alloc n = true) -> 3 < block -> Zlen raw + 3 + block <= 2 ^ 64 ->
  let r := (Zlen raw + 3) mod block in
  (egg_padding_pkcs1_pad_01 alloc block raw true = Ub <-> r = 1 \/ r = 2) /\
  (r <> 1 -> r <> 2 -> exists padded,
     egg_padding_pkcs1_pad_01 alloc block raw true = Ok (Zlen padded, Some padded) /\
     Zlen padded mod block = 0 /\
     egg_padding_pkcs1_unpad_01 alloc block padded true = Ok (Zlen raw, Some (raw ++ [0]))).
Proof.
  intros Ha Hb Hf r. unfold egg_padding_pkcs1_pad_01. rewrite pkcs1_sizes_eq by done. fold r.
  pose proof (round_up (Zlen raw + 3) block ltac:(lia) ltac:(lia)) as [Hm Hr].
  set (np := (Zlen raw + 3 + (block - 1)) / block * block) in *.
  split.
  { destruct (Z.eqb_spec r 1), (Z.eqb_spec r 2); simpl; try naive_solver.
    unfold pad_result. rewrite Ha. naive_solver. }
  intros H1 H2. rewrite (proj2 (Z.eqb_neq r 1) H1), (proj2 (Z.eqb_neq r 2) H2). simpl orb. cbv iota.
  unfold mbind, res_bind. set (ps := replicate (Z.to_nat (np - Zlen raw - 3)) 255).
  assert (Hl : Zlen ([0; 1] ++ ps ++ [0] ++ raw) = np).
  { unfold ps. rewrite !length_app, length_replicate. simpl length. lia. }
  exists ([0; 1] ++ ps ++ [0] ++ raw). rewrite Hl.
  unfold egg_padding_pkcs1_unpad_01. rewrite unpad_pkcs1_shape; [|by intros [? _]%elem_of_replicate|right; by rewrite Hl].
  unfold pad_result, unpad_result. by rewrite !Ha.
Qed.

Lemma pkcs1_01_roundtrip_witness :
  egg_padding_pkcs1_pad_01 (fun _ => true) 8 [1; 2; 3; 4; 5; 6] true = Ub.
Proof. apply (pkcs1_01_roundtrip (fun _ => true) 8 [1; 2; 3; 4; 5; 6]); [done|lia|simpl; lia|by left]. Defined.

(** PKCS#1 type 2 round trip.  When some call of the random generator
    returns no zero byte, the filling loop ends by then, and unpadding gives
    the data back: no byte of the random padding can be mistaken for the
    separator. *)
Theorem pkcs1_02_roundtrip (alloc : Z -> bool) (rnd : nat -> nat -> list Z) (k : nat)
    (block : Z) (raw : list Z) :
  (forall n, alloc n = true) -> (forall i n, length (rnd i n) = n) ->
  (forall n, 0 ∉ rnd (1 + k)%nat n) ->
  3 < block -> Zlen raw + 3 + block <= 2 ^ 64 ->
  (Zlen raw + 3) mod block <> 1 -> (Zlen raw + 3) mod block <> 2 ->
  exists padded,
    egg_padding_pkcs1_pad_02 alloc rnd (S k) block raw true = Ok (Zlen padded, Some padded) /\
    Zlen padded mod block = 0 /\
    egg_padding_pkcs1_unpad_02 alloc block padded true = Ok (Zlen raw, Some (raw ++ [0])).
Proof.
  intros Ha Hlen Hnz Hb Hf H1 H2. unfold egg_padding_pkcs1_pad_02. rewrite pkcs1_sizes_eq by done.
  rewrite (proj2 (Z.eqb_neq _ 1) H1), (proj2 (Z.eqb_neq _ 2) H2). simpl orb. cbv iota.
  pose proof (round_up (Zlen raw + 3) block ltac:(lia) ltac:(lia)) as [Hm Hr].
  set (np := (Zlen raw + 3 + (block - 1)) / block * block) in *.
  unfold mbind, res_bind. rewrite Ha. unfold fill_random_nonzero.
  destruct (fill_loop_terminates rnd k (S k) 1 (rnd 0%nat (Z.to_nat (np - Zlen raw - 3))) Hlen Hnz)
    as [ps Hps]; [lia|]. rewrite Hps.
  destruct (fill_loop_Ok _ _ _ _ _ Hps) as [Hpl Hpz]. rewrite Hlen in Hpl.
  assert (Hl : Zlen ([0; 2] ++ ps ++ [0] ++ raw) = np).
  { rewrite !length_app. simpl length. lia. }
  exists ([0; 2] ++ ps ++ [0] ++ raw). rewrite Hl.
  unfold egg_padding_pkcs1_unpad_02. rewrite unpad_pkcs1_shape; [|done|right; by rewrite Hl].
  unfold unpad_result. by rewrite Ha.
Qed.

Lemma pkcs1_02_roundtrip_witness :
  let rnd := fun i n => replicate n (if (i =? 1)%nat then 7 else 0) in
  exists padded,
    egg_padding_pkcs1_pad_02 (fun _ => true) rnd 1 8 [1; 2] true = Ok (Zlen padded, Some padded) /\
    Zlen padded mod 8 = 0 /\
    egg_padding_pkcs1_unpad_02 (fun _ => true) 8 padded true = Ok (2, Some [1; 2; 0]).
Proof.
  intros rnd. apply (pkcs1_02_roundtrip (fun _ => true) rnd 0 8 [1; 2]).
  - done.
  - intros i n. apply length_replicate.
  - intros n [? _]%elem_of_replicate. done.
  - lia.
  - simpl. lia.
  - done.
  - done.
Defined.

(** Zero padding: the result fills whole blocks, adds less than one block
    of zero bytes in front, and ends with the data. *)
Theorem egg_padding_zero_pad_correct (alloc : Z -> bool) (block : Z) (raw : list Z) :
  (forall n, alloc n = true) -> 0 < block -> Zlen raw + block <= 2 ^ 64 ->
  exists k, Z.of_nat k < block /\ (Zlen raw + Z.of_nat k) mod block = 0 /\
    egg_padding_zero_pad alloc block raw true
    = Ok (Zlen raw + Z.of_nat k, Some (replicate k 0 ++ raw)).
Proof.
  intros Ha Hb Hf. pose proof (round_up (Zlen raw) block ltac:(lia) Hb) as [Hm Hr].
  set (np := (Zlen raw + (block - 1)) / block * block) in *.
  exists (Z.to_nat (np - Zlen raw)). split; [lia|].
  replace (Zlen raw + Z.of_nat (Z.to_nat (np - Zlen raw))) with np by lia. split; [done|].
  unfold egg_padding_zero_pad. destruct (Z.eqb_spec block 0); [lia|].
  rewrite u64_round_up by lia. fold np.
  destruct (Z.leb_spec (Zlen raw) np), (Z.ltb_spec (np - Zlen raw) block); try lia. simpl.
  unfold pad_result. by rewrite Ha.
Qed.

Lemma egg_padding_zero_pad_correct_witness :
  exists k, Z.of_nat k < 4 /\ (5 + Z.of_nat k) mod 4 = 0 /\
    egg_padding_zero_pad (fun _ => true) 4 [1; 2; 3; 4; 5] true
    = Ok (5 + Z.of_nat k, Some (replicate k 0 ++ [1; 2; 3; 4; 5])).
Proof. apply (egg_padding_zero_pad_correct (fun _ => true) 4 [1; 2; 3; 4; 5]); [done|lia|simpl; lia]. Defined.

(** An empty buffer passes the block test of [unpad_pkcs1], which then reads
    its first byte. *)
Lemma unpad_pkcs1_empty_reads (alloc : Z -> bool) block want :
  egg_padding_pkcs1_unpad_01 alloc block [] want = Ub.
Proof.
  unfold egg_padding_pkcs1_unpad_01, unpad_pkcs1. change (Z.of_nat (length [])) with 0.
  by rewrite Zmod_0_l, andb_false_r.
Qed.
