(* ===== verification/Buffer.v ===== *)
(** Growable byte buffers: [src/egg/egg-buffer.c].

    The operations change the buffer in place and return 0 or 1: here they
    return that result with the new buffer.  Reading or writing outside the
    memory block is [Ub].  [size_t] arithmetic wraps at 2^64.  The allocator is
    the caller's function ([EggBufferAllocator]): [realloc a old n] is what
    allocator [a] returns for the block [old] ([None] for NULL) and size [n]. *)

From S2P Require Import Prelude.
Local Open Scope Z_scope.

Record EggBuffer := mk_buffer {
  buf : option (list Z);
  len : Z;
  allocated_len : Z;
  failures : Z;
  allocator : option nat }.

Definition DEFAULT_ALLOCATOR : nat := 0%nat.

(** [buffer->failures++] *)
Definition buffer_fail (b : EggBuffer) : EggBuffer :=
  mk_buffer (buf b) (len b) (allocated_len b) (failures b + 1) (allocator b).
Definition set_buffer_len (b : EggBuffer) (n : Z) : EggBuffer :=
  mk_buffer (buf b) n (allocated_len b) (failures b) (allocator b).

(** [memset (buffer, 0, sizeof *buffer)] *)
Definition buffer_zero : EggBuffer := mk_buffer None 0 0 0 None.

Definition egg_buffer_init_static (data : list Z) : EggBuffer :=
  mk_buffer (Some data) (Zlen data) (Zlen data) 0 None.

Definition egg_buffer_init_allocated (data : list Z) (a : option nat) : EggBuffer :=
  mk_buffer (Some data) (Zlen data) (Zlen data) 0 (Some (default DEFAULT_ALLOCATOR a)).

Definition egg_buffer_uninit_steal (b : EggBuffer) : option (list Z) * Z * EggBuffer :=
  (buf b, len b, buffer_zero).

(** [egg_buffer_uninit]: also the block handed back to the allocator, if any. *)
Definition egg_buffer_uninit (b : EggBuffer) : option (nat * list Z) * EggBuffer :=
  (match buf b, allocator b with Some m, Some a => Some (a, m) | _, _ => None end, buffer_zero).

Definition egg_buffer_reset (b : EggBuffer) : res unit EggBuffer :=
  m ← or_ub (buf b);
  m' ← or_ub (wr m 0 (replicate (Z.to_nat (allocated_len b)) 0));
  Ok (mk_buffer (Some m') 0 (allocated_len b) 0 (allocator b)).

(** [memcmp (b1->buf, b2->buf, b1->len) == 0] *)
Definition egg_buffer_equal (b1 b2 : EggBuffer) : res unit bool :=
  if negb (len b1 =? len b2) then Ok false else
  m1 ← or_ub (buf b1); m2 ← or_ub (buf b2);
  s1 ← or_ub (slice m1 0 (len b1)); s2 ← or_ub (slice m2 0 (len b1));
  Ok (bool_decide (s1 = s2)).

(** * Fixed-width integers *)

Definition egg_buffer_encode_uint16 (val : Z) : list Z :=
  [Z.land (Z.shiftr val 8) 255; Z.land (Z.shiftr val 0) 255].
Definition egg_buffer_decode_uint16 (p0 p1 : Z) : Z := u16 (Z.lor (Z.shiftl p0 8) p1).
Definition egg_buffer_encode_uint32 (val : Z) : list Z :=
  [Z.land (Z.shiftr val 24) 255; Z.land (Z.shiftr val 16) 255;
   Z.land (Z.shiftr val 8) 255; Z.land (Z.shiftr val 0) 255].
Definition egg_buffer_decode_uint32 (p0 p1 p2 p3 : Z) : Z :=
  u32 (Z.lor (Z.lor (Z.lor (Z.shiftl p0 24) (Z.shiftl p1 16)) (Z.shiftl p2 8)) p3).

(** [*ptr = ...] through [(unsigned char* )buffer->buf + offset]. *)
Definition buffer_store (b : EggBuffer) (offset : Z) (val : list Z) : res unit EggBuffer :=
  m ← or_ub (buf b);
  m' ← or_ub (wr m offset val);
  Ok (mk_buffer (Some m') (len b) (allocated_len b) (failures b) (allocator b)).

Definition buffer_load (b : EggBuffer) (offset n : Z) : res unit (list Z) :=
  m ← or_ub (buf b); or_ub (slice m offset n).

(** The bounds test of the accessors: [buffer->len < n || offset > buffer->len - n] *)
Definition out_of_buffer (b : EggBuffer) (offset n : Z) : bool :=
  (len b <? n) || (len b - n <? offset).

Definition egg_buffer_set_uint16 (b : EggBuffer) (offset val : Z) : res unit (bool * EggBuffer) :=
  if out_of_buffer b offset 2 then Ok (false, buffer_fail b) else
  b' ← buffer_store b offset (egg_buffer_encode_uint16 val); Ok (true, b').
Definition egg_buffer_set_uint32 (b : EggBuffer) (offset val : Z) : res unit (bool * EggBuffer) :=
  if out_of_buffer b offset 4 then Ok (false, buffer_fail b) else
  b' ← buffer_store b offset (egg_buffer_encode_uint32 val); Ok (true, b').

(** The reading operations: the value and [*next_offset] on success. *)
Definition egg_buffer_get_byte (b : EggBuffer) (offset : Z)
    : res unit (option (Z * Z) * EggBuffer) :=
  if out_of_buffer b offset 1 then Ok (None, buffer_fail b) else
  p ← buffer_load b offset 1;
  match p with [v] => Ok (Some (v, u64 (offset + 1)), b) | _ => Ub end.
Definition egg_buffer_get_uint16 (b : EggBuffer) (offset : Z)
    : res unit (option (Z * Z) * EggBuffer) :=
  if out_of_buffer b offset 2 then Ok (None, buffer_fail b) else
  p ← buffer_load b offset 2;
  match p with
  | [p0; p1] => Ok (Some (egg_buffer_decode_uint16 p0 p1, u64 (offset + 2)), b)
  | _ => Ub end.
Definition egg_buffer_get_uint32 (b : EggBuffer) (offset : Z)
    : res unit (option (Z * Z) * EggBuffer) :=
  if out_of_buffer b offset 4 then Ok (None, buffer_fail b) else
  p ← buffer_load b offset 4;
  match p with
  | [p0; p1; p2; p3] => Ok (Some (egg_buffer_decode_uint32 p0 p1 p2 p3, u64 (offset + 4)), b)
  | _ => Ub end.
Definition egg_buffer_get_uint64 (b : EggBuffer) (offset : Z)
    : res unit (option (Z * Z) * EggBuffer) :=
  '(ra, b) ← egg_buffer_get_uint32 b offset;
  match ra with
  | None => Ok (None, b)
  | Some (a, offset) =>
    '(rb, b) ← egg_buffer_get_uint32 b offset;
    match rb with
    | None => Ok (None, b)
    | Some (c, offset) => Ok (Some (Z.lor (u64 (Z.shiftl a 32)) c, offset), b)
    end
  end.

(** The value is [None] for the NULL array, and otherwise the bytes at the
    pointer returned. *)
Definition egg_buffer_get_byte_array (b : EggBuffer) (offset : Z)
    : res unit (option (option (list Z) * Z) * EggBuffer) :=
  '(rl, b) ← egg_buffer_get_uint32 b offset;
  match rl with
  | None => Ok (None, b)
  | Some (n, offset) =>
    if n =? 0xffffffff then Ok (Some (None, offset), b)
    else if 0x7fffffff <=? n then Ok (None, buffer_fail b)
    else if out_of_buffer b offset n then Ok (None, buffer_fail b)
    else p ← buffer_load b offset n; Ok (Some (Some p, u64 (offset + n)), b)
  end.

(** The encodings are big-endian. *)
Lemma encode_uint32_be val : egg_buffer_encode_uint32 val = be_bytes 4 val.
Proof.
  unfold egg_buffer_encode_uint32. simpl. rewrite !land_255, !Z.shiftr_div_pow2 by lia.
  rewrite !Z.div_div by lia. change (2 ^ 0) with 1. by rewrite Z.div_1_r.
Qed.
Lemma encode_uint16_be val : egg_buffer_encode_uint16 val = be_bytes 2 val.
Proof.
  unfold egg_buffer_encode_uint16. simpl. rewrite !land_255, !Z.shiftr_div_pow2 by lia.
  change (2 ^ 0) with 1. by rewrite Z.div_1_r.
Qed.

Lemma decode_uint32_be p0 p1 p2 p3 : bytes [p0; p1; p2; p3] ->
  egg_buffer_decode_uint32 p0 p1 p2 p3 = be_val [p0; p1; p2; p3].
Proof.
  intros Hb. pose proof (be_val_bound _ Hb) as Hv. rewrite !Forall_cons in Hb.
  unfold is_byte in Hb. destruct Hb as (?&?&?&?&_).
  unfold egg_buffer_decode_uint32. rewrite <- !Z.lor_assoc.
  rewrite (lor_shift_add p2), (lor_shift_add p1), (lor_shift_add p0) by lia.
  rewrite u32_small; unfold be_val, be_acc in *; lia.
Qed.
Lemma decode_uint16_be p0 p1 : bytes [p0; p1] ->
  egg_buffer_decode_uint16 p0 p1 = be_val [p0; p1].
Proof.
  intros Hb. rewrite !Forall_cons in Hb. unfold is_byte in Hb.
  unfold egg_buffer_decode_uint16, u16. rewrite lor_shift_add by lia.
  unfold be_val, be_acc. rewrite Z.mod_small; lia.
Qed.

Lemma encode_uint32_length val : length (egg_buffer_encode_uint32 val) = 4%nat.
Proof. done. Qed.

(** * Operations that may grow the buffer *)

Section Buffer.
Context (realloc : nat -> option (list Z) -> Z -> option (list Z)).

Definition egg_buffer_init_full (reserve : Z) (a : option nat) : bool * EggBuffer :=
  let a := default DEFAULT_ALLOCATOR a in
  let reserve := if reserve =? 0 then 64 else reserve in
  match realloc a None reserve with
  | None => (false, buffer_fail buffer_zero)
  | Some m => (true, mk_buffer (Some m) 0 reserve 0 (Some a))
  end.
Definition egg_buffer_init (reserve : Z) : bool * EggBuffer := egg_buffer_init_full reserve None.

Definition egg_buffer_set_allocator (b : EggBuffer) (a : option nat) : res unit (bool * EggBuffer) :=
  let a := default DEFAULT_ALLOCATOR a in
  if bool_decide (allocator b = Some a) then Ok (true, b) else
  if allocated_len b =? 0 then Ok (true, mk_buffer None (len b) (allocated_len b) (failures b) (Some a))
  else match realloc a None (allocated_len b) with
  | None => Ok (false, b)
  | Some m =>
    old ← or_ub (buf b); src ← or_ub (slice old 0 (allocated_len b));
    m' ← or_ub (wr m 0 src);
    Ok (true, mk_buffer (Some m') (len b) (allocated_len b) (failures b) (Some a))
  end.

Definition egg_buffer_reserve (b : EggBuffer) (n : Z) : bool * EggBuffer :=
  if n <? allocated_len b then (true, b) else
  let newlen := u64 (allocated_len b * 2) in
  let newlen := if newlen <? n then u64 (newlen + n) else newlen in
  match allocator b with
  | None => (false, buffer_fail b)
  | Some a =>
    match realloc a (buf b) newlen with
    | None => (false, buffer_fail b)
    | Some m => (true, mk_buffer (Some m) (len b) newlen (failures b) (allocator b))
    end
  end.

Definition egg_buffer_resize (b : EggBuffer) (n : Z) : bool * EggBuffer :=
  let '(r, b) := egg_buffer_reserve b n in
  if r then (true, set_buffer_len b n) else (false, b).

(** Returns the position of the new bytes. *)
Definition egg_buffer_add_empty (b : EggBuffer) (n : Z) : option Z * EggBuffer :=
  let pos := len b in
  let '(r, b) := egg_buffer_reserve b (u64 (len b + n)) in
  if r then (Some pos, set_buffer_len b (u64 (len b + n))) else (None, b).

Definition egg_buffer_append (b : EggBuffer) (val : list Z) : res unit (bool * EggBuffer) :=
  let '(r, b) := egg_buffer_reserve b (u64 (len b + Zlen val)) in
  if r then
    b ← buffer_store b (len b) val; Ok (true, set_buffer_len b (u64 (len b + Zlen val)))
  else Ok (false, b).

Definition egg_buffer_add_byte (b : EggBuffer) (val : Z) : res unit (bool * EggBuffer) :=
  let '(r, b) := egg_buffer_reserve b (u64 (len b + 1)) in
  if r then b ← buffer_store b (len b) [val]; Ok (true, set_buffer_len b (u64 (len b + 1)))
  else Ok (false, b).

Definition egg_buffer_add_uint16 (b : EggBuffer) (val : Z) : res unit (bool * EggBuffer) :=
  let '(r, b) := egg_buffer_reserve b (u64 (len b + 2)) in
  if r then
    let b := set_buffer_len b (u64 (len b + 2)) in
    '(_, b) ← egg_buffer_set_uint16 b (u64 (len b - 2)) val; Ok (true, b)
  else Ok (false, b).
Definition egg_buffer_add_uint32 (b : EggBuffer) (val : Z) : res unit (bool * EggBuffer) :=
  let '(r, b) := egg_buffer_reserve b (u64 (len b + 4)) in
  if r then
    let b := set_buffer_len b (u64 (len b + 4)) in
    '(_, b) ← egg_buffer_set_uint32 b (u64 (len b - 4)) val; Ok (true, b)
  else Ok (false, b).
Definition egg_buffer_add_uint64 (b : EggBuffer) (val : Z) : res unit (bool * EggBuffer) :=
  '(r, b) ← egg_buffer_add_uint32 b (Z.land (Z.shiftr val 32) 0xffffffff);
  if r : bool then egg_buffer_add_uint32 b (Z.land val 0xffffffff) else Ok (false, b).

Definition egg_buffer_add_byte_array (b : EggBuffer) (val : option (list Z))
    : res unit (bool * EggBuffer) :=
  match val with
  | None => egg_buffer_add_uint32 b 0xffffffff
  | Some v =>
    if 0x7fffffff <=? Zlen v then Ok (false, buffer_fail b) else
    '(r, b) ← egg_buffer_add_uint32 b (Zlen v);
    if r : bool then egg_buffer_append b v else Ok (false, b)
  end.

Definition egg_buffer_add_byte_array_empty (b : EggBuffer) (vlen : Z)
    : res unit (option Z * EggBuffer) :=
  if 0x7fffffff <=? vlen then Ok (None, buffer_fail b) else
  '(r, b) ← egg_buffer_add_uint32 b vlen;
  if r : bool then Ok (egg_buffer_add_empty b vlen) else Ok (None, b).

(** A C string is the list of its characters, without the NUL. *)
Definition egg_buffer_add_string (b : EggBuffer) (str : option (list Z))
    : res unit (bool * EggBuffer) :=
  match str with
  | None => egg_buffer_add_uint32 b 0xffffffff
  | Some s =>
    if 0x7fffffff <=? Zlen s then Ok (false, b) else
    '(r, b) ← egg_buffer_add_uint32 b (Zlen s);
    if r : bool then egg_buffer_append b s else Ok (false, b)
  end.

(** The string is copied into [len + 1] bytes of the chosen allocator and
    terminated; the result is its characters, [None] for the NULL string. *)
Definition egg_buffer_get_string (b : EggBuffer) (offset : Z) (a : option nat)
    : res unit (option (option (list Z) * Z) * EggBuffer) :=
  let a := match a with Some a => a | None => default DEFAULT_ALLOCATOR (allocator b) end in
  '(rl, b) ← egg_buffer_get_uint32 b offset;
  match rl with
  | None => Ok (None, b)
  | Some (n, offset) =>
    if n =? 0xffffffff then Ok (Some (None, offset), b)
    else if 0x7fffffff <=? n then Ok (None, b)
    else if out_of_buffer b offset n then Ok (None, b)
    else
      p ← buffer_load b offset n;
      if bool_decide (is_Some (index_of 0 p)) then Ok (None, b) else
      match realloc a None (n + 1) with
      | None => Ok (None, b)
      | Some m => m' ← or_ub (wr m 0 (p ++ [0])); Ok (Some (Some (c_str m'), u64 (offset + n)), b)
      end
  end.

Fixpoint add_strings (b : EggBuffer) (strv : list (list Z)) : res unit (bool * EggBuffer) :=
  match strv with
  | [] => Ok (true, b)
  | s :: rest =>
    '(r, b) ← egg_buffer_add_string b (Some s);
    if r : bool then add_strings b rest else Ok (false, b)
  end.
Definition egg_buffer_add_stringv (b : EggBuffer) (strv : option (list (list Z)))
    : res unit (bool * EggBuffer) :=
  match strv with
  | None => Ok (false, b)
  | Some strv =>
    '(r, b) ← egg_buffer_add_uint32 b (u32 (Zlen strv));
    if r : bool then add_strings b strv else Ok (false, b)
  end.

(** [slots] is the number of pointers the array was allocated for; storing
    past it is [Ub].  The fuel bounds the strings read: each takes at least
    four bytes of the buffer. *)
Fixpoint get_strings (fuel : nat) (b : EggBuffer) (offset n i slots : Z) (a : option nat)
    (acc : list (option (list Z))) : res unit (option (list (option (list Z)) * Z) * EggBuffer) :=
  if n <=? i then Ok (Some (acc, offset), b) else
  match fuel with
  | O => Ub
  | S fuel' =>
    '(rs, b) ← egg_buffer_get_string b offset a;
    match rs with
    | None => Ok (None, b)
    | Some (s, offset) =>
      c_assert (i <? slots);;
      get_strings fuel' b offset n (i + 1) slots a (acc ++ [s])
    end
  end.
Definition egg_buffer_get_stringv (b : EggBuffer) (offset : Z) (a : option nat)
    : res unit (option (list (option (list Z)) * Z) * EggBuffer) :=
  let a := match a with Some a => a | None => default DEFAULT_ALLOCATOR (allocator b) end in
  '(rn, b) ← egg_buffer_get_uint32 b offset;
  match rn with
  | None => Ok (None, b)
  | Some (n, offset) =>
    match realloc a None (u32 (n + 1) * 8) with
    | None => Ok (None, b)
    | Some _ => get_strings (S (Z.to_nat (len b))) b offset n 0 (u32 (n + 1)) (Some a) []
    end
  end.

(** * Well-formed buffers *)

(** Sizes agree with the memory block; no block reaches 2^62 bytes. *)
Record buffer_wf (b : EggBuffer) : Prop := {
  wf_len : 0 <= len b <= allocated_len b;
  wf_cap : allocated_len b < 2 ^ 62;
  wf_buf : match buf b with Some m => Zlen m = allocated_len b | None => allocated_len b = 0 end }.

(** The data in the buffer. *)
Definition content (b : EggBuffer) : list Z := take (Z.to_nat (len b)) (default [] (buf b)).

(** What [EggBufferAllocator] documents ("the realloc() syntax and logic"): a
    block of the size asked for, with the old data at its start. *)
Definition realloc_ok : Prop := forall a old n m, 0 <= n -> realloc a old n = Some m ->
  Zlen m = n /\
  forall o k, old = Some o -> (k <= length o)%nat -> Z.of_nat k <= n -> take k m = take k o.

Hypothesis Hrealloc : realloc_ok.

Lemma content_length b : buffer_wf b -> Zlen (content b) = len b.
Proof.
  intros [Hl Hc Hb]. unfold content. rewrite length_take.
  destruct (buf b); simpl; lia.
Qed.

Lemma buffer_fail_wf b : buffer_wf b -> buffer_wf (buffer_fail b).
Proof. by intros []. Qed.

(** Growing: the data is kept, the block is large enough. *)
Lemma reserve_spec b n : buffer_wf b -> len b <= n < 2 ^ 60 ->
  let '(r, b') := egg_buffer_reserve b n in
  buffer_wf b' /\ len b' = len b /\ allocator b' = allocator b /\ content b' = content b /\
  (if r : bool then n <= allocated_len b' /\ is_Some (buf b') /\ failures b' = failures b
   else b' = buffer_fail b).
Proof.
  intros Hwf Hn. pose proof Hwf as [Hl Hc Hb]. unfold egg_buffer_reserve.
  destruct (Z.ltb_spec n (allocated_len b)) as [Hlt|Hge].
  { split_and!; try done; [lia|]. destruct (buf b); [eauto|lia]. }
  set (nl := u64 (allocated_len b * 2)).
  assert (nl = allocated_len b * 2) as Hnl by (apply u64_small; lia).
  set (nl' := if nl <? n then u64 (nl + n) else nl).
  assert (n <= nl' <= 3 * n) as Hnl'.
  { unfold nl'. rewrite Hnl. destruct (Z.ltb_spec (allocated_len b * 2) n); [rewrite u64_small; lia|lia]. }
  destruct (allocator b) as [a|] eqn:Ea; [|by split_and!].
  destruct (realloc a (buf b) nl') as [m|] eqn:Er; [|by split_and!].
  destruct (Hrealloc a (buf b) nl' m ltac:(lia) Er) as [Hm Ht].
  split_and!; simpl; try done; try lia; [by constructor; simpl; lia| ].
  unfold content. simpl. destruct (buf b) as [o|]; simpl.
  - apply Ht; [done|lia|lia].
  - by replace (len b) with 0 by lia.
Qed.

(** Storing inside the block. *)
Lemma buffer_store_spec b off v m : buffer_wf b -> buf b = Some m -> 0 <= off ->
  off + Zlen v <= allocated_len b ->
  buffer_store b off v = Ok (mk_buffer (Some (take (Z.to_nat off) m ++ v ++ drop (Z.to_nat off + length v) m))
    (len b) (allocated_len b) (failures b) (allocator b)).
Proof.
  intros [Hl Hc Hb] Hm Hoff Hfit. rewrite Hm in Hb. unfold buffer_store. rewrite Hm. simpl.
  unfold wr. destruct (Z.leb_spec 0 off), (Z.leb_spec (off + Zlen v) (Zlen m)); (done || lia).
Qed.

(** What an operation that adds [v] at the end does: on success the data grows
    by [v]; on failure it is a part of that. *)
Definition appends (b : EggBuffer) (v : list Z) (r : bool) (b' : EggBuffer) : Prop :=
  buffer_wf b' /\ allocator b' = allocator b /\
  if r then content b' = content b ++ v /\ failures b' = failures b
  else content b `prefix_of` content b' /\ content b' `prefix_of` content b ++ v.

Lemma appends_fail b v : buffer_wf b -> appends b v false (buffer_fail b).
Proof. intros. split_and!; [by apply buffer_fail_wf|done|done|by apply prefix_app_r]. Qed.

Lemma appends_same b v : buffer_wf b -> appends b v false b.
Proof. intros. split_and!; [done|done|done|by apply prefix_app_r]. Qed.

Lemma appends_nil b : buffer_wf b -> appends b [] true b.
Proof. intros. split_and!; [done|done|by rewrite app_nil_r|done]. Qed.

Lemma appends_trans b v r b1 w b2 : appends b v true b1 -> appends b1 w r b2 ->
  appends b (v ++ w) r b2.
Proof.
  intros (_ & Ha1 & Hc1 & Hf1) (Hw & Ha2 & H2). split_and!; [done|congruence|].
  destruct r; rewrite Hc1 in H2; rewrite app_assoc; [naive_solver congruence|].
  destruct H2 as [H2 H3]. split; [|done]. etrans; [by apply prefix_app_r|done].
Qed.

Lemma appends_fail_l b v w b' : appends b v false b' -> appends b (v ++ w) false b'.
Proof.
  intros (?&?&?&?). split_and!; [done|done|done|]. rewrite app_assoc. by apply prefix_app_r.
Qed.

Lemma append_spec b v : buffer_wf b -> len b + Zlen v < 2 ^ 60 ->
  exists r b', egg_buffer_append b v = Ok (r, b') /\ appends b v r b' /\ (r = false -> b' = buffer_fail b).
Proof.
  intros Hwf Hfit. pose proof (wf_len _ Hwf). pose proof (wf_cap _ Hwf).
  unfold egg_buffer_append. rewrite u64_small by lia.
  pose proof (reserve_spec b (len b + Zlen v) Hwf ltac:(lia)) as Hr.
  destruct (egg_buffer_reserve b (len b + Zlen v)) as [r b1].
  destruct Hr as (Hwf1 & Hl1 & Ha1 & Hc1 & Hr). destruct r.
  2: { exists false, b1. subst b1. split_and!; [done|by apply appends_fail|done]. }
  destruct Hr as (Hal & [m Hm] & Hf1).
  rewrite (buffer_store_spec b1 (len b1) v m) by (done || lia). simpl. rewrite Hl1, u64_small by lia.
  eexists true, _. split; [done|]. split; [|done].
  pose proof (wf_buf _ Hwf1) as Hb1. rewrite Hm in Hb1. pose proof (wf_cap _ Hwf1).
  split_and!; simpl; [|done| |done].
  - constructor; simpl; [lia|lia|]. rewrite !length_app, length_take, length_drop. lia.
  - unfold content in *. rewrite Hm, Hl1 in Hc1. rewrite <- Hc1. simpl.
    set (p := take (Z.to_nat (len b)) m) in *.
    assert (length p = Z.to_nat (len b)) by (unfold p; rewrite length_take; simpl in *; lia).
    rewrite app_assoc. rewrite take_app_length'; [done|]. rewrite length_app. lia.
Qed.

(** The fixed-width writers are appends of their encodings. *)
Lemma add_uint32_append b val : buffer_wf b -> len b + 4 < 2 ^ 60 ->
  egg_buffer_add_uint32 b val = egg_buffer_append b (egg_buffer_encode_uint32 val).
Proof.
  intros Hwf Hfit. pose proof (wf_len _ Hwf).
  unfold egg_buffer_add_uint32, egg_buffer_append. change (Zlen (egg_buffer_encode_uint32 val)) with 4.
  rewrite (u64_small (len b + 4)) by lia.
  pose proof (reserve_spec b (len b + 4) Hwf ltac:(lia)) as Hr.
  destruct (egg_buffer_reserve b (len b + 4)) as [r b1].
  destruct Hr as (Hwf1 & Hl1 & Ha1 & Hc1 & Hr). destruct r; [|done].
  destruct Hr as (Hal & [m Hm] & Hf1). rewrite Hl1, (u64_small (len b + 4)) by lia.
  unfold egg_buffer_set_uint32, out_of_buffer. simpl len. rewrite u64_small by lia.
  destruct (Z.ltb_spec (len b + 4) 4), (Z.ltb_spec (len b + 4 - 4) (len b + 4 - 4)); try lia. simpl orb.
  replace (len b + 4 - 4) with (len b) by lia. unfold buffer_store. simpl. rewrite Hm. simpl.
  destruct (wr m (len b) _); simpl; [|done]. by rewrite Hl1, u64_small by lia.
Qed.

(** * What the writers append *)


Definition enc_byte_array (v : option (list Z)) : list Z :=
  match v with
  | None => egg_buffer_encode_uint32 0xffffffff
  | Some v => egg_buffer_encode_uint32 (Zlen v) ++ v
  end.
Definition enc_stringv (strv : list (list Z)) : list Z :=
  egg_buffer_encode_uint32 (u32 (Zlen strv)) ++ concat ((fun s => enc_byte_array (Some s)) <$> strv).

Lemma add_uint32_spec b val : buffer_wf b -> len b + 4 < 2 ^ 60 ->
  exists r b', egg_buffer_add_uint32 b val = Ok (r, b') /\
    appends b (egg_buffer_encode_uint32 val) r b' /\ (r = false -> b' = buffer_fail b).
Proof. intros. rewrite add_uint32_append by done. by apply append_spec. Qed.

Lemma appends_len b v b' : buffer_wf b -> appends b v true b' -> len b' = len b + Zlen v.
Proof.
  intros Hwf (Hwf' & _ & Hc & _). apply content_length in Hwf, Hwf'.
  rewrite <- Hwf', Hc, length_app. lia.
Qed.

(** A four-byte length followed by the data itself. *)
Lemma add_counted_spec b v : buffer_wf b -> len b + 4 + Zlen v < 2 ^ 60 ->
  exists r b', ('(r, b) ← egg_buffer_add_uint32 b (Zlen v);
                if r : bool then egg_buffer_append b v else Ok (false, b)) = Ok (r, b') /\
    appends b (enc_byte_array (Some v)) r b'.
Proof.
  intros Hwf Hfit.
  destruct (add_uint32_spec b (Zlen v) Hwf ltac:(lia)) as (r & b1 & He & Ha & _).
  rewrite He. simpl. destruct r; [|exists false, b1; split; [done|exact (appends_fail_l _ _ _ _ Ha)]].
  pose proof (appends_len _ _ _ Hwf Ha) as Hl. rewrite encode_uint32_length in Hl.
  destruct (append_spec b1 v) as (r & b2 & He2 & Ha2 & _); [apply Ha|lia|].
  exists r, b2. split; [done|]. exact (appends_trans _ _ _ _ _ _ Ha Ha2).
Qed.

Lemma add_byte_array_spec b v : buffer_wf b ->
  len b + 4 + Zlen (default [] v) < 2 ^ 60 ->
  exists r b', egg_buffer_add_byte_array b v = Ok (r, b') /\ appends b (enc_byte_array v) r b'.
Proof.
  intros Hwf Hfit. destruct v as [v|]; simpl in *.
  - destruct (Z.leb_spec 0x7fffffff (Zlen v)).
    + exists false, (buffer_fail b). split; [done|by apply appends_fail].
    + by apply add_counted_spec.
  - destruct (add_uint32_spec b 0xffffffff Hwf ltac:(lia)) as (r & b' & ? & ? & _). eauto.
Qed.

Lemma add_string_spec b v : buffer_wf b ->
  len b + 4 + Zlen (default [] v) < 2 ^ 60 ->
  exists r b', egg_buffer_add_string b v = Ok (r, b') /\ appends b (enc_byte_array v) r b'.
Proof.
  intros Hwf Hfit. destruct v as [v|]; simpl in *.
  - destruct (Z.leb_spec 0x7fffffff (Zlen v)).
    + exists false, b. split; [done|by apply appends_same].
    + by apply add_counted_spec.
  - destruct (add_uint32_spec b 0xffffffff Hwf ltac:(lia)) as (r & b' & ? & ? & _). eauto.
Qed.

Definition strings_size (strv : list (list Z)) : Z :=
  Zlen (concat ((fun s => enc_byte_array (Some s)) <$> strv)).

Lemma add_strings_spec strv b : buffer_wf b -> len b + strings_size strv < 2 ^ 60 ->
  exists r b', add_strings b strv = Ok (r, b') /\
    appends b (concat ((fun s => enc_byte_array (Some s)) <$> strv)) r b'.
Proof.
  revert b; induction strv as [|s rest IH]; intros b Hwf Hfit.
  { exists true, b. split; [done|by apply appends_nil]. }
  unfold strings_size in Hfit, IH. cbn [fmap list_fmap concat] in *. rewrite length_app in Hfit.
  assert (Zlen (enc_byte_array (Some s)) = 4 + Zlen s) as Hs by (simpl; lia).
  destruct (add_string_spec b (Some s) Hwf) as (r & b1 & He & Ha); [simpl default; lia|].
  cbn [add_strings]. rewrite He. simpl. destruct r; [|exists false, b1; split; [done|exact (appends_fail_l _ _ _ _ Ha)]].
  pose proof (appends_len _ _ _ Hwf Ha).
  destruct (IH b1) as (r & b2 & He2 & Ha2); [apply Ha|lia|].
  exists r, b2. split; [done|]. exact (appends_trans _ _ _ _ _ _ Ha Ha2).
Qed.

Lemma add_stringv_spec strv b : buffer_wf b -> len b + 4 + strings_size strv < 2 ^ 60 ->
  exists r b', egg_buffer_add_stringv b (Some strv) = Ok (r, b') /\ appends b (enc_stringv strv) r b'.
Proof.
  intros Hwf Hfit. simpl.
  destruct (add_uint32_spec b (u32 (Zlen strv)) Hwf ltac:(unfold strings_size in Hfit; lia)) as (r & b1 & He & Ha & _).
  rewrite He. simpl. destruct r; [|exists false, b1; split; [done|exact (appends_fail_l _ _ _ _ Ha)]].
  pose proof (appends_len _ _ _ Hwf Ha) as Hl. rewrite encode_uint32_length in Hl.
  destruct (add_strings_spec strv b1) as (r & b2 & He2 & Ha2); [apply Ha|lia|].
  exists r, b2. split; [done|]. exact (appends_trans _ _ _ _ _ _ Ha Ha2).
Qed.
End Buffer.

(** * What the readers see *)

Lemma buffer_load_content b pre v post : buffer_wf b -> content b = pre ++ v ++ post ->
  0 < len b -> buffer_load b (Zlen pre) (Zlen v) = Ok v.
Proof.
  intros Hwf Hc Hpos. pose proof Hwf as [Hl Hcap Hb]. unfold buffer_load, content in *.
  destruct (buf b) as [m|]; [|lia]. simpl in *.
  rewrite <- (take_drop (Z.to_nat (len b)) m), Hc, <- app_assoc, <- app_assoc. by rewrite slice_app.
Qed.

(** Splitting the data at an offset inside it. *)
Lemma content_split b off n : buffer_wf b -> 0 <= off -> 0 <= n -> off + n <= len b ->
  exists pre v post, content b = pre ++ v ++ post /\ Zlen pre = off /\ Zlen v = n.
Proof.
  intros Hwf Hoff Hn Hfit. apply content_length in Hwf.
  exists (take (Z.to_nat off) (content b)), (take (Z.to_nat n) (drop (Z.to_nat off) (content b))),
    (drop (Z.to_nat n) (drop (Z.to_nat off) (content b))).
  rewrite !take_drop, !length_take, !length_drop. split_and!; [done|lia|lia].
Qed.

Lemma out_of_buffer_false b off n : out_of_buffer b off n = false <-> off + n <= len b /\ n <= len b.
Proof. unfold out_of_buffer. destruct (Z.ltb_spec (len b) n), (Z.ltb_spec (len b - n) off); simpl; lia. Qed.

Lemma get_uint32_content b pre v post : buffer_wf b -> 0 <= v < 2 ^ 32 ->
  content b = pre ++ egg_buffer_encode_uint32 v ++ post ->
  egg_buffer_get_uint32 b (Zlen pre) = Ok (Some (v, Zlen pre + 4), b).
Proof.
  intros Hwf Hv Hc. pose proof (content_length b Hwf) as Hl.
  pose proof (wf_len _ Hwf). pose proof (wf_cap _ Hwf).
  rewrite Hc, !length_app, encode_uint32_length in Hl.
  unfold egg_buffer_get_uint32. rewrite (proj2 (out_of_buffer_false _ _ _)) by lia.
  pose proof (buffer_load_content b pre _ post Hwf Hc ltac:(lia)) as Hload.
  change (Zlen (egg_buffer_encode_uint32 v)) with 4 in Hload. rewrite Hload.
  pose proof (be_bytes_bytes 4 v) as Hby. rewrite <- encode_uint32_be in Hby.
  unfold egg_buffer_encode_uint32 in *. run.
  rewrite decode_uint32_be by done.
  change (be_val _) with (be_val (egg_buffer_encode_uint32 v)). rewrite encode_uint32_be, be_val_bytes.
  rewrite Z.mod_small by (change (256 ^ Z.of_nat 4) with (2 ^ 32); lia). by rewrite u64_small by lia.
Qed.

(** No reader goes outside the buffer: it either reports failure or returns
    data of the buffer. *)
Lemma get_uint32_cases b off : buffer_wf b -> 0 <= off -> bytes (content b) ->
  egg_buffer_get_uint32 b off = Ok (None, buffer_fail b) \/
  exists v, egg_buffer_get_uint32 b off = Ok (Some (v, off + 4), b) /\ 0 <= v < 2 ^ 32 /\
    off + 4 <= len b.
Proof.
  intros Hwf Hoff Hby. destruct (out_of_buffer b off 4) eqn:E.
  { left. unfold egg_buffer_get_uint32. by rewrite E. }
  right. apply out_of_buffer_false in E as [E _].
  destruct (content_split b off 4 Hwf Hoff ltac:(lia) E) as (pre & v & post & Hc & Hp & Hv).
  rewrite Hc, !Forall_app in Hby. destruct Hby as (_ & Hby & _).
  exists (be_val v). assert (256 ^ Zlen v = 2 ^ 32) as Hpow by by rewrite Hv.
  pose proof (be_val_bound v Hby) as Hbv. rewrite Hpow in Hbv. rewrite <- Hp. split; [|lia].
  apply get_uint32_content with post; [done|done|]. rewrite encode_uint32_be.
  replace 4%nat with (length v) by lia. by rewrite be_bytes_val.
Qed.

Section Readers.
Context (realloc : nat -> option (list Z) -> Z -> option (list Z)) (Hrealloc : realloc_ok realloc).
Context (a : nat) (Halloc : forall n, is_Some (realloc a None n)).

(** A string the length field can announce and [get_string] accepts. *)
Definition good_string (s : list Z) : Prop := (0 ∉ s) /\ Zlen s < 0x7fffffff.

Lemma get_string_content b pre s post : buffer_wf b -> good_string s ->
  content b = pre ++ enc_byte_array (Some s) ++ post ->
  egg_buffer_get_string realloc b (Zlen pre) (Some a)
  = Ok (Some (Some s, Zlen (pre ++ enc_byte_array (Some s))), b).
Proof.
  intros Hwf [Hnul Hlen] Hc. cbn [enc_byte_array] in *. rewrite <- app_assoc in Hc.
  pose proof (content_length b Hwf) as Hl. pose proof (wf_len _ Hwf). pose proof (wf_cap _ Hwf).
  rewrite Hc, !length_app, encode_uint32_length in Hl.
  unfold egg_buffer_get_string. rewrite (get_uint32_content b pre (Zlen s) (s ++ post)) by (done || lia).
  run. destruct (Z.eqb_spec (Zlen s) 0xffffffff), (Z.leb_spec 0x7fffffff (Zlen s)); try lia.
  rewrite (proj2 (out_of_buffer_false _ _ _)) by lia.
  assert (Hload : buffer_load b (Zlen pre + 4) (Zlen s) = Ok s).
  { rewrite app_assoc in Hc. pose proof (buffer_load_content b _ s post Hwf Hc ltac:(lia)) as Hload.
    rewrite length_app, encode_uint32_length, Nat2Z.inj_add in Hload. exact Hload. }
  rewrite Hload. run.
  rewrite bool_decide_eq_false_2 by (rewrite (proj2 (index_of_None 0 s) Hnul); by intros [? ?]).
  destruct (Halloc (Zlen s + 1)) as [m Hm]. rewrite Hm.
  destruct (Hrealloc a None (Zlen s + 1) m ltac:(lia) Hm) as [Hml _].
  assert (wr m 0 (s ++ [0]) = Some (s ++ [0])) as ->.
  { pose proof (wr_app [] m [] (s ++ [0])) as Hw. rewrite !app_nil_r in Hw. apply Hw.
    rewrite length_app. simpl. lia. }
  run. rewrite c_str_app_nul by done. rewrite u64_small by lia.
  rewrite !length_app, encode_uint32_length. do 3 f_equal. f_equal. lia.
Qed.

Lemma get_strings_content strs : forall fuel b pre post i acc slots,
  buffer_wf b -> Forall good_string strs ->
  content b = pre ++ concat ((fun s => enc_byte_array (Some s)) <$> strs) ++ post ->
  (length strs <= fuel)%nat -> i + Zlen strs < slots ->
  get_strings realloc fuel b (Zlen pre) (i + Zlen strs) i slots (Some a) acc
  = Ok (Some (acc ++ (Some <$> strs), Zlen (pre ++ concat ((fun s => enc_byte_array (Some s)) <$> strs))), b).
Proof.
  induction strs as [|s rest IH]; intros fuel b pre post i acc slots Hwf Hgood Hc Hf Hs.
  { assert (((i + Zlen (@nil (list Z))) <=? i) = true) as Hi by (apply Z.leb_le; simpl; lia).
    cbn [fmap list_fmap concat]. rewrite !app_nil_r. destruct fuel; cbn [get_strings]; by rewrite Hi. }
  inversion_clear Hgood as [|?? Hg1 Hg2]. simpl length in *.
  destruct fuel as [|fuel]; [lia|]. cbn [get_strings].
  destruct (Z.leb_spec (i + Z.of_nat (S (length rest))) i); [lia|].
  cbn [fmap list_fmap concat] in Hc. rewrite <- app_assoc in Hc.
  rewrite (get_string_content b pre s _ Hwf Hg1 Hc). run.
  assert_ok.
  replace (i + Z.of_nat (S (length rest))) with (i + 1 + Zlen rest) by lia.
  rewrite (IH fuel b _ post); [|done|done| |lia|lia].
  - cbn [fmap list_fmap concat]. by rewrite <- !app_assoc.
  - by rewrite Hc, <- app_assoc.
Qed.
End Readers.

Lemma strings_count_size strs : Zlen strs <= strings_size strs.
Proof.
  unfold strings_size. induction strs as [|s rest IH]; [done|].
  cbn [fmap list_fmap concat]. rewrite !length_app.
  unfold enc_byte_array at 1. rewrite length_app, encode_uint32_length. cbn [length]. lia.
Qed.

(** * Properties *)

(** C36: every operation that adds data keeps the buffer well formed and never
    writes outside its block; when it returns 1 the data has grown by exactly the
    encoding of the value, and when it returns 0 nothing before the old end
    has changed. *)
Theorem buffer_writers_append (realloc : nat -> option (list Z) -> Z -> option (list Z))
    (b : EggBuffer) (val : Z) (data : list Z) (arr : option (list Z)) (strs : list (list Z)) :
  realloc_ok realloc -> buffer_wf b ->
  len b + 4 + Zlen data + Zlen (default [] arr) + strings_size strs < 2 ^ 60 ->
  (exists r b', egg_buffer_add_uint32 realloc b val = Ok (r, b') /\
     appends b (be_bytes 4 val) r b') /\
  (exists r b', egg_buffer_append realloc b data = Ok (r, b') /\ appends b data r b') /\
  (exists r b', egg_buffer_add_byte_array realloc b arr = Ok (r, b') /\
     appends b (enc_byte_array arr) r b') /\
  (exists r b', egg_buffer_add_string realloc b arr = Ok (r, b') /\
     appends b (enc_byte_array arr) r b') /\
  (exists r b', egg_buffer_add_stringv realloc b (Some strs) = Ok (r, b') /\
     appends b (enc_stringv strs) r b').
Proof.
  intros Hr Hwf Hfit. pose proof (strings_count_size strs). split_and!.
  - rewrite <- encode_uint32_be.
    destruct (add_uint32_spec _ Hr b val Hwf ltac:(lia)) as (r & b' & ? & ? & _). eauto.
  - destruct (append_spec _ Hr b data Hwf ltac:(lia)) as (r & b' & ? & ? & _). eauto.
  - apply add_byte_array_spec; [done|done|lia].
  - apply add_string_spec; [done|done|lia].
  - apply add_stringv_spec; [done|done|lia].
Qed.

(** An allocator that always succeeds, with fresh bytes zeroed. *)
Definition realloc_zeroed (a : nat) (old : option (list Z)) (n : Z) : option (list Z) :=
  Some (resize (Z.to_nat n) 0 (default [] old)).

Lemma realloc_zeroed_ok : realloc_ok realloc_zeroed.
Proof.
  intros a old n m Hn [= <-]. rewrite length_resize. split; [lia|].
  intros o k -> Hk Hkn. simpl. rewrite take_resize_le by lia. by rewrite resize_le by lia.
Qed.

Lemma buffer_writers_append_witness :
  exists r b', egg_buffer_add_byte_array realloc_zeroed (egg_buffer_init_allocated [1; 2] None)
      (Some [3]) = Ok (r, b') /\
    appends (egg_buffer_init_allocated [1; 2] None) [0; 0; 0; 1; 3] r b'.
Proof.
  apply (buffer_writers_append realloc_zeroed (egg_buffer_init_allocated [1; 2] None)
    0 [] (Some [3]) []).
  - apply realloc_zeroed_ok.
  - constructor; simpl; lia.
  - simpl. unfold strings_size. simpl. lia.
Defined.

(** C40: string vectors survive the trip through the buffer: what
    [egg_buffer_add_stringv] wrote is read back by [egg_buffer_get_stringv] at the
    offset where it started, and the offset returned is the end of the data. *)
Theorem buffer_stringv_roundtrip (realloc : nat -> option (list Z) -> Z -> option (list Z))
    (a : nat) (b b' : EggBuffer) (strs : list (list Z)) :
  realloc_ok realloc -> (forall n, is_Some (realloc a None n)) -> buffer_wf b ->
  Forall good_string strs -> Zlen strs < 2 ^ 32 - 1 ->
  len b + 4 + strings_size strs < 2 ^ 60 ->
  egg_buffer_add_stringv realloc b (Some strs) = Ok (true, b') ->
  egg_buffer_get_stringv realloc b' (len b) (Some a) = Ok (Some (Some <$> strs, len b'), b').
Proof.
  intros Hr Ha Hwf Hgood Hcount Hfit Hadd.
  destruct (add_stringv_spec _ Hr strs b Hwf Hfit) as (r & b1 & He & Hap).
  rewrite He in Hadd. injection Hadd as -> ->. destruct Hap as (Hwf' & _ & Hc & _).
  pose proof (content_length b Hwf) as Hl. pose proof (content_length b' Hwf') as Hl'.
  unfold enc_stringv in Hc. rewrite u32_small in Hc by lia.
  pose proof (strings_count_size strs) as Hcs. unfold strings_size in Hcs.
  rewrite <- Hl. unfold egg_buffer_get_stringv.
  rewrite (get_uint32_content b' (content b) (Zlen strs) _ Hwf') by (done || lia).
  run. rewrite u32_small by lia. destruct (Ha ((Zlen strs + 1) * 8)) as [m ->].
  rewrite app_assoc in Hc.
  pose proof (get_strings_content realloc Hr a Ha strs (S (Z.to_nat (len b'))) b'
    (content b ++ egg_buffer_encode_uint32 (Zlen strs)) [] 0 [] (Zlen strs + 1)) as Hg.
  rewrite app_nil_r, <- Hc, length_app, encode_uint32_length, Nat2Z.inj_add in Hg.
  change (Z.of_nat 4) with 4 in Hg. rewrite Z.add_0_l in Hg.
  rewrite Hg; [by rewrite Hl'|done|done|done| |lia].
  rewrite <- Hl', Hc, !length_app, encode_uint32_length. lia.
Qed.

Lemma buffer_stringv_roundtrip_witness :
  exists b', egg_buffer_add_stringv realloc_zeroed (egg_buffer_init_allocated [9] None)
      (Some [lit "ab"; []; lit "c"]) = Ok (true, b') /\
    egg_buffer_get_stringv realloc_zeroed b' 1 (Some 0%nat)
    = Ok (Some ([Some (lit "ab"); Some []; Some (lit "c")], len b'), b').
Proof.
  eexists. split; [vm_compute; reflexivity|].
  apply (buffer_stringv_roundtrip realloc_zeroed 0 (egg_buffer_init_allocated [9] None) _
    [lit "ab"; []; lit "c"]).
  - apply realloc_zeroed_ok.
  - by eexists.
  - constructor; simpl; lia.
  - unfold good_string. decide_now.
  - simpl. lia.
  - unfold strings_size. simpl. lia.
  - vm_compute. reflexivity.
Defined.

(** C37: [egg_buffer_get_byte_array] on data from anywhere stays inside the
    buffer: it reports failure, or the NULL array, or a piece of the data that
    ends at the offset it returns. *)
Theorem buffer_get_byte_array_safe (b : EggBuffer) (off : Z) :
  buffer_wf b -> 0 <= off -> bytes (content b) ->
  egg_buffer_get_byte_array b off = Ok (None, buffer_fail b) \/
  egg_buffer_get_byte_array b off = Ok (Some (None, off + 4), b) \/
  exists pre v post, content b = pre ++ v ++ post /\ Zlen pre = off + 4 /\
    egg_buffer_get_byte_array b off = Ok (Some (Some v, Zlen (pre ++ v)), b).
Proof.
  intros Hwf Hoff Hby. pose proof (wf_len _ Hwf). pose proof (wf_cap _ Hwf).
  unfold egg_buffer_get_byte_array.
  destruct (get_uint32_cases b off Hwf Hoff Hby) as [->|(n & -> & Hn & Hfit)]; [by left|].
  run. destruct (Z.eqb_spec n 0xffffffff); [by right; left|].
  destruct (Z.leb_spec 0x7fffffff n); [by left|].
  destruct (out_of_buffer b (off + 4) n) eqn:E; [by left|].
  apply out_of_buffer_false in E as [E _]. right; right.
  destruct (content_split b (off + 4) n Hwf ltac:(lia) ltac:(lia) E) as (pre & v & post & Hc & Hp & Hv).
  exists pre, v, post. split_and!; [done|done|]. rewrite <- Hp, <- Hv at 1.
  rewrite (buffer_load_content b pre v post) by (done || lia). run.
  rewrite length_app, u64_small by lia. do 3 f_equal. f_equal. lia.
Qed.

Lemma buffer_get_byte_array_safe_witness :
  egg_buffer_get_byte_array (egg_buffer_init_static [0; 0; 0; 9; 1]) 0
  = Ok (None, buffer_fail (egg_buffer_init_static [0; 0; 0; 9; 1])).
Proof.
  destruct (buffer_get_byte_array_safe (egg_buffer_init_static [0; 0; 0; 9; 1]) 0)
    as [H|[H|(pre & v & post & _ & _ & H)]].
  - constructor; simpl; lia.
  - lia.
  - decide_now.
  - exact H.
  - vm_compute in H. discriminate H.
  - vm_compute in H. discriminate H.
Defined.

(** The count 0xffffffff wraps the size of the pointer array to zero: reading
    such a vector stores its first string outside the array. *)
Lemma get_stringv_count_wraps (a : nat) :
  egg_buffer_get_stringv realloc_zeroed
    (egg_buffer_init_static (replicate 8 255)) 0 (Some a) = Ub.
Proof. vm_compute. reflexivity. Qed.
