(* ===== verification/Asn1Tlv.v ===== *)
(** ASN.1 tag-length-value trees: the model of the TLV layer of [src/egg/egg-asn1x.c].

    The parser ([atlv_parse_cls_tag], [atlv_parse_length], [atlv_parse_cls_tag_len],
    [atlv_parse_der_tag], [atlv_parse_der]) and the writer ([atlv_unparse_len],
    [atlv_unparse_cls_tag_len], [atlv_unparse_der], [atlv_unparse_to_bytes]), with the two
    functions that look at a single element ([egg_asn1x_element_length] and
    [egg_asn1x_element_content]).  Pointers are offsets into one block, [end_] is the
    pointer the C code calls [end]; reading outside the block is [Ub].  An empty block has a
    pointer too: bytes whose data are [NULL] fail a precondition of [atlv_parse_der] and are
    not modelled. *)

From S2P Require Import Prelude.
Local Open Scope Z_scope.

Definition ASN1_CLASS_UNIVERSAL : Z := 0x00.
Definition ASN1_CLASS_STRUCTURED : Z := 0x20.

(** [struct _Atlv].  The [next] chain is the list of children of the parent. *)
Record AtlvHead := mk_head {
  cls : Z; tag : Z; off : Z; len : Z;
  bits_empty : Z;
  prefix_for_bit_string : bool;
  prefix_with_zero_byte : bool;
  sorted : bool }.

Inductive Atlv : Type :=
  mk_atlv (head : AtlvHead) (value decoded : option (list Z)) (child : list Atlv).

Definition head (t : Atlv) : AtlvHead := let 'mk_atlv h _ _ _ := t in h.
Definition value (t : Atlv) : option (list Z) := let 'mk_atlv _ v _ _ := t in v.
Definition decoded (t : Atlv) : option (list Z) := let 'mk_atlv _ _ d _ := t in d.
Definition child (t : Atlv) : list Atlv := let 'mk_atlv _ _ _ c := t in c.

(** The head a parsed TLV gets: [atlv_new] zeroes the encoding fields. *)
Definition parsed_head (c t o l : Z) : AtlvHead := mk_head c t o l 0 false false false.

(** The messages of the parser; [OutOfFuel] is the model's own. *)
Inductive ParseError :=
  | ContentNotProper | IndefiniteNonStructured | InvalidLength | TrailingData | OutOfFuel.

#[export] Instance ParseError_eq_dec : EqDecision ParseError.
Proof. solve_decision. Defined.

(** * Parsing *)

(** The long-form tag loop; [None] is the [return FALSE] on a wrap. *)
Fixpoint long_tag (fuel : nat) (data : list Z) (at_ n_data punt ris : Z)
    : res ParseError (option (Z * Z)) :=
  if punt <=? n_data then
    match fuel with
    | O => Err OutOfFuel
    | S fuel =>
      val ← or_ub (rd data (at_ + punt));
      let punt := u32 (punt + 1) in
      let last := ris in
      let ris := u32 (ris * 128) in
      if ris <? last then Ok None else
      let last := ris in
      let ris := u32 (ris + Z.land val 0x7F) in
      if ris <? last then Ok None else
      if Z.land val 0x7F =? val then Ok (Some (ris, punt))
      else long_tag fuel data at_ n_data punt ris
    end
  else Ok (Some (ris, punt)).

Definition atlv_parse_cls_tag (data : list Z) (at_ end_ : Z)
    : res ParseError (option (Z * Z * Z)) :=
  c_assert (at_ <=? end_);;
  let n_data := u32 (end_ - at_) in
  if n_data <? 2 then Ok None else
  b0 ← or_ub (rd data at_);
  let c := Z.land b0 0xE0 in
  if negb (Z.land b0 0x1F =? 0x1F) then Ok (Some (c, Z.land b0 0x1F, 1))
  else
    r ← long_tag (S (Z.to_nat n_data)) data at_ n_data 1 0;
    match r with
    | None => Ok None
    | Some (ris, punt) => if n_data <=? punt then Ok None else Ok (Some (c, ris, punt))
    end.

(** The definite length loop; [None] is [return -2]. *)
Fixpoint long_length (fuel : nat) (data : list Z) (at_ n_data k punt ans : Z)
    : res ParseError (option (Z * Z)) :=
  if (punt <=? k) && (punt <? n_data) then
    match fuel with
    | O => Err OutOfFuel
    | S fuel =>
      let last := ans in
      let ans := u32 (ans * 256) in
      if ans <? last then Ok None else
      let last := ans in
      b ← or_ub (rd data (at_ + punt));
      let ans := u32 (ans + b) in
      let punt := punt + 1 in
      if ans <? last then Ok None else
      long_length fuel data at_ n_data k punt ans
    end
  else Ok (Some (ans, punt)).

(** Returns the length and [*off]. *)
Definition atlv_parse_length (data : list Z) (at_ end_ : Z) : res ParseError (Z * Z) :=
  c_assert (at_ <? end_);;
  let n_data := u32 (end_ - at_) in
  b0 ← or_ub (rd data at_);
  if Z.land b0 128 =? 0 then Ok (b0, 1)
  else
    let k := Z.land b0 0x7F in
    if negb (k =? 0) then
      r ← long_length (Z.to_nat k) data at_ n_data k 1 0;
      match r with
      | None => Ok (-2, 0)
      | Some (ans, punt) => Ok (s32 ans, punt)
      end
    else Ok (-1, 1).

(** [cls, tag, off, len]; [None] is the [FALSE] return. *)
Definition atlv_parse_cls_tag_len (data : list Z) (at_ end_ : Z)
    : res ParseError (option (Z * Z * Z * Z)) :=
  c_assert (at_ <=? end_);;
  r ← atlv_parse_cls_tag data at_ end_;
  match r with
  | None => Ok None
  | Some (c, t, cb1) =>
    '(l, cb2) ← atlv_parse_length data (at_ + cb1) end_;
    if l <? -1 then Ok None else
    let o := cb1 + cb2 in
    if (0 <=? l) && (end_ <? at_ + o + l) then Ok None
    else Ok (Some (c, t, o, l))
  end.

(** [g_bytes_new_with_free_func]: a view of the bytes of the block. *)
Definition view (data : list Z) (at_ n : Z) : res ParseError (list Z) := or_ub (slice data at_ n).

(** The two mutually nested loops of [atlv_parse_der_tag]: one TLV whose header
    is already parsed, and the children of a structured one.  Both consume fuel. *)
Fixpoint atlv_parse_der_tag (fuel : nat) (data : list Z) (at_ c t o l : Z)
    : res ParseError (Atlv * Z) :=
  match fuel with
  | O => Err OutOfFuel
  | S fuel =>
    let end_ := Zlen data in
    c_assert (at_ <=? end_);;
    fail_if (negb (at_ + o + l <=? end_)) InvalidLength;;
    fail_if ((l <? 0) && (Z.land c ASN1_CLASS_STRUCTURED =? 0)) IndefiniteNonStructured;;
    let beg := at_ in
    let at_ := at_ + o in
    if negb (Z.land c ASN1_CLASS_STRUCTURED =? 0) then
      '(cs, at_) ← parse_children fuel data at_ (if 0 <=? l then at_ + l else end_) l;
      d ← view data beg (at_ - beg);
      Ok (mk_atlv (parsed_head c t o l) None (Some d) cs, at_)
    else
      v ← view data at_ l;
      let at_ := at_ + l in
      d ← view data beg (at_ - beg);
      Ok (mk_atlv (parsed_head c t o l) (Some v) (Some d) [], at_)
  end
with parse_children (fuel : nat) (data : list Z) (at_ end_ l : Z)
    : res ParseError (list Atlv * Z) :=
  if at_ <? end_ then
    match fuel with
    | O => Err OutOfFuel
    | S fuel =>
      r ← atlv_parse_cls_tag_len data at_ end_;
      match r with
      | None => Err ContentNotProper
      | Some (ccls, ctag, coff, clen) =>
        if (l <? 0) && (ccls =? ASN1_CLASS_UNIVERSAL) && (ctag =? 0) && (clen =? 0)
        then Ok ([], at_ + coff)
        else
          '(c, at_) ← atlv_parse_der_tag fuel data at_ ccls ctag coff clen;
          '(cs, at_) ← parse_children fuel data at_ end_ l;
          Ok (c :: cs, at_)
      end
    end
  else Ok ([], at_).

(** Every iteration and every nesting level consumes at least two bytes. *)
Definition parse_fuel (data : list Z) : nat := S (S (length data)).

Definition atlv_parse_der (data : list Z) : res ParseError Atlv :=
  r ← atlv_parse_cls_tag_len data 0 (Zlen data);
  match r with
  | None => Err ContentNotProper
  | Some (c, t, o, l) =>
    '(tlv, at_) ← atlv_parse_der_tag (parse_fuel data) data 0 c t o l;
    if negb (at_ =? Zlen data) then Err TrailingData else Ok tlv
  end.

(** * Basic raw element information *)

(** [len += counter] is signed: its overflow is [Ub]. *)
Definition egg_asn1x_element_length (data : list Z) : res ParseError Z :=
  r ← atlv_parse_cls_tag data 0 (Zlen data);
  match r with
  | None => Ok (-1)
  | Some (_, _, cb) =>
    '(l, cb2) ← atlv_parse_length data cb (Zlen data);
    let counter := cb + cb2 in
    if 0 <=? l then
      c_assert (l + counter <? 2 ^ 31);;
      if (l + counter) <=? Zlen data then Ok (l + counter) else Ok (-1)
    else Ok (-1)
  end.

(** The content pointer (an offset) and its length. *)
Definition egg_asn1x_element_content (data : list Z) : res ParseError (option (Z * Z)) :=
  r ← atlv_parse_cls_tag data 0 (Zlen data);
  match r with
  | None => Ok None
  | Some (_, _, cb) =>
    '(l, cb2) ← atlv_parse_length data cb (Zlen data);
    if l <? 0 then Ok None else Ok (Some (cb + cb2, l))
  end.

(** * Unparsing *)

(** The loops [while (v) { temp[k++] = v & mask; v = v >> s; }] with
    [mask = 2^s - 1]: the digits, least significant first. *)
Fixpoint low_digits (fuel : nat) (s v : Z) : list Z :=
  match fuel with
  | O => []
  | S fuel => if v =? 0 then [] else Z.land v (Z.ones s) :: low_digits fuel s (Z.shiftr v s)
  end.

(** A [gulong] has at most 64 bits, so 64 rounds always empty it; [temp] has room
    for [sizeof (gulong)] of them. *)
Definition temp_digits (s v : Z) : res ParseError (list Z) :=
  let temp := low_digits 64 s v in
  c_assert (Zlen temp <=? 8);; Ok temp.

(** The bytes of the length; [*cb] is their number. *)
Definition atlv_unparse_len (l : Z) : res ParseError (list Z) :=
  if l <? 128 then Ok [u8 l]
  else
    temp ← temp_digits 8 l;
    Ok ((Z.land (Zlen temp) 0x7F + 128) :: rev temp).

(** The bytes of class and tag. *)
Definition unparse_cls_tag (c t : Z) : res ParseError (list Z) :=
  if t <? 31 then Ok [u8 (Z.land c 0xE0 + Z.land t 0x1F)]
  else
    temp ← temp_digits 7 t;
    match temp with
    | [] => Ub
    | d0 :: ds => Ok (u8 (Z.land c 0xE0 + 31) :: rev ((fun d => u8 (d + 128)) <$> ds) ++ [u8 (u8 (d0 + 128) - 128)])
    end.

(** With [data == NULL]: only the number of bytes is computed.  [len] is a
    [gint] converted to [gulong]. *)
Definition atlv_unparse_cls_tag_len_size (c t l : Z) : res ParseError Z :=
  ct ← unparse_cls_tag c t;
  lb ← atlv_unparse_len (u64 l);
  Ok (Zlen ct + Zlen lb).

(** With [data] the block from [at_] on, [n_data] bytes. *)
Definition atlv_unparse_cls_tag_len (block : list Z) (at_ n_data c t l : Z)
    : res ParseError (list Z * Z) :=
  ct ← unparse_cls_tag c t;
  c_assert (Zlen ct <=? n_data);;
  block ← or_ub (wr block at_ ct);
  lb ← atlv_unparse_len (u64 l);
  block ← or_ub (wr block (at_ + Zlen ct) lb);
  let off := Zlen ct + Zlen lb in
  c_assert (off <=? n_data);;
  Ok (block, off).

(** [p[0] = bits_empty; memcpy (p + 1, buf, len)] and the mask on the last byte. *)
Definition mask_last (buf : list Z) (bits : Z) : list Z :=
  match rev buf with
  | [] => buf
  | x :: r =>
    if bits =? 0 then buf
    else rev r ++ [Z.land x (u8 (Z.lnot (Z.shiftr 0xFF (8 - bits))))]
  end.

(** The contents octets of a primitive TLV, with the assertion on their number. *)
Definition value_bytes (h : AtlvHead) (buf : list Z) : res ParseError (list Z) :=
  if prefix_for_bit_string h then
    c_assert (Zlen buf + 1 =? len h);; Ok (bits_empty h :: mask_last buf (bits_empty h))
  else if prefix_with_zero_byte h then
    c_assert (Zlen buf + 1 =? len h);; Ok (0 :: buf)
  else c_assert (Zlen buf =? len h);; Ok buf.

(** The loop over the children; [write] is the recursive call. *)
Section Children.
Context (write : Atlv -> list Z -> Z -> res ParseError (list Z * Z)).
Fixpoint unparse_children (cs : list Atlv) (block : list Z) (at_ : Z) : res ParseError (list Z * Z) :=
  match cs with
  | [] => Ok (block, at_)
  | c :: cs =>
    let exp := at_ + len (head c) + off (head c) in
    '(block, at_) ← write c block at_;
    c_assert (exp =? at_);;
    unparse_children cs block at_
  end.
End Children.

(** Writes the TLV at [at_] and returns the block and the advanced pointer. *)
Fixpoint atlv_unparse_der (t : Atlv) (block : list Z) (at_ end_ : Z) : res ParseError (list Z * Z) :=
  let 'mk_atlv h v _ cs := t in
  c_assert (at_ <=? end_);;
  '(block, o) ← atlv_unparse_cls_tag_len block at_ (end_ - at_) (cls h) (tag h) (len h);
  c_assert (o =? off h);;
  let at_ := at_ + o in
  '(block, at_) ←
    match v with
    | Some buf =>
      p ← value_bytes h buf;
      block ← or_ub (wr block at_ p);
      Ok (block, at_ + Zlen p)
    | None => unparse_children (fun c block at_ => atlv_unparse_der c block at_ end_) cs block at_
    end;
  c_assert (at_ <=? end_);;
  Ok (block, at_).

(** [g_malloc (len)]: a block of [len] bytes, here zeroed; every byte is
    overwritten.  [None] is the [g_return_val_if_fail] on an empty TLV. *)
Definition atlv_unparse_to_bytes (t : Atlv) : res ParseError (option (list Z)) :=
  let l := off (head t) + len (head t) in
  if l =? 0 then Ok None
  else
    c_assert (0 <=? l);;
    '(block, at_) ← atlv_unparse_der t (replicate (Z.to_nat l) 0) 0 l;
    c_assert (at_ =? l);;
    Ok (Some block).

(** * Safety and termination of the parser *)

(** A header is parsed at [at_], up to some end. *)
Definition header_at (data : list Z) (at_ c t o l : Z) : Prop :=
  exists end_, at_ <= end_ <= Zlen data /\ atlv_parse_cls_tag_len data at_ end_ = Ok (Some (c, t, o, l)).

(** Where elements begin: the first at the start, others inside of structured ones and
    behind those of definite length. *)
Inductive element_at (data : list Z) : Z -> Prop :=
  | element_first : element_at data 0
  | element_inside at_ c t o l : element_at data at_ -> header_at data at_ c t o l ->
      Z.land c ASN1_CLASS_STRUCTURED <> 0 -> element_at data (at_ + o)
  | element_behind at_ c t o l : element_at data at_ -> header_at data at_ c t o l ->
      0 <= l -> element_at data (at_ + o + l).

(** A tag of many bytes that the block ends in: each has its top bit set, up to the last. *)
Definition open_tag (data : list Z) (at_ : Z) : Prop :=
  exists b, rd data at_ = Some b /\ Z.land b 0x1F = 0x1F /\ at_ + 1 < Zlen data /\
    forall i x, at_ < i -> rd data i = Some x -> 128 <= x.

(** The block ends in no tag of an element: such a tag is read past the end. *)
Definition tags_closed (data : list Z) : Prop := forall at_, element_at data at_ -> ~ open_tag data at_.

(** A last byte below 128 is enough; with definite lengths it is mostly not needed, as
    what ends the block is not a tag. *)
Lemma last_byte_closes data : (forall x, rd data (Zlen data - 1) = Some x -> x < 128) -> tags_closed data.
Proof.
  intros Hx at_ _ (b & Hb & _ & Hl & Hi). apply rd_lookup in Hb as [Hat _].
  destruct (proj2 (rd_Some_iff data (Zlen data - 1))) as [x Hr]; [lia|]. specialize (Hx x Hr). specialize (Hi (Zlen data - 1) x ltac:(lia) Hr). lia.
Qed.

Lemma land_127_eq v : is_byte v -> (Z.land v 0x7F =? v) = (v <? 128).
Proof.
  unfold is_byte. intros Hv. change 0x7F with 127. rewrite land_127.
  destruct (Z.eqb_spec (v mod 128) v), (Z.ltb_spec v 128); try done; lia_div.
Qed.

Lemma rd_total data i : bytes data -> 0 <= i < Zlen data -> exists x, rd data i = Some x /\ is_byte x.
Proof.
  intros Hb Hi. apply rd_Some_iff in Hi as [x Hx]. exists x. split; [done|]. by eapply rd_bytes.
Qed.

Section Safety.
Context (data : list Z) (Hb : bytes data) (Hsize : Zlen data < 2 ^ 31).

Lemma long_tag_safe b0 at_ : rd data at_ = Some b0 -> Z.land b0 0x1F = 0x1F -> at_ + 1 < Zlen data -> ~ open_tag data at_ ->
  forall fuel n_data punt ris, (forall i x, at_ < i < at_ + punt -> rd data i = Some x -> 128 <= x) ->
  0 <= at_ -> 0 <= n_data -> at_ + n_data <= Zlen data -> 1 <= punt ->
  (n_data < punt \/ at_ + punt < Zlen data) -> 0 <= ris < 2 ^ 32 ->
  (Z.to_nat (n_data + 1 - punt) <= fuel)%nat ->
  long_tag fuel data at_ n_data punt ris = Ok None \/
  exists ris' punt', long_tag fuel data at_ n_data punt ris = Ok (Some (ris', punt')) /\
    punt <= punt' /\ 0 <= ris' < 2 ^ 32.
Proof.
  intros Hb0 Hlong Hl Hno. induction fuel as [|fuel IH]; intros n_data punt ris Hpre Hat Hn Hfit Hp Hin Hr Hf; cbn [long_tag];
    (destruct (Z.leb_spec punt n_data); [|right; exists ris, punt; split; [done|lia]]); [lia|].
  destruct (rd_total data (at_ + punt) Hb) as (v & Hv & Hvb); [lia|].
  rewrite Hv. run.
  case_match; [by left|]. case_match; [by left|]. rewrite land_127_eq by done.
  rewrite (u32_small (punt + 1)) by lia.
  destruct (Z.ltb_spec v 128).
  - right. eexists _, _. split; [done|]. split; [lia|apply u32_range].
  - assert (forall i x, at_ < i < at_ + (punt + 1) -> rd data i = Some x -> 128 <= x) as Hpre'.
    { intros i x Hi Hx. destruct (decide (i = at_ + punt)) as [->|]; [|apply (Hpre i x); [lia|done]]. rewrite Hv in Hx. injection Hx as <-. lia. }
    assert (at_ + punt + 1 < Zlen data \/ at_ + punt + 1 = Zlen data) as [?|Hlast] by lia.
    + destruct (IH n_data (punt + 1) (u32 (u32 (ris * 128) + Z.land v 0x7F)) Hpre') as [->|(r' & p' & -> & ? & ?)];
        [lia|lia|lia|lia|lia|apply u32_range|lia|by left|]. right. exists r', p'. split; [done|lia].
    + destruct Hno. exists b0. split_and!; [done|done|done|]. intros i x Hi Hx. apply (Hpre' i x); [|done].
      assert (is_Some (rd data i)) as Hs%rd_Some_iff by by eexists. lia.
Qed.

Lemma parse_cls_tag_safe at_ end_ : ~ open_tag data at_ -> 0 <= at_ <= end_ -> end_ <= Zlen data ->
  atlv_parse_cls_tag data at_ end_ = Ok None \/
  exists c t o, atlv_parse_cls_tag data at_ end_ = Ok (Some (c, t, o)) /\
    1 <= o /\ at_ + o < end_ /\ 0 <= t < 2 ^ 32.
Proof.
  intros Hno Hat Hend. unfold atlv_parse_cls_tag. assert_ok. rewrite u32_small by lia.
  destruct (Z.ltb_spec (end_ - at_) 2); [by left|].
  destruct (rd_total data at_ Hb) as (b0 & Hr & Hb0); [lia|]. rewrite Hr. run.
  destruct (Z.eqb_spec (Z.land b0 0x1F) 0x1F) as [Hlong|_]; cbn [negb].
  - destruct (long_tag_safe b0 at_ Hr Hlong ltac:(lia) Hno (S (Z.to_nat (end_ - at_))) (end_ - at_) 1 0) as [->|(r' & p' & -> & ? & ?)];
      [intros; lia|lia|lia|lia|lia|lia|lia|lia|by left|]. run.
    destruct (Z.leb_spec (end_ - at_) p'); [by left|]. right. eexists _, _, _. split; [done|lia].
  - right. eexists _, _, _. split; [done|]. change 0x1F with 31. rewrite land_31. unfold is_byte in Hb0. lia_div.
Qed.

Lemma long_length_safe fuel : forall at_ n_data k punt ans,
  0 <= at_ -> at_ + n_data <= Zlen data -> 1 <= punt <= n_data -> 0 <= ans < 2 ^ 32 ->
  (Z.to_nat (k + 1 - punt) <= fuel)%nat ->
  long_length fuel data at_ n_data k punt ans = Ok None \/
  exists ans' punt', long_length fuel data at_ n_data k punt ans = Ok (Some (ans', punt')) /\
    punt <= punt' <= n_data.
Proof.
  induction fuel as [|fuel IH]; intros at_ n_data k punt ans Hat Hfit Hp Ha Hf; cbn [long_length];
    destruct (Z.leb_spec punt k); cbn [andb]; try lia;
    try (right; eexists _, _; split; [done|lia]).
  destruct (Z.ltb_spec punt n_data); [|right; eexists _, _; split; [done|lia]].
  case_match; [by left|].
  destruct (rd_total data (at_ + punt) Hb) as (v & -> & Hvb); [lia|]. run.
  case_match; [by left|].
  destruct (IH at_ n_data k (punt + 1) (u32 (u32 (ans * 256) + v))) as [->|(a' & p' & -> & ?)];
    [lia|lia|lia|apply u32_range|lia|by left|]. right. exists a', p'. split; [done|lia].
Qed.

Lemma parse_length_safe at_ end_ : 0 <= at_ < end_ -> end_ <= Zlen data ->
  exists l o, atlv_parse_length data at_ end_ = Ok (l, o) /\
    (l < -1 \/ 1 <= o <= end_ - at_) /\ -2 ^ 31 <= l < 2 ^ 31.
Proof.
  intros Hat Hend. unfold atlv_parse_length. assert_ok. rewrite u32_small by lia.
  destruct (rd_total data at_ Hb) as (b0 & Hr & Hb0); [lia|]. rewrite Hr. run.
  unfold is_byte in Hb0. case_match; [eexists _, _; split; [done|lia]|].
  case_match; [|eexists _, _; split; [done|lia]].
  change 0x7F with 127 in *. rewrite land_127 in *.
  destruct (long_length_safe (Z.to_nat (b0 mod 128)) at_ (end_ - at_) (b0 mod 128) 1 0)
    as [->|(a' & p' & -> & ?)]; [lia|lia|lia|lia|lia| |]; run.
  - eexists _, _. split; [done|lia].
  - eexists _, _. split; [done|]. split; [lia|]. unfold s32.
    pose proof (Z.mod_pos_bound (a' + 2 ^ 31) (2 ^ 32)). lia.
Qed.

Lemma parse_cls_tag_len_safe at_ end_ : ~ open_tag data at_ -> 0 <= at_ <= end_ -> end_ <= Zlen data ->
  atlv_parse_cls_tag_len data at_ end_ = Ok None \/
  exists c t o l, atlv_parse_cls_tag_len data at_ end_ = Ok (Some (c, t, o, l)) /\
    2 <= o /\ at_ + o <= end_ /\ -1 <= l /\ (0 <= l -> at_ + o + l <= end_).
Proof.
  intros Hno Hat Hend. unfold atlv_parse_cls_tag_len. assert_ok.
  destruct (parse_cls_tag_safe at_ end_ Hno Hat Hend) as [->|(c & t & o & -> & ? & ? & _)]; [by left|].
  run.
  destruct (parse_length_safe (at_ + o) end_) as (l & cb2 & -> & Hl & _); [lia|lia|]. run.
  destruct (Z.ltb_spec l (-1)); [by left|].
  destruct (Z.leb_spec 0 l); cbn [andb].
  - destruct (Z.ltb_spec end_ (at_ + (o + cb2) + l)); [by left|].
    right. eexists _, _, _, _. split; [done|lia].
  - right. eexists _, _, _, _. split; [done|lia].
Qed.

(** The parser consumes the block from left to right without gaps: a value is
    the bytes after its header, the children of a structured TLV follow one
    another from the end of its header, and [decoded] is everything from the
    start of the header on.  Only an indefinite length leaves bytes after the last
    child (its end marker). *)
Inductive tiles : Z -> Atlv -> Z -> Prop :=
  | tiles_value at_ c t o l v d :
      slice data (at_ + o) l = Some v -> slice data at_ (o + l) = Some d ->
      tiles at_ (mk_atlv (parsed_head c t o l) (Some v) (Some d) []) (at_ + o + l)
  | tiles_structured at_ c t o l cs e d at_' :
      tiles_list (at_ + o) cs e -> e <= at_' -> (0 <= l -> at_' = e) ->
      slice data at_ (at_' - at_) = Some d ->
      tiles at_ (mk_atlv (parsed_head c t o l) None (Some d) cs) at_'
with tiles_list : Z -> list Atlv -> Z -> Prop :=
  | tiles_nil at_ : tiles_list at_ [] at_
  | tiles_cons at_ t m ts e : tiles at_ t m -> tiles_list m ts e -> tiles_list at_ (t :: ts) e.

(** No TLV of the tree uses the indefinite length. *)
Fixpoint definite (t : Atlv) : bool :=
  let 'mk_atlv h _ _ cs := t in (0 <=? len h) && forallb definite cs.

Lemma view_ok at_ n : 0 <= at_ -> 0 <= n -> at_ + n <= Zlen data ->
  exists v, slice data at_ n = Some v /\ view data at_ n = Ok v.
Proof.
  intros H1 H2 H3. unfold view. assert (is_Some (slice data at_ n)) as [v Hv].
  { unfold slice. destruct (Z.leb_spec 0 at_), (Z.leb_spec 0 n), (Z.leb_spec (at_ + n) (Zlen data)); try lia.
    by eexists. }
  exists v. by rewrite Hv.
Qed.

Definition der_tag_result (at_ o l : Z) (r : res ParseError (Atlv * Z)) : Prop :=
  (exists e, r = Err e /\ e <> OutOfFuel) \/
  exists t at_', r = Ok (t, at_') /\ element_at data at_' /\ at_ + o <= at_' <= Zlen data /\ tiles at_ t at_' /\
    off (head t) = o /\ len (head t) = l /\
    (definite t = true -> 0 <= l /\ at_' = at_ + o + l).

Definition children_result (at_ end_ l : Z) (r : res ParseError (list Atlv * Z)) : Prop :=
  (exists e, r = Err e /\ e <> OutOfFuel) \/
  exists cs e at_', r = Ok (cs, at_') /\ element_at data at_' /\ at_ <= e <= at_' /\ at_' <= Zlen data /\
    tiles_list at_ cs e /\ (0 <= l -> at_' = e) /\
    (forallb definite cs = true -> 0 <= l -> at_ <= end_ -> at_' = end_).

Context (Hclosed : tags_closed data).

Lemma parse_der_tag_children_safe fuel :
  (forall at_ c t o l, element_at data at_ -> header_at data at_ c t o l -> 0 <= at_ -> 2 <= o -> at_ + o <= Zlen data -> -1 <= l ->
     (0 <= l -> at_ + o + l <= Zlen data) -> Zlen data - at_ <= Z.of_nat fuel ->
     der_tag_result at_ o l (atlv_parse_der_tag fuel data at_ c t o l)) /\
  (forall at_ end_ l, element_at data at_ -> 0 <= at_ <= Zlen data -> end_ <= Zlen data -> Zlen data - at_ < Z.of_nat fuel ->
     children_result at_ end_ l (parse_children fuel data at_ end_ l)).
Proof.
  induction fuel as [|fuel [IHt IHc]]; [split; intros; lia|]. split.
  - intros at_ c t o l Hel Hhd Hat Ho Hfit Hl Hlen Hf. cbn [atlv_parse_der_tag].
    assert_ok.
    destruct (Z.leb_spec (at_ + o + l) (Zlen data)); [|left; by eexists]. cbn [negb]; run.
    destruct (Z.eqb_spec (Z.land c ASN1_CLASS_STRUCTURED) 0); cbn [negb].
    + destruct (Z.ltb_spec l 0); cbn [andb]; run; [left; by eexists|].
      destruct (view_ok (at_ + o) l) as (v & Hv & ->); [lia|lia|lia|]. run.
      destruct (view_ok at_ (at_ + o + l - at_)) as (d & Hd & ->); [lia|lia|lia|]. run.
      right. eexists _, _. split; [done|]. split_and!; [by eapply element_behind|lia|lia| |done|done|split; [lia|done]].
      apply tiles_value; [done|]. rewrite <- Hd. f_equal. lia.
    + rewrite andb_false_r. run.
      set (e := if 0 <=? l then at_ + o + l else Zlen data).
      assert (at_ + o <= e <= Zlen data) by (subst e; destruct (Z.leb_spec 0 l); lia).
      destruct (IHc (at_ + o) e l) as [(er & -> & ?)|(cs & m & at_' & -> & Hel' & Hm & He & Ht & Hz & Hd)];
        [by eapply element_inside|lia|lia|lia|left; by eexists|]. run.
      destruct (view_ok at_ (at_' - at_)) as (d & Hs & ->); [lia|lia|lia|]. run.
      right. eexists _, _. split; [done|]. split_and!; [done|lia|lia| |done|done|].
      { eapply tiles_structured; [exact Ht|lia|done|done]. }
      cbn [definite len parsed_head]. intros [Hl0%Z.leb_le Hcs]%andb_true_iff.
      split; [done|]. rewrite Hd by (done || lia). subst e. destruct (Z.leb_spec 0 l); lia.
  - intros at_ end_ l Hel Hat Hend Hf. cbn [parse_children].
    destruct (Z.ltb_spec at_ end_).
    2:{ right. exists [], at_, at_. split_and!; try done; try lia. constructor. }
    destruct (parse_cls_tag_len_safe at_ end_ (Hclosed at_ Hel)) as [->|(c & t & o & cl & Ehd & ? & ? & ? & ?)];
      [lia|lia|left; by eexists|]. assert (header_at data at_ c t o cl) as Hhd by (exists end_; split; [lia|exact Ehd]). rewrite Ehd. run.
    destruct (Z.ltb_spec l 0); cbn [andb].
    1: destruct ((c =? ASN1_CLASS_UNIVERSAL) && (t =? 0) && (cl =? 0)) eqn:Heoc.
    1:{ right. exists [], at_, (at_ + o).
        rewrite !andb_true_iff, !Z.eqb_eq in Heoc. destruct Heoc as [_ ->].
        split_and!; try done; try lia; [|constructor]. rewrite <- (Z.add_0_r (at_ + o)). by eapply element_behind. }
    all: destruct (IHt at_ c t o cl) as [(er & -> & ?)|(t' & m & -> & Hel' & Hm & Ht & _ & _ & Hd)];
        [done|done|lia|lia|lia|lia|lia|lia|left; by eexists|]; run.
    all: destruct (IHc m end_ l) as [(er & -> & ?)|(cs & e & at_' & -> & Hel2 & He & He' & Hts & Hz & Hds)];
        [done|lia|lia|lia|left; by eexists|]; run.
    all: right; exists (t' :: cs), e, at_'; split_and!; [done|done|lia|lia|lia|by econstructor|done|].
    all: cbn [forallb]; intros [Hd1 Hd2]%andb_true_iff Hl Hae.
    + lia.
    + destruct (Hd Hd1) as [? ->]. apply Hds; [done|lia|lia].
Qed.
End Safety.

(** The parser ends, with a TLV or with one of its own errors. *)
Lemma atlv_parse_der_total (data : list Z) : bytes data -> Zlen data < 2 ^ 31 -> tags_closed data ->
  (exists t, atlv_parse_der data = Ok t) \/ exists e, atlv_parse_der data = Err e /\ e <> OutOfFuel.
Proof.
  intros Hb Hsize Hcl. unfold atlv_parse_der.
  destruct (parse_cls_tag_len_safe data Hb Hsize 0 (Zlen data) (Hcl 0 (element_first _)))
    as [->|(c & t & o & l & Ehd & ? & ? & ? & ?)]; [lia|lia|right; by eexists|].
  assert (header_at data 0 c t o l) as Hhd by (exists (Zlen data); split; [lia|exact Ehd]). rewrite Ehd. run.
  destruct (parse_der_tag_children_safe data Hb Hsize Hcl (parse_fuel data)) as [Htag _].
  destruct (Htag 0 c t o l) as [(e & -> & ?)|(tlv & at_' & -> & _)];
    [constructor|done|lia|lia|lia|lia|lia|unfold parse_fuel; lia|right; by eexists|]. run.
  case_match; [right|left]; by eexists.
Qed.

(** C11: on any block that does not end inside the tag of an element ([tags_closed]: such a
    tag is read past the end, see [parse_reads_past_long_tag]), the parser terminates, never
    reads outside the block, and either refuses the block or returns a tree that
    covers it: values and children are consecutive pieces of the block, in order,
    and with definite lengths the header announces exactly the size of the content. *)
Theorem atlv_parse_der_safe (data : list Z) :
  bytes data -> Zlen data < 2 ^ 31 -> tags_closed data ->
  (exists e, atlv_parse_der data = Err e /\ e <> OutOfFuel) \/
  exists t, atlv_parse_der data = Ok t /\ tiles data 0 t (Zlen data) /\ decoded t = Some data /\
    (definite t = true -> off (head t) + len (head t) = Zlen data).
Proof.
  intros Hb Hsize Hcl. unfold atlv_parse_der.
  destruct (parse_cls_tag_len_safe data Hb Hsize 0 (Zlen data) (Hcl 0 (element_first _)))
    as [->|(c & t & o & l & Ehd & ? & ? & ? & ?)]; [lia|lia|left; by eexists|].
  assert (header_at data 0 c t o l) as Hhd by (exists (Zlen data); split; [lia|exact Ehd]). rewrite Ehd. run.
  destruct (parse_der_tag_children_safe data Hb Hsize Hcl (parse_fuel data)) as [Htag _].
  destruct (Htag 0 c t o l) as [(e & -> & ?)|(tlv & at_' & -> & _ & Hat & Ht & <- & <- & Hd)];
    [constructor|done|lia|lia|lia|lia|lia|unfold parse_fuel; lia|left; by eexists|]. run.
  destruct (Z.eqb_spec at_' (Zlen data)) as [->|]; cbn [negb]; [|left; by eexists].
  right. exists tlv. split; [done|]. split; [done|].
  assert (Hs : forall n d, n = Zlen data -> slice data 0 n = Some d -> d = data).
  { intros n d -> Hs. rewrite slice_all in Hs. by injection Hs. }
  inversion Ht; subst; cbn [decoded] in *.
  - split; [f_equal; eapply Hs; [|eassumption]; simpl in *; lia|]. intros Hdef. destruct (Hd Hdef). lia.
  - split; [f_equal; eapply Hs; [|eassumption]; lia|]. intros Hdef. destruct (Hd Hdef). lia.
Qed.

Lemma atlv_parse_der_safe_witness :
  exists t, atlv_parse_der [0x30; 0x03; 0x02; 0x01; 0xFF] = Ok t /\ tiles [0x30; 0x03; 0x02; 0x01; 0xFF] 0 t 5.
Proof.
  destruct (atlv_parse_der_safe [0x30; 0x03; 0x02; 0x01; 0xFF])
    as [(e & H & _)|(t & H & Ht & _)].
  - decide_now.
  - simpl. lia.
  - intros at_ _ (b & Hb & Hl & Hlt & _). apply rd_lookup in Hb as [Hat Hb]. cbn in Hlt.
    assert (at_ = 0 \/ at_ = 1 \/ at_ = 2 \/ at_ = 3) as Hc by lia.
    destruct Hc as [->|[->|[->| ->]]]; vm_compute in Hb; injection Hb as <-; vm_compute in Hl; discriminate Hl.
  - vm_compute in H. discriminate H.
  - exists t. split; [exact H|exact Ht].
Defined.

(** A block that ends inside a long-form tag is read past its end. *)
Lemma parse_reads_past_long_tag : atlv_parse_der [0x1f; 0x81] = Ub.
Proof. vm_compute. reflexivity. Qed.

(** A length cut short by the end of the block is taken as the number formed by
    the bytes present: the two bytes [04 81] are an empty octet string. *)
Lemma parse_accepts_truncated_length :
  atlv_parse_der [0x04; 0x81] = Ok (mk_atlv (parsed_head 0 4 2 0) (Some []) (Some [0x04; 0x81]) []).
Proof. vm_compute. reflexivity. Qed.

(** The wrap checks of the length loop compare with the previous value only:
    a five byte length whose value does not fit 32 bits is accepted. *)
Lemma parse_length_wraps :
  atlv_parse_length [0x85; 0x01; 0x02; 0x03; 0x04; 0x05] 0 6 = Ok (0x02030405, 6).
Proof. vm_compute. reflexivity. Qed.

(** What was parsed from a non-minimal length cannot be written again: the
    assertion on the header size fails. *)
Lemma reencode_aborts :
  atlv_parse_der [0x04; 0x81; 0x01; 0x00] ≫= atlv_unparse_to_bytes = Ub.
Proof. vm_compute. reflexivity. Qed.

(** [egg_asn1x_element_content] points past the end of the block when the
    announced length is too large. *)
Lemma element_content_unchecked :
  egg_asn1x_element_content [0x04; 0x05; 0x00] = Ok (Some (2, 5)).
Proof. vm_compute. reflexivity. Qed.

(** * Writing then parsing *)

Section Digits.
Context (s : Z) (Hs : 0 < s).

Lemma low_digits_range fuel v : Forall (fun d => 0 <= d < 2 ^ s) (low_digits fuel s v).
Proof.
  revert v; induction fuel; intros v; simpl; [constructor|]. case_match; constructor; [|done].
  rewrite Z.land_ones by lia. apply Z.mod_pos_bound. lia.
Qed.

Lemma shiftr_small v n : 0 <= v < 2 ^ (s * Z.of_nat (S n)) -> 0 <= Z.shiftr v s < 2 ^ (s * Z.of_nat n).
Proof.
  intros Hv. rewrite Z.shiftr_div_pow2 by lia.
  rewrite Nat2Z.inj_succ, Z.mul_succ_r, Z.pow_add_r in Hv by lia.
  split; [apply Z.div_pos; lia|]. apply Z.div_lt_upper_bound; lia.
Qed.

Lemma low_digits_length fuel v n : 0 <= v < 2 ^ (s * Z.of_nat n) -> (length (low_digits fuel s v) <= n)%nat.
Proof.
  revert v n; induction fuel; intros v n Hv; simpl; [lia|]. destruct (Z.eqb_spec v 0); simpl; [lia|].
  destruct n; [rewrite Z.mul_0_r in Hv; simpl in Hv; lia|].
  apply shiftr_small in Hv. specialize (IHfuel _ _ Hv). lia.
Qed.

Lemma low_digits_val fuel v : 0 <= v < 2 ^ (s * Z.of_nat fuel) ->
  ms_val (2 ^ s) 0 (rev (low_digits fuel s v)) = v.
Proof.
  revert v; induction fuel; intros v Hv; [rewrite Z.mul_0_r in Hv; simpl in *; lia|].
  cbn [low_digits]. destruct (Z.eqb_spec v 0) as [->|]; [done|]. cbn [rev].
  rewrite ms_val_snoc, IHfuel by by apply shiftr_small.
  rewrite Z.land_ones, Z.shiftr_div_pow2 by lia. pose proof (Z.div_mod v (2 ^ s)). lia.
Qed.
End Digits.

(** Class octets: the three upper bits. *)
Definition cls_ok (c : Z) : Prop := 0 <= c < 256 /\ c mod 32 = 0.

Lemma cls_byte c r : cls_ok c -> 0 <= r < 32 ->
  u8 (Z.land c 0xE0 + r) = c + r /\ Z.land (c + r) 0xE0 = c /\ Z.land (c + r) 0x1F = r.
Proof.
  intros [Hc Hm] Hr. assert (exists q, c = 32 * q /\ 0 <= q < 8) as (q & -> & Hq)
    by (exists (c / 32); lia_div).
  assert (forallb (fun q => forallb (fun r =>
    (u8 (Z.land (32 * q) 0xE0 + r) =? 32 * q + r) && (Z.land (32 * q + r) 0xE0 =? 32 * q) &&
    (Z.land (32 * q + r) 0x1F =? r)) (seqZ 0 32)) (seqZ 0 8) = true) as Hall by (vm_compute; reflexivity).
  pose proof (range_check _ _ _ (range_check _ _ _ Hall q ltac:(lia)) r ltac:(lia)) as Hqr. clear Hall.
  apply andb_true_iff in Hqr as [[?%Z.eqb_eq ?%Z.eqb_eq]%andb_true_iff ?%Z.eqb_eq]. done.
Qed.

(** The header of a TLV as the writer emits it. *)
Definition header_bytes (c t l : Z) : list Z :=
  match unparse_cls_tag c t, atlv_unparse_len (u64 l) with
  | Ok ct, Ok lb => ct ++ lb
  | _, _ => []
  end.

Lemma unparse_cls_tag_eq c t : cls_ok c -> 0 <= t < 2 ^ 32 ->
  (t < 31 /\ unparse_cls_tag c t = Ok [c + t]) \/
  (31 <= t /\ exists ms d, unparse_cls_tag c t = Ok ((c + 31) :: ((fun x => x + 128) <$> ms) ++ [d]) /\
     Forall (fun x => 0 <= x < 128) (ms ++ [d]) /\ ms_val 128 0 (ms ++ [d]) = t /\ (length ms <= 4)%nat).
Proof.
  intros Hc Ht. unfold unparse_cls_tag.
  destruct (Z.ltb_spec t 31); [left|right]; (split; [done|]).
  - change 0x1F with 31. rewrite land_31, Z.mod_small by lia.
    destruct (cls_byte c t Hc) as (-> & _); [lia|done].
  - unfold temp_digits.
    assert (0 <= t < 2 ^ (7 * Z.of_nat 64)) as Hbig.
    { split; [lia|]. apply Z.lt_trans with (2 ^ 32); [lia|]. apply Z.pow_lt_mono_r; lia. }
    pose proof (low_digits_length 7 ltac:(lia) 64 t 5 ltac:(lia)) as Hl.
    pose proof (low_digits_val 7 ltac:(lia) 64 t Hbig) as Hv. clear Hbig.
    pose proof (low_digits_range 7 ltac:(lia) 64 t) as Hr.
    destruct (low_digits 64 7 t) as [|d0 ds] eqn:E.
    { change (0 = t) in Hv. lia. }
    assert_ok.
    destruct (cls_byte c 31 Hc) as (-> & _); [lia|].
    inversion_clear Hr as [|?? Hd0 Hds]. change (2 ^ 7) with 128 in *.
    exists (rev ds), d0. split_and!.
    + do 2 f_equal. f_equal; [|f_equal; rewrite (u8_small (d0 + 128)), u8_small; lia].
      rewrite <- map_rev. change (map ?f ?l) with (f <$> l).
      apply (Forall_fmap_ext_1 (fun x => u8 (x + 128))), Forall_rev.
      eapply Forall_impl; [exact Hds|]. intros x Hx. apply u8_small. simpl in Hx. lia.
    + apply Forall_app. split; [by apply Forall_rev|by constructor].
    + exact Hv.
    + rewrite length_rev. cbn [length] in Hl. lia.
Qed.

Lemma unparse_len_eq l : 0 <= l < 2 ^ 31 ->
  (l < 128 /\ atlv_unparse_len (u64 l) = Ok [l]) \/
  (128 <= l /\ exists ds, atlv_unparse_len (u64 l) = Ok ((128 + Zlen ds) :: ds) /\
     bytes ds /\ ms_val 256 0 ds = l /\ (1 <= length ds <= 4)%nat).
Proof.
  intros Hl. unfold atlv_unparse_len. rewrite u64_small by lia.
  destruct (Z.ltb_spec l 128); [left|right]; (split; [done|]).
  - by rewrite u8_small by lia.
  - unfold temp_digits.
    assert (0 <= l < 2 ^ (8 * Z.of_nat 64)) as Hbig.
    { split; [lia|]. apply Z.lt_trans with (2 ^ 32); [lia|]. apply Z.pow_lt_mono_r; lia. }
    pose proof (low_digits_length 8 ltac:(lia) 64 l 4 ltac:(lia)) as Hlen.
    pose proof (low_digits_val 8 ltac:(lia) 64 l Hbig) as Hv. clear Hbig.
    pose proof (low_digits_range 8 ltac:(lia) 64 l) as Hr.
    assert_ok.
    exists (rev (low_digits 64 8 l)). rewrite length_rev. split_and!; [|by apply Forall_rev|done| |done].
    + do 2 f_equal. change 0x7F with 127. rewrite land_127, Z.mod_small; lia.
    + destruct (low_digits 64 8 l); [change (0 = l) in Hv; lia|cbn [length]; lia].
Qed.

Lemma header_bytes_ok c t l : cls_ok c -> 0 <= t < 2 ^ 32 -> 0 <= l < 2 ^ 31 ->
  exists ct lb, unparse_cls_tag c t = Ok ct /\ atlv_unparse_len (u64 l) = Ok lb /\
    header_bytes c t l = ct ++ lb /\ (1 <= length ct <= 6)%nat /\ (1 <= length lb <= 5)%nat.
Proof.
  intros Hc Ht Hl. unfold header_bytes.
  destruct (unparse_cls_tag_eq c t Hc Ht) as [[_ ->]|(_ & ms & d & -> & _ & _ & ?)];
    destruct (unparse_len_eq l Hl) as [[_ ->]|(_ & ds & -> & _ & _ & ?)]; eexists _, _;
    (split_and!; [done|done|done|..]); rewrite ?length_cons, ?length_app, ?length_fmap; simpl; lia.
Qed.

(** ** Reading a header back *)

Lemma long_tag_reads data at_ n_data ms : forall fuel pre d post punt ris,
  data = pre ++ ((fun x => x + 128) <$> ms) ++ d :: post -> Zlen pre = at_ + punt ->
  0 <= at_ -> 0 <= punt -> Forall (fun x => 0 <= x < 128) (ms ++ [d]) -> 0 <= ris ->
  ms_val 128 ris (ms ++ [d]) < 2 ^ 32 -> punt + Zlen ms <= n_data -> n_data < 2 ^ 31 ->
  (length ms < fuel)%nat ->
  long_tag fuel data at_ n_data punt ris = Ok (Some (ms_val 128 ris (ms ++ [d]), punt + Zlen ms + 1)).
Proof.
  induction ms as [|m ms IH]; intros fuel pre d post punt ris Hd Hp Hat Hpunt Hr Hris Hv Hfit Hn Hf;
    (destruct fuel as [|fuel]; [simpl in Hf; lia|]); cbn [long_tag];
    (destruct (Z.leb_spec punt n_data); [|simpl in *; lia]); rewrite <- Hp.
  - cbn [fmap list_fmap app] in Hd. rewrite Hd, rd_middle. cbn [or_ub mbind res_bind app ms_val] in *.
    inversion_clear Hr as [|?? Hd0 _]. simpl length in Hfit. change 0x7F with 127. rewrite land_127, (Z.mod_small d) by lia.
    rewrite (u32_small (ris * 128)), (u32_small (ris * 128 + d)), (u32_small (punt + 1)) by lia.
    destruct (Z.ltb_spec (ris * 128) ris), (Z.ltb_spec (ris * 128 + d) (ris * 128)); try lia.
    rewrite Z.eqb_refl. do 3 f_equal. simpl. lia.
  - cbn [fmap list_fmap app] in Hd. inversion_clear Hr as [|?? Hm Hr'].
    cbn [app ms_val] in Hv. rewrite Hd at 1. rewrite rd_middle. run.
    pose proof (ms_val_ge 128 (ris * 128 + m) (ms ++ [d]) ltac:(lia) ltac:(lia)) as Hge.
    specialize (Hge ltac:(eapply Forall_impl; [exact Hr'|]; intros; simpl in *; lia)).
    simpl length in *. change 0x7F with 127. rewrite land_127.
    replace ((m + 128) mod 128) with m by lia_div.
    rewrite (u32_small (ris * 128)), (u32_small (ris * 128 + m)), (u32_small (punt + 1)) by lia.
    destruct (Z.ltb_spec (ris * 128) ris), (Z.ltb_spec (ris * 128 + m) (ris * 128)),
      (Z.eqb_spec m (m + 128)); try lia.
    rewrite (IH fuel (pre ++ [m + 128]) d post); cbn [app ms_val]; try done; try lia.
    + do 3 f_equal. lia.
    + by rewrite <- app_assoc.
    + rewrite length_app. simpl. lia.
Qed.

Lemma long_length_reads data at_ n_data k ds : forall fuel pre post punt ans,
  data = pre ++ ds ++ post -> Zlen pre = at_ + punt -> punt + Zlen ds = k + 1 -> k < n_data ->
  bytes ds -> 0 <= ans -> ms_val 256 ans ds < 2 ^ 32 -> (length ds <= fuel)%nat ->
  long_length fuel data at_ n_data k punt ans = Ok (Some (ms_val 256 ans ds, k + 1)).
Proof.
  induction ds as [|m ds IH]; intros fuel pre post punt ans Hd Hp Hk Hn Hr Hans Hv Hf.
  - simpl length in Hk. destruct fuel; cbn [long_length];
      (destruct (Z.leb_spec punt k); [lia|]); cbn [andb]; do 3 f_equal; simpl; lia.
  - destruct fuel as [|fuel]; [simpl in Hf; lia|]. cbn [long_length]. simpl length in *.
    destruct (Z.leb_spec punt k), (Z.ltb_spec punt n_data); try lia. cbn [andb].
    inversion_clear Hr as [|?? Hm Hr']. unfold is_byte in Hm. cbn [app ms_val] in *.
    pose proof (ms_val_ge 256 (ans * 256 + m) ds ltac:(lia) ltac:(lia)) as Hge.
    specialize (Hge ltac:(eapply Forall_impl; [exact Hr'|]; unfold is_byte; intros; simpl in *; lia)).
    rewrite <- Hp. rewrite Hd at 1. rewrite rd_middle. run.
    rewrite (u32_small (ans * 256)), (u32_small (ans * 256 + m)) by lia.
    destruct (Z.ltb_spec (ans * 256) ans), (Z.ltb_spec (ans * 256 + m) (ans * 256)); try lia.
    apply (IH fuel (pre ++ [m]) post); try done; try lia.
    + by rewrite <- app_assoc.
    + rewrite length_app. simpl. lia.
Qed.

Lemma parse_cls_tag_reads data pre c t ct post end_ : cls_ok c -> 0 <= t < 2 ^ 32 ->
  unparse_cls_tag c t = Ok ct -> data = pre ++ ct ++ post ->
  Zlen pre + Zlen ct < end_ -> end_ < 2 ^ 31 ->
  atlv_parse_cls_tag data (Zlen pre) end_ = Ok (Some (c, t, Zlen ct)).
Proof.
  intros Hc Ht Hct Hd Hfit Hend. unfold atlv_parse_cls_tag.
  assert_ok. rewrite u32_small by lia.
  destruct (unparse_cls_tag_eq c t Hc Ht) as [[Hs He]|(Hs & ms & d & He & Hr & Hv & Hl)];
    rewrite He in Hct; injection Hct as <-; cbn [length] in *;
    (destruct (Z.ltb_spec (end_ - Zlen pre) 2) as [Hshort|_];
      [rewrite ?length_app, ?length_fmap in Hfit; simpl in Hfit; lia|]);
    cbn [app] in Hd; rewrite Hd at 1; rewrite rd_middle; run.
  - destruct (cls_byte c t Hc) as (_ & -> & ->); [lia|].
    change 0x1F with 31. destruct (Z.eqb_spec t 31); [lia|]. done.
  - destruct (cls_byte c 31 Hc) as (_ & -> & ->); [lia|]. change (31 =? 0x1F) with true. cbn [negb].
    rewrite length_app, length_fmap in *. cbn [length] in *.
    rewrite (long_tag_reads data (Zlen pre) (end_ - Zlen pre) ms _ (pre ++ [c + 31]) d post);
      try done; try lia.
    + run. destruct (Z.leb_spec (end_ - Zlen pre) (1 + Zlen ms + 1)); [lia|].
      rewrite Hv. do 3 f_equal. lia.
    + rewrite Hd, <- !app_assoc. done.
    + rewrite length_app. simpl. lia.
Qed.

Lemma parse_length_reads data pre l lb post end_ : 0 <= l < 2 ^ 31 ->
  atlv_unparse_len (u64 l) = Ok lb -> data = pre ++ lb ++ post ->
  Zlen pre + Zlen lb <= end_ -> end_ < 2 ^ 31 ->
  atlv_parse_length data (Zlen pre) end_ = Ok (l, Zlen lb).
Proof.
  intros Hl Hlb Hd Hfit Hend. unfold atlv_parse_length.
  destruct (unparse_len_eq l Hl) as [[Hs He]|(Hs & ds & He & Hr & Hv & Hk)];
    rewrite He in Hlb; injection Hlb as <-; cbn [length] in *;
    assert_ok; rewrite u32_small by lia;
    cbn [app] in Hd; rewrite Hd at 1; rewrite rd_middle; run.
  - assert (Z.land l 128 = 0) as ->; [|done].
    change 128 with (2 ^ 7). apply Z.bits_inj'. intros i Hi. rewrite Z.land_spec, Z.pow2_bits_eqb, Z.bits_0 by lia.
    destruct (Z.eqb_spec 7 i) as [<-|]; [|by rewrite andb_false_r]. rewrite andb_true_r.
    apply Z.testbit_false; [lia|]. rewrite Z.div_small; [done|lia].
  - assert (Hcase : length ds = 1%nat \/ length ds = 2%nat \/ length ds = 3%nat \/ length ds = 4%nat) by lia.
    assert (Z.land (128 + Zlen ds) 128 = 128 /\ Z.land (128 + Zlen ds) 0x7F = Zlen ds) as [-> ->].
    { by destruct Hcase as [->|[->|[->| ->]]]. }
    change (128 =? 0) with false. cbn match. destruct (Z.eqb_spec (Zlen ds) 0); [lia|]. cbn [negb].
    rewrite (long_length_reads data (Zlen pre) (end_ - Zlen pre) (Zlen ds) ds _ (pre ++ [128 + Zlen ds]) post);
      try done; try lia.
    + run. rewrite Hv, s32_small by lia. do 2 f_equal. lia.
    + rewrite Hd, <- !app_assoc. done.
    + rewrite length_app. simpl. lia.
Qed.

Lemma parse_header_reads data pre c t l post end_ : cls_ok c -> 0 <= t < 2 ^ 32 -> 0 <= l ->
  data = pre ++ header_bytes c t l ++ post ->
  Zlen pre + Zlen (header_bytes c t l) + l <= end_ -> end_ < 2 ^ 31 ->
  atlv_parse_cls_tag_len data (Zlen pre) end_ = Ok (Some (c, t, Zlen (header_bytes c t l), l)).
Proof.
  intros Hc Ht Hl Hd Hfit Hend.
  destruct (header_bytes_ok c t l Hc Ht ltac:(lia)) as (ct & lb & Ht' & Hl' & Hh & ? & ?).
  rewrite Hh, length_app in *. unfold atlv_parse_cls_tag_len.
  assert_ok.
  rewrite <- app_assoc in Hd.
  rewrite (parse_cls_tag_reads data pre c t ct _ end_ Hc Ht Ht' Hd) by lia. run.
  rewrite app_assoc in Hd.
  pose proof (parse_length_reads data _ l lb post end_ ltac:(lia) Hl' Hd) as Hpl.
  rewrite length_app, Nat2Z.inj_add in Hpl. rewrite Hpl by lia. run.
  destruct (Z.ltb_spec l (-1)); [lia|]. destruct (Z.leb_spec 0 l); [|lia]. cbn [andb].
  destruct (Z.ltb_spec end_ (Zlen pre + (Zlen ct + Zlen lb) + l)); [lia|].
  by rewrite Nat2Z.inj_add.
Qed.

(** ** The reference encoding *)

(** Contents octets of a primitive TLV. *)
Definition payload (h : AtlvHead) (buf : list Z) : list Z :=
  if prefix_for_bit_string h then bits_empty h :: mask_last buf (bits_empty h)
  else if prefix_with_zero_byte h then 0 :: buf
  else buf.

(** The DER encoding, as a function of the tree. *)
Fixpoint der (t : Atlv) : list Z :=
  let 'mk_atlv h v _ cs := t in
  header_bytes (cls h) (tag h) (len h) ++
  match v with Some buf => payload h buf | None => concat (map der cs) end.

Definition head_ok (h : AtlvHead) (content : list Z) : Prop :=
  cls_ok (cls h) /\ 0 <= tag h < 2 ^ 32 /\ len h = Zlen content /\
  off h = Zlen (header_bytes (cls h) (tag h) (len h)) /\ off h + len h < 2 ^ 31.

(** The trees the [anode_build_*] functions make: sizes filled in bottom up, the
    structured bit set exactly on TLVs without a value. *)
Inductive encodable : Atlv -> Prop :=
  | enc_value h buf d :
      head_ok h (payload h buf) -> Z.land (cls h) ASN1_CLASS_STRUCTURED = 0 ->
      encodable (mk_atlv h (Some buf) d [])
  | enc_structured h d cs :
      head_ok h (concat (map der cs)) -> Z.land (cls h) ASN1_CLASS_STRUCTURED <> 0 ->
      Forall encodable cs -> encodable (mk_atlv h None d cs).

(** What parsing the encoding must give: the same tree with the contents octets
    as values and the source bytes noted in every node. *)
Fixpoint reparsed (t : Atlv) : Atlv :=
  let 'mk_atlv h v d cs := t in
  mk_atlv (parsed_head (cls h) (tag h) (off h) (len h)) (payload h <$> v) (Some (der t)) (map reparsed cs).

Lemma Atlv_ind' (P : Atlv -> Prop) :
  (forall h v d cs, Forall P cs -> P (mk_atlv h v d cs)) -> forall t, P t.
Proof.
  intros H. fix IH 1. intros [h v d cs]. apply H.
  induction cs as [|c cs IHcs]; constructor; [apply IH|exact IHcs].
Qed.

Lemma mask_last_length buf b : length (mask_last buf b) = length buf.
Proof.
  unfold mask_last. destruct (rev buf) as [|x r] eqn:E; [done|]. case_match; [done|].
  rewrite <- (rev_involutive buf), E. cbn [rev]. by rewrite !length_app.
Qed.

Lemma value_bytes_ok h buf : len h = Zlen (payload h buf) -> value_bytes h buf = Ok (payload h buf).
Proof.
  unfold value_bytes, payload. intros Hl.
  repeat case_match; (rewrite c_assert_true; [done|]); apply Z.eqb_eq; rewrite Hl;
    cbn [length]; rewrite ?mask_last_length; lia.
Qed.

Lemma der_length t : encodable t -> Zlen (der t) = off (head t) + len (head t) /\
  2 <= off (head t) /\ 0 <= len (head t) /\ off (head t) + len (head t) < 2 ^ 31.
Proof.
  intros He. assert (exists content, der t = header_bytes (cls (head t)) (tag (head t)) (len (head t)) ++ content /\
    head_ok (head t) content) as (content & -> & Hc & Ht & Hl & Ho & Hs)
    by (inversion He; subst; eexists; split; (done || reflexivity)).
  assert (0 <= len (head t) < 2 ^ 31) as Hl'.
  { split; [lia|]. assert (0 <= off (head t)) by lia. lia. }
  destruct (header_bytes_ok _ _ _ Hc Ht Hl') as (ct & lb & _ & _ & Hh & ? & ?).
  rewrite length_app. rewrite Hh, length_app in Ho |- *. lia.
Qed.

Lemma unparse_header_writes c t l pre old post n : cls_ok c -> 0 <= t < 2 ^ 32 -> 0 <= l < 2 ^ 31 ->
  length old = length (header_bytes c t l) -> Zlen old <= n ->
  atlv_unparse_cls_tag_len (pre ++ old ++ post) (Zlen pre) n c t l
  = Ok (pre ++ header_bytes c t l ++ post, Zlen (header_bytes c t l)).
Proof.
  intros Hc Ht Hl Hold Hn. destruct (header_bytes_ok c t l Hc Ht Hl) as (ct & lb & Hct & Hlb & Hh & _).
  rewrite Hh in *. apply split_old in Hold as (o1 & o2 & -> & H1 & H2).
  unfold atlv_unparse_cls_tag_len. rewrite Hct, Hlb.
  rewrite length_app in *. run.
  rewrite !c_assert_true by (apply Z.leb_le; lia). run.
  rewrite <- !app_assoc, wr_app by done. run. rewrite app_assoc.
  pose proof (wr_app (pre ++ ct) o2 post lb H2) as Hw. rewrite length_app, Nat2Z.inj_add in Hw.
  rewrite Hw. run. by rewrite <- app_assoc, Nat2Z.inj_add.
Qed.

Definition writes (t : Atlv) : Prop := forall pre old post end_,
  length old = length (der t) -> Zlen pre + Zlen old <= end_ ->
  atlv_unparse_der t (pre ++ old ++ post) (Zlen pre) end_
  = Ok (pre ++ der t ++ post, Zlen (pre ++ der t)).

Lemma unparse_children_writes cs : Forall encodable cs -> Forall writes cs ->
  forall pre old post end_, length old = length (concat (map der cs)) -> Zlen pre + Zlen old <= end_ ->
  unparse_children (fun c block at_ => atlv_unparse_der c block at_ end_) cs (pre ++ old ++ post) (Zlen pre)
  = Ok (pre ++ concat (map der cs) ++ post, Zlen (pre ++ concat (map der cs))).
Proof.
  induction cs as [|c cs IH]; intros He Hw pre old post end_ Hold Hfit.
  { destruct old; [|done]. cbn. by rewrite app_nil_r. }
  inversion_clear He as [|?? He1 He2]. inversion_clear Hw as [|?? Hw1 Hw2].
  cbn [map concat] in *. apply split_old in Hold as (o1 & o2 & -> & H1 & H2).
  rewrite length_app in Hfit. cbn [unparse_children]. rewrite <- app_assoc, Hw1 by (done || lia).
  run. destruct (der_length c He1) as (Hl & _).
  assert_ok.
  pose proof (IH He2 Hw2 (pre ++ der c) o2 post end_ H2) as Hi. rewrite <- !app_assoc in Hi.
  rewrite Hi by (rewrite length_app; lia). by rewrite <- !app_assoc.
Qed.

Lemma unparse_der_writes t : encodable t -> writes t.
Proof.
  induction t as [h v d cs IH] using Atlv_ind'. intros He pre old post end_ Hold Hfit.
  pose proof (der_length _ He) as (Hdl & Ho2 & Hl0 & Hsz). cbn [head] in *.
  assert (exists content, der (mk_atlv h v d cs) = header_bytes (cls h) (tag h) (len h) ++ content /\
    head_ok h content /\
    (forall o2 p, length o2 = length content -> Zlen p + Zlen o2 <= end_ ->
     match v with
     | Some buf => p0 ← value_bytes h buf; block ← or_ub (wr (p ++ o2 ++ post) (Zlen p) p0); Ok (block, Zlen p + Zlen p0)
     | None => unparse_children (fun c block at_ => atlv_unparse_der c block at_ end_) cs (p ++ o2 ++ post) (Zlen p)
     end = Ok (p ++ content ++ post, Zlen (p ++ content)))) as (content & Hder & (Hc & Ht & Hl & Ho & _) & Hbody).
  { inversion He as [??? Hok|??? Hok ? Hcs]; subst; eexists; (split; [reflexivity|]; split; [exact Hok|]);
      intros o2 p Hlen Hle.
    - rewrite value_bytes_ok by apply Hok. run. rewrite wr_app by done.
      run. by rewrite length_app, Nat2Z.inj_add.
    - apply unparse_children_writes; [done| |done|lia].
      eapply Forall_impl; [exact (proj2 (Forall_and _ _) (conj IH Hcs))|]. intros c [H1 H2]. by apply H1. }
  rewrite Hder in *. apply split_old in Hold as (o1 & o2 & -> & H1 & H2).
  rewrite !length_app in *. cbn [atlv_unparse_der]. assert_ok. rewrite <- app_assoc. rewrite unparse_header_writes by (done || lia).
  run. assert_ok.
  specialize (Hbody o2 (pre ++ header_bytes (cls h) (tag h) (len h)) H2).
  rewrite length_app, Nat2Z.inj_add, <- !app_assoc in Hbody. rewrite Hbody by lia. run.
  rewrite c_assert_true by (apply Z.leb_le; rewrite !length_app; lia).
  by rewrite <- !app_assoc, !length_app.
Qed.

(** ** The parser on the encoding *)

Definition parses (t : Atlv) : Prop := forall data pre post fuel,
  data = pre ++ der t ++ post -> Zlen data < 2 ^ 31 -> (length (der t) <= fuel)%nat ->
  atlv_parse_der_tag fuel data (Zlen pre) (cls (head t)) (tag (head t)) (off (head t)) (len (head t))
  = Ok (reparsed t, Zlen (pre ++ der t)).

Lemma parse_children_reads cs : Forall encodable cs -> Forall parses cs ->
  forall data pre post fuel l, data = pre ++ concat (map der cs) ++ post -> Zlen data < 2 ^ 31 ->
  0 <= l -> (length (concat (map der cs)) < fuel)%nat ->
  parse_children fuel data (Zlen pre) (Zlen (pre ++ concat (map der cs))) l
  = Ok (map reparsed cs, Zlen (pre ++ concat (map der cs))).
Proof.
  induction cs as [|c cs IH]; intros He Hp data pre post fuel l Hd Hsz Hl Hf.
  { cbn [map concat]. rewrite app_nil_r.
    destruct fuel; cbn [parse_children]; by rewrite Z.ltb_irrefl. }
  inversion_clear He as [|?? He1 He2]. inversion_clear Hp as [|?? Hp1 Hp2].
  cbn [map concat] in *. rewrite length_app in Hf. destruct (der_length c He1) as (Hdl & Ho & Hl0 & _).
  pose proof Hsz as Hsz'. rewrite Hd, !length_app in Hsz'.
  destruct fuel as [|fuel]; [lia|]. cbn [parse_children].
  destruct (Z.ltb_spec (Zlen pre) (Zlen (pre ++ der c ++ concat (map der cs)))) as [_|Hge];
    [|rewrite !length_app in Hge; lia].
  assert (exists content, der c = header_bytes (cls (head c)) (tag (head c)) (len (head c)) ++ content /\
    head_ok (head c) content) as (content & Hder & Hc & Ht & Hlen & Hoff & _)
    by (inversion He1; subst; eexists; split; (done || reflexivity)).
  pose proof Hd as Hd'. rewrite Hder, <- !app_assoc in Hd'.
  rewrite (parse_header_reads data pre _ _ _ _ _ Hc Ht Hl0 Hd') by (rewrite ?length_app; lia).
  run. destruct (Z.ltb_spec l 0); [lia|]. cbn [andb].
  rewrite <- Hoff. rewrite <- app_assoc in Hd.
  rewrite (Hp1 data pre _ fuel Hd Hsz) by lia. run.
  rewrite app_assoc in Hd.
  pose proof (IH He2 Hp2 data (pre ++ der c) post fuel l Hd Hsz Hl ltac:(lia)) as Hi.
  rewrite <- app_assoc in Hi. rewrite Hi. done.
Qed.

Lemma parse_der_tag_reads t : encodable t -> parses t.
Proof.
  induction t as [h v d cs IH] using Atlv_ind'. intros He data pre post fuel Hd Hsz Hf.
  pose proof (der_length _ He) as (Hdl & Ho2 & Hl0 & _). cbn [head] in *.
  assert (Zlen data = Zlen pre + Zlen (der (mk_atlv h v d cs)) + Zlen post) as Hdata
    by (rewrite Hd, !length_app; lia).
  destruct fuel as [|fuel]; [lia|]. cbn [atlv_parse_der_tag].
  assert_ok.
  destruct (Z.leb_spec (Zlen pre + off h + len h) (Zlen data)) as [_|Hgt];
    [|lia]. cbn [negb]; run.
  destruct (Z.ltb_spec (len h) 0); [lia|]. cbn [andb]; run.
  pose proof (slice_pre _ _ _ _ Hd) as Hall.
  inversion He as [? buf ? Hok Hstr|?? cs0 Hok Hstr Hcs]; subst v cs; destruct Hok as (Hc & Ht & Hl & Ho & _).
  - destruct (Z.eqb_spec (Z.land (cls h) ASN1_CLASS_STRUCTURED) 0); [|done]. cbn [negb].
    pose proof Hd as Hd'. cbn [der] in Hd'. rewrite <- app_assoc, app_assoc in Hd'.
    pose proof (slice_pre _ _ _ _ Hd') as Hv. rewrite length_app, Nat2Z.inj_add, <- Ho, <- Hl in Hv.
    unfold view. rewrite Hv. run.
    replace (Zlen pre + off h + len h - Zlen pre) with (off h + len h) by lia.
    rewrite <- Hdl, Hall. cbn [or_ub mbind res_bind reparsed fmap option_fmap option_map map].
    do 2 f_equal. rewrite length_app, Nat2Z.inj_add. lia.
  - destruct (Z.eqb_spec (Z.land (cls h) ASN1_CLASS_STRUCTURED) 0); [done|]. cbn [negb].
    destruct (Z.leb_spec 0 (len h)); [|lia].
    pose proof Hd as Hd'. cbn [der] in Hd'. rewrite <- app_assoc, app_assoc in Hd'.
    assert (Forall parses cs0) as Hps.
    { eapply Forall_impl; [exact (proj2 (Forall_and _ _) (conj IH Hcs))|]. intros c [Hc1 Hc2]. by apply Hc1. }
    pose proof (parse_children_reads cs0 Hcs Hps data _ _ fuel (len h) Hd' Hsz Hl0) as Hch.
    rewrite !length_app, !Nat2Z.inj_add, <- Ho, <- Hl in Hch. rewrite Hch.
    2:{ cbn [der] in Hf, Hdl. rewrite length_app in Hf. lia. }
    run. unfold view.
    replace (Zlen pre + off h + len h - Zlen pre) with (off h + len h) by lia.
    rewrite <- Hdl, Hall. cbn [or_ub mbind res_bind reparsed fmap option_fmap option_map].
    do 2 f_equal. rewrite length_app, Nat2Z.inj_add. lia.
Qed.

Lemma unparse_to_bytes_der (t : Atlv) : encodable t -> atlv_unparse_to_bytes t = Ok (Some (der t)).
Proof.
  intros He. pose proof (der_length _ He) as (Hdl & Ho & Hl & Hsz).
  unfold atlv_unparse_to_bytes. rewrite <- Hdl. destruct (Z.eqb_spec (Zlen (der t)) 0); [lia|].
  assert_ok.
  pose proof (unparse_der_writes t He [] (replicate (length (der t)) 0) [] (Zlen (der t))) as Hw.
  cbn [app length] in Hw. change (Z.of_nat 0) with 0 in Hw. rewrite !app_nil_r, length_replicate in Hw.
  rewrite Nat2Z.id, Hw by lia. run. by rewrite c_assert_true by apply Z.eqb_refl.
Qed.

Lemma parse_der_reads (t : Atlv) : encodable t -> atlv_parse_der (der t) = Ok (reparsed t).
Proof.
  intros He. pose proof (der_length _ He) as (Hdl & Ho & Hl & Hsz).
  unfold atlv_parse_der. rewrite <- (app_nil_r (der t)) at 1.
  assert (exists content, der t = header_bytes (cls (head t)) (tag (head t)) (len (head t)) ++ content /\
    head_ok (head t) content) as (content & Hder & Hc & Ht & Hlen & Hoff & _)
    by (inversion He; subst; eexists; split; (done || reflexivity)).
  pose proof (parse_header_reads (der t) [] _ _ _ content (Zlen (der t)) Hc Ht Hl Hder) as Hh.
  cbn [length] in Hh. change (Z.of_nat 0) with 0 in Hh. rewrite app_nil_r, Hh by lia. run. rewrite <- Hoff.
  pose proof (parse_der_tag_reads t He (der t) [] [] (parse_fuel (der t))) as Hp.
  cbn [app length] in Hp. change (Z.of_nat 0) with 0 in Hp. rewrite app_nil_r in Hp. rewrite Hp by (done || (unfold parse_fuel; lia)).
  run. by rewrite Z.eqb_refl.
Qed.

(** C10: writing a tree and parsing the result gives the tree back.  For every
    encodable tree [atlv_unparse_to_bytes] passes all its assertions and returns
    exactly the DER encoding of the tree (tags up to 32 bits, lengths up to 31
    bits, short and long forms), and [atlv_parse_der] of that encoding is the tree
    with the contents octets as values. *)
Theorem atlv_unparse_parse (t : Atlv) :
  encodable t -> atlv_unparse_to_bytes t = Ok (Some (der t)) /\ atlv_parse_der (der t) = Ok (reparsed t).
Proof. intros He. split; [by apply unparse_to_bytes_der|by apply parse_der_reads]. Qed.

Lemma atlv_unparse_parse_witness :
  let t := mk_atlv (mk_head 0x20 0x10 2 6 0 false false true) None None
    [mk_atlv (mk_head 0x80 300 4 2 0 false true false) (Some [0xff]) None []] in
  atlv_unparse_to_bytes t = Ok (Some [0x30; 0x06; 0x9f; 0x82; 0x2c; 0x02; 0; 0xff]) /\
  atlv_parse_der [0x30; 0x06; 0x9f; 0x82; 0x2c; 0x02; 0; 0xff] = Ok (reparsed t).
Proof.
  refine (atlv_unparse_parse _ _). apply enc_structured; [| |constructor; [apply enc_value|constructor]].
  - unfold head_ok, cls_ok. decide_now.
  - decide_now.
  - unfold head_ok, cls_ok. decide_now.
  - reflexivity.
Defined.
