(* ===== verification/Asn1Value.v ===== *)
(** ASN.1 values: the readers and writers of [src/egg/egg-asn1x.c] for the contents
    octets of primitive types.

    UTCTime and GeneralizedTime ([atoin], [two_to_four_digit_year], [parse_utc_time],
    [parse_general_time]), INTEGER as an unsigned long, BOOLEAN, OBJECT IDENTIFIER, BIT
    STRING and strings.  Where the C code reads through a pointer without regard to the
    length it was given, the model has the memory from that pointer on ([mem]) and the
    length separately; reading past [mem], and signed overflow, is [Ub].  [None] is a
    [FALSE] return. *)

From S2P Require Import Prelude Asn1Tlv.
Local Open Scope Z_scope.

(** * Times *)

Record tm := mk_tm { tm_year : Z; tm_mon : Z; tm_mday : Z; tm_hour : Z; tm_min : Z; tm_sec : Z }.

#[export] Instance tm_eq_dec : EqDecision tm.
Proof. solve_decision. Defined.

(** [while (--digits >= 0)]: from the last digit to the first.  [ret] and [base]
    are [gint]s. *)
Fixpoint atoin_loop (mem : list Z) (p : Z) (digits : nat) (ret base : Z) : res unit Z :=
  match digits with
  | O => Ok ret
  | S d =>
    c ← or_ub (rd mem (p + Z.of_nat d));
    if negb (is_digit c) then Ok (-1)
    else
      let ret := ret + (c - 48) * base in
      let base := base * 10 in
      c_assert ((ret <? 2 ^ 31) && (base <? 2 ^ 31));;
      atoin_loop mem p d ret base
  end.
Definition atoin (mem : list Z) (p : Z) (digits : nat) : res unit Z := atoin_loop mem p digits 0 1.

(** [this_year] is [tm_year] of the current time. *)
Definition two_to_four_digit_year (this_year year : Z) : Z :=
  if negb ((0 <=? year) && (year <=? 99)) then -1
  else
    let current := Z.rem this_year 100 in
    let century := this_year + 1900 - current in
    if (current <? 40) && (year <? current) then century + year
    else if (current <? 40) && (100 - (40 - current) <? year) then (century - 100) + year
    else if (40 <=? current) && (year <? current) && (current - 40 <? year) then century + year
    else if year <? current then century + 100 + year
    else century + year.

(** [for (e = p; *e >= '0' && *e <= '9'; ++e);]: [None] when it runs off the memory. *)
Fixpoint digit_span (mem : list Z) : option Z :=
  match mem with
  | [] => None
  | c :: mem => if is_digit c then Z.succ <$> digit_span mem else Some 0
  end.

(** [if (p + n <= e) { field = f (atoin (p, n)); p += n; }] *)
Definition time_field (mem : list Z) (e : Z) (n : nat) (f : Z -> Z) (old p : Z) : res unit (Z * Z) :=
  if p + Z.of_nat n <=? e then v ← atoin mem p n; Ok (f v, p + Z.of_nat n) else Ok (old, p).

Definition tm_invalid (t : tm) : bool :=
  (tm_year t <? 0) || (9999 <? tm_year t) || (tm_mon t <? 0) || (11 <? tm_mon t) ||
  (tm_mday t <? 1) || (31 <? tm_mday t) || (tm_hour t <? 0) || (23 <? tm_hour t) ||
  (tm_min t <? 0) || (59 <? tm_min t) || (tm_sec t <? 0) || (59 <? tm_sec t).

(** The sign and the digits of a time zone; [p] is at the sign.  The early
    [return -1] is a true value with the offset left at zero. *)
Definition time_zone (mem : list Z) (p e : Z) (sign : Z) : res unit (option Z) :=
  let neg := sign =? 45 in
  let p := p + 1 in
  h ← atoin mem p 2;
  let o := h * 3600 in
  if (o <? 0) || (86400 <? o) then Ok (Some 0)
  else
    let p := p + 2 in
    '(o, p) ← (if p + 2 <=? e then v ← atoin mem p 2; Ok (o + v * 60, p + 2) else Ok (o, p));
    if negb (p =? e) then Ok None else Ok (Some (if neg then 0 - o else o)).

(** The optional fraction, [Z] or time zone; [e] is the end of the text. *)
Definition time_tail (mem : list Z) (p e : Z) : res unit (option Z) :=
  c ← (if p <? e then or_ub (rd mem p) else Ok 0);
  let p := if (p <? e) && (c =? 46) && (p + 5 <=? e) then p + 5 else p in
  c ← or_ub (rd mem p);
  if (p <? e) && (c =? 90) then (if negb (p + 1 =? e) then Ok None else Ok (Some 0))
  else if ((c =? 45) || (c =? 43)) && (p + 3 <=? e) then time_zone mem p e c
  else if negb (p =? e) then Ok None else Ok (Some 0).

(** From the month on the two parsers are the same text. *)
Definition time_rest (mem : list Z) (year p e n_time : Z) : res unit (option (tm * Z)) :=
  '(mon, p) ← time_field mem e 2 (fun v => v - 1) 0 p;
  '(mday, p) ← time_field mem e 2 id 1 p;
  '(hour, p) ← time_field mem e 2 id 0 p;
  '(min, p) ← time_field mem e 2 id 0 p;
  '(sec, p) ← time_field mem e 2 id 0 p;
  let when := mk_tm year mon mday hour min sec in
  if tm_invalid when then Ok None
  else if negb (p =? e) then Ok None
  else
    r ← time_tail mem p n_time;
    match r with None => Ok None | Some offset => Ok (Some (when, offset)) end.

Definition parse_utc_time (this_year : Z) (mem : list Z) (n_time : Z) : res unit (option (tm * Z)) :=
  if (n_time <? 6) || (28 <=? n_time) then Ok None
  else
    e ← or_ub (digit_span mem);
    '(year, p) ← time_field mem e 2 (fun v => two_to_four_digit_year this_year v - 1900) 0 0;
    time_rest mem year p e n_time.

Definition parse_general_time (mem : list Z) (n_time : Z) : res unit (option (tm * Z)) :=
  if (n_time <? 8) || (30 <=? n_time) then Ok None
  else
    e ← or_ub (digit_span mem);
    '(year, p) ← time_field mem e 4 (fun v => v - 1900) 0 0;
    time_rest mem year p e n_time.

(** * Integers *)

(** [p[k] << s] is computed in [int]: a shift of 32 or more, or a result that is
    not an [int], is undefined. *)
Fixpoint read_ulong_loop (p : list Z) (value : Z) : res unit Z :=
  match p with
  | [] => Ok value
  | x :: p' =>
    let shift := 8 * Zlen p' in
    c_assert (shift <? 32);;
    c_assert (Z.shiftl x shift <? 2 ^ 31);;
    read_ulong_loop p' (Z.lor value (Z.shiftl x shift))
  end.

Definition anode_read_integer_ulong (p : list Z) : res unit (option Z) :=
  if (Zlen p <? 1) || (8 <? Zlen p) then Ok None
  else v ← read_ulong_loop p 0; Ok (Some v).

(** [for (bytes = 7; bytes >= 0; --bytes) if (!buf[bytes]) break;] from index
    [bytes - 1] down. *)
Fixpoint last_zero (buf : list Z) (bytes : nat) : Z :=
  match bytes with
  | O => -1
  | S b => if default 0 (buf !! b) =? 0 then Z.of_nat b else last_zero buf b
  end.

(** The bytes written ([*n_data] is their number). *)
Definition anode_write_integer_ulong (value : Z) : list Z :=
  let buf := (fun i => Z.land (Z.shiftr value ((8 - (i + 1)) * 8)) 0xFF) <$> seqZ 0 8 in
  let bytes := 8 - (last_zero buf 8 + 1) in
  let bytes := if bytes =? 0 then 1 else bytes in
  let at_ := drop (Z.to_nat (8 - bytes)) buf in
  let sign := negb (Z.land (default 0 (at_ !! 0%nat)) 0x80 =? 0) in
  if sign then 0 :: at_ else at_.

(** * Booleans *)

(** A value other than 00 and FF is refused with a critical message. *)
Definition anode_read_boolean (buf : list Z) : option bool :=
  match buf with
  | [b] => if b =? 0x00 then Some false else if b =? 0xFF then Some true else None
  | _ => None
  end.
Definition anode_write_boolean (value : bool) : list Z := [if value then 0xFF else 0x00].

(** * Object identifiers *)

(** The loop over the bytes after the first one.  [lead] is set before the loop and
    after every arc, and nothing clears it. *)
Fixpoint read_oid_loop (p : list Z) (lead : bool) (val pval : Z) (result : list Z) : option (list Z) :=
  match p with
  | [] => Some result
  | b :: p =>
    if lead && (b =? 0x80) then None
    else
      let val := u32 (Z.shiftl val 7) in
      let val := Z.lor val (Z.land b 0x7F) in
      if val <? pval then None
      else
        let pval := val in
        if Z.land b 0x80 =? 0 then read_oid_loop p true 0 0 (result ++ 46 :: print_u val)
        else read_oid_loop p lead val pval result
  end.

Definition anode_read_object_id (p : list Z) : res unit (option (list Z)) :=
  b ← or_ub (rd p 0);
  let pval := b / 40 in
  let val := b - pval * 40 in
  Ok (read_oid_loop (drop 1 p) true 0 0 (print_u pval ++ 46 :: print_u val)).

(** The base 128 digits of an arc: [for (had = FALSE, k = 4; k >= 0; k--)]. *)
Fixpoint arc_loop (k : nat) (had : bool) (num : Z) : list Z :=
  let bit7 := Z.land (Z.shiftr num (Z.of_nat k * 7)) 0x7F in
  if negb (bit7 =? 0) || had || (Nat.eqb k 0) then
    (if Nat.eqb k 0 then bit7 else Z.lor bit7 0x80) ::
      match k with O => [] | S k => arc_loop k true num end
  else match k with O => [] | S k => arc_loop k had num end.
Definition arc_bytes (num : Z) : list Z := arc_loop 4 false num.

(** [data[at] = ...; ++at;], with the assertion that [at] is below [n_data], for
    the bytes [bs]; [at] is the number of bytes already out. *)
Definition put (n_data : option Z) (out bs : list Z) : res unit (list Z) :=
  c_assert (match n_data with Some n => Zlen (out ++ bs) <=? n | None => true end);;
  Ok (out ++ bs).

(** [for (i = 0; oid[0]; ++i, oid = next)], one round per component. *)
Fixpoint write_oid_loop (fuel : nat) (n_data : option Z) (oid : list Z) (i : Z) (num1 : Z) (out : list Z)
    : res unit (option (list Z)) :=
  match oid with
  | [] => Ok (Some out)
  | _ =>
    match fuel with
    | O => Ub
    | S fuel =>
      let '(n, next) := match index_of 46 oid with
                        | None => (length oid, [])
                        | Some p => (p, drop (S p) oid)
                        end in
      if Nat.eqb n 0 then Ok None
      else
        num ← atoin oid 0 n;
        if num <? 0 then Ok None
        else if i =? 0 then write_oid_loop fuel n_data next (i + 1) num out
        else if i =? 1 then
          c_assert (40 * num1 + num <? 2 ^ 31);;
          out ← put n_data out [u8 (40 * num1 + num)];
          write_oid_loop fuel n_data next (i + 1) num1 out
        else
          out ← put n_data out (arc_bytes num);
          write_oid_loop fuel n_data next (i + 1) num1 out
    end
  end.

(** [n_data = None] is the call with [data == NULL]. *)
Definition anode_write_object_id (oid : list Z) (n_data : option Z) : res unit (option (list Z)) :=
  r ← write_oid_loop (S (length oid)) n_data oid 0 0 [];
  match r with
  | None => Ok None
  | Some out => if Zlen out <? 2 then Ok None else Ok (Some out)
  end.

(** * Bit strings *)

(** [an->value] and [an->bits_empty]; the view of the value skips the first byte. *)
Definition anode_decode_bit_string (buf : list Z) : option (list Z * Z) :=
  match buf with
  | [] => None
  | empty :: value =>
    if 8 <=? empty then None
    else
      let mask := u8 (Z.shiftr 0xFF (8 - empty)) in
      if (1 <? Zlen buf) && negb (Z.land (default 0 (last buf)) mask =? 0) then None
      else Some (value, empty)
  end.

Definition egg_asn1x_get_bits_as_raw (data : list Z) (bits_empty : Z) : list Z * Z :=
  (data, u32 (Zlen data * 8 - bits_empty)).

Definition egg_asn1x_take_bits_as_raw (value : list Z) (n_bits : Z) : list Z * Z :=
  let empty := n_bits mod 8 in
  (value, if 0 <? empty then 8 - empty else empty).

Definition egg_asn1x_get_bits_as_ulong (buf : list Z) (empty : Z) : option (Z * Z) :=
  let length := u32 (Zlen buf * 8 - empty) in
  if 64 <? length then None
  else
    let value := foldl (fun value b => u64 (Z.lor (Z.shiftl value 8) b)) 0 buf in
    Some (Z.shiftr value empty, length).

(** [for (i = 0; i < len; ++i) data[len - i - 1] = (value >> i * 8) & 0xFF;] *)
Definition egg_asn1x_set_bits_as_ulong (bits n_bits : Z) : option (list Z * Z) :=
  if 64 <? n_bits then None
  else
    let empty := n_bits mod 8 in
    let empty := if 0 <? empty then 8 - empty else empty in
    let len := n_bits / 8 + (if negb (empty =? 0) then 1 else 0) in
    let value := u64 (Z.shiftl bits empty) in
    Some (rev ((fun i => Z.land (Z.shiftr value (i * 8)) 0xFF) <$> seqZ 0 len), empty).

(** * Strings *)

(** The pieces of a constructed string.  [remaining] is a [gint], compared with a
    [gsize]: a negative one counts as a huge one. *)
Fixpoint read_string_loop (cs : list Atlv) (block : option (list Z)) (at_ remaining n_value : Z)
    : res unit (option (Z * option (list Z) * Z)) :=
  match cs with
  | [] => Ok (Some (n_value, block, remaining))
  | c :: cs =>
    if negb (Z.land (cls (head c)) ASN1_CLASS_STRUCTURED =? 0) then Ok None
    else match value c with
    | None => Ok None
    | Some buf =>
      let len := Zlen buf in
      let n_value := n_value + len in
      match block with
      | None => read_string_loop cs None at_ remaining n_value
      | Some b =>
        b ← (if len <=? u64 remaining then or_ub (wr b at_ buf) else Ok b);
        read_string_loop cs (Some b) (at_ + len) (s32 (remaining - len)) n_value
      end
    end
  end.

(** [block] is the memory at [value], [n_value] the size the caller announces. *)
Definition anode_read_string_struct (t : Atlv) (block : option (list Z)) (n_value : Z)
    : res unit (option (Z * option (list Z))) :=
  c_assert (negb (Z.land (cls (head t)) ASN1_CLASS_STRUCTURED =? 0));;
  r ← read_string_loop (child t) block 0 (s32 n_value) 0;
  match r with
  | None => Ok None
  | Some (n, Some b, remaining) => if remaining <? 0 then Ok None else Ok (Some (n, Some b))
  | Some (n, None, _) => Ok (Some (n, None))
  end.

Definition anode_read_string_simple (buf : list Z) (block : option (list Z)) (n_value : Z)
    : res unit (option (Z * option (list Z))) :=
  match block with
  | None => Ok (Some (Zlen buf, None))
  | Some b =>
    if n_value <? Zlen buf then Ok None
    else b ← or_ub (wr b 0 buf); Ok (Some (Zlen buf, Some b))
  end.

(** The two rounds of [egg_asn1x_get_string_as_raw]: measure, allocate one byte
    more, fill and terminate.  [read] is one of the two readers above. *)
Definition string_twice (alloc : Z -> option (list Z))
    (read : option (list Z) -> Z -> res unit (option (Z * option (list Z))))
    : res unit (option (list Z * Z)) :=
  r ← read None 0;
  match r with
  | None => Ok None
  | Some (length, _) =>
    match alloc (length + 1) with
    | None => Ok None
    | Some string =>
      r ← read (Some string) length;
      match r with
      | Some (length, Some string) => string ← or_ub (wr string length [0]); Ok (Some (string, length))
      | _ => Ok None
      end
    end
  end.

Definition egg_asn1x_get_string_as_raw (alloc : Z -> option (list Z)) (data : option (list Z))
    (tlv : option Atlv) : res unit (option (list Z * Z)) :=
  match data, tlv with
  | Some data, _ => string_twice alloc (anode_read_string_simple data)
  | None, Some tlv => string_twice alloc (anode_read_string_struct tlv)
  | None, None => Ok None
  end.

Definition egg_asn1x_set_oid_as_string (oid : list Z) : res unit (option (list Z)) :=
  anode_write_object_id oid (Some (Zlen oid)).

(** * Properties *)

(** ** Numbers in times *)

Lemma pow10_le a b : (a <= b)%nat -> 10 ^ Z.of_nat a <= 10 ^ Z.of_nat b.
Proof. intros H. apply Z.pow_le_mono_r; lia. Qed.

(** Up to nine digits, [atoin] never overflows and is the value of the digits. *)
Lemma atoin_loop_digits mem pre ds : forall post ret k,
  Forall (fun d => 0 <= d < 10) ds -> mem = pre ++ digits ds ++ post ->
  0 <= ret < 10 ^ Z.of_nat k -> (k + length ds <= 9)%nat ->
  atoin_loop mem (Zlen pre) (length ds) ret (10 ^ Z.of_nat k) = Ok (ms_val 10 0 ds * 10 ^ Z.of_nat k + ret).
Proof.
  induction ds as [|d ds IH] using rev_ind; intros post ret k Hds Hm Hr Hk; [done|].
  apply Forall_app in Hds as [Hds Hd]. inversion_clear Hd as [|?? Hd' _].
  rewrite length_app, Nat.add_1_r in *. cbn [atoin_loop]. unfold digits in *. rewrite fmap_app in Hm.
  assert (rd mem (Zlen pre + Zlen ds) = Some (48 + d)) as ->.
  { rewrite Hm. cbn [fmap list_fmap]. rewrite <- app_assoc. cbn [app]. rewrite app_assoc.
    pose proof (rd_middle (pre ++ ((fun d => 48 + d) <$> ds)) (48 + d) post) as Hrd.
    rewrite length_app, length_fmap, Nat2Z.inj_add in Hrd. exact Hrd. }
  run. rewrite is_digit_48 by lia. cbn [negb].
  pose proof (pow10_le (S k) 9 ltac:(lia)) as Hp9. change (10 ^ Z.of_nat 9) with 1000000000 in Hp9.
  rewrite Nat2Z.inj_succ, Z.pow_succ_r in Hp9 by lia.
  replace (10 ^ Z.of_nat k * 10) with (10 ^ Z.of_nat (S k)) by (rewrite Nat2Z.inj_succ, Z.pow_succ_r; lia).
  assert (ret + (48 + d - 48) * 10 ^ Z.of_nat k < 10 ^ Z.of_nat (S k)) as Hlt
    by (rewrite Nat2Z.inj_succ, Z.pow_succ_r by lia; nia).
  rewrite c_assert_true.
  2:{ rewrite andb_true_iff, !Z.ltb_lt. rewrite Nat2Z.inj_succ, Z.pow_succ_r in * by lia. lia. }
  run. rewrite (IH (((fun d => 48 + d) <$> [d]) ++ post)).
  - rewrite ms_val_snoc, Nat2Z.inj_succ, Z.pow_succ_r by lia. f_equal. lia.
  - done.
  - by rewrite Hm, <- app_assoc.
  - split; [|done]. nia.
  - lia.
Qed.

Lemma atoin_digits mem pre ds post : Forall (fun d => 0 <= d < 10) ds -> mem = pre ++ digits ds ++ post ->
  (length ds <= 9)%nat -> atoin mem (Zlen pre) (length ds) = Ok (ms_val 10 0 ds).
Proof.
  intros Hds Hm Hl. unfold atoin. pose proof (atoin_loop_digits mem pre ds post 0 0 Hds Hm) as H.
  change (10 ^ Z.of_nat 0) with 1 in H. rewrite H by lia. f_equal. lia.
Qed.

(** * Times *)

Definition two (n : Z) : list Z := digits [n / 10; n mod 10].
Definition four (n : Z) : list Z := two (n / 100) ++ two (n mod 100).

Lemma atoin_two mem pre n post : 0 <= n < 100 -> mem = pre ++ two n ++ post ->
  atoin mem (Zlen pre) 2 = Ok n.
Proof.
  intros Hn Hm. assert (Forall (fun d => 0 <= d < 10) [n / 10; n mod 10]) as Hf
    by (repeat constructor; lia_div).
  pose proof (atoin_digits mem pre _ post Hf Hm) as H. cbn [length] in H. rewrite H by lia.
  simpl. f_equal. lia_div.
Qed.

Lemma atoin_four mem pre n post : 0 <= n < 10000 -> mem = pre ++ four n ++ post ->
  atoin mem (Zlen pre) 4 = Ok n.
Proof.
  intros Hn Hm. unfold four, two, digits in Hm. rewrite <- fmap_app in Hm.
  assert (Forall (fun d => 0 <= d < 10) [n / 100 / 10; (n / 100) mod 10; n mod 100 / 10; (n mod 100) mod 10])
    as Hf by (repeat constructor; lia_div).
  pose proof (atoin_digits mem pre _ post Hf Hm) as H. cbn [length] in H. rewrite H by lia.
  simpl. f_equal. lia_div.
Qed.

Lemma time_field_two mem e f old pre n post p : mem = pre ++ two n ++ post -> p = Zlen pre ->
  0 <= n < 100 -> p + 2 <= e -> time_field mem e 2 f old p = Ok (f n, p + 2).
Proof.
  intros Hm -> Hn He. unfold time_field. change (Z.of_nat 2) with 2.
  destruct (Z.leb_spec (Zlen pre + 2) e); [|lia]. by rewrite (atoin_two mem pre n post Hn Hm).
Qed.

(** The end of a time: [Z], or a sign with hours and minutes. *)
Inductive zone := Zulu | Offset (neg : bool) (h m : Z).

Definition zone_text (z : zone) : list Z :=
  match z with
  | Zulu => [90]
  | Offset neg h m => (if neg : bool then 45 else 43) :: two h ++ two m
  end.
Definition zone_offset (z : zone) : Z :=
  match z with
  | Zulu => 0
  | Offset neg h m => if neg : bool then - (h * 3600 + m * 60) else h * 3600 + m * 60
  end.
Definition zone_ok (z : zone) : Prop :=
  match z with Zulu => True | Offset _ h m => 0 <= h <= 24 /\ 0 <= m < 100 end.

Lemma time_tail_zone mem pre z post : zone_ok z -> mem = pre ++ zone_text z ++ post ->
  time_tail mem (Zlen pre) (Zlen pre + Zlen (zone_text z)) = Ok (Some (zone_offset z)).
Proof.
  intros Hz Hm. unfold time_tail.
  destruct z as [|neg h m].
  - cbn [zone_text app length] in *. change (Z.of_nat 1) with 1. rewrite Hm, rd_middle.
    destruct (Z.ltb_spec (Zlen pre) (Zlen pre + 1)); [|lia]. run.
    change (90 =? 46) with false. cbn [andb]. rewrite rd_middle. run.
    destruct (Z.ltb_spec (Zlen pre) (Zlen pre + 1)); [|lia]. cbn [andb]. change (90 =? 90) with true. cbn match.
    by rewrite Z.eqb_refl.
  - destruct Hz as [Hh Hmm]. cbn [zone_text] in *.
    set (s := if neg then 45 else 43) in *.
    assert (s = 45 /\ neg = true \/ s = 43 /\ neg = false) as Hs by (subst s; destruct neg; auto).
    rewrite length_cons, !length_app. change (length (two h)) with 2%nat. change (length (two m)) with 2%nat.
    change (Z.of_nat (S (2 + 2))) with 5.
    assert (rd mem (Zlen pre) = Some s) as Hrd by (rewrite Hm; cbn [app]; apply rd_middle).
    destruct (Z.ltb_spec (Zlen pre) (Zlen pre + 5)); [|lia].
    rewrite Hrd. cbn [or_ub mbind res_bind andb].
    destruct (Z.eqb_spec s 46); [lia|]. cbn [andb]. rewrite Hrd. run.
    destruct (Z.ltb_spec (Zlen pre) (Zlen pre + 5)); [|lia].
    destruct (Z.eqb_spec s 90); [lia|]. cbn [andb].
    assert ((s =? 45) || (s =? 43) = true) as -> by (destruct Hs as [[-> _]|[-> _]]; done).
    destruct (Z.leb_spec (Zlen pre + 3) (Zlen pre + 5)); [|lia]. cbn [andb]. unfold time_zone.
    assert (mem = (pre ++ [s]) ++ two h ++ two m ++ post) as Hm1
      by (rewrite Hm, <- !app_assoc; cbn [app]; by rewrite <- !app_assoc).
    pose proof (atoin_two mem _ h _ ltac:(lia) Hm1) as Ha. rewrite length_app, Nat2Z.inj_add in Ha.
    change (Zlen [s]) with 1 in Ha. rewrite Ha. run.
    destruct (Z.ltb_spec (h * 3600) 0), (Z.ltb_spec 86400 (h * 3600)); try lia. cbn [orb].
    destruct (Z.leb_spec (Zlen pre + 1 + 2 + 2) (Zlen pre + 5)); [|lia].
    assert (mem = (pre ++ [s] ++ two h) ++ two m ++ post) as Hm2 by (rewrite Hm1, <- !app_assoc; done).
    pose proof (atoin_two mem _ m _ ltac:(lia) Hm2) as Hb. rewrite !length_app, !Nat2Z.inj_add in Hb.
    change (Zlen [s]) with 1 in Hb. change (Zlen (two h)) with 2 in Hb.
    replace (Zlen pre + 1 + 2) with (Zlen pre + (1 + 2)) by lia. rewrite Hb. run.
    destruct (Z.eqb_spec (Zlen pre + (1 + 2) + 2) (Zlen pre + 5)); [|lia]. cbn [negb zone_offset].
    destruct Hs as [[-> ->]|[-> ->]]; simpl; do 2 f_equal; lia.
Qed.

(** The text of month, day, hours, minutes and seconds. *)
Definition body_text (t : tm) : list Z :=
  two (tm_mon t + 1) ++ two (tm_mday t) ++ two (tm_hour t) ++ two (tm_min t) ++ two (tm_sec t).

Definition tm_ok (t : tm) : Prop :=
  0 <= tm_mon t < 12 /\ 1 <= tm_mday t <= 31 /\ 0 <= tm_hour t <= 23 /\ 0 <= tm_min t <= 59 /\
  0 <= tm_sec t <= 59.

Lemma two_length n : Zlen (two n) = 2.
Proof. done. Qed.

Lemma tm_invalid_false t : 0 <= tm_year t <= 9999 -> tm_ok t -> tm_invalid t = false.
Proof.
  intros Hy (? & ? & ? & ? & ?). unfold tm_invalid.
  repeat (match goal with |- context [?a <? ?b] => destruct (Z.ltb_spec a b); [lia|] end). done.
Qed.

Lemma time_rest_reads mem pre t z post e : tm_ok t -> 0 <= tm_year t <= 9999 -> zone_ok z ->
  mem = pre ++ body_text t ++ zone_text z ++ post -> e = Zlen pre + 10 ->
  time_rest mem (tm_year t) (Zlen pre) e (e + Zlen (zone_text z)) = Ok (Some (t, zone_offset z)).
Proof.
  intros Ht Hy Hz Hm ->. pose proof Ht as (? & ? & ? & ? & ?). unfold time_rest. unfold body_text in Hm.
  rewrite <- !app_assoc in Hm.
  rewrite (time_field_two _ _ _ _ _ _ _ _ Hm eq_refl) by lia. run.
  rewrite app_assoc in Hm.
  rewrite (time_field_two _ _ _ _ _ _ _ _ Hm) by (rewrite ?length_app, ?Nat2Z.inj_add, ?two_length; lia).
  run. rewrite app_assoc in Hm.
  rewrite (time_field_two _ _ _ _ _ _ _ _ Hm) by (rewrite ?length_app, ?Nat2Z.inj_add, ?two_length; lia).
  run. rewrite app_assoc in Hm.
  rewrite (time_field_two _ _ _ _ _ _ _ _ Hm) by (rewrite ?length_app, ?Nat2Z.inj_add, ?two_length; lia).
  run. rewrite app_assoc in Hm.
  rewrite (time_field_two _ _ _ _ _ _ _ _ Hm) by (rewrite ?length_app, ?Nat2Z.inj_add, ?two_length; lia).
  run. rewrite app_assoc in Hm. unfold id.
  replace (tm_mon t + 1 - 1) with (tm_mon t) by lia.
  replace (mk_tm (tm_year t) (tm_mon t) (tm_mday t) (tm_hour t) (tm_min t) (tm_sec t)) with t by by destruct t.
  rewrite tm_invalid_false by done. destruct (Z.eqb_spec (Zlen pre + 2 + 2 + 2 + 2 + 2) (Zlen pre + 10)); [|lia].
  cbn [negb]. pose proof (time_tail_zone mem _ z post Hz Hm) as Htail.
  rewrite !length_app, !Nat2Z.inj_add, !two_length in Htail.
  replace (Zlen pre + 2 + 2 + 2 + 2 + 2) with (Zlen pre + 10) in * by lia.
  rewrite Htail. done.
Qed.

Lemma digit_span_digits ds c post : Forall (fun d => 0 <= d < 10) ds -> is_digit c = false ->
  digit_span (digits ds ++ c :: post) = Some (Zlen ds).
Proof.
  intros Hds Hc. induction Hds as [|d ds Hd Hds IH]; cbn [digits fmap list_fmap app digit_span].
  - by rewrite Hc.
  - rewrite is_digit_48 by done. unfold digits in IH. rewrite IH. simpl. f_equal. lia.
Qed.

Definition digits2 (n : Z) : list Z := [n / 10; n mod 10].
Lemma digits2_ok n : 0 <= n < 100 -> Forall (fun d => 0 <= d < 10) (digits2 n).
Proof. intros Hn. repeat constructor; lia_div. Qed.

Lemma span_body yds t z post : Forall (fun d => 0 <= d < 10) yds -> tm_ok t ->
  digit_span (digits yds ++ body_text t ++ zone_text z ++ post) = Some (Zlen yds + 10).
Proof.
  intros Hy Ht. destruct Ht as (? & ? & ? & ? & ?).
  set (all := yds ++ digits2 (tm_mon t + 1) ++ digits2 (tm_mday t) ++ digits2 (tm_hour t) ++
    digits2 (tm_min t) ++ digits2 (tm_sec t)).
  assert (Forall (fun d => 0 <= d < 10) all) as Hall.
  { subst all. rewrite !Forall_app. split_and!; [done|apply digits2_ok; lia..]. }
  assert (exists c rest, zone_text z ++ post = c :: rest /\ is_digit c = false) as (c & rest & -> & Hc).
  { destruct z as [|[] h m]; by eexists _, _. }
  pose proof (digit_span_digits all c rest Hall Hc) as Hs. unfold all, digits in Hs.
  rewrite !fmap_app, <- !app_assoc in Hs. unfold body_text, two, digits. rewrite <- !app_assoc.
  unfold digits2 in *. rewrite Hs. f_equal. rewrite length_app. simpl. lia.
Qed.

(** The time parsers read back what the DER time formats write: for every
    date from 1900 on with a [Z] or numeric time zone, [parse_general_time] on
    [YYYYMMDDhhmmss] and the zone gives the fields and the offset in seconds, and
    [parse_utc_time] on [YYMMDDhhmmss] the same fields with the year moved to the
    century that puts it at most 40 years before and 60 after the current one. *)
Theorem parse_time_correct (this_year : Z) (t : tm) (z : zone) (post : list Z) :
  tm_ok t -> zone_ok z ->
  (0 <= tm_year t <= 8099 ->
   parse_general_time (four (tm_year t + 1900) ++ body_text t ++ zone_text z ++ post)
     (14 + Zlen (zone_text z)) = Ok (Some (t, zone_offset z))) /\
  (70 <= this_year <= 9000 -> this_year - 40 < tm_year t <= this_year + 60 ->
   parse_utc_time this_year (two ((tm_year t + 1900) mod 100) ++ body_text t ++ zone_text z ++ post)
     (12 + Zlen (zone_text z)) = Ok (Some (t, zone_offset z))).
Proof.
  intros Ht Hz. assert (1 <= Zlen (zone_text z) <= 5) by (destruct z as [|[] ? ?]; simpl; lia). split.
  - intros Hy. unfold parse_general_time.
    destruct (Z.ltb_spec (14 + Zlen (zone_text z)) 8), (Z.leb_spec 30 (14 + Zlen (zone_text z))); try lia. cbn [orb].
    pose proof (span_body (digits2 ((tm_year t + 1900) / 100) ++ digits2 ((tm_year t + 1900) mod 100)) t z post) as Hs.
    change (digits _) with (four (tm_year t + 1900)) in Hs. change (Zlen (_ ++ _)) with 4 in Hs.
    rewrite Hs by (done || (apply Forall_app; split; apply digits2_ok; lia_div)).
    run. unfold time_field at 1. change (0 + Z.of_nat 4 <=? 4 + 10) with true. cbn match.
    pose proof (atoin_four _ [] (tm_year t + 1900) (body_text t ++ zone_text z ++ post) ltac:(lia) eq_refl) as Ha.
    change (Zlen (@nil Z)) with 0 in Ha. rewrite app_nil_l in Ha. rewrite Ha. run.
    replace (tm_year t + 1900 - 1900) with (tm_year t) by lia.
    exact (time_rest_reads _ (four (tm_year t + 1900)) t z post 14 Ht ltac:(lia) Hz eq_refl eq_refl).
  - intros Hnow Hy. unfold parse_utc_time.
    destruct (Z.ltb_spec (12 + Zlen (zone_text z)) 6), (Z.leb_spec 28 (12 + Zlen (zone_text z))); try lia. cbn [orb].
    pose proof (span_body (digits2 ((tm_year t + 1900) mod 100)) t z post) as Hs.
    change (digits _) with (two ((tm_year t + 1900) mod 100)) in Hs. change (Zlen (digits2 _)) with 2 in Hs.
    rewrite Hs by (done || (apply digits2_ok; lia_div)).
    run. unfold time_field at 1. change (0 + Z.of_nat 2 <=? 2 + 10) with true. cbn match.
    pose proof (atoin_two _ [] ((tm_year t + 1900) mod 100) (body_text t ++ zone_text z ++ post)
      ltac:(lia_div) eq_refl) as Ha.
    change (Zlen (@nil Z)) with 0 in Ha. rewrite app_nil_l in Ha. rewrite Ha. run.
    assert (two_to_four_digit_year this_year ((tm_year t + 1900) mod 100) - 1900 = tm_year t) as ->.
    { unfold two_to_four_digit_year. rewrite Z.rem_mod_nonneg by lia.
      assert (0 <= (tm_year t + 1900) mod 100 <= 99) by lia_div.
      destruct (Z.leb_spec 0 ((tm_year t + 1900) mod 100)), (Z.leb_spec ((tm_year t + 1900) mod 100) 99); try lia.
      cbn [andb negb]. repeat case_match; rewrite ?andb_true_iff, ?andb_false_iff, ?Z.ltb_lt, ?Z.ltb_ge, ?Z.leb_le, ?Z.leb_gt in *; lia_div. }
    exact (time_rest_reads _ (two ((tm_year t + 1900) mod 100)) t z post 12 Ht ltac:(lia) Hz eq_refl eq_refl).
Qed.

Lemma parse_time_correct_witness :
  parse_general_time (lit "20070725130528+0530") 19
    = Ok (Some (mk_tm 107 6 25 13 5 28, 19800)) /\
  parse_utc_time 125 (lit "700101000000Z") 13 = Ok (Some (mk_tm 170 0 1 0 0 0, 0)).
Proof.
  split.
  - apply (parse_time_correct 125 (mk_tm 107 6 25 13 5 28) (Offset false 5 30) []); simpl;
      unfold tm_ok; simpl; lia.
  - apply (parse_time_correct 125 (mk_tm 170 0 1 0 0 0) Zulu []); simpl; unfold tm_ok; simpl; lia.
Defined.

(** A time zone that is not digits, or more than 24 hours, is accepted as offset 0,
    whatever follows it: the error return is [-1], a true value. *)
Lemma bad_zone_accepted :
  parse_general_time (lit "20070725130528+xx junk") 22 = Ok (Some (mk_tm 107 6 25 13 5 28, 0)).
Proof. vm_compute. reflexivity. Qed.

(** Minutes that are not digits count as minus one minute. *)
Lemma bad_minutes_accepted :
  parse_general_time (lit "20070725130528+01xx") 19 = Ok (Some (mk_tm 107 6 25 13 5 28, 3540)).
Proof. vm_compute. reflexivity. Qed.

(** The scan of the digits is not bounded by the length: a time without a zone is
    read past its end. *)
Lemma time_reads_past_end : parse_general_time (lit "20070725130528") 14 = Ub.
Proof. vm_compute. reflexivity. Qed.

(** * Integers *)

Lemma read_ulong_loop_be p : forall value, bytes p -> 0 <= value -> (length p <= 4)%nat ->
  be_val p < 2 ^ 31 -> value mod 256 ^ Zlen p = 0 -> read_ulong_loop p value = Ok (value + be_val p).
Proof.
  induction p as [|x p IH]; intros value Hb Hv Hl Hval Hm; cbn [read_ulong_loop].
  { unfold be_val. simpl. f_equal. lia. }
  inversion_clear Hb as [|?? Hx Hb']. rewrite be_val_cons in *. cbn [length] in *.
  rewrite Nat2Z.inj_succ, Z.pow_succ_r in Hm by lia.
  pose proof (be_val_bound p Hb') as Hbv. unfold is_byte in Hx.
  rewrite (c_assert_true _ (8 * Zlen p <? 32)) by (apply Z.ltb_lt; lia). run.
  rewrite Z.shiftl_mul_pow2, Z.pow_mul_r by lia. change (2 ^ 8) with 256.
  assert_ok.
  assert (exists q, value = q * 256 * 256 ^ Zlen p) as [q ->].
  { exists (value / (256 * 256 ^ Zlen p)). pose proof (Z.div_mod value (256 * 256 ^ Zlen p)). lia. }
  assert (Z.lor (q * 256 * 256 ^ Zlen p) (x * 256 ^ Zlen p) = (q * 256 + x) * 256 ^ Zlen p) as ->.
  { assert (2 ^ (8 * Z.of_nat (S (length p))) = 256 * 256 ^ Zlen p) as Hpow
      by (rewrite Z.pow_mul_r, Nat2Z.inj_succ, Z.pow_succ_r by lia; done).
    pose proof (lor_shift_add q (x * 256 ^ Zlen p) (8 * Z.of_nat (S (length p))) ltac:(lia)) as Hlor.
    rewrite Z.shiftl_mul_pow2, Hpow in Hlor by lia. rewrite <- Z.mul_assoc, Hlor by nia. lia. }
  rewrite IH; [f_equal; lia|done|nia|lia|nia|by rewrite Z.mod_mul by lia].
Qed.

(** The trailing run of nonzero bytes, and at least the last byte. *)
Definition nonzero (w : list Z) : Prop := Forall (fun x => x <> 0) w.

Definition signed (w : list Z) : list Z := if 128 <=? default 0 (w !! 0%nat) then 0 :: w else w.

Lemma be_bytes_shifts v : (fun i => Z.land (Z.shiftr v ((8 - (i + 1)) * 8)) 0xFF) <$> seqZ 0 8 = be_bytes 8 v.
Proof.
  change (seqZ 0 8) with [0; 1; 2; 3; 4; 5; 6; 7]. cbn [fmap list_fmap be_bytes app].
  change 0xFF with 255. rewrite !land_255, !Z.shiftr_div_pow2 by lia. rewrite !Z.div_div by lia.
  repeat (f_equal; [f_equal; f_equal; lia|]). by rewrite Z.div_1_r.
Qed.

Lemma last_zero_run pre w : nonzero w ->
  last_zero (pre ++ w) (length pre + length w) = last_zero pre (length pre).
Proof.
  induction w as [|x w IH] using rev_ind; intros Hw.
  { rewrite app_nil_r, Nat.add_0_r. done. }
  apply Forall_app in Hw as [Hw Hx]. inversion_clear Hx as [|?? Hx' _].
  rewrite length_app, Nat.add_1_r, Nat.add_succ_r. cbn [last_zero].
  rewrite app_assoc, <- length_app, list_lookup_middle by done. change (default 0 (Some x)) with x.
  destruct (Z.eqb_spec x 0); [done|]. rewrite length_app. rewrite <- IH by done.
  clear -w. assert (forall l n, (n <= length l)%nat -> last_zero (l ++ [x]) n = last_zero l n) as H.
  { intros l n; induction n as [|n IHn]; intros Hn; [done|]. cbn [last_zero].
    rewrite lookup_app_l by lia. rewrite IHn by lia. done. }
  apply H. rewrite length_app. lia.
Qed.

Lemma last_zero_replicate k : last_zero (replicate k 0) k = Z.of_nat k - 1.
Proof. destruct k as [|k]; [done|]. cbn [last_zero]. rewrite lookup_replicate_2 by lia. simpl. lia. Qed.

(** An unsigned long whose shortest big-endian form [w] has no zero byte
    (or is the single byte 0) is written as the DER integer [w], with a zero byte in
    front exactly when its top bit is set, and, below 2^31, read back as itself. *)
Theorem integer_ulong_roundtrip (w : list Z) :
  bytes w -> (1 <= length w <= 8)%nat -> nonzero w \/ w = [0] ->
  anode_write_integer_ulong (be_val w) = signed w /\
  (be_val w < 2 ^ 31 -> anode_read_integer_ulong (signed w) = Ok (Some (be_val w))).
Proof.
  intros Hb Hl Hw.
  assert (forall k l, be_val (replicate k 0 ++ l) = be_val l) as Hz by (intros; apply be_val_zeros).
  assert (0 < length w)%nat as Hpos by lia.
  destruct w as [|x w'] eqn:Ew; [simpl in Hpos; lia|]. rewrite <- Ew in *.
  split.
  - unfold anode_write_integer_ulong. rewrite be_bytes_shifts.
    assert (be_bytes 8 (be_val w) = replicate (8 - length w) 0 ++ w) as ->.
    { rewrite <- (be_val_zeros (8 - length w) w).
      rewrite <- (be_bytes_val (replicate (8 - length w) 0 ++ w)) at 2.
      - do 2 f_equal. rewrite length_app, length_replicate. lia.
      - apply Forall_app. split; [|done]. apply Forall_replicate. unfold is_byte. lia. }
    destruct Hw as [Hw| ->]; [|by vm_compute].
    assert (last_zero (replicate (8 - length w) 0 ++ w) 8 = Z.of_nat (8 - length w) - 1) as ->.
    { rewrite <- last_zero_replicate. pose proof (last_zero_run (replicate (8 - length w) 0) w Hw) as Hr.
      rewrite length_replicate in Hr. rewrite <- Hr. f_equal. lia. }
    destruct (Z.eqb_spec (8 - (Z.of_nat (8 - length w) - 1 + 1)) 0); [lia|].
    replace (Z.to_nat (8 - (8 - (Z.of_nat (8 - length w) - 1 + 1)))) with (length (replicate (8 - length w) 0))
      by (rewrite length_replicate; lia).
    rewrite drop_app_length. unfold signed. subst w. change (default 0 ((x :: w') !! 0%nat)) with x.
    inversion_clear Hb as [|?? Hx _]. unfold is_byte in Hx.
    assert (negb (Z.land x 0x80 =? 0) = (128 <=? x)) as ->; [|done].
    assert (forallb (fun x => Bool.eqb (negb (Z.land x 0x80 =? 0)) (128 <=? x)) (seqZ 0 256) = true) as Hall
      by (vm_compute; reflexivity).
    apply Bool.eqb_prop, (range_check _ _ _ Hall). lia.
  - intros Hv. unfold anode_read_integer_ulong.
    assert (Hsl : (length w <= 4)%nat /\ (length (signed w) <= 4)%nat /\ be_val (signed w) = be_val w /\ bytes (signed w)).
    { unfold signed. subst w. change (default 0 ((x :: w') !! 0%nat)) with x. pose proof Hv as Hv'. rewrite be_val_cons in Hv'.
      inversion_clear Hb as [|?? Hx Hb']. pose proof (be_val_bound w' Hb') as Hbv. unfold is_byte in Hx.
      assert (x = 0 -> length w' = 0%nat) as Hx0 by (destruct Hw as [Hw|[= -> ->]]; [by inversion Hw|done]).
      assert (length w' <= 3)%nat as Hw3.
      { destruct (decide (length w' <= 3)%nat) as [|Hgt]; [done|].
        assert (256 ^ 4 <= 256 ^ Zlen w') by (apply Z.pow_le_mono_r; lia). nia. }
      destruct (Z.leb_spec 128 x); cbn [length]; [|split_and!; [lia|lia|done|by constructor]].
      split_and!; [lia| |by rewrite be_val_cons|repeat (constructor; [unfold is_byte; lia|]); done].
      destruct (decide (length w' = 3%nat)) as [H3|]; [|lia]. rewrite H3 in Hv'. change (256 ^ Z.of_nat 3) with (2 ^ 24) in Hv'. lia. }
    destruct Hsl as (Hw4 & Hs4 & Hsv & Hsb).
    assert (1 <= length (signed w))%nat by (unfold signed; case_match; cbn [length]; lia).
    destruct (Z.ltb_spec (Zlen (signed w)) 1), (Z.ltb_spec 8 (Zlen (signed w))); try lia. cbn [orb].
    rewrite read_ulong_loop_be; [by rewrite Hsv|done|lia|done|by rewrite Hsv|by rewrite Z.mod_0_l by lia].
Qed.

Lemma integer_ulong_roundtrip_witness :
  anode_write_integer_ulong 33025 = [0; 0x81; 0x01] /\ anode_read_integer_ulong [0; 0x81; 0x01] = Ok (Some 33025).
Proof.
  destruct (integer_ulong_roundtrip [0x81; 0x01]) as [H1 H2].
  - decide_now.
  - simpl. lia.
  - left. unfold nonzero. decide_now.
  - split; [exact H1|apply H2; decide_now].
Defined.

(** The scan for the first significant byte runs from the wrong end: 256 is
    written as 0, and 65537 as 1. *)
Lemma write_integer_truncates :
  anode_write_integer_ulong 256 = [0] /\ anode_write_integer_ulong 65537 = [1].
Proof. by vm_compute. Qed.

(** Integers of five bytes and more shift an [int] by 32 or more. *)
Lemma read_integer_shift : anode_read_integer_ulong [0x00; 0x80; 0x00; 0x00; 0x00] = Ub.
Proof. by vm_compute. Qed.

(** * Object identifiers *)

(** ** The bytes of an arc *)

Lemma bit7_clear b : is_byte b -> (Z.land b 0x80 =? 0) = (b <? 128).
Proof.
  unfold is_byte. intros Hb.
  assert (forallb (fun x => Bool.eqb (Z.land x 0x80 =? 0) (x <? 128)) (seqZ 0 256) = true) as Hall
    by (vm_compute; reflexivity).
  apply Bool.eqb_prop, (range_check _ _ _ Hall). lia.
Qed.

Lemma lor_128 d : 0 <= d < 128 -> Z.lor d 0x80 = d + 128.
Proof. intros Hd. exact (lor_add_shift 1 d 7 ltac:(lia) Hd). Qed.

(** The digits an arc is written with; without leading zeros unless [had]. *)
Lemma arc_loop_shape k : forall had num, 0 <= num ->
  exists ms d, arc_loop k had num = ((fun x => x + 128) <$> ms) ++ [d] /\
    Forall (fun x => 0 <= x < 128) (ms ++ [d]) /\
    ms_val 128 0 (ms ++ [d]) = num mod 128 ^ (Z.of_nat k + 1) /\
    (had = true -> length ms = k) /\ (had = false -> default 1 (ms !! 0%nat) <> 0).
Proof.
  induction k as [|k IH]; intros had num Hn.
  - exists [], (num mod 128). cbn [arc_loop]. change 0x7F with 127.
    change (Z.of_nat 0 * 7) with 0. rewrite Z.shiftr_0_r, land_127, orb_true_r. cbn [Nat.eqb].
    simpl. split_and!; [done|repeat constructor; lia_div|f_equal; lia|done|done].
  - cbn [arc_loop]. change 0x7F with 127. rewrite land_127, Z.shiftr_div_pow2 by lia. cbn [Nat.eqb].
    rewrite orb_false_r. set (q := num / 2 ^ (Z.of_nat (S k) * 7) mod 128).
    assert (0 <= q < 128) by (subst q; lia_div).
    assert (num mod 128 ^ (Z.of_nat (S k) + 1) = q * 128 ^ (Z.of_nat k + 1) + num mod 128 ^ (Z.of_nat k + 1)) as Hq.
    { replace (Z.of_nat (S k) + 1) with (Z.succ (Z.of_nat k + 1)) by lia.
      rewrite Z.pow_succ_r, Z.mul_comm, Z.rem_mul_r by lia. subst q.
      replace (Z.of_nat (S k) * 7) with (7 * (Z.of_nat k + 1)) by lia. rewrite Z.pow_mul_r by lia.
      change (2 ^ 7) with 128. lia. }
    destruct (negb (q =? 0) || had) eqn:E.
    + destruct (IH true num Hn) as (ms & d & -> & Hr & Hv & Hl & _). exists (q :: ms), d.
      rewrite lor_128 by done. split_and!; [done|by constructor| | |].
      * cbn [app ms_val]. rewrite Hq, <- Hv. specialize (Hl eq_refl). clear -Hr Hl.
        replace (Z.of_nat k + 1) with (Zlen (ms ++ [d])) by (rewrite length_app; simpl; lia).
        assert (forall l a, ms_val 128 a l = a * 128 ^ Zlen l + ms_val 128 0 l) as Hsplit.
        { induction l as [|x l IHl]; intros a; cbn [ms_val length]; [simpl; lia|].
          rewrite IHl, (IHl (0 * 128 + x)), Nat2Z.inj_succ, Z.pow_succ_r by lia. ring. }
        rewrite Hsplit. ring.
      * intros _. simpl. f_equal. by apply Hl.
      * intros ->. rewrite orb_false_r in E. apply negb_true_iff, Z.eqb_neq in E. exact E.
    + apply orb_false_iff in E as [E%negb_false_iff%Z.eqb_eq ->].
      destruct (IH false num Hn) as (ms & d & -> & Hr & Hv & _ & Hf). exists ms, d.
      split_and!; [done|done|rewrite Hv, Hq, E; lia|done|exact Hf].
Qed.

Lemma arc_bytes_shape a : 0 <= a < 2 ^ 32 ->
  exists ms d, arc_bytes a = ((fun x => x + 128) <$> ms) ++ [d] /\
    Forall (fun x => 0 <= x < 128) (ms ++ [d]) /\ ms_val 128 0 (ms ++ [d]) = a /\
    (ms = [] \/ 128 ^ Zlen ms <= a).
Proof.
  intros Ha. destruct (arc_loop_shape 4 false a ltac:(lia)) as (ms & d & He & Hr & Hv & _ & Hf).
  rewrite Z.mod_small in Hv by (change (128 ^ (Z.of_nat 4 + 1)) with (2 ^ 35); lia).
  exists ms, d. split_and!; [done|done|done|].
  destruct ms as [|m ms]; [by left|right]. specialize (Hf eq_refl). change (default 1 _) with m in Hf.
  inversion_clear Hr as [|?? Hm Hr']. cbn [app ms_val] in Hv.
  pose proof (ms_val_bounds 128 (0 * 128 + m) (ms ++ [d]) ltac:(lia) ltac:(lia) Hr') as Hb.
  rewrite Hv, length_app in Hb. cbn [length] in *.
  replace (Z.of_nat (length ms + 1)) with (Z.of_nat (S (length ms))) in Hb by lia.
  assert (0 < 128 ^ Z.of_nat (S (length ms))) by (apply Z.pow_pos_nonneg; lia). nia.
Qed.

(** An arc never takes more bytes than its decimal text has characters. *)
Lemma arc_bytes_short a : 0 <= a < 10 ^ 9 -> (length (arc_bytes a) <= length (print_u a))%nat.
Proof.
  intros Ha. destruct (arc_bytes_shape a ltac:(lia)) as (ms & d & -> & _ & _ & Hlow).
  destruct (print_u_digits a Ha) as (ds & -> & Hr & Hv & Hl).
  unfold digits. rewrite length_app, !length_fmap. cbn [length]. destruct Hlow as [->|Hlow]; [simpl; lia|].
  pose proof (ms_val_bounds 10 0 ds ltac:(lia) ltac:(lia) Hr) as [_ Hb]. rewrite Hv in Hb.
  destruct (decide (length ms < length ds)%nat) as [|Hge]; [lia|].
  assert (10 ^ Zlen ds <= 10 ^ Zlen ms) by (apply Z.pow_le_mono_r; lia).
  assert (10 ^ Zlen ms <= 128 ^ Zlen ms) by (apply Z.pow_le_mono_l; lia). lia.
Qed.

(** ** Writing and reading back *)

Fixpoint oid_text (arcs : list Z) : list Z :=
  match arcs with
  | [] => []
  | [a] => print_u a
  | a :: rest => print_u a ++ 46 :: oid_text rest
  end.

Definition small_arc (a : Z) : Prop := 0 <= a < 10 ^ 9.
(** The reader refuses the byte 80 anywhere, so the digits before the last must
    not be zero. *)
Definition good_arc (a : Z) : Prop := small_arc a /\ 0x80 ∉ arc_bytes a.

(** One round of the writer's loop. *)
Lemma write_component fuel nd a tail next i num1 out : small_arc a ->
  (tail = [] /\ next = [] \/ tail = 46 :: next) ->
  write_oid_loop (S fuel) nd (print_u a ++ tail) i num1 out
  = (if i =? 0 then write_oid_loop fuel nd next (i + 1) a out
     else if i =? 1 then
       c_assert (40 * num1 + a <? 2 ^ 31);;
       out ← put nd out [u8 (40 * num1 + a)]; write_oid_loop fuel nd next (i + 1) num1 out
     else out ← put nd out (arc_bytes a); write_oid_loop fuel nd next (i + 1) num1 out).
Proof.
  intros Ha Htail. destruct (print_u_digits a Ha) as (ds & -> & Hr & Hv & Hl).
  assert (46 ∉ digits ds) as Hdot.
  { unfold digits. rewrite list_elem_of_fmap. intros (d & Hd & Hin).
    rewrite Forall_forall in Hr. apply Hr in Hin. lia. }
  assert (Hne : digits ds ++ tail <> []) by (destruct ds; [simpl in Hl; lia|done]).
  assert (match index_of 46 (digits ds ++ tail) with
          | None => (length (digits ds ++ tail), []) | Some p => (p, drop (S p) (digits ds ++ tail)) end
          = (length ds, next)) as Hnext.
  { destruct Htail as [[-> ->]| ->].
    - rewrite app_nil_r. rewrite (proj2 (index_of_None 46 _) Hdot). unfold digits. by rewrite length_fmap.
    - assert (index_of 46 (digits ds ++ 46 :: next) = Some (length (digits ds))) as ->.
      { apply index_of_Some. rewrite list_lookup_middle, take_app_length by done. done. }
      rewrite <- Nat.add_1_r, drop_app_add. unfold digits. by rewrite length_fmap. }
  pose proof (atoin_digits (digits ds ++ tail) [] ds tail Hr eq_refl ltac:(lia)) as Hat.
  change (Zlen (@nil Z)) with 0 in Hat. rewrite Hv in Hat.
  destruct (digits ds ++ tail) as [|c0 txt] eqn:E; [done|]. rewrite <- E in *.
  cbn [write_oid_loop]. rewrite E at 1. rewrite Hnext.
  destruct (Nat.eqb_spec (length ds) 0); [lia|]. rewrite Hat. run.
  unfold small_arc in Ha. destruct (Z.ltb_spec a 0); [lia|]. done.
Qed.

Lemma oid_text_cons a arcs : arcs <> [] -> oid_text (a :: arcs) = print_u a ++ 46 :: oid_text arcs.
Proof. by destruct arcs. Qed.

Lemma put_some n out bs : Zlen (out ++ bs) <= n -> put (Some n) out bs = Ok (out ++ bs).
Proof. intros H. unfold put. rewrite c_assert_true by (by apply Z.leb_le). done. Qed.

Lemma write_arcs n arcs : forall fuel i num1 out, Forall small_arc arcs -> 2 <= i ->
  (length arcs <= fuel)%nat -> Zlen (out ++ concat (arc_bytes <$> arcs)) <= n ->
  write_oid_loop fuel (Some n) (oid_text arcs) i num1 out = Ok (Some (out ++ concat (arc_bytes <$> arcs))).
Proof.
  induction arcs as [|a arcs IH]; intros fuel i num1 out Ha Hi Hf Hn.
  { cbn [fmap list_fmap concat]. rewrite app_nil_r. by destruct fuel. }
  inversion_clear Ha as [|?? Ha1 Ha2]. cbn [length] in Hf. destruct fuel as [|fuel]; [lia|].
  cbn [fmap list_fmap concat] in *.
  assert (exists tail, oid_text (a :: arcs) = print_u a ++ tail /\
    (tail = [] /\ oid_text arcs = [] \/ tail = 46 :: oid_text arcs)) as (tail & -> & Ht).
  { destruct arcs; [exists []; rewrite app_nil_r; by auto|eexists; split; [by apply oid_text_cons|by right]]. }
  rewrite (write_component fuel (Some n) a tail (oid_text arcs) i num1 out Ha1 Ht).
  destruct (Z.eqb_spec i 0), (Z.eqb_spec i 1); try lia.
  rewrite put_some by (rewrite !length_app in *; lia). run.
  rewrite IH; [by rewrite <- app_assoc|done|lia|lia|by rewrite <- app_assoc].
Qed.

Lemma read_arc_digits ms : forall d v bs result, Forall (fun x => 0 <= x < 128) (ms ++ [d]) -> 0 <= v ->
  0x80 ∉ ((fun x => x + 128) <$> ms) -> ms_val 128 v (ms ++ [d]) < 2 ^ 32 ->
  read_oid_loop (((fun x => x + 128) <$> ms) ++ d :: bs) true v v result
  = read_oid_loop bs true 0 0 (result ++ 46 :: print_u (ms_val 128 v (ms ++ [d]))).
Proof.
  assert (Hstep : forall v x, 0 <= v -> 0 <= x < 128 -> v * 128 + x < 2 ^ 32 ->
    Z.lor (u32 (Z.shiftl v 7)) x = v * 128 + x).
  { intros v x Hv Hx Hlt. rewrite u32_small by (rewrite Z.shiftl_mul_pow2 by lia; lia).
    rewrite lor_shift_add by lia. lia. }
  induction ms as [|m ms IH]; intros d v bs result Hr Hv Hn Hlt; cbn [app fmap list_fmap ms_val] in *;
    inversion_clear Hr as [|?? Hx Hr']; cbn [read_oid_loop]; change 0x7F with 127; rewrite land_127.
  - destruct (Z.eqb_spec d 0x80); [lia|]. cbn [andb]. rewrite (Z.mod_small d), Hstep by lia.
    destruct (Z.ltb_spec (v * 128 + d) v); [lia|]. rewrite bit7_clear by (unfold is_byte; lia).
    destruct (Z.ltb_spec d 128); [done|lia].
  - pose proof (ms_val_ge 128 (v * 128 + m) (ms ++ [d]) ltac:(lia) ltac:(lia)) as Hge.
    specialize (Hge ltac:(eapply Forall_impl; [exact Hr'|]; intros; simpl in *; lia)).
    rewrite not_elem_of_cons in Hn. destruct Hn as [Hm Hn].
    destruct (Z.eqb_spec (m + 128) 0x80); [lia|]. cbn [andb].
    replace ((m + 128) mod 128) with m by lia_div. rewrite Hstep by lia.
    destruct (Z.ltb_spec (v * 128 + m) v); [lia|]. rewrite bit7_clear by (unfold is_byte; lia).
    destruct (Z.ltb_spec (m + 128) 128); [lia|]. apply IH; [done|lia|done|done].
Qed.

Lemma read_arcs arcs : forall result, Forall good_arc arcs ->
  read_oid_loop (concat (arc_bytes <$> arcs)) true 0 0 result
  = Some (result ++ concat ((fun a => 46 :: print_u a) <$> arcs)).
Proof.
  induction arcs as [|a arcs IH]; intros result Ha; cbn [fmap list_fmap concat].
  { by rewrite app_nil_r. }
  inversion_clear Ha as [|?? [Ha1 Hn] Ha2]. unfold small_arc in Ha1.
  destruct (arc_bytes_shape a ltac:(lia)) as (ms & d & He & Hr & Hv & _).
  rewrite He in *. rewrite <- app_assoc. cbn [app].
  rewrite not_elem_of_app in Hn. destruct Hn as [Hn _].
  rewrite read_arc_digits; [|done|lia|done|lia]. rewrite Hv, IH by done. by rewrite <- app_assoc.
Qed.

(** C35: an object identifier set from its text is encoded within the buffer
    allocated for it, as the first byte [40 * a0 + a1] and the base 128 digits of the
    other arcs, and reading the encoding gives the text back.  The first two arcs
    must fit one byte with [a1 < 40]; the others are below 10^9 and have no zero
    base 128 digit before the last. *)
Theorem oid_roundtrip (a0 a1 : Z) (arcs : list Z) :
  0 <= a0 -> 0 <= a1 < 40 -> 40 * a0 + a1 < 256 -> arcs <> [] -> Forall good_arc arcs ->
  egg_asn1x_set_oid_as_string (oid_text (a0 :: a1 :: arcs))
    = Ok (Some (40 * a0 + a1 :: concat (arc_bytes <$> arcs))) /\
  anode_read_object_id (40 * a0 + a1 :: concat (arc_bytes <$> arcs))
    = Ok (Some (oid_text (a0 :: a1 :: arcs))).
Proof.
  intros H0 H1 Hb Hne Hg.
  assert (Hsmall : Forall small_arc arcs) by (eapply Forall_impl; [exact Hg|]; by intros ? [? _]).
  assert (small_arc a0) as Hs0 by (unfold small_arc; lia). assert (small_arc a1) as Hs1 by (unfold small_arc; lia).
  assert (Htext : forall l, oid_text (a0 :: a1 :: l) = print_u a0 ++ 46 :: oid_text (a1 :: l)) by done.
  assert (Hlen : forall l, l <> [] -> Forall small_arc l -> (length (concat (arc_bytes <$> l)) <= length (oid_text l))%nat /\ (length l <= length (oid_text l))%nat).
  { induction l as [|a l IHl]; [done|]. intros _ Hl. inversion_clear Hl as [|?? Hla Hll].
    pose proof (arc_bytes_short a Hla) as Hshort. destruct (print_u_digits a Hla) as (ds & Hp & _ & _ & Hl').
    assert (1 <= length (print_u a))%nat by (rewrite Hp; unfold digits; rewrite length_fmap; lia).
    cbn [fmap list_fmap concat]. rewrite length_app. destruct l as [|a' l']; [cbn [fmap list_fmap concat length oid_text]; lia|].
    rewrite oid_text_cons, length_app by done. cbn [length].
    destruct (IHl ltac:(done) Hll) as [Hi1 Hi2]. cbn [length] in Hi2. split; [lia|]. lia. }
  destruct (Hlen arcs Hne Hsmall) as [Hc Hl]. split.
  - unfold egg_asn1x_set_oid_as_string, anode_write_object_id.
    set (n := Zlen (oid_text (a0 :: a1 :: arcs))).
    assert (n = Zlen (print_u a0) + 1 + Zlen (print_u a1) + 1 + Zlen (oid_text arcs)) as Hn.
    { subst n. rewrite Htext, oid_text_cons by done. rewrite !length_app. cbn [length]. rewrite !length_app. cbn [length]. lia. }
    destruct (length (oid_text (a0 :: a1 :: arcs))) as [|fuel] eqn:Ef; [lia|].
    rewrite Htext, (write_component _ _ a0 _ (oid_text (a1 :: arcs)) 0) by (done || by right).
    change (0 =? 0) with true. cbn match.
    rewrite oid_text_cons by done. rewrite (write_component _ _ a1 _ (oid_text arcs)) by (done || by right).
    change (0 + 1 =? 0) with false. change (0 + 1 =? 1) with true. cbn match.
    assert_ok.
    rewrite put_some by (cbn [app length]; lia). cbn [mbind res_bind app].
    rewrite write_arcs; [|done|lia|lia|cbn [app length]; lia]. run.
    rewrite u8_small by lia. destruct (Z.ltb_spec (Zlen ([40 * a0 + a1] ++ concat (arc_bytes <$> arcs))) 2) as [Hlt|]; [|done].
    exfalso. destruct arcs as [|a arcs]; [done|]. cbn [fmap list_fmap concat] in Hlt.
    assert (1 <= length (arc_bytes a))%nat.
    { inversion_clear Hsmall as [|?? Hsa _]. unfold small_arc in Hsa.
      destruct (arc_bytes_shape a ltac:(lia)) as (ms & d & -> & _). rewrite length_app. simpl. lia. }
    rewrite !length_app in Hlt. cbn [length] in Hlt. lia.
  - unfold anode_read_object_id. cbn [rd or_ub mbind res_bind].
    change (rd (?x :: ?l) 0) with (Some x). run.
    assert ((40 * a0 + a1) / 40 = a0) as -> by lia_div. replace (40 * a0 + a1 - a0 * 40) with a1 by lia.
    change (drop 1 (?x :: ?l)) with l. cbn [drop]. rewrite read_arcs by done.
    do 2 f_equal. rewrite Htext, <- app_assoc. f_equal. cbn [app]. f_equal.
    clear -Hne. revert a1 Hne. induction arcs as [|a arcs IH]; intros a1 Hne; [done|].
    rewrite oid_text_cons by done. cbn [fmap list_fmap concat app]. f_equal. f_equal.
    destruct arcs as [|b arcs]; [cbn [fmap list_fmap concat oid_text]; by rewrite app_nil_r|]. by rewrite IH.
Qed.

Lemma oid_roundtrip_witness :
  egg_asn1x_set_oid_as_string (lit "1.2.840.113549") = Ok (Some [42; 0x86; 0x48; 0x86; 0xf7; 0x0d]) /\
  anode_read_object_id [42; 0x86; 0x48; 0x86; 0xf7; 0x0d] = Ok (Some (lit "1.2.840.113549")).
Proof.
  apply (oid_roundtrip 1 2 [840; 113549]); [lia|lia|lia|done|].
  unfold good_arc, small_arc. decide_now.
Defined.

(** The arc 16384 is written as 81 80 00, which the reader refuses: it takes the
    byte 80 for the leading byte of an arc wherever it stands. *)
Lemma oid_inner_zero_refused :
  egg_asn1x_set_oid_as_string (lit "1.2.16384") = Ok (Some [42; 0x81; 0x80; 0x00]) /\
  anode_read_object_id [42; 0x81; 0x80; 0x00] = Ok None.
Proof. by vm_compute. Qed.

(** Second arcs from 40 on are read back as part of the first: 2.100.3 becomes 4.20.3. *)
Lemma oid_second_arc_misread :
  egg_asn1x_set_oid_as_string (lit "2.100.3") = Ok (Some [180; 3]) /\
  anode_read_object_id [180; 3] = Ok (Some (lit "4.20.3")).
Proof. by vm_compute. Qed.

(** * Bit strings *)

Lemma shifts_be_bytes n : forall v,
  rev ((fun i => Z.land (Z.shiftr v (i * 8)) 0xFF) <$> seqZ 0 (Z.of_nat n)) = be_bytes n v.
Proof.
  induction n as [|n IH]; intros v; [done|]. rewrite Nat2Z.inj_succ, seqZ_cons by lia.
  cbn [fmap list_fmap rev be_bytes]. rewrite <- IH. f_equal.
  - f_equal. rewrite Z.pred_succ. change (Z.succ 0) with (1 + 0). rewrite <- (fmap_add_seqZ 1), <- list_fmap_compose.
    apply list_fmap_ext. intros _ i Hi%list_elem_of_lookup_2%elem_of_seqZ. simpl. f_equal.
    rewrite !Z.shiftr_div_pow2 by lia. replace ((1 + i) * 8) with (8 + i * 8) by lia.
    rewrite Z.pow_add_r by lia. by rewrite <- Z.div_div by lia.
  - change 0xFF with 255. by rewrite land_255, Z.mul_0_l, Z.shiftr_0_r.
Qed.

Lemma foldl_be l : forall a, bytes l -> 0 <= a -> a * 256 ^ Zlen l + be_val l < 2 ^ 64 ->
  foldl (fun value b => u64 (Z.lor (Z.shiftl value 8) b)) a l = a * 256 ^ Zlen l + be_val l.
Proof.
  induction l as [|x l IH]; intros a Hb Ha Hlt; cbn [foldl].
  { change (be_val []) with 0. simpl. lia. }
  inversion_clear Hb as [|?? Hx Hb']. unfold is_byte in Hx. rewrite be_val_cons in *. cbn [length] in *.
  rewrite Nat2Z.inj_succ, Z.pow_succ_r in * by lia. pose proof (be_val_bound l Hb').
  assert (0 < 256 ^ Zlen l) by (apply Z.pow_pos_nonneg; lia).
  rewrite lor_shift_add, u64_small by (change (2 ^ 8) with 256; nia). change (2 ^ 8) with 256.
  rewrite IH; [lia|done|nia|lia].
Qed.

Lemma bit_masks e x : 1 <= e <= 7 -> is_byte x -> x mod 2 ^ e = 0 ->
  Z.land x (u8 (Z.lnot (Z.shiftr 0xFF (8 - e)))) = x /\ Z.land x (u8 (Z.shiftr 0xFF (8 - e))) = 0.
Proof.
  unfold is_byte. intros He Hx Hm.
  assert (forallb (fun e => forallb (fun x => negb (x mod 2 ^ e =? 0) ||
    ((Z.land x (u8 (Z.lnot (Z.shiftr 0xFF (8 - e)))) =? x) && (Z.land x (u8 (Z.shiftr 0xFF (8 - e))) =? 0)))
    (seqZ 0 256)) (seqZ 1 7) = true) as Hall by (vm_compute; reflexivity).
  pose proof (range_check _ _ _ (range_check _ _ _ Hall e ltac:(lia)) x ltac:(lia)) as Hex. clear Hall. cbn beta in Hex.
  rewrite Hm in Hex. apply andb_true_iff in Hex as [?%Z.eqb_eq ?%Z.eqb_eq]. done.
Qed.

(** A bit string set from an unsigned long with [n_bits] significant bits
    reads back as the same number and number of bits, and the contents octets the
    writer makes of it (padding bits masked off) decode to the same value and number of
    unused bits. *)
Theorem bits_ulong_roundtrip (bits n_bits : Z) :
  0 <= n_bits <= 64 -> 0 <= bits < 2 ^ n_bits ->
  exists data empty, egg_asn1x_set_bits_as_ulong bits n_bits = Some (data, empty) /\
    egg_asn1x_get_bits_as_ulong data empty = Some (bits, n_bits) /\
    anode_decode_bit_string (empty :: mask_last data empty) = Some (data, empty).
Proof.
  intros Hn Hbits. unfold egg_asn1x_set_bits_as_ulong. destruct (Z.ltb_spec 64 n_bits); [lia|].
  set (e := if 0 <? n_bits mod 8 then 8 - n_bits mod 8 else n_bits mod 8).
  set (len := n_bits / 8 + (if negb (e =? 0) then 1 else 0)).
  assert (0 <= e <= 7 /\ n_bits + e = 8 * len /\ 0 <= len <= 8) as (He & Hlen & Hl8).
  { subst len e. destruct (Z.ltb_spec 0 (n_bits mod 8)).
    - destruct (Z.eqb_spec (8 - n_bits mod 8) 0); cbn [negb]; lia_div.
    - destruct (Z.eqb_spec (n_bits mod 8) 0); cbn [negb]; lia_div. }
  clearbody len. clearbody e.
  assert (0 <= bits * 2 ^ e < 256 ^ len) as Hval.
  { change 256 with (2 ^ 8). rewrite <- Z.pow_mul_r, <- Hlen, Z.pow_add_r by lia. nia. }
  assert (256 ^ len <= 2 ^ 64) as Hmax by (change (2 ^ 64) with (256 ^ 8); apply Z.pow_le_mono_r; lia).
  rewrite Z.shiftl_mul_pow2, u64_small by lia.
  replace len with (Z.of_nat (Z.to_nat len)) by lia. rewrite shifts_be_bytes.
  set (data := be_bytes (Z.to_nat len) (bits * 2 ^ e)). exists data, e.
  assert (Hdl : Zlen data = len) by (subst data; rewrite be_bytes_length; lia).
  assert (Hdb : bytes data) by apply be_bytes_bytes.
  assert (Hdv : be_val data = bits * 2 ^ e)
    by (subst data; rewrite be_val_bytes, Z2Nat.id, Z.mod_small; lia).
  split; [done|]. split.
  - unfold egg_asn1x_get_bits_as_ulong. rewrite Hdl, u32_small by lia.
    replace (len * 8 - e) with n_bits by lia. destruct (Z.ltb_spec 64 n_bits); [lia|].
    rewrite foldl_be, Hdv by (done || lia). rewrite Z.mul_0_l, Z.add_0_l, Z.shiftr_div_pow2 by lia.
    by rewrite Z.div_mul by lia.
  - assert (Hlast : data = [] /\ e = 0 \/ exists d0 x, data = d0 ++ [x] /\ (e <> 0 -> x mod 2 ^ e = 0)).
    { destruct (Z.to_nat len) as [|k] eqn:Ek; [left; split; [done|lia]|].
      right. exists (be_bytes k (bits * 2 ^ e / 256)), (bits * 2 ^ e mod 256). split; [done|]. intros _.
      assert ((2 ^ e | 256)) as Hdiv by (exists (2 ^ (8 - e)); rewrite <- Z.pow_add_r by lia;
        by replace (8 - e + e) with 8 by lia).
      rewrite Z.mod_mod_divide by done. apply Z.mod_mul. lia. }
    assert (Hmask : mask_last data e = data).
    { unfold mask_last. destruct Hlast as [[-> _]|(d0 & x & Hd & Hx)]; [done|].
      rewrite Hd, rev_app_distr. cbn [rev app]. destruct (Z.eqb_spec e 0); [done|]. rewrite rev_involutive.
      rewrite Hd in Hdb. apply Forall_app in Hdb as [_ Hdb]. inversion_clear Hdb as [|?? Hxb _].
      by rewrite (proj1 (bit_masks e x ltac:(lia) Hxb (Hx ltac:(lia)))). }
    rewrite Hmask. unfold anode_decode_bit_string. destruct (Z.leb_spec 8 e); [lia|].
    destruct Hlast as [[-> _]|(d0 & x & Hd & Hx)]; [done|].
    assert (negb (Z.land (default 0 (last (e :: data))) (u8 (Z.shiftr 0xFF (8 - e))) =? 0) = false) as ->;
      [|by rewrite andb_false_r].
    rewrite Hd, app_comm_cons, last_snoc. change (default 0 (Some x)) with x.
    rewrite Hd in Hdb. apply Forall_app in Hdb as [_ Hdb]. inversion_clear Hdb as [|?? Hxb _].
    destruct (Z.eqb_spec e 0) as [->|]; [by rewrite Z.land_0_r|].
    by rewrite (proj2 (bit_masks e x ltac:(lia) Hxb (Hx ltac:(lia)))).
Qed.

Lemma bits_ulong_roundtrip_witness :
  egg_asn1x_set_bits_as_ulong 0x2b 6 = Some ([0xac], 2) /\
  exists data empty, egg_asn1x_set_bits_as_ulong 0x2b 6 = Some (data, empty) /\
    egg_asn1x_get_bits_as_ulong data empty = Some (0x2b, 6) /\
    anode_decode_bit_string (empty :: mask_last data empty) = Some (data, empty).
Proof. split; [reflexivity|]. apply (bits_ulong_roundtrip 0x2b 6); lia. Defined.

(** * Strings *)

(** A constructed string: its pieces are primitive. *)
Definition piece (t : Atlv) : Prop :=
  Z.land (cls (head t)) ASN1_CLASS_STRUCTURED = 0 /\ is_Some (value t).
Definition pieces (cs : list Atlv) : list Z := concat ((fun t => default [] (value t)) <$> cs).

Lemma read_string_measure cs : Forall piece cs -> forall at_ r n,
  read_string_loop cs None at_ r n = Ok (Some (n + Zlen (pieces cs), None, r)).
Proof.
  induction 1 as [|c cs [Hc [v Hv]] Hcs IH]; intros at_ r n; cbn [read_string_loop].
  { do 3 f_equal. f_equal. unfold pieces. simpl. lia. }
  rewrite Hc, Hv. cbn [Z.eqb negb]. rewrite IH. unfold pieces. cbn [fmap list_fmap concat].
  rewrite Hv, length_app. cbn [default]. unfold id. do 3 f_equal. f_equal. lia.
Qed.

Lemma read_string_fill cs : Forall piece cs -> forall pre old post n,
  length old = length (pieces cs) -> Zlen old < 2 ^ 31 ->
  read_string_loop cs (Some (pre ++ old ++ post)) (Zlen pre) (Zlen old) n
  = Ok (Some (n + Zlen (pieces cs), Some (pre ++ pieces cs ++ post), 0)).
Proof.
  induction 1 as [|c cs [Hc [v Hv]] Hcs IH]; intros pre old post n Hold Hsz; cbn [read_string_loop].
  { destruct old; [|done]. unfold pieces. cbn [app length fmap list_fmap concat].
    change (Z.of_nat 0) with 0. by rewrite Z.add_0_r. }
  rewrite Hc, Hv. cbn [Z.eqb negb]. unfold pieces in *. cbn [fmap list_fmap concat] in *. rewrite Hv in *.
  change (default [] (Some v)) with v in *.
  apply split_old in Hold as (o1 & o2 & -> & H1 & H2). rewrite length_app, Nat2Z.inj_add in *.
  rewrite u64_small by lia. destruct (Z.leb_spec (Zlen v) (Zlen o1 + Zlen o2)); [|lia].
  rewrite <- !app_assoc, wr_app by done. run.
  replace (Zlen pre + Zlen v) with (Zlen (pre ++ v)) by (rewrite length_app; lia).
  rewrite s32_small by lia. replace (Zlen o1 + Zlen o2 - Zlen v) with (Zlen o2) by lia.
  rewrite app_assoc, IH by (done || lia). rewrite <- !app_assoc, length_app, Nat2Z.inj_add, Z.add_assoc. done.
Qed.

(** A string in constructed form is the concatenation of its pieces: the
    first pass measures it, the second fills the block exactly and the byte after
    it is set to zero; nothing is written outside the block. *)
Theorem get_string_as_raw_constructed (alloc : Z -> option (list Z)) (t : Atlv) (block : list Z) :
  Z.land (cls (head t)) ASN1_CLASS_STRUCTURED <> 0 -> Forall piece (child t) ->
  Zlen (pieces (child t)) < 2 ^ 31 -> alloc (Zlen (pieces (child t)) + 1) = Some block ->
  Zlen block = Zlen (pieces (child t)) + 1 ->
  egg_asn1x_get_string_as_raw alloc None (Some t)
  = Ok (Some (pieces (child t) ++ [0], Zlen (pieces (child t)))).
Proof.
  intros Hc Hp Hsz Ha Hb. unfold egg_asn1x_get_string_as_raw, string_twice, anode_read_string_struct.
  rewrite c_assert_true by by apply negb_true_iff, Z.eqb_neq. run.
  rewrite read_string_measure by done. run. rewrite Z.add_0_l, Ha.
  rewrite s32_small by lia.
  destruct (split_old block (pieces (child t)) [0]) as (old & z & -> & H1 & H2); [rewrite length_app; simpl; lia|].
  pose proof (read_string_fill (child t) Hp [] old z 0 H1 ltac:(lia)) as Hf.
  cbn [app length] in Hf. change (Z.of_nat 0) with 0 in Hf. rewrite H1 in Hf.
  rewrite Hf. run. rewrite Z.add_0_l. change (0 <? 0) with false. cbn match.
  run. pose proof (wr_app (pieces (child t)) z [] [0] H2) as Hw. rewrite !app_nil_r in Hw.
  by rewrite Hw.
Qed.

Lemma get_string_as_raw_constructed_witness :
  let t := mk_atlv (parsed_head 0x20 4 2 7) None None
    [mk_atlv (parsed_head 0 4 2 2) (Some [1; 2]) None []; mk_atlv (parsed_head 0 4 2 1) (Some [3]) None []] in
  egg_asn1x_get_string_as_raw (fun n => Some (replicate (Z.to_nat n) 0xaa)) None (Some t)
  = Ok (Some ([1; 2; 3; 0], 3)).
Proof.
  refine (get_string_as_raw_constructed _ _ (replicate 4 0xaa) _ _ _ _ _); try reflexivity.
  - decide_now.
  - unfold piece. repeat constructor; by eexists.
Defined.

(** A block that is too small is overrun from its second piece on: the negative
    remainder counts as a huge one. *)
Lemma read_string_struct_overruns :
  anode_read_string_struct (mk_atlv (parsed_head 0x20 4 2 7) None None
    [mk_atlv (parsed_head 0 4 2 2) (Some [1; 2]) None []; mk_atlv (parsed_head 0 4 2 1) (Some [3]) None []])
    (Some [0]) 1 = Ub.
Proof. by vm_compute. Qed.
