(* ===== verification/Sorting.v ===== *)
(** [g_list_sort]: the interface of GLib's stable list sort, and an instance.

    GLib documents a stable sort by a comparison function.  The model of the program
    uses the class; an insertion sort shows that the laws can be met. *)

From stdpp Require Import sorting.
From S2P Require Import Prelude.
Local Open Scope Z_scope.

Class GListSort := g_list_sort : forall {A}, (A -> A -> Z) -> list A -> list A.

(** A comparison that a sort can rely on. *)
Record comparison_ok {A} (cmp : A -> A -> Z) : Prop := {
  cmp_total : forall a b, cmp a b <= 0 \/ cmp b a <= 0;
  cmp_trans : forall a b c, cmp a b <= 0 -> cmp b c <= 0 -> cmp a c <= 0 }.

Class GListSortLaws (S : GListSort) : Prop := {
  sort_perm : forall A (cmp : A -> A -> Z) l, g_list_sort cmp l ≡ₚ l;
  sort_sorted : forall A (cmp : A -> A -> Z) l, comparison_ok cmp -> StronglySorted (fun a b => cmp a b <= 0) (g_list_sort cmp l);
  (** Equal elements keep their order. *)
  sort_stable : forall A (cmp : A -> A -> Z) l a, comparison_ok cmp ->
    List.filter (fun b => (cmp a b <=? 0) && (cmp b a <=? 0)) (g_list_sort cmp l) =
    List.filter (fun b => (cmp a b <=? 0) && (cmp b a <=? 0)) l }.

(** * The instance *)

Fixpoint insert_by {A} (cmp : A -> A -> Z) (x : A) (l : list A) : list A :=
  match l with
  | [] => [x]
  | y :: l => if cmp x y <=? 0 then x :: y :: l else y :: insert_by cmp x l
  end.

(** For examples only, hence not found by itself. *)
Definition insertion_sort : GListSort := fun A cmp l => foldr (insert_by cmp) [] l.

Section Insertion.
Context {A : Type} (cmp : A -> A -> Z).

Lemma insert_by_perm x l : insert_by cmp x l ≡ₚ x :: l.
Proof.
  induction l as [|y l IH]; cbn [insert_by]; [done|]. case_match; [done|]. rewrite IH. constructor.
Qed.

Context (Hcmp : comparison_ok cmp).

Lemma insert_by_sorted x l : StronglySorted (fun a b => cmp a b <= 0) l ->
  StronglySorted (fun a b => cmp a b <= 0) (insert_by cmp x l).
Proof.
  destruct Hcmp as [Ht Htr]. induction 1 as [|y l Hl IH Hy]; cbn [insert_by]; [repeat constructor|].
  destruct (Z.leb_spec (cmp x y) 0).
  - constructor; [by constructor|]. constructor; [done|]. eapply Forall_impl; [exact Hy|]. intros z. by apply Htr.
  - constructor; [done|]. rewrite insert_by_perm. constructor; [|done]. destruct (Ht x y); [lia|done].
Qed.

Lemma insert_by_stable a x l : StronglySorted (fun a b => cmp a b <= 0) l ->
  List.filter (fun b => (cmp a b <=? 0) && (cmp b a <=? 0)) (insert_by cmp x l) =
  List.filter (fun b => (cmp a b <=? 0) && (cmp b a <=? 0)) (x :: l).
Proof.
  destruct Hcmp as [Ht Htr]. induction 1 as [|y l Hl IH Hy]; cbn [insert_by]; [done|].
  destruct (Z.leb_spec (cmp x y) 0); [done|]. cbn [List.filter] in IH |- *. rewrite IH.
  destruct ((cmp a y <=? 0) && (cmp y a <=? 0)) eqn:Ey, ((cmp a x <=? 0) && (cmp x a <=? 0)) eqn:Ex; try done.
  exfalso. rewrite !andb_true_iff, !Z.leb_le in *. destruct Ey, Ex.
  assert (cmp x y <= 0) by (eapply Htr; eauto). lia.
Qed.

End Insertion.

#[export] Instance insertion_sort_laws : GListSortLaws insertion_sort.
Proof.
  split; unfold g_list_sort, insertion_sort; intros A cmp l.
  - induction l as [|x l IH]; cbn [foldr]; [done|]. by rewrite insert_by_perm, IH.
  - intros H. induction l as [|x l IH]; cbn [foldr]; [constructor|]. by apply insert_by_sorted.
  - intros a H. induction l as [|x l IH]; cbn [foldr]; [done|]. rewrite insert_by_stable; [|done|].
    + cbn [List.filter]. by rewrite IH.
    + clear IH. induction l as [|y l IH]; cbn [foldr]; [constructor|]. by apply insert_by_sorted.
Qed.

(** A comparison that finds everything equal leaves the list as it is. *)
Lemma sort_all_equal (S : GListSort) `{!GListSortLaws S} {A} (cmp : A -> A -> Z) l : (forall a b, cmp a b = 0) -> g_list_sort cmp l = l.
Proof.
  intros H0. assert (comparison_ok cmp) as Hok by (split; intros *; rewrite ?H0; intuition lia).
  destruct l as [|a l].
  - pose proof (sort_perm A cmp []) as Hp. by apply Permutation_nil_r in Hp.
  - pose proof (sort_stable A cmp (a :: l) a Hok) as Hs.
    assert (forall k, List.filter (fun b => (cmp a b <=? 0) && (cmp b a <=? 0)) k = k) as Hf.
    { intros k. induction k as [|x k IH]; [done|]. cbn [List.filter]. rewrite !H0. cbn. by rewrite IH. }
    by rewrite !Hf in Hs.
Qed.
