(* ===== verification/Asn1Node.v ===== *)
(** ASN.1 nodes: the data of [src/egg/egg-asn1x.c] above the TLV layer, and the
    functions that look at one node.

    [EggAsn1xDef] is a line of a definition table, [Anode] the data of a node, [GNode]
    the tree.  Types are an enumeration, flags stay the bits of the [type] word.  Then
    what the definitions of a node say of its encoding (tags, explicit tags, defaults,
    sizes), the failure message, [egg_asn1x_have], copying and clearing, and the trees
    as such: height, schema, lookup by path. *)

From S2P Require Import Prelude Text Asn1Tlv.
Local Open Scope Z_scope.

(** * Definitions *)

Inductive EggAsn1xType :=
  | CONSTANT | IDENTIFIER | INTEGER | BOOLEAN | SEQUENCE | BIT_STRING | OCTET_STRING | TAG
  | DEFAULT | SIZE | SEQUENCE_OF | OBJECT_ID | ANY | SET | SET_OF | DEFINITIONS | TIME
  | CHOICE | IMPORTS | NULL | ENUMERATED | GENERAL_STRING | NUMERIC_STRING | IA5_STRING
  | TELETEX_STRING | PRINTABLE_STRING | UNIVERSAL_STRING | BMP_STRING | UTF8_STRING
  | VISIBLE_STRING | UTC_TIME | GENERALIZED_TIME
  | OtherType.

#[export] Instance EggAsn1xType_eq_dec : EqDecision EggAsn1xType.
Proof. solve_decision. Defined.

(** The low eight bits of a [type] word. *)
Definition asn1x_type (type : Z) : EggAsn1xType :=
  match Z.land type 0xFF with
  | 1 => CONSTANT | 2 => IDENTIFIER | 3 => INTEGER | 4 => BOOLEAN | 5 => SEQUENCE
  | 6 => BIT_STRING | 7 => OCTET_STRING | 8 => TAG | 9 => DEFAULT | 10 => SIZE
  | 11 => SEQUENCE_OF | 12 => OBJECT_ID | 13 => ANY | 14 => SET | 15 => SET_OF
  | 16 => DEFINITIONS | 17 => TIME | 18 => CHOICE | 19 => IMPORTS | 20 => NULL
  | 21 => ENUMERATED | 27 => GENERAL_STRING | 28 => NUMERIC_STRING | 29 => IA5_STRING
  | 30 => TELETEX_STRING | 31 => PRINTABLE_STRING | 32 => UNIVERSAL_STRING
  | 33 => BMP_STRING | 34 => UTF8_STRING | 35 => VISIBLE_STRING | 36 => UTC_TIME
  | 37 => GENERALIZED_TIME
  | _ => OtherType
  end.

Definition FLAG_UNIVERSAL : Z := 2 ^ 8.
Definition FLAG_PRIVATE : Z := 2 ^ 9.
Definition FLAG_APPLICATION : Z := 2 ^ 10.
Definition FLAG_IMPLICIT : Z := 2 ^ 12.
Definition FLAG_TAG : Z := 2 ^ 13.
Definition FLAG_OPTION : Z := 2 ^ 14.
Definition FLAG_DEFAULT : Z := 2 ^ 15.
Definition FLAG_TRUE : Z := 2 ^ 16.
Definition FLAG_FALSE : Z := 2 ^ 17.
Definition FLAG_LIST : Z := 2 ^ 18.
Definition FLAG_MIN_MAX : Z := 2 ^ 19.
Definition FLAG_SIZE : Z := 2 ^ 21.
Definition FLAG_GENERALIZED : Z := 2 ^ 23.
Definition FLAG_UTC : Z := 2 ^ 24.
Definition FLAG_DOWN : Z := 2 ^ 29.
Definition FLAG_RIGHT : Z := 2 ^ 30.

(** [flags & FLAG], for a flag of one bit. *)
Definition has (flags flag : Z) : bool := negb (Z.land flags flag =? 0).

Record EggAsn1xDef := mk_def { def_name : option (list Z); def_type : Z; def_value : option (list Z) }.

#[export] Instance EggAsn1xDef_eq_dec : EqDecision EggAsn1xDef.
Proof. solve_decision. Defined.

(** * Nodes *)

Record Anode := mk_anode {
  def : EggAsn1xDef;
  join : option EggAsn1xDef;
  opts : list EggAsn1xDef;
  an_value : option (list Z);
  parsed : option Atlv;
  failure : option (list Z);
  chosen : bool;
  an_bits_empty : Z;
  guarantee_unsigned : bool }.

Inductive GNode : Type := N (data : Anode) (children : list GNode).

Definition data (n : GNode) : Anode := let 'N an _ := n in an.
Definition children (n : GNode) : list GNode := let 'N _ cs := n in cs.

(** The induction principle with the hypothesis for all children. *)
Lemma GNode_ind' (P : GNode -> Prop) : (forall an cs, Forall P cs -> P (N an cs)) -> forall n, P n.
Proof.
  intros H. fix IH 1. intros [an cs]. apply H. induction cs as [|c cs IHcs]; [constructor|].
  constructor; [apply IH|exact IHcs].
Qed.

Definition anode_new (d : EggAsn1xDef) : Anode := mk_anode d None [] None None None false 0 false.

(** [anode_copy_func]: definitions are copied, values are not. *)
Definition anode_copy_func (an : Anode) : Anode := mk_anode (def an) (join an) (opts an) None None None false 0 false.

Fixpoint anode_clone (n : GNode) : GNode := let 'N an cs := n in N (anode_copy_func an) (anode_clone <$> cs).

Definition anode_def_type (an : Anode) : EggAsn1xType :=
  asn1x_type (match join an with Some j => def_type j | None => def_type (def an) end).

Definition anode_def_type_is_real (an : Anode) : bool :=
  match anode_def_type an with
  | CONSTANT | IDENTIFIER | TAG | DEFAULT | SIZE | DEFINITIONS | IMPORTS => false
  | OtherType => false
  | _ => true
  end.

Definition anode_def_flags (an : Anode) : Z :=
  let type := def_type (def an) in
  let type := match join an with Some j => Z.lor type (def_type j) | None => type end in
  Z.land type 0xFFFFFF00.

Definition anode_def_name (an : Anode) : option (list Z) := def_name (def an).

(** A text that is not a number is the largest one, with a critical message. *)
Definition anode_def_value_as_ulong (d : EggAsn1xDef) : Z :=
  match def_value d with
  | None => G_MAXULONG
  | Some v => let '(lval, end_) := strtoul v in if bool_decide (end_ = []) then lval else G_MAXULONG
  end.

(** The comparison of the lookups: only two strings can differ. *)
Definition str_differ (a b : option (list Z)) : bool :=
  match a, b with Some a, Some b => negb (bool_decide (a = b)) | _, _ => false end.

Definition anode_opt_lookup (an : Anode) (type : EggAsn1xType) (name : option (list Z)) : option EggAsn1xDef :=
  List.find (fun d => negb (str_differ name (def_name d)) && bool_decide (asn1x_type (def_type d) = type)) (opts an).

Definition anode_opt_lookup_value (an : Anode) (type : EggAsn1xType) (value : option (list Z)) : option EggAsn1xDef :=
  List.find (fun d => negb (str_differ value (def_value d)) && bool_decide (asn1x_type (def_type d) = type)) (opts an).

Definition anode_opts_lookup (an : Anode) (type : EggAsn1xType) (name : option (list Z)) : list EggAsn1xDef :=
  List.filter (fun d => negb (str_differ name (def_name d)) && bool_decide (asn1x_type (def_type d) = type)) (opts an).

Definition anode_opt_add (an : Anode) (d : EggAsn1xDef) : Anode :=
  mk_anode (def an) (join an) (opts an ++ [d]) (an_value an) (parsed an) (failure an) (chosen an)
    (an_bits_empty an) (guarantee_unsigned an).

(** * Values and messages of a node *)

Definition anode_clr_value (an : Anode) : Anode :=
  mk_anode (def an) (join an) (opts an) None None (failure an) (chosen an) (an_bits_empty an) (guarantee_unsigned an).

Definition anode_take_value (an : Anode) (v : list Z) : Anode :=
  let an := anode_clr_value an in
  mk_anode (def an) (join an) (opts an) (Some v) (parsed an) (failure an) (chosen an) (an_bits_empty an) (guarantee_unsigned an).

Definition set_parsed (an : Anode) (t : Atlv) : Anode :=
  mk_anode (def an) (join an) (opts an) (an_value an) (Some t) (failure an) (chosen an) (an_bits_empty an) (guarantee_unsigned an).
Definition set_failure (an : Anode) (m : option (list Z)) : Anode :=
  mk_anode (def an) (join an) (opts an) (an_value an) (parsed an) m (chosen an) (an_bits_empty an) (guarantee_unsigned an).
Definition set_chosen (an : Anode) (b : bool) : Anode :=
  mk_anode (def an) (join an) (opts an) (an_value an) (parsed an) (failure an) b (an_bits_empty an) (guarantee_unsigned an).
Definition set_bits_empty (an : Anode) (e : Z) : Anode :=
  mk_anode (def an) (join an) (opts an) (an_value an) (parsed an) (failure an) (chosen an) e (guarantee_unsigned an).
Definition set_unsigned (an : Anode) (b : bool) : Anode :=
  mk_anode (def an) (join an) (opts an) (an_value an) (parsed an) (failure an) (chosen an) (an_bits_empty an) b.
Definition set_join (an : Anode) (j : EggAsn1xDef) : Anode :=
  mk_anode (def an) (Some j) (opts an) (an_value an) (parsed an) (failure an) (chosen an) (an_bits_empty an) (guarantee_unsigned an).

Definition anode_clear (an : Anode) : Anode := set_failure (anode_clr_value an) None.

(** [a ?: b] on strings. *)
Definition or_else {A} (a b : option A) : option A := match a with Some _ => a | None => b end.

Definition anode_failure (an : Anode) (msg : list Z) : Anode :=
  let prefix := or_else (def_name (def an)) (join an ≫= def_name) in
  let prefix := or_else prefix (def_value (def an)) in
  let prefix := or_else prefix (join an ≫= def_value) in
  let prefix := default (lit "unknown") prefix in
  set_failure an (Some (prefix ++ lit ": " ++ msg)).

(** The data of a node replaced. *)
Definition on_data (f : Anode -> Anode) (n : GNode) : GNode := let 'N an cs := n in N (f an) cs.

(** [return anode_failure (node, msg);] *)
Definition fails {E} (n : GNode) (msg : list Z) : res E (bool * GNode) :=
  Ok (false, on_data (fun an => anode_failure an msg) n).

(** * Tags *)

Definition ASN1_CLASS_APPLICATION : Z := 0x40.
Definition ASN1_CLASS_CONTEXT_SPECIFIC : Z := 0x80.
Definition ASN1_CLASS_PRIVATE : Z := 0xC0.

(** The universal tag of a type. *)
Definition anode_calc_tag_for_flags (an : Anode) (flags : Z) : Z :=
  if has flags FLAG_TAG then
    match anode_opt_lookup an TAG None with
    | None => G_MAXULONG
    | Some d => anode_def_value_as_ulong d
    end
  else
    match anode_def_type an with
    | INTEGER => 0x02
    | ENUMERATED => 0x0A
    | BOOLEAN => 0x01
    | BIT_STRING => 0x03
    | OCTET_STRING => 0x04
    | OBJECT_ID => 0x06
    | NULL => 0x05
    | GENERAL_STRING => 0x1B
    | NUMERIC_STRING => 0x12
    | IA5_STRING => 0x16
    | TELETEX_STRING => 0x14
    | PRINTABLE_STRING => 0x13
    | UNIVERSAL_STRING => 0x1C
    | BMP_STRING => 0x1E
    | UTF8_STRING => 0x0C
    | VISIBLE_STRING => 0x1A
    | TIME =>
      if has flags FLAG_GENERALIZED then 0x18
      else if has flags FLAG_UTC then 0x17
      else G_MAXULONG
    | UTC_TIME => 0x17
    | GENERALIZED_TIME => 0x18
    | SEQUENCE | SEQUENCE_OF => 0x10
    | SET | SET_OF => 0x11
    | _ => G_MAXULONG
    end.

Definition anode_calc_tag (an : Anode) : Z := anode_calc_tag_for_flags an (anode_def_flags an).

(** The result and [*cls_type], [None] when that is not written. *)
Definition anode_calc_explicit_for_flags (an : Anode) (flags : Z) : bool * option Z :=
  if negb (has flags FLAG_TAG) then (false, None)
  else
    match anode_opt_lookup an TAG None with
    | None => (false, None)
    | Some opt =>
      let cls_type :=
        if has (def_type opt) FLAG_UNIVERSAL then ASN1_CLASS_UNIVERSAL
        else if has (def_type opt) FLAG_APPLICATION then ASN1_CLASS_APPLICATION
        else if has (def_type opt) FLAG_PRIVATE then ASN1_CLASS_PRIVATE
        else ASN1_CLASS_CONTEXT_SPECIFIC in
      (negb (has (def_type opt) FLAG_IMPLICIT), Some cls_type)
    end.

Definition is_explicit (an : Anode) (flags : Z) : bool := (anode_calc_explicit_for_flags an flags).1.

(** * Trees *)

(** [g_node_traverse (root, G_POST_ORDER, G_TRAVERSE_ALL, -1, func, data)]: the true
    result of [func] stops the traversal.  [func] changes only what is below its node. *)
Section Traverse.
Context {E : Type} (go : GNode -> res E (bool * GNode)).
Fixpoint traverse_children (cs : list GNode) : res E (bool * list GNode) :=
  match cs with
  | [] => Ok (false, [])
  | c :: cs =>
    '(stop, c) ← go c;
    if stop : bool then Ok (true, c :: cs)
    else '(stop, cs) ← traverse_children cs; Ok (stop, c :: cs)
  end.
End Traverse.

Fixpoint post_order {E} (func : GNode -> res E (bool * GNode)) (n : GNode) : res E (bool * GNode) :=
  let 'N an cs := n in
  '(stop, cs) ← traverse_children (post_order func) cs;
  if stop : bool then Ok (true, N an cs) else func (N an cs).

Definition is_of_type (t : EggAsn1xType) : bool := match t with SEQUENCE_OF | SET_OF => true | _ => false end.

(** The first child of a list is its template, the others go. *)
Definition traverse_and_clear (n : GNode) : res unit (bool * GNode) :=
  let 'N an cs := n in
  let an := anode_clear an in
  if is_of_type (anode_def_type an) then
    match cs with
    | [] => Ok (true, N an [])
    | c :: _ => Ok (false, N an [c])
    end
  else Ok (false, N an cs).

Definition egg_asn1x_clear (n : GNode) : res unit GNode := '(_, n) ← post_order traverse_and_clear n; Ok n.

Fixpoint egg_asn1x_have (n : GNode) : bool :=
  let 'N an cs := n in
  bool_decide (is_Some (an_value an)) || bool_decide (is_Some (parsed an)) || existsb egg_asn1x_have cs.

(** [egg_asn1x_message]: the first failure in post order. *)
Fixpoint egg_asn1x_message (n : GNode) : option (list Z) :=
  let 'N an cs := n in
  foldr (fun c m => or_else (egg_asn1x_message c) m) (failure an) cs.

Definition egg_asn1x_count (n : GNode) : Z :=
  if negb (is_of_type (anode_def_type (data n))) then 0
  else Zlen (List.filter egg_asn1x_have (children n)).

(** The changed node; the new child is its last one. *)
Definition egg_asn1x_append (n : GNode) : option GNode :=
  let 'N an cs := n in
  if negb (is_of_type (anode_def_type an)) then None
  else match cs with
       | [] => None
       | c :: _ => Some (N an (cs ++ [on_data anode_clear (anode_clone c)]))
       end.

(** [first], and its place. *)
Fixpoint find_child (f : GNode -> bool) (cs : list GNode) : option (nat * GNode) :=
  match cs with
  | [] => None
  | c :: cs => if f c then Some (0%nat, c) else '(i, d) ← find_child f cs; Some (S i, d)
  end.

Definition egg_asn1x_get_choice (n : GNode) : option (nat * GNode) := find_child (fun c => chosen (data c)) (children n).

(** [choice] is the place of a child; the place of none is refused, when all marks
    are gone. *)
Definition egg_asn1x_set_choice (n : GNode) (choice : nat) : bool * GNode :=
  let 'N an cs := n in
  if negb (bool_decide (anode_def_type an = CHOICE)) then (false, n)
  else (bool_decide (choice < length cs)%nat,
        N an (imap (fun i c => on_data (fun an => set_chosen an (Nat.eqb i choice)) c) cs)).

(** The variable arguments of [egg_asn1x_node]. *)
Inductive Arg := Name (s : list Z) | Index (i : Z) | NullArg.

(** [anode_child_with_name]: [strcmp] with the missing name of a child is undefined. *)
Fixpoint anode_child_with_name (cs : list GNode) (name : list Z) : res unit (option (nat * GNode)) :=
  match cs with
  | [] => Ok None
  | c :: cs =>
    n ← or_ub (anode_def_name (data c));
    if bool_decide (name = n) then Ok (Some (0%nat, c))
    else r ← anode_child_with_name cs name;
         Ok (fmap (M:=option) (prod_map S id) r)
  end.

(** The child that an index counts to, of those that have data. *)
Fixpoint nth_with_data (cs : list GNode) (index : Z) : option (nat * GNode) :=
  match cs with
  | [] => None
  | c :: cs =>
    let index' := if egg_asn1x_have c then index - 1 else index in
    if egg_asn1x_have c && (index' =? 0) then Some (0%nat, c)
    else '(i, d) ← nth_with_data cs index'; Some (S i, d)
  end.

(** The path to the node; a list takes an index, anything else a name.  A [NULL] that a
    list takes is read as the index zero.  A name where an index is taken, or too few
    arguments, are undefined; an index is too small for a pointer. *)
Fixpoint egg_asn1x_node (asn : GNode) (args : list Arg) : res unit (option (list nat)) :=
  if is_of_type (anode_def_type (data asn)) then
    match args with
    | Index index :: args =>
      if index =? 0 then Ok (Some [])
      else match nth_with_data (children asn) index with
           | None => Ok None
           | Some (i, c) => r ← egg_asn1x_node c args; Ok (fmap (M:=option) (cons i) r)
           end
    | NullArg :: _ => Ok (Some [])
    | _ => Ub
    end
  else
    match args with
    | NullArg :: _ => Ok (Some [])
    | Name name :: args =>
      r ← anode_child_with_name (children asn) name;
      match r with
      | None => Ok None
      | Some (i, c) => r ← egg_asn1x_node c args; Ok (fmap (M:=option) (cons i) r)
      end
    | Index index :: _ => if index =? 0 then Ok (Some []) else Ok None
    | [] => Ub
    end.

(** What a pointer to a node inside of a tree stands for. *)
Fixpoint node_at (path : list nat) (n : GNode) : option GNode :=
  match path with
  | [] => Some n
  | i :: path => c ← children n !! i; node_at path c
  end.

Fixpoint alter_at (f : GNode -> GNode) (path : list nat) (n : GNode) : GNode :=
  match path with
  | [] => f n
  | i :: path => let 'N an cs := n in N an (alter (alter_at f path) i cs)
  end.

Fixpoint height (n : GNode) : nat := let 'N _ cs := n in S (max_list (height <$> cs)).
