(* ===== verification/Asn1Schema.v ===== *)
(** The definitions in a tree and what keeps them: copying, clearing, appending.

    [shape] is the tree of definitions, with only the template of every list; [uniform]
    trees have lists whose elements are all like the template.  [keeps] is what every
    operation on a tree preserves. *)

From S2P Require Import Prelude Text Asn1Tlv Asn1Node.
Local Open Scope Z_scope.

(** * Heights *)

Lemma max_list_cons x l : max_list (x :: l) = Nat.max x (max_list l).
Proof. done. Qed.

Lemma max_list_app l k : max_list (l ++ k) = Nat.max (max_list l) (max_list k).
Proof. induction l as [|x l IH]; [done|]. rewrite <- app_comm_cons, !max_list_cons, IH. lia. Qed.

Lemma max_list_le l m : Forall (fun x => x <= m)%nat l -> (max_list l <= m)%nat.
Proof. induction 1 as [|x l Hx _ IH]; rewrite ?max_list_cons; simpl; lia. Qed.

Lemma height_child an cs c : c ∈ cs -> (height c < height (N an cs))%nat.
Proof. intros Hc. cbn [height]. apply Nat.lt_succ_r, max_list_elem_of_le. by apply list_elem_of_fmap_2. Qed.

(** * The definitions of a node *)

(** What a node has from its definition, without what it has from data. *)
Abbreviation core := anode_copy_func.

Lemma core_def_type an an' : core an = core an' -> anode_def_type an = anode_def_type an'.
Proof. destruct an, an'. by intros [= -> -> ->]. Qed.
Lemma core_def_flags an an' : core an = core an' -> anode_def_flags an = anode_def_flags an'.
Proof. destruct an, an'. by intros [= -> -> ->]. Qed.
Lemma core_calc_tag an an' flags : core an = core an' -> anode_calc_tag_for_flags an flags = anode_calc_tag_for_flags an' flags.
Proof. destruct an, an'. by intros [= -> -> ->]. Qed.
Lemma core_explicit an an' flags : core an = core an' ->
  anode_calc_explicit_for_flags an flags = anode_calc_explicit_for_flags an' flags.
Proof. destruct an, an'. by intros [= -> -> ->]. Qed.

Lemma core_set_parsed an t : core (set_parsed an t) = core an. Proof. by destruct an. Qed.
Lemma core_take_value an v : core (anode_take_value an v) = core an. Proof. by destruct an. Qed.
Lemma core_clr_value an : core (anode_clr_value an) = core an. Proof. by destruct an. Qed.
Lemma core_set_bits_empty an e : core (set_bits_empty an e) = core an. Proof. by destruct an. Qed.
Lemma core_set_chosen an b : core (set_chosen an b) = core an. Proof. by destruct an. Qed.
Lemma core_set_failure an m : core (set_failure an m) = core an. Proof. by destruct an. Qed.
Lemma core_failure an m : core (anode_failure an m) = core an. Proof. by destruct an. Qed.
Lemma core_clear an : core (anode_clear an) = core an. Proof. by destruct an. Qed.
Lemma core_core an : core (core an) = core an. Proof. by destruct an. Qed.

Create Rewrite HintDb core_db.
#[export] Hint Rewrite core_set_parsed core_take_value core_clr_value core_set_bits_empty core_set_chosen
  core_set_failure core_failure core_clear core_core : core_db.

Lemma data_on_data f n : data (on_data f n) = f (data n). Proof. by destruct n. Qed.
Lemma children_on_data f n : children (on_data f n) = children n. Proof. by destruct n. Qed.
#[export] Hint Rewrite data_on_data children_on_data : core_db.

Ltac cores := autorewrite with core_db in *; try done.

Lemma data_clone n : data (anode_clone n) = core (data n). Proof. by destruct n. Qed.
Lemma children_clone n : children (anode_clone n) = anode_clone <$> children n. Proof. by destruct n. Qed.
#[export] Hint Rewrite data_clone children_clone : core_db.

(** * Schemas

    The definitions of a tree; of a list only the template, the first element. *)
Fixpoint shape (n : GNode) : GNode :=
  let 'N an cs := n in
  N (core an) (if is_of_type (anode_def_type an) then take 1 (shape <$> cs) else shape <$> cs).

(** Every element of a list has the definitions of the template. *)
Fixpoint uniform (n : GNode) : Prop :=
  let 'N an cs := n in
  (if is_of_type (anode_def_type an)
   then match cs with [] => True | c :: cs => Forall (fun d => shape d = shape c) cs end else True) /\
  foldr and True (uniform <$> cs).

Lemma uniform_children an cs : uniform (N an cs) -> Forall uniform cs.
Proof. intros [_ H]. induction cs as [|c cs IH]; [constructor|]. destruct H. constructor; auto. Qed.

Lemma uniform_intro an cs : Forall uniform cs ->
  (is_of_type (anode_def_type an) = true -> match cs with [] => True | c :: cs => Forall (fun d => shape d = shape c) cs end) ->
  uniform (N an cs).
Proof.
  intros Hu Hof. split; [destruct (is_of_type (anode_def_type an)); [by apply Hof|done]|].
  induction Hu as [|c cs Hc Hcs IH]; [done|]. split; [done|]. apply IH. intros Ht. specialize (Hof Ht).
  destruct cs as [|d cs]; [done|]. inversion_clear Hof as [|?? Hd Hds]. eapply Forall_impl; [exact Hds|]. simpl. intros x ->. done.
Qed.

Lemma fmap_Forall_ext {A B} (f g : A -> B) l : Forall (fun x => f x = g x) l -> f <$> l = g <$> l.
Proof. intros H. by apply Forall_fmap_ext. Qed.

Lemma clone_children_ext {B} (f : GNode -> B) cs : Forall (fun c => f (anode_clone c) = f c) cs ->
  f <$> (anode_clone <$> cs) = f <$> cs.
Proof. intros H. rewrite <- list_fmap_compose. by apply fmap_Forall_ext. Qed.

Lemma clone_shape n : shape (anode_clone n) = shape n.
Proof.
  induction n as [an cs IH] using GNode_ind'. cbn [anode_clone shape]. rewrite core_core.
  rewrite (core_def_type (core an) an) by cores. by rewrite clone_children_ext.
Qed.

Lemma clone_height n : height (anode_clone n) = height n.
Proof. induction n as [an cs IH] using GNode_ind'. cbn [anode_clone height]. by rewrite clone_children_ext. Qed.

Lemma clone_uniform n : uniform n -> uniform (anode_clone n).
Proof.
  induction n as [an cs IH] using GNode_ind'. intros Hu. pose proof (uniform_children _ _ Hu) as Hc.
  apply uniform_intro.
  - apply Forall_fmap. rewrite Forall_forall in *. intros c Hin. apply IH; [done|]. by apply Hc.
  - rewrite (core_def_type (core an) an) by cores. intros Ht. destruct Hu as [Hof _]. rewrite Ht in Hof.
    destruct cs as [|c cs]; [done|]. cbn [fmap list_fmap]. apply Forall_fmap. eapply Forall_impl; [exact Hof|].
    intros d Hd. unfold compose. by rewrite !clone_shape.
Qed.

(** What decoding and clearing rely on: sequences and sets have members, lists have a
    template. *)
Definition has_members (an : Anode) (cs : list GNode) : bool :=
  match anode_def_type an, cs with (SEQUENCE | SET | SEQUENCE_OF | SET_OF), [] => false | _, _ => true end.

Fixpoint schema_ok (n : GNode) : bool := let 'N an cs := n in has_members an cs && forallb schema_ok cs.

Lemma schema_ok_children an cs : schema_ok (N an cs) = true -> Forall (fun c => schema_ok c = true) cs.
Proof. cbn [schema_ok]. rewrite andb_true_iff, forallb_forall. intros [_ H]. apply Forall_forall. intros c Hc. by apply H, list_elem_of_In. Qed.

Lemma schema_ok_intro an cs : has_members an cs = true -> Forall (fun c => schema_ok c = true) cs -> schema_ok (N an cs) = true.
Proof.
  intros Hm H. cbn [schema_ok]. rewrite Hm. cbn [andb]. apply forallb_forall. intros c Hc.
  rewrite Forall_forall in H. by apply H, list_elem_of_In.
Qed.

Lemma has_members_core an an' cs cs' : core an = core an' -> (cs = [] <-> cs' = []) -> has_members an cs = has_members an' cs'.
Proof.
  intros Hc He. unfold has_members. rewrite (core_def_type _ _ Hc). by destruct cs, cs'; [|naive_solver..|].
Qed.

Lemma clone_schema_ok n : schema_ok (anode_clone n) = schema_ok n.
Proof.
  induction n as [an cs IH] using GNode_ind'. cbn [anode_clone schema_ok]. f_equal.
  - apply has_members_core; [by cores|]. by destruct cs.
  - induction IH as [|c cs Hc _ IHcs]; [done|]. cbn [fmap list_fmap forallb]. by rewrite Hc, IHcs.
Qed.

(** * What every operation keeps *)

Record keeps (n n' : GNode) : Prop := {
  k_shape : shape n' = shape n;
  k_height : height n' = height n;
  k_uniform : uniform n -> uniform n';
  k_schema : schema_ok n = true -> schema_ok n' = true }.

#[export] Instance keeps_preorder : PreOrder keeps.
Proof.
  split; [done|]. intros x y z [] []. split; [by etrans|by etrans|auto|auto].
Qed.

Lemma keeps_core n n' : keeps n n' -> core (data n') = core (data n).
Proof. destruct n, n'. intros H. exact (f_equal Asn1Node.data (k_shape _ _ H)). Qed.

Lemma keeps_clone n : keeps n (anode_clone n).
Proof. split; [apply clone_shape|apply clone_height|apply clone_uniform|by rewrite clone_schema_ok]. Qed.

Lemma Forall2_keeps_fmap {B} (f : GNode -> B) cs cs' : Forall2 keeps cs cs' -> (forall n n', keeps n n' -> f n' = f n) -> f <$> cs' = f <$> cs.
Proof. intros H Hf. induction H as [|c c' cs cs' Hc _ IH]; [done|]. cbn [fmap list_fmap]. by rewrite IH, (Hf _ _ Hc). Qed.

(** Changed data with the same definitions, and children kept one by one. *)
Lemma keeps_node an an' cs cs' : core an' = core an -> Forall2 keeps cs cs' -> keeps (N an cs) (N an' cs').
Proof.
  intros Hc H. pose proof (core_def_type _ _ Hc) as Ht. split.
  - cbn [shape]. by rewrite Hc, Ht, (Forall2_keeps_fmap shape _ _ H k_shape).
  - cbn [height]. by rewrite (Forall2_keeps_fmap height _ _ H k_height).
  - intros Hu. pose proof (uniform_children _ _ Hu) as Hcs. apply uniform_intro.
    + clear Hu. induction H; [done|]. inversion_clear Hcs. constructor; [by eapply k_uniform|auto].
    + rewrite Ht. intros Hof. destruct Hu as [Hu _]. rewrite Hof in Hu. destruct H as [|c c' cs cs' Hcc H]; [done|].
      rewrite (k_shape _ _ Hcc). clear Hcs. induction H as [|d d' cs cs' Hd _ IH]; [constructor|]. inversion_clear Hu as [|?? Hsd Hsds].
      constructor; [by rewrite (k_shape _ _ Hd)|auto].
  - intros Ho. pose proof (schema_ok_children _ _ Ho) as Hcs. apply schema_ok_intro.
    + cbn [schema_ok] in Ho. apply andb_true_iff in Ho as [Hm _]. rewrite <- Hm. apply has_members_core; [done|].
      by destruct H.
    + clear Ho. induction H; [done|]. inversion_clear Hcs. constructor; [by eapply k_schema|auto].
Qed.

Lemma keeps_data f n : (forall an, core (f an) = core an) -> keeps n (on_data f n).
Proof. intros Hf. destruct n as [an cs]. apply keeps_node; [apply Hf|]. apply Forall_Forall2_diag, Forall_true. done. Qed.

(** Clones of the first element, changed, are put at the end of a list. *)
Lemma keeps_list an c c' cs others : is_of_type (anode_def_type an) = true -> keeps c c' ->
  Forall (fun o => keeps c' o) others -> keeps (N an (c :: cs)) (N an (c' :: cs ++ others)).
Proof.
  intros Hof Hc Ho. split.
  - cbn [shape]. rewrite Hof. cbn [fmap list_fmap take]. by rewrite (k_shape _ _ Hc).
  - cbn [height]. f_equal. rewrite !fmap_cons, !max_list_cons, fmap_app, max_list_app, (k_height _ _ Hc).
    assert (max_list (height <$> others) <= height c)%nat; [|lia]. apply max_list_le, Forall_fmap.
    eapply Forall_impl; [exact Ho|]. intros o Hk. unfold compose. by rewrite (k_height _ _ Hk), (k_height _ _ Hc).
  - intros Hu. pose proof (uniform_children _ _ Hu) as Hcs. destruct Hu as [Hu _]. rewrite Hof in Hu. inversion_clear Hcs as [|?? Huc Hucs].
    assert (uniform c') as Huc' by by apply (k_uniform _ _ Hc).
    apply uniform_intro.
    + constructor; [done|]. apply Forall_app. split; [done|]. eapply Forall_impl; [exact Ho|]. intros o Hk. by apply (k_uniform _ _ Hk).
    + intros _. apply Forall_app. rewrite (k_shape _ _ Hc). split; [done|]. eapply Forall_impl; [exact Ho|].
      intros o Hk. by rewrite (k_shape _ _ Hk), (k_shape _ _ Hc).
  - intros Ho'. pose proof (schema_ok_children _ _ Ho') as Hcs. inversion_clear Hcs as [|?? Hsc Hscs].
    apply schema_ok_intro; [unfold has_members; by destruct (anode_def_type an)|].
    assert (schema_ok c' = true) as Hsc' by by apply (k_schema _ _ Hc).
    constructor; [done|]. apply Forall_app. split; [done|]. eapply Forall_impl; [exact Ho|]. intros o Hk. by apply (k_schema _ _ Hk).
Qed.

(** * Clearing *)

(** A tree without data. *)
Definition fresh (n : GNode) : Prop := egg_asn1x_have n = false.

Lemma fresh_intro an cs : fresh (N an cs) <-> an_value an = None /\ parsed an = None /\ Forall fresh cs.
Proof.
  unfold fresh. cbn [egg_asn1x_have]. rewrite !orb_false_iff, !bool_decide_eq_false, <- !eq_None_not_Some.
  assert (existsb egg_asn1x_have cs = false <-> Forall (fun c => egg_asn1x_have c = false) cs) as ->.
  { induction cs as [|c cs IH]; [by split; [constructor|]|]. cbn [existsb]. by rewrite orb_false_iff, IH, Forall_cons. }
  tauto.
Qed.

Lemma clone_fresh n : fresh (anode_clone n).
Proof.
  induction n as [an cs IH] using GNode_ind'. cbn [anode_clone]. apply fresh_intro. split_and!; [done|done|by apply Forall_fmap].
Qed.

(** What clearing a tree ends with. *)
Record cleared (n n' : GNode) : Prop := {
  cl_shape : shape n' = shape n;
  cl_uniform : uniform n';
  cl_schema : schema_ok n' = true;
  cl_fresh : fresh n';
  cl_failure : egg_asn1x_message n' = None }.

Lemma message_nil an cs : failure an = None -> Forall (fun c => egg_asn1x_message c = None) cs -> egg_asn1x_message (N an cs) = None.
Proof. intros Ha H. cbn [egg_asn1x_message]. induction H as [|c cs Hc _ IH]; [done|]. cbn [foldr]. by rewrite Hc. Qed.

Lemma has_members_nil an cs : has_members an cs = true -> is_of_type (anode_def_type an) = true -> cs <> [].
Proof. unfold has_members. intros H Hof ->. by destruct (anode_def_type an). Qed.

Lemma clear_node an cs : has_members an cs = true -> Forall (fun c => cleared c c) cs ->
  exists n', traverse_and_clear (N an cs) = Ok (false, n') /\ cleared (N an cs) n'.
Proof.
  intros Hm Hcs. unfold traverse_and_clear. rewrite (core_def_type (anode_clear an) an) by cores.
  destruct (is_of_type (anode_def_type an)) eqn:Hof.
  - pose proof (has_members_nil _ _ Hm Hof) as Hne. destruct cs as [|c cs]; [done|].
    inversion_clear Hcs as [|?? Hc _]. destruct Hc as [_ Hu Hs Hf Hmsg]. eexists. split; [done|]. split.
    + cbn [shape]. rewrite core_clear, (core_def_type (anode_clear an) an) by cores. by rewrite Hof.
    + apply uniform_intro; [by constructor|by constructor].
    + apply schema_ok_intro; [unfold has_members; by destruct (anode_def_type _)|by constructor].
    + apply fresh_intro. split_and!; [done|done|by constructor].
    + apply message_nil; [done|by constructor].
  - eexists. split; [done|]. split.
    + cbn [shape]. by rewrite core_clear, (core_def_type (anode_clear an) an) by cores.
    + apply uniform_intro; [eapply Forall_impl; [exact Hcs|by intros ? []]|].
      rewrite (core_def_type (anode_clear an) an) by cores. by rewrite Hof.
    + apply schema_ok_intro; [rewrite <- Hm; by apply has_members_core; [cores|]|].
      eapply Forall_impl; [exact Hcs|by intros ? []].
    + apply fresh_intro. split_and!; [done|done|eapply Forall_impl; [exact Hcs|by intros ? []]].
    + apply message_nil; [done|eapply Forall_impl; [exact Hcs|by intros ? []]].
Qed.

Lemma cleared_self n n' : cleared n n' -> cleared n' n'.
Proof. intros []. by split. Qed.

Lemma cleared_shape n m n' : shape m = shape n -> cleared m n' -> cleared n n'.
Proof. intros Hs []. split; [congruence|done..]. Qed.

Lemma clear_traverse n : schema_ok n = true -> exists n', post_order traverse_and_clear n = Ok (false, n') /\ cleared n n'.
Proof.
  induction n as [an cs IH] using GNode_ind'. intros Hs. cbn [post_order].
  assert (exists cs', traverse_children (post_order traverse_and_clear) cs = Ok (false, cs') /\ Forall2 cleared cs cs') as (cs' & -> & Hcs).
  { apply schema_ok_children in Hs. induction IH as [|c cs Hc _ IHcs]; [by exists []|]. inversion_clear Hs as [|?? Hsc Hscs].
    cbn [traverse_children]. destruct (Hc Hsc) as (c' & -> & Hcc). run. destruct (IHcs Hscs) as (cs' & -> & Hcs). run.
    exists (c' :: cs'). split; [done|]. by constructor. }
  run. assert (has_members an cs' = true) as Hm.
  { cbn [schema_ok] in Hs. apply andb_true_iff in Hs as [Hm _]. rewrite <- Hm. apply has_members_core; [done|]. by destruct Hcs. }
  destruct (clear_node an cs' Hm) as (n' & -> & Hn').
  - clear -Hcs. induction Hcs; constructor; [by eapply cleared_self|done].
  - exists n'. split; [done|]. eapply cleared_shape; [|exact Hn']. cbn [shape].
    assert (shape <$> cs' = shape <$> cs) as ->; [|done]. clear -Hcs. induction Hcs as [|c c' cs cs' Hc _ IH]; [done|].
    rewrite !fmap_cons, IH. by rewrite (cl_shape _ _ Hc).
Qed.

(** Clearing a tree ends, and leaves its definitions, with one element in every list. *)
Lemma egg_asn1x_clear_ok n : schema_ok n = true -> exists n', egg_asn1x_clear n = Ok n' /\ cleared n n'.
Proof.
  intros Hs. destruct (clear_traverse n Hs) as (n' & E & Hn'). unfold egg_asn1x_clear. rewrite E. run. by exists n'.
Qed.

(** Appending to a list keeps the tree. *)
Lemma append_keeps n n' : egg_asn1x_append n = Some n' -> keeps n n' /\ exists c, last (children n') = Some c /\ fresh c.
Proof.
  destruct n as [an cs]. cbn [egg_asn1x_append]. destruct (is_of_type (anode_def_type an)) eqn:Hof; cbn [negb]; [|done].
  destruct cs as [|c cs]; [done|]. intros [= <-].
  assert (keeps c (on_data anode_clear (anode_clone c))) as Hk.
  { etrans; [apply keeps_clone|apply keeps_data]. intros. apply core_clear. }
  split.
  - apply keeps_list; [done|done|by constructor].
  - eexists. split; [cbn [children]; by rewrite app_comm_cons, last_snoc|]. pose proof (clone_fresh c) as Hf. destruct (anode_clone c) as [an' cs'].
    cbn [on_data]. rewrite fresh_intro in *. tauto.
Qed.
