(* ===== verification/Asn1Create.v ===== *)
(** Building ASN.1 node trees from the definition tables: [egg_asn1x_create] of
    [src/egg/egg-asn1x.c] and what it calls.

    A pointer into a table is the rest of the table from there on; running off the end
    is [Ub].  The loop of [egg_asn1x_create] keeps its way up through the parents; here
    that is the stack of open nodes.  Creating a node for an identifier creates the tree
    of the identifier: [fuel] bounds the depth of identifiers, and running out of it
    ([Err tt]) is C recursion without end. *)

From S2P Require Import Prelude Text Asn1Tlv Asn1Node Sorting.
Local Open Scope Z_scope.

(** * Pointers into a table *)

Definition nonnull (d : EggAsn1xDef) : bool :=
  bool_decide (is_Some (def_value d)) || negb (def_type d =? 0) || bool_decide (is_Some (def_name d)).

(** [while (depth > 0) { ++def; ... }]: the pointer at its end. *)
Fixpoint skip_children (p : list EggAsn1xDef) (depth : Z) : res unit (list EggAsn1xDef) :=
  match p with
  | [] => Ub
  | d :: rest =>
    let depth := if has (def_type d) FLAG_DOWN then depth + 1 else depth in
    let depth := if has (def_type d) FLAG_RIGHT then depth else depth - 1 in
    if 0 <? depth then skip_children rest depth else Ok (d :: rest)
  end.

(** [++def;] and the check of what is there. *)
Definition step_def (p : list EggAsn1xDef) : res unit (option (list EggAsn1xDef)) :=
  match p with
  | _ :: (d :: _) as q => Ok (if nonnull d then Some q else None)
  | _ => Ub
  end.

Definition adef_next_sibling (p : list EggAsn1xDef) : res unit (option (list EggAsn1xDef)) :=
  match p with
  | [] => Ub
  | d :: rest =>
    c_assert (nonnull d);;
    if negb (has (def_type d) FLAG_RIGHT) then Ok None
    else
      p ← (if has (def_type d) FLAG_DOWN then skip_children rest 1 else Ok p);
      step_def p
  end.

Definition adef_first_child (p : list EggAsn1xDef) : res unit (option (list EggAsn1xDef)) :=
  match p with
  | [] => Ub
  | d :: _ =>
    c_assert (nonnull d);;
    if negb (has (def_type d) FLAG_DOWN) then Ok None else step_def p
  end.

(** [for (; def; def = adef_next_sibling (def))] with a body that may break: the
    pointer it broke at, and the state.  Every round moves the pointer. *)
Fixpoint for_siblings {S} (fuel : nat) (body : list EggAsn1xDef -> S -> res unit (bool * S))
    (p : option (list EggAsn1xDef)) (s : S) : res unit (option (list EggAsn1xDef) * S) :=
  match p with
  | None => Ok (None, s)
  | Some q =>
    match fuel with
    | O => Err tt
    | Datatypes.S fuel =>
      '(stop, s) ← body q s;
      if stop : bool then Ok (Some q, s)
      else p ← adef_next_sibling q; for_siblings fuel body p s
    end
  end.

Definition for_children {S} (defs : list EggAsn1xDef) (body : list EggAsn1xDef -> S -> res unit (bool * S)) (s : S)
    : res unit (option (list EggAsn1xDef) * S) :=
  p ← adef_first_child defs; for_siblings (length defs) body p s.

Definition head_def (p : list EggAsn1xDef) : res unit EggAsn1xDef := or_ub (hd_error p).

Definition lookup_def_of_type (defs : list EggAsn1xDef) (name : list Z) (type : EggAsn1xType) : res unit (option EggAsn1xDef) :=
  '(p, _) ← for_children defs (fun p _ =>
    d ← head_def p;
    Ok (bool_decide (asn1x_type (def_type d) = type) && bool_decide (def_name d = Some name), tt)) tt;
  Ok (p ≫= hd_error).

(** * Preparing a node *)

Definition compare_nodes_by_tag (na nb : GNode) : Z :=
  let a := data na in let b := data nb in
  if negb (has (anode_def_flags a) FLAG_TAG) then 0
  else if negb (has (anode_def_flags b) FLAG_TAG) then 0
  else
    let taga := anode_calc_tag a in
    if taga =? G_MAXULONG then 0
    else
      let tagb := anode_calc_tag b in
      if tagb =? G_MAXULONG then 0
      else if taga =? tagb then 0
      else if taga <? tagb then -1 else 1.

(** The options that children which are no real nodes leave behind. *)
Definition unreal_opts (cs : list GNode) : list EggAsn1xDef :=
  concat ((fun c => if anode_def_type_is_real (data c) then [] else def (data c) :: opts (data c)) <$> cs).

Definition anode_opts_add (an : Anode) (ds : list EggAsn1xDef) : Anode := foldl anode_opt_add an ds.

Section Prepare.
Context `{GListSort} (defs : list EggAsn1xDef) (create : list Z -> res unit (option GNode)).

(** [while (anode_def_type (node) == EGG_ASN1X_IDENTIFIER)]; the first result is true
    at the early return. *)
Fixpoint join_loop (fuel : nat) (an : Anode) (joined : option GNode) : res unit (bool * Anode * option GNode) :=
  if negb (bool_decide (anode_def_type an = IDENTIFIER)) then Ok (false, an, joined)
  else
    match fuel with
    | O => Err tt
    | S fuel =>
      match match join an with Some j => def_value j | None => def_value (def an) end with
      | None => Ok (true, an, joined)
      | Some identifier =>
        j ← create identifier;
        match j with
        | None => Ok (true, an, None)
        | Some j => join_loop fuel (set_join an (def (data j))) (Some j)
        end
      end
    end.

(** The upper bound of a size may be the name of an integer; [None] is the early
    return. *)
Definition lookup_max_size (an : Anode) : res unit (option Anode) :=
  match anode_def_type an, anode_def_name an with
  | SIZE, Some identifier =>
    if negb (bool_decide (identifier = lit "MAX")) && is_alpha (default 0 (hd_error identifier)) then
      d ← lookup_def_of_type defs identifier INTEGER;
      Ok (fmap (M:=option) (anode_opt_add an) d)
    else Ok (Some an)
  | _, _ => Ok (Some an)
  end.

Definition traverse_and_prepare (fuel : nat) (n : GNode) : res unit (bool * GNode) :=
  let 'N an cs := n in
  '(stop, an, joined) ← join_loop fuel an None;
  if stop : bool then Ok (true, N an cs)
  else
    let cs := match joined with Some j => cs ++ children j | None => cs end in
    r ← lookup_max_size an;
    match r with
    | None => Ok (true, N an cs)
    | Some an =>
      let '(an, cs) :=
        if anode_def_type_is_real an
        then (anode_opts_add an (unreal_opts cs), List.filter (fun c => anode_def_type_is_real (data c)) cs)
        else (an, cs) in
      let an := match joined with Some j => anode_opts_add an (opts (data j)) | None => an end in
      let cs := if bool_decide (anode_def_type an = SET) then g_list_sort compare_nodes_by_tag (reverse cs) else cs in
      Ok (false, N an cs)
    end.

End Prepare.

(** * Finding the definition *)

Definition is_number (s : list Z) : bool := forallb is_digit s.

(** The text of an object identifier so far, and what ended the loop over its parts. *)
Definition match_oid_in_definition (defs_left : list EggAsn1xDef) (names : gmap (list Z) (list Z)) (match_ : list Z)
    : res unit (option (list EggAsn1xDef) * gmap (list Z) (list Z) * option (list Z)) :=
  '(_, (oid, ret)) ← for_children defs_left (fun p '((oid, ret) : option (list Z) * option (option (list Z))) =>
    d ← head_def p;
    if negb (bool_decide (asn1x_type (def_type d) = CONSTANT)) then Ok (false, (oid, ret))
    else
      match def_value d with
      | None => Ok (true, (oid, Some None))
      | Some v =>
        match (if is_number v then Some v else names !! v) with
        | None => Ok (true, (oid, Some (Some v)))
        | Some value => Ok (false, (Some (match oid with Some o => o ++ 46 :: value | None => value end), None))
        end
      end) (None, None);
  match ret, oid with
  | Some problem, _ => Ok (None, names, problem)
  | None, None => Ok (None, names, None)
  | None, Some oid =>
    result ← (if bool_decide (oid = match_) then adef_next_sibling defs_left else Ok None);
    d ← head_def defs_left;
    name ← or_ub (def_name d);
    Ok (result, <[name := oid]> names, None)
  end.

(** One pass over the definitions: names, [progress], [problem], [result]. *)
Definition Pass : Type := gmap (list Z) (list Z) * bool * option (list Z) * option (list EggAsn1xDef).

Definition oid_pass (defs : list EggAsn1xDef) (match_ : list Z) (names : gmap (list Z) (list Z)) : res unit Pass :=
  '(_, s) ← for_children defs (fun p '((names, progress, problem, result) : Pass) =>
    d ← head_def p;
    match asn1x_type (def_type d), def_name d with
    | OBJECT_ID, Some name =>
      if bool_decide (is_Some (names !! name)) then Ok (false, (names, progress, problem, result))
      else
        '(result, names, p) ← match_oid_in_definition p names match_;
        Ok (bool_decide (is_Some result), (names, true, or_else p problem, result))
    | _, _ => Ok (false, (names, progress, problem, result))
    end) (names, false, None, None);
  Ok s.

(** [for (;;)]: a pass that leaves a problem is followed by another one. *)
Fixpoint oid_passes (fuel : nat) (defs : list EggAsn1xDef) (match_ : list Z) (names : gmap (list Z) (list Z))
    : res unit (option (list EggAsn1xDef)) :=
  match fuel with
  | O => Err tt
  | S fuel =>
    '(names, progress, problem, result) ← oid_pass defs match_ names;
    match problem, result with
    | None, _ | _, Some _ => Ok result
    | Some _, None => if negb progress then Ok None else oid_passes fuel defs match_ names
    end
  end.

Definition match_oid_in_definitions (fuel : nat) (defs : list EggAsn1xDef) (match_ : list Z)
    : res unit (option (list EggAsn1xDef)) := oid_passes fuel defs match_ ∅.

Fixpoint is_oid_number_loop (p : list Z) (must : bool) : bool :=
  match p with
  | [] => negb must
  | c :: p => if is_digit c then is_oid_number_loop p false
              else if must then false
              else if negb (c =? 46) then false
              else is_oid_number_loop p true
  end.
Definition is_oid_number (p : list Z) : bool := is_oid_number_loop p true.

(** * The tree of a definition *)

(** The nodes from the current one up to the root, each with its children so far. *)
Definition Stack : Type := list (Anode * list GNode).

(** Leaving the current node: it becomes the last child of its parent. *)
Definition close (an : Anode) (cs : list GNode) (parents : Stack) : GNode + Stack :=
  match parents with
  | [] => inl (N an cs)
  | (pan, pcs) :: parents => inr ((pan, pcs ++ [N an cs]) :: parents)
  end.

(** [while (parent) { flags = ...; parent = parent->parent; if (flags & FLAG_RIGHT) break; }] *)
Fixpoint climb (an : Anode) (cs : list GNode) (parents : Stack) : GNode + Stack :=
  match parents with
  | [] => inl (N an cs)
  | (pan, pcs) :: parents =>
    if has (anode_def_flags an) FLAG_RIGHT then inr ((pan, pcs ++ [N an cs]) :: parents)
    else climb pan (pcs ++ [N an cs]) parents
  end.

(** [for (;;)]: [def] is the definition of the node on top of the stack, [rest] the
    table behind it; the new node is put on its parent. *)
Fixpoint build_loop (an : Anode) (cs : list GNode) (parents : Stack) (rest : list EggAsn1xDef) : res unit GNode :=
  let type := def_type (def an) in
  next ← (if has type FLAG_DOWN then Ok (inr ((an, cs) :: parents))
          else if has type FLAG_RIGHT then
            match close an cs parents with inl _ => Ub | inr s => Ok (inr s) end
          else Ok (match close an cs parents with
                   | inr ((pan, pcs) :: parents) => climb pan pcs parents
                   | r => r
                   end));
  match next with
  | inl root => Ok root
  | inr parents =>
    match rest with
    | [] => Ub
    | d :: rest => build_loop (anode_new d) [] parents rest
    end
  end.

Definition build_tree (p : list EggAsn1xDef) : res unit GNode :=
  match p with
  | [] => Ub
  | d :: rest =>
    if has (def_type d) FLAG_DOWN then build_loop (anode_new d) [] [] rest
    else Ok (N (anode_new d) [])
  end.

Fixpoint egg_asn1x_create `{GListSort} (fuel : nat) (defs : list EggAsn1xDef) (type : list Z) : res unit (option GNode) :=
  match fuel with
  | O => Err tt
  | S fuel =>
    p ← (if is_oid_number type then match_oid_in_definitions (length defs) defs type
         else '(p, _) ← for_children defs (fun p _ =>
                d ← head_def p; Ok (bool_decide (def_name d = Some type), tt)) tt;
              Ok p);
    match p with
    | None => Ok None
    | Some p =>
      d ← head_def p;
      if negb (bool_decide (is_Some (def_name d))) || (def_type d =? 0) then Ok None
      else
        root ← build_tree p;
        '(_, root) ← post_order (traverse_and_prepare defs (egg_asn1x_create fuel defs) fuel) root;
        Ok (Some root)
    end
  end.
