(* ===== verification/Asn1Tables.v ===== *)
(** The definition tables of [src/egg]: [pk_asn1_tab], [pkix_asn1_tab] and the table of
    the tests, [test_asn1_tab], line by line. *)

From S2P Require Import Prelude Asn1Node.
Local Open Scope Z_scope.

(** [pk_asn1_tab] of [src/egg/pk.asn.h]. *)
Definition pk_asn1_tab : list EggAsn1xDef := [
  mk_def (Some (lit "PK")) 536872976 None;
  mk_def None 1073741836 None;
  mk_def (Some (lit "RSAPublicKey")) 1610612741 None;
  mk_def (Some (lit "modulus")) 1073741827 None;
  mk_def (Some (lit "publicExponent")) 3 None;
  mk_def (Some (lit "RSAPrivateKey")) 1610612741 None;
  mk_def (Some (lit "version")) 1073741826 (Some (lit "Version"));
  mk_def (Some (lit "modulus")) 1073741827 None;
  mk_def (Some (lit "publicExponent")) 1073741827 None;
  mk_def (Some (lit "privateExponent")) 1073741827 None;
  mk_def (Some (lit "prime1")) 1073741827 None;
  mk_def (Some (lit "prime2")) 1073741827 None;
  mk_def (Some (lit "exponent1")) 1073741827 None;
  mk_def (Some (lit "exponent2")) 1073741827 None;
  mk_def (Some (lit "coefficient")) 1073741827 None;
  mk_def (Some (lit "otherPrimeInfos")) 16386 (Some (lit "OtherPrimeInfos"));
  mk_def (Some (lit "Version")) 1610874883 None;
  mk_def (Some (lit "two-prime")) 1073741825 (Some (lit "0"));
  mk_def (Some (lit "multi")) 1 (Some (lit "1"));
  mk_def (Some (lit "RSAParameters")) 1073741844 None;
  mk_def (Some (lit "OtherPrimeInfos")) 1612709899 None;
  mk_def (Some (lit "MAX")) 1074266122 (Some (lit "1"));
  mk_def None 2 (Some (lit "OtherPrimeInfo"));
  mk_def (Some (lit "OtherPrimeInfo")) 1610612741 None;
  mk_def (Some (lit "prime")) 1073741827 None;
  mk_def (Some (lit "exponent")) 1073741827 None;
  mk_def (Some (lit "coefficient")) 3 None;
  mk_def (Some (lit "AlgorithmIdentifier")) 1610612741 None;
  mk_def (Some (lit "algorithm")) 1073741836 None;
  mk_def (Some (lit "parameters")) 541081613 None;
  mk_def (Some (lit "algorithm")) 1 None;
  mk_def (Some (lit "DigestInfo")) 1610612741 None;
  mk_def (Some (lit "digestAlgorithm")) 1073741826 (Some (lit "DigestAlgorithmIdentifier"));
  mk_def (Some (lit "digest")) 2 (Some (lit "Digest"));
  mk_def (Some (lit "DigestAlgorithmIdentifier")) 1073741826 (Some (lit "AlgorithmIdentifier"));
  mk_def (Some (lit "Digest")) 1073741831 None;
  mk_def (Some (lit "DSAPublicPart")) 1073741827 None;
  mk_def (Some (lit "DSAPublicKey")) 1610612741 None;
  mk_def (Some (lit "version")) 1073741827 None;
  mk_def (Some (lit "p")) 1073741827 None;
  mk_def (Some (lit "q")) 1073741827 None;
  mk_def (Some (lit "g")) 1073741827 None;
  mk_def (Some (lit "Y")) 3 None;
  mk_def (Some (lit "DSAParameters")) 1610612741 None;
  mk_def (Some (lit "p")) 1073741827 None;
  mk_def (Some (lit "q")) 1073741827 None;
  mk_def (Some (lit "g")) 3 None;
  mk_def (Some (lit "DSASignatureValue")) 1610612741 None;
  mk_def (Some (lit "r")) 1073741827 None;
  mk_def (Some (lit "s")) 3 None;
  mk_def (Some (lit "DSAPrivatePart")) 1073741827 None;
  mk_def (Some (lit "DSAPrivateKey")) 1610612741 None;
  mk_def (Some (lit "version")) 1073741827 None;
  mk_def (Some (lit "p")) 1073741827 None;
  mk_def (Some (lit "q")) 1073741827 None;
  mk_def (Some (lit "g")) 1073741827 None;
  mk_def (Some (lit "Y")) 1073741827 None;
  mk_def (Some (lit "priv")) 3 None;
  mk_def (Some (lit "DHParameter")) 1610612741 None;
  mk_def (Some (lit "prime")) 1073741827 None;
  mk_def (Some (lit "base")) 1073741827 None;
  mk_def (Some (lit "privateValueLength")) 16387 None;
  mk_def (Some (lit "ECPoint")) 1073741831 None;
  mk_def (Some (lit "ECParameters")) 1610612754 None;
  mk_def (Some (lit "namedCurve")) 12 None;
  mk_def (Some (lit "ECPrivateKey")) 1610612741 None;
  mk_def (Some (lit "version")) 1610874883 None;
  mk_def (Some (lit "ecPrivkeyVer1")) 1 (Some (lit "1"));
  mk_def (Some (lit "privateKey")) 1073741831 None;
  mk_def (Some (lit "parameters")) 1610637314 (Some (lit "ECParameters"));
  mk_def None 2056 (Some (lit "0"));
  mk_def (Some (lit "publicKey")) 536895494 None;
  mk_def None 2056 (Some (lit "1"));
  mk_def (Some (lit "GostR3410-2001-PublicKeyParameters")) 1610612741 None;
  mk_def (Some (lit "publicKeyParamSet")) 1073741836 None;
  mk_def (Some (lit "digestParamSet")) 1073741836 None;
  mk_def (Some (lit "encryptionParamSet")) 16396 None;
  mk_def (Some (lit "GostR3410-2012-PublicKeyParameters")) 536870917 None;
  mk_def (Some (lit "publicKeyParamSet")) 1073741836 None;
  mk_def (Some (lit "digestParamSet")) 16396 None;
  mk_def None 0 None].

(** [test_asn1_tab] of [src/egg/test.asn.h]. *)
Definition test_asn1_tab : list EggAsn1xDef := [
  mk_def (Some (lit "TESTS")) 536872976 None;
  mk_def None 1073741836 None;
  mk_def (Some (lit "TestInteger")) 1073741827 None;
  mk_def (Some (lit "TestBoolean")) 1073741828 None;
  mk_def (Some (lit "TestNull")) 1073741844 None;
  mk_def (Some (lit "TestAny")) 1073741837 None;
  mk_def (Some (lit "TestOctetString")) 1073741831 None;
  mk_def (Some (lit "TestGeneralized")) 1073741861 None;
  mk_def (Some (lit "TestImplicit")) 1610620935 None;
  mk_def None 4104 (Some (lit "5"));
  mk_def (Some (lit "TestExplicit")) 1610620935 None;
  mk_def None 2056 (Some (lit "5"));
  mk_def (Some (lit "TestUniversal")) 1610620935 None;
  mk_def None 4360 (Some (lit "5"));
  mk_def (Some (lit "TestBitString")) 1073741830 None;
  mk_def (Some (lit "test-integers-id")) 1879048204 None;
  mk_def None 1073741825 (Some (lit "1"));
  mk_def None 1073741825 (Some (lit "5"));
  mk_def None 1 (Some (lit "13"));
  mk_def (Some (lit "TestIntegers")) 1610612741 None;
  mk_def (Some (lit "uint1")) 1073741827 None;
  mk_def (Some (lit "uint2")) 1073741827 None;
  mk_def (Some (lit "uint3")) 536903683 None;
  mk_def None 9 (Some (lit "8888"));
  mk_def (Some (lit "TestConstant")) 1610612741 None;
  mk_def (Some (lit "version")) 536903682 (Some (lit "TestVersion"));
  mk_def None 9 (Some (lit "v3"));
  mk_def (Some (lit "TestVersion")) 1610874883 None;
  mk_def (Some (lit "v1")) 1073741825 (Some (lit "1"));
  mk_def (Some (lit "v2")) 1073741825 (Some (lit "2"));
  mk_def (Some (lit "v3")) 1 (Some (lit "3"));
  mk_def (Some (lit "TestData")) 1610612741 None;
  mk_def (Some (lit "data")) 7 None;
  mk_def (Some (lit "TestBooleanSeq")) 1610612741 None;
  mk_def (Some (lit "boolean")) 1610645508 None;
  mk_def None 131081 None;
  mk_def (Some (lit "boolean2")) 4 None;
  mk_def (Some (lit "TestBooleanDefault")) 1610612741 None;
  mk_def (Some (lit "boolean")) 536903684 None;
  mk_def None 65545 None;
  mk_def (Some (lit "TestOid")) 1610612741 None;
  mk_def (Some (lit "oid")) 12 None;
  mk_def (Some (lit "TestOidOptional")) 1610612741 None;
  mk_def (Some (lit "oid")) 16396 None;
  mk_def (Some (lit "TestAnySeq")) 1610612741 None;
  mk_def (Some (lit "contents")) 13 None;
  mk_def (Some (lit "TestAnyExp")) 1610612741 None;
  mk_def (Some (lit "contents")) 536879117 None;
  mk_def None 2056 (Some (lit "89"));
  mk_def (Some (lit "TestAnyChoice")) 1610612754 None;
  mk_def (Some (lit "choiceShortTag")) 1610620941 None;
  mk_def None 2056 (Some (lit "30"));
  mk_def (Some (lit "choiceLongTag")) 536879117 None;
  mk_def None 2056 (Some (lit "31"));
  mk_def (Some (lit "TestSet")) 1610612750 None;
  mk_def (Some (lit "one")) 1811947523 None;
  mk_def None 2056 (Some (lit "1"));
  mk_def (Some (lit "two")) 1811947523 None;
  mk_def None 2056 (Some (lit "2"));
  mk_def (Some (lit "three")) 738205699 None;
  mk_def None 2056 (Some (lit "3"));
  mk_def (Some (lit "TestTagLong")) 1610620931 None;
  mk_def None 2056 (Some (lit "1234"));
  mk_def (Some (lit "TestSeqOf")) 1610612747 None;
  mk_def None 3 None;
  mk_def (Some (lit "TestSetOf")) 1610612751 None;
  mk_def None 3 None;
  mk_def (Some (lit "TestSeqOfSeq")) 1610612747 None;
  mk_def None 2 (Some (lit "TestIntegers"));
  mk_def (Some (lit "TestSeqOfAny")) 1610612747 None;
  mk_def None 13 None;
  mk_def (Some (lit "TestSeqOptional")) 1610612741 None;
  mk_def (Some (lit "integers")) 16386 (Some (lit "TestIntegers"));
  mk_def (Some (lit "TestEnumerated")) 537133077 None;
  mk_def (Some (lit "valueZero")) 1073741825 (Some (lit "0"));
  mk_def (Some (lit "valueOne")) 1073741825 (Some (lit "1"));
  mk_def (Some (lit "valueTwo")) 1073741825 (Some (lit "2"));
  mk_def (Some (lit "valueThree")) 1 (Some (lit "3"));
  mk_def None 0 None].

(** [pkix_asn1_tab] of [src/egg/pkix.asn.h]. *)
Definition pkix_asn1_tab : list EggAsn1xDef := [
  mk_def (Some (lit "PKIX1")) 536875024 None;
  mk_def None 1073741836 None;
  mk_def (Some (lit "id-ce")) 1879048204 None;
  mk_def (Some (lit "joint-iso-ccitt")) 1073741825 (Some (lit "2"));
  mk_def (Some (lit "ds")) 1073741825 (Some (lit "5"));
  mk_def None 1 (Some (lit "29"));
  mk_def (Some (lit "id-ce-authorityKeyIdentifier")) 1879048204 None;
  mk_def None 1073741825 (Some (lit "id-ce"));
  mk_def None 1 (Some (lit "35"));
  mk_def (Some (lit "AuthorityKeyIdentifier")) 1610612741 None;
  mk_def (Some (lit "keyIdentifier")) 1610637314 (Some (lit "KeyIdentifier"));
  mk_def None 4104 (Some (lit "0"));
  mk_def (Some (lit "authorityCertIssuer")) 1610637314 (Some (lit "GeneralNames"));
  mk_def None 4104 (Some (lit "1"));
  mk_def (Some (lit "authorityCertSerialNumber")) 536895490 (Some (lit "CertificateSerialNumber"));
  mk_def None 4104 (Some (lit "2"));
  mk_def (Some (lit "KeyIdentifier")) 1073741831 None;
  mk_def (Some (lit "id-ce-subjectKeyIdentifier")) 1879048204 None;
  mk_def None 1073741825 (Some (lit "id-ce"));
  mk_def None 1 (Some (lit "14"));
  mk_def (Some (lit "SubjectKeyIdentifier")) 1073741826 (Some (lit "KeyIdentifier"));
  mk_def (Some (lit "id-ce-keyUsage")) 1879048204 None;
  mk_def None 1073741825 (Some (lit "id-ce"));
  mk_def None 1 (Some (lit "15"));
  mk_def (Some (lit "KeyUsage")) 1610874886 None;
  mk_def (Some (lit "digitalSignature")) 1073741825 (Some (lit "0"));
  mk_def (Some (lit "nonRepudiation")) 1073741825 (Some (lit "1"));
  mk_def (Some (lit "keyEncipherment")) 1073741825 (Some (lit "2"));
  mk_def (Some (lit "dataEncipherment")) 1073741825 (Some (lit "3"));
  mk_def (Some (lit "keyAgreement")) 1073741825 (Some (lit "4"));
  mk_def (Some (lit "keyCertSign")) 1073741825 (Some (lit "5"));
  mk_def (Some (lit "cRLSign")) 1073741825 (Some (lit "6"));
  mk_def (Some (lit "encipherOnly")) 1073741825 (Some (lit "7"));
  mk_def (Some (lit "decipherOnly")) 1 (Some (lit "8"));
  mk_def (Some (lit "id-ce-privateKeyUsagePeriod")) 1879048204 None;
  mk_def None 1073741825 (Some (lit "id-ce"));
  mk_def None 1 (Some (lit "16"));
  mk_def (Some (lit "PrivateKeyUsagePeriod")) 1610612741 None;
  mk_def (Some (lit "notBefore")) 1610637349 None;
  mk_def None 4104 (Some (lit "0"));
  mk_def (Some (lit "notAfter")) 536895525 None;
  mk_def None 4104 (Some (lit "1"));
  mk_def (Some (lit "id-ce-certificatePolicies")) 1879048204 None;
  mk_def None 1073741825 (Some (lit "id-ce"));
  mk_def None 1 (Some (lit "32"));
  mk_def (Some (lit "CertificatePolicies")) 1612709899 None;
  mk_def (Some (lit "MAX")) 1074266122 (Some (lit "1"));
  mk_def None 2 (Some (lit "PolicyInformation"));
  mk_def (Some (lit "PolicyInformation")) 1610612741 None;
  mk_def (Some (lit "policyIdentifier")) 1073741826 (Some (lit "CertPolicyId"));
  mk_def (Some (lit "policyQualifiers")) 538984459 None;
  mk_def (Some (lit "MAX")) 1074266122 (Some (lit "1"));
  mk_def None 2 (Some (lit "PolicyQualifierInfo"));
  mk_def (Some (lit "CertPolicyId")) 1073741836 None;
  mk_def (Some (lit "PolicyQualifierInfo")) 1610612741 None;
  mk_def (Some (lit "policyQualifierId")) 1073741826 (Some (lit "PolicyQualifierId"));
  mk_def (Some (lit "qualifier")) 541065229 None;
  mk_def (Some (lit "policyQualifierId")) 1 None;
  mk_def (Some (lit "PolicyQualifierId")) 1073741836 None;
  mk_def (Some (lit "CPSuri")) 1073741853 None;
  mk_def (Some (lit "UserNotice")) 1610612741 None;
  mk_def (Some (lit "noticeRef")) 1073758210 (Some (lit "NoticeReference"));
  mk_def (Some (lit "explicitText")) 16386 (Some (lit "DisplayText"));
  mk_def (Some (lit "NoticeReference")) 1610612741 None;
  mk_def (Some (lit "organization")) 1073741826 (Some (lit "DisplayText"));
  mk_def (Some (lit "noticeNumbers")) 536870923 None;
  mk_def None 3 None;
  mk_def (Some (lit "DisplayText")) 1610612754 None;
  mk_def (Some (lit "visibleString")) 1612709923 None;
  mk_def (Some (lit "200")) 524298 (Some (lit "1"));
  mk_def (Some (lit "bmpString")) 1612709921 None;
  mk_def (Some (lit "200")) 524298 (Some (lit "1"));
  mk_def (Some (lit "utf8String")) 538968098 None;
  mk_def (Some (lit "200")) 524298 (Some (lit "1"));
  mk_def (Some (lit "id-ce-policyMappings")) 1879048204 None;
  mk_def None 1073741825 (Some (lit "id-ce"));
  mk_def None 1 (Some (lit "33"));
  mk_def (Some (lit "PolicyMappings")) 1612709899 None;
  mk_def (Some (lit "MAX")) 1074266122 (Some (lit "1"));
  mk_def None 536870917 None;
  mk_def (Some (lit "issuerDomainPolicy")) 1073741826 (Some (lit "CertPolicyId"));
  mk_def (Some (lit "subjectDomainPolicy")) 2 (Some (lit "CertPolicyId"));
  mk_def (Some (lit "DirectoryString")) 1610612754 None;
  mk_def (Some (lit "teletexString")) 1612709918 None;
  mk_def (Some (lit "MAX")) 524298 (Some (lit "1"));
  mk_def (Some (lit "printableString")) 1612709919 None;
  mk_def (Some (lit "MAX")) 524298 (Some (lit "1"));
  mk_def (Some (lit "universalString")) 1612709920 None;
  mk_def (Some (lit "MAX")) 524298 (Some (lit "1"));
  mk_def (Some (lit "utf8String")) 1612709922 None;
  mk_def (Some (lit "MAX")) 524298 (Some (lit "1"));
  mk_def (Some (lit "bmpString")) 1612709921 None;
  mk_def (Some (lit "MAX")) 524298 (Some (lit "1"));
  mk_def (Some (lit "ia5String")) 538968093 None;
  mk_def (Some (lit "MAX")) 524298 (Some (lit "1"));
  mk_def (Some (lit "id-ce-subjectAltName")) 1879048204 None;
  mk_def None 1073741825 (Some (lit "id-ce"));
  mk_def None 1 (Some (lit "17"));
  mk_def (Some (lit "SubjectAltName")) 1073741826 (Some (lit "GeneralNames"));
  mk_def (Some (lit "GeneralNames")) 1612709899 None;
  mk_def (Some (lit "MAX")) 1074266122 (Some (lit "1"));
  mk_def None 2 (Some (lit "GeneralName"));
  mk_def (Some (lit "GeneralName")) 1610612754 None;
  mk_def (Some (lit "otherName")) 1610620930 (Some (lit "AnotherName"));
  mk_def None 4104 (Some (lit "0"));
  mk_def (Some (lit "rfc822Name")) 1610620957 None;
  mk_def None 4104 (Some (lit "1"));
  mk_def (Some (lit "dNSName")) 1610620957 None;
  mk_def None 4104 (Some (lit "2"));
  mk_def (Some (lit "x400Address")) 1610620930 (Some (lit "ORAddress"));
  mk_def None 4104 (Some (lit "3"));
  mk_def (Some (lit "directoryName")) 1610620930 (Some (lit "RDNSequence"));
  mk_def None 2056 (Some (lit "4"));
  mk_def (Some (lit "ediPartyName")) 1610620930 (Some (lit "EDIPartyName"));
  mk_def None 4104 (Some (lit "5"));
  mk_def (Some (lit "uniformResourceIdentifier")) 1610620957 None;
  mk_def None 4104 (Some (lit "6"));
  mk_def (Some (lit "iPAddress")) 1610620935 None;
  mk_def None 4104 (Some (lit "7"));
  mk_def (Some (lit "registeredID")) 536879116 None;
  mk_def None 4104 (Some (lit "8"));
  mk_def (Some (lit "AnotherName")) 1610612741 None;
  mk_def (Some (lit "type-id")) 1073741836 None;
  mk_def (Some (lit "value")) 541073421 None;
  mk_def None 1073743880 (Some (lit "0"));
  mk_def (Some (lit "type-id")) 1 None;
  mk_def (Some (lit "EDIPartyName")) 1610612741 None;
  mk_def (Some (lit "nameAssigner")) 1610637314 (Some (lit "DirectoryString"));
  mk_def None 4104 (Some (lit "0"));
  mk_def (Some (lit "partyName")) 536879106 (Some (lit "DirectoryString"));
  mk_def None 4104 (Some (lit "1"));
  mk_def (Some (lit "id-ce-issuerAltName")) 1879048204 None;
  mk_def None 1073741825 (Some (lit "id-ce"));
  mk_def None 1 (Some (lit "18"));
  mk_def (Some (lit "IssuerAltName")) 1073741826 (Some (lit "GeneralNames"));
  mk_def (Some (lit "id-ce-subjectDirectoryAttributes")) 1879048204 None;
  mk_def None 1073741825 (Some (lit "id-ce"));
  mk_def None 1 (Some (lit "9"));
  mk_def (Some (lit "SubjectDirectoryAttributes")) 1612709899 None;
  mk_def (Some (lit "MAX")) 1074266122 (Some (lit "1"));
  mk_def None 2 (Some (lit "Attribute"));
  mk_def (Some (lit "id-ce-basicConstraints")) 1879048204 None;
  mk_def None 1073741825 (Some (lit "id-ce"));
  mk_def None 1 (Some (lit "19"));
  mk_def (Some (lit "BasicConstraints")) 1610612741 None;
  mk_def (Some (lit "cA")) 1610645508 None;
  mk_def None 131081 None;
  mk_def (Some (lit "pathLenConstraint")) 537411587 None;
  mk_def (Some (lit "0")) 10 (Some (lit "MAX"));
  mk_def (Some (lit "id-ce-nameConstraints")) 1879048204 None;
  mk_def None 1073741825 (Some (lit "id-ce"));
  mk_def None 1 (Some (lit "30"));
  mk_def (Some (lit "NameConstraints")) 1610612741 None;
  mk_def (Some (lit "permittedSubtrees")) 1610637314 (Some (lit "GeneralSubtrees"));
  mk_def None 4104 (Some (lit "0"));
  mk_def (Some (lit "excludedSubtrees")) 536895490 (Some (lit "GeneralSubtrees"));
  mk_def None 4104 (Some (lit "1"));
  mk_def (Some (lit "GeneralSubtrees")) 1612709899 None;
  mk_def (Some (lit "MAX")) 1074266122 (Some (lit "1"));
  mk_def None 2 (Some (lit "GeneralSubtree"));
  mk_def (Some (lit "GeneralSubtree")) 1610612741 None;
  mk_def (Some (lit "base")) 1073741826 (Some (lit "GeneralName"));
  mk_def (Some (lit "minimum")) 1610653698 (Some (lit "BaseDistance"));
  mk_def None 1073741833 (Some (lit "0"));
  mk_def None 4104 (Some (lit "0"));
  mk_def (Some (lit "maximum")) 536895490 (Some (lit "BaseDistance"));
  mk_def None 4104 (Some (lit "1"));
  mk_def (Some (lit "BaseDistance")) 1611137027 None;
  mk_def (Some (lit "0")) 10 (Some (lit "MAX"));
  mk_def (Some (lit "id-ce-policyConstraints")) 1879048204 None;
  mk_def None 1073741825 (Some (lit "id-ce"));
  mk_def None 1 (Some (lit "36"));
  mk_def (Some (lit "PolicyConstraints")) 1610612741 None;
  mk_def (Some (lit "requireExplicitPolicy")) 1610637314 (Some (lit "SkipCerts"));
  mk_def None 4104 (Some (lit "0"));
  mk_def (Some (lit "inhibitPolicyMapping")) 536895490 (Some (lit "SkipCerts"));
  mk_def None 4104 (Some (lit "1"));
  mk_def (Some (lit "SkipCerts")) 1611137027 None;
  mk_def (Some (lit "0")) 10 (Some (lit "MAX"));
  mk_def (Some (lit "id-ce-cRLDistributionPoints")) 1879048204 None;
  mk_def None 1073741825 (Some (lit "id-ce"));
  mk_def None 1 (Some (lit "31"));
  mk_def (Some (lit "CRLDistributionPoints")) 1612709899 None;
  mk_def (Some (lit "MAX")) 1074266122 (Some (lit "1"));
  mk_def None 2 (Some (lit "DistributionPoint"));
  mk_def (Some (lit "DistributionPoint")) 1610612741 None;
  mk_def (Some (lit "distributionPoint")) 1610637314 (Some (lit "DistributionPointName"));
  mk_def None 2056 (Some (lit "0"));
  mk_def (Some (lit "reasons")) 1610637314 (Some (lit "ReasonFlags"));
  mk_def None 4104 (Some (lit "1"));
  mk_def (Some (lit "cRLIssuer")) 536895490 (Some (lit "GeneralNames"));
  mk_def None 4104 (Some (lit "2"));
  mk_def (Some (lit "DistributionPointName")) 1610612754 None;
  mk_def (Some (lit "fullName")) 1610620930 (Some (lit "GeneralNames"));
  mk_def None 4104 (Some (lit "0"));
  mk_def (Some (lit "nameRelativeToCRLIssuer")) 536879106 (Some (lit "RelativeDistinguishedName"));
  mk_def None 4104 (Some (lit "1"));
  mk_def (Some (lit "ReasonFlags")) 1610874886 None;
  mk_def (Some (lit "unused")) 1073741825 (Some (lit "0"));
  mk_def (Some (lit "keyCompromise")) 1073741825 (Some (lit "1"));
  mk_def (Some (lit "cACompromise")) 1073741825 (Some (lit "2"));
  mk_def (Some (lit "affiliationChanged")) 1073741825 (Some (lit "3"));
  mk_def (Some (lit "superseded")) 1073741825 (Some (lit "4"));
  mk_def (Some (lit "cessationOfOperation")) 1073741825 (Some (lit "5"));
  mk_def (Some (lit "certificateHold")) 1073741825 (Some (lit "6"));
  mk_def (Some (lit "privilegeWithdrawn")) 1073741825 (Some (lit "7"));
  mk_def (Some (lit "aACompromise")) 1 (Some (lit "8"));
  mk_def (Some (lit "id-ce-extKeyUsage")) 1879048204 None;
  mk_def None 1073741825 (Some (lit "id-ce"));
  mk_def None 1 (Some (lit "37"));
  mk_def (Some (lit "ExtKeyUsageSyntax")) 1612709899 None;
  mk_def (Some (lit "MAX")) 1074266122 (Some (lit "1"));
  mk_def None 2 (Some (lit "KeyPurposeId"));
  mk_def (Some (lit "KeyPurposeId")) 1073741836 None;
  mk_def (Some (lit "id-kp-serverAuth")) 1879048204 None;
  mk_def None 1073741825 (Some (lit "id-kp"));
  mk_def None 1 (Some (lit "1"));
  mk_def (Some (lit "id-kp-clientAuth")) 1879048204 None;
  mk_def None 1073741825 (Some (lit "id-kp"));
  mk_def None 1 (Some (lit "2"));
  mk_def (Some (lit "id-kp-codeSigning")) 1879048204 None;
  mk_def None 1073741825 (Some (lit "id-kp"));
  mk_def None 1 (Some (lit "3"));
  mk_def (Some (lit "id-kp-emailProtection")) 1879048204 None;
  mk_def None 1073741825 (Some (lit "id-kp"));
  mk_def None 1 (Some (lit "4"));
  mk_def (Some (lit "id-kp-ipsecEndSystem")) 1879048204 None;
  mk_def None 1073741825 (Some (lit "id-kp"));
  mk_def None 1 (Some (lit "5"));
  mk_def (Some (lit "id-kp-ipsecTunnel")) 1879048204 None;
  mk_def None 1073741825 (Some (lit "id-kp"));
  mk_def None 1 (Some (lit "6"));
  mk_def (Some (lit "id-kp-ipsecUser")) 1879048204 None;
  mk_def None 1073741825 (Some (lit "id-kp"));
  mk_def None 1 (Some (lit "7"));
  mk_def (Some (lit "id-kp-timeStamping")) 1879048204 None;
  mk_def None 1073741825 (Some (lit "id-kp"));
  mk_def None 1 (Some (lit "8"));
  mk_def (Some (lit "id-pe-authorityInfoAccess")) 1879048204 None;
  mk_def None 1073741825 (Some (lit "id-pe"));
  mk_def None 1 (Some (lit "1"));
  mk_def (Some (lit "AuthorityInfoAccessSyntax")) 1612709899 None;
  mk_def (Some (lit "MAX")) 1074266122 (Some (lit "1"));
  mk_def None 2 (Some (lit "AccessDescription"));
  mk_def (Some (lit "AccessDescription")) 1610612741 None;
  mk_def (Some (lit "accessMethod")) 1073741836 None;
  mk_def (Some (lit "accessLocation")) 2 (Some (lit "GeneralName"));
  mk_def (Some (lit "id-ce-cRLNumber")) 1879048204 None;
  mk_def None 1073741825 (Some (lit "id-ce"));
  mk_def None 1 (Some (lit "20"));
  mk_def (Some (lit "CRLNumber")) 1611137027 None;
  mk_def (Some (lit "0")) 10 (Some (lit "MAX"));
  mk_def (Some (lit "id-ce-issuingDistributionPoint")) 1879048204 None;
  mk_def None 1073741825 (Some (lit "id-ce"));
  mk_def None 1 (Some (lit "28"));
  mk_def (Some (lit "IssuingDistributionPoint")) 1610612741 None;
  mk_def (Some (lit "distributionPoint")) 1610637314 (Some (lit "DistributionPointName"));
  mk_def None 4104 (Some (lit "0"));
  mk_def (Some (lit "onlyContainsUserCerts")) 1610653700 None;
  mk_def None 1073872905 None;
  mk_def None 4104 (Some (lit "1"));
  mk_def (Some (lit "onlyContainsCACerts")) 1610653700 None;
  mk_def None 1073872905 None;
  mk_def None 4104 (Some (lit "2"));
  mk_def (Some (lit "onlySomeReasons")) 1610637314 (Some (lit "ReasonFlags"));
  mk_def None 4104 (Some (lit "3"));
  mk_def (Some (lit "indirectCRL")) 536911876 None;
  mk_def None 1073872905 None;
  mk_def None 4104 (Some (lit "4"));
  mk_def (Some (lit "id-ce-deltaCRLIndicator")) 1879048204 None;
  mk_def None 1073741825 (Some (lit "id-ce"));
  mk_def None 1 (Some (lit "27"));
  mk_def (Some (lit "BaseCRLNumber")) 1073741826 (Some (lit "CRLNumber"));
  mk_def (Some (lit "id-ce-cRLReasons")) 1879048204 None;
  mk_def None 1073741825 (Some (lit "id-ce"));
  mk_def None 1 (Some (lit "21"));
  mk_def (Some (lit "CRLReason")) 1610874901 None;
  mk_def (Some (lit "unspecified")) 1073741825 (Some (lit "0"));
  mk_def (Some (lit "keyCompromise")) 1073741825 (Some (lit "1"));
  mk_def (Some (lit "cACompromise")) 1073741825 (Some (lit "2"));
  mk_def (Some (lit "affiliationChanged")) 1073741825 (Some (lit "3"));
  mk_def (Some (lit "superseded")) 1073741825 (Some (lit "4"));
  mk_def (Some (lit "cessationOfOperation")) 1073741825 (Some (lit "5"));
  mk_def (Some (lit "certificateHold")) 1073741825 (Some (lit "6"));
  mk_def (Some (lit "removeFromCRL")) 1 (Some (lit "8"));
  mk_def (Some (lit "id-ce-certificateIssuer")) 1879048204 None;
  mk_def None 1073741825 (Some (lit "id-ce"));
  mk_def None 1 (Some (lit "29"));
  mk_def (Some (lit "CertificateIssuer")) 1073741826 (Some (lit "GeneralNames"));
  mk_def (Some (lit "id-ce-holdInstructionCode")) 1879048204 None;
  mk_def None 1073741825 (Some (lit "id-ce"));
  mk_def None 1 (Some (lit "23"));
  mk_def (Some (lit "HoldInstructionCode")) 1073741836 None;
  mk_def (Some (lit "holdInstruction")) 1879048204 None;
  mk_def (Some (lit "joint-iso-itu-t")) 1073741825 (Some (lit "2"));
  mk_def (Some (lit "member-body")) 1073741825 (Some (lit "2"));
  mk_def (Some (lit "us")) 1073741825 (Some (lit "840"));
  mk_def (Some (lit "x9cm")) 1073741825 (Some (lit "10040"));
  mk_def None 1 (Some (lit "2"));
  mk_def (Some (lit "id-holdinstruction-none")) 1879048204 None;
  mk_def None 1073741825 (Some (lit "holdInstruction"));
  mk_def None 1 (Some (lit "1"));
  mk_def (Some (lit "id-holdinstruction-callissuer")) 1879048204 None;
  mk_def None 1073741825 (Some (lit "holdInstruction"));
  mk_def None 1 (Some (lit "2"));
  mk_def (Some (lit "id-holdinstruction-reject")) 1879048204 None;
  mk_def None 1073741825 (Some (lit "holdInstruction"));
  mk_def None 1 (Some (lit "3"));
  mk_def (Some (lit "id-ce-invalidityDate")) 1879048204 None;
  mk_def None 1073741825 (Some (lit "id-ce"));
  mk_def None 1 (Some (lit "24"));
  mk_def (Some (lit "InvalidityDate")) 1073741861 None;
  mk_def (Some (lit "id-pkix")) 1879048204 None;
  mk_def (Some (lit "iso")) 1073741825 (Some (lit "1"));
  mk_def (Some (lit "identified-organization")) 1073741825 (Some (lit "3"));
  mk_def (Some (lit "dod")) 1073741825 (Some (lit "6"));
  mk_def (Some (lit "internet")) 1073741825 (Some (lit "1"));
  mk_def (Some (lit "security")) 1073741825 (Some (lit "5"));
  mk_def (Some (lit "mechanisms")) 1073741825 (Some (lit "5"));
  mk_def (Some (lit "pkix")) 1 (Some (lit "7"));
  mk_def (Some (lit "id-pe")) 1879048204 None;
  mk_def None 1073741825 (Some (lit "id-pkix"));
  mk_def None 1 (Some (lit "1"));
  mk_def (Some (lit "id-qt")) 1879048204 None;
  mk_def None 1073741825 (Some (lit "id-pkix"));
  mk_def None 1 (Some (lit "2"));
  mk_def (Some (lit "id-kp")) 1879048204 None;
  mk_def None 1073741825 (Some (lit "id-pkix"));
  mk_def None 1 (Some (lit "3"));
  mk_def (Some (lit "id-ad")) 1879048204 None;
  mk_def None 1073741825 (Some (lit "id-pkix"));
  mk_def None 1 (Some (lit "48"));
  mk_def (Some (lit "id-qt-cps")) 1879048204 None;
  mk_def None 1073741825 (Some (lit "id-qt"));
  mk_def None 1 (Some (lit "1"));
  mk_def (Some (lit "id-qt-unotice")) 1879048204 None;
  mk_def None 1073741825 (Some (lit "id-qt"));
  mk_def None 1 (Some (lit "2"));
  mk_def (Some (lit "id-ad-ocsp")) 1879048204 None;
  mk_def None 1073741825 (Some (lit "id-ad"));
  mk_def None 1 (Some (lit "1"));
  mk_def (Some (lit "id-ad-caIssuers")) 1879048204 None;
  mk_def None 1073741825 (Some (lit "id-ad"));
  mk_def None 1 (Some (lit "2"));
  mk_def (Some (lit "Attribute")) 1610612741 None;
  mk_def (Some (lit "type")) 1073741826 (Some (lit "AttributeType"));
  mk_def (Some (lit "values")) 536870927 None;
  mk_def None 2 (Some (lit "AttributeValue"));
  mk_def (Some (lit "AttributeType")) 1073741836 None;
  mk_def (Some (lit "AttributeValue")) 1614807053 None;
  mk_def (Some (lit "type")) 1 None;
  mk_def (Some (lit "AttributeTypeAndValue")) 1610612741 None;
  mk_def (Some (lit "type")) 1073741826 (Some (lit "AttributeType"));
  mk_def (Some (lit "value")) 2 (Some (lit "AttributeValue"));
  mk_def (Some (lit "id-at")) 1879048204 None;
  mk_def (Some (lit "joint-iso-ccitt")) 1073741825 (Some (lit "2"));
  mk_def (Some (lit "ds")) 1073741825 (Some (lit "5"));
  mk_def None 1 (Some (lit "4"));
  mk_def (Some (lit "id-at-initials")) 1880096780 (Some (lit "AttributeType"));
  mk_def None 1073741825 (Some (lit "id-at"));
  mk_def None 1 (Some (lit "43"));
  mk_def (Some (lit "X520initials")) 1073741826 (Some (lit "DirectoryString"));
  mk_def (Some (lit "id-at-generationQualifier")) 1880096780 (Some (lit "AttributeType"));
  mk_def None 1073741825 (Some (lit "id-at"));
  mk_def None 1 (Some (lit "44"));
  mk_def (Some (lit "X520generationQualifier")) 1073741826 (Some (lit "DirectoryString"));
  mk_def (Some (lit "id-at-surname")) 1880096780 (Some (lit "AttributeType"));
  mk_def None 1073741825 (Some (lit "id-at"));
  mk_def None 1 (Some (lit "4"));
  mk_def (Some (lit "X520surName")) 1073741826 (Some (lit "DirectoryString"));
  mk_def (Some (lit "id-at-givenName")) 1880096780 (Some (lit "AttributeType"));
  mk_def None 1073741825 (Some (lit "id-at"));
  mk_def None 1 (Some (lit "42"));
  mk_def (Some (lit "X520givenName")) 1073741826 (Some (lit "DirectoryString"));
  mk_def (Some (lit "id-at-name")) 1880096780 (Some (lit "AttributeType"));
  mk_def None 1073741825 (Some (lit "id-at"));
  mk_def None 1 (Some (lit "41"));
  mk_def (Some (lit "X520name")) 1073741826 (Some (lit "DirectoryString"));
  mk_def (Some (lit "id-at-commonName")) 1880096780 (Some (lit "AttributeType"));
  mk_def None 1073741825 (Some (lit "id-at"));
  mk_def None 1 (Some (lit "3"));
  mk_def (Some (lit "X520CommonName")) 1073741826 (Some (lit "DirectoryString"));
  mk_def (Some (lit "id-at-localityName")) 1880096780 (Some (lit "AttributeType"));
  mk_def None 1073741825 (Some (lit "id-at"));
  mk_def None 1 (Some (lit "7"));
  mk_def (Some (lit "X520LocalityName")) 1073741826 (Some (lit "DirectoryString"));
  mk_def (Some (lit "id-at-stateOrProvinceName")) 1880096780 (Some (lit "AttributeType"));
  mk_def None 1073741825 (Some (lit "id-at"));
  mk_def None 1 (Some (lit "8"));
  mk_def (Some (lit "X520StateOrProvinceName")) 1073741826 (Some (lit "DirectoryString"));
  mk_def (Some (lit "id-at-organizationName")) 1880096780 (Some (lit "AttributeType"));
  mk_def None 1073741825 (Some (lit "id-at"));
  mk_def None 1 (Some (lit "10"));
  mk_def (Some (lit "X520OrganizationName")) 1073741826 (Some (lit "DirectoryString"));
  mk_def (Some (lit "id-at-organizationalUnitName")) 1880096780 (Some (lit "AttributeType"));
  mk_def None 1073741825 (Some (lit "id-at"));
  mk_def None 1 (Some (lit "11"));
  mk_def (Some (lit "X520OrganizationalUnitName")) 1073741826 (Some (lit "DirectoryString"));
  mk_def (Some (lit "id-at-title")) 1880096780 (Some (lit "AttributeType"));
  mk_def None 1073741825 (Some (lit "id-at"));
  mk_def None 1 (Some (lit "12"));
  mk_def (Some (lit "X520Title")) 1073741826 (Some (lit "DirectoryString"));
  mk_def (Some (lit "id-at-description")) 1880096780 (Some (lit "AttributeType"));
  mk_def None 1073741825 (Some (lit "id-at"));
  mk_def None 1 (Some (lit "13"));
  mk_def (Some (lit "X520Description")) 1073741826 (Some (lit "DirectoryString"));
  mk_def (Some (lit "id-at-dnQualifier")) 1880096780 (Some (lit "AttributeType"));
  mk_def None 1073741825 (Some (lit "id-at"));
  mk_def None 1 (Some (lit "46"));
  mk_def (Some (lit "X520dnQualifier")) 1073741855 None;
  mk_def (Some (lit "id-at-countryName")) 1880096780 (Some (lit "AttributeType"));
  mk_def None 1073741825 (Some (lit "id-at"));
  mk_def None 1 (Some (lit "6"));
  mk_def (Some (lit "X520countryName")) 1612709919 None;
  mk_def None 1048586 (Some (lit "2"));
  mk_def (Some (lit "id-at-serialNumber")) 1880096780 (Some (lit "AttributeType"));
  mk_def None 1073741825 (Some (lit "id-at"));
  mk_def None 1 (Some (lit "5"));
  mk_def (Some (lit "X520serialNumber")) 1073741855 None;
  mk_def (Some (lit "id-at-telephoneNumber")) 1880096780 (Some (lit "AttributeType"));
  mk_def None 1073741825 (Some (lit "id-at"));
  mk_def None 1 (Some (lit "20"));
  mk_def (Some (lit "X520telephoneNumber")) 1073741855 None;
  mk_def (Some (lit "id-at-facsimileTelephoneNumber")) 1880096780 (Some (lit "AttributeType"));
  mk_def None 1073741825 (Some (lit "id-at"));
  mk_def None 1 (Some (lit "23"));
  mk_def (Some (lit "X520facsimileTelephoneNumber")) 1073741855 None;
  mk_def (Some (lit "id-at-pseudonym")) 1880096780 (Some (lit "AttributeType"));
  mk_def None 1073741825 (Some (lit "id-at"));
  mk_def None 1 (Some (lit "65"));
  mk_def (Some (lit "X520pseudonym")) 1073741826 (Some (lit "DirectoryString"));
  mk_def (Some (lit "id-at-name")) 1880096780 (Some (lit "AttributeType"));
  mk_def None 1073741825 (Some (lit "id-at"));
  mk_def None 1 (Some (lit "41"));
  mk_def (Some (lit "X520name")) 1073741826 (Some (lit "DirectoryString"));
  mk_def (Some (lit "id-at-streetAddress")) 1880096780 (Some (lit "AttributeType"));
  mk_def None 1073741825 (Some (lit "id-at"));
  mk_def None 1 (Some (lit "9"));
  mk_def (Some (lit "X520streetAddress")) 1073741826 (Some (lit "DirectoryString"));
  mk_def (Some (lit "id-at-postalAddress")) 1880096780 (Some (lit "AttributeType"));
  mk_def None 1073741825 (Some (lit "id-at"));
  mk_def None 1 (Some (lit "16"));
  mk_def (Some (lit "X520postalAddress")) 1073741826 (Some (lit "PostalAddress"));
  mk_def (Some (lit "PostalAddress")) 1610612747 None;
  mk_def None 2 (Some (lit "DirectoryString"));
  mk_def (Some (lit "pkcs")) 1879048204 None;
  mk_def (Some (lit "iso")) 1073741825 (Some (lit "1"));
  mk_def (Some (lit "member-body")) 1073741825 (Some (lit "2"));
  mk_def (Some (lit "us")) 1073741825 (Some (lit "840"));
  mk_def (Some (lit "rsadsi")) 1073741825 (Some (lit "113549"));
  mk_def (Some (lit "pkcs")) 1 (Some (lit "1"));
  mk_def (Some (lit "pkcs-9")) 1879048204 None;
  mk_def None 1073741825 (Some (lit "pkcs"));
  mk_def None 1 (Some (lit "9"));
  mk_def (Some (lit "emailAddress")) 1880096780 (Some (lit "AttributeType"));
  mk_def None 1073741825 (Some (lit "pkcs-9"));
  mk_def None 1 (Some (lit "1"));
  mk_def (Some (lit "Pkcs9email")) 1612709917 None;
  mk_def (Some (lit "ub-emailaddress-length")) 524298 (Some (lit "1"));
  mk_def (Some (lit "Name")) 1610612754 None;
  mk_def (Some (lit "rdnSequence")) 2 (Some (lit "RDNSequence"));
  mk_def (Some (lit "RDNSequence")) 1610612747 None;
  mk_def None 2 (Some (lit "RelativeDistinguishedName"));
  mk_def (Some (lit "DistinguishedName")) 1073741826 (Some (lit "RDNSequence"));
  mk_def (Some (lit "RelativeDistinguishedName")) 1612709903 None;
  mk_def (Some (lit "MAX")) 1074266122 (Some (lit "1"));
  mk_def None 2 (Some (lit "AttributeTypeAndValue"));
  mk_def (Some (lit "Certificate")) 1610612741 None;
  mk_def (Some (lit "tbsCertificate")) 1073741826 (Some (lit "TBSCertificate"));
  mk_def (Some (lit "signatureAlgorithm")) 1073741826 (Some (lit "AlgorithmIdentifier"));
  mk_def (Some (lit "signature")) 6 None;
  mk_def (Some (lit "TBSCertificate")) 1610612741 None;
  mk_def (Some (lit "version")) 1610653698 (Some (lit "Version"));
  mk_def None 1073741833 (Some (lit "v1"));
  mk_def None 2056 (Some (lit "0"));
  mk_def (Some (lit "serialNumber")) 1073741826 (Some (lit "CertificateSerialNumber"));
  mk_def (Some (lit "signature")) 1073741826 (Some (lit "AlgorithmIdentifier"));
  mk_def (Some (lit "issuer")) 1073741826 (Some (lit "Name"));
  mk_def (Some (lit "validity")) 1073741826 (Some (lit "Validity"));
  mk_def (Some (lit "subject")) 1073741826 (Some (lit "Name"));
  mk_def (Some (lit "subjectPublicKeyInfo")) 1073741826 (Some (lit "SubjectPublicKeyInfo"));
  mk_def (Some (lit "issuerUniqueID")) 1610637314 (Some (lit "UniqueIdentifier"));
  mk_def None 4104 (Some (lit "1"));
  mk_def (Some (lit "subjectUniqueID")) 1610637314 (Some (lit "UniqueIdentifier"));
  mk_def None 4104 (Some (lit "2"));
  mk_def (Some (lit "extensions")) 536895490 (Some (lit "Extensions"));
  mk_def None 2056 (Some (lit "3"));
  mk_def (Some (lit "Version")) 1610874883 None;
  mk_def (Some (lit "v1")) 1073741825 (Some (lit "0"));
  mk_def (Some (lit "v2")) 1073741825 (Some (lit "1"));
  mk_def (Some (lit "v3")) 1 (Some (lit "2"));
  mk_def (Some (lit "CertificateSerialNumber")) 1073741827 None;
  mk_def (Some (lit "Validity")) 1610612741 None;
  mk_def (Some (lit "notBefore")) 1073741826 (Some (lit "Time"));
  mk_def (Some (lit "notAfter")) 2 (Some (lit "Time"));
  mk_def (Some (lit "Time")) 1610612754 None;
  mk_def (Some (lit "utcTime")) 1073741860 None;
  mk_def (Some (lit "generalTime")) 37 None;
  mk_def (Some (lit "UniqueIdentifier")) 1073741830 None;
  mk_def (Some (lit "SubjectPublicKeyInfo")) 1610612741 None;
  mk_def (Some (lit "algorithm")) 1073741826 (Some (lit "AlgorithmIdentifier"));
  mk_def (Some (lit "subjectPublicKey")) 6 None;
  mk_def (Some (lit "Extensions")) 1612709899 None;
  mk_def (Some (lit "MAX")) 1074266122 (Some (lit "1"));
  mk_def None 2 (Some (lit "Extension"));
  mk_def (Some (lit "Extension")) 1610612741 None;
  mk_def (Some (lit "extnID")) 1073741836 None;
  mk_def (Some (lit "critical")) 1610645508 None;
  mk_def None 131081 None;
  mk_def (Some (lit "extnValue")) 7 None;
  mk_def (Some (lit "CertificateList")) 1610612741 None;
  mk_def (Some (lit "tbsCertList")) 1073741826 (Some (lit "TBSCertList"));
  mk_def (Some (lit "signatureAlgorithm")) 1073741826 (Some (lit "AlgorithmIdentifier"));
  mk_def (Some (lit "signature")) 6 None;
  mk_def (Some (lit "TBSCertList")) 1610612741 None;
  mk_def (Some (lit "version")) 1073758210 (Some (lit "Version"));
  mk_def (Some (lit "signature")) 1073741826 (Some (lit "AlgorithmIdentifier"));
  mk_def (Some (lit "issuer")) 1073741826 (Some (lit "Name"));
  mk_def (Some (lit "thisUpdate")) 1073741826 (Some (lit "Time"));
  mk_def (Some (lit "nextUpdate")) 1073758210 (Some (lit "Time"));
  mk_def (Some (lit "revokedCertificates")) 1610629131 None;
  mk_def None 536870917 None;
  mk_def (Some (lit "userCertificate")) 1073741826 (Some (lit "CertificateSerialNumber"));
  mk_def (Some (lit "revocationDate")) 1073741826 (Some (lit "Time"));
  mk_def (Some (lit "crlEntryExtensions")) 16386 (Some (lit "Extensions"));
  mk_def (Some (lit "crlExtensions")) 536895490 (Some (lit "Extensions"));
  mk_def None 2056 (Some (lit "0"));
  mk_def (Some (lit "AlgorithmIdentifier")) 1610612741 None;
  mk_def (Some (lit "algorithm")) 1073741836 None;
  mk_def (Some (lit "parameters")) 541081613 None;
  mk_def (Some (lit "algorithm")) 1 None;
  mk_def (Some (lit "pkcs-1")) 1879048204 None;
  mk_def None 1073741825 (Some (lit "pkcs"));
  mk_def None 1 (Some (lit "1"));
  mk_def (Some (lit "rsaEncryption")) 1879048204 None;
  mk_def None 1073741825 (Some (lit "pkcs-1"));
  mk_def None 1 (Some (lit "1"));
  mk_def (Some (lit "md2WithRSAEncryption")) 1879048204 None;
  mk_def None 1073741825 (Some (lit "pkcs-1"));
  mk_def None 1 (Some (lit "2"));
  mk_def (Some (lit "md5WithRSAEncryption")) 1879048204 None;
  mk_def None 1073741825 (Some (lit "pkcs-1"));
  mk_def None 1 (Some (lit "4"));
  mk_def (Some (lit "sha1WithRSAEncryption")) 1879048204 None;
  mk_def None 1073741825 (Some (lit "pkcs-1"));
  mk_def None 1 (Some (lit "5"));
  mk_def (Some (lit "id-dsa-with-sha1")) 1879048204 None;
  mk_def (Some (lit "iso")) 1073741825 (Some (lit "1"));
  mk_def (Some (lit "member-body")) 1073741825 (Some (lit "2"));
  mk_def (Some (lit "us")) 1073741825 (Some (lit "840"));
  mk_def (Some (lit "x9-57")) 1073741825 (Some (lit "10040"));
  mk_def (Some (lit "x9algorithm")) 1073741825 (Some (lit "4"));
  mk_def None 1 (Some (lit "3"));
  mk_def (Some (lit "Dss-Sig-Value")) 1610612741 None;
  mk_def (Some (lit "r")) 1073741827 None;
  mk_def (Some (lit "s")) 3 None;
  mk_def (Some (lit "dhpublicnumber")) 1879048204 None;
  mk_def (Some (lit "iso")) 1073741825 (Some (lit "1"));
  mk_def (Some (lit "member-body")) 1073741825 (Some (lit "2"));
  mk_def (Some (lit "us")) 1073741825 (Some (lit "840"));
  mk_def (Some (lit "ansi-x942")) 1073741825 (Some (lit "10046"));
  mk_def (Some (lit "number-type")) 1073741825 (Some (lit "2"));
  mk_def None 1 (Some (lit "1"));
  mk_def (Some (lit "DomainParameters")) 1610612741 None;
  mk_def (Some (lit "p")) 1073741827 None;
  mk_def (Some (lit "g")) 1073741827 None;
  mk_def (Some (lit "q")) 1073741827 None;
  mk_def (Some (lit "j")) 1073758211 None;
  mk_def (Some (lit "validationParms")) 16386 (Some (lit "ValidationParms"));
  mk_def (Some (lit "ValidationParms")) 1610612741 None;
  mk_def (Some (lit "seed")) 1073741830 None;
  mk_def (Some (lit "pgenCounter")) 3 None;
  mk_def (Some (lit "id-dsa")) 1879048204 None;
  mk_def (Some (lit "iso")) 1073741825 (Some (lit "1"));
  mk_def (Some (lit "member-body")) 1073741825 (Some (lit "2"));
  mk_def (Some (lit "us")) 1073741825 (Some (lit "840"));
  mk_def (Some (lit "x9-57")) 1073741825 (Some (lit "10040"));
  mk_def (Some (lit "x9algorithm")) 1073741825 (Some (lit "4"));
  mk_def None 1 (Some (lit "1"));
  mk_def (Some (lit "Dss-Parms")) 1610612741 None;
  mk_def (Some (lit "p")) 1073741827 None;
  mk_def (Some (lit "q")) 1073741827 None;
  mk_def (Some (lit "g")) 3 None;
  mk_def (Some (lit "ansi-X9-62")) 1879048204 None;
  mk_def (Some (lit "iso")) 1073741825 (Some (lit "1"));
  mk_def (Some (lit "member-body")) 1073741825 (Some (lit "2"));
  mk_def (Some (lit "us")) 1073741825 (Some (lit "840"));
  mk_def None 1 (Some (lit "10045"));
  mk_def (Some (lit "id-ecSigType")) 1879048204 None;
  mk_def None 1073741825 (Some (lit "ansi-X9-62"));
  mk_def (Some (lit "signatures")) 1 (Some (lit "4"));
  mk_def (Some (lit "ecdsa-with-SHA1")) 1879048204 None;
  mk_def None 1073741825 (Some (lit "id-ecSigType"));
  mk_def None 1 (Some (lit "1"));
  mk_def (Some (lit "Ecdsa-Sig-Value")) 1610612741 None;
  mk_def (Some (lit "r")) 1073741827 None;
  mk_def (Some (lit "s")) 3 None;
  mk_def (Some (lit "id-public-key-type")) 1879048204 None;
  mk_def None 1073741825 (Some (lit "ansi-X9-62"));
  mk_def None 1 (Some (lit "2"));
  mk_def (Some (lit "id-ecPublicKey")) 1879048204 None;
  mk_def None 1073741825 (Some (lit "id-public-key-type"));
  mk_def None 1 (Some (lit "1"));
  mk_def (Some (lit "ECPoint")) 1073741831 None;
  mk_def (Some (lit "ECParameters")) 1610612754 None;
  mk_def (Some (lit "namedCurve")) 12 None;
  mk_def (Some (lit "secp192r1")) 1879048204 None;
  mk_def (Some (lit "iso")) 1073741825 (Some (lit "1"));
  mk_def (Some (lit "member-body")) 1073741825 (Some (lit "2"));
  mk_def (Some (lit "us")) 1073741825 (Some (lit "840"));
  mk_def (Some (lit "ansi-X9-62")) 1073741825 (Some (lit "10045"));
  mk_def (Some (lit "curves")) 1073741825 (Some (lit "3"));
  mk_def (Some (lit "prime")) 1073741825 (Some (lit "1"));
  mk_def None 1 (Some (lit "1"));
  mk_def (Some (lit "sect163k1")) 1879048204 None;
  mk_def (Some (lit "iso")) 1073741825 (Some (lit "1"));
  mk_def (Some (lit "identified-organization")) 1073741825 (Some (lit "3"));
  mk_def (Some (lit "certicom")) 1073741825 (Some (lit "132"));
  mk_def (Some (lit "curve")) 1073741825 (Some (lit "0"));
  mk_def None 1 (Some (lit "1"));
  mk_def (Some (lit "sect163r2")) 1879048204 None;
  mk_def (Some (lit "iso")) 1073741825 (Some (lit "1"));
  mk_def (Some (lit "identified-organization")) 1073741825 (Some (lit "3"));
  mk_def (Some (lit "certicom")) 1073741825 (Some (lit "132"));
  mk_def (Some (lit "curve")) 1073741825 (Some (lit "0"));
  mk_def None 1 (Some (lit "15"));
  mk_def (Some (lit "secp224r1")) 1879048204 None;
  mk_def (Some (lit "iso")) 1073741825 (Some (lit "1"));
  mk_def (Some (lit "identified-organization")) 1073741825 (Some (lit "3"));
  mk_def (Some (lit "certicom")) 1073741825 (Some (lit "132"));
  mk_def (Some (lit "curve")) 1073741825 (Some (lit "0"));
  mk_def None 1 (Some (lit "33"));
  mk_def (Some (lit "sect233k1")) 1879048204 None;
  mk_def (Some (lit "iso")) 1073741825 (Some (lit "1"));
  mk_def (Some (lit "identified-organization")) 1073741825 (Some (lit "3"));
  mk_def (Some (lit "certicom")) 1073741825 (Some (lit "132"));
  mk_def (Some (lit "curve")) 1073741825 (Some (lit "0"));
  mk_def None 1 (Some (lit "26"));
  mk_def (Some (lit "sect233r1")) 1879048204 None;
  mk_def (Some (lit "iso")) 1073741825 (Some (lit "1"));
  mk_def (Some (lit "identified-organization")) 1073741825 (Some (lit "3"));
  mk_def (Some (lit "certicom")) 1073741825 (Some (lit "132"));
  mk_def (Some (lit "curve")) 1073741825 (Some (lit "0"));
  mk_def None 1 (Some (lit "27"));
  mk_def (Some (lit "secp256r1")) 1879048204 None;
  mk_def (Some (lit "iso")) 1073741825 (Some (lit "1"));
  mk_def (Some (lit "member-body")) 1073741825 (Some (lit "2"));
  mk_def (Some (lit "us")) 1073741825 (Some (lit "840"));
  mk_def (Some (lit "ansi-X9-62")) 1073741825 (Some (lit "10045"));
  mk_def (Some (lit "curves")) 1073741825 (Some (lit "3"));
  mk_def (Some (lit "prime")) 1073741825 (Some (lit "1"));
  mk_def None 1 (Some (lit "7"));
  mk_def (Some (lit "sect283k1")) 1879048204 None;
  mk_def (Some (lit "iso")) 1073741825 (Some (lit "1"));
  mk_def (Some (lit "identified-organization")) 1073741825 (Some (lit "3"));
  mk_def (Some (lit "certicom")) 1073741825 (Some (lit "132"));
  mk_def (Some (lit "curve")) 1073741825 (Some (lit "0"));
  mk_def None 1 (Some (lit "16"));
  mk_def (Some (lit "sect283r1")) 1879048204 None;
  mk_def (Some (lit "iso")) 1073741825 (Some (lit "1"));
  mk_def (Some (lit "identified-organization")) 1073741825 (Some (lit "3"));
  mk_def (Some (lit "certicom")) 1073741825 (Some (lit "132"));
  mk_def (Some (lit "curve")) 1073741825 (Some (lit "0"));
  mk_def None 1 (Some (lit "17"));
  mk_def (Some (lit "secp384r1")) 1879048204 None;
  mk_def (Some (lit "iso")) 1073741825 (Some (lit "1"));
  mk_def (Some (lit "identified-organization")) 1073741825 (Some (lit "3"));
  mk_def (Some (lit "certicom")) 1073741825 (Some (lit "132"));
  mk_def (Some (lit "curve")) 1073741825 (Some (lit "0"));
  mk_def None 1 (Some (lit "34"));
  mk_def (Some (lit "sect409k1")) 1879048204 None;
  mk_def (Some (lit "iso")) 1073741825 (Some (lit "1"));
  mk_def (Some (lit "identified-organization")) 1073741825 (Some (lit "3"));
  mk_def (Some (lit "certicom")) 1073741825 (Some (lit "132"));
  mk_def (Some (lit "curve")) 1073741825 (Some (lit "0"));
  mk_def None 1 (Some (lit "36"));
  mk_def (Some (lit "sect409r1")) 1879048204 None;
  mk_def (Some (lit "iso")) 1073741825 (Some (lit "1"));
  mk_def (Some (lit "identified-organization")) 1073741825 (Some (lit "3"));
  mk_def (Some (lit "certicom")) 1073741825 (Some (lit "132"));
  mk_def (Some (lit "curve")) 1073741825 (Some (lit "0"));
  mk_def None 1 (Some (lit "37"));
  mk_def (Some (lit "secp521r1")) 1879048204 None;
  mk_def (Some (lit "iso")) 1073741825 (Some (lit "1"));
  mk_def (Some (lit "identified-organization")) 1073741825 (Some (lit "3"));
  mk_def (Some (lit "certicom")) 1073741825 (Some (lit "132"));
  mk_def (Some (lit "curve")) 1073741825 (Some (lit "0"));
  mk_def None 1 (Some (lit "35"));
  mk_def (Some (lit "sect571k1")) 1879048204 None;
  mk_def (Some (lit "iso")) 1073741825 (Some (lit "1"));
  mk_def (Some (lit "identified-organization")) 1073741825 (Some (lit "3"));
  mk_def (Some (lit "certicom")) 1073741825 (Some (lit "132"));
  mk_def (Some (lit "curve")) 1073741825 (Some (lit "0"));
  mk_def None 1 (Some (lit "38"));
  mk_def (Some (lit "sect571r1")) 1879048204 None;
  mk_def (Some (lit "iso")) 1073741825 (Some (lit "1"));
  mk_def (Some (lit "identified-organization")) 1073741825 (Some (lit "3"));
  mk_def (Some (lit "certicom")) 1073741825 (Some (lit "132"));
  mk_def (Some (lit "curve")) 1073741825 (Some (lit "0"));
  mk_def None 1 (Some (lit "39"));
  mk_def (Some (lit "id-dsa-with-sha224")) 1879048204 None;
  mk_def (Some (lit "joint-iso-ccitt")) 1073741825 (Some (lit "2"));
  mk_def (Some (lit "country")) 1073741825 (Some (lit "16"));
  mk_def (Some (lit "us")) 1073741825 (Some (lit "840"));
  mk_def (Some (lit "organization")) 1073741825 (Some (lit "1"));
  mk_def (Some (lit "gov")) 1073741825 (Some (lit "101"));
  mk_def (Some (lit "csor")) 1073741825 (Some (lit "3"));
  mk_def (Some (lit "algorithms")) 1073741825 (Some (lit "4"));
  mk_def (Some (lit "id-dsa-with-sha2")) 1073741825 (Some (lit "3"));
  mk_def None 1 (Some (lit "1"));
  mk_def (Some (lit "id-dsa-with-sha256")) 1879048204 None;
  mk_def (Some (lit "joint-iso-ccitt")) 1073741825 (Some (lit "2"));
  mk_def (Some (lit "country")) 1073741825 (Some (lit "16"));
  mk_def (Some (lit "us")) 1073741825 (Some (lit "840"));
  mk_def (Some (lit "organization")) 1073741825 (Some (lit "1"));
  mk_def (Some (lit "gov")) 1073741825 (Some (lit "101"));
  mk_def (Some (lit "csor")) 1073741825 (Some (lit "3"));
  mk_def (Some (lit "algorithms")) 1073741825 (Some (lit "4"));
  mk_def (Some (lit "id-dsa-with-sha2")) 1073741825 (Some (lit "3"));
  mk_def None 1 (Some (lit "2"));
  mk_def (Some (lit "ecdsa-with-SHA224")) 1879048204 None;
  mk_def (Some (lit "iso")) 1073741825 (Some (lit "1"));
  mk_def (Some (lit "member-body")) 1073741825 (Some (lit "2"));
  mk_def (Some (lit "us")) 1073741825 (Some (lit "840"));
  mk_def (Some (lit "ansi-X9-62")) 1073741825 (Some (lit "10045"));
  mk_def (Some (lit "signatures")) 1073741825 (Some (lit "4"));
  mk_def (Some (lit "ecdsa-with-SHA2")) 1073741825 (Some (lit "3"));
  mk_def None 1 (Some (lit "1"));
  mk_def (Some (lit "ecdsa-with-SHA256")) 1879048204 None;
  mk_def (Some (lit "iso")) 1073741825 (Some (lit "1"));
  mk_def (Some (lit "member-body")) 1073741825 (Some (lit "2"));
  mk_def (Some (lit "us")) 1073741825 (Some (lit "840"));
  mk_def (Some (lit "ansi-X9-62")) 1073741825 (Some (lit "10045"));
  mk_def (Some (lit "signatures")) 1073741825 (Some (lit "4"));
  mk_def (Some (lit "ecdsa-with-SHA2")) 1073741825 (Some (lit "3"));
  mk_def None 1 (Some (lit "2"));
  mk_def (Some (lit "ecdsa-with-SHA384")) 1879048204 None;
  mk_def (Some (lit "iso")) 1073741825 (Some (lit "1"));
  mk_def (Some (lit "member-body")) 1073741825 (Some (lit "2"));
  mk_def (Some (lit "us")) 1073741825 (Some (lit "840"));
  mk_def (Some (lit "ansi-X9-62")) 1073741825 (Some (lit "10045"));
  mk_def (Some (lit "signatures")) 1073741825 (Some (lit "4"));
  mk_def (Some (lit "ecdsa-with-SHA2")) 1073741825 (Some (lit "3"));
  mk_def None 1 (Some (lit "3"));
  mk_def (Some (lit "ecdsa-with-SHA512")) 1879048204 None;
  mk_def (Some (lit "iso")) 1073741825 (Some (lit "1"));
  mk_def (Some (lit "member-body")) 1073741825 (Some (lit "2"));
  mk_def (Some (lit "us")) 1073741825 (Some (lit "840"));
  mk_def (Some (lit "ansi-X9-62")) 1073741825 (Some (lit "10045"));
  mk_def (Some (lit "signatures")) 1073741825 (Some (lit "4"));
  mk_def (Some (lit "ecdsa-with-SHA2")) 1073741825 (Some (lit "3"));
  mk_def None 1 (Some (lit "4"));
  mk_def (Some (lit "ORAddress")) 1610612741 None;
  mk_def (Some (lit "built-in-standard-attributes")) 1073741826 (Some (lit "BuiltInStandardAttributes"));
  mk_def (Some (lit "built-in-domain-defined-attributes")) 1073758210 (Some (lit "BuiltInDomainDefinedAttributes"));
  mk_def (Some (lit "extension-attributes")) 16386 (Some (lit "ExtensionAttributes"));
  mk_def (Some (lit "BuiltInStandardAttributes")) 1610612741 None;
  mk_def (Some (lit "country-name")) 1073758210 (Some (lit "CountryName"));
  mk_def (Some (lit "administration-domain-name")) 1073758210 (Some (lit "AdministrationDomainName"));
  mk_def (Some (lit "network-address")) 1610637314 (Some (lit "NetworkAddress"));
  mk_def None 2056 (Some (lit "0"));
  mk_def (Some (lit "terminal-identifier")) 1610637314 (Some (lit "TerminalIdentifier"));
  mk_def None 2056 (Some (lit "1"));
  mk_def (Some (lit "private-domain-name")) 1610637314 (Some (lit "PrivateDomainName"));
  mk_def None 2056 (Some (lit "2"));
  mk_def (Some (lit "organization-name")) 1610637314 (Some (lit "OrganizationName"));
  mk_def None 2056 (Some (lit "3"));
  mk_def (Some (lit "numeric-user-identifier")) 1610637314 (Some (lit "NumericUserIdentifier"));
  mk_def None 2056 (Some (lit "4"));
  mk_def (Some (lit "personal-name")) 1610637314 (Some (lit "PersonalName"));
  mk_def None 2056 (Some (lit "5"));
  mk_def (Some (lit "organizational-unit-names")) 536895490 (Some (lit "OrganizationalUnitNames"));
  mk_def None 2056 (Some (lit "6"));
  mk_def (Some (lit "CountryName")) 1610620946 None;
  mk_def None 1073746952 (Some (lit "1"));
  mk_def (Some (lit "x121-dcc-code")) 1612709916 None;
  mk_def None 1048586 (Some (lit "ub-country-name-numeric-length"));
  mk_def (Some (lit "iso-3166-alpha2-code")) 538968095 None;
  mk_def None 1048586 (Some (lit "ub-country-name-alpha-length"));
  mk_def (Some (lit "AdministrationDomainName")) 1610620946 None;
  mk_def None 1073744904 (Some (lit "2"));
  mk_def (Some (lit "numeric")) 1612709916 None;
  mk_def (Some (lit "ub-domain-name-length")) 524298 (Some (lit "0"));
  mk_def (Some (lit "printable")) 538968095 None;
  mk_def (Some (lit "ub-domain-name-length")) 524298 (Some (lit "0"));
  mk_def (Some (lit "NetworkAddress")) 1073741826 (Some (lit "X121Address"));
  mk_def (Some (lit "X121Address")) 1612709916 None;
  mk_def (Some (lit "ub-x121-address-length")) 524298 (Some (lit "1"));
  mk_def (Some (lit "TerminalIdentifier")) 1612709919 None;
  mk_def (Some (lit "ub-terminal-id-length")) 524298 (Some (lit "1"));
  mk_def (Some (lit "PrivateDomainName")) 1610612754 None;
  mk_def (Some (lit "numeric")) 1612709916 None;
  mk_def (Some (lit "ub-domain-name-length")) 524298 (Some (lit "1"));
  mk_def (Some (lit "printable")) 538968095 None;
  mk_def (Some (lit "ub-domain-name-length")) 524298 (Some (lit "1"));
  mk_def (Some (lit "OrganizationName")) 1612709919 None;
  mk_def (Some (lit "ub-organization-name-length")) 524298 (Some (lit "1"));
  mk_def (Some (lit "NumericUserIdentifier")) 1612709916 None;
  mk_def (Some (lit "ub-numeric-user-id-length")) 524298 (Some (lit "1"));
  mk_def (Some (lit "PersonalName")) 1610612750 None;
  mk_def (Some (lit "surname")) 1814044703 None;
  mk_def None 1073745928 (Some (lit "0"));
  mk_def (Some (lit "ub-surname-length")) 524298 (Some (lit "1"));
  mk_def (Some (lit "given-name")) 1814061087 None;
  mk_def None 1073745928 (Some (lit "1"));
  mk_def (Some (lit "ub-given-name-length")) 524298 (Some (lit "1"));
  mk_def (Some (lit "initials")) 1814061087 None;
  mk_def None 1073745928 (Some (lit "2"));
  mk_def (Some (lit "ub-initials-length")) 524298 (Some (lit "1"));
  mk_def (Some (lit "generation-qualifier")) 740319263 None;
  mk_def None 1073745928 (Some (lit "3"));
  mk_def (Some (lit "ub-generation-qualifier-length")) 524298 (Some (lit "1"));
  mk_def (Some (lit "OrganizationalUnitNames")) 1612709899 None;
  mk_def (Some (lit "ub-organizational-units")) 1074266122 (Some (lit "1"));
  mk_def None 2 (Some (lit "OrganizationalUnitName"));
  mk_def (Some (lit "OrganizationalUnitName")) 1612709919 None;
  mk_def (Some (lit "ub-organizational-unit-name-length")) 524298 (Some (lit "1"));
  mk_def (Some (lit "BuiltInDomainDefinedAttributes")) 1612709899 None;
  mk_def (Some (lit "ub-domain-defined-attributes")) 1074266122 (Some (lit "1"));
  mk_def None 2 (Some (lit "BuiltInDomainDefinedAttribute"));
  mk_def (Some (lit "BuiltInDomainDefinedAttribute")) 1610612741 None;
  mk_def (Some (lit "type")) 1612709919 None;
  mk_def (Some (lit "ub-domain-defined-attribute-type-length")) 524298 (Some (lit "1"));
  mk_def (Some (lit "value")) 538968095 None;
  mk_def (Some (lit "ub-domain-defined-attribute-value-length")) 524298 (Some (lit "1"));
  mk_def (Some (lit "ExtensionAttributes")) 1612709903 None;
  mk_def (Some (lit "ub-extension-attributes")) 1074266122 (Some (lit "1"));
  mk_def None 2 (Some (lit "ExtensionAttribute"));
  mk_def (Some (lit "ExtensionAttribute")) 1610612741 None;
  mk_def (Some (lit "extension-attribute-type")) 1611145219 None;
  mk_def None 1073743880 (Some (lit "0"));
  mk_def (Some (lit "0")) 10 (Some (lit "ub-extension-attributes"));
  mk_def (Some (lit "extension-attribute-value")) 541073421 None;
  mk_def None 1073743880 (Some (lit "1"));
  mk_def (Some (lit "extension-attribute-type")) 1 None;
  mk_def (Some (lit "common-name")) 1342177283 (Some (lit "1"));
  mk_def (Some (lit "CommonName")) 1612709919 None;
  mk_def (Some (lit "ub-common-name-length")) 524298 (Some (lit "1"));
  mk_def (Some (lit "teletex-common-name")) 1342177283 (Some (lit "2"));
  mk_def (Some (lit "TeletexCommonName")) 1612709918 None;
  mk_def (Some (lit "ub-common-name-length")) 524298 (Some (lit "1"));
  mk_def (Some (lit "teletex-organization-name")) 1342177283 (Some (lit "3"));
  mk_def (Some (lit "TeletexOrganizationName")) 1612709918 None;
  mk_def (Some (lit "ub-organization-name-length")) 524298 (Some (lit "1"));
  mk_def (Some (lit "teletex-personal-name")) 1342177283 (Some (lit "4"));
  mk_def (Some (lit "TeletexPersonalName")) 1610612750 None;
  mk_def (Some (lit "surname")) 1814044702 None;
  mk_def None 1073743880 (Some (lit "0"));
  mk_def (Some (lit "ub-surname-length")) 524298 (Some (lit "1"));
  mk_def (Some (lit "given-name")) 1814061086 None;
  mk_def None 1073743880 (Some (lit "1"));
  mk_def (Some (lit "ub-given-name-length")) 524298 (Some (lit "1"));
  mk_def (Some (lit "initials")) 1814061086 None;
  mk_def None 1073743880 (Some (lit "2"));
  mk_def (Some (lit "ub-initials-length")) 524298 (Some (lit "1"));
  mk_def (Some (lit "generation-qualifier")) 740319262 None;
  mk_def None 1073743880 (Some (lit "3"));
  mk_def (Some (lit "ub-generation-qualifier-length")) 524298 (Some (lit "1"));
  mk_def (Some (lit "teletex-organizational-unit-names")) 1342177283 (Some (lit "5"));
  mk_def (Some (lit "TeletexOrganizationalUnitNames")) 1612709899 None;
  mk_def (Some (lit "ub-organizational-units")) 1074266122 (Some (lit "1"));
  mk_def None 2 (Some (lit "TeletexOrganizationalUnitName"));
  mk_def (Some (lit "TeletexOrganizationalUnitName")) 1612709918 None;
  mk_def (Some (lit "ub-organizational-unit-name-length")) 524298 (Some (lit "1"));
  mk_def (Some (lit "pds-name")) 1342177283 (Some (lit "7"));
  mk_def (Some (lit "PDSName")) 1612709919 None;
  mk_def (Some (lit "ub-pds-name-length")) 524298 (Some (lit "1"));
  mk_def (Some (lit "physical-delivery-country-name")) 1342177283 (Some (lit "8"));
  mk_def (Some (lit "PhysicalDeliveryCountryName")) 1610612754 None;
  mk_def (Some (lit "x121-dcc-code")) 1612709916 None;
  mk_def None 1048586 (Some (lit "ub-country-name-numeric-length"));
  mk_def (Some (lit "iso-3166-alpha2-code")) 538968095 None;
  mk_def None 1048586 (Some (lit "ub-country-name-alpha-length"));
  mk_def (Some (lit "postal-code")) 1342177283 (Some (lit "9"));
  mk_def (Some (lit "PostalCode")) 1610612754 None;
  mk_def (Some (lit "numeric-code")) 1612709916 None;
  mk_def (Some (lit "ub-postal-code-length")) 524298 (Some (lit "1"));
  mk_def (Some (lit "printable-code")) 538968095 None;
  mk_def (Some (lit "ub-postal-code-length")) 524298 (Some (lit "1"));
  mk_def (Some (lit "physical-delivery-office-name")) 1342177283 (Some (lit "10"));
  mk_def (Some (lit "PhysicalDeliveryOfficeName")) 1073741826 (Some (lit "PDSParameter"));
  mk_def (Some (lit "physical-delivery-office-number")) 1342177283 (Some (lit "11"));
  mk_def (Some (lit "PhysicalDeliveryOfficeNumber")) 1073741826 (Some (lit "PDSParameter"));
  mk_def (Some (lit "extension-OR-address-components")) 1342177283 (Some (lit "12"));
  mk_def (Some (lit "ExtensionORAddressComponents")) 1073741826 (Some (lit "PDSParameter"));
  mk_def (Some (lit "physical-delivery-personal-name")) 1342177283 (Some (lit "13"));
  mk_def (Some (lit "PhysicalDeliveryPersonalName")) 1073741826 (Some (lit "PDSParameter"));
  mk_def (Some (lit "physical-delivery-organization-name")) 1342177283 (Some (lit "14"));
  mk_def (Some (lit "PhysicalDeliveryOrganizationName")) 1073741826 (Some (lit "PDSParameter"));
  mk_def (Some (lit "extension-physical-delivery-address-components")) 1342177283 (Some (lit "15"));
  mk_def (Some (lit "ExtensionPhysicalDeliveryAddressComponents")) 1073741826 (Some (lit "PDSParameter"));
  mk_def (Some (lit "unformatted-postal-address")) 1342177283 (Some (lit "16"));
  mk_def (Some (lit "UnformattedPostalAddress")) 1610612750 None;
  mk_def (Some (lit "printable-address")) 1814052875 None;
  mk_def (Some (lit "ub-pds-physical-address-lines")) 1074266122 (Some (lit "1"));
  mk_def None 538968095 None;
  mk_def (Some (lit "ub-pds-parameter-length")) 524298 (Some (lit "1"));
  mk_def (Some (lit "teletex-string")) 740311070 None;
  mk_def (Some (lit "ub-unformatted-address-length")) 524298 (Some (lit "1"));
  mk_def (Some (lit "street-address")) 1342177283 (Some (lit "17"));
  mk_def (Some (lit "StreetAddress")) 1073741826 (Some (lit "PDSParameter"));
  mk_def (Some (lit "post-office-box-address")) 1342177283 (Some (lit "18"));
  mk_def (Some (lit "PostOfficeBoxAddress")) 1073741826 (Some (lit "PDSParameter"));
  mk_def (Some (lit "poste-restante-address")) 1342177283 (Some (lit "19"));
  mk_def (Some (lit "PosteRestanteAddress")) 1073741826 (Some (lit "PDSParameter"));
  mk_def (Some (lit "unique-postal-name")) 1342177283 (Some (lit "20"));
  mk_def (Some (lit "UniquePostalName")) 1073741826 (Some (lit "PDSParameter"));
  mk_def (Some (lit "local-postal-attributes")) 1342177283 (Some (lit "21"));
  mk_def (Some (lit "LocalPostalAttributes")) 1073741826 (Some (lit "PDSParameter"));
  mk_def (Some (lit "PDSParameter")) 1610612750 None;
  mk_def (Some (lit "printable-string")) 1814052895 None;
  mk_def (Some (lit "ub-pds-parameter-length")) 524298 (Some (lit "1"));
  mk_def (Some (lit "teletex-string")) 740311070 None;
  mk_def (Some (lit "ub-pds-parameter-length")) 524298 (Some (lit "1"));
  mk_def (Some (lit "extended-network-address")) 1342177283 (Some (lit "22"));
  mk_def (Some (lit "ExtendedNetworkAddress")) 1610612754 None;
  mk_def (Some (lit "e163-4-address")) 1610612741 None;
  mk_def (Some (lit "number")) 1612718108 None;
  mk_def None 1073743880 (Some (lit "0"));
  mk_def (Some (lit "ub-e163-4-number-length")) 524298 (Some (lit "1"));
  mk_def (Some (lit "sub-address")) 538992668 None;
  mk_def None 1073743880 (Some (lit "1"));
  mk_def (Some (lit "ub-e163-4-sub-address-length")) 524298 (Some (lit "1"));
  mk_def (Some (lit "psap-address")) 536879106 (Some (lit "PresentationAddress"));
  mk_def None 2056 (Some (lit "0"));
  mk_def (Some (lit "PresentationAddress")) 1610612741 None;
  mk_def (Some (lit "pSelector")) 1610637319 None;
  mk_def None 2056 (Some (lit "0"));
  mk_def (Some (lit "sSelector")) 1610637319 None;
  mk_def None 2056 (Some (lit "1"));
  mk_def (Some (lit "tSelector")) 1610637319 None;
  mk_def None 2056 (Some (lit "2"));
  mk_def (Some (lit "nAddresses")) 538976271 None;
  mk_def None 1073743880 (Some (lit "3"));
  mk_def (Some (lit "MAX")) 1074266122 (Some (lit "1"));
  mk_def None 7 None;
  mk_def (Some (lit "terminal-type")) 1342177283 (Some (lit "23"));
  mk_def (Some (lit "TerminalType")) 1610874883 None;
  mk_def (Some (lit "telex")) 1073741825 (Some (lit "3"));
  mk_def (Some (lit "teletex")) 1073741825 (Some (lit "4"));
  mk_def (Some (lit "g3-facsimile")) 1073741825 (Some (lit "5"));
  mk_def (Some (lit "g4-facsimile")) 1073741825 (Some (lit "6"));
  mk_def (Some (lit "ia5-terminal")) 1073741825 (Some (lit "7"));
  mk_def (Some (lit "videotex")) 1 (Some (lit "8"));
  mk_def (Some (lit "teletex-domain-defined-attributes")) 1342177283 (Some (lit "6"));
  mk_def (Some (lit "TeletexDomainDefinedAttributes")) 1612709899 None;
  mk_def (Some (lit "ub-domain-defined-attributes")) 1074266122 (Some (lit "1"));
  mk_def None 2 (Some (lit "TeletexDomainDefinedAttribute"));
  mk_def (Some (lit "TeletexDomainDefinedAttribute")) 1610612741 None;
  mk_def (Some (lit "type")) 1612709918 None;
  mk_def (Some (lit "ub-domain-defined-attribute-type-length")) 524298 (Some (lit "1"));
  mk_def (Some (lit "value")) 538968094 None;
  mk_def (Some (lit "ub-domain-defined-attribute-value-length")) 524298 (Some (lit "1"));
  mk_def (Some (lit "ub-name")) 1342177283 (Some (lit "32768"));
  mk_def (Some (lit "ub-common-name")) 1342177283 (Some (lit "64"));
  mk_def (Some (lit "ub-locality-name")) 1342177283 (Some (lit "128"));
  mk_def (Some (lit "ub-state-name")) 1342177283 (Some (lit "128"));
  mk_def (Some (lit "ub-organization-name")) 1342177283 (Some (lit "64"));
  mk_def (Some (lit "ub-organizational-unit-name")) 1342177283 (Some (lit "64"));
  mk_def (Some (lit "ub-title")) 1342177283 (Some (lit "64"));
  mk_def (Some (lit "ub-match")) 1342177283 (Some (lit "128"));
  mk_def (Some (lit "ub-emailaddress-length")) 1342177283 (Some (lit "128"));
  mk_def (Some (lit "ub-common-name-length")) 1342177283 (Some (lit "64"));
  mk_def (Some (lit "ub-country-name-alpha-length")) 1342177283 (Some (lit "2"));
  mk_def (Some (lit "ub-country-name-numeric-length")) 1342177283 (Some (lit "3"));
  mk_def (Some (lit "ub-domain-defined-attributes")) 1342177283 (Some (lit "4"));
  mk_def (Some (lit "ub-domain-defined-attribute-type-length")) 1342177283 (Some (lit "8"));
  mk_def (Some (lit "ub-domain-defined-attribute-value-length")) 1342177283 (Some (lit "128"));
  mk_def (Some (lit "ub-domain-name-length")) 1342177283 (Some (lit "16"));
  mk_def (Some (lit "ub-extension-attributes")) 1342177283 (Some (lit "256"));
  mk_def (Some (lit "ub-e163-4-number-length")) 1342177283 (Some (lit "15"));
  mk_def (Some (lit "ub-e163-4-sub-address-length")) 1342177283 (Some (lit "40"));
  mk_def (Some (lit "ub-generation-qualifier-length")) 1342177283 (Some (lit "3"));
  mk_def (Some (lit "ub-given-name-length")) 1342177283 (Some (lit "16"));
  mk_def (Some (lit "ub-initials-length")) 1342177283 (Some (lit "5"));
  mk_def (Some (lit "ub-integer-options")) 1342177283 (Some (lit "256"));
  mk_def (Some (lit "ub-numeric-user-id-length")) 1342177283 (Some (lit "32"));
  mk_def (Some (lit "ub-organization-name-length")) 1342177283 (Some (lit "64"));
  mk_def (Some (lit "ub-organizational-unit-name-length")) 1342177283 (Some (lit "32"));
  mk_def (Some (lit "ub-organizational-units")) 1342177283 (Some (lit "4"));
  mk_def (Some (lit "ub-pds-name-length")) 1342177283 (Some (lit "16"));
  mk_def (Some (lit "ub-pds-parameter-length")) 1342177283 (Some (lit "30"));
  mk_def (Some (lit "ub-pds-physical-address-lines")) 1342177283 (Some (lit "6"));
  mk_def (Some (lit "ub-postal-code-length")) 1342177283 (Some (lit "16"));
  mk_def (Some (lit "ub-surname-length")) 1342177283 (Some (lit "40"));
  mk_def (Some (lit "ub-terminal-id-length")) 1342177283 (Some (lit "24"));
  mk_def (Some (lit "ub-unformatted-address-length")) 1342177283 (Some (lit "180"));
  mk_def (Some (lit "ub-x121-address-length")) 1342177283 (Some (lit "16"));
  mk_def (Some (lit "pkcs-7-ContentInfo")) 1610612741 None;
  mk_def (Some (lit "contentType")) 1073741826 (Some (lit "pkcs-7-ContentType"));
  mk_def (Some (lit "content")) 541073421 None;
  mk_def None 1073743880 (Some (lit "0"));
  mk_def (Some (lit "contentType")) 1 None;
  mk_def (Some (lit "pkcs-7-DigestInfo")) 1610612741 None;
  mk_def (Some (lit "digestAlgorithm")) 1073741826 (Some (lit "pkcs-7-DigestAlgorithmIdentifier"));
  mk_def (Some (lit "digest")) 2 (Some (lit "pkcs-7-Digest"));
  mk_def (Some (lit "pkcs-7-Digest")) 1073741831 None;
  mk_def (Some (lit "pkcs-7-ContentType")) 1073741836 None;
  mk_def (Some (lit "pkcs-7-SignedData")) 1610612741 None;
  mk_def (Some (lit "version")) 1073741826 (Some (lit "pkcs-7-CMSVersion"));
  mk_def (Some (lit "digestAlgorithms")) 1073741826 (Some (lit "pkcs-7-DigestAlgorithmIdentifiers"));
  mk_def (Some (lit "encapContentInfo")) 1073741826 (Some (lit "pkcs-7-EncapsulatedContentInfo"));
  mk_def (Some (lit "certificates")) 1610637314 (Some (lit "pkcs-7-CertificateSet"));
  mk_def None 4104 (Some (lit "0"));
  mk_def (Some (lit "crls")) 1610637314 (Some (lit "pkcs-7-CertificateRevocationLists"));
  mk_def None 4104 (Some (lit "1"));
  mk_def (Some (lit "signerInfos")) 2 (Some (lit "pkcs-7-SignerInfos"));
  mk_def (Some (lit "pkcs-7-CMSVersion")) 1610874883 None;
  mk_def (Some (lit "v0")) 1073741825 (Some (lit "0"));
  mk_def (Some (lit "v1")) 1073741825 (Some (lit "1"));
  mk_def (Some (lit "v2")) 1073741825 (Some (lit "2"));
  mk_def (Some (lit "v3")) 1073741825 (Some (lit "3"));
  mk_def (Some (lit "v4")) 1 (Some (lit "4"));
  mk_def (Some (lit "pkcs-7-DigestAlgorithmIdentifiers")) 1610612751 None;
  mk_def None 2 (Some (lit "pkcs-7-DigestAlgorithmIdentifier"));
  mk_def (Some (lit "pkcs-7-DigestAlgorithmIdentifier")) 1073741826 (Some (lit "AlgorithmIdentifier"));
  mk_def (Some (lit "pkcs-7-EncapsulatedContentInfo")) 1610612741 None;
  mk_def (Some (lit "eContentType")) 1073741826 (Some (lit "pkcs-7-ContentType"));
  mk_def (Some (lit "eContent")) 536895495 None;
  mk_def None 2056 (Some (lit "0"));
  mk_def (Some (lit "pkcs-7-CertificateRevocationLists")) 1610612751 None;
  mk_def None 13 None;
  mk_def (Some (lit "pkcs-7-CertificateChoices")) 1610612754 None;
  mk_def (Some (lit "certificate")) 13 None;
  mk_def (Some (lit "pkcs-7-CertificateSet")) 1610612751 None;
  mk_def None 2 (Some (lit "pkcs-7-CertificateChoices"));
  mk_def (Some (lit "pkcs-7-SignerInfos")) 1610612751 None;
  mk_def None 13 None;
  mk_def (Some (lit "pkcs-10-CertificationRequestInfo")) 1610612741 None;
  mk_def (Some (lit "version")) 1610874883 None;
  mk_def (Some (lit "v1")) 1 (Some (lit "0"));
  mk_def (Some (lit "subject")) 1073741826 (Some (lit "Name"));
  mk_def (Some (lit "subjectPKInfo")) 1073741826 (Some (lit "SubjectPublicKeyInfo"));
  mk_def (Some (lit "attributes")) 536879106 (Some (lit "Attributes"));
  mk_def None 4104 (Some (lit "0"));
  mk_def (Some (lit "Attributes")) 1610612751 None;
  mk_def None 2 (Some (lit "Attribute"));
  mk_def (Some (lit "pkcs-10-CertificationRequest")) 1610612741 None;
  mk_def (Some (lit "certificationRequestInfo")) 1073741826 (Some (lit "pkcs-10-CertificationRequestInfo"));
  mk_def (Some (lit "signatureAlgorithm")) 1073741826 (Some (lit "AlgorithmIdentifier"));
  mk_def (Some (lit "signature")) 6 None;
  mk_def (Some (lit "pkcs-9-ub-challengePassword")) 1342177283 (Some (lit "255"));
  mk_def (Some (lit "pkcs-9-certTypes")) 1879048204 None;
  mk_def None 1073741825 (Some (lit "pkcs-9"));
  mk_def None 1 (Some (lit "22"));
  mk_def (Some (lit "pkcs-9-crlTypes")) 1879048204 None;
  mk_def None 1073741825 (Some (lit "pkcs-9"));
  mk_def None 1 (Some (lit "23"));
  mk_def (Some (lit "pkcs-9-at-challengePassword")) 1879048204 None;
  mk_def None 1073741825 (Some (lit "pkcs-9"));
  mk_def None 1 (Some (lit "7"));
  mk_def (Some (lit "pkcs-9-challengePassword")) 1610612754 None;
  mk_def (Some (lit "printableString")) 1612709919 None;
  mk_def (Some (lit "pkcs-9-ub-challengePassword")) 524298 (Some (lit "1"));
  mk_def (Some (lit "utf8String")) 538968098 None;
  mk_def (Some (lit "pkcs-9-ub-challengePassword")) 524298 (Some (lit "1"));
  mk_def (Some (lit "pkcs-9-at-localKeyId")) 1879048204 None;
  mk_def None 1073741825 (Some (lit "pkcs-9"));
  mk_def None 1 (Some (lit "21"));
  mk_def (Some (lit "pkcs-9-localKeyId")) 1073741831 None;
  mk_def (Some (lit "pkcs-9-at-friendlyName")) 1879048204 None;
  mk_def None 1073741825 (Some (lit "pkcs-9"));
  mk_def None 1 (Some (lit "20"));
  mk_def (Some (lit "pkcs-9-friendlyName")) 1612709921 None;
  mk_def (Some (lit "255")) 524298 (Some (lit "1"));
  mk_def (Some (lit "pkcs-8-PrivateKeyInfo")) 1610612741 None;
  mk_def (Some (lit "version")) 1073741826 (Some (lit "pkcs-8-Version"));
  mk_def (Some (lit "privateKeyAlgorithm")) 1073741826 (Some (lit "AlgorithmIdentifier"));
  mk_def (Some (lit "privateKey")) 1073741826 (Some (lit "pkcs-8-PrivateKey"));
  mk_def (Some (lit "attributes")) 536895490 (Some (lit "Attributes"));
  mk_def None 4104 (Some (lit "0"));
  mk_def (Some (lit "pkcs-8-Version")) 1610874883 None;
  mk_def (Some (lit "v1")) 1 (Some (lit "0"));
  mk_def (Some (lit "pkcs-8-PrivateKey")) 1073741831 None;
  mk_def (Some (lit "pkcs-8-Attributes")) 1610612751 None;
  mk_def None 2 (Some (lit "Attribute"));
  mk_def (Some (lit "pkcs-8-EncryptedPrivateKeyInfo")) 1610612741 None;
  mk_def (Some (lit "encryptionAlgorithm")) 1073741826 (Some (lit "AlgorithmIdentifier"));
  mk_def (Some (lit "encryptedData")) 2 (Some (lit "pkcs-8-EncryptedData"));
  mk_def (Some (lit "pkcs-8-EncryptedData")) 1073741831 None;
  mk_def (Some (lit "pkcs-5")) 1879048204 None;
  mk_def None 1073741825 (Some (lit "pkcs"));
  mk_def None 1 (Some (lit "5"));
  mk_def (Some (lit "pkcs-5-encryptionAlgorithm")) 1879048204 None;
  mk_def (Some (lit "iso")) 1073741825 (Some (lit "1"));
  mk_def (Some (lit "member-body")) 1073741825 (Some (lit "2"));
  mk_def (Some (lit "us")) 1073741825 (Some (lit "840"));
  mk_def (Some (lit "rsadsi")) 1073741825 (Some (lit "113549"));
  mk_def None 1 (Some (lit "3"));
  mk_def (Some (lit "pkcs-5-des-EDE3-CBC")) 1879048204 None;
  mk_def None 1073741825 (Some (lit "pkcs-5-encryptionAlgorithm"));
  mk_def None 1 (Some (lit "7"));
  mk_def (Some (lit "pkcs-5-des-EDE3-CBC-params")) 1612709895 None;
  mk_def None 1048586 (Some (lit "8"));
  mk_def (Some (lit "pkcs-5-des-CBC-params")) 1612709895 None;
  mk_def None 1048586 (Some (lit "8"));
  mk_def (Some (lit "pkcs-5-rc2-CBC-params")) 1610612741 None;
  mk_def (Some (lit "rc2ParameterVersion")) 1073758211 None;
  mk_def (Some (lit "iv")) 538968071 None;
  mk_def None 1048586 (Some (lit "8"));
  mk_def (Some (lit "pkcs-5-PBE-params")) 1610612741 None;
  mk_def (Some (lit "salt")) 1612709895 None;
  mk_def None 1048586 (Some (lit "8"));
  mk_def (Some (lit "iterationCount")) 3 None;
  mk_def (Some (lit "pkcs-5-id-PBES2")) 1879048204 None;
  mk_def None 1073741825 (Some (lit "pkcs-5"));
  mk_def None 1 (Some (lit "13"));
  mk_def (Some (lit "pkcs-5-PBES2-params")) 1610612741 None;
  mk_def (Some (lit "keyDerivationFunc")) 1073741826 (Some (lit "AlgorithmIdentifier"));
  mk_def (Some (lit "encryptionScheme")) 2 (Some (lit "AlgorithmIdentifier"));
  mk_def (Some (lit "pkcs-5-id-PBKDF2")) 1879048204 None;
  mk_def None 1073741825 (Some (lit "pkcs-5"));
  mk_def None 1 (Some (lit "12"));
  mk_def (Some (lit "pkcs-5-PBKDF2-params")) 1610612741 None;
  mk_def (Some (lit "salt")) 1610612754 None;
  mk_def (Some (lit "specified")) 1073741831 None;
  mk_def (Some (lit "otherSource")) 2 (Some (lit "AlgorithmIdentifier"));
  mk_def (Some (lit "iterationCount")) 1611137027 None;
  mk_def (Some (lit "1")) 10 (Some (lit "MAX"));
  mk_def (Some (lit "keyLength")) 1611153411 None;
  mk_def (Some (lit "1")) 10 (Some (lit "MAX"));
  mk_def (Some (lit "prf")) 16386 (Some (lit "AlgorithmIdentifier"));
  mk_def (Some (lit "pkcs-12")) 1879048204 None;
  mk_def None 1073741825 (Some (lit "pkcs"));
  mk_def None 1 (Some (lit "12"));
  mk_def (Some (lit "pkcs-12-PFX")) 1610612741 None;
  mk_def (Some (lit "version")) 1610874883 None;
  mk_def (Some (lit "v3")) 1 (Some (lit "3"));
  mk_def (Some (lit "authSafe")) 1073741826 (Some (lit "pkcs-7-ContentInfo"));
  mk_def (Some (lit "macData")) 16386 (Some (lit "pkcs-12-MacData"));
  mk_def (Some (lit "pkcs-12-PbeParams")) 1610612741 None;
  mk_def (Some (lit "salt")) 1073741831 None;
  mk_def (Some (lit "iterations")) 3 None;
  mk_def (Some (lit "pkcs-12-MacData")) 1610612741 None;
  mk_def (Some (lit "mac")) 1073741826 (Some (lit "pkcs-7-DigestInfo"));
  mk_def (Some (lit "macSalt")) 1073741831 None;
  mk_def (Some (lit "iterations")) 536903683 None;
  mk_def None 9 (Some (lit "1"));
  mk_def (Some (lit "pkcs-12-AuthenticatedSafe")) 1610612747 None;
  mk_def None 2 (Some (lit "pkcs-7-ContentInfo"));
  mk_def (Some (lit "pkcs-12-SafeContents")) 1610612747 None;
  mk_def None 2 (Some (lit "pkcs-12-SafeBag"));
  mk_def (Some (lit "pkcs-12-SafeBag")) 1610612741 None;
  mk_def (Some (lit "bagId")) 1073741836 None;
  mk_def (Some (lit "bagValue")) 1614815245 None;
  mk_def None 1073743880 (Some (lit "0"));
  mk_def (Some (lit "badId")) 1 None;
  mk_def (Some (lit "bagAttributes")) 536887311 None;
  mk_def None 2 (Some (lit "pkcs-12-PKCS12Attribute"));
  mk_def (Some (lit "pkcs-12-bagtypes")) 1879048204 None;
  mk_def None 1073741825 (Some (lit "pkcs-12"));
  mk_def None 1073741825 (Some (lit "10"));
  mk_def None 1 (Some (lit "1"));
  mk_def (Some (lit "pkcs-12-keyBag")) 1879048204 None;
  mk_def None 1073741825 (Some (lit "pkcs-12-bagtypes"));
  mk_def None 1 (Some (lit "1"));
  mk_def (Some (lit "pkcs-12-pkcs8ShroudedKeyBag")) 1879048204 None;
  mk_def None 1073741825 (Some (lit "pkcs-12-bagtypes"));
  mk_def None 1 (Some (lit "2"));
  mk_def (Some (lit "pkcs-12-certBag")) 1879048204 None;
  mk_def None 1073741825 (Some (lit "pkcs-12-bagtypes"));
  mk_def None 1 (Some (lit "3"));
  mk_def (Some (lit "pkcs-12-crlBag")) 1879048204 None;
  mk_def None 1073741825 (Some (lit "pkcs-12-bagtypes"));
  mk_def None 1 (Some (lit "4"));
  mk_def (Some (lit "pkcs-12-KeyBag")) 1073741826 (Some (lit "pkcs-8-PrivateKeyInfo"));
  mk_def (Some (lit "pkcs-12-PKCS8ShroudedKeyBag")) 1073741826 (Some (lit "pkcs-8-EncryptedPrivateKeyInfo"));
  mk_def (Some (lit "pkcs-12-CertBag")) 1610612741 None;
  mk_def (Some (lit "certId")) 1073741836 None;
  mk_def (Some (lit "certValue")) 541073421 None;
  mk_def None 1073743880 (Some (lit "0"));
  mk_def (Some (lit "certId")) 1 None;
  mk_def (Some (lit "pkcs-12-CRLBag")) 1610612741 None;
  mk_def (Some (lit "crlId")) 1073741836 None;
  mk_def (Some (lit "crlValue")) 541073421 None;
  mk_def None 1073743880 (Some (lit "0"));
  mk_def (Some (lit "crlId")) 1 None;
  mk_def (Some (lit "pkcs-12-PKCS12Attribute")) 1073741826 (Some (lit "Attribute"));
  mk_def (Some (lit "pkcs-7-data")) 1879048204 None;
  mk_def (Some (lit "iso")) 1073741825 (Some (lit "1"));
  mk_def (Some (lit "member-body")) 1073741825 (Some (lit "2"));
  mk_def (Some (lit "us")) 1073741825 (Some (lit "840"));
  mk_def (Some (lit "rsadsi")) 1073741825 (Some (lit "113549"));
  mk_def (Some (lit "pkcs")) 1073741825 (Some (lit "1"));
  mk_def (Some (lit "pkcs7")) 1073741825 (Some (lit "7"));
  mk_def None 1 (Some (lit "1"));
  mk_def (Some (lit "pkcs-7-encryptedData")) 1879048204 None;
  mk_def (Some (lit "iso")) 1073741825 (Some (lit "1"));
  mk_def (Some (lit "member-body")) 1073741825 (Some (lit "2"));
  mk_def (Some (lit "us")) 1073741825 (Some (lit "840"));
  mk_def (Some (lit "rsadsi")) 1073741825 (Some (lit "113549"));
  mk_def (Some (lit "pkcs")) 1073741825 (Some (lit "1"));
  mk_def (Some (lit "pkcs7")) 1073741825 (Some (lit "7"));
  mk_def None 1 (Some (lit "6"));
  mk_def (Some (lit "pkcs-7-Data")) 1073741831 None;
  mk_def (Some (lit "pkcs-7-EncryptedData")) 1610612741 None;
  mk_def (Some (lit "version")) 1073741826 (Some (lit "pkcs-7-CMSVersion"));
  mk_def (Some (lit "encryptedContentInfo")) 1073741826 (Some (lit "pkcs-7-EncryptedContentInfo"));
  mk_def (Some (lit "unprotectedAttrs")) 536895490 (Some (lit "pkcs-7-UnprotectedAttributes"));
  mk_def None 4104 (Some (lit "1"));
  mk_def (Some (lit "pkcs-7-EncryptedContentInfo")) 1610612741 None;
  mk_def (Some (lit "contentType")) 1073741826 (Some (lit "pkcs-7-ContentType"));
  mk_def (Some (lit "contentEncryptionAlgorithm")) 1073741826 (Some (lit "pkcs-7-ContentEncryptionAlgorithmIdentifier"));
  mk_def (Some (lit "encryptedContent")) 536895490 (Some (lit "pkcs-7-EncryptedContent"));
  mk_def None 4104 (Some (lit "0"));
  mk_def (Some (lit "pkcs-7-ContentEncryptionAlgorithmIdentifier")) 1073741826 (Some (lit "AlgorithmIdentifier"));
  mk_def (Some (lit "pkcs-7-EncryptedContent")) 1073741831 None;
  mk_def (Some (lit "pkcs-7-UnprotectedAttributes")) 1612709903 None;
  mk_def (Some (lit "MAX")) 1074266122 (Some (lit "1"));
  mk_def None 2 (Some (lit "Attribute"));
  mk_def (Some (lit "id-at-domainComponent")) 1880096780 (Some (lit "AttributeType"));
  mk_def None 1073741825 (Some (lit "0"));
  mk_def None 1073741825 (Some (lit "9"));
  mk_def None 1073741825 (Some (lit "2342"));
  mk_def None 1073741825 (Some (lit "19200300"));
  mk_def None 1073741825 (Some (lit "100"));
  mk_def None 1073741825 (Some (lit "1"));
  mk_def None 1 (Some (lit "25"));
  mk_def (Some (lit "domainComponent")) 1073741853 None;
  mk_def (Some (lit "id-at-userId")) 1880096780 (Some (lit "AttributeType"));
  mk_def None 1073741825 (Some (lit "0"));
  mk_def None 1073741825 (Some (lit "9"));
  mk_def None 1073741825 (Some (lit "2342"));
  mk_def None 1073741825 (Some (lit "19200300"));
  mk_def None 1073741825 (Some (lit "100"));
  mk_def None 1073741825 (Some (lit "1"));
  mk_def None 1 (Some (lit "1"));
  mk_def (Some (lit "userId")) 1073741826 (Some (lit "DirectoryString"));
  mk_def (Some (lit "id-pda")) 1879048204 None;
  mk_def None 1073741825 (Some (lit "id-pkix"));
  mk_def None 1 (Some (lit "9"));
  mk_def (Some (lit "id-pda-dateOfBirth")) 1880096780 (Some (lit "AttributeType"));
  mk_def None 1073741825 (Some (lit "id-pda"));
  mk_def None 1 (Some (lit "1"));
  mk_def (Some (lit "DateOfBirth")) 1073741861 None;
  mk_def (Some (lit "id-pda-placeOfBirth")) 1880096780 (Some (lit "AttributeType"));
  mk_def None 1073741825 (Some (lit "id-pda"));
  mk_def None 1 (Some (lit "2"));
  mk_def (Some (lit "PlaceOfBirth")) 1073741826 (Some (lit "DirectoryString"));
  mk_def (Some (lit "id-pda-gender")) 1880096780 (Some (lit "AttributeType"));
  mk_def None 1073741825 (Some (lit "id-pda"));
  mk_def None 1 (Some (lit "3"));
  mk_def (Some (lit "Gender")) 1612709919 None;
  mk_def None 1048586 (Some (lit "1"));
  mk_def (Some (lit "id-pda-countryOfCitizenship")) 1880096780 (Some (lit "AttributeType"));
  mk_def None 1073741825 (Some (lit "id-pda"));
  mk_def None 1 (Some (lit "4"));
  mk_def (Some (lit "CountryOfCitizenship")) 1612709919 None;
  mk_def None 1048586 (Some (lit "2"));
  mk_def (Some (lit "id-pda-countryOfResidence")) 1880096780 (Some (lit "AttributeType"));
  mk_def None 1073741825 (Some (lit "id-pda"));
  mk_def None 1 (Some (lit "5"));
  mk_def (Some (lit "CountryOfResidence")) 1612709919 None;
  mk_def None 1048586 (Some (lit "2"));
  mk_def (Some (lit "PublicKeyAndChallenge")) 1610612741 None;
  mk_def (Some (lit "spki")) 1073741826 (Some (lit "SubjectPublicKeyInfo"));
  mk_def (Some (lit "challenge")) 29 None;
  mk_def (Some (lit "SignedPublicKeyAndChallenge")) 1610612741 None;
  mk_def (Some (lit "publicKeyAndChallenge")) 1073741826 (Some (lit "PublicKeyAndChallenge"));
  mk_def (Some (lit "signatureAlgorithm")) 1073741826 (Some (lit "AlgorithmIdentifier"));
  mk_def (Some (lit "signature")) 6 None;
  mk_def (Some (lit "ExtensionRequest")) 1610612747 None;
  mk_def None 2 (Some (lit "Extension"));
  mk_def (Some (lit "id-ogrn")) 1879048204 None;
  mk_def (Some (lit "iso")) 1073741825 (Some (lit "1"));
  mk_def (Some (lit "member-body")) 1073741825 (Some (lit "2"));
  mk_def (Some (lit "ru")) 1073741825 (Some (lit "643"));
  mk_def None 1073741825 (Some (lit "100"));
  mk_def None 1 (Some (lit "1"));
  mk_def (Some (lit "OGRN")) 1612709916 None;
  mk_def None 1048586 (Some (lit "13"));
  mk_def (Some (lit "id-snils")) 1879048204 None;
  mk_def (Some (lit "iso")) 1073741825 (Some (lit "1"));
  mk_def (Some (lit "member-body")) 1073741825 (Some (lit "2"));
  mk_def (Some (lit "ru")) 1073741825 (Some (lit "643"));
  mk_def None 1073741825 (Some (lit "100"));
  mk_def None 1 (Some (lit "3"));
  mk_def (Some (lit "SNILS")) 1612709916 None;
  mk_def None 1048586 (Some (lit "11"));
  mk_def (Some (lit "id-ogrn")) 1879048204 None;
  mk_def (Some (lit "iso")) 1073741825 (Some (lit "1"));
  mk_def (Some (lit "member-body")) 1073741825 (Some (lit "2"));
  mk_def (Some (lit "ru")) 1073741825 (Some (lit "643"));
  mk_def None 1073741825 (Some (lit "100"));
  mk_def None 1 (Some (lit "5"));
  mk_def (Some (lit "OGRNIP")) 1612709916 None;
  mk_def None 1048586 (Some (lit "15"));
  mk_def (Some (lit "id-inn")) 1879048204 None;
  mk_def (Some (lit "iso")) 1073741825 (Some (lit "1"));
  mk_def (Some (lit "member-body")) 1073741825 (Some (lit "2"));
  mk_def (Some (lit "ru")) 1073741825 (Some (lit "643"));
  mk_def (Some (lit "reg3")) 1073741825 (Some (lit "3"));
  mk_def (Some (lit "fns")) 1073741825 (Some (lit "131"));
  mk_def None 1073741825 (Some (lit "1"));
  mk_def (Some (lit "inn")) 1 (Some (lit "1"));
  mk_def (Some (lit "INN")) 538968092 None;
  mk_def None 1048586 (Some (lit "12"));
  mk_def None 0 None].
