(* ===== verification/Asn1Decode.v ===== *)
(** Decoding TLVs into an ASN.1 node tree, and validating the tree: [anode_decode_*],
    [anode_validate_*], [egg_asn1x_decode_full], [egg_asn1x_validate] of
    [src/egg/egg-asn1x.c].

    A node is changed also when its decoding fails, so that every function returns the
    C result and the changed node.  The recursion goes from a node to its children, or
    from an explicit tag to what it wraps: [fuel] is more than twice the height of the
    tree, and running out of it ([Err tt]) does not happen (Asn1DecodeSpec).  A primitive
    TLV without a value, and one with children, are [Ub]. *)

From S2P Require Import Prelude Text Asn1Tlv Asn1Value Asn1Node Asn1Create.
Local Open Scope Z_scope.

(** * Decoding *)

Definition is_structured (t : Atlv) : bool := negb (Z.land (cls (head t)) ASN1_CLASS_STRUCTURED =? 0).

(** Replacing the data, with a true result. *)
Definition becomes {E} (n : GNode) (f : Anode -> Anode) : res E (bool * GNode) := Ok (true, on_data f n).

(** Tags of the members of a set: [None] before the first. *)
Fixpoint ascending (last : option Z) (ts : list Atlv) : bool :=
  match ts with
  | [] => true
  | t :: ts =>
    match last with
    | Some l => if tag (head t) <? l then false else ascending (Some (tag (head t))) ts
    | None => ascending (Some (tag (head t))) ts
    end
  end.

Definition decode_bit_string_node (n : GNode) (t : Atlv) : res unit (bool * GNode) :=
  buf ← or_ub (value t);
  match buf with
  | [] => fails n (lit "invalid length bit string")
  | empty :: rest =>
    if 8 <=? empty then fails n (lit "invalid number of empty bits")
    else
      let mask := u8 (Z.shiftr 0xFF (8 - empty)) in
      if (1 <? Zlen buf) && negb (Z.land (default 0 (last buf)) mask =? 0)
      then fails n (lit "bit string has invalid trailing bits")
      else becomes n (fun an => set_bits_empty (anode_take_value an rest) empty)
  end.

(** The types whose contents octets are the value. *)
Definition is_plain_type (t : EggAsn1xType) : bool :=
  match t with
  | INTEGER | ENUMERATED | BOOLEAN | OCTET_STRING | OBJECT_ID | NULL | TIME | UTC_TIME
  | GENERALIZED_TIME | GENERAL_STRING | NUMERIC_STRING | IA5_STRING | TELETEX_STRING
  | PRINTABLE_STRING | UNIVERSAL_STRING | BMP_STRING | UTF8_STRING | VISIBLE_STRING => true
  | _ => false
  end.

(** The string types, which may be encoded in pieces. *)
Definition is_string_type (t : EggAsn1xType) : bool :=
  match t with
  | GENERAL_STRING | OCTET_STRING | NUMERIC_STRING | IA5_STRING | TELETEX_STRING
  | PRINTABLE_STRING | UNIVERSAL_STRING | BMP_STRING | UTF8_STRING | VISIBLE_STRING => true
  | _ => false
  end.

(** The result, and the node with the value cleared. *)
Definition anode_decode_option_or_default (n : GNode) : bool * GNode :=
  let flags := anode_def_flags (data n) in
  if has flags FLAG_OPTION || has flags FLAG_DEFAULT then (true, on_data anode_clr_value n) else (false, n).

(** [tag], or the tag of the TLV when it is not known. *)
Definition expected_tag (n : GNode) (flags : Z) (t : Atlv) : Z :=
  let tag := anode_calc_tag_for_flags (data n) flags in
  if tag =? G_MAXULONG then Asn1Tlv.tag (head t) else tag.

Section Decode.
(** [anode_decode_one_without_tag] *)
Context (without_tag : GNode -> Atlv -> Z -> res unit (bool * GNode)).

Definition anode_decode_one (n : GNode) (t : Atlv) : res unit (bool * GNode) :=
  let flags := anode_def_flags (data n) in
  if negb (expected_tag n flags t =? tag (head t)) then fails n (lit "decoded tag did not match expected")
  else without_tag n t flags.

Fixpoint choice_loop (cs : list GNode) (t : Atlv) (have : bool) : res unit (bool * list GNode) :=
  match cs with
  | [] => Ok (have, [])
  | c :: cs =>
    '(ok, c) ← anode_decode_one c t;
    '(have, cs) ← choice_loop cs t (have || ok);
    Ok (have, on_data (fun an => set_chosen an ok) c :: cs)
  end.

Definition anode_decode_choice (n : GNode) (t : Atlv) : res unit (bool * GNode) :=
  let 'N an cs := n in
  '(have, cs) ← choice_loop cs t false;
  if negb have then fails (N an cs) (lit "no choice is present") else Ok (true, N an cs).

(** [while (node != NULL)]: the nodes that have no TLV. *)
Fixpoint decode_absent (nodes : list GNode) : bool * list GNode :=
  match nodes with
  | [] => (true, [])
  | n :: nodes =>
    match anode_decode_option_or_default n with
    | (true, n) => let '(ok, nodes) := decode_absent nodes in (ok, n :: nodes)
    | (false, n) => (false, on_data (fun an => anode_failure an (lit "no decoded value")) n :: nodes)
    end
  end.

(** [while (tlv != NULL)]: one node in every round.  A TLV behind the last node is a
    failure of that node. *)
Fixpoint decode_loop (nodes : list GNode) (ts : list Atlv) : res unit (bool * list GNode) :=
  match nodes, ts with
  | _, [] => Ok (decode_absent nodes)
  | [], _ :: _ => Ub
  | n :: nodes, t :: ts' =>
    let flags := anode_def_flags (data n) in
    if negb (expected_tag n flags t =? tag (head t)) then
      let '(ok, n) := anode_decode_option_or_default n in
      match ok, nodes with
      | true, _ :: _ => '(ok, nodes) ← decode_loop nodes ts; Ok (ok, n :: nodes)
      | _, _ => '(_, n) ← fails n (lit "decoded tag did not match expected"); Ok (false, n :: nodes)
      end
    else
      '(ok, n) ← without_tag n t flags;
      if negb ok then Ok (false, n :: nodes)
      else match nodes, ts' with
           | [], _ :: _ => '(_, n) ← fails n (lit "encountered extra tag"); Ok (false, [n])
           | _, _ => '(ok, nodes) ← decode_loop nodes ts'; Ok (ok, n :: nodes)
           end
  end.

(** [nodes]: the node and its next siblings. *)
Definition anode_decode_anything (nodes : list GNode) (ts : list Atlv) : res unit (bool * list GNode) :=
  c_assert (negb (bool_decide (nodes = [])));;
  decode_loop nodes ts.

Definition anode_decode_sequence_or_set (n : GNode) (t : Atlv) : res unit (bool * GNode) :=
  let 'N an cs := n in
  if bool_decide (anode_def_type an = SET) && negb (ascending None (child t))
  then fails n (lit "content must be in ascending order")
  else '(ok, cs) ← anode_decode_anything cs (child t); Ok (ok, N an cs).

(** The elements after the first: clones of the first child, which [first] is.  The
    nodes that are appended, and whether a tag was wrong. *)
Fixpoint decode_more (first : GNode) (tag0 : Z) (ts : list Atlv) : res unit (bool * bool * list GNode) :=
  match ts with
  | [] => Ok (true, false, [])
  | t :: ts =>
    if negb (tag0 =? G_MAXULONG) && negb (tag (head t) =? tag0) then Ok (false, true, [])
    else
      '(ok, other) ← anode_decode_one (anode_clone first) t;
      if negb ok then Ok (false, false, [other])
      else '(r, others) ← decode_more first tag0 ts; Ok (r, other :: others)
  end.

Definition anode_decode_sequence_or_set_of (n : GNode) (t : Atlv) : res unit (bool * GNode) :=
  let 'N an cs := n in
  match cs, child t with
  | [], _ => Ok (false, n)
  | _, [] => Ok (true, n)
  | c :: cs, ct :: cts =>
    let tag0 := anode_calc_tag (data c) in
    '(ok, c) ← anode_decode_one c ct;
    if negb ok then Ok (false, N an (c :: cs))
    else
      '(ok, mismatch, others) ← decode_more c tag0 cts;
      let n := N an (c :: cs ++ others) in
      if mismatch : bool then fails n (lit "invalid mismatched content") else Ok (ok, n)
  end.

Definition anode_decode_primitive (n : GNode) (t : Atlv) : res unit (bool * GNode) :=
  c_assert (bool_decide (child t = []));;
  let type := anode_def_type (data n) in
  if bool_decide (type = BIT_STRING) then decode_bit_string_node n t
  else if is_plain_type type then v ← or_ub (value t); becomes n (fun an => anode_take_value an v)
  else if bool_decide (type = ANY) then Ok (true, n)
  else if bool_decide (type = CHOICE) then anode_decode_choice n t
  else fails n (lit "primitive value of an unexpected type").

Definition anode_decode_structured (n : GNode) (t : Atlv) : res unit (bool * GNode) :=
  match anode_def_type (data n) with
  | ANY | GENERAL_STRING | OCTET_STRING | NUMERIC_STRING | IA5_STRING | TELETEX_STRING
  | PRINTABLE_STRING | UNIVERSAL_STRING | BMP_STRING | UTF8_STRING | VISIBLE_STRING => Ok (true, n)
  | CHOICE => anode_decode_choice n t
  | SEQUENCE | SET => anode_decode_sequence_or_set n t
  | SEQUENCE_OF | SET_OF => anode_decode_sequence_or_set_of n t
  | _ => fails n (lit "structured value of an unexpected type")
  end.

(** [an->parsed = atlv_dup (tlv, FALSE)] after a success. *)
Definition mark_parsed (t : Atlv) (r : bool * GNode) : bool * GNode :=
  let '(ok, n) := r in if ok : bool then (true, on_data (fun an => set_parsed an t) n) else (false, n).

End Decode.

Fixpoint anode_decode_one_without_tag (fuel : nat) (n : GNode) (t : Atlv) (flags : Z) : res unit (bool * GNode) :=
  match fuel with
  | O => Err tt
  | S fuel =>
    if is_explicit (data n) flags then
      if Z.land (cls (head t)) ASN1_CLASS_CONTEXT_SPECIFIC =? 0 then fails n (lit "missing context specific tag")
      else match child t with
           | [] => fails n (lit "missing context specific child")
           | _ :: _ :: _ => fails n (lit "multiple context specific children")
           | [c] => mark_parsed t <$> anode_decode_one_without_tag fuel n c (Z.ldiff flags FLAG_TAG)
           end
    else if is_structured t then mark_parsed t <$> anode_decode_structured (anode_decode_one_without_tag fuel) n t
    else mark_parsed t <$> anode_decode_primitive (anode_decode_one_without_tag fuel) n t
  end.

(** Enough for a tree of that height: a level takes at most two calls. *)
Definition decode_fuel (nodes : list GNode) : nat := S (2 * max_list (height <$> nodes)).

(** * Validation *)

(** The result of a check of one node: [Invalid] has the message it leaves, if any. *)
Inductive Verdict := Valid | Invalid (msg : option (list Z)).

Definition invalid (msg : list Z) : Verdict := Invalid (Some msg).

Definition verdict (n : GNode) (v : Verdict) : bool * GNode :=
  match v with
  | Valid => (true, n)
  | Invalid None => (false, n)
  | Invalid (Some msg) => (false, on_data (fun an => anode_failure an msg) n)
  end.

(** [None] is a [FALSE] return.  A name is looked up, and what it stands for is parsed
    in turn. *)
Fixpoint anode_parse_size (fuel : nat) (an : Anode) (text : option (list Z)) : res unit (option Z) :=
  match text with
  | None => Ok None
  | Some t =>
    if bool_decide (t = lit "MAX") then Ok (Some G_MAXULONG)
    else if is_alpha (default 0 (hd_error t)) then
      match anode_opt_lookup an INTEGER (Some t) with
      | None => Ok None
      | Some d =>
        match fuel with
        | O => Err tt
        | S fuel => anode_parse_size fuel an (def_value d)
        end
      end
    else
      let '(v, end_) := strtoul t in
      Ok (if bool_decide (end_ = []) then Some v else None)
  end.

(** As many names as there are options. *)
Definition parse_size (an : Anode) (text : option (list Z)) : res unit (option Z) :=
  anode_parse_size (length (opts an)) an text.

Definition anode_validate_size (an : Anode) (length : Z) : res unit Verdict :=
  if negb (has (anode_def_flags an) FLAG_SIZE) then Ok Valid
  else
    match anode_opt_lookup an SIZE None with
    | None => Ok (Invalid None)
    | Some size =>
      v1 ← parse_size an (def_value size);
      match v1 with
      | None => Ok (Invalid None)
      | Some value1 =>
        if has (def_type size) FLAG_MIN_MAX then
          v2 ← parse_size an (def_name size);
          match v2 with
          | None => Ok (Invalid None)
          | Some value2 =>
            Ok (if (length <? value1) || (value2 <=? length) then invalid (lit "content size is out of bounds") else Valid)
          end
        else Ok (if negb (length =? value1) then invalid (lit "content size is not correct") else Valid)
      end
    end.

Fixpoint listed (constants : list EggAsn1xDef) (val : Z) : Verdict :=
  match constants with
  | [] => invalid (lit "integer not part of listed set")
  | d :: constants =>
    let check := anode_def_value_as_ulong d in
    if check =? G_MAXULONG then Invalid None
    else if check =? val then Valid
    else listed constants val
  end.

Definition anode_validate_integer (an : Anode) (value : list Z) : res unit Verdict :=
  if Zlen value =? 0 then Ok (invalid (lit "zero length integer"))
  else if has (anode_def_flags an) FLAG_LIST then
    val ← anode_read_integer_ulong value;
    Ok (match val with
        | None => invalid (lit "integer not part of list")
        | Some val => listed (anode_opts_lookup an CONSTANT None) val
        end)
  else Ok Valid.

Definition anode_validate_enumerated (an : Anode) (value : list Z) : res unit Verdict :=
  if negb (Z.land (default 0 (hd_error value)) 0x80 =? 0) then Ok (invalid (lit "enumerated must be positive"))
  else anode_validate_integer an value.

Definition anode_validate_boolean (value : list Z) : Verdict :=
  match value with
  | [b] => if negb (b =? 0x00) && negb (b =? 0xFF) then invalid (lit "boolean must be true or false") else Valid
  | _ => invalid (lit "invalid length boolean")
  end.

Definition anode_validate_string (an : Anode) (value : list Z) : res unit Verdict :=
  r ← anode_read_string_simple value None 0;
  match r with
  | None => Ok (Invalid None)
  | Some (length, _) => anode_validate_size an length
  end.

Definition anode_validate_object_id (value : list Z) : res unit Verdict :=
  r ← anode_read_object_id value;
  Ok (match r with Some _ => Valid | None => invalid (lit "object id encoding is invalid") end).

Definition anode_validate_null (value : list Z) : Verdict := if Zlen value =? 0 then Valid else Invalid None.

(** [this_year] is [tm_year] of the current time. *)
Definition anode_read_time (this_year : Z) (an : Anode) (value : list Z) : res unit (option (tm * Z)) :=
  let flags := anode_def_flags an in
  match anode_def_type an with
  | GENERALIZED_TIME => parse_general_time value (Zlen value)
  | UTC_TIME => parse_utc_time this_year value (Zlen value)
  | _ =>
    if has flags FLAG_GENERALIZED then parse_general_time value (Zlen value)
    else if has flags FLAG_UTC then parse_utc_time this_year value (Zlen value)
    else Ok None
  end.

(** Without a type of time nothing is said; otherwise "invalid time content". *)
Definition is_time (an : Anode) : bool :=
  match anode_def_type an with
  | GENERALIZED_TIME | UTC_TIME => true
  | _ => has (anode_def_flags an) FLAG_GENERALIZED || has (anode_def_flags an) FLAG_UTC
  end.

Definition anode_validate_time (this_year : Z) (an : Anode) (value : list Z) : res unit Verdict :=
  r ← anode_read_time this_year an value;
  Ok (match r with
      | Some _ => Valid
      | None => if is_time an then invalid (lit "invalid time content") else Invalid None
      end).

(** [switch (type)] for a value that is set; [g_assert_not_reached] for other types. *)
Definition validate_value (this_year : Z) (an : Anode) (value : list Z) : res unit Verdict :=
  match anode_def_type an with
  | INTEGER => anode_validate_integer an value
  | ENUMERATED => anode_validate_enumerated an value
  | BOOLEAN => Ok (anode_validate_boolean value)
  | BIT_STRING => Ok Valid
  | OCTET_STRING | GENERAL_STRING | NUMERIC_STRING | IA5_STRING | TELETEX_STRING
  | PRINTABLE_STRING | UTF8_STRING | VISIBLE_STRING => anode_validate_string an value
  | BMP_STRING | UNIVERSAL_STRING => Ok Valid
  | OBJECT_ID => anode_validate_object_id value
  | NULL => Ok (anode_validate_null value)
  | TIME | UTC_TIME | GENERALIZED_TIME => anode_validate_time this_year an value
  | _ => Ub
  end.

(** What is left of [anode_validate_anything] for nodes without a value. *)
Definition validate_missing (an : Anode) : Verdict :=
  if bool_decide (is_Some (parsed an)) && (bool_decide (anode_def_type an = ANY) || is_string_type (anode_def_type an))
  then Valid
  else if has (anode_def_flags an) FLAG_OPTION then Valid
  else if has (anode_def_flags an) FLAG_DEFAULT then Valid
  else invalid (lit "missing value").

Section Validate.
Context (anything : GNode -> res unit (bool * GNode)).

(** All children in turn, until one fails. *)
Fixpoint validate_all (cs : list GNode) : res unit (bool * list GNode) :=
  match cs with
  | [] => Ok (true, [])
  | c :: cs =>
    '(ok, c) ← anything c;
    if negb ok then Ok (false, c :: cs)
    else '(ok, cs) ← validate_all cs; Ok (ok, c :: cs)
  end.

(** Those with data; they are counted. *)
Fixpoint validate_having (cs : list GNode) (count : Z) : res unit (bool * Z * list GNode) :=
  match cs with
  | [] => Ok (true, count, [])
  | c :: cs =>
    if egg_asn1x_have c then
      '(ok, c) ← anything c;
      if negb ok then Ok (false, count, c :: cs)
      else '(ok, count, cs) ← validate_having cs (u64 (count + 1)); Ok (ok, count, c :: cs)
    else '(ok, count, cs) ← validate_having cs count; Ok (ok, count, c :: cs)
  end.

(** The chosen child, if there is one. *)
Fixpoint validate_chosen (cs : list GNode) : res unit (option (bool * list GNode)) :=
  match cs with
  | [] => Ok None
  | c :: cs =>
    if chosen (data c) then '(ok, c) ← anything c; Ok (Some (ok, c :: cs))
    else r ← validate_chosen cs; Ok (fmap (M:=option) (prod_map id (cons c)) r)
  end.

End Validate.

Fixpoint anode_validate_anything (this_year : Z) (strict : bool) (n : GNode) : res unit (bool * GNode) :=
  let 'N an cs := n in
  match anode_def_type an with
  | CHOICE =>
    r ← validate_chosen (anode_validate_anything this_year strict) cs;
    match r with
    | None => fails n (lit "one choice must be set")
    | Some (false, cs) => Ok (false, N an cs)
    | Some (true, cs) =>
      if (1 <? Zlen (List.filter (fun c => chosen (data c)) cs)) then fails (N an cs) (lit "only one choice may be set")
      else Ok (true, N an cs)
    end
  | SEQUENCE | SET =>
    if has (anode_def_flags an) FLAG_OPTION && negb (egg_asn1x_have n) then Ok (true, n)
    else '(ok, cs) ← validate_all (anode_validate_anything this_year strict) cs; Ok (ok, N an cs)
  | SEQUENCE_OF | SET_OF =>
    '(ok, count, cs) ← validate_having (anode_validate_anything this_year strict) cs 0;
    let n := N an cs in
    if negb ok then Ok (false, n)
    else if (count =? 0) && has (anode_def_flags an) FLAG_OPTION then Ok (true, n)
    else verdict n <$> anode_validate_size an count
  | _ =>
    match an_value an with
    | Some value => verdict n <$> validate_value this_year an value
    | None => Ok (verdict n (validate_missing an))
    end
  end.

Definition egg_asn1x_validate (this_year : Z) (asn : GNode) (strict : bool) : res unit (bool * GNode) :=
  anode_validate_anything this_year strict asn.

(** * Decoding DER *)

(** The messages of [atlv_parse_der]; an assertion of it, or fuel, is none. *)
Definition parse_message (e : ParseError) : option (list Z) :=
  match e with
  | ContentNotProper => Some (lit "content is not encoded properly")
  | IndefiniteNonStructured => Some (lit "indefinite length on non-structured type")
  | InvalidLength => Some (lit "invalid length of tlv")
  | TrailingData => Some (lit "extra unexpected trailing data")
  | OutOfFuel => None
  end.

Definition decode_anything (nodes : list GNode) (ts : list Atlv) : res unit (bool * list GNode) :=
  anode_decode_anything (anode_decode_one_without_tag (decode_fuel nodes)) nodes ts.

(** A tree that has been decoded: [asn] is a root. *)
Definition decode_root (asn : GNode) (t : Atlv) : res unit (bool * GNode) :=
  '(ok, nodes) ← decode_anything [asn] [t];
  asn ← or_ub (hd_error nodes);
  Ok (ok, asn).

Definition EGG_ASN1X_NO_STRICT : Z := 1.

Definition egg_asn1x_decode_full (this_year : Z) (asn : GNode) (bytes : list Z) (options : Z) : res unit (bool * GNode) :=
  asn ← egg_asn1x_clear asn;
  match atlv_parse_der bytes with
  | Ub => Ub
  | Err e =>
    match parse_message e with
    | Some msg => Ok (false, on_data (fun an => set_failure an (Some msg)) asn)
    | None => Err tt
    end
  | Ok t =>
    '(ret, asn) ← decode_root asn t;
    if negb ret then Ok (false, asn)
    else egg_asn1x_validate this_year asn (negb (has options EGG_ASN1X_NO_STRICT))
  end.

Definition egg_asn1x_decode (this_year : Z) (asn : GNode) (bytes : list Z) : res unit (bool * GNode) :=
  egg_asn1x_decode_full this_year asn bytes 0.

Definition egg_asn1x_create_and_decode_full `{Sorting.GListSort} (fuel : nat) (this_year : Z) (defs : list EggAsn1xDef)
    (identifier : list Z) (bytes : list Z) (options : Z) : res unit (option GNode) :=
  asn ← egg_asn1x_create fuel defs identifier;
  match asn with
  | None => Ok None
  | Some asn => '(ok, asn) ← egg_asn1x_decode_full this_year asn bytes options; Ok (if ok : bool then Some asn else None)
  end.
