(* ===== verification/Asn1DecodeSpec.v ===== *)
(** What decoding promises: it ends and is safe for every TLV that the parser makes, it
    keeps the definitions of the tree, and after a success the tree and the TLV match,
    node by node ([matched]). *)

From S2P Require Import Prelude Text Asn1Tlv Asn1Value Asn1Node Asn1Schema Asn1Create Asn1Decode.
Local Open Scope Z_scope.

(** * Termination and safety *)

(** What the parser makes: a TLV that is not structured has a value and no children. *)
Fixpoint tlv_ok (t : Atlv) : bool :=
  let 'mk_atlv h v _ cs := t in
  (negb (Z.land (cls h) ASN1_CLASS_STRUCTURED =? 0) || (bool_decide (is_Some v) && bool_decide (cs = []))) && forallb tlv_ok cs.

Lemma tlv_ok_children t : tlv_ok t = true -> Forall (fun c => tlv_ok c = true) (child t).
Proof.
  destruct t as [h v d cs]. cbn [tlv_ok child]. rewrite andb_true_iff, forallb_forall. intros [_ H].
  apply Forall_forall. intros c Hc. by apply H, list_elem_of_In.
Qed.

Lemma tlv_ok_primitive t : tlv_ok t = true -> is_structured t = false -> child t = [] /\ is_Some (value t).
Proof.
  destruct t as [h v d cs]. unfold is_structured. cbn [tlv_ok child value head]. intros Ht Hs.
  rewrite Hs in Ht. cbn [orb] in Ht. rewrite !andb_true_iff in Ht. destruct Ht as [[Hv Hc] _].
  split; by eapply bool_decide_eq_true_1.
Qed.

(** A call that returns, with a node that keeps the definitions. *)
Definition good (n : GNode) (r : res unit (bool * GNode)) : Prop := exists ok n', r = Ok (ok, n') /\ keeps n n'.
Definition goods (cs : list GNode) (r : res unit (bool * list GNode)) : Prop :=
  exists ok cs', r = Ok (ok, cs') /\ Forall2 keeps cs cs'.

Lemma Forall2_keeps_refl cs : Forall2 keeps cs cs.
Proof. by apply Forall_Forall2_diag, Forall_true. Qed.

Lemma good_fails n n' msg : keeps n n' -> good n (fails n' msg).
Proof. intros Hk. eexists _, _. split; [done|]. etrans; [done|]. apply keeps_data. intros. apply core_failure. Qed.

Lemma good_becomes n f : (forall an, core (f an) = core an) -> good n (becomes n f).
Proof. intros Hf. eexists _, _. split; [done|]. by apply keeps_data. Qed.

Lemma good_Ok n ok n' : keeps n n' -> good n (Ok (ok, n')).
Proof. intros Hk. by eexists _, _. Qed.

Lemma good_children an cs r : goods cs r -> good (N an cs) ('(ok, cs) ← r; Ok (ok, N an cs)).
Proof. intros (ok & cs' & -> & Hk). eexists _, _. split; [done|]. by apply keeps_node. Qed.

Lemma good_mark n t r : good n r -> good n (mark_parsed t <$> r).
Proof.
  intros (ok & n' & -> & Hk). destruct ok; [|by apply good_Ok]. apply good_Ok. etrans; [done|].
  apply keeps_data. intros. apply core_set_parsed.
Qed.

Lemma absent_goods nodes : Forall2 keeps nodes (decode_absent nodes).2.
Proof.
  induction nodes as [|n nodes IH]; cbn [decode_absent]; [constructor|].
  unfold anode_decode_option_or_default. destruct (has _ _ || has _ _).
  - destruct (decode_absent nodes) as [ok ns]. constructor; [apply keeps_data; intros; apply core_clr_value|done].
  - constructor; [apply keeps_data; intros; apply core_failure|apply Forall2_keeps_refl].
Qed.

Section Total.
Context (without_tag : GNode -> Atlv -> Z -> res unit (bool * GNode)) (h : nat).
Context (Hrec : forall n t flags, (height n < h)%nat -> schema_ok n = true -> tlv_ok t = true -> good n (without_tag n t flags)).

Lemma decode_one_good n t : (height n < h)%nat -> schema_ok n = true -> tlv_ok t = true ->
  good n (anode_decode_one without_tag n t).
Proof. intros Hh Hs Ht. unfold anode_decode_one. case_match; [by apply good_fails|]. by apply Hrec. Qed.

Lemma choice_loop_goods cs t : forall have, Forall (fun c => height c < h)%nat cs -> Forall (fun c => schema_ok c = true) cs ->
  tlv_ok t = true -> goods cs (choice_loop without_tag cs t have).
Proof.
  induction cs as [|c cs IH]; intros have Hh Hs Ht; cbn [choice_loop]; [by eexists _, _|].
  inversion_clear Hh. inversion_clear Hs. destruct (decode_one_good c t) as (ok & c' & -> & Hc); [done..|]. run.
  destruct (IH (have || ok)) as (ok' & cs' & -> & Hcs); [done..|]. run. eexists _, _. split; [done|].
  constructor; [|done]. etrans; [done|]. apply keeps_data. intros. apply core_set_chosen.
Qed.

Lemma decode_loop_goods nodes : forall ts, Forall (fun c => height c < h)%nat nodes -> Forall (fun c => schema_ok c = true) nodes ->
  Forall (fun t => tlv_ok t = true) ts -> (nodes = [] -> ts = []) -> goods nodes (decode_loop without_tag nodes ts).
Proof.
  induction nodes as [|n nodes IH]; intros ts Hh Hs Ht Hne.
  { rewrite (Hne eq_refl). by eexists _, _. }
  destruct ts as [|t ts].
  { cbn [decode_loop]. eexists _, _. split; [by rewrite <- surjective_pairing|apply absent_goods]. }
  inversion_clear Hh. inversion_clear Hs. inversion Ht as [|?? Ht1 Ht2]; subst. cbn [decode_loop]. case_match.
  - unfold anode_decode_option_or_default.
    assert (forall n', keeps n n' -> goods (n :: nodes)
      ('(_, n) ← fails n' (lit "decoded tag did not match expected"); Ok (false, n :: nodes))) as Hf.
    { intros n' Hk. run. eexists _, _. split; [done|]. constructor; [|apply Forall2_keeps_refl]. etrans; [done|].
      apply keeps_data. intros. apply core_failure. }
    destruct (has _ _ || has _ _); [|by apply Hf].
    assert (keeps n (on_data anode_clr_value n)) as Hk by (apply keeps_data; intros; apply core_clr_value).
    destruct nodes as [|m nodes]; [by apply Hf|].
    destruct (IH (t :: ts)) as (ok & cs' & -> & Hcs); [done..|]. run. eexists _, _. split; [done|]. by constructor.
  - destruct (Hrec n t (anode_def_flags (data n))) as (ok & n' & -> & Hk); [done..|]. run.
    destruct ok; cbn [negb].
    + assert (nodes = [] /\ ts <> [] \/ (nodes = [] -> ts = [])) as [[-> Hts]|Hgo].
      { destruct nodes, ts; naive_solver. }
      * destruct ts as [|u ts]; [done|]. run. eexists _, _. split; [done|]. constructor; [|constructor].
        etrans; [done|]. apply keeps_data. intros. apply core_failure.
      * destruct (IH ts) as (ok & cs' & E & Hcs); [done..|]. exists ok, (n' :: cs'). split; [|by constructor].
        destruct nodes, ts; try (rewrite E; done). by specialize (Hgo eq_refl).
    + eexists _, _. split; [done|]. constructor; [done|apply Forall2_keeps_refl].
Qed.

Lemma decode_more_good first tag0 ts : (height first < h)%nat -> schema_ok first = true -> Forall (fun t => tlv_ok t = true) ts ->
  exists ok bad others, decode_more without_tag first tag0 ts = Ok (ok, bad, others) /\ Forall (fun o => keeps first o) others.
Proof.
  intros Hh Hs Ht. induction Ht as [|t ts Ht Hts IH]; cbn [decode_more]; [by eexists _, _, _|].
  case_match; [by eexists _, _, _|].
  destruct (decode_one_good (anode_clone first) t) as (ok & c' & -> & Hc);
    [by rewrite clone_height|by rewrite clone_schema_ok|done|]. run.
  assert (keeps first c') as Hk by (etrans; [apply keeps_clone|done]). destruct ok; cbn [negb].
  - destruct IH as (ok & bad & others & -> & Ho). run. eexists _, _, _. split; [done|]. by constructor.
  - eexists _, _, _. split; [done|]. constructor; [done|constructor].
Qed.

Context (n : GNode) (t : Atlv) (Hn : (height n <= h)%nat) (Hs : schema_ok n = true) (Ht : tlv_ok t = true).

Lemma children_small : Forall (fun c => height c < h)%nat (children n).
Proof. destruct n as [an cs]. apply Forall_forall. intros c Hc. pose proof (height_child an cs c Hc). cbn [children] in *. lia. Qed.

Lemma decode_choice_good : good n (anode_decode_choice without_tag n t).
Proof.
  pose proof children_small as Hh. destruct n as [an cs]. cbn [anode_decode_choice children] in *.
  destruct (choice_loop_goods cs t false) as (ok & cs' & -> & Hk); [done|by apply schema_ok_children in Hs|done|]. run.
  assert (keeps (N an cs) (N an cs')) by by apply keeps_node. case_match; [by apply good_fails|by apply good_Ok].
Qed.

Lemma decode_sequence_good : bool_decide (anode_def_type (data n) = SEQUENCE) || bool_decide (anode_def_type (data n) = SET) = true ->
  good n (anode_decode_sequence_or_set without_tag n t).
Proof.
  pose proof children_small as Hh. destruct n as [an cs]. cbn [anode_decode_sequence_or_set children data] in *. intros Hty.
  case_match; [by apply good_fails|]. apply good_children. unfold anode_decode_anything.
  assert (cs <> []) as Hne.
  { cbn [schema_ok] in Hs. apply andb_true_iff in Hs as [Hm _]. unfold has_members in Hm. rewrite orb_true_iff, !bool_decide_eq_true in Hty.
    destruct Hty as [E|E]; rewrite E in Hm; by destruct cs. }
  rewrite bool_decide_eq_false_2 by done. cbn [negb c_assert]. run.
  apply decode_loop_goods; [done|by apply schema_ok_children in Hs|by apply tlv_ok_children|done].
Qed.

Lemma decode_sequence_of_good : is_of_type (anode_def_type (data n)) = true ->
  good n (anode_decode_sequence_or_set_of without_tag n t).
Proof.
  pose proof children_small as Hh. pose proof (tlv_ok_children t Ht) as Hts. destruct n as [an cs]. cbn [data]. intros Hof.
  cbn [anode_decode_sequence_or_set_of children] in *. destruct cs as [|c cs]; [by apply good_Ok|].
  destruct (child t) as [|ct cts]; [by apply good_Ok|].
  inversion_clear Hts as [|?? Hct Hcts]. inversion_clear Hh as [|?? Hhc Hhcs].
  pose proof (schema_ok_children _ _ Hs) as Hsc. inversion_clear Hsc as [|?? Hsc1 Hsc2].
  destruct (decode_one_good c ct) as (ok & c' & -> & Hc); [done..|]. run.
  destruct ok; cbn [negb]; [|apply good_Ok, keeps_node; [done|constructor; [done|apply Forall2_keeps_refl]]].
  destruct (decode_more_good c' (anode_calc_tag (data c)) cts) as (ok & bad & others & -> & Ho);
    [by rewrite (k_height _ _ Hc)|by apply (k_schema _ _ Hc)|done|]. run.
  assert (keeps (N an (c :: cs)) (N an (c' :: cs ++ others))) as Hk by by apply keeps_list.
  destruct bad; [by apply good_fails|by apply good_Ok].
Qed.

Lemma decode_primitive_good : is_structured t = false -> good n (anode_decode_primitive without_tag n t).
Proof.
  intros Hp. destruct (tlv_ok_primitive t Ht Hp) as [Hc [v Hv]]. unfold anode_decode_primitive.
  rewrite (bool_decide_eq_true_2 (child t = [])) by done. run. unfold decode_bit_string_node. rewrite Hv. run.
  case_bool_decide.
  - repeat case_match; try (by apply good_fails). apply good_becomes. intros. by cores.
  - case_match; [apply good_becomes; intros; by cores|]. case_bool_decide; [by apply good_Ok|].
    case_bool_decide; [apply decode_choice_good|by apply good_fails].
Qed.

Lemma decode_structured_good : good n (anode_decode_structured without_tag n t).
Proof.
  unfold anode_decode_structured.
  destruct (anode_def_type (data n)) eqn:E; first [by apply good_Ok | by apply good_fails | apply decode_choice_good
    | apply decode_sequence_good; by rewrite E | apply decode_sequence_of_good; by rewrite E].
Qed.

End Total.

Lemma not_explicit an flags : has flags FLAG_TAG = false -> is_explicit an flags = false.
Proof. intros H. unfold is_explicit, anode_calc_explicit_for_flags. by rewrite H. Qed.

Lemma has_ldiff flags : has (Z.ldiff flags FLAG_TAG) FLAG_TAG = false.
Proof.
  unfold has. apply negb_false_iff, Z.eqb_eq, Z.bits_inj'. intros i Hi.
  rewrite Z.land_spec, Z.ldiff_spec, Z.bits_0. by destruct (Z.testbit flags i), (Z.testbit FLAG_TAG i).
Qed.

Lemma without_tag_good fuel : forall n t flags, (2 * height n <= fuel + (if has flags FLAG_TAG then 0 else 1))%nat ->
  schema_ok n = true -> tlv_ok t = true -> good n (anode_decode_one_without_tag fuel n t flags).
Proof.
  induction fuel as [|fuel IH]; intros n t flags Hf Hs Ht.
  { destruct n as [an cs]. cbn [height] in Hf. destruct (has _ _); lia. }
  cbn [anode_decode_one_without_tag]. destruct (is_explicit (data n) flags) eqn:Ex.
  - destruct (Z.land (cls (head t)) ASN1_CLASS_CONTEXT_SPECIFIC =? 0); [by apply good_fails|]. pose proof (tlv_ok_children t Ht) as Hts.
    destruct (child t) as [|c [|]]; [by apply good_fails| |by apply good_fails]. inversion_clear Hts.
    destruct (has flags FLAG_TAG) eqn:Hfl; [|by rewrite not_explicit in Ex].
    apply good_mark, IH; [rewrite has_ldiff; lia|done..].
  - assert (forall m t' fl, (height m < height n)%nat -> schema_ok m = true -> tlv_ok t' = true ->
      good m (anode_decode_one_without_tag fuel m t' fl)) as Hrec.
    { intros m t' fl Hm Hsm Ht'. apply IH; [|done..]. destruct (has fl FLAG_TAG), (has flags FLAG_TAG); lia. }
    destruct (is_structured t) eqn:Hst; apply good_mark.
    + by apply (decode_structured_good _ (height n) Hrec).
    + by apply (decode_primitive_good _ (height n) Hrec).
Qed.

Lemma decode_root_good n t : schema_ok n = true -> tlv_ok t = true -> good n (decode_root n t).
Proof.
  intros Hs Ht. unfold decode_root, decode_anything, anode_decode_anything.
  rewrite bool_decide_eq_false_2 by done. cbn [negb c_assert]. run.
  assert (goods [n] (decode_loop (anode_decode_one_without_tag (decode_fuel [n])) [n] [t])) as (ok & cs & -> & Hk).
  { apply (decode_loop_goods _ (S (height n))); [|by constructor; [lia|constructor]|by constructor..|done].
    intros m u flags Hm Hsm Hu. apply without_tag_good; [|done..]. unfold decode_fuel. rewrite fmap_cons, max_list_cons.
    cbn [fmap list_fmap max_list_with]. destruct (has flags FLAG_TAG); lia. }
  run. inversion Hk as [|? n' ? ? Hn']; subst. run. by apply good_Ok.
Qed.

(** * The parser's trees *)

Lemma parser_tlv_ok fuel :
  (forall data at_ c t o l r at', atlv_parse_der_tag fuel data at_ c t o l = Ok (r, at') -> tlv_ok r = true) /\
  (forall data at_ end_ l rs at', parse_children fuel data at_ end_ l = Ok (rs, at') -> Forall (fun r => tlv_ok r = true) rs).
Proof.
  induction fuel as [|fuel [IHt IHc]]; (split; [intros data at_ c t o l r at'|intros data at_ end_ l rs at']); cbn [atlv_parse_der_tag parse_children].
  - done.
  - case_match; [done|]. intros [= <- <-]. constructor.
  - intros H. apply bind_Ok in H as (? & _ & H). apply bind_Ok in H as (? & _ & H). apply bind_Ok in H as (? & _ & H).
    destruct (Z.land c ASN1_CLASS_STRUCTURED =? 0) eqn:Ec; cbn [negb] in H.
    + apply bind_Ok in H as (v & _ & H). apply bind_Ok in H as (d & _ & H). injection H as <- <-.
      cbn [tlv_ok cls parsed_head]. by rewrite Ec.
    + apply bind_Ok in H as ([cs a] & Hcs & H). apply bind_Ok in H as (d & _ & H). injection H as <- <-.
      cbn [tlv_ok cls parsed_head]. rewrite Ec. cbn [negb orb andb]. apply forallb_forall. intros y Hy.
      apply IHc in Hcs. rewrite Forall_forall in Hcs. by apply Hcs, list_elem_of_In.
  - case_match; [|intros [= <- <-]; constructor]. intros Hp. apply bind_Ok in Hp as (r & _ & Hp).
    destruct r as [[[[cc ct] co] cl]|]; [|done]. case_match; [injection Hp as <- <-; constructor|].
    apply bind_Ok in Hp as ([c a] & Hc & Hp). apply bind_Ok in Hp as ([cs b] & Hcs & Hp). injection Hp as <- <-.
    constructor; [by eapply IHt|by eapply IHc].
Qed.

Lemma atlv_parse_der_tlv_ok data t : atlv_parse_der data = Ok t -> tlv_ok t = true.
Proof.
  unfold atlv_parse_der. intros H. apply bind_Ok in H as (r & _ & H). destruct r as [[[[c tg] o] l]|]; [|done].
  apply bind_Ok in H as ([u a] & Hu & H). case_match; [done|]. injection H as <-. by eapply (proj1 (parser_tlv_ok _)).
Qed.

(** * Trees and TLVs that match *)

(** The children of a sequence and the TLVs: a node takes a TLV, or has none, when it
    is optional and the next TLV is not its own. *)
Inductive members (R : GNode -> Atlv -> Prop) : list GNode -> list Atlv -> Prop :=
  | members_nil : members R [] []
  | members_skip n ns ts : fresh n ->
      has (anode_def_flags (data n)) FLAG_OPTION || has (anode_def_flags (data n)) FLAG_DEFAULT = true ->
      match ts with [] => True | t :: _ => expected_tag n (anode_def_flags (data n)) t <> tag (head t) end ->
      members R ns ts -> members R (n :: ns) ts
  | members_take n ns t ts : R n t -> members R ns ts -> members R (n :: ns) (t :: ts).

(** The elements of a list: those with data are those of the TLV. *)
Inductive elements (R : GNode -> Atlv -> Prop) : list GNode -> list Atlv -> Prop :=
  | elements_nil : elements R [] []
  | elements_skip n ns ts : fresh n -> elements R ns ts -> elements R (n :: ns) ts
  | elements_take n ns t ts : R n t -> elements R ns ts -> elements R (n :: ns) (t :: ts).

(** The contents of a node of each type, from the TLV behind its explicit tag. *)
Inductive contents (R : GNode -> Atlv -> Prop) (an : Anode) (cs : list GNode) (c : Atlv) : Prop :=
  | contents_plain v : is_structured c = false -> is_plain_type (anode_def_type an) = true ->
      value c = Some v -> an_value an = Some v -> contents R an cs c
  | contents_bits e v : is_structured c = false -> anode_def_type an = BIT_STRING ->
      value c = Some (e :: v) -> anode_decode_bit_string (e :: v) = Some (v, e) ->
      an_value an = Some v -> an_bits_empty an = e -> contents R an cs c
  | contents_any : anode_def_type an = ANY -> an_value an = None -> contents R an cs c
  | contents_pieces : is_structured c = true -> is_string_type (anode_def_type an) = true ->
      an_value an = None -> contents R an cs c
  | contents_choice : anode_def_type an = CHOICE -> Exists (fun d => chosen (data d) = true) cs ->
      Forall (fun d => chosen (data d) = true -> R d c) cs -> contents R an cs c
  | contents_members : is_structured c = true -> anode_def_type an = SEQUENCE \/ anode_def_type an = SET ->
      (anode_def_type an = SET -> ascending None (child c) = true) ->
      members R cs (child c) -> contents R an cs c
  | contents_elements : is_structured c = true -> is_of_type (anode_def_type an) = true ->
      elements R cs (child c) -> contents R an cs c.

(** The TLV behind the explicit tag of a node, if it has one. *)
Definition wraps (an : Anode) (flags : Z) (t c : Atlv) : Prop :=
  if is_explicit an flags then Z.land (cls (head t)) ASN1_CLASS_CONTEXT_SPECIFIC <> 0 /\ child t = [c] else c = t.

Inductive matched : GNode -> Atlv -> Prop :=
  | matched_node an cs t c :
      parsed an = Some t ->
      expected_tag (N an cs) (anode_def_flags an) t = tag (head t) ->
      wraps an (anode_def_flags an) t c ->
      contents matched an cs c ->
      matched (N an cs) t.

Lemma members_mono (R S : GNode -> Atlv -> Prop) ns ts : (forall n t, R n t -> S n t) -> members R ns ts -> members S ns ts.
Proof. intros H. induction 1; [constructor|apply members_skip; auto|apply members_take; auto]. Qed.

(** Decoding a list of fresh nodes: nodes stay fresh or get their TLV. *)
Definition decoded_as (R : GNode -> Atlv -> Prop) (rec : GNode -> Atlv -> Z -> res unit (bool * GNode)) : Prop :=
  forall n t n', fresh n -> expected_tag n (anode_def_flags (data n)) t = tag (head t) ->
    rec n t (anode_def_flags (data n)) = Ok (true, n') -> R n' t.

Lemma contents_same R an an' cs c : core an' = core an -> an_value an' = an_value an -> an_bits_empty an' = an_bits_empty an ->
  contents R an cs c -> contents R an' cs c.
Proof.
  intros Hc Hv Hb H. pose proof (core_def_type _ _ Hc) as Ht.
  destruct H; [eapply contents_plain|eapply contents_bits|eapply contents_any|eapply contents_pieces
    |eapply contents_choice|eapply contents_members|eapply contents_elements]; rewrite ?Ht, ?Hv, ?Hb; done.
Qed.

Section Matched.
Context (rec : GNode -> Atlv -> Z -> res unit (bool * GNode)) (Hrec : decoded_as matched rec).

Lemma decode_one_matched n t n' : fresh n -> anode_decode_one rec n t = Ok (true, n') -> matched n' t.
Proof.
  intros Hf. unfold anode_decode_one. destruct (Z.eqb_spec (expected_tag n (anode_def_flags (data n)) t) (tag (head t))); cbn [negb]; [|done].
  by apply Hrec.
Qed.

Lemma matched_set_chosen n t b : matched n t -> matched (on_data (fun an => set_chosen an b) n) t.
Proof.
  inversion_clear 1 as [an cs ? c Hp He Hw Hc]. cbn [on_data]. apply (matched_node _ _ _ c); [done|done|done|].
  eapply contents_same; [apply core_set_chosen|done|done|done].
Qed.

Lemma choice_loop_matched cs t : forall have have' cs', Forall fresh cs -> choice_loop rec cs t have = Ok (have', cs') ->
  Forall (fun d => chosen (data d) = true -> matched d t) cs' /\
  (have' = true -> have = true \/ Exists (fun d => chosen (data d) = true) cs').
Proof.
  induction cs as [|c cs IH]; intros have have' cs' Hf; cbn [choice_loop].
  { intros [= <- <-]. split; [constructor|]. by left. }
  inversion_clear Hf as [|?? Hfc Hfcs]. intros H. apply bind_Ok in H as ([ok c'] & Hc & H). apply bind_Ok in H as ([hv cs1] & Hcs & H).
  injection H as <- <-. destruct (IH _ _ _ Hfcs Hcs) as [Hall Hex]. split.
  - constructor; [|done]. rewrite data_on_data. intros Hch.
    assert (ok = true) as -> by by destruct (data c'). by apply matched_set_chosen, (decode_one_matched c).
  - intros ->. destruct (Hex eq_refl) as [Ho|He]; [|right; by apply Exists_cons_tl]. apply orb_true_iff in Ho as [->| ->]; [by left|].
    right. apply Exists_cons_hd. rewrite data_on_data. by destruct (data c').
Qed.

Lemma fresh_clr n : fresh n -> fresh (on_data anode_clr_value n).
Proof. destruct n as [an cs]. cbn [on_data]. rewrite !fresh_intro. tauto. Qed.

Lemma absent_members ns : Forall fresh ns -> forall ns', decode_absent ns = (true, ns') -> members matched ns' [].
Proof.
  induction 1 as [|n ns Hn Hns IH]; intros ns'; cbn [decode_absent]; [intros [= <-]; constructor|].
  unfold anode_decode_option_or_default. destruct (has _ _ || has _ _) eqn:Eo; [|done].
  destruct (decode_absent ns) as [ok ns1]. intros [= -> <-].
  apply members_skip; [by apply fresh_clr| |done|by apply IH]. rewrite data_on_data.
  rewrite (core_def_flags (anode_clr_value (data n)) (data n)) by cores. done.
Qed.

Lemma expected_tag_core n n' flags t : core (data n) = core (data n') -> expected_tag n flags t = expected_tag n' flags t.
Proof. intros H. unfold expected_tag. by rewrite (core_calc_tag _ _ flags H). Qed.

Lemma decode_loop_members ns : forall ts ns', Forall fresh ns -> decode_loop rec ns ts = Ok (true, ns') -> members matched ns' ts.
Proof.
  induction ns as [|n ns IH]; intros ts ns' Hf.
  { destruct ts; cbn [decode_loop]; [|done]. intros [= <-]. constructor. }
  destruct ts as [|t ts].
  { cbn [decode_loop]. intros [= H]. by apply (absent_members _ Hf). }
  inversion_clear Hf as [|?? Hfn Hfns]. cbn [decode_loop].
  destruct (Z.eqb_spec (expected_tag n (anode_def_flags (data n)) t) (tag (head t))) as [Et|Et]; cbn [negb].
  - intros H. apply bind_Ok in H as ([ok n'] & Hn & H). destruct ok; cbn [negb] in H; [|done].
    assert (exists ns1, decode_loop rec ns ts = Ok (true, ns1) /\ ns' = n' :: ns1) as (ns1 & Hl & ->).
    { destruct ns, ts; try done; apply bind_Ok in H as ([ok ns1] & Hl & H); injection H as -> <-; by exists ns1. }
    apply members_take; [by eapply Hrec|by apply IH].
  - unfold anode_decode_option_or_default. destruct (has _ _ || has _ _) eqn:Eo; [|done]. destruct ns as [|m ns]; [done|].
    intros H. apply bind_Ok in H as ([ok ns1] & Hl & H). injection H as -> <-.
    apply members_skip; [by apply fresh_clr| | |by apply IH];
      rewrite data_on_data, (core_def_flags (anode_clr_value (data n)) (data n)) by cores; [done|].
    by rewrite (expected_tag_core _ n) by (rewrite data_on_data; cores).
Qed.

Lemma decode_more_elements first tag0 ts : forall bad others, decode_more rec first tag0 ts = Ok (true, bad, others) ->
  bad = false /\ elements matched others ts.
Proof.
  induction ts as [|t ts IH]; intros bad others; cbn [decode_more]; [intros [= <- <-]; split; constructor|].
  case_match; [done|]. intros H'. apply bind_Ok in H' as ([ok o] & Ho & H'). destruct ok; cbn [negb] in H'; [|done].
  apply bind_Ok in H' as ([[ok bad'] os] & Hos & H'). injection H' as -> -> <-. destruct (IH _ _ Hos) as [-> He].
  split; [done|]. apply elements_take; [|done]. eapply decode_one_matched; [apply clone_fresh|done].
Qed.

Lemma elements_fresh ns others ts : Forall fresh ns -> elements matched others ts -> elements matched (ns ++ others) ts.
Proof. intros H He. induction H; [done|]. by apply elements_skip. Qed.

(** A true result has the contents of the TLV, in a node with the same definitions. *)
Definition has_contents (n : GNode) (c : Atlv) (r : res unit (bool * GNode)) : Prop :=
  forall n', r = Ok (true, n') -> core (data n') = core (data n) /\ contents matched (data n') (children n') c.

Lemma decode_choice_contents n c : fresh n -> anode_def_type (data n) = CHOICE -> has_contents n c (anode_decode_choice rec n c).
Proof.
  intros Hf Ht n'. destruct n as [an cs]. apply fresh_intro in Hf as (_ & _ & Hf). cbn [anode_decode_choice].
  intros H. apply bind_Ok in H as ([have cs'] & Hl & H). destruct (choice_loop_matched _ _ _ _ _ Hf Hl) as [Hall Hex].
  destruct have; cbn [negb] in H; [|done]. injection H as <-. split; [done|]. apply contents_choice; [done| |done].
  by destruct (Hex eq_refl).
Qed.

Lemma decode_primitive_contents n c : fresh n -> is_structured c = false -> has_contents n c (anode_decode_primitive rec n c).
Proof.
  intros Hf Hs n'. unfold anode_decode_primitive. intros H. apply bind_Ok in H as (? & _ & H). case_bool_decide as Eb.
  - unfold decode_bit_string_node in H. apply bind_Ok in H as (buf & Hb & H). apply or_ub_Ok in Hb.
    destruct buf as [|e v]; [done|]. assert (anode_decode_bit_string (e :: v) = Some (v, e) /\ n' = on_data (fun an => set_bits_empty (anode_take_value an v) e) n) as [Hd ->].
    { unfold anode_decode_bit_string. repeat case_match; try done. by injection H as <-. }
    destruct n as [an cs]. split; [by cores|]. by eapply contents_bits.
  - destruct (is_plain_type _) eqn:Ep.
    + apply bind_Ok in H as (v & Hv & H). apply or_ub_Ok in Hv. injection H as <-. destruct n as [an cs].
      split; [by cores|]. by eapply contents_plain.
    + case_bool_decide.
      * injection H as <-. split; [done|]. destruct n as [an cs]. apply fresh_intro in Hf as (? & ? & _). by apply contents_any.
      * case_bool_decide; [by apply decode_choice_contents in H|done].
Qed.

Lemma decode_structured_contents n c : fresh n -> is_structured c = true -> has_contents n c (anode_decode_structured rec n c).
Proof.
  intros Hf Hs n' H. unfold anode_decode_structured in H. destruct n as [an cs]. pose proof (proj1 (fresh_intro _ _) Hf) as (Hv & _ & Hcs).
  assert (is_string_type (anode_def_type an) = true -> core (data (N an cs)) = core an /\ contents matched an cs c) as Hstr
    by (split; [done|by apply contents_pieces]).
  assert (anode_def_type an = SEQUENCE \/ anode_def_type an = SET -> anode_decode_sequence_or_set rec (N an cs) c = Ok (true, n') ->
    core (data n') = core an /\ contents matched (data n') (children n') c) as Hseq.
  { intros Hty Hd. cbn [anode_decode_sequence_or_set] in Hd. case_match eqn:Ea; [done|].
    apply bind_Ok in Hd as ([ok cs'] & Hd & E). injection E as -> <-. split; [done|]. apply contents_members; [done|done| |].
    - intros Ht. cbn [data] in *. rewrite bool_decide_eq_true_2 in Ea by done. by destruct (ascending _ _).
    - unfold anode_decode_anything in Hd. apply bind_Ok in Hd as (? & _ & Hd). by eapply decode_loop_members. }
  assert (is_of_type (anode_def_type an) = true -> anode_decode_sequence_or_set_of rec (N an cs) c = Ok (true, n') ->
    core (data n') = core an /\ contents matched (data n') (children n') c) as Hof.
  { intros Hty Hd. cbn [anode_decode_sequence_or_set_of] in Hd. destruct cs as [|d cs]; [done|].
    inversion_clear Hcs as [|?? Hfd Hfcs]. destruct (child c) as [|ct cts] eqn:Ec.
    - injection Hd as <-. split; [done|]. apply contents_elements; [done|done|]. rewrite Ec. cbn [children].
      apply elements_skip; [done|]. rewrite <- (app_nil_r cs). apply elements_fresh; [done|constructor].
    - apply bind_Ok in Hd as ([ok d'] & Hd1 & Hd). destruct ok; cbn [negb] in Hd; [|done].
      apply bind_Ok in Hd as ([[ok bad] others] & Hm & Hd). destruct bad; [done|]. injection Hd as -> <-.
      destruct (decode_more_elements _ _ _ _ _ Hm) as [_ He]. split; [done|]. apply contents_elements; [done|done|]. rewrite Ec. cbn [children].
      apply elements_take; [by eapply decode_one_matched|by apply elements_fresh]. }
  cbn [data] in *. destruct (anode_def_type an) eqn:E; try done;
    try (injection H as <-; by apply Hstr); try (by apply Hseq; auto); try (by apply Hof; auto).
  - injection H as <-. split; [done|]. by apply contents_any.
  - by apply decode_choice_contents in H.
Qed.

End Matched.

Lemma mark_parsed_Ok t (r : res unit (bool * GNode)) n' : mark_parsed t <$> r = Ok (true, n') -> exists m, r = Ok (true, m) /\ n' = on_data (fun an => set_parsed an t) m.
Proof. destruct r as [[ok m]| |]; [|done..]. destruct ok; [|done]. intros [= <-]. by exists m. Qed.

Lemma without_tag_step fuel n c flags n' : decoded_as matched (anode_decode_one_without_tag fuel) -> fresh n ->
  is_explicit (data n) flags = false -> anode_decode_one_without_tag (S fuel) n c flags = Ok (true, n') ->
  core (data n') = core (data n) /\ contents matched (data n') (children n') c /\ parsed (data n') = Some c.
Proof.
  intros Hrec Hf Hex. cbn [anode_decode_one_without_tag]. rewrite Hex. destruct (is_structured c) eqn:Es.
  - intros H. apply mark_parsed_Ok in H as (m & H & ->). destruct (decode_structured_contents _ Hrec _ _ Hf Es _ H) as [Hc Hk].
    rewrite data_on_data, children_on_data. split_and!; [by cores|by eapply contents_same; [..|exact Hk]; cores|done].
  - intros H. apply mark_parsed_Ok in H as (m & H & ->). destruct (decode_primitive_contents _ Hrec _ _ Hf Es _ H) as [Hc Hk].
    rewrite data_on_data, children_on_data. split_and!; [by cores|by eapply contents_same; [..|exact Hk]; cores|done].
Qed.

Lemma matched_intro n n' t c : core (data n') = core (data n) -> parsed (data n') = Some t ->
  expected_tag n (anode_def_flags (data n)) t = tag (head t) -> wraps (data n) (anode_def_flags (data n)) t c ->
  contents matched (data n') (children n') c -> matched n' t.
Proof.
  intros Hc Hp He Hw Hk. pose proof (core_def_flags _ _ Hc) as Hfl. destruct n' as [an' cs']. cbn [data children] in *.
  apply (matched_node _ _ _ c); [done| | |done]; rewrite Hfl.
  - by rewrite (expected_tag_core _ n).
  - unfold wraps, is_explicit in *. by rewrite (core_explicit _ _ _ Hc).
Qed.

Lemma without_tag_matched fuel : decoded_as matched (anode_decode_one_without_tag fuel).
Proof.
  induction fuel as [fuel IH] using lt_wf_ind. intros n t n' Hf Het H. destruct fuel as [|fuel]; [done|].
  destruct (is_explicit (data n) (anode_def_flags (data n))) eqn:Ex.
  - cbn [anode_decode_one_without_tag] in H. rewrite Ex in H. destruct (Z.eqb_spec (Z.land (cls (head t)) ASN1_CLASS_CONTEXT_SPECIFIC) 0); [done|].
    destruct (child t) as [|c [|]] eqn:Ec; [done| |done]. apply mark_parsed_Ok in H as (m & H & ->).
    destruct fuel as [|fuel]; [done|].
    apply without_tag_step in H as (Hc & Hk & Hp); [|apply IH; lia|done|apply not_explicit, has_ldiff].
    apply (matched_intro n _ t c); rewrite ?data_on_data, ?children_on_data; [by cores|done|done| |].
    + unfold wraps. by rewrite Ex.
    + by eapply contents_same; [..|exact Hk]; cores.
  - apply without_tag_step in H as (Hc & Hk & Hp); [|apply IH; lia|done|done].
    apply (matched_intro n _ t t); [done|done|done|unfold wraps; by rewrite Ex|done].
Qed.

Lemma decode_root_matched n t n' : fresh n -> decode_root n t = Ok (true, n') -> matched n' t.
Proof.
  intros Hf H. unfold decode_root in H. apply bind_Ok in H as ([ok ns] & H & E). apply bind_Ok in E as (m & Hm & E). injection E as -> ->.
  unfold decode_anything, anode_decode_anything in H. apply bind_Ok in H as (? & _ & H).
  cbn [decode_loop] in H. destruct (Z.eqb_spec (expected_tag n (anode_def_flags (data n)) t) (tag (head t))) as [Et|]; cbn [negb] in H.
  - apply bind_Ok in H as ([ok n1] & H & E). destruct ok; [|done]. injection E as <-. injection Hm as ->.
    by apply (without_tag_matched _ _ _ _ Hf Et H).
  - unfold anode_decode_option_or_default in H. destruct (has _ _ || has _ _); discriminate H.
Qed.
