(* ===== verification/Asn1ValidateSpec.v ===== *)
(** What validation decides: [well_typed], a type system for node trees. *)

From S2P Require Import Prelude Text Asn1Tlv Asn1Value Asn1Node Asn1Schema Asn1Create Asn1Decode.
Local Open Scope Z_scope.

(** * Types of values *)

(** The size that a definition allows.  The upper bound is not allowed. *)
Definition size_typed (an : Anode) (length : Z) : Prop :=
  has (anode_def_flags an) FLAG_SIZE = true ->
  exists d v1, anode_opt_lookup an SIZE None = Some d /\ parse_size an (def_value d) = Ok (Some v1) /\
    if has (def_type d) FLAG_MIN_MAX
    then exists v2, parse_size an (def_name d) = Ok (Some v2) /\ v1 <= length < v2
    else length = v1.

(** [val] is one of the constants; a constant that is not a number ends the list. *)
Definition among (constants : list EggAsn1xDef) (val : Z) : Prop :=
  exists pre d post, constants = pre ++ d :: post /\ anode_def_value_as_ulong d = val /\
    Forall (fun e => anode_def_value_as_ulong e <> G_MAXULONG) (pre ++ [d]).

Definition integer_typed (an : Anode) (v : list Z) : Prop :=
  v <> [] /\
  (has (anode_def_flags an) FLAG_LIST = true ->
   exists val, anode_read_integer_ulong v = Ok (Some val) /\ among (anode_opts_lookup an CONSTANT None) val).

Definition value_typed (this_year : Z) (an : Anode) (v : list Z) : Prop :=
  match anode_def_type an with
  | INTEGER => integer_typed an v
  | ENUMERATED => Z.land (default 0 (hd_error v)) 0x80 = 0 /\ integer_typed an v
  | BOOLEAN => v = [0x00] \/ v = [0xFF]
  | BIT_STRING | BMP_STRING | UNIVERSAL_STRING => True
  | OCTET_STRING | GENERAL_STRING | NUMERIC_STRING | IA5_STRING | TELETEX_STRING
  | PRINTABLE_STRING | UTF8_STRING | VISIBLE_STRING => size_typed an (Zlen v)
  | OBJECT_ID => exists oid, anode_read_object_id v = Ok (Some oid)
  | NULL => v = []
  | TIME | UTC_TIME | GENERALIZED_TIME => exists t, anode_read_time this_year an v = Ok (Some t)
  | _ => False
  end.

Definition with_data (cs : list GNode) : Z := u64 (Zlen (List.filter egg_asn1x_have cs)).

Definition is_optional (an : Anode) : bool := has (anode_def_flags an) FLAG_OPTION.

(** A type without children. *)
Definition is_leaf_type (t : EggAsn1xType) : bool :=
  match t with CHOICE | SEQUENCE | SET | SEQUENCE_OF | SET_OF => false | _ => true end.

Inductive well_typed (y : Z) : GNode -> Prop :=
  | wt_choice an pre c post : anode_def_type an = CHOICE -> chosen (data c) = true -> well_typed y c ->
      Forall (fun d => chosen (data d) = false) (pre ++ post) -> well_typed y (N an (pre ++ c :: post))
  | wt_members an cs : anode_def_type an = SEQUENCE \/ anode_def_type an = SET ->
      Forall (well_typed y) cs -> well_typed y (N an cs)
  | wt_no_members an cs : anode_def_type an = SEQUENCE \/ anode_def_type an = SET ->
      is_optional an = true -> fresh (N an cs) -> well_typed y (N an cs)
  | wt_elements an cs : is_of_type (anode_def_type an) = true -> Forall (fun c => fresh c \/ well_typed y c) cs ->
      (with_data cs = 0 /\ is_optional an = true) \/ size_typed an (with_data cs) -> well_typed y (N an cs)
  | wt_value an cs v : is_leaf_type (anode_def_type an) = true -> an_value an = Some v -> value_typed y an v -> well_typed y (N an cs)
  | wt_parsed an cs t : anode_def_type an = ANY \/ is_string_type (anode_def_type an) = true ->
      an_value an = None -> parsed an = Some t -> well_typed y (N an cs)
  | wt_missing an cs : is_leaf_type (anode_def_type an) = true -> an_value an = None ->
      is_optional an = true \/ has (anode_def_flags an) FLAG_DEFAULT = true -> well_typed y (N an cs).

(** * The checks of values *)

Lemma validate_size_iff an l : anode_validate_size an l = Ok Valid <-> size_typed an l.
Proof.
  unfold anode_validate_size, size_typed. destruct (has (anode_def_flags an) FLAG_SIZE); cbn [negb]; [|by split].
  destruct (anode_opt_lookup an SIZE None) as [d|]; [|split; [done|intros H; destruct (H eq_refl) as (? & ? & ? & _); done]].
  split.
  - intros H _. apply bind_Ok in H as (v1 & H1 & H). destruct v1 as [v1|]; [|done]. exists d, v1. split_and!; [done|done|].
    destruct (has (def_type d) FLAG_MIN_MAX).
    + apply bind_Ok in H as (v2 & H2 & H). destruct v2 as [v2|]; [|done]. exists v2. split; [done|].
      destruct (Z.ltb_spec l v1), (Z.leb_spec v2 l); done.
    + by destruct (Z.eqb_spec l v1).
  - intros H. destruct (H eq_refl) as (d' & v1 & [= <-] & H1 & H2). rewrite H1. run.
    destruct (has (def_type d) FLAG_MIN_MAX).
    + destruct H2 as (v2 & H2 & Hl). rewrite H2. run. destruct (Z.ltb_spec l v1), (Z.leb_spec v2 l); try lia. done.
    + subst. by rewrite Z.eqb_refl.
Qed.

Lemma listed_iff cs val : listed cs val = Valid <-> among cs val.
Proof.
  induction cs as [|d cs IH]; cbn [listed].
  { split; [done|]. intros (pre & e & post & E & _). by destruct pre. }
  destruct (Z.eqb_spec (anode_def_value_as_ulong d) G_MAXULONG) as [Em|Em].
  { split; [done|]. intros (pre & e & post & E & _ & Hf). destruct pre as [|p pre]; injection E as <- _; by inversion Hf. }
  destruct (Z.eqb_spec (anode_def_value_as_ulong d) val) as [Ev|Ev].
  { split; [|done]. intros _. exists [], d, cs. split_and!; [done|done|by constructor]. }
  rewrite IH. split.
  - intros (pre & e & post & -> & He & Hf). exists (d :: pre), e, post. split_and!; [done|done|by constructor].
  - intros (pre & e & post & E & He & Hf). destruct pre as [|p pre]; injection E as <- E; [done|].
    exists pre, e, post. split_and!; [done|done|by inversion Hf].
Qed.

Lemma validate_integer_iff an v : anode_validate_integer an v = Ok Valid <-> integer_typed an v.
Proof.
  unfold anode_validate_integer, integer_typed. destruct v as [|b v]; [by split; [|intros []]|].
  assert ((Zlen (b :: v) =? 0) = false) as -> by (cbn [length]; apply Z.eqb_neq; lia).
  destruct (has (anode_def_flags an) FLAG_LIST); [|by split].
  split.
  - intros H. apply bind_Ok in H as (r & Hr & H). split; [done|]. intros _. destruct r as [val|]; [|done].
    exists val. split; [done|]. apply listed_iff. by injection H.
  - intros [_ H]. destruct (H eq_refl) as (val & -> & Ha). run. by apply listed_iff in Ha as ->.
Qed.

Lemma validate_boolean_iff v : anode_validate_boolean v = Valid <-> v = [0x00] \/ v = [0xFF].
Proof.
  unfold anode_validate_boolean. destruct v as [|b [|]]; [naive_solver| |naive_solver].
  destruct (Z.eqb_spec b 0x00), (Z.eqb_spec b 0xFF); cbn [negb andb]; naive_solver.
Qed.

Lemma validate_string_eq an v : anode_validate_string an v = anode_validate_size an (Zlen v).
Proof. done. Qed.

Lemma validate_object_id_iff v : anode_validate_object_id v = Ok Valid <-> exists oid, anode_read_object_id v = Ok (Some oid).
Proof.
  unfold anode_validate_object_id. split.
  - intros H. apply bind_Ok in H as ([oid|] & -> & H); [by exists oid|done].
  - intros [oid ->]. done.
Qed.

Lemma validate_time_iff y an v : anode_validate_time y an v = Ok Valid <-> exists t, anode_read_time y an v = Ok (Some t).
Proof.
  unfold anode_validate_time. split.
  - intros H. apply bind_Ok in H as ([t|] & -> & H); [by exists t|by destruct (is_time an)].
  - intros [t ->]. done.
Qed.

Lemma validate_value_iff y an v : validate_value y an v = Ok Valid <-> value_typed y an v.
Proof.
  unfold validate_value, value_typed. destruct (anode_def_type an);
    rewrite ?validate_string_eq, ?validate_size_iff, ?validate_object_id_iff, ?validate_time_iff, ?validate_integer_iff; try done.
  - rewrite <- validate_boolean_iff. split; [by intros [= H]|by intros ->].
  - unfold anode_validate_null. by destruct v.
  - unfold anode_validate_enumerated. destruct (Z.eqb_spec (Z.land (default 0 (hd_error v)) 0x80) 0); cbn [negb];
      [rewrite validate_integer_iff; tauto|by split; [|intros []]].
Qed.

(** * Trees *)

Lemma verdict_true n v n' : verdict n v = (true, n') <-> v = Valid /\ n' = n.
Proof. destruct v as [|[m|]]; cbn [verdict]; (split; [intros [= ?]|intros [? ?]]); by subst. Qed.

Lemma verdict_Ok n r n' : verdict n <$> r = Ok (true, n') <-> r = (Ok Valid : res unit Verdict) /\ n' = n.
Proof.
  destruct r as [v| |]; cbn; [|naive_solver..]. split.
  - intros [= H]. apply verdict_true in H as [-> ->]. done.
  - intros [[= ->] ->]. done.
Qed.

Lemma validate_missing_iff an : validate_missing an = Valid <->
  (is_Some (parsed an) /\ (anode_def_type an = ANY \/ is_string_type (anode_def_type an) = true)) \/
  is_optional an = true \/ has (anode_def_flags an) FLAG_DEFAULT = true.
Proof.
  unfold validate_missing, is_optional. destruct (bool_decide_reflect (is_Some (parsed an))); cbn [andb].
  - destruct (bool_decide_reflect (anode_def_type an = ANY)); cbn [orb]; [naive_solver|].
    destruct (is_string_type (anode_def_type an)); [naive_solver|]. repeat case_match; naive_solver.
  - repeat case_match; naive_solver.
Qed.

Section Loops.
Context (go : GNode -> res unit (bool * GNode)) (P : GNode -> Prop).

Lemma validate_all_iff cs : Forall (fun c => forall c', go c = Ok (true, c') <-> P c /\ c' = c) cs ->
  forall cs', validate_all go cs = Ok (true, cs') <-> Forall P cs /\ cs' = cs.
Proof.
  induction 1 as [|c cs Hc _ IH]; intros cs'; cbn [validate_all].
  { split; [intros [= <-]; split; [constructor|done]|by intros [_ ->]]. }
  split.
  - intros H. apply bind_Ok in H as ([ok c1] & Hg & H). destruct ok; cbn [negb] in H; [|done].
    apply bind_Ok in H as ([ok cs1] & Hl & H). injection H as -> <-. apply Hc in Hg as [HP ->]. apply IH in Hl as [HPs ->].
    split; [by constructor|done].
  - intros [HP ->]. inversion_clear HP as [|?? Hp Hps]. rewrite (proj2 (Hc c)) by done. run. by rewrite (proj2 (IH cs)) by done.
Qed.

Lemma validate_having_iff cs : Forall (fun c => forall c', go c = Ok (true, c') <-> P c /\ c' = c) cs ->
  forall k count cs', validate_having go cs k = Ok (true, count, cs') <->
    Forall (fun c => fresh c \/ P c) cs /\ cs' = cs /\
    (count = foldr (fun c (f : Z -> Z) k => f (if egg_asn1x_have c then u64 (k + 1) else k)) id cs k).
Proof.
  induction 1 as [|c cs Hc _ IH]; intros k count cs'; cbn [validate_having foldr].
  { split; [intros [= <- <-]; split_and!; [constructor|done|done]|by intros (_ & -> & ->)]. }
  unfold fresh in *. destruct (egg_asn1x_have c) eqn:Eh.
  - split.
    + intros H. apply bind_Ok in H as ([ok c1] & Hg & H). destruct ok; cbn [negb] in H; [|done].
      apply bind_Ok in H as ([[ok n] cs1] & Hl & H). injection H as -> -> <-. apply Hc in Hg as [HP ->].
      apply IH in Hl as (HPs & -> & ->). split_and!; [constructor; [by right|done]|done|done].
    + intros (HP & -> & ->). inversion_clear HP as [|?? Hp Hps]. destruct Hp as [Hp|Hp]; [congruence|].
      rewrite (proj2 (Hc c)) by done. run. cbn [negb]. by rewrite (proj2 (IH _ _ cs)) by done.
  - split.
    + intros H. apply bind_Ok in H as ([[ok n] cs1] & Hl & H). injection H as -> -> <-. apply IH in Hl as (HPs & -> & ->).
      split_and!; [constructor; [by left|done]|done|done].
    + intros (HP & -> & ->). inversion_clear HP as [|?? Hp Hps]. by rewrite (proj2 (IH _ _ cs)) by done.
Qed.

Lemma count_with_data cs : forall k, foldr (fun c (f : Z -> Z) k => f (if egg_asn1x_have c then u64 (k + 1) else k)) id cs (u64 k) =
  u64 (k + Zlen (List.filter egg_asn1x_have cs)).
Proof.
  induction cs as [|c cs IH]; intros k; cbn [foldr List.filter]; [cbn [length]; unfold id; f_equal; lia|].
  destruct (egg_asn1x_have c); [|by rewrite IH].
  assert (u64 (u64 k + 1) = u64 (k + 1)) as -> by (unfold u64; by rewrite Zplus_mod_idemp_l).
  rewrite IH. f_equal. cbn [length]. lia.
Qed.

Lemma validate_chosen_iff cs : Forall (fun c => forall c', go c = Ok (true, c') <-> P c /\ c' = c) cs ->
  forall cs', validate_chosen go cs = Ok (Some (true, cs')) <->
    cs' = cs /\ exists pre c post, cs = pre ++ c :: post /\ Forall (fun d => chosen (data d) = false) pre /\ chosen (data c) = true /\ P c.
Proof.
  induction 1 as [|c cs Hc _ IH]; intros cs'; cbn [validate_chosen].
  { split; [done|]. intros (-> & pre & c & post & E & _). by destruct pre. }
  destruct (chosen (data c)) eqn:Ec.
  - split.
    + intros H. apply bind_Ok in H as ([ok c1] & Hg & [= -> <-]). apply Hc in Hg as [HP ->]. split; [done|].
      by exists [], c, cs.
    + intros (-> & pre & d & post & E & Hp & Hd & HP). destruct pre as [|p pre]; injection E as <- E.
      * by rewrite (proj2 (Hc c)) by done.
      * inversion_clear Hp. congruence.
  - split.
    + intros H. apply bind_Ok in H as (r & Hr & [= H]). destruct r as [[ok cs1]|]; [|done]. injection H as -> <-.
      apply IH in Hr as (-> & pre & d & post & -> & Hp & Hd & HP). split; [done|]. exists (c :: pre), d, post. split_and!; [done|by constructor|done|done].
    + intros (-> & pre & d & post & E & Hp & Hd & HP). destruct pre as [|p pre]; injection E as <- E; [congruence|].
      inversion_clear Hp. by rewrite (proj2 (IH cs)) by naive_solver.
Qed.

End Loops.

Lemma filter_chosen_one pre c post : chosen (data c) = true -> Forall (fun d => chosen (data d) = false) pre ->
  (1 <? Zlen (List.filter (fun d => chosen (data d)) (pre ++ c :: post))) = false <-> Forall (fun d => chosen (data d) = false) (pre ++ post).
Proof.
  intros Hc Hp. rewrite List.filter_app. cbn [List.filter]. rewrite Hc.
  assert (forall l, length (List.filter (fun d => chosen (data d)) l) = 0%nat <-> Forall (fun d => chosen (data d) = false) l) as Hl.
  { induction l as [|d l IH]; cbn [List.filter]; [by split; [constructor|]|]. rewrite Forall_cons, <- IH.
    destruct (chosen (data d)); cbn [length]; naive_solver lia. }
  rewrite Forall_app, <- (Hl post), length_app. pose proof (proj2 (Hl pre) Hp) as ->. cbn [length]. rewrite Z.ltb_ge. naive_solver lia.
Qed.

Lemma leaf_iff y an cs n' : is_leaf_type (anode_def_type an) = true ->
  match an_value an with
  | Some value => verdict (N an cs) <$> validate_value y an value
  | None => Ok (verdict (N an cs) (validate_missing an))
  end = Ok (true, n') <-> well_typed y (N an cs) /\ n' = N an cs.
Proof.
  intros Hl. destruct (an_value an) as [v|] eqn:Ev.
  - rewrite verdict_Ok, validate_value_iff. split.
    + intros [Hv ->]. split; [by eapply wt_value|done].
    + intros [Hw ->]. split; [|done]. inversion Hw; subst; try congruence.
      * by rewrite H1 in Hl.
      * by destruct H1 as [E|E]; rewrite E in Hl.
      * by destruct H1 as [E|E]; rewrite E in Hl.
      * by destruct (anode_def_type an).
  - split.
    + intros [= H]. apply verdict_true in H as [H ->]. apply validate_missing_iff in H. split; [|done].
      destruct H as [[[t Ht] H]|H]; [by eapply wt_parsed|by apply wt_missing].
    + intros [Hw ->]. f_equal. apply verdict_true. split; [|done]. apply validate_missing_iff. inversion Hw; subst; try congruence.
      * by rewrite H1 in Hl.
      * by destruct H1 as [E|E]; rewrite E in Hl.
      * by destruct H1 as [E|E]; rewrite E in Hl.
      * by destruct (anode_def_type an).
      * left. by split; [eexists|].
      * by right.
Qed.

Section Cases.
Context (y : Z) (s : bool) (an : Anode) (cs : list GNode).
Context (IH : Forall (fun c => forall c', anode_validate_anything y s c = Ok (true, c') <-> well_typed y c /\ c' = c) cs).

Lemma choice_iff n' : anode_def_type an = CHOICE ->
  anode_validate_anything y s (N an cs) = Ok (true, n') <-> well_typed y (N an cs) /\ n' = N an cs.
Proof.
  intros E. cbn [anode_validate_anything]. rewrite E. split.
  - intros H. apply bind_Ok in H as (r & Hr & H). destruct r as [[[] cs']|]; [|done..].
    apply (validate_chosen_iff _ _ _ IH) in Hr as (-> & pre & c & post & -> & Hp & Hc & HP).
    case_match eqn:Hf; [done|]. injection H as <-. apply filter_chosen_one in Hf; [|done..]. split; [|done]. by apply wt_choice.
  - intros [Hw ->]. inversion Hw as [? pre c post ? Hc HP Hf| | | | | |]; subst; try (rewrite E in *; done || naive_solver).
    rewrite (proj2 (validate_chosen_iff _ _ _ IH (pre ++ c :: post))).
    + run. apply Forall_app in Hf as [Hpre Hpost]. rewrite (proj2 (filter_chosen_one pre c post Hc Hpre)) by by apply Forall_app. done.
    + split; [done|]. exists pre, c, post. apply Forall_app in Hf as [? ?]. done.
Qed.

Lemma members_iff n' : anode_def_type an = SEQUENCE \/ anode_def_type an = SET ->
  anode_validate_anything y s (N an cs) = Ok (true, n') <-> well_typed y (N an cs) /\ n' = N an cs.
Proof.
  intros E. assert (anode_validate_anything y s (N an cs) =
    if has (anode_def_flags an) FLAG_OPTION && negb (egg_asn1x_have (N an cs)) then Ok (true, N an cs)
    else '(ok, cs) ← validate_all (anode_validate_anything y s) cs; Ok (ok, N an cs)) as ->.
  { cbn [anode_validate_anything]. by destruct E as [-> | ->]. }
  destruct (has (anode_def_flags an) FLAG_OPTION && negb (egg_asn1x_have (N an cs))) eqn:Eo.
  - apply andb_true_iff in Eo as [Eo Ef]. apply negb_true_iff in Ef. split.
    + intros [= <-]. split; [by apply wt_no_members|done].
    + by intros [_ ->].
  - split.
    + intros H. apply bind_Ok in H as ([ok cs'] & Hl & H). injection H as -> <-.
      apply (validate_all_iff _ _ _ IH) in Hl as [HP ->]. split; [by apply wt_members|done].
    + intros [Hw ->]. assert (Forall (well_typed y) cs) as HP.
      { inversion Hw; subst; try (destruct E as [E|E]; rewrite E in *; naive_solver).
        exfalso. unfold is_optional, fresh in *. rewrite andb_false_iff, negb_false_iff in Eo. naive_solver congruence. }
      by rewrite (proj2 (validate_all_iff _ _ _ IH cs)) by done.
Qed.

Lemma elements_iff n' : is_of_type (anode_def_type an) = true ->
  anode_validate_anything y s (N an cs) = Ok (true, n') <-> well_typed y (N an cs) /\ n' = N an cs.
Proof.
  intros E. assert (anode_validate_anything y s (N an cs) =
    '(ok, count, cs) ← validate_having (anode_validate_anything y s) cs 0;
    let n := N an cs in
    if negb ok then Ok (false, n)
    else if (count =? 0) && has (anode_def_flags an) FLAG_OPTION then Ok (true, n)
    else verdict n <$> anode_validate_size an count) as ->.
  { cbn [anode_validate_anything]. by destruct (anode_def_type an). }
  pose proof (count_with_data cs 0) as Hcount. change (u64 0) with 0 in Hcount. rewrite Z.add_0_l in Hcount. fold (with_data cs) in Hcount.
  split.
  - intros H. apply bind_Ok in H as ([[ok count] cs'] & Hl & H). destruct ok; cbn [negb] in H; [|done].
    apply (validate_having_iff _ _ _ IH) in Hl as (HP & -> & ->). rewrite Hcount in H.
    destruct (Z.eqb_spec (with_data cs) 0), (has (anode_def_flags an) FLAG_OPTION) eqn:Eo; cbn [andb] in H;
      [injection H as <-; split; [apply wt_elements; [done|done|by left]|done]|..];
      apply verdict_Ok in H as [H ->]; apply validate_size_iff in H; (split; [apply wt_elements; [done|done|by right]|done]).
  - intros [Hw ->]. inversion Hw as [| | |? ? ? HP Hsz| | |]; subst; try (by destruct (anode_def_type an); naive_solver).
    rewrite (proj2 (validate_having_iff _ _ _ IH 0 (with_data cs) cs)) by done. run. cbn [negb].
    destruct (Z.eqb_spec (with_data cs) 0), (has (anode_def_flags an) FLAG_OPTION) eqn:Eo; cbn [andb]; [done|..];
      (apply verdict_Ok; split; [apply validate_size_iff|done]);
      (destruct Hsz as [[? Ho]|]; [unfold is_optional in Ho; congruence|done]).
Qed.

End Cases.

(** Validation returns true exactly for well typed trees, and then it changes nothing. *)
Lemma validate_iff y s n : forall n', anode_validate_anything y s n = Ok (true, n') <-> well_typed y n /\ n' = n.
Proof.
  induction n as [an cs IH] using GNode_ind'. intros n'.
  destruct (anode_def_type an) eqn:E;
    try (apply choice_iff; by auto); try (apply members_iff; by auto); try (apply elements_iff; [done|by rewrite E]);
    (rewrite <- leaf_iff by (by rewrite E)); cbn [anode_validate_anything]; by rewrite E.
Qed.

(** C18: validation decides the type system: it returns true exactly for the well typed
    trees, and then leaves the tree as it is. *)
Theorem egg_asn1x_validate_typed y n strict n' :
  egg_asn1x_validate y n strict = Ok (true, n') <-> well_typed y n /\ n' = n.
Proof. apply validate_iff. Qed.
