(* ===== verification/Asn1Safe.v ===== *)
(** Decoding is safe: [egg_asn1x_decode_full] returns, for all bytes whose values the
    readers of the C code can read without leaving them ([checkable]), and whatever it
    returns, the tree keeps its definitions.  After a true result the tree matches the TLV
    of the bytes and is well typed. *)

From S2P Require Import Prelude Text Asn1Tlv Asn1Value Asn1Node Asn1Schema Asn1Create Asn1Decode Asn1DecodeSpec Asn1ValidateSpec.
Local Open Scope Z_scope.

(** * Times *)

(** A time that ends with Z and has no fraction: the scans for digits stop inside. *)
Definition time_closed (v : list Z) : bool := bool_decide (last v = Some 90) && bool_decide (46 ∉ v).

Lemma atoin_loop_defined mem p digits : forall ret k, 0 <= p -> p + Z.of_nat digits <= Zlen mem ->
  0 <= ret < 10 ^ Z.of_nat k -> (k + digits <= 9)%nat -> is_Ok (atoin_loop mem p digits ret (10 ^ Z.of_nat k)).
Proof.
  induction digits as [|d IH]; intros ret k Hp Hl Hr Hk; cbn [atoin_loop]; [by eexists|].
  destruct (proj2 (rd_Some_iff mem (p + Z.of_nat d))) as [c Hc]; [lia|]. rewrite Hc. run.
  destruct (is_digit c) eqn:Ed; cbn [negb]; [|by eexists]. unfold is_digit in Ed. apply andb_true_iff in Ed as [Ed1 Ed2].
  apply Z.leb_le in Ed1, Ed2.
  assert (10 ^ Z.of_nat (S k) = 10 * 10 ^ Z.of_nat k) as Hpow by (rewrite Nat2Z.inj_succ, Z.pow_succ_r by lia; done).
  assert (10 ^ Z.of_nat (S k) <= 10 ^ 9) as Hle by (apply Z.pow_le_mono_r; lia).
  assert (0 < 10 ^ Z.of_nat k) by (apply Z.pow_pos_nonneg; lia). change (10 ^ 9) with 1000000000 in Hle.
  rewrite c_assert_true by (apply andb_true_iff; split; apply Z.ltb_lt; change (2 ^ 31) with 2147483648; nia). run.
  replace (10 ^ Z.of_nat k * 10) with (10 ^ Z.of_nat (S k)) by lia. apply IH; [done|lia|nia|lia].
Qed.

Lemma atoin_defined mem p n : 0 <= p -> p + Z.of_nat n <= Zlen mem -> (n <= 9)%nat -> is_Ok (atoin mem p n).
Proof. intros Hp Hl Hn. apply (atoin_loop_defined mem p n 0 0); [done|done|simpl; lia|lia]. Qed.

Lemma digit_span_last v : last v = Some 90 -> exists k, digit_span v = Some k /\ 0 <= k < Zlen v.
Proof.
  induction v as [|c v IH]; intros Hl; [done|]. cbn [digit_span]. destruct (is_digit c) eqn:Ed.
  - destruct v as [|d v]; [by injection Hl as ->|]. destruct IH as (k & -> & Hk); [done|]. exists (Z.succ k). split; [done|].
    cbn [length] in *. lia.
  - exists 0. split; [done|]. cbn [length]. lia.
Qed.

Section Time.
Context (v : list Z) (Hlast : last v = Some 90) (Hdot : 46 ∉ v).

Lemma time_field_defined e n f old p : 0 <= p -> e <= Zlen v -> (n <= 9)%nat -> p <= e ->
  exists x p', time_field v e n f old p = Ok (x, p') /\ p <= p' <= e.
Proof.
  intros Hp He Hn Hpe. unfold time_field. destruct (Z.leb_spec (p + Z.of_nat n) e); [|by exists old, p].
  destruct (atoin_defined v p n) as [a Ha]; [done|lia|done|]. rewrite Ha. run. eexists _, _. split; [done|lia].
Qed.

Lemma time_zone_defined p e c : 0 <= p -> p + 3 <= e -> e <= Zlen v -> is_Ok (time_zone v p e c).
Proof.
  intros Hp Hpe He. unfold time_zone. destruct (atoin_defined v (p + 1) 2) as [h Hh]; [lia|lia|lia|]. rewrite Hh. run.
  case_match; [by eexists|]. destruct (Z.leb_spec (p + 1 + 2 + 2) e).
  - destruct (atoin_defined v (p + 1 + 2) 2) as [m Hm]; [lia|lia|lia|]. rewrite Hm. run. case_match; by eexists.
  - run. case_match; by eexists.
Qed.

Lemma time_tail_defined p : 0 <= p < Zlen v -> is_Ok (time_tail v p (Zlen v)).
Proof.
  intros Hp. unfold time_tail. destruct (Z.ltb_spec p (Zlen v)); [|lia].
  destruct (proj2 (rd_Some_iff v p)) as [c Hc]; [lia|]. rewrite Hc. run.
  assert (c <> 46) as Hne.
  { intros ->. apply Hdot. apply rd_lookup in Hc as [_ Hc]. by eapply list_elem_of_lookup_2. }
  rewrite (proj2 (Z.eqb_neq c 46)) by done. cbn [andb]. rewrite Hc. run.
  destruct (Z.ltb_spec p (Zlen v)); [|lia]. cbn [andb]. destruct (c =? 90); [case_match; by eexists|].
  destruct (Z.leb_spec (p + 3) (Zlen v)); [|rewrite andb_false_r; case_match; by eexists].
  rewrite andb_true_r. destruct (_ || _); [|case_match; by eexists]. apply time_zone_defined; lia.
Qed.

Lemma time_rest_defined year p e : 0 <= p <= e -> e < Zlen v -> is_Ok (time_rest v year p e (Zlen v)).
Proof.
  intros Hp He. unfold time_rest.
  destruct (time_field_defined e 2 (fun v => v - 1) 0 p) as (mon & p1 & -> & ?); [lia..|]. run.
  destruct (time_field_defined e 2 id 1 p1) as (d & p2 & -> & ?); [lia..|]. run.
  destruct (time_field_defined e 2 id 0 p2) as (h & p3 & -> & ?); [lia..|]. run.
  destruct (time_field_defined e 2 id 0 p3) as (m & p4 & -> & ?); [lia..|]. run.
  destruct (time_field_defined e 2 id 0 p4) as (s & p5 & -> & ?); [lia..|]. run.
  case_match; [by eexists|]. destruct (Z.eqb_spec p5 e); cbn [negb]; [|by eexists].
  destruct (time_tail_defined p5) as [r ->]; [lia|]. run. destruct r; by eexists.
Qed.

Lemma parse_utc_defined y : is_Ok (parse_utc_time y v (Zlen v)).
Proof.
  unfold parse_utc_time. case_match; [by eexists|]. destruct (digit_span_last v Hlast) as (e & -> & He). run.
  destruct (time_field_defined e 2 (fun v => two_to_four_digit_year y v - 1900) 0 0) as (year & p & -> & ?); [lia..|]. run.
  apply time_rest_defined; lia.
Qed.

Lemma parse_general_defined : is_Ok (parse_general_time v (Zlen v)).
Proof.
  unfold parse_general_time. case_match; [by eexists|]. destruct (digit_span_last v Hlast) as (e & -> & He). run.
  destruct (time_field_defined e 4 (fun v => v - 1900) 0 0) as (year & p & -> & ?); [lia..|]. run.
  apply time_rest_defined; lia.
Qed.

End Time.

(** * Values and sizes that can be checked *)

(** What the readers rely on: an object identifier is not empty, a time ends with Z, a
    listed integer has at most three bytes (or too many). *)
Definition value_readable (an : Anode) (v : list Z) : bool :=
  match anode_def_type an with
  | INTEGER | ENUMERATED => negb (has (anode_def_flags an) FLAG_LIST) || (Zlen v <=? 3) || (8 <? Zlen v)
  | OBJECT_ID => negb (bool_decide (v = []))
  | TIME | UTC_TIME | GENERALIZED_TIME => time_closed v
  | t => is_plain_type t || bool_decide (t = BIT_STRING)
  end.

(** The names in the sizes of a node lead to numbers. *)
Definition is_ok {E A} (r : res E A) : bool := match r with Ok _ => true | _ => false end.
Definition sizes_ok (an : Anode) : bool :=
  match anode_opt_lookup an SIZE None with
  | None => true
  | Some d => is_ok (parse_size an (def_value d)) && is_ok (parse_size an (def_name d))
  end.

Fixpoint sizes_parse (n : GNode) : bool := let 'N an cs := n in sizes_ok an && forallb sizes_parse cs.
Fixpoint checkable (n : GNode) : bool :=
  let 'N an cs := n in
  sizes_ok an && match an_value an with Some v => bool_decide (bytes v) && value_readable an v | None => true end && forallb checkable cs.

Lemma is_ok_Ok {E A} (r : res E A) : is_ok r = true -> is_Ok r.
Proof. destruct r; [by eexists|done..]. Qed.

Lemma validate_size_defined an l : sizes_ok an = true -> is_Ok (anode_validate_size an l).
Proof.
  unfold sizes_ok, anode_validate_size. intros H. destruct (has (anode_def_flags an) FLAG_SIZE); cbn [negb]; [|by eexists].
  destruct (anode_opt_lookup an SIZE None) as [d|]; [|by eexists]. apply andb_true_iff in H as [H1 H2]. apply is_ok_Ok in H1 as [v1 ->]. apply is_ok_Ok in H2 as [v2 ->]. run.
  destruct v1; [|by eexists]. case_match; [|by eexists]. destruct v2; by eexists.
Qed.

Lemma read_ulong_small p : forall value, bytes p -> (length p <= 3)%nat -> is_Ok (read_ulong_loop p value).
Proof.
  induction p as [|x p IH]; intros value Hb Hl; cbn [read_ulong_loop]; [by eexists|]. inversion_clear Hb as [|?? Hx Hbp]. cbn [length] in Hl.
  rewrite (c_assert_true _ (8 * Zlen p <? 32)) by (apply Z.ltb_lt; lia). run. unfold is_byte in Hx. rewrite Z.shiftl_mul_pow2 by lia.
  assert (2 ^ (8 * Zlen p) <= 2 ^ 16) by (apply Z.pow_le_mono_r; lia). change (2 ^ 16) with 65536 in *.
  assert (0 < 2 ^ (8 * Zlen p)) by (apply Z.pow_pos_nonneg; lia).
  rewrite c_assert_true by (apply Z.ltb_lt; change (2 ^ 31) with 2147483648; nia). run. apply IH; [done|lia].
Qed.

Lemma validate_integer_defined an v : bytes v -> negb (has (anode_def_flags an) FLAG_LIST) || (Zlen v <=? 3) || (8 <? Zlen v) = true ->
  is_Ok (anode_validate_integer an v).
Proof.
  intros Hb H. unfold anode_validate_integer. destruct (Zlen v =? 0); [by eexists|]. destruct (has (anode_def_flags an) FLAG_LIST); [|by eexists].
  unfold anode_read_integer_ulong. destruct (Z.ltb_spec (Zlen v) 1), (Z.ltb_spec 8 (Zlen v)); cbn [orb]; try (run; by eexists).
  destruct (read_ulong_small v 0) as [val ->]; [done| |run; by eexists]. cbn [negb orb] in H. rewrite orb_false_r in H. apply Z.leb_le in H. lia.
Qed.

Lemma validate_value_defined y an v : bytes v -> sizes_ok an = true -> value_readable an v = true -> is_Ok (validate_value y an v).
Proof.
  intros Hb Hs Hr. unfold validate_value. unfold value_readable in Hr.
  assert (forall t, time_closed t = true -> last t = Some 90 /\ 46 ∉ t) as Htc.
  { intros t Ht. unfold time_closed in Ht. by rewrite andb_true_iff, !bool_decide_eq_true in Ht. }
  assert (time_closed v = true -> is_Ok (anode_validate_time y an v)) as Htime.
  { intros Ht. destruct (Htc v Ht) as [Hl Hd]. unfold anode_validate_time, anode_read_time.
    destruct (parse_utc_defined v Hl Hd y) as [u Hu], (parse_general_defined v Hl Hd) as [g Hg]. rewrite Hu, Hg.
    destruct (anode_def_type an), (has (anode_def_flags an) FLAG_GENERALIZED), (has (anode_def_flags an) FLAG_UTC); by eexists. }
  destruct (anode_def_type an) eqn:E; try done; try (by eexists); try (by apply validate_size_defined); try (by apply Htime).
  - by apply validate_integer_defined.
  - unfold anode_validate_object_id, anode_read_object_id. destruct v as [|b v]; [done|]. by eexists.
  - unfold anode_validate_enumerated. case_match; [by eexists|]. by apply validate_integer_defined.
Qed.

(** * Validation returns *)

Section Loops.
Context (go : GNode -> res unit (bool * GNode)).

Lemma validate_all_goods cs : Forall (fun c => good c (go c)) cs -> goods cs (validate_all go cs).
Proof.
  induction 1 as [|c cs (ok & c' & Hc & Hk) _ (ok' & cs' & Hcs & Hks)]; cbn [validate_all]; [by eexists _, _|].
  rewrite Hc. run. destruct ok; cbn [negb].
  - rewrite Hcs. run. eexists _, _. split; [done|by constructor].
  - eexists _, _. split; [done|]. constructor; [done|apply Forall2_keeps_refl].
Qed.

Lemma validate_having_goods cs : Forall (fun c => good c (go c)) cs -> forall k,
  exists ok count cs', validate_having go cs k = Ok (ok, count, cs') /\ Forall2 keeps cs cs'.
Proof.
  induction 1 as [|c cs (ok & c' & Hc & Hk) _ IH]; intros k; cbn [validate_having]; [by eexists _, _, _|].
  destruct (egg_asn1x_have c).
  - rewrite Hc. run. destruct ok; cbn [negb].
    + destruct (IH (u64 (k + 1))) as (ok & n & cs' & -> & Hks). run. eexists _, _, _. split; [done|by constructor].
    + eexists _, _, _. split; [done|]. constructor; [done|apply Forall2_keeps_refl].
  - destruct (IH k) as (ok' & n & cs' & -> & Hks). run. eexists _, _, _. split; [done|by constructor].
Qed.

Lemma validate_chosen_goods cs : Forall (fun c => good c (go c)) cs ->
  validate_chosen go cs = Ok None \/ exists ok cs', validate_chosen go cs = Ok (Some (ok, cs')) /\ Forall2 keeps cs cs'.
Proof.
  induction 1 as [|c cs (ok & c' & Hc & Hk) _ IH]; cbn [validate_chosen]; [by left|].
  destruct (chosen (data c)).
  - rewrite Hc. run. right. eexists _, _. split; [done|]. constructor; [done|apply Forall2_keeps_refl].
  - destruct IH as [->|(ok' & cs' & -> & Hks)]; run; [by left|]. right. eexists _, _. split; [done|by constructor].
Qed.

End Loops.

Lemma good_verdict n n' r : keeps n n' -> is_Ok r -> good n (verdict n' <$> r).
Proof.
  intros Hk [v ->]. destruct v as [|[m|]]; cbn; [by apply good_Ok| |by apply good_Ok]. apply good_Ok. etrans; [done|].
  apply keeps_data. intros. apply core_failure.
Qed.

Lemma validate_good y s n : checkable n = true -> good n (anode_validate_anything y s n).
Proof.
  induction n as [an cs IH] using GNode_ind'. cbn [checkable]. rewrite !andb_true_iff, forallb_forall. intros [[Hsz Hv] Hcs].
  assert (Forall (fun c => good c (anode_validate_anything y s c)) cs) as Hgo.
  { rewrite Forall_forall in *. intros c Hc. apply IH; [done|]. by apply Hcs, list_elem_of_In. }
  assert (good (N an cs) match an_value an with
    | Some value => verdict (N an cs) <$> validate_value y an value
    | None => Ok (verdict (N an cs) (validate_missing an))
    end) as Hleaf.
  { destruct (an_value an) as [v|].
    - apply good_verdict; [done|]. apply andb_true_iff in Hv as [Hb Hv]. apply validate_value_defined; [by apply bool_decide_eq_true in Hb|done..].
    - exact (good_verdict (N an cs) (N an cs) (Ok (validate_missing an)) (reflexivity _) (ex_intro _ _ eq_refl)). }
  assert (forall cs', Forall2 keeps cs cs' -> keeps (N an cs) (N an cs')) as Hkeep by (intros; by apply keeps_node).
  cbn [anode_validate_anything]. destruct (anode_def_type an); try exact Hleaf.
  - destruct (_ && _); [by apply good_Ok|]. by apply good_children, validate_all_goods.
  - destruct (validate_having_goods _ cs Hgo 0) as (ok & count & cs' & -> & Hk). run. destruct ok; cbn [negb]; [|by apply good_Ok, Hkeep].
    destruct (_ && _); [by apply good_Ok, Hkeep|]. apply good_verdict; [by apply Hkeep|by apply validate_size_defined].
  - destruct (_ && _); [by apply good_Ok|]. by apply good_children, validate_all_goods.
  - destruct (validate_having_goods _ cs Hgo 0) as (ok & count & cs' & -> & Hk). run. destruct ok; cbn [negb]; [|by apply good_Ok, Hkeep].
    destruct (_ && _); [by apply good_Ok, Hkeep|]. apply good_verdict; [by apply Hkeep|by apply validate_size_defined].
  - destruct (validate_chosen_goods _ cs Hgo) as [->|(ok & cs' & -> & Hk)]; run; [by apply good_fails|].
    destruct ok; [|by apply good_Ok, Hkeep]. destruct (1 <? _); [by apply good_fails, Hkeep|by apply good_Ok, Hkeep].
Qed.

(** * The theorems *)

(** C9: decoding ends and is safe.  For bytes that end in no tag of an element
    ([tags_closed]), definitions with members and templates ([schema_ok]), and decoded values
    that the checks can read ([checkable]: an integer with listed values has at most three
    bytes or more than eight, an object identifier is not empty, a time ends with Z and has
    no fraction, and the names in sizes lead to numbers), [egg_asn1x_decode_full] returns; and
    whether it succeeds or fails, the definitions of the tree and the likeness of list
    elements are kept.  What happens without is shown by [parse_reads_past_long_tag],
    [read_integer_shift] and [time_reads_past_end]. *)
Theorem egg_asn1x_decode_full_safe (this_year : Z) (asn : GNode) (data : list Z) (options : Z) :
  bytes data -> Zlen data < 2 ^ 31 -> tags_closed data -> schema_ok asn = true ->
  (forall asn0 t asn', egg_asn1x_clear asn = Ok asn0 -> atlv_parse_der data = Ok t ->
    decode_root asn0 t = Ok (true, asn') -> checkable asn' = true) ->
  exists ok asn', egg_asn1x_decode_full this_year asn data options = Ok (ok, asn') /\
    shape asn' = shape asn /\ uniform asn' /\ schema_ok asn' = true.
Proof.
  intros Hb Hl Htc Hs Hck. destruct (egg_asn1x_clear_ok asn Hs) as (asn0 & Hclr & [Csh Cun Csc _ _]).
  unfold egg_asn1x_decode_full. rewrite Hclr. run.
  assert (forall n', keeps asn0 n' -> shape n' = shape asn /\ uniform n' /\ schema_ok n' = true) as Hfin.
  { intros n' []. split_and!; [congruence|auto..]. }
  destruct (atlv_parse_der_total data Hb Hl Htc) as [(t & Ht)|(e & He & Hne)].
  - rewrite Ht. pose proof (atlv_parse_der_tlv_ok _ _ Ht) as Hok.
    destruct (decode_root_good asn0 t Csc Hok) as (ok & n' & Hd & Hk). rewrite Hd. run.
    destruct ok; cbn [negb]; [|eexists _, _; split; [done|by apply Hfin]].
    destruct (validate_good this_year (negb (has options EGG_ASN1X_NO_STRICT)) n') as (ok & n2 & Hv & Hk2); [by eapply Hck|].
    eexists _, _. split; [exact Hv|]. apply Hfin. by etrans.
  - rewrite He. destruct e; try done; cbn [parse_message]; (eexists _, _; split; [done|]); apply Hfin, keeps_data; intros; apply core_set_failure.
Qed.

(** A decoded tree and the data it is the value of: element by element the nodes have what
    their definitions allow there, and their values have the types of the nodes. *)
Definition conforms (this_year : Z) (n : GNode) (t : Atlv) : Prop := matched n t /\ well_typed this_year n.

(** C7: a tree that decoding fills is well typed and matches the TLV tree of the bytes,
    node by node: tags, explicit tags, the members of sequences in order with the missing
    ones optional, every element of a list, the chosen alternative, the values. *)
Theorem egg_asn1x_decode_full_typed (this_year : Z) (asn : GNode) (data : list Z) (options : Z) (asn' : GNode) :
  schema_ok asn = true -> egg_asn1x_decode_full this_year asn data options = Ok (true, asn') ->
  exists t, atlv_parse_der data = Ok t /\ conforms this_year asn' t.
Proof.
  intros Hs H. destruct (egg_asn1x_clear_ok asn Hs) as (asn0 & Hclr & [_ _ _ Hf _]).
  unfold egg_asn1x_decode_full in H. rewrite Hclr in H. cbn [mbind res_bind] in H.
  destruct (atlv_parse_der data) as [t|e|] eqn:Ht; [|by destruct (parse_message e)|done].
  exists t. split; [done|]. apply bind_Ok in H as ([ok n'] & Hd & H). destruct ok; cbn [negb] in H; [|done].
  apply validate_iff in H as [Hw ->]. split; [by eapply decode_root_matched|done].
Qed.
