(* ===== verification/Asn1CreateSpec.v ===== *)
(** What creating a tree promises: the loop of [egg_asn1x_create] reads back any tree
    that is laid out as a table, and every type of the program's tables gives a tree that
    decoding can use. *)

From Stdlib Require Import String.
From S2P Require Import Prelude Text Asn1Tlv Asn1Value Asn1Node Asn1Schema Sorting Asn1Create Asn1Tables Asn1Decode Asn1DecodeSpec Asn1ValidateSpec Asn1Safe.
Local Open Scope Z_scope.
Local Open Scope list_scope.

(** * Tables of trees *)

(** A tree of definitions, before its nodes are made. *)
Inductive DefTree : Type := T (d : EggAsn1xDef) (cs : list DefTree).

Definition row (t : DefTree) : EggAsn1xDef := let 'T d _ := t in d.

Lemma DefTree_ind' (P : DefTree -> Prop) : (forall d cs, Forall P cs -> P (T d cs)) -> forall t, P t.
Proof.
  intros H. fix IH 1. intros [d cs]. apply H. induction cs as [|c cs IHcs]; [constructor|].
  constructor; [apply IH|exact IHcs].
Qed.

(** The rows of a tree: the definition, then those of its children. *)
Fixpoint rows (t : DefTree) : list EggAsn1xDef := let 'T d cs := t in d :: concat (rows <$> cs).

(** The nodes of a tree. *)
Fixpoint nodes (t : DefTree) : GNode := let 'T d cs := t in N (anode_new d) (nodes <$> cs).

(** The flags say where the next row belongs: DOWN that there are children, RIGHT that
    there is a next sibling. *)
Definition flagged_right (ts : list DefTree) : Prop :=
  match last ts with
  | None => True
  | Some t => has (def_type (row t)) FLAG_RIGHT = false
  end /\
  Forall (fun t => has (def_type (row t)) FLAG_RIGHT = true) (removelast ts).

Inductive flagged : DefTree -> Prop :=
  | flagged_T d cs : has (def_type d) FLAG_DOWN = negb (bool_decide (cs = [])) ->
      flagged_right cs -> Forall flagged cs -> flagged (T d cs).

(** * The loop *)

(** The second half of a round: where the next row goes. *)
Definition go_on (next : GNode + Stack) (rest : list EggAsn1xDef) : res unit GNode :=
  match next with
  | inl root => Ok root
  | inr parents => match rest with [] => Ub | d :: rest => build_loop (anode_new d) [] parents rest end
  end.

Lemma has_flags_new d f : Z.land 0xFFFFFF00 f = f -> has (anode_def_flags (anode_new d)) f = has (def_type d) f.
Proof. intros Hf. unfold has, anode_def_flags. cbn [join anode_new def]. by rewrite <- Z.land_assoc, Hf. Qed.

(** A node without a next sibling, or the root. *)
Lemma climb_next d cs parents rest : has (def_type d) FLAG_DOWN = false -> parents <> [] \/ has (def_type d) FLAG_RIGHT = false ->
  cs = [] -> build_loop (anode_new d) cs parents rest = go_on (climb (anode_new d) [] parents) rest.
Proof.
  intros Hd Hr ->. destruct rest as [|e rest]; cbn [build_loop]; cbn [def anode_new]; rewrite Hd.
  - destruct parents as [|[pan pcs] parents]; cbn [climb close].
    + destruct Hr as [|Hr]; [done|]. rewrite Hr. done.
    + rewrite has_flags_new by done. by destruct (has (def_type d) FLAG_RIGHT).
  - destruct parents as [|[pan pcs] parents]; cbn [climb close].
    + destruct Hr as [|Hr]; [done|]. rewrite Hr. done.
    + rewrite has_flags_new by done. by destruct (has (def_type d) FLAG_RIGHT).
Qed.

Definition reads (t : DefTree) : Prop := forall parents rest, parents <> [] \/ has (def_type (row t)) FLAG_DOWN = true ->
  build_loop (anode_new (row t)) [] parents (concat (rows <$> (let 'T _ cs := t in cs)) ++ rest) =
  go_on (climb (anode_new (row t)) (children (nodes t)) parents) rest.

Lemma children_read an cs : forall c done_ parents rest, Forall reads (c :: cs) -> flagged_right (c :: cs) ->
  go_on (inr ((an, done_) :: parents)) (concat (rows <$> c :: cs) ++ rest) =
  go_on (climb an (done_ ++ (nodes <$> c :: cs)) parents) rest.
Proof.
  induction cs as [|c2 cs IH]; intros c done_ parents rest Hr [Hlast Hright]; inversion_clear Hr as [|?? Hc Hcs].
  - destruct c as [d ccs]. cbn [fmap list_fmap concat rows go_on app] in *. rewrite app_nil_r. cbn [row last] in *.
    pose proof (Hc ((an, done_) :: parents) rest ltac:(by left)) as E. cbn [row nodes children climb] in *. rewrite E. rewrite has_flags_new by done. by rewrite Hlast.
  - destruct c as [d ccs]. rewrite fmap_cons. cbn [concat rows]. rewrite <- app_assoc. cbn [app].
    change (go_on (inr ((an, done_) :: parents)) (d :: (concat (rows <$> ccs) ++ concat (rows <$> c2 :: cs) ++ rest)))
      with (build_loop (anode_new d) [] ((an, done_) :: parents) (concat (rows <$> ccs) ++ concat (rows <$> c2 :: cs) ++ rest)).
    cbn [removelast] in Hright. inversion_clear Hright as [|?? Hd Hright'].
    pose proof (Hc ((an, done_) :: parents) (concat (rows <$> c2 :: cs) ++ rest) ltac:(by left)) as E.
    cbn [row nodes children climb] in *. rewrite E. rewrite has_flags_new by done. rewrite Hd.
    rewrite IH by done. by rewrite <- app_assoc.
Qed.

Lemma tree_reads t : flagged t -> reads t.
Proof.
  induction t as [d cs IH] using DefTree_ind'. inversion_clear 1 as [? ? Hdown Hright Hcs]. intros parents rest Hp. cbn [row nodes children] in *.
  destruct cs as [|c cs].
  - cbn [fmap list_fmap concat app]. apply climb_next; [done| |done]. rewrite Hdown in Hp. by destruct Hp; [left|].
  - assert (Forall reads (c :: cs)) as Hreads by (rewrite Forall_forall in *; auto).
    assert (build_loop (anode_new d) [] parents (concat (rows <$> c :: cs) ++ rest) =
      go_on (inr ((anode_new d, []) :: parents)) (concat (rows <$> c :: cs) ++ rest)) as ->.
    { destruct c as [e ccs]. cbn [fmap list_fmap concat rows app build_loop go_on]. cbn [def anode_new]. by rewrite Hdown. }
    by rewrite children_read.
Qed.

(** C19: creating reads back what a table lays out: for every tree of definitions whose
    flags say where the rows belong, and whatever follows in the table, the loop of
    [egg_asn1x_create] builds the nodes of that tree. *)
Theorem build_tree_rows (t : DefTree) (rest : list EggAsn1xDef) :
  flagged t -> build_tree (rows t ++ rest) = Ok (nodes t).
Proof.
  intros Hf. pose proof (tree_reads t Hf) as Hr. destruct t as [d cs]. inversion_clear Hf as [? ? Hdown Hright Hcs].
  cbn [rows app build_tree]. destruct (has (def_type d) FLAG_DOWN) eqn:Ed.
  - pose proof (Hr [] rest ltac:(by right)) as E. cbn [row] in E. by rewrite E.
  - destruct cs; [done|]. by rewrite bool_decide_eq_false_2 in Hdown.
Qed.

(** The type Validity: two rows below a row. *)
Lemma build_tree_rows_witness :
  let t := T (mk_def (Some (lit "p")) 1610612741 None) [T (mk_def (Some (lit "r")) 1073741827 None) []; T (mk_def (Some (lit "s")) 3 None) []] in
  flagged t /\ build_tree (rows t ++ pk_asn1_tab) = Ok (nodes t).
Proof.
  intros t. assert (flagged t) as Hf.
  { repeat constructor. }
  split; [exact Hf|]. exact (build_tree_rows t pk_asn1_tab Hf).
Defined.

(** * The program's tables *)

(** The names of the types and values that a table defines. *)
Definition table_names (defs : list EggAsn1xDef) : list (list Z) :=
  match for_children defs (fun p names => d ← head_def p; Ok (false, names ++ option_list (def_name d))) [] with
  | Ok (_, names) => names
  | _ => []
  end.

Fixpoint all_real (n : GNode) : bool := let 'N an cs := n in anode_def_type_is_real an && forallb all_real cs.

(** A tree for [name] that is ready to be decoded into. *)
Definition creates `{GListSort} (defs : list EggAsn1xDef) (name : list Z) : bool :=
  match egg_asn1x_create 20 defs name with
  | Ok (Some n) => schema_ok n && sizes_parse n && all_real n && negb (egg_asn1x_have n)
  | _ => false
  end.

Lemma creates_iff `{GListSort} defs name : creates defs name = true ->
  exists n, egg_asn1x_create 20 defs name = Ok (Some n) /\ schema_ok n = true /\ sizes_parse n = true /\ all_real n = true /\ fresh n.
Proof.
  unfold creates, fresh. destruct (egg_asn1x_create 20 defs name) as [[n|]| |]; try done. rewrite !andb_true_iff, negb_true_iff.
  intros [[[? ?] ?] ?]. by exists n.
Qed.

#[local] Existing Instance insertion_sort.

(** The types of [pkix_asn1_tab] that the program creates by name. *)
Definition pkix_types : list (list Z) := lit <$>
  ["AuthorityInfoAccessSyntax"; "AuthorityKeyIdentifier"; "BasicConstraints"; "CRLDistributionPoints"; "Certificate";
   "CertificatePolicies"; "ExtKeyUsageSyntax"; "KeyUsage"; "Name"; "SignedPublicKeyAndChallenge";
   "SubjectAltName"; "SubjectKeyIdentifier"; "SubjectPublicKeyInfo"; "pkcs-10-CertificationRequest"; "pkcs-12-AuthenticatedSafe";
   "pkcs-12-CertBag"; "pkcs-12-MacData"; "pkcs-12-PFX"; "pkcs-12-PbeParams"; "pkcs-12-SafeContents";
   "pkcs-5-PBE-params"; "pkcs-5-PBES2-params"; "pkcs-5-PBKDF2-params"; "pkcs-5-des-CBC-params"; "pkcs-5-des-EDE3-CBC-params";
   "pkcs-5-rc2-CBC-params"; "pkcs-7-ContentInfo"; "pkcs-7-Data"; "pkcs-7-EncryptedData"; "pkcs-7-SignedData";
   "pkcs-8-EncryptedPrivateKeyInfo"; "pkcs-8-PrivateKeyInfo"].

(** C20: every type and value that [pk_asn1_tab] defines, and every type of
    [pkix_asn1_tab] that the program asks for, has a tree: creating it ends within 20 nested
    identifiers, and gives nodes of real types only, with members in sequences and templates
    in lists, sizes that parse, and no data. *)
Theorem program_tables_create :
  Forall (fun name => exists n, egg_asn1x_create 20 pk_asn1_tab name = Ok (Some n) /\
    schema_ok n = true /\ sizes_parse n = true /\ all_real n = true /\ fresh n) (table_names pk_asn1_tab) /\
  Forall (fun name => exists n, egg_asn1x_create 20 pkix_asn1_tab name = Ok (Some n) /\
    schema_ok n = true /\ sizes_parse n = true /\ all_real n = true /\ fresh n) pkix_types.
Proof.
  assert (forallb (creates pk_asn1_tab) (table_names pk_asn1_tab) = true) as Hpk by (vm_compute; reflexivity).
  assert (forallb (creates pkix_asn1_tab) pkix_types = true) as Hpkix by (vm_compute; reflexivity).
  rewrite forallb_forall in Hpk, Hpkix. split; apply Forall_forall; intros name Hn.
  - by apply creates_iff, Hpk, list_elem_of_In.
  - by apply creates_iff, Hpkix, list_elem_of_In.
Qed.

(** * Object identifiers *)

(** { "T", DEFINITIONS } with one identifier, foo, which is { bar }. *)
Definition unresolved_tab : list EggAsn1xDef :=
  [mk_def (Some (lit "T")) 536870928 None; mk_def (Some (lit "foo")) 536870924 None; mk_def None 1 (Some (lit "bar")); mk_def None 0 None].

(** A name that is not defined is looked for without end: a pass that resolves nothing
    still counts as progress, and the warning is never reached. *)
Lemma unresolved_oid_loops fuel : match_oid_in_definitions fuel unresolved_tab (lit "1.2.3") = Err tt.
Proof.
  unfold match_oid_in_definitions. induction fuel as [|fuel IH]; cbn [oid_passes]; [done|].
  assert (oid_pass unresolved_tab (lit "1.2.3") ∅ = Ok (∅, true, Some (lit "bar"), None)) as -> by (vm_compute; reflexivity).
  exact IH.
Qed.

(** Object identifiers give the type that follows them in the table. *)
Lemma create_by_oid : exists n, egg_asn1x_create 20 pkix_asn1_tab (lit "2.5.4.3") = Ok (Some n) /\
  def_name (def (data n)) = Some (lit "X520CommonName").
Proof. eexists. split; [vm_compute; reflexivity|reflexivity]. Qed.
