(* ===== verification/Asn1Build.v ===== *)
(** Encoding an ASN.1 node tree: [anode_build_*], [atlv_sort_perform] and
    [egg_asn1x_encode] of [src/egg/egg-asn1x.c].

    [None] is a [NULL] result.  Sorting the members of a SET OF relinks their [next]
    pointers; the last one's is not reset, so that the chain can go on behind it: then it
    is a cycle, of which the model keeps the first element behind the last. *)

From S2P Require Import Prelude Text Asn1Tlv Asn1Node Sorting Asn1Create Asn1Decode.
Local Open Scope Z_scope.

(** * Building TLVs *)

(** Signed [gint] arithmetic on lengths. *)
Definition gint (v : Z) : res unit Z := c_assert ((- 2 ^ 31 <=? v) && (v <? 2 ^ 31));; Ok v.

(** The writer's functions have the errors of the parser, which do not occur. *)
Definition no_err {A} (r : res ParseError A) : res unit A :=
  match r with Ok a => Ok a | Err _ => Err tt | Ub => Ub end.

Definition is_container_type (t : EggAsn1xType) : bool :=
  match t with SEQUENCE | SET | SEQUENCE_OF | SET_OF => true | _ => false end.

(** The head of a TLV for the node: class, tag, offset and length; the marks of [h] are
    kept.  An uninitialised class is [Ub]. *)
Definition anode_build_cls_tag_len (an : Anode) (h : AtlvHead) (l : Z) : res unit AtlvHead :=
  l ← gint (if prefix_for_bit_string h || prefix_with_zero_byte h then l + 1 else l);
  let type := anode_def_type an in
  c_assert (is_plain_type type || bool_decide (type = BIT_STRING) || is_container_type type);;
  let c := if is_container_type type then Z.lor ASN1_CLASS_STRUCTURED ASN1_CLASS_UNIVERSAL else ASN1_CLASS_UNIVERSAL in
  let flags := anode_def_flags an in
  '(c, flags) ←
    (if has flags FLAG_TAG then
       let '(explicit, cls_type) := anode_calc_explicit_for_flags an flags in
       if explicit : bool then Ok (c, Z.ldiff flags FLAG_TAG)
       else k ← or_ub cls_type; Ok (Z.lor c k, flags)
     else Ok (c, flags));
  let t := anode_calc_tag_for_flags an flags in
  o ← no_err (atlv_unparse_cls_tag_len_size c t l);
  Ok (mk_head c t o l (Asn1Tlv.bits_empty h) (prefix_for_bit_string h) (prefix_with_zero_byte h) (sorted h)).

(** [atlv_new]: everything is zero. *)
Definition new_head : AtlvHead := mk_head 0 0 0 0 0 false false false.
Definition with_bits (e : Z) : AtlvHead := mk_head 0 0 0 0 e true false false.
Definition with_zero (b : bool) : AtlvHead := mk_head 0 0 0 0 0 false b false.
Definition with_sorted (h : AtlvHead) (b : bool) : AtlvHead :=
  mk_head (cls h) (tag h) (off h) (len h) (Asn1Tlv.bits_empty h) (prefix_for_bit_string h) (prefix_with_zero_byte h) b.

(** A TLV with the value of the node. *)
Definition build_with (an : Anode) (h : AtlvHead) : res unit (option Atlv) :=
  match an_value an with
  | None => Ok None
  | Some v => h ← anode_build_cls_tag_len an h (s32 (Zlen v)); Ok (Some (mk_atlv h (Some v) None []))
  end.

Definition anode_build_value (an : Anode) : res unit (option Atlv) := build_with an new_head.

Definition anode_build_bit_string (an : Anode) : res unit (option Atlv) := build_with an (with_bits (an_bits_empty an)).

Definition anode_build_integer (an : Anode) : res unit (option Atlv) :=
  match an_value an with
  | None => Ok None
  | Some v =>
    sign ← (if guarantee_unsigned an then b ← or_ub (rd v 0); Ok (negb (Z.land b 0x80 =? 0)) else Ok false);
    build_with an (with_zero sign)
  end.

(** [atlv_dup (parsed, FALSE)] *)
Definition anode_build_any (an : Anode) : option Atlv := parsed an.

Definition anode_build_maybe_explicit (an : Anode) (t : Atlv) (flags : Z) : res unit Atlv :=
  let '(explicit, cls_type) := anode_calc_explicit_for_flags an flags in
  if explicit : bool then
    k ← or_ub cls_type;
    let c := Z.lor ASN1_CLASS_STRUCTURED k in
    let tg := anode_calc_tag an in
    l ← gint (off (head t) + len (head t));
    o ← no_err (atlv_unparse_cls_tag_len_size c tg l);
    Ok (mk_atlv (mk_head c tg o l 0 false false false) None None [t])
  else Ok t.

Section Build.
Context (build : GNode -> bool -> res unit (option Atlv)).

(** The TLVs of the children that have one, and the sum of their sizes. *)
Fixpoint build_children (cs : list GNode) (want : bool) (l : Z) : res unit (list Atlv * Z) :=
  match cs with
  | [] => Ok ([], l)
  | c :: cs =>
    t ← build c want;
    match t with
    | None => build_children cs want l
    | Some t =>
      s ← gint (off (head t) + len (head t));
      l ← gint (l + s);
      '(ts, l) ← build_children cs want l; Ok (t :: ts, l)
    end
  end.

Definition anode_build_structured (an : Anode) (cs : list GNode) (want : bool) : res unit (option Atlv) :=
  let type := anode_def_type an in
  let child_want := if is_of_type type then false else want in
  let want := if has (anode_def_flags an) FLAG_OPTION then false else want in
  '(ts, l) ← build_children cs child_want 0;
  if bool_decide (ts = []) && negb want then Ok None
  else
    h ← anode_build_cls_tag_len an new_head l;
    Ok (Some (mk_atlv (with_sorted h (bool_decide (type = SET_OF))) None None ts)).

(** The chosen child; without one nothing is built, with a critical message. *)
Fixpoint build_chosen (cs : list GNode) (want : bool) : res unit (option Atlv) :=
  match cs with
  | [] => Ok None
  | c :: cs => if chosen (data c) then build c want else build_chosen cs want
  end.

End Build.

Fixpoint anode_build_anything (n : GNode) (want : bool) : res unit (option Atlv) :=
  let 'N an cs := n in
  let type := anode_def_type an in
  if bool_decide (type = ANY) then Ok (anode_build_any an)
  else
    t ← (if bool_decide (type = BIT_STRING) then anode_build_bit_string an
         else if bool_decide (type = INTEGER) then anode_build_integer an
         else if is_plain_type type then anode_build_value an
         else if is_container_type type then anode_build_structured anode_build_anything an cs want
         else if bool_decide (type = CHOICE) then build_chosen anode_build_anything cs want
         else Ub);
    match t with
    | None => Ok None
    | Some t => Some <$> anode_build_maybe_explicit an t (anode_def_flags an)
    end.

(** * Sorting the members of sets *)

(** [g_bytes_compare]: [memcmp] on the common length, then the lengths. *)
Fixpoint g_bytes_compare (a b : list Z) : Z :=
  match a, b with
  | [], [] => 0
  | [], _ => -1
  | _, [] => 1
  | x :: a, y :: b => if x <? y then -1 else if y <? x then 1 else g_bytes_compare a b
  end.

(** A member, its encoding, and what its [next] points to. *)
Record SortPair := mk_pair { pair_bytes : list Z; pair_tlv : Atlv; pair_next : list Atlv }.

Definition compare_sort_pair (a b : SortPair) : Z := g_bytes_compare (pair_bytes a) (pair_bytes b).

Fixpoint sort_pairs (cs : list Atlv) : res unit (option (list SortPair)) :=
  match cs with
  | [] => Ok (Some [])
  | c :: cs =>
    bytes ← no_err (atlv_unparse_to_bytes c);
    match bytes with
    | None => Ok None
    | Some bytes => r ← sort_pairs cs; Ok (fmap (M:=option) (cons (mk_pair bytes c cs)) r)
    end
  end.

(** The chain after relinking: the members in order, and what the last one's [next]
    still points to. *)
Definition relink (pairs : list SortPair) : list Atlv :=
  (pair_tlv <$> pairs) ++ match last pairs with Some p => take 1 (pair_next p) | None => [] end.

Section Sort.
Context `{GListSort}.

Section Members.
Context (go : Atlv -> res unit Atlv).
Fixpoint sort_children (cs : list Atlv) : res unit (list Atlv) :=
  match cs with
  | [] => Ok []
  | c :: cs => c ← go c; cs ← sort_children cs; Ok (c :: cs)
  end.
End Members.

Fixpoint atlv_sort_perform (t : Atlv) : res unit Atlv :=
  let 'mk_atlv h v d cs := t in
  cs ← sort_children atlv_sort_perform cs;
  if negb (sorted h) then Ok (mk_atlv h v d cs)
  else
    pairs ← sort_pairs cs;
    match pairs with
    | None => Ok (mk_atlv h v d cs)
    | Some pairs => Ok (mk_atlv h v d (relink (g_list_sort compare_sort_pair (reverse pairs))))
    end.

(** The bytes; the changed tree has the messages of the validation. *)
Definition egg_asn1x_encode (this_year : Z) (asn : GNode) : res unit (option (list Z) * GNode) :=
  if negb (anode_def_type_is_real (data asn)) then Ok (None, asn)
  else
    '(ok, asn) ← egg_asn1x_validate this_year asn true;
    if negb ok then Ok (None, asn)
    else
      t ← anode_build_anything asn true;
      match t with
      | None => Ok (None, asn)
      | Some t =>
        t ← atlv_sort_perform t;
        bytes ← no_err (atlv_unparse_to_bytes t);
        Ok (bytes, asn)
      end.

Definition egg_asn1x_get_any_raw (n : GNode) : res unit (option (list Z) * GNode) :=
  t ← anode_build_anything n true;
  match t with
  | None => Ok (None, on_data (fun an => anode_failure an (lit "missing value(s)")) n)
  | Some t =>
    t ← atlv_sort_perform t;
    bytes ← no_err (atlv_unparse_to_bytes t);
    Ok (bytes, n)
  end.

End Sort.
