(* ===== verification/Asn1Roundtrip.v ===== *)
(** Encoding what was decoded gives the bytes back.

    [rebuilds] decides, on a decoded tree, what encoding relies on: classes and inner tags
    are those of the definitions, values are in one piece, no empty container is
    optional, absent members do not come back, members of sets are in order.  For bytes in
    DER and a tree that passes, [egg_asn1x_encode] writes the same bytes. *)

From stdpp Require Import sorting.
From S2P Require Import Prelude Text Asn1Tlv Asn1Value Asn1Node Asn1Schema Sorting Asn1Create Asn1Decode Asn1DecodeSpec Asn1ValidateSpec Asn1Build.
Local Open Scope Z_scope.

(** * What encoding relies on *)

(** The class and the tag that [anode_build_cls_tag_len] gives to the contents of a node. *)
Definition built_cls_tag (an : Anode) : option (Z * Z) :=
  let c := if is_container_type (anode_def_type an) then Z.lor ASN1_CLASS_STRUCTURED ASN1_CLASS_UNIVERSAL else ASN1_CLASS_UNIVERSAL in
  let flags := anode_def_flags an in
  if has flags FLAG_TAG then
    match anode_calc_explicit_for_flags an flags with
    | (true, _) => Some (c, anode_calc_tag_for_flags an (Z.ldiff flags FLAG_TAG))
    | (false, Some k) => Some (Z.lor c k, anode_calc_tag_for_flags an flags)
    | (false, None) => None
    end
  else Some (c, anode_calc_tag_for_flags an flags).

Definition head_rebuilds (an : Anode) (c : Atlv) : bool :=
  bool_decide (built_cls_tag an = Some (cls (head c), tag (head c))).

(** The TLV of an explicit tag; without one there is nothing to check. *)
Definition wrap_rebuilds (an : Anode) (t : Atlv) : bool :=
  match anode_calc_explicit_for_flags an (anode_def_flags an) with
  | (true, Some k) => (cls (head t) =? Z.lor ASN1_CLASS_STRUCTURED k) && (tag (head t) =? anode_calc_tag an)
  | (true, None) => false
  | (false, _) => true
  end.

(** The TLV inside. *)
Definition inner (an : Anode) (t : Atlv) : Atlv :=
  if is_explicit an (anode_def_flags an) then default t (hd_error (child t)) else t.

Definition child_wanted (an : Anode) (want : bool) : bool := if is_of_type (anode_def_type an) then false else want.
Definition wanted (an : Anode) (want : bool) : bool := if has (anode_def_flags an) FLAG_OPTION then false else want.

(** A tree without data that builds nothing. *)
Fixpoint quiet (want : bool) (n : GNode) : bool :=
  let 'N an cs := n in
  let type := anode_def_type an in
  if is_container_type type then negb (wanted an want) && forallb (quiet (child_wanted an want)) cs
  else if bool_decide (type = CHOICE) then forallb (quiet want) cs
  else is_plain_type type || bool_decide (type = BIT_STRING) || bool_decide (type = ANY).

Fixpoint strictly_ascending (l : list (list Z)) : bool :=
  match l with
  | a :: (b :: _) as k => (g_bytes_compare a b <? 0) && strictly_ascending k
  | _ => true
  end.

Fixpoint rebuilds (want : bool) (n : GNode) : bool :=
  let 'N an cs := n in
  let type := anode_def_type an in
  match parsed an with
  | None => false
  | Some t =>
    if bool_decide (type = ANY) then true
    else
      wrap_rebuilds an t &&
      (if bool_decide (type = CHOICE) then forallb (fun c => negb (chosen (data c)) || rebuilds want c) cs
       else if is_container_type type then
         head_rebuilds an (inner an t) &&
         (wanted an want || negb (bool_decide (child (inner an t) = []))) &&
         forallb (fun c => if egg_asn1x_have c then rebuilds (child_wanted an want) c else quiet (child_wanted an want) c) cs &&
         (negb (bool_decide (type = SET_OF)) || strictly_ascending (der <$> child (inner an t)))
       else
         (is_plain_type type || bool_decide (type = BIT_STRING)) &&
         head_rebuilds an (inner an t) && bool_decide (is_Some (an_value an)) && negb (guarantee_unsigned an))
  end.

(** * TLVs that encode alike *)

Definition same_head (h' h : AtlvHead) : Prop := cls h' = cls h /\ tag h' = tag h /\ off h' = off h /\ len h' = len h.

(** A built TLV with the encoding of [t], and sets that stay as they are when sorted. *)
Fixpoint set_sorted (t : Atlv) : bool :=
  let 'mk_atlv h _ _ cs := t in
  forallb set_sorted cs && (negb (sorted h) || strictly_ascending (der <$> cs)).

Record rebuilt (t' t : Atlv) : Prop := {
  rb_head : same_head (head t') (head t);
  rb_der : der t' = der t;
  rb_encodable : encodable t';
  rb_sorted : set_sorted t' = true }.

Lemma rebuilt_fmap ts' ts : Forall2 rebuilt ts' ts -> der <$> ts' = der <$> ts.
Proof. induction 1 as [|t' t ts' ts H _ IH]; [done|]. by rewrite !fmap_cons, IH, (rb_der _ _ H). Qed.

(** [map] of the encoder is the same function. *)
Lemma map_fmap {A B} (f : A -> B) l : map f l = f <$> l.
Proof. done. Qed.

Lemma size_ok c t l : cls_ok c -> 0 <= t < 2 ^ 32 -> 0 <= l < 2 ^ 31 ->
  atlv_unparse_cls_tag_len_size c t l = Ok (Zlen (header_bytes c t l)).
Proof.
  intros Hc Ht Hl. destruct (header_bytes_ok c t l Hc Ht Hl) as (ct & lb & H1 & H2 & H3 & _).
  unfold atlv_unparse_cls_tag_len_size. rewrite H1. run. rewrite H2. run. f_equal. rewrite H3, length_app. lia.
Qed.

Lemma gint_ok v : - 2 ^ 31 <= v < 2 ^ 31 -> gint v = Ok v.
Proof. intros [H1 H2]. unfold gint. rewrite c_assert_true; [done|]. by rewrite (proj2 (Z.leb_le _ _) H1), (proj2 (Z.ltb_lt _ _) H2). Qed.

Lemma encodable_bounds t : encodable t -> cls_ok (cls (head t)) /\ 0 <= tag (head t) < 2 ^ 32 /\ 0 <= off (head t) /\ 0 <= len (head t) /\
  off (head t) + len (head t) < 2 ^ 31 /\ off (head t) = Zlen (header_bytes (cls (head t)) (tag (head t)) (len (head t))).
Proof. intros H. inversion H as [h buf d Hh _|h d cs Hh _ _]; subst; destruct Hh as (Hc & Ht & Hl & Ho & Hs); cbn [head]; split_and!; try done; lia. Qed.

(** The head comes out as that of the TLV. *)
Lemma build_head an h l c : is_plain_type (anode_def_type an) || bool_decide (anode_def_type an = BIT_STRING) || is_container_type (anode_def_type an) = true ->
  encodable c -> head_rebuilds an c = true -> (if prefix_for_bit_string h || prefix_with_zero_byte h then l + 1 else l) = len (head c) ->
  anode_build_cls_tag_len an h l = Ok (mk_head (cls (head c)) (tag (head c)) (off (head c)) (len (head c)) (Asn1Tlv.bits_empty h)
    (prefix_for_bit_string h) (prefix_with_zero_byte h) (sorted h)).
Proof.
  intros Hty He Hh Hl. apply encodable_bounds in He as (Hc & Ht & Ho & Hlen & Hs & Hoff).
  apply bool_decide_eq_true in Hh. unfold anode_build_cls_tag_len, built_cls_tag in *. rewrite Hl, gint_ok by lia. run.
  rewrite Hty. cbn [c_assert]. run. destruct (has (anode_def_flags an) FLAG_TAG).
  - destruct (anode_calc_explicit_for_flags an (anode_def_flags an)) as [[] [k|]]; try done; injection Hh as Hc1 Ht1; run;
      rewrite Hc1, Ht1, size_ok by (done || lia); cbn [no_err]; run; by rewrite <- Hoff.
  - injection Hh as Hc1 Ht1. run. rewrite Hc1, Ht1, size_ok by (done || lia). cbn [no_err]. run. by rewrite <- Hoff.
Qed.

(** The bits behind the end of a bit string are zero, so that clearing them does nothing. *)
Lemma clear_mask x e : is_byte x -> 0 <= e < 8 -> Z.land x (u8 (Z.shiftr 0xFF (8 - e))) = 0 ->
  Z.land x (u8 (Z.lnot (Z.shiftr 0xFF (8 - e)))) = x.
Proof.
  intros Hx He H. assert (forallb (fun e => forallb (fun x => negb (Z.land x (u8 (Z.shiftr 0xFF (8 - e))) =? 0) ||
    (Z.land x (u8 (Z.lnot (Z.shiftr 0xFF (8 - e)))) =? x)) (seqZ 0 256)) (seqZ 0 8) = true) as Hall by (vm_compute; reflexivity).
  pose proof (range_check _ _ _ Hall e ltac:(lia)) as He'. cbn beta in He'.
  pose proof (range_check _ _ _ He' x ltac:(unfold is_byte in Hx; lia)) as Hx'. cbn beta in Hx'.
  rewrite H in Hx'. cbn [Z.eqb negb orb] in Hx'. by apply Z.eqb_eq.
Qed.

Lemma bit_string_payload e v : bytes (e :: v) -> anode_decode_bit_string (e :: v) = Some (v, e) -> e :: mask_last v e = e :: v.
Proof.
  intros Hb H. f_equal. inversion_clear Hb as [|?? He Hv]. unfold anode_decode_bit_string in H.
  destruct (Z.leb_spec 8 e); [done|]. unfold mask_last. destruct (rev v) as [|x r] eqn:Er; [done|].
  assert (v = rev r ++ [x]) as -> by (rewrite <- (rev_involutive v), Er; done).
  destruct (Z.eqb_spec e 0); [done|]. f_equal. f_equal.
  rewrite app_comm_cons, last_snoc in H. cbn [default from_option id] in H. unfold is_byte in He.
  apply Forall_app in Hv as [_ Hx]. inversion_clear Hx as [|?? Hx' _]. apply clear_mask; [done|lia|].
  destruct (Z.eqb_spec (Z.land x (u8 (Z.shiftr 0xFF (8 - e)))) 0) as [|Hne]; [done|].
  cbn [negb] in H. rewrite andb_true_r in H. destruct (Z.ltb_spec 1 (Zlen ((e :: rev r) ++ [x]))) as [|Hl]; [done|].
  rewrite length_app in Hl. cbn [length] in Hl. lia.
Qed.

(** * Nodes without data *)

Section Quiet.
Context (an : Anode) (cs : list GNode) (want : bool).

Lemma children_quiet cw l : Forall (fun c => anode_build_anything c cw = Ok None) cs -> build_children anode_build_anything cs cw l = Ok ([], l).
Proof. induction 1 as [|c k Hc _ IH]; cbn [build_children]; [done|]. by rewrite Hc. Qed.

Lemma chosen_quiet : Forall (fun c => anode_build_anything c want = Ok None) cs -> build_chosen anode_build_anything cs want = Ok None.
Proof. induction 1 as [|c k Hc _ IH]; cbn [build_chosen]; [done|]. by case_match. Qed.

End Quiet.

Lemma build_quiet n : forall want, fresh n -> quiet want n = true -> anode_build_anything n want = Ok None.
Proof.
  induction n as [an cs IH] using GNode_ind'. intros want Hf Hq. apply fresh_intro in Hf as (Hv & Hp & Hcs).
  assert (forall w, forallb (quiet w) cs = true -> Forall (fun c => anode_build_anything c w = Ok None) cs) as Hall.
  { intros w Hw. rewrite forallb_forall in Hw. rewrite Forall_forall in *. intros c Hc. apply IH; [done|by apply Hcs|by apply Hw, list_elem_of_In]. }
  cbn [quiet anode_build_anything] in *.
  destruct (bool_decide_reflect (anode_def_type an = ANY)); [by unfold anode_build_any; rewrite Hp|].
  unfold anode_build_bit_string, anode_build_integer, anode_build_value, build_with. rewrite Hv.
  destruct (bool_decide (anode_def_type an = BIT_STRING)); [done|]. destruct (bool_decide (anode_def_type an = INTEGER)); [done|].
  destruct (is_plain_type (anode_def_type an)) eqn:Epl; [done|]. destruct (is_container_type (anode_def_type an)) eqn:Ec.
  - apply andb_true_iff in Hq as [Hw Hq]. unfold anode_build_structured. fold (child_wanted an want) (wanted an want).
    rewrite children_quiet by by apply Hall. run. rewrite Hw. done.
  - destruct (bool_decide (anode_def_type an = CHOICE)); [|done]. by rewrite chosen_quiet by by apply Hall.
Qed.

Lemma matched_have n t : matched n t -> egg_asn1x_have n = true.
Proof.
  inversion_clear 1 as [an cs ? c Hp]. cbn [egg_asn1x_have]. rewrite Hp. apply orb_true_iff. left. apply orb_true_iff. right.
  apply bool_decide_eq_true. by eexists.
Qed.

Lemma members_elements R ns ts : members R ns ts -> elements R ns ts.
Proof. induction 1; [constructor|by apply elements_skip|by apply elements_take]. Qed.

(** * The TLVs that are rebuilt *)

Definition plain_head (h : AtlvHead) : bool := negb (prefix_for_bit_string h) && negb (prefix_with_zero_byte h) && negb (sorted h).
Fixpoint plain (t : Atlv) : bool := let 'mk_atlv h _ _ cs := t in plain_head h && forallb plain cs.

Record source (t : Atlv) : Prop := {
  so_encodable : encodable t;
  so_plain : plain t = true;
  so_bytes : bytes (der t) }.

Lemma source_children t : source t -> Forall source (child t).
Proof.
  intros [He Hp Hb]. destruct He as [h buf d _ _|h d cs _ _ Hcs]; cbn [child der plain] in *; [constructor|].
  apply andb_true_iff in Hp as [_ Hp]. rewrite forallb_forall in Hp. apply Forall_app in Hb as [_ Hb].
  induction Hcs as [|c cs Hc Hcs IH]; [constructor|]. cbn [map concat] in Hb. apply Forall_app in Hb as [Hb1 Hb2].
  constructor; [split; [done|apply Hp; by left|done]|]. apply IH; [|done]. intros x Hx. apply Hp. by right.
Qed.

Lemma plain_sorted t : plain t = true -> set_sorted t = true.
Proof.
  induction t as [h v d cs IH] using Atlv_ind'. cbn [plain set_sorted]. unfold plain_head. rewrite !andb_true_iff, negb_true_iff.
  intros [[_ Hs] Hp]. rewrite Hs. split; [|done]. rewrite forallb_forall in *. rewrite Forall_forall in IH. intros c Hc.
  apply IH; [by apply list_elem_of_In|by apply Hp].
Qed.

Lemma rebuilt_refl t : source t -> rebuilt t t.
Proof. intros [He Hp _]. split; [done|done|done|by apply plain_sorted]. Qed.

(** What a structured and a primitive TLV look like. *)
Lemma source_structured t : source t -> is_structured t = true ->
  exists h d cs, t = mk_atlv h None d cs /\ head_ok h (concat (map der cs)).
Proof.
  intros [He _ _] Hs. unfold is_structured in Hs. destruct He as [h buf d _ Hc|h d cs Hh _ _]; cbn [head] in Hs.
  - by rewrite Hc in Hs.
  - by exists h, d, cs.
Qed.

Lemma source_primitive t v : source t -> value t = Some v ->
  exists h d, t = mk_atlv h (Some v) d [] /\ head_ok h v /\ bytes v /\ Z.land (cls h) ASN1_CLASS_STRUCTURED = 0.
Proof.
  intros [He Hp Hb] Hv. destruct He as [h buf d Hh Hc|h d cs _ _ _]; cbn [value] in Hv; [|done]. injection Hv as ->.
  exists h, d. cbn [plain] in Hp. unfold plain_head in Hp. rewrite !andb_true_iff, !negb_true_iff in Hp. destruct Hp as [[[H1 H2] _] _].
  assert (payload h v = v) as E by (unfold payload; by rewrite H1, H2). rewrite E in Hh. cbn [der] in Hb. rewrite E in Hb.
  apply Forall_app in Hb as [_ Hb]. done.
Qed.

(** A value with its marks, under the head of the TLV. *)
Lemma value_rebuilt h d v buf eb pb pz : head_ok h v -> Z.land (cls h) ASN1_CLASS_STRUCTURED = 0 -> plain_head h = true ->
  let h' := mk_head (cls h) (tag h) (off h) (len h) eb pb pz false in
  payload h' buf = v -> rebuilt (mk_atlv h' (Some buf) None []) (mk_atlv h (Some v) d []).
Proof.
  intros Hh Hc Hpl h' Hp. unfold plain_head in Hpl. rewrite !andb_true_iff, !negb_true_iff in Hpl. destruct Hpl as [[H1 H2] _].
  split; [done| |apply enc_value; [by rewrite Hp|done]|done].
  cbn [der]. rewrite Hp. unfold payload. by rewrite H1, H2.
Qed.

(** * Building *)

(** A TLV that is built for [t]. *)
Definition builds (r : res unit (option Atlv)) (t : Atlv) : Prop := exists t', r = Ok (Some t') /\ rebuilt t' t.

Lemma wrap_builds an t c t' : source t -> wraps an (anode_def_flags an) t c -> wrap_rebuilds an t = true -> rebuilt t' c ->
  exists w, anode_build_maybe_explicit an t' (anode_def_flags an) = Ok w /\ rebuilt w t.
Proof.
  intros Hs Hw Hr Ht'. unfold wraps, is_explicit, wrap_rebuilds, anode_build_maybe_explicit in *.
  destruct (anode_calc_explicit_for_flags an (anode_def_flags an)) as [[] k]; cbn [fst] in Hw; [|by subst; exists t'].
  destruct k as [k|]; [|done]. destruct Hw as [_ Hc]. apply andb_true_iff in Hr as [Hcls Htag]. apply Z.eqb_eq in Hcls, Htag.
  pose proof (source_children t Hs) as Hsc. rewrite Hc in Hsc. inversion_clear Hsc as [|?? Hsc' _].
  assert (exists h d, t = mk_atlv h None d [c] /\ head_ok h (der c)) as (h & d & -> & Hh).
  { destruct Hs as [He _ _]. destruct He as [|h d cs Hh _ _]; [done|]. cbn [child] in Hc. subst cs. exists h, d. split; [done|].
    cbn [map concat] in Hh. by rewrite app_nil_r in Hh. }
  cbn [head] in *. destruct Ht' as [(H1 & H2 & H3 & H4) Hder Henc Hset].
  pose proof (der_length _ (so_encodable _ Hsc')) as (Hdl & _ & _ & Hsz).
  destruct Hh as (Hco & Hto & Hlo & Hoo & Hso).
  run. rewrite H3, H4, gint_ok by lia. run. rewrite <- Hcls, <- Htag, <- Hdl, <- Hlo.
  rewrite size_ok by (done || lia). cbn [no_err]. run. rewrite <- Hoo. eexists. split; [done|]. split.
  - done.
  - cbn [der map concat]. by rewrite Hder.
  - apply enc_structured.
    + cbn [map concat]. rewrite app_nil_r, Hder. unfold head_ok. cbn. done.
    + cbn. inversion Hs as [He _ _]. by inversion He.
    + by constructor.
  - cbn [set_sorted forallb sorted]. by rewrite Hset.
Qed.

Lemma chosen_builds cs want c (IH : Forall (fun n => forall want t, matched n t -> source t -> rebuilds want n = true -> builds (anode_build_anything n want) t) cs) :
  Exists (fun d => chosen (data d) = true) cs -> Forall (fun d => chosen (data d) = true -> matched d c) cs -> source c ->
  forallb (fun c => negb (chosen (data c)) || rebuilds want c) cs = true -> builds (build_chosen anode_build_anything cs want) c.
Proof.
  intros Hex Hall Hs Hr. induction cs as [|d cs IHcs]; [by inversion Hex|]. inversion_clear IH as [|?? IHd IHds]. inversion_clear Hall as [|?? Hd Hds].
  cbn [forallb build_chosen] in *. apply andb_true_iff in Hr as [Hrd Hrds]. destruct (chosen (data d)) eqn:Ec.
  - apply IHd; [by apply Hd|done|done].
  - apply IHcs; [done| |done|done]. inversion Hex; [congruence|done].
Qed.

Lemma elements_build cs cw (IH : Forall (fun n => forall want t, matched n t -> source t -> rebuilds want n = true -> builds (anode_build_anything n want) t) cs) :
  forall ts l, elements matched cs ts -> Forall source ts ->
  forallb (fun c => if egg_asn1x_have c then rebuilds cw c else quiet cw c) cs = true ->
  0 <= l -> l + Zlen (concat (der <$> ts)) < 2 ^ 31 ->
  exists ts', build_children anode_build_anything cs cw l = Ok (ts', l + Zlen (concat (der <$> ts))) /\ Forall2 rebuilt ts' ts.
Proof.
  induction IH as [|n cs IHn _ IHcs]; intros ts l He Hs Hr Hl Hsz; cbn [build_children forallb] in *.
  - inversion He; subst. exists []. split; [|constructor]. do 2 f_equal. simpl. lia.
  - apply andb_true_iff in Hr as [Hrn Hr]. inversion He as [|? ? ? Hf Hes|? ? t ts0 Hm Hes]; subst.
    + unfold fresh in Hf. rewrite Hf in Hrn. rewrite build_quiet by done. run. by apply IHcs.
    + rewrite (matched_have n t Hm) in Hrn. inversion_clear Hs as [|?? Hst Hsts]. rewrite fmap_cons in *. cbn [concat] in *. rewrite length_app in *.
      destruct (IHn cw t Hm Hst Hrn) as (t' & -> & Hrb). run. pose proof Hrb as [(H1 & H2 & H3 & H4) Hder Henc Hset].
      pose proof (der_length _ (so_encodable _ Hst)) as (Hdl & _ & _ & _).
      rewrite H3, H4, <- Hdl, gint_ok by lia. run. rewrite gint_ok by lia. run.
      destruct (IHcs ts0 (l + Zlen (der t))) as (ts' & -> & Hts); [done|done|done|lia|lia|]. run. exists (t' :: ts'). split; [|by constructor].
      do 2 f_equal. lia.
Qed.

Lemma len_small t : source t -> len (head t) < 2 ^ 31.
Proof. intros [He _ _]. apply encodable_bounds in He. lia. Qed.

Lemma leaf_builds an cs c : contents matched an cs c -> source c ->
  is_plain_type (anode_def_type an) || bool_decide (anode_def_type an = BIT_STRING) = true ->
  head_rebuilds an c = true -> is_Some (an_value an) -> guarantee_unsigned an = false ->
  builds (if bool_decide (anode_def_type an = BIT_STRING) then anode_build_bit_string an
          else if bool_decide (anode_def_type an = INTEGER) then anode_build_integer an
          else anode_build_value an) c.
Proof.
  intros Hc Hs Hty Hh Hv Hu. pose proof (len_small c Hs) as Hlen.
  assert (forall h l, (if prefix_for_bit_string h || prefix_with_zero_byte h then l + 1 else l) = len (head c) ->
    anode_build_cls_tag_len an h l = Ok (mk_head (cls (head c)) (tag (head c)) (off (head c)) (len (head c)) (Asn1Tlv.bits_empty h)
      (prefix_for_bit_string h) (prefix_with_zero_byte h) (sorted h))) as Hhead.
  { intros h l Hl. apply build_head; [by rewrite Hty|apply Hs|done|done]. }
  destruct Hc as [v _ Hpl Hval Han|e v _ Ht Hval Hdec Han Heb|Hany Han|_ _ Han|Hch|_ Hseq|_ Hof]; try (destruct Hv; congruence).
  - destruct (source_primitive c v Hs Hval) as (h & d & -> & Hho & Hb & Hcls). cbn [head] in *.
    assert (plain_head h = true) as Hph by (destruct Hs as [_ Hp _]; cbn [plain] in Hp; by apply andb_true_iff in Hp as [? _]).
    pose proof Hho as (_ & _ & Hl & _).
    assert (builds (build_with an new_head) (mk_atlv h (Some v) d [])) as Hbw.
    { unfold builds, build_with. rewrite Han, s32_small by lia. rewrite Hhead by (cbn; lia). run. eexists. split; [done|].
      by apply value_rebuilt. }
    destruct (bool_decide_reflect (anode_def_type an = BIT_STRING)) as [E|_]; [by rewrite E in Hpl|].
    destruct (bool_decide (anode_def_type an = INTEGER)); [|exact Hbw].
    unfold anode_build_integer. rewrite Han, Hu. run. exact Hbw.
  - destruct (source_primitive c (e :: v) Hs Hval) as (h & d & -> & Hho & Hb & Hcls). cbn [head] in *.
    assert (plain_head h = true) as Hph by (destruct Hs as [_ Hp _]; cbn [plain] in Hp; by apply andb_true_iff in Hp as [? _]).
    pose proof Hho as (_ & _ & Hl & _). rewrite (bool_decide_eq_true_2 (anode_def_type an = BIT_STRING)) by done. cbn [length] in Hl.
    unfold builds, anode_build_bit_string, build_with. rewrite Han, s32_small by lia. rewrite Hhead by (cbn; lia). run. eexists. split; [done|].
    apply value_rebuilt; [done|done|done|]. unfold payload. cbn. rewrite Heb. by apply bit_string_payload.
  - rewrite Hch in Hty. done.
  - destruct Hseq as [E|E]; by rewrite E in Hty.
  - by destruct (anode_def_type an).
Qed.

Lemma ders_reparse ts : map der ts = der <$> ts.
Proof. done. Qed.

Lemma structured_builds an cs want c
  (IH : Forall (fun n => forall want t, matched n t -> source t -> rebuilds want n = true -> builds (anode_build_anything n want) t) cs) :
  contents matched an cs c -> source c -> is_container_type (anode_def_type an) = true -> head_rebuilds an c = true ->
  wanted an want || negb (bool_decide (child c = [])) = true ->
  forallb (fun c => if egg_asn1x_have c then rebuilds (child_wanted an want) c else quiet (child_wanted an want) c) cs = true ->
  negb (bool_decide (anode_def_type an = SET_OF)) || strictly_ascending (der <$> child c) = true ->
  builds (anode_build_structured anode_build_anything an cs want) c.
Proof.
  intros Hc Hs Hty Hh Hw Hr Hord.
  assert (is_structured c = true /\ elements matched cs (child c)) as [Hst Hel].
  { destruct Hc as [v _ Hpl _ _|e v _ Ht|Hany|_ Hpl|Hch|? Hseq _ Hm|? Hof He]; try (rewrite ?Ht, ?Hany, ?Hch in Hty; done).
    - by destruct (anode_def_type an).
    - by destruct (anode_def_type an).
    - split; [done|by apply members_elements]. }
  pose proof (source_children c Hs) as Hsc.
  destruct (source_structured c Hs Hst) as (h & d & ts & -> & Hho). cbn [child head] in *.
  pose proof Hho as (_ & _ & Hl & Ho & Hsz). rewrite ders_reparse in *.
  destruct (elements_build cs (child_wanted an want) IH ts 0) as (ts' & Hb & Hrb); [done|done|done|lia|lia|].
  unfold builds, anode_build_structured. fold (child_wanted an want) (wanted an want). rewrite Hb. run.
  assert (bool_decide (ts' = []) && negb (wanted an want) = false) as ->.
  { destruct (wanted an want); [by rewrite andb_false_r|]. cbn [orb] in Hw. apply negb_true_iff, bool_decide_eq_false in Hw.
    rewrite bool_decide_eq_false_2; [done|]. intros ->. inversion Hrb; by subst. }
  rewrite (build_head an new_head _ (mk_atlv h None d ts)); [|by rewrite Hty, orb_true_r|apply Hs|done|cbn [new_head prefix_for_bit_string prefix_with_zero_byte orb head]; lia].
  run. eexists. split; [done|]. split.
  - done.
  - cbn [der head]. by rewrite !ders_reparse, (rebuilt_fmap _ _ Hrb).
  - apply enc_structured.
    + rewrite ders_reparse, (rebuilt_fmap _ _ Hrb). unfold head_ok in *. cbn. done.
    + destruct Hs as [He _ _]. by inversion He.
    + clear -Hrb. induction Hrb as [|? ? ? ? []]; by constructor.
  - cbn [set_sorted]. apply andb_true_iff. split.
    + apply forallb_forall. intros x Hx%list_elem_of_In. apply list_elem_of_lookup in Hx as [i Hi].
      destruct (Forall2_lookup_l _ _ _ _ _ Hrb Hi) as (y & _ & []). done.
    + cbn [sorted with_sorted head]. by rewrite (rebuilt_fmap _ _ Hrb).
Qed.

Lemma anything_builds n : forall want t, matched n t -> source t -> rebuilds want n = true -> builds (anode_build_anything n want) t.
Proof.
  induction n as [an cs IH] using GNode_ind'. intros want t Hm Hs Hr. inversion_clear Hm as [? ? ? c Hp He Hw Hc].
  cbn [rebuilds] in Hr. rewrite Hp in Hr. cbn [anode_build_anything].
  destruct (bool_decide_reflect (anode_def_type an = ANY)) as [Hany|Hany].
  { exists t. split; [unfold anode_build_any; by rewrite Hp|by apply rebuilt_refl]. }
  apply andb_true_iff in Hr as [Hwr Hr].
  assert (source c /\ inner an t = c) as [Hsc Hin].
  { unfold wraps, inner in *. destruct (is_explicit an (anode_def_flags an)); [|by subst]. destruct Hw as [_ Hch].
    pose proof (source_children t Hs) as Hcs. rewrite Hch in Hcs. inversion_clear Hcs. by rewrite Hch. }
  rewrite Hin in Hr.
  assert (forall r, builds r c -> builds (t ← r;
    match t with None => Ok None | Some t => Some <$> anode_build_maybe_explicit an t (anode_def_flags an) end) t) as Hwrap.
  { intros r (t' & -> & Hrb). run. destruct (wrap_builds an t c t' Hs Hw Hwr Hrb) as (w & -> & Hrw). by exists w. }
  apply Hwrap. destruct (bool_decide_reflect (anode_def_type an = CHOICE)) as [Hch|Hch].
  - rewrite Hch in *. cbn. apply (chosen_builds cs want c IH); [| |done|done];
      destruct Hc as [v _ Hpl|? ? _ Hb|Ha|_ Hpl|_ ? ?|_ [E|E]|_ Hof]; try (by rewrite Hch in *); done.
  - destruct (is_container_type (anode_def_type an)) eqn:Ect.
    + rewrite !andb_true_iff in Hr. destruct Hr as [[[Hh Hwa] Hcs] Hord].
      assert (bool_decide (anode_def_type an = BIT_STRING) = false) as -> by by destruct (anode_def_type an).
      assert (bool_decide (anode_def_type an = INTEGER) = false) as -> by by destruct (anode_def_type an).
      assert (is_plain_type (anode_def_type an) = false) as -> by by destruct (anode_def_type an).
      by apply structured_builds.
    + rewrite !andb_true_iff in Hr. destruct Hr as [[[Hty Hh] Hv] Hu]. apply bool_decide_eq_true in Hv. apply negb_true_iff in Hu.
      pose proof (leaf_builds an cs c Hc Hsc Hty Hh Hv Hu) as Hb.
      destruct (bool_decide (anode_def_type an = BIT_STRING)); [done|]. destruct (bool_decide (anode_def_type an = INTEGER)); [done|].
      rewrite orb_false_r in Hty. by rewrite Hty.
Qed.

(** * Sorting what is sorted *)

Lemma bytes_compare_cases a b : g_bytes_compare a b = -1 \/ g_bytes_compare a b = 0 \/ g_bytes_compare a b = 1.
Proof. revert b. induction a as [|x a IH]; intros [|y b]; cbn [g_bytes_compare]; auto. repeat case_match; auto. Qed.

Lemma bytes_compare_anti a b : g_bytes_compare b a = - g_bytes_compare a b.
Proof.
  revert b. induction a as [|x a IH]; intros [|y b]; cbn [g_bytes_compare]; try done.
  destruct (Z.ltb_spec x y), (Z.ltb_spec y x); try lia. apply IH.
Qed.

Lemma bytes_compare_eq a b : g_bytes_compare a b = 0 -> a = b.
Proof.
  revert b. induction a as [|x a IH]; intros [|y b]; cbn [g_bytes_compare]; try done.
  destruct (Z.ltb_spec x y), (Z.ltb_spec y x); try done. intros Heq. f_equal; [lia|by apply IH].
Qed.

Lemma bytes_compare_trans a b c : g_bytes_compare a b <= 0 -> g_bytes_compare b c <= 0 -> g_bytes_compare a c <= 0.
Proof.
  revert b c. induction a as [|x a IH]; intros [|y b] [|z c]; cbn [g_bytes_compare]; try lia.
  destruct (Z.ltb_spec x y), (Z.ltb_spec y x), (Z.ltb_spec y z), (Z.ltb_spec z y), (Z.ltb_spec x z), (Z.ltb_spec z x); try lia.
  by apply IH.
Qed.

Lemma sort_pair_ok : comparison_ok compare_sort_pair.
Proof.
  unfold compare_sort_pair. split.
  - intros a b. rewrite (bytes_compare_anti (pair_bytes a) (pair_bytes b)). destruct (bytes_compare_cases (pair_bytes a) (pair_bytes b)); lia.
  - intros a b c. apply bytes_compare_trans.
Qed.

Lemma strictly_ascending_tail a l : strictly_ascending (a :: l) = true -> strictly_ascending l = true.
Proof. destruct l; [done|]. cbn [strictly_ascending]. rewrite andb_true_iff. by intros [_ H]. Qed.

Lemma strictly_ascending_all a l : strictly_ascending (a :: l) = true -> Forall (fun b => g_bytes_compare a b < 0) l.
Proof.
  revert a. induction l as [|b l IH]; intros a H; [constructor|]. cbn [strictly_ascending] in H. apply andb_true_iff in H as [Hab H].
  apply Z.ltb_lt in Hab. constructor; [done|]. eapply Forall_impl; [apply (IH b); done|]. intros c Hbc. cbn beta in Hbc.
  pose proof (bytes_compare_trans a b c ltac:(lia) ltac:(lia)). destruct (Z.eqb_spec (g_bytes_compare a c) 0) as [E|]; [|lia].
  apply bytes_compare_eq in E as ->. rewrite bytes_compare_anti in Hbc. lia.
Qed.

(** A strictly ascending list is the only sorted one with its elements. *)
Lemma ascending_sorted ps : strictly_ascending (pair_bytes <$> ps) = true ->
  StronglySorted (fun a b => compare_sort_pair a b <= 0) ps /\
  (forall a b, a ∈ ps -> b ∈ ps -> pair_bytes a = pair_bytes b -> a = b).
Proof.
  induction ps as [|p ps IH]; intros H; [split; [constructor|intros a b Ha; by apply elem_of_nil in Ha]|].
  rewrite fmap_cons in H. destruct (IH (strictly_ascending_tail _ _ H)) as [Hs Hi]. pose proof (strictly_ascending_all _ _ H) as Hall.
  rewrite Forall_fmap in Hall. unfold compose in Hall. split.
  - constructor; [done|]. eapply Forall_impl; [exact Hall|]. intros q Hq. unfold compare_sort_pair. cbn beta in Hq. lia.
  - rewrite Forall_forall in Hall.
    assert (forall q, q ∈ ps -> pair_bytes p <> pair_bytes q) as Hne.
    { intros q Hq E. specialize (Hall q Hq). cbn beta in Hall. rewrite E in Hall. pose proof (bytes_compare_anti (pair_bytes q) (pair_bytes q)). lia. }
    intros a b [->|Ha]%elem_of_cons [->|Hb]%elem_of_cons E; [done|by destruct (Hne b)|by destruct (Hne a)|by apply Hi].
Qed.

Lemma sort_ascending (S : GListSort) `{!GListSortLaws S} ps : strictly_ascending (pair_bytes <$> ps) = true ->
  g_list_sort compare_sort_pair (reverse ps) = ps.
Proof.
  intros H. destruct (ascending_sorted ps H) as [Hs Hi].
  assert (g_list_sort compare_sort_pair (reverse ps) ≡ₚ ps) as Hp by (rewrite sort_perm; apply reverse_Permutation).
  eapply (StronglySorted_unique_strong (fun a b => compare_sort_pair a b <= 0)); [|by apply sort_sorted, sort_pair_ok|done|done].
  intros a b Ha Hb Hab Hba. rewrite Hp in Ha. apply Hi; [done|done|]. apply bytes_compare_eq. unfold compare_sort_pair in *.
  rewrite bytes_compare_anti in Hba. lia.
Qed.

Lemma sort_pairs_ok cs : Forall encodable cs ->
  exists ps, sort_pairs cs = Ok (Some ps) /\ pair_tlv <$> ps = cs /\ pair_bytes <$> ps = der <$> cs /\
    match last ps with Some p => pair_next p = [] | None => True end.
Proof.
  induction 1 as [|c cs Hc _ (ps & Hps & H1 & H2 & H3)]; cbn [sort_pairs]; [by exists []|].
  rewrite (unparse_to_bytes_der c Hc). cbn [no_err]. run. rewrite Hps. run. exists (mk_pair (der c) c cs :: ps).
  rewrite !fmap_cons, H1, H2. split_and!; [done|done|done|]. destruct ps as [|p ps]; [|done].
  cbn [last pair_next]. destruct cs; done.
Qed.

Lemma sort_perform_sorted (S : GListSort) `{!GListSortLaws S} t : encodable t -> set_sorted t = true -> atlv_sort_perform t = Ok t.
Proof.
  induction t as [h v d cs IH] using Atlv_ind'. intros He Hs. cbn [atlv_sort_perform set_sorted] in *. apply andb_true_iff in Hs as [Hcs Ho].
  assert (Forall encodable cs) as Hec by (inversion He; subst; [constructor|done]).
  assert (sort_children atlv_sort_perform cs = Ok cs) as ->.
  { rewrite forallb_forall in Hcs. clear He Ho. induction IH as [|c cs Hc _ IHcs]; cbn [sort_children]; [done|]. inversion_clear Hec.
    rewrite Hc; [|done|by apply Hcs; left]. run. rewrite IHcs; [done| |done]. intros x Hx. apply Hcs. by right. }
  run. destruct (sorted h); cbn [negb]; [|done]. destruct (sort_pairs_ok cs Hec) as (ps & -> & Ht & Hb & Hl). run.
  cbn [negb orb] in Ho. rewrite (sort_ascending S ps) by (by rewrite Hb). unfold relink. rewrite Ht.
  destruct (last ps) as [p|]; [rewrite Hl|]; by rewrite app_nil_r.
Qed.

(** * The theorem *)

Lemma reparsed_source t0 : encodable t0 -> bytes (der t0) -> source (reparsed t0) /\ der (reparsed t0) = der t0.
Proof.
  induction t0 as [h v d cs IH] using Atlv_ind'. intros He Hb.
  assert (forall b, Forall (fun t => encodable t -> bytes (der t) -> source (reparsed t) /\ der (reparsed t) = der t) b ->
    Forall encodable b -> bytes (concat (map der b)) -> Forall source (map reparsed b) /\ map der (map reparsed b) = map der b) as Hall.
  { intros b. induction 1 as [|c b Hc _ IHb]; intros Heb Hbb; [split; [constructor|done]|]. inversion_clear Heb. cbn [map concat] in *.
    apply Forall_app in Hbb as [Hb1 Hb2]. destruct Hc as [Hs1 Hd1]; [done..|]. destruct IHb as [Hs2 Hd2]; [done..|].
    split; [by constructor|by rewrite Hd1, Hd2]. }
  inversion He as [? buf ? Hh Hc|? ? ? Hh Hc Hcs]; subst; cbn [reparsed der] in *.
  - split; [|done]. split; [apply enc_value; [exact Hh|done]|done|]. cbn [der map concat]. exact Hb.
  - apply Forall_app in Hb as Hb2. destruct Hb2 as [_ Hbc]. destruct (Hall cs IH Hcs Hbc) as [Hs Hd]. cbn [fmap option_fmap option_map].
    split; [|by rewrite Hd]. split.
    + apply enc_structured; [rewrite Hd; exact Hh|done|]. eapply Forall_impl; [exact Hs|by intros ? []].
    + cbn [plain plain_head parsed_head prefix_for_bit_string prefix_with_zero_byte sorted negb andb]. apply forallb_forall.
      intros x Hx%list_elem_of_In. rewrite Forall_forall in Hs. by destruct (Hs x Hx).
    + cbn [der]. rewrite Hd. exact Hb.
Qed.

(** C8: what was decoded is encoded to the same bytes: for bytes that are the DER
    encoding of some TLV tree and a tree decoded from them that satisfies what encoding
    relies on ([rebuilds]), [egg_asn1x_encode] returns exactly the bytes. *)
Theorem decode_encode_roundtrip (S : GListSort) `{!GListSortLaws S} (this_year : Z) (asn asn' : GNode) (t0 : Atlv) (options : Z) :
  encodable t0 -> bytes (der t0) -> schema_ok asn = true ->
  egg_asn1x_decode_full this_year asn (der t0) options = Ok (true, asn') -> rebuilds true asn' = true ->
  egg_asn1x_encode this_year asn' = Ok (Some (der t0), asn').
Proof.
  intros He Hb Hs H Hr. destruct (egg_asn1x_clear_ok asn Hs) as (asn0 & Hclr & [_ _ _ Hf _]).
  unfold egg_asn1x_decode_full in H. rewrite Hclr, (parse_der_reads t0 He) in H. cbn [mbind res_bind] in H.
  apply bind_Ok in H as ([ok n'] & Hd & H). destruct ok; cbn [negb] in H; [|done]. apply validate_iff in H as [Hw ->].
  apply decode_root_matched in Hd; [|done]. destruct (reparsed_source t0 He Hb) as [Hsrc Hder].
  destruct (anything_builds n' true (reparsed t0) Hd Hsrc Hr) as (t' & Hbt & [_ Hd' Henc Hset]).
  unfold egg_asn1x_encode. assert (anode_def_type_is_real (data n') = true) as ->.
  { destruct n' as [an cs]. cbn [rebuilds data] in *. unfold anode_def_type_is_real. destruct (parsed an); [|done].
    destruct (anode_def_type an); try done; cbn in Hr; by rewrite ?andb_false_r in Hr. }
  cbn [negb]. unfold egg_asn1x_validate. rewrite (proj2 (validate_iff this_year true n' n')) by done. run.
  rewrite Hbt. run. rewrite sort_perform_sorted by done. run. rewrite (unparse_to_bytes_der t' Henc). cbn [no_err]. run.
  by rewrite Hd', Hder.
Qed.
