(* ===== verification/Asn1Access.v ===== *)
(** Reading and setting the values of ASN.1 nodes: the [egg_asn1x_get_*] and
    [egg_asn1x_set_*] functions of [src/egg/egg-asn1x.c].

    Functions that touch one node work on its data.  A [NULL] or [FALSE] return is [None]
    or [false]; so is the return of [g_return_val_if_fail], which also logs.  A quark is
    its string.  GLib's check of UTF-8 is a parameter. *)

From S2P Require Import Prelude Text Asn1Tlv Asn1Value Asn1Node Asn1Schema Sorting Asn1Create Asn1Decode Asn1DecodeSpec Asn1ValidateSpec Asn1Safe Asn1Build Asn1Roundtrip.
Local Open Scope Z_scope.

Definition is_type (an : Anode) (t : EggAsn1xType) : bool := bool_decide (anode_def_type an = t).

(** * Defaults *)

Definition anode_default_boolean (an : Anode) : option (list Z) :=
  if negb (has (anode_def_flags an) FLAG_DEFAULT) then None
  else
    opt ← anode_opt_lookup an DEFAULT None;
    if has (def_type opt) FLAG_TRUE then Some (anode_write_boolean true)
    else if has (def_type opt) FLAG_FALSE then Some (anode_write_boolean false)
    else None.

(** The default may be the name of a constant. *)
Definition anode_default_integer (an : Anode) : option (list Z) :=
  if negb (has (anode_def_flags an) FLAG_DEFAULT) then None
  else
    opt ← anode_opt_lookup an DEFAULT None;
    defval ← def_value opt;
    defval ← match anode_opt_lookup an CONSTANT (Some defval) with Some opt => def_value opt | None => Some defval end;
    let '(value, end_) := strtoul defval in
    if bool_decide (end_ = []) then Some (anode_write_integer_ulong value) else None.

(** [anode_take_value], or [anode_clr_value] for the default. *)
Definition take_unless_default (an : Anode) (def : option (list Z)) (v : list Z) : Anode :=
  if bool_decide (def = Some v) then anode_clr_value an else anode_take_value an v.

(** * Simple types *)

Definition egg_asn1x_get_boolean (an : Anode) : option bool :=
  if negb (is_type an BOOLEAN) then None
  else v ← or_else (an_value an) (anode_default_boolean an); anode_read_boolean v.

Definition egg_asn1x_set_boolean (an : Anode) (value : bool) : Anode :=
  if negb (is_type an BOOLEAN) then an
  else take_unless_default an (anode_default_boolean an) (anode_write_boolean value).

Definition egg_asn1x_set_null (an : Anode) : Anode :=
  if negb (is_type an NULL) then an else anode_take_value (anode_clr_value an) [].

Definition egg_asn1x_get_enumerated (an : Anode) : res unit (option (list Z)) :=
  if negb (is_type an ENUMERATED) then Ok None
  else
    match an_value an with
    | None => Ok None
    | Some v =>
      r ← anode_read_integer_ulong v;
      Ok (val ← r; opt ← anode_opt_lookup_value an CONSTANT (Some (print_lu val)); def_name opt)
    end.

Definition egg_asn1x_set_enumerated (an : Anode) (name : list Z) : Anode :=
  if negb (is_type an ENUMERATED) then an
  else
    match anode_opt_lookup an CONSTANT (Some name) with
    | None => an
    | Some opt =>
      let val := anode_def_value_as_ulong opt in
      if val =? G_MAXULONG then an
      else anode_take_value (anode_clr_value an) (anode_write_integer_ulong val)
    end.

Definition egg_asn1x_get_integer_as_ulong (an : Anode) : res unit (option Z) :=
  if negb (is_type an INTEGER) then Ok None
  else
    match or_else (an_value an) (anode_default_integer an) with
    | None => Ok None
    | Some v => anode_read_integer_ulong v
    end.

Definition egg_asn1x_set_integer_as_ulong (an : Anode) (value : Z) : Anode :=
  if negb (is_type an INTEGER) then an
  else take_unless_default an (anode_default_integer an) (anode_write_integer_ulong value).

Definition egg_asn1x_get_integer_as_raw (an : Anode) : option (list Z) :=
  if negb (is_type an INTEGER) then None
  else if guarantee_unsigned an then None
  else an_value an.

(** [while (p[0] == 0 && len > 1)] *)
Fixpoint strip_zeros (p : list Z) : list Z :=
  match p with
  | 0 :: (_ :: _) as q => strip_zeros q
  | _ => p
  end.

Definition egg_asn1x_get_integer_as_usg (an : Anode) : res unit (option (list Z)) :=
  if negb (is_type an INTEGER) then Ok None
  else
    match an_value an with
    | None => Ok None
    | Some p =>
      if guarantee_unsigned an then Ok (Some p)
      else
        b ← or_ub (rd p 0);
        if negb (Z.land b 0x80 =? 0) then Ok None else Ok (Some (strip_zeros p))
    end.

Definition egg_asn1x_take_integer_as_raw (an : Anode) (v : list Z) : res unit Anode :=
  if negb (is_type an INTEGER) then Ok an
  else
    b ← or_ub (rd v 0);
    if negb (Z.land b 0x80 =? 0) then Ok an
    else Ok (set_unsigned (anode_take_value (anode_clr_value an) v) false).

Definition egg_asn1x_set_integer_as_raw (an : Anode) (v : list Z) : res unit Anode := egg_asn1x_take_integer_as_raw an v.

Definition egg_asn1x_take_integer_as_usg (an : Anode) (v : list Z) : Anode :=
  if negb (is_type an INTEGER) then an else set_unsigned (anode_take_value an v) true.

Definition egg_asn1x_set_integer_as_usg (an : Anode) (v : list Z) : Anode := egg_asn1x_take_integer_as_usg an v.

(** * Strings *)

Definition get_string_as_raw (alloc : Z -> option (list Z)) (an : Anode) : res unit (option (list Z * Z)) :=
  if negb (is_string_type (anode_def_type an)) then Ok None
  else egg_asn1x_get_string_as_raw alloc (an_value an) (parsed an).

Definition egg_asn1x_set_string_as_raw (an : Anode) (v : list Z) : Anode :=
  if negb (is_string_type (anode_def_type an)) then an else anode_take_value an v.

Definition egg_asn1x_set_string_as_bytes (an : Anode) (v : list Z) : Anode := egg_asn1x_set_string_as_raw an v.

(** [g_bytes_new_take (raw, length)] *)
Definition egg_asn1x_get_string_as_bytes (alloc : Z -> option (list Z)) (an : Anode) : res unit (option (list Z)) :=
  r ← get_string_as_raw alloc an;
  Ok ('(s, n) ← r; Some (take (Z.to_nat n) s)).

(** The bytes without the zeros in front. *)
Definition egg_asn1x_get_string_as_usg (alloc : Z -> option (list Z)) (an : Anode) : res unit (option (list Z)) :=
  r ← get_string_as_raw alloc an;
  match r with
  | None => Ok None
  | Some (s, n) => _ ← or_ub (rd s 0); Ok (Some (strip_zeros (take (Z.to_nat n) s)))
  end.

Section Utf8.
Context (g_utf8_validate : list Z -> bool).

(** A string with its NUL. *)
Definition egg_asn1x_get_string_as_utf8 (alloc : Z -> option (list Z)) (an : Anode) : res unit (option (list Z)) :=
  r ← get_string_as_raw alloc an;
  Ok ('(s, n) ← r; if g_utf8_validate (take (Z.to_nat n) s) then Some s else None).

Definition egg_asn1x_set_string_as_utf8 (an : Anode) (data : list Z) : bool * Anode :=
  let v := c_str data in
  if negb (g_utf8_validate v) then (false, an) else (true, egg_asn1x_set_string_as_raw an v).

End Utf8.

(** * Bit strings *)

Definition get_bits_as_raw (an : Anode) : option (list Z * Z) :=
  if negb (is_type an BIT_STRING) then None
  else v ← an_value an; Some (egg_asn1x_get_bits_as_raw v (an_bits_empty an)).

Definition take_bits_as_raw (an : Anode) (v : list Z) (n_bits : Z) : Anode :=
  if negb (is_type an BIT_STRING) then an
  else let '(v, empty) := egg_asn1x_take_bits_as_raw v n_bits in set_bits_empty (anode_take_value an v) empty.

Definition egg_asn1x_set_bits_as_raw (an : Anode) (v : list Z) (n_bits : Z) : Anode := take_bits_as_raw an v n_bits.

Definition get_bits_as_ulong (an : Anode) : option (Z * Z) :=
  if negb (is_type an BIT_STRING) then None
  else v ← an_value an; egg_asn1x_get_bits_as_ulong v (an_bits_empty an).

Definition set_bits_as_ulong (an : Anode) (bits n_bits : Z) : Anode :=
  match egg_asn1x_set_bits_as_ulong bits n_bits with
  | None => an
  | Some (v, empty) => if negb (is_type an BIT_STRING) then an else anode_take_value (set_bits_empty an empty) v
  end.

(** * Times and object identifiers *)

(** The fields given to [g_date_time_new], with the offset of the time zone; a choice of
    times stands for the chosen one. *)
Fixpoint egg_asn1x_get_time_as_date_time (this_year : Z) (n : GNode) : res unit (option (tm * Z)) :=
  let 'N an cs := n in
  let is_time an := is_type an TIME || is_type an UTC_TIME || is_type an GENERALIZED_TIME in
  if is_type an CHOICE then
    (fix chosen_time cs :=
       match cs with
       | [] => Ok None
       | c :: cs =>
         if chosen (data c)
         then if is_time (data c) then egg_asn1x_get_time_as_date_time this_year c else Ok None
         else chosen_time cs
       end) cs
  else if is_time an then
    match an_value an with
    | None => Ok None
    | Some v => anode_read_time this_year an v
    end
  else Ok None.

Definition egg_asn1x_get_oid_as_string (an : Anode) : res unit (option (list Z)) :=
  if negb (is_type an OBJECT_ID) then Ok None
  else match an_value an with None => Ok None | Some v => anode_read_object_id v end.

Definition set_oid_as_string (an : Anode) (oid : list Z) : res unit (bool * Anode) :=
  if negb (is_type an OBJECT_ID) then Ok (false, an)
  else
    r ← egg_asn1x_set_oid_as_string oid;
    Ok (match r with None => (false, an) | Some v => (true, anode_take_value an v) end).

Definition egg_asn1x_get_oid_as_quark (an : Anode) : res unit (option (list Z)) := egg_asn1x_get_oid_as_string an.
Definition egg_asn1x_set_oid_as_quark (an : Anode) (oid : option (list Z)) : res unit (bool * Anode) :=
  match oid with None => Ok (false, an) | Some s => set_oid_as_string an s end.

(** * Any *)

(** [into] is a node with its next siblings, as [anode_decode_anything] takes it. *)
Definition egg_asn1x_get_any_into_full (this_year : Z) (an : Anode) (into : list GNode) (options : Z) : res unit (bool * list GNode) :=
  if negb (is_type an ANY) then Ok (false, into)
  else
    match parsed an with
    | None => Ok (false, into)
    | Some t =>
      match (if is_explicit an (anode_def_flags an) then hd_error (child t) else Some t) with
      | None => Ok (false, into)
      | Some t =>
        '(ok, into) ← decode_anything into [t];
        if negb ok then Ok (false, into)
        else match into with
             | [] => Ub
             | n :: rest => '(ok, n) ← egg_asn1x_validate this_year n (negb (has options EGG_ASN1X_NO_STRICT)); Ok (ok, n :: rest)
             end
      end
    end.

Definition egg_asn1x_get_any_into (this_year : Z) (an : Anode) (into : list GNode) : res unit (bool * list GNode) :=
  egg_asn1x_get_any_into_full this_year an into 0.

Definition egg_asn1x_get_any_as_full `{GListSort} (fuel : nat) (this_year : Z) (an : Anode) (defs : list EggAsn1xDef)
    (type : list Z) (options : Z) : res unit (option GNode) :=
  if negb (is_type an ANY) then Ok None
  else
    asn ← egg_asn1x_create fuel defs type;
    match asn with
    | None => Ok None
    | Some asn =>
      '(ok, into) ← egg_asn1x_get_any_into_full this_year an [asn] options;
      Ok (if ok : bool then hd_error into else None)
    end.

Definition def_string (type : Z) : EggAsn1xDef := mk_def None (type + FLAG_UNIVERSAL + FLAG_IMPLICIT) None.

Definition egg_asn1x_get_any_as_string_full (this_year : Z) (an : Anode) (type : EggAsn1xType) (options : Z) : res unit (option GNode) :=
  if negb (is_type an ANY) then Ok None
  else
    match (match type with BMP_STRING => Some 33 | UTF8_STRING => Some 34 | IA5_STRING => Some 29 | _ => None end) with
    | None => Ok None
    | Some k =>
      '(ok, into) ← egg_asn1x_get_any_into_full this_year an [N (anode_new (def_string k)) []] options;
      Ok (if ok : bool then hd_error into else None)
    end.

(** A build that gives nothing leaves the node as it is. *)
Definition egg_asn1x_set_any_from (an : Anode) (from : GNode) : res unit Anode :=
  if negb (is_type an ANY) then Ok an
  else
    t ← anode_build_anything from true;
    match t with
    | None => Ok an
    | Some t => t ← anode_build_maybe_explicit an t (anode_def_flags an); Ok (set_parsed an t)
    end.

Definition egg_asn1x_set_any_raw (an : Anode) (raw : list Z) : res unit (bool * Anode) :=
  match atlv_parse_der raw with
  | Ok t => t ← anode_build_maybe_explicit an t (anode_def_flags an); Ok (true, set_parsed an t)
  | Err e =>
    match parse_message e with
    | Some msg => Ok (false, set_failure an (Some msg))
    | None => Err tt
    end
  | Ub => Ub
  end.

Definition egg_asn1x_get_element_raw (an : Anode) : option (list Z) :=
  t ← parsed an;
  t ← (if is_explicit an (anode_def_flags an) then hd_error (child t) else Some t);
  decoded t.

Definition egg_asn1x_get_value_raw (an : Anode) : option (list Z) := an_value an.

(** * What is set is what is read *)

Lemma take_value_of an v : an_value (anode_take_value an v) = Some v.
Proof. by destruct an. Qed.

Lemma type_take an v t : is_type (anode_take_value an v) t = is_type an t.
Proof. unfold is_type. by rewrite (core_def_type (anode_take_value an v) an) by cores. Qed.
Lemma type_clr an t : is_type (anode_clr_value an) t = is_type an t.
Proof. unfold is_type. by rewrite (core_def_type (anode_clr_value an) an) by cores. Qed.

Lemma lookup_core an an' t k : core an = core an' -> anode_opt_lookup an t k = anode_opt_lookup an' t k.
Proof. destruct an, an'. by intros [= -> -> ->]. Qed.

Lemma default_boolean_core an an' : core an = core an' -> anode_default_boolean an = anode_default_boolean an'.
Proof. intros H. unfold anode_default_boolean. by rewrite (core_def_flags _ _ H), (lookup_core _ _ _ _ H). Qed.

Lemma default_boolean_flag an v : anode_default_boolean an = Some v -> has (anode_def_flags an) FLAG_DEFAULT = true.
Proof. unfold anode_default_boolean. by destruct (has _ FLAG_DEFAULT). Qed.

(** A boolean that is set is read back, and leaves the node well typed, also when
    it is the default and therefore not stored. *)
Theorem set_boolean_get (this_year : Z) (an : Anode) (cs : list GNode) (b : bool) :
  anode_def_type an = BOOLEAN ->
  egg_asn1x_get_boolean (egg_asn1x_set_boolean an b) = Some b /\
  well_typed this_year (N (egg_asn1x_set_boolean an b) cs).
Proof.
  intros Ht. assert (is_type an BOOLEAN = true) as Hty by by apply bool_decide_eq_true.
  unfold egg_asn1x_set_boolean. rewrite Hty. cbn [negb]. unfold take_unless_default.
  assert (anode_read_boolean (anode_write_boolean b) = Some b) as Hrw by by destruct b.
  destruct (bool_decide_reflect (anode_default_boolean an = Some (anode_write_boolean b))) as [Hd|Hd].
  - split.
    + unfold egg_asn1x_get_boolean. rewrite type_clr, Hty. cbn [negb].
      rewrite (default_boolean_core (anode_clr_value an) an), Hd by cores. exact Hrw.
    + apply wt_missing.
      * by rewrite (core_def_type (anode_clr_value an) an), Ht by cores.
      * done.
      * right. rewrite (core_def_flags (anode_clr_value an) an) by cores. by eapply default_boolean_flag.
  - split.
    + unfold egg_asn1x_get_boolean. rewrite type_take, Hty, take_value_of. exact Hrw.
    + apply (wt_value _ _ _ (anode_write_boolean b)).
      * by rewrite (core_def_type (anode_take_value an _) an), Ht by cores.
      * apply take_value_of.
      * unfold value_typed. rewrite (core_def_type (anode_take_value an _) an), Ht by cores. destruct b; [by right|by left].
Qed.

(** DER put into an ANY node comes out again unchanged: [egg_asn1x_set_any_raw]
    accepts every DER encoding of a TLV tree, and [egg_asn1x_get_any_raw] then returns it,
    inside of the explicit tag if the node has one. *)
Theorem any_raw_roundtrip (S : GListSort) `{!GListSortLaws S} (an : Anode) (cs : list GNode) (t0 : Atlv) :
  encodable t0 -> bytes (der t0) -> anode_def_type an = ANY ->
  (forall k, anode_calc_explicit_for_flags an (anode_def_flags an) = (true, Some k) ->
     cls_ok (Z.lor ASN1_CLASS_STRUCTURED k) /\ Z.land (Z.lor ASN1_CLASS_STRUCTURED k) ASN1_CLASS_STRUCTURED <> 0 /\
     0 <= anode_calc_tag an < 2 ^ 32 /\
     Zlen (header_bytes (Z.lor ASN1_CLASS_STRUCTURED k) (anode_calc_tag an) (Zlen (der t0))) + Zlen (der t0) < 2 ^ 31) ->
  exists an', egg_asn1x_set_any_raw an (der t0) = Ok (true, an') /\
    egg_asn1x_get_any_raw (N an' cs) = Ok (Some
      (match anode_calc_explicit_for_flags an (anode_def_flags an) with
       | (true, Some k) => header_bytes (Z.lor ASN1_CLASS_STRUCTURED k) (anode_calc_tag an) (Zlen (der t0)) ++ der t0
       | _ => der t0
       end), N an' cs).
Proof.
  intros He Hb Hty Hex. unfold egg_asn1x_set_any_raw. rewrite (parse_der_reads t0 He).
  destruct (reparsed_source t0 He Hb) as [Hs Hder]. pose proof (rebuilt_refl _ Hs) as Hr.
  assert (exists t, anode_build_maybe_explicit an (reparsed t0) (anode_def_flags an) = Ok t /\ encodable t /\ set_sorted t = true /\
    der t = match anode_calc_explicit_for_flags an (anode_def_flags an) with
       | (true, Some k) => header_bytes (Z.lor ASN1_CLASS_STRUCTURED k) (anode_calc_tag an) (Zlen (der t0)) ++ der t0
       | _ => der t0 end) as (t & Hbt & Henc & Hset & Hdt).
  { unfold anode_build_maybe_explicit. destruct (anode_calc_explicit_for_flags an (anode_def_flags an)) as [[] [k|]] eqn:Ex.
    - destruct (Hex k eq_refl) as (Hc & Hst & Ht & Hsz). run.
      pose proof (der_length _ (so_encodable _ Hs)) as (Hdl & Ho & Hl & Hm). rewrite Hder in Hdl. rewrite <- Hdl, gint_ok by lia. run.
      rewrite size_ok by (done || lia). cbn [no_err]. run. eexists. split; [done|]. split_and!.
      + apply enc_structured; [|done|by constructor; [apply Hs|constructor]].
        cbn [map concat]. rewrite app_nil_r, Hder. unfold head_ok. cbn. done.
      + cbn [set_sorted forallb sorted]. by rewrite (rb_sorted _ _ Hr).
      + cbn [der map concat cls tag len]. by rewrite app_nil_r, Hder.
    - exfalso. unfold anode_calc_explicit_for_flags in Ex. repeat case_match; done.
    - exists (reparsed t0). split; [done|]. split_and!; [apply Hs|apply Hr|done].
    - exists (reparsed t0). split; [done|]. split_and!; [apply Hs|apply Hr|done]. }
  rewrite Hbt. run. eexists. split; [done|]. unfold egg_asn1x_get_any_raw. cbn [anode_build_anything].
  rewrite (core_def_type (set_parsed an t) an) by cores. rewrite Hty, (bool_decide_eq_true_2 (ANY = ANY)) by done.
  cbn [anode_build_any parsed set_parsed]. run. rewrite sort_perform_sorted by done. run.
  rewrite (unparse_to_bytes_der t Henc). cbn [no_err]. run. by rewrite Hdt.
Qed.
