(* ===== verification/Asn1Strings.v ===== *)
(** String nodes and choices of them: what [egg_asn1x_set_any_from] builds for them and
    what [egg_asn1x_get_any_into] makes of it again. *)

From S2P Require Import Prelude Text Asn1Tlv Asn1Value Asn1Node Asn1Schema Sorting Asn1Create Asn1Decode Asn1DecodeSpec Asn1ValidateSpec Asn1Build Asn1Roundtrip Asn1Access.
Local Open Scope Z_scope.

(** * One string *)

(** A string node with its universal tag. *)
Definition stringy (an : Anode) : bool := is_string_type (anode_def_type an) && negb (has (anode_def_flags an) FLAG_TAG).

Definition string_tlv (t : Z) (v : list Z) : Atlv :=
  mk_atlv (mk_head 0 t (Zlen (header_bytes 0 t (Zlen v))) (Zlen v) 0 false false false) (Some v) None [].

Lemma stringy_iff an : stringy an = true <-> is_string_type (anode_def_type an) = true /\ has (anode_def_flags an) FLAG_TAG = false.
Proof. unfold stringy. by rewrite andb_true_iff, negb_true_iff. Qed.

Lemma stringy_tag an : stringy an = true -> 0 <= anode_calc_tag an < 31.
Proof.
  rewrite stringy_iff. intros [Ht Hf]. unfold anode_calc_tag, anode_calc_tag_for_flags. rewrite Hf.
  by destruct (anode_def_type an).
Qed.

Lemma string_head_ok t v : 0 <= t < 31 -> Zlen v < 2 ^ 30 -> head_ok (head (string_tlv t v)) v.
Proof.
  intros Ht Hl. unfold head_ok, string_tlv. cbn [head cls tag len off]. split_and!; [by unfold cls_ok|lia|lia|done|done|].
  destruct (header_bytes_ok 0 t (Zlen v)) as (ct & lb & _ & _ & -> & ? & ?); [by unfold cls_ok|lia|lia|]. rewrite length_app. lia.
Qed.

Lemma build_string an v cs want : stringy an = true -> an_value an = Some v -> Zlen v < 2 ^ 30 ->
  anode_build_anything (N an cs) want = Ok (Some (string_tlv (anode_calc_tag an) v)).
Proof.
  intros Hs Hv Hl. pose proof (stringy_tag an Hs) as Hr. apply stringy_iff in Hs as [Ht Hf]. cbn [anode_build_anything].
  pose proof (not_explicit an _ Hf) as Hx.
  assert (is_plain_type (anode_def_type an) = true) as Hp by by destruct (anode_def_type an).
  rewrite (bool_decide_eq_false_2 (anode_def_type an = ANY)), (bool_decide_eq_false_2 (anode_def_type an = BIT_STRING)),
    (bool_decide_eq_false_2 (anode_def_type an = INTEGER)), Hp by (by intros E; rewrite E in Ht).
  unfold anode_build_value, build_with. rewrite Hv, s32_small by lia.
  assert (anode_build_cls_tag_len an new_head (Zlen v) = Ok (head (string_tlv (anode_calc_tag an) v))) as ->.
  { unfold anode_build_cls_tag_len. cbn [new_head prefix_for_bit_string prefix_with_zero_byte orb]. rewrite gint_ok by lia. run.
    rewrite Hp, c_assert_true by done. run. rewrite Hf. run.
    assert (is_container_type (anode_def_type an) = false) as -> by by destruct (anode_def_type an).
    fold (anode_calc_tag an). rewrite size_ok; [done|by unfold cls_ok|lia|lia]. }
  run. unfold anode_build_maybe_explicit. unfold is_explicit in Hx.
  destruct (anode_calc_explicit_for_flags an (anode_def_flags an)) as [[] k]; done.
Qed.

(** What decoding makes of the node. *)
Definition decoded_string (an : Anode) (t : Z) (v : list Z) : Anode := set_parsed (anode_take_value an v) (string_tlv t v).

Lemma without_tag_primitive fuel n t flags : is_explicit (data n) flags = false -> is_structured t = false ->
  anode_decode_one_without_tag (S fuel) n t flags = mark_parsed t <$> anode_decode_primitive (anode_decode_one_without_tag fuel) n t.
Proof. intros Hx Hs. cbn [anode_decode_one_without_tag]. by rewrite Hx, Hs. Qed.

Lemma without_tag_string fuel an t v cs : stringy an = true ->
  anode_decode_one_without_tag (S fuel) (N an cs) (string_tlv t v) (anode_def_flags an) = Ok (true, N (decoded_string an t v) cs).
Proof.
  rewrite stringy_iff. intros [Ht Hf]. cbn [anode_decode_one_without_tag data]. rewrite not_explicit by done.
  assert (is_structured (string_tlv t v) = false) as -> by done. unfold anode_decode_primitive. rewrite c_assert_true by done. run.
  cbn [data]. rewrite (bool_decide_eq_false_2 (anode_def_type an = BIT_STRING)) by (by intros E; rewrite E in Ht).
  assert (is_plain_type (anode_def_type an) = true) as -> by by destruct (anode_def_type an). done.
Qed.

Lemma decode_one_string fuel an t v cs : stringy an = true ->
  anode_decode_one (anode_decode_one_without_tag (S fuel)) (N an cs) (string_tlv t v) =
    if anode_calc_tag an =? t then Ok (true, N (decoded_string an t v) cs)
    else fails (N an cs) (lit "decoded tag did not match expected").
Proof.
  intros Hs. pose proof (stringy_tag an Hs). unfold anode_decode_one, expected_tag. cbn [data]. fold (anode_calc_tag an).
  destruct (Z.eqb_spec (anode_calc_tag an) G_MAXULONG) as [E|_]; [unfold G_MAXULONG in E; lia|].
  cbn [string_tlv head tag]. destruct (anode_calc_tag an =? t); cbn [negb]; [by apply without_tag_string|done].
Qed.

Lemma validate_size_core an an' l : core an = core an' -> anode_validate_size an l = anode_validate_size an' l.
Proof.
  intros Hc. assert (opts an = opts an') as Ho by exact (f_equal opts Hc).
  assert (forall fuel text, anode_parse_size fuel an text = anode_parse_size fuel an' text) as Hp.
  { induction fuel as [|fuel IH]; intros [text|]; cbn [anode_parse_size]; rewrite ?(lookup_core an an') by done; repeat case_match; congruence || done. }
  unfold anode_validate_size, parse_size. rewrite (core_def_flags _ _ Hc), (lookup_core an an'), Ho by done.
  destruct (negb _); [done|]. destruct (anode_opt_lookup an' SIZE None) as [d|]; [|done]. by rewrite !Hp.
Qed.

Lemma validate_string an v cs y s : stringy an = true -> an_value an = Some v -> anode_validate_size an (Zlen v) = Ok Valid ->
  anode_validate_anything y s (N an cs) = Ok (true, N an cs).
Proof.
  rewrite stringy_iff. intros [Ht _] Hv Hs. cbn [anode_validate_anything]. rewrite Hv.
  assert (validate_value y an v = Ok Valid) as ->; [|by destruct (anode_def_type an)].
  unfold validate_value. destruct (anode_def_type an); done || by rewrite validate_string_eq.
Qed.

(** Changes of a node that leave its definition. *)
Lemma stringy_core an an' : core an = core an' -> stringy an = stringy an'.
Proof. intros Hc. unfold stringy. by rewrite (core_def_type _ _ Hc), (core_def_flags _ _ Hc). Qed.

Lemma core_decoded an t v : core (decoded_string an t v) = core an.
Proof. by destruct an. Qed.
Lemma value_decoded an t v : an_value (decoded_string an t v) = Some v.
Proof. by destruct an. Qed.

(** * A choice of strings *)

Definition tags (cs : list GNode) : list Z := (fun c => anode_calc_tag (data c)) <$> cs.

Lemma choice_none fuel v t cs : Forall (fun c => stringy (data c) = true) cs -> t ∉ tags cs -> forall have, exists cs',
  choice_loop (anode_decode_one_without_tag (S fuel)) cs (string_tlv t v) have = Ok (have, cs') /\ Forall (fun c => chosen (data c) = false) cs'.
Proof.
  induction 1 as [|[an k] cs Hc _ IH]; intros Ht have; cbn [choice_loop]; [by exists []|].
  apply not_elem_of_cons in Ht as [Hne Ht]. cbn [data] in *. rewrite decode_one_string by done.
  destruct (Z.eqb_spec (anode_calc_tag an) t) as [E|_]; [done|]. unfold fails. run. rewrite orb_false_r.
  destruct (IH Ht have) as (cs' & -> & Hf). run. eexists. split; [done|]. constructor; [by destruct an|done].
Qed.

Lemma choice_one fuel v an k pre post : stringy an = true -> Forall (fun c => stringy (data c) = true) (pre ++ N an k :: post) ->
  NoDup (tags (pre ++ N an k :: post)) -> exists pre' post',
  choice_loop (anode_decode_one_without_tag (S fuel)) (pre ++ N an k :: post) (string_tlv (anode_calc_tag an) v) false =
    Ok (true, pre' ++ N (set_chosen (decoded_string an (anode_calc_tag an) v) true) k :: post') /\
  Forall (fun c => chosen (data c) = false) (pre' ++ post').
Proof.
  intros Hs. induction pre as [|[an' k'] pre IH]; cbn [app]; intros Hall Hnd; inversion_clear Hall as [|? ? Hs' Hall'];
    unfold tags in Hnd; cbn [fmap list_fmap data] in Hnd; fold (tags post) in Hnd; apply NoDup_cons in Hnd as [Hni Hnd]; cbn [choice_loop data] in *.
  - rewrite decode_one_string, Z.eqb_refl by done. run. destruct (choice_none fuel v (anode_calc_tag an) post Hall' Hni true) as (post' & E & Hf).
    cbn [orb]. rewrite E. run. by exists [], post'.
  - rewrite decode_one_string by done. destruct (Z.eqb_spec (anode_calc_tag an') (anode_calc_tag an)) as [E|_].
    + exfalso. apply Hni. rewrite E. apply list_elem_of_fmap. exists (N an k). split; [done|]. apply elem_of_app. right. left.
    + unfold fails. run. cbn [orb]. destruct (IH Hall' Hnd) as (pre' & post' & -> & Hf). run. eexists (_ :: pre'), post'. split; [done|].
      constructor; [by destruct an'|done].
Qed.
