(* ===== verification/Asn1Cases.v ===== *)
(** ASN.1 trees at work: the theorems of the node layer at concrete inputs, and what the
    model shows the code to do at the edges. *)

From S2P Require Import Prelude Text Asn1Tlv Asn1Value Asn1Node Asn1Schema Sorting Asn1Create Asn1Tables Asn1Decode Asn1DecodeSpec Asn1ValidateSpec Asn1Safe Asn1Build Asn1Roundtrip Asn1Access.
Local Open Scope Z_scope.

#[local] Existing Instance insertion_sort.

(** The tree of a type, and decoding and encoding again. *)
Definition tree_of (defs : list EggAsn1xDef) (type : list Z) : GNode :=
  match egg_asn1x_create 20 defs type with Ok (Some n) => n | _ => N (anode_new (mk_def None 0 None)) [] end.

Definition decodes (defs : list EggAsn1xDef) (type bytes : list Z) : option bool :=
  match egg_asn1x_decode 125 (tree_of defs type) bytes with Ok (ok, _) => Some ok | _ => None end.

Definition message_of (defs : list EggAsn1xDef) (type bytes : list Z) : option (list Z) :=
  match egg_asn1x_decode 125 (tree_of defs type) bytes with Ok (_, n) => egg_asn1x_message n | _ => None end.

Definition reencodes (defs : list EggAsn1xDef) (type bytes : list Z) : res unit (option (list Z)) :=
  '(ok, n) ← egg_asn1x_decode 125 (tree_of defs type) bytes;
  if ok : bool then '(b, _) ← egg_asn1x_encode 125 n; Ok b else Ok None.

(** * The theorems at RSAPublicKey { 3, 5 } *)

Definition rsa_tree : GNode := Eval vm_compute in tree_of pk_asn1_tab (lit "RSAPublicKey").
Definition rsa_bytes : list Z := [0x30; 6; 2; 1; 3; 2; 1; 5].
Definition rsa_decoded : GNode := Eval vm_compute in
  match egg_asn1x_decode 125 rsa_tree rsa_bytes with Ok (_, n) => n | _ => rsa_tree end.
Definition prim (c t : Z) (v : list Z) : Atlv := mk_atlv (parsed_head c t 2 (Zlen v)) (Some v) None [].
Definition rsa_tlv : Atlv := mk_atlv (parsed_head 0x20 0x10 2 6) None None [prim 0 2 [3]; prim 0 2 [5]].

Lemma rsa_encodable : encodable rsa_tlv.
Proof.
  apply enc_structured; [unfold head_ok, cls_ok; decide_now|decide_now|].
  repeat constructor; (unfold head_ok, cls_ok; decide_now) || decide_now.
Qed.

Lemma egg_asn1x_decode_full_safe_witness :
  exists ok asn', egg_asn1x_decode_full 125 rsa_tree rsa_bytes 0 = Ok (ok, asn') /\
    shape asn' = shape rsa_tree /\ uniform asn' /\ schema_ok asn' = true.
Proof.
  apply (egg_asn1x_decode_full_safe 125 rsa_tree rsa_bytes 0).
  - decide_now.
  - decide_now.
  - apply last_byte_closes. intros x Hx. vm_compute in Hx. injection Hx as <-. reflexivity.
  - reflexivity.
  - intros asn0 t asn' H0 Ht Hd. vm_compute in H0. injection H0 as <-. vm_compute in Ht. injection Ht as <-.
    vm_compute in Hd. injection Hd as <-. vm_compute. reflexivity.
Defined.

Lemma egg_asn1x_decode_full_typed_witness :
  exists t, atlv_parse_der rsa_bytes = Ok t /\ matched rsa_decoded t /\ well_typed 125 rsa_decoded.
Proof. apply (egg_asn1x_decode_full_typed 125 rsa_tree rsa_bytes 0 rsa_decoded); [reflexivity|vm_compute; reflexivity]. Defined.

Lemma decode_encode_roundtrip_witness :
  der rsa_tlv = rsa_bytes /\ egg_asn1x_encode 125 rsa_decoded = Ok (Some (der rsa_tlv), rsa_decoded).
Proof.
  split; [reflexivity|]. apply (decode_encode_roundtrip insertion_sort 125 rsa_tree rsa_decoded rsa_tlv 0).
  - exact rsa_encodable.
  - decide_now.
  - reflexivity.
  - vm_compute. reflexivity.
  - vm_compute. reflexivity.
Defined.

(** The cA member of BasicConstraints, a boolean with a default. *)
Definition ca_node : Anode := Eval vm_compute in
  match tree_of pkix_asn1_tab (lit "BasicConstraints") with N _ (c :: _) => data c | N an _ => an end.

Lemma set_boolean_get_witness :
  egg_asn1x_get_boolean (egg_asn1x_set_boolean ca_node false) = Some false /\
  well_typed 125 (N (egg_asn1x_set_boolean ca_node false) []).
Proof. apply (set_boolean_get 125 ca_node [] false). reflexivity. Defined.

(** The parameters of AlgorithmIdentifier, any type. *)
Definition any_node : Anode := Eval vm_compute in
  match tree_of pkix_asn1_tab (lit "AlgorithmIdentifier") with N _ [_; c] => data c | N an _ => an end.

Lemma any_raw_roundtrip_witness : exists an', egg_asn1x_set_any_raw any_node rsa_bytes = Ok (true, an') /\
  egg_asn1x_get_any_raw (N an' []) = Ok (Some rsa_bytes, N an' []).
Proof.
  refine (any_raw_roundtrip insertion_sort any_node [] rsa_tlv rsa_encodable _ _ _).
  - decide_now.
  - reflexivity.
  - intros k Hk. vm_compute in Hk. discriminate.
Defined.

(** A set of two members in order is encoded again. *)
Definition ava (x : Z) (v : Z) : list Z := [0x30; 8; 6; 3; 85; 4; x; 0x13; 1; v].
Definition rdn (l : list Z) : list Z := 0x31 :: Zlen l :: l.

Lemma set_in_order : let b := rdn (ava 3 65 ++ ava 4 66) in
  reencodes pkix_asn1_tab (lit "RelativeDistinguishedName") b = Ok (Some b).
Proof. vm_compute. reflexivity. Qed.

(** * Edges *)

(** The members of a set that are not in order yet, or equal ones, make the relinked chain
    a cycle: encoding runs over the end of its buffer. *)
Lemma unsorted_set_fails :
  reencodes pkix_asn1_tab (lit "RelativeDistinguishedName") (rdn (ava 4 65 ++ ava 3 66)) = Ub /\
  reencodes pkix_asn1_tab (lit "RelativeDistinguishedName") (rdn (ava 3 65 ++ ava 3 65)) = Ub.
Proof. vm_compute. done. Qed.

(** PKCS#12 without the optional MAC: encoding it again adds an empty one. *)
Definition pfx : list Z := [0x30; 21; 2; 1; 3; 0x30; 16; 6; 9; 0x2a; 0x86; 0x48; 0x86; 0xf7; 0x0d; 1; 7; 1; 0xa0; 3; 4; 1; 65].
Lemma absent_member_added :
  reencodes pkix_asn1_tab (lit "pkcs-12-PFX") pfx = Ok (Some (0x30 :: 27 :: drop 2 pfx ++ [0x30; 4; 0x30; 2; 0x30; 0])).
Proof. vm_compute. reflexivity. Qed.

(** An optional choice that is absent is refused. *)
Lemma absent_choice_refused : decodes pkix_asn1_tab (lit "DistributionPoint") [0x30; 0] = Some false /\
  message_of pkix_asn1_tab (lit "DistributionPoint") [0x30; 0] = Some (lit "distributionPoint: one choice must be set").
Proof. vm_compute. done. Qed.

(** A table for small types: T ::= [0] EXPLICIT INTEGER, S ::= UTF8String (SIZE (1..3)). *)
Definition small_tab : list EggAsn1xDef :=
  [mk_def (Some (lit "X")) 536870928 None;
   mk_def (Some (lit "T")) 1610620931 None; mk_def None 2056 (Some (lit "0"));
   mk_def (Some (lit "S")) 538968098 None; mk_def (Some (lit "3")) 524298 (Some (lit "1"));
   mk_def None 0 None].

(** The tag inside of an explicit tag is not looked at: an octet string is an integer. *)
Lemma explicit_inner_tag : decodes small_tab (lit "T") [0xa0; 3; 4; 1; 65] = Some true.
Proof. vm_compute. reflexivity. Qed.

(** Classes are not compared: [APPLICATION 2] is an integer. *)
Lemma class_not_compared : decodes pk_asn1_tab (lit "RSAPublicKey") [0x30; 6; 0x42; 1; 3; 2; 1; 5] = Some true.
Proof. vm_compute. reflexivity. Qed.

(** The upper bound of a size is refused. *)
Lemma size_upper_bound : decodes small_tab (lit "S") [0x0c; 2; 65; 65] = Some true /\
  decodes small_tab (lit "S") [0x0c; 3; 65; 65; 65] = Some false.
Proof. vm_compute. done. Qed.

(** A string in pieces is decoded, and then cannot be encoded: the member is left out. *)
Lemma pieces_lost : reencodes pk_asn1_tab (lit "DigestInfo") [0x30; 12; 0x30; 3; 6; 1; 42; 0x24; 5; 4; 1; 65; 4; 0] =
  Ok (Some [0x30; 5; 0x30; 3; 6; 1; 42]).
Proof. vm_compute. reflexivity. Qed.

(** A bit string that goes through [egg_asn1x_set_any_from] is read back without its first
    byte: the built TLV has no byte for the number of unused bits yet. *)
Definition bits_tree : GNode :=
  N (set_bits_as_ulong (anode_new (mk_def (Some (lit "b")) 6 None)) 5 8) [].
Lemma any_from_bits : match egg_asn1x_set_any_from any_node bits_tree with
  | Ok an => match egg_asn1x_get_any_into 125 an [N (anode_new (mk_def (Some (lit "b")) 6 None)) []] with
             | Ok (ok, [n]) => Some (ok, an_value (data n), an_bits_empty (data n))
             | _ => None end
  | _ => None end = Some (true, Some [], 5).
Proof. vm_compute. reflexivity. Qed.

(** The mark of an unsigned integer survives clearing: what is decoded later is encoded
    with a zero byte in front. *)
Definition int_tree : GNode := N (egg_asn1x_set_integer_as_usg (anode_new (mk_def (Some (lit "i")) 3 None)) [1]) [].
Lemma unsigned_survives : match egg_asn1x_decode 125 int_tree [2; 1; 0xff] with
  | Ok (ok, n) => match egg_asn1x_encode 125 n with Ok (b, _) => Some (ok, b) | _ => None end
  | _ => None end = Some (true, Some [2; 2; 0; 0xff]).
Proof. vm_compute. reflexivity. Qed.
