(* ===== verification/Record.v ===== *)
(** GnuPG records: the model of [src/gcr/gcr-record.c].

    A record is a row of text columns separated by a delimiter.  The column pointers
    of the C struct point into blocks owned by the record; the model keeps the C string
    each of them shows.  [record_flatten] is modelled on the block it fills.  Functions of
    GLib the code calls (number parsing, UTF-8 and base64 conversion, quarks, dates) are
    parameters of the section. *)

From S2P Require Import Prelude Text.
Local Open Scope Z_scope.

Definition MAX_COLUMNS : Z := 32.

(** [struct _GcrRecord]; [n_columns] is the number of columns. *)
Record GcrRecord := mk_record { columns : list (list Z); delimiter : Z }.
Definition n_columns (r : GcrRecord) : Z := Zlen (columns r).

#[export] Instance GcrRecord_eq_dec : EqDecision GcrRecord.
Proof. solve_decision. Defined.

(** * Parsing and formatting *)

(** The loop of [take_and_parse_internal]: [value] is the block before its
    terminator, [at_] the start of the next column.  [None]: too many columns.  A column
    that is not counted is overwritten by the next one. *)
Fixpoint parse_columns (fuel : nat) (value : list Z) (delim : Z) (allow_empty : bool)
    (at_ : Z) (cols : list (list Z)) : res unit (option (list (list Z))) :=
  match fuel with
  | O => Ub
  | S fuel =>
    if MAX_COLUMNS <=? Zlen cols then Ok None
    else
      let beg := at_ in
      let text := c_str (drop (Z.to_nat beg) value) in
      let count (end_ : Z) (col : list Z) :=
        if allow_empty || (beg <? end_) then cols ++ [col] else cols in
      match index_of delim text with
      | None => Ok (Some (count (Zlen value - 1) text))
      | Some i =>
        let end_ := beg + Z.of_nat i in
        parse_columns fuel value delim allow_empty (end_ + 1) (count end_ (take i text))
      end
  end.

Definition take_and_parse_internal (value : list Z) (delim : Z) (allow_empty : bool)
    : res unit (option GcrRecord) :=
  r ← parse_columns (S (length value)) value delim allow_empty 0 [];
  Ok (option_map (fun cols => mk_record cols delim) r).

(** [record_block_new] copies [n_line] bytes and terminates them; a negative
    [n_line] stands for the whole string. *)
Definition record_block_new (line : list Z) (n_line : Z) : res unit (list Z) :=
  or_ub (slice line 0 n_line).
Definition line_length (line : list Z) (n_line : Z) : Z :=
  if n_line <? 0 then Zlen (c_str line) else n_line.

Definition _gcr_record_parse_colons (line : list Z) (n_line : Z) : res unit (option GcrRecord) :=
  value ← record_block_new line (line_length line n_line);
  take_and_parse_internal value 58 true.
Definition _gcr_record_parse_spaces (line : list Z) (n_line : Z) : res unit (option GcrRecord) :=
  value ← record_block_new line (line_length line n_line);
  take_and_parse_internal value 32 false.

Definition print_record_to_string (r : GcrRecord) (s : list Z) : list Z :=
  s ++ concat ((fun c => c ++ [delimiter r]) <$> columns r).
Definition _gcr_record_format (r : GcrRecord) : list Z := print_record_to_string r [].

(** [for (i = 0; i < n_columns; i++) result->columns[i] = "";] writes into an
    array of [MAX_COLUMNS] pointers; the schema then replaces the first column. *)
Definition _gcr_record_new (schema : list Z) (n : Z) (delim : Z) : res unit GcrRecord :=
  c_assert (n <=? MAX_COLUMNS);;
  Ok (mk_record (<[0%nat := schema]> (replicate (Z.to_nat n) [])) delim).

(** [record_flatten]: every column with its terminator goes into one block; the
    new column pointers are offsets into it. *)
Fixpoint flatten_columns (cols : list (list Z)) (block : list Z) (at_ : Z) : res unit (list Z * list Z * Z) :=
  match cols with
  | [] => Ok (block, [], at_)
  | c :: cols =>
    block ← or_ub (wr block at_ (c ++ [0]));
    '(block, offs, e) ← flatten_columns cols block (at_ + Zlen c + 1);
    Ok (block, at_ :: offs, e)
  end.

Definition record_flatten (r : GcrRecord) : res unit GcrRecord :=
  let total := foldr (fun c n => n + (Zlen c + 1)) 0 (columns r) in
  let block := replicate (Z.to_nat (total + 1)) 0 in
  '(block, offs, at_) ← flatten_columns (columns r) block 0;
  c_assert (at_ =? total);;
  Ok (mk_record ((fun o => c_str (drop (Z.to_nat o) block)) <$> offs) (delimiter r)).
Definition _gcr_record_copy (r : GcrRecord) : res unit GcrRecord := record_flatten r.

Definition _gcr_record_get_count (r : GcrRecord) : Z := n_columns r.

Definition _gcr_record_get_raw (r : GcrRecord) (column : Z) : option (list Z) :=
  if n_columns r <=? column then None else columns r !! Z.to_nat column.

(** The new block shows the C string in [value]. *)
Definition record_take_column (r : GcrRecord) (column : Z) (value : list Z) : res unit GcrRecord :=
  c_assert (column <? n_columns r);;
  Ok (mk_record (<[Z.to_nat column := c_str value]> (columns r)) (delimiter r)).

(** The [g_return_if_fail] of the setters: outside the columns nothing happens. *)
Definition set_column (r : GcrRecord) (column : Z) (value : list Z) : res unit GcrRecord :=
  if negb (column <? n_columns r) then Ok r else record_take_column r column value.

Definition _gcr_record_set_raw (r : GcrRecord) (column : Z) (value : list Z) := set_column r column value.
Definition _gcr_record_take_raw (r : GcrRecord) (column : Z) (value : list Z) := set_column r column value.

Definition _gcr_record_get_char (r : GcrRecord) (column : Z) : Z :=
  match _gcr_record_get_raw r column with
  | Some [c] => c
  | _ => 0
  end.
Definition _gcr_record_set_char (r : GcrRecord) (column value : Z) : res unit GcrRecord :=
  if negb (column <? n_columns r) then Ok r
  else if value =? 0 then Ok r
  else record_take_column r column [value].

(** * Escapes *)

Definition HEXC_LOWER : list Z := lit "0123456789abcdef".

(** [g_ascii_tolower]. *)
Definition tolower (c : Z) : Z := if (65 <=? c) && (c <=? 90) then c + 32 else c.

(** [strchr] also finds the terminator. *)
Definition hex_pos (c : Z) : option Z := Z.of_nat <$> index_of (tolower c) (HEXC_LOWER ++ [0]).

(** Up to three octal digits from [p]; the value and the pointer after them. *)
Fixpoint octal_digits (n : nat) (mem : list Z) (p q : Z) : res unit (Z * Z) :=
  match n with
  | O => Ok (q, p)
  | S n =>
    c ← or_ub (rd mem p);
    if (48 <=? c) && (c <=? 55) then octal_digits n mem (p + 1) (u8 (q * 8 + (c - 48)))
    else Ok (q, p)
  end.

(** Exactly two hexadecimal digits; [None] is a bad one.  The caller starts at
    the [x] of the escape, as the code does. *)
Fixpoint hex_digits (n : nat) (mem : list Z) (p q : Z) : res unit (option (Z * Z)) :=
  match n with
  | O => Ok (Some (q, p))
  | S n =>
    c ← or_ub (rd mem p);
    match hex_pos c with
    | None => Ok None
    | Some pos => hex_digits n mem (p + 1) (u8 (q * 16 + pos))
    end
  end.

Definition simple_escape (c : Z) : Z :=
  if c =? 98 then 8 else if c =? 102 then 12 else if c =? 110 then 10
  else if c =? 114 then 13 else if c =? 116 then 9 else c.

(** [mem] is the memory at [source]; [dest] the bytes written so far, [None] until
    the first backslash.  [Ok None] is a NULL return. *)
Fixpoint unescape_loop (fuel : nat) (mem : list Z) (p : Z) (dest : option (list Z))
    : res unit (option (list Z)) :=
  match fuel with
  | O => Ub
  | S fuel =>
    c ← or_ub (rd mem p);
    if c =? 0 then Ok dest
    else if c =? 92 then
      let out := match dest with None => take (Z.to_nat p) mem | Some out => out end in
      let p := p + 1 in
      c ← or_ub (rd mem p);
      if c =? 0 then Ok None
      else if (48 <=? c) && (c <=? 55) then
        '(q, p) ← octal_digits 3 mem p 0;
        unescape_loop fuel mem p (Some (out ++ [q]))
      else if c =? 120 then
        r ← hex_digits 2 mem p 0;
        match r with
        | None => Ok None
        | Some (q, p) => unescape_loop fuel mem p (Some (out ++ [q]))
        end
      else unescape_loop fuel mem (p + 1) (Some (out ++ [simple_escape c]))
    else
      unescape_loop fuel mem (p + 1) (match dest with None => None | Some out => Some (out ++ [c]) end)
  end.

(** Results are written from [dest] on, in a block of [strlen (source) + 1] bytes. *)
Definition c_colons_unescape (source : list Z) : res unit (option (list Z)) :=
  r ← unescape_loop (S (length source)) (source ++ [0]) 0 None;
  match r with
  | None => Ok None
  | Some out => c_assert (Zlen out + 1 <=? Zlen source + 1);; Ok (Some out)
  end.

Definition escape_letter (c : Z) : Z :=
  if c =? 8 then 98 else if c =? 12 then 102 else if c =? 10 then 110 else if c =? 13 then 114
  else if c =? 9 then 116 else if c =? 92 then 92 else if c =? 34 then 34 else 0.

Definition needs_escape (extra c : Z) : bool :=
  negb (escape_letter c =? 0) || (c <? 32) || (0x127 <=? c) || (c =? extra).

Definition hexc (d : Z) : Z := default 0 (HEXC_LOWER !! Z.to_nat d).

(** The characters written for one that needs an escape. *)
Definition escape_char (c : Z) : list Z :=
  if negb (escape_letter c =? 0) then [92; escape_letter c]
  else [92; 120; hexc (Z.land (Z.shiftr c 4) 0xf); hexc (Z.land c 0xf)].

(** [done_] are the characters before [p]. *)
Fixpoint escape_loop (extra : Z) (done_ rest : list Z) (dest : option (list Z)) : option (list Z) :=
  match rest with
  | [] => dest
  | c :: rest =>
    let dest :=
      if needs_escape extra c
      then Some (match dest with None => done_ | Some out => out end ++ escape_char c)
      else match dest with None => None | Some out => Some (out ++ [c]) end in
    escape_loop extra (done_ ++ [c]) rest dest
  end.

(** The block has [strlen (source) * 4 + 1] bytes. *)
Definition c_colons_escape (source : list Z) (extra : Z) : res unit (option (list Z)) :=
  match escape_loop extra [] source None with
  | None => Ok None
  | Some out => c_assert (Zlen out + 1 <=? Zlen source * 4 + 1);; Ok (Some out)
  end.

(** [record_block_take] on the escaped text or [record_block_new] on the string. *)
Definition _gcr_record_set_string (r : GcrRecord) (column : Z) (s : list Z) : res unit GcrRecord :=
  if negb (column <? n_columns r) then Ok r
  else
    escaped ← c_colons_escape s (delimiter r);
    record_take_column r column (match escaped with Some e => c_str e | None => s end).

Section GLib.
Context (g_utf8_validate : list Z -> bool) (latin1_to_utf8 : list Z -> option (list Z)).
(** [strtoll] and [strtoull] in base 10: the value and the unread rest. *)
Context (g_ascii_strtoll g_ascii_strtoull : list Z -> Z * list Z).
Context (g_base64_decode : list Z -> list Z) (g_base64_encode : list Z -> list Z) (g_strchomp : list Z -> list Z).
Context {Time : Type} (g_date_time_new_from_unix_utc : Z -> option Time)
  (g_date_time_new_from_iso8601 : list Z -> option Time).
Context (g_quark_try_string : list Z -> Z).

Definition _gcr_record_get_string (r : GcrRecord) (column : Z) : res unit (option (list Z)) :=
  match _gcr_record_get_raw r column with
  | None => Ok None
  | Some value =>
    text ← c_colons_unescape value;
    let value := match text with Some t => c_str t | None => value end in
    if g_utf8_validate value then Ok (Some value) else Ok (latin1_to_utf8 value)
  end.

Definition _gcr_record_get_uint (r : GcrRecord) (column : Z) : option Z :=
  raw ← _gcr_record_get_raw r column;
  let '(result, end_) := g_ascii_strtoll raw in
  match end_ with
  | _ :: _ => None
  | [] => if (result <? 0) || (2 ^ 32 - 1 <? result) then None else Some (u32 result)
  end.

Definition _gcr_record_set_uint (r : GcrRecord) (column value : Z) : res unit GcrRecord :=
  if negb (column <? n_columns r) then Ok r else record_take_column r column (print_u value).

Definition s64 (z : Z) : Z := (z + 2 ^ 63) mod 2 ^ 64 - 2 ^ 63.

(** [result] is a [gint64]; comparing it with [G_MAXULONG] converts it back. *)
Definition _gcr_record_get_ulong (r : GcrRecord) (column : Z) : option Z :=
  raw ← _gcr_record_get_raw r column;
  let '(parsed, end_) := g_ascii_strtoull raw in
  let result := s64 parsed in
  match end_ with
  | _ :: _ => None
  | [] => if (result <? 0) || (2 ^ 64 - 1 <? u64 result) then None else Some (u32 result)
  end.

Definition _gcr_record_set_ulong (r : GcrRecord) (column value : Z) : res unit GcrRecord :=
  if negb (column <? n_columns r) then Ok r else record_take_column r column (print_lu value).

Definition _gcr_record_get_date (r : GcrRecord) (column : Z) : option Time :=
  raw ← _gcr_record_get_raw r column;
  match g_ascii_strtoull raw with
  | (result, []) => if result =? 0 then None else g_date_time_new_from_unix_utc result
  | _ => g_date_time_new_from_iso8601 raw
  end.

Definition _gcr_record_get_base64 (r : GcrRecord) (column : Z) : option (list Z) :=
  g_base64_decode <$> _gcr_record_get_raw r column.

(** [g_base64_encode] is what the step and close calls produce together. *)
Definition _gcr_record_set_base64 (r : GcrRecord) (column : Z) (data : list Z) : res unit GcrRecord :=
  if negb (column <? n_columns r) then Ok r
  else
    let n := Zlen data in
    let estimate := n * 4 / 3 + n * 4 / (3 * 65) + 7 in
    let text := g_base64_encode data in
    c_assert (Zlen text <? estimate);;
    record_take_column r column (g_strchomp text).

Definition _gcr_record_get_schema (r : GcrRecord) : Z :=
  match _gcr_record_get_raw r 0 with Some value => g_quark_try_string value | None => 0 end.

Definition _gcr_records_find (records : list GcrRecord) (schema : Z) : option GcrRecord :=
  if schema =? 0 then None else find (fun r => schema =? _gcr_record_get_schema r) records.
End GLib.

(** * Several records *)

Definition _gcr_records_format (records : list GcrRecord) : list Z :=
  foldl (fun s r => print_record_to_string r s ++ [10]) [] records.

(** The [memchr] loop of [strnsplit] over the bytes left; [g_strndup] stops at a
    NUL. *)
Fixpoint split_loop (fuel : nat) (delim : Z) (remainder : list Z) : list (list Z) * list Z :=
  match fuel with
  | O => ([], remainder)
  | S fuel =>
    match index_of delim remainder with
    | None => ([], remainder)
    | Some n =>
      let '(pieces, rest) := split_loop fuel delim (drop (S n) remainder) in
      (c_str (take n remainder) :: pieces, rest)
    end
  end.

(** [mem] is the memory at [string]; its first byte is looked at whatever the
    length. *)
Definition strnsplit (mem : list Z) (length_ : Z) (delim : Z) : res unit (list (list Z)) :=
  string ← or_ub (slice mem 0 length_);
  let '(pieces, rest) := split_loop (S (length string)) delim string in
  c ← or_ub (rd mem 0);
  Ok (if c =? 0 then pieces else pieces ++ [c_str rest]).

(** One record per line, all or nothing. *)
Fixpoint parse_lines (lines : list (list Z)) : res unit (option (list GcrRecord)) :=
  match lines with
  | [] => Ok (Some [])
  | line :: lines =>
    r ← take_and_parse_internal line 58 true;
    match r with
    | None => Ok None
    | Some record => rs ← parse_lines lines; Ok (option_map (cons record) rs)
    end
  end.

Definition _gcr_records_parse_colons (mem : list Z) (n_data : Z) : res unit (option (list GcrRecord)) :=
  lines ← strnsplit mem n_data 10;
  parse_lines lines.

(** * Splitting *)

Lemma index_of_lt d l i : index_of d l = Some i -> (i < length l)%nat.
Proof. intros [H _]%index_of_Some. by apply lookup_lt_Some in H. Qed.

Lemma c_str_drop i l : (i <= length (c_str l))%nat -> c_str (drop i l) = drop i (c_str l).
Proof.
  revert i; induction l as [|x l IH]; intros i Hi; [by destruct i|].
  destruct i as [|i]; [done|]. cbn [c_str] in *. destruct (x =? 0); simpl in *; [lia|]. apply IH. lia.
Qed.

Lemma parse_columns_split fuel : forall value d at_ cols,
  0 <= at_ -> (length (c_str (drop (Z.to_nat at_) value)) < fuel)%nat ->
  let pieces := split_on d (c_str (drop (Z.to_nat at_) value)) in
  parse_columns fuel value d true at_ cols
  = Ok (if MAX_COLUMNS <? Zlen (cols ++ pieces) then None else Some (cols ++ pieces)).
Proof.
  induction fuel as [|fuel IH]; intros value d at_ cols Hat Hf pieces; [lia|].
  subst pieces. cbn [parse_columns orb].
  set (text := c_str (drop (Z.to_nat at_) value)) in *.
  destruct (split_on_nonempty d text) as (p & ps & Hps).
  destruct (Z.leb_spec MAX_COLUMNS (Zlen cols)).
  { destruct (Z.ltb_spec MAX_COLUMNS (Zlen (cols ++ split_on d text))) as [|Hle]; [done|].
    rewrite Hps, length_app in Hle. cbn [length] in Hle. lia. }
  destruct (index_of d text) as [i|] eqn:Hi.
  - pose proof (index_of_lt _ _ _ Hi) as Hlt. specialize (IH value d (at_ + Z.of_nat i + 1) (cols ++ [take i text])).
    assert (c_str (drop (Z.to_nat (at_ + Z.of_nat i + 1)) value) = drop (S i) text) as Hdrop.
    { subst text. rewrite <- c_str_drop by lia. rewrite drop_drop. do 2 f_equal. lia. }
    rewrite Hdrop, length_drop in IH. rewrite IH by lia.
    rewrite (split_on_index d text), Hi, <- !app_assoc. done.
  - rewrite (split_on_index d text), Hi. destruct (Z.ltb_spec MAX_COLUMNS (Zlen (cols ++ [text]))) as [Hgt|]; [|done].
    rewrite length_app in Hgt. cbn [length] in Hgt. lia.
Qed.

(** Parsing a line into columns is splitting the C string at the delimiter:
    for every block the loop ends, and gives the pieces, all of them, in order, or
    refuses the line when there are more than [MAX_COLUMNS]. *)
Theorem take_and_parse_colons (value : list Z) (d : Z) :
  take_and_parse_internal value d true
  = Ok (if MAX_COLUMNS <? Zlen (split_on d (c_str value)) then None
        else Some (mk_record (split_on d (c_str value)) d)).
Proof.
  unfold take_and_parse_internal.
  pose proof (parse_columns_split (S (length value)) value d 0 []) as H. cbn [app] in H.
  change (drop (Z.to_nat 0) value) with value in H.
  rewrite H; [|lia|pose proof (c_str_length value); lia]. run. by case_match.
Qed.

(** In a line split at spaces the last column is lost when it has one character:
    its end is taken to be the last character instead of the terminator. *)
Lemma parse_spaces_loses_last :
  _gcr_record_parse_spaces (lit "one 2") (-1) = Ok (Some (mk_record [lit "one"] 32)).
Proof. by vm_compute. Qed.

(** The text of a record is read back as its columns and one more, empty. *)
Lemma format_parse r : Forall (fun c => (delimiter r ∉ c) /\ (0 ∉ c)) (columns r) -> delimiter r <> 0 ->
  n_columns r < MAX_COLUMNS ->
  take_and_parse_internal (_gcr_record_format r) (delimiter r) true
  = Ok (Some (mk_record (columns r ++ [[]]) (delimiter r))).
Proof.
  intros Hc Hd Hn. pose proof (take_and_parse_colons (_gcr_record_format r) (delimiter r)) as Htp.
  unfold _gcr_record_format, print_record_to_string in *. cbn [app] in *.
  assert (0 ∉ concat ((fun c => c ++ [delimiter r]) <$> columns r)) as Hnul.
  { clear Htp Hn. induction Hc as [|c cs [_ H0] _ IH]; [set_solver|]. cbn [fmap list_fmap concat]. set_solver. }
  rewrite (c_str_id _ Hnul), split_on_lines in Htp by (eapply Forall_impl; [exact Hc|]; by intros ? [? _]).
  rewrite Htp, length_app. cbn [length]. unfold n_columns in Hn.
  by destruct (Z.ltb_spec MAX_COLUMNS (Z.of_nat (length (columns r) + 1))); [lia|].
Qed.

(** * Escapes *)

Definition enc (extra : Z) (s : list Z) : list Z :=
  concat ((fun c => if needs_escape extra c then escape_char c else [c]) <$> s).

(** Characters that are written as [\x] and two digits. *)
Definition needs_hex (extra c : Z) : bool := needs_escape extra c && (escape_letter c =? 0).

Lemma escape_loop_enc extra rest : forall done_ dest,
  default (done_ ++ rest) (escape_loop extra done_ rest dest) = default done_ dest ++ enc extra rest /\
  (is_Some dest -> is_Some (escape_loop extra done_ rest dest)).
Proof.
  unfold enc. induction rest as [|c rest IH]; intros done_ dest; cbn [escape_loop fmap list_fmap concat].
  { rewrite !app_nil_r. done. }
  rewrite app_assoc. change (c :: rest) with ([c] ++ rest). rewrite app_assoc.
  destruct (needs_escape extra c).
  - destruct (IH (done_ ++ [c]) (Some (match dest with None => done_ | Some out => out end ++ escape_char c))) as [-> H].
    split; [by destruct dest|]. intros _. apply H. by eexists.
  - destruct (IH (done_ ++ [c]) (match dest with None => None | Some out => Some (out ++ [c]) end)) as [-> H].
    split; [by destruct dest|]. intros [o ->]. apply H. by eexists.
Qed.

Lemma escape_char_length extra c : (1 <= length (if needs_escape extra c then escape_char c else [c]) <= 4)%nat.
Proof. unfold escape_char. repeat case_match; simpl; lia. Qed.

Lemma enc_length extra s : (length s <= length (enc extra s) <= 4 * length s)%nat.
Proof.
  unfold enc. induction s as [|c s IH]; [done|]. cbn [fmap list_fmap concat].
  rewrite length_app. cbn [length]. pose proof (escape_char_length extra c). lia.
Qed.

(** Escaping never overruns its block; the text stored is [enc]. *)
Lemma c_colons_escape_enc extra s : exists r, c_colons_escape s extra = Ok r /\ default s r = enc extra s.
Proof.
  unfold c_colons_escape. destruct (escape_loop_enc extra s [] None) as [H _]. cbn [app default] in H.
  pose proof (enc_length extra s) as Hl.
  destruct (escape_loop extra [] s None) as [out|] eqn:E; [|eexists; split; [done|exact H]].
  change (out = enc extra s) in H. subst out.
  rewrite c_assert_true by (apply Z.leb_le; lia).
  eexists. split; [done|done].
Qed.

Lemma enc_cons extra c s :
  enc extra (c :: s) = (if needs_escape extra c then escape_char c else [c]) ++ enc extra s.
Proof. done. Qed.

Lemma escape_letter_cases c : escape_letter c <> 0 ->
  In c [8; 12; 10; 13; 9; 92; 34].
Proof.
  unfold escape_letter. intros H.
  repeat match type of H with context [?a =? ?b] => destruct (Z.eqb_spec a b); [subst; simpl; tauto|] end. done.
Qed.

Lemma escape_letter_reads c : escape_letter c <> 0 ->
  escape_letter c <> 120 /\ ((48 <=? escape_letter c) && (escape_letter c <=? 55)) = false /\
  simple_escape (escape_letter c) = c.
Proof.
  intros H. apply escape_letter_cases in H. repeat (destruct H as [<-|H]; [by vm_compute|]). done.
Qed.

Lemma hex_pos_x : hex_pos 120 = None.
Proof. by vm_compute. Qed.

Lemma unescape_enc extra s : forall fuel mem pre dest, 0 ∉ s -> mem = pre ++ enc extra s ++ [0] ->
  (length (enc extra s) < fuel)%nat ->
  if existsb (needs_hex extra) s then unescape_loop fuel mem (Zlen pre) dest = Ok None
  else exists r, unescape_loop fuel mem (Zlen pre) dest = Ok r /\
    default (pre ++ enc extra s) r = default pre dest ++ s /\ (is_Some dest -> is_Some r).
Proof.
  induction s as [|c s IH]; intros fuel mem pre dest Hnul Hm Hf.
  { change (enc extra []) with (@nil Z) in *. cbn [existsb app length] in *. destruct fuel as [|fuel]; [lia|].
    cbn [unescape_loop]. rewrite Hm, rd_middle. exists dest. split_and!; [done|by rewrite !app_nil_r|done]. }
  apply not_elem_of_cons in Hnul as [Hc0 Hnul]. rewrite enc_cons in *. cbn [existsb].
  rewrite length_app in Hf. rewrite <- app_assoc in Hm.
  unfold needs_hex at 1. destruct (needs_escape extra c) eqn:Hn; cbn [andb].
  - destruct (Z.eqb_spec (escape_letter c) 0) as [Hl|Hl]; cbn [orb].
    + assert (exists x y, escape_char c = [92; 120; x; y]) as (x & y & He)
        by (unfold escape_char; rewrite Hl; by eexists _, _).
      rewrite He in *. cbn [app length] in *. destruct fuel as [|fuel]; [lia|]. cbn [unescape_loop].
      assert (rd mem (Zlen pre) = Some 92) as -> by (rewrite Hm; apply rd_middle).
      assert (rd mem (Zlen pre + 1) = Some 120) as Hx.
      { rewrite Hm, cons_middle, app_assoc. pose proof (rd_middle (pre ++ [92]) 120) as Hr.
        rewrite length_app, Nat2Z.inj_add in Hr. apply Hr. }
      run. change (92 =? 0) with false. change (92 =? 92) with true. cbn match.
      rewrite Hx. run. change (120 =? 0) with false.
      change ((48 <=? 120) && (120 <=? 55)) with false. change (120 =? 120) with true. cbn match.
      cbn [hex_digits]. rewrite Hx. run. by rewrite hex_pos_x.
    + destruct (escape_letter_reads c Hl) as (H120 & Hoct & Hsimple).
      assert (escape_char c = [92; escape_letter c]) as He
        by (unfold escape_char; destruct (Z.eqb_spec (escape_letter c) 0); done).
      rewrite He in *. cbn [app length] in *.
      destruct fuel as [|fuel]; [lia|]. cbn [unescape_loop].
      assert (rd mem (Zlen pre) = Some 92) as -> by (rewrite Hm; apply rd_middle).
      assert (rd mem (Zlen pre + 1) = Some (escape_letter c)) as Hx.
      { rewrite Hm, cons_middle, app_assoc. pose proof (rd_middle (pre ++ [92]) (escape_letter c)) as Hr.
        rewrite length_app, Nat2Z.inj_add in Hr. apply Hr. }
      run. change (92 =? 0) with false. change (92 =? 92) with true. cbn match.
      rewrite Hx. run. destruct (Z.eqb_spec (escape_letter c) 0); [done|].
      rewrite Hoct. destruct (Z.eqb_spec (escape_letter c) 120); [done|]. rewrite Hsimple.
      set (out := match dest with None => take (Z.to_nat (Zlen pre)) mem | Some out => out end).
      assert (out = default pre dest) as Hout.
      { subst out. destruct dest; [done|]. by rewrite Nat2Z.id, Hm, take_app_length. }
      specialize (IH fuel mem (pre ++ [92; escape_letter c]) (Some (out ++ [c])) Hnul).
      rewrite length_app, Nat2Z.inj_add in IH. change (Zlen [92; escape_letter c]) with 2 in IH.
      replace (Zlen pre + 1 + 1) with (Zlen pre + 2) by lia.
      specialize (IH ltac:(rewrite Hm, <- app_assoc; done) ltac:(lia)).
      destruct (existsb (needs_hex extra) s); [exact IH|]. destruct IH as (r & -> & Hr & Hs).
      exists r. rewrite <- app_assoc in Hr. cbn [app] in Hr. split_and!; [done| |intros _; apply Hs; by eexists].
      rewrite Hr. change (default _ (Some ?x)) with x. rewrite Hout. by rewrite <- app_assoc.
  - cbn [orb app length] in *. destruct fuel as [|fuel]; [lia|]. cbn [unescape_loop].
    assert (rd mem (Zlen pre) = Some c) as -> by (rewrite Hm; apply rd_middle).
    run. destruct (Z.eqb_spec c 0); [done|].
    destruct (Z.eqb_spec c 92) as [->|]; [done|].
    specialize (IH fuel mem (pre ++ [c]) (match dest with None => None | Some out => Some (out ++ [c]) end) Hnul).
    rewrite length_app, Nat2Z.inj_add in IH. change (Zlen [c]) with 1 in IH.
    specialize (IH ltac:(rewrite Hm, <- app_assoc; done) ltac:(lia)).
    destruct (existsb (needs_hex extra) s); [exact IH|]. destruct IH as (r & -> & Hr & Hs).
    exists r. rewrite <- app_assoc in Hr. cbn [app] in Hr. split_and!; [done| |].
    + rewrite Hr. destruct dest; cbn; by rewrite <- ?app_assoc.
    + intros [o ->]. apply Hs. by eexists.
Qed.

Lemma c_colons_unescape_enc extra s : 0 ∉ s ->
  if existsb (needs_hex extra) s then c_colons_unescape (enc extra s) = Ok None
  else exists r, c_colons_unescape (enc extra s) = Ok r /\ default (enc extra s) r = s.
Proof.
  intros Hnul. unfold c_colons_unescape.
  pose proof (unescape_enc extra s (S (length (enc extra s))) (enc extra s ++ [0]) [] None Hnul eq_refl ltac:(lia)) as H.
  change (Z.of_nat (length [])) with 0 in H.
  destruct (existsb (needs_hex extra) s); [by rewrite H|]. destruct H as (r & -> & Hr & _). run.
  destruct r as [out|]; [|exists None; split; [done|exact Hr]].
  change (out = s) in Hr. subst out. pose proof (enc_length extra s).
  rewrite c_assert_true by (apply Z.leb_le; lia). by exists (Some s).
Qed.

Lemma hexc_ok d : 0 <= d < 16 -> hexc d <> 10 /\ hexc d <> 58 /\ hexc d <> 32 /\ hexc d <> 0.
Proof.
  intros Hd. assert (forallb (fun d => negb (existsb (Z.eqb (hexc d)) [10; 58; 32; 0])) (seqZ 0 16) = true) as Hall
    by (vm_compute; reflexivity).
  pose proof (range_check _ _ _ Hall d ltac:(lia)) as Hx. cbn beta in Hx.
  apply negb_true_iff in Hx. cbn [existsb] in Hx. rewrite !orb_false_iff, !Z.eqb_neq in Hx. tauto.
Qed.

(** Escaped text keeps the row intact: no NUL, no line end, no delimiter. *)
Lemma enc_safe extra s : extra = 58 \/ extra = 32 -> bytes s -> 0 ∉ s ->
  Forall (fun c => c <> 0 /\ c <> 10 /\ c <> extra) (enc extra s).
Proof.
  intros He Hb Hnul. unfold enc. induction Hb as [|c s Hc _ IH]; [constructor|].
  apply not_elem_of_cons in Hnul as [Hc0 Hnul]. cbn [fmap list_fmap concat]. apply Forall_app. split; [|by apply IH].
  destruct (needs_escape extra c) eqn:Hn.
  - unfold escape_char. destruct (Z.eqb_spec (escape_letter c) 0) as [Hl|Hl]; cbn [negb].
    + change 0xf with 15. rewrite !land_15, Z.shiftr_div_pow2 by lia. unfold is_byte in Hc.
      pose proof (hexc_ok (c / 2 ^ 4 mod 16) ltac:(lia_div)) as (? & ? & ? & ?).
      pose proof (hexc_ok (c mod 16) ltac:(lia_div)) as (? & ? & ? & ?). repeat constructor; lia.
    + apply escape_letter_cases in Hl. repeat constructor; try lia;
        (repeat (destruct Hl as [<-|Hl]; [vm_compute; (done || lia)|]); done).
  - unfold needs_escape in Hn. rewrite !orb_false_iff in Hn. destruct Hn as [[[Hl H32%Z.ltb_ge] _] Hx%Z.eqb_neq].
    repeat constructor; try lia.
Qed.

Lemma c_str_enc s : Forall (fun c => c <> 0) s -> c_str s = s.
Proof. intros H. apply c_str_id. intros Hin. rewrite Forall_forall in H. by apply (H 0 Hin). Qed.

Lemma take_column_ok r column value : 0 <= column < n_columns r ->
  record_take_column r column value = Ok (mk_record (<[Z.to_nat column := c_str value]> (columns r)) (delimiter r)).
Proof. intros H. unfold record_take_column. rewrite c_assert_true by (apply Z.ltb_lt; lia). done. Qed.

Lemma get_raw_insert r column value : 0 <= column < n_columns r ->
  _gcr_record_get_raw (mk_record (<[Z.to_nat column := value]> (columns r)) (delimiter r)) column = Some value.
Proof.
  unfold n_columns. intros H. unfold _gcr_record_get_raw, n_columns. cbn [columns]. rewrite length_insert.
  destruct (Z.leb_spec (Zlen (columns r)) column); [lia|]. apply list_lookup_insert_eq. lia.
Qed.

(** C37: storing a string in a column and reading it back.  For every NUL-free
    text and every record delimited by colons or spaces, the set call changes that
    column only and leaves no line end, delimiter or NUL in it; the get call returns
    the text when none of its characters needed a [\x] escape, and the escaped text
    itself otherwise (what the unescaping refuses, the getter returns raw). *)
Theorem record_string_roundtrip (g_utf8_validate : list Z -> bool) (latin1 : list Z -> option (list Z))
    (r : GcrRecord) (column : Z) (s : list Z) :
  delimiter r = 58 \/ delimiter r = 32 -> bytes s -> 0 ∉ s -> 0 <= column < n_columns r ->
  g_utf8_validate s = true -> g_utf8_validate (enc (delimiter r) s) = true ->
  exists r', _gcr_record_set_string r column s = Ok r' /\ delimiter r' = delimiter r /\
    columns r' = <[Z.to_nat column := enc (delimiter r) s]> (columns r) /\
    Forall (fun c => c <> 0 /\ c <> 10 /\ c <> delimiter r) (enc (delimiter r) s) /\
    _gcr_record_get_string g_utf8_validate latin1 r' column
    = Ok (Some (if existsb (needs_hex (delimiter r)) s then enc (delimiter r) s else s)).
Proof.
  intros Hd Hb Hnul Hcol Hv Hv'. pose proof (enc_safe _ s Hd Hb Hnul) as Hsafe.
  assert (c_str (enc (delimiter r) s) = enc (delimiter r) s) as Hcs
    by (apply c_str_enc; eapply Forall_impl; [exact Hsafe|]; by intros ? [? _]).
  exists (mk_record (<[Z.to_nat column := enc (delimiter r) s]> (columns r)) (delimiter r)).
  split_and!; [|done|done|done|].
  - unfold _gcr_record_set_string. destruct (Z.ltb_spec column (n_columns r)); [|lia]. cbn [negb].
    destruct (c_colons_escape_enc (delimiter r) s) as (e & -> & He). run.
    rewrite take_column_ok by done. do 3 f_equal.
    destruct e as [e|]; [change (e = enc (delimiter r) s) in He; subst e; by rewrite !Hcs|].
    change (s = enc (delimiter r) s) in He. by rewrite He at 1.
  - unfold _gcr_record_get_string. rewrite get_raw_insert by done.
    pose proof (c_colons_unescape_enc (delimiter r) s Hnul) as Hu.
    destruct (existsb (needs_hex (delimiter r)) s).
    + rewrite Hu. run. by rewrite Hv'.
    + destruct Hu as (t & -> & Ht). run.
      destruct t as [t|]; [change (t = s) in Ht; subst t; rewrite c_str_id by done|change (enc (delimiter r) s = s) in Ht; rewrite Ht];
        by rewrite Hv.
Qed.

Lemma record_string_roundtrip_witness :
  exists r', _gcr_record_set_string (mk_record [lit "uid"; []] 58) 1 [116; 9; 34; 233] = Ok r' /\
    _gcr_record_get_string (fun _ => true) (fun _ => None) r' 1 = Ok (Some [116; 9; 34; 233]).
Proof.
  destruct (record_string_roundtrip (fun _ => true) (fun _ => None) (mk_record [lit "uid"; []] 58) 1 [116; 9; 34; 233])
    as (r' & H1 & _ & _ & _ & H2); [by left|decide_now|decide_now|vm_compute; split; congruence|done|done|].
  exists r'. split; [exact H1|exact H2].
Defined.

(** [hex] points at the [x] of the escape: no [\x] escape is ever decoded. *)
Lemma hex_escape_never_read :
  (r ← _gcr_record_set_string (mk_record [[]] 58) 0 (lit "a:b");
   _gcr_record_get_string (fun _ => true) (fun _ => None) r 0) = Ok (Some (lit "a\x3ab")).
Proof. by vm_compute. Qed.

(** * Copies *)

Lemma flatten_columns_ok cols : Forall (fun c => 0 ∉ c) cols -> forall pre old post,
  length old = length (concat ((fun c => c ++ [0]) <$> cols)) ->
  exists offs, flatten_columns cols (pre ++ old ++ post) (Zlen pre)
    = Ok (pre ++ concat ((fun c => c ++ [0]) <$> cols) ++ post, offs,
          Zlen pre + Zlen (concat ((fun c => c ++ [0]) <$> cols))) /\
    (fun o => c_str (drop (Z.to_nat o) (pre ++ concat ((fun c => c ++ [0]) <$> cols) ++ post))) <$> offs = cols.
Proof.
  induction 1 as [|c cols Hc Hcols IH]; intros pre old post Hold; cbn [flatten_columns fmap list_fmap concat] in *.
  { destruct old; [|done]. exists []. split; [|done]. cbn [app length]. by rewrite Z.add_0_r. }
  apply split_old in Hold as (o1 & o2 & -> & H1 & H2).
  rewrite <- !app_assoc, wr_app by done. run.
  destruct (IH (pre ++ c ++ [0]) o2 post H2) as (offs & Hf & Hr).
  rewrite !length_app, <- !app_assoc in Hf. cbn [length app] in Hf.
  replace (Z.of_nat (length pre + (length c + 1))) with (Zlen pre + Zlen c + 1) in Hf by lia.
  rewrite <- !app_assoc. cbn [app]. rewrite Hf. run. exists (Zlen pre :: offs). split.
  - rewrite !length_app. cbn [length]. do 2 f_equal. lia.
  - cbn [fmap list_fmap]. rewrite Nat2Z.id, drop_app_length, c_str_app_nul by done. f_equal.
    rewrite <- !app_assoc in Hr. exact Hr.
Qed.

Lemma flatten_total cols :
  foldr (fun c n => n + (Zlen c + 1)) 0 cols = Zlen (concat ((fun c => c ++ [0]) <$> cols)).
Proof.
  induction cols as [|c cols IH]; [done|]. cbn [foldr fmap list_fmap concat].
  rewrite IH, !length_app. cbn [length]. lia.
Qed.

(** Copying a record puts every column into one block of exactly the
    computed size, and the copy shows the same columns. *)
Theorem record_copy_same (r : GcrRecord) :
  Forall (fun c => 0 ∉ c) (columns r) -> _gcr_record_copy r = Ok r.
Proof.
  intros Hc. unfold _gcr_record_copy, record_flatten. rewrite flatten_total.
  set (all := concat ((fun c => c ++ [0]) <$> columns r)).
  replace (replicate (Z.to_nat (Zlen all + 1)) 0) with ([] ++ replicate (length all) 0 ++ [0]).
  2:{ replace (Z.to_nat (Zlen all + 1)) with (length all + 1)%nat by lia. by rewrite replicate_add. }
  destruct (flatten_columns_ok (columns r) Hc [] (replicate (length all) 0) [0]) as (offs & Hf & Hr);
    [by rewrite length_replicate|]. change (Z.of_nat (length [])) with 0 in Hf. rewrite Hf.
  run. fold all. rewrite c_assert_true by apply Z.eqb_refl. run.
  subst all. rewrite Hr. by destruct r.
Qed.

Lemma record_copy_same_witness :
  _gcr_record_copy (mk_record [lit "pub"; []; lit "1024"] 58) = Ok (mk_record [lit "pub"; []; lit "1024"] 58).
Proof. apply record_copy_same. simpl. decide_now. Defined.

(** * Numbers *)

Lemma print_no_nul fuel n acc : 0 <= n < 10 ^ Z.of_nat fuel -> (1 <= fuel)%nat -> 0 ∉ acc -> 0 ∉ utoa fuel n acc.
Proof.
  intros Hn Hf Ha. destruct (utoa_digits fuel n acc Hn Hf) as (ds & -> & Hr & _).
  rewrite elem_of_app. intros [Hin|]; [|done]. unfold digits in Hin.
  rewrite list_elem_of_fmap in Hin. destruct Hin as (d & Hd & Hin). rewrite Forall_forall in Hr. apply Hr in Hin. lia.
Qed.

(** Numbers stored in a column.  A [guint] is read back as itself; a
    [gulong] below 2^63 is read back modulo 2^32, and from 2^63 on it is refused. *)
Theorem record_number_roundtrip (strtoll strtoull : list Z -> Z * list Z) (r : GcrRecord) (column v w : Z) :
  (forall n, 0 <= n < 2 ^ 32 -> strtoll (print_u n) = (n, [])) ->
  (forall n, 0 <= n < 2 ^ 64 -> strtoull (print_lu n) = (n, [])) ->
  0 <= column < n_columns r -> 0 <= v < 2 ^ 32 -> 0 <= w < 2 ^ 64 ->
  exists r1 r2, _gcr_record_set_uint r column v = Ok r1 /\ _gcr_record_get_uint strtoll r1 column = Some v /\
    _gcr_record_set_ulong r column w = Ok r2 /\
    _gcr_record_get_ulong strtoull r2 column = (if w <? 2 ^ 63 then Some (w mod 2 ^ 32) else None).
Proof.
  intros Hll Hull Hcol Hv Hw. eexists _, _. split_and!.
  - unfold _gcr_record_set_uint. destruct (Z.ltb_spec column (n_columns r)); [|lia]. by apply take_column_ok.
  - unfold _gcr_record_get_uint. rewrite get_raw_insert by done. cbn [mbind option_bind].
    rewrite c_str_id by (apply print_no_nul; [lia|lia|set_solver]). rewrite Hll by done.
    destruct (Z.ltb_spec v 0), (Z.ltb_spec (2 ^ 32 - 1) v); try lia. cbn [orb]. by rewrite u32_small by lia.
  - unfold _gcr_record_set_ulong. destruct (Z.ltb_spec column (n_columns r)); [|lia]. by apply take_column_ok.
  - unfold _gcr_record_get_ulong. rewrite get_raw_insert by done. cbn [mbind option_bind].
    rewrite c_str_id by (apply print_no_nul; [lia|lia|set_solver]). rewrite Hull by done. unfold s64.
    destruct (Z.ltb_spec w (2 ^ 63)).
    + rewrite (Z.mod_small (w + 2 ^ 63)) by lia. replace (w + 2 ^ 63 - 2 ^ 63) with w by lia.
      rewrite u64_small by lia. destruct (Z.ltb_spec w 0), (Z.ltb_spec (2 ^ 64 - 1) w); try lia. done.
    + destruct (Z.ltb_spec ((w + 2 ^ 63) mod 2 ^ 64 - 2 ^ 63) 0) as [|Hge]; [done|].
      exfalso. replace ((w + 2 ^ 63) mod 2 ^ 64) with (w + 2 ^ 63 - 2 ^ 64) in Hge; [lia|].
      apply Z.mod_unique_pos with 1; lia.
Qed.

(** A decimal parser with the documented behaviour on digits. *)
Definition strtoull_digits (l : list Z) : Z * list Z := (ms_val 10 0 ((fun c => c - 48) <$> l), []).

Lemma strtoull_digits_print fuel n : 0 <= n < 10 ^ Z.of_nat fuel -> (1 <= fuel)%nat ->
  strtoull_digits (utoa fuel n []) = (n, []).
Proof.
  intros Hn Hf. destruct (utoa_digits fuel n [] Hn Hf) as (ds & -> & _ & Hv & _).
  unfold strtoull_digits, digits. rewrite app_nil_r, <- list_fmap_compose.
  replace ((fun c => c - 48) ∘ (fun d => 48 + d) <$> ds) with ds; [by rewrite Hv|].
  rewrite <- (list_fmap_id ds) at 1. apply list_fmap_ext. intros _ x _. simpl. lia.
Qed.

Lemma record_number_roundtrip_witness :
  exists r1 r2, _gcr_record_set_uint (mk_record [[]] 58) 0 7 = Ok r1 /\
    _gcr_record_get_uint strtoull_digits r1 0 = Some 7 /\
    _gcr_record_set_ulong (mk_record [[]] 58) 0 (2 ^ 32 + 5) = Ok r2 /\
    _gcr_record_get_ulong strtoull_digits r2 0 = Some 5.
Proof.
  refine (record_number_roundtrip strtoull_digits strtoull_digits (mk_record [[]] 58) 0 7 (2 ^ 32 + 5) _ _ _ _ _).
  - intros n Hn. apply strtoull_digits_print; [simpl; lia|lia].
  - intros n Hn. apply strtoull_digits_print; [simpl; lia|lia].
  - vm_compute. split; congruence.
  - lia.
  - lia.
Defined.

(** * Several records *)

Lemma split_loop_pieces fuel d : forall l, (length l < fuel)%nat ->
  let '(pieces, rest) := split_loop fuel d l in pieces ++ [c_str rest] = c_str <$> split_on d l.
Proof.
  induction fuel as [|fuel IH]; intros l Hf; [lia|]. cbn [split_loop]. rewrite (split_on_index d l).
  destruct (index_of d l) as [n|] eqn:Hn; [|done]. pose proof (index_of_lt _ _ _ Hn).
  specialize (IH (drop (S n) l)). rewrite length_drop in IH.
  destruct (split_loop fuel d (drop (S n) l)) as [pieces rest].
  cbn [fmap list_fmap app]. f_equal. apply IH. lia.
Qed.

Definition row_safe (r : GcrRecord) : Prop :=
  delimiter r = 58 /\ n_columns r < MAX_COLUMNS /\ Forall (fun c => (58 ∉ c) /\ (0 ∉ c) /\ (10 ∉ c)) (columns r).

Lemma format_safe r d : row_safe r -> d = 0 \/ d = 10 -> d ∉ _gcr_record_format r.
Proof.
  intros (Hd & _ & Hc) Hd'. unfold _gcr_record_format, print_record_to_string. rewrite Hd. cbn [app]. clear Hd.
  induction Hc as [|c cs (H1 & H2 & H3) _ IH]; [set_solver|]. cbn [fmap list_fmap concat].
  rewrite !not_elem_of_app, list_elem_of_singleton. split_and!; [by destruct Hd' as [-> | ->]|lia|exact IH].
Qed.

Lemma records_format_lines rs s :
  foldl (fun s r => print_record_to_string r s ++ [10]) s rs
  = s ++ concat ((fun l => l ++ [10]) <$> (_gcr_record_format <$> rs)).
Proof.
  revert s; induction rs as [|r rs IH]; intros s; cbn [foldl fmap list_fmap concat]; [by rewrite app_nil_r|].
  rewrite IH. unfold _gcr_record_format, print_record_to_string. by rewrite <- !app_assoc.
Qed.

(** C38: a list of records written with [_gcr_records_format] and read with
    [_gcr_records_parse_colons], whatever memory follows the text: every record
    comes back in order with its columns and one more, empty, and after them comes
    a record of one empty column for the end of the text. *)
Theorem records_format_parse (rs : list GcrRecord) (after : list Z) :
  rs <> [] -> Forall row_safe rs ->
  _gcr_records_parse_colons (_gcr_records_format rs ++ after) (Zlen (_gcr_records_format rs))
  = Ok (Some (((fun r => mk_record (columns r ++ [[]]) 58) <$> rs) ++ [mk_record [[]] 58])).
Proof.
  intros Hne Hrs. unfold _gcr_records_parse_colons, strnsplit.
  pose proof (slice_app [] (_gcr_records_format rs) after) as Hs. change (Z.of_nat (length [])) with 0 in Hs.
  cbn [app] in Hs. rewrite Hs.
  run.
  set (text := _gcr_records_format rs).
  assert (text = concat ((fun l => l ++ [10]) <$> (_gcr_record_format <$> rs))) as Htext
    by (subst text; unfold _gcr_records_format; by rewrite records_format_lines).
  pose proof (split_loop_pieces (S (length text)) 10 text ltac:(lia)) as Hsplit.
  destruct (split_loop (S (length text)) 10 text) as [pieces rest].
  rewrite Htext, split_on_lines in Hsplit.
  2:{ rewrite Forall_fmap. eapply Forall_impl; [exact Hrs|]. intros r Hr. apply format_safe; auto. }
  assert (Hpieces : pieces ++ [c_str rest] = (_gcr_record_format <$> rs) ++ [[]]).
  { rewrite Hsplit, fmap_app. cbn [fmap list_fmap c_str]. f_equal.
    clear -Hrs. induction Hrs as [|r rs Hr _ IH]; [done|]. cbn [fmap list_fmap].
    rewrite c_str_id by (apply format_safe; auto). by rewrite IH. }
  rewrite Hpieces.
  assert (exists c0, rd (text ++ after) 0 = Some c0 /\ c0 <> 0) as (c0 & -> & Hc0).
  { destruct rs as [|r rs]; [done|]. inversion_clear Hrs as [|?? Hr _].
    pose proof (format_safe r 0 Hr ltac:(auto)) as Hnul. rewrite Htext. cbn [fmap list_fmap concat].
    rewrite <- !app_assoc. destruct (_gcr_record_format r) as [|x l]; [by exists 10|].
    exists x. split; [done|]. set_solver. }
  run. destruct (Z.eqb_spec c0 0); [done|].
  clear -Hrs. induction Hrs as [|r rs Hr _ IH]; cbn [fmap list_fmap app parse_lines]; [by vm_compute|].
  destruct Hr as (Hd & Hn & Hc). rewrite <- Hd at 1. rewrite format_parse; [|..|done].
  - run. rewrite IH. cbn [mbind res_bind option_map]. by rewrite Hd.
  - rewrite Hd. eapply Forall_impl; [exact Hc|]. by intros ? (? & ? & _).
  - lia.
Qed.

Lemma records_format_parse_witness :
  _gcr_records_parse_colons (lit "pub:f:
uid::
" ++ [0]) 13
  = Ok (Some [mk_record [lit "pub"; lit "f"; []] 58; mk_record [lit "uid"; []; []] 58; mk_record [[]] 58]).
Proof.
  apply (records_format_parse [mk_record [lit "pub"; lit "f"] 58; mk_record [lit "uid"; []] 58] [0]); [done|].
  unfold row_safe, n_columns. simpl. decide_now.
Defined.

(** A record of 32 columns cannot be read back: its text has one column more
    than the parser takes. *)
Lemma full_record_unreadable :
  take_and_parse_internal (_gcr_record_format (mk_record (replicate 32 (lit "a")) 58)) 58 true = Ok None.
Proof. by vm_compute. Qed.

(** [p >= 0x127] was meant to be 0x7f: control and high characters are kept. *)
Lemma escape_keeps_del : c_colons_escape [127; 200] 58 = Ok None.
Proof. by vm_compute. Qed.
