(* ===== verification/Armor.v ===== *)
(** Armor, what PEM files are made of: [src/egg/egg-armor.c].

    Text and what is found in it are bytes; a pointer into the text is a number.  [after]
    are the bytes that can be read behind the text: a C string has a NUL there, the bytes
    of a file have nothing.  Base64 is GLib's, the class [Base64]. *)

From S2P Require Import Prelude Text.
Local Open Scope Z_scope.

Definition ARMOR_SUFF : list Z := lit "-----".
Definition ARMOR_SUFF_L : nat := 5.
Definition ARMOR_PREF_BEGIN : list Z := lit "-----BEGIN ".
Definition ARMOR_PREF_BEGIN_L : nat := 11.
Definition ARMOR_PREF_END : list Z := lit "-----END ".
Definition ARMOR_PREF_END_L : nat := 9.

Definition ORDERED_HEADERS : list (list Z) := [lit "Proc-Type"; lit "DEK-Info"].

(** GLib's base64: [g_base64_encode_step] without line breaks and [g_base64_encode_close],
    which writes a line feed last; [g_base64_decode_step] of a whole text. *)
Class Base64 := { base64_encode : list Z -> list Z; base64_decode : list Z -> list Z }.

(** [GHashTable] of strings. *)
Abbreviation Headers := (gmap (list Z) (list Z)).

Definition egg_armor_headers_new : Headers := ∅.

(** * Reading *)

(** A line of the headers. *)
Definition parse_header_line (h : option Headers) (line : list Z) : option Headers :=
  let line := strip line in
  match index_of 58 line with
  | None => h
  | Some i => Some (<[strip (take i line) := strip (drop (S i) line)]> (default egg_armor_headers_new h))
  end.

Definition parse_header_lines (text : list Z) (h : option Headers) : option Headers :=
  foldl parse_header_line h (g_strsplit 10 (c_str text)).

(** The type, where the armor begins and where its contents do. *)
Definition armor_find_begin (data : list Z) : res unit (option (list Z * nat * nat)) :=
  match strstr ARMOR_PREF_BEGIN data with
  | None => Ok None
  | Some pref =>
    let at_ := drop (pref + ARMOR_PREF_BEGIN_L) data in
    match strstr ARMOR_SUFF at_ with
    | None => Ok None
    | Some n =>
      if bool_decide (10 ∈ take (ARMOR_PREF_BEGIN_L + n) (drop pref data)) then Ok None else
      c_assert (bool_decide (0 < n)%nat);;
      Ok (Some (take n at_, pref, (pref + ARMOR_PREF_BEGIN_L + n + ARMOR_SUFF_L)%nat))
    end
  end.

(** The last line feed before [pref].  A length of -1, when there is nothing before
    [pref], means the string up to its NUL. *)
Definition last_line (mem : list Z) (pref : nat) : res unit (option nat) :=
  if bool_decide (pref = 0%nat) then
    match index_of 0 mem with None => Ub | Some n => Ok (last_index 10 (take n mem)) end
  else Ok (last_index 10 (c_str (take (pref - 1) mem))).

(** Where the contents end, and where the armor does. *)
Definition armor_find_end (type data after : list Z) : res unit (option (nat * nat)) :=
  match strstr ARMOR_PREF_END data with
  | None => Ok None
  | Some pref =>
    let at_ := drop (pref + ARMOR_PREF_END_L) data in
    if negb (bool_decide (type `prefix_of` at_)) then Ok None else
    if negb (bool_decide (ARMOR_SUFF `prefix_of` drop (length type) at_)) then Ok None else
    let mem := data ++ after in
    line ← last_line mem pref;
    end_ ← (match line with
            | None => Ok pref
            | Some i => c ← or_ub (mem !! S i); Ok (if c =? 61 then i else pref)
            end);
    let outer := (pref + ARMOR_PREF_END_L + length type + ARMOR_SUFF_L)%nat in
    c ← or_ub (mem !! outer);
    Ok (Some (end_, if is_space c then S outer else outer))
  end.

(** The blank line behind the headers: [seeking] is the search for the end of a line, else
    spaces are skipped.  [pos] is the place of [mem], [n] the end of the data. *)
Fixpoint blank_line (seeking : bool) (pos n : nat) (mem : list Z) : res unit (option nat) :=
  match mem with
  | [] => if bool_decide (pos = n) && seeking then Ok None else Ub
  | c :: mem =>
    if seeking then
      if bool_decide (pos = n) then Ok None else blank_line (negb (c =? 10)) (S pos) n mem
    else if is_space c then
      if c =? 10 then Ok (Some pos) else blank_line false (S pos) n mem
    else if bool_decide (n < pos)%nat then Ub
    else if bool_decide (pos = n) then Ok None else blank_line true (S pos) n mem
  end.

Section Base64.
Context `{Base64}.

(** [secure]: the text is in secure memory, then the contents go there too, if there is
    room.  The contents and the headers, which are those from before if there are none. *)
Definition armor_parse_block (secure : bool) (room : Z -> bool) (mem : list Z) (n_data : nat) (headers : option Headers)
    : res unit (option (list Z * option Headers)) :=
  c_assert (bool_decide (0 < n_data)%nat);;
  hend ← blank_line true 0 n_data mem;
  let text := drop (default 0%nat hend) (take n_data mem) in
  let size := (Zlen text * 3) `div` 4 + 1 in
  if secure && negb (room size) then Ok None else
  let decoded := base64_decode text in
  c_assert (Zlen decoded <=? size);;
  match decoded with
  | [] => Ok None
  | _ => Ok (Some (decoded, match hend with None => headers | Some h => parse_header_lines (take h mem) headers end))
  end.

(** What the callback is given. *)
Record Found := mk_found { f_type : list Z; f_data : list Z; f_outer : list Z; f_headers : option Headers }.

(** A turn takes more than [ARMOR_PREF_BEGIN] from the text. *)
Fixpoint parse_loop (fuel : nat) (secure : bool) (room : Z -> bool) (at_ after : list Z) (headers : option Headers) (nfound : Z)
    : res unit (Z * list Found) :=
  if bool_decide (at_ = []) then Ok (nfound, []) else
  match fuel with
  | O => Err tt
  | S fuel =>
    beg ← armor_find_begin at_;
    match beg with
    | None => Ok (nfound, [])
    | Some (type, outer_beg, beg) =>
      end_ ← armor_find_end type (drop beg at_) after;
      match end_ with
      | None => Ok (nfound, [])
      | Some (end_, outer_end) =>
        block ← (if bool_decide (end_ = 0%nat) then Ok None else armor_parse_block secure room (drop beg at_ ++ after) end_ headers);
        let next := (beg + end_ + ARMOR_SUFF_L)%nat in
        '(headers, nfound, found) ← (match block with
          | None => Ok (headers, nfound, [])
          | Some (decoded, h) =>
            c_assert (bool_decide (outer_beg < beg + outer_end)%nat);;
            let outer := take (beg + outer_end - outer_beg) (drop outer_beg (at_ ++ after)) in
            Ok ((fun _ => ∅) <$> h, u32 (nfound + 1), [mk_found type decoded outer h])
          end);
        (* [n_at] is unsigned *)
        if bool_decide (length at_ < next)%nat then Ub else
        '(nfound, l) ← parse_loop fuel secure room (drop next at_) after headers nfound;
        Ok (nfound, found ++ l)
      end
    end
  end.

(** The number of blocks, and the calls of the callback if there is one. *)
Definition egg_armor_parse (secure : bool) (room : Z -> bool) (data after : list Z) (callback : bool) : res unit (Z * list Found) :=
  '(nfound, l) ← parse_loop (length data) secure room data after None 0;
  Ok (nfound, if callback then l else []).

(** * Writing *)

Definition header_line (name value : list Z) : list Z := name ++ lit ": " ++ value ++ [10].

(** [foreach]: the order in which a table gives what it has. *)
Definition append_each_header (string name value : list Z) : list Z :=
  if bool_decide (name ∈ ORDERED_HEADERS) then string else string ++ header_line name value.

Definition ordered_headers (headers : option Headers) : list Z :=
  concat ((fun name => match default ∅ headers !! name with Some value => header_line name value | None => [] end) <$> ORDERED_HEADERS).

Definition write_headers (foreach : Headers -> list (list Z * list Z)) (headers : option Headers) : list Z :=
  ordered_headers headers ++
  match headers with
  | None => []
  | Some h => if bool_decide (size h = 0%nat) then [] else
              foldl (fun s p => append_each_header s p.1 p.2) [] (foreach h) ++ [10]
  end.

(** [for (i = 64; i < length; i += 64)], where a line feed makes [length] and [i] grow;
    the length is enough fuel. *)
Fixpoint break_lines (fuel i : nat) (text : list Z) : res unit (list Z) :=
  if bool_decide (length text <= i)%nat then Ok text else
  match fuel with
  | O => Err tt
  | S fuel => break_lines fuel (S i + 64) (take i text ++ 10 :: drop i text)
  end.

Definition egg_armor_write (foreach : Headers -> list (list Z * list Z)) (data type : list Z) (headers : option Headers) : res unit (list Z) :=
  let n_data := Zlen data in
  let estimate := (n_data * 4) `div` 3 + (n_data * 4) `div` (3 * 65) + 7 in
  let text := base64_encode data ++ [10] in
  c_assert (Zlen text <=? estimate);;
  text ← break_lines (length text) 64 text;
  Ok (ARMOR_PREF_BEGIN ++ type ++ ARMOR_SUFF ++ [10] ++ write_headers foreach headers ++ text ++
      ARMOR_PREF_END ++ type ++ ARMOR_SUFF ++ [10]).
End Base64.
