(* ===== verification/ArmorSpec.v ===== *)
(** Armor: reading is safe, and reads what was written.

    The text that [egg_armor_parse] may be given is [plain]: no armor in it has an empty
    type or contents that are empty without even a line feed; and if it ends with dashes one
    more byte can be read behind it ([guarded]).  Then nothing else is read outside and no
    assertion fails ([armor_parse_safe]).  What [egg_armor_write] wrote is read back as it
    was ([armor_roundtrip]), except that nothing is read if the contents are empty, or if
    there are no headers and the last line of base64 is full: then there is a blank line where
    none should be ([no_headers_48]). *)

From S2P Require Import Prelude Text Armor.
Local Open Scope Z_scope.

(** * What GLib promises *)

Definition base64_char (c : Z) : bool :=
  ((65 <=? c) && (c <=? 90)) || ((97 <=? c) && (c <=? 122)) || ((48 <=? c) && (c <=? 57)) || (c =? 43) || (c =? 47) || (c =? 61).

(** Lines may be broken anywhere; four characters give at most three bytes; padding is not
    at the start of four characters. *)
Class Base64Laws `{Base64} := {
  decode_encode x : bytes x -> base64_decode (base64_encode x) = x;
  decode_lines s : base64_decode s = base64_decode (filter (fun c => c <> 10) s);
  decode_fits s : 4 * Zlen (base64_decode s) <= 3 * Zlen s;
  encode_length x : Zlen (base64_encode x) = 4 * ((Zlen x + 2) / 3);
  encode_chars x : bytes x -> Forall (fun c => base64_char c = true) (base64_encode x);
  encode_groups x k : bytes x -> base64_encode x !! (4 * k)%nat <> Some 61
}.

(** * Safety *)

Definition empty_type : list Z := ARMOR_PREF_BEGIN ++ ARMOR_SUFF.
Definition empty_contents : list Z := ARMOR_SUFF ++ ARMOR_PREF_END.

Definition plain (data : list Z) : Prop :=
  forall i, ~ empty_type `prefix_of` drop i data /\ ~ empty_contents `prefix_of` drop i data.

Lemma plain_drop k data : plain data -> plain (drop k data).
Proof. intros Hp i. rewrite drop_drop. apply Hp. Qed.

Lemma prefix_drop_app (a b x : list Z) : a `prefix_of` x -> b `prefix_of` drop (length a) x -> (a ++ b) `prefix_of` x.
Proof. intros [y ->] [z Hz]. rewrite drop_app_length in Hz. subst y. exists z. by rewrite (assoc_L (++)). Qed.

Lemma find_begin_safe data : plain data -> exists o, armor_find_begin data = Ok o /\
  forall type ob beg, o = Some (type, ob, beg) -> (ob + 17 <= beg <= length data)%nat /\ ARMOR_PREF_BEGIN `prefix_of` drop ob data /\
    ARMOR_SUFF `prefix_of` drop (beg - 5) data /\ (0 ∉ type) /\ (10 ∉ type).
Proof.
  intros Hp. unfold armor_find_begin. destruct (strstr ARMOR_PREF_BEGIN data) as [pref|] eqn:Epref; [|by exists None].
  destruct (strstr_Some _ _ _ Epref) as (Hpref & Hlen & _). change (length ARMOR_PREF_BEGIN) with 11%nat in Hlen.
  destruct (strstr ARMOR_SUFF _) as [n|] eqn:En; [|by exists None].
  destruct (strstr_Some _ _ _ En) as (Hsuff & Hlen2 & H0). rewrite length_drop in Hlen2. change (length ARMOR_SUFF) with 5%nat in Hlen2.
  unfold ARMOR_PREF_BEGIN_L, ARMOR_SUFF_L in *. rewrite drop_drop in Hsuff.
  case_bool_decide as H10; [by exists None|]. destruct n as [|n].
  { destruct (Hp pref) as [Hbad _]. destruct Hbad. apply prefix_drop_app; [done|]. rewrite drop_drop.
    rewrite Nat.add_0_r in Hsuff. exact Hsuff. }
  rewrite c_assert_true by by apply bool_decide_eq_true_2; lia. run. eexists. split; [reflexivity|]. intros type ob beg [= <- <- <-].
  split_and!; [lia|lia|done| |done|].
  - by replace (pref + 11 + S n + 5 - 5)%nat with (pref + 11 + S n)%nat by lia.
  - intros Hin. apply H10. rewrite <- take_take_drop. rewrite drop_drop. apply elem_of_app. by right.
Qed.

(** A place where the search for a blank line has to stop. *)
Lemma blank_line_safe n : forall mem seeking pos c, (pos <= n)%nat -> mem !! (n - pos)%nat = Some c -> c = 45 \/ c = 10 ->
  exists o, blank_line seeking pos n mem = Ok o /\ forall h, o = Some h -> (h <= n)%nat.
Proof.
  induction mem as [|d mem IH]; intros seeking pos c Hpos Hc Hstop; [done|]. cbn [blank_line].
  assert (pos <> n -> forall b, exists o, blank_line b (S pos) n mem = Ok o /\ forall h, o = Some h -> (h <= n)%nat) as Hon.
  { intros Hne b. apply (IH b (S pos) c); [lia| |done]. replace (n - pos)%nat with (S (n - S pos)) in Hc by lia. exact Hc. }
  destruct seeking.
  - case_bool_decide as E; [by exists None|]. by apply Hon.
  - destruct (is_space d) eqn:Esp.
    + destruct (Z.eqb_spec d 10) as [->|Hd]; [by exists (Some pos); split; [|intros h [= <-]]|]. apply Hon. intros ->.
      rewrite Nat.sub_diag in Hc. injection Hc as ->. destruct Hstop as [->| ->]; done.
    + rewrite bool_decide_eq_false_2 by lia. case_bool_decide as E; [by exists None|]. by apply Hon.
Qed.

(** There is a byte to read behind a text that ends with dashes, as there is one behind a
    string. *)
Definition guarded (data after : list Z) : Prop := after <> [] \/ ~ ARMOR_SUFF `suffix_of` data.

Lemma guarded_drop k data after : guarded data after -> guarded (drop k data) after.
Proof. intros [Ha|Hs]; [by left|right]. intros [x Hx]. apply Hs. exists (take k data ++ x). by rewrite <- (assoc_L (++)), <- Hx, take_drop. Qed.

Lemma find_end_safe type data after : guarded data after -> strstr ARMOR_PREF_END data <> Some 0%nat ->
  exists o, armor_find_end type data after = Ok o /\
  forall e oe, o = Some (e, oe) -> (e + 5 <= length data)%nat /\ (e < oe <= S (length data))%nat /\
    exists c, (data ++ after) !! e = Some c /\ (c = 45 \/ c = 10).
Proof.
  intros Hguard Hne. unfold armor_find_end. destruct (strstr ARMOR_PREF_END data) as [pref|] eqn:Epref; [|by exists None].
  destruct (strstr_Some _ _ _ Epref) as (Hpref & Hlen & _). change (length ARMOR_PREF_END) with 9%nat in Hlen. unfold ARMOR_PREF_END_L, ARMOR_SUFF_L.
  case_bool_decide as Htype; [|by exists None]. cbn [negb]. case_bool_decide as Hsuff; [|by exists None]. cbn [negb].
  pose proof (prefix_length _ _ Htype) as L1. pose proof (prefix_length _ _ Hsuff) as L2. rewrite !length_drop in *.
  change (length ARMOR_SUFF) with 5%nat in L2. destruct pref as [|pref]; [done|]. unfold last_line. rewrite bool_decide_eq_false_2 by done. run.
  set (mem := data ++ after). assert (length data <= length mem)%nat as Hmem by (unfold mem; rewrite length_app; lia).
  assert (S pref + 9 + length type + 5 < length mem)%nat as Hout.
  { destruct Hguard as [Hafter|Hs]; [destruct after; [done|unfold mem; rewrite length_app; cbn [length]; lia]|].
    destruct (decide (S pref + 9 + length type + 5 = length data)%nat) as [E|]; [|lia]. destruct Hs. rewrite !drop_drop in Hsuff. destruct Hsuff as [y Hy].
    exists (take (S pref + 9 + length type) data). assert (length (drop (S pref + 9 + length type) data) = 5)%nat as L5 by (rewrite length_drop; lia).
    rewrite Hy, length_app in L5. cbn [length ARMOR_SUFF] in L5. change (length ARMOR_SUFF) with 5%nat in L5. destruct y; [|cbn in L5; lia].
    rewrite app_nil_r in Hy. by rewrite <- Hy, take_drop. }
  destruct (lookup_lt_is_Some_2 mem (S pref + 9 + length type + 5)%nat ltac:(lia)) as [z Hz].
  assert (exists e c, (match last_index 10 (c_str (take (S pref - 1) mem)) with
      | None => Ok (S pref)
      | Some i => c ← or_ub (mem !! S i); Ok (if c =? 61 then i else S pref) end) = @Ok unit nat e /\
      (e <= S pref)%nat /\ mem !! e = Some c /\ (c = 45 \/ c = 10)) as (e & c & -> & He & Hc & Hstop).
  { assert (mem !! S pref = Some 45) as Hdash.
    { unfold mem. rewrite lookup_app_l by lia. destruct Hpref as [y Hy]. rewrite <- (Nat.add_0_r (S pref)), <- lookup_drop, Hy. done. }
    destruct (last_index 10 _) as [i|] eqn:Ei; [|by exists (S pref), 45; auto].
    apply last_index_Some in Ei as [Hi _]. assert (i < S pref)%nat as Hlt.
    { apply lookup_lt_Some in Hi. pose proof (c_str_length (take (S pref - 1) mem)). rewrite length_take in *. lia. }
    destruct (lookup_lt_is_Some_2 mem (S i) ltac:(lia)) as [d Hd]. rewrite Hd. run. destruct (d =? 61).
    - exists i, 10. split; [done|]. split; [lia|]. split; [|by right]. apply c_str_lookup in Hi. rewrite lookup_take_lt in Hi; [done|].
      apply lookup_lt_Some in Hi. rewrite length_take in Hi. lia.
    - exists (S pref), 45. auto. }
  run. rewrite Hz. run. eexists. split; [reflexivity|]. intros e' oe [= <- <-]. split_and!; [lia|destruct (is_space z); lia|destruct (is_space z); lia|].
  by exists c.
Qed.

Section Safe.
Context `{Laws : Base64Laws}.

Lemma parse_block_safe secure room mem n h c : (0 < n)%nat -> mem !! n = Some c -> c = 45 \/ c = 10 ->
  exists o, armor_parse_block secure room mem n h = Ok o /\ forall d h', o = Some (d, h') -> d <> [].
Proof.
  intros Hn Hc Hstop. unfold armor_parse_block. rewrite c_assert_true by (by apply bool_decide_eq_true_2). run.
  destruct (blank_line_safe n mem true 0 c ltac:(lia)) as (hend & -> & _); [by rewrite Nat.sub_0_r|done|]. run.
  set (text := drop _ _). destruct (secure && negb (room _)); [by exists None|].
  rewrite c_assert_true by (apply Z.leb_le; pose proof (decode_fits text); lia_div). run.
  destruct (base64_decode text) as [|x d]; [by exists None|]. eexists. split; [reflexivity|]. by intros d' h' [= <- _].
Qed.

Definition piece (x mem : list Z) : Prop := exists p s, mem = p ++ x ++ s.

Lemma piece_take_drop n k mem : piece (take n (drop k mem)) mem.
Proof. exists (take k mem), (drop n (drop k mem)). by rewrite (take_drop n), (take_drop k). Qed.

Lemma piece_drop k x mem : piece x (drop k mem) -> piece x mem.
Proof. intros (p & s & E). exists (take k mem ++ p), s. rewrite <- (assoc_L (++)), <- E. by rewrite take_drop. Qed.

(** An armor that was found: a piece of the text that begins as armor does, with contents. *)
Definition found_in (mem : list Z) (x : Found) : Prop :=
  piece (f_outer x) mem /\ ARMOR_PREF_BEGIN `prefix_of` f_outer x /\ f_data x <> [] /\ 10 ∉ f_type x.

Lemma found_in_drop k mem x : found_in (drop k mem) x -> found_in mem x.
Proof.
  intros (Hin & Hrest). split; [by eapply piece_drop|exact Hrest].
Qed.

Lemma parse_loop_safe fuel secure room after : forall at_ h n, plain at_ -> guarded at_ after -> (length at_ <= fuel)%nat -> 0 <= n ->
  exists k l, parse_loop fuel secure room at_ after h (u32 n) = Ok (u32 k, l) /\ k = n + Zlen l /\ Forall (found_in (at_ ++ after)) l.
Proof.
  induction fuel as [|fuel IH]; intros at_ h n Hp Hguard Hf Hn; cbn [parse_loop].
  { destruct at_; [|cbn in Hf; lia]. exists n, []. rewrite bool_decide_eq_true_2 by done. split_and!; [done|cbn; lia|constructor]. }
  assert (exists k l, @Ok unit _ (u32 n, @nil Found) = Ok (u32 k, l) /\ k = n + Zlen l /\ Forall (found_in (at_ ++ after)) l) as Hstop
    by (exists n, []; split_and!; [done|cbn; lia|constructor]).
  case_bool_decide as Hnil; [done|]. destruct (find_begin_safe at_ Hp) as ([[[type ob] beg]|] & -> & Hbeg); run; [|done].
  destruct (Hbeg _ _ _ eq_refl) as (Hlen & Hpref & Hsuff & _ & H10). clear Hbeg.
  assert (strstr ARMOR_PREF_END (drop beg at_) <> Some 0%nat) as Hne.
  { intros E. destruct (strstr_Some _ _ _ E) as (Hend & _ & _). rewrite drop_0 in Hend. destruct (Hp (beg - 5)%nat) as [_ Hbad].
    destruct Hbad. apply prefix_drop_app; [done|]. rewrite drop_drop. by replace (beg - 5 + length ARMOR_SUFF)%nat with beg by (cbn; lia). }
  destruct (find_end_safe type (drop beg at_) after (guarded_drop _ _ _ Hguard) Hne) as ([[e oe]|] & -> & Hend); run; [|done].
  destruct (Hend _ _ eq_refl) as (He & Hoe & c & Hc & Hcs). clear Hend. rewrite length_drop in He, Hoe.
  assert (exists o, (if bool_decide (e = 0%nat) then Ok None else armor_parse_block secure room (drop beg at_ ++ after) e h) = Ok o /\
          forall d h', o = Some (d, h') -> d <> []) as (o & -> & Ho).
  { case_bool_decide; [by exists None|]. eapply parse_block_safe; [lia|exact Hc|done]. }
  run. set (next := (beg + e + ARMOR_SUFF_L)%nat). assert (next <= length at_)%nat as Hnext by (unfold next, ARMOR_SUFF_L; lia).
  assert (forall h' n', 0 <= n' -> exists k l, parse_loop fuel secure room (drop next at_) after h' (u32 n') = Ok (u32 k, l) /\
          k = n' + Zlen l /\ Forall (found_in (at_ ++ after)) l) as Hrest.
  { intros h' n' Hn'. destruct (IH (drop next at_) h' n') as (k & l & E & Hk & Hl); [by apply plain_drop|by apply guarded_drop|rewrite length_drop; unfold next; lia|done|].
    exists k, l. split_and!; [done|done|]. eapply Forall_impl; [exact Hl|]. intros x Hx. apply (found_in_drop next).
    by rewrite drop_app_le. }
  destruct o as [[d h']|]; run.
  - rewrite c_assert_true by (apply bool_decide_eq_true_2; lia). run. rewrite bool_decide_eq_false_2 by lia.
    assert (u32 (u32 n + 1) = u32 (n + 1)) as -> by (unfold u32; by rewrite Zplus_mod_idemp_l).
    destruct (Hrest ((fun _ => ∅) <$> h') (n + 1)) as (k & l & -> & Hk & Hl); [lia|]. run. eexists k, _. split; [reflexivity|].
    split; [rewrite length_app; cbn [length]; lia|]. apply Forall_app. split; [|done]. constructor; [|constructor].
    unfold found_in. cbn [f_outer f_data f_type]. set (outer := take _ _). split_and!.
    + apply piece_take_drop.
    + unfold outer. destruct Hpref as [y Hy]. rewrite drop_app_le by lia. rewrite Hy, <- (assoc_L (++)).
      rewrite take_app_ge by (cbn; lia). by eexists.
    + by eapply Ho.
    + exact H10.
  - rewrite bool_decide_eq_false_2 by lia. destruct (Hrest h n Hn) as (k & l & -> & Hk & Hl). run. by exists k, l.
Qed.
End Safe.

(** * Lines of 64 characters *)

Fixpoint lines64 (fuel : nat) (l : list Z) : list Z :=
  match fuel with
  | O => l
  | S fuel => if bool_decide (length l <= 64)%nat then l else take 64 l ++ 10 :: lines64 fuel (drop 64 l)
  end.

Lemma break_lines_spec fuel : forall pre l, (length l <= fuel)%nat ->
  break_lines fuel (length pre + 64) (pre ++ l) = Ok (pre ++ lines64 fuel l).
Proof.
  induction fuel as [|fuel IH]; intros pre l Hf; cbn [break_lines lines64]; rewrite length_app.
  - rewrite bool_decide_eq_true_2 by lia. done.
  - destruct (decide (length l <= 64)%nat) as [Hle|Hgt]; [rewrite !bool_decide_eq_true_2 by lia; done|]. rewrite !bool_decide_eq_false_2 by lia.
    rewrite take_app_add, drop_app_add. replace ((pre ++ take 64 l) ++ 10 :: drop 64 l) with ((pre ++ take 64 l ++ [10]) ++ drop 64 l)
      by (by rewrite <- !(assoc_L (++))).
    replace (S (length pre + 64) + 64)%nat with (length (pre ++ take 64 l ++ [10%Z]) + 64)%nat by (rewrite !length_app, length_take; cbn [length]; lia).
    rewrite IH by (rewrite length_drop; lia). by rewrite <- !(assoc_L (++)).
Qed.

Lemma lines64_Forall (P : Z -> Prop) fuel : forall l, P 10 -> Forall P l -> Forall P (lines64 fuel l).
Proof.
  induction fuel as [|fuel IH]; intros l H10 Hl; cbn [lines64]; [done|]. case_bool_decide; [done|].
  apply Forall_app. split; [by apply Forall_take|]. constructor; [done|]. apply IH; [done|]. by apply Forall_drop.
Qed.

Lemma lines64_filter fuel : forall l, filter (fun c => c <> 10) (lines64 fuel l) = filter (fun c => c <> 10) l.
Proof.
  induction fuel as [|fuel IH]; intros l; cbn [lines64]; [done|]. case_bool_decide; [done|].
  rewrite filter_app, filter_cons_False by (intros E; by apply E). rewrite IH, <- filter_app. by rewrite take_drop.
Qed.

Lemma lookup_next {A} (x : A) l i : (x :: l) !! S i = l !! i.
Proof. done. Qed.

(** The start of a line is the start of four characters, where there is no padding. *)
Lemma lines64_start fuel : forall l i, (length l <= fuel)%nat -> (forall k, l !! (4 * k)%nat <> Some 61) ->
  (forall j, l !! j = Some 10 -> S j = length l) -> (10 :: lines64 fuel l) !! i = Some 10 -> lines64 fuel l !! i <> Some 61.
Proof.
  induction fuel as [|fuel IH]; intros l i Hf Hk Hj Hi; cbn [lines64] in *; [destruct l; [by rewrite lookup_nil|cbn in Hf; lia]|].
  assert ((10 :: l) !! i = Some 10 -> l !! i <> Some 61) as Hl.
  { intros E. destruct i as [|i]; [exact (Hk 0%nat)|]. apply Hj in E. rewrite lookup_ge_None_2 by lia. done. }
  case_bool_decide as Hle; [exact (Hl Hi)|]. assert (length (take 64 l) = 64%nat) as H64 by (rewrite length_take; lia).
  destruct (decide (i < 64)%nat) as [Hlt|Hge].
  - rewrite lookup_app_l by lia. rewrite lookup_take_lt by done. apply Hl. destruct i as [|i]; [done|]. rewrite lookup_next in Hi |- *.
    rewrite lookup_app_l in Hi by lia. by rewrite lookup_take_lt in Hi by lia.
  - rewrite lookup_app_r by lia. rewrite H64. destruct (i - 64)%nat as [|i'] eqn:Ei; [done|]. rewrite lookup_next.
    replace i with (S (64 + i')) in Hi by lia. rewrite lookup_next in Hi.
    rewrite lookup_app_r in Hi by lia. rewrite H64 in Hi. replace (64 + i' - 64)%nat with i' in Hi by lia.
    apply (IH (drop 64 l)); [rewrite length_drop; lia| | |exact Hi].
    + intros k. rewrite lookup_drop. replace (64 + 4 * k)%nat with (4 * (16 + k))%nat by lia. apply Hk.
    + intros j E. rewrite lookup_drop in E. apply Hj in E. rewrite length_drop. lia.
Qed.

(** ** The search for a blank line *)

Lemma seek_line n : forall x pos y, 10 ∉ x -> (pos + length x < n)%nat ->
  blank_line true pos n (x ++ 10 :: y) = blank_line false (S (pos + length x)) n y.
Proof.
  induction x as [|c x IH]; intros pos y Hx Hlt; cbn [app blank_line]; rewrite bool_decide_eq_false_2 by (cbn in Hlt; lia).
  - by rewrite Nat.add_0_r.
  - apply not_elem_of_cons in Hx as [Hc Hx]. rewrite (proj2 (Z.eqb_neq c 10)) by done. cbn [negb]. rewrite IH by (cbn in Hlt; try done; lia).
    f_equal. cbn. lia.
Qed.

Lemma pass_line n c x pos y : is_space c = false -> 10 ∉ x -> (pos + S (length x) < n)%nat ->
  blank_line false pos n (c :: x ++ 10 :: y) = blank_line false (pos + S (S (length x))) n y.
Proof.
  intros Hc Hx Hlt. cbn [blank_line]. rewrite Hc. rewrite !bool_decide_eq_false_2 by lia.
  rewrite seek_line by (try done; lia). f_equal. lia.
Qed.

Definition visible (c : Z) : Prop := is_space c = false /\ c <> 10 /\ c <> 45 /\ c <> 0.

Lemma base64_visible c : base64_char c = true -> visible c.
Proof.
  unfold base64_char, visible, is_space. intros Hc. rewrite !orb_true_iff, !andb_true_iff, !Z.leb_le, !Z.eqb_eq in Hc.
  split_and!; [|lia|lia|lia]. apply orb_false_iff. split; [apply Z.eqb_neq; lia|]. apply andb_false_iff.
  destruct (Z.leb_spec 9 c); [right|by left]. apply Z.leb_gt. lia.
Qed.

Lemma visible_no_10 b : Forall visible b -> 10 ∉ b.
Proof. intros Hb Hin. rewrite Forall_forall in Hb. by destruct (Hb _ Hin) as (_ & ? & _). Qed.

(** Broken lines have no blank line behind them, unless the last one is full. *)
Lemma pass_lines fuel : forall b pos rest, (S (length b) <= fuel)%nat -> Forall visible b -> (length b mod 64)%nat <> 0%nat ->
  blank_line false pos (pos + length (lines64 fuel (b ++ [10%Z]))) (lines64 fuel (b ++ [10]) ++ 45 :: rest) = Ok None.
Proof.
  induction fuel as [|fuel IH]; intros b pos rest Hf Hb Hmod; [lia|]. cbn [lines64]. rewrite length_app. cbn [length].
  destruct b as [|c b]; [done|]. pose proof (visible_no_10 _ Hb) as H10. apply not_elem_of_cons in H10 as [_ H10].
  assert (is_space c = false) as Hc by (apply Forall_cons in Hb as [[Hc _] _]; exact Hc). case_bool_decide as Hle.
  - rewrite length_app. cbn [app length]. rewrite <- (assoc_L (++)). cbn [app].
    rewrite pass_line by (try done; lia). cbn [blank_line]. change (is_space 45) with false.
    cbv iota. rewrite bool_decide_eq_false_2 by lia. by rewrite bool_decide_eq_true_2 by lia.
  - assert (65 <= length (c :: b))%nat as Hlen.
    { destruct (decide (length (c :: b) = 64%nat)) as [E|]; [by rewrite E in Hmod|cbn [length] in *; lia]. }
    rewrite !take_app_le by lia. rewrite !drop_app_le by lia. cbn [length] in Hlen. change (take 64 (c :: b)) with (c :: take 63 b).
    change (drop 64 (c :: b)) with (drop 63 b). set (b2 := drop 63 b).
    rewrite <- !(assoc_L (++)). cbn [app]. rewrite pass_line; [| done | rewrite <- (take_drop 63 b) in H10; set_solver | cbn [length]; rewrite length_app; cbn [length]; lia].
    replace (pos + length _)%nat with ((pos + S (S (length (take 63 b)))) + length (lines64 fuel (b2 ++ [10%Z])))%nat.
    + apply IH; [unfold b2; rewrite length_drop; cbn in Hf; lia| |].
      * apply Forall_cons in Hb as [_ Hb]. by apply Forall_drop.
      * unfold b2. rewrite length_drop. cbn [length] in Hmod. intros E. apply Hmod.
        replace (S (length b)) with ((length b - 63) + 1 * 64)%nat by lia. by rewrite Nat.Div0.mod_add.
    + cbn [length]. rewrite length_app. cbn [length]. lia.
Qed.

(** When the last line is full, the line feed behind it makes a blank line. *)
Lemma pass_full_lines fuel : forall b pos rest, (S (length b) <= fuel)%nat -> Forall visible b -> (length b mod 64)%nat = 0%nat ->
  let n := (pos + length (lines64 fuel (b ++ [10%Z])))%nat in
  blank_line false pos n (lines64 fuel (b ++ [10]) ++ 45 :: rest) = Ok (Some (n - 1)%nat) /\ (0 < length (lines64 fuel (b ++ [10%Z])))%nat /\
  last (lines64 fuel (b ++ [10%Z])) = Some 10.
Proof.
  induction fuel as [|fuel IH]; intros b pos rest Hf Hb Hmod n; [lia|]. unfold n. clear n. cbn [lines64]. rewrite length_app. cbn [length].
  destruct b as [|c b].
  { rewrite bool_decide_eq_true_2 by (cbn [length]; lia). cbn [app length]. split_and!; [|lia|done]. cbn [blank_line]. change (is_space 10) with true. change (10 =? 10) with true.
    cbv iota. do 2 f_equal. lia. }
  pose proof (visible_no_10 _ Hb) as H10. apply not_elem_of_cons in H10 as [_ H10].
  assert (is_space c = false) as Hc by (apply Forall_cons in Hb as [[Hc _] _]; exact Hc).
  assert (64 <= length (c :: b))%nat as Hlen.
  { destruct (decide (length (c :: b) < 64)%nat) as [Hlt|]; [|lia]. rewrite Nat.mod_small in Hmod by done. done. }
  rewrite bool_decide_eq_false_2 by lia.
  rewrite !take_app_le by lia. rewrite !drop_app_le by lia. cbn [length] in Hlen. change (take 64 (c :: b)) with (c :: take 63 b).
  change (drop 64 (c :: b)) with (drop 63 b). set (b2 := drop 63 b).
  destruct (IH b2 (pos + S (S (length (take 63 b))))%nat rest) as (E & Hpos & Hlast).
  { unfold b2. rewrite length_drop. cbn in Hf. lia. }
  { apply Forall_cons in Hb as [_ Hb]. by apply Forall_drop. }
  { unfold b2. rewrite length_drop. cbn [length] in Hmod. replace (S (length b)) with ((length b - 63) + 1 * 64)%nat in Hmod by lia. by rewrite Nat.Div0.mod_add in Hmod. }
  set (l2 := lines64 fuel (b2 ++ [10])) in *. rewrite <- !(assoc_L (++)). cbn [app].
  assert (length (c :: take 63 b ++ 10%Z :: l2) = S (S (length (take 63 b))) + length l2)%nat as Hl by (cbn [length]; rewrite length_app; cbn [length]; lia).
  rewrite Hl. split_and!; [|lia|].
  - rewrite pass_line; [|done|rewrite <- (take_drop 63 b) in H10; set_solver|lia]. rewrite Nat.add_assoc. exact E.
  - destruct l2 as [|x l2]; [done|]. rewrite app_comm_cons, last_app. by rewrite last_cons_cons, Hlast.
Qed.

(** * Headers *)

Definition trimmed (s : list Z) : Prop := chug s = s /\ chomp s = s.

Lemma chug_id c s : ascii_space c = false -> chug (c :: s) = c :: s.
Proof. intros Hc. cbn [chug]. by rewrite Hc. Qed.

Lemma chug_app a c b : Forall (fun x => ascii_space x = true) a -> ascii_space c = false -> chug (a ++ c :: b) = c :: b.
Proof. induction 1 as [|x a Hx Ha IH]; intros Hc; cbn [app chug]; [by rewrite Hc|]. rewrite Hx. by apply IH. Qed.

Lemma chug_suffix s : exists a, s = a ++ chug s /\ Forall (fun x => ascii_space x = true) a.
Proof.
  induction s as [|c s (a & E & Ha)]; cbn [chug]; [by exists []|]. destruct (ascii_space c) eqn:Hc; [|by exists []].
  exists (c :: a). split; [by rewrite E at 1|by constructor].
Qed.

(** Only what is behind the last character that is not a space goes. *)
Lemma chomp_app a c b : ascii_space c = false -> chomp (a ++ c :: b) = a ++ c :: chomp b.
Proof.
  intros Hc. unfold chomp. rewrite reverse_app, reverse_cons, <- (assoc_L (++)). cbn [app].
  destruct (chug_suffix (reverse b)) as (p & Ep & Hp). destruct (chug (reverse b)) as [|d q] eqn:E.
  - rewrite app_nil_r in Ep. rewrite Ep, chug_app by done. rewrite reverse_cons, reverse_involutive. done.
  - assert (chug (reverse b ++ c :: reverse a) = (d :: q) ++ c :: reverse a) as ->.
    { rewrite Ep, <- (assoc_L (++)). cbn [app]. rewrite chug_app; [done|done|].
      clear -E. induction (reverse b) as [|x s IH]; [done|]. cbn [chug] in E. destruct (ascii_space x) eqn:Hx; [by apply IH|].
      by injection E as -> ->. }
    rewrite reverse_app, reverse_cons, reverse_involutive, <- (assoc_L (++)). done.
Qed.

(** A header that can be written: a name without a colon that does not begin with a space,
    both on one line, and no end of an armor in them. *)
Record header_ok (p : list Z * list Z) : Prop := {
  h_name : match p.1 with c :: _ => is_space c = false | [] => False end;
  h_name_trimmed : trimmed p.1;
  h_value_trimmed : trimmed p.2;
  h_colon : 58 ∉ p.1;
  h_lines : (10 ∉ p.1) /\ (10 ∉ p.2);
  h_nuls : (0 ∉ p.1) /\ (0 ∉ p.2);
  h_no_end : strstr ARMOR_PREF_END p.1 = None /\ strstr ARMOR_PREF_END p.2 = None
}.

Lemma ascii_space_is c : ascii_space c = true -> is_space c = true.
Proof. unfold ascii_space. rewrite !orb_true_iff, !Z.eqb_eq. intros [[[[->| ->]| ->]| ->]| ->]; done. Qed.

Lemma strip_value v : trimmed v -> strip (chomp (32 :: v)) = v.
Proof.
  intros [H1 H2]. destruct v as [|c v]; [done|]. assert (ascii_space c = false) as Hc.
  { destruct (ascii_space c) eqn:E; [|done]. cbn [chug] in H1. rewrite E in H1. destruct (chug_suffix v) as (a & Ea & _).
    apply (f_equal length) in Ea. rewrite length_app, H1 in Ea. cbn in Ea. lia. }
  assert (chomp (32 :: c :: v) = 32 :: c :: v) as ->.
  { change (32 :: c :: v) with ([32] ++ c :: v). rewrite chomp_app by done. pose proof (chomp_app [] c v Hc) as E. cbn [app] in E.
    rewrite H2 in E. injection E as E. by rewrite <- E. }
  unfold strip. cbn [chug]. change (ascii_space 32) with true. cbv iota. rewrite Hc. exact H2.
Qed.

Lemma parse_header_line_ok name value h : header_ok (name, value) ->
  parse_header_line h (name ++ 58 :: 32 :: value) = Some (<[name := value]> (default ∅ h)).
Proof.
  intros [Hn Htn Htv Hcol _ _ _]. cbn [fst snd] in *. destruct name as [|c name]; [done|].
  assert (ascii_space c = false) as Hc by (destruct (ascii_space c) eqn:E; [apply ascii_space_is in E; congruence|done]).
  assert (strip ((c :: name) ++ 58 :: 32 :: value) = (c :: name) ++ 58 :: chomp (32 :: value)) as E.
  { unfold strip. cbn [app]. rewrite chug_id by done. by apply (chomp_app (c :: name)). }
  unfold parse_header_line. rewrite E.
  assert (index_of 58 ((c :: name) ++ 58 :: chomp (32 :: value)) = Some (length (c :: name))) as ->.
  { apply index_of_Some. rewrite list_lookup_middle by done. split; [done|]. by rewrite take_app_length. }
  rewrite take_app_length, <- Nat.add_1_r, drop_app_add. cbn [drop].
  rewrite drop_0, strip_value by done. unfold strip. by rewrite (proj1 Htn), (proj2 Htn).
Qed.

Definition lines_of (hs : list (list Z * list Z)) : list (list Z) := (fun p => p.1 ++ 58 :: 32 :: p.2) <$> hs.
Definition header_text (hs : list (list Z * list Z)) : list Z := concat ((fun l => l ++ [10]) <$> lines_of hs).

Lemma header_line_eq name value : header_line name value = (name ++ 58 :: 32 :: value) ++ [10].
Proof. unfold header_line. by rewrite <- (assoc_L (++)). Qed.

Lemma header_text_cons p hs : header_text (p :: hs) = (p.1 ++ 58 :: 32 :: p.2) ++ 10 :: header_text hs.
Proof. unfold header_text, lines_of. cbn [fmap list_fmap concat]. by rewrite <- (assoc_L (++)). Qed.

Lemma header_text_no_nul hs : Forall header_ok hs -> 0 ∉ header_text hs.
Proof.
  induction 1 as [|p hs [_ _ _ _ _ [H1 H2] _] _ IH]; [by apply not_elem_of_nil|]. rewrite header_text_cons.
  rewrite !elem_of_app, !elem_of_cons. naive_solver.
Qed.

(** Reading the lines of a table's headers makes the table again. *)
Lemma parse_lines_fold hs : Forall header_ok hs -> forall h,
  foldl parse_header_line h (lines_of hs) = match hs with [] => h | _ => Some (foldl (fun m p => <[p.1 := p.2]> m) (default ∅ h) hs) end.
Proof.
  induction 1 as [|[name value] hs Hp Hhs IH]; intros h; [done|]. unfold lines_of. cbn [fmap list_fmap foldl fst snd]. rewrite parse_header_line_ok by done.
  rewrite IH. by destruct hs.
Qed.

Lemma foldl_insert_all hs : NoDup hs.*1 -> foldl (fun (m : Headers) p => <[p.1 := p.2]> m) ∅ hs = list_to_map hs.
Proof.
  assert (forall m : Headers, NoDup hs.*1 -> foldl (fun (m : Headers) p => <[p.1 := p.2]> m) m hs = list_to_map hs ∪ m) as Hgen;
    [|intros Hnd; by rewrite Hgen, (right_id_L ∅ (∪))].
  induction hs as [|[n v] hs IH]; intros m Hnd; cbn [foldl]; [by rewrite list_to_map_nil, (left_id_L ∅ (∪))|]. apply NoDup_cons in Hnd as [Hn Hnd].
  rewrite IH by done. cbn [fst snd]. rewrite list_to_map_cons. rewrite <- insert_union_l. rewrite insert_union_r; [done|]. by apply not_elem_of_list_to_map_1.
Qed.

Lemma parse_header_text hs m : Forall header_ok hs -> hs <> [] -> hs ≡ₚ map_to_list m ->
  parse_header_lines (10 :: header_text hs) None = Some m.
Proof.
  intros Hok Hne Hperm. unfold parse_header_lines. rewrite c_str_id by (apply not_elem_of_cons; split; [done|by apply header_text_no_nul]).
  unfold g_strsplit. change (10 :: header_text hs) with ([] ++ 10 :: header_text hs). 
  assert (split_on 10 ([] ++ 10 :: header_text hs) = [] :: lines_of hs ++ [[]]) as ->.
  { cbn [app split_on]. change (10 =? 10) with true. cbv iota. f_equal. apply split_on_lines. apply Forall_fmap. eapply Forall_impl; [exact Hok|].
    intros p [_ _ _ _ [H1 H2] _ _]. cbn. rewrite elem_of_app, !elem_of_cons. naive_solver. }
  cbn [app foldl]. rewrite foldl_app. change (parse_header_line None []) with (@None Headers). rewrite parse_lines_fold by done.
  destruct hs as [|p hs]; [done|]. cbn [foldl]. change (parse_header_line ?h []) with h. f_equal.
  change (foldl _ _ hs) with (foldl (fun (m : Headers) p => <[p.1 := p.2]> m) ∅ (p :: hs)). rewrite foldl_insert_all.
  - rewrite (list_to_map_proper _ (map_to_list m)); [apply list_to_map_to_list| |done]. rewrite Hperm. apply NoDup_fst_map_to_list.
  - rewrite Hperm. apply NoDup_fst_map_to_list.
Qed.

(** The order in which a table is written. *)
Definition written (foreach : Headers -> list (list Z * list Z)) (m : Headers) : list (list Z * list Z) :=
  omap (fun n => (n,.) <$> m !! n) ORDERED_HEADERS ++ filter (fun p => p.1 ∉ ORDERED_HEADERS) (foreach m).

Lemma written_perm foreach m : foreach m ≡ₚ map_to_list m -> written foreach m ≡ₚ map_to_list m.
Proof.
  intros Hf. apply NoDup_Permutation.
  - apply NoDup_app. split_and!.
    + assert (lit "Proc-Type" <> lit "DEK-Info") as Hne by done. unfold ORDERED_HEADERS. cbn -[lit].
      destruct (m !! lit "Proc-Type"), (m !! lit "DEK-Info"); cbn -[lit]; rewrite ?NoDup_cons, ?elem_of_cons; repeat split;
        first [apply NoDup_nil_2|apply not_elem_of_nil|intros [E|E%elem_of_nil]; congruence].
    + intros [n v] Hin1 [Hn _]%list_elem_of_filter. apply list_elem_of_omap in Hin1 as (n' & Hin & E). destruct (m !! n'); [|done].
      injection E as -> ->. done.
    + apply NoDup_filter. rewrite Hf. apply NoDup_map_to_list.
  - apply NoDup_map_to_list.
  - intros [n v]. unfold written. rewrite elem_of_app, list_elem_of_omap, list_elem_of_filter, Hf, elem_of_map_to_list. cbn [fst]. split.
    + intros [(n' & Hin & E)|[_ H]]; [|done]. destruct (m !! n') eqn:En; [|done]. by injection E as -> ->.
    + intros Hl. destruct (decide (n ∈ ORDERED_HEADERS)) as [Hin|Hin]; [left|by right]. exists n. by rewrite Hl.
Qed.

Lemma write_headers_eq foreach m : foreach m ≡ₚ map_to_list m -> m <> ∅ -> write_headers foreach (Some m) = header_text (written foreach m) ++ [10].
Proof.
  intros Hf Hne. unfold write_headers. rewrite bool_decide_eq_false_2 by by rewrite map_size_empty_iff.
  assert (forall l s, foldl (fun s p => append_each_header s p.1 p.2) s l = s ++ header_text (filter (fun p => p.1 ∉ ORDERED_HEADERS) l)) as Hfold.
  { induction l as [|[n v] l IH]; intros s; cbn [foldl]; [by rewrite app_nil_r|]. rewrite IH. unfold append_each_header. cbn [fst snd].
    rewrite filter_cons. cbn [fst]. case_bool_decide as Hin; [by rewrite decide_False by (intros H; by apply H)|].
    rewrite decide_True by done. rewrite header_text_cons, header_line_eq. cbn [fst snd]. by rewrite <- !(assoc_L (++)). }
  rewrite (Hfold _ []). cbn [app]. rewrite (assoc_L (++)). f_equal. unfold written.
  assert (forall a b, header_text (a ++ b) = header_text a ++ header_text b) as Happ
    by (intros a b; unfold header_text, lines_of; by rewrite !fmap_app, concat_app).
  rewrite Happ. f_equal. unfold ordered_headers, header_text, lines_of, ORDERED_HEADERS. cbn -[lit header_line].
  destruct (m !! lit "Proc-Type"), (m !! lit "DEK-Info"); cbn -[lit header_line]; rewrite ?header_line_eq, ?app_nil_r; done.
Qed.

(** * Round trip *)

Record type_ok (type : list Z) : Prop := {
  t_nonempty : type <> [];
  t_dash : 45 ∉ type;
  t_line : 10 ∉ type;
  t_nul : 0 ∉ type
}.

Definition footer (type : list Z) : list Z := ARMOR_PREF_END ++ type ++ ARMOR_SUFF ++ [10].

(** Armor around contents. *)
Definition armored (type contents : list Z) : list Z := ARMOR_PREF_BEGIN ++ type ++ ARMOR_SUFF ++ contents ++ footer type.

Lemma find_begin_armored type contents : type_ok type ->
  armor_find_begin (armored type contents) = Ok (Some (type, 0%nat, (11 + length type + 5)%nat)).
Proof.
  intros [Hne Hd Hl H0]. unfold armor_find_begin, armored. rewrite strstr_here by by eexists. unfold ARMOR_PREF_BEGIN_L.
  rewrite Nat.add_0_l. change 11%nat with (length ARMOR_PREF_BEGIN) at 1. rewrite drop_app_length.
  assert (strstr ARMOR_SUFF (type ++ ARMOR_SUFF ++ contents ++ footer type) = Some (length type)) as ->.
  { unfold ARMOR_SUFF. cbn [lit]. rewrite strstr_skip by done. rewrite strstr_here by by eexists. cbn. by rewrite Nat.add_0_r. }
  rewrite drop_0. rewrite bool_decide_eq_false_2.
  - rewrite c_assert_true by (apply bool_decide_eq_true_2; destruct type; [done|cbn; lia]). run.
    change 11%nat with (length ARMOR_PREF_BEGIN). rewrite drop_app_length, take_app_length. done.
  - change 11%nat with (length ARMOR_PREF_BEGIN). rewrite take_app_add, take_app_length.
    rewrite elem_of_app. intros [Hin|Hin]; [|done]. revert Hin. apply (bool_decide_unpack (10 ∉ ARMOR_PREF_BEGIN)). vm_compute. exact I.
Qed.

Lemma find_begin_footer type : type_ok type -> armor_find_begin (drop 5 (footer type)) = Ok None.
Proof.
  intros [Hne Hd Hl H0]. unfold armor_find_begin. assert (strstr ARMOR_PREF_BEGIN (drop 5 (footer type)) = None) as ->; [|done].
  unfold footer. change (drop 5 (ARMOR_PREF_END ++ ?x)) with (lit "END " ++ x). unfold ARMOR_PREF_BEGIN. cbn [lit].
  rewrite (assoc_L (++)). rewrite strstr_skip; [done| |]; rewrite elem_of_app; intros [Hin|Hin]; try done; set_solver.
Qed.

(** The last line feed in front of the end is that in front of the last line. *)
Lemma last_line_ok d0 b rest : b <> [] -> 0 ∉ d0 -> 0 ∉ b -> (forall i, (10 :: b) !! i = Some 10 -> b !! i <> Some 61) ->
  exists i c, last_line (d0 ++ 10 :: b ++ 45 :: rest) (length (d0 ++ 10 :: b)) = Ok (Some i) /\
    (d0 ++ 10 :: b ++ 45 :: rest) !! S i = Some c /\ (c =? 61) = false.
Proof.
  intros Hb Hd0 Hb0 Hstart. unfold last_line. rewrite length_app. cbn [length]. rewrite bool_decide_eq_false_2 by lia.
  set (mem := d0 ++ 10 :: b ++ 45 :: rest). replace (length d0 + S (length b) - 1)%nat with (length d0 + length b)%nat by lia.
  assert (take (length d0 + length b) mem = d0 ++ take (length b) (10 :: b)) as Htake.
  { unfold mem. rewrite take_app_add. f_equal. destruct b as [|x b]; [done|]. cbn [length]. rewrite !firstn_cons. f_equal. change (x :: b ++ ?r) with ((x :: b) ++ r).
    by rewrite take_app_le by (cbn; lia). }
  rewrite Htake, c_str_id.
  2: { rewrite elem_of_app. intros [Hin|Hin]; [done|]. apply elem_of_take in Hin as (i & Hi & _). destruct i as [|i]; [done|].
       rewrite lookup_next in Hi. by apply list_elem_of_lookup_2 in Hi. }
  set (l := d0 ++ take (length b) (10 :: b)). assert (l !! length d0 = Some 10) as Hlast.
  { unfold l. rewrite lookup_app_r, Nat.sub_diag by lia. destruct b; done. }
  destruct (last_index 10 l) as [i|] eqn:Ei; [|apply last_index_None in Ei; by apply list_elem_of_lookup_2 in Hlast].
  apply last_index_Some in Ei as [Hi Hno]. assert (length d0 <= i)%nat as Hge.
  { destruct (decide (length d0 <= i)%nat) as [|Hlt]; [done|]. exfalso. apply Hno. apply list_elem_of_lookup. exists (length d0 - S i)%nat.
    rewrite lookup_drop. by replace (S i + (length d0 - S i))%nat with (length d0) by lia. }
  assert (i < length l)%nat as Hil by by apply lookup_lt_Some in Hi. unfold l in Hil. rewrite length_app, length_take in Hil. cbn [length] in Hil.
  unfold l in Hi. rewrite lookup_app_r in Hi by done. rewrite lookup_take_lt in Hi by lia.
  destruct (lookup_lt_is_Some_2 b (i - length d0)%nat ltac:(lia)) as [c Hc]. exists i, c. split; [done|]. split.
  - unfold mem. rewrite lookup_app_r by lia. replace (S i - length d0)%nat with (S (i - length d0)) by lia. rewrite lookup_next.
    by rewrite lookup_app_l by lia.
  - apply Z.eqb_neq. intros ->. by apply (Hstart _ Hi).
Qed.

Lemma find_end_armored type d0 b after : type_ok type -> b <> [] -> 0 ∉ d0 -> 0 ∉ b ->
  (forall i, (10 :: b) !! i = Some 10 -> b !! i <> Some 61) ->
  strstr ARMOR_PREF_END ((d0 ++ 10 :: b) ++ footer type) = Some (length (d0 ++ 10 :: b)) ->
  let n := length (d0 ++ 10 :: b) in
  armor_find_end type ((d0 ++ 10 :: b) ++ footer type) after = Ok (Some (n, S (n + 9 + length type + 5))).
Proof.
  intros Hty Hb Hd0 Hb0 Hstart Hfind n. unfold armor_find_end. rewrite Hfind. fold n. unfold ARMOR_PREF_END_L, ARMOR_SUFF_L.
  assert (drop (n + 9) ((d0 ++ 10 :: b) ++ footer type) = type ++ ARMOR_SUFF ++ [10]) as Hdrop.
  { unfold n. rewrite drop_app_add. unfold footer. change 9%nat with (length ARMOR_PREF_END). by rewrite drop_app_length. }
  rewrite Hdrop. rewrite bool_decide_eq_true_2 by by eexists. cbn [negb]. rewrite drop_app_length. rewrite bool_decide_eq_true_2 by by eexists. cbn [negb].
  destruct (last_line_ok d0 b (drop 1 (footer type) ++ after) Hb Hd0 Hb0 Hstart) as (i & c & Hline & Hc & Hne).
  assert (((d0 ++ 10 :: b) ++ footer type) ++ after = d0 ++ 10 :: b ++ 45 :: drop 1 (footer type) ++ after) as Hmem
    by (by rewrite <- !(assoc_L (++))). fold n in Hline. rewrite Hmem, Hline. run. rewrite Hc. run. rewrite Hne. rewrite <- Hmem.
  assert ((((d0 ++ 10 :: b) ++ footer type) ++ after) !! (n + 9 + length type + 5)%nat = Some 10) as ->; [|done].
  rewrite <- (assoc_L (++)), lookup_app_r by (unfold n; lia). fold n. unfold footer. rewrite <- !(assoc_L (++)).
  rewrite lookup_app_r by (cbn; lia). rewrite lookup_app_r by (cbn; lia). rewrite lookup_app_r by (cbn; lia).
  replace (n + 9 + length type + 5 - n - length ARMOR_PREF_END - length type - length ARMOR_SUFF)%nat with 0%nat by (cbn; lia). done.
Qed.

Lemma no_dash_search x y : 45 ∉ x -> 0 ∉ x -> strstr ARMOR_PREF_END (x ++ y) = (fun i => length x + i)%nat <$> strstr ARMOR_PREF_END y.
Proof. apply strstr_skip. Qed.

Lemma header_text_search hs y : Forall header_ok hs ->
  strstr ARMOR_PREF_END (header_text hs ++ y) = (fun i => length (header_text hs) + i)%nat <$> strstr ARMOR_PREF_END y.
Proof.
  assert ((58 ∉ ARMOR_PREF_END) /\ 10 ∉ ARMOR_PREF_END) as [H58 H10] by (split; decide_now).
  induction 1 as [|[n v] hs [_ _ _ _ _ [Hn0 Hv0] [Hn Hv]] _ IH]; [by change (header_text []) with (@nil Z); cbn [app length]; destruct (strstr _ y)|]. cbn [fst snd] in *. rewrite header_text_cons. cbn [fst snd].
  rewrite <- !(assoc_L (++)). cbn [app].
  rewrite (strstr_sep ARMOR_PREF_END n _ 58) by done.
  change (32 :: v ++ 10 :: header_text hs ++ y) with ((32 :: v) ++ 10 :: header_text hs ++ y).
  rewrite (strstr_sep ARMOR_PREF_END (32 :: v) _ 10); [|done|done|by apply not_elem_of_cons|done|].
  - rewrite IH. destruct (strstr ARMOR_PREF_END y); [|done]. cbn. f_equal. rewrite !length_app. cbn. rewrite ?length_app. cbn. lia.
  - change (32 :: v) with ([32] ++ v). rewrite no_dash_search by (by apply not_elem_of_cons; split; [|apply not_elem_of_nil]). by rewrite Hv.
Qed.

Lemma pass_headers n hs : Forall header_ok hs -> forall pos y, (pos + length (header_text hs) < n)%nat ->
  blank_line false pos n (header_text hs ++ y) = blank_line false (pos + length (header_text hs)) n y.
Proof.
  induction 1 as [|[name v] hs [Hn _ _ _ [Hl1 Hl2] _ _] _ IH]; intros pos y Hlt; [by rewrite Nat.add_0_r|]. cbn [fst snd] in *.
  rewrite header_text_cons in Hlt |- *. cbn [fst snd] in *. destruct name as [|c name]; [done|].
  rewrite length_app in Hlt |- *. cbn [length app] in Hlt |- *. rewrite length_app in Hlt |- *. cbn [length] in Hlt |- *.
  rewrite <- (assoc_L (++)). cbn [app]. rewrite pass_line; [|done| |rewrite length_app; cbn [length]; lia].
  - rewrite length_app. cbn [length]. rewrite IH by lia. f_equal. lia.
  - rewrite elem_of_app, !elem_of_cons. set_solver.
Qed.

Section RoundTrip.
Context `{Laws : Base64Laws}.

Lemma parse_armored secure room type d0 b block after : let contents := d0 ++ 10 :: b in
  type_ok type -> b <> [] -> 0 ∉ d0 -> 0 ∉ b -> (forall i, (10 :: b) !! i = Some 10 -> b !! i <> Some 61) ->
  strstr ARMOR_PREF_END (contents ++ footer type) = Some (length contents) ->
  armor_parse_block secure room ((contents ++ footer type) ++ after) (length contents) None = Ok block ->
  egg_armor_parse secure room (armored type contents) after true =
    Ok (match block with Some (data, h) => (1, [mk_found type data (armored type contents) h]) | None => (0, []) end).
Proof.
  intros contents Hty Hb Hd0 Hb0 Hstart Hfind Hblock. unfold egg_armor_parse.
  set (text := armored type contents). assert (text = (ARMOR_PREF_BEGIN ++ type ++ ARMOR_SUFF) ++ contents ++ footer type) as Etext
    by (unfold text, armored; by rewrite <- !(assoc_L (++))).
  assert (length (ARMOR_PREF_BEGIN ++ type ++ ARMOR_SUFF) = 11 + length type + 5)%nat as Lhead by (rewrite !length_app; cbn; lia).
  assert (length (footer type) = 9 + length type + 6)%nat as Lfoot by (unfold footer; rewrite !length_app; cbn; lia).
  assert (length text = 11 + length type + 5 + length contents + (9 + length type + 6))%nat as Ltext
    by (rewrite Etext, !length_app; rewrite <- Lfoot; rewrite !length_app in Lhead; lia).
  destruct (length text) as [|[|fuel]] eqn:Efuel; [lia|lia|]. cbn [parse_loop]. rewrite bool_decide_eq_false_2 by (intros E; rewrite E in Efuel; done).
  assert (armor_find_begin text = Ok (Some (type, 0%nat, (11 + length type + 5)%nat))) as -> by by apply find_begin_armored. run.
  assert (drop (11 + length type + 5) text = contents ++ footer type) as Hdrop by (rewrite Etext, <- Lhead; apply drop_app_length).
  rewrite Hdrop. pose proof (find_end_armored type d0 b after Hty Hb Hd0 Hb0 Hstart Hfind) as Hend. fold contents in Hend. cbv zeta in Hend. rewrite Hend. run.
  rewrite (bool_decide_eq_false_2 (length contents = 0%nat)) by (unfold contents; rewrite length_app; cbn; lia). rewrite Hblock. run.
  assert (drop (11 + length type + 5 + length contents + ARMOR_SUFF_L) text = drop 5 (footer type)) as ->.
  { rewrite <- Nat.add_assoc, <- drop_drop, Hdrop. apply drop_app_add. }
  assert (bool_decide (drop 5 (footer type) = []) = false) as Hmore
    by (apply bool_decide_eq_false_2; intros E; apply (f_equal length) in E; rewrite length_drop, Lfoot in E; cbn in E; lia).
  assert (bool_decide (length text < 11 + length type + 5 + length contents + ARMOR_SUFF_L)%nat = false) as Hfit
    by (apply bool_decide_eq_false_2; unfold ARMOR_SUFF_L; lia). rewrite Hfit, Hmore.
  destruct block as [[data h]|]; [|run; rewrite find_begin_footer by done; done].
  rewrite c_assert_true by (apply bool_decide_eq_true_2; lia). run.
  rewrite find_begin_footer by done. run. rewrite drop_0, take_app_le, (take_ge text) by lia. done.
Qed.

(** What becomes of the contents when they are read. *)
Lemma read_block secure room data hend h mem n text : (secure = true -> forall k, room k = true) -> base64_decode text = data ->
  blank_line true 0 n mem = Ok hend -> (0 < n)%nat -> drop (default 0%nat hend) (take n mem) = text ->
  match hend with None => None | Some i => parse_header_lines (take i mem) None end = h ->
  armor_parse_block secure room mem n None = Ok (match data with [] => None | _ => Some (data, h) end).
Proof.
  intros Hroom Hdec Hblank Hn Htext Hh. unfold armor_parse_block. rewrite c_assert_true by by apply bool_decide_eq_true_2. run.
  rewrite Hblank. run. rewrite Htext. assert (secure && negb (room ((Zlen text * 3) `div` 4 + 1)) = false) as ->.
  { destruct secure; [|done]. by rewrite Hroom. }
  rewrite c_assert_true by (apply Z.leb_le; pose proof (decode_fits text); lia_div). run. rewrite Hdec. destruct data; [done|].
  do 3 f_equal. by destruct hend.
Qed.

(** Line feeds do not count. *)
Lemma decode_spread text data : bytes data -> filter (fun c => c <> 10) text = filter (fun c => c <> 10) (base64_encode data) -> base64_decode text = data.
Proof. intros Hdata Hfilter. by rewrite decode_lines, Hfilter, <- decode_lines, decode_encode. Qed.

Lemma encode_nil : base64_encode [] = [].
Proof. pose proof (encode_length []) as L. cbn [length] in L. change (4 * ((Z.of_nat 0 + 2) / 3)) with 0 in L. destruct (base64_encode []); [done|cbn in L; lia]. Qed.

Definition without_headers (headers : option Headers) : Prop := headers = None \/ headers = Some ∅.

(** The text that is written. *)
Definition base64_lines (data : list Z) : list Z := lines64 (length (base64_encode data ++ [10])) (base64_encode data ++ [10]).

Lemma write_armored foreach data type headers :
  egg_armor_write foreach data type headers = Ok (armored type ([10] ++ write_headers foreach headers ++ base64_lines data)).
Proof.
  unfold egg_armor_write. rewrite c_assert_true.
  - run. pose proof (break_lines_spec (length (base64_encode data ++ [10])) [] (base64_encode data ++ [10]) (le_n _)) as E.
    cbn [length app] in E. rewrite Nat.add_0_l in E. rewrite E. run. unfold armored, footer, base64_lines. by rewrite <- !(assoc_L (++)).
  - apply Z.leb_le. rewrite length_app. pose proof (encode_length data). cbn [length]. lia_div.
Qed.

Lemma lines64_nonempty fuel l : l <> [] -> lines64 fuel l <> [].
Proof. intros Hl. destruct fuel; cbn [lines64]; [done|]. case_bool_decide; [done|]. by destruct (take 64 l). Qed.

Lemma base64_lines_facts data : bytes data ->
  base64_lines data <> [] /\ Forall (fun c => c = 10 \/ visible c) (base64_lines data) /\
  filter (fun c => c <> 10) (base64_lines data) = filter (fun c => c <> 10) (base64_encode data) /\
  (forall i, (10 :: base64_lines data) !! i = Some 10 -> base64_lines data !! i <> Some 61).
Proof.
  intros Hdata. pose proof (encode_chars _ Hdata) as Hchars. assert (Forall visible (base64_encode data)) as Hvis
    by (eapply Forall_impl; [exact Hchars|apply base64_visible]).
  unfold base64_lines. split_and!.
  - apply lines64_nonempty. by destruct (base64_encode data).
  - apply lines64_Forall; [by left|]. apply Forall_app. split; [|by repeat constructor]. eapply Forall_impl; [exact Hvis|]. by right.
  - rewrite lines64_filter, filter_app. cbn. by rewrite app_nil_r.
  - intros i. apply lines64_start; [done| |].
    + intros k. rewrite lookup_app. destruct (base64_encode data !! (4 * k)%nat) eqn:E; [rewrite <- E; by apply encode_groups|].
      intros E2. apply list_elem_of_lookup_2, list_elem_of_singleton in E2. done.
    + intros j Hj. rewrite length_app. cbn [length]. apply lookup_app_Some in Hj as [Hj|[Hge Hj]].
      * apply list_elem_of_lookup_2 in Hj. by apply visible_no_10 in Hvis.
      * apply lookup_lt_Some in Hj. cbn in Hj. lia.
Qed.
End RoundTrip.

Section Cases.
Context `{Laws : Base64Laws} (secure : bool) (room : Z -> bool) (data type after : list Z).
Context (Hroom : secure = true -> forall k, room k = true) (Hdata : bytes data) (Hty : type_ok type).

Lemma lines_no_dash : (0 ∉ base64_lines data) /\ 45 ∉ base64_lines data.
Proof.
  destruct (base64_lines_facts data Hdata) as (_ & Hchars & _). rewrite Forall_forall in Hchars.
  split; intros Hin; destruct (Hchars _ Hin) as [E|(_ & _ & ? & ?)]; done.
Qed.

(** The result of reading, by whether the contents are read. *)
Definition reads (text : list Z) (h : option Headers) (found : bool) : Prop :=
  egg_armor_parse secure room text after true = Ok (if found then (1, [mk_found type data text h]) else (0, [])).

Lemma read_without_headers : reads (armored type ([10] ++ base64_lines data)) None (negb (((Zlen data + 2) / 3) mod 16 =? 0)).
Proof.
  destruct (base64_lines_facts data Hdata) as (Hb & _ & Hfilter & Hstart). destruct lines_no_dash as [Hb0 Hb45]. set (b := base64_lines data) in *.
  assert (Forall visible (base64_encode data)) as Hvis by (eapply Forall_impl; [apply (encode_chars _ Hdata)|apply base64_visible]).
  pose proof (encode_length data) as L. assert (strstr ARMOR_PREF_END (([10] ++ b) ++ footer type) = Some (length ([10] ++ b))) as Hfind.
  { rewrite no_dash_search by (rewrite elem_of_app; intros [Hin%list_elem_of_singleton|Hin]; done).
    rewrite strstr_here by (unfold footer; by eexists). cbn. by rewrite Nat.add_0_r. }
  assert (forall hend, blank_line false 1 (S (length b)) (b ++ 45 :: drop 1 (footer type) ++ after) = Ok hend ->
    blank_line true 0 (length ([10] ++ b)) ((([10] ++ b) ++ footer type) ++ after) = Ok hend) as Hblank.
  { intros hend E. rewrite <- !(assoc_L (++)). cbn [app length blank_line]. rewrite bool_decide_eq_false_2 by done. change (10 =? 10) with true. exact E. }
  unfold reads. destruct (Z.eqb_spec (((Zlen data + 2) / 3) mod 16) 0) as [Hfull|Hlen]; cbn [negb].
  - assert (length (base64_encode data) mod 64 = 0)%nat as Hmod by (apply Nat2Z.inj; rewrite Nat2Z.inj_mod, L; lia_div).
    destruct (pass_full_lines (length (base64_encode data ++ [10])) (base64_encode data) 1 (drop 1 (footer type) ++ after)) as (E & Hpos & Hlast);
      [rewrite length_app; cbn; lia|exact Hvis|exact Hmod|]. fold (base64_lines data) b in E, Hpos, Hlast. cbv zeta in E.
    rewrite (parse_armored secure room type [] b None); [done|done|done|apply not_elem_of_nil|done|done|exact Hfind|].
    assert (base64_decode [10] = []) as Hnil by (apply decode_spread; [constructor|by rewrite encode_nil]).
    apply (read_block secure room [] (Some (length b)) (parse_header_lines (take (length b) ((([10] ++ b) ++ footer type) ++ after)) None) _ _ [10]); [done|exact Hnil|..|done].
    + apply Hblank. cbn [Nat.add] in E. rewrite E. do 2 f_equal. lia.
    + cbn. lia.
    + cbn [default]. rewrite <- (assoc_L (++)), take_app_length. apply last_Some in Hlast as [l ->]. rewrite length_app. cbn [length app].
      replace (length l + 1)%nat with (S (length l)) by lia. cbn [drop]. apply drop_app_length.
  - rewrite (parse_armored secure room type [] b (match data with [] => None | _ => Some (data, None) end));
      [by destruct data|done|done|apply not_elem_of_nil|done|done|exact Hfind|].
    apply (read_block secure room data None None _ _ (10 :: b)); [done| | |cbn; lia| |done].
    + apply decode_spread; [done|]. by rewrite filter_cons_False by (intros E; by apply E).
    + apply Hblank. apply (pass_lines (length (base64_encode data ++ [10])) (base64_encode data) 1 (drop 1 (footer type) ++ after)); [rewrite length_app; cbn; lia|exact Hvis|].
      intros E. apply Hlen. apply Nat.Div0.div_exact in E. rewrite E in L. lia_div.
    + cbn [default app]. rewrite drop_0. rewrite <- (assoc_L (++)). apply (take_app_length (10 :: b)).
Qed.

Lemma read_with_headers hs m : Forall header_ok hs -> hs ≡ₚ map_to_list m -> hs <> [] ->
  reads (armored type ([10] ++ (header_text hs ++ [10]) ++ base64_lines data)) (Some m) (negb (bool_decide (data = []))).
Proof.
  intros Hok Hperm Hhne. destruct (base64_lines_facts data Hdata) as (Hb & _ & Hfilter & Hstart).
  destruct lines_no_dash as [Hb0 Hb45]. set (b := base64_lines data) in *.
  assert ([10] ++ (header_text hs ++ [10]) ++ b = (10 :: header_text hs) ++ 10 :: b) as -> by (by rewrite <- !(assoc_L (++))).
  unfold reads. rewrite (parse_armored secure room type (10 :: header_text hs) b (match data with [] => None | _ => Some (data, Some m) end));
    [by destruct data|done|done| |done|done| |].
  + apply not_elem_of_cons. split; [done|by apply header_text_no_nul].
  + rewrite <- (assoc_L (++)). change ((10 :: header_text hs) ++ ?y) with ([10] ++ header_text hs ++ y).
    rewrite no_dash_search by (intros Hin%list_elem_of_singleton; done). rewrite header_text_search by done.
    change ((10 :: b) ++ footer type) with ([10] ++ b ++ footer type). rewrite (assoc_L (++) [10] b).
    rewrite no_dash_search by (rewrite elem_of_app; intros [Hin%list_elem_of_singleton|Hin]; done).
    rewrite strstr_here by (unfold footer; by eexists). cbn. f_equal. rewrite !length_app. cbn. lia.
  + set (k := S (length (header_text hs))).
    assert (length ((10%Z :: header_text hs) ++ 10%Z :: b) = k + S (length b))%nat as Ln by (rewrite length_app; done).
    apply (read_block secure room data (Some k) (Some m) _ _ (10 :: b)); [done| | |lia| |].
    * apply decode_spread; [done|]. by rewrite filter_cons_False by (intros E; by apply E).
    * rewrite Ln, <- !(assoc_L (++)). cbn [app blank_line]. rewrite bool_decide_eq_false_2 by done. change (10 =? 10) with true. cbn [negb].
      rewrite pass_headers by (try done; lia). cbn [app blank_line]. done.
    * rewrite <- (assoc_L (++)), take_app_length. change (default 0%nat (Some k)) with (length (10%Z :: header_text hs)). by rewrite drop_app_length.
    * rewrite <- !(assoc_L (++)). change k with (length (10%Z :: header_text hs)). rewrite take_app_length. by apply parse_header_text.
Qed.
End Cases.

(** * The theorems *)

(** C26: reading armor is safe in texts in which no armor has an empty type, or contents that
    are empty without a line feed ([plain]): [egg_armor_parse] ends, writes nothing outside of
    what it allocated, fails no assertion and reads nothing outside of the text; but the byte
    behind a text that ends with dashes is read, and has to be there ([guarded], see
    [read_behind]).  The number it returns is that of its callback's calls, and each call is
    given contents, a type of one line and the piece of the text they were in, with that byte
    if it is a space. *)
Theorem armor_parse_safe `{Laws : Base64Laws} secure room data after : plain data -> guarded data after ->
  exists l, egg_armor_parse secure room data after true = Ok (u32 (Zlen l), l) /\ Forall (found_in (data ++ after)) l.
Proof.
  intros Hp Hguard. destruct (parse_loop_safe (length data) secure room after data None 0 Hp Hguard (le_n _) ltac:(lia)) as (k & l & E & -> & Hl).
  exists l. split; [|exact Hl]. unfold egg_armor_parse. change 0 with (u32 0) at 1. rewrite E. run. by rewrite Z.add_0_l.
Qed.

(** C25: what [egg_armor_write] writes, [egg_armor_parse] reads: one armor, the whole text,
    with the type, the contents and the headers that were written; but nothing at all is read
    if there are no contents, or if there are no headers and the last line of base64 is full,
    as it is for contents of 46, 47 or 48 bytes.  The type has no dash, no line feed and no NUL
    and is not empty, and each header is a line that reads as itself ([header_ok]). *)
Theorem armor_roundtrip `{Laws : Base64Laws} foreach secure room data type headers after :
  bytes data -> type_ok type -> (secure = true -> forall k, room k = true) ->
  (forall m, foreach m ≡ₚ map_to_list m) -> Forall header_ok (map_to_list (default ∅ headers)) ->
  let plain := bool_decide (default ∅ headers = ∅) in
  let lost := if plain then ((Zlen data + 2) / 3) mod 16 =? 0 else bool_decide (data = []) in
  exists text, egg_armor_write foreach data type headers = Ok text /\
    egg_armor_parse secure room text after true =
      Ok (if lost then (0, []) else (1, [mk_found type data text (if plain then None else headers)])).
Proof.
  intros Hdata Hty Hroom Hforeach Hhs plain lost. eexists. split; [apply write_armored|]. unfold lost, plain. case_bool_decide as Hh.
  - assert (write_headers foreach headers = []) as ->.
    { unfold write_headers, ordered_headers. rewrite Hh. destruct headers as [m|]; cbn [default] in Hh; [|done].
      cbn in Hh. subst m. rewrite bool_decide_eq_true_2 by by rewrite map_size_empty. done. }
    pose proof (read_without_headers secure room data type after Hroom Hdata Hty) as Hr. unfold reads in Hr. cbn [app] in *. rewrite Hr. by destruct (_ =? 0).
  - destruct headers as [m|]; [|done]. change (default ∅ (Some m)) with m in *. pose proof (written_perm foreach m (Hforeach m)) as Hperm.
    rewrite write_headers_eq by done. pose proof (read_with_headers secure room data type after Hroom Hdata Hty (written foreach m) m) as Hr.
    unfold reads in Hr. rewrite Hr; [by case_bool_decide|by rewrite Hperm|done|].
    intros E. rewrite E in Hperm. symmetry in Hperm. apply Permutation_nil_r in Hperm. by apply map_to_list_empty_iff in Hperm.
Qed.
