(* ===== verification/Chain.v ===== *)
(** Certificate chains: the model of [src/gcr/gcr-certificate-chain.c].

    The chain object and its builder, synchronous and on a thread.  What the builder
    asks of other components is stated as interfaces: [Certificates] (the names in a
    certificate, from its DER bytes) and [TrustStore] (pinned certificates, anchors and
    issuer lookups in PKCS#11 modules).  The object and the tasks that build in the
    background form a transition system. *)

From S2P Require Import Prelude.
Local Open Scope Z_scope.

(** * Certificates and the trust store *)

Inductive CertKind := SimpleCertificate | Pkcs11Certificate | OtherCertificate.

(** A certificate object.  [SafeCopy c] is the simple certificate made of the DER
    bytes of [c], with [c] attached under [Q_ORIGINAL_CERT]. *)
Inductive Cert :=
  | Object (id : nat) (kind : CertKind) (der : list Z)
  | SafeCopy (original : Cert).

#[export] Instance CertKind_eq_dec : EqDecision CertKind.
Proof. solve_decision. Defined.
#[export] Instance Cert_eq_dec : EqDecision Cert.
Proof. solve_decision. Defined.

Fixpoint gcr_certificate_get_der_data (c : Cert) : list Z :=
  match c with Object _ _ der => der | SafeCopy o => gcr_certificate_get_der_data o end.

(** What the certificate component promises: names are a function of the DER bytes. *)
Class Certificates := {
  subject_of : list Z -> option (list Z);
  issuer_of : list Z -> option (list Z) }.

(** The trust store of PKCS#11: assertions and certificates are found by DER bytes
    and names; every call may fail with an error instead. *)
Class TrustStore (GErr : Type) := {
  is_pinned : list Z -> list Z -> list Z -> res GErr bool;
  is_anchored : list Z -> list Z -> res GErr bool;
  lookup_issuer : list Z -> res GErr (option Cert) }.

Definition _gcr_certificate_get_subject_const `{Certificates} (c : Cert) : option (list Z) :=
  subject_of (gcr_certificate_get_der_data c).
Definition _gcr_certificate_get_issuer_const `{Certificates} (c : Cert) : option (list Z) :=
  issuer_of (gcr_certificate_get_der_data c).

Definition gcr_certificate_is_issuer `{Certificates} (self issuer : Cert) : bool :=
  match _gcr_certificate_get_subject_const issuer, _gcr_certificate_get_issuer_const self with
  | Some subject_dn, Some issuer_dn => bool_decide (subject_dn = issuer_dn)
  | _, _ => false
  end.

(** * The chain *)

Inductive GcrCertificateChainStatus :=
  | UNKNOWN | INCOMPLETE | DISTRUSTED | SELFSIGNED | PINNED | ANCHORED.

#[export] Instance Status_eq_dec : EqDecision GcrCertificateChainStatus.
Proof. solve_decision. Defined.

Definition NO_LOOKUPS : Z := 1.

Record GcrCertificateChainPrivate := mk_private {
  certificates : list Cert;
  status : GcrCertificateChainStatus;
  purpose : option (list Z);
  peer : option (list Z);
  flags : Z }.

Definition new_chain_private : GcrCertificateChainPrivate := mk_private [] UNKNOWN None None 0.

Definition prep_chain_private (orig : GcrCertificateChainPrivate) (purpose : list Z)
    (peer : option (list Z)) (flags : Z) : GcrCertificateChainPrivate :=
  mk_private (certificates orig) (status orig) (Some purpose) peer flags.

(** Simple and PKCS#11 certificates are shared, others are copied. *)
Definition thread_safe (c : Cert) : Cert :=
  match c with
  | Object _ OtherCertificate _ => SafeCopy c
  | _ => c
  end.

Definition prep_chain_private_thread_safe (orig : GcrCertificateChainPrivate) (purpose : list Z)
    (peer : option (list Z)) (flags : Z) : GcrCertificateChainPrivate :=
  let pv := prep_chain_private orig purpose peer flags in
  mk_private (thread_safe <$> certificates pv) (status pv) (Chain.purpose pv) (Chain.peer pv) (Chain.flags pv).

Definition restore (c : Cert) : Cert := match c with SafeCopy orig => orig | _ => c end.

Definition cleanup_chain_private (pv : GcrCertificateChainPrivate) : GcrCertificateChainPrivate :=
  mk_private (restore <$> certificates pv) (status pv) (purpose pv) (peer pv) (flags pv).

(** [g_ptr_array_remove_index_fast]: the last element takes the place. *)
Definition remove_index_fast (l : list Cert) (i : nat) : list Cert :=
  match last l with
  | Some x => take (length l - 1) (<[i := x]> l)
  | None => l
  end.

(** The index of the first element with the property. *)
Fixpoint find_index (f : Cert -> bool) (l : list Cert) : option (nat * Cert) :=
  match l with
  | [] => None
  | c :: l => if f c then Some (0%nat, c)
              else match find_index f l with Some (i, x) => Some (S i, x) | None => None end
  end.

Definition pop_certificate `{Certificates} (certs : list Cert) (issued : option Cert)
    : option (Cert * list Cert) :=
  let wanted c := match issued with None => true | Some i => gcr_certificate_is_issuer i c end in
  match find_index wanted certs with
  | Some (i, c) => Some (c, remove_index_fast certs i)
  | None => None
  end.

(** A build ends in an error of the trust store, or runs out of the model's fuel. *)
Inductive BuildError (GErr : Type) := GError (e : GErr) | OutOfFuel.
Arguments GError {GErr} e.
Arguments OutOfFuel {GErr}.

Definition lift {GErr A} (r : res GErr A) : res (BuildError GErr) A :=
  match r with Ok a => Ok a | Err e => Err (GError e) | Ub => Ub end.

Section Build.
Context `{Certificates} {GErr : Type} `{TrustStore GErr}.

(** The loop; [certificate] is the last one of [chain], [input] what is left.
    Results are the chain and its status. *)
Fixpoint build_loop (fuel : nat) (lookups : bool) (purpose : list Z) (certificate : Cert)
    (input chain : list Cert) : res (BuildError GErr) (list Cert * GcrCertificateChainStatus) :=
  match fuel with
  | O => Err OutOfFuel
  | S fuel =>
    let issued := certificate in
    if gcr_certificate_is_issuer certificate certificate then Ok (chain, SELFSIGNED)
    else
      '(certificate, input) ←
        match pop_certificate input (Some issued) with
        | Some (c, input) => Ok (Some c, input)
        | None =>
          if lookups : bool
          then c ← lift (lookup_issuer (gcr_certificate_get_der_data issued)); Ok (c, input)
          else Ok (None, input)
        end;
      match certificate with
      | None => Ok (chain, INCOMPLETE)
      | Some certificate =>
        let chain := chain ++ [certificate] in
        anchored ← (if lookups : bool
                    then lift (is_anchored (gcr_certificate_get_der_data certificate) purpose)
                    else Ok false);
        if anchored : bool then Ok (chain, ANCHORED)
        else build_loop fuel lookups purpose certificate input chain
      end
  end.

Definition perform_build_chain (fuel : nat) (pv : GcrCertificateChainPrivate)
    : res (BuildError GErr) GcrCertificateChainPrivate :=
  let set certs st := mk_private certs st (purpose pv) (peer pv) (flags pv) in
  let lookups := negb (Z.land (flags pv) NO_LOOKUPS =? NO_LOOKUPS) in
  let the_purpose := default [] (purpose pv) in
  match pop_certificate (certificates pv) None with
  | None => Ok (set [] UNKNOWN)
  | Some (certificate, input) =>
    pinned ← (match lookups, peer pv with
              | true, Some peer => lift (is_pinned (gcr_certificate_get_der_data certificate) the_purpose peer)
              | _, _ => Ok false
              end);
    if pinned : bool then Ok (set [certificate] PINNED)
    else
      '(chain, st) ← build_loop fuel lookups the_purpose certificate input [certificate];
      Ok (set chain st)
  end.

(** * The object *)

(** The object's state and the data of the tasks: [None] in place of a result
    while the thread has not run. *)
Record ChainObject := mk_object {
  pv : GcrCertificateChainPrivate;
  tasks : gmap nat (GcrCertificateChainPrivate * option (res (BuildError GErr) GcrCertificateChainPrivate)) }.

Definition gcr_certificate_chain_init : ChainObject := mk_object new_chain_private ∅.

Definition gcr_certificate_chain_dispose (self : ChainObject) : ChainObject :=
  mk_object (mk_private [] UNKNOWN (purpose (pv self)) (peer (pv self)) (flags (pv self))) (tasks self).

Definition gcr_certificate_chain_add (self : ChainObject) (certificate : Cert) : ChainObject :=
  mk_object (mk_private (certificates (pv self) ++ [certificate]) UNKNOWN
    (purpose (pv self)) (peer (pv self)) (flags (pv self))) (tasks self).

Definition gcr_certificate_chain_get_status (self : ChainObject) : GcrCertificateChainStatus := status (pv self).
Definition gcr_certificate_chain_get_length (self : ChainObject) : Z := Zlen (certificates (pv self)).
Definition gcr_certificate_chain_get_endpoint (self : ChainObject) : option Cert := certificates (pv self) !! 0%nat.
Definition gcr_certificate_chain_get_certificate (self : ChainObject) (index : Z) : option Cert :=
  if negb (index <? Zlen (certificates (pv self))) then None else certificates (pv self) !! Z.to_nat index.

Definition gcr_certificate_chain_get_anchor (self : ChainObject) : res GErr (option Cert) :=
  if bool_decide (status (pv self) <> ANCHORED) then Ok None
  else
    c_assert (0 <? Zlen (certificates (pv self)));;
    Ok (last (certificates (pv self))).

(** Returns the object and the error, if any. *)
Definition gcr_certificate_chain_build (fuel : nat) (self : ChainObject) (purpose : list Z)
    (peer : option (list Z)) (flags : Z) : res (BuildError GErr) ChainObject :=
  new ← perform_build_chain fuel (prep_chain_private (pv self) purpose peer flags);
  Ok (mk_object (cleanup_chain_private new) (tasks self)).

(** [task] is a fresh name for the task. *)
Definition gcr_certificate_chain_build_async (self : ChainObject) (task : nat) (purpose : list Z)
    (peer : option (list Z)) (flags : Z) : ChainObject :=
  mk_object (pv self)
    (<[task := (prep_chain_private_thread_safe (pv self) purpose peer flags, None)]> (tasks self)).

(** The thread: the data of the task is replaced by the built chain. *)
Definition thread_build_chain (fuel : nat) (self : ChainObject) (task : nat) : ChainObject :=
  match tasks self !! task with
  | Some (data, None) =>
    mk_object (pv self) (<[task := (data, Some (perform_build_chain fuel data))]> (tasks self))
  | _ => self
  end.

Definition gcr_certificate_chain_build_finish (self : ChainObject) (task : nat)
    : res (BuildError GErr) ChainObject :=
  match tasks self !! task with
  | Some (_, Some r) =>
    built ← r;
    Ok (mk_object (cleanup_chain_private built) (delete task (tasks self)))
  | _ => Ok self
  end.

(** What may happen to a chain: calls, and threads running in between. *)
Inductive step (fuel : nat) : ChainObject -> ChainObject -> Prop :=
  | step_add self c : step fuel self (gcr_certificate_chain_add self c)
  | step_dispose self : step fuel self (gcr_certificate_chain_dispose self)
  | step_build self self' purpose peer flags :
      gcr_certificate_chain_build fuel self purpose peer flags = Ok self' -> step fuel self self'
  | step_async self task purpose peer flags : tasks self !! task = None ->
      step fuel self (gcr_certificate_chain_build_async self task purpose peer flags)
  | step_thread self task : step fuel self (thread_build_chain fuel self task)
  | step_finish self self' task :
      gcr_certificate_chain_build_finish self task = Ok self' -> step fuel self self'.
End Build.

(** * Removing an element *)

Lemma find_index_Some f l i c : find_index f l = Some (i, c) -> l !! i = Some c /\ f c = true.
Proof.
  revert i; induction l as [|x l IH]; intros i; [done|]. cbn [find_index]. destruct (f x) eqn:E.
  - by intros [= <- <-].
  - destruct (find_index f l) as [[j y]|]; [|done]. intros [= <- ->]. by apply IH.
Qed.

Lemma find_index_None f l : find_index f l = None -> forall c, c ∈ l -> f c = false.
Proof.
  induction l as [|x l IH]; cbn [find_index]; [set_solver|]. destruct (f x) eqn:E; [done|].
  destruct (find_index f l) as [[j y]|]; [done|]. intros _ c [->|Hc]%elem_of_cons; [done|by apply IH].
Qed.

Lemma remove_index_fast_perm l i c : l !! i = Some c -> l ≡ₚ c :: remove_index_fast l i.
Proof.
  intros Hi. destruct l as [|x l _] using rev_ind; [done|]. unfold remove_index_fast.
  rewrite last_snoc, length_app, Nat.add_sub. apply lookup_lt_Some in Hi as Hlt. rewrite length_app in Hlt.
  cbn [length] in Hlt. destruct (decide (i = length l)) as [->|].
  - rewrite list_lookup_middle in Hi by done. injection Hi as ->.
    rewrite take_insert_ge, take_app_length by lia. apply Permutation_app_comm.
  - rewrite lookup_app_l in Hi by lia. rewrite insert_app_l by lia.
    rewrite take_app_length' by (by rewrite length_insert).
    rewrite <- (take_drop_middle l i c Hi) at 1. rewrite insert_take_drop by lia.
    rewrite <- app_assoc. cbn [app]. rewrite (Permutation_app_comm (drop (S i) l) [x]). cbn [app].
    by rewrite <- !Permutation_middle.
Qed.

Lemma pop_certificate_Some `{Certificates} l issued c l' : pop_certificate l issued = Some (c, l') ->
  l ≡ₚ c :: l' /\ match issued with Some i => gcr_certificate_is_issuer i c = true | None => l !! 0%nat = Some c end.
Proof.
  unfold pop_certificate. intros Hpop.
  destruct (find_index _ l) as [[i x]|] eqn:E; [|done]. injection Hpop as -> <-.
  pose proof (find_index_Some _ _ _ _ E) as [Hi Hw]. split; [by apply remove_index_fast_perm|].
  destruct issued; [done|]. destruct l; [done|]. cbn [find_index] in E. injection E as <- <-. done.
Qed.

Lemma pop_certificate_None `{Certificates} l issued : pop_certificate l (Some issued) = None ->
  forall c, c ∈ l -> gcr_certificate_is_issuer issued c = false.
Proof.
  unfold pop_certificate. intros Hpop. destruct (find_index _ l) as [[i x]|] eqn:E; [done|].
  exact (find_index_None _ _ E).
Qed.

Section Spec.
Context `{Certificates} {GErr : Type} `{TrustStore GErr}.

(** * What a built chain is, in terms of DER bytes *)

Definition der := gcr_certificate_get_der_data.

Definition is_issuer_der (self issuer : list Z) : bool :=
  match subject_of issuer, issuer_of self with
  | Some s, Some i => bool_decide (s = i)
  | _, _ => false
  end.

Lemma is_issuer_eq c i : gcr_certificate_is_issuer c i = is_issuer_der (der c) (der i).
Proof. done. Qed.

(** [next] comes after [prev]: found among the certificates given, or looked up. *)
Definition follows (lookups : bool) (pool : list (list Z)) (prev next : list Z) : Prop :=
  (is_issuer_der prev next = true /\ next ∈ pool) \/
  (lookups = true /\ exists c, lookup_issuer prev = Ok (Some c) /\ der c = next).

(** [grows c rest st]: from the last certificate [c] the chain goes on with [rest]
    and ends with status [st]. *)
Inductive grows (lookups : bool) (purpose : list Z) (pool : list (list Z))
    : list Z -> list (list Z) -> GcrCertificateChainStatus -> Prop :=
  | grows_selfsigned c : is_issuer_der c c = true -> grows lookups purpose pool c [] SELFSIGNED
  | grows_incomplete c : is_issuer_der c c = false -> (lookups = true -> lookup_issuer c = Ok None) ->
      grows lookups purpose pool c [] INCOMPLETE
  | grows_anchored c n : is_issuer_der c c = false -> follows lookups pool c n -> lookups = true ->
      is_anchored n purpose = Ok true -> grows lookups purpose pool c [n] ANCHORED
  | grows_next c n rest st : is_issuer_der c c = false -> follows lookups pool c n ->
      (lookups = true -> is_anchored n purpose = Ok false) ->
      grows lookups purpose pool n rest st -> grows lookups purpose pool c (n :: rest) st.

(** The chain of a finished build: the endpoint is the first certificate given;
    it is pinned and alone, or the chain grows from it. *)
Definition chain_built (lookups : bool) (purpose : list Z) (peer : option (list Z))
    (given chain : list (list Z)) (st : GcrCertificateChainStatus) : Prop :=
  match given with
  | [] => chain = [] /\ st = UNKNOWN
  | c :: _ => exists rest, chain = c :: rest /\
      ((rest = [] /\ st = PINNED /\ lookups = true /\ exists p, peer = Some p /\ is_pinned c purpose p = Ok true)
       \/ grows lookups purpose given c rest st)
  end.

Lemma lift_Ok {A} (r : res GErr A) a : lift r = Ok a -> r = Ok a.
Proof. by destruct r; intros [=]; subst. Qed.

Lemma build_loop_grows fuel : forall lookups purpose c input chain chain' st pool,
  (der <$> input) ⊆ pool ->
  build_loop fuel lookups purpose c input chain = Ok (chain', st) ->
  exists rest, chain' = chain ++ rest /\ grows lookups purpose pool (der c) (der <$> rest) st.
Proof.
  induction fuel as [|fuel IH]; intros lookups purpose c input chain chain' st pool Hpool Hb; [done|].
  cbn [build_loop] in Hb. rewrite is_issuer_eq in Hb. destruct (is_issuer_der (der c) (der c)) eqn:Hself.
  { injection Hb as <- <-. exists []. rewrite app_nil_r. split; [done|by apply grows_selfsigned]. }
  apply bind_Ok in Hb as ([next input'] & Hnext & Hb).
  assert (Hstep : match next with
    | Some n => follows lookups pool (der c) (der n) /\ (der <$> input') ⊆ pool
    | None => lookups = true -> lookup_issuer (der c) = Ok None end).
  { destruct (pop_certificate input (Some c)) as [[n l]|] eqn:Hpop.
    - injection Hnext as <- <-. apply pop_certificate_Some in Hpop as [Hp Hi].
      assert (forall x, x ∈ n :: l -> der x ∈ pool) as Hin.
      { intros x Hx. apply Hpool. apply list_elem_of_fmap_2. by rewrite Hp. }
      split; [left; split; [exact Hi|apply Hin; set_solver]|].
      intros d (x & -> & Hx)%list_elem_of_fmap. apply Hin. set_solver.
    - destruct lookups.
      + apply bind_Ok in Hnext as (n & Hn & [= <- <-]). apply lift_Ok in Hn.
        destruct n as [n|]; [|done]. split; [|done]. right. split; [done|]. by exists n.
      + by injection Hnext as <- <-. }
  destruct next as [n|].
  - destruct Hstep as [Hf Hpool']. apply bind_Ok in Hb as (anch & Ha & Hb). destruct anch.
    + injection Hb as <- <-. exists [n]. split; [done|]. destruct lookups; [|done]. apply lift_Ok in Ha.
      by apply grows_anchored.
    + destruct (IH _ _ _ _ _ _ _ pool Hpool' Hb) as (rest & -> & Hg). exists (n :: rest).
      rewrite <- app_assoc. split; [done|]. apply grows_next; [done|done| |done].
      intros ->. by apply lift_Ok in Ha.
  - injection Hb as <- <-. exists []. rewrite app_nil_r. split; [done|]. by apply grows_incomplete.
Qed.

Definition lookups_of (flags : Z) : bool := negb (Z.land flags NO_LOOKUPS =? NO_LOOKUPS).

(** C6: what a successful build leaves in the chain, for any trust store: the
    first certificate given stays first, or nothing when none was given; a pinned
    endpoint stands alone; otherwise each certificate issues the one before it (it was
    given with the matching name, or the trust store returned it as the issuer), the
    chain stops at the first self-signed certificate or the first anchor, and the
    status says which of these ended it.  Without lookups it is never anchored. *)
Theorem build_chain_sound (fuel : nat) (p p' : GcrCertificateChainPrivate) :
  perform_build_chain fuel p = Ok p' ->
  chain_built (lookups_of (flags p)) (default [] (purpose p)) (peer p)
    (der <$> certificates p) (der <$> certificates p') (status p').
Proof.
  unfold perform_build_chain. fold (lookups_of (flags p)). intros Hb.
  destruct (certificates p) as [|c0 cs] eqn:Hcs; [by injection Hb as <-|].
  unfold pop_certificate in Hb. cbn [find_index] in Hb.
  pose proof (remove_index_fast_perm (c0 :: cs) 0 c0 eq_refl) as Hperm.
  set (input := remove_index_fast (c0 :: cs) 0) in *.
  apply bind_Ok in Hb as (pinned & Hp & Hb). cbn [chain_built fmap list_fmap]. destruct pinned.
  - injection Hb as <-. exists []. split; [done|]. left. destruct (lookups_of (flags p)); [|done].
    destruct (peer p) as [pe|]; [|done]. apply lift_Ok in Hp. split_and!; [done|done|done|]. by exists pe.
  - apply bind_Ok in Hb as ([chain st] & Hl & [= <-]).
    assert ((der <$> input) ⊆ (der <$> c0 :: cs)) as Hpool.
    { intros d (x & -> & Hx)%list_elem_of_fmap. apply list_elem_of_fmap_2. rewrite Hperm. set_solver. }
    destruct (build_loop_grows _ _ _ _ _ _ _ _ _ Hpool Hl) as (rest & -> & Hg).
    exists (der <$> rest). split; [done|]. by right.
Qed.

(** * Termination *)

Lemma pop_shrinks l issued c l' : pop_certificate l issued = Some (c, l') -> length l = S (length l').
Proof. intros [Hp _]%pop_certificate_Some. by rewrite (Permutation_length Hp). Qed.

(** Without lookups one round per certificate is enough. *)
Lemma build_loop_no_lookups fuel : forall purpose c input chain, (length input < fuel)%nat ->
  exists r, build_loop fuel false purpose c input chain = Ok r.
Proof.
  induction fuel as [|fuel IH]; intros purpose c input chain Hf; [lia|]. cbn [build_loop].
  destruct (gcr_certificate_is_issuer c c); [by eexists|].
  destruct (pop_certificate input (Some c)) as [[n l]|] eqn:Hp; run; [|by eexists].
  apply pop_shrinks in Hp. apply IH. lia.
Qed.

(** With lookups: a rank, at most [bound], that falls from a certificate to the issuer
    found for it.  Self-signed certificates do not count: the search for one may well
    find it again, but the builder stops at it. *)
Definition ranked (rank : list Z -> nat) (bound : nat) : Prop :=
  (forall d, (rank d <= bound)%nat) /\
  (forall d c, lookup_issuer d = Ok (Some c) -> is_issuer_der d d = false -> is_issuer_der (der c) (der c) = false ->
    (rank (der c) < rank d)%nat).

(** How many lookups may follow a certificate. *)
Definition lookups_left (rank : list Z -> nat) (d : list Z) : nat := if is_issuer_der d d then 0 else S (rank d).

Definition store_defined : Prop :=
  (forall d, defined (lookup_issuer (GErr := GErr) d)) /\ (forall d p, defined (is_anchored (GErr := GErr) d p)) /\
  (forall d p q, defined (is_pinned (GErr := GErr) d p q)).

Lemma lift_defined {A} (r : res GErr A) : defined r -> (exists a, lift r = Ok a) \/ (exists e, lift r = Err (GError e)).
Proof. destruct r; intros Hr; [left; by eexists|right; by eexists|by destruct Hr]. Qed.

Lemma build_loop_terminates rank bound : ranked rank bound -> store_defined ->
  forall fuel lookups purpose c input chain,
  (length input * S (S bound) + lookups_left rank (der c) < fuel)%nat ->
  (exists r, build_loop fuel lookups purpose c input chain = Ok r) \/
  (exists e, build_loop fuel lookups purpose c input chain = Err (GError e)).
Proof.
  intros [Hbound Hdec] (Hdl & Hda & _). induction fuel as [|fuel IH]; intros lookups purpose c input chain Hf; [lia|].
  cbn [build_loop]. rewrite is_issuer_eq. destruct (is_issuer_der (der c) (der c)) eqn:Hself; [left; by eexists|].
  assert (Hbl : forall d, (lookups_left rank d <= S bound)%nat) by (intros d; unfold lookups_left; pose proof (Hbound d); case_match; lia).
  assert (Hnext : forall n input', (length input' * S (S bound) + lookups_left rank (der n) < fuel)%nat ->
    (exists r, (anchored ← (if lookups then lift (is_anchored (gcr_certificate_get_der_data n) purpose) else Ok false);
      if anchored : bool then Ok (chain ++ [n], ANCHORED)
      else build_loop fuel lookups purpose n input' (chain ++ [n])) = Ok r) \/
    (exists e, (anchored ← (if lookups then lift (is_anchored (gcr_certificate_get_der_data n) purpose) else Ok false);
      if anchored : bool then Ok (chain ++ [n], ANCHORED)
      else build_loop fuel lookups purpose n input' (chain ++ [n])) = Err (GError e))).
  { intros n input' Hn. destruct lookups.
    - destruct (lift_defined _ (Hda (gcr_certificate_get_der_data n) purpose)) as [[[] ->]|[e ->]];
        run; [left; by eexists|by apply IH|right; by eexists].
    - run. by apply IH. }
  destruct (pop_certificate input (Some c)) as [[n l]|] eqn:Hp; run.
  - apply pop_shrinks in Hp. apply Hnext. pose proof (Hbl (der n)). rewrite Hp in Hf. lia.
  - destruct lookups; run; [|left; by eexists].
    destruct (lift_defined _ (Hdl (gcr_certificate_get_der_data c))) as [[n Hn]|[e He]].
    + rewrite Hn. run. apply lift_Ok in Hn.
      destruct n as [n|]; [|left; by eexists]. apply Hnext. specialize (Hdec _ _ Hn Hself).
      unfold lookups_left in *. rewrite Hself in Hf. unfold der in *. destruct (is_issuer_der _ _) eqn:Hn2 in |- *; [lia|]. specialize (Hdec Hn2). lia.
    + rewrite He. right. by eexists.
Qed.

(** C39: building ends.  Without lookups it always succeeds, in at most one round
    per certificate given; with lookups it ends with a chain or with an error of the
    trust store whenever the issuers found there cannot go round in a circle: some rank,
    at most [bound], falls from each certificate to the one that is found as its issuer, but
    for self-signed certificates, at which the builder stops. *)
Theorem build_chain_terminates (rank : list Z -> nat) (bound : nat) (p : GcrCertificateChainPrivate) (fuel : nat) :
  (lookups_of (flags p) = false -> (length (certificates p) <= fuel)%nat ->
   exists p', perform_build_chain fuel p = Ok p') /\
  (ranked rank bound -> store_defined -> (length (certificates p) * S (S bound) <= fuel)%nat ->
   (exists p', perform_build_chain fuel p = Ok p') \/
   (exists e, perform_build_chain fuel p = Err (GError e))).
Proof.
  unfold perform_build_chain. fold (lookups_of (flags p)).
  destruct (pop_certificate (certificates p) None) as [[c input]|] eqn:Hp; [|split; [by eexists|left; by eexists]].
  apply pop_shrinks in Hp. split.
  - intros -> Hf. run.
    destruct (build_loop_no_lookups fuel (default [] (purpose p)) c input [c] ltac:(lia)) as [[chain st] ->].
    run. by eexists.
  - intros Hr Hd Hf. assert (lookups_left rank (der c) <= S bound)%nat by (unfold lookups_left; pose proof (proj1 Hr (der c)); case_match; lia).
    destruct (build_loop_terminates rank bound Hr Hd fuel (lookups_of (flags p)) (default [] (purpose p)) c input [c]
      ltac:(lia)) as [[[chain st] Hl]|[e Hl]];
      (destruct (lookups_of (flags p)), (peer p) as [pe|]; run; rewrite ?Hl;
       try (destruct (lift_defined _ (proj2 (proj2 Hd) (gcr_certificate_get_der_data c) (default [] (purpose p)) pe))
              as [[[] ->]|[e' ->]]; run; rewrite ?Hl)); run;
      (left; by eexists) || (right; by eexists).
Qed.

(** * Background builds *)

Lemma der_restore c : der (restore c) = der c.
Proof. by destruct c. Qed.

Lemma is_issuer_restore c i : gcr_certificate_is_issuer (restore c) (restore i) = gcr_certificate_is_issuer c i.
Proof. rewrite !is_issuer_eq. by rewrite !der_restore. Qed.

Lemma remove_index_fast_fmap l i : remove_index_fast (restore <$> l) i = restore <$> remove_index_fast l i.
Proof.
  unfold remove_index_fast. rewrite fmap_last. destruct (last l) as [x|]; cbn [fmap option_fmap option_map]; [|done].
  by rewrite length_fmap, <- list_fmap_insert, fmap_take.
Qed.

Lemma find_index_fmap f l :
  find_index f (restore <$> l) = (fun '(i, c) => (i, restore c)) <$> find_index (fun c => f (restore c)) l.
Proof.
  induction l as [|c l IH]; [done|]. cbn [fmap list_fmap find_index]. destruct (f (restore c)); [done|].
  rewrite IH. by destruct (find_index _ l) as [[]|].
Qed.

Lemma find_index_ext f g l : (forall c, f c = g c) -> find_index f l = find_index g l.
Proof. intros Hfg. induction l as [|c l IH]; [done|]. cbn [find_index]. by rewrite Hfg, IH. Qed.

Definition restore_pop (r : Cert * list Cert) : Cert * list Cert := (restore r.1, restore <$> r.2).

Lemma pop_certificate_restore l issued :
  pop_certificate (restore <$> l) (restore <$> issued) = restore_pop <$> pop_certificate l issued.
Proof.
  unfold pop_certificate. rewrite find_index_fmap.
  rewrite (find_index_ext _ (fun c => match issued with None => true | Some i => gcr_certificate_is_issuer i c end)).
  2:{ intros c. destruct issued as [i|]; [|done]. cbn [fmap option_fmap option_map]. apply is_issuer_restore. }
  destruct (find_index _ l) as [[i c]|]; cbn [fmap option_fmap option_map]; [|done].
  unfold restore_pop. by rewrite remove_index_fast_fmap.
Qed.

(** The trust store gives out certificates of its own, not copies. *)
Definition plain_store : Prop := forall d c, lookup_issuer (GErr := GErr) d = Ok (Some c) -> restore c = c.

(** A copy is a copy of an object, never of a copy. *)
Definition flat (c : Cert) : Prop := restore (restore c) = restore c.

Definition restore_result (r : list Cert * GcrCertificateChainStatus) : list Cert * GcrCertificateChainStatus :=
  (restore <$> r.1, r.2).

Lemma build_loop_restore fuel : plain_store -> forall lookups purpose c input chain,
  build_loop fuel lookups purpose (restore c) (restore <$> input) (restore <$> chain)
  = restore_result <$> build_loop fuel lookups purpose c input chain.
Proof.
  intros Hplain. induction fuel as [|fuel IH]; intros lookups purpose c input chain; [done|]. cbn [build_loop].
  rewrite is_issuer_restore. destruct (gcr_certificate_is_issuer c c); [done|].
  pose proof (pop_certificate_restore input (Some c)) as Hpop. cbn [fmap option_fmap option_map] in Hpop.
  rewrite Hpop. clear Hpop.
  assert (Hnext : forall n l, (anchored ← (if lookups then lift (is_anchored (gcr_certificate_get_der_data (restore n)) purpose) else Ok false);
      if anchored : bool then Ok ((restore <$> chain) ++ [restore n], ANCHORED)
      else build_loop fuel lookups purpose (restore n) (restore <$> l) ((restore <$> chain) ++ [restore n]))
    = restore_result <$> (anchored ← (if lookups then lift (is_anchored (gcr_certificate_get_der_data n) purpose) else Ok false);
      if anchored : bool then Ok (chain ++ [n], ANCHORED)
      else build_loop fuel lookups purpose n l (chain ++ [n]))).
  { intros n l. change gcr_certificate_get_der_data with der. rewrite der_restore.
    destruct (if lookups then _ else _) as [[]|e|]; cbn [mbind res_bind fmap res_fmap]; try done.
    - unfold restore_result. cbn [fst snd]. by rewrite fmap_app.
    - rewrite <- IH, fmap_app. done. }
  destruct (pop_certificate input (Some c)) as [[n l]|]; cbn [fmap option_fmap option_map restore_pop fst snd mbind res_bind].
  - apply Hnext.
  - change gcr_certificate_get_der_data with der in *. rewrite der_restore. destruct lookups; [|done].
    destruct (lookup_issuer (der c)) as [n|e|] eqn:Hl; cbn [lift mbind res_bind]; [|done|done].
    destruct n as [n|]; [|done]. apply Hplain in Hl.
    specialize (Hnext n input). rewrite Hl in Hnext. exact Hnext.
Qed.

Lemma build_loop_flat fuel : plain_store -> forall lookups purpose c input chain chain' st,
  Forall flat chain -> Forall flat input -> build_loop fuel lookups purpose c input chain = Ok (chain', st) ->
  Forall flat chain'.
Proof.
  intros Hplain. induction fuel as [|fuel IH]; intros lookups purpose c input chain chain' st Hc Hi Hb; [done|].
  cbn [build_loop] in Hb. destruct (gcr_certificate_is_issuer c c); [by injection Hb as <- <-|].
  apply bind_Ok in Hb as ([next input'] & Hnext & Hb).
  assert (Forall flat input' /\ match next with Some n => flat n | None => True end) as [Hi' Hn].
  { destruct (pop_certificate input (Some c)) as [[n l]|] eqn:Hpop.
    - injection Hnext as <- <-. apply pop_certificate_Some in Hpop as [Hp _]. rewrite Hp in Hi.
      by inversion_clear Hi.
    - destruct lookups; [|by injection Hnext as <- <-].
      apply bind_Ok in Hnext as (n & Hn & [= <- <-]). apply lift_Ok in Hn. split; [done|].
      destruct n as [n|]; [|done]. unfold flat. by rewrite !(Hplain _ _ Hn). }
  destruct next as [n|]; [|by injection Hb as <- <-].
  apply bind_Ok in Hb as ([] & _ & Hb); [injection Hb as <- <-; apply Forall_app; by repeat constructor|].
  eapply IH; [|exact Hi'|exact Hb]. apply Forall_app. by repeat constructor.
Qed.

Lemma perform_restore fuel p : plain_store -> Forall flat (certificates p) ->
  perform_build_chain fuel (cleanup_chain_private p) = cleanup_chain_private <$> perform_build_chain fuel p /\
  (forall p', perform_build_chain fuel p = Ok p' -> Forall flat (certificates p')).
Proof.
  intros Hplain Hflat. unfold perform_build_chain, cleanup_chain_private. cbn [certificates purpose peer flags].
  pose proof (pop_certificate_restore (certificates p) None) as Hpop. cbn [fmap option_fmap option_map] in Hpop.
  rewrite Hpop. clear Hpop.
  destruct (pop_certificate (certificates p) None) as [[c input]|] eqn:Hp; cbn [fmap option_fmap option_map restore_pop fst snd];
    [|split; [done|]; by intros p' [= <-]].
  apply pop_certificate_Some in Hp as [Hp _]. rewrite Hp in Hflat. inversion_clear Hflat as [|?? Hc Hi].
  change gcr_certificate_get_der_data with der. rewrite der_restore.
  destruct (match negb _, peer p with true, Some _ => _ | _, _ => _ end) as [[]|e|]; run;
    try (split; [done|]; by intros p' [= <-]; repeat constructor).
  pose proof (build_loop_restore fuel Hplain (lookups_of (flags p)) (default [] (purpose p)) c input [c]) as Hl.
  unfold lookups_of in Hl. cbn [fmap list_fmap] in Hl. rewrite Hl.
  destruct (build_loop fuel (negb (Z.land (flags p) NO_LOOKUPS =? NO_LOOKUPS)) (default [] (purpose p)) c input [c])
    as [[chain st]|e|] eqn:Hb; unfold restore_result; cbn [res_fmap mbind res_bind fst snd]; [|done|done].
  split; [done|]. intros p' [= <-]. cbn [certificates]. eapply build_loop_flat; [done| |exact Hi|exact Hb]. by repeat constructor.
Qed.

(** Building in the background gives the same chain as building at once:
    when the thread has run and the task is finished, the object is the one
    [gcr_certificate_chain_build] gives, the original certificates back in place
    of the copies made for the thread; the other tasks are untouched. *)
Theorem build_async_same (fuel : nat) (self self' : @ChainObject GErr) (task : nat) (purpose : list Z)
    (peer : option (list Z)) (flags : Z) :
  plain_store -> Forall (fun c => restore c = c) (certificates (pv self)) -> tasks self !! task = None ->
  gcr_certificate_chain_build fuel self purpose peer flags = Ok self' ->
  gcr_certificate_chain_build_finish
    (thread_build_chain fuel (gcr_certificate_chain_build_async self task purpose peer flags) task) task = Ok self'.
Proof.
  intros Hplain Hcerts Htask Hb. unfold gcr_certificate_chain_build in Hb. apply bind_Ok in Hb as (new & Hn & [= <-]).
  unfold gcr_certificate_chain_build_async, thread_build_chain. cbn [tasks pv]. rewrite lookup_insert_eq.
  unfold gcr_certificate_chain_build_finish. cbn [tasks pv]. rewrite lookup_insert_eq.
  set (data := prep_chain_private_thread_safe (pv self) purpose peer flags).
  assert (Hflat : Forall flat (certificates data)).
  { subst data. cbn. apply Forall_fmap. eapply Forall_impl; [exact Hcerts|]. intros c Hc. unfold compose, flat.
    destruct c as [? [] ?|o]; [done|done|done|]. cbn in *. by rewrite Hc at 1. }
  assert (Hclean : cleanup_chain_private data = prep_chain_private (pv self) purpose peer flags).
  { subst data. unfold cleanup_chain_private, prep_chain_private_thread_safe, prep_chain_private.
    cbn [certificates status Chain.purpose Chain.peer Chain.flags]. f_equal. rewrite <- list_fmap_compose.
    rewrite <- (list_fmap_id (certificates (pv self))) at 2. apply Forall_fmap_ext.
    eapply Forall_impl; [exact Hcerts|]. by intros [? [] ?|]. }
  destruct (perform_restore fuel data Hplain Hflat) as [Hr Hf]. rewrite Hclean in Hr. rewrite Hn in Hr.
  destruct (perform_build_chain fuel data) as [built|e|] eqn:Hd; cbn [fmap res_fmap] in Hr; [|done|done].
  injection Hr as ->. run. do 2 f_equal; [|by rewrite insert_insert_eq, delete_insert_id].
  specialize (Hf built eq_refl). unfold cleanup_chain_private. cbn [certificates status Chain.purpose Chain.peer Chain.flags].
  f_equal. rewrite <- list_fmap_compose. apply Forall_fmap_ext.
  eapply Forall_impl; [exact Hf|]. intros c Hc. symmetry. exact Hc.
Qed.

(** * The object over time *)

Lemma grows_last_anchored lookups purpose pool c rest : grows lookups purpose pool c rest ANCHORED ->
  exists d, last rest = Some d /\ is_anchored d purpose = Ok true.
Proof.
  intros Hg. remember ANCHORED as st eqn:Hst. induction Hg as [| |? n ? ? ? Ha|? n rest st ? ? ? Hg IH]; try done.
  - exists n. done.
  - destruct (IH Hst) as (d & Hd & Ha). exists d. split; [|done]. destruct rest; [done|exact Hd].
Qed.

(** The chain was built, by some build, as it is now. *)
Definition some_build (p : GcrCertificateChainPrivate) : Prop :=
  exists lookups purpose peer given,
    chain_built lookups purpose peer given (der <$> certificates p) (status p).

Definition chain_inv (self : @ChainObject GErr) : Prop :=
  (status (pv self) = UNKNOWN \/ some_build (pv self)) /\
  forall task data p, tasks self !! task = Some (data, Some (Ok p)) -> some_build p.

Lemma some_build_cleanup p : some_build p -> some_build (cleanup_chain_private p).
Proof.
  intros (l & pu & pe & g & Hb). exists l, pu, pe, g. cbn [cleanup_chain_private certificates status].
  rewrite <- list_fmap_compose. replace (der ∘ restore <$> certificates p) with (der <$> certificates p); [done|].
  apply list_fmap_ext. intros _ c _. symmetry. apply der_restore.
Qed.

Lemma perform_some_build fuel p p' : perform_build_chain fuel p = Ok p' -> some_build p'.
Proof. intros Hb. eexists _, _, _, _. exact (build_chain_sound fuel p p' Hb). Qed.

Lemma chain_inv_init : chain_inv gcr_certificate_chain_init.
Proof. split; [by left|]. intros task data p Ht. cbn in Ht. by rewrite lookup_empty in Ht. Qed.

Lemma chain_inv_step fuel (self self' : @ChainObject GErr) : chain_inv self -> step fuel self self' -> chain_inv self'.
Proof.
  intros [Hpv Htasks] Hstep. destruct Hstep as [self c|self|self self' pu pe fl Hb|self t pu pe fl Ht|self t|self self' t Hf].
  - split; [by left|exact Htasks].
  - split; [by left|exact Htasks].
  - unfold gcr_certificate_chain_build in Hb. apply bind_Ok in Hb as (new & Hn & [= <-]).
    split; [right|exact Htasks]. eapply some_build_cleanup, perform_some_build, Hn.
  - split; [exact Hpv|]. intros t' data p. cbn. destruct (decide (t = t')) as [->|].
    + by rewrite lookup_insert_eq.
    + rewrite lookup_insert_ne by done. apply Htasks.
  - unfold thread_build_chain. destruct (tasks self !! t) as [[data [r|]]|] eqn:Ht; [by split| |by split].
    split; [exact Hpv|]. intros t' data' p. cbn. destruct (decide (t = t')) as [->|].
    + rewrite lookup_insert_eq. intros [= <- Hr]. by eapply perform_some_build.
    + rewrite lookup_insert_ne by done. apply Htasks.
  - unfold gcr_certificate_chain_build_finish in Hf.
    destruct (tasks self !! t) as [[data [r|]]|] eqn:Ht; [|by injection Hf as <-; split..].
    apply bind_Ok in Hf as (built & -> & [= <-]). split.
    + right. eapply some_build_cleanup, Htasks, Ht.
    + intros t' data' p. cbn. intros [_ Hl]%lookup_delete_Some. by eapply Htasks.
Qed.

(** C34: whatever calls are made and whenever background builds run and finish, a
    chain whose status is not unknown is exactly what some build produced (so its
    status describes its certificates), and [gcr_certificate_chain_get_anchor] passes
    its assertion and returns, exactly when the status is anchored, a certificate
    the trust store anchors for the purpose of that build. *)
Theorem chain_reachable_status (fuel : nat) (self : @ChainObject GErr) :
  rtc (step fuel) gcr_certificate_chain_init self ->
  (status (pv self) <> UNKNOWN -> some_build (pv self)) /\
  exists r, gcr_certificate_chain_get_anchor self = Ok r /\
    (is_Some r <-> status (pv self) = ANCHORED) /\
    (forall c, r = Some c -> exists purpose, is_anchored (der c) purpose = Ok true).
Proof.
  assert (Hsteps : forall s0, chain_inv s0 -> rtc (step fuel) s0 self -> chain_inv self).
  { intros s0 Hs0. induction 1 as [|x y z Hxy _ IH]; [done|]. apply IH. by eapply chain_inv_step. }
  intros Hr. pose proof (Hsteps _ chain_inv_init Hr) as Hinv.
  destruct Hinv as [Hpv _]. split; [by destruct Hpv|].
  unfold gcr_certificate_chain_get_anchor. destruct (decide (status (pv self) = ANCHORED)) as [Hst|Hst].
  2:{ rewrite bool_decide_eq_true_2 by done. exists None. split; [done|]. split; [|done]. by split; [intros [? ?]|]. }
  rewrite bool_decide_eq_false_2 by (by intros []). destruct Hpv as [Hu|(l & pu & pe & given & Hb)]; [congruence|].
  rewrite Hst in Hb. destruct given as [|d given]; [by destruct Hb|].
  destruct Hb as (rest & Hcerts & [(_ & [=] & _)|Hg]). apply grows_last_anchored in Hg as (a & Hlast & Ha).
  assert (last (der <$> certificates (pv self)) = Some a) as Hl.
  { rewrite Hcerts. destruct rest as [|x rest]; [done|exact Hlast]. }
  rewrite fmap_last in Hl. destruct (last (certificates (pv self))) as [c|] eqn:Hc; [|done].
  injection Hl as Hl. rewrite c_assert_true.
  2:{ apply Z.ltb_lt. destruct (certificates (pv self)); [done|]. simpl. lia. }
  run. exists (Some c). split; [done|]. split; [by split; [|by eexists]|].
  intros c' [= <-]. exists pu. by rewrite Hl.
Qed.
End Spec.

(** * A small trust store *)

(** Certificates are one byte naming the subject and one the issuer; the store
    has the self-signed certificate of 3, which it finds for all that 3 issued, itself
    included, and anchors it. *)
#[local] Instance byte_names : Certificates := {
  subject_of d := match d with s :: _ => Some [s] | [] => None end;
  issuer_of d := match d with [_; i] => Some [i] | _ => None end }.
#[local] Instance small_store : TrustStore unit := {
  is_pinned _ _ _ := Ok false;
  is_anchored d _ := Ok (bool_decide (d = [3; 3]));
  lookup_issuer d := Ok (if decide (issuer_of d = Some [3]) then Some (Object 9 Pkcs11Certificate [3; 3]) else None) }.

Definition small_chain : GcrCertificateChainPrivate :=
  mk_private [Object 0 OtherCertificate [1; 2]; Object 1 SimpleCertificate [7; 7];
    Object 2 OtherCertificate [2; 3]] UNKNOWN (Some []) None 0.

Lemma build_chain_sound_witness :
  exists p, perform_build_chain 5 small_chain = Ok p /\ status p = ANCHORED /\
    chain_built true [] None [[1; 2]; [7; 7]; [2; 3]] [[1; 2]; [2; 3]; [3; 3]] (status p).
Proof.
  set (built := mk_private [Object 0 OtherCertificate [1; 2]; Object 2 OtherCertificate [2; 3];
    Object 9 Pkcs11Certificate [3; 3]] ANCHORED (Some []) None 0).
  assert (Hb : perform_build_chain 5 small_chain = Ok built) by (vm_compute; reflexivity).
  exists built. split; [exact Hb|]. split; [reflexivity|]. exact (build_chain_sound 5 small_chain built Hb).
Defined.

Lemma build_chain_terminates_witness :
  (exists p', perform_build_chain 6 small_chain = Ok p') \/
  (exists e, perform_build_chain 6 small_chain = Err (GError e)).
Proof.
  apply (proj2 (build_chain_terminates (fun _ => 0%nat) 0 small_chain 6)).
  - split; [intros d; lia|]. intros d c. cbn [lookup_issuer small_store]. case_decide; [|done].
    intros [= <-] _ Hself. vm_compute in Hself. discriminate Hself.
  - unfold store_defined, defined. by split_and!.
  - vm_compute. lia.
Defined.

Lemma build_async_same_witness :
  let self := mk_object small_chain ∅ in
  exists self', gcr_certificate_chain_build 5 self [] None 0 = Ok self' /\
    gcr_certificate_chain_build_finish
      (thread_build_chain 5 (gcr_certificate_chain_build_async self 0 [] None 0) 0) 0 = Ok self'.
Proof.
  eexists. split; [vm_compute; reflexivity|]. apply build_async_same.
  - intros d c. cbn [lookup_issuer small_store]. case_decide; [|done]. by intros [= <-].
  - repeat constructor.
  - reflexivity.
  - vm_compute. reflexivity.
Defined.

Lemma chain_reachable_status_witness :
  exists self r, gcr_certificate_chain_get_anchor (GErr := unit) self = Ok r /\ is_Some r /\
    forall c, r = Some c -> exists purpose, is_anchored (GErr := unit) (der c) purpose = Ok true.
Proof.
  destruct (gcr_certificate_chain_build 5 (gcr_certificate_chain_add gcr_certificate_chain_init
    (Object 2 OtherCertificate [2; 3])) [] None 0) as [self|e|] eqn:Hb; vm_compute in Hb; try discriminate Hb.
  exists self. destruct (chain_reachable_status (GErr := unit) 5 self) as (_ & r & Hr & Hs & Ha).
  - eapply rtc_l; [apply (step_add 5 gcr_certificate_chain_init (Object 2 OtherCertificate [2; 3]))|].
    eapply rtc_l; [apply (step_build 5 _ self [] None 0)|apply rtc_refl]. vm_compute. exact Hb.
  - exists r. split; [exact Hr|]. split; [|exact Ha]. apply Hs. injection Hb as <-. reflexivity.
Defined.

(** A certificate added while a background build runs is lost when the build is
    finished. *)
Lemma added_certificate_lost :
  let self := gcr_certificate_chain_add gcr_certificate_chain_init (Object 2 OtherCertificate [2; 3]) in
  let later := gcr_certificate_chain_add (gcr_certificate_chain_build_async self 0 [] None 1)
    (Object 3 OtherCertificate [3; 3]) in
  (certificates ∘ pv) <$> gcr_certificate_chain_build_finish (thread_build_chain 5 later 0) 0
  = Ok [Object 2 OtherCertificate [2; 3]].
Proof. by vm_compute. Qed.

(** Two certificates that issue each other, found by lookup: the builder never
    ends. *)
Definition circular_store : TrustStore unit := {|
  is_pinned _ _ _ := Ok false;
  is_anchored _ _ := Ok false;
  lookup_issuer d := Ok (match d with
                         | [s; i] => Some (Object 0 Pkcs11Certificate [i; s])
                         | _ => None end) |}.

Lemma circular_lookups_never_end fuel : forall s i chain, s <> i ->
  build_loop (H0 := circular_store) fuel true [] (Object 0 Pkcs11Certificate [s; i]) [] chain = Err OutOfFuel.
Proof.
  induction fuel as [|fuel IH]; intros s i chain Hne; [done|]. cbn [build_loop].
  assert (gcr_certificate_is_issuer (Object 0 Pkcs11Certificate [s; i]) (Object 0 Pkcs11Certificate [s; i]) = false) as ->.
  { cbn. apply bool_decide_eq_false_2. congruence. }
  cbn. by apply IH.
Qed.
