(* ===== verification/StateM.v ===== *)
(** Stateful code: functions of a state that return a result and a new state, or fail as
    [res] says, and the weakest preconditions the proofs about them use. *)

From S2P Require Import Prelude.
Local Open Scope Z_scope.

(** * State transformers *)

Definition SM (S A : Type) : Type := S -> res unit (A * S).

#[export] Instance SM_ret S : MRet (SM S) := fun A a st => Ok (a, st).
#[export] Instance SM_bind S : MBind (SM S) := fun A B f m st =>
  match m st with Ok (a, st') => f a st' | Err e => Err e | Ub => Ub end.

Section Transformers.
Context {S : Type}.

Definition m_assert (b : bool) : SM S unit := fun st => if b then Ok (tt, st) else Ub.
Definition ub {A} : SM S A := fun _ => Ub.
Definition out_of_fuel {A} : SM S A := fun _ => Err tt.
Definition gets {A} (f : S -> A) : SM S A := fun st => Ok (f st, st).
Definition modify (f : S -> S) : SM S unit := fun st => Ok (tt, f st).

(** * Weakest preconditions

    [wp m Q st]: run from [st], [m] returns a value and a state that satisfy [Q]; so it
    neither fails an assertion nor leaves memory nor runs out of fuel. *)
Definition wp {A} (m : SM S A) (Q : A -> S -> Prop) (st : S) : Prop :=
  match m st with Ok (a, st') => Q a st' | _ => False end.

Lemma wp_mono {A} (m : SM S A) (P Q : A -> S -> Prop) st :
  wp m P st -> (forall a st', P a st' -> Q a st') -> wp m Q st.
Proof. unfold wp. destruct (m st) as [[a st']| |]; eauto. Qed.

Lemma wp_bind {A B} (m : SM S A) (f : A -> SM S B) Q st :
  wp m (fun a st' => wp (f a) Q st') st -> wp (m ≫= f) Q st.
Proof. unfold wp, mbind, SM_bind. by destruct (m st) as [[a st']| |]. Qed.

Lemma wp_ret {A} (a : A) (Q : A -> S -> Prop) st : Q a st -> wp (mret a) Q st.
Proof. done. Qed.

Lemma wp_assert b (Q : unit -> S -> Prop) st : b = true -> Q tt st -> wp (m_assert b) Q st.
Proof. by intros -> ?. Qed.

Lemma wp_gets {A} (f : S -> A) (Q : A -> S -> Prop) st : Q (f st) st -> wp (gets f) Q st.
Proof. done. Qed.

Lemma wp_modify f (Q : unit -> S -> Prop) st : Q tt (f st) -> wp (modify f) Q st.
Proof. done. Qed.

Lemma wp_run {A} (m : SM S A) Q st : wp m Q st -> exists a st', m st = Ok (a, st') /\ Q a st'.
Proof. unfold wp. destruct (m st) as [[a st']| |]; naive_solver. Qed.

(** A function that is known to have returned. *)
Lemma wp_Ok {A} (m : SM S A) Q st a st' : wp m Q st -> m st = Ok (a, st') -> Q a st'.
Proof. unfold wp. intros H E. by rewrite E in H. Qed.
End Transformers.

Ltac step_cond :=
  first [ done | assumption | apply Z.ltb_lt; lia | apply Z.leb_le; lia | apply Z.eqb_refl | apply Z.eqb_eq; lia
        | apply negb_true_iff, Z.eqb_neq; first [assumption | lia | congruence]
        | apply bool_decide_eq_true_2; by first [done | eexists] ].

(** One step of the symbolic execution of a function. *)
Ltac step_core := lazymatch goal with
  | |- wp (mbind _ _) _ _ => apply wp_bind
  | |- wp (mret _) _ _ => apply wp_ret
  | |- wp (gets _) _ _ => apply wp_gets
  | |- wp (modify _) _ _ => apply wp_modify
  | |- wp (m_assert _) _ _ => apply wp_assert; [step_cond|]
  end.
