(* ===== verification/Attributes.v ===== *)
(** PKCS#11 attributes: [src/gck/gck-attributes.c].

    A [GckAttribute] is a type and a pointer to a value; values are counted references,
    shared between the builders, the sets of attributes and the single attributes that
    were copied from one another.  The state [St] keeps the four kinds of objects by their
    address ([values] by the address handed out, past the count).  A freed value leaves
    its map, so that a dangling pointer is [Ub], like any failed assertion.  What the
    values of PKCS#11 constants are ([constant]) and what memory fresh from [malloc] holds
    ([garbage]) is up to the environment. *)

From S2P Require Import Prelude Text StateM.
Local Open Scope Z_scope.

(** * Objects *)

Definition GCK_INVALID : Z := G_MAXULONG.
Definition MAX_ALIGN : Z := 16.

(** A [GDate]: day, month and year, or no date. *)
Record Dmy := mk_dmy { day : Z; month : Z; year : Z }.
Abbreviation GDate := (option Dmy).

(** A value: the count in front of it, its bytes, and whether the memory was taken from
    [egg_secure_alloc] or [egg_secure_realloc]. *)
Record Value := mk_value { refs : Z; vbytes : list Z; in_secure : bool }.

(** [struct _GckAttribute]; [value] 0 is NULL. *)
Record Attr := mk_attr { attr_type : Z; value : Z; a_length : Z }.

(** [GckRealBuilder]. *)
Record Builder := mk_builder { array : option (list Attr); secure : bool; b_refs : Z }.

(** [struct _GckAttributes]; the count is the length of [data]. *)
Record Attributes := mk_attributes { data : list Attr; a_refs : Z }.

Record St := mk_st {
  values : gmap Z Value;
  builders : gmap Z Builder;
  attributes : gmap Z Attributes;
  structs : gmap Z Attr
}.

Definition with_values v (st : St) : St := mk_st v (builders st) (attributes st) (structs st).
Definition with_builders b (st : St) : St := mk_st (values st) b (attributes st) (structs st).
Definition with_attributes a (st : St) : St := mk_st (values st) (builders st) a (structs st).
Definition with_structs s (st : St) : St := mk_st (values st) (builders st) (attributes st) s.

(** An address no object of the map has. *)
Definition new_address {A} (m : gmap Z A) : Z := foldr Z.max 0 (map_to_list m).*1 + 1.

Class Environment := {
  (** byte [i] of fresh memory at an address *)
  garbage : Z -> nat -> Z;
  (** the values p11-kit's headers give the names CKA_CLASS and so on *)
  constant : list Z -> Z
}.

Abbreviation M := (SM St).

Definition or_fail {A} (o : option A) : M A := fun st =>
  match o with Some a => Ok (a, st) | None => Ub end.

Definition value_at (p : Z) : M Value := vs ← gets values; or_fail (vs !! p).
Definition put_value (p : Z) (v : Value) : M unit := modify (fun st => with_values (<[p := v]> (values st)) st).
Definition builder_at (b : Z) : M Builder := bs ← gets builders; or_fail (bs !! b).
Definition put_builder (b : Z) (r : Builder) : M unit := modify (fun st => with_builders (<[b := r]> (builders st)) st).
Definition attributes_at (a : Z) : M Attributes := s ← gets attributes; or_fail (s !! a).
Definition put_attributes (a : Z) (r : Attributes) : M unit := modify (fun st => with_attributes (<[a := r]> (attributes st)) st).
Definition struct_at (p : Z) : M Attr := s ← gets structs; or_fail (s !! p).
Definition put_struct (p : Z) (r : Attr) : M unit := modify (fun st => with_structs (<[p := r]> (structs st)) st).

(** A pointer to a [GckAttribute]: an element of a builder, an element of a set, or one
    of its own. *)
Inductive AttrPtr :=
  | InBuilder (b : Z) (i : nat)
  | InAttributes (a : Z) (i : nat)
  | Alone (p : Z).

Definition elements (r : Builder) : list Attr := default [] (array r).

Definition deref (p : AttrPtr) : M Attr :=
  match p with
  | InBuilder b i => r ← builder_at b; or_fail (elements r !! i)
  | InAttributes a i => r ← attributes_at a; or_fail (data r !! i)
  | Alone p => struct_at p
  end.

Definition set_value (v : Z) (a : Attr) : Attr := mk_attr (attr_type a) v (a_length a).
Definition set_length (n : Z) (a : Attr) : Attr := mk_attr (attr_type a) (value a) n.

(** [attr->...] of element [i] of a builder is assigned. *)
Definition upd_element (b : Z) (i : nat) (f : Attr -> Attr) : M unit :=
  r ← builder_at b;
  a ← or_fail (elements r !! i);
  put_builder b (mk_builder (Some (<[i := f a]> (elements r))) (secure r) (b_refs r)).

(** * Values *)

Section Attributes.
Context `{Environment}.

(** Fresh memory: secure memory is cleared, and not given out beyond half the range of
    a 32-bit integer; ordinary memory holds anything. *)
Definition value_blank (len : Z) (sec : bool) : M Z :=
  let total := u64 (len + MAX_ALIGN) in
  m_assert (negb (total =? 0) && (negb sec || (total <=? 0x7FFFFFFF)));;
  m_assert (MAX_ALIGN <=? total);;
  p ← gets (fun st => new_address (values st));
  let bs := if sec then replicate (Z.to_nat len) 0 else garbage p <$> seq 0 (Z.to_nat len) in
  put_value p (mk_value 1 bs sec);;
  mret p.

(** [value_new (data, length, secure)]: [src] is what can be read at [data]. *)
Definition value_new (src : list Z) (len : Z) (sec : bool) : M Z :=
  p ← value_blank len sec;
  v ← value_at p;
  bs ← or_fail (slice src 0 len);
  put_value p (mk_value (refs v) bs (in_secure v));;
  mret p.

(** [value_take (data, length, secure)]: the memory at [data] grows by [MAX_ALIGN] and its
    contents move up. *)
Definition value_take (src : list Z) (len : Z) (sec : bool) : M Z :=
  let total := u64 (len + MAX_ALIGN) in
  m_assert (negb (total =? 0) && (negb sec || (total <=? 0x7FFFFFFF)));;
  m_assert (MAX_ALIGN <=? total);;
  bs ← or_fail (slice src 0 len);
  p ← gets (fun st => new_address (values st));
  put_value p (mk_value 1 bs sec);;
  mret p.

Definition value_ref (p : Z) : M Z :=
  m_assert (negb (p =? 0));;
  v ← value_at p;
  let previous := refs v in
  put_value p (mk_value (s32 (previous + 1)) (vbytes v) (in_secure v));;
  mret (if previous <=? 0 then 0 else p).

Definition value_unref (p : Z) : M unit :=
  m_assert (negb (p =? 0));;
  v ← value_at p;
  let count := s32 (refs v - 1) in
  if count =? 0 then modify (fun st => with_values (delete p (values st)) st)
  else put_value p (mk_value count (vbytes v) (in_secure v)).

(** * Builders *)

Definition GCK_BUILDER_NONE : Z := 0.
Definition GCK_BUILDER_SECURE_MEMORY : Z := 1.

Definition gck_builder_init_full (b flags : Z) : M unit :=
  if b =? 0 then mret tt else
  put_builder b (mk_builder None (negb (Z.land flags GCK_BUILDER_SECURE_MEMORY =? 0)) 0).

Definition gck_builder_init (b : Z) : M unit := gck_builder_init_full b GCK_BUILDER_NONE.

Definition gck_builder_new (flags : Z) : M Z :=
  b ← gets (fun st => new_address (builders st));
  gck_builder_init_full b flags;;
  r ← builder_at b;
  put_builder b (mk_builder (array r) (secure r) 1);;
  mret b.

Definition gck_builder_ref (b : Z) : M Z :=
  if b =? 0 then mret 0 else
  r ← builder_at b;
  put_builder b (mk_builder (array r) (secure r) (s32 (b_refs r + 1)));;
  mret (if b_refs r =? 0 then 0 else b).

(** The new element's index. *)
Definition builder_push (b t : Z) : M nat :=
  r ← builder_at b;
  put_builder b (mk_builder (Some (elements r ++ [mk_attr t 0 0])) (secure r) (b_refs r));;
  mret (length (elements r)).

Definition builder_clear (b : Z) (i : nat) : M unit :=
  upd_element b i (set_length 0);;
  a ← deref (InBuilder b i);
  (if negb (value a =? 0) then value_unref (value a) else mret tt);;
  upd_element b i (set_value 0).

Fixpoint find_attribute (attrs : list Attr) (t : Z) : option nat :=
  match attrs with
  | [] => None
  | a :: attrs => if attr_type a =? t then Some O else S <$> find_attribute attrs t
  end.

Definition builder_clear_or_push (b t : Z) : M nat :=
  r ← builder_at b;
  match find_attribute (elements r) t with
  | None => builder_push b t
  | Some i => builder_clear b i;; mret i
  end.

(** A pointer into the array of a builder is lost when the array grows. *)
Definition lost (b t : Z) (performing_set : bool) (r : Builder) (p : AttrPtr) : bool :=
  match p with
  | InBuilder b' _ => (b' =? b) && negb (performing_set && bool_decide (is_Some (find_attribute (elements r) t)))
  | _ => false
  end.

Definition builder_copy (b : Z) (p : AttrPtr) (performing_set : bool) : M unit :=
  a ← deref p;
  r ← builder_at b;
  i ← (if performing_set : bool then builder_clear_or_push b (attr_type a) else builder_push b (attr_type a));
  m_assert (negb (lost b (attr_type a) performing_set r p));;
  a ← deref p;
  if a_length a =? G_MAXULONG then
    upd_element b i (set_value 0);; upd_element b i (set_length G_MAXULONG)
  else if value a =? 0 then
    upd_element b i (set_value 0);; upd_element b i (set_length 0)
  else
    v ← value_ref (value a);
    upd_element b i (set_value v);;
    upd_element b i (set_length (a_length a)).

(** [for (i = 0; i < n; i++) body]. *)
Fixpoint for_each (l : list nat) (body : nat -> M unit) : M unit :=
  match l with [] => mret tt | i :: l => body i;; for_each l body end.

Definition gck_builder_clear (b : Z) : M unit :=
  if b =? 0 then mret tt else
  r ← builder_at b;
  match array r with
  | None => mret tt
  | Some attrs =>
    for_each (seq 0 (length attrs)) (builder_clear b);;
    r ← builder_at b;
    put_builder b (mk_builder None (secure r) (b_refs r))
  end.

Definition gck_builder_unref (b : Z) : M unit :=
  if b =? 0 then mret tt else
  r ← builder_at b;
  let count := s32 (b_refs r - 1) in
  put_builder b (mk_builder (array r) (secure r) count);;
  if count =? 0 then
    gck_builder_clear b;; modify (fun st => with_builders (delete b (builders st)) st)
  else mret tt.

Definition gck_builder_copy (b : Z) : M Z :=
  if b =? 0 then mret 0 else
  r ← builder_at b;
  copy ← gck_builder_new (if secure r then GCK_BUILDER_SECURE_MEMORY else GCK_BUILDER_NONE);
  for_each (seq 0 (length (elements r))) (fun i => builder_copy copy (InBuilder b i) false);;
  mret copy.

(** What [take_data], [add_data] and [set_data] store in element [i]: [src] is the memory
    passed, [None] for NULL; [make] makes the value. *)
Definition store_data (b : Z) (i : nat) (src : option (list Z)) (len : Z) (make : list Z -> M Z) : M unit :=
  if len =? G_MAXULONG then
    upd_element b i (set_value 0);; upd_element b i (set_length G_MAXULONG)
  else match src with
  | None => upd_element b i (set_value 0);; upd_element b i (set_length 0)
  | Some bs =>
    v ← make bs;
    upd_element b i (set_value v);;
    upd_element b i (set_length len)
  end.

(** [checked]: what [egg_secure_check] says of the memory passed. *)
Definition gck_builder_take_data (b t : Z) (src : option (list Z)) (len : Z) (checked : bool) : M unit :=
  if b =? 0 then mret tt else
  let sec := bool_decide (is_Some src) && checked in
  i ← builder_push b t;
  store_data b i src len (fun bs => value_take bs len sec).

Definition gck_builder_add_data (b t : Z) (src : option (list Z)) (len : Z) (checked : bool) : M unit :=
  if b =? 0 then mret tt else
  i ← builder_push b t;
  store_data b i src len (fun bs => r ← builder_at b; value_new bs len (secure r || checked)).

Definition gck_builder_set_data (b t : Z) (src : option (list Z)) (len : Z) (checked : bool) : M unit :=
  if b =? 0 then mret tt else
  i ← builder_clear_or_push b t;
  store_data b i src len (fun bs => r ← builder_at b; value_new bs len (secure r || checked)).

Definition gck_builder_add_empty (b t : Z) : M unit :=
  if b =? 0 then mret tt else _ ← builder_push b t; mret tt.
Definition gck_builder_set_empty (b t : Z) : M unit :=
  if b =? 0 then mret tt else _ ← builder_clear_or_push b t; mret tt.
Definition gck_builder_add_invalid (b t : Z) : M unit :=
  if b =? 0 then mret tt else i ← builder_push b t; upd_element b i (set_length G_MAXULONG).
Definition gck_builder_set_invalid (b t : Z) : M unit :=
  if b =? 0 then mret tt else i ← builder_clear_or_push b t; upd_element b i (set_length G_MAXULONG).

(** * Typed values *)

Definition print_padded (width : nat) (n : Z) : list Z :=
  replicate (width - length (print_u n)) 48 ++ print_u n.

(** [g_snprintf] into nine bytes, the last of them NUL. *)
Definition convert_gdate_to_ckdate (d : GDate) : list Z :=
  let d := default (mk_dmy 0 0 0) d in
  take 8 (print_padded 4 (year d) ++ print_padded 2 (month d) ++ print_padded 2 (day d)).

Definition ck_ulong (v : Z) : list Z := le_bytes 8 v.
Definition ck_bbool (v : bool) : list Z := [if v then 1 else 0].

Definition gck_builder_add_ulong (b t v : Z) : M unit := gck_builder_add_data b t (Some (ck_ulong v)) 8 false.
Definition gck_builder_set_ulong (b t v : Z) : M unit := gck_builder_set_data b t (Some (ck_ulong v)) 8 false.
Definition gck_builder_add_boolean (b t : Z) (v : bool) : M unit := gck_builder_add_data b t (Some (ck_bbool v)) 1 false.
Definition gck_builder_set_boolean (b t : Z) (v : bool) : M unit := gck_builder_set_data b t (Some (ck_bbool v)) 1 false.
Definition gck_builder_add_date (b t : Z) (v : GDate) : M unit :=
  gck_builder_add_data b t (Some (convert_gdate_to_ckdate v)) 8 false.
Definition gck_builder_set_date (b t : Z) (v : GDate) : M unit :=
  gck_builder_set_data b t (Some (convert_gdate_to_ckdate v)) 8 false.

(** A C string: its bytes before the NUL; [None] is NULL. *)
Definition string_data (s : option (list Z)) : option (list Z) * Z :=
  match s with None => (None, 0) | Some s => (Some s, Zlen s) end.

Definition gck_builder_add_string (b t : Z) (s : option (list Z)) (checked : bool) : M unit :=
  let '(src, len) := string_data s in gck_builder_add_data b t src len checked.
Definition gck_builder_set_string (b t : Z) (s : option (list Z)) (checked : bool) : M unit :=
  let '(src, len) := string_data s in gck_builder_set_data b t src len checked.

(** * Copying attributes into a builder *)

Definition gck_builder_add_attribute (b : Z) (p : AttrPtr) : M unit :=
  if b =? 0 then mret tt else builder_copy b p false.

Definition gck_builder_add_all (b a : Z) : M unit :=
  if (b =? 0) || (a =? 0) then mret tt else
  s ← attributes_at a;
  for_each (seq 0 (length (data s))) (fun i => builder_copy b (InAttributes a i) false).

(** The arguments of a variadic function, up to [GCK_INVALID]. *)
Fixpoint varargs (types : list Z) : list Z :=
  match types with [] => [] | t :: types => if t =? GCK_INVALID then [] else t :: varargs types end.

Definition gck_builder_add_onlyv (b a : Z) (only : list Z) : M unit :=
  if (b =? 0) || (a =? 0) then mret tt else
  s ← attributes_at a;
  for_each (seq 0 (length (data s))) (fun i =>
    for_each (seq 0 (length only)) (fun j =>
      x ← deref (InAttributes a i);
      t ← or_fail (only !! j);
      if attr_type x =? t then builder_copy b (InAttributes a i) false else mret tt)).

Definition gck_builder_add_only (b a : Z) (only : list Z) : M unit := gck_builder_add_onlyv b a (varargs only).

Definition gck_builder_add_exceptv (b a : Z) (except : list Z) : M unit :=
  if (b =? 0) || (a =? 0) then mret tt else
  s ← attributes_at a;
  for_each (seq 0 (length (data s))) (fun i =>
    x ← deref (InAttributes a i);
    if existsb (Z.eqb (attr_type x)) except then mret tt else builder_copy b (InAttributes a i) false).

Definition gck_builder_add_except (b a : Z) (except : list Z) : M unit :=
  gck_builder_add_exceptv b a (varargs except).

Definition gck_builder_set_all (b a : Z) : M unit :=
  if (b =? 0) || (a =? 0) then mret tt else
  s ← attributes_at a;
  for_each (seq 0 (length (data s))) (fun i => builder_copy b (InAttributes a i) true).

Definition gck_builder_end (b : Z) : M Z :=
  if b =? 0 then mret 0 else
  r ← builder_at b;
  put_builder b (mk_builder None (secure r) (b_refs r));;
  a ← gets (fun st => new_address (attributes st));
  put_attributes a (mk_attributes (elements r) 1);;
  mret a.

(** * Reading an attribute *)

(** The bytes an attribute points to. *)
Definition read_value (a : Attr) : M (list Z) :=
  v ← value_at (value a); or_fail (slice (vbytes v) 0 (a_length a)).

Definition gck_value_to_ulong (a : Attr) : M (option Z) :=
  if (value a =? 0) || negb (a_length a =? 8) then mret None
  else bs ← read_value a; mret (Some (le_val bs)).

Definition gck_value_to_boolean (a : Attr) : M (option bool) :=
  if (value a =? 0) || negb (a_length a =? 1) then mret None
  else bs ← read_value a; mret (Some (negb (le_val bs =? 0))).

Definition gck_attribute_is_invalid (p : AttrPtr) : M bool :=
  a ← deref p; mret (a_length a =? G_MAXULONG).

Definition gck_attribute_get_boolean (p : AttrPtr) : M bool :=
  invalid ← gck_attribute_is_invalid p;
  if invalid : bool then mret false else
  a ← deref p;
  v ← gck_value_to_boolean a;
  mret (default false v).

Definition gck_attribute_get_ulong (p : AttrPtr) : M Z :=
  invalid ← gck_attribute_is_invalid p;
  if invalid : bool then mret 0 else
  a ← deref p;
  v ← gck_value_to_ulong a;
  mret (default G_MAXULONG v).

(** [g_strndup] stops at a NUL. *)
Definition gck_attribute_get_string (p : AttrPtr) : M (option (list Z)) :=
  invalid ← gck_attribute_is_invalid p;
  if invalid : bool then mret None else
  a ← deref p;
  if value a =? 0 then mret None else
  bs ← read_value a;
  mret (Some (c_str bs)).

(** [strtol (s, &end, 10)] of at most four characters, and the checks made of [end]: it
    has moved, and is at the end of the string. *)
Definition strtol_all (s : list Z) : option Z :=
  let t := skip_spaces s in
  let '(neg, t) := match t with c :: u => if c =? 45 then (true, u) else if c =? 43 then (false, u) else (false, t) | [] => (false, t) end in
  match t with
  | c :: _ => if is_digit c then
      match strtol_digits 0 t with
      | (v, []) => Some (if neg : bool then - v else v)
      | _ => None
      end
    else None
  | [] => None
  end.

Definition is_leap (y : Z) : bool := ((y mod 4 =? 0) && negb (y mod 100 =? 0)) || (y mod 400 =? 0).
Definition days_in_month (m y : Z) : Z :=
  if m =? 2 then if is_leap y then 29 else 28
  else if (m =? 4) || (m =? 6) || (m =? 9) || (m =? 11) then 30 else 31.

Definition g_date_valid_dmy (d m y : Z) : bool :=
  (1 <=? m) && (m <=? 12) && (1 <=? d) && (1 <=? y) && (d <=? days_in_month m y).

(** [old] is the date before the call. *)
Definition g_date_set_dmy (old : GDate) (d m y : Z) : GDate :=
  let '(d, m, y) := (u8 d, s32 m, u16 y) in
  if g_date_valid_dmy d m y then Some (mk_dmy d m y) else old.

Definition gck_attribute_get_date (p : AttrPtr) (old : GDate) : M GDate :=
  invalid ← gck_attribute_is_invalid p;
  if invalid : bool then mret None else
  a ← deref p;
  if negb (a_length a =? 8) then mret old else
  if value a =? 0 then mret old else
  bs ← read_value a;
  match strtol_all (c_str (take 4 bs)) with
  | None => mret old
  | Some y =>
    match strtol_all (c_str (take 2 (drop 4 bs))) with
    | None => mret old
    | Some m =>
      match strtol_all (c_str (take 2 (drop 6 bs))) with
      | None => mret old
      | Some d => mret (g_date_set_dmy old (u32 d) (u32 m) (u32 y))
      end
    end
  end.

Definition gck_attribute_get_data (p : AttrPtr) : M (Z * Z) :=
  a ← deref p;
  if a_length a =? G_MAXULONG then mret (0, 0) else mret (value a, a_length a).

(** * Looking attributes up

    [None] is FALSE. *)

(** The attribute [find_attribute] finds, by the pointer [at_ i] to it. *)
Definition found (attrs : list Attr) (at_ : nat -> AttrPtr) (t : Z) : option AttrPtr := at_ <$> find_attribute attrs t.

Definition find_with {A} (attrs : list Attr) (at_ : nat -> AttrPtr) (t : Z) (get : AttrPtr -> M (option A)) : M (option A) :=
  match found attrs at_ t with
  | None => mret None
  | Some p =>
    invalid ← gck_attribute_is_invalid p;
    if invalid : bool then mret None else get p
  end.

Definition find_attribute_boolean attrs at_ t : M (option bool) :=
  find_with attrs at_ t (fun p => a ← deref p; gck_value_to_boolean a).
Definition find_attribute_ulong attrs at_ t : M (option Z) :=
  find_with attrs at_ t (fun p => a ← deref p; gck_value_to_ulong a).
Definition find_attribute_string attrs at_ t : M (option (list Z)) :=
  find_with attrs at_ t gck_attribute_get_string.
(** The date, when the result is TRUE. *)
Definition find_attribute_date attrs at_ t (old : GDate) : M (option GDate) :=
  find_with attrs at_ t (fun p => d ← gck_attribute_get_date p old; mret (Some d)).

Definition in_builder {A} (b : Z) (none : A) (f : list Attr -> (nat -> AttrPtr) -> M A) : M A :=
  if b =? 0 then mret none else
  r ← builder_at b;
  match array r with None => mret none | Some attrs => f attrs (InBuilder b) end.

Definition in_attributes {A} (a : Z) (none : A) (f : list Attr -> (nat -> AttrPtr) -> M A) : M A :=
  if a =? 0 then mret none else s ← attributes_at a; f (data s) (InAttributes a).

Definition gck_builder_find (b t : Z) : M (option AttrPtr) := in_builder b None (fun attrs at_ => mret (found attrs at_ t)).
Definition gck_builder_find_boolean (b t : Z) := in_builder b None (fun attrs at_ => find_attribute_boolean attrs at_ t).
Definition gck_builder_find_ulong (b t : Z) := in_builder b None (fun attrs at_ => find_attribute_ulong attrs at_ t).
Definition gck_builder_find_string (b t : Z) := in_builder b None (fun attrs at_ => find_attribute_string attrs at_ t).
Definition gck_builder_find_date (b t : Z) (old : GDate) := in_builder b None (fun attrs at_ => find_attribute_date attrs at_ t old).

Definition gck_attributes_find (a t : Z) : M (option AttrPtr) := in_attributes a None (fun attrs at_ => mret (found attrs at_ t)).
Definition gck_attributes_find_boolean (a t : Z) := in_attributes a None (fun attrs at_ => find_attribute_boolean attrs at_ t).
Definition gck_attributes_find_ulong (a t : Z) := in_attributes a None (fun attrs at_ => find_attribute_ulong attrs at_ t).
Definition gck_attributes_find_string (a t : Z) := in_attributes a None (fun attrs at_ => find_attribute_string attrs at_ t).
Definition gck_attributes_find_date (a t : Z) (old : GDate) := in_attributes a None (fun attrs at_ => find_attribute_date attrs at_ t old).

(** * Single attributes *)

Definition gck_attribute_init (p t : Z) (src : option (list Z)) (len : Z) (checked : bool) : M unit :=
  if p =? 0 then mret tt else
  if len =? G_MAXULONG then put_struct p (mk_attr t 0 G_MAXULONG)
  else match src with
  | None => put_struct p (mk_attr t 0 0)
  | Some bs => v ← value_new bs len checked; put_struct p (mk_attr t v len)
  end.

Definition gck_attribute_init_invalid (p t : Z) : M unit :=
  if p =? 0 then mret tt else put_struct p (mk_attr t 0 G_MAXULONG).
Definition gck_attribute_init_empty (p t : Z) : M unit :=
  if p =? 0 then mret tt else put_struct p (mk_attr t 0 0).
Definition gck_attribute_init_boolean (p t : Z) (v : bool) : M unit := gck_attribute_init p t (Some (ck_bbool v)) 1 false.
Definition gck_attribute_init_date (p t : Z) (v : GDate) : M unit :=
  gck_attribute_init p t (Some (convert_gdate_to_ckdate v)) 8 false.
Definition gck_attribute_init_ulong (p t v : Z) : M unit := gck_attribute_init p t (Some (ck_ulong v)) 8 false.
Definition gck_attribute_init_string (p t : Z) (s : option (list Z)) (checked : bool) : M unit :=
  let '(src, len) := string_data s in gck_attribute_init p t src len checked.

(** [g_new0 (GckAttribute, 1)]. *)
Definition new_struct : M Z :=
  p ← gets (fun st => new_address (structs st)); put_struct p (mk_attr 0 0 0);; mret p.

Definition gck_attribute_new (t : Z) (src : option (list Z)) (len : Z) (checked : bool) : M Z :=
  p ← new_struct; gck_attribute_init p t src len checked;; mret p.
Definition gck_attribute_new_invalid (t : Z) : M Z := p ← new_struct; gck_attribute_init_invalid p t;; mret p.
Definition gck_attribute_new_empty (t : Z) : M Z := p ← new_struct; gck_attribute_init_empty p t;; mret p.
Definition gck_attribute_new_boolean (t : Z) (v : bool) : M Z := p ← new_struct; gck_attribute_init_boolean p t v;; mret p.
Definition gck_attribute_new_date (t : Z) (v : GDate) : M Z := p ← new_struct; gck_attribute_init_date p t v;; mret p.
Definition gck_attribute_new_ulong (t v : Z) : M Z := p ← new_struct; gck_attribute_init_ulong p t v;; mret p.
Definition gck_attribute_new_string (t : Z) (s : option (list Z)) (checked : bool) : M Z :=
  p ← new_struct; gck_attribute_init_string p t s checked;; mret p.

Definition gck_attribute_init_copy (dest : Z) (src : AttrPtr) : M unit :=
  if dest =? 0 then mret tt else
  a ← deref src;
  if a_length a =? G_MAXULONG then put_struct dest (mk_attr (attr_type a) 0 G_MAXULONG)
  else if value a =? 0 then put_struct dest (mk_attr (attr_type a) 0 0)
  else v ← value_ref (value a); put_struct dest (mk_attr (attr_type a) v (a_length a)).

Definition gck_attribute_dup (src : option AttrPtr) : M Z :=
  match src with
  | None => mret 0
  | Some src => p ← new_struct; gck_attribute_init_copy p src;; mret p
  end.

Definition gck_attribute_clear (p : Z) : M unit :=
  if p =? 0 then mret tt else
  a ← struct_at p;
  (if negb (value a =? 0) then value_unref (value a) else mret tt);;
  put_struct p (mk_attr (attr_type a) 0 0).

Definition gck_attribute_free (p : Z) : M unit :=
  if p =? 0 then mret tt else
  gck_attribute_clear p;; modify (fun st => with_structs (delete p (structs st)) st).

Definition gck_attribute_equal (p q : option AttrPtr) : M bool :=
  match p, q with
  | None, None => mret true
  | None, Some _ | Some _, None => mret false
  | Some p, Some q =>
    aa ← deref p;
    ab ← deref q;
    if negb (attr_type aa =? attr_type ab) then mret false else
    if negb (a_length aa =? a_length ab) then mret false else
    if (value aa =? 0) && (value ab =? 0) then mret true else
    if (value aa =? 0) || (value ab =? 0) then mret false else
    x ← read_value aa;
    y ← read_value ab;
    mret (bool_decide (x = y))
  end.

(** [signed char]. *)
Definition s8 (c : Z) : Z := (c + 128) mod 256 - 128.

Definition _gck_ulong_hash (v : Z) : Z :=
  let bs := le_bytes 8 v in
  foldl (fun h c => u32 (Z.shiftl h 5 - h + s8 c)) (u32 (s8 (hd 0 bs))) bs.

Definition gck_attribute_hash (p : AttrPtr) : M Z :=
  a ← deref p;
  let h := Z.lxor 5381 (_gck_ulong_hash (attr_type a)) in
  if value a =? 0 then mret h else
  bs ← read_value a;
  mret (foldl (fun h c => u32 (Z.shiftl h 5 + h + s8 c)) h bs).

(** * Sets of attributes *)

(** [GCK_BUILDER_INIT] on the stack of the function that uses it. *)
Definition on_stack {A} (body : Z -> M A) : M A :=
  b ← gets (fun st => new_address (builders st));
  gck_builder_init b;;
  r ← body b;
  modify (fun st => with_builders (delete b (builders st)) st);;
  mret r.

Fixpoint add_empties (b : Z) (types : list Z) : M unit :=
  match types with [] => mret tt | t :: types => gck_builder_add_empty b t;; add_empties b types end.

Definition gck_attributes_new_empty (types : list Z) : M Z :=
  on_stack (fun b => add_empties b (varargs types);; gck_builder_end b).

Definition gck_attributes_new : M Z := on_stack gck_builder_end.

Definition gck_attributes_at (a : Z) (index : nat) : M (option AttrPtr) :=
  if a =? 0 then mret None else
  s ← attributes_at a;
  if (index <? length (data s))%nat then mret (Some (InAttributes a index)) else mret None.

Definition gck_attributes_count (a : Z) : M Z :=
  if a =? 0 then mret 0 else s ← attributes_at a; mret (Zlen (data s)).

Definition gck_attributes_ref (a : Z) : M Z :=
  if a =? 0 then mret 0 else
  s ← attributes_at a; put_attributes a (mk_attributes (data s) (s32 (a_refs s + 1)));; mret a.

Definition gck_attributes_unref (a : Z) : M unit :=
  if a =? 0 then mret tt else
  s ← attributes_at a;
  let count := s32 (a_refs s - 1) in
  put_attributes a (mk_attributes (data s) count);;
  if count =? 0 then
    for_each (seq 0 (length (data s))) (fun i =>
      x ← deref (InAttributes a i);
      if negb (value x =? 0) then value_unref (value x) else mret tt);;
    modify (fun st => with_attributes (delete a (attributes st)) st)
  else mret tt.

Fixpoint contains_from (a : Z) (indices : list nat) (match_ : option AttrPtr) : M bool :=
  match indices with
  | [] => mret false
  | i :: indices =>
    equal ← gck_attribute_equal (Some (InAttributes a i)) match_;
    if equal : bool then mret true else contains_from a indices match_
  end.

Definition gck_attributes_contains (a : Z) (match_ : option AttrPtr) : M bool :=
  if a =? 0 then mret false else
  s ← attributes_at a; contains_from a (seq 0 (length (data s))) match_.

(** * Calls of a module

    [_gck_builder_prepare_in] clears the values, the module stores the lengths,
    [_gck_builder_commit_in] makes room for the values and the module stores them. *)

Definition _gck_builder_prepare_in (b : Z) : M Z :=
  if b =? 0 then mret 0 else
  r ← builder_at b;
  match array r with
  | None => mret 0
  | Some attrs =>
    for_each (seq 0 (length attrs)) (fun i =>
      x ← deref (InBuilder b i);
      (if negb (value x =? 0) then value_unref (value x);; upd_element b i (set_value 0) else mret tt);;
      upd_element b i (set_length 0));;
    mret (Zlen attrs)
  end.

Definition _gck_builder_commit_in (b : Z) : M Z :=
  if b =? 0 then mret 0 else
  r ← builder_at b;
  match array r with
  | None => mret 0
  | Some attrs =>
    for_each (seq 0 (length attrs)) (fun i =>
      x ← deref (InBuilder b i);
      if negb (a_length x =? 0) && negb (a_length x =? G_MAXULONG) then
        v ← value_blank (a_length x) (secure r); upd_element b i (set_value v)
      else upd_element b i (set_value 0));;
    mret (Zlen attrs)
  end.

Definition _gck_attributes_commit_out (a : Z) : M Z :=
  if a =? 0 then mret 0 else s ← attributes_at a; mret (Zlen (data s)).
End Attributes.

(** * Text *)

(** The constants of each [switch], by name. *)
Definition not_sensitive_names : list (list Z) := [
  lit "CKA_CLASS"; lit "CKA_TOKEN"; lit "CKA_PRIVATE"; lit "CKA_LABEL"; lit "CKA_APPLICATION";
  lit "CKA_OBJECT_ID"; lit "CKA_CERTIFICATE_TYPE"; lit "CKA_ISSUER"; lit "CKA_SERIAL_NUMBER";
  lit "CKA_AC_ISSUER"; lit "CKA_OWNER"; lit "CKA_ATTR_TYPES"; lit "CKA_TRUSTED";
  lit "CKA_CERTIFICATE_CATEGORY"; lit "CKA_JAVA_MIDP_SECURITY_DOMAIN"; lit "CKA_URL";
  lit "CKA_HASH_OF_SUBJECT_PUBLIC_KEY"; lit "CKA_HASH_OF_ISSUER_PUBLIC_KEY"; lit "CKA_CHECK_VALUE";
  lit "CKA_KEY_TYPE"; lit "CKA_SUBJECT"; lit "CKA_ID"; lit "CKA_SENSITIVE"; lit "CKA_ENCRYPT";
  lit "CKA_DECRYPT"; lit "CKA_WRAP"; lit "CKA_UNWRAP"; lit "CKA_SIGN"; lit "CKA_SIGN_RECOVER";
  lit "CKA_VERIFY"; lit "CKA_VERIFY_RECOVER"; lit "CKA_DERIVE"; lit "CKA_START_DATE"; lit "CKA_END_DATE";
  lit "CKA_MODULUS_BITS"; lit "CKA_PRIME_BITS"; lit "CKA_VALUE_BITS"; lit "CKA_VALUE_LEN";
  lit "CKA_EXTRACTABLE"; lit "CKA_LOCAL"; lit "CKA_NEVER_EXTRACTABLE"; lit "CKA_ALWAYS_SENSITIVE";
  lit "CKA_KEY_GEN_MECHANISM"; lit "CKA_MODIFIABLE"; lit "CKA_SECONDARY_AUTH"; lit "CKA_AUTH_PIN_FLAGS";
  lit "CKA_ALWAYS_AUTHENTICATE"; lit "CKA_WRAP_WITH_TRUSTED"; lit "CKA_WRAP_TEMPLATE";
  lit "CKA_UNWRAP_TEMPLATE"; lit "CKA_HW_FEATURE_TYPE"; lit "CKA_RESET_ON_INIT"; lit "CKA_HAS_RESET";
  lit "CKA_PIXEL_X"; lit "CKA_PIXEL_Y"; lit "CKA_RESOLUTION"; lit "CKA_CHAR_ROWS"; lit "CKA_CHAR_COLUMNS";
  lit "CKA_COLOR"; lit "CKA_BITS_PER_PIXEL"; lit "CKA_CHAR_SETS"; lit "CKA_ENCODING_METHODS";
  lit "CKA_MIME_TYPES"; lit "CKA_MECHANISM_TYPE"; lit "CKA_REQUIRED_CMS_ATTRIBUTES";
  lit "CKA_DEFAULT_CMS_ATTRIBUTES"; lit "CKA_SUPPORTED_CMS_ATTRIBUTES"; lit "CKA_ALLOWED_MECHANISMS";
  lit "CKA_X_ASSERTION_TYPE"; lit "CKA_X_CERTIFICATE_VALUE"; lit "CKA_X_PURPOSE"; lit "CKA_X_PEER"].

Definition class_names : list (list Z) := [
  lit "CKO_DATA"; lit "CKO_CERTIFICATE"; lit "CKO_PUBLIC_KEY"; lit "CKO_PRIVATE_KEY"; lit "CKO_SECRET_KEY";
  lit "CKO_HW_FEATURE"; lit "CKO_DOMAIN_PARAMETERS"; lit "CKO_MECHANISM"; lit "CKO_X_TRUST_ASSERTION"].

Definition assertion_type_names : list (list Z) := [
  lit "CKT_X_UNTRUSTED_CERTIFICATE"; lit "CKT_X_PINNED_CERTIFICATE"; lit "CKT_X_ANCHORED_CERTIFICATE"].

Definition key_type_names : list (list Z) := [
  lit "CKK_RSA"; lit "CKK_DSA"; lit "CKK_DH"; lit "CKK_EC"; lit "CKK_X9_42_DH"; lit "CKK_KEA";
  lit "CKK_GENERIC_SECRET"; lit "CKK_RC2"; lit "CKK_RC4"; lit "CKK_DES"; lit "CKK_DES2"; lit "CKK_DES3";
  lit "CKK_CAST"; lit "CKK_CAST3"; lit "CKK_CAST128"; lit "CKK_RC5"; lit "CKK_IDEA"; lit "CKK_SKIPJACK";
  lit "CKK_BATON"; lit "CKK_JUNIPER"; lit "CKK_CDMF"; lit "CKK_AES"; lit "CKK_BLOWFISH"; lit "CKK_TWOFISH"].

Definition certificate_type_names : list (list Z) := [
  lit "CKC_X_509"; lit "CKC_X_509_ATTR_CERT"; lit "CKC_WTLS"].

Definition attribute_type_names : list (list Z) := [
  lit "CKA_CLASS"; lit "CKA_TOKEN"; lit "CKA_PRIVATE"; lit "CKA_LABEL"; lit "CKA_APPLICATION";
  lit "CKA_VALUE"; lit "CKA_OBJECT_ID"; lit "CKA_CERTIFICATE_TYPE"; lit "CKA_ISSUER";
  lit "CKA_SERIAL_NUMBER"; lit "CKA_AC_ISSUER"; lit "CKA_OWNER"; lit "CKA_ATTR_TYPES"; lit "CKA_TRUSTED";
  lit "CKA_CERTIFICATE_CATEGORY"; lit "CKA_JAVA_MIDP_SECURITY_DOMAIN"; lit "CKA_URL";
  lit "CKA_HASH_OF_SUBJECT_PUBLIC_KEY"; lit "CKA_HASH_OF_ISSUER_PUBLIC_KEY"; lit "CKA_CHECK_VALUE";
  lit "CKA_KEY_TYPE"; lit "CKA_SUBJECT"; lit "CKA_ID"; lit "CKA_SENSITIVE"; lit "CKA_ENCRYPT";
  lit "CKA_DECRYPT"; lit "CKA_WRAP"; lit "CKA_UNWRAP"; lit "CKA_SIGN"; lit "CKA_SIGN_RECOVER";
  lit "CKA_VERIFY"; lit "CKA_VERIFY_RECOVER"; lit "CKA_DERIVE"; lit "CKA_START_DATE"; lit "CKA_END_DATE";
  lit "CKA_MODULUS"; lit "CKA_MODULUS_BITS"; lit "CKA_PUBLIC_EXPONENT"; lit "CKA_PRIVATE_EXPONENT";
  lit "CKA_PRIME_1"; lit "CKA_PRIME_2"; lit "CKA_EXPONENT_1"; lit "CKA_EXPONENT_2"; lit "CKA_COEFFICIENT";
  lit "CKA_PRIME"; lit "CKA_SUBPRIME"; lit "CKA_BASE"; lit "CKA_PRIME_BITS"; lit "CKA_VALUE_BITS";
  lit "CKA_VALUE_LEN"; lit "CKA_EXTRACTABLE"; lit "CKA_LOCAL"; lit "CKA_NEVER_EXTRACTABLE";
  lit "CKA_ALWAYS_SENSITIVE"; lit "CKA_KEY_GEN_MECHANISM"; lit "CKA_MODIFIABLE"; lit "CKA_ECDSA_PARAMS";
  lit "CKA_EC_POINT"; lit "CKA_SECONDARY_AUTH"; lit "CKA_AUTH_PIN_FLAGS"; lit "CKA_ALWAYS_AUTHENTICATE";
  lit "CKA_WRAP_WITH_TRUSTED"; lit "CKA_WRAP_TEMPLATE"; lit "CKA_UNWRAP_TEMPLATE"; lit "CKA_HW_FEATURE_TYPE";
  lit "CKA_RESET_ON_INIT"; lit "CKA_HAS_RESET"; lit "CKA_PIXEL_X"; lit "CKA_PIXEL_Y"; lit "CKA_RESOLUTION";
  lit "CKA_CHAR_ROWS"; lit "CKA_CHAR_COLUMNS"; lit "CKA_COLOR"; lit "CKA_BITS_PER_PIXEL";
  lit "CKA_CHAR_SETS"; lit "CKA_ENCODING_METHODS"; lit "CKA_MIME_TYPES"; lit "CKA_MECHANISM_TYPE";
  lit "CKA_REQUIRED_CMS_ATTRIBUTES"; lit "CKA_DEFAULT_CMS_ATTRIBUTES"; lit "CKA_SUPPORTED_CMS_ATTRIBUTES";
  lit "CKA_ALLOWED_MECHANISMS"; lit "CKA_X_ASSERTION_TYPE"; lit "CKA_X_CERTIFICATE_VALUE";
  lit "CKA_X_PURPOSE"; lit "CKA_X_PEER"].

(** [printf] in hexadecimal, of a 64-bit number, upper ([a] is 65) or lower case (97). *)
Fixpoint utox (a : Z) (fuel : nat) (n : Z) (acc : list Z) : list Z :=
  match fuel with
  | O => acc
  | S fuel =>
    let d := n mod 16 in
    let acc := (if d <? 10 then 48 + d else a + d - 10) :: acc in
    if n <? 16 then acc else utox a fuel (n / 16) acc
  end.

Definition print_hex (a : Z) (width : nat) (n : Z) : list Z :=
  let s := utox a 16 n [] in replicate (width - length s) 48 ++ s.

(** [%d] of a [guint]. *)
Definition print_d (n : Z) : list Z :=
  let n := s32 n in if n <? 0 then 45 :: print_u (- n) else print_u n.

Section Format.
Context `{Environment}.

(** The name of the constant that has the value [v], the [case] that is taken. *)
Definition name_of (names : list (list Z)) (v : Z) : option (list Z) :=
  List.find (fun name => constant name =? v) names.

Definition _gck_attribute_is_ulong_of_type (a : Attr) (t : Z) : bool :=
  if negb (attr_type a =? t) then false else
  if negb (a_length a =? 8) then false else
  if value a =? 0 then false else true.

Definition _gck_attribute_is_sensitive (a : Attr) : bool :=
  match name_of not_sensitive_names (attr_type a) with Some _ => false | None => true end.

Definition name_or_hex (prefix : list Z) (names : list (list Z)) (v : Z) : list Z :=
  match name_of names v with Some name => name | None => prefix ++ print_hex 65 8 v end.

Definition _gck_format_class (v : Z) : list Z := name_or_hex (lit "0x") class_names v.
Definition _gck_format_assertion_type (v : Z) : list Z := name_or_hex (lit "0x") assertion_type_names v.
Definition _gck_format_key_type (v : Z) : list Z := name_or_hex (lit "0x") key_type_names v.
Definition _gck_format_certificate_type (v : Z) : list Z := name_or_hex (lit "0x") certificate_type_names v.
Definition _gck_format_attribute_type (v : Z) : list Z := name_or_hex (lit "CKA_0x") attribute_type_names v.

Definition format_byte (ch : Z) : list Z :=
  if ch =? 9 then lit "\t" else if ch =? 10 then lit "\n" else if ch =? 13 then lit "\r"
  else if (32 <=? ch) && (ch <? 127) then [ch] else lit "\x" ++ print_hex 97 2 ch.

(** [bs]: the bytes at the pointer, [None] for NULL; 34 is the quote. *)
Definition _gck_format_some_bytes (bs : option (list Z)) : list Z :=
  match bs with
  | None => lit "NULL"
  | Some bs =>
    [34] ++ (take 128 bs ≫= format_byte) ++ (if (128 <? length bs)%nat then lit "..." else []) ++ [34]
  end.

Definition format_attribute (p : AttrPtr) : M (list Z) :=
  a ← deref p;
  let head := lit " { " ++ _gck_format_attribute_type (attr_type a) ++ lit " = " in
  body ← (
    if a_length a =? GCK_INVALID then mret (lit " (-1) INVALID")
    else if _gck_attribute_is_ulong_of_type a (constant (lit "CKA_CLASS")) then
      v ← gck_attribute_get_ulong p; mret (_gck_format_class v)
    else if _gck_attribute_is_ulong_of_type a (constant (lit "CKA_X_ASSERTION_TYPE")) then
      v ← gck_attribute_get_ulong p; mret (_gck_format_assertion_type v)
    else if _gck_attribute_is_ulong_of_type a (constant (lit "CKA_CERTIFICATE_TYPE")) then
      v ← gck_attribute_get_ulong p; mret (_gck_format_certificate_type v)
    else if _gck_attribute_is_ulong_of_type a (constant (lit "CKA_KEY_TYPE")) then
      v ← gck_attribute_get_ulong p; mret (_gck_format_key_type v)
    else if _gck_attribute_is_sensitive a then
      mret (lit " (" ++ print_lu (a_length a) ++ lit ") NOT-PRINTED")
    else
      bs ← (if value a =? 0 then mret None else bs ← read_value a; mret (Some bs));
      mret (lit " (" ++ print_lu (a_length a) ++ lit ") " ++ _gck_format_some_bytes bs));
  mret (head ++ body ++ lit " }").

Fixpoint format_from (a : Z) (indices : list nat) : M (list Z) :=
  match indices with
  | [] => mret []
  | i :: indices =>
    x ← format_attribute (InAttributes a i);
    rest ← format_from a indices;
    mret ((if (0 <? i)%nat then lit "," else []) ++ x ++ rest)
  end.

Definition _gck_format_attributes (a : Z) : M (list Z) :=
  s ← attributes_at a;
  body ← format_from a (seq 0 (length (data s)));
  mret (lit "(" ++ print_d (Zlen (data s)) ++ lit ") [" ++ body ++ lit " ]").

Definition gck_attributes_to_string (a : Z) : M (list Z) := _gck_format_attributes a.
End Format.
