(* ===== verification/AttrStore.v ===== *)
(** PKCS#11 attributes: the invariant of the shared values, and what a client sees.

    [ok E st]: every value is counted exactly, once for each attribute that points to it
    and once for each reference in [E], which the running function still holds; no
    pointer dangles; no value is left that nothing points to.  [abs st] is what a client
    sees: for every object a list of types and contents.  The lemmas say how the parts of
    [Attributes] act on both. *)

From S2P Require Import Prelude StateM Attributes.
Local Open Scope Z_scope.

(** * What a client sees *)

Inductive Content :=
  | Invalid
  | Null (n : Z)
  | Bytes (bs : list Z).

#[export] Instance content_eq_dec : EqDecision Content.
Proof. solve_decision. Defined.

Abbreviation Entry := (Z * Content)%type.

Definition content (vs : gmap Z Value) (a : Attr) : Entry :=
  (attr_type a,
   if a_length a =? G_MAXULONG then Invalid
   else if value a =? 0 then Null (a_length a)
   else match vs !! value a with Some v => Bytes (take (Z.to_nat (a_length a)) (vbytes v)) | None => Invalid end).

Record ABuilder := mk_ab { entries : list Entry; ab_secure : bool; ab_refs : Z }.
Record Abs := mk_abs {
  abs_b : gmap Z ABuilder;
  abs_a : gmap Z (list Entry * Z);
  abs_s : gmap Z Entry
}.

Definition view_b vs (r : Builder) : ABuilder := mk_ab (content vs <$> elements r) (secure r) (b_refs r).
Definition view_a vs (s : Attributes) : list Entry * Z := (content vs <$> data s, a_refs s).

Definition abs (st : St) : Abs :=
  mk_abs (view_b (values st) <$> builders st) (view_a (values st) <$> attributes st) (content (values st) <$> structs st).

(** * Counting references *)

Definition cnt (p : Z) (o : list Z) : Z := Zlen (filter (fun q => q = p) o).

Lemma cnt_nil p : cnt p [] = 0.
Proof. done. Qed.
Lemma cnt_cons p q o : cnt p (q :: o) = (if decide (q = p) then 1 else 0) + cnt p o.
Proof. unfold cnt. rewrite filter_cons. case_decide; cbn [length]; lia. Qed.
Lemma cnt_app p o1 o2 : cnt p (o1 ++ o2) = cnt p o1 + cnt p o2.
Proof. unfold cnt. rewrite filter_app, length_app. lia. Qed.
Lemma cnt_nonneg p o : 0 <= cnt p o.
Proof. unfold cnt. lia. Qed.
Lemma cnt_le p o : cnt p o <= Zlen o.
Proof. unfold cnt. pose proof (length_filter (fun q => q = p) o). lia. Qed.
Lemma cnt_pos p o : 0 < cnt p o <-> p ∈ o.
Proof.
  induction o as [|q o IH]; [rewrite cnt_nil; split; [lia|by intros ?%elem_of_nil]|].
  rewrite cnt_cons, elem_of_cons. pose proof (cnt_nonneg p o). case_decide; subst; [split; [by left|lia]|].
  rewrite Z.add_0_l, IH. naive_solver.
Qed.

#[export] Instance cnt_proper p : Proper ((≡ₚ) ==> (=)) (cnt p).
Proof. intros o o' E. unfold cnt. by rewrite E. Qed.

(** The values, against the references held to them. *)
Record counted (vs : gmap Z Value) (o : list Z) : Prop := {
  c_exact p v : vs !! p = Some v -> p <> 0 /\ refs v = cnt p o /\ 0 < cnt p o;
  c_there p : p ∈ o -> is_Some (vs !! p)
}.

#[export] Instance counted_proper vs : Proper ((≡ₚ) ==> (iff)) (counted vs).
Proof.
  assert (forall o o', o ≡ₚ o' -> counted vs o -> counted vs o') as Himp.
  { intros o o' E [H1 H2]. split; [intros p v Hp|intros p Hp]; [rewrite <- E; by apply H1|apply H2; by rewrite E]. }
  intros o o' E. split; apply Himp; [done|by symmetry].
Qed.

(** The contents of the values that something points to are the same. *)
Definition keeps (o : list Z) (vs vs' : gmap Z Value) : Prop :=
  forall p, p ∈ o -> vbytes <$> vs' !! p = vbytes <$> vs !! p.

Lemma keeps_refl o vs : keeps o vs vs.
Proof. done. Qed.

Lemma keeps_trans o vs1 vs2 vs3 : keeps o vs1 vs2 -> keeps o vs2 vs3 -> keeps o vs1 vs3.
Proof. intros H1 H2 p Hp. by rewrite H2, H1. Qed.

Definition with_refs (n : Z) (v : Value) : Value := mk_value n (vbytes v) (in_secure v).

Lemma keeps_refs o vs p v n : vs !! p = Some v -> keeps o vs (<[p := with_refs n v]> vs).
Proof.
  intros Hp q _. destruct (decide (q = p)) as [->|Hne]; [by rewrite lookup_insert_eq, Hp|by rewrite lookup_insert_ne].
Qed.

Lemma counted_ref vs o p v : counted vs o -> vs !! p = Some v -> Zlen o + 1 < 2 ^ 31 ->
  s32 (refs v + 1) = refs v + 1 /\ 0 < refs v /\ counted (<[p := with_refs (refs v + 1) v]> vs) (p :: o).
Proof.
  intros [H1 H2] Hp Hroom. destruct (H1 p v Hp) as (Hp0 & Hr & Hpos). pose proof (cnt_le p o).
  split_and!; [apply s32_small; lia|lia|]. split.
  - intros q w. rewrite lookup_insert_Some. intros [[<- <-]|[Hne Hq]].
    + rewrite cnt_cons, decide_True by done. cbn. split_and!; [done|lia|lia].
    + rewrite cnt_cons, decide_False by done. rewrite Z.add_0_l. by apply H1.
  - intros q Hq. apply lookup_insert_is_Some'. destruct (decide (p = q)); [by left|right].
    apply elem_of_cons in Hq as [?|?]; [congruence|by apply H2].
Qed.

Lemma counted_new vs o p bs s : counted vs o -> p <> 0 -> vs !! p = None ->
  counted (<[p := mk_value 1 bs s]> vs) (p :: o).
Proof.
  intros [H1 H2] Hp0 Hp.
  assert (cnt p o = 0) as Hc.
  { pose proof (cnt_nonneg p o). destruct (decide (p ∈ o)) as [Hin|Hin]; [destruct (H2 p Hin); congruence|].
    rewrite <- cnt_pos in Hin. lia. }
  split.
  - intros q w. rewrite lookup_insert_Some. intros [[<- <-]|[Hne Hq]].
    + rewrite cnt_cons, decide_True by done. cbn. split_and!; [done|lia|lia].
    + rewrite cnt_cons, decide_False by done. rewrite Z.add_0_l. by apply H1.
  - intros q Hq. apply lookup_insert_is_Some'. destruct (decide (p = q)); [by left|right].
    apply elem_of_cons in Hq as [?|?]; [congruence|by apply H2].
Qed.

(** A reference is given up. *)
Definition unref (p : Z) (v : Value) (vs : gmap Z Value) : gmap Z Value :=
  if refs v =? 1 then delete p vs else <[p := with_refs (refs v - 1) v]> vs.

Lemma counted_unref vs o p v : counted vs (p :: o) -> vs !! p = Some v -> Zlen o + 1 < 2 ^ 31 ->
  s32 (refs v - 1) = refs v - 1 /\ counted (unref p v vs) o /\ keeps o vs (unref p v vs).
Proof.
  intros [H1 H2] Hp Hroom. destruct (H1 p v Hp) as (Hp0 & Hr & Hpos). rewrite cnt_cons, decide_True in Hr by done.
  pose proof (cnt_le p o). pose proof (cnt_nonneg p o). split; [apply s32_small; lia|].
  unfold unref. destruct (Z.eqb_spec (refs v) 1) as [E|Hne].
  - assert (p ∉ o) as Hno by (rewrite <- cnt_pos; lia). split.
    + split.
      * intros q w [Hqp Hq]%lookup_delete_Some. specialize (H1 q w Hq). by rewrite cnt_cons, decide_False, Z.add_0_l in H1.
      * intros q Hq. assert (p <> q) by congruence. rewrite lookup_delete_ne by done. apply H2. by right.
    + intros q Hq. assert (p <> q) by congruence. by rewrite lookup_delete_ne.
  - split; [|by apply keeps_refs]. split.
    + intros q w. rewrite lookup_insert_Some. intros [[<- <-]|[Hqp Hq]].
      * cbn. split_and!; [done|lia|lia].
      * specialize (H1 q w Hq). by rewrite cnt_cons, decide_False, Z.add_0_l in H1.
    + intros q Hq. apply lookup_insert_is_Some'. right. apply H2. by right.
Qed.

(** * The attributes of all objects *)

Definition gather {A} (f : A -> list Attr) (m : gmap Z A) : list Attr := map_to_list m ≫= (fun kv => f kv.2).

Lemma gather_insert {A} (f : A -> list Attr) m k x : gather f (<[k := x]> m) ≡ₚ f x ++ gather f (delete k m).
Proof.
  unfold gather. rewrite <- insert_delete_eq. rewrite map_to_list_insert by apply lookup_delete_eq. by rewrite bind_cons.
Qed.

Lemma gather_lookup {A} (f : A -> list Attr) m k x : m !! k = Some x -> gather f m ≡ₚ f x ++ gather f (delete k m).
Proof. intros Hx. rewrite <- (insert_id m k x Hx) at 1. apply gather_insert. Qed.

Lemma elem_gather {A} (f : A -> list Attr) m k x a : m !! k = Some x -> a ∈ f x -> a ∈ gather f m.
Proof. intros Hx Ha. rewrite (gather_lookup f m k x Hx). apply elem_of_app. by left. Qed.

Definition single (a : Attr) : list Attr := [a].

Definition others (bs : gmap Z Builder) (ats : gmap Z Attributes) (ss : gmap Z Attr) : list Attr :=
  gather elements bs ++ gather data ats ++ gather single ss.

Definition all_attrs (st : St) : list Attr := others (builders st) (attributes st) (structs st).

Definition owners (l : list Attr) : list Z := filter (fun p => p <> 0) (value <$> l).

Lemma owners_app l1 l2 : owners (l1 ++ l2) = owners l1 ++ owners l2.
Proof. unfold owners. by rewrite fmap_app, filter_app. Qed.

Lemma owners_one a : owners [a] = if decide (value a = 0) then [] else [value a].
Proof. unfold owners. cbn [fmap list_fmap]. rewrite filter_cons, filter_nil. repeat case_decide; done. Qed.

Lemma elem_owners a l : a ∈ l -> value a <> 0 -> value a ∈ owners l.
Proof. intros Ha Hv. apply list_elem_of_filter. split; [done|]. by apply list_elem_of_fmap_2. Qed.

Lemma owners_bound l : Zlen (owners l) <= Zlen l.
Proof. unfold owners. pose proof (length_filter (fun p => p <> 0) (value <$> l)). rewrite length_fmap in *. lia. Qed.

#[export] Instance owners_proper : Proper ((≡ₚ) ==> (≡ₚ)) owners.
Proof. intros l l' E. unfold owners. by rewrite E. Qed.

(** The length of a value does not go past its bytes. *)
Definition sized (vs : gmap Z Value) (a : Attr) : Prop :=
  value a <> 0 -> exists v, vs !! value a = Some v /\ 0 <= a_length a <= Zlen (vbytes v) /\ a_length a < G_MAXULONG.

Lemma same_bytes (vs vs' : gmap Z Value) p v : vbytes <$> vs' !! p = vbytes <$> vs !! p -> vs !! p = Some v ->
  exists v', vs' !! p = Some v' /\ vbytes v' = vbytes v.
Proof. intros E Hv. rewrite Hv in E. destruct (vs' !! p) as [v'|]; [|done]. exists v'. split; [done|]. by injection E. Qed.

Lemma sized_keeps vs vs' l a : keeps (owners l) vs vs' -> a ∈ l -> sized vs a -> sized vs' a.
Proof.
  intros Hk Ha Hs Hv. destruct (Hs Hv) as (v & Hp & Hlen). destruct (same_bytes vs vs' (value a) v) as (v' & Hp' & E);
    [by apply Hk, elem_owners|done|]. exists v'. by rewrite E.
Qed.

Lemma content_keeps vs vs' l a : keeps (owners l) vs vs' -> a ∈ l -> content vs' a = content vs a.
Proof.
  intros Hk Ha. unfold content. case_match; [done|]. destruct (Z.eqb_spec (value a) 0) as [|Hv]; [done|].
  specialize (Hk _ (elem_owners _ _ Ha Hv)). destruct (vs' !! value a), (vs !! value a); try done. by injection Hk as ->.
Qed.

Lemma contents_keep vs vs' l (k : list Attr) : keeps (owners l) vs vs' -> (forall a, a ∈ k -> a ∈ l) -> content vs' <$> k = content vs <$> k.
Proof. intros Hk Hsub. apply list_fmap_ext. intros i a Ha. eapply content_keeps; [done|]. apply Hsub. by eapply list_elem_of_lookup_2. Qed.

(** A view of a map of objects, one of which was changed. *)
Lemma view_insert {A B} (f f' : A -> B) (m : gmap Z A) k x : (forall j y, delete k m !! j = Some y -> f' y = f y) ->
  f' <$> <[k := x]> m = <[k := f' x]> (f <$> m).
Proof.
  intros Hsame. rewrite fmap_insert. apply map_eq. intros j. destruct (decide (j = k)) as [->|Hne].
  { by rewrite !lookup_insert_eq. }
  rewrite !lookup_insert_ne, !lookup_fmap by done. destruct (m !! j) as [y|] eqn:E; [|done]. cbn. f_equal.
  apply (Hsame j). by rewrite lookup_delete_ne.
Qed.

Lemma view_same {A B} (f f' : A -> B) (m : gmap Z A) : (forall j y, m !! j = Some y -> f' y = f y) -> f' <$> m = f <$> m.
Proof. intros Hsame. apply map_fmap_ext. intros j y Hy. by apply (Hsame j). Qed.

(** * The invariant *)

Record ok (E : list Z) (st : St) : Prop := {
  ok_counted : counted (values st) (E ++ owners (all_attrs st));
  ok_sized : Forall (sized (values st)) (all_attrs st)
}.

Lemma ok_perm E E' st : E ≡ₚ E' -> ok E st -> ok E' st.
Proof. intros HE [H1 H2]. split; [by rewrite <- HE|done]. Qed.

Lemma view_others_b vs vs' l m : keeps (owners l) vs vs' -> (forall a, a ∈ gather elements m -> a ∈ l) ->
  forall j y, m !! j = Some y -> view_b vs' y = view_b vs y.
Proof.
  intros Hk Hsub j y Hy. unfold view_b. f_equal. eapply contents_keep; [exact Hk|]. intros a Ha. apply Hsub.
  by eapply elem_gather.
Qed.

Lemma view_others_a vs vs' l m : keeps (owners l) vs vs' -> (forall a, a ∈ gather data m -> a ∈ l) ->
  forall j y, m !! j = Some y -> view_a vs' y = view_a vs y.
Proof.
  intros Hk Hsub j y Hy. unfold view_a. f_equal. eapply contents_keep; [exact Hk|]. intros a Ha. apply Hsub.
  by eapply elem_gather.
Qed.

Lemma view_others_s vs vs' l m : keeps (owners l) vs vs' -> (forall a, a ∈ gather single m -> a ∈ l) ->
  forall j y, m !! j = Some y -> content vs' y = content vs y.
Proof.
  intros Hk Hsub j y Hy. eapply content_keeps; [exact Hk|]. apply Hsub. eapply elem_gather; [exact Hy|]. by left.
Qed.

Ltac in_others := let a := fresh in let Ha := fresh in
  intros a Ha; unfold all_attrs, others; rewrite !elem_of_app; naive_solver.

(** An object is put in place of another, or of none: what has to be shown of the values
    is about that object and the others. *)
Section Update.
Context (E E' : list Z) (vs vs' : gmap Z Value) (bs : gmap Z Builder) (ats : gmap Z Attributes) (ss : gmap Z Attr).

(** What is asked of new values [vs'], when the attributes [l] are replaced by [l']. *)
Definition moved (rest l' : list Attr) : Prop :=
  counted vs' (E' ++ owners l' ++ owners rest) /\ Forall (sized vs') l' /\ keeps (owners rest) vs vs'.

Lemma moved_sized rest l' : Forall (sized vs) rest -> moved rest l' -> Forall (sized vs') (l' ++ rest).
Proof.
  intros Hs (_ & Hs' & Hk). apply Forall_app. split; [done|]. apply Forall_forall. intros a Ha.
  rewrite Forall_forall in Hs. by eapply sized_keeps; [exact Hk|exact Ha|apply Hs].
Qed.

Lemma moved_ok st' rest l l' : ok E (mk_st vs bs ats ss) -> others bs ats ss ≡ₚ l ++ rest ->
  values st' = vs' -> all_attrs st' ≡ₚ l' ++ rest -> moved rest l' -> ok E' st'.
Proof.
  intros [Hc Hs] Hl Hv Ha Hm. unfold all_attrs in Hs. cbn [builders attributes structs values] in Hs.
  rewrite Hl in Hs. apply Forall_app in Hs as [_ Hs]. split.
  - rewrite Hv, Ha, owners_app. by destruct Hm.
  - rewrite Hv, Ha. by apply moved_sized.
Qed.

Lemma ok_put_builder b r' : ok E (mk_st vs bs ats ss) -> moved (others (delete b bs) ats ss) (elements r') ->
  ok E' (mk_st vs' (<[b := r']> bs) ats ss) /\
  abs (mk_st vs' (<[b := r']> bs) ats ss) =
    mk_abs (<[b := view_b vs' r']> (view_b vs <$> bs)) (view_a vs <$> ats) (content vs <$> ss).
Proof.
  intros Hok Hm. split.
  - eapply (moved_ok _ (others (delete b bs) ats ss) (default [] (elements <$> bs !! b))); [exact Hok| |done| |exact Hm].
    + unfold others. destruct (bs !! b) as [r|] eqn:Hb; cbn [fmap option_fmap option_map default].
      * rewrite (gather_lookup elements bs b r Hb). by rewrite <- (assoc_L (++)).
      * by rewrite delete_id.
    + unfold all_attrs, others. cbn [builders attributes structs]. rewrite gather_insert. by rewrite <- (assoc_L (++)).
  - destruct Hm as (_ & _ & Hk). unfold abs. cbn [values builders attributes structs]. f_equal.
    + apply view_insert. eapply view_others_b; [exact Hk|]. in_others.
    + apply view_same. eapply view_others_a; [exact Hk|]. in_others.
    + apply view_same. eapply view_others_s; [exact Hk|]. in_others.
Qed.

Lemma ok_put_attributes a s' : ok E (mk_st vs bs ats ss) -> moved (others bs (delete a ats) ss) (data s') ->
  ok E' (mk_st vs' bs (<[a := s']> ats) ss) /\
  abs (mk_st vs' bs (<[a := s']> ats) ss) =
    mk_abs (view_b vs <$> bs) (<[a := view_a vs' s']> (view_a vs <$> ats)) (content vs <$> ss).
Proof.
  intros Hok Hm. split.
  - eapply (moved_ok _ (others bs (delete a ats) ss) (default [] (data <$> ats !! a))); [exact Hok| |done| |exact Hm].
    + unfold others. destruct (ats !! a) as [s|] eqn:Ha; cbn [fmap option_fmap option_map default].
      * rewrite (gather_lookup data ats a s Ha). rewrite <- !(assoc_L (++)). apply Permutation_app_swap_app.
      * by rewrite delete_id.
    + unfold all_attrs, others. cbn [builders attributes structs]. rewrite gather_insert.
      rewrite <- !(assoc_L (++)). apply Permutation_app_swap_app.
  - destruct Hm as (_ & _ & Hk). unfold abs. cbn [values builders attributes structs]. f_equal.
    + apply view_same. eapply view_others_b; [exact Hk|]. in_others.
    + apply view_insert. eapply view_others_a; [exact Hk|]. in_others.
    + apply view_same. eapply view_others_s; [exact Hk|]. in_others.
Qed.

Lemma ok_put_struct p x' : ok E (mk_st vs bs ats ss) -> moved (others bs ats (delete p ss)) [x'] ->
  ok E' (mk_st vs' bs ats (<[p := x']> ss)) /\
  abs (mk_st vs' bs ats (<[p := x']> ss)) =
    mk_abs (view_b vs <$> bs) (view_a vs <$> ats) (<[p := content vs' x']> (content vs <$> ss)).
Proof.
  intros Hok Hm. split.
  - eapply (moved_ok _ (others bs ats (delete p ss)) (default [] (single <$> ss !! p))); [exact Hok| |done| |exact Hm].
    + unfold others. destruct (ss !! p) as [x|] eqn:Hp; cbn [fmap option_fmap option_map default].
      * rewrite (gather_lookup single ss p x Hp). rewrite !(assoc_L (++)). rewrite <- (Permutation_app_comm (single x)).
        by rewrite !(assoc_L (++)).
      * by rewrite delete_id.
    + unfold all_attrs, others. cbn [builders attributes structs]. rewrite gather_insert.
      rewrite !(assoc_L (++)). rewrite <- (Permutation_app_comm (single x')). by rewrite !(assoc_L (++)).
  - destruct Hm as (_ & _ & Hk). unfold abs. cbn [values builders attributes structs]. f_equal.
    + apply view_same. eapply view_others_b; [exact Hk|]. in_others.
    + apply view_same. eapply view_others_a; [exact Hk|]. in_others.
    + apply view_insert. eapply view_others_s; [exact Hk|]. in_others.
Qed.
End Update.

(** * Removing objects, and changing values alone *)

Lemma others_delete_b b bs ats ss r : bs !! b = Some r -> others bs ats ss ≡ₚ elements r ++ others (delete b bs) ats ss.
Proof. intros Hb. unfold others. rewrite (gather_lookup elements bs b r Hb). by rewrite <- (assoc_L (++)). Qed.

Lemma others_delete_a a bs ats ss s : ats !! a = Some s -> others bs ats ss ≡ₚ data s ++ others bs (delete a ats) ss.
Proof.
  intros Ha. unfold others. rewrite (gather_lookup data ats a s Ha). rewrite <- !(assoc_L (++)). apply Permutation_app_swap_app.
Qed.

Lemma others_delete_s p bs ats ss x : ss !! p = Some x -> others bs ats ss ≡ₚ [x] ++ others bs ats (delete p ss).
Proof.
  intros Hp. unfold others. rewrite (gather_lookup single ss p x Hp). rewrite !(assoc_L (++)).
  rewrite <- (Permutation_app_comm (single x)). by rewrite !(assoc_L (++)).
Qed.

Lemma ok_delete_builder E st b r : ok E st -> builders st !! b = Some r -> owners (elements r) = [] ->
  ok E (with_builders (delete b (builders st)) st) /\
  abs (with_builders (delete b (builders st)) st) = mk_abs (delete b (abs_b (abs st))) (abs_a (abs st)) (abs_s (abs st)).
Proof.
  intros [Hc Hs] Hb Ho. pose proof (others_delete_b b _ (attributes st) (structs st) r Hb) as Hp. unfold all_attrs in *. split.
  - rewrite Hp in Hc, Hs. rewrite owners_app, Ho in Hc. apply Forall_app in Hs as [_ Hs]. by split.
  - unfold abs. cbn. by rewrite fmap_delete.
Qed.

Lemma ok_values E E' st vs' : ok E st -> counted vs' (E' ++ owners (all_attrs st)) ->
  keeps (owners (all_attrs st)) (values st) vs' ->
  ok E' (with_values vs' st) /\ abs (with_values vs' st) = abs st.
Proof.
  intros [Hc Hs] Hc' Hk. split.
  - split; [done|]. rewrite Forall_forall in *. intros a Ha. eapply sized_keeps; [exact Hk|exact Ha|]. by apply Hs.
  - unfold abs. cbn [values builders attributes structs with_values]. f_equal.
    + apply view_same. eapply view_others_b; [exact Hk|]. in_others.
    + apply view_same. eapply view_others_a; [exact Hk|]. in_others.
    + apply view_same. eapply view_others_s; [exact Hk|]. in_others.
Qed.

(** * Counting by what is seen *)

Definition is_bytes (e : Entry) : Prop := match e.2 with Bytes _ => True | _ => False end.
#[export] Instance is_bytes_dec e : Decision (is_bytes e).
Proof. unfold is_bytes. case_match; apply _. Defined.

Definition entries_of (A : Abs) : list Entry :=
  (map_to_list (abs_b A) ≫= (fun kv => entries kv.2)) ++ (map_to_list (abs_a A) ≫= (fun kv => kv.2.1)) ++
  (map_to_list (abs_s A) ≫= (fun kv => [kv.2])).

Lemma gather_view {A B} (f : A -> list Attr) (g : A -> B) (h : B -> list Entry) vs (m : gmap Z A) :
  (forall x, h (g x) = content vs <$> f x) ->
  map_to_list (g <$> m) ≫= (fun kv => h kv.2) = content vs <$> gather f m.
Proof.
  intros Hh. rewrite map_to_list_fmap. unfold gather. induction (map_to_list m) as [|[k x] l IH]; [done|].
  rewrite fmap_cons, !bind_cons, fmap_app, IH. cbn. by rewrite Hh.
Qed.

Lemma entries_abs st : entries_of (abs st) = content (values st) <$> all_attrs st.
Proof.
  unfold entries_of, all_attrs, others, abs. cbn [abs_b abs_a abs_s]. rewrite !fmap_app.
  by rewrite (gather_view elements (view_b (values st)) entries (values st)),
    (gather_view data (view_a (values st)) fst (values st)), (gather_view single (content (values st)) (fun e => [e]) (values st)).
Qed.

Lemma sized_bytes vs a : sized vs a -> is_bytes (content vs a) <-> value a <> 0.
Proof.
  intros Hs. unfold is_bytes, content. cbn [snd]. destruct (Z.eqb_spec (value a) 0) as [Hv|Hv].
  - case_match; split; by try case_match.
  - destruct (Hs Hv) as (v & -> & ? & ?). destruct (Z.eqb_spec (a_length a) G_MAXULONG); [lia|]. done.
Qed.

Definition weight (A : Abs) : Z := Zlen (filter is_bytes (entries_of A)).

Lemma weight_held E st : ok E st -> weight (abs st) = Zlen (owners (all_attrs st)).
Proof.
  intros [_ Hs]. unfold weight. rewrite entries_abs. induction (all_attrs st) as [|a l IH]; [done|].
  apply Forall_cons in Hs as [Ha Hs]. change (a :: l) with ([a] ++ l). rewrite fmap_app, filter_app, owners_app, !length_app.
  rewrite owners_one. specialize (IH Hs). cbn [fmap list_fmap]. rewrite filter_cons, filter_nil.
  pose proof (sized_bytes _ _ Ha). repeat case_decide; cbn [length]; try tauto; lia.
Qed.

(** Nothing is left when no attribute has a value. *)
Lemma ok_empty st : ok [] st -> weight (abs st) = 0 -> values st = ∅.
Proof.
  intros Hok Hw. rewrite (weight_held _ _ Hok) in Hw. destruct Hok as [[Hc _] _]. apply map_eq. intros p. rewrite lookup_empty.
  destruct (values st !! p) as [v|] eqn:Hv; [|done]. destruct (Hc p v Hv) as (_ & _ & Hpos). cbn [app] in Hpos.
  destruct (owners (all_attrs st)); [done|]. cbn [length] in Hw. lia.
Qed.

(** * Single steps *)

Lemma wp_or_fail {A} (o : option A) a (Q : A -> St -> Prop) st : o = Some a -> Q a st -> wp (or_fail o) Q st.
Proof. by intros -> ?. Qed.

Lemma wp_value_at p v (Q : Value -> St -> Prop) st : values st !! p = Some v -> Q v st -> wp (value_at p) Q st.
Proof. intros. unfold value_at. apply wp_bind, wp_gets. by eapply wp_or_fail. Qed.
Lemma wp_builder_at b r (Q : Builder -> St -> Prop) st : builders st !! b = Some r -> Q r st -> wp (builder_at b) Q st.
Proof. intros. unfold builder_at. apply wp_bind, wp_gets. by eapply wp_or_fail. Qed.
Lemma wp_attributes_at a s (Q : Attributes -> St -> Prop) st : attributes st !! a = Some s -> Q s st -> wp (attributes_at a) Q st.
Proof. intros. unfold attributes_at. apply wp_bind, wp_gets. by eapply wp_or_fail. Qed.
Lemma wp_struct_at p x (Q : Attr -> St -> Prop) st : structs st !! p = Some x -> Q x st -> wp (struct_at p) Q st.
Proof. intros. unfold struct_at. apply wp_bind, wp_gets. by eapply wp_or_fail. Qed.

(** The attribute a pointer points to. *)
Definition points (st : St) (p : AttrPtr) (x : Attr) : Prop :=
  match p with
  | InBuilder b i => exists r, builders st !! b = Some r /\ elements r !! i = Some x
  | InAttributes a i => exists s, attributes st !! a = Some s /\ data s !! i = Some x
  | Alone p => structs st !! p = Some x
  end.

Lemma wp_deref p x (Q : Attr -> St -> Prop) st : points st p x -> Q x st -> wp (deref p) Q st.
Proof.
  intros Hp HQ. destruct p as [b i|a i|p]; cbn [points deref] in *.
  - destruct Hp as (r & Hr & Hx). apply wp_bind. eapply wp_builder_at; [exact Hr|]. by eapply wp_or_fail.
  - destruct Hp as (s & Hr & Hx). apply wp_bind. eapply wp_attributes_at; [exact Hr|]. by eapply wp_or_fail.
  - by eapply wp_struct_at.
Qed.

Definition with_elements (l : list Attr) (r : Builder) : Builder := mk_builder (Some l) (secure r) (b_refs r).

Lemma wp_upd_element b i f r x (Q : unit -> St -> Prop) st : builders st !! b = Some r -> elements r !! i = Some x ->
  Q tt (with_builders (<[b := with_elements (<[i := f x]> (elements r)) r]> (builders st)) st) -> wp (upd_element b i f) Q st.
Proof.
  intros Hr Hx HQ. unfold upd_element. apply wp_bind. eapply wp_builder_at; [exact Hr|].
  apply wp_bind. eapply wp_or_fail; [exact Hx|]. done.
Qed.

Ltac step := first
  [ step_core
  | lazymatch goal with
    | |- wp (value_at _) _ _ => eapply wp_value_at; [eassumption|]
    | |- wp (builder_at _) _ _ => eapply wp_builder_at; [eassumption|]
    | |- wp (attributes_at _) _ _ => eapply wp_attributes_at; [eassumption|]
    | |- wp (struct_at _) _ _ => eapply wp_struct_at; [eassumption|]
    | |- wp (deref _) _ _ => eapply wp_deref; [eassumption|]
    | |- wp (put_value _ _) _ _ => apply wp_modify
    | |- wp (put_builder _ _) _ _ => apply wp_modify
    | |- wp (put_attributes _ _) _ _ => apply wp_modify
    | |- wp (put_struct _ _) _ _ => apply wp_modify
    end ]; cbn beta iota zeta.

Lemma new_address_fresh {A} (m : gmap Z A) : m !! new_address m = None /\ 0 < new_address m.
Proof.
  unfold new_address. set (l := (map_to_list m).*1).
  assert (forall x, x ∈ l -> x <= foldr Z.max 0 l) as Hmax.
  { induction l as [|y l IH]; intros x Hx; [by apply elem_of_nil in Hx|].
    apply elem_of_cons in Hx as [->|Hx]; cbn; [lia|]. specialize (IH x Hx). lia. }
  split.
  - destruct (m !! _) as [a|] eqn:E; [|done]. apply elem_of_map_to_list in E. apply (list_elem_of_fmap_2 fst) in E.
    apply Hmax in E. cbn in E. lia.
  - clear Hmax. induction l; cbn; lia.
Qed.

(** * Values *)

(** What may be asked of [value_new]: memory can be had for it. *)
Definition allocatable (len : Z) (sec : bool) : Prop :=
  0 <= len /\ len + MAX_ALIGN <= (if sec then 0x7FFFFFFF else 2 ^ 63).

Lemma allocatable_checks len sec : allocatable len sec -> let total := u64 (len + MAX_ALIGN) in
  negb (total =? 0) && (negb sec || (total <=? 0x7FFFFFFF)) = true /\ (MAX_ALIGN <=? total) = true.
Proof.
  unfold allocatable, MAX_ALIGN. intros [H0 H1]. rewrite u64_small by (destruct sec; lia). split; [|apply Z.leb_le; lia].
  apply andb_true_iff. split; [apply negb_true_iff, Z.eqb_neq; lia|]. destruct sec; [|done]. apply Z.leb_le. lia.
Qed.

Section Values.
Context `{Environment}.

(** A new value: nothing else changes, and the caller has a reference to it. *)
Definition new_value (E : list Z) (st : St) (bs : list Z) (sec : bool) (p : Z) (st' : St) : Prop :=
  p <> 0 /\ values st !! p = None /\ st' = with_values (<[p := mk_value 1 bs sec]> (values st)) st /\
  ok (p :: E) st' /\ abs st' = abs st.

Lemma ok_new_value E st p bs sec : ok E st -> p <> 0 -> values st !! p = None ->
  new_value E st bs sec p (with_values (<[p := mk_value 1 bs sec]> (values st)) st).
Proof.
  intros Hok Hp0 Hp. assert (p ∉ owners (all_attrs st)) as Hno.
  { intros Hin. destruct Hok as [[_ Hc] _]. destruct (Hc p); [apply elem_of_app; by right|congruence]. }
  destruct (ok_values E (p :: E) st (<[p := mk_value 1 bs sec]> (values st))) as [H1 H2].
  - done.
  - cbn [app]. apply counted_new; [by destruct Hok|done|done].
  - intros q Hq. rewrite lookup_insert_ne; [done|]. by intros ->.
  - unfold new_value. by split_and!.
Qed.

Lemma wp_value_blank E st len sec (Q : Z -> St -> Prop) : ok E st -> allocatable len sec ->
  (forall p bs st', Zlen bs = len -> new_value E st bs sec p st' -> Q p st') -> wp (value_blank len sec) Q st.
Proof.
  intros Hok Hal HQ. destruct (allocatable_checks _ _ Hal) as [H1 H2]. unfold value_blank.
  step. apply wp_assert; [exact H1|]. step. apply wp_assert; [exact H2|]. step. step. step. step. step.
  destruct (new_address_fresh (values st)). eapply HQ; [|by apply ok_new_value; [done|lia|]].
  destruct Hal. destruct sec; [rewrite length_replicate|rewrite length_fmap, length_seq]; lia.
Qed.

Lemma slice_take src len : 0 <= len <= Zlen src -> slice src 0 len = Some (take (Z.to_nat len) src).
Proof.
  intros Hlen. unfold slice. assert ((0 <=? 0) && (0 <=? len) && (0 + len <=? Zlen src) = true) as ->.
  { apply andb_true_iff. split; [apply andb_true_iff; split; apply Z.leb_le; lia|apply Z.leb_le; lia]. }
  by rewrite drop_0.
Qed.

Lemma wp_value_new E st src len sec (Q : Z -> St -> Prop) : ok E st -> allocatable len sec -> len <= Zlen src ->
  (forall p st', new_value E st (take (Z.to_nat len) src) sec p st' -> Q p st') -> wp (value_new src len sec) Q st.
Proof.
  intros Hok Hal Hlen HQ. unfold value_new. step. eapply wp_value_blank; [exact Hok|exact Hal|].
  intros p bs st' _ (Hp0 & Hp & -> & _). step. eapply wp_value_at; [apply lookup_insert_eq|].
  step. eapply wp_or_fail; [apply slice_take; destruct Hal; lia|]. step. step. step.
  unfold with_values. cbn [values builders attributes structs refs in_secure]. rewrite insert_insert_eq.
  by apply HQ, ok_new_value.
Qed.

Lemma wp_value_take E st src len sec (Q : Z -> St -> Prop) : ok E st -> allocatable len sec -> len <= Zlen src ->
  (forall p st', new_value E st (take (Z.to_nat len) src) sec p st' -> Q p st') -> wp (value_take src len sec) Q st.
Proof.
  intros Hok Hal Hlen HQ. destruct (allocatable_checks _ _ Hal) as [H1 H2]. unfold value_take.
  step. apply wp_assert; [exact H1|]. step. apply wp_assert; [exact H2|].
  step. eapply wp_or_fail; [apply slice_take; destruct Hal; lia|]. step. step. step. step. step.
  destruct (new_address_fresh (values st)). by apply HQ, ok_new_value; [|lia|].
Qed.

(** How many references there are. *)
Definition held (E : list Z) (st : St) : Z := Zlen E + Zlen (owners (all_attrs st)).

Lemma wp_value_ref E st p v (Q : Z -> St -> Prop) : ok E st -> values st !! p = Some v -> held E st + 1 < 2 ^ 31 ->
  (forall st', st' = with_values (<[p := with_refs (refs v + 1) v]> (values st)) st ->
     ok (p :: E) st' -> abs st' = abs st -> Q p st') -> wp (value_ref p) Q st.
Proof.
  intros Hok Hp Hroom HQ. pose proof Hok as [Hc _]. destruct (c_exact _ _ Hc p v Hp) as (Hp0 & _).
  destruct (counted_ref _ _ p v Hc Hp) as (Hs & Hpos & Hc'); [unfold held in Hroom; rewrite length_app; lia|].
  unfold value_ref. step. step. step. step. step. step. destruct (Z.leb_spec (refs v) 0); [lia|]. rewrite Hs.
  destruct (ok_values E (p :: E) st (<[p := with_refs (refs v + 1) v]> (values st))) as [H1 H2]; [done|done| |by eapply HQ].
  by apply keeps_refs.
Qed.

(** The values after a reference was given up. *)
Lemma wp_value_unref p v (Q : unit -> St -> Prop) st : p <> 0 -> values st !! p = Some v -> s32 (refs v - 1) = refs v - 1 ->
  Q tt (with_values (unref p v (values st)) st) -> wp (value_unref p) Q st.
Proof.
  intros Hp0 Hp Hs HQ. unfold value_unref. step. step. step. step. rewrite Hs. unfold unref in HQ.
  destruct (Z.eqb_spec (refs v - 1) 0), (Z.eqb_spec (refs v) 1); try lia; step; done.
Qed.
End Values.
