(* ===== verification/AttrOps.v ===== *)
(** PKCS#11 attributes: what the functions on builders do to what a client sees.

    The abstract operations work on lists of types and contents; each lemma [wp_...] says
    that a function keeps the invariant [ok] and acts on [abs] as the abstract operation
    of the same name does. *)

From S2P Require Import Prelude StateM Attributes AttrStore.
Local Open Scope Z_scope.

(** * Abstract operations on builders *)

Definition set_entries (b : Z) (l : list Entry) (A : Abs) : Abs :=
  match abs_b A !! b with
  | Some B => mk_abs (<[b := mk_ab l (ab_secure B) (ab_refs B)]> (abs_b A)) (abs_a A) (abs_s A)
  | None => A
  end.

Fixpoint find_entry (l : list Entry) (t : Z) : option nat :=
  match l with [] => None | e :: l => if e.1 =? t then Some O else S <$> find_entry l t end.

(** An empty attribute of type [t] at the end or, when [set], in place of the first one
    of that type: its index and the list. *)
Definition slot (set : bool) (t : Z) (l : list Entry) : nat * list Entry :=
  match (if set then find_entry l t else None) with
  | Some i => (i, <[i := (t, Null 0)]> l)
  | None => (length l, l ++ [(t, Null 0)])
  end.

Definition put (b t : Z) (set : bool) (c : Content) (A : Abs) : option Abs :=
  B ← abs_b A !! b;
  let '(i, l) := slot set t (entries B) in
  Some (set_entries b (<[i := (t, c)]> l) A).

Definition entry_at (A : Abs) (p : AttrPtr) : option Entry :=
  match p with
  | InBuilder b i => B ← abs_b A !! b; entries B !! i
  | InAttributes a i => s ← abs_a A !! a; s.1 !! i
  | Alone p => abs_s A !! p
  end.

Definition lost_entry (b t : Z) (set : bool) (B : ABuilder) (p : AttrPtr) : bool :=
  match p with
  | InBuilder b' _ => (b' =? b) && negb (set && bool_decide (is_Some (find_entry (entries B) t)))
  | _ => false
  end.

(** What a copy of an attribute holds. *)
Definition copied (c : Content) : Content := match c with Null _ => Null 0 | _ => c end.

(** A copy of the attribute at [p]; undefined when the pointer does not survive. *)
Definition copy (b : Z) (p : AttrPtr) (set : bool) (A : Abs) : option Abs :=
  e ← entry_at A p;
  B ← abs_b A !! b;
  if lost_entry b e.1 set B p then None else
  let '(i, l) := slot set e.1 (entries B) in
  let A1 := set_entries b l A in
  e1 ← entry_at A1 p;
  Some (set_entries b (<[i := (e.1, copied e1.2)]> l) A).

(** * Invariant and view of an element being filled *)

Lemma find_entry_content vs l t : find_entry (content vs <$> l) t = find_attribute l t.
Proof. induction l as [|a l IH]; [done|]. cbn [fmap list_fmap find_entry find_attribute content fst]. by rewrite <- IH. Qed.

Lemma find_attribute_Some l t i : find_attribute l t = Some i -> exists a, l !! i = Some a /\ attr_type a = t.
Proof.
  revert i. induction l as [|a l IH]; intros i Hi; [done|]. cbn [find_attribute] in Hi.
  destruct (Z.eqb_spec (attr_type a) t) as [Ht|_]; [injection Hi as <-; by exists a|].
  destruct (find_attribute l t) as [j|]; [|done]. injection Hi as <-. by apply IH.
Qed.

Lemma owners_insert l i a a' : l !! i = Some a -> owners (<[i := a']> l) ++ owners [a] ≡ₚ owners [a'] ++ owners l.
Proof.
  intros (l1 & l2 & -> & ->)%list_elem_of_split_length. rewrite insert_app_r_alt, Nat.sub_diag by done. cbn [insert list_insert].
  change (a' :: l2) with ([a'] ++ l2). change (a :: l2) with ([a] ++ l2). rewrite !owners_app, <- !(assoc_L (++)).
  rewrite Permutation_app_swap_app. do 2 apply Permutation_app_head. apply Permutation_app_comm.
Qed.

Lemma owners_empty t n : owners [mk_attr t 0 n] = [].
Proof. by rewrite owners_one. Qed.

Lemma Forall_insert_elem {A} (P : A -> Prop) l i x : Forall P l -> P x -> Forall P (<[i := x]> l).
Proof. intros Hl Hx. by apply Forall_insert. Qed.

Section Builders.
Context `{Environment}.

Lemma abs_builder st b r : builders st !! b = Some r -> abs_b (abs st) !! b = Some (view_b (values st) r).
Proof. intros Hb. cbn. by rewrite lookup_fmap, Hb. Qed.

(** Element [i], which held [x], becomes [a']; the running function gives [a'] the
    references it takes, and keeps the ones [x] had. *)
Lemma ok_fill E E' st b r i x a' : ok E st -> builders st !! b = Some r -> elements r !! i = Some x ->
  E ++ owners [x] ≡ₚ owners [a'] ++ E' -> sized (values st) a' ->
  let st' := with_builders (<[b := with_elements (<[i := a']> (elements r)) r]> (builders st)) st in
  ok E' st' /\ abs st' = set_entries b (<[i := content (values st) a']> (content (values st) <$> elements r)) (abs st) /\
  held E' st' = held E st.
Proof.
  intros Hok Hb Hx HE Hsz st'. destruct st as [vs bs ats ss]. cbn [values builders attributes structs] in *.
  pose proof (others_delete_b b bs ats ss r Hb) as Ho. pose proof (owners_insert _ _ _ a' Hx) as Hins.
  assert (E ++ owners (elements r) ≡ₚ E' ++ owners (<[i := a']> (elements r))) as HE2.
  { apply (Permutation_app_inv_r (owners [x])). rewrite <- !(assoc_L (++)), Hins.
    rewrite (Permutation_app_comm (owners (elements r)) (owners [x])), !(assoc_L (++)). rewrite HE.
    rewrite (Permutation_app_comm (owners [a']) E'). done. }
  destruct (ok_put_builder E E' vs vs bs ats ss b (with_elements (<[i := a']> (elements r)) r) Hok) as [H1 H2].
  { destruct Hok as [Hc Hs]. unfold all_attrs in Hc, Hs. cbn [values builders attributes structs] in Hc, Hs. split_and!.
    - cbn [elements array with_elements default]. rewrite (assoc_L (++)), <- HE2, <- (assoc_L (++)).
      by rewrite <- owners_app, <- Ho.
    - rewrite Ho in Hs. apply Forall_app in Hs as [Hs _]. by apply Forall_insert_elem.
    - apply keeps_refl. }
  split; [exact H1|]. split.
  - change (abs (mk_st vs (<[b := with_elements (<[i := a']> (elements r)) r]> bs) ats ss) = set_entries b
      (<[i := content vs a']> (content vs <$> elements r)) (abs (mk_st vs bs ats ss))). rewrite H2. unfold set_entries. rewrite (abs_builder (mk_st vs bs ats ss) b r Hb). unfold abs, view_b. cbn. by rewrite list_fmap_insert.
  - unfold held, all_attrs, others, st'. cbn [builders attributes structs with_builders].
    rewrite gather_insert, (gather_lookup elements bs b r Hb). cbn [elements array with_elements default]. unfold id.
    rewrite !owners_app, !length_app. apply Permutation_length in HE2. rewrite !length_app in HE2. lia.
Qed.

(** An element that is about to be filled: it has its type, and nothing else. *)
Definition slotted (E : list Z) (st : St) (b t : Z) (set : bool) (i : nat) (st' : St) : Prop :=
  exists r r', builders st !! b = Some r /\ builders st' !! b = Some r' /\ elements r' !! i = Some (mk_attr t 0 0) /\
    ok E st' /\ held E st' <= held E st /\ secure r' = secure r /\
    (forall b', b' <> b -> builders st' !! b' = builders st !! b') /\
    attributes st' = attributes st /\ structs st' = structs st /\
    slot set t (content (values st) <$> elements r) = (i, content (values st') <$> elements r') /\
    abs st' = set_entries b (content (values st') <$> elements r') (abs st).

Lemma content_slot vs t n : n <> G_MAXULONG -> content vs (mk_attr t 0 n) = (t, Null n).
Proof. intros Hn. unfold content. cbn [a_length value attr_type]. by destruct (Z.eqb_spec n G_MAXULONG). Qed.

Lemma wp_push E st b t r set (Q : nat -> St -> Prop) : ok E st -> builders st !! b = Some r ->
  (set = true -> find_attribute (elements r) t = None) ->
  (forall i st', slotted E st b t set i st' -> Q i st') -> wp (builder_push b t) Q st.
Proof.
  intros Hok Hb Hset HQ. unfold builder_push. step. step. step. step. step. destruct st as [vs bs ats ss]. cbn [values builders attributes structs] in *.
  set (r' := mk_builder (Some (elements r ++ [mk_attr t 0 0])) (secure r) (b_refs r)).
  assert (elements r' = elements r ++ [mk_attr t 0 0]) as Hr' by done.
  assert (owners (elements r') = owners (elements r)) as Ho.
  { by rewrite Hr', owners_app, owners_empty, app_nil_r. }
  destruct (ok_put_builder E E vs vs bs ats ss b r' Hok) as [H1 H2].
  { destruct Hok as [Hc Hs]. pose proof (others_delete_b b bs ats ss r Hb) as Hoth. unfold all_attrs in *. cbn [values builders attributes structs] in *.
    rewrite Hoth in Hc, Hs. split_and!.
    - by rewrite Ho, <- owners_app.
    - rewrite Hr'. apply Forall_app in Hs as [Hs _]. apply Forall_app. split; [done|]. apply Forall_singleton. by intros Hv.
    - apply keeps_refl. }
  apply HQ. exists r, r'. unfold with_builders. cbn [values builders attributes structs]. split_and!; try done.
  - apply lookup_insert_eq.
  - rewrite Hr'. rewrite lookup_app_r by done. by rewrite Nat.sub_diag.
  - unfold held, all_attrs, others. cbn [builders attributes structs]. rewrite gather_insert, (gather_lookup elements bs b r Hb).
    rewrite !owners_app, Ho. lia.
  - intros b' Hne. by rewrite lookup_insert_ne.
  - rewrite Hr'. unfold slot. rewrite find_entry_content. destruct set; [rewrite Hset by done|];
      by rewrite fmap_app, length_fmap.
  - rewrite H2. unfold set_entries. by rewrite (abs_builder (mk_st vs bs ats ss) b r Hb).
Qed.

(** The reference of an attribute, if it has one, is given up. *)
Definition gave_up (x : Attr) (vs vs' : gmap Z Value) : Prop :=
  value x = 0 /\ vs' = vs \/
  value x <> 0 /\ exists v, vs !! value x = Some v /\ s32 (refs v - 1) = refs v - 1 /\ vs' = unref (value x) v vs.

Lemma hand_back vs x o : counted vs (owners [x] ++ o) -> Zlen (owners [x] ++ o) < 2 ^ 31 ->
  exists vs', counted vs' o /\ keeps o vs vs' /\ gave_up x vs vs'.
Proof.
  rewrite owners_one. destruct (decide (value x = 0)) as [Hv|Hv]; intros Hc Hlen; cbn [app] in Hc.
  { exists vs. split; [done|]. split; [apply keeps_refl|by left]. }
  destruct (c_there _ _ Hc (value x)) as [v Hvv]; [left|].
  destruct (counted_unref _ _ _ _ Hc Hvv) as (Hs & Hc' & Hk); [cbn [app length] in Hlen; lia|].
  exists (unref (value x) v vs). split; [done|]. split; [done|]. right. split; [done|]. by exists v.
Qed.

Lemma wp_hand_back x vs' (Q : unit -> St -> Prop) st : gave_up x (values st) vs' -> Q tt (with_values vs' st) ->
  wp (if negb (value x =? 0) then value_unref (value x) else mret tt) Q st.
Proof.
  intros [[Hv ->]|(Hv & v & Hvv & Hs & ->)] HQ.
  - rewrite Hv. cbn [Z.eqb negb]. step. by destruct st.
  - destruct (Z.eqb_spec (value x) 0); [done|]. cbn [negb]. by eapply wp_value_unref.
Qed.

(** The value of element [i] is given up; the element is left empty. *)
Lemma wp_clear E st b i r x (Q : unit -> St -> Prop) : ok E st -> builders st !! b = Some r -> elements r !! i = Some x ->
  held E st < 2 ^ 31 ->
  (forall vs' r', r' = with_elements (<[i := mk_attr (attr_type x) 0 0]> (elements r)) r ->
     let st' := mk_st vs' (<[b := r']> (builders st)) (attributes st) (structs st) in
     ok E st' -> held E st' <= held E st ->
     abs st' = set_entries b (<[i := (attr_type x, Null 0)]> (content (values st) <$> elements r)) (abs st) ->
     content vs' <$> elements r' = <[i := (attr_type x, Null 0)]> (content (values st) <$> elements r) -> Q tt st') ->
  wp (builder_clear b i) Q st.
Proof.
  intros Hok Hb Hx Hroom HQ. destruct st as [vs bs ats ss]. cbn [values builders attributes structs] in *.
  set (l := elements r) in *. set (a' := mk_attr (attr_type x) 0 0) in *. set (r' := with_elements (<[i := a']> l) r).
  pose proof (lookup_lt_Some _ _ _ Hx) as Hi. pose proof (owners_insert l i x a' Hx) as Hins.
  assert (owners [a'] = []) as Ho0 by apply owners_empty. rewrite Ho0 in Hins. cbn [app] in Hins.
  pose proof (others_delete_b b bs ats ss r Hb) as Hoth. fold l in Hoth.
  assert (owners l ≡ₚ owners [x] ++ owners (<[i := a']> l)) as Hl by (by rewrite <- Hins, Permutation_app_comm).
  set (rest := others (delete b bs) ats ss) in *. set (o := E ++ owners (<[i := a']> l) ++ owners rest).
  assert (E ++ owners (others bs ats ss) ≡ₚ owners [x] ++ o) as Ho.
  { unfold o. rewrite Hoth, owners_app, Hl, <- !(assoc_L (++)). apply Permutation_app_swap_app. }
  pose proof Hok as [Hc Hs]. unfold all_attrs in Hc, Hs. cbn [values builders attributes structs] in Hc, Hs.
  rewrite Ho in Hc. rewrite Hoth in Hs. apply Forall_app in Hs as [Hs _].
  destruct (hand_back vs x o Hc) as (vs' & Hc' & Hk & Hgave).
  { unfold held, all_attrs in Hroom. cbn [builders attributes structs] in Hroom. apply Permutation_length in Ho. rewrite length_app in Ho. lia. }
  assert (keeps (owners (<[i := a']> l)) vs vs') as Hkl by (intros p Hp; apply Hk; unfold o; rewrite !elem_of_app; auto).
  assert (keeps (owners rest) vs vs') as Hkr by (intros p Hp; apply Hk; unfold o; rewrite !elem_of_app; auto).
  destruct (ok_put_builder E E vs vs' bs ats ss b r' Hok) as [G1 G2].
  { split_and!; [exact Hc'| |exact Hkr]. apply Forall_forall. intros a Ha. eapply sized_keeps; [exact Hkl|exact Ha|].
    revert a Ha. apply Forall_forall. apply Forall_insert_elem; [done|]. by intros Hv. }
  assert (content vs' <$> elements r' = <[i := (attr_type x, Null 0)]> (content vs <$> l)) as Hcont.
  { change (elements r') with (<[i := a']> l). rewrite (contents_keep vs vs' (<[i := a']> l)) by done.
    rewrite list_fmap_insert. unfold a'. by rewrite content_slot. }
  unfold builder_clear. step. eapply wp_upd_element; [exact Hb|exact Hx|].
  unfold with_builders. cbn [values builders attributes structs].
  step. eapply wp_deref; [cbn; eexists; split; [apply lookup_insert_eq|by apply list_lookup_insert_eq]|].
  step. apply (wp_hand_back (set_length 0 x) vs'); [exact Hgave|].
  eapply wp_upd_element; [apply lookup_insert_eq|by apply list_lookup_insert_eq|].
  unfold with_builders, with_values. cbn [values builders attributes structs]. rewrite insert_insert_eq.
  cbn [elements array with_elements default]. unfold id. rewrite list_insert_insert_eq.
  apply (HQ vs' r'); [done|exact G1| | |exact Hcont].
  - unfold held, all_attrs, others. cbn [builders attributes structs]. rewrite gather_insert, (gather_lookup elements bs b r Hb).
    change (elements r') with (<[i := a']> l). fold l. rewrite !owners_app, !length_app, (Permutation_length Hl), length_app. lia.
  - rewrite G2. unfold set_entries. rewrite (abs_builder (mk_st vs bs ats ss) b r Hb). unfold view_b at 1. by rewrite Hcont.
Qed.

Definition take_slot (b t : Z) (set : bool) : M nat := if set then builder_clear_or_push b t else builder_push b t.

Lemma wp_take_slot E st b t r set (Q : nat -> St -> Prop) : ok E st -> builders st !! b = Some r -> held E st < 2 ^ 31 ->
  (forall i st', slotted E st b t set i st' -> Q i st') -> wp (take_slot b t set) Q st.
Proof.
  intros Hok Hb Hroom HQ. destruct set; cbn [take_slot]; [|by apply (wp_push E st b t r false)].
  unfold builder_clear_or_push. do 2 step. destruct (find_attribute (elements r) t) as [i|] eqn:Hi; [|by apply (wp_push E st b t r true)].
  destruct (find_attribute_Some _ _ _ Hi) as (x & Hx & <-). step. eapply wp_clear; [exact Hok|exact Hb|exact Hx|done|].
  intros vs' r' Hr' st' Hok' Hheld Habs Hcont. step. apply HQ. exists r, r'. subst st'. cbn [values builders attributes structs].
  split_and!; try done.
  - apply lookup_insert_eq.
  - subst r'. apply list_lookup_insert_eq. exact (lookup_lt_Some _ _ _ Hx).
  - by subst r'.
  - intros b' Hne. by rewrite lookup_insert_ne.
  - unfold slot. rewrite find_entry_content, Hi. by rewrite Hcont.
  - by rewrite Habs, Hcont.
Qed.

Lemma set_entries_twice b l l' A : set_entries b l (set_entries b l' A) = set_entries b l A.
Proof.
  unfold set_entries. destruct (abs_b A !! b) as [B|] eqn:E; [|by rewrite E]. cbn [abs_b abs_a abs_s].
  rewrite lookup_insert_eq. cbn. by rewrite insert_insert_eq.
Qed.

Lemma abs_entries st st' b r r' : abs st' = abs st -> builders st !! b = Some r -> builders st' !! b = Some r' ->
  content (values st') <$> elements r' = content (values st) <$> elements r.
Proof.
  intros Habs Hr Hr'. apply abs_builder in Hr, Hr'. rewrite Habs, Hr in Hr'. injection Hr' as E _ _. done.
Qed.

(** The slot is filled with [a'], by a function that got the references for it meanwhile. *)
Lemma ok_filled E E2 st b t set i st1 st2 r' a' : slotted E st b t set i st1 -> builders st1 !! b = Some r' ->
  ok E2 st2 -> abs st2 = abs st1 -> builders st2 = builders st1 -> all_attrs st2 = all_attrs st1 ->
  E2 ≡ₚ owners [a'] ++ E -> attr_type a' = t -> sized (values st2) a' ->
  let st3 := with_builders (<[b := with_elements (<[i := a']> (elements r')) r']> (builders st2)) st2 in
  ok E st3 /\ put b t set (content (values st2) a').2 (abs st) = Some (abs st3) /\ held E st3 <= held E st + Zlen (owners [a']).
Proof.
  intros (r & r1 & Hb & Hb1 & Hx & Hok1 & Hheld & _ & _ & _ & _ & Hslot & Habs1) Hr' Hok2 Habs2 Hbs Hall HE Ht Hs st3.
  assert (r1 = r') as -> by congruence. rewrite <- Hbs in Hb1.
  destruct (ok_fill E2 E st2 b r' i (mk_attr t 0 0) a' Hok2 Hb1 Hx) as (H1 & H2 & H3); [by rewrite owners_empty, app_nil_r|done|].
  split; [exact H1|]. split.
  - unfold put. rewrite (abs_builder st b r Hb). cbn [mbind option_bind entries view_b]. rewrite Hslot. f_equal.
    change (set_entries b (<[i := (t, (content (values st2) a').2)]> (content (values st1) <$> elements r')) (abs st) =
      abs (with_builders (<[b := with_elements (<[i := a']> (elements r')) r']> (builders st2)) st2)).
    rewrite H2, Habs2, Habs1, set_entries_twice. f_equal. rewrite (abs_entries st1 st2 b r' r') by (done || by rewrite <- Hbs).
    f_equal. rewrite (surjective_pairing (content (values st2) a')). f_equal. by rewrite <- Ht.
  - fold st3 in H3. rewrite H3. unfold held. rewrite Hall. apply Permutation_length in HE. rewrite length_app in HE.
    unfold held in Hheld. lia.
Qed.

Lemma wp_fill b i t v n r' (Q : unit -> St -> Prop) st : builders st !! b = Some r' -> elements r' !! i = Some (mk_attr t 0 0) ->
  Q tt (with_builders (<[b := with_elements (<[i := mk_attr t v n]> (elements r')) r']> (builders st)) st) ->
  wp (upd_element b i (set_value v);; upd_element b i (set_length n)) Q st.
Proof.
  intros Hb Hx HQ. step. eapply wp_upd_element; [exact Hb|exact Hx|]. pose proof (lookup_lt_Some _ _ _ Hx).
  eapply wp_upd_element; [apply lookup_insert_eq|by apply list_lookup_insert_eq|].
  unfold with_builders in *. cbn [values builders attributes structs] in *.
  rewrite insert_insert_eq. cbn [elements array with_elements default]. unfold id. by rewrite list_insert_insert_eq.
Qed.

(** What [store_data] stores. *)
Definition stored (src : option (list Z)) (len : Z) : Content :=
  if len =? G_MAXULONG then Invalid else match src with None => Null 0 | Some bs => Bytes (take (Z.to_nat len) bs) end.

Definition storable (src : option (list Z)) (len : Z) (sec : bool) : Prop :=
  len = G_MAXULONG \/ src = None \/ exists bs, src = Some bs /\ allocatable len sec /\ len <= Zlen bs.

Lemma content_new vs p t bs sec len : p <> 0 -> len <> G_MAXULONG ->
  content (<[p := mk_value 1 bs sec]> vs) (mk_attr t p len) = (t, Bytes (take (Z.to_nat len) bs)).
Proof.
  intros Hp Hl. unfold content. cbn [a_length value attr_type]. destruct (Z.eqb_spec len G_MAXULONG); [done|].
  destruct (Z.eqb_spec p 0); [done|]. by rewrite lookup_insert_eq.
Qed.

Lemma owners_value t p n : p <> 0 -> owners [mk_attr t p n] = [p].
Proof. intros Hp. rewrite owners_one. by rewrite decide_False. Qed.

Lemma sized_new vs p t bs sec len : 0 <= len <= Zlen bs -> len < G_MAXULONG ->
  sized (<[p := mk_value 1 bs sec]> vs) (mk_attr t p len).
Proof. intros Hl Hm _. exists (mk_value 1 bs sec). cbn [value a_length vbytes]. by rewrite lookup_insert_eq. Qed.

(** The state after a function that put [c] into a builder. *)
Definition did (E : list Z) (st : St) (grows : Z) (A' : option Abs) (st' : St) : Prop :=
  ok E st' /\ A' = Some (abs st') /\ held E st' <= held E st + grows.

Lemma wp_store_data E st b t set i st1 src len sec (make : list Z -> M Z) (Q : unit -> St -> Prop) :
  slotted E st b t set i st1 -> storable src len sec ->
  (forall bs P, src = Some bs -> ok E st1 -> allocatable len sec -> len <= Zlen bs ->
     (forall p st2, new_value E st1 (take (Z.to_nat len) bs) sec p st2 -> P p st2) -> wp (make bs) P st1) ->
  (forall st', did E st 1 (put b t set (stored src len) (abs st)) st' -> Q tt st') ->
  wp (store_data b i src len make) Q st1.
Proof.
  intros Hsl Hst Hmake HQ. pose proof Hsl as (r & r1 & Hb & Hb1 & Hx & Hok1 & _). unfold store_data.
  assert (forall n, did E st 1 (put b t set (content (values st1) (mk_attr t 0 n)).2 (abs st))
    (with_builders (<[b := with_elements (<[i := mk_attr t 0 n]> (elements r1)) r1]> (builders st1)) st1)) as Hempty.
  { intros n. destruct (ok_filled E E st b t set i st1 st1 r1 (mk_attr t 0 n) Hsl Hb1 Hok1) as (H1 & H2 & H3);
      [done|done|done|by rewrite owners_empty|done|by intros Hv|].
    split_and!; [exact H1|exact H2|]. rewrite owners_empty in H3. cbn [length] in H3. lia. }
  unfold stored in HQ. destruct (Z.eqb_spec len G_MAXULONG) as [->|Hlen].
  { eapply wp_fill; [exact Hb1|exact Hx|]. apply HQ. apply Hempty. }
  destruct src as [bs|].
  2:{ eapply wp_fill; [exact Hb1|exact Hx|]. apply HQ. specialize (Hempty 0). by rewrite content_slot in Hempty. }
  destruct Hst as [?|[?|(bs' & [= <-] & Hal & Hle)]]; [done..|]. step. apply Hmake; [done..|].
  intros p st2 (Hp0 & Hp & -> & Hok2 & Habs2). eapply wp_fill; [exact Hb1|exact Hx|]. apply HQ.
  assert (0 <= len < 2 ^ 63 + 1) as Hrange by (destruct Hal; destruct sec; unfold MAX_ALIGN in *; lia).
  destruct (ok_filled E (p :: E) st b t set i st1 _ r1 (mk_attr t p len) Hsl Hb1 Hok2 Habs2) as (H1 & H2 & H3); try done.
  - by rewrite owners_value.
  - apply sized_new; [rewrite length_take; lia|unfold G_MAXULONG; lia].
  - split_and!; [exact H1| |by rewrite owners_value in H3]. rewrite <- H2. cbn [values with_values]. rewrite content_new by done.
    cbn [snd]. by rewrite take_take, Nat.min_id.
Qed.

(** * Adding and copying *)

Lemma did_more E st g g' A' st' : did E st g A' st' -> g <= g' -> did E st g' A' st'.
Proof. intros (Hok & HA & Hheld) Hg. split_and!; [done|done|lia]. Qed.

Lemma wp_make_new E st b t set i st1 bs len checked sec r (Q : Z -> St -> Prop) : slotted E st b t set i st1 ->
  builders st !! b = Some r -> sec = secure r || checked -> allocatable len sec -> len <= Zlen bs ->
  (forall p st2, new_value E st1 (take (Z.to_nat len) bs) sec p st2 -> Q p st2) ->
  wp (r ← builder_at b; value_new bs len (secure r || checked)) Q st1.
Proof.
  intros (r0 & r1 & Hb & Hb1 & _ & Hok1 & _ & Hs & _) Hr -> Hal Hle HQ. assert (r0 = r) as -> by congruence. rewrite <- Hs in *.
  do 2 step. by eapply wp_value_new.
Qed.

(** [gck_builder_add_data] and [gck_builder_set_data]. *)
Lemma wp_put_data E st b t set src len checked r (Q : unit -> St -> Prop) : ok E st -> held E st < 2 ^ 31 ->
  builders st !! b = Some r -> storable src len (secure r || checked) ->
  (forall st', did E st 1 (put b t set (stored src len) (abs st)) st' -> Q tt st') ->
  wp (i ← take_slot b t set; store_data b i src len (fun bs => r ← builder_at b; value_new bs len (secure r || checked))) Q st.
Proof.
  intros Hok Hroom Hb Hst HQ. step. eapply wp_take_slot; [exact Hok|exact Hb|exact Hroom|]. intros i st1 Hsl.
  eapply wp_store_data; [exact Hsl|exact Hst| |exact HQ]. intros bs P -> _ Hal Hle HP. by eapply wp_make_new.
Qed.

Lemma wp_take_data E st b t src len checked r (Q : unit -> St -> Prop) : ok E st -> held E st < 2 ^ 31 -> b <> 0 ->
  builders st !! b = Some r -> storable src len checked ->
  (forall st', did E st 1 (put b t false (stored src len) (abs st)) st' -> Q tt st') ->
  wp (gck_builder_take_data b t src len checked) Q st.
Proof.
  intros Hok Hroom Hb0 Hb Hst HQ. unfold gck_builder_take_data. destruct (Z.eqb_spec b 0) as [|_]; [done|]. step.
  change (builder_push b t) with (take_slot b t false). eapply wp_take_slot; [exact Hok|exact Hb|exact Hroom|]. intros i st1 Hsl.
  eapply wp_store_data; [exact Hsl|exact Hst| |exact HQ]. intros bs P -> Hok1 Hal Hle HP. by eapply wp_value_take.
Qed.

(** An attribute without a value. *)
Lemma wp_put_null E st b t set n r (Q : unit -> St -> Prop) : ok E st -> held E st < 2 ^ 31 -> builders st !! b = Some r ->
  (forall st', did E st 1 (put b t set (content ∅ (mk_attr t 0 n)).2 (abs st)) st' -> Q tt st') ->
  wp (i ← take_slot b t set; upd_element b i (set_length n)) Q st.
Proof.
  intros Hok Hroom Hb HQ. step. eapply wp_take_slot; [exact Hok|exact Hb|exact Hroom|]. intros i st1 Hsl.
  pose proof Hsl as (r0 & r1 & _ & Hb1 & Hx & Hok1 & _). eapply wp_upd_element; [exact Hb1|exact Hx|]. apply HQ.
  destruct (ok_filled E E st b t set i st1 st1 r1 (mk_attr t 0 n) Hsl Hb1 Hok1) as (H1 & H2 & H3);
    [done|done|done|by rewrite owners_empty|done|by intros Hv|].
  split_and!; [exact H1|exact H2|]. rewrite owners_empty in H3. cbn [length] in H3. unfold set_length. cbn [attr_type value]. lia.
Qed.

Lemma insert_slot set t l i l' : slot set t l = (i, l') -> <[i := (t, Null 0)]> l' = l'.
Proof.
  intros Hs. apply list_insert_id. unfold slot in Hs. destruct (if set then find_entry l t else None) as [j|] eqn:E; injection Hs as <- <-.
  - apply list_lookup_insert_eq. destruct set; [|done]. clear -E. revert j E. induction l as [|e l IH]; intros j E; [done|].
    cbn in E |- *. case_match; [injection E as <-; lia|]. destruct (find_entry l t) as [k|]; [|done]. injection E as <-. specialize (IH k eq_refl). lia.
  - by rewrite lookup_app_r, Nat.sub_diag.
Qed.

Lemma wp_put_empty E st b t set r (Q : unit -> St -> Prop) : ok E st -> held E st < 2 ^ 31 -> builders st !! b = Some r ->
  (forall st', did E st 0 (put b t set (Null 0) (abs st)) st' -> Q tt st') ->
  wp (_ ← take_slot b t set; mret tt) Q st.
Proof.
  intros Hok Hroom Hb HQ. step. eapply wp_take_slot; [exact Hok|exact Hb|exact Hroom|]. intros i st1 Hsl. step. apply HQ.
  destruct Hsl as (r0 & r1 & Hr0 & Hb1 & Hx & Hok1 & Hheld & _ & _ & _ & _ & Hslot & Habs).
  split_and!; [done| |lia]. unfold put. rewrite (abs_builder st b r0 Hr0). cbn [mbind option_bind entries view_b]. rewrite Hslot.
  by rewrite (insert_slot _ _ _ _ _ Hslot), Habs.
Qed.

Lemma entry_points st p e : entry_at (abs st) p = Some e <-> exists a, points st p a /\ content (values st) a = e.
Proof.
  destruct p as [b i|a i|p]; cbn [entry_at points abs abs_b abs_a abs_s].
  - rewrite bind_Some. setoid_rewrite lookup_fmap_Some. split.
    + intros (B & (r & <- & Hr) & He). cbn [entries view_b] in He. apply list_lookup_fmap_Some in He as (x & -> & Hx). eauto.
    + intros (x & (r & Hr & Hx) & <-). exists (view_b (values st) r). split; [by exists r|]. cbn [entries view_b].
      apply list_lookup_fmap_Some. by exists x.
  - rewrite bind_Some. setoid_rewrite lookup_fmap_Some. split.
    + intros (B & (r & <- & Hr) & He). cbn [fst view_a] in He. apply list_lookup_fmap_Some in He as (x & -> & Hx). eauto.
    + intros (x & (r & Hr & Hx) & <-). exists (view_a (values st) r). split; [by exists r|]. cbn [fst view_a].
      apply list_lookup_fmap_Some. by exists x.
  - rewrite lookup_fmap_Some. naive_solver.
Qed.

Lemma points_in st p a : points st p a -> a ∈ all_attrs st.
Proof.
  unfold all_attrs, others. rewrite !elem_of_app. destruct p as [b i|c i|p]; cbn [points].
  - intros (r & Hr & Hx). left. eapply elem_gather; [exact Hr|]. by eapply list_elem_of_lookup_2.
  - intros (s & Hr & Hx). right. left. eapply elem_gather; [exact Hr|]. by eapply list_elem_of_lookup_2.
  - intros Hp. right. right. eapply elem_gather; [exact Hp|]. by left.
Qed.

(** What an attribute points to is there. *)
Lemma points_value E st p a : ok E st -> points st p a -> value a <> 0 ->
  exists v, values st !! value a = Some v /\ 0 <= a_length a <= Zlen (vbytes v) /\ a_length a < G_MAXULONG.
Proof. intros [_ Hs] Hp Hv. rewrite Forall_forall in Hs. apply (Hs a); [by eapply points_in|done]. Qed.

Lemma lost_view vs b t set r p : lost b t set r p = lost_entry b t set (view_b vs r) p.
Proof. destruct p as [b' i| |]; [|done..]. cbn [lost lost_entry entries view_b]. by rewrite find_entry_content. Qed.

(** What is stored for a copy of the attribute [x]. *)
Lemma wp_copy_into E st b t set i st1 p x (Q : unit -> St -> Prop) : slotted E st b t set i st1 -> held E st + 1 < 2 ^ 31 ->
  points st1 p x ->
  (forall st', did E st 1 (put b t set (copied (content (values st1) x).2) (abs st)) st' -> Q tt st') ->
  wp (if a_length x =? G_MAXULONG then upd_element b i (set_value 0);; upd_element b i (set_length G_MAXULONG)
      else if value x =? 0 then upd_element b i (set_value 0);; upd_element b i (set_length 0)
      else v ← value_ref (value x); upd_element b i (set_value v);; upd_element b i (set_length (a_length x))) Q st1.
Proof.
  intros Hsl Hroom Hp HQ. pose proof Hsl as (r & r1 & Hb & Hb1 & Hx & Hok1 & Hheld & _).
  assert (forall n, did E st 1 (put b t set (content (values st1) (mk_attr t 0 n)).2 (abs st))
    (with_builders (<[b := with_elements (<[i := mk_attr t 0 n]> (elements r1)) r1]> (builders st1)) st1)) as Hempty.
  { intros n. destruct (ok_filled E E st b t set i st1 st1 r1 (mk_attr t 0 n) Hsl Hb1 Hok1) as (H1 & H2 & H3);
      [done|done|done|by rewrite owners_empty|done|by intros Hv|].
    split_and!; [exact H1|exact H2|]. rewrite owners_empty in H3. cbn [length] in H3. lia. }
  unfold content in HQ. destruct (Z.eqb_spec (a_length x) G_MAXULONG) as [Hm|Hm].
  { eapply wp_fill; [exact Hb1|exact Hx|]. apply HQ. apply Hempty. }
  destruct (Z.eqb_spec (value x) 0) as [Hv|Hv].
  { eapply wp_fill; [exact Hb1|exact Hx|]. apply HQ. specialize (Hempty 0). by rewrite content_slot in Hempty. }
  destruct (points_value E st1 p x Hok1 Hp Hv) as (v & Hvv & Hlen & Hmax). rewrite Hvv in HQ.
  step. eapply wp_value_ref; [exact Hok1|exact Hvv|lia|]. intros st2 -> Hok2 Habs2.
  eapply wp_fill; [exact Hb1|exact Hx|]. apply HQ.
  destruct (ok_filled E (value x :: E) st b t set i st1 _ r1 (mk_attr t (value x) (a_length x)) Hsl Hb1 Hok2 Habs2) as (H1 & H2 & H3); try done.
  - by rewrite owners_value.
  - intros _. exists (with_refs (refs v + 1) v). cbn [values with_values value a_length]. by rewrite lookup_insert_eq.
  - split_and!; [exact H1| |by rewrite owners_value in H3]. rewrite <- H2. cbn [values with_values]. f_equal.
    unfold content. cbn [a_length value attr_type]. rewrite lookup_insert_eq.
    destruct (Z.eqb_spec (a_length x) G_MAXULONG); [done|]. by destruct (Z.eqb_spec (value x) 0).
Qed.

Lemma wp_copy E st b p set A' (Q : unit -> St -> Prop) : ok E st -> held E st + 1 < 2 ^ 31 -> copy b p set (abs st) = Some A' ->
  (forall st', did E st 1 (Some A') st' -> Q tt st') -> wp (builder_copy b p set) Q st.
Proof.
  intros Hok Hroom Hcopy HQ. unfold copy in Hcopy. apply bind_Some in Hcopy as (e & He & Hcopy).
  apply bind_Some in Hcopy as (B & HB & Hcopy). cbn [abs abs_b] in HB. apply lookup_fmap_Some in HB as (r & <- & Hr).
  apply entry_points in He as (x & Hx & <-). rewrite <- (lost_view (values st)) in Hcopy. cbn [fst content] in Hcopy.
  destruct (lost b (attr_type x) set r p) eqn:Hlost; [done|].
  destruct (slot set (attr_type x) (entries (view_b (values st) r))) as [i l] eqn:Hslot. cbn [entries view_b] in Hslot.
  apply bind_Some in Hcopy as (e1 & He1 & [= <-]).
  unfold builder_copy. do 4 step. step. eapply wp_take_slot; [exact Hok|exact Hr|lia|]. intros j st1 Hsl.
  pose proof Hsl as (r0 & r1 & Hr0 & Hb1 & _ & Hok1 & Hheld & _ & _ & _ & _ & Hslot1 & Habs1).
  assert (r0 = r) as -> by congruence. rewrite Hslot in Hslot1. injection Hslot1 as <- ->. rewrite <- Habs1 in He1.
  apply entry_points in He1 as (x1 & Hx1 & <-).
  step. apply wp_assert; [by rewrite Hlost|]. step. eapply wp_deref; [exact Hx1|].
  eapply wp_copy_into; [exact Hsl|exact Hroom|exact Hx1|]. intros st' (H1 & H2 & H3). apply HQ. split_and!; [exact H1| |exact H3].
  rewrite <- H2. unfold put. rewrite (abs_builder st b r Hr). cbn [mbind option_bind entries view_b]. by rewrite Hslot.
Qed.

(** * Whole sets *)

(** The first entry of type [t] is replaced, or one is added at the end. *)
Fixpoint set_first (t : Z) (c : Content) (l : list Entry) : list Entry :=
  match l with [] => [(t, c)] | e :: l => if e.1 =? t then (t, c) :: l else e :: set_first t c l end.

Definition place (set : bool) (t : Z) (c : Content) (l : list Entry) : list Entry :=
  if set then set_first t c l else l ++ [(t, c)].

Lemma slot_place set t c l i l' : slot set t l = (i, l') -> <[i := (t, c)]> l' = place set t c l.
Proof.
  unfold slot, place. destruct set.
  2:{ intros [= <- <-]. rewrite insert_app_r_alt by done. by rewrite Nat.sub_diag. }
  revert i l'. induction l as [|e l IH]; intros i l'; cbn [find_entry set_first].
  { by intros [= <- <-]. }
  destruct (Z.eqb_spec e.1 t) as [Ht|Ht]; [by intros [= <- <-]|].
  destruct (find_entry l t) as [j|] eqn:Hj; intros [= <- <-]; cbn; f_equal; by apply IH.
Qed.

Lemma put_place b t set c A B : abs_b A !! b = Some B -> put b t set c A = Some (set_entries b (place set t c (entries B)) A).
Proof.
  intros HB. unfold put. rewrite HB. cbn [mbind option_bind]. destruct (slot set t (entries B)) as [i l'] eqn:Hs.
  by rewrite (slot_place _ _ c _ _ _ Hs).
Qed.

Definition copy_entry (e : Entry) : Entry := (e.1, copied e.2).

(** A copy of an attribute that is not one of the builder's own. *)
Lemma copy_place b p set A B e : abs_b A !! b = Some B -> entry_at A p = Some e -> (forall i, p <> InBuilder b i) ->
  copy b p set A = Some (set_entries b (place set e.1 (copied e.2) (entries B)) A).
Proof.
  intros HB He Hne. unfold copy. rewrite He, HB. cbn [mbind option_bind].
  assert (lost_entry b e.1 set B p = false) as ->.
  { destruct p as [b' i| |]; [|done..]. cbn. destruct (Z.eqb_spec b' b) as [->|]; [by destruct (Hne i)|done]. }
  destruct (slot set e.1 (entries B)) as [i l'] eqn:Hs.
  assert (entry_at (set_entries b l' A) p = Some e) as ->.
  { rewrite <- He. unfold set_entries. rewrite HB. destruct p as [b' j| |]; [|done..]. cbn [entry_at abs_b].
    destruct (decide (b' = b)) as [->|]; [by destruct (Hne j)|by rewrite lookup_insert_ne]. }
  cbn [mbind option_bind]. by rewrite (slot_place _ _ _ _ _ _ Hs).
Qed.

Lemma set_entries_lookup b l A B : abs_b A !! b = Some B ->
  abs_b (set_entries b l A) !! b = Some (mk_ab l (ab_secure B) (ab_refs B)).
Proof. intros HB. unfold set_entries. rewrite HB. apply lookup_insert_eq. Qed.

Lemma set_entries_id b A B : abs_b A !! b = Some B -> set_entries b (entries B) A = A.
Proof. intros HB. unfold set_entries. rewrite HB. destruct A, B; cbn in *. by rewrite insert_id. Qed.

Lemma set_entries_a b l A : abs_a (set_entries b l A) = abs_a A.
Proof. unfold set_entries. by destruct (abs_b A !! b). Qed.

Lemma set_entries_other b l A b' : b' <> b -> abs_b (set_entries b l A) !! b' = abs_b A !! b'.
Proof. intros Hne. unfold set_entries. destruct (abs_b A !! b); [|done]. cbn. by rewrite lookup_insert_ne. Qed.

(** [l] with the entries [es] added, one after the other, from the left. *)
Definition place_all (set : bool) (es l : list Entry) : list Entry := foldl (fun l e => place set e.1 e.2 l) l es.

Lemma place_all_add es l : place_all false es l = l ++ es.
Proof.
  revert l. unfold place_all. induction es as [|e es IH]; intros l; [by rewrite app_nil_r|]. cbn [foldl]. rewrite IH.
  unfold place. rewrite <- (assoc_L (++)). by destruct e.
Qed.

(** A loop over indices, each round of which adds the entries [es i] to a builder; [I]
    says what the rounds need of the other objects. *)
Lemma wp_for_each b set (I : Abs -> Prop) (es : nat -> list Entry) (body : nat -> M unit) E l :
  (forall A l', I A -> I (set_entries b l' A)) ->
  (forall i st B P, i ∈ l -> ok E st -> I (abs st) -> held E st + Zlen (es i) < 2 ^ 31 -> abs_b (abs st) !! b = Some B ->
     (forall st', did E st (Zlen (es i)) (Some (set_entries b (place_all set (es i) (entries B)) (abs st))) st' -> P tt st') ->
     wp (body i) P st) ->
  forall st B (Q : unit -> St -> Prop), ok E st -> I (abs st) -> held E st + Zlen (l ≫= es) < 2 ^ 31 ->
  abs_b (abs st) !! b = Some B ->
  (forall st', did E st (Zlen (l ≫= es)) (Some (set_entries b (place_all set (l ≫= es) (entries B)) (abs st))) st' -> Q tt st') ->
  wp (for_each l body) Q st.
Proof.
  intros HI Hbody. induction l as [|i l IH]; intros st B Q Hok HA Hroom HB HQ; cbn [for_each].
  { step. apply HQ. split_and!; [done| |cbn; lia]. cbn. by rewrite set_entries_id. }
  rewrite bind_cons, length_app in Hroom. step. eapply (Hbody i); [left|exact Hok|exact HA|lia|exact HB|].
  intros st1 (Hok1 & [= Habs1] & Hheld1). eapply IH; [| |rewrite <- Habs1; by apply HI| |rewrite <- Habs1; by apply set_entries_lookup|].
  - intros i' st' B' P Hi'. apply Hbody. by right.
  - exact Hok1.
  - lia.
  - intros st2 (Hok2 & [= Habs2] & Hheld2). apply HQ. split_and!; [done| |rewrite bind_cons, length_app; lia].
    rewrite <- Habs2, <- Habs1. rewrite set_entries_twice, bind_cons. cbn [entries]. unfold place_all. by rewrite foldl_app.
Qed.

(** The rounds of the functions that copy from a set of attributes. *)
Lemma wp_copy_round E b a s i set e st B (P : unit -> St -> Prop) : ok E st -> abs_a (abs st) !! a = Some s -> s.1 !! i = Some e ->
  held E st + 1 < 2 ^ 31 -> abs_b (abs st) !! b = Some B ->
  (forall st', did E st 1 (Some (set_entries b (place_all set [copy_entry e] (entries B)) (abs st))) st' -> P tt st') ->
  wp (builder_copy b (InAttributes a i) set) P st.
Proof.
  intros Hok Ha Hi Hroom HB HP. eapply wp_copy; [exact Hok|exact Hroom| |exact HP].
  rewrite (copy_place b (InAttributes a i) set (abs st) B e); [done|done| |done]. cbn [entry_at]. by rewrite Ha.
Qed.

Lemma bind_same {A C} (l : list A) (f g : A -> list C) : (forall x, x ∈ l -> f x = g x) -> l ≫= f = l ≫= g.
Proof.
  induction l as [|x l IH]; intros Hfg; [done|]. rewrite !bind_cons, (Hfg x) by left. f_equal. apply IH.
  intros y Hy. apply Hfg. by right.
Qed.

Lemma seq_bind {A C} (l : list A) (f : A -> list C) : seq 0 (length l) ≫= (fun i => match l !! i with Some e => f e | None => [] end) = l ≫= f.
Proof.
  induction l as [|e l IH] using rev_ind; [done|]. rewrite length_app. cbn [length]. rewrite seq_app, !bind_app. f_equal.
  - rewrite <- IH. apply bind_same. intros i Hi%elem_of_seq. by rewrite lookup_app_l by lia.
  - cbn. by rewrite lookup_app_r, Nat.sub_diag.
Qed.
End Builders.
