(* ===== verification/AttrObjects.v ===== *)
(** PKCS#11 attributes: builders, sets and single attributes come and go.

    What the functions that make, copy, share, empty and release whole objects do to what
    a client sees, and that they keep the invariant [ok]: an object that goes gives up its
    references, one that is ended hands them over. *)

From S2P Require Import Prelude StateM Attributes AttrStore AttrOps.
Local Open Scope Z_scope.

(** * Copies of whole sets *)

Definition entries_at (A : Abs) (a : Z) : list Entry := default [] (fst <$> abs_a A !! a).

Definition except_entries (except : list Z) (l : list Entry) : list Entry :=
  l ≫= (fun e => if existsb (Z.eqb e.1) except then [] else [copy_entry e]).
Definition only_entries (only : list Z) (l : list Entry) : list Entry :=
  l ≫= (fun e => only ≫= (fun t => if e.1 =? t then [copy_entry e] else [])).

Definition add_to (b : Z) (set : bool) (es : list Entry) (A : Abs) : option Abs :=
  B ← abs_b A !! b; Some (set_entries b (place_all set es (entries B)) A).

Section Sets.
Context `{Environment}.

Lemma seq_entries (s : list Entry) (f : Entry -> list Entry) n : n = length s ->
  seq 0 n ≫= (fun i => match s !! i with Some e => f e | None => [] end) = s ≫= f.
Proof. intros ->. apply seq_bind. Qed.

Lemma bind_singleton {A C} (f : A -> C) l : l ≫= (fun e => [f e]) = f <$> l.
Proof. induction l as [|x l IH]; [done|]. by rewrite bind_cons, IH. Qed.

(** A function that copies some of the attributes of a set: what is left to show is one
    round of its loop. *)
Lemma wp_from_set b a set (f : Entry -> list Entry) (body : nat -> M unit) E st S B A' (Q : unit -> St -> Prop) :
  abs_a (abs st) !! a = Some S -> ok E st -> abs_b (abs st) !! b = Some B ->
  (forall i e st B P, S.1 !! i = Some e -> ok E st -> abs_a (abs st) !! a = Some S ->
     held E st + Zlen (f e) < 2 ^ 31 -> abs_b (abs st) !! b = Some B ->
     (forall st', did E st (Zlen (f e)) (Some (set_entries b (place_all set (f e) (entries B)) (abs st))) st' -> P tt st') ->
     wp (body i) P st) ->
  let es := S.1 ≫= f in
  held E st + Zlen es < 2 ^ 31 -> add_to b set es (abs st) = Some A' ->
  (forall st', did E st (Zlen es) (Some A') st' -> Q tt st') ->
  wp (for_each (seq 0 (length S.1)) body) Q st.
Proof.
  intros Hs Hok HB Hbody es Hroom Hadd HQ.
  unfold add_to in Hadd. rewrite HB in Hadd. injection Hadd as <-.
  pose proof (seq_bind S.1 f) as Hes. fold es in Hes.
  eapply (wp_for_each b set (fun A => abs_a A !! a = Some S)
    (fun i => match S.1 !! i with Some e => f e | None => [] end)); [| |exact Hok|exact Hs| |exact HB|].
  - intros A l'. by rewrite set_entries_a.
  - intros i st' B' P Hi%elem_of_seq Hok' Ha' Hroom' HB' HP.
    destruct (S.1 !! i) as [e|] eqn:He; [|apply lookup_ge_None in He; lia]. by eapply Hbody.
  - by rewrite Hes.
  - by rewrite Hes.
Qed.

Lemma set_length_view st a s : attributes st !! a = Some s ->
  abs_a (abs st) !! a = Some (view_a (values st) s) /\ length (view_a (values st) s).1 = length (data s).
Proof. intros Hs. cbn. rewrite lookup_fmap, Hs. split; [done|]. by rewrite length_fmap. Qed.

(** The pointer into a set that a round reads. *)
Lemma set_points st a S i e : abs_a (abs st) !! a = Some S -> S.1 !! i = Some e ->
  exists x, points st (InAttributes a i) x /\ content (values st) x = e.
Proof. intros Ha Hi. apply entry_points. cbn [entry_at]. by rewrite Ha. Qed.

Lemma wp_all E st b a set A' (Q : unit -> St -> Prop) : ok E st -> b <> 0 -> a <> 0 -> is_Some (abs_a (abs st) !! a) ->
  let es := copy_entry <$> entries_at (abs st) a in
  held E st + Zlen es < 2 ^ 31 -> add_to b set es (abs st) = Some A' ->
  (forall st', did E st (Zlen es) (Some A') st' -> Q tt st') ->
  wp (s ← attributes_at a; for_each (seq 0 (length (data s))) (fun i => builder_copy b (InAttributes a i) set)) Q st.
Proof.
  intros Hok Hb0 Ha0 [S HS] es Hroom Hadd HQ. pose proof HS as HS'. cbn in HS'. apply lookup_fmap_Some in HS' as (s & <- & Hs).
  destruct (set_length_view st a s Hs) as [_ Hlen]. unfold entries_at in *. subst es. rewrite HS in *. cbn [fmap option_fmap option_map default] in *.
  pose proof Hadd as (B & HB & _)%bind_Some. do 2 step. rewrite <- Hlen. unfold id in *.
  eapply (wp_from_set b a set (fun e => [copy_entry e])); [exact HS|exact Hok|exact HB| | | |]; rewrite ?bind_singleton; [|done..].
  intros i e st' B' P He Hok' HS' Hroom' HB' HP. by eapply wp_copy_round.
Qed.

Lemma did_refl E st b set B : ok E st -> abs_b (abs st) !! b = Some B ->
  did E st 0 (Some (set_entries b (place_all set [] (entries B)) (abs st))) st.
Proof. intros Hok HB. split_and!; [done| |lia]. cbn. by rewrite set_entries_id. Qed.

Lemma wp_except E st b a except A' (Q : unit -> St -> Prop) : ok E st -> b <> 0 -> a <> 0 -> is_Some (abs_a (abs st) !! a) ->
  let es := except_entries except (entries_at (abs st) a) in
  held E st + Zlen es < 2 ^ 31 -> add_to b false es (abs st) = Some A' ->
  (forall st', did E st (Zlen es) (Some A') st' -> Q tt st') ->
  wp (gck_builder_add_exceptv b a except) Q st.
Proof.
  intros Hok Hb0 Ha0 [S HS] es Hroom Hadd HQ. pose proof HS as HS'. cbn in HS'. apply lookup_fmap_Some in HS' as (s & <- & Hs).
  destruct (set_length_view st a s Hs) as [_ Hlen]. unfold entries_at in *. subst es. rewrite HS in *. cbn [fmap option_fmap option_map default] in *.
  pose proof Hadd as (B & HB & _)%bind_Some. unfold gck_builder_add_exceptv.
  destruct (Z.eqb_spec b 0), (Z.eqb_spec a 0); [done..|]. cbn [orb]. do 2 step. rewrite <- Hlen. unfold id in *.
  eapply (wp_from_set b a false (fun e => if existsb (Z.eqb e.1) except then [] else [copy_entry e])); [exact HS|exact Hok|exact HB| |done..].
  intros i e st' B' P He Hok' HS' Hroom' HB' HP. destruct (set_points _ _ _ _ _ HS' He) as (x & Hx & <-).
  step. eapply wp_deref; [exact Hx|]. cbn [fst content] in *. destruct (existsb (Z.eqb (attr_type x)) except).
  - step. by apply HP, did_refl.
  - by eapply wp_copy_round.
Qed.

Lemma wp_only E st b a only A' (Q : unit -> St -> Prop) : ok E st -> b <> 0 -> a <> 0 -> is_Some (abs_a (abs st) !! a) ->
  let es := only_entries only (entries_at (abs st) a) in
  held E st + Zlen es < 2 ^ 31 -> add_to b false es (abs st) = Some A' ->
  (forall st', did E st (Zlen es) (Some A') st' -> Q tt st') ->
  wp (gck_builder_add_onlyv b a only) Q st.
Proof.
  intros Hok Hb0 Ha0 [S HS] es Hroom Hadd HQ. pose proof HS as HS'. cbn in HS'. apply lookup_fmap_Some in HS' as (s & <- & Hs).
  destruct (set_length_view st a s Hs) as [_ Hlen]. unfold entries_at in *. subst es. rewrite HS in *. cbn [fmap option_fmap option_map default] in *.
  pose proof Hadd as (B & HB & _)%bind_Some. unfold gck_builder_add_onlyv.
  destruct (Z.eqb_spec b 0), (Z.eqb_spec a 0); [done..|]. cbn [orb]. do 2 step. rewrite <- Hlen. unfold id in *.
  set (f := fun (e : Entry) t => if e.1 =? t then [copy_entry e] else []).
  eapply (wp_from_set b a false (fun e => only ≫= f e)); [exact HS|exact Hok|exact HB| |done..].
  intros i e st' B' P He Hok' HS' Hroom' HB' HP. pose proof (seq_bind only (f e)) as Hseq.
  eapply (wp_for_each b false (fun A => abs_a A !! a = Some (view_a (values st) s))
    (fun j => match only !! j with Some t => f e t | None => [] end)); [| |exact Hok'|exact HS'| |exact HB'|].
  - intros A l'. by rewrite set_entries_a.
  - intros j st2 B2 P2 Hj%elem_of_seq Hok2 HS2 Hroom2 HB2 HP2. destruct (set_points _ _ _ _ _ HS2 He) as (x & Hx & Hxe).
    destruct (only !! j) as [t|] eqn:Ht; [|apply lookup_ge_None in Ht; lia].
    step. eapply wp_deref; [exact Hx|]. step. eapply wp_or_fail; [reflexivity|]. unfold f in *. rewrite <- Hxe in *. cbn [fst content] in *.
    destruct (attr_type x =? t); [by eapply wp_copy_round|step; by apply HP2, did_refl].
  - by rewrite Hseq.
  - by rewrite Hseq.
Qed.

(** * Builders come and go *)

Lemma new_address_fmap {A C} (f : A -> C) (m : gmap Z A) : new_address (f <$> m) = new_address m.
Proof.
  unfold new_address. f_equal. rewrite map_to_list_fmap, <- list_fmap_compose. done.
Qed.

(** A builder is put that holds no value, in place of none or of one that held none. *)
Lemma ok_put_valueless E st b r' : ok E st -> owners (default [] (elements <$> builders st !! b)) = [] -> owners (elements r') = [] ->
  let st' := with_builders (<[b := r']> (builders st)) st in
  ok E st' /\ abs st' = mk_abs (<[b := view_b (values st) r']> (abs_b (abs st))) (abs_a (abs st)) (abs_s (abs st)) /\
  held E st' = held E st.
Proof.
  intros Hok Hold Hnew st'. destruct st as [vs bs ats ss]. cbn [values builders attributes structs] in *.
  assert (owners (others bs ats ss) ≡ₚ owners (others (delete b bs) ats ss)) as Ho.
  { destruct (bs !! b) as [r|] eqn:Hr; [|by rewrite delete_id].
    rewrite (others_delete_b b bs ats ss r Hr), owners_app. cbn [fmap option_fmap option_map default] in Hold. unfold id in Hold. by rewrite Hold. }
  destruct (ok_put_builder E E vs vs bs ats ss b r' Hok) as [H1 H2].
  { destruct Hok as [Hc Hs]. unfold all_attrs in Hc, Hs. cbn [values builders attributes structs] in Hc, Hs. split_and!.
    - rewrite Hnew. cbn [app]. by rewrite <- Ho.
    - apply Forall_forall. intros a Ha Hv. pose proof (elem_owners _ _ Ha Hv) as Hin. rewrite Hnew in Hin. by apply elem_of_nil in Hin.
    - apply keeps_refl. }
  split; [exact H1|]. split; [exact H2|]. unfold held, all_attrs, st'. cbn [builders attributes structs with_builders]. f_equal.
  rewrite Ho. unfold others. rewrite gather_insert. rewrite !owners_app, Hnew. done.
Qed.

Lemma wp_put_valueless E st b r' (Q : unit -> St -> Prop) : ok E st ->
  owners (default [] (elements <$> builders st !! b)) = [] -> owners (elements r') = [] ->
  (forall st', ok E st' -> abs st' = mk_abs (<[b := view_b (values st) r']> (abs_b (abs st))) (abs_a (abs st)) (abs_s (abs st)) ->
     held E st' = held E st -> builders st' = <[b := r']> (builders st) -> attributes st' = attributes st -> Q tt st') ->
  wp (put_builder b r') Q st.
Proof. intros Hok Hold Hnew HQ. apply wp_modify. destruct (ok_put_valueless E st b r' Hok Hold Hnew) as (H1 & H2 & H3). by apply HQ. Qed.

Lemma fresh_valueless st : owners (default [] (elements <$> builders st !! new_address (builders st))) = [].
Proof. by rewrite (proj1 (new_address_fresh (builders st))). Qed.

Definition new_entry (flags refs_ : Z) : ABuilder := mk_ab [] (negb (Z.land flags GCK_BUILDER_SECURE_MEMORY =? 0)) refs_.
Definition set_builder (b : Z) (B : ABuilder) (A : Abs) : Abs := mk_abs (<[b := B]> (abs_b A)) (abs_a A) (abs_s A).

Lemma wp_init_full E st b flags (Q : unit -> St -> Prop) : ok E st -> b <> 0 ->
  owners (default [] (elements <$> builders st !! b)) = [] ->
  (forall st', did E st 0 (Some (set_builder b (new_entry flags 0) (abs st))) st' ->
     builders st' = <[b := mk_builder None (negb (Z.land flags GCK_BUILDER_SECURE_MEMORY =? 0)) 0]> (builders st) -> Q tt st') ->
  wp (gck_builder_init_full b flags) Q st.
Proof.
  intros Hok Hb0 Hold HQ. unfold gck_builder_init_full. destruct (Z.eqb_spec b 0); [done|].
  eapply wp_put_valueless; [exact Hok|exact Hold|done|]. intros st' G1 G2 G3 G4 _. apply HQ; [|done]. split_and!; [done|by rewrite G2|lia].
Qed.

Lemma wp_new E st flags (Q : Z -> St -> Prop) : ok E st ->
  (forall st', let b := new_address (abs_b (abs st)) in
     did E st 0 (Some (set_builder b (new_entry flags 1) (abs st))) st' -> Q b st') -> wp (gck_builder_new flags) Q st.
Proof.
  intros Hok HQ. cbv zeta in HQ. cbn [abs abs_b] in HQ. rewrite new_address_fmap in HQ.
  pose proof (new_address_fresh (builders st)) as [Hfresh Hpos]. unfold gck_builder_new. do 2 step. step.
  eapply wp_init_full; [exact Hok|lia|apply fresh_valueless|]. intros st1 (Hok1 & Habs1%(inj Some) & Hheld1) Hbs1.
  step. eapply wp_builder_at; [rewrite Hbs1; apply lookup_insert_eq|]. step.
  eapply wp_put_valueless; [exact Hok1|rewrite Hbs1, lookup_insert_eq; done|done|]. intros st2 G1 G2 G3 _ _. step. apply HQ.
  split_and!; [done| |lia]. rewrite G2, <- Habs1. unfold set_builder. cbn [abs_b abs_a abs_s abs]. by rewrite insert_insert_eq.
Qed.

Lemma wp_builder_refs E st b r n (Q : unit -> St -> Prop) : ok E st -> builders st !! b = Some r ->
  (forall st', did E st 0 (Some (set_builder b (mk_ab (content (values st) <$> elements r) (secure r) n) (abs st))) st' ->
     builders st' = <[b := mk_builder (array r) (secure r) n]> (builders st) -> held E st' = held E st -> Q tt st') ->
  wp (put_builder b (mk_builder (array r) (secure r) n)) Q st.
Proof.
  intros Hok Hb HQ. apply wp_modify. destruct st as [vs bs ats ss]. cbn [values builders attributes structs] in *.
  pose proof (others_delete_b b bs ats ss r Hb) as Ho.
  destruct (ok_put_builder E E vs vs bs ats ss b (mk_builder (array r) (secure r) n) Hok) as [H1 H2].
  { destruct Hok as [Hc Hs]. unfold all_attrs in Hc, Hs. cbn [values builders attributes structs] in Hc, Hs. rewrite Ho in Hc, Hs. split_and!.
    - change (elements _) with (elements r). by rewrite <- owners_app.
    - by apply Forall_app in Hs as [Hs _].
    - apply keeps_refl. }
  assert (held E (mk_st vs (<[b := mk_builder (array r) (secure r) n]> bs) ats ss) = held E (mk_st vs bs ats ss)) as Hh.
  { unfold held, all_attrs, others. cbn [builders attributes structs]. rewrite gather_insert, (gather_lookup elements bs b r Hb). done. }
  unfold with_builders. cbn [values builders attributes structs]. apply HQ; [|done|exact Hh]. split_and!; [exact H1|by rewrite H2|lia].
Qed.

Lemma set_builder_twice b B B' A : set_builder b B (set_builder b B' A) = set_builder b B A.
Proof. unfold set_builder. cbn. by rewrite insert_insert_eq. Qed.

Lemma set_entries_builder b l B A : set_entries b l (set_builder b B A) = set_builder b (mk_ab l (ab_secure B) (ab_refs B)) A.
Proof. unfold set_entries, set_builder. cbn [abs_b abs_a abs_s]. rewrite lookup_insert_eq. by rewrite insert_insert_eq. Qed.

Lemma fresh_builder A : abs_b A !! new_address (abs_b A) = None.
Proof. apply new_address_fresh. Qed.

Lemma wp_builder_copy E st b B (Q : Z -> St -> Prop) : ok E st -> b <> 0 -> abs_b (abs st) !! b = Some B ->
  let es := copy_entry <$> entries B in let c := new_address (abs_b (abs st)) in
  held E st + Zlen es < 2 ^ 31 ->
  (forall st', did E st (Zlen es) (Some (set_builder c (mk_ab es (ab_secure B) 1) (abs st))) st' -> Q c st') ->
  wp (gck_builder_copy b) Q st.
Proof.
  intros Hok Hb0 HB es c Hroom HQ. unfold gck_builder_copy. destruct (Z.eqb_spec b 0) as [|_]; [done|].
  pose proof HB as HB'. cbn in HB'. apply lookup_fmap_Some in HB' as (r & <- & Hr). do 2 step. step. eapply wp_new; [exact Hok|].
  intros st1. cbv zeta. fold c. intros (Hok1 & Habs1%(inj Some) & Hheld1).
  assert (b <> c) as Hbc by (intros ->; unfold c in HB; by rewrite fresh_builder in HB).
  assert (length (elements r) = length (entries (view_b (values st) r))) as -> by (cbn; by rewrite length_fmap).
  set (B := view_b (values st) r) in *. step. pose proof (seq_bind (entries B) (fun e => [copy_entry e])) as Hes. rewrite bind_singleton in Hes.
  fold es in Hes. set (f := if secure r then GCK_BUILDER_SECURE_MEMORY else GCK_BUILDER_NONE) in *.
  eapply (wp_for_each c false (fun A => abs_b A !! b = Some B)
    (fun i => match entries B !! i with Some e => [copy_entry e] | None => [] end)); [| |exact Hok1| | | |].
  - intros A l' HA. by rewrite set_entries_other.
  - intros i st2 B2 P Hi%elem_of_seq Hok2 HB2 Hroom2 HB2' HP. destruct (entries B !! i) as [e|] eqn:He; [|apply lookup_ge_None in He; lia].
    eapply wp_copy; [exact Hok2|exact Hroom2| |exact HP].
    rewrite (copy_place c (InBuilder b i) false (abs st2) B2 e); [done|exact HB2'| |].
    + cbn [entry_at]. by rewrite HB2.
    + intros j [= ? ?]. by apply Hbc.
  - rewrite <- Habs1. unfold set_builder. cbn [abs_b]. by rewrite lookup_insert_ne by congruence.
  - rewrite Hes. lia.
  - rewrite <- Habs1. cbn [set_builder abs_b]. apply lookup_insert_eq.
  - intros st2 (Hok2 & Habs2%(inj Some) & Hheld2). rewrite Hes in *. step. apply HQ. split_and!; [done| |lia]. f_equal.
    rewrite <- Habs2, <- Habs1, set_entries_builder, place_all_add. cbn [entries new_entry app ab_secure ab_refs]. f_equal. f_equal.
    unfold f. cbn. by destruct (secure r).
Qed.

(** What [gck_builder_clear] leaves. *)
Definition emptied (E : list Z) (st : St) (b : Z) (r : Builder) (st' : St) : Prop :=
  ok E st' /\ abs st' = set_entries b [] (abs st) /\ held E st' <= held E st /\
  exists r', builders st' !! b = Some r' /\ owners (elements r') = [] /\ b_refs r' = b_refs r.

Lemma owners_nil l : owners l = [] <-> Forall (fun a => value a = 0) l.
Proof.
  split.
  - intros Ho. apply Forall_forall. intros a Ha. destruct (decide (value a = 0)) as [|Hv]; [done|].
    pose proof (elem_owners a l Ha Hv) as Hin. rewrite Ho in Hin. by apply elem_of_nil in Hin.
  - induction 1 as [|a l Ha Hl IH]; [done|]. change (a :: l) with ([a] ++ l). rewrite owners_app, IH, owners_one. by rewrite decide_True.
Qed.

Lemma wp_clear_from E b suf : forall st pre r (Q : unit -> St -> Prop), ok E st -> held E st < 2 ^ 31 ->
  builders st !! b = Some r -> elements r = pre ++ suf -> owners pre = [] ->
  (forall st' r' l', ok E st' -> abs st' = set_entries b l' (abs st) -> held E st' <= held E st ->
     builders st' !! b = Some r' -> owners (elements r') = [] -> secure r' = secure r -> b_refs r' = b_refs r -> Q tt st') ->
  wp (for_each (seq (length pre) (length suf)) (builder_clear b)) Q st.
Proof.
  induction suf as [|x suf IH]; intros st pre r Q Hok Hroom Hb Hel Hpre HQ; cbn [length seq for_each].
  { step. rewrite app_nil_r in Hel. apply (HQ st r (content (values st) <$> elements r)); [done| |lia|done|by rewrite Hel|done|done].
    symmetry. apply (set_entries_id b (abs st) (view_b (values st) r)). by apply abs_builder. }
  assert (elements r !! length pre = Some x) as Hx by (rewrite Hel; by apply list_lookup_middle).
  step. eapply wp_clear; [exact Hok|exact Hb|exact Hx|exact Hroom|]. intros vs' r' Hr' st1 Hok1 Hheld1 Habs1 _.
  assert (elements r' = (pre ++ [mk_attr (attr_type x) 0 0]) ++ suf) as Hel'.
  { rewrite Hr'. change (<[length pre := mk_attr (attr_type x) 0 0]> (elements r) = (pre ++ [mk_attr (attr_type x) 0 0]) ++ suf).
    rewrite Hel, insert_app_r_alt, Nat.sub_diag by done. cbn. by rewrite <- (assoc_L (++)). }
  replace (S (length pre)) with (length (pre ++ [mk_attr (attr_type x) 0 0])) by (rewrite length_app; cbn; lia).
  eapply (IH st1 _ r'); [exact Hok1|lia|subst st1; apply lookup_insert_eq|exact Hel'| |].
  - by rewrite owners_app, Hpre, owners_empty.
  - intros st2 r2 l2 Hok2 Habs2 Hheld2 Hb2 Ho2 Hs2 Hr2. eapply (HQ st2 r2 l2); [done| |lia|done|done| |].
    + by rewrite Habs2, Habs1, set_entries_twice.
    + by rewrite Hs2, Hr'.
    + by rewrite Hr2, Hr'.
Qed.

Lemma wp_builder_clear E st b r (Q : unit -> St -> Prop) : ok E st -> held E st < 2 ^ 31 -> b <> 0 -> builders st !! b = Some r ->
  (forall st', emptied E st b r st' -> Q tt st') -> wp (gck_builder_clear b) Q st.
Proof.
  intros Hok Hroom Hb0 Hb HQ. unfold gck_builder_clear. destruct (Z.eqb_spec b 0) as [|_]; [done|]. do 2 step.
  assert (elements r = default [] (array r)) as Hel by done. destruct (array r) as [attrs|] eqn:Harr.
  2:{ step. apply HQ. split_and!; [done| |lia|exists r; by rewrite Hel].
      symmetry. apply (set_entries_id b (abs st) (mk_ab [] (secure r) (b_refs r))). rewrite (abs_builder st b r Hb). unfold view_b. by rewrite Hel. }
  cbn [default] in Hel. unfold id in Hel. step.
  eapply (wp_clear_from E b attrs st [] r); [exact Hok|exact Hroom|exact Hb|exact Hel|done|].
  intros st1 r1 l1 Hok1 Habs1 Hheld1 Hb1 Ho1 Hs1 Hr1. do 2 step.
  eapply wp_put_valueless; [exact Hok1|rewrite Hb1; exact Ho1|done|]. intros st2 G1 G2 G3 G4 _. apply HQ. split_and!; [done| |lia|].
  - rewrite G2. assert (abs_b (abs st) !! b = Some (view_b (values st) r)) as HB by (by apply abs_builder).
    rewrite Habs1. unfold set_entries. rewrite HB. cbn [abs_b abs_a abs_s]. rewrite insert_insert_eq. unfold view_b. cbn. by rewrite Hs1, Hr1.
  - rewrite G4. eexists. split; [apply lookup_insert_eq|]. by cbn.
Qed.

Lemma wp_builder_unref E st b B (Q : unit -> St -> Prop) : ok E st -> held E st < 2 ^ 31 -> b <> 0 -> abs_b (abs st) !! b = Some B ->
  (forall st', did E st 0 (Some (let n := s32 (ab_refs B - 1) in
     if n =? 0 then mk_abs (delete b (abs_b (abs st))) (abs_a (abs st)) (abs_s (abs st))
     else set_builder b (mk_ab (entries B) (ab_secure B) n) (abs st))) st' -> Q tt st') ->
  wp (gck_builder_unref b) Q st.
Proof.
  intros Hok Hroom Hb0 HB HQ. pose proof HB as HB'. cbn in HB'. apply lookup_fmap_Some in HB' as (r & <- & Hr).
  unfold gck_builder_unref. destruct (Z.eqb_spec b 0) as [|_]; [done|]. do 3 step. cbn [ab_refs view_b] in HQ.
  eapply wp_builder_refs; [exact Hok|exact Hr|]. intros st1 (Hok1 & Habs1%(inj Some) & _) Hbs1 Hheld1. cbv zeta in HQ.
  destruct (Z.eqb_spec (s32 (b_refs r - 1)) 0) as [Hn|Hn].
  2:{ step. apply HQ. split_and!; [done| |lia]. by rewrite <- Habs1. }
  step. eapply wp_builder_clear; [exact Hok1|lia|exact Hb0|rewrite Hbs1; apply lookup_insert_eq|].
  intros st2 (Hok2 & Habs2 & Hheld2 & r2 & Hb2 & Ho2 & _). step. apply HQ.
  destruct (ok_delete_builder E st2 b r2 Hok2 Hb2 Ho2) as [G1 G2]. split_and!; [exact G1| |].
  - rewrite G2, Habs2, <- Habs1, set_entries_builder. unfold set_builder. cbn [abs_b abs_a abs_s]. by rewrite delete_insert_eq.
  - unfold held, all_attrs in *. cbn [with_builders builders attributes structs].
    pose proof (others_delete_b b _ (attributes st2) (structs st2) r2 Hb2) as Ho. rewrite Ho, owners_app, Ho2 in Hheld2. cbn [app] in Hheld2. lia.
Qed.

(** * Sets come and go *)

Definition set_attributes (a : Z) (S : list Entry * Z) (A : Abs) : Abs := mk_abs (abs_b A) (<[a := S]> (abs_a A)) (abs_s A).

Lemma wp_end E st b B (Q : Z -> St -> Prop) : ok E st -> b <> 0 -> abs_b (abs st) !! b = Some B ->
  let a := new_address (abs_a (abs st)) in
  (forall st', did E st 0 (Some (set_attributes a (entries B, 1) (set_entries b [] (abs st)))) st' ->
     builders st' = <[b := mk_builder None (ab_secure B) (ab_refs B)]> (builders st) -> Q a st') ->
  wp (gck_builder_end b) Q st.
Proof.
  intros Hok Hb0 HB a HQ. pose proof HB as HB'. cbn in HB'. apply lookup_fmap_Some in HB' as (r & <- & Hr).
  unfold gck_builder_end. destruct (Z.eqb_spec b 0) as [|_]; [done|]. destruct st as [vs bs ats ss].
  cbn [values builders attributes structs] in *. unfold a in *. cbn [abs abs_a] in *. rewrite new_address_fmap in HQ.
  cbn [values builders attributes structs] in *. destruct (new_address_fresh ats) as [Hfresh Hpos].
  do 4 step. unfold with_builders. cbn [values builders attributes structs]. do 5 step.
  cbn [values builders attributes structs]. set (c := new_address ats) in *. set (r' := mk_builder None (secure r) (b_refs r)).
  pose proof (others_delete_b b bs ats ss r Hr) as Ho. set (rest := others (delete b bs) ats ss) in *.
  pose proof Hok as [Hc Hs]. unfold all_attrs in Hc, Hs. cbn [values builders attributes structs] in Hc, Hs. rewrite Ho in Hc, Hs.
  rewrite owners_app in Hc. apply Forall_app in Hs as [Hsr Hs].
  destruct (ok_put_builder E (E ++ owners (elements r)) vs vs bs ats ss b r' Hok) as [G1 G2].
  { split_and!; [|constructor|apply keeps_refl]. rewrite <- (assoc_L (++)). exact Hc. }
  pose proof G1 as [Hc1 _]. unfold all_attrs in Hc1. cbn [values builders attributes structs] in Hc1.
  destruct (ok_put_attributes _ E vs vs (<[b := r']> bs) ats ss c (mk_attributes (elements r) 1) G1) as [K1 K2].
  { rewrite (delete_id ats) by done. split_and!; [by rewrite <- (assoc_L (++)) in Hc1|exact Hsr|apply keeps_refl]. }
  apply HQ; [|done]. split_and!; [exact K1| |].
  - unfold with_attributes. cbn [values builders attributes structs]. rewrite K2. f_equal. unfold set_attributes, set_entries.
    rewrite (abs_builder (mk_st vs bs ats ss) b r Hr). cbn [abs abs_b abs_a abs_s values builders attributes structs]. f_equal.
    by rewrite fmap_insert.
  - unfold held, all_attrs, others, with_attributes. cbn [values builders attributes structs].
    rewrite !gather_insert, (gather_lookup elements bs b r Hr), (delete_id ats) by done. cbn [data elements array r' default app].
    rewrite !owners_app, !length_app. lia.
Qed.

Lemma held_put_attributes E st a s s' : attributes st !! a = Some s -> data s' = data s ->
  held E (with_attributes (<[a := s']> (attributes st)) st) = held E st.
Proof.
  intros Ha Hd. unfold held, all_attrs, others. cbn [with_attributes builders attributes structs].
  by rewrite gather_insert, (gather_lookup data _ a s Ha), Hd.
Qed.

Lemma wp_set_refs E st a s n (Q : unit -> St -> Prop) : ok E st -> attributes st !! a = Some s ->
  (forall st', did E st 0 (Some (set_attributes a (content (values st) <$> data s, n) (abs st))) st' ->
     st' = with_attributes (<[a := mk_attributes (data s) n]> (attributes st)) st -> Q tt st') ->
  wp (put_attributes a (mk_attributes (data s) n)) Q st.
Proof.
  intros Hok Ha HQ. apply wp_modify. apply HQ; [|done]. pose proof (held_put_attributes E st a s (mk_attributes (data s) n) Ha eq_refl) as Hh.
  destruct st as [vs bs ats ss]. unfold with_attributes in *. cbn [values builders attributes structs] in *.
  pose proof (others_delete_a a bs ats ss s Ha) as Ho.
  destruct (ok_put_attributes E E vs vs bs ats ss a (mk_attributes (data s) n) Hok) as [G1 G2].
  { destruct Hok as [Hc Hs]. unfold all_attrs in Hc, Hs. cbn [values builders attributes structs] in Hc, Hs. rewrite Ho in Hc, Hs. split_and!.
    - cbn [data]. by rewrite <- owners_app.
    - by apply Forall_app in Hs as [Hs _].
    - apply keeps_refl. }
  split_and!; [exact G1|by rewrite G2|lia].
Qed.

Lemma wp_set_ref E st a S (Q : Z -> St -> Prop) : ok E st -> a <> 0 -> abs_a (abs st) !! a = Some S ->
  (forall st', did E st 0 (Some (set_attributes a (S.1, s32 (S.2 + 1)) (abs st))) st' -> Q a st') -> wp (gck_attributes_ref a) Q st.
Proof.
  intros Hok Ha0 HS HQ. cbn in HS. apply lookup_fmap_Some in HS as (s & <- & Hs). unfold gck_attributes_ref.
  destruct (Z.eqb_spec a 0) as [|_]; [done|]. do 3 step. eapply wp_set_refs; [exact Hok|exact Hs|]. intros st1 Hdid _. step. by apply HQ.
Qed.

(** The values of the elements of a set that is going away are given up one by one: the
    elements still point to them, so the invariant is that of the state without the set. *)
Lemma wp_release_from E a s suf : forall st pre (Q : unit -> St -> Prop), attributes st !! a = Some s -> data s = pre ++ suf ->
  ok (owners suf ++ E) (with_attributes (delete a (attributes st)) st) ->
  held (owners suf ++ E) (with_attributes (delete a (attributes st)) st) < 2 ^ 31 ->
  (forall vs', let st' := with_attributes (delete a (attributes st)) (with_values vs' st) in
     ok E st' -> abs st' = abs (with_attributes (delete a (attributes st)) st) -> Q tt (with_values vs' st)) ->
  wp (for_each (seq (length pre) (length suf)) (fun i =>
        x ← deref (InAttributes a i); if negb (value x =? 0) then value_unref (value x) else mret tt)) Q st.
Proof.
  induction suf as [|x suf IH]; intros st pre Q Ha Hd Hok Hroom HQ; cbn [length seq for_each].
  { step. specialize (HQ (values st)). destruct st as [vs bs ats ss]. by apply HQ. }
  assert (data s !! length pre = Some x) as Hx by (rewrite Hd; by apply list_lookup_middle).
  step. step. eapply wp_deref; [exists s; split; [exact Ha|exact Hx]|].
  change (x :: suf) with ([x] ++ suf) in Hok, Hroom. rewrite owners_app in Hok, Hroom. set (st0 := with_attributes _ st) in *.
  pose proof Hok as [Hc _]. rewrite <- !(assoc_L (++)) in Hc. destruct (hand_back _ _ _ Hc) as (vs' & Hc' & Hk & Hgave).
  { unfold held in Hroom. rewrite !length_app in *. lia. }
  apply (wp_hand_back x vs'); [exact Hgave|].
  destruct (ok_values _ (owners suf ++ E) st0 vs' Hok) as [G1 G2].
  { by rewrite <- (assoc_L (++)). }
  { intros p Hp. apply Hk. rewrite !elem_of_app. auto. }
  replace (S (length pre)) with (length (pre ++ [x])) by (rewrite length_app; cbn; lia).
  apply (IH (with_values vs' st) (pre ++ [x])).
  - exact Ha.
  - by rewrite Hd, <- (assoc_L (++)).
  - exact G1.
  - change (held (owners suf ++ E) st0 < 2 ^ 31). unfold held in *. rewrite !length_app in *. lia.
  - intros vs2 st2 Hok2 Habs2. apply (HQ vs2); [exact Hok2|]. etrans; [exact Habs2|exact G2].
Qed.

Lemma wp_set_unref E st a S (Q : unit -> St -> Prop) : ok E st -> held E st < 2 ^ 31 -> a <> 0 -> abs_a (abs st) !! a = Some S ->
  (forall st', did E st 0 (Some (let n := s32 (S.2 - 1) in
     if n =? 0 then mk_abs (abs_b (abs st)) (delete a (abs_a (abs st))) (abs_s (abs st)) else set_attributes a (S.1, n) (abs st))) st' ->
     Q tt st') ->
  wp (gck_attributes_unref a) Q st.
Proof.
  intros Hok Hroom Ha0 HS HQ. cbn in HS. apply lookup_fmap_Some in HS as (s & <- & Hs). unfold gck_attributes_unref.
  destruct (Z.eqb_spec a 0) as [|_]; [done|]. do 3 step. cbn [snd fst view_a] in HQ. cbv zeta in HQ.
  eapply wp_set_refs; [exact Hok|exact Hs|]. intros st1 (Hok1 & Habs1%(inj Some) & Hheld1) ->.
  set (s1 := mk_attributes (data s) (s32 (a_refs s - 1))) in *.
  destruct (Z.eqb_spec (s32 (a_refs s - 1)) 0) as [Hn|Hn].
  2:{ step. apply HQ. split_and!; [done|by rewrite <- Habs1|lia]. }
  step. set (st1 := with_attributes (<[a := s1]> (attributes st)) st) in *.
  assert (attributes st1 !! a = Some s1) as Ha1 by apply lookup_insert_eq.
  pose proof (others_delete_a a (builders st1) (attributes st1) (structs st1) s1 Ha1) as Ho.
  set (st0 := with_attributes (delete a (attributes st1)) st1).
  assert (all_attrs st1 ≡ₚ data s1 ++ all_attrs st0) as Hall by exact Ho.
  assert (ok (owners (data s1) ++ E) st0) as Hok0.
  { destruct Hok1 as [Hc Hs']. rewrite Hall in Hc, Hs'. rewrite owners_app in Hc. split.
    - rewrite <- (assoc_L (++)). rewrite Permutation_app_swap_app. exact Hc.
    - by apply Forall_app in Hs' as [_ Hs']. }
  assert (held (owners (data s1) ++ E) st0 = held E st1) as Hh.
  { unfold held. rewrite Hall, owners_app, !length_app. lia. }
  eapply (wp_release_from E a s1 (data s1) st1 []); [exact Ha1|done|exact Hok0|fold st0; rewrite Hh; lia|].
  intros vs2 st2 Hok2 Habs2. step. apply HQ. change (with_attributes _ (with_values vs2 st1)) with st2. split_and!; [exact Hok2| |].
  - rewrite Habs2. f_equal. unfold abs, st0, st1. cbn [with_attributes values builders attributes structs abs_b abs_a abs_s].
    by rewrite delete_insert_eq, fmap_delete.
  - assert (held E st2 = held E st0) as -> by done. unfold held in Hh |- *. rewrite length_app in Hh. unfold held in Hheld1. lia.
Qed.

(** * Single attributes *)

Definition set_struct (p : Z) (e : Entry) (A : Abs) : Abs := mk_abs (abs_b A) (abs_a A) (<[p := e]> (abs_s A)).

(** The attribute at [p], if there is one, has no value that would be lost. *)
Definition vacant (p : Z) (A : Abs) : bool := negb (bool_decide (is_bytes (default (0, Invalid) (abs_s A !! p)))).

Lemma vacant_owners E st p : ok E st -> vacant p (abs st) = true -> owners (default [] (single <$> structs st !! p)) = [].
Proof.
  unfold vacant. cbn [abs abs_s]. rewrite lookup_fmap. destruct (structs st !! p) as [x|] eqn:Hp; [|done]. cbn [fmap option_fmap option_map default]. unfold id.
  intros [_ Hs] Hv%negb_true_iff%bool_decide_eq_false. rewrite sized_bytes in Hv.
  - unfold single. rewrite owners_one. case_decide; [done|]. by destruct Hv.
  - rewrite Forall_forall in Hs. apply Hs. by apply (points_in st (Alone p)).
Qed.

Lemma ok_put_single E E2 st p x : ok E2 st -> E2 ≡ₚ owners [x] ++ E -> owners (default [] (single <$> structs st !! p)) = [] ->
  sized (values st) x ->
  let st' := with_structs (<[p := x]> (structs st)) st in
  ok E st' /\ abs st' = set_struct p (content (values st) x) (abs st) /\ held E st' = held E2 st.
Proof.
  intros Hok HE Hold Hsz st'. destruct st as [vs bs ats ss]. unfold st', with_structs. cbn [values builders attributes structs] in *.
  assert (owners (others bs ats ss) ≡ₚ owners (others bs ats (delete p ss))) as Ho.
  { destruct (ss !! p) as [y|] eqn:Hy; [|by rewrite delete_id].
    rewrite (others_delete_s p bs ats ss y Hy), owners_app. cbn [fmap option_fmap option_map default] in Hold. unfold id, single in Hold. by rewrite Hold. }
  destruct (ok_put_struct E2 E vs vs bs ats ss p x Hok) as [G1 G2].
  { destruct Hok as [Hc Hs]. unfold all_attrs in Hc. cbn [values builders attributes structs] in Hc. split_and!.
    - rewrite HE, <- (assoc_L (++)), Permutation_app_swap_app in Hc. by rewrite <- Ho.
    - by apply Forall_singleton.
    - apply keeps_refl. }
  split_and!; [exact G1|exact G2|]. unfold held, all_attrs. cbn [builders attributes structs]. rewrite HE, Ho.
  unfold others. rewrite gather_insert, !owners_app, !length_app. unfold single at 1. lia.
Qed.

Lemma wp_init E st p t src len checked (Q : unit -> St -> Prop) : ok E st -> p <> 0 -> vacant p (abs st) = true ->
  storable src len checked ->
  (forall st', did E st 1 (Some (set_struct p (t, stored src len) (abs st))) st' -> Q tt st') ->
  wp (gck_attribute_init p t src len checked) Q st.
Proof.
  intros Hok Hp0 Hv Hst HQ. pose proof (vacant_owners E st p Hok Hv) as Hold. unfold gck_attribute_init.
  destruct (Z.eqb_spec p 0) as [|_]; [done|].
  assert (forall n, did E st 1 (Some (set_struct p (content (values st) (mk_attr t 0 n)) (abs st)))
    (with_structs (<[p := mk_attr t 0 n]> (structs st)) st)) as Hempty.
  { intros n. destruct (ok_put_single E E st p (mk_attr t 0 n) Hok) as (G1 & G2 & G3); [by rewrite owners_empty|exact Hold|by intros Hn|].
    split_and!; [exact G1|by rewrite G2|lia]. }
  unfold stored in HQ. destruct (Z.eqb_spec len G_MAXULONG) as [->|Hlen].
  { step. apply HQ. apply (Hempty G_MAXULONG). }
  destruct src as [bs|].
  2:{ step. apply HQ. specialize (Hempty 0). by rewrite content_slot in Hempty. }
  destruct Hst as [?|[?|(bs' & [= <-] & Hal & Hle)]]; [done..|]. step. eapply wp_value_new; [exact Hok|exact Hal|exact Hle|].
  intros v st2 (Hv0 & Hvn & -> & Hok2 & Habs2). step. apply HQ.
  assert (0 <= len < 2 ^ 63 + 1) as Hrange by (destruct Hal; destruct checked; unfold MAX_ALIGN in *; lia).
  destruct (ok_put_single E (v :: E) _ p (mk_attr t v len) Hok2) as (G1 & G2 & G3); [by rewrite owners_value|exact Hold| |].
  { apply sized_new; [rewrite length_take; lia|unfold G_MAXULONG; lia]. }
  split_and!; [exact G1| |].
  - rewrite G2, Habs2. cbn [values with_values]. rewrite content_new by done. by rewrite take_take, Nat.min_id.
  - rewrite G3. unfold held. cbn [length]. change (all_attrs (with_values _ st)) with (all_attrs st). lia.
Qed.

Lemma wp_init_copy E st p src e (Q : unit -> St -> Prop) : ok E st -> held E st + 1 < 2 ^ 31 -> p <> 0 -> vacant p (abs st) = true ->
  entry_at (abs st) src = Some e ->
  (forall st', did E st 1 (Some (set_struct p (copy_entry e) (abs st))) st' -> Q tt st') ->
  wp (gck_attribute_init_copy p src) Q st.
Proof.
  intros Hok Hroom Hp0 Hv He HQ. pose proof (vacant_owners E st p Hok Hv) as Hold. apply entry_points in He as (x & Hx & <-).
  unfold gck_attribute_init_copy. destruct (Z.eqb_spec p 0) as [|_]; [done|]. step. eapply wp_deref; [exact Hx|].
  assert (forall n, did E st 1 (Some (set_struct p (content (values st) (mk_attr (attr_type x) 0 n)) (abs st)))
    (with_structs (<[p := mk_attr (attr_type x) 0 n]> (structs st)) st)) as Hempty.
  { intros n. destruct (ok_put_single E E st p (mk_attr (attr_type x) 0 n) Hok) as (G1 & G2 & G3); [by rewrite owners_empty|exact Hold|by intros Hn|].
    split_and!; [exact G1|by rewrite G2|lia]. }
  unfold copy_entry, content in HQ. cbn [fst snd] in HQ. destruct (Z.eqb_spec (a_length x) G_MAXULONG) as [Hm|Hm].
  { step. apply HQ. apply (Hempty G_MAXULONG). }
  destruct (Z.eqb_spec (value x) 0) as [Hx0|Hx0].
  { step. apply HQ. specialize (Hempty 0). by rewrite content_slot in Hempty. }
  destruct (points_value E st src x Hok Hx Hx0) as (v & Hvv & Hlen & Hmax). rewrite Hvv in HQ.
  step. eapply wp_value_ref; [exact Hok|exact Hvv|lia|]. intros st2 -> Hok2 Habs2. step. apply HQ.
  destruct (ok_put_single E (value x :: E) _ p (mk_attr (attr_type x) (value x) (a_length x)) Hok2) as (G1 & G2 & G3);
    [by rewrite owners_value|exact Hold| |].
  { intros _. exists (with_refs (refs v + 1) v). cbn [values with_values value a_length]. by rewrite lookup_insert_eq. }
  split_and!; [exact G1| |].
  - rewrite G2, Habs2. cbn [values with_values]. unfold content. cbn [a_length value attr_type]. rewrite lookup_insert_eq.
    destruct (Z.eqb_spec (a_length x) G_MAXULONG); [done|]. by destruct (Z.eqb_spec (value x) 0).
  - rewrite G3. unfold held. cbn [length]. change (all_attrs (with_values _ st)) with (all_attrs st). lia.
Qed.

Lemma wp_attr_clear E st p e (Q : unit -> St -> Prop) : ok E st -> held E st < 2 ^ 31 -> p <> 0 -> abs_s (abs st) !! p = Some e ->
  (forall st', did E st 0 (Some (set_struct p (e.1, Null 0) (abs st))) st' ->
     (exists x, structs st' !! p = Some x /\ owners [x] = []) -> Q tt st') ->
  wp (gck_attribute_clear p) Q st.
Proof.
  intros Hok Hroom Hp0 He HQ. cbn in He. apply lookup_fmap_Some in He as (x & <- & Hx). unfold gck_attribute_clear.
  destruct (Z.eqb_spec p 0) as [|_]; [done|]. do 2 step. destruct st as [vs bs ats ss]. cbn [values builders attributes structs] in *.
  pose proof (others_delete_s p bs ats ss x Hx) as Hoth. set (rest := others bs ats (delete p ss)) in *.
  pose proof Hok as [Hc Hs]. unfold all_attrs in Hc, Hs. cbn [values builders attributes structs] in Hc, Hs.
  assert (E ++ owners (others bs ats ss) ≡ₚ owners [x] ++ (E ++ owners rest)) as Ho.
  { rewrite Hoth, owners_app. apply Permutation_app_swap_app. }
  rewrite Ho in Hc. destruct (hand_back vs x _ Hc) as (vs' & Hc' & Hk & Hgave).
  { unfold held, all_attrs in Hroom. cbn [builders attributes structs] in Hroom. apply Permutation_length in Ho. rewrite length_app in Ho. lia. }
  step. apply (wp_hand_back x vs'); [exact Hgave|]. step. set (x' := mk_attr (attr_type x) 0 0).
  assert (owners [x'] = []) as Hx' by apply owners_empty.
  destruct (ok_put_struct E E vs vs' bs ats ss p x' Hok) as [G1 G2].
  { split_and!; [by rewrite Hx'|apply Forall_singleton; by intros Hv|]. intros q Hq. apply Hk. rewrite elem_of_app. by right. }
  apply HQ; [|exists x'; split; [apply lookup_insert_eq|done]]. split_and!; [exact G1| |].
  - f_equal. unfold with_values, with_structs. cbn [values builders attributes structs]. rewrite G2. unfold x'. by rewrite content_slot.
  - unfold held, all_attrs. cbn [with_values with_structs builders attributes structs]. rewrite Hoth, owners_app, length_app.
    unfold others. rewrite gather_insert. change (single x') with [x']. unfold rest, others. rewrite !owners_app, Hx', !length_app. cbn [length]. lia.
Qed.

Lemma wp_attr_free E st p e (Q : unit -> St -> Prop) : ok E st -> held E st < 2 ^ 31 -> p <> 0 -> abs_s (abs st) !! p = Some e ->
  (forall st', did E st 0 (Some (mk_abs (abs_b (abs st)) (abs_a (abs st)) (delete p (abs_s (abs st))))) st' -> Q tt st') ->
  wp (gck_attribute_free p) Q st.
Proof.
  intros Hok Hroom Hp0 He HQ. unfold gck_attribute_free. destruct (Z.eqb_spec p 0) as [|_]; [done|]. step.
  eapply wp_attr_clear; [exact Hok|exact Hroom|exact Hp0|exact He|]. intros st1 (Hok1 & Habs1%(inj Some) & Hheld1) (x & Hx & Ho). step. apply HQ.
  pose proof (others_delete_s p (builders st1) (attributes st1) (structs st1) x Hx) as Hoth. pose proof Hok1 as [Hc Hs]. unfold all_attrs in Hc, Hs.
  rewrite Hoth in Hc, Hs. rewrite owners_app, Ho in Hc. apply Forall_app in Hs as [_ Hs]. split_and!.
  - by split.
  - f_equal. assert (abs (with_structs (delete p (structs st1)) st1) = mk_abs (abs_b (abs st1)) (abs_a (abs st1)) (delete p (abs_s (abs st1)))) as ->.
    { unfold abs. cbn. by rewrite fmap_delete. }
    rewrite <- Habs1. unfold set_struct. cbn [abs_b abs_a abs_s]. by rewrite delete_insert_eq.
  - unfold held, all_attrs in Hheld1 |- *. rewrite Hoth, owners_app, Ho in Hheld1. exact Hheld1.
Qed.

Lemma wp_new_struct E st (Q : Z -> St -> Prop) : ok E st ->
  (forall st', let p := new_address (abs_s (abs st)) in did E st 0 (Some (set_struct p (0, Null 0) (abs st))) st' -> Q p st') ->
  wp new_struct Q st.
Proof.
  intros Hok HQ. cbv zeta in HQ. cbn [abs abs_s] in HQ. rewrite new_address_fmap in HQ. destruct (new_address_fresh (structs st)) as [Hfresh Hpos].
  unfold new_struct. do 4 step. step. apply HQ.
  destruct (ok_put_single E E st (new_address (structs st)) (mk_attr 0 0 0) Hok) as (G1 & G2 & G3);
    [by rewrite owners_empty|by rewrite Hfresh|by intros Hv|].
  split_and!; [exact G1| |lia]. rewrite G2. by rewrite content_slot.
Qed.

Lemma fresh_struct A : let p := new_address (abs_s A) in p <> 0 /\ abs_s A !! p = None.
Proof. cbv zeta. destruct (new_address_fresh (abs_s A)). split; [lia|done]. Qed.

Lemma vacant_set p t A : vacant p (set_struct p (t, Null 0) A) = true.
Proof. unfold vacant. cbn. rewrite lookup_insert_eq. done. Qed.

Lemma set_struct_twice p e e' A : set_struct p e (set_struct p e' A) = set_struct p e A.
Proof. unfold set_struct. cbn. by rewrite insert_insert_eq. Qed.

Lemma did_trans E st g1 A1 st1 g2 A2 st2 : did E st g1 A1 st1 -> did E st1 g2 A2 st2 -> g1 + g2 <= 1 ->  did E st 1 A2 st2.
Proof. intros (_ & _ & H1) (Hok2 & HA2 & H2) Hg. split_and!; [done|done|lia]. Qed.

Lemma wp_attr_new E st t src len checked (Q : Z -> St -> Prop) : ok E st -> storable src len checked ->
  (forall st', let p := new_address (abs_s (abs st)) in did E st 1 (Some (set_struct p (t, stored src len) (abs st))) st' -> Q p st') ->
  wp (gck_attribute_new t src len checked) Q st.
Proof.
  intros Hok Hst HQ. cbv zeta in HQ. unfold gck_attribute_new. step. eapply wp_new_struct; [exact Hok|]. intros st1. cbv zeta.
  destruct (fresh_struct (abs st)) as [Hp0 _]. set (p := new_address (abs_s (abs st))) in *. intros Hdid. pose proof Hdid as (Hok1 & Habs1%(inj Some) & Hheld1).
  step. eapply wp_init; [exact Hok1|exact Hp0|rewrite <- Habs1; apply vacant_set|exact Hst|]. intros st2 Hdid2. step. apply HQ.
  rewrite <- Habs1, set_struct_twice in Hdid2. eapply did_trans; [exact Hdid|exact Hdid2|lia].
Qed.

Lemma wp_dup E st src e (Q : Z -> St -> Prop) : ok E st -> held E st + 1 < 2 ^ 31 -> entry_at (abs st) src = Some e ->
  (forall st', let p := new_address (abs_s (abs st)) in did E st 1 (Some (set_struct p (copy_entry e) (abs st))) st' -> Q p st') ->
  wp (gck_attribute_dup (Some src)) Q st.
Proof.
  intros Hok Hroom He HQ. cbv zeta in HQ. cbn [gck_attribute_dup]. step. eapply wp_new_struct; [exact Hok|]. intros st1. cbv zeta.
  destruct (fresh_struct (abs st)) as [Hp0 Hfresh]. set (p := new_address (abs_s (abs st))) in *. intros Hdid. pose proof Hdid as (Hok1 & Habs1%(inj Some) & Hheld1).
  step. eapply (wp_init_copy E st1 p src e); [exact Hok1|lia|exact Hp0|rewrite <- Habs1; apply vacant_set| |].
  { rewrite <- Habs1, <- He. destruct src as [| |q]; [done..|]. cbn [entry_at set_struct abs_s] in *. rewrite lookup_insert_ne; [done|]. intros <-. congruence. }
  intros st2 Hdid2. step. apply HQ. rewrite <- Habs1, set_struct_twice in Hdid2. eapply did_trans; [exact Hdid|exact Hdid2|lia].
Qed.
End Sets.
