(* ===== verification/AttrContract.v ===== *)
(** PKCS#11 attributes: the contract of the functions of [src/gck/gck-attributes.c] that
    change anything, and that they keep it.

    [effect] says what each call does to what a client sees ([Abs]); it does not mention
    values, references or counts.  [attrs_refine] shows that the functions do exactly
    that and keep every count right; [attrs_no_leak] follows a client from the start of
    the process until it has released what it made. *)

From S2P Require Import Prelude StateM Attributes AttrStore AttrOps AttrObjects.
Local Open Scope Z_scope.

Inductive Call :=
  | BuilderNew (flags : Z)
  | BuilderInit (b flags : Z)
  | BuilderRef (b : Z)
  | BuilderUnref (b : Z)
  | BuilderCopy (b : Z)
  | TakeData (b t : Z) (src : option (list Z)) (len : Z) (checked : bool)
  | AddData (b t : Z) (src : option (list Z)) (len : Z) (checked : bool)
  | SetData (b t : Z) (src : option (list Z)) (len : Z) (checked : bool)
  | AddEmpty (b t : Z)
  | SetEmpty (b t : Z)
  | AddInvalid (b t : Z)
  | SetInvalid (b t : Z)
  | AddAttribute (b : Z) (p : AttrPtr)
  | AddAll (b a : Z)
  | SetAll (b a : Z)
  | AddOnly (b a : Z) (only : list Z)
  | AddExcept (b a : Z) (except : list Z)
  | BuilderEnd (b : Z)
  | BuilderClear (b : Z)
  | SetRef (a : Z)
  | SetUnref (a : Z)
  | NewEmpty (types : list Z)
  | AttrInit (p t : Z) (src : option (list Z)) (len : Z) (checked : bool)
  | AttrInitCopy (p : Z) (src : AttrPtr)
  | AttrNew (t : Z) (src : option (list Z)) (len : Z) (checked : bool)
  | AttrDup (src : AttrPtr)
  | AttrClear (p : Z)
  | AttrFree (p : Z).

Definition unit_ {S} (m : SM S unit) : SM S Z := m;; mret 0.

Section Contract.
Context `{Environment}.

(** What is called; the result of a function that returns nothing is 0. *)
Definition run (c : Call) : M Z :=
  match c with
  | BuilderNew flags => gck_builder_new flags
  | BuilderInit b flags => unit_ (gck_builder_init_full b flags)
  | BuilderRef b => gck_builder_ref b
  | BuilderUnref b => unit_ (gck_builder_unref b)
  | BuilderCopy b => gck_builder_copy b
  | TakeData b t src len checked => unit_ (gck_builder_take_data b t src len checked)
  | AddData b t src len checked => unit_ (gck_builder_add_data b t src len checked)
  | SetData b t src len checked => unit_ (gck_builder_set_data b t src len checked)
  | AddEmpty b t => unit_ (gck_builder_add_empty b t)
  | SetEmpty b t => unit_ (gck_builder_set_empty b t)
  | AddInvalid b t => unit_ (gck_builder_add_invalid b t)
  | SetInvalid b t => unit_ (gck_builder_set_invalid b t)
  | AddAttribute b p => unit_ (gck_builder_add_attribute b p)
  | AddAll b a => unit_ (gck_builder_add_all b a)
  | SetAll b a => unit_ (gck_builder_set_all b a)
  | AddOnly b a only => unit_ (gck_builder_add_only b a only)
  | AddExcept b a except => unit_ (gck_builder_add_except b a except)
  | BuilderEnd b => gck_builder_end b
  | BuilderClear b => unit_ (gck_builder_clear b)
  | SetRef a => gck_attributes_ref a
  | SetUnref a => unit_ (gck_attributes_unref a)
  | NewEmpty types => gck_attributes_new_empty types
  | AttrInit p t src len checked => unit_ (gck_attribute_init p t src len checked)
  | AttrInitCopy p src => unit_ (gck_attribute_init_copy p src)
  | AttrNew t src len checked => gck_attribute_new t src len checked
  | AttrDup src => gck_attribute_dup (Some src)
  | AttrClear p => unit_ (gck_attribute_clear p)
  | AttrFree p => unit_ (gck_attribute_free p)
  end.

(** * Effects *)

(** A builder without values, or none, is at [b]. *)
Definition vacant_builder (b : Z) (A : Abs) : bool :=
  bool_decide (Forall (fun e => ~ is_bytes e) (default [] (entries <$> abs_b A !! b))).

(** Functions check the pointers they are passed for NULL: then nothing happens. *)
Definition unless_null (p : Z) (A : Abs) (f : option (Abs * Z)) : option (Abs * Z) := if p =? 0 then Some (A, 0) else f.

Definition void (A : option Abs) : option (Abs * Z) := A ← A; Some (A, 0).

(** What a client sees after a call, and the result; [None] when it may not be made. *)
Definition effect (c : Call) (A : Abs) : option (Abs * Z) :=
  match c with
  | BuilderNew flags => let b := new_address (abs_b A) in Some (set_builder b (new_entry flags 1) A, b)
  | BuilderInit b flags =>
    unless_null b A (if vacant_builder b A then Some (set_builder b (new_entry flags 0) A, 0) else None)
  | BuilderRef b =>
    unless_null b A (B ← abs_b A !! b;
      Some (set_builder b (mk_ab (entries B) (ab_secure B) (s32 (ab_refs B + 1))) A, if ab_refs B =? 0 then 0 else b))
  | BuilderUnref b =>
    unless_null b A (B ← abs_b A !! b;
      let n := s32 (ab_refs B - 1) in
      Some (if n =? 0 then mk_abs (delete b (abs_b A)) (abs_a A) (abs_s A)
            else set_builder b (mk_ab (entries B) (ab_secure B) n) A, 0))
  | BuilderCopy b =>
    unless_null b A (B ← abs_b A !! b;
      let c := new_address (abs_b A) in
      Some (set_builder c (mk_ab (copy_entry <$> entries B) (ab_secure B) 1) A, c))
  | TakeData b t src len _ | AddData b t src len _ => unless_null b A (void (add_to b false [(t, stored src len)] A))
  | SetData b t src len _ => unless_null b A (void (add_to b true [(t, stored src len)] A))
  | AddEmpty b t => unless_null b A (void (add_to b false [(t, Null 0)] A))
  | SetEmpty b t => unless_null b A (void (add_to b true [(t, Null 0)] A))
  | AddInvalid b t => unless_null b A (void (add_to b false [(t, Invalid)] A))
  | SetInvalid b t => unless_null b A (void (add_to b true [(t, Invalid)] A))
  | AddAttribute b p => unless_null b A (void (copy b p false A))
  | AddAll b a => unless_null b A (unless_null a A (void (_ ← abs_a A !! a; add_to b false (copy_entry <$> entries_at A a) A)))
  | SetAll b a => unless_null b A (unless_null a A (void (_ ← abs_a A !! a; add_to b true (copy_entry <$> entries_at A a) A)))
  | AddOnly b a only =>
    unless_null b A (unless_null a A (void (_ ← abs_a A !! a; add_to b false (only_entries (varargs only) (entries_at A a)) A)))
  | AddExcept b a except =>
    unless_null b A (unless_null a A (void (_ ← abs_a A !! a; add_to b false (except_entries (varargs except) (entries_at A a)) A)))
  | BuilderEnd b =>
    unless_null b A (B ← abs_b A !! b;
      let a := new_address (abs_a A) in Some (set_attributes a (entries B, 1) (set_entries b [] A), a))
  | BuilderClear b => unless_null b A (_ ← abs_b A !! b; Some (set_entries b [] A, 0))
  | SetRef a => unless_null a A (S ← abs_a A !! a; Some (set_attributes a (S.1, s32 (S.2 + 1)) A, a))
  | SetUnref a =>
    unless_null a A (S ← abs_a A !! a;
      let n := s32 (S.2 - 1) in
      Some (if n =? 0 then mk_abs (abs_b A) (delete a (abs_a A)) (abs_s A) else set_attributes a (S.1, n) A, 0))
  | NewEmpty types =>
    let a := new_address (abs_a A) in Some (set_attributes a ((fun t => (t, Null 0)) <$> varargs types, 1) A, a)
  | AttrInit p t src len _ =>
    unless_null p A (if vacant p A then Some (set_struct p (t, stored src len) A, 0) else None)
  | AttrInitCopy p src =>
    unless_null p A (if vacant p A then e ← entry_at A src; Some (set_struct p (copy_entry e) A, 0) else None)
  | AttrNew t src len _ => let p := new_address (abs_s A) in Some (set_struct p (t, stored src len) A, p)
  | AttrDup src => e ← entry_at A src; let p := new_address (abs_s A) in Some (set_struct p (copy_entry e) A, p)
  | AttrClear p => unless_null p A (e ← abs_s A !! p; Some (set_struct p (e.1, Null 0) A, 0))
  | AttrFree p => unless_null p A (_ ← abs_s A !! p; Some (mk_abs (abs_b A) (abs_a A) (delete p (abs_s A)), 0))
  end.

(** Memory can be had for the values of the call: they are as long as they are said to
    be, and secure memory is not asked for two gigabytes. *)
Definition has_memory (c : Call) (A : Abs) : Prop :=
  match c with
  | TakeData _ _ src len checked | AttrInit _ _ src len checked | AttrNew _ src len checked => storable src len checked
  | AddData b _ src len checked | SetData b _ src len checked =>
    forall B, abs_b A !! b = Some B -> storable src len (ab_secure B || checked)
  | _ => True
  end.

#[export] Instance storable_dec src len sec : Decision (storable src len sec).
Proof.
  unfold storable, allocatable. refine (cast_if (decide (len = G_MAXULONG \/ src = None \/
    (0 <= len /\ len + MAX_ALIGN <= (if sec then 0x7FFFFFFF else 2 ^ 63)) /\ len <= Zlen (default [] src)))).
  all: abstract (destruct src; naive_solver).
Defined.

#[export] Instance has_memory_dec c A : Decision (has_memory c A).
Proof.
  destruct c; cbn [has_memory]; try apply _;
    (refine (match abs_b A !! b as o return Decision (forall B, o = Some B -> _) with
      | Some B => cast_if (decide (storable src len (ab_secure B || checked))) | None => left _ end)); abstract naive_solver.
Defined.

(** How many references the call may add. *)
Definition adds (c : Call) (A : Abs) : Z :=
  match c with
  | BuilderCopy b => Zlen (default [] (entries <$> abs_b A !! b))
  | AddAll _ a | SetAll _ a | AddExcept _ a _ => Zlen (entries_at A a)
  | AddOnly _ a only => Zlen (only_entries (varargs only) (entries_at A a))
  | _ => 1
  end.

(** A call may be made: there is an effect, memory for it, and no count overflows. *)
Definition permitted (c : Call) (A : Abs) : Prop :=
  is_Some (effect c A) /\ has_memory c A /\ weight A + adds c A < 2 ^ 31.

#[export] Instance permitted_dec c A : Decision (permitted c A).
Proof. unfold permitted. apply _. Defined.
End Contract.

(** * The functions keep the contract *)

Section Keeps.
Context `{Environment}.

Definition kept (c : Call) (st : St) (r : Z) (st' : St) : Prop := ok [] st' /\ effect c (abs st) = Some (abs st', r).

Lemma wp_unit (m : M unit) (Q : Z -> St -> Prop) st : wp m (fun _ st' => Q 0 st') st -> wp (unit_ m) Q st.
Proof. intros Hm. unfold unit_. step. eapply wp_mono; [exact Hm|]. intros u st' HQ. by step. Qed.

Lemma room_held st : ok [] st -> held [] st = weight (abs st).
Proof. intros Hok. rewrite (weight_held _ _ Hok). unfold held. cbn [length]. lia. Qed.

Lemma abs_b_lookup st b B : abs_b (abs st) !! b = Some B -> exists r, builders st !! b = Some r /\ B = view_b (values st) r.
Proof. intros HB. cbn in HB. apply lookup_fmap_Some in HB as (r & <- & Hr). by exists r. Qed.

Lemma vacant_builder_owners st b : ok [] st -> vacant_builder b (abs st) = true -> owners (default [] (elements <$> builders st !! b)) = [].
Proof.
  intros [_ Hs] Hv%bool_decide_eq_true. cbn [abs abs_b] in Hv. rewrite lookup_fmap in Hv.
  destruct (builders st !! b) as [r|] eqn:Hr; [|done]. cbn [fmap option_fmap option_map default] in *. unfold id in *.
  apply owners_nil, Forall_forall. intros a Ha. rewrite Forall_forall in Hv. destruct (decide (value a = 0)) as [|Hne]; [done|exfalso].
  apply (Hv (content (values st) a)); [by apply list_elem_of_fmap_2|]. apply sized_bytes; [|done].
  rewrite Forall_forall in Hs. apply Hs. unfold all_attrs, others. rewrite elem_of_app. left. by eapply elem_gather.
Qed.

(** Putting one entry. *)
Lemma kept_put st b t set c A' r (m : M unit) : ok [] st -> builders st !! b = Some r ->
  void (add_to b set [(t, c)] (abs st)) = Some (A', 0) ->
  (forall Q, (forall st', did [] st 1 (put b t set c (abs st)) st' -> Q tt st') -> wp m Q st) ->
  wp (unit_ m) (fun r st' => ok [] st' /\ Some (A', 0) = Some (abs st', r)) st.
Proof.
  intros Hok Hr Heff Hm. apply wp_unit, Hm. intros st' (Hok' & Hput & _). split; [done|].
  rewrite <- Heff. pose proof (abs_builder st b r Hr) as HB. rewrite (put_place b t set c _ _ HB) in Hput. injection Hput as Hput.
  unfold void, add_to. rewrite HB. cbn. rewrite <- Hput. done.
Qed.

Lemma wp_new_empty st types : ok [] st -> held [] st < 2 ^ 31 ->
  wp (gck_attributes_new_empty types) (kept (NewEmpty types) st) st.
Proof.
  intros Hok Hroom. unfold gck_attributes_new_empty, on_stack. do 2 step. set (b := new_address (builders st)).
  destruct (new_address_fresh (builders st)) as [Hfresh Hpos]. fold b in Hfresh, Hpos.
  step. unfold gck_builder_init. eapply wp_init_full; [exact Hok|lia|by rewrite Hfresh|]. intros st1 (Hok1 & Habs1%(inj Some) & Hheld1) _.
  assert (forall ts st1 es, ok [] st1 -> held [] st1 <= held [] st -> abs st1 = set_builder b (mk_ab es false 0) (abs st) ->
    forall Q : unit -> St -> Prop, (forall st2, ok [] st2 -> held [] st2 <= held [] st ->
      abs st2 = set_builder b (mk_ab (es ++ ((fun t => (t, Null 0)) <$> ts)) false 0) (abs st) -> Q tt st2) ->
    wp (add_empties b ts) Q st1) as Hloop.
  { clear st1 Hok1 Habs1 Hheld1. induction ts as [|t ts IH]; intros st1 es Hok1 Hheld1 Habs1 Q HQ; cbn [add_empties].
    { step. apply HQ; [done|done|]. by rewrite app_nil_r. }
    assert (abs_b (abs st1) !! b = Some (mk_ab es false 0)) as HB by (rewrite Habs1; apply lookup_insert_eq).
    destruct (abs_b_lookup _ _ _ HB) as (r & Hr & _). step. unfold gck_builder_add_empty. destruct (Z.eqb_spec b 0); [lia|].
    eapply (wp_put_empty [] st1 b t false); [exact Hok1|lia|exact Hr|]. intros st2 (Hok2 & Hput & Hheld2).
    rewrite (put_place _ _ _ _ _ _ HB) in Hput. apply (inj Some) in Hput. cbn [place entries] in Hput. rewrite Habs1, set_entries_builder in Hput.
    apply (IH st2 (es ++ [(t, Null 0)])); [done|lia|done|].
    intros st3 Hok3 Hheld3 Habs3. apply HQ; [done|done|]. rewrite Habs3. by rewrite <- (assoc_L (++)). }
  step. step. apply (Hloop (varargs types) st1 []); [done|lia|by rewrite <- Habs1|]. intros st2 Hok2 Hheld2 Habs2. cbn [app] in Habs2.
  set (es := (fun t => (t, Null 0)) <$> varargs types) in *.
  assert (abs_b (abs st2) !! b = Some (mk_ab es false 0)) as HB by (rewrite Habs2; apply lookup_insert_eq).
  eapply wp_end; [exact Hok2|lia|exact HB|]. intros st3 (Hok3 & Habs3%(inj Some) & _) Hbs3. step. step. step.
  destruct (ok_delete_builder [] st3 b (mk_builder None false 0) Hok3) as [G1 G2]; [rewrite Hbs3; apply lookup_insert_eq|done|].
  split; [exact G1|]. cbn [effect]. f_equal. f_equal; [|by rewrite Habs2]. rewrite G2, <- Habs3, Habs2, set_entries_builder.
  unfold set_attributes, set_builder. cbn [abs_b abs_a abs_s entries].
  rewrite delete_insert_eq, delete_id; [done|]. cbn [abs abs_b]. by rewrite lookup_fmap, Hfresh.
Qed.


Lemma same_effect (A B : Abs) (r : Z) : A = B -> Some (A, r) = Some (B, r).
Proof. by intros ->. Qed.

Lemma effect_null p A f (m : M Z) (Q : Z -> St -> Prop) st r : unless_null p A f = Some r ->
  (p = 0 -> Some (A, 0) = Some r -> wp m Q st) -> (p <> 0 -> f = Some r -> wp m Q st) -> wp m Q st.
Proof. unfold unless_null. destruct (Z.eqb_spec p 0); intros; eauto. Qed.

Lemma run_null st (m : M unit) r : ok [] st -> Some (abs st, 0) = Some r -> m = mret tt ->
  wp (unit_ m) (fun q st' => ok [] st' /\ Some r = Some (abs st', q)) st.
Proof. intros Hok <- ->. apply wp_unit. step. done. Qed.

Lemma kept_did (m : M unit) (A' : Abs) g st : ok [] st ->
  (forall Q, (forall st', did [] st g (Some A') st' -> Q tt st') -> wp m Q st) ->
  wp (unit_ m) (fun q st' => ok [] st' /\ Some (A', 0) = Some (abs st', q)) st.
Proof. intros Hok Hm. apply wp_unit, Hm. intros st' (Hok' & HA%(inj Some) & _). split; [done|]. by rewrite HA. Qed.

Lemma storable_secure st b src len checked r : builders st !! b = Some r ->
  (forall B, abs_b (abs st) !! b = Some B -> storable src len (ab_secure B || checked)) -> storable src len (secure r || checked).
Proof. intros Hr Hmem. apply (Hmem (view_b (values st) r)). by apply abs_builder. Qed.

Lemma add_to_builder st b set es A' : add_to b set es (abs st) = Some A' -> exists r, builders st !! b = Some r.
Proof. intros (B & HB & _)%bind_Some. by destruct (abs_b_lookup _ _ _ HB) as (r & Hr & _); exists r. Qed.

Lemma void_Some A r : void A = Some r -> exists A', A = Some A' /\ r = (A', 0).
Proof. unfold void. intros (A' & HA & [= <-])%bind_Some. by exists A'. Qed.

(** The functions that add or set one entry. *)
Lemma kept_entry st b t set c r' (m : M unit) : ok [] st -> void (add_to b set [(t, c)] (abs st)) = Some r' ->
  (forall r Q, builders st !! b = Some r -> (forall st', did [] st 1 (put b t set c (abs st)) st' -> Q tt st') -> wp m Q st) ->
  wp (unit_ m) (fun q st' => ok [] st' /\ Some r' = Some (abs st', q)) st.
Proof.
  intros Hok Heff Hm. destruct (void_Some _ _ Heff) as (A' & HA & ->). destruct (add_to_builder _ _ _ _ _ HA) as [r Hr].
  eapply kept_put; [exact Hok|exact Hr|exact Heff|]. intros Q HQ. by eapply Hm.
Qed.

(** The functions that copy from a set. *)
Lemma kept_set st b a set es r' (m : M unit) : ok [] st ->
  void (_ ← abs_a (abs st) !! a; add_to b set es (abs st)) = Some r' ->
  (forall A' Q, is_Some (abs_a (abs st) !! a) -> add_to b set es (abs st) = Some A' ->
     (forall st', did [] st (Zlen es) (Some A') st' -> Q tt st') -> wp m Q st) ->
  wp (unit_ m) (fun q st' => ok [] st' /\ Some r' = Some (abs st', q)) st.
Proof.
  intros Hok Heff Hm. destruct (void_Some _ _ Heff) as (A' & (S & HS & HA)%bind_Some & ->).
  eapply kept_did; [exact Hok|]. intros Q HQ. eapply Hm; [by exists S|exact HA|exact HQ].
Qed.

Lemma invalid_content t : (content ∅ (mk_attr t 0 G_MAXULONG)).2 = Invalid.
Proof. done. Qed.

Lemma except_le except l : Zlen (except_entries except l) <= Zlen l.
Proof.
  unfold except_entries. induction l as [|e l IH]; [done|]. rewrite bind_cons, length_app. cbn [length]. case_match; cbn [length]; lia.
Qed.

Lemma run_kept_builders st (c : Call) : ok [] st -> permitted c (abs st) ->
  match c with
  | BuilderNew _ | BuilderInit _ _ | BuilderRef _ | BuilderUnref _ | BuilderCopy _ | BuilderEnd _ | BuilderClear _ =>
    wp (run c) (kept c st) st
  | _ => True
  end.
Proof.
  intros Hok ([r Heff] & _ & Hroom). rewrite <- (room_held st Hok) in Hroom.
  destruct c; try done; unfold kept; rewrite ?Heff; cbn [effect run adds] in *.
  - injection Heff as <-. eapply wp_new; [exact Hok|]. cbv zeta. intros st' (Hok' & HA%(inj Some) & _). split; [done|]. by apply same_effect.
  - eapply effect_null; [exact Heff| |].
    + intros -> Hr. by eapply run_null.
    + intros Hb0 Hr. destruct (vacant_builder b (abs st)) eqn:Hv; [|done]. injection Hr as <-. eapply kept_did; [exact Hok|].
      intros Q HQ. eapply wp_init_full; [exact Hok|exact Hb0|by apply vacant_builder_owners|]. intros st' Hdid _. by apply HQ.
  - eapply effect_null; [exact Heff| |].
    + intros -> [= <-]. unfold gck_builder_ref. cbn [Z.eqb]. step. done.
    + intros Hb0 (B & HB & [= <-])%bind_Some. destruct (abs_b_lookup _ _ _ HB) as (r0 & Hr & ->). unfold gck_builder_ref.
      destruct (Z.eqb_spec b 0) as [|_]; [done|]. do 3 step. eapply wp_builder_refs; [exact Hok|exact Hr|].
      intros st' (Hok' & HA%(inj Some) & _) _ _. step. split; [done|]. by apply same_effect.
  - eapply effect_null; [exact Heff| |].
    + intros -> Hr. by eapply run_null.
    + intros Hb0 (B & HB & [= <-])%bind_Some. eapply kept_did; [exact Hok|]. intros Q HQ.
      eapply wp_builder_unref; [exact Hok|lia|exact Hb0|exact HB|exact HQ].
  - eapply effect_null; [exact Heff| |].
    + intros -> [= <-]. unfold gck_builder_copy. cbn [Z.eqb]. step. done.
    + intros Hb0 (B & HB & [= <-])%bind_Some. rewrite HB in Hroom. cbn [fmap option_fmap option_map default] in Hroom. unfold id in Hroom.
      eapply wp_builder_copy; [exact Hok|exact Hb0|exact HB|rewrite length_fmap; lia|]. intros st' (Hok' & HA%(inj Some) & _). split; [done|]. by apply same_effect.
  - eapply effect_null; [exact Heff| |].
    + intros -> [= <-]. unfold gck_builder_end. cbn [Z.eqb]. step. done.
    + intros Hb0 (B & HB & [= <-])%bind_Some. eapply wp_end; [exact Hok|exact Hb0|exact HB|].
      intros st' (Hok' & HA%(inj Some) & _) _. split; [done|]. by apply same_effect.
  - eapply effect_null; [exact Heff| |].
    + intros -> Hr. by eapply run_null.
    + intros Hb0 (B & HB & [= <-])%bind_Some. destruct (abs_b_lookup _ _ _ HB) as (r0 & Hr & ->). apply wp_unit.
      eapply wp_builder_clear; [exact Hok|lia|exact Hb0|exact Hr|]. intros st' (Hok' & HA & _). split; [done|]. by apply same_effect.
Qed.

Lemma run_kept_entries st (c : Call) : ok [] st -> permitted c (abs st) ->
  match c with
  | TakeData _ _ _ _ _ | AddData _ _ _ _ _ | SetData _ _ _ _ _ | AddEmpty _ _ | SetEmpty _ _ | AddInvalid _ _ | SetInvalid _ _ =>
    wp (run c) (kept c st) st
  | _ => True
  end.
Proof.
  intros Hok ([r Heff] & Hmem & Hroom). rewrite <- (room_held st Hok) in Hroom.
  destruct c; try done; unfold kept; rewrite ?Heff; cbn [effect run adds has_memory] in *;
    (eapply effect_null; [exact Heff|intros -> Hr; by eapply run_null|intros Hb0 Hvoid]);
    (eapply kept_entry; [exact Hok|exact Hvoid|]; intros rb Q Hrb HQ).
  - eapply wp_take_data; [exact Hok|lia|exact Hb0|exact Hrb|exact Hmem|exact HQ].
  - unfold gck_builder_add_data. destruct (Z.eqb_spec b 0) as [|_]; [done|].
    eapply (wp_put_data [] st b t false); [exact Hok|lia|exact Hrb|by eapply storable_secure|exact HQ].
  - unfold gck_builder_set_data. destruct (Z.eqb_spec b 0) as [|_]; [done|].
    eapply (wp_put_data [] st b t true); [exact Hok|lia|exact Hrb|by eapply storable_secure|exact HQ].
  - unfold gck_builder_add_empty. destruct (Z.eqb_spec b 0) as [|_]; [done|].
    eapply (wp_put_empty [] st b t false); [exact Hok|lia|exact Hrb|]. intros st' Hdid. apply HQ. eapply did_more; [exact Hdid|lia].
  - unfold gck_builder_set_empty. destruct (Z.eqb_spec b 0) as [|_]; [done|].
    eapply (wp_put_empty [] st b t true); [exact Hok|lia|exact Hrb|]. intros st' Hdid. apply HQ. eapply did_more; [exact Hdid|lia].
  - unfold gck_builder_add_invalid. destruct (Z.eqb_spec b 0) as [|_]; [done|].
    eapply (wp_put_null [] st b t false G_MAXULONG); [exact Hok|lia|exact Hrb|exact HQ].
  - unfold gck_builder_set_invalid. destruct (Z.eqb_spec b 0) as [|_]; [done|].
    eapply (wp_put_null [] st b t true G_MAXULONG); [exact Hok|lia|exact Hrb|exact HQ].
Qed.

Lemma copy_is_set st b p A' : copy b p false (abs st) = Some A' -> exists r, builders st !! b = Some r.
Proof. intros (e & _ & (B & HB & _)%bind_Some)%bind_Some. by destruct (abs_b_lookup _ _ _ HB) as (r & Hr & _); exists r. Qed.

Lemma run_kept_sets st (c : Call) : ok [] st -> permitted c (abs st) ->
  match c with
  | AddAttribute _ _ | AddAll _ _ | SetAll _ _ | AddOnly _ _ _ | AddExcept _ _ _ => wp (run c) (kept c st) st
  | _ => True
  end.
Proof.
  intros Hok ([r Heff] & Hmem & Hroom). rewrite <- (room_held st Hok) in Hroom.
  destruct c; try done; unfold kept; rewrite ?Heff; cbn [effect run adds has_memory] in *;
    (eapply effect_null; [exact Heff|intros -> Hr; by eapply run_null|intros Hb0 Hvoid]).
  { destruct (void_Some _ _ Hvoid) as (A' & HA & ->). eapply kept_did; [exact Hok|]. intros Q HQ.
    unfold gck_builder_add_attribute. destruct (Z.eqb_spec b 0) as [|_]; [done|]. eapply wp_copy; [exact Hok|lia|exact HA|exact HQ]. }
  all: (eapply effect_null; [exact Hvoid| |intros Ha0 Hset]).
  1, 3, 5, 7: intros -> Hr; eapply run_null; [exact Hok|exact Hr|].
  1: unfold gck_builder_add_all; change (0 =? 0) with true; by rewrite orb_true_r.
  1: unfold gck_builder_set_all; change (0 =? 0) with true; by rewrite orb_true_r.
  1: unfold gck_builder_add_only, gck_builder_add_onlyv; change (0 =? 0) with true; by rewrite orb_true_r.
  1: unfold gck_builder_add_except, gck_builder_add_exceptv; change (0 =? 0) with true; by rewrite orb_true_r.
  all: (eapply kept_set; [exact Hok|exact Hset|]; intros A' Q Hsome HA HQ).
  - unfold gck_builder_add_all. destruct (Z.eqb_spec b 0), (Z.eqb_spec a 0); [done..|]. cbn [orb].
    eapply wp_all; [exact Hok|done|done|exact Hsome|rewrite length_fmap; lia|exact HA|exact HQ].
  - unfold gck_builder_set_all. destruct (Z.eqb_spec b 0), (Z.eqb_spec a 0); [done..|]. cbn [orb].
    eapply wp_all; [exact Hok|done|done|exact Hsome|rewrite length_fmap; lia|exact HA|exact HQ].
  - eapply wp_only; [exact Hok|done|done|exact Hsome|lia|exact HA|exact HQ].
  - eapply wp_except; [exact Hok|done|done|exact Hsome| |exact HA|exact HQ].
    pose proof (except_le (varargs except) (entries_at (abs st) a)). lia.
Qed.

Lemma run_kept_structs st (c : Call) : ok [] st -> permitted c (abs st) ->
  match c with
  | SetRef _ | SetUnref _ | NewEmpty _ | AttrInit _ _ _ _ _ | AttrInitCopy _ _ | AttrNew _ _ _ _ | AttrDup _ | AttrClear _ | AttrFree _ =>
    wp (run c) (kept c st) st
  | _ => True
  end.
Proof.
  intros Hok ([r Heff] & Hmem & Hroom). rewrite <- (room_held st Hok) in Hroom.
  destruct c; try done; unfold kept; rewrite ?Heff; cbn [effect run adds has_memory] in *.
  - eapply effect_null; [exact Heff| |].
    + intros -> [= <-]. unfold gck_attributes_ref. cbn [Z.eqb]. step. done.
    + intros Ha0 (S & HS & [= <-])%bind_Some. eapply wp_set_ref; [exact Hok|exact Ha0|exact HS|].
      intros st' (Hok' & HA%(inj Some) & _). split; [done|]. by apply same_effect.
  - eapply effect_null; [exact Heff|intros -> Hr; by eapply run_null|].
    intros Ha0 (S & HS & [= <-])%bind_Some. eapply kept_did; [exact Hok|]. intros Q HQ.
    eapply wp_set_unref; [exact Hok|lia|exact Ha0|exact HS|exact HQ].
  - rewrite <- Heff. apply (wp_new_empty st types Hok). lia.
  - eapply effect_null; [exact Heff|intros -> Hr; by eapply run_null|]. intros Hp0 Hv. destruct (vacant p (abs st)) eqn:E; [|done].
    injection Hv as <-. eapply kept_did; [exact Hok|]. intros Q HQ. eapply wp_init; [exact Hok|exact Hp0|exact E|exact Hmem|exact HQ].
  - eapply effect_null; [exact Heff|intros -> Hr; by eapply run_null|]. intros Hp0 Hv. destruct (vacant p (abs st)) eqn:E; [|done].
    apply bind_Some in Hv as (e & He & [= <-]). eapply kept_did; [exact Hok|]. intros Q HQ.
    eapply wp_init_copy; [exact Hok|lia|exact Hp0|exact E|exact He|exact HQ].
  - injection Heff as <-. eapply wp_attr_new; [exact Hok|exact Hmem|]. cbv zeta. intros st' (Hok' & HA%(inj Some) & _).
    split; [done|]. by apply same_effect.
  - apply bind_Some in Heff as (e & He & [= <-]). eapply wp_dup; [exact Hok|lia|exact He|]. cbv zeta.
    intros st' (Hok' & HA%(inj Some) & _). split; [done|]. by apply same_effect.
  - eapply effect_null; [exact Heff|intros -> Hr; by eapply run_null|]. intros Hp0 (e & He & [= <-])%bind_Some.
    eapply kept_did; [exact Hok|]. intros Q HQ. eapply wp_attr_clear; [exact Hok|lia|exact Hp0|exact He|]. intros st' Hdid _. by apply HQ.
  - eapply effect_null; [exact Heff|intros -> Hr; by eapply run_null|]. intros Hp0 (e & He & [= <-])%bind_Some.
    eapply kept_did; [exact Hok|]. intros Q HQ. eapply wp_attr_free; [exact Hok|lia|exact Hp0|exact He|exact HQ].
Qed.

Lemma run_kept st (c : Call) : ok [] st -> permitted c (abs st) -> wp (run c) (kept c st) st.
Proof.
  intros Hok Hp. pose proof (run_kept_builders st c Hok Hp). pose proof (run_kept_entries st c Hok Hp).
  pose proof (run_kept_sets st c Hok Hp). pose proof (run_kept_structs st c Hok Hp). by destruct c.
Qed.

(** * The theorems *)

(** C2: every call that a client may make returns, without following a dangling pointer
    or failing an assertion; what the client sees of all builders, sets and attributes
    changes exactly as [effect] says, although they share values; and every value is
    counted once for each attribute that points to it. *)
Theorem attrs_refine st c : ok [] st -> permitted c (abs st) ->
  exists r st', run c st = Ok (r, st') /\ ok [] st' /\ effect c (abs st) = Some (abs st', r).
Proof.
  intros Hok Hp. destruct (wp_run _ _ _ (run_kept st c Hok Hp)) as (r & st' & E & Hok' & Heff). by exists r, st'.
Qed.

(** A client: a list of calls; the addresses it passes it can know, since they are part
    of the effects. *)
Fixpoint script (cs : list Call) (A : Abs) : option Abs :=
  match cs with [] => Some A | c :: cs => '(A', _) ← effect c A; script cs A' end.

Fixpoint all_permitted (cs : list Call) (A : Abs) : Prop :=
  match cs with
  | [] => True
  | c :: cs => permitted c A /\ forall A' r, effect c A = Some (A', r) -> all_permitted cs A'
  end.

#[export] Instance all_permitted_dec cs : forall A, Decision (all_permitted cs A).
Proof.
  induction cs as [|c cs IH]; intros A; cbn [all_permitted]; [apply _|].
  refine (cast_if_and (decide (permitted c A))
    (match effect c A as o return Decision (forall A' r, o = Some (A', r) -> all_permitted cs A') with
     | Some (A', _) => cast_if (IH A') | None => left _ end)); abstract naive_solver.
Defined.

Fixpoint run_all (cs : list Call) : M unit :=
  match cs with [] => mret tt | c :: cs => _ ← run c; run_all cs end.

Definition start : St := mk_st ∅ ∅ ∅ ∅.

Lemma start_ok : ok [] start.
Proof. split; [split; [intros p v; cbn; by rewrite lookup_empty|intros p Hp; by apply elem_of_nil in Hp]|constructor]. Qed.

Lemma run_all_kept cs : forall st, ok [] st -> all_permitted cs (abs st) ->
  exists st', run_all cs st = Ok (tt, st') /\ ok [] st' /\ script cs (abs st) = Some (abs st').
Proof.
  induction cs as [|c cs IH]; intros st Hok Hall; [by exists st|]. destruct Hall as [Hp Hall].
  destruct (wp_run _ _ _ (run_kept st c Hok Hp)) as (r & st1 & E & Hok1 & Heff).
  destruct (IH st1 Hok1 (Hall _ _ Heff)) as (st2 & E2 & Hok2 & Hs2). exists st2.
  split_and!; [|done|cbn [script]; by rewrite Heff].
  cbn [run_all]. unfold mbind, SM_bind. by rewrite E.
Qed.

(** C12: from the start of the process, a client that makes permitted calls only runs to
    its end; a value is freed no earlier than its last attribute, and when the client has
    released what it made, no value is left. *)
Theorem attrs_no_leak cs : all_permitted cs (abs start) ->
  exists st, run_all cs start = Ok (tt, st) /\ script cs (abs start) = Some (abs st) /\
    (forall p a, points st p a -> value a <> 0 -> is_Some (values st !! value a)) /\
    (Forall (fun e => ~ is_bytes e) (entries_of (abs st)) -> values st = ∅).
Proof.
  intros Hall. destruct (run_all_kept cs start start_ok Hall) as (st & E & Hok & Hs). exists st. split_and!; [done|done| |].
  - intros p a Hpt Hv. destruct (points_value [] st p a Hok Hpt Hv) as (v & -> & _). by eexists.
  - intros Hno. apply ok_empty; [done|]. unfold weight.
    induction Hno as [|e l He Hno IH]; [done|]. by rewrite filter_cons, decide_False.
Qed.

(** The state a list of calls leads to. *)
Definition state_after (cs : list Call) : St := match run_all cs start with Ok (_, st) => st | _ => start end.

Lemma state_after_ok cs : all_permitted cs (abs start) -> ok [] (state_after cs).
Proof. intros Hall. unfold state_after. by destruct (run_all_kept cs start start_ok Hall) as (st & -> & Hok & _). Qed.
End Keeps.

(** * On examples *)

(** Some values of PKCS#11 constants; the other names have numbers far from these. *)
Definition sample_constants : list (list Z * Z) := [
  (lit "CKA_CLASS", 0); (lit "CKA_LABEL", 3); (lit "CKA_VALUE", 0x11); (lit "CKA_KEY_TYPE", 0x100);
  (lit "CKA_CERTIFICATE_TYPE", 0x80); (lit "CKO_SECRET_KEY", 4); (lit "CKK_AES", 0x1f)].

Definition sample_environment : Environment := {|
  garbage p i := (p + Z.of_nat i) mod 256;
  constant name :=
    match List.find (fun kv => bool_decide (kv.1 = name)) sample_constants with Some (_, v) => v | None => le_val name + 2 ^ 40 end
|}.

#[local] Existing Instance sample_environment.

(** A builder for secrets gets a label and a value, a copy is made of it, and a set of
    attributes of the first; one more attribute shares the value. *)
Definition sample_calls : list Call := [
  BuilderNew GCK_BUILDER_SECURE_MEMORY; SetData 1 3 (Some [104; 105]) 2 false; AddData 1 0x11 (Some [1; 2; 3]) 3 false;
  BuilderCopy 1; AddInvalid 2 7; BuilderEnd 1; AttrDup (InAttributes 1 1)].

Lemma attrs_refine_witness :
  let st := state_after sample_calls in
  exists r st', run (SetAll 2 1) st = Ok (r, st') /\ ok [] st' /\ effect (SetAll 2 1) (abs st) = Some (abs st', r).
Proof.
  apply attrs_refine.
  - apply state_after_ok. apply (bool_decide_unpack (all_permitted sample_calls (abs start))). vm_compute. done.
  - apply (bool_decide_unpack (permitted (SetAll 2 1) (abs (state_after sample_calls)))). vm_compute. done.
Defined.

Definition sample_client : list Call :=
  sample_calls ++ [SetRef 1; BuilderUnref 2; SetUnref 1; SetUnref 1; AttrClear 1; BuilderUnref 1].

Lemma attrs_no_leak_witness :
  exists st, run_all sample_client start = Ok (tt, st) /\ script sample_client (abs start) = Some (abs st) /\
    (forall p a, points st p a -> value a <> 0 -> is_Some (values st !! value a)) /\
    (Forall (fun e => ~ is_bytes e) (entries_of (abs st)) -> values st = ∅).
Proof.
  apply attrs_no_leak. apply (bool_decide_unpack (all_permitted sample_client (abs start))). vm_compute. done.
Defined.

(** When the values are freed. *)
Example sample_client_values :
  (fun n => size (values (state_after (take n sample_client)))) <$> seq 7 7 = [2; 2; 2; 2; 1; 0; 0]%nat.
Proof. vm_compute. reflexivity. Qed.

(** Secrets outside secure memory: a builder made with [GCK_BUILDER_SECURE_MEMORY] keeps
    the memory that [gck_builder_take_data] is given, and the value of an attribute that
    is copied into it, where they are. *)
Example secure_builder_shares :
  in_secure <$> values (state_after [BuilderNew GCK_BUILDER_SECURE_MEMORY; TakeData 1 0x11 (Some [1]) 1 false;
    AttrNew 0x11 (Some [2]) 1 false; AddAttribute 1 (Alone 1); AddData 1 0x11 (Some [3]) 1 false]) =
  {[ 1 := false; 2 := false; 3 := true ]}.
Proof. vm_compute. reflexivity. Qed.
