(* ===== verification/AttrRead.v ===== *)
(** PKCS#11 attributes: what the functions that only read see.

    Typed values come back as they were set ([attrs_typed_roundtrip]); two attributes are
    equal when they look the same, and then hash alike ([attribute_equal_hash]); the text
    of a set of attributes says nothing of the values that may be secret
    ([attributes_text_hides_secrets]). *)

From S2P Require Import Prelude Text StateM Attributes AttrStore AttrOps AttrObjects AttrContract.
Local Open Scope Z_scope.

(** * Typed values, as entries *)

Definition e_ulong (e : Entry) : option Z :=
  match e.2 with Bytes bs => if Zlen bs =? 8 then Some (le_val bs) else None | _ => None end.
Definition e_boolean (e : Entry) : option bool :=
  match e.2 with Bytes bs => if Zlen bs =? 1 then Some (negb (le_val bs =? 0)) else None | _ => None end.
Definition e_string (e : Entry) : option (list Z) :=
  match e.2 with Bytes bs => Some (c_str bs) | _ => None end.

Definition date_of (bs : list Z) (old : GDate) : GDate :=
  match strtol_all (c_str (take 4 bs)), strtol_all (c_str (take 2 (drop 4 bs))), strtol_all (c_str (take 2 (drop 6 bs))) with
  | Some y, Some m, Some d => g_date_set_dmy old (u32 d) (u32 m) (u32 y)
  | _, _, _ => old
  end.
Definition e_date (old : GDate) (e : Entry) : option GDate :=
  match e.2 with Bytes bs => Some (if Zlen bs =? 8 then date_of bs old else old) | _ => Some old end.

(** The first entry of a type, unless it is marked invalid. *)
Definition first (t : Z) (l : list Entry) : option Entry :=
  e ← List.find (fun e : Entry => e.1 =? t) l; match e.2 with Invalid => None | _ => Some e end.

Lemma first_set t c l : c <> Invalid -> first t (set_first t c l) = Some (t, c).
Proof.
  intros Hc. unfold first. assert (List.find (fun e : Entry => e.1 =? t) (set_first t c l) = Some (t, c)) as ->; [|by destruct c].
  induction l as [|e l IH]; cbn [set_first List.find fst]; [by rewrite Z.eqb_refl|].
  destruct (e.1 =? t) eqn:E; cbn [List.find fst]; [by rewrite Z.eqb_refl|by rewrite E].
Qed.

(** * Reading *)

(** [m] only looks: it returns [x]. *)
Abbreviation reads st m x := (wp m (fun r st' => r = x /\ st' = st) st).

Lemma reads_run {A} st (m : M A) x : reads st m x -> m st = Ok (x, st).
Proof. intros Hm. destruct (wp_run _ _ _ Hm) as (r & st' & -> & -> & ->). done. Qed.

Section Reading.
Context `{Environment}.

(** The bytes an attribute points to are the ones seen. *)
Lemma wp_read_value E st p a (Q : list Z -> St -> Prop) : ok E st -> points st p a -> value a <> 0 ->
  (forall bs, content (values st) a = (attr_type a, Bytes bs) -> Zlen bs = a_length a -> Q bs st) -> wp (read_value a) Q st.
Proof.
  intros Hok Hp Hv HQ. destruct (points_value E st p a Hok Hp Hv) as (v & Hvv & Hlen & Hmax). unfold read_value.
  step. step. eapply wp_or_fail; [by apply slice_take|]. apply HQ; [|rewrite length_take; lia].
  unfold content. rewrite Hvv. destruct (Z.eqb_spec (a_length a) G_MAXULONG); [lia|]. by destruct (Z.eqb_spec (value a) 0).
Qed.

(** What is seen of an attribute without a value. *)
Lemma content_null vs a : value a = 0 ->
  content vs a = (attr_type a, if a_length a =? G_MAXULONG then Invalid else Null (a_length a)).
Proof. intros Hv. unfold content. rewrite Hv. done. Qed.

Lemma content_invalid E st p a : ok E st -> points st p a -> (a_length a =? G_MAXULONG) = true <-> (content (values st) a).2 = Invalid.
Proof.
  intros Hok Hp. unfold content. cbn [snd]. destruct (Z.eqb_spec (a_length a) G_MAXULONG); [done|]. split; [done|].
  destruct (Z.eqb_spec (value a) 0) as [|Hv]; [done|]. by destruct (points_value E st p a Hok Hp Hv) as (v & -> & _).
Qed.

Lemma wp_is_invalid st p a (Q : bool -> St -> Prop) : points st p a -> Q (a_length a =? G_MAXULONG) st -> wp (gck_attribute_is_invalid p) Q st.
Proof. intros Hp HQ. unfold gck_attribute_is_invalid. step. step. by step. Qed.

(** A typed value that has a fixed size. *)
Lemma reads_sized {A} E st p a n (f : list Z -> A) : ok E st -> points st p a ->
  reads st (if (value a =? 0) || negb (a_length a =? n) then mret None else bs ← read_value a; mret (Some (f bs)))
    (match (content (values st) a).2 with Bytes bs => if Zlen bs =? n then Some (f bs) else None | _ => None end).
Proof.
  intros Hok Hp. destruct (Z.eqb_spec (value a) 0) as [Hv|Hv]; cbn [orb].
  { step. split; [|done]. rewrite content_null by done. cbn [snd]. by destruct (a_length a =? G_MAXULONG). }
  destruct (points_value E st p a Hok Hp Hv) as (v & Hvv & Hlen & Hmax).
  assert (content (values st) a = (attr_type a, Bytes (take (Z.to_nat (a_length a)) (vbytes v)))) as Hcont.
  { unfold content. rewrite Hvv. destruct (Z.eqb_spec (a_length a) G_MAXULONG); [lia|]. by destruct (Z.eqb_spec (value a) 0). }
  rewrite Hcont. cbn [snd]. rewrite length_take. replace (Z.of_nat (Z.to_nat (a_length a) `min` length (vbytes v))) with (a_length a) by lia.
  destruct (a_length a =? n); cbn [negb]; [|by step]. step. eapply wp_read_value; [exact Hok|exact Hp|exact Hv|].
  intros bs Hbs _. rewrite Hcont in Hbs. injection Hbs as <-. by step.
Qed.

Lemma reads_string E st p a : ok E st -> points st p a -> reads st (gck_attribute_get_string p) (e_string (content (values st) a)).
Proof.
  intros Hok Hp. unfold gck_attribute_get_string, e_string. step. eapply wp_is_invalid; [exact Hp|].
  destruct (a_length a =? G_MAXULONG) eqn:Hm.
  { apply (content_invalid E st p a Hok Hp) in Hm. rewrite Hm. by step. }
  do 2 step. destruct (Z.eqb_spec (value a) 0) as [Hv|Hv]; [rewrite content_null, Hm by done; by step|].
  step. eapply wp_read_value; [exact Hok|exact Hp|exact Hv|]. intros bs -> _. by step.
Qed.

Lemma reads_date E st p a old : ok E st -> points st p a -> (content (values st) a).2 <> Invalid ->
  reads st (d ← gck_attribute_get_date p old; mret (Some d)) (e_date old (content (values st) a)).
Proof.
  intros Hok Hp Hni. unfold gck_attribute_get_date, e_date. step. step. eapply wp_is_invalid; [exact Hp|].
  destruct (a_length a =? G_MAXULONG) eqn:Hm; [by apply (content_invalid E st p a Hok Hp) in Hm|].
  do 2 step. destruct (Z.eqb_spec (value a) 0) as [Hv|Hv].
  { rewrite content_null, Hm by done. cbn [snd]. destruct (negb (a_length a =? 8)); by do 2 step. }
  destruct (Z.eqb_spec (a_length a) 8) as [H8|H8]; cbn [negb].
  - step. eapply wp_read_value; [exact Hok|exact Hp|exact Hv|]. intros bs -> Hlen. cbn [snd]. rewrite Hlen, H8. cbn [Z.eqb Pos.eqb].
    unfold date_of. repeat case_match; by do 2 step.
  - do 2 step. split; [|done]. destruct (points_value E st p a Hok Hp Hv) as (v & Hvv & Hlen & Hmax). unfold content. rewrite Hm, Hvv.
    destruct (Z.eqb_spec (value a) 0) as [|_]; [done|]. cbn [snd]. rewrite length_take.
    destruct (Z.eqb_spec (Z.of_nat (Z.to_nat (a_length a) `min` length (vbytes v))) 8); [lia|done].
Qed.

(** * Looking up *)

Lemma find_attribute_first vs l t : (exists i a, find_attribute l t = Some i /\ l !! i = Some a /\
    List.find (fun e : Entry => e.1 =? t) (content vs <$> l) = Some (content vs a)) \/
  (find_attribute l t = None /\ List.find (fun e : Entry => e.1 =? t) (content vs <$> l) = None).
Proof.
  induction l as [|a l IH]; [by right|]. cbn [find_attribute fmap list_fmap List.find content fst].
  destruct (attr_type a =? t); [left; by exists O, a|]. destruct IH as [(i & x & -> & Hx & ->)|[-> ->]]; [left; by exists (S i), x|by right].
Qed.

Lemma reads_find {A} E st l at_ t (get : AttrPtr -> M (option A)) (f : Entry -> option A) : ok E st ->
  (forall i a, l !! i = Some a -> points st (at_ i) a) ->
  (forall p a, points st p a -> (content (values st) a).2 <> Invalid -> reads st (get p) (f (content (values st) a))) ->
  reads st (find_with l at_ t get) (e ← first t (content (values st) <$> l); f e).
Proof.
  intros Hok Hat Hget. unfold find_with, found, first.
  destruct (find_attribute_first (values st) l t) as [(i & a & -> & Ha & ->)|[-> ->]]; cbn [fmap option_fmap option_map mbind option_bind].
  2:{ by step. }
  specialize (Hat _ _ Ha). step. eapply wp_is_invalid; [exact Hat|]. destruct (a_length a =? G_MAXULONG) eqn:Hm.
  - apply (content_invalid E st _ a Hok Hat) in Hm. rewrite Hm. by step.
  - assert ((content (values st) a).2 <> Invalid) as Hni by (rewrite <- (content_invalid E st _ a Hok Hat), Hm; done).
    eapply wp_mono; [by apply Hget|]. intros r st' [-> ->]. split; [|done]. destruct ((content (values st) a).2) eqn:Hc; done.
Qed.

Lemma reads_in_builder {A} E st b B (f : list Attr -> (nat -> AttrPtr) -> M (option A)) (g : list Entry -> option A) :
  ok E st -> b <> 0 -> abs_b (abs st) !! b = Some B -> g [] = None ->
  (forall l at_, (forall i a, l !! i = Some a -> points st (at_ i) a) -> reads st (f l at_) (g (content (values st) <$> l))) ->
  reads st (in_builder b None f) (g (entries B)).
Proof.
  intros Hok Hb0 HB Hg Hf. destruct (abs_b_lookup _ _ _ HB) as (r & Hr & ->). unfold in_builder.
  destruct (Z.eqb_spec b 0) as [|_]; [done|]. do 2 step. assert (elements r = default [] (array r)) as Hel by done.
  cbn [entries view_b]. destruct (array r) as [l|] eqn:Harr; rewrite Hel; cbn [default]; [|step; done].
  apply Hf. intros i a Ha. exists r. split; [done|]. by rewrite Hel.
Qed.
End Reading.

(** * Dates *)

Lemma utoa_more k fuel n acc : (1 <= fuel)%nat -> 0 <= n < 10 ^ Z.of_nat fuel -> utoa (k + fuel) n acc = utoa fuel n acc.
Proof.
  intros Hf Hn. induction k as [|k IH]; [done|]. cbn [Nat.add]. rewrite utoa_fuel; [done|lia|].
  split; [lia|]. eapply Z.lt_le_trans; [apply Hn|]. apply Z.pow_le_mono_r; lia.
Qed.

Lemma print_padded_digits w n : (1 <= w <= 9)%nat -> 0 <= n < 10 ^ Z.of_nat w ->
  exists ds, print_padded w n = digits ds /\ Forall (fun d => 0 <= d < 10) ds /\ ms_val 10 0 ds = n /\ length ds = w.
Proof.
  intros Hw Hn. unfold print_padded, print_u. replace 10%nat with ((10 - w) + w)%nat by lia. rewrite utoa_more by (lia || done).
  destruct (utoa_digits w n [] Hn ltac:(lia)) as (ds & -> & Hr & Hv & Hl). rewrite app_nil_r.
  exists (replicate (w - length ds) 0 ++ ds). unfold digits. rewrite length_fmap. split_and!.
  - by rewrite fmap_app, fmap_replicate.
  - apply Forall_app. split; [|done]. apply Forall_replicate. lia.
  - rewrite <- Hv. generalize (w - length ds)%nat as k. clear. by induction k.
  - rewrite length_app, length_replicate. lia.
Qed.

Lemma strtol_digits_all ds : forall v, Forall (fun d => 0 <= d < 10) ds -> strtol_digits v (digits ds) = (ms_val 10 v ds, []).
Proof.
  induction ds as [|d ds IH]; intros v Hr; [done|]. inversion_clear Hr as [|?? Hd Hds]. cbn [digits fmap list_fmap strtol_digits ms_val].
  rewrite is_digit_48 by done. rewrite IH by done. do 2 f_equal. lia.
Qed.

Lemma strtol_padded ds : Forall (fun d => 0 <= d < 10) ds -> ds <> [] -> strtol_all (digits ds) = Some (ms_val 10 0 ds).
Proof.
  intros Hr Hne. pose proof (strtol_digits_all ds 0 Hr) as Hall. destruct ds as [|d ds]; [done|]. inversion_clear Hr as [|?? Hd Hds].
  unfold strtol_all. cbn [digits fmap list_fmap skip_spaces] in *.
  assert (is_space (48 + d) = false) as ->.
  { unfold is_space. destruct (Z.eqb_spec (48 + d) 32), (Z.leb_spec 9 (48 + d)), (Z.leb_spec (48 + d) 13); try lia; done. }
  destruct (Z.eqb_spec (48 + d) 45), (Z.eqb_spec (48 + d) 43); [lia..|]. rewrite is_digit_48 by done. by rewrite Hall.
Qed.

Lemma digits_no_nul ds : Forall (fun d => 0 <= d < 10) ds -> 0 ∉ digits ds.
Proof.
  intros Hr. unfold digits. rewrite list_elem_of_fmap. intros (d & Hd & Hin). rewrite Forall_forall in Hr.
  specialize (Hr d Hin). cbn in Hr. lia.
Qed.

(** Dates of the years that four digits can hold. *)
Definition representable_date (d : GDate) : Prop :=
  match d with None => False | Some d => g_date_valid_dmy (day d) (month d) (year d) = true /\ year d <= 9999 end.

Lemma valid_dmy d m y : g_date_valid_dmy d m y = true -> 1 <= d <= 31 /\ 1 <= m <= 12 /\ 1 <= y.
Proof.
  unfold g_date_valid_dmy. rewrite !andb_true_iff, !Z.leb_le. intros ((((H1 & H2) & H3) & H4) & H5).
  assert (days_in_month m y <= 31) by (unfold days_in_month; repeat case_match; lia). lia.
Qed.

Lemma date_roundtrip d old : representable_date d ->
  Zlen (convert_gdate_to_ckdate d) = 8 /\ date_of (convert_gdate_to_ckdate d) old = d.
Proof.
  destruct d as [[d m y]|]; [|done]. cbn [representable_date day month year]. intros [Hv Hy].
  destruct (valid_dmy _ _ _ Hv) as (Hd1 & Hm1 & Hy1). unfold convert_gdate_to_ckdate. cbn [default day month year id].
  destruct (print_padded_digits 4 y) as (ys & -> & Hyr & Hyv & Hyl); [lia|lia|].
  destruct (print_padded_digits 2 m) as (ms & -> & Hmr & Hmv & Hml); [lia|lia|].
  destruct (print_padded_digits 2 d) as (ds & -> & Hdr & Hdv & Hdl); [lia|lia|].
  assert (length (digits ys) = 4%nat /\ length (digits ms) = 2%nat /\ length (digits ds) = 2%nat) as (L1 & L2 & L3)
    by (unfold digits; rewrite !length_fmap; done).
  rewrite take_ge by (rewrite !length_app; lia). split; [rewrite !length_app; lia|]. unfold date_of.
  rewrite take_app_length' by done. rewrite drop_app_length', take_app_length' by done.
  assert (drop 6 (digits ys ++ digits ms ++ digits ds) = digits ds) as ->.
  { rewrite (assoc_L (++)). apply drop_app_length'. rewrite length_app. lia. }
  rewrite take_ge by lia. rewrite !c_str_id by by apply digits_no_nul.
  rewrite !strtol_padded by (try done; by intros ->). rewrite Hyv, Hmv, Hdv. unfold g_date_set_dmy.
  rewrite !u32_small, u8_small, s32_small, u16_small by lia. by rewrite Hv.
Qed.

(** * Typed values come back *)

Inductive Typed :=
  | TUlong (v : Z)
  | TBoolean (v : bool)
  | TString (s : list Z)
  | TDate (d : GDate).

Definition same_kind (x y : Typed) : Prop :=
  match x, y with
  | TUlong _, TUlong _ | TBoolean _, TBoolean _ | TString _, TString _ | TDate _, TDate _ => True
  | _, _ => False
  end.

(** Numbers are 64 bits wide, strings are C strings, years have four digits. *)
Definition representable (x : Typed) : Prop :=
  match x with
  | TUlong v => 0 <= v < 2 ^ 64
  | TBoolean _ => True
  | TString s => (0 ∉ s) /\ Zlen s + MAX_ALIGN <= 0x7FFFFFFF
  | TDate d => representable_date d
  end.

Section Typed.
Context `{Environment}.

Definition set_typed (b t : Z) (x : Typed) : M unit :=
  match x with
  | TUlong v => gck_builder_set_ulong b t v
  | TBoolean v => gck_builder_set_boolean b t v
  | TString s => gck_builder_set_string b t (Some s) false
  | TDate d => gck_builder_set_date b t d
  end.

(** [like] says which function is called; a date is also what the caller had before. *)
Definition find_typed (b t : Z) (like : Typed) : M (option Typed) :=
  match like with
  | TUlong _ => r ← gck_builder_find_ulong b t; mret (TUlong <$> r)
  | TBoolean _ => r ← gck_builder_find_boolean b t; mret (TBoolean <$> r)
  | TString _ => r ← gck_builder_find_string b t; mret (TString <$> r)
  | TDate old => r ← gck_builder_find_date b t old; mret (TDate <$> r)
  end.

Definition typed_of (like : Typed) (e : Entry) : option Typed :=
  match like with
  | TUlong _ => TUlong <$> e_ulong e
  | TBoolean _ => TBoolean <$> e_boolean e
  | TString _ => TString <$> e_string e
  | TDate old => TDate <$> e_date old e
  end.

Definition bytes_of (x : Typed) : list Z :=
  match x with
  | TUlong v => ck_ulong v
  | TBoolean v => ck_bbool v
  | TString s => s
  | TDate d => convert_gdate_to_ckdate d
  end.

Lemma set_typed_data b t x : representable x ->
  set_typed b t x = gck_builder_set_data b t (Some (bytes_of x)) (Zlen (bytes_of x)) false.
Proof.
  destruct x as [v|v|s|d]; intros Hx; try done; cbn [set_typed bytes_of].
  unfold gck_builder_set_date. by rewrite (proj1 (date_roundtrip d None Hx)).
Qed.

Lemma typed_of_bytes x like t : representable x -> same_kind like x -> typed_of like (t, Bytes (bytes_of x)) = Some x.
Proof.
  destruct x as [v|v|s|d], like as [v'|v'|s'|d']; intros Hx Hk; try done; cbn [typed_of bytes_of].
  - unfold e_ulong, ck_ulong. cbn [snd]. rewrite le_bytes_length, le_val_bytes. change (Z.of_nat 8 =? 8) with true. cbn [fmap option_fmap option_map].
    change (256 ^ Z.of_nat 8) with (2 ^ 64). by rewrite Z.mod_small.
  - by destruct v.
  - unfold e_string. cbn [snd]. destruct Hx as [Hx _]. by rewrite c_str_id.
  - unfold e_date. cbn [snd]. destruct (date_roundtrip d d' Hx) as [-> ->]. done.
Qed.

Lemma reads_map {A B} st (m : M (option A)) x (f : A -> B) : reads st m x -> reads st (r ← m; mret (f <$> r)) (f <$> x).
Proof. intros Hm. step. eapply wp_mono; [exact Hm|]. intros r st' [-> ->]. by step. Qed.

Lemma bind_map {A B C} (o : option A) (f : A -> option B) (g : B -> C) : g <$> (o ≫= f) = (e ← o; g <$> f e).
Proof. by destruct o. Qed.

(** What is found depends on the entries alone. *)
Lemma reads_typed E st b B t like : ok E st -> b <> 0 -> abs_b (abs st) !! b = Some B ->
  reads st (find_typed b t like) (e ← first t (entries B); typed_of like e).
Proof.
  intros Hok Hb HB. destruct like as [v|v|s|d]; cbn [find_typed typed_of]; rewrite <- bind_map; apply reads_map;
    (eapply (reads_in_builder E st b B _ (fun l => e ← first t l; _ e)); [exact Hok|exact Hb|exact HB|done|]);
    intros l at_ Hat; (eapply reads_find; [exact Hok|exact Hat|]); intros p a Hp Hni.
  - unfold e_ulong. step. step. unfold gck_value_to_ulong. by eapply (reads_sized E st p a 8 le_val).
  - unfold e_boolean. step. step. unfold gck_value_to_boolean. by eapply (reads_sized E st p a 1 (fun bs => negb (le_val bs =? 0))).
  - by eapply reads_string.
  - by eapply reads_date.
Qed.

Lemma first_other t t' c l : t' <> t -> first t' (set_first t c l) = first t' l.
Proof.
  intros Hne. unfold first. f_equal. induction l as [|e l IH]; cbn [set_first List.find fst].
  - by destruct (Z.eqb_spec t t').
  - destruct (Z.eqb_spec (e.1) t) as [->|He]; cbn [List.find fst]; [by destruct (Z.eqb_spec t t')|]. by rewrite IH.
Qed.

Lemma wp_set_typed st b B t x : ok [] st -> b <> 0 -> abs_b (abs st) !! b = Some B -> weight (abs st) < 2 ^ 31 -> representable x ->
  wp (set_typed b t x) (fun _ st' => ok [] st' /\
    abs st' = set_entries b (set_first t (Bytes (bytes_of x)) (entries B)) (abs st)) st.
Proof.
  intros Hok Hb HB Hroom Hx. rewrite set_typed_data by done. destruct (abs_b_lookup _ _ _ HB) as (r & Hr & _).
  rewrite <- (room_held st Hok) in Hroom. unfold gck_builder_set_data. destruct (Z.eqb_spec b 0) as [|_]; [done|].
  assert (Zlen (bytes_of x) + MAX_ALIGN <= 0x7FFFFFFF) as Hlen.
  { unfold MAX_ALIGN. destruct x as [v|v|s|d]; cbn [bytes_of]; [by unfold ck_ulong; rewrite le_bytes_length|by destruct v|apply Hx|].
    rewrite (proj1 (date_roundtrip d None Hx)). lia. }
  eapply (wp_put_data [] st b t true); [exact Hok|exact Hroom|exact Hr| |].
  { right. right. exists (bytes_of x). split_and!; [done| |done]. unfold allocatable. split; [lia|]. case_match; lia. }
  intros st' (Hok' & Hput & _). split; [done|]. rewrite (put_place b t true _ _ _ HB) in Hput. injection Hput as <-.
  unfold stored, place. destruct (Z.eqb_spec (Zlen (bytes_of x)) G_MAXULONG) as [E|_]; [unfold G_MAXULONG, MAX_ALIGN in *; lia|].
  rewrite take_ge by lia. done.
Qed.

(** C31: a typed value that is set is found again, the same number, truth value, string or
    date, whatever was stored before; and what is found of every other type, by every
    function, stays what it was. *)
Theorem attrs_typed_roundtrip st b t x : ok [] st -> b <> 0 -> is_Some (abs_b (abs st) !! b) -> weight (abs st) < 2 ^ 31 ->
  representable x ->
  exists st', set_typed b t x st = Ok (tt, st') /\ ok [] st' /\
    (forall like, same_kind like x -> find_typed b t like st' = Ok (Some x, st')) /\
    (forall t' like, t' <> t -> exists r, find_typed b t' like st = Ok (r, st) /\ find_typed b t' like st' = Ok (r, st')).
Proof.
  intros Hok Hb [B HB] Hroom Hx. destruct (wp_run _ _ _ (wp_set_typed st b B t x Hok Hb HB Hroom Hx)) as ([] & st' & E & Hok' & Habs).
  set (l := set_first t (Bytes (bytes_of x)) (entries B)) in Habs.
  assert (exists B', abs_b (abs st') !! b = Some B' /\ entries B' = l) as (B' & HB' & Hl).
  { rewrite Habs. unfold set_entries. rewrite HB. eexists. split; [apply lookup_insert_eq|done]. }
  exists st'. split_and!; [done|done| |].
  - intros like Hk. apply reads_run. rewrite <- (typed_of_bytes x like t Hx Hk).
    change (typed_of like (t, Bytes (bytes_of x))) with (e ← Some (t, Bytes (bytes_of x)); typed_of like e).
    rewrite <- (first_set t (Bytes (bytes_of x)) (entries B)) by done. fold l. rewrite <- Hl. by eapply reads_typed.
  - intros t' like Hne. exists (e ← first t' (entries B); typed_of like e). split; apply reads_run; [by eapply reads_typed|].
    rewrite <- (first_other t t' (Bytes (bytes_of x)) (entries B)) by done. fold l. rewrite <- Hl. by eapply reads_typed.
Qed.
End Typed.

(** * Equality and hashes *)

Definition e_hash (e : Entry) : Z :=
  let h := Z.lxor 5381 (_gck_ulong_hash e.1) in
  match e.2 with Bytes bs => foldl (fun h c => u32 (Z.shiftl h 5 + h + s8 c)) h bs | _ => h end.

Section Equality.
Context `{Environment}.

(** An attribute, by what is seen of it. *)
Lemma content_cases E st p a : ok E st -> points st p a ->
  (value a = 0 /\ (content (values st) a).2 = (if a_length a =? G_MAXULONG then Invalid else Null (a_length a))) \/
  (value a <> 0 /\ exists bs, content (values st) a = (attr_type a, Bytes bs) /\ Zlen bs = a_length a /\ a_length a < G_MAXULONG).
Proof.
  intros Hok Hp. destruct (Z.eq_dec (value a) 0) as [Hv|Hv]; [left; by rewrite content_null|right]. split; [done|].
  destruct (points_value E st p a Hok Hp Hv) as (v & Hvv & Hlen & Hmax). exists (take (Z.to_nat (a_length a)) (vbytes v)).
  unfold content. rewrite Hvv. destruct (Z.eqb_spec (a_length a) G_MAXULONG); [lia|]. destruct (Z.eqb_spec (value a) 0); [done|].
  split_and!; [done|rewrite length_take; lia|done].
Qed.

Lemma reads_equal E st p q a b : ok E st -> points st p a -> points st q b ->
  reads st (gck_attribute_equal (Some p) (Some q)) (bool_decide (content (values st) a = content (values st) b)).
Proof.
  intros Hok Hp Hq. unfold gck_attribute_equal. do 4 step.
  destruct (Z.eqb_spec (attr_type a) (attr_type b)) as [Ht|Ht]; cbn [negb].
  2:{ step. split; [|done]. symmetry. apply bool_decide_eq_false. intros E1. apply Ht. exact (f_equal fst E1). }
  destruct (content_cases E st p a Hok Hp) as [[Hva Ha]|(Hva & x & Ha & Hxl & Hxm)];
    destruct (content_cases E st q b Hok Hq) as [[Hvb Hb]|(Hvb & y & Hb & Hyl & Hym)].
  1:{ destruct (Z.eqb_spec (a_length a) (a_length b)) as [Hl|Hl]; cbn [negb].
      - rewrite Hva, Hvb. cbn [Z.eqb andb]. step. split; [|done]. symmetry. apply bool_decide_eq_true.
        rewrite (surjective_pairing (content _ a)), (surjective_pairing (content _ b)), Ha, Hb, Hl. unfold content. cbn [fst]. by rewrite Ht.
      - step. split; [|done]. symmetry. apply bool_decide_eq_false. intros E1. apply (f_equal snd) in E1. rewrite Ha, Hb in E1.
        destruct (Z.eqb_spec (a_length a) G_MAXULONG), (Z.eqb_spec (a_length b) G_MAXULONG); try done; [lia|by injection E1]. }
  1, 2: assert (content (values st) a <> content (values st) b) as Hne
      by (intros E1; apply (f_equal snd) in E1; rewrite ?Ha, ?Hb in E1; cbn [snd] in E1; repeat case_match; done);
    rewrite (bool_decide_eq_false_2 _ Hne); destruct (Z.eqb_spec (a_length a) (a_length b)); cbn [negb]; [|by step];
    destruct (Z.eqb_spec (value a) 0), (Z.eqb_spec (value b) 0); try done; cbn [andb orb]; by step.
  rewrite Ha, Hb, Ht. destruct (Z.eqb_spec (a_length a) (a_length b)) as [Hl|Hl]; cbn [negb].
  2:{ step. split; [|done]. symmetry. apply bool_decide_eq_false. intros E1. injection E1 as ->. lia. }
  destruct (Z.eqb_spec (value a) 0), (Z.eqb_spec (value b) 0); try done. cbn [andb orb].
  step. eapply wp_read_value; [exact Hok|exact Hp|done|]. intros x' Hx' _. rewrite Ha in Hx'. injection Hx' as <-.
  step. eapply wp_read_value; [exact Hok|exact Hq|done|]. intros y' Hy' _. rewrite Hb in Hy'. injection Hy' as <-.
  step. split; [|done]. apply bool_decide_ext. split; [by intros ->|by intros E1; injection E1].
Qed.

Lemma reads_hash E st p a : ok E st -> points st p a -> reads st (gck_attribute_hash p) (e_hash (content (values st) a)).
Proof.
  intros Hok Hp. unfold gck_attribute_hash, e_hash. do 2 step.
  destruct (content_cases E st p a Hok Hp) as [[Hva Ha]|(Hva & x & Ha & _)].
  - rewrite Ha, Hva. cbn [Z.eqb]. step. split; [|done]. by destruct (a_length a =? G_MAXULONG).
  - destruct (Z.eqb_spec (value a) 0) as [|_]; [done|]. step. eapply wp_read_value; [exact Hok|exact Hp|done|].
    intros x' Hx' _. rewrite Hx'. by step.
Qed.

Lemma reads_contains_from E st a s q b : ok E st -> attributes st !! a = Some s -> points st q b -> forall k is_, is_ = seq (length (data s) - k) k ->
  (k <= length (data s))%nat ->
  reads st (contains_from a is_ (Some q))
    (bool_decide (content (values st) b ∈ (content (values st) <$> drop (length (data s) - k) (data s)))).
Proof.
  intros Hok Hs Hq. induction k as [|k IH]; intros is_ -> Hk; cbn [seq contains_from].
  { step. split; [|done]. symmetry. apply bool_decide_eq_false. rewrite drop_ge by lia. apply not_elem_of_nil. }
  destruct (lookup_lt_is_Some_2 (data s) (length (data s) - S k)) as [x Hx]; [lia|].
  assert (drop (length (data s) - S k) (data s) = x :: drop (length (data s) - k) (data s)) as ->.
  { erewrite drop_S by done. do 2 f_equal. lia. }
  step. assert (points st (InAttributes a (length (data s) - S k)) x) as Hp by (exists s; done).
  eapply wp_mono; [exact (reads_equal E st _ _ x b Hok Hp Hq)|]. intros r st' [-> ->]. cbn [fmap list_fmap].
  destruct (decide (content (values st) x = content (values st) b)) as [Hc|Hc].
  - rewrite (bool_decide_eq_true_2 _ Hc). step. split; [|done]. symmetry. apply bool_decide_eq_true. rewrite Hc. by left.
  - rewrite (bool_decide_eq_false_2 _ Hc). eapply wp_mono; [apply IH; [f_equal; lia|lia]|]. intros r st' [-> ->]. split; [|done].
    apply bool_decide_ext. rewrite elem_of_cons. split; [by right|]. intros [E1|?]; [by rewrite E1 in Hc|done].
Qed.

Lemma reads_contains E st a S q b : ok E st -> a <> 0 -> abs_a (abs st) !! a = Some S -> points st q b ->
  reads st (gck_attributes_contains a (Some q)) (bool_decide (content (values st) b ∈ S.1)).
Proof.
  intros Hok Ha HS Hq. cbn in HS. apply lookup_fmap_Some in HS as (s & <- & Hs). unfold gck_attributes_contains.
  destruct (Z.eqb_spec a 0) as [|_]; [done|]. do 2 step.
  pose proof (reads_contains_from E st a s q b Hok Hs Hq (length (data s)) _ eq_refl ltac:(lia)) as Hr.
  rewrite Nat.sub_diag in Hr. exact Hr.
Qed.

(** Two attributes are equal when they look the same: type, length and contents, or
    that they are invalid; whether they share their values does not matter.  Equal ones
    have the same hash.  A set contains an attribute when it has an equal one. *)
Theorem attribute_equal_hash E st p q a b : ok E st -> points st p a -> points st q b ->
  exists equal,
    gck_attribute_equal (Some p) (Some q) st = Ok (equal, st) /\
    (equal = true <-> content (values st) a = content (values st) b) /\
    gck_attribute_hash p st = Ok (e_hash (content (values st) a), st) /\
    gck_attribute_hash q st = Ok (e_hash (content (values st) b), st) /\
    (equal = true -> e_hash (content (values st) a) = e_hash (content (values st) b)) /\
    forall s S, s <> 0 -> abs_a (abs st) !! s = Some S ->
      exists r, gck_attributes_contains s (Some q) st = Ok (r, st) /\ (r = true <-> content (values st) b ∈ S.1).
Proof.
  intros Hok Hp Hq. exists (bool_decide (content (values st) a = content (values st) b)).
  split_and!; [by eapply reads_run, reads_equal|by apply bool_decide_eq_true|by eapply reads_run, reads_hash|by eapply reads_run, reads_hash| |].
  - by intros ->%bool_decide_eq_true.
  - intros s S Hs HS. eexists. split; [by eapply reads_run, reads_contains|by apply bool_decide_eq_true].
Qed.
End Equality.

(** * Text *)

(** How long a value is said to be. *)
Definition c_length (c : Content) : Z :=
  match c with Invalid => G_MAXULONG | Null n => n | Bytes bs => Zlen bs end.

Section Text.
Context `{Environment}.

(** The types whose values may be secret: all that are not in the list. *)
Definition sensitive (t : Z) : bool := match name_of not_sensitive_names t with Some _ => false | None => true end.

(** Entries that differ at most in what may be secret; its length, or that it is
    invalid, is not. *)
Definition alike (e e' : Entry) : Prop :=
  e.1 = e'.1 /\ (e.2 = Invalid <-> e'.2 = Invalid) /\ c_length e.2 = c_length e'.2 /\ (sensitive e.1 = false -> e.2 = e'.2).

#[export] Instance alike_equivalence : Equivalence alike.
Proof.
  split.
  - intros e. done.
  - intros e e' (H1 & H2 & H3 & H4). split_and!; [done|done|done|]. rewrite <- H1. intros Hs. by rewrite H4.
  - intros e e' e'' (H1 & H2 & H3 & H4) (K1 & K2 & K3 & K4). split_and!; [congruence|by rewrite H2|congruence|].
    intros Hs. rewrite H4 by done. apply K4. by rewrite <- H1.
Qed.

Definition ulong_of_type (e : Entry) (name : list Z) : option Z := if e.1 =? constant name then e_ulong e else None.

(** What is printed of an attribute that is no constant. *)
Definition value_text (e : Entry) : list Z :=
  if sensitive e.1 then lit " (" ++ print_lu (c_length e.2) ++ lit ") NOT-PRINTED"
  else lit " (" ++ print_lu (c_length e.2) ++ lit ") " ++
    _gck_format_some_bytes (match e.2 with Bytes bs => Some bs | _ => None end).

Definition e_text (e : Entry) : list Z :=
  let head := lit " { " ++ _gck_format_attribute_type e.1 ++ lit " = " in
  let body :=
    match e.2 with
    | Invalid => lit " (-1) INVALID"
    | _ =>
      match ulong_of_type e (lit "CKA_CLASS"), ulong_of_type e (lit "CKA_X_ASSERTION_TYPE"),
            ulong_of_type e (lit "CKA_CERTIFICATE_TYPE"), ulong_of_type e (lit "CKA_KEY_TYPE") with
      | Some v, _, _, _ => _gck_format_class v
      | _, Some v, _, _ => _gck_format_assertion_type v
      | _, _, Some v, _ => _gck_format_certificate_type v
      | _, _, _, Some v => _gck_format_key_type v
      | _, _, _, _ =>
        value_text e
      end
    end in
  head ++ body ++ lit " }".

Lemma is_ulong_content E st p a name : ok E st -> points st p a -> (content (values st) a).2 <> Invalid ->
  wp (if _gck_attribute_is_ulong_of_type a (constant name) then v ← gck_attribute_get_ulong p; mret (Some v) else mret None)
    (fun r st' => r = ulong_of_type (content (values st) a) name /\ st' = st) st.
Proof.
  intros Hok Hp Hni. unfold _gck_attribute_is_ulong_of_type, ulong_of_type, e_ulong.
  change (content (values st) a).1 with (attr_type a). destruct (Z.eqb_spec (attr_type a) (constant name)); cbn [negb]; [|by step].
  destruct (content_cases E st p a Hok Hp) as [[Hva Ha]|(Hva & x & Ha & Hxl & Hxm)].
  - rewrite Ha, Hva. destruct (negb (a_length a =? 8)); cbn [Z.eqb]; step; (split; [|done]); by destruct (a_length a =? G_MAXULONG).
  - rewrite Ha. cbn [snd]. rewrite Hxl. destruct (Z.eqb_spec (a_length a) 8) as [H8|]; cbn [negb]; [|by step].
    destruct (Z.eqb_spec (value a) 0) as [|_]; [done|]. step. unfold gck_attribute_get_ulong. step.
    eapply wp_is_invalid; [exact Hp|]. destruct (Z.eqb_spec (a_length a) G_MAXULONG) as [|_]; [lia|]. do 3 step.
    unfold gck_value_to_ulong. destruct (Z.eqb_spec (value a) 0) as [|_]; [done|]. rewrite H8. cbn [Z.eqb Pos.eqb negb orb].
    step. eapply wp_read_value; [exact Hok|exact Hp|done|]. intros x' Hx' _. rewrite Ha in Hx'. injection Hx' as <-. do 3 step. done.
Qed.

(** A test and what is read when it holds, in one. *)
Lemma wp_test_read {A} (c : bool) (m : M Z) (f : Z -> M A) (n : M A) o st Q :
  wp (if c then v ← m; mret (Some v) else mret None) (fun r st' => r = o /\ st' = st) st ->
  (match o with Some v => wp (f v) Q st | None => wp n Q st end) -> wp (if c then v ← m; f v else n) Q st.
Proof.
  destruct c; intros Hm Ho.
  - apply wp_bind. unfold wp, mbind, SM_bind in Hm |- *. destruct (m st) as [[v st']| |]; [|done..]. cbn in Hm. by destruct Hm as [<- ->].
  - destruct Hm as [<- _]. exact Ho.
Qed.

Lemma reads_value_text E st p a : ok E st -> points st p a -> (content (values st) a).2 <> Invalid ->
  reads st (if _gck_attribute_is_sensitive a then mret (lit " (" ++ print_lu (a_length a) ++ lit ") NOT-PRINTED")
     else bs ← (if value a =? 0 then mret None else bs ← read_value a; mret (Some bs));
       mret (lit " (" ++ print_lu (a_length a) ++ lit ") " ++ _gck_format_some_bytes bs)) (value_text (content (values st) a)).
Proof.
  intros Hok Hp Hni. unfold value_text. change (sensitive (content (values st) a).1) with (_gck_attribute_is_sensitive a).
  destruct (content_cases E st p a Hok Hp) as [[Hva Ha]|(Hva & x & Ha & Hxl & Hxm)].
  - destruct (Z.eqb_spec (a_length a) G_MAXULONG); [done|]. rewrite Ha, Hva. cbn [c_length Z.eqb].
    destruct (_gck_attribute_is_sensitive a); [by step|]. do 3 step. done.
  - rewrite Ha. cbn [snd c_length]. rewrite Hxl. destruct (_gck_attribute_is_sensitive a); [by step|].
    destruct (Z.eqb_spec (value a) 0) as [|_]; [done|]. do 2 step. eapply wp_read_value; [exact Hok|exact Hp|done|].
    intros x' Hx' _. rewrite Ha in Hx'. injection Hx' as <-. do 2 step. done.
Qed.

Lemma reads_text E st p a : ok E st -> points st p a -> reads st (format_attribute p) (e_text (content (values st) a)).
Proof.
  intros Hok Hp. unfold format_attribute, e_text. do 2 step. set (e := content (values st) a). change e.1 with (attr_type a).
  step. eapply (wp_mono _ (fun r st' => r = _ /\ st' = st)); [|intros r st' [-> ->]; step; split; [reflexivity|done]].
  unfold GCK_INVALID. destruct (a_length a =? G_MAXULONG) eqn:Hm.
  { apply (content_invalid E st p a Hok Hp) in Hm. fold e in Hm. rewrite Hm. by step. }
  assert (e.2 <> Invalid) as Hni by (intros Hni%(content_invalid E st p a Hok Hp); by rewrite Hm in Hni).
  assert (forall X Y : list Z, match e.2 with Invalid => X | _ => Y end = Y) as Hout by (intros X Y; by destruct (e.2)).
  assert (forall r1 r2 : list Z, r1 = r2 -> r1 = r2 /\ st = st) as Hsplit by done.
  do 4 (eapply wp_test_read; [by apply (is_ulong_content E)|]; fold e; rewrite ?Hout;
    match goal with |- match ?o with Some _ => _ | None => _ end => destruct o end; [step; by apply Hsplit; rewrite ?Hout|]).
  eapply wp_mono; [by eapply reads_value_text|]. intros r st' [-> ->]. fold e. by apply Hsplit; rewrite ?Hout.
Qed.

Lemma sensitive_not t name : sensitive t = true -> bool_decide (name ∈ not_sensitive_names) = true -> t <> constant name.
Proof.
  unfold sensitive, name_of. intros Hs Hin%bool_decide_eq_true ->. destruct (List.find _ _) eqn:Hf; [done|].
  apply list_elem_of_In in Hin. pose proof (find_none _ _ Hf name Hin) as Hn. cbn beta in Hn. by rewrite Z.eqb_refl in Hn.
Qed.

Lemma sensitive_no_ulong e name : sensitive e.1 = true -> bool_decide (name ∈ not_sensitive_names) = true -> ulong_of_type e name = None.
Proof. intros Hs Hin. unfold ulong_of_type. by destruct (Z.eqb_spec e.1 (constant name)) as [E|]; [destruct (sensitive_not _ _ Hs Hin)|]. Qed.

Lemma e_text_sensitive e : sensitive e.1 = true -> e_text e =
  (lit " { " ++ _gck_format_attribute_type e.1 ++ lit " = ") ++
  (match e.2 with Invalid => lit " (-1) INVALID" | _ => lit " (" ++ print_lu (c_length e.2) ++ lit ") NOT-PRINTED" end) ++ lit " }".
Proof. intros Hs. unfold e_text, value_text. rewrite !sensitive_no_ulong by done. by rewrite Hs. Qed.

#[export] Instance e_text_alike : Proper (alike ==> (=)) e_text.
Proof.
  intros e e' (Ht & Hinv & Hlen & Hs). destruct (sensitive e.1) eqn:Hse.
  - rewrite !e_text_sensitive by (by rewrite <- ?Ht). rewrite Ht, Hlen. destruct (e.2), (e'.2); naive_solver.
  - f_equal. rewrite (surjective_pairing e), (surjective_pairing e'). f_equal; [done|by apply Hs].
Qed.

Fixpoint texts (i : nat) (l : list Entry) : list Z :=
  match l with [] => [] | e :: l => (if (0 <? i)%nat then lit "," else []) ++ e_text e ++ texts (S i) l end.

Definition set_text (l : list Entry) : list Z := lit "(" ++ print_d (Zlen l) ++ lit ") [" ++ texts 0 l ++ lit " ]".

#[export] Instance set_text_alike : Proper (Forall2 alike ==> (=)) set_text.
Proof.
  intros l l' Hl. unfold set_text. rewrite (Forall2_length _ _ _ Hl). do 3 f_equal. f_equal. generalize 0%nat as i.
  induction Hl as [|e e' l l' He Hl IH]; intros i; [done|]. cbn [texts]. by rewrite He, IH.
Qed.

Lemma reads_texts E st a s : ok E st -> attributes st !! a = Some s -> forall l i, drop i (data s) = l ->
  reads st (format_from a (seq i (length l))) (texts i (content (values st) <$> l)).
Proof.
  intros Hok Hs. induction l as [|x l IH]; intros i Hd; cbn [length seq format_from fmap list_fmap texts]; [by step|].
  assert (data s !! i = Some x) as Hx by (rewrite <- (Nat.add_0_r i), <- lookup_drop, Hd; done).
  step. eapply wp_mono; [eapply (reads_text E st (InAttributes a i) x Hok); by exists s|]. intros r st' [-> ->].
  step. eapply wp_mono; [apply IH; by rewrite <- Nat.add_1_r, <- drop_drop, Hd|]. intros r st' [-> ->]. by step.
Qed.

Lemma reads_to_string E st a S : ok E st -> abs_a (abs st) !! a = Some S -> reads st (gck_attributes_to_string a) (set_text S.1).
Proof.
  intros Hok HS. cbn in HS. apply lookup_fmap_Some in HS as (s & <- & Hs). unfold gck_attributes_to_string, _gck_format_attributes.
  do 3 step. eapply wp_mono; [by apply (reads_texts E st a s Hok Hs _ 0)|]. intros r st' [-> ->]. step. split; [|done].
  unfold set_text. cbn [fst view_a]. by rewrite length_fmap.
Qed.

(** C29: the text of a set of attributes says nothing of the values that may be secret.
    Two sets, of any two states, whose entries agree but for the bytes of types that are
    not in the list of [_gck_attribute_is_sensitive] have the same text; of those only
    the number of bytes shows. *)
Theorem attributes_text_hides_secrets E st a S E' st' a' S' : ok E st -> ok E' st' ->
  abs_a (abs st) !! a = Some S -> abs_a (abs st') !! a' = Some S' -> Forall2 alike S.1 S'.1 ->
  exists text, gck_attributes_to_string a st = Ok (text, st) /\ gck_attributes_to_string a' st' = Ok (text, st').
Proof.
  intros Hok Hok' HS HS' Hl. exists (set_text S.1). split; [by eapply reads_run, reads_to_string|].
  rewrite Hl. by eapply reads_run, reads_to_string.
Qed.
End Text.

(** * On examples *)

#[local] Existing Instance sample_environment.

Lemma sample_ok : ok [] (state_after sample_calls).
Proof. apply state_after_ok. apply (bool_decide_unpack (all_permitted sample_calls (abs start))). by vm_compute. Qed.

Lemma attrs_typed_roundtrip_witness :
  let st := state_after sample_calls in let x := TDate (Some (mk_dmy 29 2 2024)) in
  exists st', set_typed 2 3 x st = Ok (tt, st') /\ ok [] st' /\
    (forall like, same_kind like x -> find_typed 2 3 like st' = Ok (Some x, st')) /\
    (forall t' like, t' <> 3 -> exists r, find_typed 2 t' like st = Ok (r, st) /\ find_typed 2 t' like st' = Ok (r, st')).
Proof.
  apply attrs_typed_roundtrip; [exact sample_ok|done| |by vm_compute|split; [by vm_compute|done]].
  apply (bool_decide_unpack (is_Some _)). by vm_compute.
Defined.

(** What [gck_builder_find_date] returns, of an attribute that holds [bs]. *)
Definition sample_date (bs : list Z) : option (option GDate) :=
  match gck_builder_find_date 1 5 None (state_after [BuilderNew 0; SetData 1 5 (Some bs) (Zlen bs) false]) with
  | Ok (r, _) => Some r | _ => None
  end.

(** TRUE, though there is no date: when the eight bytes are none, and when there are not
    eight of them. *)
Example find_date_no_date :
  sample_date (lit "20240229") = Some (Some (Some (mk_dmy 29 2 2024))) /\
  sample_date (lit "2024xx29") = Some (Some None) /\ sample_date (lit "today") = Some (Some None).
Proof. vm_compute. done. Qed.

Lemma attribute_equal_hash_witness :
  let st := state_after sample_calls in let e := content (values st) (mk_attr 0x11 2 3) in
  exists equal,
    gck_attribute_equal (Some (InAttributes 1 1)) (Some (Alone 1)) st = Ok (equal, st) /\ (equal = true <-> e = e) /\
    gck_attribute_hash (InAttributes 1 1) st = Ok (e_hash e, st) /\ gck_attribute_hash (Alone 1) st = Ok (e_hash e, st) /\
    (equal = true -> e_hash e = e_hash e) /\
    forall s S, s <> 0 -> abs_a (abs st) !! s = Some S ->
      exists r, gck_attributes_contains s (Some (Alone 1)) st = Ok (r, st) /\ (r = true <-> e ∈ S.1).
Proof.
  apply (attribute_equal_hash []); [exact sample_ok| |by vm_compute].
  exists (mk_attributes [mk_attr 3 1 2; mk_attr 0x11 2 3] 1). split; by vm_compute.
Defined.

Lemma attributes_text_hides_secrets_witness :
  let calls bs := [BuilderNew 0; AddData 1 3 (Some [104; 105]) 2 false; AddData 1 0x11 (Some bs) 3 false; BuilderEnd 1] in
  let st := state_after (calls [1; 2; 3]) in let st' := state_after (calls [7; 7; 7]) in
  exists text, gck_attributes_to_string 1 st = Ok (text, st) /\ gck_attributes_to_string 1 st' = Ok (text, st').
Proof.
  intros calls st st'. apply (attributes_text_hides_secrets [] st 1 ([(3, Bytes [104; 105]); (0x11, Bytes [1; 2; 3])], 1)
    [] st' 1 ([(3, Bytes [104; 105]); (0x11, Bytes [7; 7; 7])], 1)); try by vm_compute.
  - apply state_after_ok. apply (bool_decide_unpack (all_permitted (calls [1; 2; 3]) (abs start))). by vm_compute.
  - apply state_after_ok. apply (bool_decide_unpack (all_permitted (calls [7; 7; 7]) (abs start))). by vm_compute.
  - constructor; [reflexivity|constructor; [|constructor]]. split_and!; [done|done|done|by vm_compute].
Defined.
