(* ===== verification/Enumerator.v ===== *)
(** PKCS#11 enumerators: [src/gck/gck-enumerator.c].

    An enumerator walks through modules, slots and sessions, finds objects and reads their
    attributes, only as far as a caller asks.  Its position is the state it is in, a
    function pointer that is called to go forward, and is called to go back when a part is
    done.  [State] is [GckEnumeratorState]; a running call owns the states of a chain of
    enumerators, here a list.  PKCS#11 modules are a class of functions on a world [W]
    which each call may change.  Arrays of attribute types that an enumerator owns live in
    [arrays], so that a use after they are freed is [Ub].

    What a session does when its last reference goes is not modelled, nor are references
    to objects.  A state that is without its session where a handler needs one is [Ub]; the
    code would go on with an invalid handle after a critical warning. *)

From S2P Require Import Prelude StateM Attributes AttrStore.
Local Open Scope Z_scope.

(** * PKCS#11 *)

(** Return values; the others are of no interest here. *)
Inductive RV := CKR_OK | CKR_ATTRIBUTE_SENSITIVE | CKR_ATTRIBUTE_TYPE_INVALID | CKR_OTHER (rv : Z).

Definition GCK_IS_GET_ATTRIBUTE_RV_OK (rv : RV) : bool :=
  match rv with CKR_OK | CKR_ATTRIBUTE_SENSITIVE | CKR_ATTRIBUTE_TYPE_INVALID => true | CKR_OTHER _ => false end.

Definition rv_ok (rv : RV) : bool := match rv with CKR_OK => true | _ => false end.

(** The fields of [GckTokenInfo] a URI matches; [None] is NULL. *)
Record TokenInfo := mk_token_info {
  label : option (list Z); manufacturer_id : option (list Z); model : option (list Z); serial_number : option (list Z)
}.

(** [GckSlot]: a module and a slot identifier. *)
Abbreviation Slot := (Z * Z)%type.

(** A template for [C_GetAttributeValue]: types, and how much room there is for a value,
    or no memory at all. *)
Abbreviation Template := (list (Z * option Z)).

Class Pkcs11 (W : Type) := {
  C_GetInfo : Z -> W -> RV * W;
  (** the identifiers, in memory for so many of them, and their number *)
  C_GetSlotList : Z -> option Z -> W -> (RV * list Z * Z) * W;
  gck_slot_get_token_info : Slot -> W -> option TokenInfo * W;
  (** read-write or not; a session handle *)
  C_OpenSession : Slot -> bool -> W -> (RV * Z) * W;
  _gck_session_authenticate_token : Z -> Slot -> option Z -> W -> RV * W;
  C_FindObjectsInit : Z -> option (list Entry) -> W -> RV * W;
  (** at most so many handles *)
  C_FindObjects : Z -> Z -> W -> (RV * list Z) * W;
  C_FindObjectsFinal : Z -> W -> W;
  (** the lengths and values, an entry for each of the template *)
  C_GetAttributeValue : Z -> Z -> Template -> W -> (RV * list Content) * W;
  (** the array a class of objects that keep attributes asks for *)
  default_types : Z -> option (list Z);
  (** [g_type_is_a (type, GCK_TYPE_OBJECT)] *)
  is_object_type : Z -> bool
}.

Definition match_info_string (match_ s : option (list Z)) : bool :=
  match match_ with
  | None => true
  | Some m => match s with None => false | Some s => bool_decide (m = s) end
  end.

Definition _gck_token_info_match (match_ info : TokenInfo) : bool :=
  match_info_string (label match_) (label info) &&
  match_info_string (manufacturer_id match_) (manufacturer_id info) &&
  match_info_string (model match_) (model info) &&
  match_info_string (serial_number match_) (serial_number info).

(** * The state of an enumeration *)

(** [GckUriData]. *)
Record UriData := mk_uri_data {
  any_unrecognized : bool; u_token_info : option TokenInfo; u_attributes : option (list Entry)
}.

Record Result := mk_result { handle : Z; r_session : Z; r_attrs : option (list Entry) }.

(** The functions [handler] points to. *)
Inductive Handler := state_modules | state_slots | state_slot | state_session | state_find | state_results.

#[export] Instance Handler_eq_dec : EqDecision Handler.
Proof. solve_decision. Defined.

(** [attr_types]: NULL, an array of an enumerator, or one of a class. *)
Inductive TypesPtr := NoTypes | OwnTypes (address : Z) | ClassTypes (type : Z).

Record State := mk_state {
  want_objects : Z;
  handler : Handler;
  modules : list Z;
  match_ : UriData;
  session_options : Z;
  interaction : option Z;
  object_class : option Z;
  attr_types : TypesPtr;
  attr_count : Z;
  slots : list Slot;
  slot : option Slot;
  token_info : option TokenInfo;
  funcs : bool;
  session : option Z;
  found : option (list Result);
  results : option (list Result)
}.

Definition set_want n s := mk_state n (handler s) (modules s) (match_ s) (session_options s) (interaction s) (object_class s) (attr_types s) (attr_count s) (slots s) (slot s) (token_info s) (funcs s) (session s) (found s) (results s).
Definition set_handler h s := mk_state (want_objects s) h (modules s) (match_ s) (session_options s) (interaction s) (object_class s) (attr_types s) (attr_count s) (slots s) (slot s) (token_info s) (funcs s) (session s) (found s) (results s).
Definition set_modules l s := mk_state (want_objects s) (handler s) l (match_ s) (session_options s) (interaction s) (object_class s) (attr_types s) (attr_count s) (slots s) (slot s) (token_info s) (funcs s) (session s) (found s) (results s).
Definition set_interaction i s := mk_state (want_objects s) (handler s) (modules s) (match_ s) (session_options s) i (object_class s) (attr_types s) (attr_count s) (slots s) (slot s) (token_info s) (funcs s) (session s) (found s) (results s).
Definition set_object_class c s := mk_state (want_objects s) (handler s) (modules s) (match_ s) (session_options s) (interaction s) c (attr_types s) (attr_count s) (slots s) (slot s) (token_info s) (funcs s) (session s) (found s) (results s).
Definition set_attr_types t n s := mk_state (want_objects s) (handler s) (modules s) (match_ s) (session_options s) (interaction s) (object_class s) t n (slots s) (slot s) (token_info s) (funcs s) (session s) (found s) (results s).
Definition set_slots l s := mk_state (want_objects s) (handler s) (modules s) (match_ s) (session_options s) (interaction s) (object_class s) (attr_types s) (attr_count s) l (slot s) (token_info s) (funcs s) (session s) (found s) (results s).
Definition set_slot x t f s := mk_state (want_objects s) (handler s) (modules s) (match_ s) (session_options s) (interaction s) (object_class s) (attr_types s) (attr_count s) (slots s) x t f (session s) (found s) (results s).
Definition set_session x s := mk_state (want_objects s) (handler s) (modules s) (match_ s) (session_options s) (interaction s) (object_class s) (attr_types s) (attr_count s) (slots s) (slot s) (token_info s) (funcs s) x (found s) (results s).
Definition set_found l s := mk_state (want_objects s) (handler s) (modules s) (match_ s) (session_options s) (interaction s) (object_class s) (attr_types s) (attr_count s) (slots s) (slot s) (token_info s) (funcs s) (session s) l (results s).
Definition set_results l s := mk_state (want_objects s) (handler s) (modules s) (match_ s) (session_options s) (interaction s) (object_class s) (attr_types s) (attr_count s) (slots s) (slot s) (token_info s) (funcs s) (session s) (found s) l.

Definition GCK_SESSION_READ_WRITE : Z := 2.
Definition GCK_SESSION_LOGIN_USER : Z := 4.

(** What a function of this file works on: a state, the arrays and the world. *)
Record Run (W : Type) := mk_run { args : State; arrays : gmap Z (list Z); world : W }.
Arguments mk_run {W} _ _ _.
Arguments args {W} _.
Arguments arrays {W} _.
Arguments world {W} _.

Section Handlers.
Context {W : Type} `{Pkcs11 W}.

Abbreviation MR := (SM (Run W)).

Definition the_args : MR State := gets args.
Definition upd (f : State -> State) : MR unit := modify (fun r => mk_run (f (args r)) (arrays r) (world r)).

(** What only has to do with the modules. *)
Definition on_world {A} (m : SM W A) : MR A := fun r =>
  match m (world r) with Ok (a, w) => Ok (a, mk_run (args r) (arrays r) w) | Err e => Err e | Ub => Ub end.

(** A call of a module. *)
Definition wcall {A} (f : W -> A * W) : SM W A := fun w => Ok (f w).
Definition call {A} (f : W -> A * W) : MR A := on_world (wcall f).

Definition some_or_ub {A} (o : option A) : MR A := fun r => match o with Some a => Ok (a, r) | None => Ub end.

(** ** Back *)

Definition state_modules_back : MR Handler := ub.

Definition state_slots_back : MR Handler :=
  s ← the_args;
  m_assert (bool_decide (slot s = None));;
  upd (set_slots []);; mret state_modules.

Definition state_slot_back : MR Handler :=
  s ← the_args;
  m_assert (bool_decide (is_Some (slot s)));;
  m_assert (funcs s);;
  m_assert (bool_decide (session s = None));;
  upd (set_slot None None false);; mret state_slots.

Definition state_session_back : MR Handler :=
  s ← the_args;
  m_assert (funcs s);;
  m_assert (bool_decide (is_Some (session s)));;
  m_assert (bool_decide (is_Some (option_map (fun _ => tt) (token_info s))));;
  upd (set_session None);; mret state_slot.

Definition state_find_back : MR Handler := mret state_session.

Definition state_results_back : MR Handler :=
  s ← the_args;
  m_assert (funcs s);;
  m_assert (bool_decide (is_Some (object_class s)));;
  m_assert (bool_decide (is_Some (option_map (fun _ => tt) (found s))));;
  mret state_find.

Definition back (h : Handler) : MR Handler :=
  match h with
  | state_modules => state_modules_back
  | state_slots => state_slots_back
  | state_slot => state_slot_back
  | state_session => state_session_back
  | state_find => state_find_back
  | state_results => state_results_back
  end.

(** The loop turns at most five times: each turn is a state nearer the first one. *)
Fixpoint rewind_loop (fuel : nat) (h : Handler) : MR Handler :=
  s ← the_args;
  if decide (h = handler s) then mret h else
  match fuel with
  | O => out_of_fuel
  | S fuel => h' ← back (handler s); upd (set_handler h');; rewind_loop fuel h
  end.
Definition rewind_state (h : Handler) : MR Handler := rewind_loop 5 h.

(** ** Forward

    [None] is NULL: the call has all it wants, or there is nothing more. *)

Definition gck_module_get_slots (m : Z) (token_present : bool) : SM W (list Slot) :=
  '(rv, _, count) ← wcall (C_GetSlotList m None);
  if negb (rv_ok rv) then mret [] else
  if count =? 0 then mret [] else
  '(rv, ids, count) ← wcall (C_GetSlotList m (Some count));
  if negb (rv_ok rv) then mret [] else
  mret ((fun id => (m, id)) <$> take (Z.to_nat count) ids).

(** NULL when the module cannot tell. *)
Definition gck_module_get_info (m : Z) : SM W bool := rv ← wcall (C_GetInfo m); mret (rv_ok rv).

Definition state_modules_forward : MR (option Handler) :=
  s ← the_args;
  m_assert (bool_decide (slots s = []));;
  match modules s with
  | [] => mret None
  | module :: rest =>
    upd (set_modules rest);;
    l ← on_world (gck_module_get_slots module true);
    upd (set_slots l);;
    info ← on_world (gck_module_get_info module);
    m_assert info;;
    mret (Some state_slots)
  end.

Definition state_slots_forward : MR (option Handler) :=
  s ← the_args;
  m_assert (bool_decide (slot s = None));;
  match slots s with
  | [] => h ← rewind_state state_modules; mret (Some h)
  | x :: rest =>
    upd (set_slots rest);;
    token ← call (gck_slot_get_token_info x);
    match token with
    | None => mret (Some state_slots)
    | Some token =>
      let matched :=
        if any_unrecognized (match_ s) then false else
        match u_token_info (match_ s) with Some t => _gck_token_info_match t token | None => true end in
      if negb matched then mret (Some state_slots) else
      upd (set_slot (Some x) (Some token) true);;
      mret (Some state_slot)
    end
  end.

Definition state_slot_forward : MR (option Handler) :=
  s ← the_args;
  x ← some_or_ub (slot s);
  m_assert (funcs s);;
  m_assert (bool_decide (session s = None));;
  let rw := Z.land (session_options s) GCK_SESSION_READ_WRITE =? GCK_SESSION_READ_WRITE in
  '(rv, id) ← call (C_OpenSession x rw);
  if negb (rv_ok rv) then h ← rewind_state state_slots; mret (Some h) else
  upd (set_session (Some id));;
  mret (Some state_session).

Definition state_session_forward : MR (option Handler) :=
  s ← the_args;
  m_assert (funcs s);;
  id ← some_or_ub (session s);
  _ ← some_or_ub (token_info s);
  if Z.land (session_options s) GCK_SESSION_LOGIN_USER =? 0 then mret (Some state_find) else
  x ← some_or_ub (slot s);
  _ ← call (_gck_session_authenticate_token id x (interaction s));
  mret (Some state_find).

(** The handles of 128 objects at a time. *)
Fixpoint find_loop (fuel : nat) (id : Z) : MR unit :=
  match fuel with
  | O => out_of_fuel
  | S fuel =>
    '(rv, objects) ← call (C_FindObjects id 128);
    if negb (rv_ok rv) || (Zlen objects =? 0) then mret tt else
    upd (fun s => set_found (Some (default [] (found s) ++ ((fun h => mk_result h id None) <$> objects))) s);;
    find_loop fuel id
  end.

Definition state_find_forward (fuel : nat) : MR (option Handler) :=
  s ← the_args;
  id ← some_or_ub (session s);
  m_assert (0 <? want_objects s);;
  m_assert (funcs s);;
  upd (fun s => set_found (Some (default [] (found s))) s);;
  if id =? 0 then mret None else
  rv ← call (C_FindObjectsInit id (u_attributes (match_ s)));
  (if rv_ok rv then find_loop fuel id;; call (fun w => (tt, C_FindObjectsFinal id w)) else mret tt);;
  mret (Some state_results).

(** The array [attr_types] points to, its first [attr_count] elements. *)
Definition attr_types_array : MR (list Z) :=
  s ← the_args;
  l ← (match attr_types s with
       | NoTypes => mret []
       | OwnTypes a => m ← gets arrays; some_or_ub (m !! a)
       | ClassTypes t => some_or_ub (default_types t)
       end);
  some_or_ub (slice l 0 (attr_count s)).

(** The template [_gck_builder_prepare_in] makes of empty attributes, and the one
    [_gck_builder_commit_in] makes of what the module left: memory for every value that
    has a length. *)
Definition prepared (types : list Z) : Template := (fun t => (t, None)) <$> types.
Definition committed (types : list Z) (l : list Content) : Template :=
  zip_with (fun t c => (t, match c with Null n => if n =? 0 then None else Some n | Bytes bs => Some (Zlen bs) | Invalid => None end)) types l.

(** The attributes of an object; [None] when they cannot be read. *)
Definition get_attributes (id h : Z) (types : list Z) : SM W (option (list Entry)) :=
  '(rv, l) ← wcall (C_GetAttributeValue id h (prepared types));
  '(rv, l) ← (if GCK_IS_GET_ATTRIBUTE_RV_OK rv then wcall (C_GetAttributeValue id h (committed types l)) else mret (rv, l));
  if GCK_IS_GET_ATTRIBUTE_RV_OK rv then mret (Some (zip types l)) else mret None.

(** [for (count = 0; count < want_objects; count++)]; each turn but the last takes one of
    [found], so that its length is enough fuel. *)
Fixpoint results_loop (fuel : nat) (count id : Z) : MR (option Handler) :=
  s ← the_args;
  if want_objects s <=? count then mret None else
  match default [] (found s) with
  | [] => h ← rewind_state state_slots; mret (Some h)
  | x :: rest =>
    match fuel with
    | O => out_of_fuel
    | S fuel =>
      upd (set_found (Some rest));;
      if attr_count s =? 0 then
        upd (fun s => set_results (Some (default [] (results s) ++ [x])) s);; results_loop fuel (count + 1) id
      else
        types ← attr_types_array;
        attrs ← on_world (get_attributes id (handle x) types);
        (match attrs with
         | Some l => upd (fun s => set_results (Some (default [] (results s) ++ [mk_result (handle x) (r_session x) (Some l)])) s)
         | None => mret tt
         end);;
        results_loop fuel (count + 1) id
    end
  end.

Definition state_results_forward : MR (option Handler) :=
  s ← the_args;
  m_assert (funcs s);;
  m_assert (bool_decide (is_Some (object_class s)));;
  m_assert (bool_decide (is_Some (option_map (fun _ => tt) (found s))));;
  upd (fun s => set_results (Some (default [] (results s))) s);;
  id ← some_or_ub (session s);
  if id =? 0 then mret None else
  results_loop (length (default [] (found s))) 0 id.

Definition forward (fuel : nat) (h : Handler) : MR (option Handler) :=
  match h with
  | state_modules => state_modules_forward
  | state_slots => state_slots_forward
  | state_slot => state_slot_forward
  | state_session => state_session_forward
  | state_find => state_find_forward fuel
  | state_results => state_results_forward
  end.

(** The inner loop of [perform_enumerate_next]; [fuel] is also what each search gets. *)
Fixpoint run_loop (fuel n : nat) : MR unit :=
  match n with
  | O => out_of_fuel
  | S n =>
    s ← the_args;
    h ← forward fuel (handler s);
    match h with
    | None => mret tt
    | Some h => upd (set_handler h);; run_loop fuel n
    end
  end.

Definition results_of (s : State) : list Result := default [] (results s).

Definition cleanup_state : MR unit :=
  _ ← rewind_state state_modules;
  s ← the_args;
  m_assert (bool_decide (slots s = []));;
  m_assert (bool_decide (slot s = None));;
  m_assert (bool_decide (option_map (fun _ => tt) (token_info s) = None));;
  m_assert (negb (funcs s));;
  m_assert (bool_decide (session s = None));;
  upd (fun s => set_object_class None (set_interaction None (set_modules [] (set_results None (set_found None s))))).
End Handlers.

(** * Enumerators *)

(** [GckEnumerator]; [the_state] is NULL while a call has checked it out, [en_attr_types]
    is an address, 0 for NULL. *)
Record Enumerator := mk_enumerator {
  the_state : option State;
  en_interaction : option Z;
  object_type : Z;
  en_attr_types : Z;
  en_attr_count : Z;
  chained : option Z
}.

Record EnSt (W : Type) := mk_en_st { enumerators : gmap Z Enumerator; en_arrays : gmap Z (list Z); en_world : W }.
Arguments mk_en_st {W} _ _ _.
Arguments enumerators {W} _.
Arguments en_arrays {W} _.
Arguments en_world {W} _.

Definition with_state o e := mk_enumerator o (en_interaction e) (object_type e) (en_attr_types e) (en_attr_count e) (chained e).
Definition with_interaction i e := mk_enumerator (the_state e) i (object_type e) (en_attr_types e) (en_attr_count e) (chained e).
Definition with_types t a n e := mk_enumerator (the_state e) (en_interaction e) t a n (chained e).
Definition with_chained c e := mk_enumerator (the_state e) (en_interaction e) (object_type e) (en_attr_types e) (en_attr_count e) c.

(** The states a call has checked out, each with its enumerator: [state->chained]. *)
Abbreviation Chain := (list (Z * State)).

(** [GckObject], with its type. *)
Abbreviation Object := (option Z * Result)%type.

Definition GCK_TYPE_OBJECT : Z := 0.
Definition G_MAXINT : Z := 2 ^ 31 - 1.

Section Enumerators.
Context {W : Type} `{Pkcs11 W}.

Abbreviation ME := (SM (EnSt W)).

Definition enumerator_at (id : Z) : ME Enumerator := fun st => match enumerators st !! id with Some e => Ok (e, st) | None => Ub end.
Definition put_enumerator (id : Z) (e : Enumerator) : ME unit :=
  modify (fun st => mk_en_st (<[id := e]> (enumerators st)) (en_arrays st) (en_world st)).

(** A function of the last section, on a state that is checked out. *)
Definition on_state {A} (m : SM (Run W) A) (s : State) : ME (A * State) := fun st =>
  match m (mk_run s (en_arrays st) (en_world st)) with
  | Ok (a, r) => Ok ((a, args r), mk_en_st (enumerators st) (arrays r) (world r))
  | Err e => Err e
  | Ub => Ub
  end.

(** ** Checking out and in *)

(** What [check_out_enumerator_state] puts into the state. *)
Definition checked_out (e : Enumerator) (s : State) : State :=
  let s := set_object_class (Some (object_type e)) (set_interaction (en_interaction e) s) in
  if negb (en_attr_types e =? 0) then set_attr_types (OwnTypes (en_attr_types e)) (en_attr_count e) s
  else match default_types (object_type e) with
       | Some l => set_attr_types (ClassTypes (object_type e)) (Zlen l) s
       | None => s
       end.

(** Fuel: the number of enumerators; a chain that is a ring recurses without end. *)
Fixpoint check_out_enumerator_state (fuel : nat) (id : Z) : ME (option Chain) :=
  match fuel with
  | O => out_of_fuel
  | S fuel =>
    e ← enumerator_at id;
    chained_state ← (match chained e with None => mret None | Some c => check_out_enumerator_state fuel c end);
    e ← enumerator_at id;
    match the_state e with
    | None => mret None
    | Some s => put_enumerator id (with_state None e);; mret (Some ((id, checked_out e s) :: default [] chained_state))
    end
  end.

Definition check_out (id : Z) : ME (option Chain) := fun st => check_out_enumerator_state (S (size (enumerators st))) id st.

Fixpoint check_in_enumerator_state (c : Chain) : ME unit :=
  match c with
  | [] => mret tt
  | (id, s) :: c =>
    e ← enumerator_at id;
    m_assert (bool_decide (option_map (fun _ => tt) (the_state e) = None));;
    put_enumerator id (with_state (Some s) e);;
    check_in_enumerator_state c
  end.

(** ** Results *)

Fixpoint extract_result (c : Chain) : option Object * Chain :=
  match c with
  | [] => (None, [])
  | (id, s) :: c =>
    match results_of s with
    | x :: rest => (Some (object_class s, x), (id, set_results (Some rest) s) :: c)
    | [] => let '(o, c) := extract_result c in (o, (id, s) :: c)
    end
  end.

Definition pending (c : Chain) : nat := sum_list ((fun p => length (results_of p.2)) <$> c).

(** The objects, and how many more are wanted; a turn takes one of the results. *)
Fixpoint extract_loop (fuel : nat) (c : Chain) (want : Z) : list Object * Z * Chain :=
  if want <=? 0 then ([], want, c) else
  match extract_result c with
  | (None, c) => ([], want, c)
  | (Some o, c) =>
    match fuel with
    | O => ([], want, c)
    | S fuel => let '(l, want, c) := extract_loop fuel c (want - 1) in (o :: l, want, c)
    end
  end.
Definition extract_results (c : Chain) (want : Z) : list Object * Z * Chain := extract_loop (pending c) c want.

(** ** Running *)

Fixpoint perform_enumerate_next (fuel : nat) (c : Chain) (want count : Z) : ME Chain :=
  match c with
  | [] => mret []
  | (id, s) :: c =>
    '(_, s) ← on_state (run_loop fuel fuel) (set_want (want - count) s);
    let count := s32 (count + Zlen (results_of s)) in
    if want <=? count then mret ((id, s) :: c)
    else c ← perform_enumerate_next fuel c want count; mret ((id, s) :: c)
  end.

(** [cancelled]: the [GCancellable] was cancelled before the call, which then fails. *)
Definition gck_enumerator_next (fuel : nat) (id : Z) (cancelled : bool) : ME (option Object) :=
  c ← check_out id;
  match c with
  | None => mret None
  | Some c =>
    match extract_result c with
    | (Some o, c) => check_in_enumerator_state c;; mret (Some o)
    | (None, c) =>
      if cancelled then check_in_enumerator_state c;; mret None else
      c ← perform_enumerate_next fuel c 1 0;
      let '(o, c) := extract_result c in
      check_in_enumerator_state c;; mret o
    end
  end.

Definition how_many (max_objects : Z) : Z := if max_objects <=? 0 then G_MAXINT else max_objects.

Definition gck_enumerator_next_n (fuel : nat) (id max_objects : Z) (cancelled : bool) : ME (list Object) :=
  if negb ((max_objects =? -1) || (0 <? max_objects)) then mret [] else
  c ← check_out id;
  match c with
  | None => mret []
  | Some c =>
    let '(l, want, c) := extract_results c (how_many max_objects) in
    if (0 <? want) && negb cancelled then
      c ← perform_enumerate_next fuel c want 0;
      let '(l', _, c) := extract_results c want in
      check_in_enumerator_state c;; mret (l ++ l')
    else check_in_enumerator_state c;; mret l
  end.

(** The call in the background: what is checked out, and how many are wanted.  Its thread
    runs [perform_enumerate_next]. *)
Definition gck_enumerator_next_async (id max_objects : Z) : ME (option (Chain * Z)) :=
  if negb ((max_objects =? -1) || (0 <? max_objects)) then mret None else
  c ← check_out id;
  mret ((fun c => (c, how_many max_objects)) <$> c).

Definition gck_enumerator_next_finish (c : Chain) (want : Z) (succeeded : bool) : ME (list Object) :=
  let '(l, _, c) := (if succeeded then extract_results c want else ([], want, c)) in
  check_in_enumerator_state c;; mret l.

(** ** Properties *)

Definition gck_enumerator_get_object_type (id : Z) : ME Z := e ← enumerator_at id; mret (object_type e).
Definition gck_enumerator_get_chained (id : Z) : ME (option Z) := e ← enumerator_at id; mret (chained e).
Definition gck_enumerator_get_interaction (id : Z) : ME (option Z) := e ← enumerator_at id; mret (en_interaction e).
Definition gck_enumerator_set_chained (id : Z) (c : option Z) : ME unit := e ← enumerator_at id; put_enumerator id (with_chained c e).
Definition gck_enumerator_set_interaction (id : Z) (i : option Z) : ME unit := e ← enumerator_at id; put_enumerator id (with_interaction i e).

(** [types] NULL is [None]; [g_memdup2] of nothing is NULL. *)
Definition gck_enumerator_set_object_type_full (id type : Z) (types : option (list Z)) : ME unit :=
  if negb (is_object_type type) then mret tt else
  e ← enumerator_at id;
  modify (fun st => mk_en_st (enumerators st) (delete (en_attr_types e) (en_arrays st)) (en_world st));;
  a ← gets (fun st => new_address (en_arrays st));
  match types with
  | None => put_enumerator id (with_types type 0 0 e)
  | Some [] => put_enumerator id (with_types type 0 0 e)
  | Some l =>
    modify (fun st => mk_en_st (enumerators st) (<[a := l]> (en_arrays st)) (en_world st));;
    put_enumerator id (with_types type a (Zlen l) e)
  end.
Definition gck_enumerator_set_object_type (id type : Z) : ME unit := gck_enumerator_set_object_type_full id type None.

(** ** Making and releasing enumerators *)

Definition new_state (h : Handler) (ms : list Z) (ss : list Slot) (options : Z) (uri : UriData) : State :=
  mk_state 0 h ms uri options None None NoTypes 0 ss None None false None None None.

Definition new_enumerator (s : State) : ME Z :=
  id ← gets (fun st => new_address (enumerators st));
  put_enumerator id (mk_enumerator (Some s) None GCK_TYPE_OBJECT 0 0 None);;
  mret id.

Definition _gck_enumerator_new_for_modules (ms : list Z) (options : Z) (uri : UriData) : ME Z :=
  new_enumerator (new_state state_modules ms [] options uri).

Definition _gck_enumerator_new_for_slots (ss : list Slot) (options : Z) (uri : UriData) : ME Z :=
  new_enumerator (new_state state_slots [] ss options uri).

(** A session, by its handle, and its slot. *)
Definition _gck_enumerator_new_for_session (id : Z) (x : Slot) (uri : UriData) : ME Z :=
  token ← (fun st => let '(t, w) := gck_slot_get_token_info x (en_world st) in Ok (t, mk_en_st (enumerators st) (en_arrays st) w));
  new_enumerator (set_session (Some id) (set_slot (Some x) token true (new_state state_session [] [] 0 uri))).

(** [gck_enumerator_dispose] and [gck_enumerator_finalize]. *)
Definition gck_enumerator_finalize (id : Z) : ME unit :=
  gck_enumerator_set_interaction id None;;
  gck_enumerator_set_chained id None;;
  e ← enumerator_at id;
  match the_state e with
  | None => ub
  | Some s =>
    _ ← on_state cleanup_state s;
    modify (fun st => mk_en_st (delete id (enumerators st)) (delete (en_attr_types e) (en_arrays st)) (en_world st))
  end.
End Enumerators.
