(* ===== verification/EnumSpec.v ===== *)
(** PKCS#11 enumerators: what they find, proved.

    [visit_modules] is the enumeration without its state machine: three nested loops over
    modules, slots and objects that make the same calls in the same order.  [rest] is what
    it has still to do from a state in the middle.  Running the handlers brings out a
    beginning of [rest] and leaves the rest for later ([run_loop_spec]); so a client gets
    the objects of the plain loops, a few at a time ([next_n_spec]). *)

From S2P Require Import Prelude StateM Attributes AttrStore Enumerator.
Local Open Scope Z_scope.

(** * The plain loops *)

Record Cfg := mk_cfg { c_uri : UriData; c_options : Z; c_interaction : option Z; c_types : list Z }.

Section Reference.
Context {W : Type} `{Pkcs11 W} (fuel : nat).

(** Objects that are visited; [None] when the attributes of one cannot be read. *)
Abbreviation Visit := (SM W (list (option Result))).

(** One after the other. *)
Definition andthen (m n : Visit) : Visit := l ← m; l' ← n; mret (l ++ l').

Fixpoint find_all (fuel : nat) (id : Z) : SM W (list Z) :=
  match fuel with
  | O => out_of_fuel
  | S fuel =>
    '(rv, objects) ← wcall (C_FindObjects id 128);
    if negb (rv_ok rv) || (Zlen objects =? 0) then mret [] else l ← find_all fuel id; mret (objects ++ l)
  end.

Definition find_objects (c : Cfg) (id : Z) : SM W (list Z) :=
  rv ← wcall (C_FindObjectsInit id (u_attributes (c_uri c)));
  if rv_ok rv then l ← find_all fuel id; _ ← wcall (fun w => (tt, C_FindObjectsFinal id w)); mret l else mret [].

Definition visit_object (c : Cfg) (id h : Z) : SM W (option Result) :=
  match c_types c with
  | [] => mret (Some (mk_result h id None))
  | types => a ← get_attributes id h types; mret ((fun l => mk_result h id (Some l)) <$> a)
  end.

Fixpoint visit_objects (c : Cfg) (id : Z) (hs : list Z) : Visit :=
  match hs with [] => mret [] | h :: hs => x ← visit_object c id h; l ← visit_objects c id hs; mret (x :: l) end.

Definition visit_found (c : Cfg) (id : Z) : Visit := hs ← find_objects c id; visit_objects c id hs.

Definition visit_session (c : Cfg) (x : Slot) (id : Z) : Visit :=
  _ ← (if Z.land (c_options c) GCK_SESSION_LOGIN_USER =? 0 then mret tt
       else _ ← wcall (_gck_session_authenticate_token id x (c_interaction c)); mret tt);
  visit_found c id.

Definition visit_slot (c : Cfg) (x : Slot) : Visit :=
  '(rv, id) ← wcall (C_OpenSession x (Z.land (c_options c) GCK_SESSION_READ_WRITE =? GCK_SESSION_READ_WRITE));
  if rv_ok rv then m_assert (negb (id =? 0));; visit_session c x id else mret [].

Definition wanted (uri : UriData) (t : TokenInfo) : bool :=
  if any_unrecognized uri then false else
  match u_token_info uri with Some m => _gck_token_info_match m t | None => true end.

Definition visit_token (c : Cfg) (x : Slot) : Visit :=
  token ← wcall (gck_slot_get_token_info x);
  match token with None => mret [] | Some t => if wanted (c_uri c) t then visit_slot c x else mret [] end.

Fixpoint visit_slots (c : Cfg) (ss : list Slot) : Visit :=
  match ss with [] => mret [] | x :: ss => andthen (visit_token c x) (visit_slots c ss) end.

Fixpoint visit_modules (c : Cfg) (ms : list Z) : Visit :=
  match ms with
  | [] => mret []
  | m :: ms =>
    ss ← gck_module_get_slots m true;
    info ← gck_module_get_info m;
    m_assert info;;
    andthen (visit_slots c ss) (visit_modules c ms)
  end.

(** What is left to do. *)
Definition later (c : Cfg) (s : State) : Visit := andthen (visit_slots c (slots s)) (visit_modules c (modules s)).

Definition cfg_of (types : list Z) (s : State) : Cfg := mk_cfg (match_ s) (session_options s) (interaction s) types.

Definition rest (types : list Z) (s : State) : Visit :=
  let c := cfg_of types s in
  let id := default 0 (session s) in
  match handler s with
  | state_modules => visit_modules c (modules s)
  | state_slots => later c s
  | state_slot => andthen (visit_slot c (default (0, 0) (slot s))) (later c s)
  | state_session => andthen (visit_session c (default (0, 0) (slot s)) id) (later c s)
  | state_find => andthen (visit_found c id) (later c s)
  | state_results => andthen (visit_objects c id (handle <$> default [] (found s))) (later c s)
  end.

Lemma andthen_Ok m n w r : andthen m n w = Ok r <->
  exists l1 w1 l2 w2, m w = Ok (l1, w1) /\ n w1 = Ok (l2, w2) /\ r = (l1 ++ l2, w2).
Proof.
  unfold andthen, mbind, SM_bind. split.
  - destruct (m w) as [[l1 w1]| |] eqn:E1; [|done..]. destruct (n w1) as [[l2 w2]| |] eqn:E2; [|done..].
    intros [= <-]. by exists l1, w1, l2, w2.
  - by intros (l1 & w1 & l2 & w2 & -> & -> & ->).
Qed.

Lemma bind_Ok_SM {A B} (m : SM W A) (f : A -> SM W B) w r : (m ≫= f) w = Ok r <-> exists a w1, m w = Ok (a, w1) /\ f a w1 = Ok r.
Proof.
  unfold mbind, SM_bind. split; [|by intros (a & w1 & -> & ?)]. destruct (m w) as [[a w1]| |] eqn:E; [|done..]. by exists a, w1.
Qed.

Lemma andthen_nil n w r : andthen (mret []) n w = Ok r <-> n w = Ok r.
Proof.
  rewrite andthen_Ok. split; [|intros Hn; destruct r as [l w']; by exists [], w, l, w'].
  intros (l1 & w1 & l2 & w2 & [= <- <-] & Hn & ->). exact Hn.
Qed.
End Reference.

(** * Where an enumeration can be *)

Definition idle (s : State) : Prop := slot s = None /\ token_info s = None /\ funcs s = false /\ session s = None.

Definition in_slot (s : State) : Prop := exists x t, slot s = Some x /\ token_info s = Some t /\ funcs s = true.

Definition in_session (s : State) : Prop := in_slot s /\ exists id, session s = Some id /\ id <> 0.

Definition of_session (id : Z) (hs : list Z) : list Result := (fun h => mk_result h id None) <$> hs.

(** What each of the states has, and has not. *)
Definition placed (s : State) : Prop :=
  match handler s with
  | state_modules => slots s = [] /\ idle s /\ default [] (found s) = []
  | state_slots => idle s /\ default [] (found s) = []
  | state_slot => in_slot s /\ session s = None /\ default [] (found s) = []
  | state_session | state_find => in_session s /\ default [] (found s) = []
  | state_results => in_session s /\ exists hs, found s = Some (of_session (default 0 (session s)) hs)
  end.

Section Steps.
Context {W : Type} `{Pkcs11 W}.

(** The attribute types that are asked for. *)
Definition types_of (ar : gmap Z (list Z)) (s : State) : option (list Z) :=
  l ← (match attr_types s with NoTypes => Some [] | OwnTypes a => ar !! a | ClassTypes t => default_types t end);
  slice l 0 (attr_count s).

Record ready (types : list Z) (ar : gmap Z (list Z)) (s : State) : Prop := {
  r_placed : placed s;
  r_class : is_Some (object_class s);
  r_types : types_of ar s = Some types
}.

(** What a run does not change. *)
Definition setup (s : State) := (want_objects s, match_ s, session_options s, interaction s, object_class s, attr_types s, attr_count s).

Lemma ready_setup types ar s s' : ready types ar s -> setup s' = setup s -> placed s' -> ready types ar s'.
Proof. intros [_ Hc Ht] [= E1 E2 E3 E4 E5 E6 E7] Hp. split; [done|by rewrite E5|]. unfold types_of. by rewrite E6, E7. Qed.

Lemma cfg_setup types s s' : setup s' = setup s -> cfg_of types s' = cfg_of types s.
Proof. intros [= E1 E2 E3 E4 E5 E6 E7]. unfold cfg_of. by rewrite E2, E3, E4. Qed.

Definition exhausted (s : State) : Prop := handler s = state_modules /\ modules s = [].

Definition rank (h : Handler) : nat :=
  match h with state_modules => 0 | state_slots => 1 | state_results => 2 | state_find => 3 | state_session => 4 | state_slot => 5 end.

(** Modules, then slots, then the way through a slot. *)
Definition smaller (s' s : State) : Prop :=
  (length (modules s') < length (modules s))%nat \/
  (length (modules s') = length (modules s) /\
    ((length (slots s') < length (slots s))%nat \/
     (length (slots s') = length (slots s) /\ (rank (handler s') < rank (handler s))%nat))).

Lemma smaller_wf : well_founded smaller.
Proof.
  intros s. remember (length (modules s)) as m eqn:Hm. revert s Hm.
  induction m as [m IHm] using lt_wf_ind. intros s Hm. remember (length (slots s)) as k eqn:Hk. revert s Hm Hk.
  induction k as [k IHk] using lt_wf_ind. intros s Hm Hk. remember (rank (handler s)) as n eqn:Hn. revert s Hm Hk Hn.
  induction n as [n IHn] using lt_wf_ind. intros s Hm Hk Hn. constructor. intros s' [Hlt|[He [Hlt|[He' Hlt]]]].
  - by eapply (IHm (length (modules s'))); [lia|].
  - by eapply (IHk (length (slots s'))); [lia|lia|].
  - by eapply (IHn (rank (handler s'))); [lia|lia|lia|].
Qed.

(** After one handler, called with [s]: [out] was visited, [l'] is left of [l]. *)
Definition after (fuel : nat) (types : list Z) (ar : gmap Z (list Z)) (s : State) (l : list (option Result)) (wf : W)
    (o : option Handler) (r : Run W) : Prop :=
  arrays r = ar /\ setup (args r) = setup s /\
  exists out l', l = out ++ l' /\ results_of (args r) = results_of s ++ omap id out /\
  match o with
  | Some h => let s' := set_handler h (args r) in
    ready types ar s' /\ rest fuel types s' (world r) = Ok (l', wf) /\ smaller s' s /\ (out = [] \/ Zlen out < want_objects s)
  | None => ready types ar (args r) /\ handler (args r) = handler s /\ rest fuel types (args r) (world r) = Ok (l', wf) /\
    ((exhausted (args r) /\ l' = []) \/ want_objects s <= Zlen out) /\ (out = [] \/ Zlen out <= want_objects s)
  end.

Lemma wp_the_args (Q : State -> Run W -> Prop) s ar w : Q s (mk_run s ar w) -> wp the_args Q (mk_run s ar w).
Proof. done. Qed.
Lemma wp_upd f (Q : unit -> Run W -> Prop) s ar w : Q tt (mk_run (f s) ar w) -> wp (upd f) Q (mk_run s ar w).
Proof. done. Qed.
Lemma wp_on_world {A} (m : SM W A) (Q : A -> Run W -> Prop) s ar w a w' :
  m w = Ok (a, w') -> Q a (mk_run s ar w') -> wp (on_world m) Q (mk_run s ar w).
Proof. unfold wp, on_world. cbn [world]. by intros ->. Qed.
Lemma wp_call {A} (f : W -> A * W) (Q : A -> Run W -> Prop) s ar w a w' :
  f w = (a, w') -> Q a (mk_run s ar w') -> wp (call f) Q (mk_run s ar w).
Proof. intros E. apply wp_on_world. unfold wcall. by rewrite E. Qed.
Lemma wp_some {A} (x : A) (Q : A -> Run W -> Prop) r : Q x r -> wp (some_or_ub (Some x)) Q r.
Proof. done. Qed.

Lemma wcall_Ok {A} (f : W -> A * W) w a w' : wcall f w = Ok (a, w') -> f w = (a, w').
Proof. unfold wcall. intros E. by injection E. Qed.

Lemma andthen_assoc (a b c : SM W (list (option Result))) w r : andthen (andthen a b) c w = Ok r -> andthen a (andthen b c) w = Ok r.
Proof.
  rewrite !andthen_Ok. intros (l1 & w1 & l2 & w2 & (k1 & v1 & k2 & v2 & Ha & Hb & [= -> ->])%andthen_Ok & Hc & ->).
  exists k1, v1, (k2 ++ l2), w2. split; [done|]. split; [|by rewrite <- (assoc_L (++))].
  apply andthen_Ok. by exists k2, v2, l2, w2.
Qed.

(** A handler that visits nothing. *)
Lemma after_on fuel types ar s l wf h s' w' : ready types ar s -> setup s' = setup s -> results_of s' = results_of s ->
  placed (set_handler h s') -> smaller (set_handler h s') s -> rest fuel types (set_handler h s') w' = Ok (l, wf) ->
  after fuel types ar s l wf (Some h) (mk_run s' ar w').
Proof.
  intros Hr He Hres Hp Hsm Hrest. split_and!; [done|done|]. exists [], l. split; [done|]. split; [by rewrite app_nil_r|].
  split_and!; [|done|done|by left]. eapply ready_setup; [exact Hr|exact He|exact Hp].
Qed.

Ltac go := first
  [ step_core
  | lazymatch goal with
    | |- wp the_args _ _ => apply wp_the_args
    | |- wp (upd _) _ _ => apply wp_upd
    | |- wp (on_world _) _ _ => eapply wp_on_world; [eassumption|]
    | |- wp (call _) _ _ => eapply wp_call; [eassumption|]
    | |- wp (some_or_ub (Some _)) _ _ => apply wp_some
    end ]; cbn beta iota zeta.

Lemma modules_step fuel types ar s w l wf : ready types ar s -> handler s = state_modules -> rest fuel types s w = Ok (l, wf) ->
  wp state_modules_forward (after fuel types ar s l wf) (mk_run s ar w).
Proof.
  intros Hr Hh Hrest. pose proof (r_placed _ _ _ Hr) as Hp. unfold placed in Hp. rewrite Hh in Hp. destruct Hp as (Hs & Hi & Hf).
  pose proof Hrest as Hrest0. unfold rest in Hrest. rewrite Hh in Hrest. unfold state_modules_forward. go. go. go. go.
  destruct (modules s) as [|m ms] eqn:Hm.
  - go. injection Hrest as <- <-. split_and!; [done|done|]. exists [], []. split; [done|]. split; [by rewrite app_nil_r|].
    split_and!; [done|done|exact Hrest0|by left|by left].
  - cbn [visit_modules] in Hrest. apply bind_Ok_SM in Hrest as (ss & w1 & Hss & Hrest).
    apply bind_Ok_SM in Hrest as ([] & w2 & Hinfo & Hrest); [|done].
    do 8 go. apply after_on; [done|done|done|done| |].
    + left. cbn. rewrite Hm. cbn. lia.
    + exact Hrest.
Qed.

(** ** Going back *)

Ltac open_back := unfold back, state_slots_back, state_slot_back, state_session_back, state_find_back, state_results_back.

Lemma wp_rewind_loop n h (Q : Handler -> Run W -> Prop) s ar w : handler s <> h ->
  wp (back (handler s)) (fun h' r => wp (rewind_loop n h) Q (mk_run (set_handler h' (args r)) (arrays r) (world r))) (mk_run s ar w) ->
  wp (rewind_loop (S n) h) Q (mk_run s ar w).
Proof.
  intros Hne Hb. cbn [rewind_loop]. go. go. rewrite decide_False by congruence. go. eapply wp_mono; [exact Hb|].
  intros h' [s' ar' w'] HQ. do 2 go. exact HQ.
Qed.

Lemma wp_rewind_done n h (Q : Handler -> Run W -> Prop) s ar w : handler s = h -> Q h (mk_run s ar w) -> wp (rewind_loop n h) Q (mk_run s ar w).
Proof. intros Hh HQ. destruct n; cbn [rewind_loop]; go; go; rewrite decide_True by done; by go. Qed.

Lemma rewind_slots (Q : Handler -> Run W -> Prop) s ar w : handler s = state_slots -> slot s = None ->
  Q state_modules (mk_run (set_handler state_modules (set_slots [] s)) ar w) -> wp (rewind_state state_modules) Q (mk_run s ar w).
Proof.
  intros Hh Hs HQ. apply wp_rewind_loop; [congruence|]. rewrite Hh. open_back. repeat go. by apply wp_rewind_done.
Qed.

Lemma rewind_slot (Q : Handler -> Run W -> Prop) s ar w : handler s = state_slot -> in_slot s -> session s = None ->
  Q state_slots (mk_run (set_handler state_slots (set_slot None None false s)) ar w) -> wp (rewind_state state_slots) Q (mk_run s ar w).
Proof.
  intros Hh (x & t & Hx & Ht & Hf) Hs HQ. apply wp_rewind_loop; [congruence|]. rewrite Hh. open_back.
  assert (is_Some (slot s)) as Hsome by by exists x. repeat go. by apply wp_rewind_done.
Qed.

(** ** Each handler *)

Section Handlers.
Context (fuel : nat) (types : list Z) (ar : gmap Z (list Z)).

Ltac at_handler Hr Hh Hrest :=
  let Hp := fresh "Hp" in pose proof (r_placed _ _ _ Hr) as Hp; unfold placed in Hp; rewrite Hh in Hp;
  unfold rest in Hrest; rewrite Hh in Hrest; cbn zeta in Hrest.

Lemma slots_step s w l wf : ready types ar s -> handler s = state_slots -> rest fuel types s w = Ok (l, wf) ->
  wp state_slots_forward (after fuel types ar s l wf) (mk_run s ar w).
Proof.
  intros Hr Hh Hrest. at_handler Hr Hh Hrest. destruct Hp as (Hi & Hf). pose proof Hi as (Hx & _).
  unfold state_slots_forward. do 4 go. unfold later in Hrest. destruct (slots s) as [|x ss] eqn:Hss.
  - apply (proj1 (andthen_nil _ _ _)) in Hrest. go. apply rewind_slots; [done|done|]. go. apply after_on; [done|done|done|done| |exact Hrest].
    right. cbn. split; [done|]. right. rewrite Hss, Hh. cbn. split; [done|lia].
  - cbn [visit_slots] in Hrest. apply andthen_assoc, andthen_Ok in Hrest as (l1 & w1 & l2 & w2 & Htok & Hlater & [= -> ->]).
    apply bind_Ok_SM in Htok as (token & w3 & Hget%wcall_Ok & Htok). cbn [cfg_of c_uri] in Htok.
    assert (smaller (set_handler state_slots (set_slots ss s)) s) as Hsm by (right; cbn; rewrite Hss; cbn; lia).
    assert (forall w', mret (M := SM W) (@nil (option Result)) w3 = Ok (l1, w1) -> w' = w3 ->
      rest fuel types (set_handler state_slots (set_slots ss s)) w' = Ok (l1 ++ l2, w2)) as Hskip by (intros w' [= <- <-] ->; exact Hlater).
    do 4 go. destruct token as [t|].
    2:{ go. apply after_on; [done|done|done|done|exact Hsm|]. by apply Hskip. }
    unfold wanted in Htok. match goal with |- context [negb ?b] => change (negb b) with (negb b) end.
    destruct (if any_unrecognized (match_ s) then false else _) eqn:Hw; cbn [negb].
    + do 3 go. apply after_on; [done|done|done|split_and!; [by exists x, t|apply Hi|done]| |].
      * right. cbn. rewrite Hss. cbn. lia.
      * apply andthen_Ok. by exists l1, w1, l2, w2.
    + go. apply after_on; [done|done|done|done|exact Hsm|]. by apply Hskip.
Qed.

Lemma slot_step s w l wf : ready types ar s -> handler s = state_slot -> rest fuel types s w = Ok (l, wf) ->
  wp state_slot_forward (after fuel types ar s l wf) (mk_run s ar w).
Proof.
  intros Hr Hh Hrest. at_handler Hr Hh Hrest. destruct Hp as (Hs & Hses & Hf). pose proof Hs as (x & t & Hx & Ht & Hfu).
  rewrite Hx in Hrest. cbn [default] in Hrest. unfold id in Hrest.
  apply andthen_Ok in Hrest as (l1 & w1 & l2 & w2 & Hslot & Hlater & [= -> ->]).
  apply bind_Ok_SM in Hslot as ([rv n] & w3 & Hopen%wcall_Ok & Hslot). cbn [cfg_of c_options] in Hopen.
  unfold state_slot_forward. do 3 go. rewrite Hx. do 7 go. destruct (rv_ok rv); cbn [negb].
  - apply bind_Ok_SM in Hslot as ([] & w4 & Hn & Hslot). unfold m_assert in Hn. destruct (Z.eqb_spec n 0) as [|Hn0]; [done|].
    injection Hn as <-. do 3 go. apply after_on; [done|done|done|split; [split; [by exists x, t|by exists n]|done]| |].
    + right. cbn. split; [done|]. right. rewrite Hh. cbn. split; [done|lia].
    + unfold rest. cbn. rewrite Hx. apply andthen_Ok. by exists l1, w1, l2, w2.
  - injection Hslot as <- <-. go. apply rewind_slot; [done|done|done|]. go. apply after_on; [done|done|done|done| |exact Hlater].
    right. cbn. split; [done|]. right. rewrite Hh. cbn. split; [done|lia].
Qed.

Lemma session_step s w l wf : ready types ar s -> handler s = state_session -> rest fuel types s w = Ok (l, wf) ->
  wp state_session_forward (after fuel types ar s l wf) (mk_run s ar w).
Proof.
  intros Hr Hh Hrest. at_handler Hr Hh Hrest. destruct Hp as (Hin & Hf). pose proof Hin as ((x & t & Hx & Ht & Hfu) & n & Hn & Hn0).
  rewrite Hx, Hn in Hrest. cbn [default] in Hrest. unfold id in Hrest.
  apply andthen_Ok in Hrest as (l1 & w1 & l2 & w2 & Hses & Hlater & [= -> ->]).
  apply bind_Ok_SM in Hses as ([] & w3 & Hauth & Hses). cbn [cfg_of c_options c_interaction] in Hauth.
  assert (rest fuel types (set_handler state_find s) w3 = Ok (l1 ++ l2, w2)) as Hrest.
  { unfold rest. cbn. rewrite Hn. apply andthen_Ok. by exists l1, w1, l2, w2. }
  assert (smaller (set_handler state_find s) s) as Hsm.
  { right. cbn. split; [done|]. right. rewrite Hh. cbn. split; [done|lia]. }
  unfold state_session_forward. do 4 go. rewrite Hn. do 2 go. rewrite Ht. do 2 go.
  destruct (Z.land (session_options s) GCK_SESSION_LOGIN_USER =? 0).
  - injection Hauth as <-. go. by apply after_on.
  - apply bind_Ok_SM in Hauth as (rv & w4 & Hcall%wcall_Ok & [= <-]). go. rewrite Hx. do 4 go. by apply after_on.
Qed.

Lemma wp_find_loop k : forall s w n hs l w' (Q : unit -> Run W -> Prop), found s = Some (of_session n hs) -> find_all k n w = Ok (l, w') ->
  Q tt (mk_run (set_found (Some (of_session n (hs ++ l))) s) ar w') -> wp (find_loop k n) Q (mk_run s ar w).
Proof.
  induction k as [|k IH]; intros s w n hs l w' Q Hf Hall HQ; [done|]. cbn [find_all] in Hall.
  apply bind_Ok_SM in Hall as ([rv objects] & w1 & Hcall%wcall_Ok & Hall). cbn [find_loop]. do 2 go.
  destruct (negb (rv_ok rv) || (Zlen objects =? 0)).
  - injection Hall as <- <-. go. rewrite app_nil_r in HQ. rewrite <- Hf in HQ. by destruct s.
  - apply bind_Ok_SM in Hall as (l' & w2 & Hall & [= <- <-]). do 2 go. eapply IH; [|exact Hall|].
    + cbn. rewrite Hf. cbn. unfold of_session at 1. rewrite <- fmap_app. done.
    + cbn in *. rewrite <- (assoc_L (++)). exact HQ.
Qed.

Lemma find_step s w l wf : ready types ar s -> handler s = state_find -> 0 < want_objects s -> rest fuel types s w = Ok (l, wf) ->
  wp (state_find_forward fuel) (after fuel types ar s l wf) (mk_run s ar w).
Proof.
  intros Hr Hh Hwant Hrest. at_handler Hr Hh Hrest. destruct Hp as (Hin & Hf). pose proof Hin as ((x & t & Hx & Ht & Hfu) & n & Hn & Hn0).
  rewrite Hn in Hrest. cbn [default] in Hrest. unfold id in Hrest.
  apply andthen_Ok in Hrest as (l1 & w1 & l2 & w2 & Hfound & Hlater & [= -> ->]).
  apply bind_Ok_SM in Hfound as (hs & w3 & Hfind & Hvisit). apply bind_Ok_SM in Hfind as (rv & w4 & Hinit%wcall_Ok & Hfind).
  cbn [cfg_of c_uri] in Hinit.
  assert (forall w', w' = w3 -> after fuel types ar s (l1 ++ l2) w2 (Some state_results) (mk_run (set_found (Some (of_session n hs)) s) ar w')) as Hafter.
  { intros w' ->. apply after_on; [done|done|done| | |].
    - split; [exact Hin|]. exists hs. cbn. by rewrite Hn.
    - right. cbn. split; [done|]. right. rewrite Hh. cbn. split; [done|lia].
    - unfold rest. cbn. rewrite Hn. unfold of_session. rewrite <- list_fmap_compose. unfold compose. cbn. rewrite list_fmap_id.
      apply andthen_Ok. by exists l1, w1, l2, w2. }
  unfold state_find_forward. do 3 go. rewrite Hn. do 7 go. destruct (Z.eqb_spec n 0) as [|_]; [done|]. do 2 go. rewrite Hf.
  destruct (rv_ok rv).
  - apply bind_Ok_SM in Hfind as (l & w5 & Hall & Hfinal). apply bind_Ok_SM in Hfinal as (u & w6 & Hcall%wcall_Ok & [= <- <-]).
    go. go. eapply (wp_find_loop _ _ _ n []); [done|exact Hall|]. destruct u. do 2 go. by apply Hafter.
  - injection Hfind as <- <-. do 3 go. by apply Hafter.
Qed.
End Handlers.

(** ** Results *)

Lemma wp_attr_types types (Q : list Z -> Run W -> Prop) ar s w : types_of ar s = Some types -> Q types (mk_run s ar w) -> wp attr_types_array Q (mk_run s ar w).
Proof.
  unfold types_of, attr_types_array. intros (l & Hl & Hs)%bind_Some HQ. do 3 go.
  assert (wp (some_or_ub (slice l 0 (attr_count s))) Q (mk_run s ar w)) as Hgo by (rewrite Hs; by go).
  destruct (attr_types s) as [|a|t]; [injection Hl as <-; go|do 2 go; cbn [arrays]; rewrite Hl; go|rewrite Hl; go]; exact Hgo.
Qed.

Section Results.
Context (fuel : nat) (types : list Z) (ar : gmap Z (list Z)).

Ltac go_fields := go; cbn [slot session funcs token_info found object_class handler set_handler set_session set_slot args arrays world].

Lemma rewind_results (Q : Handler -> Run W -> Prop) s w : handler s = state_results -> in_session s -> is_Some (object_class s) -> is_Some (found s) ->
  Q state_slots (mk_run (set_handler state_slots (set_slot None None false (set_session None s))) ar w) ->
  wp (rewind_state state_slots) Q (mk_run s ar w).
Proof.
  intros Hh ((x & t & Hx & Ht & Hf) & n & Hn & _) Hc [l Hl] HQ.
  assert (is_Some (slot s)) as Hsx by by exists x. assert (is_Some (session s)) as Hsn by by exists n.
  assert (is_Some (option_map (fun _ => tt) (token_info s))) as Hst by (rewrite Ht; by eexists).
  assert (is_Some (option_map (fun _ => tt) (found s))) as Hsf by (rewrite Hl; by eexists).
  apply wp_rewind_loop; [congruence|]. rewrite Hh. open_back. repeat go_fields.
  do 3 (apply wp_rewind_loop; [done|]; cbn [handler set_handler]; open_back; repeat go_fields).
  by apply wp_rewind_done.
Qed.

Lemma types_count s : types_of ar s = Some types -> (attr_count s =? 0) = match types with [] => true | _ => false end.
Proof.
  unfold types_of. intros (l & _ & Hs)%bind_Some. apply slice_length in Hs. rewrite <- Hs. destruct types; [done|]. cbn [length]. apply Z.eqb_neq. lia.
Qed.

(** [after], when [count] objects were visited before. *)
Definition visited (count : Z) (s : State) (l : list (option Result)) (wf : W) (o : option Handler) (r : Run W) : Prop :=
  arrays r = ar /\ setup (args r) = setup s /\
  exists out l', l = out ++ l' /\ results_of (args r) = results_of s ++ omap id out /\
  match o with
  | Some h => let s' := set_handler h (args r) in
    ready types ar s' /\ rest fuel types s' (world r) = Ok (l', wf) /\ smaller s' s /\ count + Zlen out < want_objects s
  | None => ready types ar (args r) /\ handler (args r) = handler s /\ rest fuel types (args r) (world r) = Ok (l', wf) /\
    want_objects s <= count + Zlen out /\ (out = [] \/ count + Zlen out <= want_objects s)
  end.

(** The turns after one that visited [x]. *)
Lemma visited_cons count s s1 x l wf o r : count < want_objects s -> setup s1 = setup s -> handler s1 = handler s -> modules s1 = modules s -> slots s1 = slots s ->
  results_of s1 = results_of s ++ omap id [x] -> visited (count + 1) s1 l wf o r -> visited count s (x :: l) wf o r.
Proof.
  intros Hlt He Hh Hm Hs Hres (H1 & H2 & out & l' & -> & H3 & H4). split; [done|]. split; [congruence|].
  assert (want_objects s1 = want_objects s) as Hw by (by injection He).
  exists (x :: out), l'. split; [done|]. split; [by rewrite H3, Hres, <- (assoc_L (++)); destruct x|].
  destruct o as [h|].
  - destruct H4 as (? & ? & Hsm & Hwant). rewrite Hw in Hwant. split_and!; [done|done| |cbn [length]; lia]. unfold smaller in *. by rewrite Hm, Hs, Hh in Hsm.
  - destruct H4 as (? & Hh4 & ? & Hwant & Hmost). rewrite Hw in Hwant, Hmost. split_and!; [done|congruence|done|cbn [length]; lia|].
    right. cbn [length]. destruct Hmost as [->|?]; cbn [length]; lia.
Qed.

Lemma rest_results s n hs : handler s = state_results -> session s = Some n -> found s = Some (of_session n hs) ->
  rest fuel types s = andthen (visit_objects (cfg_of types s) n hs) (later fuel (cfg_of types s) s).
Proof.
  intros Hh Hn Hf. unfold rest. rewrite Hh, Hn, Hf. cbn [default]. unfold id, of_session. rewrite <- list_fmap_compose.
  unfold compose. cbn [handle]. by rewrite list_fmap_id.
Qed.

Lemma visited_enough count s w l wf : want_objects s <= count -> ready types ar s -> rest fuel types s w = Ok (l, wf) ->
  visited count s l wf None (mk_run s ar w).
Proof.
  intros Hw Hr Hrest. split_and!; [done|done|]. exists [], l. split; [done|]. split; [by rewrite app_nil_r|].
  split_and!; [done|done|done|cbn; lia|by left].
Qed.

Lemma visited_all count s w l wf : count < want_objects s -> ready types ar s -> handler s = state_results -> found s = Some [] ->
  later fuel (cfg_of types s) s w = Ok (l, wf) -> wp (h ← rewind_state state_slots; mret (Some h)) (visited count s l wf) (mk_run s ar w).
Proof.
  intros Hlt Hr Hh Hf Hrest. pose proof (r_placed _ _ _ Hr) as Hp. unfold placed in Hp. rewrite Hh in Hp. destruct Hp as [Hin _].
  go. apply rewind_results; [done|exact Hin|apply Hr|by eexists|]. go. split_and!; [done|done|]. exists [], l.
  split; [done|]. split; [by rewrite app_nil_r|]. split_and!; [|exact Hrest| |cbn; lia].
  - eapply ready_setup; [exact Hr|done|]. split; [done|]. cbn. by rewrite Hf.
  - right. cbn. split; [done|]. right. rewrite Hh. cbn. split; [done|lia].
Qed.

Lemma wp_results_loop n : forall hs k s w count l wf, ready types ar s -> handler s = state_results -> session s = Some n ->
  found s = Some (of_session n hs) -> (length hs <= k)%nat -> rest fuel types s w = Ok (l, wf) ->
  wp (results_loop k count n) (visited count s l wf) (mk_run s ar w).
Proof.
  induction hs as [|h hs IH]; intros k s w count l wf Hr Hh Hn Hf Hk Hrest.
  - destruct k; cbn [results_loop]; go; go; (destruct (Z.leb_spec (want_objects s) count) as [Hw|Hw]; [go; by apply visited_enough|]);
      rewrite Hf; apply visited_all; try done; rewrite (rest_results s n [] Hh Hn Hf) in Hrest; by apply (proj1 (andthen_nil _ _ _)) in Hrest.
  - destruct k as [|k]; cbn [length] in Hk; [lia|]. cbn [results_loop]. go. go.
    destruct (Z.leb_spec (want_objects s) count) as [Hw|Hw]; [go; by apply visited_enough|].
    rewrite (rest_results s n (h :: hs) Hh Hn Hf) in Hrest. cbn [visit_objects] in Hrest.
    apply andthen_Ok in Hrest as (l1 & w1 & l2 & w2 & Hvis & Hlater & [= -> ->]).
    apply bind_Ok_SM in Hvis as (x & w3 & Hx & Hvis). apply bind_Ok_SM in Hvis as (l3 & w4 & Hvis & [= <- <-]).
    unfold visit_object in Hx. cbn [cfg_of c_types] in Hx.
    rewrite Hf. cbn [default of_session fmap list_fmap]. unfold id. go. go.
    pose proof (r_placed _ _ _ Hr) as Hp. unfold placed in Hp. rewrite Hh in Hp. destruct Hp as [Hin _].
    assert (forall s1, setup s1 = setup s -> handler s1 = handler s -> modules s1 = modules s -> slots s1 = slots s -> slot s1 = slot s ->
      token_info s1 = token_info s -> funcs s1 = funcs s -> session s1 = session s -> found s1 = Some (of_session n hs) ->
      results_of s1 = results_of s ++ omap id [x] ->
      wp (results_loop k (count + 1) n) (visited count s (x :: l3 ++ l2) w2) (mk_run s1 ar w3)) as Hnext.
    { intros s1 E1 E2 E3 E4 E5 E6 E7 E8 E9 E10.
      assert (ready types ar s1) as Hr1.
      { eapply ready_setup; [exact Hr|done|]. unfold placed, in_session, in_slot. rewrite E2, Hh, E5, E6, E7, E8.
        split; [exact Hin|]. exists hs. by rewrite Hn. }
      eapply wp_mono; [apply (IH k s1 w3 (count + 1) (l3 ++ l2) w2); [done|congruence|congruence|done|lia|]|].
      - rewrite (rest_results s1 n hs) by congruence. unfold later. rewrite (cfg_setup types s s1) by done. rewrite E3, E4.
        apply andthen_Ok. by exists l3, w4, l2, w2.
      - intros o r Hv. eapply visited_cons; [exact Hw|done..]. }
    rewrite (types_count s) by apply Hr. destruct types as [|t ts].
    + injection Hx as <- <-. do 2 go. by apply Hnext.
    + apply bind_Ok_SM in Hx as (a & w5 & Hget & [= <- <-]). go. apply (wp_attr_types (t :: ts)); [exact (r_types _ _ _ Hr)|]. cbn [handle r_session]. do 2 go. destruct a as [a|].
      * do 2 go. by apply Hnext.
      * go. apply Hnext; try done. by rewrite app_nil_r.
Qed.
End Results.

(** ** Running *)

Lemma results_step fuel types ar s w l wf : ready types ar s -> handler s = state_results -> rest fuel types s w = Ok (l, wf) ->
  wp state_results_forward (after fuel types ar s l wf) (mk_run s ar w).
Proof.
  intros Hr Hh Hrest. pose proof (r_placed _ _ _ Hr) as Hp. unfold placed in Hp. rewrite Hh in Hp. destruct Hp as [Hin (hs & Hf)].
  pose proof Hin as ((x & t & Hx & Ht & Hfu) & n & Hn & Hn0). rewrite Hn in Hf. cbn [default] in Hf. unfold id in Hf.
  pose proof (r_class _ _ _ Hr) as Hc. assert (is_Some (option_map (fun _ => tt) (found s))) as Hsf by (rewrite Hf; by eexists).
  set (s1 := set_results (Some (default [] (results s))) s).
  unfold state_results_forward. do 10 go. fold s1. rewrite Hn. do 2 go. destruct (Z.eqb_spec n 0) as [|_]; [done|].
  eapply wp_mono; [eapply (wp_results_loop fuel types ar n hs _ s1); [|done|done|done| |]|].
  - eapply ready_setup; [exact Hr|done|]. unfold placed. change (handler s1) with (handler s). rewrite Hh.
    split; [exact Hin|]. exists hs. cbn. by rewrite Hn.
  - rewrite Hf. unfold of_session. cbn. by rewrite length_fmap.
  - rewrite <- Hrest. unfold rest. cbn. rewrite Hh. done.
  - intros o r (H1 & H2 & out & l' & -> & H3 & H4). split; [done|]. split; [done|]. exists out, l'. split; [done|]. split; [exact H3|].
    destruct o as [h|]; [destruct H4 as (? & ? & ? & Hw); split_and!; [done|done|done|by right]|].
    destruct H4 as (? & ? & ? & Hw & Hm). split_and!; [done|done|done|by right|exact Hm].
Qed.

Lemma forward_step fuel types ar s w l wf : ready types ar s -> 0 < want_objects s -> rest fuel types s w = Ok (l, wf) ->
  wp (forward fuel (handler s)) (after fuel types ar s l wf) (mk_run s ar w).
Proof.
  intros Hr Hw Hrest. destruct (handler s) eqn:Hh; cbn [forward];
    [by apply modules_step|by apply slots_step|by apply slot_step|by apply session_step|by apply find_step|by apply results_step].
Qed.

(** After a run: what was visited, and why it ended. *)
Definition ran (fuel : nat) (types : list Z) (ar : gmap Z (list Z)) (s : State) (l : list (option Result)) (wf : W) (r : Run W) : Prop :=
  arrays r = ar /\ setup (args r) = setup s /\ ready types ar (args r) /\
  exists out l', l = out ++ l' /\ results_of (args r) = results_of s ++ omap id out /\
    rest fuel types (args r) (world r) = Ok (l', wf) /\
    ((exhausted (args r) /\ l' = []) \/ want_objects s <= Zlen out) /\ (want_objects s = 1 -> Zlen out <= 1).

Lemma ran_cons fuel types ar s s1 w1 l wf out l' r : setup s1 = setup s -> l = out ++ l' ->
  results_of s1 = results_of s ++ omap id out -> ran fuel types ar s1 l' wf r -> w1 = world r -> out = [] \/ Zlen out < want_objects s ->
  ran fuel types ar s l wf r.
Proof.
  intros He -> Hres (H1 & H2 & H3 & out' & l'' & -> & H4 & H5 & H6 & H7) _ Hfew. assert (want_objects s1 = want_objects s) as Hwant by (by injection He).
  rewrite Hwant in H6, H7. split; [done|]. split; [congruence|]. split; [done|].
  exists (out ++ out'), l''. split; [by rewrite (assoc_L (++))|]. split; [by rewrite H4, Hres, omap_app, (assoc_L (++))|].
  split; [done|]. rewrite length_app. split; [destruct H6 as [?|Hw]; [by left|right; lia]|]. intros H1w. specialize (H7 H1w).
  destruct Hfew as [->|?]; cbn [length]; lia.
Qed.

(** A run ends: each step takes one of the modules, one of the slots, or goes on in a slot. *)
Lemma run_loop_spec fuel types ar s : forall w l wf, ready types ar s -> 0 < want_objects s -> rest fuel types s w = Ok (l, wf) ->
  exists n, wp (run_loop fuel n) (fun _ => ran fuel types ar s l wf) (mk_run s ar w).
Proof.
  induction (smaller_wf s) as [s _ IH]. intros w l wf Hr Hw Hrest.
  destruct (wp_run _ _ _ (forward_step fuel types ar s w l wf Hr Hw Hrest)) as (o & r & E & Har & He & out & l' & -> & Hres & Ho).
  destruct r as [s1 ar1 w1]. cbn [args arrays world] in *. subst ar1. destruct o as [h|].
  - destruct Ho as (Hr1 & Hrest1 & Hsm & Hfew). destruct (IH _ Hsm w1 l' wf Hr1) as [n Hn]; [injection He as E1 _ _ _ _ _ _; cbn; by rewrite E1|exact Hrest1|].
    exists (S n). cbn [run_loop]. do 2 go. go. unfold wp at 1. rewrite E. do 2 go. eapply wp_mono; [exact Hn|]. intros u r Hran.
    by eapply ran_cons.
  - exists 1%nat. cbn [run_loop]. do 2 go. go. unfold wp at 1. rewrite E. go. destruct Ho as (Hr1 & _ & Hrest1 & Hend & Hmost).
    split; [done|]. split; [done|]. split; [done|]. exists out, l'. split_and!; [done|done|done|done|].
    intros Hone. destruct Hmost as [->|?]; cbn [length]; lia.
Qed.

Lemma run_loop_more fuel n : forall k r r', run_loop fuel n r = Ok r' -> (n <= k)%nat -> run_loop fuel k r = Ok r'.
Proof.
  induction n as [|n IH]; intros k r r' Hrun Hk; [done|]. destruct k as [|k]; [lia|]. cbn [run_loop] in *.
  unfold mbind, SM_bind in *. destruct (the_args r) as [[s r1]| |]; [|done..]. destruct (forward fuel (handler s) r1) as [[[h|] r2]| |]; [|done..].
  destruct (upd (set_handler h) r2) as [[u r3]| |]; [|done..]. apply IH; [done|lia].
Qed.

(** ** More fuel *)

(** What ends with [m] ends with [n] just so. *)
Definition extends {S A} (m n : SM S A) : Prop := forall w r, m w = Ok r -> n w = Ok r.

Lemma extends_refl {S A} (m : SM S A) : extends m m.
Proof. by intros w r. Qed.

Lemma extends_bind {S A B} (m n : SM S A) (f g : A -> SM S B) : extends m n -> (forall a, extends (f a) (g a)) -> extends (m ≫= f) (n ≫= g).
Proof.
  intros Hm Hf w r. unfold mbind, SM_bind. destruct (m w) as [[a w1]| |] eqn:E; [|done..]. rewrite (Hm _ _ E). apply Hf.
Qed.

Lemma extends_if {S A} (b : bool) (m n m' n' : SM S A) : extends m n -> extends m' n' -> extends (if b then m else m') (if b then n else n').
Proof. by destruct b. Qed.

Lemma find_all_more k : forall k' id, (k <= k')%nat -> extends (find_all k id) (find_all k' id).
Proof.
  induction k as [|k IH]; intros k' id Hk; [by intros w r|]. destruct k' as [|k']; [lia|]. cbn [find_all].
  apply extends_bind; [apply extends_refl|]. intros [rv objects]. apply extends_if; [apply extends_refl|].
  apply extends_bind; [apply IH; lia|]. intros l. apply extends_refl.
Qed.

Lemma find_loop_more k : forall k' id, (k <= k')%nat -> extends (find_loop k id) (find_loop k' id).
Proof.
  induction k as [|k IH]; intros k' id Hk; [by intros w r|]. destruct k' as [|k']; [lia|]. cbn [find_loop].
  apply extends_bind; [apply extends_refl|]. intros [rv objects]. apply extends_if; [apply extends_refl|].
  apply extends_bind; [apply extends_refl|]. intros u. apply IH. lia.
Qed.

Lemma andthen_more (m m' n n' : SM W (list (option Result))) : extends m m' -> extends n n' -> extends (andthen m n) (andthen m' n').
Proof. intros Hm Hn. apply extends_bind; [done|]. intros l. apply extends_bind; [done|]. intros l'. apply extends_refl. Qed.

Lemma visits_more k k' c : (k <= k')%nat ->
  (forall id, extends (visit_found k c id) (visit_found k' c id)) /\ (forall x id, extends (visit_session k c x id) (visit_session k' c x id)) /\
  (forall x, extends (visit_slot k c x) (visit_slot k' c x)) /\ (forall ss, extends (visit_slots k c ss) (visit_slots k' c ss)) /\
  (forall ms, extends (visit_modules k c ms) (visit_modules k' c ms)).
Proof.
  intros Hk.
  assert (forall id, extends (visit_found k c id) (visit_found k' c id)) as H1.
  { intros id. apply extends_bind; [|intros l; apply extends_refl]. apply extends_bind; [apply extends_refl|]. intros rv.
    apply extends_if; [|apply extends_refl]. apply extends_bind; [by apply find_all_more|]. intros l. apply extends_refl. }
  assert (forall x id, extends (visit_session k c x id) (visit_session k' c x id)) as H2.
  { intros x id. apply extends_bind; [apply extends_refl|]. intros u. apply H1. }
  assert (forall x, extends (visit_slot k c x) (visit_slot k' c x)) as H3.
  { intros x. apply extends_bind; [apply extends_refl|]. intros [rv id]. apply extends_if; [|apply extends_refl].
    apply extends_bind; [apply extends_refl|]. intros u. apply H2. }
  assert (forall x, extends (visit_token k c x) (visit_token k' c x)) as H4.
  { intros x. apply extends_bind; [apply extends_refl|]. intros [t|]; [|apply extends_refl].
    apply extends_if; [apply H3|apply extends_refl]. }
  assert (forall ss, extends (visit_slots k c ss) (visit_slots k' c ss)) as H6.
  { intros ss. induction ss as [|x ss IH]; cbn [visit_slots]; [apply extends_refl|]. by apply andthen_more. }
  split_and!; [done..|]. intros ms. induction ms as [|m ms IH]; cbn [visit_modules]; [apply extends_refl|].
  apply extends_bind; [apply extends_refl|]. intros ss. apply extends_bind; [apply extends_refl|]. intros info.
  apply extends_bind; [apply extends_refl|]. intros u. by apply andthen_more.
Qed.

Lemma rest_more k k' types s : (k <= k')%nat -> extends (rest k types s) (rest k' types s).
Proof.
  intros Hk. destruct (visits_more k k' (cfg_of types s) Hk) as (H1 & H2 & H3 & H4 & H5).
  assert (extends (later k (cfg_of types s) s) (later k' (cfg_of types s) s)) as H6 by by apply andthen_more.
  unfold rest. destruct (handler s); auto using andthen_more, extends_refl.
Qed.

Lemma forward_more k k' h : (k <= k')%nat -> extends (forward k h) (forward k' h).
Proof.
  intros Hk. destruct h; cbn [forward]; try apply extends_refl. unfold state_find_forward. repeat (apply extends_bind; [apply extends_refl|intros ?]).
  apply extends_if; [apply extends_refl|]. apply extends_bind; [apply extends_refl|]. intros rv.
  apply extends_bind; [|intros ?; apply extends_refl]. apply extends_if; [|apply extends_refl].
  apply extends_bind; [by apply find_loop_more|]. intros u. apply extends_refl.
Qed.

Lemma run_loop_fuel k k' n : (k <= k')%nat -> extends (run_loop k n) (run_loop k' n).
Proof.
  intros Hk. induction n as [|n IH]; cbn [run_loop]; [apply extends_refl|]. apply extends_bind; [apply extends_refl|]. intros s.
  apply extends_bind; [by apply forward_more|]. intros [h|]; [|apply extends_refl]. apply extends_bind; [apply extends_refl|]. intros u. exact IH.
Qed.

(** ** Chains *)

(** The type every object of a state is made with. *)
Definition tagged (s : State) (x : Result) : Object := (object_class s, x).

Definition tags (s : State) (x : list (option Result)) : list (option Object) := (fun r : option Result => option_map (tagged s) r) <$> x.

(** The objects a chain still has to give: of each state those that wait in [results],
    then those that are visited later. *)
Fixpoint future (fuel : nat) (ar : gmap Z (list Z)) (c : Chain) : SM W (list (option Object)) :=
  match c with
  | [] => mret []
  | (_, s) :: c =>
    l ← (match types_of ar s with Some types => rest fuel types s | None => ub end);
    l' ← future fuel ar c;
    mret (tags s ((Some <$> results_of s) ++ l) ++ l')
  end.

(** Objects, all of which could be read. *)
Definition stream (fuel : nat) (ar : gmap Z (list Z)) (c : Chain) (w : W) (l : list Object) (wf : W) : Prop :=
  future fuel ar c w = Ok (Some <$> l, wf).

(** A later state has results only after the earlier ones have nothing more to find. *)
Fixpoint ordered (c : Chain) : Prop :=
  match c with [] => True | (_, s) :: c => (exhausted s \/ Forall (fun p => results_of p.2 = []) c) /\ ordered c end.

Definition all_ready (ar : gmap Z (list Z)) (c : Chain) : Prop := Forall (fun p => exists types, ready types ar p.2) c.

Lemma fmap_Some_app {A} (l : list A) (x y : list (option A)) : Some <$> l = x ++ y ->
  exists l1 l2, l = l1 ++ l2 /\ x = Some <$> l1 /\ y = Some <$> l2.
Proof. intros E. apply fmap_app_inv in E as (l1 & l2 & -> & -> & ->). by exists l1, l2. Qed.

Lemma tags_Some s (k : list Result) : tags s (Some <$> k) = Some <$> (tagged s <$> k).
Proof. unfold tags. rewrite <- !list_fmap_compose. done. Qed.

Lemma tags_Some_inv s (x : list (option Result)) (l : list Object) : tags s x = Some <$> l ->
  exists k, x = Some <$> k /\ l = tagged s <$> k.
Proof.
  revert l. induction x as [|[r|] x IH]; intros [|o l] E; try done; [by exists []|]. injection E as E1 E2.
  destruct (IH _ E2) as (k & -> & ->). exists (r :: k). split; [done|]. by rewrite <- E1.
Qed.

Lemma omap_id_Some {A} (l : list A) : omap id (Some <$> l) = l.
Proof. induction l as [|x l IH]; [done|]. cbn. by rewrite IH. Qed.

(** A stream begins with what the first state has, and has to find. *)
Lemma stream_cons fuel ar i s c w l wf types : types_of ar s = Some types -> stream fuel ar ((i, s) :: c) w l wf ->
  exists k w1 l', rest fuel types s w = Ok (Some <$> k, w1) /\ stream fuel ar c w1 l' wf /\ l = (tagged s <$> (results_of s ++ k)) ++ l'.
Proof.
  intros Ht Hs. unfold stream in Hs. cbn [future] in Hs. rewrite Ht in Hs.
  apply bind_Ok_SM in Hs as (x & w1 & Hrest & Hs). apply bind_Ok_SM in Hs as (y & w2 & Hfut & Hs). injection Hs as Hs ->.
  symmetry in Hs. apply fmap_Some_app in Hs as (l1 & l2 & -> & H1 & ->). apply tags_Some_inv in H1 as (k & Hk & ->).
  symmetry in Hk. apply fmap_Some_app in Hk as (k1 & k2 & -> & Hk & ->). apply (f_equal (omap id)) in Hk. rewrite !omap_id_Some in Hk.
  subst k1. by exists k2, w1, l2.
Qed.

Lemma stream_intro fuel ar i s c w k w1 l' wf types : types_of ar s = Some types -> rest fuel types s w = Ok (Some <$> k, w1) ->
  stream fuel ar c w1 l' wf -> stream fuel ar ((i, s) :: c) w ((tagged s <$> (results_of s ++ k)) ++ l') wf.
Proof.
  intros Ht Hr Hs. unfold stream. cbn [future]. rewrite Ht. apply bind_Ok_SM. exists (Some <$> k), w1. split; [done|].
  apply bind_Ok_SM. exists (Some <$> l'), wf. split; [exact Hs|]. rewrite <- fmap_app, tags_Some, <- fmap_app. done.
Qed.

(** ** Taking results *)

(** What no call changes in a state. *)
Definition frame (s : State) := (match_ s, session_options s, interaction s, object_class s, attr_types s, attr_count s).

Definition kept (c' c : Chain) : Prop := Forall2 (fun p q => p.1 = q.1 /\ frame p.2 = frame q.2) c' c.

Lemma kept_refl c : kept c c.
Proof. unfold kept. induction c as [|p c IH]; constructor; [done|exact IH]. Qed.

Lemma kept_trans c1 c2 c3 : kept c1 c2 -> kept c2 c3 -> kept c1 c3.
Proof.
  unfold kept. intros H1. revert c3. induction H1 as [|p q c1 c2 [E1 E2] _ IH]; intros c3 H2; inversion_clear H2 as [|? q' ? ? [E3 E4]];
    constructor; [split; congruence|by apply IH].
Qed.

Lemma setup_frame s s' : setup s = setup s' -> frame s = frame s'.
Proof. intros [= E1 E2 E3 E4 E5 E6 E7]. unfold frame. congruence. Qed.

Lemma ready_frame types ar s s' : ready types ar s -> frame s' = frame s -> placed s' -> ready types ar s'.
Proof. intros [_ Hc Ht] [= E1 E2 E3 E4 E5 E6] Hp. split; [done|by rewrite E4|]. unfold types_of. by rewrite E5, E6. Qed.

Lemma pending_cons i s c : pending ((i, s) :: c) = (length (results_of s) + pending c)%nat.
Proof. done. Qed.

Lemma pending_none c : Forall (fun p => results_of p.2 = []) c -> pending c = 0%nat.
Proof. induction 1 as [|[i s] c Hs Hc IH]; [done|]. cbn [snd] in Hs. by rewrite pending_cons, Hs, IH. Qed.

Lemma exhausted_rest fuel types s w r : exhausted s -> rest fuel types s w = Ok r -> r = ([], w).
Proof. intros [Hh Hm] Hr. unfold rest in Hr. rewrite Hh, Hm in Hr. by injection Hr. Qed.

Lemma extract_none c : pending c = 0%nat -> extract_result c = (None, c).
Proof.
  induction c as [|[i s] c IH]; intros Hp; [done|]. rewrite pending_cons in Hp. cbn [extract_result].
  destruct (results_of s); [|cbn in Hp; lia]. rewrite IH by (cbn in Hp; lia). done.
Qed.

Lemma extract_spec fuel ar wf w c : forall l, all_ready ar c -> ordered c -> stream fuel ar c w l wf -> (0 < pending c)%nat ->
  exists o c' l', extract_result c = (Some o, c') /\ l = o :: l' /\ all_ready ar c' /\ ordered c' /\ stream fuel ar c' w l' wf /\
    kept c' c /\ pending c = S (pending c').
Proof.
  induction c as [|[i s] c IH]; intros l Hr Ho Hs Hp; [cbn in Hp; lia|]. apply Forall_cons in Hr as [[types Hr] Hrc]. cbn [snd] in Hr. destruct Ho as [Hos Hoc].
  destruct (stream_cons _ _ _ _ _ _ _ _ _ (r_types _ _ _ Hr) Hs) as (k & w1 & l' & Hrest & Hsc & ->). cbn [extract_result].
  rewrite pending_cons in Hp |- *. destruct (results_of s) as [|x xs] eqn:Hres.
  - destruct Hos as [Hex|Hno]; [|rewrite (pending_none _ Hno) in Hp; cbn in Hp; lia].
    pose proof (exhausted_rest _ _ _ _ _ Hex Hrest) as [= Hk ->]. destruct k; [|done].
    destruct (IH l') as (o & c' & l2 & -> & -> & H1 & H2 & H3 & H4 & H5); [done|done|done|cbn in Hp; lia|].
    exists o, ((i, s) :: c'), l2. rewrite pending_cons, Hres. split_and!; [done|done|constructor; [by exists types|done]|split; [by left|done]| |by constructor|cbn; lia].
    rewrite <- (app_nil_l l2). replace (@nil Object) with (tagged s <$> (results_of s ++ [])) by by rewrite Hres.
    by eapply stream_intro; [apply Hr|exact Hrest|].
  - set (s' := set_results (Some xs) s). exists (tagged s x), ((i, s') :: c), ((tagged s <$> (xs ++ k)) ++ l').
    assert (ready types ar s') as Hr' by (eapply ready_frame; [exact Hr|done|apply Hr]).
    split_and!; [done|done|constructor; [by exists types|done]|split; [by destruct Hos as [?|?]; [left|right]|done]| | |by rewrite pending_cons].
    + by eapply (stream_intro _ _ _ s'); [apply Hr'|exact Hrest|].
    + constructor; [done|apply kept_refl].
Qed.

Lemma extract_loop_spec fuel ar wf w n : forall c want l, (pending c <= n)%nat -> all_ready ar c -> ordered c -> stream fuel ar c w l wf ->
  let m := (Z.to_nat want `min` pending c)%nat in
  exists c', extract_loop n c want = (take m l, want - Z.of_nat m, c') /\ all_ready ar c' /\ ordered c' /\
    stream fuel ar c' w (drop m l) wf /\ kept c' c /\ pending c' = (pending c - m)%nat.
Proof.
  induction n as [|n IH]; intros c want l Hn Hr Ho Hs m; cbn [extract_loop];
    (destruct (Z.leb_spec want 0) as [Hw|Hw];
      [replace m with 0%nat by lia; exists c; rewrite take_0, drop_0, Z.sub_0_r; split_and!; [done..|apply kept_refl|lia]|]).
  - replace m with 0%nat by lia. rewrite extract_none by lia. exists c. rewrite take_0, drop_0, Z.sub_0_r.
    split_and!; [done..|apply kept_refl|lia].
  - destruct (decide (pending c = 0%nat)) as [Hz|Hz].
    { replace m with 0%nat by lia. rewrite extract_none by lia. exists c. rewrite take_0, drop_0, Z.sub_0_r.
      split_and!; [done..|apply kept_refl|lia]. }
    destruct (extract_spec fuel ar wf w c l Hr Ho Hs ltac:(lia)) as (o & c1 & l1 & -> & -> & Hr1 & Ho1 & Hs1 & Hk1 & Hp1).
    destruct (IH c1 (want - 1) l1 ltac:(lia) Hr1 Ho1 Hs1) as (c2 & -> & Hr2 & Ho2 & Hs2 & Hk2 & Hp2).
    replace m with (S (Z.to_nat (want - 1) `min` pending c1)) by lia. exists c2. cbn [take drop].
    split_and!; [f_equal; f_equal; lia|done|done|done|by eapply kept_trans|lia].
Qed.

(** ** Performing *)

Lemma ran_at fuel0 types ar s l wf w : ready types ar s -> 0 < want_objects s -> rest fuel0 types s w = Ok (l, wf) ->
  exists N r, ran fuel0 types ar s l wf r /\ forall fuel, (N <= fuel)%nat -> run_loop fuel fuel (mk_run s ar w) = Ok (tt, r).
Proof.
  intros Hr Hw Hrest. destruct (run_loop_spec fuel0 types ar s w l wf Hr Hw Hrest) as [n Hn].
  destruct (wp_run _ _ _ Hn) as ([] & r & E & Hran). exists (Nat.max fuel0 n), r. split; [done|]. intros fuel Hf.
  eapply run_loop_more; [|exact (Nat.max_lub_r _ _ _ Hf)]. eapply run_loop_fuel; [exact (Nat.max_lub_l _ _ _ Hf)|exact E].
Qed.

Lemma stream_length fuel ar c w l wf : all_ready ar c -> stream fuel ar c w l wf -> (pending c <= length l)%nat.
Proof.
  revert w l. induction c as [|[i s] c IH]; intros w l Hr Hs; [cbn; lia|]. apply Forall_cons in Hr as [[types Hr] Hrc]. cbn [snd] in Hr.
  destruct (stream_cons _ _ _ _ _ _ _ _ _ (r_types _ _ _ Hr) Hs) as (k & w1 & l' & _ & Hsc & ->). rewrite pending_cons.
  specialize (IH w1 l' Hrc Hsc). rewrite length_app, length_fmap, length_app. lia.
Qed.

Lemma perform_spec fuel0 ar wf ens c : forall w want count l, all_ready ar c -> ordered c -> stream fuel0 ar c w l wf ->
  0 <= count < want -> want <= G_MAXINT -> count + Zlen l < 2 ^ 31 ->
  exists N c' w', (forall fuel, (N <= fuel)%nat -> perform_enumerate_next fuel c want count (mk_en_st ens ar w) = Ok (c', mk_en_st ens ar w')) /\
    all_ready ar c' /\ ordered c' /\ stream fuel0 ar c' w' l wf /\ kept c' c /\
    (want - count <= Z.of_nat (pending c') \/ pending c' = length l).
Proof.
  induction c as [|[i s] c IH]; intros w want count l Hr Ho Hs Hcw Hwm Hlen.
  { exists 0%nat, [], w. split; [done|]. injection Hs as Hs ->. destruct l; [|done]. split_and!; [done|done|done|constructor|by right]. }
  apply Forall_cons in Hr as [[types Hr] Hrc]. cbn [snd] in Hr. destruct Ho as [Hos Hoc].
  destruct (stream_cons _ _ _ _ _ _ _ _ _ (r_types _ _ _ Hr) Hs) as (k & w1 & l' & Hrest & Hsc & ->).
  set (s1 := set_want (want - count) s).
  assert (ready types ar s1) as Hr1 by (eapply ready_frame; [exact Hr|done|apply Hr]).
  destruct (ran_at fuel0 types ar s1 (Some <$> k) w1 w Hr1 ltac:(cbn; lia) Hrest) as (N1 & [s2 ar2 w2] & Hran & Hrun).
  destruct Hran as (Har & Hset & Hr2 & out & l2 & Hout & Hres & Hrest2 & Hend & _). cbn [args arrays world] in *. subst ar2.
  apply fmap_Some_app in Hout as (k1 & k2 & -> & -> & ->). rewrite omap_id_Some in Hres. change (results_of s1) with (results_of s) in Hres.
  assert (frame s2 = frame s) as Hfr by exact (setup_frame s2 s1 Hset).
  assert (tagged s2 = tagged s) as Htag by (unfold tagged; injection Hfr as _ _ _ -> _ _; done).
  assert ((tagged s <$> (results_of s ++ k1 ++ k2)) ++ l' = (tagged s2 <$> (results_of s2 ++ k2)) ++ l') as Hl
    by (by rewrite Hres, Htag, (assoc_L (++))).
  assert (length (results_of s2) <= length ((tagged s <$> (results_of s ++ k1 ++ k2)) ++ l'))%nat as Hbound
    by (rewrite Hl, length_app, length_fmap, length_app; lia).
  assert (s32 (count + Zlen (results_of s2)) = count + Zlen (results_of s2)) as Hs32 by (apply s32_small; lia).
  cbn [want_objects set_want s1] in Hend. rewrite length_fmap in Hend.
  assert (Zlen (results_of s2) = Zlen (results_of s) + Zlen k1) as Hlen2 by (rewrite Hres, length_app; lia).
  destruct (Z.leb_spec want (count + Zlen (results_of s2))) as [Henough|Hmore].
  - exists N1, ((i, s2) :: c), w2. split.
    { intros fuel Hf. cbn [perform_enumerate_next]. unfold mbind, SM_bind, on_state. cbn [en_arrays en_world]. fold s1. rewrite Hrun by done.
      cbn [args arrays world enumerators]. rewrite Hs32. destruct (Z.leb_spec want (count + Zlen (results_of s2))); [done|lia]. }
    split; [constructor; [by exists types|done]|]. split; [split; [|done]|].
    { destruct Hos as [Hex|?]; [left|by right]. destruct Hend as [[? _]|Hw]; [done|]. exfalso.
      pose proof (exhausted_rest _ _ _ _ _ Hex Hrest) as [= E _]. destruct k1; [cbn in Hw; lia|done]. }
    rewrite Hl. split_and!; [by eapply stream_intro; [apply Hr2|exact Hrest2|]|constructor; [done|apply kept_refl]|].
    left. rewrite pending_cons. lia.
  - destruct Hend as [[Hex Hk2]|Hw]; [|lia]. destruct k2 as [|x k2]; [|done].
    pose proof (exhausted_rest _ _ _ _ _ Hex Hrest2) as [= ->].
    assert (Zlen ((tagged s2 <$> (results_of s2 ++ [])) ++ l') = Zlen (results_of s2) + Zlen l') as Hll
      by (rewrite length_app, length_fmap, app_nil_r; lia).
    rewrite Hl in Hlen |- *.
    destruct (IH w2 want (count + Zlen (results_of s2)) l' Hrc Hoc Hsc) as (N2 & c' & w3 & Hrun2 & Hrc' & Hoc' & Hsc' & Hkc & Hpend); [lia|lia|lia|].
    exists (Nat.max N1 N2), ((i, s2) :: c'), w3. split.
    { intros fuel Hf. cbn [perform_enumerate_next]. unfold mbind, SM_bind, on_state. cbn [en_arrays en_world]. fold s1. rewrite Hrun by lia.
      cbn [args arrays world enumerators]. rewrite Hs32. destruct (Z.leb_spec want (count + Zlen (results_of s2))); [lia|].
      by rewrite Hrun2 by lia. }
    split; [constructor; [by exists types|done]|]. split; [split; [by left|done]|].
    split_and!; [eapply stream_intro; [apply Hr2| |exact Hsc']|by constructor|].
    + unfold rest. destruct Hex as [-> ->]. done.
    + rewrite pending_cons. destruct Hpend as [?|Hp]; [left; lia|right]. rewrite Hp, length_app, length_fmap, app_nil_r. done.
Qed.

(** * Enumerators *)

(** The states that [check_out_enumerator_state] finds along [chained]. *)
Fixpoint linked (ens : gmap Z Enumerator) (o : option Z) (c : Chain) : Prop :=
  match c with
  | [] => o = None
  | (i, s) :: c => o = Some i /\ exists e s0, ens !! i = Some e /\ the_state e = Some s0 /\ s = checked_out e s0 /\ linked ens (chained e) c
  end.

(** The enumerator [i] is the head of the chain [c], which no call has checked out. *)
Record usable (st : EnSt W) (i : Z) (c : Chain) : Prop := {
  us_linked : linked (enumerators st) (Some i) c;
  us_nodup : NoDup c.*1;
  us_ready : all_ready (en_arrays st) c
}.

Lemma linked_known ens o c j : linked ens o c -> j ∈ c.*1 -> exists e, ens !! j = Some e.
Proof.
  revert o. induction c as [|[i s] c IH]; intros o Hl Hj; [by apply elem_of_nil in Hj|].
  destruct Hl as (_ & e & s0 & He & _ & _ & Hl). apply elem_of_cons in Hj as [->|Hj]; [by exists e|by eapply IH].
Qed.

Lemma linked_length ens o c : linked ens o c -> NoDup c.*1 -> (length c <= size ens)%nat.
Proof.
  intros Hl Hnd. rewrite <- (length_fmap fst), <- (size_list_to_set (C := gset Z)) by done. rewrite <- size_dom.
  apply subseteq_size. intros j Hj%elem_of_list_to_set. apply elem_of_dom. by destruct (linked_known _ _ _ _ Hl Hj) as [e ->].
Qed.

Lemma check_out_spec (ar : gmap Z (list Z)) (w : W) ens c : forall i fuel, linked ens (Some i) c -> NoDup c.*1 -> (length c <= fuel)%nat ->
  exists ens', check_out_enumerator_state fuel i (mk_en_st ens ar w) = Ok (Some c, mk_en_st ens' ar w) /\
    forall j, ens' !! j = if decide (j ∈ c.*1) then with_state None <$> ens !! j else ens !! j.
Proof.
  induction c as [|[i s] c IH]; intros i' fuel Hl Hnd Hf; [done|]. destruct Hl as ([= ->] & e & s0 & He & Hs0 & -> & Hl).
  apply NoDup_cons in Hnd as [Hi Hnd]. destruct fuel as [|fuel]; cbn [length] in Hf; [lia|]. cbn [check_out_enumerator_state].
  assert (exists o ens1, (match chained e with None => mret None | Some k => check_out_enumerator_state fuel k end) (mk_en_st ens ar w) =
      Ok (o, mk_en_st ens1 ar w) /\ default [] o = c /\ forall j, ens1 !! j = if decide (j ∈ c.*1) then with_state None <$> ens !! j else ens !! j)
    as (o & ens1 & E1 & Ho & Hens1).
  { destruct (chained e) as [k|].
    - destruct (IH k fuel Hl Hnd ltac:(lia)) as (ens1 & E1 & Hens1). by exists (Some c), ens1.
    - destruct c as [|[]]; [|by destruct Hl]. by exists None, ens. }
  exists (<[i := with_state None e]> ens1). split.
  - unfold mbind, SM_bind, enumerator_at at 1. cbn [enumerators]. rewrite He, E1. unfold enumerator_at. cbn [enumerators].
    rewrite Hens1, decide_False by done. rewrite He, Hs0, Ho. done.
  - intros j. cbn [fmap list_fmap fst]. destruct (decide (j = i)) as [->|Hne].
    + rewrite lookup_insert_eq, decide_True by (by left). by rewrite He.
    + rewrite lookup_insert_ne by done. rewrite Hens1. apply decide_ext. rewrite elem_of_cons. naive_solver.
Qed.

Lemma check_in_spec (ar : gmap Z (list Z)) (w : W) c : forall ens, NoDup c.*1 -> (forall j, j ∈ c.*1 -> exists e, ens !! j = Some e /\ the_state e = None) ->
  exists ens', check_in_enumerator_state c (mk_en_st ens ar w) = Ok (tt, mk_en_st ens' ar w) /\
    (forall j s, (j, s) ∈ c -> ens' !! j = with_state (Some s) <$> ens !! j) /\ (forall j, j ∉ c.*1 -> ens' !! j = ens !! j).
Proof.
  induction c as [|[i s] c IH]; intros ens Hnd Hk.
  { exists ens. split_and!; [done|by intros j s Hj; apply elem_of_nil in Hj|done]. }
  apply NoDup_cons in Hnd as [Hi Hnd]. destruct (Hk i) as (e & He & Hnone); [by left|].
  destruct (IH (<[i := with_state (Some s) e]> ens) Hnd) as (ens' & E & H1 & H2).
  { intros j Hj. assert (j <> i) by (intros ->; done). rewrite lookup_insert_ne by done. apply Hk. by right. }
  exists ens'. split_and!.
  - cbn [check_in_enumerator_state]. unfold mbind, SM_bind, enumerator_at. cbn [enumerators]. rewrite He, Hnone. exact E.
  - intros j s' [[= -> ->]|Hj]%elem_of_cons.
    + rewrite H2 by done. by rewrite lookup_insert_eq, He.
    + rewrite (H1 j s' Hj), lookup_insert_ne; [done|]. intros ->. apply Hi. by apply (list_elem_of_fmap_2 fst) in Hj.
  - intros j Hj. cbn in Hj. apply not_elem_of_cons in Hj as [Hne Hj]. rewrite H2 by done. by rewrite lookup_insert_ne.
Qed.

(** What was checked out once is not changed by being checked out again. *)
Lemma checked_out_again e s0 s : frame s = frame (checked_out e s0) -> checked_out e s = s.
Proof.
  unfold checked_out, frame. destruct (negb (en_attr_types e =? 0)); [|destruct (default_types (object_type e))]; cbn;
    intros [= E1 E2 E3 E4 E5 E6]; destruct s; cbn in *; by subst.
Qed.

Lemma kept_ids c' c : kept c' c -> c'.*1 = c.*1.
Proof. unfold kept. induction 1 as [|p q c' c [E _] _ IH]; [done|]. cbn. by rewrite E, IH. Qed.

Lemma relinked ens ens' c : forall o c', linked ens o c -> kept c' c ->
  (forall j s, (j, s) ∈ c' -> ens' !! j = with_state (Some s) <$> ens !! j) -> linked ens' o c'.
Proof.
  induction c as [|[i s] c IH]; intros o c' Hl Hk Hin; inversion Hk as [|[i' s'] ? c1 ? [E1 E2] Hk1]; subst; [done|].
  cbn [fst snd] in *. subst i'. destruct Hl as (-> & e & s0 & He & Hs0 & -> & Hl). split; [done|].
  exists (with_state (Some s') e), s'. split_and!.
  - rewrite (Hin i s') by (by left). by rewrite He.
  - done.
  - symmetry. by apply (checked_out_again _ s0).
  - apply (IH _ c1); [exact Hl|exact Hk1|]. intros j s1 Hj. apply Hin. by right.
Qed.

(** A call checks a chain out, works on it and checks it in. *)
Lemma checked_call st i c : usable st i c -> exists ens,
  check_out i st = Ok (Some c, mk_en_st ens (en_arrays st) (en_world st)) /\
  forall c' w', all_ready (en_arrays st) c' -> kept c' c -> exists st',
    check_in_enumerator_state c' (mk_en_st ens (en_arrays st) w') = Ok (tt, st') /\
    usable st' i c' /\ en_arrays st' = en_arrays st /\ en_world st' = w'.
Proof.
  intros [Hl Hnd Hr]. destruct st as [ens ar w]. cbn [enumerators en_arrays en_world] in *.
  destruct (check_out_spec ar w ens c i (S (size ens)) Hl Hnd) as (ens1 & E1 & Hens1).
  { pose proof (linked_length _ _ _ Hl Hnd). lia. }
  exists ens1. split; [exact E1|]. intros c' w' Hr' Hk.
  pose proof (kept_ids _ _ Hk) as Hids. destruct (check_in_spec ar w' c' ens1) as (ens2 & E2 & H1 & H2).
  { by rewrite Hids. }
  { intros j Hj. rewrite Hids in Hj. rewrite Hens1, decide_True by done. destruct (linked_known _ _ _ _ Hl Hj) as [e ->].
    by exists (with_state None e). }
  exists (mk_en_st ens2 ar w'). split_and!; [exact E2| |done|done].
  split; [|by cbn; rewrite Hids|done]. apply (relinked ens ens2 c); [done|done|]. intros j s Hj. rewrite (H1 j s Hj), Hens1.
  rewrite decide_True by (rewrite <- Hids; by apply (list_elem_of_fmap_2 fst) in Hj). by destruct (ens !! j).
Qed.

(** ** Next *)

(** After a call: what the enumerator has still to give. *)
Definition leaves (fuel0 : nat) (st : EnSt W) (i : Z) (l : list Object) (wf : W) : Prop :=
  exists c, usable st i c /\ ordered c /\ stream fuel0 (en_arrays st) c (en_world st) l wf.

Lemma next_n_spec fuel0 st i l wf max : leaves fuel0 st i l wf -> max = -1 \/ 0 < max <= G_MAXINT -> Zlen l < 2 ^ 31 ->
  exists N st', (forall fuel, (N <= fuel)%nat -> gck_enumerator_next_n fuel i max false st = Ok (take (Z.to_nat (how_many max)) l, st')) /\
    leaves fuel0 st' i (drop (Z.to_nat (how_many max)) l) wf.
Proof.
  intros (c & Hst & Ho & Hs) Hmax Hlen. destruct (checked_call st i c Hst) as (ens & Eout & Hin). pose proof (us_ready _ _ _ Hst) as Hr.
  set (want := how_many max). assert (0 < want <= G_MAXINT) as Hwant by (unfold want, how_many, G_MAXINT in *; case_match; lia).
  assert (negb ((max =? -1) || (0 <? max)) = false) as Harg.
  { destruct (Z.eqb_spec max (-1)), (Z.ltb_spec 0 max); try done; lia. }
  destruct (extract_loop_spec fuel0 (en_arrays st) wf (en_world st) (pending c) c want l ltac:(lia) Hr Ho Hs) as
    (c1 & Ex1 & Hr1 & Ho1 & Hs1 & Hk1 & Hp1). set (m := (Z.to_nat want `min` pending c)%nat) in *.
  destruct (decide (Z.to_nat want <= pending c)%nat) as [Henough|Hmore].
  - destruct (Hin c1 (en_world st) Hr1 Hk1) as (st' & Ein & Hst' & Har & Hw). exists 0%nat, st'. split.
    + intros fuel _. unfold gck_enumerator_next_n. rewrite Harg. unfold mbind, SM_bind. rewrite Eout. unfold extract_results. fold want.
      rewrite Ex1. replace (0 <? want - Z.of_nat m) with false by (symmetry; apply Z.ltb_ge; lia). cbn [andb].
      rewrite Ein. replace m with (Z.to_nat want) by lia. done.
    + exists c1. rewrite Har, Hw. split; [done|]. split; [done|]. replace m with (Z.to_nat want) in Hs1 by lia. exact Hs1.
  - assert (m = pending c) as Hm by lia. assert (pending c1 = 0%nat) as Hp0 by lia.
    assert (length (drop m l) = length l - m)%nat as Hdl by apply length_drop.
    destruct (perform_spec fuel0 (en_arrays st) wf ens c1 (en_world st) (want - Z.of_nat m) 0 (drop m l) Hr1 Ho1 Hs1) as
      (N & c2 & w2 & Hrun & Hr2 & Ho2 & Hs2 & Hk2 & Hp2); [lia|lia|lia|].
    destruct (extract_loop_spec fuel0 (en_arrays st) wf w2 (pending c2) c2 (want - Z.of_nat m) (drop m l) ltac:(lia) Hr2 Ho2 Hs2) as
      (c3 & Ex3 & Hr3 & Ho3 & Hs3 & Hk3 & _). set (n := (Z.to_nat (want - Z.of_nat m) `min` pending c2)%nat) in *.
    assert (kept c3 c) as Hkc by (eapply kept_trans; [exact Hk3|]; eapply kept_trans; [exact Hk2|exact Hk1]).
    destruct (Hin c3 w2 Hr3 Hkc) as (st' & Ein & Hst' & Har & Hw).
    pose proof (stream_length _ _ _ _ _ _ Hr2 Hs2) as Hpl.
    assert (take (Z.to_nat want) l = take m l ++ take n (drop m l) /\ drop (Z.to_nat want) l = drop n (drop m l)) as [Ht Hd].
    { rewrite drop_drop. destruct (decide (Z.to_nat want - m <= pending c2)%nat) as [Hle|Hgt].
      - replace (Z.to_nat want) with (m + n)%nat by lia. by rewrite take_take_drop.
      - rewrite (take_ge l (Z.to_nat want)), (drop_ge l (Z.to_nat want)) by lia.
        rewrite (take_ge (drop m l) n), (drop_ge l (m + n)) by lia. by rewrite take_drop. }
    exists N, st'. split.
    + intros fuel Hf. unfold gck_enumerator_next_n. rewrite Harg. unfold mbind, SM_bind. rewrite Eout. unfold extract_results at 1. fold want.
      rewrite Ex1. replace (0 <? want - Z.of_nat m) with true by (symmetry; apply Z.ltb_lt; lia). cbn [andb negb].
      rewrite Hrun by done. unfold extract_results. rewrite Ex3, Ein, Ht. done.
    + exists c3. rewrite Har, Hw, Hd. done.
Qed.
End Steps.
