(* ===== verification/EnumClient.v ===== *)
(** PKCS#11 enumerators: what a client gets.

    A client makes an enumerator for modules, sets the type of its objects and asks for
    them, a few at a time or one at a time.  What it gets are the objects that the loops of
    [EnumSpec] visit ([enumerate_refines]), also one by one, where NULL stands for an object
    that could not be read as well as for the end ([enumerate_all]); and every call ends
    ([enumerator_safe]), as modules keep to what PKCS#11 says of them ([Pkcs11Laws]). *)

From S2P Require Import Prelude StateM Attributes AttrStore Enumerator EnumSpec.
Local Open Scope Z_scope.

(** * A client *)

Section Client.
Context {W : Type} `{Pkcs11 W}.

Abbreviation ME := (SM (EnSt W)).

(** The attributes an enumerator reads of objects of this type. *)
Definition asked (type : Z) (types : option (list Z)) : list Z :=
  match types with Some (t :: ts) => t :: ts | _ => default [] (default_types type) end.

Definition open_enumerator (mods : list Z) (options : Z) (uri : UriData) (type : Z) (types : option (list Z)) : ME Z :=
  i ← _gck_enumerator_new_for_modules mods options uri;
  gck_enumerator_set_object_type_full i type types;;
  mret i.

(** A call of [gck_enumerator_next_n] for each number. *)
Fixpoint calls (fuel : nat) (i : Z) (maxes : list Z) : ME (list (list Object)) :=
  match maxes with
  | [] => mret []
  | max :: maxes => l ← gck_enumerator_next_n fuel i max false; ls ← calls fuel i maxes; mret (l :: ls)
  end.

(** So many calls of [gck_enumerator_next]. *)
Fixpoint nexts (fuel n : nat) (i : Z) : ME (list (option Object)) :=
  match n with
  | O => mret []
  | S n => o ← gck_enumerator_next fuel i false; l ← nexts fuel n i; mret (o :: l)
  end.

(** What is asked for, from the front. *)
Fixpoint portions {A} (maxes : list Z) (l : list A) : list (list A) :=
  match maxes with
  | [] => []
  | max :: maxes => let k := Z.to_nat (how_many max) in take k l :: portions maxes (drop k l)
  end.

Definition of_type (type : Z) (rs : list Result) : list Object := (fun x => (Some type, x)) <$> rs.

(** * A new enumerator *)

Lemma new_address_pos {A} (m : gmap Z A) : 0 < new_address m.
Proof. apply new_address_fresh. Qed.

(** What the functions that make an enumerator leave behind. *)
Lemma wp_enumerator_at (Q : Enumerator -> EnSt W -> Prop) i e st : enumerators st !! i = Some e -> Q e st -> wp (enumerator_at i) Q st.
Proof. unfold wp, enumerator_at. by intros ->. Qed.

Lemma wp_put_enumerator (Q : unit -> EnSt W -> Prop) i e ens ar w :
  Q tt (mk_en_st (<[i := e]> ens) ar w) -> wp (put_enumerator i e) Q (mk_en_st ens ar w).
Proof. intros HQ. exact HQ. Qed.

Definition opened (mods : list Z) (options : Z) (uri : UriData) (type : Z) (types : option (list Z)) (w : W) (i : Z) (st : EnSt W) : Prop :=
  en_world st = w /\ exists e, enumerators st !! i = Some e /\ the_state e = Some (new_state state_modules mods [] options uri) /\
    chained e = None /\ en_interaction e = None /\ object_type e = type /\
    match types with
    | Some (t :: ts) => en_attr_types e <> 0 /\ en_arrays st !! en_attr_types e = Some (t :: ts) /\ en_attr_count e = Zlen (t :: ts)
    | _ => en_attr_types e = 0
    end.

Lemma open_spec st mods options uri type types : is_object_type type = true ->
  wp (open_enumerator mods options uri type types) (opened mods options uri type types (en_world st)) st.
Proof.
  intros Hty. destruct st as [ens ar w]. unfold open_enumerator, _gck_enumerator_new_for_modules, new_enumerator, gck_enumerator_set_object_type_full.
  rewrite Hty. do 3 step_core. cbn [enumerators en_world]. set (i := new_address ens). step_core. apply wp_put_enumerator. step_core. step_core.
  cbn [negb]. step_core. eapply wp_enumerator_at; [apply lookup_insert_eq|]. do 4 step_core. cbn [en_arrays en_attr_types].
  pose proof (new_address_pos (delete 0 ar)) as Hpos. set (a := new_address (delete 0 ar)) in *.
  destruct types as [[|t ts]|]; cbn [enumerators en_arrays en_world]; [|do 2 step_core; cbn [enumerators en_arrays en_world]|];
    apply wp_put_enumerator; step_core; (split; [done|]); eexists; (split; [apply lookup_insert_eq|]); cbn; [done| |done].
  rewrite lookup_insert_eq. split_and!; try done. lia.
Qed.

Lemma open_usable st mods options uri type types : is_object_type type = true ->
  exists i s st', open_enumerator mods options uri type types st = Ok (i, st') /\ usable st' i [(i, s)] /\
    en_world st' = en_world st /\ types_of (en_arrays st') s = Some (asked type types) /\
    cfg_of (asked type types) s = mk_cfg uri options None (asked type types) /\ object_class s = Some type /\
    results_of s = [] /\ handler s = state_modules /\ modules s = mods.
Proof.
  intros Hty. destruct (wp_run _ _ _ (open_spec st mods options uri type types Hty)) as (i & st' & E & Hw & e & He & Hs & Hc & Hi & Ht & Hat).
  set (s := checked_out e (new_state state_modules mods [] options uri)). exists i, s, st'.
  assert (types_of (en_arrays st') s = Some (asked type types) /\ cfg_of (asked type types) s = mk_cfg uri options None (asked type types) /\
          object_class s = Some type /\ placed s /\ results_of s = [] /\ handler s = state_modules /\ modules s = mods)
    as (Htypes & Hcfg & Hcl & Hpl & Hres & Hh & Hm).
  { unfold s, checked_out, types_of. destruct types as [[|t ts]|];
      [rewrite Hat|destruct Hat as (Hne & Har & Hcount); rewrite (proj2 (Z.eqb_neq _ _) Hne)|rewrite Hat];
      unfold cfg_of; cbn -[default_types length asked]; rewrite Hi, Ht.
    1,3: destruct (default_types type) as [l|] eqn:El; cbn -[default_types]; rewrite ?El; cbn; rewrite ?slice_all; by split_and!.
    rewrite Har, Hcount. split_and!; try done. apply slice_all. }
  split; [exact E|]. split; [|by split_and!]. split; [|apply NoDup_singleton|].
  - split; [done|]. exists e, (new_state state_modules mods [] options uri). by rewrite Hc.
  - constructor; [|constructor]. exists (asked type types). split; [done|by exists type|done].
Qed.

(** It has everything still to give. *)
Lemma open_leaves st mods options uri type types fuel0 rs wf : is_object_type type = true ->
  visit_modules fuel0 (mk_cfg uri options None (asked type types)) mods (en_world st) = Ok (Some <$> rs, wf) ->
  exists i st', open_enumerator mods options uri type types st = Ok (i, st') /\ leaves fuel0 st' i (of_type type rs) wf.
Proof.
  intros Hty Hvisit. destruct (open_usable st mods options uri type types Hty) as (i & s & st' & E & Hu & Hw & Htypes & Hcfg & Hcl & Hres & Hh & Hm).
  exists i, st'. split; [exact E|]. exists [(i, s)]. split; [exact Hu|]. split; [by split; [right|]|].
  assert (of_type type rs = (tagged s <$> (results_of s ++ rs)) ++ []) as ->.
  { rewrite Hres, app_nil_r. unfold of_type, tagged. by rewrite Hcl. }
  eapply stream_intro; [exact Htypes| |done]. unfold rest. rewrite Hh, Hm, Hw, Hcfg. exact Hvisit.
Qed.

(** Chaining one enumerator to another. *)
Lemma linked_elsewhere ens i e c : forall o, linked ens o c -> i ∉ c.*1 -> linked (<[i := e]> ens) o c.
Proof.
  induction c as [|[j s] c IH]; intros o Hl Hi; [done|]. cbn in Hi. apply not_elem_of_cons in Hi as [Hij Hi].
  destruct Hl as (-> & e' & s0 & He & Hs & Hc & Hl). split; [done|]. exists e', s0. rewrite lookup_insert_ne by done. auto.
Qed.

Lemma chain_usable st i s j c : usable st i [(i, s)] -> usable st j c -> i ∉ c.*1 ->
  exists st', gck_enumerator_set_chained i (Some j) st = Ok (tt, st') /\ usable st' i ((i, s) :: c).
Proof.
  intros [(_ & e & s0 & He & Hs0 & -> & _) _ Hri] [Hl Hnd Hr] Hi. destruct st as [ens ar w]. cbn [enumerators en_arrays] in *.
  exists (mk_en_st (<[i := with_chained (Some j) e]> ens) ar w). split.
  { unfold gck_enumerator_set_chained, enumerator_at, mbind, SM_bind. cbn [enumerators]. by rewrite He. }
  split; cbn [enumerators en_arrays].
  - split; [done|]. exists (with_chained (Some j) e), s0. rewrite lookup_insert_eq. split_and!; [done|done|done|]. by apply linked_elsewhere.
  - cbn. by apply NoDup_cons.
  - apply Forall_cons in Hri as [Hri _]. by constructor.
Qed.

(** * Calls *)

Lemma calls_spec fuel0 wf maxes : forall st i l, leaves fuel0 st i l wf -> Forall (fun max => max = -1 \/ 0 < max <= G_MAXINT) maxes -> Zlen l < 2 ^ 31 ->
  exists N st', forall fuel, (N <= fuel)%nat -> calls fuel i maxes st = Ok (portions maxes l, st').
Proof.
  induction maxes as [|max maxes IH]; intros st i l Hl Hmax Hlen; [by exists 0%nat, st|]. apply Forall_cons in Hmax as [Hm Hmax].
  destruct (next_n_spec fuel0 st i l wf max Hl Hm Hlen) as (N1 & st1 & Hcall & Hl1).
  destruct (IH st1 i (drop (Z.to_nat (how_many max)) l) Hl1 Hmax) as (N2 & st2 & Hcalls); [rewrite length_drop; lia|].
  exists (Nat.max N1 N2), st2. intros fuel Hf. cbn [calls portions]. unfold mbind, SM_bind. rewrite Hcall, Hcalls by lia. done.
Qed.

(** ** One at a time *)

(** An enumerator that is not chained, and holds no results, with what it will visit. *)
Definition waits (fuel0 : nat) (type : Z) (st : EnSt W) (i : Z) (l : list (option Result)) (wf : W) : Prop :=
  exists s types, usable st i [(i, s)] /\ types_of (en_arrays st) s = Some types /\ object_class s = Some type /\ results_of s = [] /\
    rest fuel0 types s (en_world st) = Ok (l, wf).

Definition object_of (type : Z) (x : option Result) : option Object := (fun r => (Some type, r)) <$> x.

(** A run for one object visits one, if there is one left. *)
Lemma run_one fuel0 types ar s w l wf : ready types ar s -> results_of s = [] -> rest fuel0 types s w = Ok (l, wf) ->
  exists N s' w', (forall fuel, (N <= fuel)%nat -> run_loop fuel fuel (mk_run (set_want 1 s) ar w) = Ok (tt, mk_run s' ar w')) /\
    ready types ar s' /\ frame s' = frame s /\ results_of s' = option_list (mjoin (head l)) /\ rest fuel0 types s' w' = Ok (tail l, wf).
Proof.
  intros Hr Hres Hrest. assert (ready types ar (set_want 1 s)) as Hr1 by (eapply ready_frame; [exact Hr|done|apply Hr]).
  destruct (ran_at fuel0 types ar (set_want 1 s) l wf w Hr1 ltac:(cbn; lia) Hrest) as
    (N & [s' ar' w'] & (Har & Hset & Hr2 & out & l' & -> & Hout & Hrest2 & Hend & Hone) & Hrun).
  cbn [args arrays world] in *. subst ar'. change (results_of (set_want 1 s)) with (results_of s) in Hout. rewrite Hres in Hout. specialize (Hone eq_refl).
  exists N, s', w'. split; [exact Hrun|]. split; [exact Hr2|]. split; [exact (setup_frame s' (set_want 1 s) Hset)|].
  destruct out as [|x [|y out]]; [|cbn [app head tail]|cbn [length] in Hone; lia].
  - destruct Hend as [[_ ->]|Hw]; [done|cbn in Hw; lia].
  - split; [|exact Hrest2]. rewrite Hout. by destruct x.
Qed.

Lemma next_one fuel0 type st i l wf : waits fuel0 type st i l wf -> exists N st',
  (forall fuel, (N <= fuel)%nat -> gck_enumerator_next fuel i false st = Ok (object_of type (mjoin (head l)), st')) /\ waits fuel0 type st' i (tail l) wf.
Proof.
  intros (s & types & Hst & Htypes & Hcl & Hres & Hrest). destruct (checked_call st i _ Hst) as (ens & Eout & Hin).
  assert (ready types (en_arrays st) s) as Hr.
  { pose proof (us_ready _ _ _ Hst) as Hr. apply Forall_cons in Hr as [[types' Hr] _]. cbn [snd] in Hr. pose proof (r_types _ _ _ Hr). by simplify_eq. }
  destruct (run_one fuel0 types (en_arrays st) s (en_world st) l wf Hr Hres Hrest) as (N & s' & w' & Hrun & Hr' & Hfr & Hres' & Hrest').
  set (s2 := match mjoin (head l) with Some _ => set_results (Some []) s' | None => s' end).
  assert (frame s2 = frame s) as Hfr2 by (unfold s2; by destruct (mjoin (head l))).
  assert (ready types (en_arrays st) s2) as Hr2 by (eapply ready_frame; [exact Hr'|by rewrite Hfr2, Hfr|unfold s2; destruct (mjoin (head l)); apply Hr']).
  destruct (Hin [(i, s2)] w') as (st' & Ein & Hst' & Har & Hw).
  { constructor; [by exists types|constructor]. }
  { constructor; [done|constructor]. }
  assert (object_class s' = Some type) as Hcl' by (rewrite <- Hcl; by injection Hfr).
  assert (extract_result [(i, s')] = (object_of type (mjoin (head l)), [(i, s2)])) as Ex.
  { unfold s2. cbn [extract_result]. rewrite Hres', Hcl'. by destruct (mjoin (head l)). }
  exists N, st'. split.
  - intros fuel Hf. unfold gck_enumerator_next, mbind, SM_bind. rewrite Eout. cbn [extract_result]. rewrite Hres. cbn [perform_enumerate_next].
    unfold mbind, SM_bind, on_state. cbn [en_arrays en_world]. rewrite Z.sub_0_r, Hrun by done. cbn [args arrays world enumerators].
    assert (s32 (0 + Zlen (results_of s')) = Zlen (results_of s')) as -> by (rewrite Hres'; apply s32_small; destruct (mjoin (head l)); cbn; lia).
    destruct (1 <=? Zlen (results_of s')); cbn [mret SM_ret]; by rewrite Ex, Ein.
  - exists s2, types. rewrite Har, Hw. split_and!; [done|apply Hr2|by rewrite <- Hcl; injection Hfr2|by unfold s2; revert Hres'; destruct (mjoin (head l))|].
    rewrite <- Hrest'. unfold s2. by destruct (mjoin (head l)).
Qed.

(** The objects of the first calls: NULL for one that could not be read, and after the last. *)
Definition one_by_one (type : Z) (n : nat) (l : list (option Result)) : list (option Object) :=
  (fun k => object_of type (mjoin (l !! k))) <$> seq 0 n.

Lemma nexts_spec fuel0 type wf n : forall l st i, waits fuel0 type st i l wf -> exists N st', forall fuel, (N <= fuel)%nat ->
  nexts fuel n i st = Ok (one_by_one type n l, st').
Proof.
  induction n as [|n IH]; intros l st i Hw; [by exists 0%nat, st|]. destruct (next_one _ _ _ _ _ _ Hw) as (N1 & st1 & Hcall & Hw1).
  destruct (IH _ _ _ Hw1) as (N2 & st2 & Hcalls). exists (Nat.max N1 N2), st2. intros fuel Hf. cbn [nexts]. unfold mbind, SM_bind.
  rewrite Hcall, Hcalls by lia. cbn [mret SM_ret]. unfold one_by_one. cbn [seq fmap list_fmap]. rewrite <- fmap_S_seq, <- list_fmap_compose.
  assert (forall k, mjoin (tail l !! k) = mjoin (l !! S k)) as Ht by by destruct l. assert (mjoin (head l) = mjoin (l !! 0%nat)) as -> by by destruct l.
  unfold mret, SM_ret. do 3 f_equal. apply list_fmap_ext. intros k k' _. unfold compose. by rewrite Ht.
Qed.

(** A new enumerator waits for all of it. *)
Lemma open_waits st mods options uri type types fuel0 l wf : is_object_type type = true ->
  visit_modules fuel0 (mk_cfg uri options None (asked type types)) mods (en_world st) = Ok (l, wf) ->
  exists i st', open_enumerator mods options uri type types st = Ok (i, st') /\ waits fuel0 type st' i l wf.
Proof.
  intros Hty Hvisit. destruct (open_usable st mods options uri type types Hty) as (i & s & st' & E & Hu & Hw & Htypes & Hcfg & Hcl & Hres & Hh & Hm).
  exists i, st'. split; [exact E|]. exists s, (asked type types). split_and!; [done|done|done|done|]. unfold rest. by rewrite Hh, Hm, Hw, Hcfg.
Qed.
End Client.

(** * Modules that keep to PKCS#11 *)

(** The handle of an open session is not CK_INVALID_HANDLE, which is zero, and a search comes
    to an end: it gives each of the objects found once, and so many of them are left. *)
Class Pkcs11Laws (W : Type) `{Pkcs11 W} := {
  remaining : W -> nat;
  find_progress id n w objects w' : C_FindObjects id n w = ((CKR_OK, objects), w') -> objects <> [] -> (remaining w' < remaining w)%nat;
  session_handle x rw w id w' : C_OpenSession x rw w = ((CKR_OK, id), w') -> id <> 0
}.

(** A module that tells what it is whenever it is asked. *)
Definition informs {W : Type} `{Pkcs11 W} (m : Z) : Prop := forall w, rv_ok (C_GetInfo m w).1 = true.

Section Total.
Context {W : Type} `{Laws : Pkcs11Laws W}.

(** With enough fuel, always the same result, of which [P] holds. *)
Definition ends {A} (m : nat -> SM W A) (P : A -> Prop) : Prop :=
  forall w, exists k a w', P a /\ forall k', (k <= k')%nat -> m k' w = Ok (a, w').

Lemma ends_const {A} (m : SM W A) (P : A -> Prop) : (forall w, exists a w', P a /\ m w = Ok (a, w')) -> ends (fun _ => m) P.
Proof. intros Hm w. destruct (Hm w) as (a & w' & HP & E). by exists 0%nat, a, w'. Qed.

Lemma ends_ret {A} (a : A) (P : A -> Prop) : P a -> ends (fun _ => mret a) P.
Proof. intros HP. apply ends_const. intros w. by exists a, w. Qed.

Lemma ends_call {A} (f : W -> A * W) (P : A -> Prop) : (forall w, P (f w).1) -> ends (fun _ => wcall f) P.
Proof. intros HP. apply ends_const. intros w. unfold wcall. specialize (HP w). destruct (f w) as [a w']. by exists a, w'. Qed.

Lemma ends_bind {A B} (m : nat -> SM W A) (f : nat -> A -> SM W B) (P : A -> Prop) (Q : B -> Prop) :
  ends m P -> (forall a, P a -> ends (fun k => f k a) Q) -> ends (fun k => m k ≫= f k) Q.
Proof.
  intros Hm Hf w. destruct (Hm w) as (k1 & a & w1 & HP & E1). destruct (Hf a HP w1) as (k2 & b & w2 & HQ & E2).
  exists (Nat.max k1 k2), b, w2. split; [done|]. intros k Hk. unfold mbind, SM_bind. rewrite E1 by lia. apply E2. lia.
Qed.

Lemma ends_mono {A} (m : nat -> SM W A) (P Q : A -> Prop) : ends m P -> (forall a, P a -> Q a) -> ends m Q.
Proof. intros Hm HPQ w. destruct (Hm w) as (k & a & w' & HP & E). exists k, a, w'. auto. Qed.

Lemma find_all_ends id : ends (fun k => find_all k id) (fun _ => True).
Proof.
  intros w. remember (remaining w) as n eqn:Hn. revert w Hn. induction n as [n IH] using lt_wf_ind. intros w Hn.
  destruct (C_FindObjects id 128 w) as [[rv objects] w1] eqn:E.
  destruct (negb (rv_ok rv) || (Zlen objects =? 0)) eqn:Hstop.
  - exists 1%nat, [], w1. split; [done|]. intros [|k] Hk; [lia|]. cbn [find_all]. unfold mbind, SM_bind, wcall. by rewrite E, Hstop.
  - apply orb_false_iff in Hstop as [Hrv Ho]. destruct rv; try done.
    assert (remaining w1 < remaining w)%nat as Hlt by (eapply find_progress; [exact E|by intros ->]).
    destruct (IH (remaining w1) ltac:(lia) w1 eq_refl) as (k & l & w2 & _ & E2). exists (S k), (objects ++ l), w2. split; [done|].
    intros [|k'] Hk; [lia|]. cbn [find_all]. unfold mbind, SM_bind, wcall. rewrite E. cbn [rv_ok negb orb]. rewrite Ho, E2 by lia. done.
Qed.

(** ** The plain loops end *)

Lemma get_attributes_ends id h types : ends (fun _ => get_attributes id h types) (fun _ => True).
Proof.
  apply ends_const. intros w. unfold get_attributes, mbind, SM_bind, wcall.
  destruct (C_GetAttributeValue id h (prepared types) w) as [[rv l] w1].
  destruct (GCK_IS_GET_ATTRIBUTE_RV_OK rv) eqn:Hrv; [|cbn [mret SM_ret]; rewrite Hrv; by eexists _, _].
  destruct (C_GetAttributeValue id h (committed types l) w1) as [[rv2 l2] w2]. destruct (GCK_IS_GET_ATTRIBUTE_RV_OK rv2); by eexists _, _.
Qed.

Section Visits.
Context (c : Cfg).

Abbreviation any := (fun _ => True).

Lemma andthen_ends (m n : nat -> SM W (list (option Result))) : ends m any -> ends n any -> ends (fun k => andthen (m k) (n k)) any.
Proof.
  intros Hm Hn. unfold andthen. eapply ends_bind; [exact Hm|]. intros l _. eapply ends_bind; [exact Hn|]. intros l' _. by apply ends_ret.
Qed.

Lemma find_objects_ends id : ends (fun k => find_objects k c id) (fun _ => True).
Proof.
  unfold find_objects. eapply ends_bind; [by apply (ends_call _ (fun _ => True))|]. intros rv _. destruct (rv_ok rv); [|by apply ends_ret].
  eapply ends_bind; [apply find_all_ends|]. intros l _. eapply ends_bind; [by apply (ends_call _ (fun _ => True))|]. intros u _. by apply ends_ret.
Qed.

Lemma visit_object_ends id h : ends (fun _ => visit_object c id h) any.
Proof.
  unfold visit_object. destruct (c_types c) as [|ty tys]; [by apply ends_ret|]. eapply ends_bind; [apply get_attributes_ends|]. intros a _. by apply ends_ret.
Qed.

Lemma visit_objects_ends id hs : ends (fun _ => visit_objects c id hs) any.
Proof.
  induction hs as [|h hs IH]; cbn [visit_objects]; [by apply ends_ret|]. eapply ends_bind; [apply visit_object_ends|]. intros x _.
  eapply ends_bind; [exact IH|]. intros l _. by apply ends_ret.
Qed.

Lemma visit_found_ends id : ends (fun k => visit_found k c id) any.
Proof. unfold visit_found. eapply ends_bind; [apply find_objects_ends|]. intros hs _. apply visit_objects_ends. Qed.

Lemma visit_session_ends x id : ends (fun k => visit_session k c x id) any.
Proof.
  unfold visit_session. eapply (ends_bind _ _ (fun _ => True)); [|intros u _; apply visit_found_ends].
  case_match; [by apply ends_ret|]. eapply ends_bind; [by apply (ends_call _ (fun _ => True))|]. intros rv _. by apply ends_ret.
Qed.

Lemma visit_slot_ends x : ends (fun k => visit_slot k c x) any.
Proof.
  intros w. unfold visit_slot.
  destruct (C_OpenSession x (Z.land (c_options c) GCK_SESSION_READ_WRITE =? GCK_SESSION_READ_WRITE) w) as [[rv id] w1] eqn:E.
  destruct (rv_ok rv) eqn:Hrv.
  - destruct rv; try done. pose proof (session_handle _ _ _ _ _ E) as Hid. destruct (visit_session_ends x id w1) as (k & l & w2 & Hl & E2).
    exists k, l, w2. split; [done|]. intros k' Hk. unfold mbind, SM_bind, wcall. rewrite E. cbn [rv_ok].
    rewrite (proj2 (Z.eqb_neq _ _) Hid). cbn [negb m_assert]. by apply E2.
  - exists 0%nat, [], w1. split; [done|]. intros k' Hk. unfold mbind, SM_bind, wcall. by rewrite E, Hrv.
Qed.

Lemma visit_slots_ends ss : ends (fun k => visit_slots k c ss) any.
Proof.
  induction ss as [|x ss IH]; cbn [visit_slots]; [by apply ends_ret|]. apply andthen_ends; [|exact IH].
  unfold visit_token. eapply ends_bind; [by apply (ends_call _ (fun _ => True))|]. intros [t|] _; [|by apply ends_ret].
  destruct (wanted (c_uri c) t); [apply visit_slot_ends|by apply ends_ret].
Qed.

Lemma get_slots_ends m b : ends (fun _ => gck_module_get_slots m b) (fun _ => True).
Proof.
  unfold gck_module_get_slots. eapply ends_bind; [by apply (ends_call _ (fun _ => True))|]. intros [[rv ids] n] _.
  destruct (negb (rv_ok rv)); [by apply ends_ret|]. destruct (n =? 0); [by apply ends_ret|].
  eapply ends_bind; [by apply (ends_call _ (fun _ => True))|]. intros [[rv' ids'] n'] _. destruct (negb (rv_ok rv')); by apply ends_ret.
Qed.

Lemma get_info_ends m : informs m -> ends (fun _ => gck_module_get_info m) (fun b => b = true).
Proof.
  intros Hm. unfold gck_module_get_info. eapply ends_bind; [apply (ends_call _ (fun rv => rv_ok rv = true)); apply Hm|]. intros rv Hrv. by apply ends_ret.
Qed.

Lemma visit_modules_ends ms : Forall informs ms -> ends (fun k => visit_modules k c ms) any.
Proof.
  induction 1 as [|m ms Hm _ IH]; cbn [visit_modules]; [by apply ends_ret|]. eapply ends_bind; [apply get_slots_ends|]. intros ss _.
  eapply ends_bind; [by apply get_info_ends|]. intros b ->. eapply (ends_bind _ _ (fun _ => True)); [by apply ends_const; intros w; exists tt, w|].
  intros u _. apply andthen_ends; [apply visit_slots_ends|exact IH].
Qed.
End Visits.

Section Informed.
Context (Hinfo : forall m, informs m).

(** What is left to do from any state ends too. *)
Lemma rest_ends types ar s : ready types ar s -> ends (fun k => rest k types s) (fun _ => True).
Proof.
  intros Hr. assert (forall ms, Forall informs ms) as Hall by (intros ms; by apply Forall_forall). set (c := cfg_of types s).
  assert (ends (fun k => later k c s) (fun _ => True)) as Hlater by (apply andthen_ends; [apply visit_slots_ends|by apply visit_modules_ends]).
  unfold rest. fold c. destruct (handler s).
  - by apply visit_modules_ends.
  - exact Hlater.
  - apply andthen_ends; [apply visit_slot_ends|exact Hlater].
  - apply andthen_ends; [apply visit_session_ends|exact Hlater].
  - apply andthen_ends; [apply visit_found_ends|exact Hlater].
  - apply andthen_ends; [apply visit_objects_ends|exact Hlater].
Qed.

(** * Every call ends *)

Lemma perform_safe ar ens c : forall w want count, all_ready ar c -> count < want ->
  exists N c' w', (forall fuel, (N <= fuel)%nat -> perform_enumerate_next fuel c want count (mk_en_st ens ar w) = Ok (c', mk_en_st ens ar w')) /\
    all_ready ar c' /\ kept c' c.
Proof.
  induction c as [|[i s] c IH]; intros w want count Hr Hcw; [exists 0%nat, [], w; split_and!; [done|done|constructor]|].
  apply Forall_cons in Hr as [[types Hr] Hrc]. cbn [snd] in Hr. set (s1 := set_want (want - count) s).
  assert (ready types ar s1) as Hr1 by (eapply ready_frame; [exact Hr|done|apply Hr]).
  destruct (rest_ends types ar s1 Hr1 w) as (fuel0 & l & wf & _ & Hrest). specialize (Hrest fuel0 (le_n _)).
  destruct (ran_at fuel0 types ar s1 l wf w Hr1 ltac:(cbn; lia) Hrest) as (N1 & [s2 ar2 w2] & (Har & Hset & Hr2 & _) & Hrun).
  cbn [args arrays world] in *. subst ar2. assert (frame s2 = frame s) as Hfr by exact (setup_frame s2 s1 Hset).
  set (count' := s32 (count + Zlen (results_of s2))). destruct (want <=? count') eqn:Henough.
  - exists N1, ((i, s2) :: c), w2. split.
    { intros fuel Hf. cbn [perform_enumerate_next]. unfold mbind, SM_bind, on_state. cbn [en_arrays en_world]. fold s1. rewrite Hrun by done.
      cbn [args arrays world enumerators]. fold count'. by rewrite Henough. }
    split; [constructor; [by exists types|done]|]. constructor; [done|apply kept_refl].
  - apply Z.leb_gt in Henough. destruct (IH w2 want count' Hrc Henough) as (N2 & c' & w3 & Hrun2 & Hrc' & Hkc).
    exists (Nat.max N1 N2), ((i, s2) :: c'), w3. split.
    { intros fuel Hf. cbn [perform_enumerate_next]. unfold mbind, SM_bind, on_state. cbn [en_arrays en_world]. fold s1. rewrite Hrun by lia.
      cbn [args arrays world enumerators]. fold count'. rewrite (proj2 (Z.leb_gt _ _) Henough). by rewrite Hrun2 by lia. }
    split; [constructor; [by exists types|done]|]. by constructor.
Qed.

Lemma extract_safe ar c : forall o c', all_ready ar c -> extract_result c = (o, c') -> all_ready ar c' /\ kept c' c.
Proof.
  induction c as [|[i s] c IH]; intros o c' Hr E; cbn [extract_result] in E; [injection E as _ <-; split; [done|constructor]|].
  apply Forall_cons in Hr as [[types Hr] Hrc]. cbn [snd] in Hr. destruct (results_of s) as [|x xs].
  - destruct (extract_result c) as [o1 c1]. destruct (IH _ _ Hrc eq_refl) as [H1 H2]. injection E as _ <-.
    split; [constructor; [by exists types|done]|by constructor].
  - injection E as _ <-. split; [|by constructor; [|apply kept_refl]]. constructor; [|done]. exists types.
    eapply ready_frame; [exact Hr|done|apply Hr].
Qed.

Lemma extract_loop_safe ar n : forall c want l want' c', all_ready ar c -> extract_loop n c want = (l, want', c') -> all_ready ar c' /\ kept c' c.
Proof.
  induction n as [|n IH]; intros c want l want' c' Hr E; cbn [extract_loop] in E;
    (destruct (want <=? 0); [injection E as _ _ <-; split; [done|apply kept_refl]|]);
    destruct (extract_result c) as [o c1] eqn:Ex; destruct (extract_safe ar c _ _ Hr Ex) as [Hr1 Hk1];
    (destruct o as [o|]; [|by injection E as _ _ <-]); [by injection E as _ _ <-|].
  destruct (extract_loop n c1 (want - 1)) as [[l2 w2] c2] eqn:E2. destruct (IH _ _ _ _ _ Hr1 E2) as [Hr2 Hk2].
  injection E as _ _ <-. split; [done|]. by eapply kept_trans.
Qed.

(** A request of a client. *)
Inductive Request := Next (cancelled : bool) | NextN (max_objects : Z) (cancelled : bool).

Definition request (fuel : nat) (i : Z) (r : Request) : SM (EnSt W) (list Object) :=
  match r with
  | Next cancelled => o ← gck_enumerator_next fuel i cancelled; mret (option_list o)
  | NextN max cancelled => gck_enumerator_next_n fuel i max cancelled
  end.

(** With enough fuel the request is answered, and the enumerator is as good as before. *)
Definition answered (st : EnSt W) (i : Z) (c : Chain) (m : nat -> SM (EnSt W) (list Object)) : Prop :=
  exists N l st' c', (forall fuel, (N <= fuel)%nat -> m fuel st = Ok (l, st')) /\ usable st' i c' /\ kept c' c.

(** The end of a call: what it worked on is checked in, or first more is found and taken. *)
Lemma check_in_answered st i c ens c1 w1 l m : usable st i c ->
  (forall c' w', all_ready (en_arrays st) c' -> kept c' c -> exists st',
    check_in_enumerator_state c' (mk_en_st ens (en_arrays st) w') = Ok (tt, st') /\
    usable st' i c' /\ en_arrays st' = en_arrays st /\ en_world st' = w') ->
  all_ready (en_arrays st) c1 -> kept c1 c ->
  (exists N, forall fuel, (N <= fuel)%nat -> m fuel st = (check_in_enumerator_state c1;; mret l) (mk_en_st ens (en_arrays st) w1)) ->
  answered st i c m.
Proof.
  intros Hst Hin Hr1 Hk1 [N Hm]. destruct (Hin c1 w1 Hr1 Hk1) as (st' & Ein & Hst' & _ & _).
  exists N, l, st', c1. split; [|done]. intros fuel Hf. rewrite Hm by done. unfold mbind, SM_bind. by rewrite Ein.
Qed.

Lemma next_answered st i c cancelled : usable st i c -> answered st i c (fun fuel => request fuel i (Next cancelled)).
Proof.
  intros Hst. destruct (checked_call st i c Hst) as (ens & Eout & Hin). pose proof (us_ready _ _ _ Hst) as Hr.
  destruct (extract_result c) as [o c1] eqn:Ex. destruct (extract_safe _ _ _ _ Hr Ex) as [Hr1 Hk1].
  destruct (decide (o = None /\ cancelled = false)) as [[-> ->]|Hdone].
  - destruct (perform_safe (en_arrays st) ens c1 (en_world st) 1 0 Hr1 ltac:(lia)) as (N & c2 & w2 & Hrun & Hr2 & Hk2).
    destruct (extract_result c2) as [o c3] eqn:Ex3. destruct (extract_safe _ _ _ _ Hr2 Ex3) as [Hr3 Hk3].
    eapply (check_in_answered st i c ens c3 w2 (option_list o)); [done|exact Hin|done|by eapply kept_trans, kept_trans|].
    exists N. intros fuel Hf. unfold request, gck_enumerator_next, mbind, SM_bind. rewrite Eout, Ex, Hrun, Ex3 by done.
    by destruct (check_in_enumerator_state _ _) as [[[] ?]| |].
  - eapply (check_in_answered st i c ens c1 (en_world st) (option_list o)); [done|exact Hin|done|done|].
    exists 0%nat. intros fuel _. unfold request, gck_enumerator_next, mbind, SM_bind. rewrite Eout, Ex.
    destruct o as [o|]; [|destruct cancelled; [|naive_solver]]; by destruct (check_in_enumerator_state _ _) as [[[] ?]| |].
Qed.

Lemma next_n_answered st i c max cancelled : usable st i c -> answered st i c (fun fuel => request fuel i (NextN max cancelled)).
Proof.
  intros Hst. unfold request, gck_enumerator_next_n. destruct (negb _).
  { exists 0%nat, [], st, c. split; [done|]. split; [done|apply kept_refl]. }
  destruct (checked_call st i c Hst) as (ens & Eout & Hin). pose proof (us_ready _ _ _ Hst) as Hr.
  destruct (extract_results c (how_many max)) as [[l want] c1] eqn:Ex. destruct (extract_loop_safe _ _ _ _ _ _ _ Hr Ex) as [Hr1 Hk1].
  destruct ((0 <? want) && negb cancelled) eqn:Hmore.
  - apply andb_true_iff in Hmore as [Hw%Z.ltb_lt Hc].
    destruct (perform_safe (en_arrays st) ens c1 (en_world st) want 0 Hr1 Hw) as (N & c2 & w2 & Hrun & Hr2 & Hk2).
    destruct (extract_results c2 want) as [[l2 want2] c3] eqn:Ex3. destruct (extract_loop_safe _ _ _ _ _ _ _ Hr2 Ex3) as [Hr3 Hk3].
    eapply (check_in_answered st i c ens c3 w2 (l ++ l2)); [done|exact Hin|done|by eapply kept_trans, kept_trans|].
    exists N. intros fuel Hf. unfold mbind, SM_bind. rewrite Eout, Ex, (proj2 (Z.ltb_lt _ _) Hw), Hc. cbn [andb].
    by rewrite Hrun, Ex3 by done.
  - eapply (check_in_answered st i c ens c1 (en_world st) l); [done|exact Hin|done|done|].
    exists 0%nat. intros fuel _. unfold mbind, SM_bind. by rewrite Eout, Ex, Hmore.
Qed.
End Informed.
End Total.

(** * What a client gets *)

(** C3: an enumerator that is made for modules gives, a portion for each call of
    [gck_enumerator_next_n], the objects that three plain nested loops over the modules,
    their slots and the objects found in each visit: the same objects in the same order,
    none twice and none left out, each with the attributes that were asked for; and it
    calls the modules only as those loops do. *)
Theorem enumerate_refines {W : Type} `{Pkcs11 W} st mods options uri type types fuel0 rs wf maxes :
  is_object_type type = true ->
  visit_modules fuel0 (mk_cfg uri options None (asked type types)) mods (en_world st) = Ok (Some <$> rs, wf) ->
  Zlen rs < 2 ^ 31 -> Forall (fun max => max = -1 \/ 0 < max <= G_MAXINT) maxes ->
  exists N st', forall fuel, (N <= fuel)%nat ->
    (i ← open_enumerator mods options uri type types; calls fuel i maxes) st = Ok (portions maxes (of_type type rs), st').
Proof.
  intros Hty Hvisit Hlen Hmax. destruct (open_leaves st mods options uri type types fuel0 rs wf Hty Hvisit) as (i & st1 & E & Hl).
  destruct (calls_spec fuel0 wf maxes st1 i _ Hl Hmax) as (N & st2 & Hcalls); [unfold of_type; by rewrite length_fmap|].
  exists N, st2. intros fuel Hf. unfold mbind, SM_bind. by rewrite E, Hcalls.
Qed.

(** C28: a client that calls [gck_enumerator_next] gets one by one what the plain loops
    visit, each object at its call and in their order, NULL in the place of each object that
    could not be read, and only NULL after the last: so as many calls as there are objects
    give all that can be read.  The modules tell what they are, and keep to PKCS#11. *)
Theorem enumerate_all {W : Type} `{Pkcs11Laws W} st mods options uri type types :
  is_object_type type = true -> Forall informs mods -> exists fuel0 l wf,
  visit_modules fuel0 (mk_cfg uri options None (asked type types)) mods (en_world st) = Ok (l, wf) /\
  forall n, exists N st', forall fuel, (N <= fuel)%nat ->
    (i ← open_enumerator mods options uri type types; nexts fuel n i) st = Ok (one_by_one type n l, st').
Proof.
  intros Hty Hinfo. destruct (visit_modules_ends (mk_cfg uri options None (asked type types)) mods Hinfo (en_world st)) as (fuel0 & l & wf & _ & Hvisit).
  exists fuel0, l, wf. split; [by apply Hvisit|]. intros n.
  destruct (open_waits st mods options uri type types fuel0 l wf Hty (Hvisit _ (le_n _))) as (i & st1 & E & Hw).
  destruct (nexts_spec fuel0 type wf n l st1 i Hw) as (N & st2 & Hn). exists N, st2. intros fuel Hf. unfold mbind, SM_bind. by rewrite E, Hn.
Qed.

(** * Modules that do not tell what they are *)

Section Keeps.
Context {W : Type} {P : Pkcs11 W}.

(** [I] holds when it returns, if it did before. *)
Definition keeps_to {X A} (I : X -> Prop) (m : SM X A) : Prop := forall x a x', I x -> m x = Ok (a, x') -> I x'.

Lemma keeps_to_bind {X A B} (I : X -> Prop) (m : SM X A) (f : A -> SM X B) : keeps_to I m -> (forall a, keeps_to I (f a)) -> keeps_to I (m ≫= f).
Proof.
  intros Hm Hf x b x' Hx. unfold mbind, SM_bind. destruct (m x) as [[a x1]| |] eqn:E; [|done..]. apply Hf. by eapply Hm.
Qed.

(** A state has no modules but these. *)
Definition within (ms : list Z) (r : Run W) : Prop := modules (args r) ⊆ ms.

Lemma keeps_the_args ms : keeps_to (within ms) (the_args (W := W)).
Proof. by intros r s r' Hr [= <- <-]. Qed.
Lemma keeps_upd ms f : (forall s, modules (f s) ⊆ modules s) -> keeps_to (within ms) (upd (W := W) f).
Proof. intros Hf r u r' Hr [= <- <-]. unfold within in *. cbn [args]. by rewrite Hf. Qed.
Lemma keeps_on_world {A} ms (m : SM W A) : keeps_to (within ms) (on_world m).
Proof. intros r a r' Hr. unfold on_world. destruct (m (world r)) as [[b w]| |]; [|done..]. by intros [= <- <-]. Qed.
Lemma keeps_assert ms b : keeps_to (within ms) (m_assert b).
Proof. destruct b; [by intros r u r' Hr [= <- <-]|done]. Qed.
Lemma keeps_some {A} ms (o : option A) : keeps_to (within ms) (some_or_ub (W := W) o).
Proof. destruct o; [by intros r u r' Hr [= <- <-]|done]. Qed.
Lemma keeps_ret {A} ms (a : A) : keeps_to (within ms) (mret (M := SM (Run W)) a).
Proof. intros r u r' Hr E. injection E as <- <-. exact Hr. Qed.
Lemma keeps_fuel {A} ms : keeps_to (within ms) (out_of_fuel (A := A)).
Proof. done. Qed.
Lemma keeps_ub {A} ms : keeps_to (within ms) (ub (A := A)).
Proof. done. Qed.
Lemma keeps_gets {A} ms (f : Run W -> A) : keeps_to (within ms) (gets f).
Proof. by intros r u r' Hr [= <- <-]. Qed.

Create HintDb keeps_db.
#[local] Hint Resolve keeps_the_args keeps_on_world keeps_assert keeps_some keeps_ret keeps_fuel keeps_ub keeps_gets : keeps_db.

(** Through a function, part by part. *)
Ltac keep := repeat first
  [ progress auto with keeps_db
  | lazymatch goal with
    | |- keeps_to _ (mbind _ _) => apply keeps_to_bind; [|intros ?]
    | |- keeps_to _ (upd _) => apply keeps_upd; intros ?; cbn; set_solver
    | |- keeps_to _ (call _) => apply keeps_on_world
    | |- keeps_to _ (match ?x with _ => _ end) => destruct x
    end ].

Lemma keeps_back ms h : keeps_to (within ms) (back (W := W) h).
Proof. destruct h; unfold back, state_modules_back, state_slots_back, state_slot_back, state_session_back, state_find_back, state_results_back; keep. Qed.

Lemma keeps_rewind ms h : keeps_to (within ms) (rewind_state (W := W) h).
Proof.
  unfold rewind_state. generalize 5%nat. intros n. induction n as [|n IH]; cbn [rewind_loop]; keep. apply keeps_back.
Qed.
#[local] Hint Resolve keeps_back keeps_rewind : keeps_db.

Lemma keeps_find_loop ms n id : keeps_to (within ms) (find_loop n id).
Proof. induction n as [|n IH]; cbn [find_loop]; keep. Qed.

Lemma keeps_results_loop ms n : forall count id, keeps_to (within ms) (results_loop n count id).
Proof. induction n as [|n IH]; intros count id; cbn [results_loop]; unfold attr_types_array; keep. Qed.
#[local] Hint Resolve keeps_find_loop keeps_results_loop : keeps_db.

(** The first of the modules is asked. *)
Definition ask_module (module : Z) (rest : list Z) : SM (Run W) (option Handler) :=
  upd (set_modules rest);;
  l ← on_world (gck_module_get_slots module true);
  upd (set_slots l);;
  info ← on_world (gck_module_get_info module);
  m_assert info;;
  mret (Some state_slots).

Lemma modules_forward_eq r : state_modules_forward r =
  if bool_decide (slots (args r) = []) then
    match modules (args r) with [] => Ok (None, r) | module :: rest => ask_module module rest r end
  else Ub.
Proof.
  unfold state_modules_forward, mbind, SM_bind, the_args, gets, m_assert, ask_module. destruct (bool_decide _); [|done]. by destruct (modules (args r)).
Qed.

Lemma ask_module_eq module rest r : ask_module module rest r =
  match gck_module_get_slots module true (world r) with
  | Ok (l, w) =>
    let '(rv, w) := C_GetInfo module w in
    if rv_ok rv then Ok (Some state_slots, mk_run (set_slots l (set_modules rest (args r))) (arrays r) w) else Ub
  | Err e => Err e
  | Ub => Ub
  end.
Proof.
  unfold ask_module, gck_module_get_info, mbind, SM_bind, wcall, on_world, upd, modify. cbn [args arrays world].
  destruct (gck_module_get_slots module true (world r)) as [[l w]| |]; [|done..]. cbn [args arrays world].
  destruct (C_GetInfo module w) as [rv w']. unfold mret, SM_ret, m_assert. by destruct (rv_ok rv).
Qed.

Lemma ask_within module rest ms r a r' : rest ⊆ ms -> ask_module module rest r = Ok (a, r') -> within ms r'.
Proof.
  intros Hms E. unfold ask_module, mbind, SM_bind in E. cbn [upd modify] in E.
  assert (keeps_to (within ms) (l ← on_world (gck_module_get_slots module true); upd (set_slots l);;
    info ← on_world (gck_module_get_info module); m_assert info;; mret (Some state_slots))) as Hk by keep.
  exact (Hk (mk_run (set_modules rest (args r)) (arrays r) (world r)) a r' Hms E).
Qed.

Lemma keeps_forward ms n h : keeps_to (within ms) (forward n h).
Proof.
  destruct h; unfold forward, state_slots_forward, state_slot_forward, state_session_forward, state_find_forward, state_results_forward; keep.
  intros r a r' Hr. rewrite modules_forward_eq. destruct (bool_decide _); [|done]. destruct (modules (args r)) as [|m rest] eqn:Hm; [by intros [= <- <-]|].
  apply ask_within. unfold within in Hr. rewrite Hm in Hr. set_solver.
Qed.

End Keeps.

Section Trust.
Context {W : Type} {P : Pkcs11 W}.

(** The same modules, taken to tell what they are. *)
Definition trusting : Pkcs11 W := {|
  C_GetInfo m w := (CKR_OK, (C_GetInfo m w).2);
  C_GetSlotList := C_GetSlotList;
  gck_slot_get_token_info := gck_slot_get_token_info;
  C_OpenSession := C_OpenSession;
  _gck_session_authenticate_token := _gck_session_authenticate_token;
  C_FindObjectsInit := C_FindObjectsInit;
  C_FindObjects := C_FindObjects;
  C_FindObjectsFinal := C_FindObjectsFinal;
  C_GetAttributeValue := C_GetAttributeValue;
  default_types := default_types;
  is_object_type := is_object_type
|}.

Lemma trusting_informs m : @informs W trusting m.
Proof. by intros w. Qed.

Definition trusting_laws {L : @Pkcs11Laws W P} : @Pkcs11Laws W trusting :=
  @Build_Pkcs11Laws W trusting (@remaining W P L) (@find_progress W P L) (@session_handle W P L).

(** One of the modules does not tell. *)
Definition uninformed (ms : list Z) : Prop := exists m w, m ∈ ms /\ rv_ok (C_GetInfo m w).1 = false.

(** [m] does as [m'], from where [I] holds, or a module of [ms] does not tell. *)
Definition agrees {X A} (ms : list Z) (I : X -> Prop) (m m' : SM X A) : Prop := forall x, I x -> m x = m' x \/ (uninformed ms /\ m x = Ub).

Lemma agrees_bind {X A B} ms (I : X -> Prop) (m m' : SM X A) (f f' : A -> SM X B) :
  agrees ms I m m' -> keeps_to I m' -> (forall a, agrees ms I (f a) (f' a)) -> agrees ms I (m ≫= f) (m' ≫= f').
Proof.
  intros Hm Hk Hf x Hx. unfold mbind, SM_bind. destruct (Hm x Hx) as [->|[Hu ->]]; [|by right].
  destruct (m' x) as [[a x']| |] eqn:E; [|by left..]. apply Hf. by eapply Hk.
Qed.

Lemma agrees_refl {X A} ms (I : X -> Prop) (m : SM X A) : agrees ms I m m.
Proof. intros x _. by left. Qed.

(** What the two say of a module differs where it does not tell. *)
Lemma forward_agrees ms n h : agrees ms (within ms) (forward n h) (@forward W trusting n h).
Proof.
  destruct h; [|by apply agrees_refl..]. intros r Hr. cbn [forward]. rewrite modules_forward_eq, (@modules_forward_eq W trusting r).
  destruct (bool_decide _); [|by left]. unfold within in Hr. destruct (modules (args r)) as [|m rest]; [by left|].
  rewrite ask_module_eq, (@ask_module_eq W trusting m rest r).
  change (@gck_module_get_slots W trusting) with (@gck_module_get_slots W P).
  destruct (gck_module_get_slots m true (world r)) as [[l w]| |]; [|by left..]. cbn [C_GetInfo trusting].
  destruct (C_GetInfo m w) as [rv w1] eqn:Hinfo. cbn [snd]. destruct (rv_ok rv) eqn:Hrv; [by left|].
  right. split; [|done]. exists m, w. rewrite Hinfo. split; [set_solver|done].
Qed.

Lemma run_loop_agrees ms n k : agrees ms (within ms) (run_loop n k) (@run_loop W trusting n k).
Proof.
  induction k as [|k IH]; cbn [run_loop]; [apply agrees_refl|]. apply agrees_bind; [apply agrees_refl|apply keeps_the_args|]. intros s.
  apply agrees_bind; [apply forward_agrees|apply (@keeps_forward W trusting)|]. intros [h|]; [|apply agrees_refl].
  apply agrees_bind; [apply agrees_refl|by apply keeps_upd|]. intros u. exact IH.
Qed.

(** The modules that the states of a chain have still to visit. *)
Definition chain_modules (c : Chain) : list Z := concat ((fun p => modules p.2) <$> c).

Lemma perform_agrees ms n c : forall want count, chain_modules c ⊆ ms ->
  agrees ms (fun _ => True) (perform_enumerate_next n c want count) (@perform_enumerate_next W trusting n c want count).
Proof.
  induction c as [|[i s] c IH]; intros want count Hms; cbn [perform_enumerate_next]; [apply agrees_refl|].
  unfold chain_modules in Hms. cbn [fmap list_fmap concat snd] in Hms. fold (chain_modules c) in Hms.
  apply agrees_bind; [|done|].
  - intros st _. unfold on_state. destruct (run_loop_agrees ms n n (mk_run (set_want (want - count) s) (en_arrays st) (en_world st))) as [->|[Hu ->]];
      [unfold within; cbn; set_solver|by left|by right].
  - intros [u s2]. destruct (want <=? _); [apply agrees_refl|]. apply agrees_bind; [apply IH; set_solver|done|]. intros c'. apply agrees_refl.
Qed.

Lemma extract_modules c : chain_modules (extract_result c).2 = chain_modules c.
Proof.
  unfold chain_modules. induction c as [|[i s] c IH]; [done|]. cbn [extract_result]. destruct (results_of s); [|done].
  destruct (extract_result c) as [o c1]. cbn [snd fmap list_fmap concat] in *. by rewrite IH.
Qed.

Lemma extract_loop_modules n : forall c want, chain_modules (extract_loop n c want).2 = chain_modules c.
Proof.
  induction n as [|n IH]; intros c want; cbn [extract_loop]; (destruct (want <=? 0); [done|]);
    pose proof (extract_modules c) as Hx; destruct (extract_result c) as [[o|] c1]; cbn [snd] in Hx |- *; try done.
  specialize (IH c1 (want - 1)). destruct (extract_loop n c1 (want - 1)) as [[l w2] c2]. cbn [snd] in *. congruence.
Qed.

(** They do not differ in what makes an enumerator usable. *)
Lemma usable_trusting st i c : usable st i c <-> @usable W trusting st i c.
Proof.
  assert (forall ar c, all_ready ar c <-> @all_ready W trusting ar c) as Hall.
  { intros ar c0. unfold all_ready. split; intros Hall; (eapply Forall_impl; [exact Hall|]); intros p [types [H1 H2 H3]]; exists types; (split; [exact H1|exact H2|exact H3]). }
  split; intros [H1 H2 H3]; (split; [exact H1|exact H2|by apply Hall]).
Qed.

(** A request is answered as that of modules that tell what they are, or one of the modules does not. *)
Lemma request_agrees n i r st c st' : check_out i st = Ok (Some c, st') ->
  request n i r st = @request W trusting n i r st \/ (uninformed (chain_modules c) /\ request n i r st = Ub).
Proof.
  intros Hout. set (ms := chain_modules c). assert (@check_out W trusting i st = Ok (Some c, st')) as Hout' by exact Hout.
  assert (forall c1 want, chain_modules c1 = ms -> perform_enumerate_next n c1 want 0 st' = @perform_enumerate_next W trusting n c1 want 0 st' \/
    (uninformed ms /\ perform_enumerate_next n c1 want 0 st' = Ub)) as Hperform.
  { intros c1 want Hc1. apply perform_agrees; [by rewrite Hc1|done]. }
  destruct r as [cancelled|max cancelled].
  - unfold request, gck_enumerator_next, mbind, SM_bind. rewrite Hout, Hout'. pose proof (extract_modules c) as Hx.
    destruct (extract_result c) as [[o|] c1]; [by left|]. destruct cancelled; [by left|]. cbn [snd] in Hx.
    destruct (Hperform c1 1 Hx) as [->|[Hu ->]]; [by left|by right].
  - unfold request, gck_enumerator_next_n, mbind, SM_bind. destruct (negb _); [by left|]. rewrite Hout, Hout'.
    pose proof (extract_loop_modules (pending c) c (how_many max)) as Hx. unfold extract_results.
    destruct (extract_loop (pending c) c (how_many max)) as [[l want] c1]. cbn [snd] in Hx. destruct ((0 <? want) && negb cancelled); [|by left].
    destruct (Hperform c1 want Hx) as [->|[Hu ->]]; [by left|by right].
Qed.
End Trust.
(** C13: every call ends.  A client makes enumerators for modules, sets the type of their
    objects, and may then chain them; from there on each call of [gck_enumerator_next] or
    [gck_enumerator_next_n], cancelled or not, returns: no assertion of a state fails, nothing
    is used that was freed, and what the call had checked out is checked in again, with the
    place it is at still one of those an enumerator can be at.  Only a module, among those
    that are still to be visited, that does not tell what it is makes the call read NULL. *)
Theorem enumerator_safe {W : Type} `{Pkcs11Laws W} :
  (forall st mods options uri type types, is_object_type type = true ->
    exists i st' c, open_enumerator mods options uri type types st = Ok (i, st') /\ usable st' i c) /\
  (forall st i s j c, usable st i [(i, s)] -> usable st j c -> i ∉ c.*1 ->
    exists st', gck_enumerator_set_chained i (Some j) st = Ok (tt, st') /\ usable st' i ((i, s) :: c)) /\
  (forall st i c r, usable st i c -> exists N l st' c', usable st' i c' /\ c'.*1 = c.*1 /\
    forall fuel, (N <= fuel)%nat -> request fuel i r st = Ok (l, st') \/ (uninformed (chain_modules c) /\ request fuel i r st = Ub)).
Proof.
  split_and!.
  - intros st mods options uri type types Hty. destruct (open_usable st mods options uri type types Hty) as (i & s & st' & E & Hu & _).
    by exists i, st', [(i, s)].
  - intros st i s j c. apply chain_usable.
  - intros st i c r Hu. assert (@answered W trusting st i c (fun fuel => @request W trusting fuel i r)) as (N & l & st' & c' & Hm & Hu' & Hk).
    { apply usable_trusting in Hu. destruct r; [apply (next_answered (Laws := trusting_laws))|apply (next_n_answered (Laws := trusting_laws))];
        [exact trusting_informs|exact Hu|exact trusting_informs|exact Hu]. }
    exists N, l, st', c'. split; [by apply usable_trusting|]. split; [by eapply kept_ids|]. intros fuel Hf.
    destruct (checked_call st i c Hu) as (ens & Eout & _). rewrite <- (Hm fuel Hf). by eapply request_agrees.
Qed.

(** * A token

    A module [1] with two slots; the world holds the handles a search has still to give.
    In [10] there are three objects, in [11] one, and each object has its handle as the
    value of every attribute.  [broken] says which objects cannot be read, [info] whether
    the module tells what it is, and [tokens] whether there are tokens. *)
Definition sample (broken : list Z) (info tokens : bool) : Pkcs11 (list Z) := {|
  C_GetInfo _ w := (if info then CKR_OK else CKR_OTHER 5, w);
  C_GetSlotList m room w := ((CKR_OK, default [] ((fun _ => [10; 11]) <$> room), if m =? 1 then 2 else 0), w);
  gck_slot_get_token_info x w := (if tokens then Some (mk_token_info (Some [snd x]) None None None) else None, w);
  C_OpenSession x _ w := ((CKR_OK, 100 + Z.abs (snd x)), w);
  _gck_session_authenticate_token _ _ _ w := (CKR_OK, w);
  C_FindObjectsInit id _ _ := (CKR_OK, if id =? 110 then [1; 2; 3] else [4]);
  C_FindObjects _ n w := ((CKR_OK, take (Z.to_nat n) w), drop (Z.to_nat n) w);
  C_FindObjectsFinal _ w := w;
  C_GetAttributeValue _ h t w := ((if bool_decide (h ∈ broken) then CKR_OTHER 5 else CKR_OK, (fun _ => Bytes [h]) <$> t), w);
  default_types _ := None;
  is_object_type type := 0 <=? type
|}.

#[local] Instance sample_laws broken info tokens : @Pkcs11Laws (list Z) (sample broken info tokens).
Proof.
  refine {| remaining := @length Z |}.
  - intros id n w objects w' [= <- <-] Hne. rewrite length_drop. destruct w; [by rewrite take_nil in Hne|].
    destruct (Z.to_nat n) eqn:En; [done|]. cbn. lia.
  - intros x rw w id w' [= <- <-]. lia.
Defined.

Definition no_enumerators : EnSt (list Z) := mk_en_st ∅ ∅ [].
Definition any_uri : UriData := mk_uri_data false None None.
Definition the_result (id h : Z) : Result := mk_result h id (Some [(3, Bytes [h])]).

Lemma enumerate_refines_witness : let P := sample [] true true in
  exists N st', forall fuel, (N <= fuel)%nat ->
    (i ← open_enumerator [1; 2] 0 any_uri 7 (Some [3]); calls fuel i [2; 1; -1]) no_enumerators =
      Ok (of_type 7 <$> [[the_result 110 1; the_result 110 2]; [the_result 110 3]; [the_result 111 4]], st').
Proof.
  intros P. apply (enumerate_refines no_enumerators [1; 2] 0 any_uri 7 (Some [3]) 3
    [the_result 110 1; the_result 110 2; the_result 110 3; the_result 111 4] [] [2; 1; -1]); [done|vm_compute; reflexivity|done|].
  repeat constructor; unfold G_MAXINT; lia.
Defined.

Lemma enumerate_all_witness : let P := sample [2] true true in exists N st', forall fuel, (N <= fuel)%nat ->
  (i ← open_enumerator [1; 2] 0 any_uri 7 (Some [3]); nexts fuel 6 i) no_enumerators =
    Ok ([Some (Some 7, the_result 110 1); None; Some (Some 7, the_result 110 3); Some (Some 7, the_result 111 4); None; None], st').
Proof.
  intros P. destruct (enumerate_all no_enumerators [1; 2] 0 any_uri 7 (Some [3])) as (fuel0 & l & wf & Hvisit & Hn).
  - reflexivity.
  - by repeat constructor.
  - destruct (Hn 6%nat) as (N & st' & Hcalls). exists N, st'. intros fuel Hf. rewrite (Hcalls fuel Hf). do 2 f_equal.
    assert (visit_modules (Nat.max fuel0 3) (mk_cfg any_uri 0 None (asked 7 (Some [3]))) [1; 2] [] = Ok (l, wf)) as Hmax
      by exact (proj2 (proj2 (proj2 (proj2 (visits_more fuel0 (Nat.max fuel0 3) _ (Nat.le_max_l _ _))))) _ _ _ Hvisit).
    assert (visit_modules (Nat.max fuel0 3) (mk_cfg any_uri 0 None (asked 7 (Some [3]))) [1; 2] [] =
      Ok ([Some (the_result 110 1); None; Some (the_result 110 3); Some (the_result 111 4)], [])) as E
      by (apply (proj2 (proj2 (proj2 (proj2 (visits_more 3 (Nat.max fuel0 3) _ (Nat.le_max_r _ _)))))); vm_compute; reflexivity).
    rewrite E in Hmax. injection Hmax as <- _. reflexivity.
Defined.

Lemma enumerator_safe_witness : let P := sample [2] true true in exists i st c N l st' c',
  open_enumerator [1; 2] 0 any_uri 7 (Some [3]) no_enumerators = Ok (i, st) /\ usable st i c /\ usable st' i c' /\ c'.*1 = c.*1 /\
  forall fuel, (N <= fuel)%nat -> request fuel i (NextN 2 false) st = Ok (l, st').
Proof.
  intros P. destruct (proj1 enumerator_safe no_enumerators [1; 2] 0 any_uri 7 (Some [3]) ltac:(done)) as (i & st & c & E & Hu).
  destruct (proj2 (proj2 enumerator_safe) st i c (NextN 2 false) Hu) as (N & l & st' & c' & H1 & H2 & H3).
  exists i, st, c, N, l, st', c'. split_and!; [exact E|exact Hu|exact H1|exact H2|]. intros fuel Hf.
  destruct (H3 fuel Hf) as [Hr|[(m & w & _ & Hm) _]]; [exact Hr|discriminate Hm].
Defined.

Definition only (slot : Z) : UriData := mk_uri_data false (Some (mk_token_info (Some [slot]) None None None)) None.

(** Only the tokens that a URI matches. *)
Example uri_restricts :
  (i ← @open_enumerator _ (sample [] true true) [1] 0 (only 11) 7 None;
   @gck_enumerator_next_n _ (sample [] true true) 9 i (-1) false) no_enumerators
  = Ok (of_type 7 [mk_result 4 111 None], mk_en_st
      {[1 := mk_enumerator (Some (mk_state G_MAXINT state_modules [] (only 11)
        0 None (Some 7) NoTypes 0 [] None None false None (Some []) (Some []))) None 7 0 0 None]} ∅ []).
Proof. vm_compute. reflexivity. Qed.

Definition client (P : Pkcs11 (list Z)) (uri : UriData) {A} (m : Z -> SM (EnSt (list Z)) A) : res unit A :=
  match (i ← @open_enumerator _ P [1] 0 uri 7 (Some [3]); m i) no_enumerators with Ok (a, _) => Ok a | Err e => Err e | Ub => Ub end.

(** NULL in the middle: the second object cannot be read, the third can. *)
Example next_null_early : let P := sample [2] true true in
  client P any_uri (fun i => a ← gck_enumerator_next 9 i false; b ← gck_enumerator_next 9 i false;
                             c ← gck_enumerator_next 9 i false; mret [a; b; c])
  = Ok [Some (Some 7, the_result 110 1); None; Some (Some 7, the_result 110 3)].
Proof. vm_compute. reflexivity. Qed.

(** The types that the state of an enumeration still has were freed. *)
Example types_used_after_free : let P := sample [] true true in
  client P any_uri (fun i => a ← gck_enumerator_next_n 9 i 1 false; gck_enumerator_set_object_type i 8;; gck_enumerator_next_n 9 i 3 false) = Ub.
Proof. vm_compute. reflexivity. Qed.

(** A module that does not tell what it is: NULL is read. *)
Example module_without_info : client (sample [] false true) any_uri (fun i => @gck_enumerator_next _ (sample [] false true) 9 i false) = Ub.
Proof. vm_compute. reflexivity. Qed.

(** An enumerator for a session whose token cannot tell what it is. *)
Example session_without_token : let P := sample [] true false in
  (i ← _gck_enumerator_new_for_session 110 (1, 10) any_uri; gck_enumerator_next 9 i false) no_enumerators = Ub.
Proof. vm_compute. reflexivity. Qed.

(** The objects of a chained enumerator come before the last one of the first. *)
Example chained_too_early : let P := sample [2] true true in
  match (j ← open_enumerator [1] 0 (only 11) 8 (Some [3]); i ← open_enumerator [1] 0 (only 10) 7 (Some [3]);
         gck_enumerator_set_chained i (Some j);; calls 9 i [2; 2]) no_enumerators with
  | Ok (l, _) => Some (map (map (fun o : Object => (fst o, handle (snd o)))) l)
  | _ => None
  end = Some [[(Some 7, 1); (Some 8, 4)]; [(Some 7, 3)]].
Proof. vm_compute. reflexivity. Qed.
