(* ===== verification/SecurePool.v ===== *)
(** Secure memory, the lower half of [src/egg/egg-secure-memory.c]: the memory itself,
    the pool the allocator keeps its own records in ([pool_alloc], [pool_free],
    [pool_valid]) and the rings of cells ([sec_insert_cell_ring],
    [sec_remove_cell_ring]).

    Pointers are 64-bit addresses, 0 is NULL.  Memory holds bytes; a pointer stored in it
    takes eight, least significant first.  The records of the pool ([Cell] and [Block])
    are found by their address in [items].  The pools and the blocks, which C chains
    through [next] and only ever pushes at the front and unlinks, are lists here, and so
    is the stack of unused items of a pool; the rings keep their pointers.  A function is
    a state transformer; a failed [ASSERT], a wild pointer and an access outside mapped
    memory are [Ub].  [Err] says that a loop's fuel ran out, which the theorems exclude.
    The calls to the system are the class [System]. *)

From S2P Require Import Prelude StateM.
Local Open Scope Z_scope.

(** * Memory *)

Abbreviation Mem := (gmap Z Z).

Fixpoint load (m : Mem) (a : Z) (n : nat) : option (list Z) :=
  match n with
  | O => Some []
  | S n => b ← m !! a; l ← load m (a + 1) n; Some (b :: l)
  end.

Fixpoint store (m : Mem) (a : Z) (bs : list Z) : option Mem :=
  match bs with
  | [] => Some m
  | b :: bs => if bool_decide (is_Some (m !! a)) then store (<[a := b]> m) (a + 1) bs else None
  end.

Fixpoint map_zero (m : Mem) (a : Z) (n : nat) : Mem :=
  match n with O => m | S n => <[a := 0]> (map_zero m (a + 1) n) end.

Fixpoint unmap (m : Mem) (a : Z) (n : nat) : Mem :=
  match n with O => m | S n => delete a (unmap m (a + 1) n) end.

(** * The records *)

(** [struct _Cell]. *)
Record Cell := mk_cell {
  words : Z;
  n_words : Z;
  requested : Z;
  tag : option (list Z);
  next : Z;
  prev : Z
}.

(** [struct _Block]. *)
Record Block := mk_block {
  bl_words : Z;
  bl_n_words : Z;
  n_used : Z;
  used_cells : Z;
  unused_cells : Z
}.

(** [union _Item]. *)
Inductive Item := ICell (c : Cell) | IBlock (b : Block).

(** [memset (item, 0, sizeof (Item))], at either type. *)
Definition zero_cell : Cell := mk_cell 0 0 0 None 0 0.
Definition zero_block : Block := mk_block 0 0 0 0 0.

(** [struct _Pool]; [base] is its own address. *)
Record Pool := mk_pool {
  base : Z;
  plength : Z;
  used : Z;
  unused : list Z;
  n_items : Z
}.

Record St := mk_st {
  mem : Mem;
  items : gmap Z Item;
  pool_data : list Pool;
  all_blocks : list Z;
  calls : nat
}.

Definition with_mem (m : Mem) (st : St) : St :=
  mk_st m (items st) (pool_data st) (all_blocks st) (calls st).
Definition with_items (it : gmap Z Item) (st : St) : St :=
  mk_st (mem st) it (pool_data st) (all_blocks st) (calls st).
Definition with_pools (p : list Pool) (st : St) : St :=
  mk_st (mem st) (items st) p (all_blocks st) (calls st).
Definition with_blocks (b : list Z) (st : St) : St :=
  mk_st (mem st) (items st) (pool_data st) b (calls st).
(** One more system call was made: the system may answer the next one differently. *)
Definition tick (st : St) : St :=
  mk_st (mem st) (items st) (pool_data st) (all_blocks st) (S (calls st)).

(** * The system *)

Class System := {
  getpagesize : Z;
  (** [mmap] of fresh anonymous pages; [None] is MAP_FAILED *)
  mmap : St -> Z -> option Z;
  (** [mlock] returned zero *)
  mlock : St -> Z -> Z -> bool;
  (** SECMEM_FORCE_FALLBACK is in the environment *)
  force_fallback : St -> bool;
  (** [EGG_SECURE_GLOBALS.pool_version] *)
  pool_version : option (list Z);
  (** [EGG_SECURE_GLOBALS.fallback]: the pointer it returns and the memory it leaves *)
  fallback : option (St -> Z -> Z -> Z * Mem);
  (** [realloc] of the array of records succeeds *)
  records_realloc : St -> Z -> bool
}.

(** * State transformers *)

Abbreviation M := (SM St).

Definition cell_at (p : Z) : M Cell := fun st =>
  match items st !! p with Some (ICell c) => Ok (c, st) | _ => Ub end.
Definition block_at (p : Z) : M Block := fun st =>
  match items st !! p with Some (IBlock b) => Ok (b, st) | _ => Ub end.

Definition upd_cell (p : Z) (f : Cell -> Cell) : M unit :=
  c ← cell_at p; modify (fun st => with_items (<[p := ICell (f c)]> (items st)) st).
Definition upd_block (p : Z) (f : Block -> Block) : M unit :=
  b ← block_at p; modify (fun st => with_items (<[p := IBlock (f b)]> (items st)) st).

Definition set_geom (w n : Z) (c : Cell) : Cell := mk_cell w n (requested c) (tag c) (next c) (prev c).
Definition set_req (r : Z) (t : option (list Z)) (c : Cell) : Cell :=
  mk_cell (words c) (n_words c) r t (next c) (prev c).
Definition set_next (p : Z) (c : Cell) : Cell :=
  mk_cell (words c) (n_words c) (requested c) (tag c) p (prev c).
Definition set_prev (p : Z) (c : Cell) : Cell :=
  mk_cell (words c) (n_words c) (requested c) (tag c) (next c) p.
Definition set_n_used (n : Z) (b : Block) : Block :=
  mk_block (bl_words b) (bl_n_words b) n (used_cells b) (unused_cells b).

(** Reading and writing memory. *)
Definition load_word (a : Z) : M Z := fun st =>
  match load (mem st) a 8 with Some l => Ok (le_val l, st) | None => Ub end.
Definition write (a : Z) (bs : list Z) : M unit := fun st =>
  match store (mem st) a bs with Some m => Ok (tt, with_mem m st) | None => Ub end.
Definition store_word (a v : Z) : M unit := write a (le_bytes 8 v).
Definition memset0 (a n : Z) : M unit := write a (replicate (Z.to_nat n) 0).
Definition memcpy (dest src n : Z) : M unit := fun st =>
  match load (mem st) src (Z.to_nat n) with Some l => write dest l st | None => Ub end.

(** * The pool of records *)

Definition EGG_SECURE_POOL_VER_STR : list Z := lit "1.0".
Definition sizeof_Item : Z := 48.
Definition sizeof_Pool : Z := 88.
Definition offset_items : Z := 40.

(** [unused_pop], with the count of used items. *)
Definition pool_pop (pool : Pool) : option (Z * Pool) :=
  match unused pool with
  | [] => None
  | p :: u => Some (p, mk_pool (base pool) (plength pool) (used pool + 1) u (n_items pool))
  end.

(** The first pool with an item available, and that item. *)
Fixpoint pools_pop (pools : list Pool) : option (Z * list Pool) :=
  match pools with
  | [] => None
  | pool :: pools =>
    match pool_pop pool with
    | Some (p, pool) => Some (p, pool :: pools)
    | None => '(p, pools) ← pools_pop pools; Some (p, pool :: pools)
    end
  end.

(** A new pool: all its items are pushed on the stack, the last one on top. *)
Definition pool_slots (base n_items : Z) : list Z :=
  (fun i => base + offset_items + sizeof_Item * i) <$> seqZ 0 n_items.
Definition pool_new (base len : Z) : Pool :=
  let n_items := (len - sizeof_Pool) / sizeof_Item in
  mk_pool base len 0 (rev (pool_slots base n_items)) n_items.

Definition pool_contains (pool : Pool) (ptr : Z) : bool :=
  (base pool + offset_items <=? ptr) && (ptr <=? base pool + plength pool - sizeof_Item).

(** [pool_free] on the list of pools: the pool an item belongs to gets it back, or goes
    when it was its last one. *)
Fixpoint pools_push (pools : list Pool) (item : Z) : res unit (list Pool) :=
  match pools with
  | [] => Ub
  | pool :: pools =>
    if pool_contains pool item then
      c_assert ((item - (base pool + offset_items)) mod sizeof_Item =? 0);;
      c_assert (0 <? used pool);;
      if used pool =? 1 then Ok pools
      else Ok (mk_pool (base pool) (plength pool) (used pool - 1) (item :: unused pool) (n_items pool) :: pools)
    else pools ← pools_push pools item; Ok (pool :: pools)
  end.

Fixpoint pool_valid (pools : list Pool) (item : Z) : bool :=
  match pools with
  | [] => false
  | pool :: pools =>
    if pool_contains pool item
    then negb (used pool =? 0) && ((item - (base pool + offset_items)) mod sizeof_Item =? 0)
    else pool_valid pools item
  end.

Section Pool.
Context `{System}.

(** [pool_alloc ()], used for an item of which [zero] is the cleared value; 0 is NULL. *)
Definition pool_alloc (zero : Item) : M Z := fun st =>
  if negb (bool_decide (pool_version = Some EGG_SECURE_POOL_VER_STR)) then Ok (0, st) else
  match pools_pop (pool_data st) with
  | Some (item, pools) => Ok (item, with_items (<[item := zero]> (items st)) (with_pools pools st))
  | None =>
    let len := getpagesize * 2 in
    match mmap st len with
    | None => Ok (0, tick st)
    | Some pages =>
      match pools_pop (pool_new pages len :: pool_data st) with
      | Some (item, pools) =>
        Ok (item, with_items (<[item := zero]> (items st)) (with_pools pools (tick st)))
      | None => Ub
      end
    end
  end.
End Pool.

Definition pool_free (item : Z) : M unit := fun st =>
  match pools_push (pool_data st) item with
  | Ok pools => Ok (tt, with_items (delete item (items st)) (with_pools pools st))
  | Err e => Err e
  | Ub => Ub
  end.

(** * Rings of cells *)

(** [Cell **ring]: one of the two ring pointers of a block. *)
Inductive Ring := Used | Unused.

Definition ring_of (ring : Ring) (b : Block) : Z :=
  match ring with Used => used_cells b | Unused => unused_cells b end.
Definition set_ring (ring : Ring) (p : Z) (b : Block) : Block :=
  match ring with
  | Used => mk_block (bl_words b) (bl_n_words b) (n_used b) p (unused_cells b)
  | Unused => mk_block (bl_words b) (bl_n_words b) (n_used b) (used_cells b) p
  end.

Definition sec_insert_cell_ring (block : Z) (ring : Ring) (cell : Z) : M unit :=
  b ← block_at block;
  c ← cell_at cell;
  m_assert (negb (cell =? ring_of ring b));;
  m_assert (next c =? 0);;
  m_assert (prev c =? 0);;
  (if negb (ring_of ring b =? 0) then
     r ← cell_at (ring_of ring b);
     upd_cell cell (set_next (next r));;
     upd_cell cell (set_prev (ring_of ring b));;
     upd_cell (next r) (set_prev cell);;
     upd_cell (ring_of ring b) (set_next cell)
   else
     upd_cell cell (set_next cell);;
     upd_cell cell (set_prev cell));;
  upd_block block (set_ring ring cell);;
  c ← cell_at cell;
  n ← cell_at (next c);
  m_assert (prev n =? cell);;
  p ← cell_at (prev c);
  m_assert (next p =? cell).

Definition sec_remove_cell_ring (block : Z) (ring : Ring) (cell : Z) : M unit :=
  b ← block_at block;
  m_assert (negb (ring_of ring b =? 0));;
  c ← cell_at cell;
  m_assert (negb (next c =? 0));;
  m_assert (negb (prev c =? 0));;
  n ← cell_at (next c);
  m_assert (prev n =? cell);;
  p ← cell_at (prev c);
  m_assert (next p =? cell);;
  (if cell =? ring_of ring b then
     if next c =? cell then
       m_assert (prev c =? cell);;
       upd_block block (set_ring ring 0)
     else
       m_assert (negb (prev c =? cell));;
       upd_block block (set_ring ring (next c))
   else mret tt);;
  upd_cell (next c) (set_prev (prev c));;
  c ← cell_at cell;
  upd_cell (prev c) (set_next (next c));;
  upd_cell cell (set_prev 0);;
  upd_cell cell (set_next 0);;
  b ← block_at block;
  m_assert (negb (ring_of ring b =? cell)).

(** * Views of the records *)

Definition cellv (it : gmap Z Item) (p : Z) : option Cell :=
  match it !! p with Some (ICell c) => Some c | _ => None end.
Definition blk (it : gmap Z Item) (p : Z) : option Block :=
  match it !! p with Some (IBlock b) => Some b | _ => None end.
Definition nxt it p := next <$> cellv it p.
Definition prv it p := prev <$> cellv it p.
Definition geom it p := (fun c => (words c, n_words c, requested c, tag c)) <$> cellv it p.

Lemma cellv_insert it p c q : cellv (<[p := ICell c]> it) q = if decide (q = p) then Some c else cellv it q.
Proof. unfold cellv. destruct (decide (q = p)) as [->|]; by simplify_map_eq. Qed.
Lemma cellv_insert_block it p b B q : blk it p = Some B ->
  cellv (<[p := IBlock b]> it) q = cellv it q.
Proof. unfold cellv, blk. intros H. destruct (decide (q = p)) as [->|]; simplify_map_eq; [by repeat case_match|done]. Qed.
Lemma blk_insert it p b q : blk (<[p := IBlock b]> it) q = if decide (q = p) then Some b else blk it q.
Proof. unfold blk. destruct (decide (q = p)) as [->|]; by simplify_map_eq. Qed.
Lemma blk_insert_cell it p c C q : cellv it p = Some C -> blk (<[p := ICell c]> it) q = blk it q.
Proof. unfold cellv, blk. intros H. destruct (decide (q = p)) as [->|]; simplify_map_eq; [by repeat case_match|done]. Qed.
Lemma cellv_delete it p q : cellv (delete p it) q = if decide (q = p) then None else cellv it q.
Proof. unfold cellv. destruct (decide (q = p)) as [->|]; by simplify_map_eq. Qed.
Lemma blk_delete it p q : blk (delete p it) q = if decide (q = p) then None else blk it q.
Proof. unfold blk. destruct (decide (q = p)) as [->|]; by simplify_map_eq. Qed.

Lemma wp_cell_at p c (Q : Cell -> St -> Prop) st : cellv (items st) p = Some c -> Q c st -> wp (cell_at p) Q st.
Proof. unfold wp, cell_at, cellv. intros H ?. by repeat case_match; simplify_eq. Qed.
Lemma wp_block_at p b (Q : Block -> St -> Prop) st : blk (items st) p = Some b -> Q b st -> wp (block_at p) Q st.
Proof. unfold wp, block_at, blk. intros H ?. by repeat case_match; simplify_eq. Qed.
Lemma wp_upd_cell p f c (Q : unit -> St -> Prop) st : cellv (items st) p = Some c ->
  Q tt (with_items (<[p := ICell (f c)]> (items st)) st) -> wp (upd_cell p f) Q st.
Proof. intros. unfold upd_cell. apply wp_bind. by eapply wp_cell_at. Qed.
Lemma wp_upd_block p f b (Q : unit -> St -> Prop) st : blk (items st) p = Some b ->
  Q tt (with_items (<[p := IBlock (f b)]> (items st)) st) -> wp (upd_block p f) Q st.
Proof. intros. unfold upd_block. apply wp_bind. by eapply wp_block_at. Qed.

(** One step of the symbolic execution of a function. *)
Ltac step := first
  [ step_core
  | lazymatch goal with
    | |- wp (cell_at _) _ _ => eapply wp_cell_at; [eassumption|]
    | |- wp (block_at _) _ _ => eapply wp_block_at; [eassumption|]
    | |- wp (upd_cell _ _) _ _ => eapply wp_upd_cell; [eassumption|]
    | |- wp (upd_block _ _) _ _ => eapply wp_upd_block; [eassumption|]
    end ]; cbn beta iota zeta.

(** * Rings *)

Definition link (it : gmap Z Item) (a b : Z) : Prop := nxt it a = Some b /\ prv it b = Some a.

Fixpoint links (it : gmap Z Item) (l : list Z) : Prop :=
  match l with
  | a :: (b :: _) as t => link it a b /\ links it t
  | _ => True
  end.

(** The cells [l], in this order, are the ring [p] points to. *)
Record ring_ok (it : gmap Z Item) (p : Z) (l : list Z) : Prop := {
  ring_head : p = default 0 (head l);
  ring_nodup : NoDup l;
  ring_nonnull : 0 ∉ l;
  ring_links : links it (l ++ take 1 l)
}.

Lemma links_app it l1 a l2 : links it (l1 ++ a :: l2) <-> links it (l1 ++ [a]) /\ links it (a :: l2).
Proof.
  induction l1 as [|x l1 IH]; [simpl; tauto|].
  destruct l1 as [|y l1]; [simpl; tauto|].
  change (link it x y /\ links it ((y :: l1) ++ a :: l2) <-> (link it x y /\ links it ((y :: l1) ++ [a])) /\ links it (a :: l2)).
  rewrite IH. tauto.
Qed.

Lemma links_frame it it' m : forall a, (forall x, x ∈ removelast (a :: m) -> nxt it' x = nxt it x) ->
  (forall x, x ∈ m -> prv it' x = prv it x) -> links it (a :: m) -> links it' (a :: m).
Proof.
  induction m as [|b m IH]; intros a Hn Hp; [done|].
  change (removelast (a :: b :: m)) with (a :: removelast (b :: m)) in Hn.
  intros [[H1 H2] H3]. split.
  - split; [rewrite Hn by set_solver|rewrite Hp by set_solver]; done.
  - apply IH; [intros; apply Hn; set_solver|intros; apply Hp; set_solver|exact H3].
Qed.

Lemma links_same it it' l : (forall x, x ∈ l -> cellv it' x = cellv it x) -> links it l -> links it' l.
Proof.
  intros H. induction l as [|a [|b l] IH]; [done|done|].
  intros [[H1 H2] H3]. split; [|apply IH; [set_solver|done]].
  unfold link, nxt, prv in *. by rewrite !H by set_solver.
Qed.

Lemma rotate it a b : links it ((a ++ b) ++ take 1 (a ++ b)) -> links it ((b ++ a) ++ take 1 (b ++ a)).
Proof.
  destruct a as [|x a]; [by rewrite app_nil_l, app_nil_r|].
  destruct b as [|y b]; [by rewrite app_nil_l, app_nil_r|].
  change (take 1 ((x :: a) ++ y :: b)) with [x]. change (take 1 ((y :: b) ++ x :: a)) with [y].
  rewrite <- !(assoc_L (++)). change ((y :: b) ++ [x]) with (y :: (b ++ [x])).
  change ((x :: a) ++ [y]) with (x :: (a ++ [y])).
  rewrite (links_app it (x :: a) y), (links_app it (y :: b) x). tauto.
Qed.

Lemma ring_same it it' p l : (forall x, x ∈ l -> cellv it' x = cellv it x) -> ring_ok it p l -> ring_ok it' p l.
Proof.
  intros H [? ? ? ?]. split; [done..|]. eapply links_same; [|done].
  intros x Hx. apply H. destruct l; [done|]. cbn in Hx. set_solver.
Qed.

(** What a cell of a ring points to. *)
Lemma ring_cell it p l x : ring_ok it p l -> x ∈ l ->
  exists n q, nxt it x = Some n /\ prv it x = Some q /\ n ∈ l /\ q ∈ l /\
    prv it n = Some x /\ nxt it q = Some x.
Proof.
  intros [Hh Hnd Hz Hl] Hx. apply list_elem_of_split in Hx as (l1 & l2 & ->).
  apply rotate in Hl. rewrite <- app_comm_cons in Hl.
  cbn [take] in Hl. destruct (l2 ++ l1) as [|n k] eqn:E.
  - cbn in Hl. destruct Hl as [[H1 H2] _]. exists x, x. repeat split; try done; set_solver.
  - destruct (exists_last (l := n :: k) ltac:(done)) as (k' & q & Hk).
    assert (links it (x :: n :: k ++ [x])) as Hl1 by exact Hl.
    assert (links it (((x :: k') ++ q :: [x]))) as Hl2.
    { replace ((x :: k') ++ [q; x]) with ((x :: (k' ++ [q])) ++ [x]) by (cbn; by rewrite <- app_assoc). by rewrite <- Hk. }
    apply links_app in Hl2 as [_ [[H3 H4] _]]. destruct Hl1 as [[H1 H2] _].
    assert (forall y, y ∈ n :: k -> y ∈ l1 ++ x :: l2) as Hin.
    { intros y Hy. rewrite <- E in Hy. set_solver. }
    exists n, q. repeat split; try done; apply Hin; [|rewrite Hk]; set_solver.
Qed.

(** The records seen through their views: links, blocks and the rest of the cells. *)
Record view (it : gmap Z Item) (fn fp : Z -> option Z) (fb : Z -> option Block)
    (fg : Z -> option (Z * Z * Z * option (list Z))) : Prop := {
  v_nxt : forall q, nxt it q = fn q;
  v_prv : forall q, prv it q = fp q;
  v_blk : forall q, blk it q = fb q;
  v_geom : forall q, geom it q = fg q
}.

Definition fupd {A} (p : Z) (a : A) (f : Z -> option A) (q : Z) : option A :=
  if decide (q = p) then Some a else f q.

Lemma view_refl it : view it (nxt it) (prv it) (blk it) (geom it).
Proof. by split. Qed.

Lemma view_cell it fn fp fb fg p n : view it fn fp fb fg -> fn p = Some n ->
  exists c, cellv it p = Some c /\ next c = n /\ fp p = Some (prev c).
Proof.
  intros [H1 H2 _ _] Hp. rewrite <- H1 in Hp. rewrite <- (H2 p).
  unfold nxt, prv in *. destruct (cellv it p) as [c|]; simplify_eq/=. eauto.
Qed.

Lemma cellv_same it it' q : nxt it' q = nxt it q -> prv it' q = prv it q -> geom it' q = geom it q ->
  cellv it' q = cellv it q.
Proof.
  unfold nxt, prv, geom. destruct (cellv it q) as [[]|], (cellv it' q) as [[]|]; naive_solver.
Qed.

Lemma wp_set_next it m ps bs k fn fp fb fg p v n (Q : unit -> St -> Prop) : view it fn fp fb fg -> fn p = Some n ->
  (forall it', view it' (fupd p v fn) fp fb fg -> Q tt (mk_st m it' ps bs k)) ->
  wp (upd_cell p (set_next v)) Q (mk_st m it ps bs k).
Proof.
  intros HV Hp HQ. destruct (view_cell _ _ _ _ _ _ _ HV Hp) as (c & Hc & _).
  eapply wp_upd_cell; [exact Hc|]. apply HQ. destruct HV as [H1 H2 H3 H4]. split; intros q; unfold fupd.
  - rewrite <- H1. unfold nxt. rewrite cellv_insert. by case_decide.
  - rewrite <- H2. unfold prv. rewrite cellv_insert. case_decide; [subst; by rewrite Hc|done].
  - rewrite <- H3. by eapply blk_insert_cell.
  - rewrite <- H4. unfold geom. rewrite cellv_insert. case_decide; [subst; by rewrite Hc|done].
Qed.

Lemma wp_set_prev it m ps bs k fn fp fb fg p v n (Q : unit -> St -> Prop) : view it fn fp fb fg -> fn p = Some n ->
  (forall it', view it' fn (fupd p v fp) fb fg -> Q tt (mk_st m it' ps bs k)) ->
  wp (upd_cell p (set_prev v)) Q (mk_st m it ps bs k).
Proof.
  intros HV Hp HQ. destruct (view_cell _ _ _ _ _ _ _ HV Hp) as (c & Hc & _).
  eapply wp_upd_cell; [exact Hc|]. apply HQ. destruct HV as [H1 H2 H3 H4]. split; intros q; unfold fupd.
  - rewrite <- H1. unfold nxt. rewrite cellv_insert. case_decide; [subst; by rewrite Hc|done].
  - rewrite <- H2. unfold prv. rewrite cellv_insert. by case_decide.
  - rewrite <- H3. by eapply blk_insert_cell.
  - rewrite <- H4. unfold geom. rewrite cellv_insert. case_decide; [subst; by rewrite Hc|done].
Qed.

Lemma wp_set_block it m ps bs k fn fp fb fg p f B (Q : unit -> St -> Prop) : view it fn fp fb fg -> fb p = Some B ->
  (forall it', view it' fn fp (fupd p (f B) fb) fg -> Q tt (mk_st m it' ps bs k)) ->
  wp (upd_block p f) Q (mk_st m it ps bs k).
Proof.
  intros [H1 H2 H3 H4] Hp HQ. rewrite <- H3 in Hp. eapply wp_upd_block; [exact Hp|].
  apply HQ. split; intros q; unfold fupd.
  - rewrite <- H1. unfold nxt. by erewrite cellv_insert_block.
  - rewrite <- H2. unfold prv. by erewrite cellv_insert_block.
  - rewrite <- H3. rewrite blk_insert. by case_decide.
  - rewrite <- H4. unfold geom. by erewrite cellv_insert_block.
Qed.

Lemma wp_cell_view it m ps bs k fn fp fb fg p n q (Q : Cell -> St -> Prop) : view it fn fp fb fg ->
  fn p = Some n -> fp p = Some q ->
  (forall c, cellv it p = Some c -> next c = n -> prev c = q -> Q c (mk_st m it ps bs k)) ->
  wp (cell_at p) Q (mk_st m it ps bs k).
Proof.
  intros HV Hn Hp HQ. destruct (view_cell _ _ _ _ _ _ _ HV Hn) as (c & Hc & Hcn & Hcp).
  eapply wp_cell_at; [exact Hc|]. apply HQ; [done|done|congruence].
Qed.

Lemma wp_block_view it m ps bs k fn fp fb fg p B (Q : Block -> St -> Prop) : view it fn fp fb fg ->
  fb p = Some B -> Q B (mk_st m it ps bs k) -> wp (block_at p) Q (mk_st m it ps bs k).
Proof. intros [_ _ H _] Hb HQ. rewrite <- H in Hb. by eapply wp_block_at. Qed.

Ltac fup := unfold fupd; repeat case_decide; subst; try done; try congruence; try eassumption; try by eexists.

(** What the ring functions leave: the cells but for their links are the same, the block
    but for the ring pointer too, and so is all outside the cells [l]. *)
Record ring_step (it it' : gmap Z Item) (block : Z) (ring : Ring) (B : Block) (p : Z) (l : list Z) : Prop := {
  rs_geom : forall q, geom it' q = geom it q;
  rs_blk : forall q, blk it' q = if decide (q = block) then Some (set_ring ring p B) else blk it q;
  rs_out : forall q, q ∉ l -> cellv it' q = cellv it q
}.

Lemma view_ring_step it it' fn fp fb block ring B p l : view it' fn fp fb (geom it) ->
  (forall q, fb q = fupd block (set_ring ring p B) (blk it) q) ->
  (forall q, q ∉ l -> fn q = nxt it q /\ fp q = prv it q) -> ring_step it it' block ring B p l.
Proof.
  intros [H1 H2 H3 H4] Hb Ho. split; [done|intros q; by rewrite H3, Hb|].
  intros q Hq. destruct (Ho q Hq). apply cellv_same; [by rewrite H1|by rewrite H2|done].
Qed.

Lemma insert_ring block B ring l cell m it ps bs k : blk it block = Some B ->
  ring_ok it (ring_of ring B) l -> nxt it cell = Some 0 -> prv it cell = Some 0 ->
  cell ∉ l -> cell <> 0 ->
  wp (sec_insert_cell_ring block ring cell) (fun _ st' => exists it' l', st' = mk_st m it' ps bs k /\
    ring_step it it' block ring B cell (cell :: l) /\
    ring_ok it' cell l' /\ l' ≡ₚ cell :: l)
    (mk_st m it ps bs k).
Proof.
  intros HB [Hh Hnd Hz Hl] Hn Hp Hnin H0. pose proof (view_refl it) as V0.
  unfold sec_insert_cell_ring. do 3 step.
  eapply wp_cell_view; [exact V0|exact Hn|exact Hp|]. intros c Hc Hcn Hcp.
  assert (cell <> ring_of ring B) as Hne by (rewrite Hh; destruct l; cbn; set_solver).
  do 6 step.
  assert (forall it1 fn fp n p, view it1 fn fp (blk it) (geom it) -> fn cell = Some n -> fp cell = Some p ->
    fp n = Some cell -> fn p = Some cell -> is_Some (fn n) -> is_Some (fp p) ->
    (forall q, q ∉ cell :: l -> fn q = nxt it q /\ fp q = prv it q) ->
    (exists l', l' ≡ₚ cell :: l /\ NoDup l' /\ head l' = Some cell /\
       forall it', (forall q, nxt it' q = fn q) -> (forall q, prv it' q = fp q) -> links it' (l' ++ take 1 l')) ->
    wp (upd_block block (set_ring ring cell);; c ← cell_at cell; n ← cell_at (next c);
        m_assert (prev n =? cell);; p ← cell_at (prev c); m_assert (next p =? cell))
      (fun _ st' => exists it' l', st' = mk_st m it' ps bs k /\ ring_step it it' block ring B cell (cell :: l) /\
         ring_ok it' cell l' /\ l' ≡ₚ cell :: l) (mk_st m it1 ps bs k)) as Htail.
  { intros it1 fn fp n p V1 Fn Fp Fpn Fnp [nn Fnn] [pp Fpp] Hout (l' & Hl' & Hnd' & Hh' & Hlk).
    step. eapply wp_set_block; [exact V1|exact HB|]. intros it2 V2.
    step. eapply wp_cell_view; [exact V2|exact Fn|exact Fp|]. intros c2 _ <- <-.
    step. eapply wp_cell_view; [exact V2|exact Fnn|exact Fpn|]. intros c3 _ _ ->.
    step. apply wp_assert; [apply Z.eqb_refl|].
    step. eapply wp_cell_view; [exact V2|exact Fnp|exact Fpp|]. intros c4 _ -> _.
    apply wp_assert; [apply Z.eqb_refl|].
    exists it2, l'. split_and!; [done| |split|done].
    - eapply view_ring_step; [exact V2|done|done].
    - by destruct l' as [|y l']; simplify_eq/=.
    - done.
    - rewrite Hl'. set_solver.
    - apply Hlk; apply V2. }
  step. destruct l as [|r t].
  - cbn in Hh. rewrite Hh. cbn [Z.eqb negb].
    step. eapply wp_set_next; [exact V0|exact Hn|]. intros it1 V1.
    eapply wp_set_prev; [exact V1|fup|]. intros it2 V2.
    eapply Htail; [exact V2|fup..| |].
    + intros q Hq. split; fup; set_solver.
    + exists [cell]. split_and!; [done|apply NoDup_singleton|done|]. intros it' Hn' Hp'.
      cbn. split; [|done]. unfold link. rewrite Hn', Hp'. split; fup.
  - cbn in Hh. rewrite Hh in *. assert (r <> 0) as Hr by set_solver.
    destruct (Z.eqb_spec r 0) as [?|_]; [done|]. cbn [negb].
    assert (exists x, nxt it r = Some x /\ prv it x = Some r /\ x <> cell /\ x ∈ r :: t /\ links it (x :: match t with [] => [] | _ :: t => t ++ [r] end)) as (x & Hrx & Hxr & Hxc & Hxin & Hlx).
    { destruct t as [|x t]; cbn in Hl; destruct Hl as [[? ?] Hl]; [exists r|exists x]; split_and!; try done; set_solver. }
    destruct (ring_cell it r (r :: t) r) as (n & q & Hn1 & Hq1 & _ & _ & _ & _); [by split|set_solver|].
    destruct (ring_cell it r (r :: t) x) as (nx & qx & Hnx & _); [by split|done|].
    step. eapply wp_cell_view; [exact V0|exact Hn1|exact Hq1|]. intros rc _ Hrn _.
    assert (next rc = x) as Hrcx by congruence. rewrite Hrcx.
    step. eapply wp_set_next; [exact V0|exact Hn|]. intros it1 V1.
    step. eapply wp_set_prev; [exact V1|fup|]. intros it2 V2.
    step. apply (wp_set_prev _ _ _ _ _ _ _ _ _ x cell nx _ V2); [fup|]. intros it3 V3.
    apply (wp_set_next _ _ _ _ _ _ _ _ _ r cell x _ V3); [fup|]. intros it4 V4.
    assert (r <> cell) by set_solver.
    apply (Htail _ _ _ x r V4); [fup..| |].
    + intros y Hy. split; fup; set_solver.
    + exists (cell :: t ++ [r]). split_and!; [|..].
      * rewrite <- (Permutation_app_comm [r] t). done.
      * apply NoDup_cons. split; [set_solver|]. rewrite <- (Permutation_app_comm [r] t). done.
      * done.
      * intros it' Hn' Hp'. change (links it' ((cell :: t ++ [r]) ++ [cell])).
        destruct t as [|y t]; cbn in Hl; destruct Hl as [[Hrx' _] Hl]; rewrite Hrx in Hrx'; injection Hrx' as <-.
        { cbn. unfold link. rewrite !Hn', !Hp'. clear Hn' Hp' Htail. split_and!; fup. }
        clear Htail. apply NoDup_cons in Hnd as [Hr_nin Hnd]. apply NoDup_cons in Hnd as [Hx_nin _].
        assert (x ∉ t ++ [r]) by (rewrite elem_of_app, list_elem_of_singleton; intros [? | ->]; [done|]; apply Hr_nin; left).
        replace ((cell :: (x :: t) ++ [r]) ++ [cell]) with ((cell :: x :: t) ++ r :: [cell]) by (cbn; by rewrite <- (assoc_L (++))).
        apply links_app. split.
        -- cbn [app]. split; [unfold link; rewrite Hn', Hp'; clear Hn' Hp'; split; fup|].
           apply (links_frame it); [intros z Hz'; rewrite Hn'|intros z Hz'; rewrite Hp'|exact Hl].
           ++ rewrite app_comm_cons, removelast_last in Hz'. clear Hn' Hp'. fup; set_solver.
           ++ clear Hn' Hp'. fup; set_solver.
        -- cbn. split; [|done]. unfold link. rewrite Hn', Hp'. clear Hn' Hp'. split; fup.
Qed.

(** Taking the first cell out of a ring. *)
Lemma links_unlink it it' cell k n q : links it (cell :: k ++ [cell]) -> cell ∉ k -> NoDup k ->
  nxt it cell = Some n -> prv it cell = Some q ->
  (forall x, x <> cell -> nxt it' x = fupd q n (nxt it) x) ->
  (forall x, x <> cell -> prv it' x = fupd n q (prv it) x) ->
  links it' (k ++ take 1 k).
Proof.
  intros Hl Hc Hnd Hn Hq Hn' Hp'. destruct k as [|a k]; [done|]. cbn in Hl. destruct Hl as [[Ha Hpa] Hl].
  assert (a = n) as -> by congruence. cbn [take].
  destruct (exists_last (l := n :: k) ltac:(done)) as (k' & z & Hk). rewrite Hk in *.
  assert (links it (k' ++ [z; cell])) as Hl2.
  { assert (links it ((n :: k) ++ [cell])) as Hl' by exact Hl. by rewrite Hk, <- (assoc_L (++)) in Hl'. }
  apply links_app in Hl2 as [Hl3 [[Hz Hpz] _]]. assert (z = q) as -> by congruence.
  rewrite <- (assoc_L (++)). cbn [app]. apply links_app.
  apply NoDup_app in Hnd as (Hnd1 & Hdis & _).
  assert (cell <> q) as Hcq by set_solver. assert (n <> cell).
  { intros ->. apply Hc. rewrite <- Hk. left. }
  split.
  - destruct k' as [|b k']; [done|]. injection Hk as <- Hk. cbn [app] in *.
    assert (n ∉ k' ++ [q]) as Hnk.
    { apply NoDup_cons in Hnd1 as [? _]. rewrite elem_of_app, list_elem_of_singleton. intros [? | ->]; [done|]. apply (Hdis q); left. }
    apply (links_frame it); [| |done]; intros x Hx.
    + rewrite app_comm_cons, removelast_last in Hx. rewrite Hn' by (intros ->; apply Hc; set_solver).
      unfold fupd. case_decide; [subst; exfalso; apply (Hdis q Hx); left|done].
    + rewrite Hp' by (intros ->; apply Hc; set_solver). unfold fupd. case_decide; [by subst|done].
  - cbn. split; [|done]. split; [rewrite Hn' by done|rewrite Hp' by done]; unfold fupd; by case_decide.
Qed.

Lemma remove_ring block B ring l cell m it ps bs k : blk it block = Some B ->
  ring_ok it (ring_of ring B) l -> cell ∈ l ->
  wp (sec_remove_cell_ring block ring cell) (fun _ st' => exists it' p l', st' = mk_st m it' ps bs k /\
    ring_step it it' block ring B p l /\ ring_ok it' p l' /\ l ≡ₚ cell :: l' /\
    nxt it' cell = Some 0 /\ prv it' cell = Some 0) (mk_st m it ps bs k).
Proof.
  intros HB Hring Hin. pose proof (view_refl it) as V0.
  destruct (ring_cell _ _ _ _ Hring Hin) as (n & q & Hn & Hq & Hnl & Hql & Hnp & Hqn).
  destruct (ring_cell _ _ _ _ Hring Hnl) as (nn & nq & Hnn & _).
  destruct (ring_cell _ _ _ _ Hring Hql) as (qn & qq & _ & Hqq & _).
  destruct Hring as [Hh Hnd Hz Hl].
  assert (n <> 0 /\ q <> 0 /\ cell <> 0) as (Hn0 & Hq0 & Hc0) by (split_and!; congruence).
  assert (exists r, l = r :: tail l /\ ring_of ring B = r /\ r <> 0) as (r & Hlr & Hr & Hr0).
  { destruct l as [|r t]; [set_solver|]. exists r. split_and!; [done|done|set_solver]. }
  unfold sec_remove_cell_ring. do 4 step.
  step. eapply wp_cell_view; [exact V0|exact Hn|exact Hq|]. intros c _ Hcn Hcq. rewrite Hcn, Hcq. do 4 step.
  step. eapply wp_cell_view; [exact V0|exact Hnn|exact Hnp|]. intros c2 _ _ ->. do 2 step.
  step. eapply wp_cell_view; [exact V0|exact Hqn|exact Hqq|]. intros c3 _ -> _. do 2 step.
  (* the ring pointer *)
  set (p := if cell =? r then if n =? cell then 0 else n else r).
  step. rewrite Hr. apply wp_mono with (P := fun _ st => exists it1, st = mk_st m it1 ps bs k /\
    view it1 (nxt it) (prv it) (fupd block (set_ring ring p B) (blk it)) (geom it)).
  { destruct (Z.eqb_spec cell r) as [Ecr|Ecr]; [destruct (Z.eqb_spec n cell) as [Enc|Enc]|].
    - step. apply wp_assert; [apply Z.eqb_eq; congruence|].
      eapply wp_set_block; [exact V0|exact HB|]. intros it1 V1. eauto.
    - step. apply wp_assert; [apply negb_true_iff, Z.eqb_neq; congruence|].
      eapply wp_set_block; [exact V0|exact HB|]. intros it1 V1. eauto.
    - step. exists it. split; [done|]. destruct V0 as [? ? H3 ?]. split; [done..| |done].
      intros x. unfold fupd. case_decide; [|done]. subst x. rewrite HB. f_equal. subst p r.
      by destruct ring, B. }
  intros _ st (it1 & -> & V1). cbn beta.
  step. apply (wp_set_prev _ _ _ _ _ _ _ _ _ n q nn _ V1); [fup|]. intros it2 V2.
  step. eapply wp_cell_view; [exact V2|exact Hn| |].
  { instantiate (1 := q). fup. }
  intros c4 _ Hc4n Hc4q. rewrite Hc4n, Hc4q.
  step. apply (wp_set_next _ _ _ _ _ _ _ _ _ q n cell _ V2); [done|]. intros it3 V3.
  assert (p <> cell) as Hpc by (subst p; destruct (Z.eqb_spec cell r), (Z.eqb_spec n cell); congruence).
  step. apply (wp_set_prev _ _ _ _ _ _ _ _ _ cell 0 n _ V3); [fup|]. intros it4 V4.
  step. apply (wp_set_next _ _ _ _ _ _ _ _ _ cell 0 n _ V4); [fup|]. intros it5 V5.
  step. eapply wp_block_view; [exact V5|unfold fupd; by rewrite decide_True|].
  apply wp_assert; [apply negb_true_iff, Z.eqb_neq; by destruct ring|].
  apply list_elem_of_split in Hin as (l1 & l2 & El). rewrite El in *.
  assert (Hk : links it (cell :: (l2 ++ l1) ++ [cell])).
  { apply rotate in Hl. by rewrite <- app_comm_cons in Hl. }
  assert (Hperm : l1 ++ cell :: l2 ≡ₚ cell :: (l2 ++ l1)) by (rewrite (Permutation_app_comm l2 l1); symmetry; apply Permutation_middle).
  rewrite Hperm in Hnd. apply NoDup_cons in Hnd as [Hck Hnd].
  assert (Hlk : links it5 ((l2 ++ l1) ++ take 1 (l2 ++ l1))).
  { destruct V5 as [V5n V5p _ _]. eapply links_unlink; [exact Hk|exact Hck|exact Hnd|exact Hn|exact Hq|..];
      intros x Hx; [rewrite V5n|rewrite V5p]; clear -Hx; unfold fupd; repeat case_decide; congruence. }
  exists it5, p, (l1 ++ l2). split_and!; [done| |split| | |].
  - eapply view_ring_step; [exact V5|done|]. intros x Hx. split; clear -Hx Hnl Hql; fup; set_solver.
  - clear -Hk Hck Hn Hlr. subst p. destruct l1 as [|r' l1]; injection Hlr as Hlr.
    + subst r. rewrite Z.eqb_refl. rewrite app_nil_r in *. destruct l2 as [|y l2]; cbn in Hk; destruct Hk as [[Hk _] _].
      * assert (n = cell) as -> by congruence. by rewrite Z.eqb_refl.
      * assert (n = y) as -> by congruence. destruct (Z.eqb_spec y cell); [set_solver|done].
    + destruct (Z.eqb_spec cell r) as [->|]; [set_solver|done].
  - by rewrite (Permutation_app_comm l1 l2).
  - rewrite Hperm in Hz. set_solver.
  - by apply rotate.
  - by rewrite (Permutation_app_comm l1 l2).
  - destruct V5 as [-> _ _ _]. clear. unfold fupd. by rewrite decide_True.
  - destruct V5 as [_ -> _ _]. clear. unfold fupd. by rewrite decide_True.
Qed.

(** * Memory: what reading and writing do *)

Lemma load_Some m n : forall a l, load m a n = Some l <->
  length l = n /\ (forall i : nat, (i < n)%nat -> m !! (a + Z.of_nat i) = l !! i).
Proof.
  induction n as [|n IH]; intros a l; cbn [load].
  { split; [intros [= <-]; split; [done|lia]|]. by intros [->%length_zero_iff_nil _]. }
  split.
  - intros H. destruct (m !! a) as [b|] eqn:Hb; [|done]. cbn in H.
    destruct (load m (a + 1) n) as [k|] eqn:Hk; [|done]. injection H as <-.
    apply IH in Hk as [Hlen Hk]. split; [cbn; lia|]. intros [|i] Hi.
    + by replace (a + Z.of_nat 0) with a by lia.
    + cbn. rewrite <- Hk by lia. f_equal. lia.
  - intros [Hlen H]. destruct l as [|b l]; [done|].
    pose proof (H 0%nat ltac:(lia)) as H0. replace (a + Z.of_nat 0) with a in H0 by lia. rewrite H0. cbn.
    assert (load m (a + 1) n = Some l) as ->; [|done]. apply IH. split; [cbn in Hlen; lia|].
    intros i Hi. specialize (H (S i) ltac:(lia)). change ((b :: l) !! S i) with (l !! i) in H. rewrite <- H. f_equal. lia.
Qed.

Lemma load_agree m m' a n : (forall x, a <= x < a + Z.of_nat n -> m' !! x = m !! x) -> load m' a n = load m a n.
Proof.
  revert a. induction n as [|n IH]; intros a H; [done|]. cbn [load].
  rewrite H by lia. rewrite IH by (intros; apply H; lia). done.
Qed.

Lemma load_mapped m a n : (forall x, a <= x < a + Z.of_nat n -> is_Some (m !! x)) -> is_Some (load m a n).
Proof.
  revert a. induction n as [|n IH]; intros a H; cbn [load]; [by eexists|].
  destruct (H a ltac:(lia)) as [b ->]. destruct (IH (a + 1)) as [l ->]; [intros; apply H; lia|]. by eexists.
Qed.

Lemma load_take m a n k l : load m a n = Some l -> (k <= n)%nat -> load m a k = Some (take k l).
Proof.
  intros [Hl H]%load_Some Hk. apply load_Some. split; [rewrite length_take; lia|].
  intros i Hi. rewrite lookup_take_lt by lia. apply H. lia.
Qed.

(** The memory [m'] is [m] with the bytes [bs] written at [a]. *)
Definition wrote (m m' : Mem) (a : Z) (bs : list Z) : Prop :=
  forall x, m' !! x = if decide (a <= x < a + Zlen bs) then bs !! Z.to_nat (x - a) else m !! x.

Lemma store_wrote m a bs : (forall x, a <= x < a + Zlen bs -> is_Some (m !! x)) ->
  exists m', store m a bs = Some m' /\ wrote m m' a bs.
Proof.
  revert m a. induction bs as [|b bs IH]; intros m a H.
  { exists m. split; [done|]. intros x. rewrite decide_False by (cbn; lia). done. }
  cbn [store]. rewrite bool_decide_eq_true_2 by (apply H; cbn [length]; lia).
  destruct (IH (<[a := b]> m) (a + 1)) as (m' & -> & Hm').
  { intros x Hx. apply lookup_insert_is_Some'. right. apply H. cbn [length]. lia. }
  exists m'. split; [done|]. intros x. rewrite Hm'. cbn [length]. destruct (decide (x = a)) as [->|].
  - rewrite decide_False, decide_True by lia. rewrite lookup_insert_eq. by replace (Z.to_nat (a - a)) with O by lia.
  - rewrite lookup_insert_ne by lia. destruct (decide (a + 1 <= x < a + 1 + Zlen bs)).
    + rewrite decide_True by lia. by replace (Z.to_nat (x - a)) with (S (Z.to_nat (x - (a + 1)))) by lia.
    + by rewrite decide_False by lia.
Qed.

Lemma wrote_other m m' a bs x : wrote m m' a bs -> ~ (a <= x < a + Zlen bs) -> m' !! x = m !! x.
Proof. intros H Hx. rewrite H. by rewrite decide_False. Qed.

Lemma wrote_mapped m m' a bs : wrote m m' a bs -> forall x, is_Some (m !! x) -> is_Some (m' !! x).
Proof.
  intros H x Hx. rewrite H. case_decide; [|done]. apply lookup_lt_is_Some. lia.
Qed.

Lemma wrote_load m m' a bs : wrote m m' a bs -> load m' a (length bs) = Some bs.
Proof.
  intros H. apply load_Some. split; [done|]. intros i Hi. rewrite H, decide_True by lia.
  f_equal. lia.
Qed.

(** A pointer [v] is stored at [a]. *)
Definition word_at (m : Mem) (a v : Z) : Prop := load m a 8 = Some (le_bytes 8 v).

Lemma word_at_agree m m' a v : (forall x, a <= x < a + 8 -> m' !! x = m !! x) -> word_at m a v -> word_at m' a v.
Proof. unfold word_at. intros H <-. by apply load_agree. Qed.

Lemma wp_load_word a v (Q : Z -> St -> Prop) st : word_at (mem st) a v -> 0 <= v < 2 ^ 64 -> Q v st ->
  wp (load_word a) Q st.
Proof.
  unfold wp, load_word, word_at. intros -> Hv HQ. rewrite le_val_bytes, Z.mod_small; [done|].
  change (256 ^ Z.of_nat 8) with (2 ^ 64). lia.
Qed.

Lemma wp_write m it ps bl k a bs (Q : unit -> St -> Prop) :
  (forall x, a <= x < a + Zlen bs -> is_Some (m !! x)) ->
  (forall m', wrote m m' a bs -> Q tt (mk_st m' it ps bl k)) -> wp (write a bs) Q (mk_st m it ps bl k).
Proof.
  intros H HQ. unfold wp, write. cbn [mem]. destruct (store_wrote m a bs H) as (m' & -> & Hm'). by apply HQ.
Qed.

Lemma wp_store_word m it ps bl k a v (Q : unit -> St -> Prop) :
  (forall x, a <= x < a + 8 -> is_Some (m !! x)) ->
  (forall m', word_at m' a v -> (forall x, ~ (a <= x < a + 8) -> m' !! x = m !! x) ->
     (forall x, is_Some (m !! x) -> is_Some (m' !! x)) -> Q tt (mk_st m' it ps bl k)) ->
  wp (store_word a v) Q (mk_st m it ps bl k).
Proof.
  intros H HQ. apply wp_write; [exact H|]. intros m' Hm'. apply HQ.
  - exact (wrote_load _ _ _ _ Hm').
  - intros x Hx. by eapply wrote_other.
  - by eapply wrote_mapped.
Qed.

Lemma wp_memset0 m it ps bl k a n (Q : unit -> St -> Prop) : 0 <= n ->
  (forall x, a <= x < a + n -> is_Some (m !! x)) ->
  (forall m', load m' a (Z.to_nat n) = Some (replicate (Z.to_nat n) 0) ->
     (forall x, ~ (a <= x < a + n) -> m' !! x = m !! x) ->
     (forall x, is_Some (m !! x) -> is_Some (m' !! x)) -> Q tt (mk_st m' it ps bl k)) ->
  wp (memset0 a n) Q (mk_st m it ps bl k).
Proof.
  intros Hn H HQ. assert (Zlen (replicate (Z.to_nat n) 0) = n) as Hl by (rewrite length_replicate; lia).
  apply wp_write; [rewrite Hl; exact H|]. intros m' Hm'. apply HQ.
  - pose proof (wrote_load _ _ _ _ Hm') as HL. by rewrite length_replicate in HL.
  - intros x Hx. eapply wrote_other; [exact Hm'|lia].
  - by eapply wrote_mapped.
Qed.

Lemma map_zero_lookup m a n x : map_zero m a n !! x = if decide (a <= x < a + Z.of_nat n) then Some 0 else m !! x.
Proof.
  revert a. induction n as [|n IH]; intros a; cbn [map_zero].
  { by rewrite decide_False by lia. }
  destruct (decide (x = a)) as [->|]; simplify_map_eq; [by rewrite decide_True by lia|].
  rewrite IH. repeat case_decide; lia || done.
Qed.

Lemma unmap_lookup m a n x : unmap m a n !! x = if decide (a <= x < a + Z.of_nat n) then None else m !! x.
Proof.
  revert a. induction n as [|n IH]; intros a; cbn [unmap].
  { by rewrite decide_False by lia. }
  destruct (decide (x = a)) as [->|]; simplify_map_eq; [by rewrite decide_True by lia|].
  rewrite IH. repeat case_decide; lia || done.
Qed.

(** * The pool *)

Definition slots (pool : Pool) : list Z := pool_slots (base pool) (n_items pool).
Definition owns (pool : Pool) (p : Z) : Prop := p ∈ slots pool /\ p ∉ unused pool.
Definition owned (pools : list Pool) (p : Z) : Prop := Exists (fun pool => owns pool p) pools.
Definition apart (p q : Pool) : Prop :=
  base p + plength p <= base q \/ base q + plength q <= base p.

Fixpoint all_apart (pools : list Pool) : Prop :=
  match pools with [] => True | pool :: pools => Forall (apart pool) pools /\ all_apart pools end.

(** A pool is an array of items, of which the unused ones are on the stack. *)
Record pool_ok (pool : Pool) : Prop := {
  po_base : 0 < base pool;
  po_end : base pool + plength pool <= 2 ^ 63;
  po_items : n_items pool = (plength pool - sizeof_Pool) / sizeof_Item;
  po_length : sizeof_Pool <= plength pool;
  po_nodup : NoDup (unused pool);
  po_sub : forall p, p ∈ unused pool -> p ∈ slots pool;
  po_used : used pool = n_items pool - Zlen (unused pool)
}.

Record pools_ok (st : St) : Prop := {
  ps_ok : Forall pool_ok (pool_data st);
  ps_apart : all_apart (pool_data st);
  ps_items : forall p, is_Some (items st !! p) -> owned (pool_data st) p
}.

Lemma elem_of_slots pool p : p ∈ slots pool <->
  exists i, 0 <= i < n_items pool /\ p = base pool + offset_items + sizeof_Item * i.
Proof.
  unfold slots, pool_slots. rewrite list_elem_of_fmap. setoid_rewrite elem_of_seqZ.
  split; intros (i & H1 & H2); exists i; split; first [done | lia].
Qed.

Lemma slots_length base n : 0 <= n -> Zlen (pool_slots base n) = n.
Proof. intros. unfold pool_slots. rewrite length_fmap, length_seqZ. lia. Qed.

Lemma slots_nodup base n : NoDup (pool_slots base n).
Proof.
  unfold pool_slots. apply NoDup_fmap_2_strong; [|apply NoDup_seqZ].
  intros x y _ _. unfold sizeof_Item. lia.
Qed.

Lemma slot_contained pool p : pool_ok pool -> p ∈ slots pool ->
  pool_contains pool p = true /\ (p - (base pool + offset_items)) mod sizeof_Item = 0 /\
  base pool <= p < base pool + plength pool.
Proof.
  intros [? ? Hn ? _ _ _] (i & Hi & ->)%elem_of_slots. unfold sizeof_Pool, sizeof_Item, offset_items in *.
  assert (48 * i <= plength pool - 88 - 48) by (pose proof (Z.mul_div_le (plength pool - 88) 48); nia).
  split_and!; try lia.
  - unfold pool_contains, offset_items, sizeof_Item. apply andb_true_iff. rewrite !Z.leb_le. lia.
  - replace (base pool + 40 + 48 * i - (base pool + 40)) with (i * 48) by lia. by apply Z.mod_mul.
Qed.

Lemma contained_range pool p : pool_ok pool -> pool_contains pool p = true -> base pool <= p < base pool + plength pool.
Proof.
  intros [] H. unfold pool_contains, offset_items, sizeof_Item, sizeof_Pool in *.
  apply andb_true_iff in H. rewrite !Z.leb_le in H. lia.
Qed.

Lemma n_items_nonneg pool : pool_ok pool -> 0 <= n_items pool.
Proof. intros [? ? -> ? _ _ _]. unfold sizeof_Pool, sizeof_Item in *. apply Z.div_pos; lia. Qed.

Lemma owns_used pool p : pool_ok pool -> owns pool p -> 0 < used pool.
Proof.
  intros Hok [Hp Hu]. pose proof (n_items_nonneg _ Hok). destruct Hok as [_ _ _ _ Hnd Hsub ->].
  assert (p :: unused pool ⊆+ slots pool) as Hs.
  { apply NoDup_submseteq; [by apply NoDup_cons|]. intros x [->|Hx]%elem_of_cons; auto. }
  apply submseteq_length in Hs. cbn in Hs. pose proof (slots_length (base pool) (n_items pool)). unfold slots in *. lia.
Qed.

Lemma owns_last pool p q : pool_ok pool -> owns pool p -> owns pool q -> used pool = 1 -> q = p.
Proof.
  intros Hok [Hp Hpu] [Hq Hqu] H1. pose proof (n_items_nonneg _ Hok). destruct Hok as [_ _ _ _ Hnd Hsub Hus].
  destruct (decide (q = p)) as [|Hne]; [done|exfalso].
  assert (q :: p :: unused pool ⊆+ slots pool) as Hs.
  { apply NoDup_submseteq; [apply NoDup_cons; split; [set_solver|by apply NoDup_cons]|].
    intros x [->|[->|Hx]%elem_of_cons]%elem_of_cons; auto. }
  apply submseteq_length in Hs. cbn in Hs. pose proof (slots_length (base pool) (n_items pool)). unfold slots in *. lia.
Qed.

Lemma owned_range pools pool p : Forall pool_ok pools -> Forall (apart pool) pools -> owned pools p ->
  ~ (base pool <= p < base pool + plength pool).
Proof.
  intros Hok Hap Ho Hp. induction Ho as [q pools [Hq _]|q pools _ IH]; apply Forall_cons in Hok as [Hq' Hok], Hap as [Ha Hap]; [|auto].
  destruct (slot_contained _ _ Hq' Hq) as (_ & _ & ?). destruct Ha; lia.
Qed.

Lemma owned_pos pools p : Forall pool_ok pools -> owned pools p -> 0 < p < 2 ^ 63.
Proof.
  intros Hok Ho. apply Exists_exists in Ho as (pool & Hin & Hp & _). rewrite Forall_forall in Hok. specialize (Hok _ Hin).
  destruct (slot_contained _ _ Hok Hp) as (_ & _ & ?). destruct Hok. lia.
Qed.

Lemma owned_valid pools p : Forall pool_ok pools -> all_apart pools -> owned pools p -> pool_valid pools p = true.
Proof.
  induction pools as [|pool pools IH]; intros Hok Hap Ho; [by apply Exists_nil in Ho|].
  apply Forall_cons in Hok as [Hp Hok]. destruct Hap as [Hap Hall]. cbn [pool_valid].
  apply Exists_cons in Ho as [Hown|Ho].
  - pose proof (owns_used _ _ Hp Hown). destruct Hown as [Hs _].
    destruct (slot_contained _ _ Hp Hs) as (-> & -> & _). apply andb_true_iff. split; [|done].
    apply negb_true_iff, Z.eqb_neq. lia.
  - pose proof (owned_range _ _ _ Hok Hap Ho) as Hr. destruct (pool_contains pool p) eqn:E; [|auto].
    by apply (contained_range _ _ Hp) in E.
Qed.

(** The ranges of the pools of a list. *)
Definition ranges (pools : list Pool) : list (Z * Z) := (fun p => (base p, plength p)) <$> pools.

Lemma apart_ranges pool pools pools' : ranges pools' ⊆ ranges pools -> Forall (apart pool) pools -> Forall (apart pool) pools'.
Proof.
  intros H Hf. apply Forall_forall. intros q Hq. rewrite Forall_forall in Hf.
  assert ((base q, plength q) ∈ ranges pools) as (q' & E & Hq')%list_elem_of_fmap.
  { apply H. apply list_elem_of_fmap. by exists q. }
  injection E as E1 E2. specialize (Hf _ Hq'). unfold apart in *. lia.
Qed.

Lemma pools_pop_spec pools p pools' : Forall pool_ok pools -> all_apart pools -> pools_pop pools = Some (p, pools') ->
  Forall pool_ok pools' /\ all_apart pools' /\ ranges pools' = ranges pools /\
  ~ owned pools p /\ owned pools' p /\ (forall q, owned pools q -> owned pools' q).
Proof.
  revert pools'. induction pools as [|pool pools IH]; intros pools' Hok Hap H; [done|].
  apply Forall_cons in Hok as [Hp Hok]. destruct Hap as [Hap Hall]. cbn [pools_pop] in H.
  unfold pool_pop in H. destruct (unused pool) as [|x u] eqn:Hu.
  - destruct (pools_pop pools) as [[y t]|] eqn:Ht; [|done]. injection H as -> <-.
    destruct (IH _ Hok Hall eq_refl) as (H1 & H2 & H3 & H4 & H5 & H6). split_and!.
    + by apply Forall_cons.
    + split; [|done]. eapply apart_ranges; [|exact Hap]. by rewrite H3.
    + change (ranges (pool :: t) = (base pool, plength pool) :: ranges pools). by rewrite <- H3.
    + intros [[Hs _]|Ho]%Exists_cons; [|done].
      assert (Forall (apart pool) t) as Hap' by (eapply apart_ranges; [|exact Hap]; by rewrite H3).
      destruct (slot_contained _ _ Hp Hs) as (_ & _ & ?). by apply (owned_range _ _ _ H1 Hap' H5).
    + by apply Exists_cons_tl.
    + intros q [?|Hq]%Exists_cons; [by apply Exists_cons_hd|apply Exists_cons_tl, (H6 _ Hq)].
  - injection H as -> <-. destruct Hp as [? ? ? ? Hnd Hsub Hus]. rewrite Hu in *.
    apply NoDup_cons in Hnd as [Hx Hnd]. split_and!.
    + apply Forall_cons. split; [|done]. split; cbn; try done; [intros q Hq; apply Hsub; by right|].
      cbn [length] in Hus. lia.
    + split; [|done]. eapply Forall_impl; [exact Hap|]. done.
    + done.
    + intros [[_ Hs]|Ho]%Exists_cons; [rewrite Hu in Hs; set_solver|].
      assert (pool_ok pool) as Hpok by (split; rewrite ?Hu; try done; by apply NoDup_cons).
      destruct (slot_contained pool p Hpok) as (_ & _ & ?); [apply Hsub; left|]. by apply (owned_range _ _ _ Hok Hap Ho).
    + apply Exists_cons_hd. split; [apply Hsub; left|done].
    + intros q [[Hs1 Hs2]|?]%Exists_cons; [|by apply Exists_cons_tl]. apply Exists_cons_hd. split; [done|].
      cbn. rewrite Hu in Hs2. set_solver.
Qed.

Lemma pools_push_spec pools p : Forall pool_ok pools -> all_apart pools -> owned pools p ->
  exists pools', pools_push pools p = Ok pools' /\ Forall pool_ok pools' /\ all_apart pools' /\
    ranges pools' ⊆ ranges pools /\ (forall q, q <> p -> owned pools q -> owned pools' q).
Proof.
  induction pools as [|pool pools IH]; intros Hok Hap Ho; [by apply Exists_nil in Ho|].
  apply Forall_cons in Hok as [Hp Hok]. destruct Hap as [Hap Hall]. cbn [pools_push].
  destruct (pool_contains pool p) eqn:Hc.
  - apply Exists_cons in Ho as [Hown|Ho].
    2:{ pose proof (contained_range _ _ Hp Hc). by apply (owned_range _ _ _ Hok Hap) in Ho. }
    pose proof (owns_used _ _ Hp Hown) as Hpos. destruct (slot_contained _ _ Hp (proj1 Hown)) as (_ & Hmod & _).
    rewrite Hmod. run. assert_ok. destruct (Z.eqb_spec (used pool) 1) as [H1|H1].
    + exists pools. split_and!; [done..|set_solver|].
      intros q Hq [Hown'|?]%Exists_cons; [|done]. by pose proof (owns_last _ _ _ Hp Hown Hown' H1).
    + eexists. split; [reflexivity|]. destruct Hp as [? ? ? ? Hnd Hsub Hus]. destruct Hown as [Hs Hu]. split_and!.
      * apply Forall_cons. split; [|done]. split; cbn [base plength used unused n_items]; try done; [by apply NoDup_cons|..].
        -- intros q [->|Hq]%elem_of_cons; [done|by apply Hsub].
        -- cbn [length]. lia.
      * split; [|done]. eapply Forall_impl; [exact Hap|]. done.
      * done.
      * intros q Hq [[Hs1 Hs2]|?]%Exists_cons; [|by apply Exists_cons_tl]. apply Exists_cons_hd. split; [done|].
        cbn. set_solver.
  - apply Exists_cons in Ho as [[Hs _]|Ho]; [by destruct (slot_contained _ _ Hp Hs) as (? & _); congruence|].
    destruct (IH Hok Hall Ho) as (t & -> & H1 & H2 & H3 & H4). exists (pool :: t). run. split_and!; [done| | | |].
    + by apply Forall_cons.
    + split; [by eapply apart_ranges|done].
    + unfold ranges in *. cbn. set_solver.
    + intros q Hq [?|Hq']%Exists_cons; [by apply Exists_cons_hd|apply Exists_cons_tl, (H4 _ Hq Hq')].
Qed.

(** What is documented of the system: pages are a power of two, of 4096 bytes at least,
    and [mmap] gives page-aligned memory that nothing else occupies. *)
Record fresh_pages (pgsize : Z) (st : St) (len a : Z) : Prop := {
  fp_pos : 0 < a;
  fp_aligned : a mod pgsize = 0;
  fp_end : a + len <= 2 ^ 63;
  fp_mem : forall x, a <= x < a + len -> mem st !! x = None;
  fp_pools : Forall (fun pool => a + len <= base pool \/ base pool + plength pool <= a) (pool_data st)
}.

Class SystemLaws `{System} : Prop := {
  page_size : exists k, 12 <= k <= 30 /\ getpagesize = 2 ^ k;
  mmap_fresh st len a : mmap st len = Some a -> fresh_pages getpagesize st len a
}.

Section PoolSpecs.
Context `{SystemLaws}.

Lemma page_bounds : 4096 <= getpagesize <= 2 ^ 30.
Proof.
  destruct page_size as (k & Hk & ->). split; [change 4096 with (2 ^ 12)|]; apply Z.pow_le_mono_r; lia.
Qed.

Lemma pool_new_ok st a : fresh_pages getpagesize st (getpagesize * 2) a -> pool_ok (pool_new a (getpagesize * 2)).
Proof.
  intros [? ? ? ? ?]. pose proof page_bounds.
  assert (0 <= (getpagesize * 2 - sizeof_Pool) / sizeof_Item) by (apply Z.div_pos; unfold sizeof_Pool, sizeof_Item; lia).
  split; cbn [base plength used unused n_items pool_new]; try done.
  - unfold sizeof_Pool. lia.
  - rewrite <- Permutation_rev. apply slots_nodup.
  - intros p Hp. by rewrite <- Permutation_rev in Hp.
  - rewrite length_rev, slots_length by done. lia.
Qed.

Lemma wp_pool_alloc zero m it ps bl k (Q : Z -> St -> Prop) : pools_ok (mk_st m it ps bl k) ->
  (forall ps' k', pools_ok (mk_st m it ps' bl k') -> Q 0 (mk_st m it ps' bl k')) ->
  (forall p ps' k', pools_ok (mk_st m (<[p := zero]> it) ps' bl k') -> 0 < p < 2 ^ 63 -> it !! p = None ->
     Q p (mk_st m (<[p := zero]> it) ps' bl k')) ->
  wp (pool_alloc zero) Q (mk_st m it ps bl k).
Proof.
  intros [Hok Hap Hit] Hfail Hdone. cbn [pool_data items] in *. unfold wp, pool_alloc.
  destruct (negb _); [by apply Hfail|]. cbn [pool_data].
  assert (forall ps0 ps' p k', Forall pool_ok ps0 -> all_apart ps0 -> (forall q, is_Some (it !! q) -> owned ps0 q) ->
    pools_pop ps0 = Some (p, ps') -> Q p (mk_st m (<[p := zero]> it) ps' bl k')) as Hpop.
  { intros ps0 ps' p k' Hok0 Hap0 Hit0 Hp.
    destruct (pools_pop_spec _ _ _ Hok0 Hap0 Hp) as (H1 & H2 & _ & H4 & H5 & H6). apply Hdone.
    - split; cbn [pool_data items]; [done..|]. intros q Hq. destruct (decide (q = p)) as [->|]; [done|].
      rewrite lookup_insert_ne in Hq by done. by apply H6, Hit0.
    - by eapply owned_pos.
    - apply eq_None_not_Some. intros Hs. by apply H4, Hit0. }
  destruct (pools_pop ps) as [[p ps']|] eqn:Hp; [by eapply Hpop|].
  destruct (mmap _ _) as [a|] eqn:Hm; [|by apply Hfail]. apply mmap_fresh in Hm.
  pose proof (pool_new_ok _ _ Hm) as Hnew.
  assert (exists p ps', pools_pop (pool_new a (getpagesize * 2) :: ps) = Some (p, ps')) as (p & ps' & Hpp).
  { cbn [pools_pop]. unfold pool_pop. destruct (unused (pool_new a (getpagesize * 2))) as [|x u] eqn:E; [exfalso|by eauto].
    apply (f_equal length) in E. cbn [unused pool_new] in E. rewrite length_rev in E.
    pose proof page_bounds. assert (1 <= (getpagesize * 2 - sizeof_Pool) / sizeof_Item).
    { apply Z.div_le_lower_bound; unfold sizeof_Item, sizeof_Pool; lia. }
    pose proof (slots_length a ((getpagesize * 2 - sizeof_Pool) / sizeof_Item)). cbn in E. lia. }
  rewrite Hpp. eapply (Hpop _ _ _ (S k)); [| | |exact Hpp].
  - by apply Forall_cons.
  - split; [|done]. destruct Hm as [_ _ _ _ Hfp]. exact Hfp.
  - intros q Hq. by apply Exists_cons_tl, Hit.
Qed.

Lemma wp_pool_free p m it ps bl k (Q : unit -> St -> Prop) : pools_ok (mk_st m it ps bl k) ->
  is_Some (it !! p) ->
  (forall ps', pools_ok (mk_st m (delete p it) ps' bl k) -> Q tt (mk_st m (delete p it) ps' bl k)) ->
  wp (pool_free p) Q (mk_st m it ps bl k).
Proof.
  intros [Hok Hap Hit] Hp HQ. cbn [pool_data items] in *. unfold wp, pool_free. cbn [pool_data].
  destruct (pools_push_spec _ _ Hok Hap (Hit _ Hp)) as (ps' & -> & H1 & H2 & _ & H4). apply HQ.
  split; cbn [pool_data items]; [done..|]. intros q Hq. apply lookup_delete_is_Some in Hq as [? Hq].
  apply H4; [done|by apply Hit].
Qed.
End PoolSpecs.

Lemma pool_valid_item st p : pools_ok st -> is_Some (items st !! p) ->
  pool_valid (pool_data st) p = true /\ 0 < p < 2 ^ 63.
Proof.
  intros [Hok Hap Hit] Hp. split; [apply owned_valid; auto|eapply owned_pos; eauto].
Qed.

(** * Steps that keep the links *)

(** Only the cell [d] changed, and not its links. *)
Record geom_step (it it' : gmap Z Item) (d : Z) (g : Z * Z * Z * option (list Z)) : Prop := {
  gs_nxt : forall q, nxt it' q = nxt it q;
  gs_prv : forall q, prv it' q = prv it q;
  gs_blk : forall q, blk it' q = blk it q;
  gs_geom : forall q, geom it' q = if decide (q = d) then Some g else geom it q;
  gs_out : forall q, q <> d -> cellv it' q = cellv it q
}.

Lemma geom_cell it p w n r t : geom it p = Some (w, n, r, t) ->
  exists c, cellv it p = Some c /\ words c = w /\ n_words c = n /\ requested c = r /\ tag c = t.
Proof. unfold geom. destruct (cellv it p) as [c|]; [|done]. intros [= <- <- <- <-]. by exists c. Qed.

Lemma wp_geom_step m it ps bl k d f c g (Q : unit -> St -> Prop) : cellv it d = Some c ->
  next (f c) = next c -> prev (f c) = prev c -> g = (words (f c), n_words (f c), requested (f c), tag (f c)) ->
  (forall it', geom_step it it' d g -> Q tt (mk_st m it' ps bl k)) ->
  wp (upd_cell d f) Q (mk_st m it ps bl k).
Proof.
  intros Hc Hn Hp -> HQ. eapply wp_upd_cell; [exact Hc|]. apply HQ.
  split; intros q; unfold nxt, prv, geom; rewrite ?cellv_insert.
  - case_decide; [subst; rewrite Hc; cbn; by rewrite Hn|done].
  - case_decide; [subst; rewrite Hc; cbn; by rewrite Hp|done].
  - by eapply blk_insert_cell.
  - by case_decide.
  - intros. by rewrite decide_False.
Qed.

Lemma ring_links_same it it' p l : (forall x, x ∈ l -> nxt it' x = nxt it x /\ prv it' x = prv it x) ->
  ring_ok it p l -> ring_ok it' p l.
Proof.
  intros H [? ? ? Hl]. split; [done..|].
  assert (forall k, (forall x, x ∈ k -> x ∈ l) -> links it k -> links it' k) as Hk.
  { induction k as [|a [|b k] IH]; [done|done|]. intros Hin [[H1 H2] H3].
    destruct (H a) as [Ha _]; [apply Hin; left|]. destruct (H b) as [_ Hb]; [apply Hin; right; left|].
    split; [split; congruence|]. apply IH; [|done]. intros x Hx. apply Hin. by right. }
  apply Hk; [|done]. intros x [Hx|Hx]%elem_of_app; [done|]. destruct l; [done|].
  cbn in Hx. apply list_elem_of_singleton in Hx as ->. left.
Qed.

Lemma ring_geom_step it it' d g p l : geom_step it it' d g -> ring_ok it p l -> ring_ok it' p l.
Proof. intros [Hn Hp _ _ _]. apply ring_links_same. auto. Qed.

Lemma cells_size it (l : list Z) : NoDup l -> (forall x, x ∈ l -> is_Some (it !! x)) -> (length l <= size (it : gmap Z Item))%nat.
Proof.
  intros Hnd H. rewrite <- (size_dom it), <- (size_list_to_set (C := gset Z) l Hnd).
  apply subseteq_size. intros x Hx%elem_of_list_to_set. apply elem_of_dom. auto.
Qed.

Lemma cellv_item it p c : cellv it p = Some c -> is_Some (it !! p).
Proof. unfold cellv. destruct (it !! p); [by eexists|done]. Qed.
Lemma blk_item it p B : blk it p = Some B -> is_Some (it !! p).
Proof. unfold blk. destruct (it !! p); [by eexists|done]. Qed.
Lemma geom_item it p g : geom it p = Some g -> is_Some (it !! p).
Proof. unfold geom. intros H. destruct (cellv it p) eqn:E; [by eapply cellv_item|done]. Qed.

(** No step but [pool_alloc] makes a record. *)
Lemma views_items (it it' : gmap Z Item) q : (is_Some (geom it' q) -> is_Some (it !! q)) ->
  (is_Some (blk it' q) -> is_Some (it !! q)) -> is_Some (it' !! q) -> is_Some (it !! q).
Proof.
  unfold geom, cellv, blk. destruct (it' !! q) as [[]|]; cbn; intros H1 H2 H3; [apply H1|apply H2|by destruct H3]; by eexists.
Qed.

Lemma ring_step_items it it' block ring B p l q : ring_step it it' block ring B p l -> blk it block = Some B ->
  is_Some (it' !! q) -> is_Some (it !! q).
Proof.
  intros [Hg Hb _] HB. apply views_items.
  - rewrite Hg. intros [? Hq]. by eapply geom_item.
  - rewrite Hb. case_decide; [subst; intros _|intros [? Hq]]; by eapply blk_item.
Qed.

Lemma geom_step_items it it' d g c q : geom_step it it' d g -> cellv it d = Some c ->
  is_Some (it' !! q) -> is_Some (it !! q).
Proof.
  intros [_ _ Hb Hg _] Hc. apply views_items.
  - rewrite Hg. case_decide; [subst; intros _; by eapply cellv_item|]. intros [? Hq]. by eapply geom_item.
  - rewrite Hb. intros [? Hq]. by eapply blk_item.
Qed.
