(* ===== verification/SecureMemory.v ===== *)
(** Secure memory, the upper half of [src/egg/egg-secure-memory.c]: cells and their
    guards ([sec_alloc], [sec_free], [sec_realloc], [sec_validate]), blocks of locked
    pages ([sec_block_create], [sec_block_destroy]) and the public functions. *)

From S2P Require Import Prelude StateM SecurePool.
Local Open Scope Z_scope.

Definition DEFAULT_BLOCK_SIZE : Z := 16384.
Definition WASTE : Z := 4.
Definition EGG_SECURE_USE_FALLBACK : Z := 1.
Definition sizeof_word : Z := 8.

(** * Cells and guards *)

Definition sec_size_to_words (length : Z) : Z :=
  (if negb (length mod sizeof_word =? 0) then 1 else 0) + length / sizeof_word.

Definition sec_write_guards (cell : Z) : M unit :=
  c ← cell_at cell;
  store_word (words c) cell;;
  store_word (words c + sizeof_word * (n_words c - 1)) cell.

Definition sec_check_guards (cell : Z) : M unit :=
  c ← cell_at cell;
  w ← load_word (words c);
  m_assert (w =? cell);;
  w ← load_word (words c + sizeof_word * (n_words c - 1));
  m_assert (w =? cell).

Definition sec_cell_to_memory (c : Cell) : Z := words c + sizeof_word.

Definition sec_is_valid_word (b : Block) (word : Z) : bool :=
  (bl_words b <=? word) && (word <? bl_words b + sizeof_word * bl_n_words b).

(** [sec_clear_undefined] and [sec_clear_noaccess], which differ for valgrind only. *)
Definition sec_clear (memory from to : Z) : M unit :=
  m_assert (from <=? to);; memset0 (memory + from) (to - from).

Definition sec_neighbor_before (block cell : Z) : M Z :=
  c ← cell_at cell;
  b ← block_at block;
  let word := words c - sizeof_word in
  if negb (sec_is_valid_word b word) then mret 0
  else cell ← load_word word; sec_check_guards cell;; mret cell.

Definition sec_neighbor_after (block cell : Z) : M Z :=
  c ← cell_at cell;
  b ← block_at block;
  let word := words c + sizeof_word * n_words c in
  if negb (sec_is_valid_word b word) then mret 0
  else cell ← load_word word; sec_check_guards cell;; mret cell.

(** The cell a pointer handed out belongs to, by the guard before it. *)
Definition sec_cell_of (block memory : Z) : M Z :=
  b ← block_at block;
  let word := memory - sizeof_word in
  m_assert (sec_is_valid_word b word);;
  cell ← load_word word;
  pools ← gets pool_data;
  m_assert (pool_valid pools cell);;
  mret cell.

(** Fuel for the loops over cells: there are no more cells than records. *)
Definition cell_fuel : M nat := gets (fun st => S (size (items st))).

(** * Allocation inside a block *)

(** The search of the ring of unused cells for one with enough words. *)
Fixpoint find_cell (fuel : nat) (first cell n : Z) : M Z :=
  match fuel with
  | O => out_of_fuel
  | S fuel =>
    c ← cell_at cell;
    if n_words c <? n then
      if next c =? first then mret 0 else find_cell fuel first (next c) n
    else mret cell
  end.

Section Sec.
Context `{System}.

(** The part of [sec_alloc] that steals from the front of a cell that is too long; the
    result is the cell to use, NULL when there was no record for it. *)
Definition sec_cut (cell n : Z) : M Z :=
  c ← cell_at cell;
  if n + WASTE <? n_words c then
    other ← pool_alloc (ICell zero_cell);
    if other =? 0 then mret 0 else
    upd_cell other (set_geom (words c) n);;
    upd_cell cell (set_geom (words c + sizeof_word * n) (n_words c - n));;
    sec_write_guards other;;
    sec_write_guards cell;;
    mret other
  else mret cell.

(** The part of [sec_alloc] that hands the cell out. *)
Definition sec_take (block cell : Z) (tg : option (list Z)) (length : Z) : M Z :=
  c ← cell_at cell;
  (if negb (next c =? 0) then sec_remove_cell_ring block Unused cell else mret tt);;
  upd_block block (fun b => set_n_used (n_used b + 1) b);;
  upd_cell cell (set_req length tg);;
  sec_insert_cell_ring block Used cell;;
  c ← cell_at cell;
  memset0 (sec_cell_to_memory c) length;;
  mret (sec_cell_to_memory c).

Definition sec_alloc (block : Z) (tg : option (list Z)) (length : Z) : M Z :=
  m_assert (negb (length =? 0));;
  m_assert (bool_decide (is_Some tg));;
  b ← block_at block;
  if unused_cells b =? 0 then mret 0 else
  let n := sec_size_to_words length + 2 in
  fuel ← cell_fuel;
  cell ← find_cell fuel (unused_cells b) (unused_cells b) n;
  if cell =? 0 then mret 0 else
  c ← cell_at cell;
  m_assert (bool_decide (tag c = None));;
  m_assert (requested c =? 0);;
  m_assert (negb (prev c =? 0));;
  m_assert (negb (words c =? 0));;
  sec_check_guards cell;;
  cell ← sec_cut cell n;
  if cell =? 0 then mret 0 else sec_take block cell tg length.

(** The parts of [sec_free] that give a cell to its unused neighbour before or after
    it; the result is the cell to go on with. *)
Definition merge_before (block cell : Z) : M Z :=
  other ← sec_neighbor_before block cell;
  if negb (other =? 0) then
    o ← cell_at other;
    if requested o =? 0 then
      m_assert (bool_decide (tag o = None));;
      m_assert (negb (next o =? 0) && negb (prev o =? 0));;
      c ← cell_at cell;
      upd_cell other (fun o => set_geom (words o) (n_words o + n_words c) o);;
      sec_write_guards other;;
      pool_free cell;;
      mret other
    else mret cell
  else mret cell.

Definition merge_after (block cell : Z) : M Z :=
  other ← sec_neighbor_after block cell;
  if negb (other =? 0) then
    o ← cell_at other;
    if requested o =? 0 then
      m_assert (bool_decide (tag o = None));;
      m_assert (negb (next o =? 0) && negb (prev o =? 0));;
      c ← cell_at cell;
      upd_cell other (fun o => set_geom (words c) (n_words o + n_words c) o);;
      (if negb (next c =? 0) then sec_remove_cell_ring block Unused cell else mret tt);;
      sec_write_guards other;;
      pool_free cell;;
      mret other
    else mret cell
  else mret cell.

Definition sec_free (block memory : Z) : M unit :=
  m_assert (negb (memory =? 0));;
  cell ← sec_cell_of block memory;
  sec_check_guards cell;;
  c ← cell_at cell;
  sec_clear memory 0 (requested c);;
  sec_check_guards cell;;
  m_assert (0 <? requested c);;
  m_assert (bool_decide (is_Some (tag c)));;
  sec_remove_cell_ring block Used cell;;
  cell ← merge_before block cell;
  cell ← merge_after block cell;
  c ← cell_at cell;
  (if next c =? 0 then sec_insert_cell_ring block Unused cell else mret tt);;
  upd_cell cell (set_req 0 None);;
  upd_block block (fun b => set_n_used (n_used b - 1) b).

(** The loop that takes memory from the cells that follow, in [sec_realloc]. *)
Fixpoint grow_cell (fuel : nat) (block cell n : Z) : M unit :=
  match fuel with
  | O => out_of_fuel
  | S fuel =>
    c ← cell_at cell;
    if n_words c <? n then
      other ← sec_neighbor_after block cell;
      if other =? 0 then mret tt else
      o ← cell_at other;
      if negb (requested o =? 0) then mret tt else
      if n_words o <=? n - n_words c + WASTE then
        upd_cell cell (set_geom (words c) (n_words c + n_words o));;
        sec_write_guards cell;;
        sec_remove_cell_ring block Unused other;;
        pool_free other;;
        grow_cell fuel block cell n
      else
        upd_cell other (set_geom (words o + sizeof_word * (n - n_words c)) (n_words o - (n - n_words c)));;
        sec_write_guards other;;
        upd_cell cell (set_geom (words c) n);;
        sec_write_guards cell;;
        grow_cell fuel block cell n
    else mret tt
  end.

Definition sec_realloc (block : Z) (tg : option (list Z)) (memory length : Z) : M Z :=
  m_assert (negb (memory =? 0));;
  m_assert (0 <? length);;
  m_assert (bool_decide (is_Some tg));;
  cell ← sec_cell_of block memory;
  sec_check_guards cell;;
  c ← cell_at cell;
  m_assert (0 <? requested c);;
  m_assert (bool_decide (is_Some (tag c)));;
  let valid := requested c in
  let n := sec_size_to_words length + 2 in
  if n <=? n_words c then
    upd_cell cell (set_req length (tag c));;
    (if length <? valid then sec_clear (sec_cell_to_memory c) length valid else mret tt);;
    mret (sec_cell_to_memory c)
  else
    fuel ← cell_fuel;
    grow_cell fuel block cell n;;
    c ← cell_at cell;
    if n <=? n_words c then
      upd_cell cell (set_req length tg);;
      sec_clear (sec_cell_to_memory c) valid length;;
      mret (sec_cell_to_memory c)
    else
      alloc ← sec_alloc block tg length;
      if negb (alloc =? 0) then memcpy alloc memory valid;; sec_free block memory;; mret alloc
      else mret alloc.

Definition sec_allocated (block memory : Z) : M Z :=
  m_assert (negb (memory =? 0));;
  cell ← sec_cell_of block memory;
  sec_check_guards cell;;
  c ← cell_at cell;
  m_assert (0 <? requested c);;
  m_assert (bool_decide (is_Some (tag c)));;
  mret (requested c).

(** The walk over the cells of a block, from guard to guard. *)
Fixpoint validate_from (fuel : nat) (b : Block) (word last : Z) : M unit :=
  match fuel with
  | O => out_of_fuel
  | S fuel =>
    m_assert (word <? last);;
    m_assert (sec_is_valid_word b word);;
    cell ← load_word word;
    pools ← gets pool_data;
    m_assert (pool_valid pools cell);;
    sec_check_guards cell;;
    c ← cell_at cell;
    (if 0 <? requested c then m_assert (bool_decide (is_Some (tag c)))
     else m_assert (bool_decide (tag c = None)));;
    m_assert (negb (next c =? 0));;
    m_assert (negb (prev c =? 0));;
    n ← cell_at (next c);
    m_assert (prev n =? cell);;
    p ← cell_at (prev c);
    m_assert (next p =? cell);;
    (if 0 <? requested c
     then m_assert (requested c <=? (n_words c - 2) * sizeof_word) else mret tt);;
    let word := word + sizeof_word * n_words c in
    if word =? last then mret tt else validate_from fuel b word last
  end.

Definition sec_validate (block : Z) : M unit :=
  b ← block_at block;
  validate_from (Z.to_nat (bl_n_words b)) b (bl_words b) (bl_words b + sizeof_word * bl_n_words b).

(** * Blocks *)

(** The pages and the size they were rounded up to; 0 is NULL. *)
Definition sec_acquire_pages (sz : Z) : M (Z * Z) := fun st =>
  if sz =? 0 then Ub else
  let pgsize := getpagesize in
  let sz := Z.land (sz + pgsize - 1) (Z.lnot (pgsize - 1)) in
  match mmap st sz with
  | None => Ok ((0, sz), tick st)
  | Some pages =>
    let st' := tick (with_mem (map_zero (mem st) pages (Z.to_nat sz)) st) in
    if mlock st' pages sz then Ok ((pages, sz), tick st')
    else Ok ((0, sz), tick (with_mem (unmap (mem st') pages (Z.to_nat sz)) st'))
  end.

Definition sec_release_pages (pages sz : Z) : M unit :=
  m_assert (negb (pages =? 0));;
  m_assert (sz mod getpagesize =? 0);;
  modify (fun st => tick (with_mem (unmap (mem st) pages (Z.to_nat sz)) st)).

Definition sec_block_create (size : Z) : M Z :=
  forced ← gets force_fallback;
  if forced : bool then mret 0 else
  block ← pool_alloc (IBlock zero_block);
  if block =? 0 then mret 0 else
  cell ← pool_alloc (ICell zero_cell);
  if cell =? 0 then pool_free block;; mret 0 else
  let size := if size <? DEFAULT_BLOCK_SIZE then DEFAULT_BLOCK_SIZE else size in
  '(pages, size) ← sec_acquire_pages size;
  upd_block block (fun b => mk_block pages (size / sizeof_word) (n_used b) (used_cells b) (unused_cells b));;
  if pages =? 0 then pool_free block;; pool_free cell;; mret 0 else
  b ← block_at block;
  upd_cell cell (set_geom (bl_words b) (bl_n_words b));;
  upd_cell cell (set_req 0 None);;
  sec_write_guards cell;;
  sec_insert_cell_ring block Unused cell;;
  modify (fun st => with_blocks (block :: all_blocks st) st);;
  mret block.

(** The loop that frees the cells of the ring of unused cells. *)
Fixpoint free_unused (fuel : nat) (block : Z) : M unit :=
  match fuel with
  | O => out_of_fuel
  | S fuel =>
    b ← block_at block;
    if unused_cells b =? 0 then mret tt else
    sec_remove_cell_ring block Unused (unused_cells b);;
    pool_free (unused_cells b);;
    free_unused fuel block
  end.

Fixpoint unlink (block : Z) (blocks : list Z) : option (list Z) :=
  match blocks with
  | [] => None
  | bl :: blocks =>
    if bl =? block then Some blocks else blocks ← unlink block blocks; Some (bl :: blocks)
  end.

Definition sec_block_destroy (block : Z) : M unit :=
  b ← block_at block;
  m_assert (negb (bl_words b =? 0));;
  m_assert (n_used b =? 0);;
  blocks ← gets all_blocks;
  match unlink block blocks with
  | None => ub
  | Some blocks =>
    modify (with_blocks blocks);;
    m_assert (used_cells b =? 0);;
    fuel ← cell_fuel;
    free_unused fuel block;;
    sec_release_pages (bl_words b) (bl_n_words b * sizeof_word);;
    pool_free block
  end.

(** * The public functions *)

(** The block a pointer lies in; 0 is none. *)
Fixpoint find_block (blocks : list Z) (memory : Z) : M Z :=
  match blocks with
  | [] => mret 0
  | block :: blocks =>
    b ← block_at block;
    if sec_is_valid_word b memory then mret block else find_block blocks memory
  end.

Fixpoint alloc_in_blocks (blocks : list Z) (tg : option (list Z)) (length : Z) : M Z :=
  match blocks with
  | [] => mret 0
  | block :: blocks =>
    memory ← sec_alloc block tg length;
    if negb (memory =? 0) then mret memory else alloc_in_blocks blocks tg length
  end.

Definition or_question (tg : option (list Z)) : option (list Z) :=
  match tg with None => Some (lit "?") | Some t => Some t end.

Definition call_fallback (f : St -> Z -> Z -> Z * Mem) (memory length : Z) : M Z := fun st =>
  let '(p, m) := f st memory length in Ok (p, tick (with_mem m st)).

Definition use_fallback (flags : Z) : option (St -> Z -> Z -> Z * Mem) :=
  if negb (Z.land flags EGG_SECURE_USE_FALLBACK =? 0) then fallback else None.

Definition egg_secure_alloc_full (tg : option (list Z)) (length flags : Z) : M Z :=
  let tg := or_question tg in
  if 0xFFFFFFFF / 2 <? length then mret 0 else
  if length =? 0 then mret 0 else
  blocks ← gets all_blocks;
  memory ← alloc_in_blocks blocks tg length;
  memory ← (if memory =? 0 then
              block ← sec_block_create length;
              if negb (block =? 0) then sec_alloc block tg length else mret 0
            else mret memory);
  if memory =? 0 then
    match use_fallback flags with
    | Some f =>
      memory ← call_fallback f 0 length;
      (if negb (memory =? 0) then memset0 memory length else mret tt);;
      mret memory
    | None => mret 0
    end
  else mret memory.

Definition destroy_if_empty (block : Z) : M unit :=
  b ← block_at block;
  if n_used b =? 0 then sec_block_destroy block else mret tt.

Definition egg_secure_free_full (memory flags : Z) : M unit :=
  if memory =? 0 then mret tt else
  blocks ← gets all_blocks;
  block ← find_block blocks memory;
  if negb (block =? 0) then sec_free block memory;; destroy_if_empty block
  else
    match use_fallback flags with
    | Some f => _ ← call_fallback f memory 0; mret tt
    | None => ub
    end.

Definition egg_secure_free (memory : Z) : M unit :=
  egg_secure_free_full memory EGG_SECURE_USE_FALLBACK.

Definition egg_secure_realloc_full (tg : option (list Z)) (memory length flags : Z) : M Z :=
  let tg := or_question tg in
  if 0xFFFFFFFF / 2 <? length then mret 0 else
  if memory =? 0 then egg_secure_alloc_full tg length flags else
  if length =? 0 then egg_secure_free_full memory flags;; mret 0 else
  blocks ← gets all_blocks;
  block ← find_block blocks memory;
  if block =? 0 then
    match use_fallback flags with
    | Some f => call_fallback f memory length
    | None => ub
    end
  else
    previous ← sec_allocated block memory;
    alloc ← sec_realloc block tg memory length;
    destroy_if_empty block;;
    if alloc =? 0 then
      alloc ← egg_secure_alloc_full tg length flags;
      if negb (alloc =? 0) then
        memcpy alloc memory previous;; egg_secure_free_full memory flags;; mret alloc
      else mret alloc
    else mret alloc.

Definition egg_secure_check (memory : Z) : M Z :=
  blocks ← gets all_blocks;
  block ← find_block blocks memory;
  mret (if block =? 0 then 0 else 1).

Fixpoint validate_blocks (blocks : list Z) : M unit :=
  match blocks with
  | [] => mret tt
  | block :: blocks => sec_validate block;; validate_blocks blocks
  end.

Definition egg_secure_validate : M unit := blocks ← gets all_blocks; validate_blocks blocks.

(** [egg_secure_rec]: tag, request_length, block_length. *)
Record SecureRec := mk_rec { r_tag : option (list Z); request_length : Z; block_length : Z }.

(** [records_for_ring]: [None] is NULL (the array could not grow). [allocated] is the
    size of the array, which starts as the number of records in it. *)
Fixpoint ring_records (fuel : nat) (ring cell : Z) (records : list SecureRec) (allocated total : Z)
    : M (option (list SecureRec) * Z) :=
  match fuel with
  | O => out_of_fuel
  | S fuel =>
    grown ← (fun st => if allocated <=? Zlen records
                       then Ok (records_realloc st (allocated + 32), tick st) else Ok (true, st));
    if negb grown then mret (None, total) else
    let allocated := if allocated <=? Zlen records then allocated + 32 else allocated in
    if cell =? 0 then mret (Some records, total) else
    c ← cell_at cell;
    let records := records ++ [mk_rec (tag c) (requested c) (n_words c * sizeof_word)] in
    let total := total + n_words c in
    if negb (next c =? 0) && negb (next c =? ring)
    then ring_records fuel ring (next c) records allocated total
    else mret (Some records, total)
  end.

Definition records_for_ring (ring : Z) (records : list SecureRec) (total : Z)
    : M (option (list SecureRec) * Z) :=
  fuel ← cell_fuel; ring_records fuel ring ring records (Zlen records) total.

Fixpoint block_records (blocks : list Z) (records : list SecureRec) : M (option (list SecureRec)) :=
  match blocks with
  | [] => mret (Some records)
  | block :: blocks =>
    b ← block_at block;
    '(r, total) ← records_for_ring (unused_cells b) records 0;
    match r with
    | None => mret None
    | Some records =>
      '(r, total) ← records_for_ring (used_cells b) records total;
      match r with
      | None => mret None
      | Some records =>
        m_assert (total =? bl_n_words b);;
        block_records blocks records
      end
    end
  end.

(** The records, [*count] of them; NULL, with no record, when there is no block. *)
Definition egg_secure_records : M (option (list SecureRec)) :=
  blocks ← gets all_blocks;
  match blocks with [] => mret None | _ => block_records blocks [] end.

(** * Strings *)

(** [memchr (str, 0, n)]: the number of bytes before the first NUL of the first [n];
    [strlen] looks at as many bytes as there are. *)
Fixpoint find_nul (m : Mem) (str : Z) (n : nat) : option (option Z) :=
  match n with
  | O => Some None
  | S n =>
    b ← m !! str;
    if b =? 0 then Some (Some 0) else
      match find_nul m (str + 1) n with
      | Some (Some k) => Some (Some (k + 1))
      | o => o
      end
  end.

Definition strlen (str : Z) : M Z := fun st =>
  match find_nul (mem st) str (S (size (mem st))) with Some (Some n) => Ok (n, st) | _ => Ub end.

Definition memchr_nul (str n : Z) : M (option Z) := fun st =>
  match find_nul (mem st) str (Z.to_nat n) with Some o => Ok (o, st) | None => Ub end.

Definition egg_secure_strdup_full (tg : option (list Z)) (str options : Z) : M Z :=
  if str =? 0 then mret 0 else
  n ← strlen str;
  let len := n + 1 in
  res ← egg_secure_alloc_full tg len options;
  memcpy res str len;;
  mret res.

Definition egg_secure_strndup_full (tg : option (list Z)) (str length options : Z) : M Z :=
  if str =? 0 then mret 0 else
  end_ ← memchr_nul str length;
  let length := match end_ with Some n => n | None => length end in
  let len := length + 1 in
  res ← egg_secure_alloc_full tg len options;
  memcpy res str len;;
  mret res.

Definition egg_secure_clear (p length : Z) : M unit :=
  if p =? 0 then mret tt else write p (replicate (Z.to_nat length) 0xAA).

Definition egg_secure_strclear (str : Z) : M unit :=
  if str =? 0 then mret tt else n ← strlen str; egg_secure_clear str n.

Definition egg_secure_strfree (str : Z) : M unit :=
  egg_secure_strclear str;; egg_secure_free_full str EGG_SECURE_USE_FALLBACK.
End Sec.

