(* ===== verification/SecureBlock.v ===== *)
(** Secure memory: the cells of a block, proved.

    [bst] says what a block looks like: its cells lie one after the other between
    their guards and fill its pages, each of them is in one of the two rings.  On it rest
    the specifications of [sec_alloc] ([sec_alloc_spec]), [sec_free] ([sec_free_spec]) and
    [sec_realloc] ([sec_realloc_spec]): what they return, that they pass their
    assertions, and that they leave all other memory alone ([outside]). *)

From S2P Require Import Prelude StateM SecurePool SecureMemory.
Local Open Scope Z_scope.

(** * The layout of a block *)

(** A cell as its place in the block has it. *)
Record Seg := mk_seg { s_cell : Z; s_n : Z; s_req : Z; s_tag : option (list Z) }.

Definition cells (L : list Seg) : list Z := s_cell <$> L.
Definition seg_used (s : Seg) : bool := negb (s_req s =? 0).
Definition used_of (L : list Seg) : list Z := cells (filter (fun s => seg_used s = true) L).
Definition unused_of (L : list Seg) : list Z := cells (filter (fun s => seg_used s = false) L).

Fixpoint total (L : list Seg) : Z := match L with [] => 0 | s :: L => s_n s + total L end.

(** The cells one after the other from the address [a] on. *)
Fixpoint place (a : Z) (L : list Seg) : list (Z * Seg) :=
  match L with [] => [] | s :: L => (a, s) :: place (a + 8 * s_n s) L end.

(** A cell lies at [a]: its record says so, its guards are in place, it is used with as
    many bytes as fit, or unused. *)
Record seg_ok (m : Mem) (it : gmap Z Item) (p : Z * Seg) : Prop := {
  so_geom : geom it (s_cell p.2) = Some (p.1, s_n p.2, s_req p.2, s_tag p.2);
  so_first : word_at m p.1 (s_cell p.2);
  so_last : word_at m (p.1 + 8 * (s_n p.2 - 1)) (s_cell p.2);
  so_size : 3 <= s_n p.2;
  so_req : 0 <= s_req p.2 <= 8 * (s_n p.2 - 2);
  so_tag : s_tag p.2 = None <-> s_req p.2 = 0
}.

Definition core (m : Mem) (it : gmap Z Item) (a : Z) (L : list Seg) : Prop := Forall (seg_ok m it) (place a L).

Lemma total_app L K : total (L ++ K) = total L + total K.
Proof. induction L; cbn; lia. Qed.

Lemma place_app a L K : place a (L ++ K) = place a L ++ place (a + 8 * total L) K.
Proof.
  revert a. induction L as [|s L IH]; intros a; cbn; [f_equal; lia|]. rewrite IH. do 3 f_equal. lia.
Qed.

Lemma core_app m it a L K : core m it a (L ++ K) <-> core m it a L /\ core m it (a + 8 * total L) K.
Proof. unfold core. by rewrite place_app, Forall_app. Qed.

Lemma core_cons m it a s L : core m it a (s :: L) <-> seg_ok m it (a, s) /\ core m it (a + 8 * s_n s) L.
Proof. apply Forall_cons. Qed.

Lemma core_total m it a L : core m it a L -> 0 <= total L.
Proof.
  revert a. induction L as [|s L IH]; intros a H; [cbn; lia|]. apply core_cons in H as [[_ _ _ Hs _ _] H].
  apply IH in H. cbn in *. lia.
Qed.

Lemma seg_frame m m' it it' a s : geom it' (s_cell s) = geom it (s_cell s) ->
  (forall x, a <= x < a + 8 * s_n s -> m' !! x = m !! x) -> seg_ok m it (a, s) -> seg_ok m' it' (a, s).
Proof.
  intros Hg Hm [H1 H2 H3 H4 H5 H6]. cbn [fst snd] in *. split; cbn [fst snd]; [congruence| | |done..];
    (eapply word_at_agree; [|eassumption]); intros x Hx; apply Hm; lia.
Qed.

Lemma core_frame m m' it it' a L : core m it a L -> (forall x, x ∈ cells L -> geom it' x = geom it x) ->
  (forall x, a <= x < a + 8 * total L -> m' !! x = m !! x) -> core m' it' a L.
Proof.
  revert a. induction L as [|s L IH]; intros a H Hg Hm; [constructor|]. apply core_cons in H as [Hs H].
  pose proof (core_total _ _ _ _ H). pose proof (so_size _ _ _ Hs) as Hn. cbn [snd total] in *.
  apply core_cons. split.
  - eapply seg_frame; [apply Hg; left| |exact Hs]. intros x Hx. apply Hm. lia.
  - apply IH; [done|intros x Hx; apply Hg; by right|intros x Hx; apply Hm; lia].
Qed.

(** Changing some cells in the middle. *)
Lemma retile m m' it it' w l mid mid' r : core m it w (l ++ mid ++ r) -> total mid' = total mid ->
  (forall x, x ∈ cells l \/ x ∈ cells r -> geom it' x = geom it x) ->
  (forall x, ~ (w + 8 * total l <= x < w + 8 * total l + 8 * total mid) -> m' !! x = m !! x) ->
  core m' it' (w + 8 * total l) mid' -> core m' it' w (l ++ mid' ++ r).
Proof.
  rewrite !core_app. intros (Hl & Hm & Hr) Ht Hg Hmem Hmid.
  pose proof (core_total _ _ _ _ Hl). pose proof (core_total _ _ _ _ Hm). pose proof (core_total _ _ _ _ Hr).
  split_and!; [|done|].
  - eapply core_frame; [exact Hl|auto|]. intros x Hx. apply Hmem. lia.
  - rewrite Ht. eapply core_frame; [exact Hr|auto|]. intros x Hx. apply Hmem. lia.
Qed.

(** The memory handed out: address and size. *)
Definition lives (a : Z) (L : list Seg) : list (Z * Z) :=
  omap (fun p => if seg_used p.2 then Some (p.1 + 8, s_req p.2) else None) (place a L).

Lemma lives_app a L K : lives a (L ++ K) = lives a L ++ lives (a + 8 * total L) K.
Proof. unfold lives. rewrite place_app. apply omap_app. Qed.

Lemma lives_cons a s L : lives a (s :: L) =
  (if seg_used s then [(a + 8, s_req s)] else []) ++ lives (a + 8 * s_n s) L.
Proof. unfold lives. cbn. by destruct (seg_used s). Qed.

Lemma lives_split m it a L p n : core m it a L -> (p, n) ∈ lives a L ->
  exists l s r, L = l ++ s :: r /\ s_req s = n /\ seg_used s = true /\ p = a + 8 * total l + 8.
Proof.
  revert a. induction L as [|s L IH]; intros a Hc Hin; [by apply elem_of_nil in Hin|].
  apply core_cons in Hc as [Hs Hc]. rewrite lives_cons in Hin. apply elem_of_app in Hin as [Hin|Hin].
  - destruct (seg_used s) eqn:Hu; [|by apply elem_of_nil in Hin]. apply list_elem_of_singleton in Hin as [= -> ->].
    exists [], s, L. split_and!; [done..|cbn; lia].
  - destruct (IH _ Hc Hin) as (l & s' & r & -> & H1 & H2 & ->). exists (s :: l), s', r. split_and!; [done..|cbn; lia].
Qed.

Lemma seg_used_pos m it a s : seg_ok m it (a, s) -> seg_used s = true ->
  0 < s_req s /\ exists t, s_tag s = Some t.
Proof.
  intros [_ _ _ _ Hr Ht] Hu. cbn in *. unfold seg_used in Hu. apply negb_true_iff, Z.eqb_neq in Hu.
  split; [lia|]. destruct (s_tag s) as [t|]; [by exists t|]. by destruct Ht as [Ht _]; specialize (Ht eq_refl).
Qed.

Lemma seg_unused m it a s : seg_ok m it (a, s) -> seg_used s = false -> s_req s = 0 /\ s_tag s = None.
Proof.
  intros [_ _ _ _ _ Ht] Hu. cbn in *. unfold seg_used in Hu. apply negb_false_iff, Z.eqb_eq in Hu.
  split; [done|]. by apply Ht.
Qed.

Lemma lives_range m it a L p n : core m it a L -> (p, n) ∈ lives a L ->
  a + 8 <= p /\ p + n <= a + 8 * total L - 8 /\ 0 < n.
Proof.
  intros Hc Hin. destruct (lives_split _ _ _ _ _ _ Hc Hin) as (l & s & r & -> & <- & Hu & ->).
  apply core_app in Hc as [Hl [Hs Hr]%core_cons]. pose proof (core_total _ _ _ _ Hl). pose proof (core_total _ _ _ _ Hr).
  destruct (seg_used_pos _ _ _ _ Hs Hu) as [? _]. destruct Hs as [_ _ _ ? ? _]. cbn [snd] in *.
  rewrite total_app. cbn [total]. lia.
Qed.

(** * The state of a block

    The block record [B] at [b], its cells [L] from [w] on, and its two rings. *)
Record bst (m : Mem) (it : gmap Z Item) (b : Z) (B : Block) (w : Z) (L : list Seg) (lu lf : list Z) : Prop := {
  bs_blk : blk it b = Some B;
  bs_words : bl_words B = w;
  bs_total : bl_n_words B = total L;
  bs_core : core m it w L;
  bs_used : ring_ok it (used_cells B) lu;
  bs_unused : ring_ok it (unused_cells B) lf;
  bs_nodup : NoDup (cells L);
  bs_mapped : forall x, w <= x < w + 8 * total L -> is_Some (m !! x);
  bs_range : 0 < w /\ w + 8 * total L <= 2 ^ 63
}.

(** Addresses of records are pointers. *)
Definition addresses (it : gmap Z Item) : Prop := forall p, is_Some (it !! p) -> 0 < p < 2 ^ 63.

Lemma pools_addresses st : pools_ok st -> addresses (items st).
Proof. intros H p Hp. by destruct (pool_valid_item st p H Hp). Qed.

Lemma core_seg m it w l s r : core m it w (l ++ s :: r) -> seg_ok m it (w + 8 * total l, s).
Proof. by intros [_ [? _]%core_cons]%core_app. Qed.

Lemma seg_range m it w l s r : core m it w (l ++ s :: r) ->
  0 <= total l /\ 0 <= total r /\ 3 <= s_n s /\ total (l ++ s :: r) = total l + s_n s + total r.
Proof.
  intros H. pose proof (core_seg _ _ _ _ _ _ H) as [_ _ _ ? _ _]. apply core_app in H as [Hl [_ Hr]%core_cons].
  apply core_total in Hl, Hr. rewrite total_app. cbn [total snd] in *. lia.
Qed.

Lemma wp_check_guards m it ps bl k a s (Q : unit -> St -> Prop) : addresses it -> seg_ok m it (a, s) ->
  Q tt (mk_st m it ps bl k) -> wp (sec_check_guards (s_cell s)) Q (mk_st m it ps bl k).
Proof.
  intros Ha [Hg H1 H2 _ _ _] HQ. cbn [fst snd] in *. pose proof (Ha _ (geom_item _ _ _ Hg)).
  destruct (geom_cell _ _ _ _ _ _ Hg) as (c & Hc & <- & Hn & _). rewrite <- Hn in H2.
  unfold sec_check_guards. step. step. step. eapply wp_load_word; [exact H1|lia|]. do 2 step.
  step. eapply wp_load_word; [exact H2|lia|]. by step.
Qed.

Lemma wp_write_guards m it ps bl k c C (Q : unit -> St -> Prop) : cellv it c = Some C -> 2 <= n_words C ->
  (forall x, words C <= x < words C + 8 * n_words C -> is_Some (m !! x)) ->
  (forall m', word_at m' (words C) c -> word_at m' (words C + 8 * (n_words C - 1)) c ->
     (forall x, ~ (words C <= x < words C + 8) -> ~ (words C + 8 * (n_words C - 1) <= x < words C + 8 * n_words C) -> m' !! x = m !! x) ->
     (forall x, is_Some (m !! x) -> is_Some (m' !! x)) -> Q tt (mk_st m' it ps bl k)) ->
  wp (sec_write_guards c) Q (mk_st m it ps bl k).
Proof.
  intros Hc Hn Hm HQ. unfold sec_write_guards. do 2 step. unfold sizeof_word.
  step. apply wp_store_word; [intros; apply Hm; lia|]. intros m1 H1 H2 H3.
  apply wp_store_word; [intros; apply H3, Hm; lia|]. intros m2 H4 H5 H6. apply HQ.
  - eapply word_at_agree; [|exact H1]. intros x Hx. apply H5. lia.
  - exact H4.
  - intros x Hx Hy. rewrite H5, H2 by lia. done.
  - auto.
Qed.

(** The guard before a pointer that was handed out leads to its cell. *)
Lemma wp_cell_of m it ps bl k b B w l s r lu lf p (Q : Z -> St -> Prop) :
  pools_ok (mk_st m it ps bl k) -> bst m it b B w (l ++ s :: r) lu lf -> p = w + 8 * total l + 8 ->
  Q (s_cell s) (mk_st m it ps bl k) -> wp (sec_cell_of b p) Q (mk_st m it ps bl k).
Proof.
  intros Hps HB -> HQ. destruct HB as [Hb Hw Ht Hc _ _ _ _ _].
  pose proof (seg_range _ _ _ _ _ _ Hc). destruct (core_seg _ _ _ _ _ _ Hc) as [Hg H1 _ _ _ _]. cbn [fst snd] in *.
  pose proof (geom_item _ _ _ Hg) as Hi. destruct (pool_valid_item _ _ Hps Hi) as [Hv Hr]. cbn [pool_data] in Hv.
  unfold sec_cell_of. do 3 step. apply wp_assert.
  { unfold sec_is_valid_word, sizeof_word. apply andb_true_iff. rewrite Z.leb_le, Z.ltb_lt. lia. }
  step. eapply wp_load_word.
  { unfold sizeof_word. replace (w + 8 * total l + 8 - 8) with (w + 8 * total l) by lia. exact H1. }
  { lia. }
  do 4 step. by step.
Qed.

Lemma wp_neighbor_after m it ps bl k b B w l s r lu lf (Q : Z -> St -> Prop) :
  addresses it -> bst m it b B w (l ++ s :: r) lu lf ->
  Q (match r with [] => 0 | o :: _ => s_cell o end) (mk_st m it ps bl k) ->
  wp (sec_neighbor_after b (s_cell s)) Q (mk_st m it ps bl k).
Proof.
  intros Ha HB HQ. destruct HB as [Hb Hw Ht Hc _ _ _ _ _].
  pose proof (seg_range _ _ _ _ _ _ Hc). destruct (core_seg _ _ _ _ _ _ Hc) as [Hg _ _ _ _ _]. cbn [fst snd] in *.
  destruct (geom_cell _ _ _ _ _ _ Hg) as (c & Hcv & Hcw & Hcn & _).
  unfold sec_neighbor_after. do 4 step. rewrite Hcw, Hcn. unfold sec_is_valid_word, sizeof_word.
  destruct r as [|o r].
  - destruct (Z.ltb_spec (w + 8 * total l + 8 * s_n s) (bl_words B + 8 * bl_n_words B)) as [?|_].
    { cbn [total] in *. lia. }
    rewrite andb_false_r. cbn [negb]. by step.
  - assert (core m it w ((l ++ [s]) ++ o :: r)) as Hc' by (by rewrite <- (assoc_L (++))).
    pose proof (seg_range _ _ _ _ _ _ Hc'). pose proof (core_seg _ _ _ _ _ _ Hc') as Ho.
    rewrite total_app in *. cbn [total] in *.
    destruct (Z.leb_spec (bl_words B) (w + 8 * total l + 8 * s_n s)); [|lia].
    destruct (Z.ltb_spec (w + 8 * total l + 8 * s_n s) (bl_words B + 8 * bl_n_words B)); [|lia]. cbn [andb negb].
    replace (w + 8 * total l + 8 * s_n s) with (w + 8 * (total l + (s_n s + 0))) by lia.
    pose proof (Ha _ (geom_item _ _ _ (so_geom _ _ _ Ho))). cbn [snd] in *.
    step. eapply wp_load_word; [exact (so_first _ _ _ Ho)|cbn [snd]; lia|]. cbn [snd].
    step. eapply wp_check_guards; [done|exact Ho|]. by step.
Qed.

Lemma wp_neighbor_before m it ps bl k b B w l s r lu lf (Q : Z -> St -> Prop) :
  addresses it -> bst m it b B w (l ++ s :: r) lu lf ->
  Q (match last l with None => 0 | Some o => s_cell o end) (mk_st m it ps bl k) ->
  wp (sec_neighbor_before b (s_cell s)) Q (mk_st m it ps bl k).
Proof.
  intros Ha HB HQ. destruct HB as [Hb Hw Ht Hc _ _ _ _ _].
  pose proof (seg_range _ _ _ _ _ _ Hc). destruct (core_seg _ _ _ _ _ _ Hc) as [Hg _ _ _ _ _]. cbn [fst snd] in *.
  destruct (geom_cell _ _ _ _ _ _ Hg) as (c & Hcv & Hcw & Hcn & _).
  unfold sec_neighbor_before. do 4 step. rewrite Hcw. unfold sec_is_valid_word, sizeof_word.
  destruct l as [|o l _] using rev_ind.
  - destruct (Z.leb_spec (bl_words B) (w + 8 * total [] - 8)) as [?|_]; [cbn [total] in *; lia|].
    cbn [andb negb]. by step.
  - rewrite last_snoc in HQ.
    assert (core m it w (l ++ o :: s :: r)) as Hc' by (by rewrite <- (assoc_L (++)) in Hc).
    pose proof (seg_range _ _ _ _ _ _ Hc'). pose proof (core_seg _ _ _ _ _ _ Hc') as Ho.
    rewrite total_app in *. cbn [total] in *.
    destruct (Z.leb_spec (bl_words B) (w + 8 * (total l + (s_n o + 0)) - 8)); [|lia].
    destruct (Z.ltb_spec (w + 8 * (total l + (s_n o + 0)) - 8) (bl_words B + 8 * bl_n_words B)); [|rewrite total_app in *; cbn [total] in *; lia].
    cbn [andb negb].
    pose proof (Ha _ (geom_item _ _ _ (so_geom _ _ _ Ho))). cbn [snd] in *.
    step. apply (wp_load_word _ (s_cell o)); [|cbn [items mem]; lia|].
    { pose proof (so_last _ _ _ Ho) as Hlast. cbn [fst snd] in Hlast.
      replace (w + 8 * (total l + (s_n o + 0)) - 8) with (w + 8 * total l + 8 * (s_n o - 1)) by lia. exact Hlast. }
    step. eapply wp_check_guards; [done|exact Ho|]. by step.
Qed.

(** * How a block changes *)

Lemma bst_same m it it' b B B' w L lu lf : bst m it b B w L lu lf ->
  (forall x, cellv it' x = cellv it x) -> blk it' b = Some B' ->
  bl_words B' = bl_words B -> bl_n_words B' = bl_n_words B -> used_cells B' = used_cells B ->
  unused_cells B' = unused_cells B -> bst m it' b B' w L lu lf.
Proof.
  intros [Hb Hw Ht Hc Hu Hf Hnd Hm Hr] Hcv HB' Hbw Hbn Hbu Hbf. split; try congruence; try done.
  - eapply core_frame; [exact Hc|intros x _; unfold geom; by rewrite Hcv|done].
  - rewrite Hbu. eapply ring_same; [|exact Hu]. auto.
  - rewrite Hbf. eapply ring_same; [|exact Hf]. auto.
Qed.

Lemma bst_used_step m it it' b B p w L lu lf lu' t : bst m it b B w L lu lf ->
  ring_step it it' b Used B p t -> ring_ok it' p lu' -> (forall x, x ∈ lf -> x ∉ t) ->
  bst m it' b (set_ring Used p B) w L lu' lf.
Proof.
  intros [Hb Hw Ht Hc Hu Hf Hnd Hm Hr] [Hg Hbl Ho] Hring Ht'. split; try done.
  - rewrite Hbl. by rewrite decide_True.
  - eapply core_frame; [exact Hc|intros x _; apply Hg|done].
  - eapply ring_same; [|exact Hf]. auto.
Qed.

Lemma bst_unused_step m it it' b B p w L lu lf lf' t : bst m it b B w L lu lf ->
  ring_step it it' b Unused B p t -> ring_ok it' p lf' -> (forall x, x ∈ lu -> x ∉ t) ->
  bst m it' b (set_ring Unused p B) w L lu lf'.
Proof.
  intros [Hb Hw Ht Hc Hu Hf Hnd Hm Hr] [Hg Hbl Ho] Hring Ht'. split; try done.
  - rewrite Hbl. by rewrite decide_True.
  - eapply core_frame; [exact Hc|intros x _; apply Hg|done].
  - eapply ring_same; [|exact Hu]. auto.
Qed.

Lemma cells_app L K : cells (L ++ K) = cells L ++ cells K.
Proof. apply fmap_app. Qed.

Lemma cells_mid l s r x : NoDup (cells (l ++ s :: r)) -> x ∈ cells l \/ x ∈ cells r -> x <> s_cell s.
Proof.
  rewrite cells_app. cbn. intros Hnd Hx ->. apply NoDup_app in Hnd as (_ & H1 & [H2 _]%NoDup_cons).
  destruct Hx as [Hx|Hx]; [by apply (H1 _ Hx); left|done].
Qed.

Lemma seg_put_req m it it' a s req tg : seg_ok m it (a, s) ->
  geom_step it it' (s_cell s) (a, s_n s, req, tg) -> 0 <= req <= 8 * (s_n s - 2) -> (tg = None <-> req = 0) ->
  seg_ok m it' (a, mk_seg (s_cell s) (s_n s) req tg).
Proof.
  intros [H1 H2 H3 H4 H5 H6] [_ _ _ Hg _] Hr Ht. split; cbn [fst snd s_cell s_n s_req s_tag] in *; try done.
  rewrite Hg. by rewrite decide_True.
Qed.

Lemma bst_put_req m it it' b B w l s r lu lf req tg : bst m it b B w (l ++ s :: r) lu lf ->
  geom_step it it' (s_cell s) (w + 8 * total l, s_n s, req, tg) ->
  0 <= req <= 8 * (s_n s - 2) -> (tg = None <-> req = 0) ->
  bst m it' b B w (l ++ mk_seg (s_cell s) (s_n s) req tg :: r) lu lf.
Proof.
  intros [Hb Hw Ht Hc Hu Hf Hnd Hm Hr] Hg Hreq Htag.
  assert (total (l ++ mk_seg (s_cell s) (s_n s) req tg :: r) = total (l ++ s :: r)) as Htot by (rewrite !total_app; done).
  split; try done.
  - rewrite (gs_blk _ _ _ _ Hg). done.
  - by rewrite Htot.
  - apply (retile m m it it' w l [s] [mk_seg (s_cell s) (s_n s) req tg] r); [exact Hc|done| |done|].
    + intros x Hx. rewrite (gs_geom _ _ _ _ Hg). rewrite decide_False; [done|]. by eapply cells_mid.
    + apply core_cons. split; [|constructor]. eapply seg_put_req; [by eapply core_seg|done..].
  - by eapply ring_geom_step.
  - by eapply ring_geom_step.
  - rewrite cells_app in *. done.
  - by rewrite Htot.
  - by rewrite Htot.
Qed.

(** Writing inside the memory of a cell. *)
Lemma bst_payload m m' it b B w l s r lu lf : bst m it b B w (l ++ s :: r) lu lf ->
  (forall x, ~ (w + 8 * total l + 8 <= x < w + 8 * total l + 8 * (s_n s - 1)) -> m' !! x = m !! x) ->
  (forall x, is_Some (m !! x) -> is_Some (m' !! x)) -> bst m' it b B w (l ++ s :: r) lu lf.
Proof.
  intros [Hb Hw Ht Hc Hu Hf Hnd Hm Hr] Hmem Hmap. split; try done; [|auto].
  pose proof (seg_range _ _ _ _ _ _ Hc).
  apply (retile m m' it it w l [s] [s] r); [exact Hc|done|done| |].
  - intros x Hx. apply Hmem. cbn [total] in *. lia.
  - apply core_cons. split; [|constructor]. destruct (core_seg _ _ _ _ _ _ Hc) as [H1 H2 H3 H4 H5 H6].
    split; cbn [fst snd] in *; try done; (eapply word_at_agree; [|eassumption]); intros x Hx; apply Hmem; lia.
Qed.

(** * Used and unused cells *)

Lemma used_app L K : used_of (L ++ K) = used_of L ++ used_of K.
Proof. unfold used_of. by rewrite filter_app, cells_app. Qed.
Lemma unused_app L K : unused_of (L ++ K) = unused_of L ++ unused_of K.
Proof. unfold unused_of. by rewrite filter_app, cells_app. Qed.
Lemma used_cons s L : used_of (s :: L) = (if seg_used s then [s_cell s] else []) ++ used_of L.
Proof. unfold used_of. rewrite filter_cons. by destruct (seg_used s). Qed.
Lemma unused_cons s L : unused_of (s :: L) = (if seg_used s then [] else [s_cell s]) ++ unused_of L.
Proof. unfold unused_of. rewrite filter_cons. by destruct (seg_used s). Qed.

Lemma used_mid l s r : used_of (l ++ s :: r) ≡ₚ (if seg_used s then [s_cell s] else []) ++ used_of (l ++ r).
Proof. rewrite !used_app, used_cons. destruct (seg_used s); [|done]. cbn. symmetry. apply Permutation_middle. Qed.
Lemma unused_mid l s r : unused_of (l ++ s :: r) ≡ₚ (if seg_used s then [] else [s_cell s]) ++ unused_of (l ++ r).
Proof. rewrite !unused_app, unused_cons. destruct (seg_used s); [done|]. cbn. symmetry. apply Permutation_middle. Qed.

Lemma elem_used L x : x ∈ used_of L -> exists l s r, L = l ++ s :: r /\ s_cell s = x /\ seg_used s = true.
Proof.
  intros (s & -> & [Hu Hs]%list_elem_of_filter)%list_elem_of_fmap. apply list_elem_of_split in Hs as (l & r & ->). by exists l, s, r.
Qed.
Lemma elem_unused L x : x ∈ unused_of L -> exists l s r, L = l ++ s :: r /\ s_cell s = x /\ seg_used s = false.
Proof.
  intros (s & -> & [Hu Hs]%list_elem_of_filter)%list_elem_of_fmap. apply list_elem_of_split in Hs as (l & r & ->). by exists l, s, r.
Qed.

Lemma used_cells_sub L x : x ∈ used_of L -> x ∈ cells L.
Proof. intros (l & s & r & -> & <- & _)%elem_used. rewrite cells_app. cbn. set_solver. Qed.
Lemma unused_cells_sub L x : x ∈ unused_of L -> x ∈ cells L.
Proof. intros (l & s & r & -> & <- & _)%elem_unused. rewrite cells_app. cbn. set_solver. Qed.

Lemma used_unused_disjoint L x : NoDup (cells L) -> x ∈ used_of L -> x ∉ unused_of L.
Proof.
  intros Hnd (l & s & r & -> & <- & Hu)%elem_used Hx. rewrite unused_mid, Hu in Hx. cbn in Hx.
  eapply (cells_mid l s r (s_cell s)); [exact Hnd| |done]. apply unused_cells_sub in Hx. rewrite cells_app in Hx. set_solver.
Qed.

(** * A whole block *)

Record Ghost := mk_ghost { g_block : Z; g_base : Z; g_segs : list Seg }.

Definition block_ok (m : Mem) (it : gmap Z Item) (g : Ghost) : Prop :=
  exists B lu lf, bst m it (g_block g) B (g_base g) (g_segs g) lu lf /\
    lu ≡ₚ used_of (g_segs g) /\ lf ≡ₚ unused_of (g_segs g) /\ n_used B = Zlen lu.

Definition footprint (g : Ghost) : list Z := g_block g :: cells (g_segs g).
Definition in_pages (g : Ghost) (x : Z) : Prop := g_base g <= x < g_base g + 8 * total (g_segs g).
Definition live (g : Ghost) : list (Z * Z) := lives (g_base g) (g_segs g).

(** What an operation on the block [g], which leaves it as [g'], does to all the rest. *)
Record outside (g g' : Ghost) (m m' : Mem) (it it' : gmap Z Item) : Prop := {
  out_block : g_block g' = g_block g;
  out_base : g_base g' = g_base g;
  out_total : total (g_segs g') = total (g_segs g);
  out_cells : forall q, q ∈ cells (g_segs g') -> q ∈ cells (g_segs g) \/ it !! q = None;
  out_items : forall q, q ∉ footprint g -> is_Some (it !! q) -> cellv it' q = cellv it q /\ blk it' q = blk it q;
  out_mem : forall x, ~ in_pages g x -> m' !! x = m !! x;
  out_mapped : forall x, is_Some (m !! x) -> is_Some (m' !! x)
}.

Lemma core_cell m it w L x : core m it w L -> x ∈ cells L -> is_Some (cellv it x).
Proof.
  revert w. induction L as [|s L IH]; intros w Hc Hx; [by apply elem_of_nil in Hx|].
  apply core_cons in Hc as [[Hg _ _ _ _ _] Hc]. apply elem_of_cons in Hx as [->|Hx]; [|eauto].
  cbn [snd] in Hg. unfold geom in Hg. destruct (cellv it (s_cell s)); [by eexists|done].
Qed.

Lemma block_not_cell m it b B w L lu lf : bst m it b B w L lu lf -> b ∉ cells L.
Proof.
  intros [Hb _ _ Hc _ _ _ _ _] Hin. destruct (core_cell _ _ _ _ _ Hc Hin) as [c Hcv].
  unfold cellv, blk in *. by destruct (it !! b) as [[]|].
Qed.

Lemma block_ok_frame m m' it it' g : block_ok m it g ->
  (forall q, q ∈ footprint g -> cellv it' q = cellv it q /\ blk it' q = blk it q) ->
  (forall x, in_pages g x -> m' !! x = m !! x) -> block_ok m' it' g.
Proof.
  intros (B & lu & lf & [Hb Hw Ht Hc Hu Hf Hnd Hm Hr] & Hlu & Hlf & Hn) Hq Hx. exists B, lu, lf. split_and!; [|done..].
  assert (forall q, q ∈ cells (g_segs g) -> cellv it' q = cellv it q) as Hcv by (intros q Hq'; apply Hq; by right).
  split; try done.
  - rewrite <- Hb. apply Hq. left.
  - eapply core_frame; [exact Hc|intros x Hin; unfold geom; by rewrite Hcv|exact Hx].
  - eapply ring_same; [|exact Hu]. intros x Hin. apply Hcv, used_cells_sub. by rewrite <- Hlu.
  - eapply ring_same; [|exact Hf]. intros x Hin. apply Hcv, unused_cells_sub. by rewrite <- Hlf.
  - intros x Hxr. rewrite Hx by done. auto.
Qed.

Lemma bst_seg m it b B w l s r lu lf : bst m it b B w (l ++ s :: r) lu lf ->
  exists c, cellv it (s_cell s) = Some c /\ words c = w + 8 * total l /\ n_words c = s_n s /\
    requested c = s_req s /\ tag c = s_tag s.
Proof.
  intros [_ _ _ Hc _ _ _ _ _]. destruct (core_seg _ _ _ _ _ _ Hc) as [Hg _ _ _ _ _]. by apply geom_cell in Hg.
Qed.

Lemma ring_linked it p l x c : ring_ok it p l -> x ∈ l -> cellv it x = Some c -> next c <> 0 /\ prev c <> 0.
Proof.
  intros Hr Hx Hc. destruct (ring_cell _ _ _ _ Hr Hx) as (n & q & Hn & Hq & Hnl & Hql & _).
  unfold nxt, prv in *. rewrite Hc in *. cbn in *. destruct Hr as [_ _ Hz _]. split; congruence.
Qed.

(** * Allocation *)

Lemma wp_find_cell m it ps bl k first lf n fuel : forall pre cell post,
  ring_ok it first lf -> lf = pre ++ cell :: post -> (length post < fuel)%nat ->
  wp (find_cell fuel first cell n) (fun r st' => st' = mk_st m it ps bl k /\
    (r = 0 \/ (r ∈ lf /\ exists c, cellv it r = Some c /\ n <= n_words c))) (mk_st m it ps bl k).
Proof.
  induction fuel as [|fuel IH]; intros pre cell post Hring Hlf Hf; [lia|]. cbn [find_cell].
  assert (cell ∈ lf) as Hin by (rewrite Hlf; set_solver).
  destruct (ring_cell _ _ _ _ Hring Hin) as (nx & q & Hnx & Hq & _).
  step. eapply wp_cell_view; [apply view_refl|exact Hnx|exact Hq|]. intros c Hc Hcn _.
  destruct (Z.ltb_spec (n_words c) n) as [Hlt|Hge].
  2:{ step. split; [done|]. right. split; [done|]. by exists c. }
  rewrite Hcn. destruct (Z.eqb_spec nx first) as [Hfi|Hfi]; [step; by split; [|left]|].
  pose proof Hring as [Hh Hnd _ Hl]. destruct post as [|y post].
  - exfalso. apply Hfi. rewrite Hh. rewrite Hlf in Hl |- *. destruct pre as [|z pre].
    + cbn in Hl. destruct Hl as [[H1 _] _]. cbn. congruence.
    + change (take 1 ((z :: pre) ++ [cell])) with [z] in Hl. rewrite <- (assoc_L (++)) in Hl. cbn [app] in Hl.
      apply (links_app it (z :: pre) cell [z]) in Hl as [_ [[H1 _] _]]. cbn. congruence.
  - assert (nx = y) as ->.
    { rewrite Hlf in Hl. rewrite <- (assoc_L (++)) in Hl. cbn [app] in Hl.
      apply links_app in Hl as [_ [[H1 _] _]]. congruence. }
    apply (IH (pre ++ [cell]) y post); [done|rewrite Hlf; by rewrite <- (assoc_L (++))|cbn in Hf; lia].
Qed.

Lemma size_words length : 0 < length -> 1 <= sec_size_to_words length /\ length <= 8 * sec_size_to_words length.
Proof.
  intros H. unfold sec_size_to_words, sizeof_word. destruct (Z.eqb_spec (length mod 8) 0); cbn [negb]; lia_div.
Qed.

(** Cutting a new cell [o] off the front of the unused cell [s]. *)
Lemma wp_split m it ps bl k b B w l s r lu lf o n (Q : Z -> St -> Prop) :
  bst m it b B w (l ++ s :: r) lu lf -> it !! o = None -> seg_used s = false -> 3 <= n -> n + WASTE < s_n s ->
  o ∉ lu -> o ∉ lf ->
  (forall it' m', bst m' it' b B w (l ++ mk_seg o n 0 None :: mk_seg (s_cell s) (s_n s - n) 0 None :: r) lu lf ->
     nxt it' o = Some 0 -> prv it' o = Some 0 ->
     (forall q, q <> o -> q <> s_cell s -> cellv it' q = cellv it q) ->
     (forall q, q <> o -> blk it' q = blk it q) ->
     (forall x, ~ (w + 8 * total l <= x < w + 8 * total l + 8 * s_n s) -> m' !! x = m !! x) ->
     (forall x, is_Some (m !! x) -> is_Some (m' !! x)) ->
     (forall q, is_Some (it' !! q) -> is_Some (<[o := ICell zero_cell]> it !! q)) -> Q o (mk_st m' it' ps bl k)) ->
  wp (upd_cell o (set_geom (w + 8 * total l) n);;
      upd_cell (s_cell s) (set_geom (w + 8 * total l + 8 * n) (s_n s - n));;
      sec_write_guards o;; sec_write_guards (s_cell s);; mret o) Q (mk_st m (<[o := ICell zero_cell]> it) ps bl k).
Proof.
  intros HB Ho Hu Hn Hw Holu Holf HQ. unfold WASTE in Hw. pose proof HB as [Hb Hbw Ht Hc Hused Hunused Hnd Hm Hr].
  pose proof (seg_range _ _ _ _ _ _ Hc) as (Hl0 & Hr0 & _ & Htot).
  pose proof (core_seg _ _ _ _ _ _ Hc) as Hs. destruct (seg_unused _ _ _ _ Hs Hu) as [Hreq Htag].
  pose proof Hs as [Hg _ _ _ _ _]. cbn [fst snd] in Hg. rewrite Hreq, Htag in Hg.
  destruct (geom_cell _ _ _ _ _ _ Hg) as (c & Hcv & Hcw & Hcn & Hcr & Hct).
  assert (s_cell s <> o) as Hne by (intros E; apply cellv_item in Hcv as [? ?]; congruence).
  set (it1 := <[o := ICell zero_cell]> it).
  assert (cellv it1 o = Some zero_cell) as Ho1 by (unfold it1; rewrite cellv_insert; by rewrite decide_True).
  assert (cellv it1 (s_cell s) = Some c) as Hs1 by (unfold it1; rewrite cellv_insert; by rewrite decide_False).
  step. eapply wp_geom_step; [exact Ho1|done|done|reflexivity|]. intros it2 G2. cbn [words n_words requested tag set_geom zero_cell] in G2.
  step. eapply wp_geom_step; [rewrite (gs_out _ _ _ _ G2) by done; exact Hs1|done|done|reflexivity|]. intros it3 G3.
  cbn [words n_words requested tag set_geom] in G3. rewrite Hcr, Hct in G3.
  destruct (geom_cell it3 o (w + 8 * total l) n 0 None) as (co & Hco & Hcow & Hcon & _).
  { rewrite (gs_geom _ _ _ _ G3), decide_False by done. rewrite (gs_geom _ _ _ _ G2). by rewrite decide_True. }
  destruct (geom_cell it3 (s_cell s) (w + 8 * total l + 8 * n) (s_n s - n) 0 None) as (cs & Hcs & Hcsw & Hcsn & _).
  { rewrite (gs_geom _ _ _ _ G3). by rewrite decide_True. }
  step. eapply wp_write_guards; [exact Hco|lia|intros x Hx; apply Hm; lia|]. rewrite Hcow, Hcon. intros m1 W1 W2 W3 W4.
  step. eapply wp_write_guards; [exact Hcs|lia|intros x Hx; apply W4, Hm; lia|]. rewrite Hcsw, Hcsn. intros m2 W5 W6 W7 W8. step.
  assert (forall q, q <> o -> q <> s_cell s -> cellv it3 q = cellv it q) as Hout.
  { intros q H1 H2. rewrite (gs_out _ _ _ _ G3), (gs_out _ _ _ _ G2) by done. unfold it1.
    rewrite cellv_insert. by rewrite decide_False. }
  assert (forall q, q <> o -> nxt it3 q = nxt it q /\ prv it3 q = prv it q /\ blk it3 q = blk it q) as Hlinks.
  { intros q H1. rewrite (gs_nxt _ _ _ _ G3), (gs_nxt _ _ _ _ G2), (gs_prv _ _ _ _ G3), (gs_prv _ _ _ _ G2).
    rewrite (gs_blk _ _ _ _ G3), (gs_blk _ _ _ _ G2). unfold nxt, prv, it1. rewrite cellv_insert, decide_False by done.
    split_and!; [done..|]. unfold blk. by rewrite lookup_insert_ne. }
  assert (b <> o) as Hbo by (intros ->; apply blk_item in Hb as [? ?]; congruence).
  apply HQ.
  - split; try done.
    + destruct (Hlinks b Hbo) as (_ & _ & ->). done.
    + rewrite Ht, !total_app. cbn [total s_n]. lia.
    + apply (retile m m2 it it3 w l [s] [mk_seg o n 0 None; mk_seg (s_cell s) (s_n s - n) 0 None] r).
      * exact Hc.
      * cbn [total s_n]. lia.
      * intros x Hx. unfold geom. rewrite Hout; [done| |by eapply cells_mid].
        intros ->. assert (is_Some (cellv it o)) as [y Hy].
        { eapply core_cell; [exact Hc|]. rewrite cells_app. cbn. set_solver. }
        apply cellv_item in Hy as [? ?]. congruence.
      * intros x Hx. cbn [total] in Hx. rewrite W7, W3 by lia. done.
      * apply core_cons. cbn [s_n]. split; [|apply core_cons; split; [|constructor]].
        -- split; cbn [fst snd s_cell s_n s_req s_tag]; try lia; try done.
           ++ rewrite (gs_geom _ _ _ _ G3), decide_False by done. rewrite (gs_geom _ _ _ _ G2). by rewrite decide_True.
           ++ eapply word_at_agree; [|exact W1]. intros x Hx. apply W7; lia.
           ++ eapply word_at_agree; [|exact W2]. intros x Hx. apply W7; lia.
        -- split; cbn [fst snd s_cell s_n s_req s_tag]; try lia; try done.
           rewrite (gs_geom _ _ _ _ G3). by rewrite decide_True.
    + eapply ring_links_same; [|exact Hused]. intros x Hx. destruct (Hlinks x) as (? & ? & _); [set_solver|done].
    + eapply ring_links_same; [|exact Hunused]. intros x Hx. destruct (Hlinks x) as (? & ? & _); [set_solver|done].
    + rewrite cells_app in *. cbn [cells fmap list_fmap s_cell] in *. rewrite <- Permutation_middle. apply NoDup_cons. split; [|done].
      intros Hin. assert (is_Some (cellv it o)) as [y Hy]; [|apply cellv_item in Hy as [? ?]; congruence].
      eapply core_cell; [exact Hc|]. rewrite cells_app. exact Hin.
    + intros x Hx. apply W8, W4, Hm. rewrite Htot. rewrite total_app in Hx. cbn [total s_n] in Hx. lia.
    + rewrite total_app. cbn [total s_n]. lia.
  - rewrite (gs_nxt _ _ _ _ G3), (gs_nxt _ _ _ _ G2). unfold nxt. by rewrite Ho1.
  - rewrite (gs_prv _ _ _ _ G3), (gs_prv _ _ _ _ G2). unfold prv. by rewrite Ho1.
  - done.
  - intros q Hq. by destruct (Hlinks q Hq) as (_ & _ & ->).
  - intros x Hx. rewrite W7, W3 by lia. done.
  - auto.
  - intros q Hq. eapply geom_step_items; [exact G2|exact Ho1|]. eapply geom_step_items; [exact G3| |exact Hq].
    rewrite (gs_out _ _ _ _ G2) by done. exact Hs1.
Qed.

(** Giving the cell [d], which is in no ring, to the application. *)
Lemma wp_give m it ps bl k b B w l d r lu lf length t (Q : Z -> St -> Prop) :
  bst m it b B w (l ++ d :: r) lu lf -> lu ≡ₚ used_of (l ++ r) -> lf ≡ₚ unused_of (l ++ r) ->
  nxt it (s_cell d) = Some 0 -> prv it (s_cell d) = Some 0 -> n_used B = Zlen lu ->
  s_cell d <> 0 -> 0 < length <= 8 * (s_n d - 2) ->
  (forall it' m', block_ok m' it' (mk_ghost b w (l ++ mk_seg (s_cell d) (s_n d) length (Some t) :: r)) ->
     (forall q, q ∉ cells (l ++ d :: r) -> cellv it' q = cellv it q) ->
     (forall q, q <> b -> blk it' q = blk it q) ->
     load m' (w + 8 * total l + 8) (Z.to_nat length) = Some (replicate (Z.to_nat length) 0) ->
     (forall x, ~ (w + 8 * total l <= x < w + 8 * total l + 8 * s_n d) -> m' !! x = m !! x) ->
     (forall x, is_Some (m !! x) -> is_Some (m' !! x)) ->
     (forall q, is_Some (it' !! q) -> is_Some (it !! q)) -> Q (w + 8 * total l + 8) (mk_st m' it' ps bl k)) ->
  wp (upd_block b (fun b => set_n_used (n_used b + 1) b);;
      upd_cell (s_cell d) (set_req length (Some t));;
      sec_insert_cell_ring b Used (s_cell d);;
      c ← cell_at (s_cell d);
      memset0 (sec_cell_to_memory c) length;;
      mret (sec_cell_to_memory c)) Q (mk_st m it ps bl k).
Proof.
  intros HB Hlu Hlf Hn0 Hp0 Hnu Hd0 Hlen HQ. pose proof HB as [Hb Hbw Ht Hc Hused Hunused Hnd Hm Hr].
  pose proof (seg_range _ _ _ _ _ _ Hc) as (Hl0 & Hr0 & Hn3 & Htot).
  assert (forall x, x ∈ lu \/ x ∈ lf -> x ∈ cells (l ++ d :: r) /\ x <> s_cell d) as Hin.
  { intros x Hx. assert (x ∈ cells l \/ x ∈ cells r) as Hx'.
    { rewrite <- elem_of_app, <- cells_app. destruct Hx as [Hx|Hx]; [apply used_cells_sub; by rewrite <- Hlu|apply unused_cells_sub; by rewrite <- Hlf]. }
    split; [rewrite cells_app; cbn; set_solver|by eapply cells_mid]. }
  step. eapply wp_upd_block; [exact Hb|]. cbn [items with_items mem pool_data all_blocks calls].
  set (it1 := <[b := _]> it).
  assert (forall q, cellv it1 q = cellv it q) as Hcv1 by (intros q; by eapply cellv_insert_block).
  assert (bst m it1 b (set_n_used (n_used B + 1) B) w (l ++ d :: r) lu lf) as HB1.
  { eapply bst_same; [exact HB|exact Hcv1|unfold it1; rewrite blk_insert; by rewrite decide_True|done..]. }
  pose proof (core_seg _ _ _ _ _ _ (bs_core _ _ _ _ _ _ _ _ HB1)) as [Hg _ _ _ _ _]. cbn [fst snd] in Hg.
  destruct (geom_cell _ _ _ _ _ _ Hg) as (c & Hcv & Hcw & Hcn & _).
  step. eapply wp_geom_step; [exact Hcv|done|done|reflexivity|]. intros it2 G2.
  cbn [words n_words requested tag set_req] in G2. rewrite Hcw, Hcn in G2.
  pose proof (bst_put_req _ _ _ _ _ _ _ _ _ _ _ _ _ HB1 G2 ltac:(lia) ltac:(split; [done|intros; lia])) as HB2.
  step. eapply wp_mono.
  { eapply insert_ring; [exact (bs_blk _ _ _ _ _ _ _ _ HB2)|exact (bs_used _ _ _ _ _ _ _ _ HB2)| | | |done].
    - rewrite (gs_nxt _ _ _ _ G2). unfold nxt. by rewrite Hcv1.
    - rewrite (gs_prv _ _ _ _ G2). unfold prv. by rewrite Hcv1.
    - intros Hx. by apply (Hin (s_cell d)); [left|]. }
  intros _ st (it3 & lu' & -> & R3 & Ring3 & Hlu').
  assert (bst m it3 b (set_ring Used (s_cell d) (set_n_used (n_used B + 1) B)) w
    (l ++ mk_seg (s_cell d) (s_n d) length (Some t) :: r) lu' lf) as HB3.
  { eapply bst_used_step; [exact HB2|exact R3|exact Ring3|]. intros x Hx.
    destruct (Hin x (or_intror Hx)) as [_ Hne]. rewrite not_elem_of_cons. split; [done|].
    intros Hxu. rewrite Hlu in Hxu. rewrite Hlf in Hx. eapply used_unused_disjoint; [|exact Hxu|exact Hx].
    rewrite cells_app in *. cbn in Hnd. apply NoDup_app in Hnd as (? & Hdis & [? ?]%NoDup_cons). apply NoDup_app. set_solver. }
  pose proof (core_seg _ _ _ _ _ _ (bs_core _ _ _ _ _ _ _ _ HB3)) as [Hg3 _ _ _ _ _]. cbn [fst snd s_cell] in Hg3.
  destruct (geom_cell _ _ _ _ _ _ Hg3) as (c3 & Hcv3 & Hcw3 & _).
  step. eapply wp_cell_at; [exact Hcv3|]. unfold sec_cell_to_memory, sizeof_word. rewrite Hcw3.
  step. apply wp_memset0; [lia|intros x Hx; apply Hm; rewrite Htot; lia|]. intros m' Z1 Z2 Z3. step.
  apply HQ.
  - eexists _, lu', lf. cbn [g_base g_segs g_block mem] in *. split_and!.
    + apply (bst_payload m m'); [exact HB3| |exact Z3]. cbn [s_n]. intros x Hx. apply Z2. lia.
    + rewrite Hlu', used_mid, Hlu. unfold seg_used. cbn [s_req s_cell].
      destruct (Z.eqb_spec length 0); [lia|done].
    + rewrite unused_mid. unfold seg_used. cbn [s_req].
      destruct (Z.eqb_spec length 0); [lia|done].
    + cbn. apply Permutation_length in Hlu'. rewrite Hlu', Hnu. cbn [Datatypes.length]. lia.
  - intros q Hq. rewrite (rs_out _ _ _ _ _ _ _ R3).
    + rewrite (gs_out _ _ _ _ G2), Hcv1; [done|]. intros ->. apply Hq. rewrite cells_app. cbn. set_solver.
    + rewrite not_elem_of_cons. split; [intros ->; apply Hq; rewrite cells_app; cbn; set_solver|].
      intros Hx. by apply Hq, (Hin q (or_introl Hx)).
  - intros q Hq. rewrite (rs_blk _ _ _ _ _ _ _ R3), decide_False by done.
    rewrite (gs_blk _ _ _ _ G2). unfold it1. rewrite blk_insert. by rewrite decide_False.
  - exact Z1.
  - intros x Hx. apply Z2. lia.
  - exact Z3.
  - intros q Hq. eapply ring_step_items in Hq; [|exact R3|exact (bs_blk _ _ _ _ _ _ _ _ HB2)].
    eapply geom_step_items in Hq; [|exact G2|exact Hcv]. unfold it1 in Hq.
    apply lookup_insert_is_Some' in Hq as [<-|Hq]; [by eapply blk_item|done].
Qed.

Lemma lives_mid w l s s' r : s_n s' = s_n s -> seg_used s = false -> seg_used s' = true ->
  lives w (l ++ s' :: r) ≡ₚ (w + 8 * total l + 8, s_req s') :: lives w (l ++ s :: r).
Proof.
  intros Hn Hu Hu'. rewrite !lives_app, !lives_cons, Hu, Hu', Hn. cbn [app]. symmetry. apply Permutation_middle.
Qed.

Section Alloc.
Context `{SystemLaws}.

(** The result of an allocation in a block: NULL and the same block, or a block with
    one more live range, of zeros. *)
Definition alloc_post (g : Ghost) (length : Z) (m : Mem) (it : gmap Z Item) (bl : list Z) (p : Z) (st' : St) : Prop :=
  (p = 0 /\ exists ps' k', st' = mk_st m it ps' bl k' /\ pools_ok st') \/
  (exists m' it' ps' k' g', st' = mk_st m' it' ps' bl k' /\ pools_ok st' /\ block_ok m' it' g' /\
     outside g g' m m' it it' /\ p <> 0 /\ live g' ≡ₚ (p, length) :: live g /\
     load m' p (Z.to_nat length) = Some (replicate (Z.to_nat length) 0) /\
     (forall q n, (q, n) ∈ live g -> load m' q (Z.to_nat n) = load m q (Z.to_nat n))).

Lemma pools_ok_items m it m' it' ps bl k : pools_ok (mk_st m it ps bl k) ->
  (forall q, is_Some (it' !! q) -> is_Some (it !! q)) -> pools_ok (mk_st m' it' ps bl k).
Proof. intros [H1 H2 H3] Hi. split; cbn in *; auto. Qed.

Lemma pools_ok_calls m it ps bl k k' : pools_ok (mk_st m it ps bl k) -> pools_ok (mk_st m it ps bl k').
Proof. by intros [H1 H2 H3]. Qed.

Lemma items_views it it' q : cellv it' q = cellv it q -> blk it' q = blk it q ->
  is_Some (it' !! q) -> is_Some (it !! q).
Proof. unfold cellv, blk. destruct (it' !! q) as [[]|], (it !! q) as [[]|]; naive_solver. Qed.

(** Live ranges lie apart from an unused cell. *)
Lemma lives_away m it w l s r q n : core m it w (l ++ s :: r) -> seg_used s = false ->
  (q, n) ∈ lives w (l ++ s :: r) -> 0 < n /\ (q + n <= w + 8 * total l \/ w + 8 * total l + 8 * s_n s <= q).
Proof.
  intros Hc Hu Hin. pose proof Hc as [Hl [_ Hr]%core_cons]%core_app.
  rewrite lives_app, lives_cons, Hu in Hin. apply elem_of_app in Hin as [Hin|Hin].
  - apply (lives_range _ _ _ _ _ _ Hl) in Hin. lia.
  - apply (lives_range _ _ _ _ _ _ Hr) in Hin. lia.
Qed.

Lemma lives_unused a k L : Forall (fun s => seg_used s = false) k ->
  lives a (k ++ L) = lives (a + 8 * total k) L.
Proof.
  revert a. induction k as [|s k IH]; intros a Hk; [cbn [app total]; f_equal; lia|]. apply Forall_cons in Hk as [Hs Hk].
  cbn [app]. rewrite lives_cons, Hs, IH by done. cbn [app total]. f_equal. lia.
Qed.

(** The unused cell [s] made room for the used cell [d] and the unused ones [k]. *)
Lemma alloc_done m it b w l s r m' it' ps' bl k' d k : core m it w (l ++ s :: r) -> seg_used s = false ->
  pools_ok (mk_st m' it' ps' bl k') -> block_ok m' it' (mk_ghost b w (l ++ d :: k ++ r)) ->
  seg_used d = true -> Forall (fun s => seg_used s = false) k -> s_n d + total k = s_n s ->
  (forall q, q ∈ cells (d :: k) -> q = s_cell s \/ it !! q = None) ->
  (forall q, q ∉ b :: cells (l ++ s :: r) -> is_Some (it !! q) -> cellv it' q = cellv it q /\ blk it' q = blk it q) ->
  load m' (w + 8 * total l + 8) (Z.to_nat (s_req d)) = Some (replicate (Z.to_nat (s_req d)) 0) ->
  (forall x, ~ (w + 8 * total l <= x < w + 8 * total l + 8 * s_n s) -> m' !! x = m !! x) ->
  (forall x, is_Some (m !! x) -> is_Some (m' !! x)) -> 0 < w ->
  alloc_post (mk_ghost b w (l ++ s :: r)) (s_req d) m it bl (w + 8 * total l + 8) (mk_st m' it' ps' bl k').
Proof.
  intros Hc Hu Hps HB Hd Hk Hn Hcells Hview Hz Hmem Hmap Hw. right.
  pose proof (seg_range _ _ _ _ _ _ Hc) as (Hl0 & Hr0 & Hs3 & Htot).
  exists m', it', ps', k', (mk_ghost b w (l ++ d :: k ++ r)). split_and!; try done.
  - split; cbn [g_block g_base g_segs]; try done.
    + rewrite !total_app in *. cbn [total] in *. rewrite total_app. lia.
    + intros q Hq. rewrite cells_app in Hq |- *. change (cells (d :: k ++ r)) with (cells ((d :: k) ++ r)) in Hq.
      rewrite cells_app in Hq. rewrite !elem_of_app in Hq. cbn.
      destruct Hq as [Hq|[Hq|Hq]]; [set_solver|destruct (Hcells q Hq) as [->|?]; [left; set_solver|by right]|set_solver].
    + intros x Hx. apply Hmem. unfold in_pages in Hx. cbn [g_base g_segs] in Hx. lia.
  - lia.
  - unfold live. cbn [g_base g_segs]. rewrite !lives_app, !lives_cons, Hu, Hd, lives_unused by done. cbn [app].
    replace (w + 8 * total l + 8 * s_n d + 8 * total k) with (w + 8 * total l + 8 * s_n s) by lia.
    symmetry. apply Permutation_middle.
  - intros q n Hq. destruct (lives_away _ _ _ _ _ _ _ _ Hc Hu Hq). apply load_agree. intros x Hx. apply Hmem. lia.
Qed.

(** The part of [sec_alloc] that follows the search, on the unused cell [s]. *)
Lemma wp_alloc_cell m it ps bl k b B w l s r lu lf t length : pools_ok (mk_st m it ps bl k) ->
  bst m it b B w (l ++ s :: r) lu lf -> lu ≡ₚ used_of (l ++ s :: r) -> lf ≡ₚ unused_of (l ++ s :: r) ->
  n_used B = Zlen lu -> seg_used s = false -> 0 < length -> sec_size_to_words length + 2 <= s_n s ->
  wp (cell ← sec_cut (s_cell s) (sec_size_to_words length + 2);
      if cell =? 0 then mret 0 else sec_take b cell (Some t) length)
    (alloc_post (mk_ghost b w (l ++ s :: r)) length m it bl) (mk_st m it ps bl k).
Proof.
  intros Hps HB Hlu Hlf Hnu Hsu Hlen Hfit. destruct (size_words _ Hlen) as [Hsw1 Hsw2].
  pose proof HB as [Hb Hbw Ht Hc Hused Hunused Hnd Hm [Hr1 Hr2]].
  destruct (bst_seg _ _ _ _ _ _ _ _ _ _ HB) as (c & Hcv & Hcw & Hcn & _).
  pose proof (pools_addresses _ Hps _ (cellv_item _ _ _ Hcv)) as Hs0.
  set (n := sec_size_to_words length + 2) in *. unfold sec_cut. do 3 step. rewrite Hcn, Hcw. unfold sizeof_word.
  assert (lu ≡ₚ used_of (l ++ r)) as Hlu1 by (rewrite Hlu, used_mid, Hsu; done).
  assert (forall g, seg_used (mk_seg g n length (Some t)) = true /\ seg_used (mk_seg g (s_n s) length (Some t)) = true) as Hused'.
  { intros g. unfold seg_used. cbn [s_req]. destruct (Z.eqb_spec length 0); [lia|done]. }
  destruct (Z.ltb_spec (n + WASTE) (s_n s)) as [Hsplit|_].
  - step. apply wp_pool_alloc; [exact Hps|intros ps' k' Hps'; cbn [Z.eqb]; step; cbn [Z.eqb]; step; left; split; [done|]; by exists ps', k'|].
    intros o ps' k' Hps' Ho Hfresh. destruct (Z.eqb_spec o 0) as [?|_]; [lia|].
    assert (o ∉ cells (l ++ s :: r)) as Hno.
    { intros Hx. destruct (core_cell _ _ _ _ _ Hc Hx) as [? Hx']. apply cellv_item in Hx' as [? ?]. congruence. }
    eapply (wp_split m it ps' bl k' b B w l s r lu lf o n); [exact HB|exact Hfresh|exact Hsu|lia|exact Hsplit| | |].
    { intros Hx. apply Hno, used_cells_sub. by rewrite <- Hlu. }
    { intros Hx. apply Hno, unused_cells_sub. by rewrite <- Hlf. }
    intros it1 m1 HB1 Hon Hop Hcv1 Hbl1 Hm1 Hmap1 Hit1.
    set (s' := mk_seg (s_cell s) (s_n s - n) 0 None) in *. set (d := mk_seg o n 0 None) in *.
    destruct (Z.eqb_spec o 0) as [?|_]; [lia|].
    assert (exists co, cellv it1 o = Some co /\ next co = 0) as (co & Hco & Hcon).
    { unfold nxt in Hon. destruct (cellv it1 o) as [co|]; [|done]. injection Hon as Hon. by exists co. }
    unfold sec_take. step. eapply wp_cell_at; [exact Hco|]. rewrite Hcon. cbn [Z.eqb negb]. step. step.
    change o with (s_cell d). eapply (wp_give m1 it1 ps' bl k' b B w l d (s' :: r) lu lf length t); try done; try (cbn; lia).
    { rewrite Hlu1, !used_app, used_cons. done. }
    { rewrite Hlf, !unused_app, !unused_cons, Hsu. done. }
    intros it2 m2 HB2 Hcv2 Hbl2 Hz Hm2 Hmap2 Hit2. cbn [s_n d] in Hm2.
    apply (alloc_done m it b w l s r m2 it2 ps' bl k' (mk_seg o n length (Some t)) [s']); try done; try (by apply Hused').
    + eapply pools_ok_items; [exact Hps'|]. auto.
    + by repeat constructor.
    + cbn. lia.
    + intros q Hq. cbn in Hq. set_solver.
    + intros q [Hqb Hq]%not_elem_of_cons Hqi. assert (q <> o) by (intros ->; destruct Hqi; congruence).
      rewrite cells_app in Hq. cbn in Hq. apply not_elem_of_app in Hq as [Hq1 [Hq2 Hq3]%not_elem_of_cons].
      split; [|by rewrite Hbl2, Hbl1]. rewrite Hcv2, Hcv1; [done..|].
      rewrite cells_app. cbn. rewrite not_elem_of_app, !not_elem_of_cons. done.
    + intros x Hx. rewrite Hm2, Hm1; [done|lia|lia].
    + auto.
  - step. destruct (Z.eqb_spec (s_cell s) 0) as [?|_]; [lia|].
    assert (s_cell s ∈ lf) as Hslf by (rewrite Hlf, unused_mid, Hsu; left).
    destruct (ring_linked _ _ _ _ _ Hunused Hslf Hcv) as [Hn0 _].
    unfold sec_take. step. eapply wp_cell_at; [exact Hcv|]. destruct (Z.eqb_spec (next c) 0) as [?|_]; [done|]. cbn [negb].
    step. eapply wp_mono; [eapply (remove_ring b B Unused lf); [exact Hb|exact Hunused|exact Hslf]|].
    intros _ st (it1 & p & lf1 & -> & R1 & Ring1 & Hlf1 & Hn1 & Hp1). cbn beta.
    assert (lf1 ≡ₚ unused_of (l ++ r)) as Hlf1'.
    { apply (Permutation_cons_inv (a := s_cell s)). rewrite <- Hlf1, Hlf, unused_mid, Hsu. done. }
    eapply (wp_give m it1 ps bl k b (set_ring Unused p B) w l s r lu lf1 length t); try done; [|lia|lia|].
    { eapply bst_unused_step; [exact HB|exact R1|exact Ring1|]. intros x Hx Hx'. rewrite Hlu in Hx. rewrite Hlf in Hx'.
      by eapply used_unused_disjoint. }
    intros it2 m2 HB2 Hcv2 Hbl2 Hz Hm2 Hmap2 Hit2.
    apply (alloc_done m it b w l s r m2 it2 ps bl k (mk_seg (s_cell s) (s_n s) length (Some t)) []); try done; try (by apply Hused').
    + eapply pools_ok_items; [exact Hps|]. intros q Hq%Hit2. by eapply ring_step_items.
    + cbn. lia.
    + intros q Hq. cbn in Hq. set_solver.
    + intros q [Hqb Hq]%not_elem_of_cons _. rewrite Hcv2, Hbl2, (rs_blk _ _ _ _ _ _ _ R1), (rs_out _ _ _ _ _ _ _ R1); [|..|done|done].
      * split; [done|]. by rewrite decide_False.
      * intros Hx. apply Hq, unused_cells_sub. by rewrite <- Hlf.
Qed.

Lemma sec_alloc_spec m it ps bl k g t length : pools_ok (mk_st m it ps bl k) -> block_ok m it g -> 0 < length ->
  wp (sec_alloc (g_block g) (Some t) length) (alloc_post g length m it bl) (mk_st m it ps bl k).
Proof.
  intros Hps (B & lu & lf & HB & Hlu & Hlf & Hnu) Hlen. destruct g as [b w L]. cbn [g_block g_base g_segs] in *.
  pose proof HB as [Hb Hbw Ht Hc Hused Hunused Hnd Hm [Hr1 Hr2]].
  unfold sec_alloc. do 6 step.
  destruct (Z.eqb_spec (unused_cells B) 0) as [?|Hne]; [step; left; by eauto 10|].
  step. unfold cell_fuel. do 2 step.
  pose proof Hunused as [Hhead Hndf _ _]. destruct lf as [|f lf']; [by cbn in Hhead|]. cbn in Hhead. rewrite Hhead in *.
  assert (forall x, x ∈ f :: lf' -> is_Some (it !! x)) as Hlfit.
  { intros x Hx. rewrite Hlf in Hx. apply unused_cells_sub in Hx.
    destruct (core_cell _ _ _ _ _ Hc Hx) as [? Hcv]. by eapply cellv_item. }
  eapply wp_mono; [eapply (wp_find_cell m it ps bl k f (f :: lf') _ _ [] f lf'); [done|done|]|].
  { pose proof (cells_size it (f :: lf') Hndf Hlfit) as Hsz. cbn [items]. cbn in Hsz. lia. }
  intros cell st (-> & Hcell). cbn beta. destruct (Z.eqb_spec cell 0) as [?|Hcne]; [step; left; by eauto 10|].
  destruct Hcell as [?|[Hcin (c & Hcv & Hcw)]]; [done|].
  pose proof Hcin as Hcin'. rewrite Hlf in Hcin'. apply elem_unused in Hcin' as (l & s & r & -> & <- & Hsu).
  destruct (bst_seg _ _ _ _ _ _ _ _ _ _ HB) as (c' & Hcv' & Hcwo & Hcn & Hcr & Hct). assert (c' = c) as -> by congruence.
  pose proof (core_seg _ _ _ _ _ _ Hc) as Hs. destruct (seg_unused _ _ _ _ Hs Hsu) as [Hreq Htag].
  destruct (ring_linked it f _ _ c Hunused Hcin Hcv) as [_ Hpv0].
  pose proof (seg_range _ _ _ _ _ _ Hc) as (Hl0 & Hr0 & _ & Htot).
  step. eapply wp_cell_at; [exact Hcv|]. step. apply wp_assert; [apply bool_decide_eq_true_2; congruence|].
  step. apply wp_assert; [apply Z.eqb_eq; congruence|].
  do 2 step. step. apply wp_assert; [apply negb_true_iff, Z.eqb_neq; lia|].
  step. eapply wp_check_guards; [by apply (pools_addresses _ Hps)|exact Hs|].
  rewrite <- Hhead in Hunused. eapply wp_alloc_cell; try done. lia.
Qed.
End Alloc.

(** * Release *)

(** Two neighbours become the one cell [o]: its record and its guards. *)
Lemma bst_merge m m' it it' b B B' w l s1 s2 r lu lf lf' o req tg : bst m it b B w (l ++ s1 :: s2 :: r) lu lf ->
  o = s_cell s1 \/ o = s_cell s2 ->
  0 <= req <= 8 * (s_n s1 + s_n s2 - 2) -> (tg = None <-> req = 0) ->
  geom it' o = Some (w + 8 * total l, s_n s1 + s_n s2, req, tg) ->
  (forall q, q ∈ cells l \/ q ∈ cells r -> geom it' q = geom it q) ->
  word_at m' (w + 8 * total l) o -> word_at m' (w + 8 * total l + 8 * (s_n s1 + s_n s2 - 1)) o ->
  (forall x, ~ (w + 8 * total l <= x < w + 8 * total l + 8 * (s_n s1 + s_n s2)) -> m' !! x = m !! x) ->
  (forall x, is_Some (m !! x) -> is_Some (m' !! x)) ->
  blk it' b = Some B' -> bl_words B' = bl_words B -> bl_n_words B' = bl_n_words B ->
  ring_ok it' (used_cells B') lu -> ring_ok it' (unused_cells B') lf' ->
  bst m' it' b B' w (l ++ mk_seg o (s_n s1 + s_n s2) req tg :: r) lu lf'.
Proof.
  intros [Hb Hw Ht Hc _ _ Hnd Hm Hr] Ho Hreq Htag Hg Hgo W1 W2 Hmem Hmap Hb' Hw' Hn' Hu Hf.
  pose proof (seg_range _ _ _ _ _ _ Hc) as (H1 & _ & H2 & _).
  assert (core m it w ((l ++ [s1]) ++ s2 :: r)) as Hc2 by (by rewrite <- (assoc_L (++))).
  pose proof (seg_range _ _ _ _ _ _ Hc2) as (_ & _ & H3 & _).
  assert (total (l ++ mk_seg o (s_n s1 + s_n s2) req tg :: r) = total (l ++ s1 :: s2 :: r)) as Htot
    by (rewrite !total_app; cbn [total s_n]; lia).
  split; rewrite ?Htot; try done; try congruence; [| |auto].
  - apply (retile m m' it it' w l [s1; s2] [mk_seg o (s_n s1 + s_n s2) req tg] r); [exact Hc|cbn [total s_n]; lia|done| |].
    + intros x Hx. apply Hmem. cbn [total] in Hx. lia.
    + apply core_cons. split; [|constructor]. split; cbn [fst snd s_cell s_n s_req s_tag]; try done; lia.
  - rewrite cells_app in *. cbn in *. apply NoDup_app in Hnd as (Hnd1 & Hd & [H4 [H5 Hnd2]%NoDup_cons]%NoDup_cons).
    apply NoDup_app. split_and!; [done| |].
    + intros x Hx [->|Hx']%elem_of_cons; [|by apply (Hd x Hx); right; right].
      destruct Ho as [-> | ->]; apply (Hd _ Hx); [left|right; left].
    + apply NoDup_cons. split; [|done]. destruct Ho as [-> | ->]; [|done]. intros ?. apply H4. by right.
Qed.

Section Free.
Context `{SystemLaws}.

Lemma delete_views it s : forall q, q <> s -> cellv (delete s it) q = cellv it q /\ blk (delete s it) q = blk it q.
Proof. intros q Hq. rewrite cellv_delete, blk_delete. by rewrite !decide_False. Qed.

(** The cell [s], which is in no ring, goes to its unused neighbour before it. *)
Lemma wp_merge_before m it ps bl k b B w l o s r lu lf co (Q : Z -> St -> Prop) :
  pools_ok (mk_st m it ps bl k) -> bst m it b B w (l ++ o :: s :: r) lu lf -> seg_used o = false ->
  s_cell s ∉ lu -> s_cell s ∉ lf -> s_cell o ∈ lf -> cellv it (s_cell o) = Some co ->
  (forall m' it' ps', pools_ok (mk_st m' it' ps' bl k) ->
     bst m' it' b B w (l ++ mk_seg (s_cell o) (s_n o + s_n s) 0 None :: r) lu lf ->
     (forall q, q <> s_cell o -> q <> s_cell s -> cellv it' q = cellv it q) ->
     (forall q, q <> s_cell s -> blk it' q = blk it q) ->
     (forall x, ~ (w + 8 * total l <= x < w + 8 * total l + 8) ->
        ~ (w + 8 * total l + 8 * (s_n o + s_n s - 1) <= x < w + 8 * total l + 8 * (s_n o + s_n s)) -> m' !! x = m !! x) ->
     (forall x, is_Some (m !! x) -> is_Some (m' !! x)) -> Q (s_cell o) (mk_st m' it' ps' bl k)) ->
  wp (m_assert (bool_decide (tag co = None));;
      m_assert (negb (next co =? 0) && negb (prev co =? 0));;
      c ← cell_at (s_cell s);
      upd_cell (s_cell o) (fun o => set_geom (words o) (n_words o + n_words c) o);;
      sec_write_guards (s_cell o);;
      pool_free (s_cell s);;
      mret (s_cell o)) Q (mk_st m it ps bl k).
Proof.
  intros Hps HB Hu Hslu Hslf Holf Hco HQ. pose proof HB as [Hb Hw Ht Hc Hused Hunused Hnd Hm Hr].
  pose proof (seg_range _ _ _ _ _ _ Hc) as (H1 & _ & H2 & Htot).
  assert (bst m it b B w ((l ++ [o]) ++ s :: r) lu lf) as HB2 by (by rewrite <- (assoc_L (++))).
  pose proof (seg_range _ _ _ _ _ _ (bs_core _ _ _ _ _ _ _ _ HB2)) as (_ & Hr0 & H3 & _).
  destruct (bst_seg _ _ _ _ _ _ _ _ _ _ HB) as (co' & Hco' & Hcow & Hcon & Hcor & Hcot).
  assert (co' = co) as -> by congruence.
  destruct (bst_seg _ _ _ _ _ _ _ _ _ _ HB2) as (cs & Hcs & _ & Hcsn & _).
  destruct (seg_unused _ _ _ _ (core_seg _ _ _ _ _ _ Hc) Hu) as [Hreq Htag].
  destruct (ring_linked _ _ _ _ _ Hunused Holf Hco) as [Hn0 Hp0].
  assert (s_cell o <> s_cell s) as Hos.
  { rewrite cells_app in Hnd. cbn in Hnd. apply NoDup_app in Hnd as (_ & _ & [Hno _]%NoDup_cons). set_solver. }
  step. apply wp_assert; [apply bool_decide_eq_true_2; congruence|].
  step. apply wp_assert; [apply andb_true_iff; rewrite !negb_true_iff, !Z.eqb_neq; done|].
  do 2 step. step. eapply wp_geom_step; [exact Hco|done|done|reflexivity|]. intros it1 G1.
  cbn [words n_words requested tag set_geom] in G1. rewrite Hcow, Hcon, Hcsn, Hcor, Hcot, Hreq, Htag in G1.
  assert (geom it1 (s_cell o) = Some (w + 8 * total l, s_n o + s_n s, 0, None)) as Hg1.
  { rewrite (gs_geom _ _ _ _ G1). by rewrite decide_True. }
  destruct (geom_cell _ _ _ _ _ _ Hg1) as (c1 & Hc1 & Hc1w & Hc1n & _).
  step. cbn [total] in Htot. eapply wp_write_guards; [exact Hc1|lia|intros x Hx; apply Hm; lia|].
  rewrite Hc1w, Hc1n. intros m1 W1 W2 W3 W4.
  assert (forall q, is_Some (it1 !! q) -> is_Some (it !! q)) as Hit1.
  { intros q. destruct (decide (q = s_cell o)) as [->|Hq]; [intros _; by eapply cellv_item|].
    apply items_views; [by apply (gs_out _ _ _ _ G1)|apply (gs_blk _ _ _ _ G1)]. }
  step. apply wp_pool_free; [by eapply pools_ok_items| |].
  { eapply cellv_item. rewrite (gs_out _ _ _ _ G1) by done. exact Hcs. }
  intros ps' Hps'. step. pose proof (delete_views it1 (s_cell s)) as Hdel. set (it2 := delete _ _) in *.
  assert (forall q, q <> s_cell s -> nxt it2 q = nxt it q /\ prv it2 q = prv it q) as Hlinks.
  { intros q Hq. destruct (Hdel q Hq) as [E _]. unfold nxt, prv. rewrite E. split; [apply (gs_nxt _ _ _ _ G1)|apply (gs_prv _ _ _ _ G1)]. }
  assert (b <> s_cell s) as Hbs.
  { intros ->. eapply block_not_cell; [exact HB|]. rewrite cells_app. cbn. set_solver. }
  apply HQ.
  - done.
  - eapply (bst_merge m m1 it it2 b B B w l o s r lu lf lf (s_cell o) 0 None); [exact HB|by left|lia|..]; try done.
    + unfold geom. destruct (Hdel (s_cell o) Hos) as [-> _]. exact Hg1.
    + intros q Hq. unfold geom. assert (q <> s_cell s /\ q <> s_cell o) as [Hqs Hqo].
      { split; [apply (cells_mid (l ++ [o]) s r)|apply (cells_mid l o (s :: r))]; rewrite <- ?(assoc_L (++)); try done;
          rewrite ?cells_app; cbn; set_solver. }
      destruct (Hdel q Hqs) as [-> _]. by rewrite (gs_out _ _ _ _ G1).
    + intros x Hx. apply W3; lia.
    + destruct (Hdel b Hbs) as [_ ->]. by rewrite (gs_blk _ _ _ _ G1).
    + eapply ring_links_same; [|exact Hused]. intros x Hx. apply Hlinks. set_solver.
    + eapply ring_links_same; [|exact Hunused]. intros x Hx. apply Hlinks. set_solver.
  - intros q Hqo Hqs. destruct (Hdel q Hqs) as [-> _]. by apply (gs_out _ _ _ _ G1).
  - intros q Hqs. destruct (Hdel q Hqs) as [_ ->]. by apply (gs_blk _ _ _ _ G1).
  - done.
  - done.
Qed.

(** The cell [s], in the ring of unused cells or in none, goes to its unused neighbour
    after it. *)
Lemma wp_merge_after m it ps bl k b B w l s o r lu lf co (Q : Z -> St -> Prop) :
  pools_ok (mk_st m it ps bl k) -> bst m it b B w (l ++ s :: o :: r) lu lf -> seg_used o = false ->
  s_cell s ∉ lu -> (forall x, x ∈ lu -> x ∉ lf) -> s_cell o ∈ lf -> cellv it (s_cell o) = Some co ->
  (s_cell s ∈ lf \/ nxt it (s_cell s) = Some 0 /\ (s_cell s ∉ lf)) ->
  (forall m' it' ps' B' lf', pools_ok (mk_st m' it' ps' bl k) ->
     bst m' it' b B' w (l ++ mk_seg (s_cell o) (s_n s + s_n o) 0 None :: r) lu lf' -> n_used B' = n_used B ->
     s_cell s ∉ lf' -> (lf ≡ₚ lf' \/ lf ≡ₚ s_cell s :: lf') ->
     (forall q, q ∉ lf -> q <> s_cell s -> cellv it' q = cellv it q) ->
     (forall q, q <> s_cell s -> q <> b -> blk it' q = blk it q) ->
     (forall x, ~ (w + 8 * total l <= x < w + 8 * total l + 8) ->
        ~ (w + 8 * total l + 8 * (s_n s + s_n o - 1) <= x < w + 8 * total l + 8 * (s_n s + s_n o)) -> m' !! x = m !! x) ->
     (forall x, is_Some (m !! x) -> is_Some (m' !! x)) -> Q (s_cell o) (mk_st m' it' ps' bl k)) ->
  wp (m_assert (bool_decide (tag co = None));;
      m_assert (negb (next co =? 0) && negb (prev co =? 0));;
      c ← cell_at (s_cell s);
      upd_cell (s_cell o) (fun o => set_geom (words c) (n_words o + n_words c) o);;
      (if negb (next c =? 0) then sec_remove_cell_ring b Unused (s_cell s) else mret tt);;
      sec_write_guards (s_cell o);;
      pool_free (s_cell s);;
      mret (s_cell o)) Q (mk_st m it ps bl k).
Proof.
  intros Hps HB Hu Hslu Hdisj Holf Hco Hatt HQ. pose proof HB as [Hb Hw Ht Hc Hused Hunused Hnd Hm Hr].
  pose proof (seg_range _ _ _ _ _ _ Hc) as (H1 & _ & H2 & Htot).
  assert (bst m it b B w ((l ++ [s]) ++ o :: r) lu lf) as HB2 by (by rewrite <- (assoc_L (++))).
  pose proof (seg_range _ _ _ _ _ _ (bs_core _ _ _ _ _ _ _ _ HB2)) as (_ & Hr0 & H3 & _).
  destruct (bst_seg _ _ _ _ _ _ _ _ _ _ HB2) as (co' & Hco' & _ & Hcon & Hcor & Hcot).
  assert (co' = co) as -> by congruence.
  destruct (bst_seg _ _ _ _ _ _ _ _ _ _ HB) as (cs & Hcs & Hcsw & Hcsn & _).
  destruct (seg_unused _ _ _ _ (core_seg _ _ _ _ _ _ (bs_core _ _ _ _ _ _ _ _ HB2)) Hu) as [Hreq Htag].
  destruct (ring_linked _ _ _ _ _ Hunused Holf Hco) as [Hn0 Hp0].
  assert (s_cell o <> s_cell s) as Hos.
  { rewrite cells_app in Hnd. cbn in Hnd. apply NoDup_app in Hnd as (_ & _ & [Hno _]%NoDup_cons). set_solver. }
  assert (b <> s_cell s) as Hbs.
  { intros ->. eapply block_not_cell; [exact HB|]. rewrite cells_app. cbn. set_solver. }
  step. apply wp_assert; [apply bool_decide_eq_true_2; congruence|].
  step. apply wp_assert; [apply andb_true_iff; rewrite !negb_true_iff, !Z.eqb_neq; done|].
  do 2 step. step. eapply wp_geom_step; [exact Hco|done|done|reflexivity|]. intros it1 G1.
  cbn [words n_words requested tag set_geom] in G1. rewrite Hcsw, Hcon, Hcsn, Hcor, Hcot, Hreq, Htag, (Z.add_comm (s_n o)) in G1.
  step.
  (* out of its ring, when it is in one *)
  apply wp_mono with (P := fun _ st => exists it2 B' lf', st = mk_st m it2 ps bl k /\ ring_ok it2 (used_cells B') lu /\
    ring_ok it2 (unused_cells B') lf' /\ blk it2 b = Some B' /\ bl_words B' = bl_words B /\ bl_n_words B' = bl_n_words B /\
    n_used B' = n_used B /\ (s_cell s ∉ lf') /\ (lf ≡ₚ lf' \/ lf ≡ₚ s_cell s :: lf') /\
    (forall q, geom it2 q = geom it1 q) /\ (forall q, q <> b -> blk it2 q = blk it q) /\
    (forall q, q ∉ lf -> cellv it2 q = cellv it1 q)).
  { assert (ring_ok it1 (used_cells B) lu) as Hu1 by (by eapply ring_geom_step).
    assert (ring_ok it1 (unused_cells B) lf) as Hf1 by (by eapply ring_geom_step).
    assert (blk it1 b = Some B) as Hb1 by (by rewrite (gs_blk _ _ _ _ G1)).
    destruct Hatt as [Hslf|[Hn Hslf]].
    - destruct (ring_linked _ _ _ _ _ Hunused Hslf Hcs) as [Hcsx _].
      destruct (Z.eqb_spec (next cs) 0) as [?|_]; [done|]. cbn [negb].
      eapply wp_mono; [eapply (remove_ring b B Unused lf); [exact Hb1|exact Hf1|exact Hslf]|].
      intros _ st (it2 & p & lf' & -> & R & Hf2 & Hperm & _).
      exists it2, (set_ring Unused p B), lf'. split_and!; try done.
      + eapply ring_same; [|exact Hu1]. intros x Hx. apply (rs_out _ _ _ _ _ _ _ R). auto.
      + rewrite (rs_blk _ _ _ _ _ _ _ R). by rewrite decide_True.
      + pose proof (ring_nodup _ _ _ Hunused) as Hndf. rewrite Hperm in Hndf. by apply NoDup_cons in Hndf as [? _].
      + by right.
      + exact (rs_geom _ _ _ _ _ _ _ R).
      + intros q Hq. rewrite (rs_blk _ _ _ _ _ _ _ R), decide_False by done. apply (gs_blk _ _ _ _ G1).
      + intros q Hq. by apply (rs_out _ _ _ _ _ _ _ R).
    - unfold nxt in Hn. rewrite Hcs in Hn. injection Hn as ->. cbn [Z.eqb negb]. step.
      exists it1, B, lf. split_and!; try done; [by left|]. intros q _. apply (gs_blk _ _ _ _ G1). }
  intros _ st (it2 & B' & lf' & -> & Hu2 & Hf2 & Hb2 & Hbw & Hbn & Hbu & Hslf' & Hperm & Hg2 & Hbl2 & Hcv2). cbn beta.
  assert (geom it2 (s_cell o) = Some (w + 8 * total l, s_n s + s_n o, 0, None)) as Hgo.
  { rewrite Hg2, (gs_geom _ _ _ _ G1). by rewrite decide_True. }
  destruct (geom_cell _ _ _ _ _ _ Hgo) as (c1 & Hc1 & Hc1w & Hc1n & _).
  step. cbn [total] in Htot. eapply wp_write_guards; [exact Hc1|lia|intros x Hx; apply Hm; lia|].
  rewrite Hc1w, Hc1n. intros m1 W1 W2 W3 W4.
  assert (forall q, is_Some (geom it2 q) -> is_Some (it !! q)) as Hgit.
  { intros q. rewrite Hg2, (gs_geom _ _ _ _ G1). case_decide as E; [subst; intros _; by eapply cellv_item|].
    intros [? Hq]. by eapply geom_item. }
  assert (forall q, is_Some (it2 !! q) -> is_Some (it !! q)) as Hit2.
  { intros q Hq. destruct (it2 !! q) as [[c|B2]|] eqn:E; [| |by destruct Hq].
    - apply Hgit. unfold geom, cellv. rewrite E. by eexists.
    - destruct (decide (q = b)) as [->|Hqb]; [by eapply blk_item|]. eapply (blk_item it q B2).
      rewrite <- (Hbl2 q Hqb). unfold blk. by rewrite E. }
  assert (is_Some (it2 !! s_cell s)) as Hsit.
  { assert (is_Some (geom it2 (s_cell s))) as [g Hg].
    { rewrite Hg2, (gs_geom _ _ _ _ G1), decide_False by done. unfold geom. rewrite Hcs. by eexists. }
    by eapply geom_item. }
  step. apply wp_pool_free; [by eapply pools_ok_items|done|].
  intros ps' Hps'. step. pose proof (delete_views it2 (s_cell s)) as Hdel. set (it3 := delete _ _) in *.
  apply (HQ _ _ _ B' lf').
  - done.
  - eapply (bst_merge m m1 it it3 b B B' w l s o r lu lf lf' (s_cell o) 0 None); [exact HB|by right|lia|..]; try done.
    + unfold geom. destruct (Hdel (s_cell o) Hos) as [-> _]. exact Hgo.
    + intros q Hq. assert (q <> s_cell s /\ q <> s_cell o) as [Hqs Hqo].
      { split; [apply (cells_mid l s (o :: r))|apply (cells_mid (l ++ [s]) o r)]; rewrite <- ?(assoc_L (++)); try done;
          rewrite ?cells_app; cbn; set_solver. }
      unfold geom at 1. destruct (Hdel q Hqs) as [-> _]. fold (geom it2 q).
      rewrite Hg2, (gs_geom _ _ _ _ G1). by rewrite decide_False.
    + intros x Hx. apply W3; lia.
    + destruct (Hdel b Hbs) as [_ ->]. done.
    + eapply ring_same; [|exact Hu2]. intros x Hx. apply Hdel. set_solver.
    + eapply ring_same; [|exact Hf2]. intros x Hx. apply Hdel. set_solver.
  - done.
  - done.
  - done.
  - intros q Hq Hqs. destruct (Hdel q Hqs) as [-> _]. rewrite Hcv2 by done. apply (gs_out _ _ _ _ G1).
    intros ->. done.
  - intros q Hqs Hqb. destruct (Hdel q Hqs) as [_ ->]. by apply Hbl2.
  - done.
  - done.
Qed.

(** A release under way: of the block [g0] with memory [m0], the cell [s] is being
    given back; it is in the ring of unused cells once it has been merged with the
    neighbour before it, in no ring until then. *)
Record freeing (g0 : Ghost) (m0 : Mem) (it0 : gmap Z Item) (p n : Z) (m : Mem) (it : gmap Z Item)
    (B : Block) (l : list Seg) (s : Seg) (r : list Seg) (lu lf : list Z) : Prop := {
  fr_bst : bst m it (g_block g0) B (g_base g0) (l ++ s :: r) lu lf;
  fr_used : lu ≡ₚ used_of (l ++ r);
  fr_n : n_used B = Zlen lu + 1;
  fr_ring : seg_used s = false /\ lf ≡ₚ s_cell s :: unused_of (l ++ r) \/
    lf ≡ₚ unused_of (l ++ r) /\ nxt it (s_cell s) = Some 0 /\ prv it (s_cell s) = Some 0;
  fr_live : live g0 ≡ₚ (p, n) :: lives (g_base g0) l ++ lives (g_base g0 + 8 * (total l + s_n s)) r;
  fr_mem : forall x, ~ (g_base g0 + 8 * total l <= x < g_base g0 + 8 * (total l + s_n s)) -> m !! x = m0 !! x;
  fr_mapped : forall x, is_Some (m0 !! x) -> is_Some (m !! x);
  fr_zero : (forall x, p <= x < p + n -> m !! x = Some 0) /\
    g_base g0 + 8 * total l + 8 <= p /\ p + n <= g_base g0 + 8 * (total l + s_n s) - 8;
  fr_cells : forall q, q ∈ cells (l ++ s :: r) -> q ∈ cells (g_segs g0);
  fr_total : total (l ++ s :: r) = total (g_segs g0);
  fr_out : forall q, q ∉ footprint g0 -> cellv it q = cellv it0 q /\ blk it q = blk it0 q
}.

Lemma freeing_disjoint g0 m0 it0 p n m it B l s r lu lf : freeing g0 m0 it0 p n m it B l s r lu lf ->
  (s_cell s ∉ lu) /\ (forall x, x ∈ lu -> x ∉ lf).
Proof.
  intros [HB Hlu _ Hring _ _ _ _ _ _ _]. pose proof (bs_nodup _ _ _ _ _ _ _ _ HB) as Hnd.
  assert (NoDup (cells (l ++ r)) /\ s_cell s ∉ cells (l ++ r)) as [Hnd' Hs].
  { rewrite cells_app in *. cbn in Hnd. rewrite <- Permutation_middle in Hnd. by apply NoDup_cons in Hnd as [? ?]. }
  assert (s_cell s ∉ lu) as Hslu by (intros Hx; apply Hs, used_cells_sub; by rewrite <- Hlu).
  split; [done|]. intros x Hx Hxf. rewrite Hlu in Hx.
  destruct Hring as [[_ Hlf]|[Hlf _]]; rewrite Hlf in Hxf; [apply elem_of_cons in Hxf as [->|Hxf]; [by rewrite <- Hlu in Hx|]|];
    by eapply used_unused_disjoint.
Qed.

Lemma wp_freeing_before g0 m0 it0 p n m it ps bl k B l s r lu lf (Q : Z -> St -> Prop) :
  pools_ok (mk_st m it ps bl k) -> freeing g0 m0 it0 p n m it B l s r lu lf ->
  lf ≡ₚ unused_of (l ++ r) ->
  (forall m' it' ps' l' s', pools_ok (mk_st m' it' ps' bl k) -> freeing g0 m0 it0 p n m' it' B l' s' r lu lf ->
     Q (s_cell s') (mk_st m' it' ps' bl k)) ->
  wp (merge_before (g_block g0) (s_cell s)) Q (mk_st m it ps bl k).
Proof.
  intros Hps HF Hlf HQ. destruct (freeing_disjoint _ _ _ _ _ _ _ _ _ _ _ _ _ HF) as [Hslu Hdisj].
  pose proof (pools_addresses _ Hps) as Haddr. pose proof HF as [HB Hlu Hn _ Hlive Hmem Hmap [Hz [Hp1 Hp2]] Hcells Htot Hout].
  unfold merge_before. step. eapply wp_neighbor_before; [exact Haddr|exact HB|].
  destruct l as [|o l _] using rev_ind; [cbn [last Z.eqb negb]; step; eapply HQ; [done|exact HF]|].
  rewrite last_snoc.
  assert (bst m it (g_block g0) B (g_base g0) (l ++ o :: s :: r) lu lf) as HB' by (by rewrite <- (assoc_L (++)) in HB).
  destruct (bst_seg _ _ _ _ _ _ _ _ _ _ HB') as (co & Hco & _ & _ & Hcor & _).
  pose proof (Haddr _ (cellv_item _ _ _ Hco)) as Ho0. destruct (Z.eqb_spec (s_cell o) 0) as [?|_]; [lia|]. cbn [negb].
  step. eapply wp_cell_at; [exact Hco|]. rewrite Hcor. destruct (s_req o =? 0) eqn:Hreq; [|step; eapply HQ; [done|exact HF]].
  assert (seg_used o = false) as Hou by (unfold seg_used; by rewrite Hreq).
  assert (s_cell o ∈ lf) as Holf.
  { rewrite Hlf, <- (assoc_L (++)). cbn [app]. rewrite unused_mid, Hou. cbn. left. }
  assert (s_cell s ∉ lf) as Hslf.
  { rewrite Hlf. intros Hx%unused_cells_sub. pose proof (bs_nodup _ _ _ _ _ _ _ _ HB) as Hnd.
    eapply (cells_mid (l ++ [o]) s r (s_cell s)); [exact Hnd| |done]. rewrite cells_app in Hx. by apply elem_of_app in Hx. }
  eapply wp_merge_before; [exact Hps|exact HB'|done..|]. intros m' it' ps' Hps' HB2 Hcv Hbl Hm' Hmap'.
  pose proof (seg_range _ _ _ _ _ _ (bs_core _ _ _ _ _ _ _ _ HB')) as (Hl0 & _ & Hno & _).
  pose proof (seg_range _ _ _ _ _ _ (bs_core _ _ _ _ _ _ _ _ HB)) as (_ & _ & Hns & _).
  rewrite total_app in *. cbn [total] in *.
  eapply (HQ _ _ _ l (mk_seg (s_cell o) (s_n o + s_n s) 0 None)); [done|].
  assert (s_cell o ∈ cells (g_segs g0) /\ s_cell s ∈ cells (g_segs g0)) as [Hog Hsg].
  { split; apply Hcells; rewrite !cells_app; cbn; set_solver. }
  split; cbn [s_cell s_n s_req]; try done.
  - rewrite Hlu, <- (assoc_L (++)). cbn [app]. by rewrite used_mid, Hou.
  - left. split; [done|]. rewrite Hlf, <- (assoc_L (++)). cbn [app]. by rewrite unused_mid, Hou.
  - rewrite Hlive. f_equiv. rewrite lives_app, lives_cons, Hou. cbn [app].
    replace (g_base g0 + 8 * (total l + (s_n o + 0) + s_n s)) with (g_base g0 + 8 * (total l + (s_n o + s_n s))) by lia.
    by rewrite app_nil_r.
  - intros x Hx. rewrite Hm' by lia. apply Hmem. lia.
  - auto.
  - split; [|lia]. intros x Hx. rewrite Hm' by lia. by apply Hz.
  - intros q Hq. rewrite cells_app in Hq. cbn in Hq. apply Hcells. rewrite !cells_app. cbn. set_solver.
  - rewrite <- Htot, !total_app. cbn [total s_n]. lia.
  - intros q Hq. destruct (Hout q Hq) as [<- <-]. apply not_elem_of_cons in Hq as [_ Hq].
    split; [apply Hcv|apply Hbl]; intros ->; done.
Qed.

Lemma wp_freeing_after g0 m0 it0 p n m it ps bl k B l s r lu lf (Q : Z -> St -> Prop) :
  pools_ok (mk_st m it ps bl k) -> freeing g0 m0 it0 p n m it B l s r lu lf ->
  (forall m' it' ps' B' s' r' lf', pools_ok (mk_st m' it' ps' bl k) ->
     freeing g0 m0 it0 p n m' it' B' l s' r' lu lf' -> Q (s_cell s') (mk_st m' it' ps' bl k)) ->
  wp (merge_after (g_block g0) (s_cell s)) Q (mk_st m it ps bl k).
Proof.
  intros Hps HF HQ. destruct (freeing_disjoint _ _ _ _ _ _ _ _ _ _ _ _ _ HF) as [Hslu Hdisj].
  pose proof (pools_addresses _ Hps) as Haddr. pose proof HF as [HB Hlu Hn Hring Hlive Hmem Hmap [Hz [Hp1 Hp2]] Hcells Htot Hout].
  unfold merge_after. step. eapply wp_neighbor_after; [exact Haddr|exact HB|].
  destruct r as [|o r]; [cbn [Z.eqb negb]; step; eapply HQ; [done|exact HF]|].
  assert (bst m it (g_block g0) B (g_base g0) ((l ++ [s]) ++ o :: r) lu lf) as HB' by (by rewrite <- (assoc_L (++))).
  destruct (bst_seg _ _ _ _ _ _ _ _ _ _ HB') as (co & Hco & _ & _ & Hcor & _).
  pose proof (Haddr _ (cellv_item _ _ _ Hco)) as Ho0. destruct (Z.eqb_spec (s_cell o) 0) as [?|_]; [lia|]. cbn [negb].
  step. eapply wp_cell_at; [exact Hco|]. rewrite Hcor. destruct (s_req o =? 0) eqn:Hreq; [|step; eapply HQ; [done|exact HF]].
  assert (seg_used o = false) as Hou by (unfold seg_used; by rewrite Hreq).
  assert (s_cell s ∉ cells (l ++ o :: r)) as Hsn.
  { pose proof (bs_nodup _ _ _ _ _ _ _ _ HB) as Hnd. rewrite !cells_app in *. cbn [cells fmap list_fmap] in Hnd.
    rewrite <- Permutation_middle in Hnd. by apply NoDup_cons in Hnd as [? _]. }
  assert (s_cell o ∈ lf) as Holf.
  { destruct Hring as [[_ Hlf]|[Hlf _]]; rewrite Hlf, unused_mid, Hou; cbn; set_solver. }
  eapply wp_merge_after; [exact Hps|exact HB|done..| |].
  { destruct Hring as [[_ Hlf]|(Hlf & Hnx & _)]; [left; rewrite Hlf; left|right; split; [done|]].
    rewrite Hlf. by intros Hx%unused_cells_sub. }
  intros m' it' ps' B' lf' Hps' HB2 Hbn Hslf' Hperm Hcv Hbl Hm' Hmap'.
  assert (lf' ≡ₚ unused_of (l ++ o :: r)) as Hlf'.
  { destruct Hring as [[_ Hlf]|(Hlf & _)], Hperm as [Hpe|Hpe].
    - exfalso. apply Hslf'. rewrite <- Hpe, Hlf. left.
    - apply (Permutation_cons_inv (a := s_cell s)). by rewrite <- Hpe.
    - by rewrite <- Hpe.
    - exfalso. apply Hsn, unused_cells_sub. rewrite <- Hlf, Hpe. left. }
  pose proof (seg_range _ _ _ _ _ _ (bs_core _ _ _ _ _ _ _ _ HB)) as (Hl0 & _ & Hns & _).
  pose proof (seg_range _ _ _ _ _ _ (bs_core _ _ _ _ _ _ _ _ HB')) as (_ & _ & Hno & _).
  eapply (HQ _ _ _ B' (mk_seg (s_cell o) (s_n s + s_n o) 0 None) r lf'); [done|].
  split; cbn [s_cell s_n s_req]; try done.
  - by rewrite Hlu, used_mid, Hou.
  - by rewrite Hbn.
  - left. split; [done|]. by rewrite Hlf', unused_mid, Hou.
  - rewrite Hlive. f_equiv. rewrite lives_cons, Hou. cbn [app].
    by replace (g_base g0 + 8 * (total l + s_n s) + 8 * s_n o) with (g_base g0 + 8 * (total l + (s_n s + s_n o))) by lia.
  - intros x Hx. rewrite Hm' by lia. apply Hmem. lia.
  - auto.
  - split; [|lia]. intros x Hx. rewrite Hm' by lia. by apply Hz.
  - intros q Hq. apply Hcells. rewrite cells_app in *. cbn in *. set_solver.
  - rewrite <- Htot, !total_app. cbn [total s_n]. lia.
  - intros q Hq. destruct (Hout q Hq) as [<- <-]. apply not_elem_of_cons in Hq as [Hqb Hq].
    assert (q <> s_cell s) by (intros ->; apply Hq, Hcells; rewrite cells_app; cbn; set_solver).
    split; [apply Hcv; [|done]|by apply Hbl].
    intros Hx. apply Hq, Hcells. assert (q ∈ cells (l ++ o :: r)) as Hqc.
    { destruct Hring as [[_ Hlf]|(Hlf & _)]; rewrite Hlf in Hx; [apply elem_of_cons in Hx as [?|Hx]; [done|]|]; by apply unused_cells_sub. }
    rewrite cells_app in *. cbn in *. set_solver.
Qed.

(** The end of a release: the cell joins the unused ones. *)
Lemma wp_freeing_end g0 m0 it0 p n m it ps bl k B l s r lu lf (Q : unit -> St -> Prop) :
  pools_ok (mk_st m it ps bl k) -> freeing g0 m0 it0 p n m it B l s r lu lf ->
  (forall it' g', block_ok m it' g' -> pools_ok (mk_st m it' ps bl k) -> outside g0 g' m0 m it0 it' ->
     live g0 ≡ₚ (p, n) :: live g' ->
     (forall q j, (q, j) ∈ live g' -> load m q (Z.to_nat j) = load m0 q (Z.to_nat j)) -> Q tt (mk_st m it' ps bl k)) ->
  wp (c ← cell_at (s_cell s);
      (if next c =? 0 then sec_insert_cell_ring (g_block g0) Unused (s_cell s) else mret tt);;
      upd_cell (s_cell s) (set_req 0 None);;
      upd_block (g_block g0) (fun b => set_n_used (n_used b - 1) b)) Q (mk_st m it ps bl k).
Proof.
  intros Hps HF HQ. destruct (freeing_disjoint _ _ _ _ _ _ _ _ _ _ _ _ _ HF) as [Hslu Hdisj].
  pose proof HF as [HB Hlu Hn Hring Hlive Hmem Hmap _ Hcells Htot Hout].
  destruct (bst_seg _ _ _ _ _ _ _ _ _ _ HB) as (c & Hc & _).
  pose proof (pools_addresses _ Hps _ (cellv_item _ _ _ Hc)) as Hs0.
  assert (s_cell s ∉ cells (l ++ r)) as Hsn.
  { pose proof (bs_nodup _ _ _ _ _ _ _ _ HB) as Hnd. rewrite !cells_app in *. cbn in Hnd.
    rewrite <- Permutation_middle in Hnd. by apply NoDup_cons in Hnd as [? _]. }
  step. eapply wp_cell_at; [exact Hc|]. step.
  apply wp_mono with (P := fun _ st => exists it1 B1 lf1, st = mk_st m it1 ps bl k /\
    bst m it1 (g_block g0) B1 (g_base g0) (l ++ s :: r) lu lf1 /\ n_used B1 = n_used B /\
    lf1 ≡ₚ s_cell s :: unused_of (l ++ r) /\
    (forall q, q ∉ footprint g0 -> cellv it1 q = cellv it q /\ blk it1 q = blk it q) /\
    (forall q, is_Some (it1 !! q) -> is_Some (it !! q))).
  { destruct Hring as [[Hu Hlf]|(Hlf & Hnx & Hpv)].
    - assert (s_cell s ∈ lf) as Hslf by (rewrite Hlf; left).
      destruct (ring_linked _ _ _ _ c (bs_unused _ _ _ _ _ _ _ _ HB) Hslf Hc) as [Hcn _].
      destruct (Z.eqb_spec (next c) 0) as [?|_]; [done|]. step. exists it, B, lf. done.
    - assert (next c = 0) as ->.
      { unfold nxt in Hnx. rewrite Hc in Hnx. cbn in Hnx. congruence. }
      cbn [Z.eqb]. eapply wp_mono.
      { eapply (insert_ring _ B Unused lf); [apply HB|apply HB|exact Hnx|exact Hpv| |lia].
        rewrite Hlf. by intros Hx%unused_cells_sub. }
      intros _ st (it1 & lf1 & -> & R & Hf1 & Hperm).
      exists it1, (set_ring Unused (s_cell s) B), lf1. split_and!; [done| |done| | |].
      + eapply bst_unused_step; [exact HB|exact R|exact Hf1|]. intros x Hx [->|Hx']%elem_of_cons; [done|by apply (Hdisj x)].
      + by rewrite Hperm, Hlf.
      + intros q [Hqb Hq]%not_elem_of_cons. split.
        * apply (rs_out _ _ _ _ _ _ _ R). rewrite not_elem_of_cons. split.
          -- intros ->. apply Hq, Hcells. rewrite cells_app. cbn. set_solver.
          -- rewrite Hlf. intros Hx%unused_cells_sub. apply Hq, Hcells. rewrite cells_app in *. cbn. set_solver.
        * rewrite (rs_blk _ _ _ _ _ _ _ R). by rewrite decide_False.
      + intros q. eapply ring_step_items; [exact R|apply HB]. }
  intros _ st (it1 & B1 & lf1 & -> & HB1 & Hn1 & Hlf1 & Hout1 & Hit1). cbn beta.
  destruct (bst_seg _ _ _ _ _ _ _ _ _ _ HB1) as (c1 & Hc1 & Hc1w & Hc1n & _).
  step. eapply wp_geom_step; [exact Hc1|done|done|reflexivity|]. intros it2 G2.
  cbn [words n_words requested tag set_req] in G2. rewrite Hc1w, Hc1n in G2.
  pose proof (seg_range _ _ _ _ _ _ (bs_core _ _ _ _ _ _ _ _ HB)) as (Hl0 & _ & Hns & _).
  pose proof (bst_put_req _ _ _ _ _ _ _ _ _ _ _ _ _ HB1 G2 ltac:(lia) ltac:(done)) as HB2.
  eapply wp_upd_block; [exact (bs_blk _ _ _ _ _ _ _ _ HB2)|]. cbn [items with_items mem pool_data all_blocks calls].
  set (it3 := <[g_block g0 := _]> it2).
  assert (forall q, cellv it3 q = cellv it2 q) as Hcv3.
  { intros q. eapply cellv_insert_block. exact (bs_blk _ _ _ _ _ _ _ _ HB2). }
  assert (bst m it3 (g_block g0) (set_n_used (n_used B1 - 1) B1) (g_base g0) (l ++ mk_seg (s_cell s) (s_n s) 0 None :: r) lu lf1) as HB3.
  { eapply bst_same; [exact HB2|exact Hcv3|unfold it3; rewrite blk_insert; by rewrite decide_True|done..]. }
  assert (forall q, q ∉ footprint g0 -> cellv it3 q = cellv it0 q /\ blk it3 q = blk it0 q) as Hview.
  { intros q Hq. destruct (Hout q Hq) as [<- <-], (Hout1 q Hq) as [<- <-]. rewrite Hcv3. split.
    - apply (gs_out _ _ _ _ G2). intros ->. apply Hq. right. apply Hcells. rewrite cells_app. cbn. set_solver.
    - unfold it3. rewrite blk_insert, decide_False; [apply (gs_blk _ _ _ _ G2)|]. intros ->. apply Hq. left. }
  apply (HQ it3 (mk_ghost (g_block g0) (g_base g0) (l ++ mk_seg (s_cell s) (s_n s) 0 None :: r))).
  - eexists _, lu, lf1. split_and!; cbn [g_segs g_block g_base]; [exact HB3| | |].
    + by rewrite Hlu, used_mid.
    + by rewrite Hlf1, unused_mid.
    + cbn [n_used set_n_used]. lia.
  - eapply pools_ok_items; [exact Hps|]. intros q Hq. apply Hit1. eapply geom_step_items; [exact G2|exact Hc1|].
    destruct (decide (q = g_block g0)) as [->|Hqb]; [by eapply blk_item, (bs_blk _ _ _ _ _ _ _ _ HB2)|].
    unfold it3 in Hq. by rewrite lookup_insert_ne in Hq.
  - split; cbn [g_block g_base g_segs]; try done.
    + rewrite <- Htot, !total_app. done.
    + intros q Hq. left. apply Hcells. rewrite cells_app in *. done.
    + intros q Hq _. by apply Hview.
    + intros x Hx. apply Hmem. unfold in_pages in Hx. rewrite <- Htot, total_app in Hx. cbn [total] in Hx.
      pose proof (seg_range _ _ _ _ _ _ (bs_core _ _ _ _ _ _ _ _ HB)). lia.
  - rewrite Hlive. f_equiv. unfold live. cbn [g_base g_segs]. rewrite lives_app, lives_cons. cbn [seg_used s_req Z.eqb negb app s_n].
    by replace (g_base g0 + 8 * total l + 8 * s_n s) with (g_base g0 + 8 * (total l + s_n s)) by lia.
  - intros q j Hq. destruct (lives_away _ _ _ _ _ _ _ _ (bs_core _ _ _ _ _ _ _ _ HB3) eq_refl Hq). cbn [s_n] in *.
    apply load_agree. intros x Hx. apply Hmem. lia.
Qed.

(** The result of a release: the range is gone and holds zeros, the others stay. *)
Definition free_post (g : Ghost) (p n : Z) (m : Mem) (it : gmap Z Item) (bl : list Z) (k : nat) (st' : St) : Prop :=
  exists m' it' ps' g', st' = mk_st m' it' ps' bl k /\ pools_ok st' /\ block_ok m' it' g' /\
    outside g g' m m' it it' /\ live g ≡ₚ (p, n) :: live g' /\
    (forall x, p <= x < p + n -> m' !! x = Some 0) /\
    (forall q j, (q, j) ∈ live g' -> load m' q (Z.to_nat j) = load m q (Z.to_nat j)).

Lemma sec_free_spec m it ps bl k g p n : pools_ok (mk_st m it ps bl k) -> block_ok m it g -> (p, n) ∈ live g ->
  wp (sec_free (g_block g) p) (fun _ => free_post g p n m it bl k) (mk_st m it ps bl k).
Proof.
  intros Hps (B & lu & lf & HB & Hlu & Hlf & Hnu) Hin. destruct g as [b w L]. unfold live in *. cbn [g_block g_base g_segs] in *.
  pose proof (pools_addresses _ Hps) as Haddr. cbn [items] in Haddr.
  destruct (lives_split _ _ _ _ _ _ (bs_core _ _ _ _ _ _ _ _ HB) Hin) as (l & s & r & -> & <- & Hsu & ->).
  pose proof HB as [Hb Hbw Ht Hc Hused Hunused Hnd Hm [Hr1 Hr2]].
  pose proof (seg_range _ _ _ _ _ _ Hc) as (Hl0 & Hr0 & Hn3 & Htot).
  pose proof (core_seg _ _ _ _ _ _ Hc) as Hs. destruct (seg_used_pos _ _ _ _ Hs Hsu) as [Hreq [t Htag]].
  pose proof (so_req _ _ _ Hs) as Hreq2. cbn [snd] in Hreq2.
  destruct (bst_seg _ _ _ _ _ _ _ _ _ _ HB) as (c & Hcv & Hcw & Hcn & Hcr & Hct).
  unfold sec_free. do 2 step. step. eapply wp_cell_of; [exact Hps|exact HB|done|].
  step. eapply wp_check_guards; [done|exact Hs|]. do 2 step. rewrite Hcr.
  unfold sec_clear. do 3 step. rewrite Z.add_0_r, Z.sub_0_r.
  apply wp_memset0; [lia|intros x Hx; apply Hm; rewrite Htot; lia|]. intros m1 Z1 Z2 Z3.
  assert (bst m1 it b B w (l ++ s :: r) lu lf) as HB1.
  { eapply bst_payload; [exact HB| |exact Z3]. intros x Hx. apply Z2. lia. }
  pose proof (core_seg _ _ _ _ _ _ (bs_core _ _ _ _ _ _ _ _ HB1)) as Hs1.
  step. eapply wp_check_guards; [done|exact Hs1|]. step. step. step. apply wp_assert; [rewrite Hct, Htag; by apply bool_decide_eq_true_2|].
  assert (s_cell s ∈ lu) as Hslu by (rewrite Hlu, used_mid, Hsu; left).
  step. eapply wp_mono; [eapply (remove_ring b B Used lu); [exact Hb|exact Hused|exact Hslu]|].
  intros _ st (it1 & p & lu1 & -> & R1 & Ring1 & Hlu1 & Hn0 & Hp0). cbn beta.
  assert (lu1 ≡ₚ used_of (l ++ r)) as Hlu1'.
  { apply (Permutation_cons_inv (a := s_cell s)). rewrite <- Hlu1, Hlu, used_mid, Hsu. done. }
  assert (lf ≡ₚ unused_of (l ++ r)) as Hlf1 by (rewrite Hlf, unused_mid, Hsu; done).
  assert (freeing (mk_ghost b w (l ++ s :: r)) m it (w + 8 * total l + 8) (s_req s) m1 it1 (set_ring Used p B) l s r lu1 lf) as HF.
  { split; cbn [g_block g_base g_segs]; try done.
    - eapply bst_used_step; [exact HB1|exact R1|exact Ring1|]. intros x Hx Hx'. rewrite Hlf in Hx. rewrite Hlu in Hx'.
      by eapply used_unused_disjoint.
    - cbn. apply Permutation_length in Hlu1. rewrite Hnu, Hlu1. cbn. lia.
    - by right.
    - unfold live. cbn [g_base g_segs]. rewrite lives_app, lives_cons, Hsu. cbn [app].
      replace (w + 8 * total l + 8 * s_n s) with (w + 8 * (total l + s_n s)) by lia. symmetry. apply Permutation_middle.
    - intros x Hx. apply Z2. lia.
    - split; [|lia]. intros x Hx. apply load_Some in Z1 as [_ Z1].
      specialize (Z1 (Z.to_nat (x - (w + 8 * total l + 8))) ltac:(lia)).
      rewrite lookup_replicate_2 in Z1 by lia. rewrite <- Z1. f_equal. lia.
    - intros q [Hqb Hq]%not_elem_of_cons. cbn [g_block g_segs] in *. split.
      + apply (rs_out _ _ _ _ _ _ _ R1). rewrite Hlu. by intros Hx%used_cells_sub.
      + rewrite (rs_blk _ _ _ _ _ _ _ R1). by rewrite decide_False. }
  assert (pools_ok (mk_st m1 it1 ps bl k)) as Hps1.
  { eapply pools_ok_items; [exact Hps|]. intros q. by eapply ring_step_items. }
  step. change b with (g_block (mk_ghost b w (l ++ s :: r))).
  eapply wp_freeing_before; [exact Hps1|exact HF|exact Hlf1|]. intros m2 it2 ps2 l2 s2 Hps2 HF2.
  step. eapply wp_freeing_after; [exact Hps2|exact HF2|]. intros m3 it3 ps3 B3 s3 r3 lf3 Hps3 HF3.
  eapply wp_freeing_end; [exact Hps3|exact HF3|]. intros it4 g' HB4 Hps4 Hout4 Hlive4 Hload4.
  exists m3, it4, ps3, g'. split_and!; [done..| |done].
  apply (fr_zero _ _ _ _ _ _ _ _ _ _ _ _ _ HF3).
Qed.
End Free.
