(* ===== verification/SecureGrow.v ===== *)
(** Secure memory: growing a cell in place, and [sec_realloc]. *)

From S2P Require Import Prelude StateM SecurePool SecureMemory SecureBlock.
Local Open Scope Z_scope.

(** The used cell [s] of the block [g0] is taking memory from the unused cells after
    it; everything handed out is as in the memory [m0]. *)
Record growing (g0 : Ghost) (m0 : Mem) (it0 : gmap Z Item) (m : Mem) (it : gmap Z Item)
    (B : Block) (l : list Seg) (s : Seg) (r : list Seg) (lu lf : list Z) : Prop := {
  gr_bst : bst m it (g_block g0) B (g_base g0) (l ++ s :: r) lu lf;
  gr_lu : lu ≡ₚ used_of (l ++ s :: r);
  gr_lf : lf ≡ₚ unused_of (l ++ s :: r);
  gr_n : n_used B = Zlen lu;
  gr_su : seg_used s = true;
  gr_live : live g0 = lives (g_base g0) (l ++ s :: r);
  gr_load : forall q j, (q, j) ∈ live g0 -> load m q (Z.to_nat j) = load m0 q (Z.to_nat j);
  gr_mem : forall x, ~ in_pages g0 x -> m !! x = m0 !! x;
  gr_mapped : forall x, is_Some (m0 !! x) -> is_Some (m !! x);
  gr_cells : forall q, q ∈ cells (l ++ s :: r) -> q ∈ cells (g_segs g0);
  gr_total : total (l ++ s :: r) = total (g_segs g0);
  gr_out : forall q, q ∉ footprint g0 -> cellv it q = cellv it0 q /\ blk it q = blk it0 q
}.

Lemma growing_start m it b B w l s r lu lf : bst m it b B w (l ++ s :: r) lu lf ->
  lu ≡ₚ used_of (l ++ s :: r) -> lf ≡ₚ unused_of (l ++ s :: r) -> n_used B = Zlen lu -> seg_used s = true ->
  growing (mk_ghost b w (l ++ s :: r)) m it m it B l s r lu lf.
Proof. intros. by split. Qed.

Lemma growing_block g0 m0 it0 m it B l s r lu lf : growing g0 m0 it0 m it B l s r lu lf ->
  block_ok m it (mk_ghost (g_block g0) (g_base g0) (l ++ s :: r)) /\
  outside g0 (mk_ghost (g_block g0) (g_base g0) (l ++ s :: r)) m0 m it0 it.
Proof.
  intros [HB Hlu Hlf Hn _ _ _ Hm Hmap Hc Ht Ho]. split; [by exists B, lu, lf|].
  split; cbn [g_block g_base g_segs]; auto.
Qed.

(** The parts of a block around two neighbours of which the second is unused. *)
Lemma lives_two m it w l s o r q j : core m it w (l ++ s :: o :: r) -> seg_used o = false ->
  (q, j) ∈ lives w (l ++ s :: o :: r) ->
  0 < j /\ (q + j <= w + 8 * total l \/ w + 8 * total l + 8 <= q /\ q + j <= w + 8 * (total l + s_n s) - 8 \/
            w + 8 * (total l + s_n s + s_n o) <= q).
Proof.
  intros Hc Hu Hin. apply core_app in Hc as [Hl [Hs [_ Hr]%core_cons]%core_cons].
  rewrite lives_app, !lives_cons, Hu in Hin. apply elem_of_app in Hin as [Hin|[Hin|Hin]%elem_of_app].
  - apply (lives_range _ _ _ _ _ _ Hl) in Hin. lia.
  - destruct (seg_used s) eqn:Hsu; [|by apply elem_of_nil in Hin]. apply list_elem_of_singleton in Hin as [= -> ->].
    destruct (seg_used_pos _ _ _ _ Hs Hsu) as [? _]. pose proof (so_req _ _ _ Hs). cbn [snd] in *. lia.
  - cbn [app] in Hin. apply (lives_range _ _ _ _ _ _ Hr) in Hin. lia.
Qed.

(** Moving the border between [s] and the unused cell after it: what is in use stays. *)
Lemma growing_step g0 m0 it0 m it m' it' B B' l s r lu lf lf' s' o r' : growing g0 m0 it0 m it B l s (o :: r) lu lf ->
  seg_used o = false -> bst m' it' (g_block g0) B' (g_base g0) (l ++ s' :: r') lu lf' ->
  s_cell s' = s_cell s -> s_req s' = s_req s -> s_n s' + total r' = s_n s + s_n o + total r ->
  used_of r' = used_of r -> lf' ≡ₚ unused_of (l ++ r') -> n_used B' = n_used B ->
  lives (g_base g0 + 8 * (total l + s_n s')) r' = lives (g_base g0 + 8 * (total l + s_n s + s_n o)) r ->
  (forall q, q ∈ cells r' -> q ∈ cells (o :: r)) ->
  (forall q, q ∉ footprint g0 -> cellv it' q = cellv it q /\ blk it' q = blk it q) ->
  (forall x, x < g_base g0 + 8 * total l \/ g_base g0 + 8 * total l + 8 <= x < g_base g0 + 8 * (total l + s_n s) - 8 \/
     g_base g0 + 8 * (total l + s_n s + s_n o) <= x -> m' !! x = m !! x) ->
  (forall x, is_Some (m !! x) -> is_Some (m' !! x)) ->
  growing g0 m0 it0 m' it' B' l s' r' lu lf'.
Proof.
  intros [HB Hlu Hlf Hn Hsu Hlive Hload Hmem Hmap Hcells Htot Hout] Hou HB' Hsc Hsr Hsn Hur Hlf' Hn' Hlr Hcr Hv Hm' Hmap'.
  pose proof (bs_core _ _ _ _ _ _ _ _ HB) as Hc.
  assert (seg_used s' = true) as Hsu' by (unfold seg_used in *; congruence).
  split; try done.
  - rewrite Hlu, !used_app, !used_cons, Hsu, Hsu', Hou, Hsc. cbn [app]. by rewrite Hur.
  - rewrite Hlf', unused_mid, Hsu'. done.
  - by rewrite Hn'.
  - rewrite Hlive, !lives_app, !lives_cons, Hsu, Hsu', Hou, Hsr. cbn [app]. do 2 f_equal.
    replace (g_base g0 + 8 * total l + 8 * s_n s') with (g_base g0 + 8 * (total l + s_n s')) by lia. rewrite Hlr. f_equal. lia.
  - intros q j Hq. rewrite <- Hload by done. rewrite Hlive in Hq.
    destruct (lives_two _ _ _ _ _ _ _ _ _ Hc Hou Hq) as [Hj Hq']. apply load_agree. intros x Hx. apply Hm'. lia.
  - intros x Hx. rewrite <- Hmem by done. unfold in_pages in Hx. rewrite <- Htot, total_app in Hx. cbn [total] in Hx.
    pose proof (seg_range _ _ _ _ _ _ Hc) as (? & ? & ? & _). apply Hm'.
    pose proof Hc as [_ [_ [_ Hr]%core_cons]%core_cons]%core_app. apply core_total in Hr. cbn [total] in *. lia.
  - auto.
  - intros q Hq. apply Hcells. rewrite cells_app in *. cbn in *. rewrite Hsc in Hq. set_solver.
  - rewrite <- Htot, !total_app. cbn [total]. lia.
  - intros q Hq. destruct (Hv q Hq) as [-> ->]. by apply Hout.
Qed.

Section Grow.
Context `{SystemLaws}.

Lemma growing_two g0 m0 it0 m it B l s o r lu lf : growing g0 m0 it0 m it B l s (o :: r) lu lf -> seg_used o = false ->
  s_cell o <> s_cell s /\ s_cell s ∈ lu /\ s_cell o ∈ lf /\ (forall x, x ∈ lu -> x ∉ lf) /\ g_block g0 <> s_cell o /\
  s_cell s ∈ cells (g_segs g0) /\ s_cell o ∈ cells (g_segs g0) /\
  3 <= s_n s /\ 3 <= s_n o /\ 0 <= total l /\ 0 <= total r /\ total (l ++ s :: o :: r) = total l + s_n s + s_n o + total r /\
  (s_req s <= 8 * (s_n s - 2) /\ 0 < s_req s) /\ (s_tag s = None <-> s_req s = 0) /\
  (forall q, q ∈ cells l \/ q ∈ cells r -> q <> s_cell s /\ q <> s_cell o).
Proof.
  intros [HB Hlu Hlf _ Hsu _ _ _ _ Hcells _ _] Hou. pose proof HB as [Hb _ _ Hc _ _ Hnd _ _].
  pose proof (core_seg _ _ _ _ _ _ Hc) as Hs. destruct (seg_used_pos _ _ _ _ Hs Hsu) as [Hpos _].
  pose proof Hs as [_ _ _ Hs3 Hsr Hst]. cbn [snd fst] in *.
  pose proof Hc as [Hl [_ [Ho Hr]%core_cons]%core_cons]%core_app. pose proof (so_size _ _ _ Ho) as Ho3. cbn [snd] in Ho3.
  apply core_total in Hl, Hr.
  assert (s_cell o <> s_cell s /\ forall q, q ∈ cells l \/ q ∈ cells r -> q <> s_cell s /\ q <> s_cell o) as [Hos Hlr].
  { rewrite cells_app in Hnd. cbn in Hnd. apply NoDup_app in Hnd as (_ & Hd & [H1 [H2 _]%NoDup_cons]%NoDup_cons).
    split; [intros E; apply H1; rewrite <- E; left|]. intros q [Hq|Hq]; split; intros ->.
    - by apply (Hd _ Hq); left.
    - by apply (Hd _ Hq); right; left.
    - by apply H1; right.
    - done. }
  assert (forall x, x ∈ lu -> x ∉ lf) as Hdis.
  { intros x. rewrite Hlu, Hlf. by apply used_unused_disjoint. }
  assert (s_cell s ∈ cells (l ++ s :: o :: r) /\ s_cell o ∈ cells (l ++ s :: o :: r)) as [Hsc Hoc].
  { split; rewrite cells_app; cbn; set_solver. }
  split_and!; try done; try lia; try by apply Hcells.
  - rewrite Hlu, used_mid, Hsu. left.
  - rewrite Hlf, unused_mid, unused_app, unused_cons, Hsu, Hou. cbn. set_solver.
  - intros E. eapply block_not_cell; [exact HB|]. by rewrite E.
  - rewrite total_app. cbn [total]. lia.
Qed.

(** Eating the whole neighbour. *)
Lemma wp_eat g0 m0 it0 m it ps bl k B l s o r lu lf (K : M unit) (Q : unit -> St -> Prop) :
  pools_ok (mk_st m it ps bl k) -> growing g0 m0 it0 m it B l s (o :: r) lu lf -> seg_used o = false ->
  (forall m' it' ps' B' lf' s', pools_ok (mk_st m' it' ps' bl k) -> growing g0 m0 it0 m' it' B' l s' r lu lf' ->
     s_cell s' = s_cell s -> s_req s' = s_req s -> wp K Q (mk_st m' it' ps' bl k)) ->
  wp (upd_cell (s_cell s) (set_geom (g_base g0 + 8 * total l) (s_n s + s_n o));;
      sec_write_guards (s_cell s);;
      sec_remove_cell_ring (g_block g0) Unused (s_cell o);;
      pool_free (s_cell o);; K) Q (mk_st m it ps bl k).
Proof.
  intros Hps HG Hou HQ. pose proof (growing_two _ _ _ _ _ _ _ _ _ _ _ _ HG Hou) as
    (Hos & Hslu & Holf & Hdis & Hbo & Hsg & Hog & Hs3 & Ho3 & Hl0 & Hr0 & Htot & Hsr & Hst & Hlr).
  pose proof (gr_bst _ _ _ _ _ _ _ _ _ _ _ HG) as HB. pose proof HB as [Hb Hbw Ht Hc Hused Hunused Hnd Hm Hr].
  destruct (bst_seg _ _ _ _ _ _ _ _ _ _ HB) as (cs & Hcs & Hcsw & Hcsn & Hcsr & Hcst).
  step. eapply wp_geom_step; [exact Hcs|done|done|reflexivity|]. intros it1 G1.
  cbn [words n_words requested tag set_geom] in G1. rewrite Hcsr, Hcst in G1.
  assert (geom it1 (s_cell s) = Some (g_base g0 + 8 * total l, s_n s + s_n o, s_req s, s_tag s)) as Hg1.
  { rewrite (gs_geom _ _ _ _ G1). by rewrite decide_True. }
  destruct (geom_cell _ _ _ _ _ _ Hg1) as (c1 & Hc1 & Hc1w & Hc1n & _).
  step. eapply wp_write_guards; [exact Hc1|lia|intros x Hx; apply Hm; lia|]. rewrite Hc1w, Hc1n. intros m1 W1 W2 W3 W4.
  step. eapply wp_mono.
  { eapply (remove_ring (g_block g0) B Unused lf); [rewrite (gs_blk _ _ _ _ G1); exact Hb| |exact Holf].
    eapply ring_geom_step; [exact G1|exact Hunused]. }
  intros _ st (it2 & p & lf2 & -> & R & Hf2 & Hperm & _). cbn beta.
  assert (forall q, is_Some (it2 !! q) -> is_Some (it !! q)) as Hit2.
  { intros q Hq. eapply geom_step_items; [exact G1|exact Hcs|]. eapply ring_step_items; [exact R| |exact Hq].
    by rewrite (gs_blk _ _ _ _ G1). }
  assert (is_Some (it2 !! s_cell o)) as Hoit.
  { assert (is_Some (geom it2 (s_cell o))) as [g Hg]; [|by eapply geom_item].
    rewrite (rs_geom _ _ _ _ _ _ _ R), (gs_geom _ _ _ _ G1), decide_False by done.
    assert (bst m it (g_block g0) B (g_base g0) ((l ++ [s]) ++ o :: r) lu lf) as HB' by (by rewrite <- (assoc_L (++))).
    destruct (bst_seg _ _ _ _ _ _ _ _ _ _ HB') as (co & Hco & _). unfold geom. rewrite Hco. by eexists. }
  step. apply wp_pool_free; [by eapply pools_ok_items|done|]. intros ps' Hps'.
  pose proof (delete_views it2 (s_cell o)) as Hdel. set (it3 := delete _ _) in *.
  assert (forall q, q ∉ footprint g0 -> cellv it3 q = cellv it q /\ blk it3 q = blk it q) as Hv.
  { intros q [Hqb Hq]%not_elem_of_cons. assert (q <> s_cell o) as Hqo by (intros ->; done).
    destruct (Hdel q Hqo) as [-> ->]. rewrite (rs_out _ _ _ _ _ _ _ R), (rs_blk _ _ _ _ _ _ _ R), decide_False; [|done|].
    - split; [apply (gs_out _ _ _ _ G1)|apply (gs_blk _ _ _ _ G1)]. intros ->. done.
    - intros Hx. apply Hq, (gr_cells _ _ _ _ _ _ _ _ _ _ _ HG), unused_cells_sub. by rewrite <- (gr_lf _ _ _ _ _ _ _ _ _ _ _ HG). }
  eapply (HQ m1 it3 ps' (set_ring Unused p B) lf2 (mk_seg (s_cell s) (s_n s + s_n o) (s_req s) (s_tag s))); [done| |done|done].
  pose proof (gr_lf _ _ _ _ _ _ _ _ _ _ _ HG) as Hlf. pose proof (gr_su _ _ _ _ _ _ _ _ _ _ _ HG) as Hsu.
  eapply (growing_step g0 m0 it0 m it m1 it3 B); try done; cbn [s_n s_cell s_req].
  - eapply (bst_merge m m1 it it3 _ B _ _ l s o r lu lf); [exact HB|by left|lia|done| | |exact W1|exact W2| |exact W4| |done|done| |].
    + unfold geom. destruct (Hdel (s_cell s)) as [-> _]; [done|]. fold (geom it2 (s_cell s)). rewrite (rs_geom _ _ _ _ _ _ _ R). exact Hg1.
    + intros q Hq. destruct (Hlr q Hq) as [Hqs Hqo]. unfold geom at 1. destruct (Hdel q Hqo) as [-> _]. fold (geom it2 q).
      rewrite (rs_geom _ _ _ _ _ _ _ R), (gs_geom _ _ _ _ G1). by rewrite decide_False.
    + intros x Hx. apply W3; lia.
    + destruct (Hdel (g_block g0)) as [_ ->]; [done|]. rewrite (rs_blk _ _ _ _ _ _ _ R). by rewrite decide_True.
    + eapply ring_same; [|by eapply ring_geom_step; [exact G1|exact Hused]]. intros x Hx.
      destruct (Hdel x) as [-> _]; [intros ->; by apply (Hdis _ Hx)|]. apply (rs_out _ _ _ _ _ _ _ R). by apply Hdis.
    + eapply ring_same; [|exact Hf2]. intros x Hx. apply Hdel. intros ->.
      pose proof (ring_nodup _ _ _ Hunused) as Hnf. rewrite Hperm in Hnf. by apply NoDup_cons in Hnf as [? _].
  - apply (Permutation_cons_inv (a := s_cell o)). rewrite <- Hperm, Hlf, unused_mid, Hsu. cbn [app].
    rewrite unused_mid. by rewrite Hou.
  - f_equal. lia.
  - intros q Hq. by right.
  - intros x Hx. apply W3; lia.
Qed.

(** Taking words from the front of the neighbour. *)
Lemma wp_steal g0 m0 it0 m it ps bl k B l s o r lu lf n (K : M unit) (Q : unit -> St -> Prop) :
  pools_ok (mk_st m it ps bl k) -> growing g0 m0 it0 m it B l s (o :: r) lu lf -> seg_used o = false ->
  s_n s < n -> n - s_n s + WASTE < s_n o ->
  (forall m' it' s' r', pools_ok (mk_st m' it' ps bl k) -> growing g0 m0 it0 m' it' B l s' r' lu lf ->
     s_cell s' = s_cell s -> s_req s' = s_req s -> s_n s' = n -> wp K Q (mk_st m' it' ps bl k)) ->
  wp (upd_cell (s_cell o) (set_geom (g_base g0 + 8 * (total l + s_n s) + 8 * (n - s_n s)) (s_n o - (n - s_n s)));;
      sec_write_guards (s_cell o);;
      upd_cell (s_cell s) (set_geom (g_base g0 + 8 * total l) n);;
      sec_write_guards (s_cell s);; K) Q (mk_st m it ps bl k).
Proof.
  intros Hps HG Hou Hlt Hbig HQ. unfold WASTE in Hbig. pose proof (growing_two _ _ _ _ _ _ _ _ _ _ _ _ HG Hou) as
    (Hos & Hslu & Holf & Hdis & Hbo & Hsg & Hog & Hs3 & Ho3 & Hl0 & Hr0 & Htot & Hsr & Hst & Hlr).
  pose proof (gr_bst _ _ _ _ _ _ _ _ _ _ _ HG) as HB. pose proof HB as [Hb Hbw Ht Hc Hused Hunused Hnd Hm Hr].
  destruct (bst_seg _ _ _ _ _ _ _ _ _ _ HB) as (cs & Hcs & Hcsw & Hcsn & Hcsr & Hcst).
  assert (bst m it (g_block g0) B (g_base g0) ((l ++ [s]) ++ o :: r) lu lf) as HB' by (by rewrite <- (assoc_L (++))).
  destruct (bst_seg _ _ _ _ _ _ _ _ _ _ HB') as (co & Hco & _ & _ & Hcor & Hcot).
  destruct (seg_unused _ _ _ _ (core_seg _ _ _ _ _ _ (bs_core _ _ _ _ _ _ _ _ HB')) Hou) as [Hor Hot].
  step. eapply wp_geom_step; [exact Hco|done|done|reflexivity|]. intros it1 G1.
  cbn [words n_words requested tag set_geom] in G1. rewrite Hcor, Hcot, Hor, Hot in G1.
  assert (geom it1 (s_cell o) = Some (g_base g0 + 8 * (total l + s_n s) + 8 * (n - s_n s), s_n o - (n - s_n s), 0, None)) as Hg1.
  { rewrite (gs_geom _ _ _ _ G1). by rewrite decide_True. }
  destruct (geom_cell _ _ _ _ _ _ Hg1) as (c1 & Hc1 & Hc1w & Hc1n & _).
  step. eapply wp_write_guards; [exact Hc1|lia|intros x Hx; apply Hm; lia|]. rewrite Hc1w, Hc1n. intros m1 W1 W2 W3 W4.
  assert (cellv it1 (s_cell s) = Some cs) as Hcs1 by (rewrite (gs_out _ _ _ _ G1); done).
  step. eapply wp_geom_step; [exact Hcs1|done|done|reflexivity|]. intros it2 G2.
  cbn [words n_words requested tag set_geom] in G2. rewrite Hcsr, Hcst in G2.
  assert (geom it2 (s_cell s) = Some (g_base g0 + 8 * total l, n, s_req s, s_tag s)) as Hg2.
  { rewrite (gs_geom _ _ _ _ G2). by rewrite decide_True. }
  assert (geom it2 (s_cell o) = geom it1 (s_cell o)) as Hg2o by (rewrite (gs_geom _ _ _ _ G2); by rewrite decide_False).
  destruct (geom_cell _ _ _ _ _ _ Hg2) as (c2 & Hc2 & Hc2w & Hc2n & _).
  step. eapply wp_write_guards; [exact Hc2|lia|intros x Hx; apply W4, Hm; lia|]. rewrite Hc2w, Hc2n. intros m2 W5 W6 W7 W8.
  assert (forall q, q ∉ footprint g0 -> cellv it2 q = cellv it q /\ blk it2 q = blk it q) as Hv.
  { intros q [Hqb Hq]%not_elem_of_cons. rewrite (gs_blk _ _ _ _ G2), (gs_blk _ _ _ _ G1).
    rewrite (gs_out _ _ _ _ G2), (gs_out _ _ _ _ G1); [done|intros ->; done|intros ->; done]. }
  set (s' := mk_seg (s_cell s) n (s_req s) (s_tag s)). set (o' := mk_seg (s_cell o) (s_n o - (n - s_n s)) 0 None).
  assert (Hou' : seg_used o' = false) by done.
  apply (HQ m2 it2 s' (o' :: r)); [|clear HQ|done|done|done].
  { eapply pools_ok_items; [exact Hps|]. intros q Hq. eapply geom_step_items; [exact G1|exact Hco|].
    by eapply geom_step_items; [exact G2|exact Hcs1|]. }
  pose proof (gr_lf _ _ _ _ _ _ _ _ _ _ _ HG) as Hlf. pose proof (gr_su _ _ _ _ _ _ _ _ _ _ _ HG) as Hsu.
  assert (total (l ++ s' :: o' :: r) = total (l ++ s :: o :: r)) as Htot' by (rewrite !total_app; cbn [total s_n s' o']; lia).
  apply (growing_step g0 m0 it0 m it m2 it2 B B l s r lu lf lf s' o (o' :: r)); try done; cbn [s_n s_cell s_req total s' o'].
  - split; rewrite ?Htot'; try done.
    + rewrite (gs_blk _ _ _ _ G2), (gs_blk _ _ _ _ G1). done.
    + apply (retile m m2 it it2 (g_base g0) l [s; o] [s'; o'] r); [exact Hc|cbn [total s_n s' o']; lia| | |].
      * intros q Hq. destruct (Hlr q Hq) as [Hqs Hqo]. rewrite (gs_geom _ _ _ _ G2), (gs_geom _ _ _ _ G1).
        by rewrite !decide_False.
      * intros x Hx. cbn [total] in Hx. rewrite W7, W3; [done|lia..].
      * apply core_cons. split; [|apply core_cons; split; [|constructor]]; cbn [s_n s'].
        -- split; cbn [fst snd s_cell s_n s_req s_tag s']; try done; lia.
        -- split; cbn [fst snd s_cell s_n s_req s_tag o']; try done; [| | |lia|lia].
           ++ rewrite Hg2o, Hg1. do 4 f_equal. lia.
           ++ replace (g_base g0 + 8 * total l + 8 * n) with (g_base g0 + 8 * (total l + s_n s) + 8 * (n - s_n s)) by lia.
              eapply word_at_agree; [|exact W1]. intros x Hx. apply W7; lia.
           ++ replace (g_base g0 + 8 * total l + 8 * n) with (g_base g0 + 8 * (total l + s_n s) + 8 * (n - s_n s)) by lia.
              eapply word_at_agree; [|exact W2]. intros x Hx. apply W7; lia.
    + eapply ring_geom_step; [exact G2|]. by eapply ring_geom_step; [exact G1|].
    + eapply ring_geom_step; [exact G2|]. by eapply ring_geom_step; [exact G1|].
    + rewrite cells_app in *. done.
    + intros x Hx. apply W8, W4, Hm. lia.
  - lia.
  - rewrite Hlf, unused_mid, Hsu, !unused_app, !unused_cons, Hou. done.
  - rewrite lives_cons, Hou'. cbn [app s_n o']. f_equal. lia.
  - intros x Hx. rewrite W7, W3; [done|lia..].
  - auto.
Qed.
End Grow.

(** * Composing operations on a block *)

Lemma views_some (it it' : gmap Z Item) q : cellv it' q = cellv it q -> blk it' q = blk it q ->
  is_Some (it !! q) -> is_Some (it' !! q).
Proof. unfold cellv, blk. destruct (it' !! q) as [[]|], (it !! q) as [[]|]; naive_solver. Qed.

Lemma block_item m it g : block_ok m it g -> is_Some (it !! g_block g).
Proof. intros (B & lu & lf & [Hb _ _ _ _ _ _ _ _] & _). by eapply blk_item. Qed.

Lemma outside_trans g g1 g2 m m1 m2 it it1 it2 : outside g g1 m m1 it it1 -> block_ok m1 it1 g1 ->
  outside g1 g2 m1 m2 it1 it2 -> outside g g2 m m2 it it2.
Proof.
  intros [Hb1 Hw1 Ht1 Hc1 Hi1 Hm1 Hp1] HB1%block_item [Hb2 Hw2 Ht2 Hc2 Hi2 Hm2 Hp2].
  assert (forall x, in_pages g1 x <-> in_pages g x) as Hpages by (intros x; unfold in_pages; by rewrite Hw1, Ht1).
  split; try congruence; auto.
  - intros q Hq. destruct (Hc2 q Hq) as [?|Hn]; [auto|].
    destruct (decide (q ∈ cells (g_segs g))) as [?|Hnc]; [by left|right].
    destruct (it !! q) as [i|] eqn:Eq; [|done]. exfalso.
    destruct (decide (q = g_block g)) as [->|Hqb]; [rewrite Hb1 in HB1; destruct HB1; congruence|].
    assert (is_Some (it1 !! q)) as [? ?]; [|congruence].
    destruct (Hi1 q) as [? ?]; [by apply not_elem_of_cons|rewrite Eq; by eexists|].
    eapply views_some; [done|done|]. rewrite Eq. by eexists.
  - intros q Hq Hit. destruct (Hi1 q Hq Hit) as [H1 H2]. rewrite <- H1, <- H2. apply Hi2; [|by eapply views_some].
    apply not_elem_of_cons in Hq as [Hqb Hq]. apply not_elem_of_cons. split; [congruence|].
    intros Hin. destruct (Hc1 q Hin) as [?|Hn]; [done|]. destruct Hit. congruence.
  - intros x Hx. rewrite Hm2, Hm1; [done|done|]. by rewrite Hpages.
Qed.

Lemma outside_refl g m it : outside g g m m it it.
Proof. by split; auto. Qed.

(** The other live ranges lie apart from a live range. *)
Lemma live_apart m it g p n R : block_ok m it g -> live g ≡ₚ (p, n) :: R ->
  forall q j, (q, j) ∈ R -> 0 < j /\ (q + j <= p \/ p + n <= q).
Proof.
  intros (B & lu & lf & HB & _) HR q j Hq. destruct g as [b w L]. unfold live in HR. cbn [g_base g_segs g_block] in *.
  pose proof (bs_core _ _ _ _ _ _ _ _ HB) as Hc.
  assert ((p, n) ∈ lives w L) as Hin by (rewrite HR; left).
  destruct (lives_split _ _ _ _ _ _ Hc Hin) as (l & s & r & -> & <- & Hu & ->).
  rewrite lives_app, lives_cons, Hu in HR. cbn [app] in HR. rewrite <- Permutation_middle in HR.
  apply Permutation_cons_inv in HR. rewrite <- HR in Hq.
  apply core_app in Hc as [Hl [Hs Hr]%core_cons]. pose proof (so_req _ _ _ Hs). cbn [snd] in *.
  apply elem_of_app in Hq as [Hq|Hq].
  - apply (lives_range _ _ _ _ _ _ Hl) in Hq. lia.
  - apply (lives_range _ _ _ _ _ _ Hr) in Hq. lia.
Qed.

(** Writing inside a live range. *)
Lemma block_write m m' it g p n : block_ok m it g -> (p, n) ∈ live g ->
  (forall x, ~ (p <= x < p + n) -> m' !! x = m !! x) -> (forall x, is_Some (m !! x) -> is_Some (m' !! x)) ->
  block_ok m' it g /\ outside g g m m' it it.
Proof.
  intros (B & lu & lf & HB & Hlu & Hlf & Hn) Hin Hmem Hmap. destruct g as [b w L]. unfold live in Hin. cbn [g_base g_segs g_block] in *.
  pose proof (bs_core _ _ _ _ _ _ _ _ HB) as Hc. pose proof (lives_range _ _ _ _ _ _ Hc Hin).
  destruct (lives_split _ _ _ _ _ _ Hc Hin) as (l & s & r & -> & <- & Hu & ->).
  pose proof (so_req _ _ _ (core_seg _ _ _ _ _ _ Hc)). cbn [snd] in *. split.
  - exists B, lu, lf. split_and!; [|done..]. eapply bst_payload; [exact HB| |exact Hmap]. intros x Hx. cbn [g_base] in Hx. apply Hmem. lia.
  - split; try done; auto. intros x Hx. apply Hmem. unfold in_pages in Hx. cbn [g_base g_segs] in Hx. lia.
Qed.

Lemma live_mapped m it g p n : block_ok m it g -> (p, n) ∈ live g ->
  0 < n /\ 0 < p /\ forall x, p <= x < p + n -> is_Some (m !! x) /\ in_pages g x.
Proof.
  intros (B & lu & lf & HB & _) Hin. pose proof HB as [_ _ _ Hc _ _ _ Hm [? ?]].
  pose proof (lives_range _ _ _ _ _ _ Hc Hin). split; [lia|]. split; [lia|].
  intros x Hx. split; [apply Hm|unfold in_pages]; lia.
Qed.

(** The cell [s] gets another size. *)
Lemma resized m m' it it' b B w l s r lu lf length t : bst m it b B w (l ++ s :: r) lu lf ->
  lu ≡ₚ used_of (l ++ s :: r) -> lf ≡ₚ unused_of (l ++ s :: r) -> n_used B = Zlen lu -> seg_used s = true ->
  geom_step it it' (s_cell s) (w + 8 * total l, s_n s, length, Some t) -> 0 < length <= 8 * (s_n s - 2) ->
  (forall x, ~ (w + 8 * total l + 8 + Z.min (s_req s) length <= x < w + 8 * total l + 8 * (s_n s - 1)) -> m' !! x = m !! x) ->
  (forall x, is_Some (m !! x) -> is_Some (m' !! x)) ->
  let g := mk_ghost b w (l ++ s :: r) in
  let g' := mk_ghost b w (l ++ mk_seg (s_cell s) (s_n s) length (Some t) :: r) in
  let p := w + 8 * total l + 8 in
  exists R, block_ok m' it' g' /\ outside g g' m m' it it' /\ live g ≡ₚ (p, s_req s) :: R /\ live g' ≡ₚ (p, length) :: R /\
    (forall q j, (q, j) ∈ R -> load m' q (Z.to_nat j) = load m q (Z.to_nat j)) /\
    load m' p (Z.to_nat (Z.min (s_req s) length)) = load m p (Z.to_nat (Z.min (s_req s) length)).
Proof.
  intros HB Hlu Hlf Hn Hu G Hlen Hmem Hmap g g' p.
  pose proof (bst_put_req _ _ _ _ _ _ _ _ _ _ _ _ _ HB G ltac:(lia) ltac:(split; [done|intros; lia])) as HB'.
  pose proof (bs_core _ _ _ _ _ _ _ _ HB) as Hc. pose proof (so_req _ _ _ (core_seg _ _ _ _ _ _ Hc)) as Hreq. cbn [snd] in Hreq.
  pose proof (seg_range _ _ _ _ _ _ Hc) as (Hl0 & Hr0 & Hs3 & Htot).
  assert (seg_used (mk_seg (s_cell s) (s_n s) length (Some t)) = true) as Hu'.
  { unfold seg_used. cbn [s_req]. destruct (Z.eqb_spec length 0); [lia|done]. }
  set (R := lives w l ++ lives (w + 8 * total l + 8 * s_n s) r).
  assert (live g ≡ₚ (p, s_req s) :: R) as HR.
  { unfold live, g. cbn [g_base g_segs]. rewrite lives_app, lives_cons, Hu. symmetry. apply Permutation_middle. }
  exists R. split_and!.
  - exists B, lu, lf. split_and!; [|cbn [g_segs g']..|done].
    + eapply bst_payload; [exact HB'| |exact Hmap]. cbn [s_n]. intros x Hx. apply Hmem. cbn [g_base g'] in Hx. lia.
    + rewrite Hlu, !used_mid, Hu, Hu'. done.
    + rewrite Hlf, !unused_mid, Hu, Hu'. done.
  - split; cbn [g_block g_base g_segs g g']; try done.
    + rewrite !total_app. done.
    + intros q Hq. left. rewrite cells_app in *. done.
    + intros q [Hqb Hq]%not_elem_of_cons _. cbn [g_block g_segs] in *. rewrite (gs_blk _ _ _ _ G). split; [|done].
      apply (gs_out _ _ _ _ G). intros ->. apply Hq. change (s_cell s ∈ cells (l ++ s :: r)). rewrite cells_app. cbn. set_solver.
    + intros x Hx. apply Hmem. unfold in_pages, g in Hx. cbn [g_base g_segs] in Hx. lia.
  - exact HR.
  - unfold live, g'. cbn [g_base g_segs]. rewrite lives_app, lives_cons, Hu'. symmetry. apply Permutation_middle.
  - intros q j Hq. apply load_agree. intros x Hx. apply Hmem.
    apply core_app in Hc as [Hl [_ Hr]%core_cons]. unfold R in Hq. apply elem_of_app in Hq as [Hq|Hq].
    + apply (lives_range _ _ _ _ _ _ Hl) in Hq. lia.
    + apply (lives_range _ _ _ _ _ _ Hr) in Hq. lia.
  - apply load_agree. intros x Hx. apply Hmem. unfold p in Hx. lia.
Qed.

Section Realloc.
Context `{SystemLaws}.

Lemma wp_grow g0 m0 it0 n bl k fuel : forall m it ps B l s r lu lf (Q : unit -> St -> Prop), (length r < fuel)%nat ->
  pools_ok (mk_st m it ps bl k) -> growing g0 m0 it0 m it B l s r lu lf ->
  (forall m' it' ps' B' s' r' lf', pools_ok (mk_st m' it' ps' bl k) -> growing g0 m0 it0 m' it' B' l s' r' lu lf' ->
     s_cell s' = s_cell s -> s_req s' = s_req s -> Q tt (mk_st m' it' ps' bl k)) ->
  wp (grow_cell fuel (g_block g0) (s_cell s) n) Q (mk_st m it ps bl k).
Proof.
  induction fuel as [|fuel IH]; intros m it ps B l s r lu lf Q Hf Hps HG HQ; [lia|]. cbn [grow_cell].
  pose proof (gr_bst _ _ _ _ _ _ _ _ _ _ _ HG) as HB.
  destruct (bst_seg _ _ _ _ _ _ _ _ _ _ HB) as (cs & Hcs & Hcsw & Hcsn & _).
  do 2 step. rewrite Hcsn, Hcsw. destruct (Z.ltb_spec (s_n s) n) as [Hlt|]; [|step; by eapply HQ].
  step. eapply wp_neighbor_after; [by apply (pools_addresses _ Hps)|exact HB|].
  destruct r as [|o r]; [cbn [Z.eqb]; step; by eapply HQ|].
  assert (bst m it (g_block g0) B (g_base g0) ((l ++ [s]) ++ o :: r) lu lf) as HB' by (by rewrite <- (assoc_L (++))).
  destruct (bst_seg _ _ _ _ _ _ _ _ _ _ HB') as (co & Hco & Hcow & Hcon & Hcor & _).
  pose proof (pools_addresses _ Hps _ (cellv_item _ _ _ Hco)). destruct (Z.eqb_spec (s_cell o) 0) as [?|_]; [lia|].
  step. eapply wp_cell_at; [exact Hco|]. rewrite Hcor, Hcon, Hcow. destruct (s_req o =? 0) eqn:Hor; cbn [negb]; [|step; by eapply HQ].
  assert (seg_used o = false) as Hou by (unfold seg_used; by rewrite Hor).
  destruct (Z.leb_spec (s_n o) (n - s_n s + WASTE)) as [Heat|Hst].
  - eapply wp_eat; [exact Hps|exact HG|exact Hou|]. intros m' it' ps' B' lf' s' Hps' HG' Hsc Hsr.
    rewrite <- Hsc. eapply (IH m' it' ps' B' l s' r lu lf'); [cbn in Hf; lia|exact Hps'|exact HG'|]. intros. eapply HQ; [done|done|congruence|congruence].
  - unfold sizeof_word. rewrite total_app. cbn [total]. rewrite Z.add_0_r.
    eapply wp_steal; [exact Hps|exact HG|exact Hou|exact Hlt|exact Hst|].
    intros m' it' s' r' Hps' HG' Hsc Hsr Hsn. rewrite <- Hsc. destruct fuel as [|fuel]; [cbn in Hf; lia|]. cbn [grow_cell].
    destruct (bst_seg _ _ _ _ _ _ _ _ _ _ (gr_bst _ _ _ _ _ _ _ _ _ _ _ HG')) as (c' & Hc' & _ & Hcn' & _).
    do 2 step. rewrite Hcn', Hsn, Z.ltb_irrefl. step. by eapply HQ.
Qed.

(** The result of a resizing in a block: NULL and everything as before, or a range of
    the new size that starts like the old one. *)
Definition realloc_post (g : Ghost) (p n length : Z) (m : Mem) (it : gmap Z Item) (bl : list Z) (q : Z) (st' : St) : Prop :=
  exists m' it' ps' k' g' R, st' = mk_st m' it' ps' bl k' /\ pools_ok st' /\ block_ok m' it' g' /\ outside g g' m m' it it' /\
    live g ≡ₚ (p, n) :: R /\ (forall x j, (x, j) ∈ R -> load m' x (Z.to_nat j) = load m x (Z.to_nat j)) /\
    (q = 0 /\ n <= length /\ live g' ≡ₚ live g /\ load m' p (Z.to_nat n) = load m p (Z.to_nat n) \/
     q <> 0 /\ live g' ≡ₚ (q, length) :: R /\
       load m' q (Z.to_nat (Z.min n length)) = load m p (Z.to_nat (Z.min n length))).

Lemma load_min m m' p a b : load m' p (Z.to_nat a) = load m p (Z.to_nat a) -> 0 <= b <= a ->
  (forall x, p <= x < p + a -> is_Some (m !! x)) -> load m' p (Z.to_nat b) = load m p (Z.to_nat b).
Proof.
  intros Hl Hb Hm. destruct (load_mapped m p (Z.to_nat a)) as [v Hv]; [intros; apply Hm; lia|].
  rewrite Hv in Hl. rewrite (load_take m p _ (Z.to_nat b) _ Hv), (load_take m' p _ (Z.to_nat b) _ Hl) by lia. done.
Qed.

Lemma words_fit length n : 0 < length -> sec_size_to_words length + 2 <= n -> length <= 8 * (n - 2).
Proof. intros H1 H2. destruct (size_words _ H1). lia. Qed.

(** Resizing in place: the cell is large enough, as it is or after it has grown. *)
Lemma wp_resize g m0 it0 m it ps bl k B l s r lu lf tg t length lo hi :
  pools_ok (mk_st m it ps bl k) -> growing g m0 it0 m it B l s r lu lf -> block_ok m0 it0 g ->
  sec_size_to_words length + 2 <= s_n s -> 0 < length -> tg = Some t ->
  Z.min (s_req s) length <= lo -> lo <= hi -> hi <= Z.max (s_req s) length ->
  forall K : M unit, (K = sec_clear (g_base g + 8 * total l + 8) lo hi \/ K = mret tt) ->
  wp (upd_cell (s_cell s) (set_req length tg);; K;; mret (g_base g + 8 * total l + 8))
    (realloc_post g (g_base g + 8 * total l + 8) (s_req s) length m0 it0 bl) (mk_st m it ps bl k).
Proof.
  intros Hps HG HB0 Hfit Hlen -> Hlo Hlohi Hhi K HK.
  destruct (growing_block _ _ _ _ _ _ _ _ _ _ _ HG) as [HBg Hout1]. pose proof HG as [HB Hlu Hlf Hn Hu Hlive Hload _ _ _ _ _].
  destruct (bst_seg _ _ _ _ _ _ _ _ _ _ HB) as (c & Hc & Hcw & Hcn & _).
  pose proof (words_fit _ _ Hlen Hfit) as Hlen2. pose proof (bs_core _ _ _ _ _ _ _ _ HB) as Hcore.
  pose proof (so_req _ _ _ (core_seg _ _ _ _ _ _ Hcore)) as Hreq. cbn [snd] in Hreq.
  pose proof (seg_range _ _ _ _ _ _ Hcore) as (Hl0 & Hr0 & Hs3 & Htot). destruct (bs_range _ _ _ _ _ _ _ _ HB) as [Hw0 _].
  step. eapply wp_geom_step; [exact Hc|done|done|reflexivity|]. intros it1 G.
  cbn [words n_words requested tag set_req] in G. rewrite Hcw, Hcn in G. step.
  apply wp_mono with (P := fun _ st => exists m', st = mk_st m' it1 ps bl k /\
    (forall x, ~ (g_base g + 8 * total l + 8 + Z.min (s_req s) length <= x < g_base g + 8 * total l + 8 * (s_n s - 1)) -> m' !! x = m !! x) /\
    (forall x, is_Some (m !! x) -> is_Some (m' !! x))).
  { destruct HK as [-> | ->]; [|step; by exists m]. unfold sec_clear. do 2 step.
    apply wp_memset0; [lia|intros x Hx; apply (bs_mapped _ _ _ _ _ _ _ _ HB); lia|]. intros m' _ Z2 Z3.
    exists m'. split; [done|]. split; [|done]. intros x Hx. apply Z2. lia. }
  intros _ st (m' & -> & Hm' & Hmap'). step.
  destruct (resized _ _ _ _ _ _ _ _ _ _ _ _ _ _ HB Hlu Hlf Hn Hu G ltac:(lia) Hm' Hmap') as (R & HB' & Hout' & HR1 & HR2 & HR3 & HR4).
  assert (live g ≡ₚ (g_base g + 8 * total l + 8, s_req s) :: R) as HR by (rewrite Hlive; exact HR1).
  exists m', it1, ps, k, (mk_ghost (g_block g) (g_base g) (l ++ mk_seg (s_cell s) (s_n s) length (Some t) :: r)), R.
  split_and!; try done.
  - eapply pools_ok_items; [exact Hps|]. intros q. by eapply geom_step_items.
  - by eapply outside_trans.
  - intros x j Hx. rewrite HR3 by done. apply Hload. rewrite HR. by right.
  - right. split; [lia|]. split; [exact HR2|]. rewrite HR4.
    assert ((g_base g + 8 * total l + 8, s_req s) ∈ live g) as Hin by (rewrite HR; left).
    destruct (live_mapped _ _ _ _ _ HB0 Hin) as (? & _ & Hmp).
    apply (load_min _ _ _ (s_req s)); [by apply Hload|lia|]. intros x Hx. by apply Hmp.
Qed.

(** Moving to another cell. *)
Lemma wp_move g m0 it0 m it ps bl k B l s r lu lf t length :
  pools_ok (mk_st m it ps bl k) -> growing g m0 it0 m it B l s r lu lf -> block_ok m0 it0 g ->
  0 < length -> s_req s <= length ->
  wp (alloc ← sec_alloc (g_block g) (Some t) length;
      if negb (alloc =? 0) then memcpy alloc (g_base g + 8 * total l + 8) (s_req s);;
        sec_free (g_block g) (g_base g + 8 * total l + 8);; mret alloc
      else mret alloc)
    (realloc_post g (g_base g + 8 * total l + 8) (s_req s) length m0 it0 bl) (mk_st m it ps bl k).
Proof.
  intros Hps HG HB0 Hlen Hsl. destruct (growing_block _ _ _ _ _ _ _ _ _ _ _ HG) as [HBg Hout1].
  pose proof HG as [_ _ _ _ Hu Hlive Hload _ _ _ _ _]. set (p := g_base g + 8 * total l + 8) in *.
  set (g1 := mk_ghost (g_block g) (g_base g) (l ++ s :: r)) in *.
  assert (exists R, live g1 ≡ₚ (p, s_req s) :: R) as [R HR].
  { eexists. unfold live, g1. cbn [g_base g_segs]. rewrite lives_app, lives_cons, Hu. symmetry. apply Permutation_middle. }
  assert (live g ≡ₚ (p, s_req s) :: R) as HR0 by (rewrite Hlive; exact HR).
  assert ((p, s_req s) ∈ live g1) as Hpin by (rewrite HR; left).
  destruct (live_mapped _ _ _ _ _ HBg Hpin) as (Hn0 & _ & Hmp).
  step. eapply wp_mono; [by apply (sec_alloc_spec _ _ _ _ _ g1)|]. intros q st [(-> & ps' & k' & -> & Hps')|(m2 & it2 & ps2 & k2 & g2 & -> & Hps2 & HB2 & Hout2 & Hq & Hlive2 & Hz & Hload2)].
  { cbn [Z.eqb negb]. step. exists m, it, ps', k', g1, R. split_and!; try done.
    - intros x j Hx. apply Hload. rewrite HR0. by right.
    - left. split; [done|]. split; [done|]. split; [by rewrite HR0, HR|]. apply Hload. rewrite HR0. left. }
  destruct (Z.eqb_spec q 0) as [?|_]; [done|]. cbn [negb]. step.
  destruct (load_mapped m2 p (Z.to_nat (s_req s))) as [v Hv].
  { intros x Hx. apply (out_mapped _ _ _ _ _ _ Hout2), Hmp. lia. }
  unfold memcpy. unfold wp at 1. cbn [mem]. rewrite Hv. cbv beta. pose proof Hv as [Hvl _]%load_Some.
  assert ((q, length) ∈ live g2) as Hqin by (rewrite Hlive2; left).
  destruct (live_mapped _ _ _ _ _ HB2 Hqin) as (_ & _ & Hmq).
  change (wp (write q v) (fun (_ : unit) st' => wp (sec_free (g_block g) p;; mret q)
    (realloc_post g p (s_req s) length m0 it0 bl) st') (mk_st m2 it2 ps2 bl k2)).
  apply wp_write; [intros x Hx; apply Hmq; lia|]. intros m3 Hm3.
  destruct (block_write m2 m3 it2 g2 q length HB2 Hqin) as [HB3 Hout3].
  { intros x Hx. eapply wrote_other; [exact Hm3|lia]. }
  { by eapply wrote_mapped. }
  assert ((p, s_req s) ∈ live g2) as Hpin2 by (rewrite Hlive2, HR; right; left).
  step. change (g_block g) with (g_block g1). rewrite <- (out_block _ _ _ _ _ _ Hout2).
  eapply wp_mono; [eapply (sec_free_spec _ _ _ _ _ g2 p (s_req s)); [by eapply pools_ok_items|done|done]|].
  intros _ st (m4 & it4 & ps4 & g4 & -> & Hps4 & HB4 & Hout4 & Hlive4 & _ & Hload4). step.
  assert (live g4 ≡ₚ (q, length) :: R) as HR4.
  { apply (Permutation_cons_inv (a := (p, s_req s))). rewrite <- Hlive4, Hlive2, HR. apply perm_swap. }
  exists m4, it4, ps4, k2, g4, R. split_and!; try done.
  - eapply outside_trans; [exact Hout1|exact HBg|]. eapply outside_trans; [exact Hout2|exact HB2|].
    eapply outside_trans; [exact Hout3|exact HB3|exact Hout4].
  - intros x j Hx. assert ((x, j) ∈ live g1) as Hx1 by (rewrite HR; by right).
    rewrite Hload4 by (rewrite HR4; by right).
    transitivity (load m2 x (Z.to_nat j)).
    + destruct (live_apart _ _ _ _ _ _ HB2 Hlive2 x j Hx1) as [? ?].
      apply load_agree. intros y Hy. eapply wrote_other; [exact Hm3|lia].
    + rewrite Hload2 by done. apply Hload. rewrite HR0. by right.
  - right. split; [done|]. split; [done|]. rewrite Z.min_l by lia.
    rewrite <- (Hload p) by (rewrite HR0; left). rewrite <- (Hload2 p) by done. rewrite Hv.
    assert ((q, length) ∈ live g4) as Hq4 by (rewrite HR4; left). specialize (Hload4 _ _ Hq4).
    pose proof (wrote_load _ _ _ _ Hm3) as Hw. rewrite Hvl in Hw. rewrite <- Hw.
    apply (load_min _ _ _ length); [done|lia|]. intros x Hx. eapply wrote_mapped; [exact Hm3|]. by apply Hmq.
Qed.

Lemma words_tight length : 0 < length -> 8 * (sec_size_to_words length - 1) < length.
Proof.
  intros H1. unfold sec_size_to_words, sizeof_word. destruct (Z.eqb_spec (length mod 8) 0); cbn [negb]; lia_div.
Qed.

Lemma sec_realloc_spec m it ps bl k g p n t length :
  pools_ok (mk_st m it ps bl k) -> block_ok m it g -> (p, n) ∈ live g -> 0 < length ->
  wp (sec_realloc (g_block g) (Some t) p length) (realloc_post g p n length m it bl) (mk_st m it ps bl k).
Proof.
  intros Hps HB0 Hin Hlen. pose proof (pools_addresses _ Hps) as Haddr. destruct (live_mapped _ _ _ _ _ HB0 Hin) as (Hn0 & Hp0 & _).
  pose proof HB0 as (B & lu & lf & HB & Hlu & Hlf & Hnu). pose proof (bs_core _ _ _ _ _ _ _ _ HB) as Hc.
  destruct g as [b w L]. unfold live in Hin. cbn [g_block g_base g_segs] in *.
  destruct (lives_split _ _ _ _ _ _ Hc Hin) as (l & s & r & -> & <- & Hsu & ->). clear Hin.
  pose proof (core_seg _ _ _ _ _ _ Hc) as Hs. destruct (seg_used_pos _ _ _ _ Hs Hsu) as [Hreq [tg Htag]].
  pose proof (so_req _ _ _ Hs) as Hreq2. cbn [snd] in Hreq2. pose proof (words_tight _ Hlen) as Htight.
  destruct (bst_seg _ _ _ _ _ _ _ _ _ _ HB) as (c & Hcv & Hcw & Hcn & Hcr & Hct).
  pose proof (growing_start _ _ _ _ _ _ _ _ _ _ HB Hlu Hlf Hnu Hsu) as HG.
  unfold sec_realloc. do 5 step. step. step. eapply wp_cell_of; [exact Hps|exact HB|done|].
  step. eapply wp_check_guards; [exact Haddr|exact Hs|]. do 3 step. step.
  step. apply wp_assert; [rewrite Hct, Htag; by apply bool_decide_eq_true_2|].
  rewrite Hcr, Hcn. unfold sec_cell_to_memory. rewrite Hcw. unfold sizeof_word.
  destruct (Z.leb_spec (sec_size_to_words length + 2) (s_n s)) as [Hfit|Hbig].
  - destruct (Z.ltb_spec length (s_req s)) as [Hlt|Hge].
    + eapply (wp_resize (mk_ghost b w (l ++ s :: r))) with (lo := length) (hi := s_req s) (t := tg);
        [exact Hps|exact HG|exact HB0|exact Hfit|exact Hlen|congruence|lia..|by left].
    + eapply (wp_resize (mk_ghost b w (l ++ s :: r))) with (lo := length) (hi := length) (t := tg);
        [exact Hps|exact HG|exact HB0|exact Hfit|exact Hlen|congruence|lia..|by right].
  - unfold cell_fuel. do 2 step. step.
    change b with (g_block (mk_ghost b w (l ++ s :: r))) at 1.
    eapply (wp_grow _ _ _ _ _ _ _ _ _ _ _ l s r); [|exact Hps|exact HG|].
    { pose proof (bs_nodup _ _ _ _ _ _ _ _ HB) as Hnd. apply cells_size with (it := it) in Hnd.
      - cbn [items]. unfold cells in Hnd. rewrite length_fmap, length_app in Hnd. cbn [Datatypes.length] in Hnd. lia.
      - intros x Hx. destruct (core_cell _ _ _ _ _ Hc Hx) as [? Hx']. by eapply cellv_item. }
    intros m' it' ps' B' s' r' lf' Hps' HG' Hsc Hsr. rewrite <- Hsc.
    pose proof (gr_bst _ _ _ _ _ _ _ _ _ _ _ HG') as HB'. cbn [g_block g_base] in HB'.
    destruct (bst_seg _ _ _ _ _ _ _ _ _ _ HB') as (c' & Hcv' & Hcw' & Hcn' & _).
    step. eapply wp_cell_at; [exact Hcv'|]. rewrite Hcn', Hcw', <- Hsr.
    destruct (Z.leb_spec (sec_size_to_words length + 2) (s_n s')) as [Hfit|_].
    + eapply (wp_resize (mk_ghost b w (l ++ s :: r))) with (lo := s_req s') (hi := length) (t := t);
        [exact Hps'|exact HG'|exact HB0|exact Hfit|exact Hlen|done|lia..|by left].
    + eapply (wp_move (mk_ghost b w (l ++ s :: r))); [exact Hps'|exact HG'|exact HB0|exact Hlen|lia].
Qed.

Lemma wp_allocated m it ps bl k g p n (Q : Z -> St -> Prop) :
  pools_ok (mk_st m it ps bl k) -> block_ok m it g -> (p, n) ∈ live g ->
  Q n (mk_st m it ps bl k) -> wp (sec_allocated (g_block g) p) Q (mk_st m it ps bl k).
Proof.
  intros Hps HB0 Hin HQ. pose proof (pools_addresses _ Hps) as Haddr. destruct (live_mapped _ _ _ _ _ HB0 Hin) as (Hn0 & Hp0 & _).
  destruct HB0 as (B & lu & lf & HB & _). pose proof (bs_core _ _ _ _ _ _ _ _ HB) as Hc.
  unfold live in Hin. destruct (lives_split _ _ _ _ _ _ Hc Hin) as (l & s & r & E & <- & Hsu & ->). rewrite E in *.
  pose proof (core_seg _ _ _ _ _ _ Hc) as Hs. destruct (seg_used_pos _ _ _ _ Hs Hsu) as [Hreq [tg Htag]].
  destruct (bst_seg _ _ _ _ _ _ _ _ _ _ HB) as (c & Hcv & _ & _ & Hcr & Hct).
  unfold sec_allocated. do 2 step. step. eapply wp_cell_of; [exact Hps|exact HB|done|].
  step. eapply wp_check_guards; [exact Haddr|exact Hs|]. do 3 step. step.
  step. apply wp_assert; [rewrite Hct, Htag; by apply bool_decide_eq_true_2|]. step. by rewrite Hcr.
Qed.

(** The walk over a block passes all its assertions. *)
Lemma wp_validate_from m it ps bl k b B w lu lf (Q : unit -> St -> Prop) : pools_ok (mk_st m it ps bl k) ->
  forall r l, (exists L, L = l ++ r /\ bst m it b B w L lu lf /\ lu ≡ₚ used_of L /\ lf ≡ₚ unused_of L) -> r <> [] ->
  Q tt (mk_st m it ps bl k) -> forall fuel, (length r <= fuel)%nat ->
  wp (validate_from fuel B (w + 8 * total l) (w + 8 * total (l ++ r))) Q (mk_st m it ps bl k).
Proof.
  intros Hps. pose proof (pools_addresses _ Hps) as Haddr.
  induction r as [|s r IH]; [done|]. intros l (L & -> & HB & Hlu & Hlf) _ HQ fuel Hf.
  destruct fuel as [|fuel]; [cbn in Hf; lia|]. cbn [validate_from].
  pose proof HB as [_ Hbw Ht Hc Hused Hunused _ _ _].
  pose proof (seg_range _ _ _ _ _ _ Hc) as (Hl0 & Hr0 & Hs3 & Htot).
  pose proof (core_seg _ _ _ _ _ _ Hc) as Hs. pose proof (so_req _ _ _ Hs) as Hreq2. cbn [snd] in Hreq2.
  destruct (bst_seg _ _ _ _ _ _ _ _ _ _ HB) as (c & Hcv & Hcw & Hcn & Hcr & Hct).
  destruct (pool_valid_item _ _ Hps (cellv_item _ _ _ Hcv)) as [Hpv Hrange]. cbn [pool_data] in Hpv.
  assert (exists n q cn cq, nxt it (s_cell s) = Some n /\ prv it (s_cell s) = Some q /\ n <> 0 /\ q <> 0 /\
    cellv it n = Some cn /\ prev cn = s_cell s /\ cellv it q = Some cq /\ next cq = s_cell s) as
    (nx & pv & cn & cq & Hnx & Hpv2 & Hnx0 & Hpv0 & Hcvn & Hcn2 & Hcvq & Hcq).
  { assert (exists p lr, ring_ok it p lr /\ s_cell s ∈ lr) as (p & lr & Hr & Hin).
    { destruct (seg_used s) eqn:E; [exists (used_cells B), lu|exists (unused_cells B), lf]; (split; [done|]).
      - rewrite Hlu, used_mid, E. left.
      - rewrite Hlf, unused_mid, E. left. }
    destruct (ring_cell _ _ _ _ Hr Hin) as (n & q & Hn & Hq & Hnl & Hql & Hpn & Hnq).
    unfold prv in Hpn. unfold nxt in Hnq. destruct (cellv it n) as [cn|] eqn:En; [|done]. destruct (cellv it q) as [cq|] eqn:Eq; [|done].
    injection Hpn as Hpn. injection Hnq as Hnq. exists n, q, cn, cq. destruct Hr as [_ _ Hz _].
    split_and!; try done; congruence. }
  assert (next c = nx /\ prev c = pv) as [Hcnx Hcpv] by (unfold nxt, prv in *; rewrite Hcv in *; cbn in *; split; congruence).
  step. step. step. apply wp_assert.
  { unfold sec_is_valid_word, sizeof_word. apply andb_true_iff. rewrite Z.leb_le, Z.ltb_lt. lia. }
  step. eapply wp_load_word; [exact (so_first _ _ _ Hs)|cbn [snd]; lia|]. cbn [snd]. do 4 step.
  step. eapply wp_check_guards; [exact Haddr|exact Hs|]. step. eapply wp_cell_at; [exact Hcv|]. rewrite Hcr, Hct, Hcn, Hcnx, Hcpv.
  step. apply wp_mono with (P := fun _ st => st = mk_st m it ps bl k).
  { destruct (seg_used s) eqn:E.
    - destruct (seg_used_pos _ _ _ _ Hs E) as [? [tg ->]]. destruct (Z.ltb_spec 0 (s_req s)); [|lia]. by step.
    - destruct (seg_unused _ _ _ _ Hs E) as [-> ->]. cbn [Z.ltb Z.compare]. by step. }
  intros _ st ->. do 6 step. step. apply wp_assert; [by apply Z.eqb_eq|]. do 2 step. step. apply wp_assert; [by apply Z.eqb_eq|].
  step. apply wp_mono with (P := fun _ st => st = mk_st m it ps bl k).
  { unfold sizeof_word. destruct (Z.ltb_spec 0 (s_req s)); by step. }
  intros _ st ->. unfold sizeof_word. assert (l ++ s :: r = (l ++ [s]) ++ r) as E by (by rewrite <- (assoc_L (++))).
  destruct r as [|o r].
  - destruct (Z.eqb_spec (w + 8 * total l + 8 * s_n s) (w + 8 * total (l ++ [s]))) as [_|Hne]; [by step|].
    rewrite total_app in Hne. cbn [total] in Hne. lia.
  - assert (core m it w ((l ++ [s]) ++ o :: r)) as Hc' by (by rewrite <- E).
    pose proof (seg_range _ _ _ _ _ _ Hc') as (_ & Hr0' & Ho3 & _).
    destruct (Z.eqb_spec (w + 8 * total l + 8 * s_n s) (w + 8 * total (l ++ s :: o :: r))) as [He|_].
    { cbn [total] in *. lia. }
    replace (w + 8 * total l + 8 * s_n s) with (w + 8 * total (l ++ [s])) by (rewrite total_app; cbn [total]; lia).
    rewrite E. apply IH; [|done|done|cbn in *; lia]. exists (l ++ s :: o :: r). done.
Qed.

Lemma sec_validate_spec m it ps bl k g (Q : unit -> St -> Prop) : pools_ok (mk_st m it ps bl k) -> block_ok m it g ->
  0 < total (g_segs g) -> Q tt (mk_st m it ps bl k) -> wp (sec_validate (g_block g)) Q (mk_st m it ps bl k).
Proof.
  intros Hps (B & lu & lf & HB & Hlu & Hlf & _) Ht HQ. pose proof HB as [Hb Hw Hn Hc _ _ _ _ _].
  unfold sec_validate. do 2 step. rewrite Hw, Hn. unfold sizeof_word.
  replace (g_base g) with (g_base g + 8 * total []) at 1 by (cbn; lia).
  change (total (g_segs g)) with (total ([] ++ g_segs g)) at 2.
  apply (wp_validate_from m it ps bl k (g_block g) B (g_base g) lu lf Q Hps (g_segs g) []).
  - by exists (g_segs g).
  - intros E. rewrite E in Ht. cbn in Ht. lia.
  - done.
  - clear -Hc. revert Hc. generalize (g_base g). generalize (g_segs g). clear. intros L w H.
    assert (Zlen L <= total L) as Hlt; [|lia]. revert w H. induction L as [|s L IH]; intros w H; [cbn; lia|].
    apply core_cons in H as [[_ _ _ H _ _] HL]. apply IH in HL. cbn [snd total Datatypes.length] in *. lia.
Qed.
End Realloc.
