(* ===== verification/SecureHeap.v ===== *)
(** Secure memory: the allocator as a whole and its public functions.

    [heap_ok] is the invariant of the allocator: the pool of records, and blocks that
    share neither records nor pages.  Each public function is specified on the ranges it
    has handed out ([hlive]); [SecureSpec] turns that into the contract of the module. *)

From S2P Require Import Prelude StateM SecurePool SecureMemory SecureBlock SecureGrow.
Local Open Scope Z_scope.

(** * The allocator as a whole *)

Definition papart (g1 g2 : Ghost) : Prop := forall x, in_pages g1 x -> ~ in_pages g2 x.

Fixpoint pages_apart (G : list Ghost) : Prop :=
  match G with [] => True | g :: G => Forall (papart g) G /\ pages_apart G end.

Lemma papart_sym g1 g2 : papart g1 g2 -> papart g2 g1.
Proof. intros H x H2 H1. by apply (H x). Qed.

Lemma pages_apart_mid G1 g G2 : pages_apart (G1 ++ g :: G2) <-> Forall (papart g) (G1 ++ G2) /\ pages_apart (G1 ++ G2).
Proof.
  induction G1 as [|g1 G1 IH]; cbn [app pages_apart]; [done|]. rewrite IH, !Forall_app, !Forall_cons, Forall_app.
  split; [intros ((? & ? & ?) & (? & ?) & ?)|intros ((? & ? & ?) & (? & ?) & ?)]; split_and!; try done; by apply papart_sym.
Qed.

Definition footprints (G : list Ghost) : list Z := G ≫= footprint.

Lemma footprints_mid G1 g G2 : footprints (G1 ++ g :: G2) ≡ₚ footprint g ++ footprints (G1 ++ G2).
Proof. unfold footprints. rewrite !bind_app, bind_cons, !(assoc_L (++)). by rewrite (Permutation_app_comm (_ ≫= _) (footprint g)). Qed.

Lemma elem_footprints G g q : g ∈ G -> q ∈ footprint g -> q ∈ footprints G.
Proof. intros Hg Hq. apply list_elem_of_bind. by exists g. Qed.

Section Heap.
Context `{SystemLaws}.

(** A block covers whole pages. *)
Definition whole_pages (g : Ghost) : Prop :=
  (8 * total (g_segs g)) mod getpagesize = 0 /\ 0 < total (g_segs g).

Record heap_ok (st : St) (G : list Ghost) : Prop := {
  h_pools : pools_ok st;
  h_blocks : all_blocks st = g_block <$> G;
  h_nodup : NoDup (footprints G);
  h_ok : Forall (block_ok (mem st) (items st)) G;
  h_pages : Forall whole_pages G;
  h_apart : pages_apart G
}.

Lemma block_footprint_item m it g q : block_ok m it g -> q ∈ footprint g -> is_Some (it !! q).
Proof.
  intros (B & lu & lf & [Hb _ _ Hc _ _ _ _ _] & _) [->|Hq]%elem_of_cons; [by eapply blk_item|].
  destruct (core_cell _ _ _ _ _ Hc Hq) as [? Hx]. by eapply cellv_item.
Qed.

(** An operation on one block. *)
Lemma heap_update m it ps bl k m' it' ps' k' G1 g g' G2 : heap_ok (mk_st m it ps bl k) (G1 ++ g :: G2) ->
  pools_ok (mk_st m' it' ps' bl k') -> block_ok m' it' g' -> outside g g' m m' it it' ->
  heap_ok (mk_st m' it' ps' bl k') (G1 ++ g' :: G2).
Proof.
  intros [_ Hbl Hnd Hok Hpg Hap] Hps HB [Ob Ow Ot Oc Oi Om Op]. cbn [all_blocks mem items] in *.
  rewrite footprints_mid in Hnd. apply NoDup_app in Hnd as (Hnd1 & Hdis & Hnd2).
  apply Forall_app in Hok as [Hok1 [Hg Hok2]%Forall_cons]. apply pages_apart_mid in Hap as [Hap1 Hap2].
  apply Forall_app in Hpg as [Hpg1 [Hpgg Hpg2]%Forall_cons].
  assert (forall x, in_pages g' x <-> in_pages g x) as Hpages by (intros x; unfold in_pages; by rewrite Ow, Ot).
  assert (Forall (block_ok m' it') (G1 ++ G2)) as Hrest.
  { apply Forall_forall. intros g2 Hg2. assert (block_ok m it g2) as Hb2.
    { rewrite Forall_forall in Hok1, Hok2. apply elem_of_app in Hg2 as [?|?]; auto. }
    eapply block_ok_frame; [exact Hb2| |].
    - intros q Hq. apply Oi; [|by eapply block_footprint_item]. intros Hq'. apply (Hdis q Hq'). by eapply elem_footprints.
    - intros x Hx. apply Om. intros Hx'. rewrite Forall_forall in Hap1. by apply (Hap1 g2 Hg2 x). }
  apply Forall_app in Hrest as [Hr1 Hr2]. split; cbn [all_blocks mem items]; try done.
  - rewrite Hbl, !fmap_app, !fmap_cons. by rewrite Ob.
  - rewrite footprints_mid. apply NoDup_app. split_and!; [| |done].
    + destruct HB as (B & lu & lf & HB & _). apply NoDup_cons. split; [|exact (bs_nodup _ _ _ _ _ _ _ _ HB)].
      exact (block_not_cell _ _ _ _ _ _ _ _ HB).
    + intros q Hq Hq2. assert (is_Some (it !! q)) as Hit.
      { apply list_elem_of_bind in Hq2 as (g2 & Hqf & Hg2).
        eapply block_footprint_item; [|exact Hqf]. rewrite Forall_forall in Hok1, Hok2. apply elem_of_app in Hg2 as [?|?]; auto. }
      apply elem_of_cons in Hq as [->|Hq].
      * rewrite Ob in *. by apply (Hdis (g_block g)); [left|].
      * destruct (Oc q Hq) as [?|?]; [by apply (Hdis q); [right|]|]. destruct Hit. congruence.
  - apply Forall_app. split; [done|]. by apply Forall_cons.
  - apply Forall_app. split; [done|]. apply Forall_cons. split; [|done]. unfold whole_pages. by rewrite Ot.
  - apply pages_apart_mid. split; [|done]. eapply Forall_impl; [exact Hap1|]. intros g2 Ha x Hx. apply Ha. by apply Hpages.
Qed.

Lemma heap_mid st G1 g G2 : heap_ok st (G1 ++ g :: G2) -> block_ok (mem st) (items st) g /\ whole_pages g.
Proof. intros [_ _ _ Hok Hpg _]. apply Forall_app in Hok as [_ [? _]%Forall_cons], Hpg as [_ [? _]%Forall_cons]. done. Qed.

(** Memory outside the pages of the blocks, and the count of system calls, do not matter. *)
Lemma heap_other m it ps bl k m' ps' k' G : heap_ok (mk_st m it ps bl k) G -> pools_ok (mk_st m' it ps' bl k') ->
  (forall g x, g ∈ G -> in_pages g x -> m' !! x = m !! x) -> heap_ok (mk_st m' it ps' bl k') G.
Proof.
  intros [_ Hbl Hnd Hok Hpg Hap] Hps Hm. split; try done. cbn [mem items] in *.
  apply Forall_forall. intros g Hg. rewrite Forall_forall in Hok.
  eapply block_ok_frame; [by apply Hok|done|]. intros x. by apply Hm.
Qed.

(** * Ranges handed out *)

Definition hlive (G : list Ghost) : list (Z * Z) := G ≫= live.

Lemma hlive_mid G1 g G2 : hlive (G1 ++ g :: G2) ≡ₚ live g ++ hlive (G1 ++ G2).
Proof. unfold hlive. rewrite !bind_app, bind_cons, !(assoc_L (++)). by rewrite (Permutation_app_comm (_ ≫= _) (live g)). Qed.

Lemma elem_hlive G p n : (p, n) ∈ hlive G <-> exists G1 g G2, G = G1 ++ g :: G2 /\ (p, n) ∈ live g.
Proof.
  unfold hlive. rewrite list_elem_of_bind. split.
  - intros (g & Hp & Hg). apply list_elem_of_split in Hg as (G1 & G2 & ->). by exists G1, g, G2.
  - intros (G1 & g & G2 & -> & Hp). exists g. split; [done|]. set_solver.
Qed.

Lemma hlive_pages st G p n : heap_ok st G -> (p, n) ∈ hlive G -> exists g, g ∈ G /\ block_ok (mem st) (items st) g /\
  (p, n) ∈ live g /\ 0 < n /\ 0 < p /\ forall x, p <= x < p + n -> is_Some (mem st !! x) /\ in_pages g x.
Proof.
  intros HG (G1 & g & G2 & -> & Hp)%elem_hlive. destruct (heap_mid _ _ _ _ HG) as [HB _].
  destruct (live_mapped _ _ _ _ _ HB Hp) as (? & ? & ?). exists g. split; [set_solver|]. done.
Qed.

Lemma hlive_apart st G p n R : heap_ok st G -> hlive G ≡ₚ (p, n) :: R ->
  forall q j, (q, j) ∈ R -> 0 < j /\ 0 < n /\ (q + j <= p \/ p + n <= q).
Proof.
  intros HG HR q j Hq. assert ((p, n) ∈ hlive G) as Hp by (rewrite HR; left).
  destruct (hlive_pages _ _ _ _ HG Hp) as (_ & _ & _ & _ & Hn & _).
  apply elem_hlive in Hp as (G1 & g & G2 & -> & Hp). destruct (heap_mid _ _ _ _ HG) as [HB _].
  assert (exists R1, live g ≡ₚ (p, n) :: R1) as [R1 HR1].
  { apply list_elem_of_split in Hp as (a & b & ->). exists (a ++ b). symmetry. apply Permutation_middle. }
  rewrite hlive_mid, HR1 in HR. apply Permutation_cons_inv in HR. rewrite <- HR in Hq. apply elem_of_app in Hq as [Hq|Hq].
  { destruct (live_apart _ _ _ _ _ _ HB HR1 _ _ Hq). lia. }
  assert ((p, n) ∈ live g) as Hp' by (rewrite HR1; left).
  destruct (live_mapped _ _ _ _ _ HB Hp') as (_ & _ & Hpm).
  apply list_elem_of_bind in Hq as (g2 & Hq & Hg2).
  destruct HG as [_ _ _ Hok _ Hap]. apply pages_apart_mid in Hap as [Hap _]. rewrite Forall_forall in Hap, Hok.
  assert (block_ok (mem st) (items st) g2) as HB2 by (apply Hok; set_solver).
  destruct (live_mapped _ _ _ _ _ HB2 Hq) as (Hj & _ & Hqm). split; [done|]. split; [done|].
  destruct (decide (q + j <= p \/ p + n <= q)) as [?|Hno]; [done|exfalso].
  destruct (Hpm (Z.max p q) ltac:(lia)) as [_ H1]. destruct (Hqm (Z.max p q) ltac:(lia)) as [_ H2].
  by apply (Hap g2 Hg2 _ H1).
Qed.

Lemma hlive_unique st G p n n' : heap_ok st G -> (p, n) ∈ hlive G -> (p, n') ∈ hlive G -> n' = n.
Proof.
  intros HG Hp Hp'. apply list_elem_of_split in Hp as (a & b & E). rewrite E in Hp'.
  apply elem_of_app in Hp' as [Hp'|[[= ->]|Hp']%elem_of_cons]; [| done |];
    (destruct (hlive_apart _ _ p n (a ++ b) HG) with (q := p) (j := n') as (? & ? & ?);
      [rewrite E; symmetry; apply Permutation_middle|set_solver|lia]).
Qed.
End Heap.

(** * Making a block *)

Section Create.
Context `{SystemLaws}.

Lemma round_pages size : 0 < size ->
  let sz := Z.land (size + getpagesize - 1) (Z.lnot (getpagesize - 1)) in
  sz mod getpagesize = 0 /\ size <= sz /\ 4096 <= sz.
Proof.
  intros Hs. pose proof page_bounds. destruct page_size as (k & Hk & Hpg). cbv zeta.
  assert (Z.land (size + getpagesize - 1) (Z.lnot (getpagesize - 1)) = (size + getpagesize - 1) / getpagesize * getpagesize) as ->.
  { rewrite <- Z.ldiff_land, Hpg. replace (2 ^ k - 1) with (Z.ones k) by (rewrite Z.ones_equiv; lia).
    rewrite Z.ldiff_ones_r by lia. by rewrite Z.shiftl_mul_pow2, Z.shiftr_div_pow2 by lia. }
  set (pg := getpagesize) in *. clearbody pg. split; [apply Z.mod_mul; lia|].
  pose proof (Z.div_mod (size + pg - 1) pg ltac:(lia)). pose proof (Z.mod_pos_bound (size + pg - 1) pg ltac:(lia)).
  assert (1 <= (size + pg - 1) / pg) by (apply Z.div_le_lower_bound; lia). nia.
Qed.

(** Whole pages are whole words. *)
Lemma pages_words sz : sz mod getpagesize = 0 -> 8 * (sz / 8) = sz.
Proof.
  intros Hsz. destruct page_size as (k & Hk & Hpg). rewrite Hpg in Hsz.
  assert (sz mod 8 = 0) as H8; [|lia_div].
  apply Z.mod_divide in Hsz; [|lia]. apply Z.mod_divide; [lia|]. eapply Z.divide_trans; [|exact Hsz].
  exists (2 ^ (k - 3)). replace k with (k - 3 + 3) at 1 by lia. by rewrite Z.pow_add_r by lia.
Qed.

Lemma wp_acquire m it ps bl k size (Q : Z * Z -> St -> Prop) : 0 < size ->
  pools_ok (mk_st m it ps bl k) ->
  (forall m' k' sz, (forall x, m' !! x = m !! x) -> Q (0, sz) (mk_st m' it ps bl k')) ->
  (forall m' k' pages sz, sz mod getpagesize = 0 -> size <= sz -> 4096 <= sz -> 0 < pages -> pages + sz <= 2 ^ 63 ->
     (forall x, pages <= x < pages + sz -> m !! x = None) ->
     (forall x, m' !! x = if decide (pages <= x < pages + sz) then Some 0 else m !! x) ->
     Q (pages, sz) (mk_st m' it ps bl k')) ->
  wp (sec_acquire_pages size) Q (mk_st m it ps bl k).
Proof.
  intros Hs Hps Hfail Hdone. unfold wp, sec_acquire_pages. destruct (Z.eqb_spec size 0); [lia|].
  destruct (round_pages size Hs) as (Hmod & Hle & Hge). set (sz := Z.land _ _) in *.
  destruct (mmap (mk_st m it ps bl k) sz) as [pages|] eqn:Hm; [|by apply Hfail].
  apply mmap_fresh in Hm as [Hp0 _ Hpe Hfree _]. cbn [mem] in Hfree |- *.
  destruct (mlock _ _ _); cbn [tick with_mem mem items pool_data all_blocks calls].
  - apply Hdone; [exact Hmod|exact Hle|exact Hge|exact Hp0|exact Hpe|exact Hfree|].
    intros x. change (map_zero m pages (Z.to_nat sz) !! x = if decide (pages <= x < pages + sz) then Some 0 else m !! x).
    rewrite map_zero_lookup. by rewrite Z2Nat.id by lia.
  - apply Hfail. intros x. change (unmap (map_zero m pages (Z.to_nat sz)) pages (Z.to_nat sz) !! x = m !! x).
    rewrite unmap_lookup, map_zero_lookup, Z2Nat.id by lia.
    case_decide; [symmetry; by apply Hfree|done].
Qed.

Definition fresh_ghost (b pages c n : Z) : Ghost := mk_ghost b pages [mk_seg c n 0 None].

(** The first cell of a new block: its geometry, its guards, its ring. *)
Lemma wp_first_cell m it ps bl k b pages c n (K : M Z) (Q : Z -> St -> Prop) :
  blk it b = Some (mk_block pages n 0 0 0) -> cellv it c = Some zero_cell -> 3 <= n -> 0 < pages ->
  pages + 8 * n <= 2 ^ 63 -> c <> 0 -> c <> b -> (forall x, pages <= x < pages + 8 * n -> is_Some (m !! x)) ->
  (forall m' it', block_ok m' it' (fresh_ghost b pages c n) ->
     (forall q, q <> b -> q <> c -> cellv it' q = cellv it q /\ blk it' q = blk it q) ->
     (forall q, is_Some (it' !! q) -> is_Some (it !! q)) ->
     (forall x, ~ (pages <= x < pages + 8 * n) -> m' !! x = m !! x) -> wp K Q (mk_st m' it' ps bl k)) ->
  wp (upd_cell c (set_geom pages n);; upd_cell c (set_req 0 None);; sec_write_guards c;;
      sec_insert_cell_ring b Unused c;; K) Q (mk_st m it ps bl k).
Proof.
  intros Hb Hc Hn Hp Hpe Hc0 Hcb Hm HQ.
  step. eapply wp_geom_step; [exact Hc|done|done|reflexivity|]. intros it1 G1. cbn in G1.
  destruct (geom_cell it1 c pages n 0 None) as (c1 & Hc1 & Hc1w & Hc1n & _).
  { rewrite (gs_geom _ _ _ _ G1). by rewrite decide_True. }
  step. eapply wp_geom_step; [exact Hc1|done|done|reflexivity|]. intros it2 G2.
  cbn [words n_words requested tag set_req] in G2. rewrite Hc1w, Hc1n in G2.
  destruct (geom_cell it2 c pages n 0 None) as (c2 & Hc2 & Hc2w & Hc2n & _).
  { rewrite (gs_geom _ _ _ _ G2). by rewrite decide_True. }
  step. eapply wp_write_guards; [exact Hc2|lia|by rewrite Hc2w, Hc2n|]. rewrite Hc2w, Hc2n. intros m1 W1 W2 W3 W4.
  assert (blk it2 b = Some (mk_block pages n 0 0 0)) as Hb2 by (by rewrite (gs_blk _ _ _ _ G2), (gs_blk _ _ _ _ G1)).
  step. eapply wp_mono.
  { eapply (insert_ring b _ Unused []); [exact Hb2| | | |set_solver|done].
    - split; [done|constructor|set_solver|done].
    - rewrite (gs_nxt _ _ _ _ G2), (gs_nxt _ _ _ _ G1). unfold nxt. by rewrite Hc.
    - rewrite (gs_prv _ _ _ _ G2), (gs_prv _ _ _ _ G1). unfold prv. by rewrite Hc. }
  intros _ st (it3 & l' & -> & R & Hring & Hl'). apply Permutation_singleton_r in Hl' as ->. apply HQ.
  - eexists _, [], [c]. unfold fresh_ghost. cbn [g_block g_base g_segs]. split_and!; [|done|done|].
    + split.
      * rewrite (rs_blk _ _ _ _ _ _ _ R), decide_True by done. reflexivity.
      * done.
      * cbn. lia.
      * apply core_cons. split; [|constructor].
        split; cbn [fst snd s_cell s_n s_req s_tag]; try done; try lia.
        rewrite (rs_geom _ _ _ _ _ _ _ R), (gs_geom _ _ _ _ G2). by rewrite decide_True.
      * split; [done|constructor|set_solver|done].
      * exact Hring.
      * cbn. apply NoDup_singleton.
      * cbn [total s_n]. rewrite Z.add_0_r. auto.
      * cbn [total s_n]. lia.
    + done.
  - intros q Hqb Hqc. rewrite (rs_out _ _ _ _ _ _ _ R) by set_solver. rewrite (rs_blk _ _ _ _ _ _ _ R), decide_False by done.
    rewrite (gs_out _ _ _ _ G2), (gs_out _ _ _ _ G1) by done. split; [done|].
    by rewrite (gs_blk _ _ _ _ G2), (gs_blk _ _ _ _ G1).
  - intros q Hq. eapply geom_step_items; [exact G1|exact Hc|]. eapply geom_step_items; [exact G2|exact Hc1|].
    by eapply ring_step_items; [exact R|exact Hb2|].
  - intros x Hx. apply W3; lia.
Qed.

(** A new block in front of the others. *)
Lemma heap_add m it ps bl k G m' it' ps' k' b pages c n : heap_ok (mk_st m it ps bl k) G ->
  pools_ok (mk_st m' it' ps' (b :: bl) k') -> block_ok m' it' (fresh_ghost b pages c n) ->
  it !! b = None -> it !! c = None -> c <> b ->
  (forall q, q <> b -> q <> c -> cellv it' q = cellv it q /\ blk it' q = blk it q) ->
  (forall x, pages <= x < pages + 8 * n -> m !! x = None) ->
  (forall x, ~ (pages <= x < pages + 8 * n) -> m' !! x = m !! x) ->
  (8 * n) mod getpagesize = 0 -> 0 < n ->
  heap_ok (mk_st m' it' ps' (b :: bl) k') (fresh_ghost b pages c n :: G).
Proof.
  intros HG Hps HB Hb Hc Hcb Hv Hfree Hm' Hmod Hn. pose proof HG as [_ Hbl Hnd Hok Hpg Hap]. cbn [mem items all_blocks] in *.
  rewrite Forall_forall in Hok.
  assert (forall g q, g ∈ G -> q ∈ footprint g -> q <> b /\ q <> c) as Hne.
  { intros g q Hg Hq. assert (is_Some (it !! q)) as [? ?] by (eapply block_footprint_item; [by apply Hok|done]).
    split; congruence. }
  assert (forall g x, g ∈ G -> in_pages g x -> is_Some (m !! x)) as Hmapped.
  { intros g x Hg Hx. destruct (Hok g Hg) as (B & lu & lf & HBg & _). by apply (bs_mapped _ _ _ _ _ _ _ _ HBg). }
  split; cbn [mem items all_blocks]; [done| | | | |].
  - rewrite fmap_cons. by rewrite Hbl.
  - change (footprints (fresh_ghost b pages c n :: G)) with ([b; c] ++ footprints G).
    apply NoDup_app. split_and!; [apply NoDup_cons; split; [set_solver|apply NoDup_singleton]| |done].
    intros q Hq (g & Hqg & Hg)%list_elem_of_bind. destruct (Hne g q Hg Hqg). set_solver.
  - apply Forall_cons. split; [done|]. apply Forall_forall. intros g Hg. eapply block_ok_frame; [by apply Hok| |].
    + intros q Hq. destruct (Hne g q Hg Hq). by apply Hv.
    + intros x Hx. apply Hm'. intros Hin. destruct (Hmapped g x Hg Hx). rewrite Hfree in *; done.
  - apply Forall_cons. split; [|done]. unfold whole_pages, fresh_ghost. cbn [g_segs total s_n]. by rewrite Z.add_0_r.
  - split; [|done]. apply Forall_forall. intros g Hg x Hx Hx'. destruct (Hmapped g x Hg Hx').
    unfold in_pages, fresh_ghost in Hx. cbn [g_base g_segs total s_n] in Hx. rewrite Hfree in *; [done|lia].
Qed.
End Create.

Section CreateSpec.
Context `{SystemLaws}.

Lemma delete_two (it : gmap Z Item) b c i j i' : it !! b = None -> it !! c = None -> c <> b ->
  delete c (delete b (<[b := i']> (<[c := j]> (<[b := i]> it)))) = it.
Proof.
  intros Hb Hc Hne. apply map_eq. intros q. destruct (decide (q = c)) as [->|Hqc]; [by rewrite lookup_delete_eq|].
  rewrite lookup_delete_ne by done. destruct (decide (q = b)) as [->|Hqb]; [by rewrite lookup_delete_eq|].
  rewrite lookup_delete_ne, !lookup_insert_ne by done. done.
Qed.

Lemma delete_one (it : gmap Z Item) b i : it !! b = None -> delete b (<[b := i]> it) = it.
Proof.
  intros Hb. apply map_eq. intros q. destruct (decide (q = b)) as [->|Hqb]; [by rewrite lookup_delete_eq|].
  by rewrite lookup_delete_ne, lookup_insert_ne by done.
Qed.

Lemma wp_block_create m it ps bl k G size (Q : Z -> St -> Prop) : heap_ok (mk_st m it ps bl k) G -> 0 < size ->
  (forall m' ps' k', heap_ok (mk_st m' it ps' bl k') G -> (forall x, m' !! x = m !! x) -> Q 0 (mk_st m' it ps' bl k')) ->
  (forall m' it' ps' k' b pages c n, heap_ok (mk_st m' it' ps' (b :: bl) k') (fresh_ghost b pages c n :: G) -> 0 < b ->
     (forall g x, g ∈ G -> in_pages g x -> m' !! x = m !! x) -> Q b (mk_st m' it' ps' (b :: bl) k')) ->
  wp (sec_block_create size) Q (mk_st m it ps bl k).
Proof.
  intros HG Hsize Hfail Hdone. pose proof (h_pools _ _ HG) as Hps.
  assert (forall m' ps' k', pools_ok (mk_st m' it ps' bl k') -> (forall x, m' !! x = m !! x) -> heap_ok (mk_st m' it ps' bl k') G) as Hsame.
  { intros m' ps' k' Hps' Hm'. eapply heap_other; [exact HG|exact Hps'|]. auto. }
  unfold sec_block_create. do 2 step. destruct (force_fallback _); [step; apply Hfail; auto|].
  step. apply wp_pool_alloc; [exact Hps|intros ps1 k1 Hps1; cbn [Z.eqb]; step; apply Hfail; auto|].
  intros b ps1 k1 Hps1 Hb Hbf. destruct (Z.eqb_spec b 0) as [?|_]; [lia|].
  step. apply wp_pool_alloc; [exact Hps1| |].
  { intros ps2 k2 Hps2. cbn [Z.eqb]. step. apply wp_pool_free; [exact Hps2|rewrite lookup_insert_eq; by eexists|].
    intros ps3 Hps3. rewrite delete_one in * by done. step. apply Hfail; auto. }
  intros c ps2 k2 Hps2 Hc Hcf. destruct (Z.eqb_spec c 0) as [?|_]; [lia|].
  assert (c <> b) as Hcb by (intros ->; by rewrite lookup_insert_eq in Hcf). rewrite lookup_insert_ne in Hcf by done.
  set (it2 := <[c := ICell zero_cell]> (<[b := IBlock zero_block]> it)) in *.
  assert (blk it2 b = Some zero_block) as Hb2.
  { unfold blk, it2. by rewrite lookup_insert_ne, lookup_insert_eq by done. }
  set (size' := if size <? DEFAULT_BLOCK_SIZE then _ else size).
  assert (0 < size') as Hsize' by (unfold size', DEFAULT_BLOCK_SIZE; destruct (Z.ltb_spec size 16384); lia).
  step. apply wp_acquire; [exact Hsize'|exact Hps2| |].
  - intros m3 k3 sz Hm3. step. eapply wp_upd_block; [exact Hb2|]. cbn [items with_items mem pool_data all_blocks calls Z.eqb].
    step. apply wp_pool_free; [|rewrite lookup_insert_eq; by eexists|].
    { eapply pools_ok_items; [exact (pools_ok_calls _ _ _ _ _ k3 Hps2)|]. intros q Hq. apply lookup_insert_is_Some' in Hq as [<-|Hq]; [by eapply blk_item|done]. }
    intros ps4 Hps4. step. apply wp_pool_free; [exact Hps4|unfold it2; rewrite lookup_delete_ne, lookup_insert_ne, lookup_insert_eq by done; by eexists|].
    intros ps5 Hps5. step. unfold it2 in *. rewrite delete_two in * by done. apply Hfail; auto.
  - intros m3 k3 pages sz Hmod Hle Hge Hpg Hpe Hfree Hm3. pose proof (pages_words _ Hmod) as Hsz.
    step. eapply wp_upd_block; [exact Hb2|]. cbn [items with_items mem pool_data all_blocks calls].
    destruct (Z.eqb_spec pages 0) as [?|_]; [lia|]. unfold sizeof_word.
    cbn [n_used used_cells unused_cells zero_block]. set (it3 := <[b := _]> it2).
    assert (blk it3 b = Some (mk_block pages (sz / 8) 0 0 0)) as Hb3 by (unfold it3; rewrite blk_insert; by rewrite decide_True).
    assert (cellv it3 c = Some zero_cell) as Hc3.
    { unfold it3. erewrite cellv_insert_block by exact Hb2. unfold it2. rewrite cellv_insert. by rewrite decide_True. }
    assert (forall q, is_Some (it3 !! q) -> is_Some (it2 !! q)) as Hit3.
    { intros q Hq. apply lookup_insert_is_Some' in Hq as [<-|Hq]; [by eapply blk_item|done]. }
    step. eapply wp_block_at; [exact Hb3|]. cbn [bl_words bl_n_words].
    eapply wp_first_cell; [exact Hb3|exact Hc3|lia..| |].
    { intros x Hx. rewrite Hm3, decide_True by lia. by eexists. }
    intros m4 it4 HB4 Hv4 Hi4 Hm4. step. step. step. cbn [with_blocks mem items pool_data all_blocks calls].
    apply (Hdone m4 it4 ps2 k3 b pages c (sz / 8)); [|lia|].
    + eapply heap_add; [exact HG| |exact HB4|done|done|done| | | |by rewrite Hsz|lia].
      * assert (pools_ok (mk_st m4 it4 ps2 bl k3)) as [? ? ?]; [|done].
        eapply pools_ok_items; [exact (pools_ok_calls _ _ _ _ _ k3 Hps2)|]. auto.
      * intros q Hqb Hqc. destruct (Hv4 q Hqb Hqc) as [-> ->]. unfold it3. erewrite cellv_insert_block by exact Hb2.
        rewrite blk_insert, decide_False by done. unfold it2. rewrite cellv_insert, decide_False by done.
        unfold cellv, blk. by rewrite !lookup_insert_ne by done.
      * intros x Hx. apply Hfree. lia.
      * intros x Hx. rewrite Hm4, Hm3, decide_False by lia. done.
    + intros g x Hg Hx. assert (is_Some (m !! x)) as [y Hy].
      { destruct HG as [_ _ _ Hok _ _]. rewrite Forall_forall in Hok. destruct (Hok g Hg) as (B & lu & lf & HBg & _).
        by apply (bs_mapped _ _ _ _ _ _ _ _ HBg). }
      assert (~ (pages <= x < pages + sz)) by (intros Hx'; rewrite Hfree in Hy; done).
      rewrite Hm4, Hm3, decide_False by lia. done.
Qed.
End CreateSpec.

(** * Giving a block back *)

Section Destroy.
Context `{SystemLaws}.

Lemma lives_count a L : length (lives a L) = length (used_of L).
Proof.
  revert a. induction L as [|s L IH]; intros a; [done|]. rewrite lives_cons, used_cons, !length_app, IH.
  by destruct (seg_used s).
Qed.

Lemma block_n_used m it g : block_ok m it g -> exists B, blk it (g_block g) = Some B /\ n_used B = Zlen (live g).
Proof.
  intros (B & lu & lf & [Hb _ _ _ _ _ _ _ _] & Hlu & _ & Hn). exists B. split; [done|].
  rewrite Hn. unfold live. rewrite lives_count. by rewrite (Permutation_length Hlu).
Qed.

Lemma wp_free_unused m bl k b fuel : forall it ps B lf (Q : unit -> St -> Prop), pools_ok (mk_st m it ps bl k) ->
  blk it b = Some B -> ring_ok it (unused_cells B) lf -> b ∉ lf -> (length lf < fuel)%nat ->
  (forall it' ps', pools_ok (mk_st m it' ps' bl k) -> is_Some (it' !! b) ->
     (forall q, q ∉ lf -> q <> b -> cellv it' q = cellv it q /\ blk it' q = blk it q) ->
     Q tt (mk_st m it' ps' bl k)) ->
  wp (free_unused fuel b) Q (mk_st m it ps bl k).
Proof.
  induction fuel as [|fuel IH]; intros it ps B lf Q Hps Hb Hring Hblf Hf HQ; [lia|]. cbn [free_unused].
  do 2 step. pose proof (ring_head _ _ _ Hring) as Hh. destruct lf as [|c lf].
  { rewrite Hh. cbn. apply HQ; [done|by eapply blk_item|done]. }
  cbn in Hh. pose proof (ring_nonnull _ _ _ Hring) as Hz. destruct (Z.eqb_spec (unused_cells B) 0) as [E|_]; [set_solver|].
  step. eapply wp_mono; [eapply (remove_ring b B Unused (c :: lf)); [exact Hb|exact Hring|rewrite Hh; left]|].
  intros _ st (it1 & p & lf1 & -> & R & Hring1 & Hperm & _). cbn beta. rewrite Hh in *.
  assert (is_Some (it1 !! c)) as Hc1.
  { destruct (ring_cell _ _ _ c Hring) as (n & q & Hn & _); [left|].
    assert (is_Some (geom it1 c)) as [gg Hgg]; [|by eapply geom_item].
    rewrite (rs_geom _ _ _ _ _ _ _ R). unfold nxt in Hn. unfold geom. destruct (cellv it c); [by eexists|done]. }
  apply not_elem_of_cons in Hblf as [Hbc Hblf].
  step. apply wp_pool_free; [eapply pools_ok_items; [exact Hps|]; intros q; by eapply ring_step_items|done|].
  intros ps2 Hps2. pose proof (delete_views it1 c) as Hdel. set (it2 := delete c it1) in *.
  assert (c ∉ lf1) as Hclf.
  { pose proof (ring_nodup _ _ _ Hring) as Hnd. rewrite Hperm in Hnd. by apply NoDup_cons in Hnd as [? _]. }
  apply Permutation_cons_inv in Hperm.
  eapply (IH it2 ps2 (set_ring Unused p B) lf1); [done| | | | |].
  - destruct (Hdel b) as [_ ->]; [done|]. rewrite (rs_blk _ _ _ _ _ _ _ R). by rewrite decide_True.
  - eapply ring_same; [|exact Hring1]. intros x Hx. apply Hdel. intros ->. done.
  - by rewrite <- Hperm.
  - rewrite <- Hperm. cbn in Hf. lia.
  - intros it' ps' Hps' Hb' Hv. apply HQ; [done|done|]. intros q [Hqc Hq]%not_elem_of_cons Hqb.
    destruct (Hv q) as [-> ->]; [by rewrite <- Hperm|done|]. destruct (Hdel q Hqc) as [-> ->].
    rewrite (rs_out _ _ _ _ _ _ _ R) by (by apply not_elem_of_cons).
    rewrite (rs_blk _ _ _ _ _ _ _ R). by rewrite decide_False.
Qed.

Lemma unlink_mid b l1 l2 : b ∉ l1 -> unlink b (l1 ++ b :: l2) = Some (l1 ++ l2).
Proof.
  induction l1 as [|x l1 IH]; intros Hb; cbn [app unlink]; [by rewrite Z.eqb_refl|].
  apply not_elem_of_cons in Hb as [Hx Hb]. destruct (Z.eqb_spec x b); [congruence|]. by rewrite IH.
Qed.

Lemma footprints_blocks G : NoDup (footprints G) -> NoDup (g_block <$> G).
Proof.
  induction G as [|g G IH]; [constructor|]. unfold footprints. rewrite bind_cons, fmap_cons. intros (H1 & H2 & H3)%NoDup_app.
  apply NoDup_cons. split; [|by apply IH]. intros (g2 & E & Hg2)%list_elem_of_fmap.
  apply (H2 (g_block g)); [left|]. apply list_elem_of_bind. exists g2. split; [rewrite E; left|done].
Qed.

Lemma wp_block_destroy m it ps bl k G1 g G2 (Q : unit -> St -> Prop) : heap_ok (mk_st m it ps bl k) (G1 ++ g :: G2) ->
  live g = [] ->
  (forall m' it' ps' bl' k', heap_ok (mk_st m' it' ps' bl' k') (G1 ++ G2) ->
     (forall x, m' !! x = if decide (in_pages g x) then None else m !! x) -> Q tt (mk_st m' it' ps' bl' k')) ->
  wp (sec_block_destroy (g_block g)) Q (mk_st m it ps bl k).
Proof.
  intros HG Hlive HQ. destruct (heap_mid _ _ _ _ HG) as [(B & lu & lf & HB & Hlu & Hlf & Hnu) [Hmod Htpos]]. cbn [mem items] in *.
  pose proof HB as [Hb Hw Hn Hc Hused Hunused Hndc Hm [Hr1 Hr2]].
  assert (lu = []) as ->.
  { apply length_zero_iff_nil. rewrite (Permutation_length Hlu), <- (lives_count (g_base g)). fold (live g). by rewrite Hlive. }
  pose proof (ring_head _ _ _ Hused) as Hu0. cbn in Hu0. cbn in Hnu.
  pose proof (h_nodup _ _ HG) as Hnd. pose proof (footprints_blocks _ Hnd) as Hndb. rewrite fmap_app, fmap_cons in Hndb.
  pose proof (h_blocks _ _ HG) as Hbl. cbn [all_blocks] in Hbl. rewrite fmap_app, fmap_cons in Hbl.
  assert (g_block g ∉ g_block <$> G1) as Hb1 by (apply NoDup_app in Hndb as (_ & Hd & _); intros Hx; apply (Hd _ Hx); left).
  unfold sec_block_destroy. do 2 step. step. step. step. step. do 2 step. cbn [all_blocks]. rewrite Hbl, unlink_mid by done.
  step. step. cbn [with_blocks mem items pool_data all_blocks calls]. step. step.
  unfold cell_fuel. do 2 step. step.
  assert (g_block g ∉ lf) as Hblf.
  { intros Hx. eapply block_not_cell; [exact HB|]. apply unused_cells_sub. by rewrite <- Hlf. }
  eapply wp_free_unused; [|exact Hb|exact Hunused|exact Hblf| |].
  { destruct (h_pools _ _ HG) as [? ? ?]. by split. }
  { pose proof (cells_size it lf (ring_nodup _ _ _ Hunused)) as Hsz. cbn [items]. apply Nat.lt_succ_r, Hsz.
    intros x Hx. rewrite Hlf in Hx. apply unused_cells_sub in Hx. destruct (core_cell _ _ _ _ _ Hc Hx). by eapply cellv_item. }
  intros it1 ps1 Hps1 Hb2 Hv1. unfold sec_release_pages, sizeof_word. rewrite Hw, Hn. step. do 2 step.
  step. apply wp_assert; [apply Z.eqb_eq; by rewrite Z.mul_comm|]. step. unfold tick, with_mem. cbn [mem items pool_data all_blocks calls].
  apply wp_pool_free; [destruct Hps1 as [? ? ?]; by split|done|]. intros ps2 Hps2.
  pose proof (delete_views it1 (g_block g)) as Hdel.
  assert (forall x, unmap m (g_base g) (Z.to_nat (total (g_segs g) * 8)) !! x = if decide (in_pages g x) then None else m !! x) as Hmem.
  { intros x. rewrite unmap_lookup. unfold in_pages. repeat case_decide; try done; lia. }
  apply HQ; [|exact Hmem]. pose proof HG as [_ _ _ Hok Hpg Hap].
  rewrite footprints_mid in Hnd. apply NoDup_app in Hnd as (_ & Hdis & Hnd2).
  apply Forall_app in Hok as [Hok1 [_ Hok2]%Forall_cons], Hpg as [Hpg1 [_ Hpg2]%Forall_cons]. apply pages_apart_mid in Hap as [Hap1 Hap2].
  split; cbn [mem items all_blocks]; [done|by rewrite fmap_app|done| |by apply Forall_app|done].
  apply Forall_forall. intros g2 Hg2. assert (block_ok m it g2) as HB2.
  { rewrite Forall_forall in Hok1, Hok2. apply elem_of_app in Hg2 as [?|?]; auto. }
  eapply block_ok_frame; [exact HB2| |].
  - intros q Hq. assert (q ∉ footprint g) as Hqf by (intros Hq'; apply (Hdis q Hq'); by eapply elem_footprints).
    apply not_elem_of_cons in Hqf as [Hqb Hqc]. destruct (Hdel q Hqb) as [-> ->]. apply Hv1; [|done].
    rewrite Hlf. by intros Hx%unused_cells_sub.
  - intros x Hx. rewrite Hmem, decide_False; [done|]. intros Hx'. rewrite Forall_forall in Hap1. by apply (Hap1 g2 Hg2 x).
Qed.
End Destroy.

(** * The public functions on the ranges handed out *)

(** A pointer into the pages of the allocator. *)
Definition secure (st : St) (x : Z) : Prop :=
  exists b B, b ∈ all_blocks st /\ blk (items st) b = Some B /\ sec_is_valid_word B x = true.

(** What is documented of the fallback, a [realloc] for ordinary memory: it leaves memory
    that is not its own alone, and what it returns is memory of the size asked for. *)
Class FallbackLaws `{System} : Prop := {
  fallback_frame f st p n q m' : fallback = Some f -> ~ secure st p -> f st p n = (q, m') ->
    (forall x, secure st x -> m' !! x = mem st !! x) /\
    (q <> 0 -> forall x, q <= x < q + n -> is_Some (m' !! x) /\ ~ secure st x)
}.

Section Public.
Context `{SystemLaws} `{!FallbackLaws}.

Definition hsame (G : list Ghost) (m : Mem) (G' : list Ghost) (m' : Mem) : Prop :=
  hlive G' ≡ₚ hlive G /\ forall q j, (q, j) ∈ hlive G -> load m' q (Z.to_nat j) = load m q (Z.to_nat j).

Definition halloc (G : list Ghost) (m : Mem) (length p : Z) (G' : list Ghost) (m' : Mem) : Prop :=
  p <> 0 /\ hlive G' ≡ₚ (p, length) :: hlive G /\
  (forall q j, (q, j) ∈ hlive G -> load m' q (Z.to_nat j) = load m q (Z.to_nat j)) /\
  load m' p (Z.to_nat length) = Some (replicate (Z.to_nat length) 0).

Lemma hsame_trans G m G1 m1 G2 m2 : hsame G m G1 m1 -> hsame G1 m1 G2 m2 -> hsame G m G2 m2.
Proof. intros [P1 L1] [P2 L2]. split; [by rewrite P2|]. intros q j Hq. rewrite L2, L1; [done|done|by rewrite P1]. Qed.

Lemma hsame_alloc G m G1 m1 n p G2 m2 : hsame G m G1 m1 -> halloc G1 m1 n p G2 m2 -> halloc G m n p G2 m2.
Proof.
  intros [P1 L1] (Hp & P2 & L2 & Z2). split_and!; [done|by rewrite P2, P1| |done].
  intros q j Hq. rewrite L2, L1; [done|done|by rewrite P1].
Qed.

Lemma hsame_mem st G m' : heap_ok st G -> (forall g x, g ∈ G -> in_pages g x -> m' !! x = mem st !! x) ->
  hsame G (mem st) G m'.
Proof.
  intros HG Hm. split; [done|]. intros q j Hq. destruct (hlive_pages _ _ _ _ HG Hq) as (g & Hg & _ & _ & _ & _ & Hx).
  apply load_agree. intros x Hxr. apply (Hm g); [done|]. apply Hx. lia.
Qed.

(** An operation on one block does not touch what the others handed out. *)
Lemma other_loads st G1 g G2 g' m' it' : heap_ok st (G1 ++ g :: G2) -> outside g g' (mem st) m' (items st) it' ->
  forall q j, (q, j) ∈ hlive (G1 ++ G2) -> load m' q (Z.to_nat j) = load (mem st) q (Z.to_nat j).
Proof.
  intros HG Hout q j (G3 & g2 & G4 & E & Hq)%elem_hlive.
  assert (g2 ∈ G1 ++ G2) as Hg2 by (rewrite E; set_solver).
  destruct HG as [_ _ _ Hok _ Hap]. apply pages_apart_mid in Hap as [Hap _]. rewrite Forall_forall in Hap, Hok.
  assert (block_ok (mem st) (items st) g2) as HB2 by (apply Hok; set_solver).
  destruct (live_mapped _ _ _ _ _ HB2 Hq) as (_ & _ & Hx). apply load_agree. intros x Hxr.
  apply (out_mem _ _ _ _ _ _ Hout). intros Hx'. destruct (Hx x ltac:(lia)) as [_ Hx2]. by apply (Hap g2 Hg2 x).
Qed.

Lemma mid_split {A} (G1 G2 : list A) (g : A) x : x ∈ G1 ++ g :: G2 <-> x = g \/ x ∈ G1 ++ G2.
Proof. set_solver. Qed.

Lemma wp_alloc_in_blocks t length bl (Q : Z -> St -> Prop) : 0 < length -> forall G2 G1 m it ps k,
  heap_ok (mk_st m it ps bl k) (G1 ++ G2) ->
  (forall ps' k', heap_ok (mk_st m it ps' bl k') (G1 ++ G2) -> Q 0 (mk_st m it ps' bl k')) ->
  (forall p m' it' ps' k' G', heap_ok (mk_st m' it' ps' bl k') G' -> halloc (G1 ++ G2) m length p G' m' ->
     Q p (mk_st m' it' ps' bl k')) ->
  wp (alloc_in_blocks (g_block <$> G2) (Some t) length) Q (mk_st m it ps bl k).
Proof.
  intros Hlen. induction G2 as [|g G2 IH]; intros G1 m it ps k HG Hfail Hdone; cbn [fmap list_fmap alloc_in_blocks].
  { step. by apply Hfail. }
  destruct (heap_mid _ _ _ _ HG) as [HB _]. cbn [mem items] in HB.
  step. eapply wp_mono; [apply sec_alloc_spec; [exact (h_pools _ _ HG)|exact HB|exact Hlen]|].
  intros p st [(-> & ps' & k' & -> & Hps')|(m' & it' & ps' & k' & g' & -> & Hps' & HB' & Hout & Hp & Hlive & Hz & Hload)].
  - cbn [Z.eqb negb]. assert (heap_ok (mk_st m it ps' bl k') (G1 ++ g :: G2)) as HG'.
    { eapply heap_other; [exact HG|exact Hps'|done]. }
    replace (G1 ++ g :: G2) with ((G1 ++ [g]) ++ G2) in * by (by rewrite <- (assoc_L (++))).
    by apply (IH (G1 ++ [g])).
  - destruct (Z.eqb_spec p 0) as [?|_]; [done|]. cbn [negb]. step.
    apply (Hdone _ _ _ _ _ (G1 ++ g' :: G2)); [by eapply heap_update|].
    split_and!; [done|by rewrite !hlive_mid, Hlive| |done].
    intros q j Hq. rewrite hlive_mid in Hq. apply elem_of_app in Hq as [Hq|Hq]; [by apply Hload|].
    by eapply (other_loads _ _ _ _ _ _ _ HG Hout).
Qed.

Lemma secure_pages st G x : heap_ok st G -> secure st x <-> exists g, g ∈ G /\ in_pages g x.
Proof.
  intros [_ Hbl _ Hok _ _]. rewrite Forall_forall in Hok. unfold secure. rewrite Hbl.
  assert (forall g B, g ∈ G -> blk (items st) (g_block g) = Some B -> sec_is_valid_word B x = true <-> in_pages g x) as Hiff.
  { intros g B Hg HB. destruct (Hok g Hg) as (B' & lu & lf & HBst & _). pose proof HBst as [Hb Hw Hn _ _ _ _ _ _].
    assert (B' = B) as -> by congruence.
    unfold sec_is_valid_word, in_pages, sizeof_word. by rewrite andb_true_iff, Z.leb_le, Z.ltb_lt, Hw, Hn. }
  split.
  - intros (b & B & (g & -> & Hg)%list_elem_of_fmap & HB & Hv). exists g. split; [done|]. by eapply Hiff.
  - intros (g & Hg & Hx). destruct (Hok g Hg) as (B & lu & lf & [Hb _ _ _ _ _ _ _ _] & _).
    exists (g_block g), B. split; [by apply list_elem_of_fmap_2|]. split; [done|]. by eapply Hiff.
Qed.

Lemma wp_find_block st G x (Q : Z -> St -> Prop) : heap_ok st G -> forall G2, (forall g, g ∈ G2 -> g ∈ G) ->
  (forall g, g ∈ G2 -> in_pages g x -> Q (g_block g) st) -> ((forall g, g ∈ G2 -> ~ in_pages g x) -> Q 0 st) ->
  wp (find_block (g_block <$> G2) x) Q st.
Proof.
  intros HG. induction G2 as [|g G2 IH]; intros Hsub Hyes Hno; cbn [fmap list_fmap find_block].
  { step. apply Hno. intros g Hg. by apply elem_of_nil in Hg. }
  pose proof HG as [_ _ _ Hok _ _]. rewrite Forall_forall in Hok.
  destruct (Hok g) as (B & lu & lf & [Hb Hw Hn _ _ _ _ _ _] & _); [apply Hsub; left|].
  step. eapply wp_block_at; [exact Hb|]. unfold sec_is_valid_word, sizeof_word. rewrite Hw, Hn.
  destruct (Z.leb_spec (g_base g) x), (Z.ltb_spec x (g_base g + 8 * total (g_segs g))); cbn [andb].
  1: { step. apply Hyes; [left|]. unfold in_pages. lia. }
  all: apply IH; [intros g2 Hg2; apply Hsub; by right|intros g2 Hg2; apply Hyes; by right|intros Hno'; apply Hno].
  all: intros g2 [->|Hg2]%elem_of_cons; [unfold in_pages; lia|auto].
Qed.

Definition insecure (G : list Ghost) (m : Mem) (p n : Z) : Prop :=
  forall x, p <= x < p + n -> is_Some (m !! x) /\ forall g, g ∈ G -> ~ in_pages g x.

(** A call of the fallback leaves the allocator as it was. *)
Lemma wp_fallback f m it ps bl k G p n (Q : Z -> St -> Prop) : fallback = Some f -> heap_ok (mk_st m it ps bl k) G ->
  ~ secure (mk_st m it ps bl k) p ->
  (forall q m' k', heap_ok (mk_st m' it ps bl k') G -> hsame G m G m' -> (q <> 0 -> insecure G m' q n) ->
     Q q (mk_st m' it ps bl k')) ->
  wp (call_fallback f p n) Q (mk_st m it ps bl k).
Proof.
  intros Hf HG Hp HQ. unfold wp, call_fallback. destruct (f _ p n) as [q m'] eqn:E.
  destruct (fallback_frame _ _ _ _ _ _ Hf Hp E) as [Hframe Hq].
  assert (forall g x, g ∈ G -> in_pages g x -> m' !! x = m !! x) as Hm.
  { intros g x Hg Hx. apply Hframe. apply (secure_pages _ _ _ HG). by exists g. }
  apply HQ.
  - eapply heap_other; [exact HG| |exact Hm]. destruct (h_pools _ _ HG) as [? ? ?]. by split.
  - by apply (hsame_mem (mk_st m it ps bl k)).
  - intros Hq0 x Hx. destruct (Hq Hq0 x Hx) as [Hs Hns]. split; [done|]. intros g Hg Hxg. apply Hns.
    apply (secure_pages _ _ _ HG). by exists g.
Qed.

Lemma wp_insecure_write m it ps bl k G p n bs (Q : unit -> St -> Prop) : heap_ok (mk_st m it ps bl k) G ->
  insecure G m p n -> Zlen bs <= n ->
  (forall m', heap_ok (mk_st m' it ps bl k) G -> hsame G m G m' -> insecure G m' p n -> Q tt (mk_st m' it ps bl k)) ->
  wp (write p bs) Q (mk_st m it ps bl k).
Proof.
  intros HG Hi Hn HQ. apply wp_write; [intros x Hx; apply Hi; lia|]. intros m' Hm'.
  assert (forall g x, g ∈ G -> in_pages g x -> m' !! x = m !! x) as Hm.
  { intros g x Hg Hx. eapply wrote_other; [exact Hm'|]. intros Hxr. destruct (Hi x ltac:(lia)) as [_ Hno]. by apply (Hno g Hg). }
  apply HQ.
  - eapply heap_other; [exact HG|by eapply pools_ok_items; [exact (h_pools _ _ HG)|]|exact Hm].
  - by apply (hsame_mem (mk_st m it ps bl k)).
  - intros x Hx. destruct (Hi x Hx). split; [by eapply wrote_mapped|done].
Qed.

Lemma use_fallback_some flags f : use_fallback flags = Some f -> fallback = Some f.
Proof. unfold use_fallback. by case_match. Qed.

Lemma null_insecure st G : heap_ok st G -> ~ secure st 0.
Proof.
  intros HG. rewrite (secure_pages _ _ _ HG). intros (g & Hg & Hx). destruct HG as [_ _ _ Hok _ _]. rewrite Forall_forall in Hok.
  destruct (Hok g Hg) as (B & lu & lf & HB & _). destruct (bs_range _ _ _ _ _ _ _ _ HB). unfold in_pages in Hx. lia.
Qed.

(** The result of an allocation. *)
Definition alloc_full_post (G : list Ghost) (m : Mem) (length flags p : Z) (st' : St) : Prop :=
  exists G', heap_ok st' G' /\
    (p = 0 /\ hsame G m G' (mem st') \/ 0 < length <= 0x7FFFFFFF /\ halloc G m length p G' (mem st') \/
     p <> 0 /\ use_fallback flags <> None /\ hsame G m G' (mem st') /\ insecure G' (mem st') p length).

Lemma wp_alloc_fallback m it ps bl k G m0 G0 length flags : heap_ok (mk_st m it ps bl k) G -> 0 < length ->
  hsame G0 m0 G m ->
  wp (match use_fallback flags with
      | Some f => memory ← call_fallback f 0 length;
          (if negb (memory =? 0) then memset0 memory length else mret tt);; mret memory
      | None => mret 0
      end) (alloc_full_post G0 m0 length flags) (mk_st m it ps bl k).
Proof.
  intros HG Hlen Hsame. destruct (use_fallback flags) as [f|] eqn:Hf; [|step; exists G; split; [done|by left]].
  step. eapply wp_fallback; [by eapply use_fallback_some|exact HG|by eapply null_insecure|].
  intros q m' k' HG' Hs' Hq. destruct (Z.eqb_spec q 0) as [->|Hq0]; cbn [negb].
  { step. step. step. exists G. split; [done|]. left. split; [done|]. by eapply hsame_trans. }
  step. eapply (wp_insecure_write _ _ _ _ _ _ q length); [exact HG'|by apply Hq|rewrite length_replicate; lia|].
  intros m2 HG2 Hs2 Hi2. step. exists G. split; [done|]. right. right. cbn [mem]. split_and!; [done|congruence| |done].
  eapply hsame_trans; [exact Hsame|]. by eapply hsame_trans.
Qed.

Lemma wp_alloc_full m it ps bl k G tg length flags : heap_ok (mk_st m it ps bl k) G -> 0 <= length ->
  wp (egg_secure_alloc_full tg length flags) (alloc_full_post G m length flags) (mk_st m it ps bl k).
Proof.
  intros HG Hlen. assert (hsame G m G m) as Hrefl by done.
  unfold egg_secure_alloc_full. destruct (Z.ltb_spec (0xFFFFFFFF / 2) length) as [|Hmax]; [step; exists G; split; [done|by left]|].
  change (0xFFFFFFFF / 2) with 0x7FFFFFFF in Hmax.
  destruct (Z.eqb_spec length 0) as [->|Hne0]; [step; exists G; split; [done|by left]|].
  assert (exists t, or_question tg = Some t) as [t ->] by (destruct tg; by eexists).
  do 2 step. rewrite (h_blocks _ _ HG). step. eapply (wp_alloc_in_blocks t length bl _ ltac:(lia) G []); [exact HG| |].
  2:{ intros p m' it' ps' k' G' HG' Ha. destruct (Z.eqb_spec p 0) as [->|Hp]; [by destruct Ha|]. step. step.
      destruct (Z.eqb_spec p 0); [done|]. step. exists G'. split; [done|]. right. left. split; [lia|done]. }
  intros ps' k' HG'. cbn [Z.eqb app] in *. step. step. eapply wp_block_create; [exact HG'|lia| |].
  - intros m2 ps2 k2 HG2 Hm2. cbn [Z.eqb negb]. step. cbn [Z.eqb].
    eapply wp_alloc_fallback; [exact HG2|lia|]. eapply (hsame_mem _ _ _ HG'). auto.
  - intros m2 it2 ps2 k2 b pages c n HG2 Hb Hm2. destruct (Z.eqb_spec b 0); [lia|]. cbn [negb].
    set (g := fresh_ghost b pages c n) in *.
    assert (hsame G m (g :: G) m2) as Hs2.
    { split; [done|]. intros q j Hq. by apply (hsame_mem _ _ m2 HG' Hm2). }
    change b with (g_block g). eapply wp_mono.
    { apply sec_alloc_spec; [exact (h_pools _ _ HG2)| |lia]. by destruct (heap_mid _ [] _ _ HG2). }
    intros p st [(-> & ps3 & k3 & -> & Hps3)|(m3 & it3 & ps3 & k3 & g3 & -> & Hps3 & HB3 & Hout & Hp & Hlive & Hz & Hload)].
    + cbn [Z.eqb]. eapply wp_alloc_fallback; [|lia|exact Hs2]. eapply heap_other; [exact HG2|exact Hps3|done].
    + destruct (Z.eqb_spec p 0); [done|]. step. exists (g3 :: G). split; [by eapply (heap_update _ _ _ _ _ _ _ _ _ [])|].
      right. left. split; [lia|]. cbn [mem].
      assert (hlive (g :: G) = hlive G) as Hg by done. assert (live g = []) as Hg0 by done. rewrite Hg0 in Hlive.
      split_and!; [done| | |done].
      * unfold hlive at 1. rewrite bind_cons. by rewrite Hlive.
      * intros q j Hq. rewrite <- (proj2 Hs2) by done. eapply (other_loads _ [] g G g3 m3 it3 HG2 Hout). done.
Qed.
End Public.

Section Public2.
Context `{SystemLaws} `{!FallbackLaws}.

Definition free_full_post (G : list Ghost) (m : Mem) (p n : Z) (st' : St) : Prop :=
  exists G', heap_ok st' G' /\ hlive G ≡ₚ (p, n) :: hlive G' /\
    (forall q j, (q, j) ∈ hlive G' -> load (mem st') q (Z.to_nat j) = load m q (Z.to_nat j)) /\
    (forall x, p <= x < p + n -> mem st' !! x = Some 0 \/ mem st' !! x = None).

Lemma wp_block_free m it ps bl k G1 g G2 p n : heap_ok (mk_st m it ps bl k) (G1 ++ g :: G2) -> (p, n) ∈ live g ->
  wp (sec_free (g_block g) p;; destroy_if_empty (g_block g)) (fun _ => free_full_post (G1 ++ g :: G2) m p n) (mk_st m it ps bl k).
Proof.
  intros HG Hp. destruct (heap_mid _ _ _ _ HG) as [HB _]. cbn [mem items] in HB.
  step. eapply wp_mono; [eapply sec_free_spec; [exact (h_pools _ _ HG)|exact HB|exact Hp]|].
  intros _ st (m1 & it1 & ps1 & g1 & -> & Hps1 & HB1 & Hout & Hlive & Hz & Hload).
  assert (heap_ok (mk_st m1 it1 ps1 bl k) (G1 ++ g1 :: G2)) as HG1 by (by eapply heap_update).
  assert (hlive (G1 ++ g :: G2) ≡ₚ (p, n) :: hlive (G1 ++ g1 :: G2)) as Hl by (rewrite !hlive_mid, Hlive; done).
  assert (forall q j, (q, j) ∈ hlive (G1 ++ g1 :: G2) -> load m1 q (Z.to_nat j) = load m q (Z.to_nat j)) as Hld.
  { intros q j Hq. rewrite hlive_mid in Hq. apply elem_of_app in Hq as [Hq|Hq]; [by apply Hload|].
    by eapply (other_loads _ _ _ _ _ _ _ HG Hout). }
  destruct (block_n_used _ _ _ HB1) as (B1 & Hb1 & Hn1). rewrite (out_block _ _ _ _ _ _ Hout) in Hb1.
  unfold destroy_if_empty. do 2 step. rewrite Hn1. destruct (Z.eqb_spec (Zlen (live g1)) 0) as [H0'|_].
  2:{ step. exists (G1 ++ g1 :: G2). split_and!; [done..|]. intros x Hx. left. by apply Hz. }
  assert (live g1 = []) as Hnil by (apply length_zero_iff_nil; lia).
  rewrite <- (out_block _ _ _ _ _ _ Hout). eapply wp_block_destroy; [exact HG1|exact Hnil|].
  intros m2 it2 ps2 bl2 k2 HG2 Hm2. exists (G1 ++ G2). cbn [mem].
  assert (hlive (G1 ++ g1 :: G2) ≡ₚ hlive (G1 ++ G2)) as Hl2 by (rewrite hlive_mid, Hnil; done).
  split_and!; [done|by rewrite Hl, Hl2| |].
  - intros q j Hq. rewrite <- Hld by (by rewrite Hl2). destruct (hlive_pages _ _ _ _ HG2 Hq) as (g2 & Hg2 & _ & _ & _ & _ & Hx).
    apply load_agree. intros x Hxr. rewrite Hm2, decide_False; [done|]. intros Hx1.
    destruct HG1 as [_ _ _ _ _ Hap]. apply pages_apart_mid in Hap as [Hap _]. rewrite Forall_forall in Hap.
    apply (Hap g2 Hg2 x Hx1). apply Hx. lia.
  - intros x Hx. rewrite Hm2. case_decide; [by right|left]. by apply Hz.
Qed.

(** The block of a range handed out is the one [find_block] finds. *)
Lemma wp_find_live st G1 g G2 p n (Q : Z -> St -> Prop) : heap_ok st (G1 ++ g :: G2) -> (p, n) ∈ live g ->
  Q (g_block g) st -> wp (find_block (g_block <$> (G1 ++ g :: G2)) p) Q st.
Proof.
  intros HG Hp HQ. destruct (heap_mid _ _ _ _ HG) as [HB _]. destruct (live_mapped _ _ _ _ _ HB Hp) as (Hn & _ & Hx).
  destruct (Hx p ltac:(lia)) as [_ Hpg].
  eapply wp_find_block; [exact HG|done| |].
  - intros g2 [->|Hg2]%mid_split Hp2; [done|exfalso]. destruct HG as [_ _ _ _ _ Hap].
    apply pages_apart_mid in Hap as [Hap _]. rewrite Forall_forall in Hap. by apply (Hap g2 Hg2 p).
  - intros Hno. exfalso. apply (Hno g); [apply mid_split; by left|done].
Qed.

Lemma wp_find_none st G p (Q : Z -> St -> Prop) : heap_ok st G -> ~ secure st p -> Q 0 st ->
  wp (find_block (g_block <$> G) p) Q st.
Proof.
  intros HG Hp HQ. eapply wp_find_block; [exact HG|done| |done].
  intros g Hg Hx. exfalso. apply Hp. apply (secure_pages _ _ _ HG). by exists g.
Qed.

Lemma live_block_pos st G1 g G2 : heap_ok st (G1 ++ g :: G2) -> g_block g <> 0.
Proof.
  intros HG. destruct (heap_mid _ _ _ _ HG) as [HB _]. destruct st as [m it ps bl k].
  pose proof (pools_addresses _ (h_pools _ _ HG) _ (block_item _ _ _ HB)). lia.
Qed.

Lemma wp_free_full m it ps bl k G p n flags : heap_ok (mk_st m it ps bl k) G -> (p, n) ∈ hlive G ->
  wp (egg_secure_free_full p flags) (fun _ => free_full_post G m p n) (mk_st m it ps bl k).
Proof.
  intros HG Hp. pose proof (hlive_pages _ _ _ _ HG Hp) as (_ & _ & _ & _ & _ & Hp0 & _).
  apply elem_hlive in Hp as (G1 & g & G2 & -> & Hp). unfold egg_secure_free_full.
  destruct (Z.eqb_spec p 0); [lia|]. do 2 step. rewrite (h_blocks _ _ HG). step. eapply wp_find_live; [exact HG|exact Hp|].
  pose proof (live_block_pos _ _ _ _ HG). destruct (Z.eqb_spec (g_block g) 0); [done|]. cbn [negb]. by apply wp_block_free.
Qed.

Lemma wp_free_insecure m it ps bl k G p flags : heap_ok (mk_st m it ps bl k) G ->
  p = 0 \/ ~ secure (mk_st m it ps bl k) p /\ use_fallback flags <> None ->
  wp (egg_secure_free_full p flags) (fun _ st' => exists G', heap_ok st' G' /\ hsame G m G' (mem st')) (mk_st m it ps bl k).
Proof.
  intros HG Hp. unfold egg_secure_free_full. destruct (Z.eqb_spec p 0) as [_|Hp0]; [step; exists G; by split|].
  destruct Hp as [?|[Hns Hf]]; [done|]. destruct (use_fallback flags) as [f|] eqn:Ef; [|done].
  do 2 step. rewrite (h_blocks _ _ HG). step. eapply wp_find_none; [exact HG|exact Hns|]. cbn [Z.eqb negb].
  step. eapply wp_fallback; [by eapply use_fallback_some|exact HG|exact Hns|]. intros q m' k' HG' Hs' _. step. exists G. by split.
Qed.

(** The result of a resizing of the range [(p, n)]. *)
Definition realloc_full_post (G : list Ghost) (m : Mem) (p n length flags q : Z) (st' : St) : Prop :=
  exists G' R, heap_ok st' G' /\ hlive G ≡ₚ (p, n) :: R /\
    (forall x j, (x, j) ∈ R -> load (mem st') x (Z.to_nat j) = load m x (Z.to_nat j)) /\
    (q = 0 /\ hsame G m G' (mem st') \/
     q <> 0 /\ hlive G' ≡ₚ (q, length) :: R /\
       load (mem st') q (Z.to_nat (Z.min n length)) = load m p (Z.to_nat (Z.min n length)) \/
     q <> 0 /\ hlive G' ≡ₚ R /\ use_fallback flags <> None).

Lemma heap_load st G p n : heap_ok st G -> (p, n) ∈ hlive G ->
  exists v, load (mem st) p (Z.to_nat n) = Some v /\ length v = Z.to_nat n.
Proof.
  intros HG Hp. destruct (hlive_pages _ _ _ _ HG Hp) as (gx & _ & _ & _ & Hn & _ & Hx).
  destruct (load_mapped (mem st) p (Z.to_nat n)) as [v Hv]; [intros y Hy; apply Hx; lia|].
  exists v. split; [done|]. by apply load_Some in Hv as [? _].
Qed.

Lemma load_prefix st G p n m' b : heap_ok st G -> (p, n) ∈ hlive G -> 0 <= b <= n ->
  load m' p (Z.to_nat n) = load (mem st) p (Z.to_nat n) -> load m' p (Z.to_nat b) = load (mem st) p (Z.to_nat b).
Proof.
  intros HG Hp Hb Hl. destruct (heap_load _ _ _ _ HG Hp) as (v & Hv & _). rewrite Hv in Hl.
  rewrite (load_take _ _ _ (Z.to_nat b) _ Hv), (load_take _ _ _ (Z.to_nat b) _ Hl) by lia. done.
Qed.

(** Writing to a range handed out. *)
Lemma wp_live_write m it ps bl k G p n R a bs (Q : unit -> St -> Prop) : heap_ok (mk_st m it ps bl k) G ->
  hlive G ≡ₚ (p, n) :: R -> p <= a -> a + Zlen bs <= p + n ->
  (forall m', heap_ok (mk_st m' it ps bl k) G -> wrote m m' a bs ->
     (forall x j, (x, j) ∈ R -> load m' x (Z.to_nat j) = load m x (Z.to_nat j)) -> Q tt (mk_st m' it ps bl k)) ->
  wp (write a bs) Q (mk_st m it ps bl k).
Proof.
  intros HG HR Ha Hbs HQ. assert ((p, n) ∈ hlive G) as Hp by (rewrite HR; left).
  destruct (hlive_pages _ _ _ _ HG Hp) as (gx & _ & _ & _ & _ & _ & Hx).
  apply wp_write; [intros x Hxr; apply Hx; lia|]. intros m' Hm'.
  pose proof Hp as (G1 & g & G2 & -> & Hpg)%elem_hlive. destruct (heap_mid _ _ _ _ HG) as [HB _]. cbn [mem items] in HB.
  destruct (block_write m m' it g p n HB Hpg) as [HB' Hout].
  { intros x Hxr. eapply wrote_other; [exact Hm'|lia]. }
  { by eapply wrote_mapped. }
  apply HQ; [|exact Hm'|].
  - eapply heap_update; [exact HG|by eapply pools_ok_items; [exact (h_pools _ _ HG)|]|exact HB'|exact Hout].
  - intros x j Hxj. destruct (hlive_apart _ _ _ _ _ HG HR _ _ Hxj) as (? & ? & ?).
    apply load_agree. intros y Hy. eapply wrote_other; [exact Hm'|lia].
Qed.

(** The last resort of [egg_secure_realloc_full]: a new allocation, wherever. *)
Lemma wp_realloc_new m it ps bl k G m0 G0 p n R tg length flags : heap_ok (mk_st m it ps bl k) G ->
  hlive G0 ≡ₚ (p, n) :: R -> hsame G0 m0 G m -> n <= length -> 0 <= length ->
  wp (alloc ← egg_secure_alloc_full tg length flags;
      if negb (alloc =? 0) then memcpy alloc p n;; egg_secure_free_full p flags;; mret alloc else mret alloc)
    (realloc_full_post G0 m0 p n length flags) (mk_st m it ps bl k).
Proof.
  intros HG HR [HP HL] Hn Hlen. assert (hlive G ≡ₚ (p, n) :: R) as HR1 by (by rewrite HP).
  step. eapply wp_mono; [by apply wp_alloc_full|]. intros q [m1 it1 ps1 bl1 k1] (G1 & HG1 & Hres). cbn [mem] in Hres.
  assert ((p, n) ∈ hlive G) as Hp0 by (rewrite HR1; left). destruct (hlive_pages _ _ _ _ HG Hp0) as (_ & _ & _ & _ & Hnpos & _).
  assert (forall x j, (x, j) ∈ (p, n) :: R -> load m0 x (Z.to_nat j) = load m x (Z.to_nat j)) as HL'.
  { intros x j Hx. symmetry. apply HL. by rewrite HR. }
  destruct Hres as [(-> & Hs)|[(Hlm & Hq & HP1 & HL1 & _)|(Hq & Hf & [HP1 HL1] & Hi)]].
  { cbn [Z.eqb negb]. step. exists G1, R. split_and!; [done|done| |left; split; [done|]].
    - intros x j Hx. cbn [mem]. rewrite (proj2 Hs), HL' by (rewrite ?HR1; by right). done.
    - by eapply hsame_trans. }
  - destruct (Z.eqb_spec q 0); [done|]. cbn [negb].
    assert ((p, n) ∈ hlive G1) as Hp1 by (rewrite HP1, HR1; right; left).
    destruct (heap_load _ _ _ _ HG1 Hp1) as (v & Hv & Hvl). cbn [mem] in Hv.
    step. unfold memcpy. unfold wp at 1. cbn [mem]. rewrite Hv. cbv beta.
    change (wp (write q v) (fun (_ : unit) st' => wp (egg_secure_free_full p flags;; mret q)
      (realloc_full_post G0 m0 p n length flags) st') (mk_st m1 it1 ps1 bl1 k1)).
    eapply wp_live_write; [exact HG1|exact HP1|lia|lia|]. intros m2 HG2 Hw HL2.
    step. eapply wp_mono; [by eapply wp_free_full|]. intros _ [m3 it3 ps3 bl3 k3] (G3 & HG3 & HP3 & HL3 & _). step.
    assert (hlive G3 ≡ₚ (q, length) :: R) as HR3.
    { apply (Permutation_cons_inv (a := (p, n))). rewrite <- HP3, HP1, HR1. apply perm_swap. }
    cbn [mem] in *. exists G3, R. cbn [mem]. split_and!; [done|done| |].
    + intros x j Hx. rewrite HL3 by (rewrite HR3; by right). rewrite HL2 by (rewrite HR1; by right).
      rewrite HL1 by (rewrite HR1; by right). rewrite HL' by (by right). done.
    + right. left. split_and!; [done|done|]. rewrite Z.min_l by lia. rewrite (HL' p n) by left. rewrite <- (HL1 p n) by done.
      rewrite Hv. pose proof (wrote_load _ _ _ _ Hw) as Hw'. rewrite Hvl in Hw'. rewrite <- Hw'.
      assert ((q, length) ∈ hlive G3) as Hq3 by (rewrite HR3; left).
      apply (load_prefix (mk_st m2 it1 ps1 bl1 k1) G1 q length m3); [done|rewrite HP1; left|lia|by apply HL3].
  - destruct (Z.eqb_spec q 0); [done|]. cbn [negb].
    assert ((p, n) ∈ hlive G1) as Hp1 by (rewrite HP1, HR1; left).
    destruct (heap_load _ _ _ _ HG1 Hp1) as (v & Hv & Hvl). cbn [mem] in Hv.
    step. unfold memcpy. unfold wp at 1. cbn [mem]. rewrite Hv. cbv beta.
    change (wp (write q v) (fun (_ : unit) st' => wp (egg_secure_free_full p flags;; mret q)
      (realloc_full_post G0 m0 p n length flags) st') (mk_st m1 it1 ps1 bl1 k1)).
    eapply wp_insecure_write; [exact HG1|exact Hi|lia|]. intros m2 HG2 [_ HL2] _.
    step. eapply wp_mono; [by eapply wp_free_full|]. intros _ [m3 it3 ps3 bl3 k3] (G3 & HG3 & HP3 & HL3 & _). step.
    assert (hlive G3 ≡ₚ R) as HR3.
    { apply (Permutation_cons_inv (a := (p, n))). by rewrite <- HP3, HP1, HR1. }
    cbn [mem] in *. exists G3, R. cbn [mem]. split_and!; [done|done| |].
    + intros x j Hx. rewrite HL3 by (by rewrite HR3). rewrite HL2 by (rewrite HP1, HR1; by right).
      rewrite HL1 by (rewrite HR1; by right). rewrite HL' by (by right). done.
    + right. right. done.
Qed.

Lemma wp_realloc_full m it ps bl k G p n tg length flags : heap_ok (mk_st m it ps bl k) G -> (p, n) ∈ hlive G ->
  0 < length <= 0x7FFFFFFF ->
  wp (egg_secure_realloc_full tg p length flags) (realloc_full_post G m p n length flags) (mk_st m it ps bl k).
Proof.
  intros HG Hp Hlen. pose proof (hlive_pages _ _ _ _ HG Hp) as (_ & _ & _ & _ & Hn & Hp0 & _).
  assert (exists t, or_question tg = Some t) as [t Ht] by (destruct tg; by eexists).
  unfold egg_secure_realloc_full. change (0xFFFFFFFF / 2) with 0x7FFFFFFF.
  destruct (Z.ltb_spec 0x7FFFFFFF length); [lia|]. destruct (Z.eqb_spec p 0); [lia|]. destruct (Z.eqb_spec length 0); [lia|].
  apply elem_hlive in Hp as (G1 & g & G2 & -> & Hp).
  do 2 step. rewrite (h_blocks _ _ HG). step. eapply wp_find_live; [exact HG|exact Hp|].
  pose proof (live_block_pos _ _ _ _ HG). destruct (Z.eqb_spec (g_block g) 0); [done|].
  destruct (heap_mid _ _ _ _ HG) as [HB _]. cbn [mem items] in HB.
  step. eapply wp_allocated; [exact (h_pools _ _ HG)|exact HB|exact Hp|]. rewrite Ht.
  step. eapply wp_mono; [eapply sec_realloc_spec; [exact (h_pools _ _ HG)|exact HB|exact Hp|lia]|].
  intros q st (m1 & it1 & ps1 & k1 & g1 & R & -> & Hps1 & HB1 & Hout & HR & HL & Hres).
  assert (heap_ok (mk_st m1 it1 ps1 bl k1) (G1 ++ g1 :: G2)) as HG1 by (by eapply heap_update).
  assert (forall x j, (x, j) ∈ R ++ hlive (G1 ++ G2) -> load m1 x (Z.to_nat j) = load m x (Z.to_nat j)) as HL1.
  { intros x j [Hx|Hx]%elem_of_app; [by apply HL|]. by eapply (other_loads _ _ _ _ _ _ _ HG Hout). }
  assert (hlive (G1 ++ g :: G2) ≡ₚ (p, n) :: R ++ hlive (G1 ++ G2)) as HR1 by (rewrite hlive_mid, HR; done).
  destruct (block_n_used _ _ _ HB1) as (B1 & Hb1 & Hn1). rewrite (out_block _ _ _ _ _ _ Hout) in Hb1.
  assert (n_used B1 <> 0) as Hne.
  { rewrite Hn1. destruct Hres as [(_ & _ & Hp1 & _)|(_ & Hp1 & _)]; rewrite (Permutation_length Hp1), ?(Permutation_length HR); cbn; lia. }
  step. unfold destroy_if_empty at 1. do 2 step. destruct (Z.eqb_spec (n_used B1) 0); [done|]. step.
  destruct Hres as [(-> & Hnl & Hp1 & Hl1)|(Hq & Hp1 & Hl1)].
  - cbn [Z.eqb]. rewrite <- Ht. eapply (wp_realloc_new _ _ _ _ _ (G1 ++ g1 :: G2)); [exact HG1|exact HR1| |lia|lia].
    split; [by rewrite !hlive_mid, Hp1|]. intros x j Hx. rewrite HR1 in Hx.
    apply elem_of_cons in Hx as [[= -> ->]|Hx]; [done|by apply HL1].
  - destruct (Z.eqb_spec q 0); [done|]. step. exists (G1 ++ g1 :: G2), (R ++ hlive (G1 ++ G2)). cbn [mem].
    split_and!; [done|done|done|]. right. left. split_and!; [done| |done]. by rewrite hlive_mid, Hp1.
Qed.

Lemma wp_validate_blocks m it ps bl k G (Q : unit -> St -> Prop) : heap_ok (mk_st m it ps bl k) G -> Q tt (mk_st m it ps bl k) ->
  forall G2, (forall g, g ∈ G2 -> g ∈ G) -> wp (validate_blocks (g_block <$> G2)) Q (mk_st m it ps bl k).
Proof.
  intros HG HQ. pose proof HG as [Hps _ _ Hok Hpg _]. rewrite Forall_forall in Hok, Hpg.
  induction G2 as [|g G2 IH]; intros Hsub; cbn [fmap list_fmap validate_blocks]; [by step|].
  step. eapply sec_validate_spec; [exact Hps|apply Hok, Hsub; left|destruct (Hpg g) as [_ ?]; [apply Hsub; left|done]|].
  apply IH. intros g2 Hg2. apply Hsub. by right.
Qed.
End Public2.
