(* ===== verification/SecureSpec.v ===== *)
(** Secure memory: the contract of the public functions.

    [represents] says which map from pointers to contents a state of the allocator stands
    for: what the client was handed out.  [Call] and [contract] state what the functions
    of [src/egg/egg-secure-memory.h] promise about that map; the theorems show that every
    allowed call returns and keeps its promise ([secure_refines]), that this holds after
    any sequence of allowed calls ([secure_reachable]), where the ranges lie
    ([secure_bounds]) and that a release leaves zeros behind ([secure_free_clears]). *)

From S2P Require Import Prelude StateM SecurePool SecureMemory SecureBlock SecureGrow SecureHeap.
Local Open Scope Z_scope.

(** * The allocator as a map from pointers to contents *)

Abbreviation Heap := (gmap Z (list Z)).

Section Represents.
Context `{SystemLaws} `{!FallbackLaws}.

Definition shows (m : Mem) (G : list Ghost) (C : Heap) : Prop :=
  forall p bs, C !! p = Some bs <-> exists n, (p, n) ∈ hlive G /\ load m p (Z.to_nat n) = Some bs.

(** [C] is what the client was handed out: its pointers, and what they point to. *)
Definition represents (st : St) (C : Heap) : Prop := exists G, heap_ok st G /\ shows (mem st) G C.

Lemma shows_same m G m' G' C : shows m G C -> hsame G m G' m' -> shows m' G' C.
Proof.
  intros HS [HP HL] p bs. rewrite (HS p bs). split; intros (n & Hn & Hl); exists n.
  - split; [by rewrite HP|]. by rewrite HL.
  - rewrite HP in Hn. split; [done|]. by rewrite <- HL.
Qed.

Lemma shows_lookup st G C p bs : heap_ok st G -> shows (mem st) G C -> C !! p = Some bs ->
  (p, Zlen bs) ∈ hlive G /\ load (mem st) p (length bs) = Some bs.
Proof.
  intros HG HS (n & Hn & Hl)%HS. pose proof (hlive_pages _ _ _ _ HG Hn) as (_ & _ & _ & _ & Hpos & _).
  pose proof Hl as [Hlen _]%load_Some. replace (Zlen bs) with n by lia. by rewrite Hlen.
Qed.

Lemma shows_live st G C p n : heap_ok st G -> shows (mem st) G C -> (p, n) ∈ hlive G ->
  exists bs, C !! p = Some bs /\ Zlen bs = n /\ load (mem st) p (Z.to_nat n) = Some bs.
Proof.
  intros HG HS Hn. destruct (heap_load _ _ _ _ HG Hn) as (bs & Hl & Hlen). exists bs.
  pose proof (hlive_pages _ _ _ _ HG Hn) as (_ & _ & _ & _ & Hpos & _).
  split_and!; [apply HS; by exists n|lia|done].
Qed.

(** The range [(p, n)] was released. *)
Lemma shows_delete st G st' G' C p n : heap_ok st G -> hlive G ≡ₚ (p, n) :: hlive G' ->
  (forall q j, (q, j) ∈ hlive G' -> load (mem st') q (Z.to_nat j) = load (mem st) q (Z.to_nat j)) ->
  shows (mem st) G C -> shows (mem st') G' (delete p C).
Proof.
  intros HG HP HL HS q bs. rewrite lookup_delete_Some, (HS q bs). split.
  - intros (Hne & j & Hj & Hl). rewrite HP in Hj. apply elem_of_cons in Hj as [[= -> ->]|Hj]; [done|].
    exists j. split; [done|]. by rewrite HL.
  - intros (j & Hj & Hl). split.
    + intros <-. destruct (hlive_apart _ _ _ _ _ HG HP _ _ Hj) as (? & ? & ?). lia.
    + exists j. split; [rewrite HP; by right|]. by rewrite <- HL.
Qed.

(** The range [(p, n)] is new, and holds [bs]. *)
Lemma shows_insert m G st' G' C p n bs : heap_ok st' G' -> hlive G' ≡ₚ (p, n) :: hlive G ->
  (forall q j, (q, j) ∈ hlive G -> load (mem st') q (Z.to_nat j) = load m q (Z.to_nat j)) ->
  load (mem st') p (Z.to_nat n) = Some bs -> shows m G C ->
  C !! p = None /\ shows (mem st') G' (<[p := bs]> C).
Proof.
  intros HG HP HL Hbs HS.
  assert (forall j, (p, j) ∉ hlive G) as Hno.
  { intros j Hj. destruct (hlive_apart _ _ _ _ _ HG HP _ _ Hj) as (? & ? & ?). lia. }
  split.
  { destruct (C !! p) as [bs'|] eqn:E; [|done]. apply HS in E as (j & Hj & _). by destruct (Hno j). }
  intros q bs'. rewrite lookup_insert_Some, (HS q bs'). split.
  - intros [(<- & <-)|(Hne & j & Hj & Hl)]; [exists n; split; [rewrite HP; left|done]|].
    exists j. split; [rewrite HP; by right|]. by rewrite HL.
  - intros (j & Hj & Hl). rewrite HP in Hj. apply elem_of_cons in Hj as [[= -> ->]|Hj].
    + left. split; [done|]. congruence.
    + right. split; [intros <-; by apply (Hno j)|]. exists j. split; [done|]. by rewrite <- HL.
Qed.

(** The ranges a client holds are in locked pages, non-empty, and apart. *)
Lemma represents_bounds st C p bs : represents st C -> C !! p = Some bs ->
  0 < p /\ 0 < Zlen bs /\ p + Zlen bs <= 2 ^ 63 /\
  (forall x, p <= x < p + Zlen bs -> secure st x) /\
  (forall q bs', C !! q = Some bs' -> q <> p -> p + Zlen bs <= q \/ q + Zlen bs' <= p).
Proof.
  intros (G & HG & HS) Hp. destruct (shows_lookup _ _ _ _ _ HG HS Hp) as [Hn _].
  destruct (hlive_pages _ _ _ _ HG Hn) as (g & Hg & HB & _ & Hlen & Hp0 & Hx).
  split_and!; [done|done| | |].
  - destruct (Hx (p + Zlen bs - 1) ltac:(lia)) as [_ Hin]. destruct HB as (B & lu & lf & HB & _).
    destruct (bs_range _ _ _ _ _ _ _ _ HB). unfold in_pages in Hin. lia.
  - intros x Hxr. apply (secure_pages _ _ _ HG). exists g. split; [done|]. by apply Hx.
  - intros q bs' Hq Hne. destruct (shows_lookup _ _ _ _ _ HG HS Hq) as [Hn' _].
    assert (exists R, hlive G ≡ₚ (p, Zlen bs) :: R) as [R HR].
    { apply list_elem_of_split in Hn as (a & b & ->). exists (a ++ b). symmetry. apply Permutation_middle. }
    rewrite HR in Hn'. apply elem_of_cons in Hn' as [[= -> _]|Hn']; [done|].
    destruct (hlive_apart _ _ _ _ _ HG HR _ _ Hn') as (_ & _ & ?). lia.
Qed.

Lemma initial_represents m k : represents (mk_st m ∅ [] [] k) ∅.
Proof.
  exists []. split.
  - split; try done; [|constructor]. split; [constructor|done|]. intros p [? Hp]. cbn in Hp. by rewrite lookup_empty in Hp.
  - intros p bs. rewrite lookup_empty. split; [done|]. by intros (n & Hn%elem_of_nil & _).
Qed.

(** A pointer of the client is found in a block, and NULL in none. *)
Lemma wp_check st G x (Q : Z -> St -> Prop) : heap_ok st G ->
  (secure st x -> Q 1 st) -> (~ secure st x -> Q 0 st) -> wp (egg_secure_check x) Q st.
Proof.
  intros HG Hyes Hnull. unfold egg_secure_check. do 2 step. rewrite (h_blocks _ _ HG). step.
  eapply wp_find_block; [exact HG|done| |].
  - intros g Hg Hx. step. destruct (Z.eqb_spec (g_block g) 0) as [E|_]; [|apply Hyes, (secure_pages _ _ _ HG); by exists g].
    apply list_elem_of_split in Hg as (G1 & G2 & ->). by destruct (live_block_pos _ _ _ _ HG).
  - intros Hno. step. apply Hnull. intros (g & Hg & Hx)%(secure_pages _ _ _ HG). by apply (Hno g).
Qed.
End Represents.

(** * The contract of the public functions *)

Inductive Call :=
  | Alloc (tg : option (list Z)) (length flags : Z)
  | Realloc (tg : option (list Z)) (memory length flags : Z)
  | Free (memory flags : Z)
  | Write (memory off : Z) (bs : list Z)  (** the client writes to what it was handed out *)
  | IsSecure (memory : Z)
  | Validate.

Definition splice (off : Z) (bs old : list Z) : list Z :=
  take (Z.to_nat off) old ++ bs ++ drop (Z.to_nat off + length bs) old.

Section Contract.
Context `{System}.

Definition run (c : Call) : M Z :=
  match c with
  | Alloc tg length flags => egg_secure_alloc_full tg length flags
  | Realloc tg memory length flags => egg_secure_realloc_full tg memory length flags
  | Free memory flags => egg_secure_free_full memory flags;; mret 0
  | Write memory off bs => write (memory + off) bs;; mret 0
  | IsSecure memory => egg_secure_check memory
  | Validate => egg_secure_validate;; mret 0
  end.

(** What may be passed back: NULL, a pointer the client holds, or, with the flag and a
    fallback, a pointer that is not one of the allocator's. *)
Definition pointer_ok (st : St) (C : Heap) (memory flags : Z) : Prop :=
  memory = 0 \/ is_Some (C !! memory) \/ (~ secure st memory /\ use_fallback flags <> None).

Definition allowed (st : St) (C : Heap) (c : Call) : Prop :=
  match c with
  | Alloc _ length _ => 0 <= length
  | Realloc _ memory length flags => 0 <= length /\ pointer_ok st C memory flags
  | Free memory flags => pointer_ok st C memory flags
  | Write memory off bs => exists old, C !! memory = Some old /\ 0 <= off /\ off + Zlen bs <= Zlen old
  | IsSecure _ | Validate => True
  end.

(** A new range of zeros; NULL; or memory of the fallback. *)
Definition alloc_contract (C : Heap) (length flags r : Z) (C' : Heap) : Prop :=
  r = 0 /\ C' = C \/
  r <> 0 /\ 0 < length <= 0x7FFFFFFF /\ C !! r = None /\ C' = <[r := replicate (Z.to_nat length) 0]> C \/
  r <> 0 /\ use_fallback flags <> None /\ C' = C.

(** NULL, with nothing changed; a range, here or elsewhere, that keeps the contents; or
    the range was moved to memory of the fallback. *)
Definition realloc_contract (C : Heap) (p : Z) (bs : list Z) (length flags r : Z) (C' : Heap) : Prop :=
  r = 0 /\ C' = C \/
  r <> 0 /\ delete p C !! r = None /\
    (exists bs', C' = <[r := bs']> (delete p C) /\ Zlen bs' = length /\
      let k := Z.to_nat (Z.min (Zlen bs) length) in take k bs' = take k bs) \/
  r <> 0 /\ use_fallback flags <> None /\ C' = delete p C.

Definition contract (C : Heap) (c : Call) (r : Z) (C' : Heap) : Prop :=
  match c with
  | Alloc _ length flags => alloc_contract C length flags r C'
  | Realloc _ memory length flags =>
    if 0x7FFFFFFF <? length then r = 0 /\ C' = C else
    if memory =? 0 then alloc_contract C length flags r C' else
    if length =? 0 then r = 0 /\ C' = delete memory C else
    match C !! memory with Some bs => realloc_contract C memory bs length flags r C' | None => C' = C end
  | Free memory _ => r = 0 /\ C' = delete memory C
  | Write memory off bs => exists old, C !! memory = Some old /\ r = 0 /\ C' = <[memory := splice off bs old]> C
  | IsSecure memory => C' = C /\ (r = 0 \/ r = 1) /\ (is_Some (C !! memory) -> r = 1)
  | Validate => r = 0 /\ C' = C
  end.
End Contract.

Section Refines.
Context `{SystemLaws} `{!FallbackLaws}.

Lemma contract_alloc st C tg length flags : represents st C -> 0 <= length ->
  wp (egg_secure_alloc_full tg length flags)
    (fun r st' => exists C', alloc_contract C length flags r C' /\ represents st' C') st.
Proof.
  intros (G & HG & HS) Hlen. destruct st as [m it ps bl k]. eapply wp_mono; [by apply wp_alloc_full|].
  intros r st' (G' & HG' & [(-> & Hs)|[(Hl & Hr & HP & HL & Hz)|(Hr & Hf & Hs & _)]]).
  - exists C. split; [by left|]. exists G'. split; [done|]. by eapply shows_same.
  - destruct (shows_insert m G st' G' C r length (replicate (Z.to_nat length) 0) HG' HP HL Hz HS) as [Hno HS'].
    exists (<[r := replicate (Z.to_nat length) 0]> C). split; [right; left; done|]. by exists G'.
  - exists C. split; [by right; right|]. exists G'. split; [done|]. by eapply shows_same.
Qed.

Lemma foreign_absent st G C p : heap_ok st G -> shows (mem st) G C -> p = 0 \/ ~ secure st p -> C !! p = None.
Proof.
  intros HG HS Hp. destruct (C !! p) as [bs|] eqn:E; [exfalso|done].
  destruct (represents_bounds st C p bs) as (? & ? & _ & Hsec & _); [by exists G|done|].
  destruct Hp as [->|Hp]; [lia|]. apply Hp, Hsec. lia.
Qed.

(** A release; the second part is what is left behind. *)
Lemma contract_free st C p flags : represents st C -> pointer_ok st C p flags ->
  wp (egg_secure_free_full p flags) (fun _ st' => represents st' (delete p C) /\
    forall bs x, C !! p = Some bs -> p <= x < p + Zlen bs -> mem st' !! x = Some 0 \/ mem st' !! x = None) st.
Proof.
  intros (G & HG & HS) Hp. destruct st as [m it ps bl k]. destruct (C !! p) as [bs|] eqn:E.
  - destruct (shows_lookup _ _ _ _ _ HG HS E) as [Hn _]. eapply wp_mono; [by eapply wp_free_full|].
    intros _ st' (G' & HG' & HP & HL & Hz). split; [|by intros ? x [= <-] Hx; apply Hz].
    exists G'. split; [done|]. by eapply (shows_delete (mk_st m it ps bl k)).
  - eapply wp_mono; [eapply (wp_free_insecure _ _ _ _ _ G); [done|]|].
    + destruct Hp as [?|[[? ?]|?]]; [by left|congruence|by right].
    + intros _ st' (G' & HG' & Hs). split; [|done]. rewrite delete_id by done. exists G'. split; [done|]. by eapply shows_same.
Qed.

(** What is left of the client's heap without the range [(p, n)]. *)
Lemma shows_rest st G C p n R q v : heap_ok st G -> hlive G ≡ₚ (p, n) :: R -> shows (mem st) G C ->
  delete p C !! q = Some v <-> exists j, (q, j) ∈ R /\ load (mem st) q (Z.to_nat j) = Some v.
Proof.
  intros HG HR HS. rewrite lookup_delete_Some, (HS q v). split.
  - intros (Hne & j & Hj & Hl). rewrite HR in Hj. apply elem_of_cons in Hj as [[= -> ->]|Hj]; [done|by exists j].
  - intros (j & Hj & Hl). destruct (hlive_apart _ _ _ _ _ HG HR _ _ Hj) as (? & ? & ?).
    split; [intros <-; lia|]. exists j. split; [rewrite HR; by right|done].
Qed.

(** The range [(p, n)] was replaced by [(r, n')], which holds [bs]. *)
Lemma shows_replace st G C p n R st' G' r n' bs : heap_ok st G -> hlive G ≡ₚ (p, n) :: R -> shows (mem st) G C ->
  heap_ok st' G' -> hlive G' ≡ₚ (r, n') :: R -> load (mem st') r (Z.to_nat n') = Some bs ->
  (forall q j, (q, j) ∈ R -> load (mem st') q (Z.to_nat j) = load (mem st) q (Z.to_nat j)) ->
  delete p C !! r = None /\ shows (mem st') G' (<[r := bs]> (delete p C)).
Proof.
  intros HG HR HS HG' HP Hbs HL. pose proof (fun q v => shows_rest _ _ _ _ _ _ q v HG HR HS) as HD.
  assert (forall j, (r, j) ∉ R) as Hno.
  { intros j Hj. destruct (hlive_apart _ _ _ _ _ HG' HP _ _ Hj) as (? & ? & ?). lia. }
  split.
  { destruct (delete p C !! r) as [v|] eqn:E; [|done]. apply HD in E as (j & Hj & _). by destruct (Hno j). }
  intros q v. rewrite lookup_insert_Some, HD. split.
  - intros [(<- & <-)|(Hne & j & Hj & Hl)]; [exists n'; split; [rewrite HP; left|done]|].
    exists j. split; [rewrite HP; by right|]. by rewrite HL.
  - intros (j & Hj & Hl). rewrite HP in Hj. apply elem_of_cons in Hj as [[= -> ->]|Hj]; [left; split; [done|congruence]|].
    right. split; [intros <-; by apply (Hno j)|]. exists j. split; [done|]. by rewrite <- HL.
Qed.

(** A block of the client was resized. *)
Lemma contract_resize st C tg p bs length flags : represents st C -> C !! p = Some bs -> 0 < length <= 0x7FFFFFFF ->
  wp (egg_secure_realloc_full tg p length flags)
    (fun r st' => exists C', realloc_contract C p bs length flags r C' /\ represents st' C') st.
Proof.
  intros (G & HG & HS) Hbs Hlen. destruct st as [m it ps bl k].
  destruct (shows_lookup _ _ _ _ _ HG HS Hbs) as [Hn Hload]. eapply wp_mono; [by eapply wp_realloc_full|].
  intros r st' (G' & R & HG' & HR & HL & [(-> & Hs)|[(Hr & HP & Hc)|(Hr & HP & Hf)]]).
  - exists C. split; [by left|]. exists G'. split; [done|]. by eapply shows_same.
  - assert ((r, length) ∈ hlive G') as Hr' by (rewrite HP; left).
    destruct (heap_load _ _ _ _ HG' Hr') as (bs' & Hl' & Hlen').
    destruct (shows_replace _ _ _ _ _ _ _ _ _ _ _ HG HR HS HG' HP Hl' HL) as [Hno HS'].
    exists (<[r := bs']> (delete p C)). split; [|by exists G'].
    right. left. split; [done|]. split; [done|]. exists bs'. split; [done|]. split; [lia|].
    cbv zeta. cbn [mem] in Hc, Hload. set (k' := Z.to_nat (Z.min (Zlen bs) length)) in *.
    rewrite (load_take (mem st') r _ k' _ Hl'), (load_take m p _ k' _ Hload) in Hc by lia. congruence.
  - exists (delete p C). split; [by right; right|]. exists G'. split; [done|].
    eapply (shows_delete (mk_st m it ps bl k)); [done|by rewrite HP| |done]. intros q j Hj. apply HL. by rewrite <- HP.
Qed.

Lemma contract_realloc st C tg p length flags : represents st C -> 0 <= length -> pointer_ok st C p flags ->
  wp (run (Realloc tg p length flags))
    (fun r st' => exists C', contract C (Realloc tg p length flags) r C' /\ represents st' C') st.
Proof.
  intros Hrep Hlen Hp. cbn [run contract]. destruct (Z.ltb_spec 0x7FFFFFFF length) as [Hbig|Hmax].
  { unfold egg_secure_realloc_full. change (0xFFFFFFFF / 2) with 0x7FFFFFFF.
    destruct (Z.ltb_spec 0x7FFFFFFF length); [|lia]. step. by exists C. }
  destruct (Z.eqb_spec p 0) as [->|Hp0].
  { unfold egg_secure_realloc_full. change (0xFFFFFFFF / 2) with 0x7FFFFFFF.
    destruct (Z.ltb_spec 0x7FFFFFFF length); [lia|]. cbn [Z.eqb]. by apply contract_alloc. }
  destruct (Z.eqb_spec length 0) as [->|Hlen0].
  { unfold egg_secure_realloc_full. destruct (Z.eqb_spec p 0) as [?|_]; [done|]. cbn [Z.eqb Z.ltb Z.compare Z.div].
    change (0xFFFFFFFF / 2 <? 0) with false. cbv iota. step. eapply wp_mono; [by apply contract_free|].
    intros _ st' [Hrep' _]. step. by exists (delete p C). }
  destruct (C !! p) as [bs|] eqn:E.
  { apply contract_resize; [done|done|lia]. }
  destruct Hp as [?|[[? ?]|[Hns Hf]]]; [done|congruence|]. destruct Hrep as (G & HG & HS). destruct st as [m it ps bl k].
  unfold egg_secure_realloc_full. change (0xFFFFFFFF / 2) with 0x7FFFFFFF.
  destruct (Z.ltb_spec 0x7FFFFFFF length); [lia|]. destruct (Z.eqb_spec p 0); [done|]. destruct (Z.eqb_spec length 0); [done|].
  destruct (use_fallback flags) as [f|] eqn:Ef; [|done].
  do 2 step. rewrite (h_blocks _ _ HG). step. eapply wp_find_none; [exact HG|exact Hns|]. cbn [Z.eqb].
  eapply wp_fallback; [by eapply use_fallback_some|exact HG|exact Hns|]. intros q m' k' HG' Hs' _.
  exists C. split; [done|]. exists G. split; [done|]. by eapply shows_same.
Qed.

Lemma load_splice m m' p old off bs : load m p (length old) = Some old -> 0 <= off -> off + Zlen bs <= Zlen old ->
  wrote m m' (p + off) bs -> load m' p (length old) = Some (splice off bs old).
Proof.
  intros Hold Hoff Hbs Hw. apply load_Some. apply load_Some in Hold as [_ Hold]. split.
  - unfold splice. rewrite !length_app, length_take, length_drop. lia.
  - intros i Hi. rewrite Hw. unfold splice. case_decide.
    + rewrite lookup_app_r, length_take by (rewrite length_take; lia). rewrite lookup_app_l by lia. f_equal. lia.
    + rewrite Hold by done. destruct (decide (Z.of_nat i < off)).
      * rewrite lookup_app_l, lookup_take_lt by (rewrite ?length_take; lia). done.
      * rewrite lookup_app_r, length_take by (rewrite length_take; lia). rewrite lookup_app_r by lia.
        rewrite lookup_drop. f_equal. lia.
Qed.

Lemma contract_write st C p off bs : represents st C -> allowed st C (Write p off bs) ->
  wp (run (Write p off bs)) (fun r st' => exists C', contract C (Write p off bs) r C' /\ represents st' C') st.
Proof.
  intros (G & HG & HS) (old & Hold & Hoff & Hbs). destruct st as [m it ps bl k].
  destruct (shows_lookup _ _ _ _ _ HG HS Hold) as [Hn Hload]. cbn [mem] in Hload.
  assert (exists R, hlive G ≡ₚ (p, Zlen old) :: R) as [R HR].
  { apply list_elem_of_split in Hn as (a & b & ->). exists (a ++ b). symmetry. apply Permutation_middle. }
  cbn [run]. step. eapply (wp_live_write _ _ _ _ _ G p (Zlen old) R); [done|done|lia|lia|]. intros m' HG' Hw HL. step.
  pose proof (load_splice _ _ _ _ _ _ Hload Hoff Hbs Hw) as Hload'.
  exists (<[p := splice off bs old]> C). split; [by exists old|]. exists G. split; [done|].
  rewrite <- (insert_delete_eq C). eapply (shows_replace (mk_st m it ps bl k) G C p _ R); try done. by rewrite Nat2Z.id.
Qed.
End Refines.

(** * Clients

    A client makes a call, and goes on according to the result. *)

Inductive Client :=
  | Stop
  | Do (c : Call) (k : Z -> Client).

Section Clients.
Context `{System}.

(** [allowed] without the pointers of others. *)
Definition permitted (C : Heap) (c : Call) : Prop :=
  match c with
  | Alloc _ length _ => 0 <= length
  | Realloc _ memory length _ => 0 <= length /\ (memory = 0 \/ is_Some (C !! memory))
  | Free memory _ => memory = 0 \/ is_Some (C !! memory)
  | Write memory off bs => exists old, C !! memory = Some old /\ 0 <= off /\ off + Zlen bs <= Zlen old
  | IsSecure _ | Validate => True
  end.

(** The client passes what the contract allows, whatever the contract lets it see. *)
Fixpoint follows (C : Heap) (cl : Client) : Prop :=
  match cl with
  | Stop => True
  | Do c k => permitted C c /\ forall r C', contract C c r C' -> follows C' (k r)
  end.

Fixpoint play (cl : Client) : M (list Z) :=
  match cl with
  | Stop => mret []
  | Do c k => r ← run c; rs ← play (k r); mret (r :: rs)
  end.

Inductive answers : Heap -> Client -> list Z -> Heap -> Prop :=
  | answers_stop C : answers C Stop [] C
  | answers_do C c k r C1 rs C2 : contract C c r C1 -> answers C1 (k r) rs C2 -> answers C (Do c k) (r :: rs) C2.

Lemma permitted_allowed st C c : permitted C c -> allowed st C c.
Proof. destruct c; cbn; unfold pointer_ok; naive_solver. Qed.
End Clients.

(** * A concrete system

    Fresh memory begins after everything that is mapped, owned by a pool or part of a
    block; the fallback hands out fresh memory too. *)

Definition bounds_of (st : St) : list Z :=
  (map_to_list (mem st)).*1 ++ ((fun pool => base pool + plength pool) <$> pool_data st) ++
  ((fun kv => match snd kv with IBlock B => bl_words B + sizeof_word * bl_n_words B | ICell _ => 0 end) <$> map_to_list (items st)).

Definition top (st : St) : Z := foldr Z.max 0 (bounds_of st).
Definition fresh (st : St) : Z := (top st / 4096 + 1) * 4096.

Definition sample_mmap (st : St) (len : Z) : option Z :=
  if fresh st + len <=? 2 ^ 63 then Some (fresh st) else None.

Definition sample_fallback (st : St) (p n : Z) : Z * Mem :=
  if n <=? 0 then (0, mem st) else (fresh st, map_zero (mem st) (fresh st) (Z.to_nat n)).

#[export] Instance sample_system : System := {|
  getpagesize := 4096; mmap := sample_mmap; mlock _ _ _ := true; force_fallback _ := false;
  pool_version := Some EGG_SECURE_POOL_VER_STR; fallback := Some sample_fallback; records_realloc _ _ := true |}.

Lemma top_above st x : x ∈ bounds_of st -> x <= top st.
Proof.
  unfold top. induction (bounds_of st) as [|y l IH]; intros Hx; [by apply elem_of_nil in Hx|].
  apply elem_of_cons in Hx as [->|Hx]; cbn; [lia|]. specialize (IH Hx). lia.
Qed.

Lemma top_nonneg st : 0 <= top st.
Proof. unfold top. induction (bounds_of st); cbn; lia. Qed.

Lemma fresh_above st : top st < fresh st.
Proof. unfold fresh. lia_div. Qed.

Lemma mapped_below st x : is_Some (mem st !! x) -> x < fresh st.
Proof.
  intros [v Hv]. eapply Z.le_lt_trans; [apply top_above|apply fresh_above]. apply elem_of_app. left.
  apply list_elem_of_fmap. exists (x, v). split; [done|]. by apply elem_of_map_to_list.
Qed.

Lemma secure_below st x : secure st x -> x < fresh st.
Proof.
  intros (b & B & _ & Hb & Hv). apply andb_true_iff in Hv as [_ Hv%Z.ltb_lt]. eapply Z.lt_trans; [exact Hv|].
  eapply Z.le_lt_trans; [apply top_above|apply fresh_above]. apply elem_of_app. right. apply elem_of_app. right.
  unfold blk in Hb. destruct (items st !! b) as [[?|B']|] eqn:E; [done| |done]. injection Hb as ->.
  apply list_elem_of_fmap. exists (b, IBlock B). split; [done|]. by apply elem_of_map_to_list.
Qed.

#[export] Instance sample_laws : SystemLaws.
Proof.
  split; [by exists 12|]. intros st len a. cbn. unfold sample_mmap. destruct (Z.leb_spec (fresh st + len) (2 ^ 63)); [|done].
  intros [= <-]. pose proof (fresh_above st). pose proof (top_nonneg st). split; [lia|apply Z.mod_mul; done|done| |].
  - intros x Hx. destruct (mem st !! x) eqn:E; [|done]. pose proof (mapped_below st x ltac:(by eexists)). lia.
  - apply Forall_forall. intros pool Hpool. right.
    assert (base pool + plength pool <= top st); [|lia]. apply top_above.
    apply elem_of_app. right. apply elem_of_app. left. apply list_elem_of_fmap. by exists pool.
Qed.

#[export] Instance sample_fallback_laws : FallbackLaws.
Proof.
  split. intros f st p n q m' [= <-] _. unfold sample_fallback. destruct (Z.leb_spec n 0); intros [= <- <-].
  { split; [done|]. intros ?. done. }
  split.
  - intros x Hx%secure_below. rewrite map_zero_lookup. by rewrite decide_False by lia.
  - intros _ x Hx. rewrite map_zero_lookup. rewrite decide_True by lia. split; [by eexists|].
    intros Hs%secure_below. lia.
Qed.

(** The state at the start of the process: nothing mapped, no pool, no block. *)
Definition initial : St := mk_st ∅ ∅ [] [] 0.

(** * The theorems *)

Section Theorems.
Context `{SystemLaws} `{!FallbackLaws}.

Lemma run_contract st C c : represents st C -> allowed st C c ->
  wp (run c) (fun r st' => exists C', contract C c r C' /\ represents st' C') st.
Proof.
  intros Hrep Hok. destruct c as [tg length flags|tg p length flags|p flags|p off bs|p|]; cbn [run contract].
  - by apply contract_alloc.
  - destruct Hok. by apply contract_realloc.
  - step. eapply wp_mono; [by apply contract_free|]. intros _ st' [Hrep' _]. step. by exists (delete p C).
  - by apply contract_write.
  - pose proof Hrep as (G & HG & HS). eapply wp_check; [exact HG| |]; intros Hsec; exists C;
      (split; [split; [done|]; split; [by (left + right)|]|done]); [done|].
    intros [bs Hbs]. destruct (represents_bounds _ _ _ _ Hrep Hbs) as (? & ? & _ & Hs & _). destruct Hsec. apply Hs. lia.
  - pose proof Hrep as (G & HG & HS). unfold egg_secure_validate. step. do 2 step. destruct st as [m it ps bl k].
    rewrite (h_blocks _ _ HG). eapply wp_validate_blocks; [exact HG| |done]. step. by exists C.
Qed.

(** C1: every allowed call of the allocator returns, without tripping one of its own
    assertions or touching memory that is not mapped, and does what its contract says of
    the map from pointers to contents: an allocation adds a range of zeros or returns
    NULL (or memory of the fallback), a reallocation keeps the contents up to the
    shorter length, wherever it moves them, a release removes the range, and nothing
    else in the map changes. *)
Theorem secure_refines st C c : represents st C -> allowed st C c ->
  exists r st' C', run c st = Ok (r, st') /\ contract C c r C' /\ represents st' C'.
Proof.
  intros Hrep Hok. destruct (wp_run _ _ _ (run_contract _ _ _ Hrep Hok)) as (r & st' & E & C' & Hc & Hrep').
  by exists r, st', C'.
Qed.

(** C5: a client that is correct against the contract alone runs to its end on the
    implementation: whatever allowed sequence of allocations, reallocations, releases and
    writes it makes, chosen from the pointers returned so far, every call returns, the
    results are ones the contract allows, and memory holds at its pointers what the
    contract says. *)
Theorem secure_clients st C cl : represents st C -> follows C cl ->
  exists rs st' C', play cl st = Ok (rs, st') /\ answers C cl rs C' /\ represents st' C'.
Proof.
  revert st C. induction cl as [|c k IH]; intros st C Hrep Hok.
  { exists [], st, C. split_and!; [done|constructor|done]. }
  destruct Hok as [Hc Hk]. apply (permitted_allowed st) in Hc.
  destruct (wp_run _ _ _ (run_contract _ _ _ Hrep Hc)) as (r & st1 & E & C1 & Hcon & Hrep1).
  destruct (IH r st1 C1 Hrep1 (Hk _ _ Hcon)) as (rs & st2 & C2 & E2 & Hans & Hrep2).
  exists (r :: rs), st2, C2. split_and!; [|by econstructor|done].
  cbn [play]. unfold mbind, SM_bind. rewrite E. cbn. unfold mbind, SM_bind. by rewrite E2.
Qed.

(** C32: the ranges a client holds lie in the locked pages of the allocator, are not
    empty, end within the address space, and do not overlap. *)
Theorem secure_bounds st C p bs : represents st C -> C !! p = Some bs ->
  0 < p /\ 0 < Zlen bs /\ p + Zlen bs <= 2 ^ 63 /\
  (forall x, p <= x < p + Zlen bs -> egg_secure_check x st = Ok (1, st)) /\
  (forall q bs', C !! q = Some bs' -> q <> p -> p + Zlen bs <= q \/ q + Zlen bs' <= p).
Proof.
  intros Hrep Hp. destruct (represents_bounds _ _ _ _ Hrep Hp) as (? & ? & ? & Hsec & ?). split_and!; try done.
  intros x Hx. destruct Hrep as (G & HG & _).
  destruct (wp_run _ _ _ (wp_check st G x (fun r st' => r = 1 /\ st' = st) HG ltac:(done) ltac:(intros Hno; destruct (Hno (Hsec x Hx)))))
    as (r & st' & -> & -> & ->). done.
Qed.

(** C33: after a release the bytes of the range are zero, or their page was given back;
    the other ranges keep their contents. *)
Theorem secure_free_clears st C p bs flags : represents st C -> C !! p = Some bs ->
  exists st', egg_secure_free_full p flags st = Ok (tt, st') /\ represents st' (delete p C) /\
    forall x, p <= x < p + Zlen bs -> mem st' !! x = Some 0 \/ mem st' !! x = None.
Proof.
  intros Hrep Hp. destruct (wp_run _ _ _ (contract_free st C p flags Hrep (or_intror (or_introl (mk_is_Some _ _ Hp)))))
    as ([] & st' & E & Hrep' & Hz). exists st'. split_and!; [done|done|]. intros x Hx. by apply (Hz bs).
Qed.
End Theorems.

(** * Strings *)

Lemma load_size m a n l : load m a n = Some l -> (n <= size (m : Mem))%nat.
Proof.
  intros [Hl Hx]%load_Some. set (ks := (fun i : nat => a + Z.of_nat i) <$> seq 0 n).
  assert (NoDup ks) as Hnd by (apply NoDup_fmap_2; [intros i j ?; lia|apply NoDup_seq]).
  replace n with (length ks) by (unfold ks; by rewrite length_fmap, length_seq).
  rewrite <- (size_list_to_set (C := gset Z) ks Hnd), <- (size_dom (D := gset Z) m). apply subseteq_size.
  intros x (i & -> & Hi%elem_of_seq)%elem_of_list_to_set%list_elem_of_fmap.
  apply elem_of_dom. rewrite Hx by lia. apply lookup_lt_is_Some. lia.
Qed.

Lemma find_nul_string m s : forall a n rest, load m a (length (s ++ 0 :: rest)) = Some (s ++ 0 :: rest) -> 0 ∉ s ->
  (length s < n)%nat -> find_nul m a n = Some (Some (Zlen s)).
Proof.
  induction s as [|b s IH]; intros a n rest Hl Hs Hn; (destruct n as [|n]; [cbn in Hn; lia|]); cbn [app length load find_nul] in *.
  - destruct (m !! a) as [b|]; [|done]. cbn in Hl |- *. destruct (load _ _ _); [|done]. injection Hl as -> _. done.
  - destruct (m !! a) as [b'|]; [|done]. cbn in Hl |- *. destruct (load m (a + 1) _) as [l|] eqn:E; [|done].
    injection Hl as -> ->. apply not_elem_of_cons in Hs as [Hb Hs]. destruct (Z.eqb_spec b 0) as [->|_]; [done|].
    rewrite (IH _ n rest E Hs) by lia. f_equal. f_equal. lia.
Qed.

Section Strings.
Context `{SystemLaws} `{!FallbackLaws}.

Lemma represents_load st C p bs : represents st C -> C !! p = Some bs -> load (mem st) p (length bs) = Some bs.
Proof. intros (G & HG & HS) Hp. by destruct (shows_lookup _ _ _ _ _ HG HS Hp). Qed.

Lemma wp_strlen st C p s rest (Q : Z -> St -> Prop) : represents st C -> C !! p = Some (s ++ 0 :: rest) -> 0 ∉ s ->
  Q (Zlen s) st -> wp (strlen p) Q st.
Proof.
  intros Hrep Hp Hs HQ. pose proof (represents_load _ _ _ _ Hrep Hp) as Hl. unfold wp, strlen.
  rewrite (find_nul_string _ _ _ _ _ Hl Hs); [done|]. apply load_size in Hl. rewrite length_app in Hl. cbn in Hl. lia.
Qed.

(** The copy of a string held in secure memory: when there was memory for it, the
    result is a new range with the bytes of the string and its NUL, and every other
    range is as it was. *)
Theorem secure_strdup st C p s rest tg options r st1 : represents st C -> C !! p = Some (s ++ 0 :: rest) -> 0 ∉ s ->
  use_fallback options = None -> egg_secure_alloc_full tg (Zlen s + 1) options st = Ok (r, st1) -> r <> 0 ->
  exists st', egg_secure_strdup_full tg p options st = Ok (r, st') /\ C !! r = None /\
    represents st' (<[r := s ++ [0]]> C).
Proof.
  intros Hrep Hp Hs Hf Ha Hr. destruct (represents_bounds _ _ _ _ Hrep Hp) as (Hp0 & _).
  pose proof (contract_alloc st C tg (Zlen s + 1) options Hrep ltac:(lia)) as Hc. unfold wp in Hc. rewrite Ha in Hc.
  destruct Hc as (C1 & [(? & _)|[(_ & Hlen & Hno & ->)|(_ & ? & _)]] & Hrep1); [done| |done].
  set (z := replicate (Z.to_nat (Zlen s + 1)) 0) in *.
  assert (length z = S (length s)) as Hz by (unfold z; rewrite length_replicate; lia).
  assert (p <> r) as Hpr by congruence. assert (<[r := z]> C !! p = Some (s ++ 0 :: rest)) as Hp1 by (by rewrite lookup_insert_ne).
  pose proof (contract_write st1 (<[r := z]> C) r 0 (s ++ [0]) Hrep1) as Hw.
  destruct (wp_run _ _ _ (Hw ltac:(exists z; rewrite lookup_insert_eq, length_app; cbn [length]; split; [done|lia])))
    as (r0 & st' & Hrun & C2 & (old & Hold & -> & ->) & Hrep2).
  rewrite lookup_insert_eq in Hold. injection Hold as <-. exists st'. split_and!; [|done|].
  - assert (wp (egg_secure_strdup_full tg p options) (fun q st2 => q = r /\ st2 = st') st) as Hwp.
    { unfold egg_secure_strdup_full. destruct (Z.eqb_spec p 0) as [?|_]; [lia|]. step. eapply wp_strlen; [done..|].
      step. unfold wp at 1. rewrite Ha. step. unfold wp at 1, memcpy.
      pose proof (represents_load _ _ _ _ Hrep1 Hp1) as Hl. apply (load_take _ _ _ (length (s ++ [0]))) in Hl; [|rewrite !length_app; cbn; lia].
      replace (s ++ 0 :: rest) with ((s ++ [0]) ++ rest) in Hl by (by rewrite <- (assoc_L (++))).
      rewrite take_app_length in Hl. replace (Z.to_nat (Zlen s + 1)) with (length (s ++ [0])) by (rewrite length_app; cbn; lia).
      rewrite Hl. cbn [run] in Hrun. unfold mbind, SM_bind in Hrun. rewrite Z.add_0_r in Hrun.
      destruct (write r (s ++ [0]) st1) as [[[] st2]| |]; [|done..]. cbn in Hrun. injection Hrun as ->. step. done. }
    unfold wp in Hwp. destruct (egg_secure_strdup_full _ _ _ _) as [[q st2]| |]; [|done..]. by destruct Hwp as [-> ->].
  - rewrite insert_insert_eq in Hrep2. unfold splice in Hrep2. cbn [Z.to_nat take Nat.add app] in Hrep2.
    rewrite drop_ge, app_nil_r in Hrep2 by (rewrite Hz, length_app; cbn; lia). done.
Qed.
End Strings.

(** * Witnesses *)

Definition sample_client : Client :=
  Do (Alloc (Some (lit "password")) 20 0) (fun p =>
    if p =? 0 then Stop else
    Do (Write p 2 (lit "secret")) (fun _ =>
    Do (Realloc (Some (lit "password")) p 5000 0) (fun q =>
    Do Validate (fun _ =>
    Do (Free (if q =? 0 then p else q) 0) (fun _ => Stop))))).

Lemma sample_follows : follows ∅ sample_client.
Proof.
  split; [cbn; lia|]. intros p C1 [(-> & ->)|[(Hp & _ & _ & ->)|(_ & Hf & _)]]; [done| |done].
  destruct (Z.eqb_spec p 0) as [?|_]; [done|]. split.
  { eexists. split; [apply lookup_insert_eq|]. split; by vm_compute. }
  intros r C2 (old & Hold & _ & ->). set (v := splice 2 (lit "secret") old).
  split; [split; [lia|right; rewrite lookup_insert_eq; by eexists]|].
  intros q C3 Hq. cbn [contract] in Hq. change (0x7FFFFFFF <? 5000) with false in Hq. cbv iota in Hq.
  destruct (Z.eqb_spec p 0) as [?|_]; [done|]. cbn [Z.eqb] in Hq. rewrite lookup_insert_eq in Hq.
  split; [done|]. intros r2 C4 [_ ->]. split; [|done]. cbn [permitted].
  destruct Hq as [(-> & ->)|[(Hq0 & _ & bs' & -> & _)|(_ & Hf & _)]]; [| |done].
  - right. cbn. rewrite lookup_insert_eq. by eexists.
  - destruct (Z.eqb_spec q 0) as [?|_]; [done|]. right. rewrite lookup_insert_eq. by eexists.
Qed.

Lemma sample_alloc_computes : match run (Alloc None 20 0) initial with Ok (p, _) => negb (p =? 0) | _ => false end = true.
Proof. vm_compute. reflexivity. Qed.

Lemma sample_alloc : exists st p, run (Alloc None 20 0) initial = Ok (p, st) /\ represents st {[p := replicate 20 0]}.
Proof.
  pose proof (run_contract initial ∅ (Alloc None 20 0) (initial_represents _ _) (proj1 (Z.leb_le 0 20) eq_refl)) as Hrun.
  pose proof sample_alloc_computes as Hv. unfold wp in Hrun. destruct (run _ initial) as [[p st]| |]; [|done..].
  exists st, p. split; [done|]. destruct Hrun as (C & [(-> & _)|[(_ & _ & _ & ->)|(_ & Hf & _)]] & Hrep); [|exact Hrep|]; done.
Qed.

(** A string in secure memory, and room for a copy of it. *)
Definition sample_text : M Z :=
  p ← run (Alloc None 20 0); _ ← run (Write p 0 (lit "secret")); mret p.

Lemma sample_text_computes :
  match sample_text initial with
  | Ok (p, st) => match egg_secure_alloc_full None 7 0 st with Ok (r, _) => negb (r =? 0) | _ => false end
  | _ => false
  end = true.
Proof. vm_compute. reflexivity. Qed.

Lemma sample_string : exists p st r st1, sample_text initial = Ok (p, st) /\
  represents st {[p := lit "secret" ++ 0 :: replicate 13 0]} /\ egg_secure_alloc_full None 7 0 st = Ok (r, st1) /\ r <> 0.
Proof.
  assert (wp sample_text (fun p st => represents st {[p := lit "secret" ++ 0 :: replicate 13 0]}) initial) as Hwp.
  { destruct sample_alloc as (st & p & E & Hrep). unfold sample_text. step. unfold wp at 1. rewrite E. step.
    eapply wp_mono; [apply (contract_write _ _ _ _ _ Hrep)|].
    - exists (replicate 20 0). rewrite lookup_singleton_eq. split; [done|]. by split; vm_compute.
    - intros r st' (C' & (old & Hold & _ & ->) & Hrep'). step. rewrite lookup_singleton_eq in Hold. injection Hold as <-.
      by rewrite insert_singleton_eq in Hrep'. }
  pose proof sample_text_computes as Hv. unfold wp in Hwp. destruct (sample_text initial) as [[p st]| |]; [|done..].
  destruct (egg_secure_alloc_full None 7 0 st) as [[r st1]| |] eqn:E; [|done..].
  exists p, st, r, st1. split_and!; [done..|]. intros ->. done.
Qed.

Lemma secure_refines_witness : exists r st' C', run (Alloc None 20 0) initial = Ok (r, st') /\
  contract ∅ (Alloc None 20 0) r C' /\ represents st' C'.
Proof. apply (secure_refines initial ∅ (Alloc None 20 0)); [apply initial_represents|cbn; lia]. Defined.

Lemma secure_clients_witness : exists rs st' C', play sample_client initial = Ok (rs, st') /\
  answers ∅ sample_client rs C' /\ represents st' C'.
Proof. apply (secure_clients initial ∅ sample_client); [apply initial_represents|exact sample_follows]. Defined.

Lemma secure_bounds_witness : exists st p, run (Alloc None 20 0) initial = Ok (p, st) /\ 0 < p /\ p + 20 <= 2 ^ 63.
Proof.
  destruct sample_alloc as (st & p & E & Hrep). exists st, p. split; [exact E|].
  destruct (secure_bounds st _ p (replicate 20 0) Hrep (lookup_singleton_eq p _)) as (Hp & _ & He & _).
  split; [exact Hp|exact He].
Defined.

Lemma secure_free_clears_witness : exists st p, run (Alloc None 20 0) initial = Ok (p, st) /\
  exists st', egg_secure_free_full p 0 st = Ok (tt, st') /\
    forall x, p <= x < p + 20 -> mem st' !! x = Some 0 \/ mem st' !! x = None.
Proof.
  destruct sample_alloc as (st & p & E & Hrep). exists st, p. split; [exact E|].
  destruct (secure_free_clears st _ p (replicate 20 0) 0 Hrep (lookup_singleton_eq p _)) as (st' & Ef & _ & Hz).
  exists st'. split; [exact Ef|exact Hz].
Defined.

Lemma secure_strdup_witness : exists p st r st', sample_text initial = Ok (p, st) /\ r <> p /\
  egg_secure_strdup_full None p 0 st = Ok (r, st') /\
  represents st' (<[r := lit "secret" ++ [0]]> {[p := lit "secret" ++ 0 :: replicate 13 0]}).
Proof.
  destruct sample_string as (p & st & r & st1 & E & Hrep & Ha & Hr). exists p, st, r.
  destruct (secure_strdup st _ p (lit "secret") (replicate 13 0) None 0 r st1 Hrep (lookup_singleton_eq p _)) as (st' & Es & Hno & Hrep');
    [by apply (bool_decide_unpack _)|reflexivity|exact Ha|exact Hr|].
  exists st'. split; [exact E|]. split; [intros ->; by rewrite lookup_singleton_eq in Hno|]. split; [exact Es|exact Hrep'].
Defined.

(** An allocation that does not fit the block made for it: 16384 bytes need two words
    more for the guards, but the block is made of 16384 bytes.  NULL is returned, and the
    empty block stays. *)
Example alloc_whole_pages : match egg_secure_alloc_full None 16384 0 initial with
    Ok (p, st) => (p =? 0) && (length (all_blocks st) =? 1)%nat | _ => false end = true.
Proof. vm_compute. reflexivity. Qed.

(** [egg_secure_strndup_full] of eight bytes without a NUL: the ninth byte of the copy is
    whatever follows the string, here a byte of the guard. *)
Example strndup_ninth_byte : match (p ← egg_secure_alloc_full None 8 0; _ ← write p (lit "password");
    egg_secure_strndup_full None p 8 0) initial with
    Ok (p, st) => match load (mem st) p 9 with Some bs => bool_decide (take 8 bs = lit "password") && negb (nth 8 bs 0 =? 0) | None => false end
  | _ => false end = true.
Proof. vm_compute. reflexivity. Qed.
