(* ===== verification/OpenSsh.v ===== *)
(** OpenSSH public keys: [src/gcr/gcr-openssh.c].

    A file has a key on each line, of protocol 1 (decimal numbers) or 2 (base64 of length
    and value pairs).  A line is the list of its bytes.  What a [GckBuilder] holds is a list
    of types and values, [None] for a NULL pointer; [builder_holds] of [OpenSshAttrs] runs the
    builder of [Attributes] through the same calls.  [Err] is a [FALSE] return, or the error
    of a line; [Ub] is undefined behaviour, here also the memory of [stype] in the message
    about a wrong algorithm, which has been freed. *)

From S2P Require Import Decimal Buffer Attributes Prelude Text Armor Asn1Tlv Asn1Value Asn1Node Sorting Asn1Create Asn1Tables Asn1Decode Asn1Build Asn1Access.
Local Open Scope Z_scope.

(** * Words *)

Fixpoint skip_spaces (line : list Z) : list Z :=
  match line with c :: rest => if c =? 32 then skip_spaces rest else line | [] => [] end.

(** [do { switch ... } while (at < end)]: the word and what follows. *)
Fixpoint word_end (quotes : bool) (line : list Z) : list Z * list Z :=
  match line with
  | [] => ([], [])
  | c :: rest =>
    if c =? 34 then prod_map (cons c) id (word_end (negb quotes) rest)
    else if (c =? 32) && negb quotes then ([], line)
    else prod_map (cons c) id (word_end quotes rest)
  end.

Definition next_word (line : list Z) : option (list Z * list Z) :=
  match skip_spaces line with [] => None | line => Some (word_end false line) end.

Definition match_word (word matches : list Z) : bool := bool_decide (word = matches).

(** [G_STRNDUP]: up to a NUL. *)
Definition g_strndup (s : list Z) : list Z := c_str s.

(** * Errors *)

Inductive GcrDataError := GCR_ERROR_FAILURE | GCR_ERROR_UNRECOGNIZED.

Definition or_return {E A} (e : E) (o : option A) : res E A := match o with Some a => Ok a | None => Err e end.

(** A function whose [Err] is a NULL or [FALSE] return. *)
Definition on_failure {E F A} (e : E) (r : res F A) : res E A := match r with Ok a => Ok a | Err _ => Err e | Ub => Ub end.

(** A function that has no error return; fuel does not run out. *)
Definition defined {E F A} (r : res F A) : res E A := match r with Ok a => Ok a | _ => Ub end.

(** * Keys *)

Abbreviation Builder := (list (Z * option (list Z))).

Definition add_data (builder : Builder) (t : Z) (data : option (list Z)) : Builder := builder ++ [(t, data)].
Definition add_ulong (builder : Builder) (t v : Z) : Builder := add_data builder t (Some (ck_ulong v)).

(** The arguments of the callback. *)
Record PubKey := mk_key { k_attrs : Builder; k_label : option (list Z); k_options : option (list Z); k_outer : list Z }.

Definition GCR_OID_EC_SECP256R1 : list Z := lit "1.2.840.10045.3.1.7".
Definition GCR_OID_EC_SECP384R1 : list Z := lit "1.3.132.0.34".
Definition GCR_OID_EC_SECP521R1 : list Z := lit "1.3.132.0.35".

(** [g_realloc], among the allocators of [Buffer]. *)
Definition G_REALLOC : nat := 1.

Section OpenSsh.
Context `{Environment} `{Base64} `{GListSort}.
Context (realloc : nat -> option (list Z) -> Z -> option (list Z)) (this_year : Z).

Definition CK (name : string) : Z := constant (lit name).

(** [algo] is [None] for NULL. *)
Definition keytype_to_algo (algo : option (list Z)) : Z :=
  match algo with
  | None => G_MAXULONG
  | Some algo =>
    if match_word algo (lit "ssh-rsa") then CK "CKK_RSA"
    else if match_word algo (lit "ssh-dss") then CK "CKK_DSA"
    else if match_word algo (lit "ssh-ed25519") then CK "CKK_EC_EDWARDS"
    else if bool_decide (take 6 algo = lit "ecdsa-") then CK "CKK_ECDSA"
    else G_MAXULONG
  end.

Definition read_decimal_mpi (decimal : list Z) (builder : Builder) (t : Z) : res unit Builder :=
  data ← egg_decimal_decode decimal (Zlen decimal); Ok (add_data builder t (Some data)).

(** The end of both parsers: the rest of the line is the label. *)
Definition finish (outer line : list Z) (word_options : option (list Z)) (builder : Builder) : PubKey :=
  let line := skip_spaces line in
  let label := if negb (bool_decide (line = [])) then Some (strip (g_strndup line)) else None in
  let builder := match label with Some l => add_data builder (CK "CKA_LABEL") (Some l) | None => builder end in
  mk_key builder label (g_strndup <$> word_options) outer.

(** * Protocol 1 *)

Definition parse_v1_public_line (line : list Z) : res GcrDataError PubKey :=
  let outer := line in
  let line := skip_spaces line in
  c ← or_return GCR_ERROR_UNRECOGNIZED (hd_error line);
  if c =? 35 then Err GCR_ERROR_UNRECOGNIZED else
  '(word_options, line) ←
    (if is_digit c then Ok (None, line)
     else '(word, line) ← or_return GCR_ERROR_UNRECOGNIZED (next_word line); Ok (Some word, line));
  '(word_bits, line) ← or_return GCR_ERROR_UNRECOGNIZED (next_word line);
  '(word_exponent, line) ← or_return GCR_ERROR_UNRECOGNIZED (next_word line);
  '(word_modulus, line) ← or_return GCR_ERROR_UNRECOGNIZED (next_word line);
  bits ← defined (atoin word_bits 0 (length word_bits));
  if bits <=? 0 then Err GCR_ERROR_UNRECOGNIZED else
  builder ← on_failure GCR_ERROR_UNRECOGNIZED (read_decimal_mpi word_exponent [] (CK "CKA_PUBLIC_EXPONENT"));
  builder ← on_failure GCR_ERROR_UNRECOGNIZED (read_decimal_mpi word_modulus builder (CK "CKA_MODULUS"));
  let builder := add_ulong builder (CK "CKA_KEY_TYPE") (CK "CKK_RSA") in
  let builder := add_ulong builder (CK "CKA_CLASS") (CK "CKO_PUBLIC_KEY") in
  Ok (finish outer line word_options builder).

(** * Protocol 2 *)

(** The buffer, the offset and the builder that the readers pass on. *)
Definition Reader : Type := EggBuffer * Z * Builder.

Definition add_to_reader (r : Reader) (t v : Z) : Reader := (r.1, add_ulong r.2 t v).

Definition get_byte_array (r : Reader) : res unit (option (list Z) * (Builder -> Reader)) :=
  let '(buffer, offset, builder) := r in
  '(v, buffer) ← egg_buffer_get_byte_array buffer offset;
  '(data, offset) ← or_return tt v;
  Ok (data, fun builder => (buffer, offset, builder)).

Definition read_buffer_mpi (r : Reader) (t : Z) : res unit Reader :=
  '(data, next) ← get_byte_array r;
  Ok (next (add_data r.2 t data)).

(** The value as a DER-encoded OCTET STRING; NULL is refused by the setter. *)
Definition read_buffer_mpi_to_der (r : Reader) (t : Z) : res unit Reader :=
  '(data, next) ← get_byte_array r;
  asn ← defined (egg_asn1x_create 20 pk_asn1_tab (lit "ECPoint"));
  asn ← or_return tt asn;
  let asn := match data with Some data => on_data (fun an => egg_asn1x_set_string_as_raw an data) asn | None => asn end in
  '(der_data, _) ← defined (egg_asn1x_encode this_year asn);
  der_data ← or_return tt der_data;
  Ok (next (add_data r.2 t (Some der_data))).

Definition read_v2_public_dsa (r : Reader) : res unit Reader :=
  r ← read_buffer_mpi r (CK "CKA_PRIME");
  r ← read_buffer_mpi r (CK "CKA_SUBPRIME");
  r ← read_buffer_mpi r (CK "CKA_BASE");
  r ← read_buffer_mpi r (CK "CKA_VALUE");
  Ok (add_to_reader (add_to_reader r (CK "CKA_KEY_TYPE") (CK "CKK_DSA")) (CK "CKA_CLASS") (CK "CKO_PUBLIC_KEY")).

Definition read_v2_public_rsa (r : Reader) : res unit Reader :=
  r ← read_buffer_mpi r (CK "CKA_PUBLIC_EXPONENT");
  r ← read_buffer_mpi r (CK "CKA_MODULUS");
  Ok (add_to_reader (add_to_reader r (CK "CKA_KEY_TYPE") (CK "CKK_RSA")) (CK "CKA_CLASS") (CK "CKO_PUBLIC_KEY")).

Definition curve_oid (curve : option (list Z)) : option (list Z) :=
  match curve with
  | None => None
  | Some curve =>
    if bool_decide (curve = lit "nistp256") then Some GCR_OID_EC_SECP256R1
    else if bool_decide (curve = lit "nistp384") then Some GCR_OID_EC_SECP384R1
    else if bool_decide (curve = lit "nistp521") then Some GCR_OID_EC_SECP521R1
    else None
  end.

(** The parameters of a named curve. *)
Definition curve_params (oid : list Z) : res unit (list Z) :=
  asn ← defined (egg_asn1x_create 20 pk_asn1_tab (lit "ECParameters"));
  asn ← or_return tt asn;
  node ← defined (egg_asn1x_node asn [Name (lit "namedCurve"); NullArg]);
  node ← or_return tt (node ≫= hd_error);
  let '(ok, asn) := egg_asn1x_set_choice asn node in
  if negb ok then Err tt else
  let 'N an cs := asn in
  child ← or_ub (cs !! node);
  '(ok, can) ← defined (egg_asn1x_set_oid_as_quark (Asn1Node.data child) (Some oid));
  if negb ok then Err tt else
  '(bytes, _) ← defined (egg_asn1x_encode this_year (N an (<[node := N can (children child)]> cs)));
  or_return tt bytes.

Definition read_v2_public_ecdsa (r : Reader) : res unit Reader :=
  let '(buffer, offset, builder) := r in
  '(v, buffer) ← egg_buffer_get_string realloc buffer offset (Some G_REALLOC);
  '(curve, offset) ← or_return tt v;
  oid ← or_return tt (curve_oid curve);
  data ← curve_params oid;
  r ← read_buffer_mpi_to_der (buffer, offset, add_data builder (CK "CKA_EC_PARAMS") (Some data)) (CK "CKA_EC_POINT");
  Ok (add_to_reader (add_to_reader r (CK "CKA_KEY_TYPE") (CK "CKK_ECDSA")) (CK "CKA_CLASS") (CK "CKO_PUBLIC_KEY")).

Definition read_v2_public_ed25519 (r : Reader) : res unit Reader :=
  r ← read_buffer_mpi r (CK "CKA_VALUE");
  Ok (add_to_reader (add_to_reader r (CK "CKA_KEY_TYPE") (CK "CKK_EC_EDWARDS")) (CK "CKA_CLASS") (CK "CKO_PUBLIC_KEY")).

Definition read_v2_public_key (algo : Z) (data : list Z) (builder : Builder) : res unit Builder :=
  '(v, buffer) ← egg_buffer_get_string realloc (egg_buffer_init_static data) 0 (Some G_REALLOC);
  '(stype, offset) ← or_return tt v;
  let alg := s32 (keytype_to_algo stype) in
  if negb (u64 alg =? algo) then match stype with Some _ => Ub | None => Err tt end
  else
    let r := (buffer, offset, builder) in
    r ← (if algo =? CK "CKK_RSA" then read_v2_public_rsa r
         else if algo =? CK "CKK_DSA" then read_v2_public_dsa r
         else if algo =? CK "CKK_EC_EDWARDS" then read_v2_public_ed25519 r
         else if algo =? CK "CKK_ECDSA" then read_v2_public_ecdsa r
         else Ub);
    Ok (r.2 : Builder).

(** [g_malloc (n_data * 3 / 4)] bytes for the decoded key. *)
Definition decode_v2_public_key (algo : Z) (data : list Z) (builder : Builder) : res unit Builder :=
  let decoded := base64_decode data in
  c_assert (Zlen decoded <=? u64 (Zlen data * 3) / 4);;
  if Zlen decoded =? 0 then Err tt else read_v2_public_key algo decoded builder.

Definition parse_v2_public_line (line : list Z) : res GcrDataError PubKey :=
  let outer := line in
  let line := skip_spaces line in
  c ← or_return GCR_ERROR_UNRECOGNIZED (hd_error line);
  if c =? 35 then Err GCR_ERROR_UNRECOGNIZED else
  '(word_algo, line) ← or_return GCR_ERROR_UNRECOGNIZED (next_word line);
  let algo := keytype_to_algo (Some word_algo) in
  '(word_options, algo, line) ←
    (if algo =? G_MAXULONG then
       '(word, line) ← or_return GCR_ERROR_UNRECOGNIZED (next_word line);
       let algo := keytype_to_algo (Some word) in
       if algo =? G_MAXULONG then Err GCR_ERROR_UNRECOGNIZED else Ok (Some word_algo, algo, line)
     else Ok (None, algo, line));
  '(word_key, line) ← or_return GCR_ERROR_FAILURE (next_word line);
  builder ← on_failure GCR_ERROR_FAILURE (decode_v2_public_key algo word_key []);
  Ok (finish outer line word_options builder).

(** * Files *)

(** What a line that is not empty has; a key is counted and handed to the callback. *)
Definition parse_line (line : list Z) : res GcrDataError PubKey :=
  match parse_v2_public_line line with
  | Err GCR_ERROR_UNRECOGNIZED => parse_v1_public_line line
  | r => r
  end.

(** [for (;;)]: the number of keys so far is the fourth argument; the result has the
    calls of the callback in order. *)
Fixpoint pub_loop (fuel : nat) (callback : bool) (line : list Z) (num_parsed : Z) : res unit (Z * list PubKey) :=
  match fuel with
  | O => Err tt
  | S fuel =>
    let '(cur, next) := match index_of 10 line with
                        | Some i => (take i line, Some (drop (S i) line))
                        | None => (line, None)
                        end in
    '(num_parsed, found) ←
      (if bool_decide (cur = []) then Ok (num_parsed, [])
       else match parse_line cur with
            | Ok k => Ok (u32 (num_parsed + 1), if callback then [k] else [])
            | Err _ => Ok (num_parsed, [])
            | Ub => Ub
            end);
    match next with
    | None => Ok (num_parsed, found)
    | Some line => '(num_parsed, others) ← pub_loop fuel callback line num_parsed; Ok (num_parsed, found ++ others)
    end
  end.

Definition _gcr_openssh_pub_parse (data : list Z) (callback : bool) : res unit (Z * list PubKey) :=
  pub_loop (S (length data)) callback data 0.

End OpenSsh.
