(* ===== verification/OpenSshSpec.v ===== *)
(** OpenSSH public keys: what [OpenSsh] promises.

    [line_of] is the line of a key; [openssh_reads_keys] shows that a file of such lines,
    among blank lines and comments, is read back key by key.  [openssh_parse_safe] is about
    any file: parsing ends, and is defined but for the lines that [mismatched] and
    [long_bits] describe. *)

From S2P Require Import Decimal Buffer Attributes Prelude Text Armor ArmorSpec Asn1Tlv Asn1Value Asn1Node Sorting Asn1Create Asn1Tables Asn1Decode Asn1Safe Asn1Build Asn1Roundtrip Asn1Access Asn1Strings OpenSsh.
Local Open Scope Z_scope.

(** * Lines and words *)

(** Quotes are closed at the end, and a space is within quotes. *)
Fixpoint closes (quotes : bool) (word : list Z) : bool :=
  match word with
  | [] => negb quotes
  | c :: word => if c =? 34 then closes (negb quotes) word else (negb (c =? 32) || quotes) && closes quotes word
  end.

(** A word of a line: not empty, no space in front. *)
Definition is_word (word : list Z) : bool :=
  match word with c :: _ => negb (c =? 32) && closes false word | [] => false end.

Definition ends_word (rest : list Z) : bool := match rest with c :: _ => c =? 32 | [] => true end.

Lemma word_end_closes word rest : ends_word rest = true -> forall quotes,
  closes quotes word = true -> word_end quotes (word ++ rest) = (word, rest).
Proof.
  intros Hr. induction word as [|c word IH]; intros quotes Hc; cbn [closes word_end app] in *.
  - destruct quotes; [done|]. destruct rest as [|d rest]; [done|]. cbn [ends_word word_end] in *. apply Z.eqb_eq in Hr as ->. done.
  - destruct (Z.eqb_spec c 34); [by rewrite IH|]. apply andb_true_iff in Hc as [Hc1 Hc2].
    destruct (Z.eqb_spec c 32), quotes; cbn [negb orb andb] in *; try done; by rewrite IH.
Qed.

Lemma skip_spaces_word c rest : c <> 32 -> skip_spaces (c :: rest) = c :: rest.
Proof. intros Hc. cbn [skip_spaces]. by destruct (Z.eqb_spec c 32). Qed.

(** One space in front of a word, or none, makes no difference. *)
Lemma skip_spaces_space rest : skip_spaces (32 :: rest) = skip_spaces rest.
Proof. done. Qed.

Lemma next_word_is word rest : is_word word = true -> ends_word rest = true -> next_word (word ++ rest) = Some (word, rest).
Proof.
  destruct word as [|c word]; [done|]. cbn [is_word]. rewrite andb_true_iff, negb_true_iff, Z.eqb_neq. intros [Hc Hcl] Hr.
  unfold next_word. cbn [app]. rewrite skip_spaces_word by done.
  change (c :: word ++ rest) with ((c :: word) ++ rest). by rewrite word_end_closes.
Qed.

Lemma next_word_space rest : next_word (32 :: rest) = next_word rest.
Proof. done. Qed.

Lemma skip_spaces_le line : (length (skip_spaces line) <= length line)%nat.
Proof. induction line as [|c line IH]; cbn [skip_spaces]; [done|]. destruct (c =? 32); cbn [length]; lia. Qed.

Lemma word_end_app line : forall quotes, (word_end quotes line).1 ++ (word_end quotes line).2 = line.
Proof.
  induction line as [|c line IH]; intros quotes; cbn [word_end]; [done|].
  assert (forall q, (prod_map (cons c) id (word_end q line)).1 ++ (prod_map (cons c) id (word_end q line)).2 = c :: line) as Hc
    by (intros q; specialize (IH q); destruct (word_end q line); cbn in *; by rewrite IH).
  destruct (c =? 34); [apply Hc|]. by destruct (_ && _).
Qed.

Lemma next_word_length line word rest : next_word line = Some (word, rest) -> (length word + length rest <= length line)%nat.
Proof.
  unfold next_word. pose proof (skip_spaces_le line) as Hl. destruct (skip_spaces line) as [|c l]; [done|]. intros H. apply (inj Some) in H.
  pose proof (word_end_app (c :: l) false) as E. rewrite H in E. cbn [fst snd] in E. rewrite <- length_app, E. lia.
Qed.

(** Characters that no word treats specially. *)
Lemma closes_plain word : Forall (fun c => c <> 32 /\ c <> 34) word -> closes false word = true.
Proof.
  induction 1 as [|c word [H1 H2] _ IH]; [done|]. cbn [closes].
  destruct (Z.eqb_spec c 34), (Z.eqb_spec c 32); done.
Qed.

(** * The loop over the lines *)

Section Loop.
Context `{Environment} `{Base64} `{GListSort}.
Context (realloc : nat -> option (list Z) -> Z -> option (list Z)) (this_year : Z).
Let parse := parse_line realloc this_year.

(** The keys of lines, in order; empty lines and lines with errors have none. *)
Fixpoint keys_of (lines : list (list Z)) : option (list PubKey) :=
  match lines with
  | [] => Some []
  | line :: lines =>
    keys ← keys_of lines;
    if bool_decide (line = []) then Some keys
    else match parse line with Ok k => Some (k :: keys) | Err _ => Some keys | Ub => None end
  end.

Lemma u32_add a b : u32 (u32 a + b) = u32 (a + b).
Proof. unfold u32. by rewrite Zplus_mod_idemp_l. Qed.

Lemma pub_loop_keys callback fuel : forall line n, (length line < fuel)%nat -> 0 <= n < 2 ^ 32 ->
  pub_loop realloc this_year fuel callback line n =
  match keys_of (split_on 10 line) with
  | Some keys => Ok (u32 (n + Zlen keys), if callback then keys else [])
  | None => Ub
  end.
Proof.
  induction fuel as [|fuel IH]; intros line n Hf Hn; [lia|]. cbn [pub_loop]. rewrite split_on_index.
  destruct (index_of 10 line) as [i|] eqn:Ei.
  - apply index_of_Some in Ei as [Hi _]. apply lookup_lt_Some in Hi. cbn [keys_of].
    assert (length (drop (S i) line) < fuel)%nat as Hd by (rewrite length_drop; lia).
    destruct (bool_decide (take i line = [])).
    + run. rewrite (IH _ _ Hd Hn). destruct (keys_of _) as [keys|]; cbn; [|done]. done.
    + fold parse. destruct (parse (take i line)) as [k|e|]; run.
      * rewrite (IH _ _ Hd) by apply u32_range. destruct (keys_of _) as [keys|]; cbn [mbind option_bind]; [|done]. run.
        rewrite u32_add. cbn [length]. do 2 f_equal; [f_equal; lia|]. by destruct callback.
      * rewrite (IH _ _ Hd Hn). by destruct (keys_of _) as [keys|].
      * by destruct (keys_of _) as [keys|].
  - cbn [keys_of mbind option_bind]. destruct (bool_decide (line = [])).
    + run. cbn [length]. rewrite Z.add_0_r, u32_small by done. by destruct callback.
    + fold parse. destruct (parse line) as [k|e|]; run; try done.
      cbn [length]. rewrite Z.add_0_r, u32_small by done. by destruct callback.
Qed.

Lemma pub_parse_keys data callback : _gcr_openssh_pub_parse realloc this_year data callback =
  match keys_of (split_on 10 data) with
  | Some keys => Ok (u32 (Zlen keys), if callback then keys else [])
  | None => Ub
  end.
Proof. unfold _gcr_openssh_pub_parse. rewrite pub_loop_keys by lia. done. Qed.
End Loop.

(** * Reading the fields of a key *)

Lemma static_wf data : Zlen data < 2 ^ 62 -> buffer_wf (egg_buffer_init_static data).
Proof. intros Hl. constructor; cbn; lia. Qed.

Lemma static_content data : content (egg_buffer_init_static data) = data.
Proof. unfold content. cbn. by rewrite Nat2Z.id, firstn_all. Qed.

Lemma get_byte_array_content b pre v post : buffer_wf b -> Zlen v < 0x7fffffff ->
  content b = pre ++ enc_byte_array (Some v) ++ post ->
  egg_buffer_get_byte_array b (Zlen pre) = Ok (Some (Some v, Zlen (pre ++ enc_byte_array (Some v))), b).
Proof.
  intros Hwf Hlen Hc. cbn [enc_byte_array] in *. rewrite <- app_assoc in Hc.
  pose proof (content_length b Hwf) as Hl. pose proof (wf_len _ Hwf). pose proof (wf_cap _ Hwf).
  rewrite Hc, !length_app, encode_uint32_length in Hl.
  unfold egg_buffer_get_byte_array. rewrite (get_uint32_content b pre (Zlen v) (v ++ post)) by (done || lia).
  run. destruct (Z.eqb_spec (Zlen v) 0xffffffff), (Z.leb_spec 0x7fffffff (Zlen v)); try lia.
  rewrite (proj2 (out_of_buffer_false _ _ _)) by lia.
  rewrite app_assoc in Hc. pose proof (buffer_load_content b _ v post Hwf Hc ltac:(lia)) as Hload.
  rewrite length_app, encode_uint32_length, Nat2Z.inj_add in Hload. change (Z.of_nat 4) with 4 in Hload. rewrite Hload. run.
  rewrite u64_small by lia. rewrite !length_app, encode_uint32_length. do 3 f_equal. f_equal. lia.
Qed.

(** A reader that has [pre] behind it and [post] before it. *)
Definition reader (b : EggBuffer) (pre : list Z) (builder : Builder) : Reader := (b, Zlen pre, builder).

Lemma read_mpi_content b pre v post builder t : buffer_wf b -> Zlen v < 0x7fffffff ->
  content b = pre ++ enc_byte_array (Some v) ++ post ->
  read_buffer_mpi (reader b pre builder) t =
    Ok (reader b (pre ++ enc_byte_array (Some v)) (builder ++ [(t, Some v)])).
Proof.
  intros Hwf Hl Hc. unfold read_buffer_mpi, get_byte_array, reader. by rewrite (get_byte_array_content b pre v post).
Qed.

(** * Elliptic curves *)

Inductive Curve := P256 | P384 | P521.

Definition curve_name (c : Curve) : list Z :=
  match c with P256 => lit "nistp256" | P384 => lit "nistp384" | P521 => lit "nistp521" end.

(** The object identifiers of the curves in DER. *)
Definition curve_der (c : Curve) : list Z :=
  match c with
  | P256 => [6; 8; 0x2a; 0x86; 0x48; 0xce; 0x3d; 3; 1; 7]
  | P384 => [6; 5; 0x2b; 0x81; 4; 0; 0x22]
  | P521 => [6; 5; 0x2b; 0x81; 4; 0; 0x23]
  end.

(** An OCTET STRING in DER. *)
Definition octet_string (v : list Z) : list Z := header_bytes ASN1_CLASS_UNIVERSAL 4 (Zlen v) ++ v.

Section Curves.
Context `{GListSort} (this_year : Z).

Lemma curve_params_der c oid : curve_oid (Some (curve_name c)) = Some oid -> curve_params this_year oid = Ok (curve_der c).
Proof. destruct c; intros [= <-]; vm_compute; reflexivity. Qed.

Lemma curve_oid_cases curve oid : curve_oid curve = Some oid -> exists c, curve = Some (curve_name c).
Proof.
  unfold curve_oid. destruct curve as [curve|]; [|done]. repeat case_bool_decide; subst; intros [= <-].
  - by exists P256.
  - by exists P384.
  - by exists P521.
Qed.

Definition ec_point : Anode := Eval vm_compute in
  match egg_asn1x_create (H := insertion_sort) 20 pk_asn1_tab (lit "ECPoint") with Ok (Some (N an _)) => an | _ => anode_new (mk_def None 0 None) end.

Lemma create_ec_point : egg_asn1x_create 20 pk_asn1_tab (lit "ECPoint") = Ok (Some (N ec_point [])).
Proof. vm_compute. reflexivity. Qed.

Lemma encode_octet_string v : Zlen v < 2 ^ 30 ->
  let asn := N (egg_asn1x_set_string_as_raw ec_point v) [] in
  egg_asn1x_encode this_year asn = Ok (Some (octet_string v), asn).
Proof.
  intros Hl asn. unfold egg_asn1x_encode.
  assert (anode_def_type_is_real (Asn1Node.data asn) = true) as -> by reflexivity.
  assert (egg_asn1x_validate this_year asn true = Ok (true, asn)) as -> by reflexivity. run.
  assert (anode_build_anything asn true = Ok (Some (string_tlv 4 v))) as -> by by apply build_string.
  run. change (atlv_sort_perform (string_tlv 4 v)) with (@Ok unit _ (string_tlv 4 v)). run.
  rewrite unparse_to_bytes_der by (by apply enc_value; [apply string_head_ok|]). reflexivity.
Qed.
Lemma read_der_content b pre v post builder t0 : buffer_wf b -> Zlen v < 2 ^ 30 ->
  content b = pre ++ enc_byte_array (Some v) ++ post ->
  read_buffer_mpi_to_der this_year (reader b pre builder) t0 =
    Ok (reader b (pre ++ enc_byte_array (Some v)) (builder ++ [(t0, Some (octet_string v))])).
Proof.
  intros Hwf Hl Hc. unfold read_buffer_mpi_to_der, get_byte_array, reader.
  rewrite (get_byte_array_content b pre v post) by (done || lia). run.
  rewrite create_ec_point. cbn [defined or_return]. run. cbn [or_return]. run. cbn [on_data].
  pose proof (encode_octet_string v Hl) as E. cbn zeta in E. rewrite E. done.
Qed.
End Curves.

(** * Keys *)

Inductive SshKey :=
  | RsaKey (e n : list Z)
  | DsaKey (p q g y : list Z)
  | Ed25519Key (v : list Z)
  | EcdsaKey (c : Curve) (point : list Z).

Definition algo_name (k : SshKey) : list Z :=
  match k with
  | RsaKey _ _ => lit "ssh-rsa"
  | DsaKey _ _ _ _ => lit "ssh-dss"
  | Ed25519Key _ => lit "ssh-ed25519"
  | EcdsaKey c _ => lit "ecdsa-sha2-" ++ curve_name c
  end.

(** What follows the algorithm in the encoding of a key. *)
Definition fields (k : SshKey) : list (list Z) :=
  match k with
  | RsaKey e n => [e; n]
  | DsaKey p q g y => [p; q; g; y]
  | Ed25519Key v => [v]
  | EcdsaKey c point => [curve_name c; point]
  end.

(** RFC 4253, 6.6: each with its length in front. *)
Definition wire (k : SshKey) : list Z := concat ((fun f => enc_byte_array (Some f)) <$> algo_name k :: fields k).

Definition key_ok (k : SshKey) : Prop := Forall (fun f => bytes f /\ Zlen f < 2 ^ 28) (fields k).

Section Keys.
Context `{Environment} `{GListSort}.

Definition key_type (k : SshKey) : Z :=
  CK match k with RsaKey _ _ => "CKK_RSA" | DsaKey _ _ _ _ => "CKK_DSA" | Ed25519Key _ => "CKK_EC_EDWARDS" | EcdsaKey _ _ => "CKK_ECDSA" end.

(** The attributes of a public key object. *)
Definition attrs_of (k : SshKey) : Builder :=
  match k with
  | RsaKey e n => [(CK "CKA_PUBLIC_EXPONENT", Some e); (CK "CKA_MODULUS", Some n)]
  | DsaKey p q g y => [(CK "CKA_PRIME", Some p); (CK "CKA_SUBPRIME", Some q); (CK "CKA_BASE", Some g); (CK "CKA_VALUE", Some y)]
  | Ed25519Key v => [(CK "CKA_VALUE", Some v)]
  | EcdsaKey c point => [(CK "CKA_EC_PARAMS", Some (curve_der c)); (CK "CKA_EC_POINT", Some (octet_string point))]
  end ++ [(CK "CKA_KEY_TYPE", Some (ck_ulong (key_type k))); (CK "CKA_CLASS", Some (ck_ulong (CK "CKO_PUBLIC_KEY")))].

Definition key_types : list string := ["CKK_RSA"; "CKK_DSA"; "CKK_EC_EDWARDS"; "CKK_ECDSA"].

(** The numbers of key types are different, and small. *)
Class KeyTypes : Prop := {
  key_types_small : Forall (fun name => 0 <= CK name < 2 ^ 31) key_types;
  key_types_differ : NoDup (CK <$> key_types)
}.

Context `{KeyTypes}.
Context (realloc : nat -> option (list Z) -> Z -> option (list Z)) (Hrealloc : realloc_ok realloc).
Context (Halloc : forall n, is_Some (realloc G_REALLOC None n)) (this_year : Z).

Lemma key_type_small k : 0 <= key_type k < 2 ^ 31.
Proof. pose proof key_types_small as Hs. unfold key_types in Hs. rewrite !Forall_cons in Hs. destruct k; apply Hs. Qed.

Lemma keytype_of k : keytype_to_algo (Some (algo_name k)) = key_type k.
Proof. by destruct k as [| | |[]]. Qed.

Lemma key_type_word (k : SshKey) : u64 (s32 (key_type k)) = key_type k.
Proof. pose proof (key_type_small k). rewrite s32_small, u64_small; lia. Qed.

Lemma wire_length k : key_ok k -> Zlen (wire k) < 2 ^ 31.
Proof.
  intros Hk. unfold wire, key_ok in *.
  assert (forall l, Zlen (concat ((fun f => enc_byte_array (Some f)) <$> l)) = 4 * Zlen l + Zlen (concat l)) as E.
  { induction l as [|f l IH]; [done|]. cbn [fmap list_fmap concat]. rewrite !length_app. unfold enc_byte_array at 1.
    rewrite length_app, encode_uint32_length. cbn [length]. lia. }
  rewrite E. destruct k as [| | |c point]; cbn [fields] in *; rewrite ?Forall_cons in Hk; cbn [concat]; rewrite !length_app; cbn [length]; try lia.
  all: try (change (length (algo_name _)) with 7%nat || change (length (algo_name _)) with 11%nat); try lia.
  destruct c; cbn; lia.
Qed.
Lemma read_string_content b pre s post : buffer_wf b -> good_string s -> content b = pre ++ enc_byte_array (Some s) ++ post ->
  egg_buffer_get_string realloc b (Zlen pre) (Some G_REALLOC) = Ok (Some (Some s, Zlen (pre ++ enc_byte_array (Some s))), b).
Proof. intros. by apply (get_string_content realloc Hrealloc G_REALLOC Halloc) with post. Qed.

Definition read_fields (k : SshKey) : Reader -> res unit Reader :=
  match k with
  | RsaKey _ _ => read_v2_public_rsa
  | DsaKey _ _ _ _ => read_v2_public_dsa
  | Ed25519Key _ => read_v2_public_ed25519
  | EcdsaKey _ _ => read_v2_public_ecdsa realloc this_year
  end.

(** The right reader is chosen. *)
Lemma choose_reader k r :
  (if key_type k =? CK "CKK_RSA" then read_v2_public_rsa r
   else if key_type k =? CK "CKK_DSA" then read_v2_public_dsa r
   else if key_type k =? CK "CKK_EC_EDWARDS" then read_v2_public_ed25519 r
   else if key_type k =? CK "CKK_ECDSA" then read_v2_public_ecdsa realloc this_year r
   else Ub) = read_fields k r.
Proof.
  pose proof key_types_differ as Hd. cbn [key_types fmap list_fmap] in Hd.
  repeat (apply NoDup_cons in Hd as [? Hd]). rewrite !not_elem_of_cons in *. destruct_and!.
  destruct k; unfold key_type; repeat (rewrite Z.eqb_refl || rewrite (proj2 (Z.eqb_neq _ _)) by congruence); done.
Qed.

Lemma curve_name_good c : good_string (curve_name c).
Proof. unfold good_string. destruct c; decide_now. Qed.

Ltac by_attrs := eexists; split; [done|]; unfold add_to_reader, add_ulong, add_data, reader, attrs_of; cbn [fst snd]; by rewrite <- !app_assoc.

Lemma read_fields_content k b pre builder : key_ok k -> buffer_wf b ->
  content b = pre ++ concat ((fun f => enc_byte_array (Some f)) <$> fields k) ->
  exists r, read_fields k (reader b pre builder) = Ok r /\ r.2 = builder ++ attrs_of k.
Proof.
  intros Hk Hwf Hc. unfold key_ok in Hk. destruct k as [e n|p q g y|v|c point]; cbn [fields fmap list_fmap concat read_fields] in *;
    rewrite ?Forall_cons in Hk; destruct_and!; rewrite ?app_nil_r in Hc.
  - unfold read_v2_public_rsa. rewrite (read_mpi_content b pre e _ builder) by (done || lia). run.
    erewrite (read_mpi_content b _ n []) by (rewrite ?app_nil_r, <- ?app_assoc; done || lia). run.
    by_attrs.
  - unfold read_v2_public_dsa. rewrite (read_mpi_content b pre p _ builder) by (done || lia). run.
    erewrite (read_mpi_content b _ q) by (rewrite <- ?app_assoc; done || lia). run.
    erewrite (read_mpi_content b _ g) by (rewrite <- ?app_assoc; done || lia). run.
    erewrite (read_mpi_content b _ y []) by (rewrite ?app_nil_r, <- ?app_assoc; done || lia). run.
    by_attrs.
  - unfold read_v2_public_ed25519. rewrite (read_mpi_content b pre v [] builder) by (rewrite ?app_nil_r; done || lia). run.
    by_attrs.
  - unfold read_v2_public_ecdsa, reader.
    rewrite (read_string_content b pre (curve_name c) _ Hwf) by (done || apply curve_name_good). run.
    cbn [or_return]. run. destruct (curve_oid (Some (curve_name c))) as [oid|] eqn:Eo; [|by destruct c].
    cbn [or_return]. run. rewrite (curve_params_der this_year c oid Eo). run.
    change (b, Zlen ?p, ?bu) with (reader b p bu).
    erewrite (read_der_content this_year b _ point []) by (rewrite ?app_nil_r, <- ?app_assoc; done || lia). run.
    by_attrs.
Qed.

Lemma algo_name_good k : good_string (algo_name k).
Proof. unfold good_string. destruct k as [| | |[]]; decide_now. Qed.

Lemma read_key_wire k builder : key_ok k ->
  read_v2_public_key realloc this_year (key_type k) (wire k) builder = Ok (builder ++ attrs_of k).
Proof.
  intros Hk. pose proof (wire_length k Hk). unfold read_v2_public_key.
  assert (buffer_wf (egg_buffer_init_static (wire k))) as Hwf by (apply static_wf; lia).
  pose proof (static_content (wire k)) as Hc. unfold wire in Hc at 2. cbn [fmap list_fmap concat] in Hc.
  pose proof (read_string_content _ [] (algo_name k) _ Hwf (algo_name_good k) Hc) as E. change (Zlen []) with 0 in E. cbn [app] in E. rewrite E.
  run. cbn [or_return]. run. rewrite keytype_of, key_type_word, Z.eqb_refl. cbn [negb]. rewrite choose_reader.
  destruct (read_fields_content k _ (enc_byte_array (Some (algo_name k))) builder Hk Hwf Hc) as (r & Hr & Hb).
  unfold reader in Hr. rewrite Hr. run. by rewrite Hb.
Qed.
End Keys.

(** * Lines of keys *)

Record KeyLine := mk_line { l_options : option (list Z); l_key : SshKey; l_label : option (list Z) }.

Section Lines.
Context `{Environment} `{GListSort} `{KeyTypes} `{Base64Laws}.
Context (realloc : nat -> option (list Z) -> Z -> option (list Z)) (Hrealloc : realloc_ok realloc).
Context (Halloc : forall n, is_Some (realloc G_REALLOC None n)) (this_year : Z).

Definition line_of (l : KeyLine) : list Z :=
  match l_options l with Some o => o ++ [32] | None => [] end ++
  algo_name (l_key l) ++ 32 :: base64_encode (wire (l_key l)) ++
  match l_label l with Some x => 32 :: x | None => [] end.

(** Text in a line. *)
Definition in_line (s : list Z) : Prop := (10 ∉ s) /\ (0 ∉ s).

(** Options are one word, which is no algorithm and no comment; a label is text. *)
Definition options_ok (o : list Z) : Prop :=
  is_word o = true /\ keytype_to_algo (Some o) = G_MAXULONG /\ hd_error o <> Some 35 /\ in_line o.
Definition label_ok (x : list Z) : Prop := x <> [] /\ skip_spaces x = x /\ in_line x.
Definition line_ok (l : KeyLine) : Prop :=
  key_ok (l_key l) /\ (forall o, l_options l = Some o -> options_ok o) /\ (forall x, l_label l = Some x -> label_ok x).

(** What the callback is told of it. *)
Definition key_of (l : KeyLine) : PubKey :=
  mk_key (attrs_of (l_key l) ++ match l_label l with Some x => [(CK "CKA_LABEL", Some (strip x))] | None => [] end)
    (strip <$> l_label l) (l_options l) (line_of l).

Lemma wire_bytes k : key_ok k -> bytes (wire k).
Proof.
  intros Hk. assert (forall l, Forall bytes l -> bytes (concat ((fun f => enc_byte_array (Some f)) <$> l))) as Hc.
  { induction 1 as [|f l Hf Hl IH]; [constructor|]. cbn [fmap list_fmap concat]. apply Forall_app. split; [|exact IH].
    unfold enc_byte_array. apply Forall_app. split; [|done]. rewrite encode_uint32_be. apply be_bytes_bytes. }
  apply Hc. constructor; [destruct k as [| | |[]]; decide_now|]. eapply Forall_impl; [exact Hk|]. by intros f [? _].
Qed.

Lemma wire_long k : 4 <= Zlen (wire k).
Proof. unfold wire. cbn [fmap list_fmap concat]. rewrite length_app. unfold enc_byte_array at 1. rewrite length_app, encode_uint32_length. lia. Qed.

(** The encoded key as a word. *)
Lemma base64_plain c : base64_char c = true -> c <> 32 /\ c <> 34 /\ c <> 10 /\ c <> 0.
Proof. unfold base64_char. intros Hc. rewrite !orb_true_iff, !andb_true_iff, !Z.leb_le, !Z.eqb_eq in Hc. lia. Qed.

Lemma base64_word x : bytes x -> x <> [] -> is_word (base64_encode x) = true.
Proof.
  intros Hx Hne. pose proof (encode_chars x Hx) as Hc. pose proof (encode_length x) as Hl.
  assert (1 <= (Zlen x + 2) / 3) by (destruct x; [done|cbn [length]; lia_div]).
  destruct (base64_encode x) as [|c w] eqn:E; [cbn [length] in Hl; lia|]. cbn [is_word]. apply andb_true_iff. split.
  - inversion_clear Hc as [|? ? Hd _]. apply base64_plain in Hd as (? & _). by destruct (Z.eqb_spec c 32).
  - apply closes_plain. eapply Forall_impl; [exact Hc|]. intros d Hd. apply base64_plain in Hd as (? & ? & _). done.
Qed.

Lemma decode_key_line k builder : key_ok k ->
  decode_v2_public_key realloc this_year (key_type k) (base64_encode (wire k)) builder = Ok (builder ++ attrs_of k).
Proof.
  intros Hk. pose proof (wire_length k Hk) as Hl. pose proof (wire_bytes k Hk) as Hb. unfold decode_v2_public_key.
  pose proof (decode_fits (base64_encode (wire k))) as Hf. pose proof (encode_length (wire k)) as He. rewrite decode_encode in * by done.
  pose proof (wire_long k) as Hpos.
  assert (Zlen (base64_encode (wire k)) < 2 ^ 33) by (rewrite He; lia_div).
  rewrite c_assert_true by (apply Z.leb_le; rewrite u64_small by lia; lia_div). run.
  destruct (Z.eqb_spec (Zlen (wire k)) 0); [lia|]. by apply read_key_wire.
Qed.

Lemma ends_label (o : option (list Z)) : ends_word match o with Some x => 32 :: x | None => [] end = true.
Proof. by destruct o. Qed.

Lemma finish_label outer x options builder : (forall l, x = Some l -> label_ok l) -> (forall o, options = Some o -> 0 ∉ o) ->
  finish outer match x with Some l => 32 :: l | None => [] end options builder =
    mk_key (builder ++ match x with Some l => [(CK "CKA_LABEL", Some (strip l))] | None => [] end) (strip <$> x) options outer.
Proof.
  intros Hx Ho. unfold finish.
  assert (g_strndup <$> options = options) as ->.
  { destruct options as [o|]; [|done]. cbn. by rewrite c_str_id by (by apply Ho). }
  destruct x as [l|]; cbn [skip_spaces].
  - destruct (Hx l eq_refl) as (Hne & Hs & _ & Hn). cbn. rewrite Hs, bool_decide_eq_false_2 by done.
    cbn. unfold g_strndup. by rewrite c_str_id.
  - cbn. by rewrite app_nil_r.
Qed.

Lemma algo_is_word k : is_word (algo_name k) = true.
Proof. by destruct k as [| | |[]]. Qed.

Lemma parse_v2_key l : line_ok l -> parse_v2_public_line realloc this_year (line_of l) = Ok (key_of l).
Proof.
  intros (Hk & Ho & Hx). unfold parse_v2_public_line, key_of. remember (line_of l) as text eqn:Et.
  destruct l as [o k x]; cbn [l_options l_key l_label] in *. unfold line_of in Et; cbn [l_options l_key l_label] in Et. pose proof (key_type_small k) as Hs.
  assert ((key_type k =? G_MAXULONG) = false) as Hne by (apply Z.eqb_neq; unfold G_MAXULONG; lia).
  assert (is_word (base64_encode (wire k)) = true) as Hw.
  { apply base64_word; [by apply wire_bytes|]. intros E. pose proof (wire_long k) as Hl. rewrite E in Hl. cbn in Hl. lia. }
  set (line := 32 :: (base64_encode (wire k) ++ match x with Some x => 32 :: x | None => [] end)).
  assert (next_word (algo_name k ++ line) = Some (algo_name k, line)) as Ha by (apply next_word_is; [apply algo_is_word|done]).
  assert (next_word line = Some (base64_encode (wire k), match x with Some x => 32 :: x | None => [] end)) as Hkey
    by (unfold line; rewrite next_word_space; apply next_word_is; [done|apply ends_label]).
  assert (forall c w rest, is_word (c :: w) = true -> skip_spaces ((c :: w) ++ rest) = c :: w ++ rest) as Hskip.
  { intros c w rest Hcw. cbn [is_word] in Hcw. apply andb_true_iff in Hcw as [Hc _]. apply skip_spaces_word. by destruct (Z.eqb_spec c 32). }
  destruct o as [o|].
  - destruct (Ho o eq_refl) as (Hwo & Hto & Hco & _ & Hno). rewrite <- app_assoc in Et. cbn [app] in Et. fold line in Et.
    assert (next_word (o ++ 32 :: algo_name k ++ line) = Some (o, 32 :: algo_name k ++ line)) as Hnext by (by apply next_word_is).
    assert (skip_spaces text = o ++ 32 :: algo_name k ++ line) as -> by (rewrite Et; destruct o; [done|by apply Hskip]).
    assert (exists c, hd_error (o ++ 32 :: algo_name k ++ line) = Some c /\ c <> 35) as (c & -> & Hc)
      by (destruct o as [|c o]; [done|exists c; split; [done|intros ->; by apply Hco]]).
    cbn [or_return]. run. destruct (Z.eqb_spec c 35); [done|]. rewrite Hnext. cbn [or_return]. run. rewrite Hto, Z.eqb_refl. run.
    rewrite next_word_space, Ha. cbn [or_return]. run. rewrite keytype_of, Hne. run. rewrite Hkey. cbn [or_return]. run.
    rewrite (decode_key_line k [] Hk). cbn [on_failure]. run. rewrite finish_label; [done|done|]. by intros ? [= <-].
  - cbn [app] in Et. fold line in Et. assert (exists c w, algo_name k = c :: w /\ c <> 35) as (c & w & E & Hc) by (by destruct k as [| | |[]]; eexists _, _).
    assert (skip_spaces text = algo_name k ++ line) as -> by (rewrite Et, E; apply Hskip; rewrite <- E; apply algo_is_word).
    assert (hd_error (algo_name k ++ line) = Some c) as -> by (by rewrite E). cbn [or_return]. run.
    destruct (Z.eqb_spec c 35); [done|]. rewrite Ha. cbn [or_return]. run. rewrite keytype_of, Hne. run. rewrite Hkey. cbn [or_return]. run.
    rewrite (decode_key_line k [] Hk). cbn [on_failure]. run. by rewrite finish_label.
Qed.

End Lines.

(** * Protocol 1 *)

(** The bytes of a number, without leading zeros. *)
Definition unsigned (v : Z) : list Z := be_bytes (if v =? 0 then 0%nat else S (Z.to_nat (Z.log2 v / 8))) v.

Lemma unsigned_unique out : bytes out -> hd_error out <> Some 0 -> out = unsigned (be_val out).
Proof.
  intros Hb Hh. unfold unsigned. destruct out as [|c out]; [done|]. pose proof Hb as Hb'. apply Forall_cons in Hb' as [Hc Ho].
  assert (c <> 0) by (intros ->; by apply Hh). unfold is_byte in Hc. pose proof (be_val_bound out Ho) as Hv.
  assert (be_val (c :: out) = c * 256 ^ Zlen out + be_val out) as E by apply be_val_cons.
  assert (0 < 256 ^ Zlen out) by (apply Z.pow_pos_nonneg; lia).
  destruct (Z.eqb_spec (be_val (c :: out)) 0); [nia|].
  assert (Z.log2 (be_val (c :: out)) / 8 = Zlen out) as ->.
  { change 256 with (2 ^ 8) in *. rewrite <- Z.pow_mul_r in * by lia.
    assert (8 * Zlen out <= Z.log2 (be_val (c :: out)) < 8 * Zlen out + 8) as Hlog; [|lia_div].
    split; [apply Z.log2_le_pow2; [nia|]; nia|]. apply Z.log2_lt_pow2; [nia|]. rewrite Z.pow_add_r by lia. change (2 ^ 8) with 256. nia. }
  rewrite Nat2Z.id. change (S (length out)) with (length (c :: out)). by rewrite be_bytes_val.
Qed.

Record V1Line := mk_v1 { v_options : option (list Z); v_bits : list Z; v_exponent : list Z; v_modulus : list Z; v_label : option (list Z) }.

Definition decimal (w : list Z) : Prop := w <> [] /\ Forall (fun c => 48 <= c <= 57) w.

Section V1.
Context `{Environment} `{Base64} `{GListSort} (realloc : nat -> option (list Z) -> Z -> option (list Z)) (this_year : Z).

Definition v1_line (l : V1Line) : list Z :=
  match v_options l with Some o => o ++ [32] | None => [] end ++
  v_bits l ++ 32 :: v_exponent l ++ 32 :: v_modulus l ++ match v_label l with Some x => 32 :: x | None => [] end.

Definition v1_ok (l : V1Line) : Prop :=
  (forall o, v_options l = Some o -> options_ok o /\ is_digit (default 0 (hd_error o)) = false) /\
  decimal (v_bits l) /\ (length (v_bits l) <= 9)%nat /\ 0 < decimal_value (v_bits l) /\
  decimal (v_exponent l) /\ decimal (v_modulus l) /\ (forall x, v_label l = Some x -> label_ok x).

Definition v1_key_of (e n : list Z) (label options : option (list Z)) (line : list Z) : PubKey :=
  mk_key ([(CK "CKA_PUBLIC_EXPONENT", Some (unsigned (decimal_value e)));
           (CK "CKA_MODULUS", Some (unsigned (decimal_value n)));
           (CK "CKA_KEY_TYPE", Some (ck_ulong (CK "CKK_RSA"))); (CK "CKA_CLASS", Some (ck_ulong (CK "CKO_PUBLIC_KEY")))] ++
          match label with Some x => [(CK "CKA_LABEL", Some (strip x))] | None => [] end)
    (strip <$> label) options line.

Definition v1_key (l : V1Line) : PubKey := v1_key_of (v_exponent l) (v_modulus l) (v_label l) (v_options l) (v1_line l).

Lemma decimal_word w : decimal w -> is_word w = true.
Proof.
  intros [Hne Hd]. destruct w as [|c w]; [done|]. cbn [is_word]. apply andb_true_iff. split.
  - inversion_clear Hd as [|? ? Hc _]. destruct (Z.eqb_spec c 32); [cbn in Hc; lia|done].
  - apply closes_plain. eapply Forall_impl; [exact Hd|]. cbn. lia.
Qed.

Lemma decimal_no_type w : decimal w -> keytype_to_algo (Some w) = G_MAXULONG.
Proof.
  intros [Hne Hd]. destruct w as [|c w]; [done|]. inversion_clear Hd as [|? ? Hc _].
  cbn in Hc. assert (forall s, hd_error s = Some 115 -> match_word (c :: w) s = false) as Hm
    by (intros [|d s] [= ->]; apply bool_decide_eq_false_2; intros [= ? _]; lia).
  assert (forall s, hd_error s = Some 101 -> bool_decide (take 6 (c :: w) = s) = false) as Ht
    by (intros [|d s] [= ->]; apply bool_decide_eq_false_2; intros [= ? _]; lia).
  unfold keytype_to_algo. by rewrite !Hm, Ht by done.
Qed.

Lemma dec_ms ds : forall a, dec_acc a ds = ms_val 10 a ds.
Proof. induction ds as [|d ds IH]; intros a; [done|]. cbn [dec_acc ms_val]. by rewrite IH. Qed.

Lemma bits_value w : decimal w -> (length w <= 9)%nat -> atoin w 0 (length w) = Ok (decimal_value w).
Proof.
  intros [_ Hd] Hl. pose proof (atoin_digits w [] ((fun c => c - 48) <$> w) []) as E. rewrite length_fmap in E.
  unfold decimal_value, dec_val. rewrite dec_ms. apply E; [| |done].
  - rewrite Forall_fmap. eapply Forall_impl; [exact Hd|]. cbn. lia.
  - rewrite app_nil_r. cbn [app]. unfold Prelude.digits. rewrite <- list_fmap_compose. symmetry. rewrite <- (list_fmap_id w) at 2.
    apply list_fmap_ext. intros i c _. cbn. lia.
Qed.

Lemma decimal_mpi w builder t : decimal w -> read_decimal_mpi w builder t = Ok (builder ++ [(t, Some (unsigned (decimal_value w)))]).
Proof.
  intros [_ Hd]. unfold read_decimal_mpi. destruct (decimal_decode_digits w Hd) as (out & -> & Hb & <- & Hh). run.
  by rewrite <- unsigned_unique.
Qed.

(** The rest of a line, from a word on. *)
Lemma word_line w rest : is_word w = true -> skip_spaces (w ++ rest) = w ++ rest /\ hd_error (w ++ rest) = hd_error w.
Proof.
  destruct w as [|c w]; [done|]. cbn [is_word app]. intros [Hc _]%andb_true_iff. split; [|done]. apply skip_spaces_word. by destruct (Z.eqb_spec c 32).
Qed.

(** What no algorithm is in front of is no line of protocol 2. *)
Lemma no_v2_line w1 w2 rest : is_word w1 = true -> is_word w2 = true -> ends_word rest = true ->
  keytype_to_algo (Some w1) = G_MAXULONG -> keytype_to_algo (Some w2) = G_MAXULONG ->
  parse_v2_public_line realloc this_year (w1 ++ 32 :: w2 ++ rest) = Err GCR_ERROR_UNRECOGNIZED.
Proof.
  intros W1 W2 Hr Ht1 Ht2. unfold parse_v2_public_line. destruct (word_line w1 (32 :: w2 ++ rest) W1) as [-> _].
  destruct (hd_error _) as [c|]; [|done]. cbn [or_return]. run. destruct (c =? 35); [done|].
  rewrite next_word_is by done. cbn [or_return]. run. rewrite Ht1, Z.eqb_refl, next_word_space, next_word_is by done.
  cbn [or_return]. run. by rewrite Ht2, Z.eqb_refl.
Qed.

Lemma parse_v1_key l : v1_ok l -> parse_line realloc this_year (v1_line l) = Ok (v1_key l).
Proof.
  destruct l as [o bits e n x]. unfold v1_ok, v1_key, parse_line. remember (v1_line _) as text eqn:Et. unfold v1_line in Et.
  cbn [v_options v_bits v_exponent v_modulus v_label] in *. intros (Ho & Hb & Hlb & Hpos & He & Hn & Hx).
  pose proof (decimal_word _ Hb) as Wb. pose proof (decimal_word _ He) as We. pose proof (decimal_word _ Hn) as Wn.
  set (l3 := match x with Some x => 32 :: x | None => [] end) in *. assert (ends_word l3 = true) as Hl3 by apply ends_label.
  set (l1 := bits ++ 32 :: e ++ 32 :: n ++ l3) in *.
  assert (parse_v2_public_line realloc this_year text = Err GCR_ERROR_UNRECOGNIZED) as ->.
  { destruct o as [o|]; rewrite Et.
    - destruct (Ho o eq_refl) as [(Hwo & Hto & _) _]. rewrite <- app_assoc. apply (no_v2_line o bits (32 :: e ++ 32 :: n ++ l3)); [done|done|done|done|by apply decimal_no_type].
    - apply (no_v2_line bits e (32 :: n ++ l3)); [done|done|done|by apply decimal_no_type|by apply decimal_no_type]. }
  assert (forall options, (forall o, options = Some o -> 0 ∉ o) ->
    ('(word_bits, line) ← or_return GCR_ERROR_UNRECOGNIZED (next_word l1);
     '(word_exponent, line) ← or_return GCR_ERROR_UNRECOGNIZED (next_word line);
     '(word_modulus, line) ← or_return GCR_ERROR_UNRECOGNIZED (next_word line);
     bits ← defined (atoin word_bits 0 (length word_bits));
     if bits <=? 0 then Err GCR_ERROR_UNRECOGNIZED else
     builder ← on_failure GCR_ERROR_UNRECOGNIZED (read_decimal_mpi word_exponent [] (CK "CKA_PUBLIC_EXPONENT"));
     builder ← on_failure GCR_ERROR_UNRECOGNIZED (read_decimal_mpi word_modulus builder (CK "CKA_MODULUS"));
     Ok (finish text line options (add_ulong (add_ulong builder (CK "CKA_KEY_TYPE") (CK "CKK_RSA")) (CK "CKA_CLASS") (CK "CKO_PUBLIC_KEY")))) =
    Ok (v1_key_of e n x options text)) as Hend.
  { intros options Hop. unfold l1. rewrite (next_word_is bits) by done. cbn [or_return]. run. rewrite next_word_space, (next_word_is e) by done.
    cbn [or_return]. run. rewrite next_word_space, (next_word_is n) by done. cbn [or_return]. run.
    rewrite bits_value by done. cbn [defined]. run. destruct (Z.leb_spec (decimal_value bits) 0); [lia|].
    rewrite decimal_mpi by done. cbn [on_failure]. run. rewrite decimal_mpi by done. cbn [on_failure]. run.
    unfold l3. rewrite finish_label by done. done. }
  unfold parse_v1_public_line. destruct o as [o|].
  - destruct (Ho o eq_refl) as [(Hwo & _ & Hco & _ & Hno) Hdo]. assert (text = o ++ 32 :: l1) as Et' by (by rewrite Et, <- app_assoc).
    destruct (word_line o (32 :: l1) Hwo) as [E1 E2]. assert (skip_spaces text = o ++ 32 :: l1) as -> by (by rewrite Et').
    rewrite E2. destruct o as [|c o]; [done|]. cbn [hd_error or_return] in *. run. destruct (Z.eqb_spec c 35); [by subst|].
    change (is_digit c = false) in Hdo. rewrite Hdo. run. rewrite next_word_is by done. cbn [or_return]. run.
    rewrite next_word_space. apply Hend. by intros ? [= <-].
  - cbn [app] in Et. fold l1 in Et. unfold l1 in Et. destruct (word_line bits (32 :: e ++ 32 :: n ++ l3) Wb) as [E1 E2].
    assert (skip_spaces text = l1) as -> by (by rewrite Et). change (hd_error l1 = hd_error bits) in E2. rewrite E2. destruct Hb as [Hne Hb].
    destruct bits as [|c bits]; [done|]. apply Forall_cons in Hb as [Hc _]. cbn [hd_error or_return]. run.
    destruct (Z.eqb_spec c 35); [lia|]. assert (is_digit c = true) as -> by (unfold is_digit; apply andb_true_iff; split; apply Z.leb_le; lia).
    run. by apply Hend.
Qed.

Lemma v1_line_nonempty l : v1_ok l -> v1_line l <> [].
Proof. intros (_ & [Hb _] & _). unfold v1_line. destruct (v_options l) as [[|]|]; [done..|]. by destruct (v_bits l). Qed.

Lemma v1_in_line l : v1_ok l -> 10 ∉ v1_line l.
Proof.
  intros (Ho & [_ Hb] & _ & _ & [_ He] & [_ Hn] & Hx). rewrite !Forall_forall in *. unfold v1_line.
  rewrite !not_elem_of_app, not_elem_of_cons, not_elem_of_app, not_elem_of_cons, not_elem_of_app. split_and!; try done.
  - destruct (v_options l) as [o|]; [|by apply not_elem_of_nil]. destruct (Ho o eq_refl) as [(_ & _ & _ & Ht & _) _].
    rewrite not_elem_of_app, list_elem_of_singleton. by split.
  - intros Hin. apply Hb in Hin. lia.
  - intros Hin. apply He in Hin. lia.
  - intros Hin. apply Hn in Hin. lia.
  - destruct (v_label l) as [x|]; [|by apply not_elem_of_nil]. destruct (Hx x eq_refl) as (_ & _ & Ht & _).
    rewrite not_elem_of_cons. by split.
Qed.
End V1.

(** * Files *)

Section Files.
Context `{Environment} `{GListSort} `{KeyTypes} `{Base64Laws}.
Context (realloc : nat -> option (list Z) -> Z -> option (list Z)) (Hrealloc : realloc_ok realloc).
Context (Halloc : forall n, is_Some (realloc G_REALLOC None n)) (this_year : Z).

(** A line without a key: only spaces, or a comment. *)
Definition no_key (s : list Z) : Prop := match skip_spaces s with [] => True | c :: _ => c = 35 end.

Lemma parse_no_key s : no_key s -> parse_line realloc this_year s = Err GCR_ERROR_UNRECOGNIZED.
Proof.
  unfold no_key, parse_line, parse_v2_public_line, parse_v1_public_line. destruct (skip_spaces s) as [|c l]; [done|]. by intros ->.
Qed.

Lemma parse_key l : line_ok l -> parse_line realloc this_year (line_of l) = Ok (key_of l).
Proof. intros Hl. unfold parse_line. by rewrite parse_v2_key. Qed.

Lemma line_of_nonempty l : line_of l <> [].
Proof. unfold line_of. destruct (l_options l) as [[|]|]; [done..|]. by destruct (l_key l) as [| | |[]]. Qed.

Lemma line_of_in_line l : line_ok l -> 10 ∉ line_of l.
Proof.
  intros (Hk & Ho & Hx). unfold line_of. rewrite !not_elem_of_app, not_elem_of_cons, not_elem_of_app. split_and!.
  - destruct (l_options l) as [o|]; [|by apply not_elem_of_nil]. destruct (Ho o eq_refl) as (_ & _ & _ & Hn & _).
    rewrite not_elem_of_app, list_elem_of_singleton. by split.
  - destruct (l_key l) as [| | |[]]; decide_now.
  - done.
  - intros Hin. pose proof (encode_chars _ (wire_bytes _ Hk)) as Hc. rewrite Forall_forall in Hc. apply Hc, base64_plain in Hin. lia.
  - destruct (l_label l) as [x|]; [|by apply not_elem_of_nil]. destruct (Hx x eq_refl) as (_ & _ & Hn & _).
    rewrite not_elem_of_cons. by split.
Qed.

(** A file: keys, and lines without keys. *)
Inductive Item := KeyItem (l : KeyLine) | V1Item (l : V1Line) | OtherItem (s : list Z).

Definition item_line (i : Item) : list Z := match i with KeyItem l => line_of l | V1Item l => v1_line l | OtherItem s => s end.
Definition item_ok (i : Item) : Prop := match i with KeyItem l => line_ok l | V1Item l => v1_ok l | OtherItem s => no_key s /\ 10 ∉ s end.
Definition item_key (i : Item) : option PubKey := match i with KeyItem l => Some (key_of l) | V1Item l => Some (v1_key l) | OtherItem _ => None end.

Definition file_of (items : list Item) : list Z := concat ((fun l => l ++ [10]) <$> (item_line <$> items)).

Lemma keys_of_items items : Forall item_ok items ->
  keys_of realloc this_year ((item_line <$> items) ++ [[]]) = Some (omap item_key items).
Proof.
  induction 1 as [|i items Hi Hall IH]; [done|]. rewrite fmap_cons. cbn [app keys_of]. rewrite IH. cbn [mbind option_bind omap list_omap].
  destruct i as [l|l|s]; cbn [item_line item_key item_ok] in *.
  - rewrite bool_decide_eq_false_2 by apply line_of_nonempty. by rewrite parse_key.
  - rewrite bool_decide_eq_false_2 by (by apply v1_line_nonempty). by rewrite parse_v1_key.
  - destruct Hi as [Hn _]. destruct (bool_decide (s = [])); [done|]. by rewrite parse_no_key.
Qed.

Lemma omap_length_le {A B} (f : A -> option B) l : (length (omap f l) <= length l)%nat.
Proof. induction l as [|a l IH]; [done|]. cbn [omap list_omap]. destruct (f a); cbn [length]; lia. Qed.

(** C17: a file of public keys - RSA, DSA, Ed25519 and ECDSA on the three curves in the form
    of protocol 2, RSA in that of protocol 1, with options and labels or without - among
    blank lines and comments is read back: the callback is called for each key in order, with the attributes of the
    key, its label, its options and its line, and their number is returned. *)
Theorem openssh_reads_keys (items : list Item) (callback : bool) : Forall item_ok items -> Zlen items < 2 ^ 32 ->
  _gcr_openssh_pub_parse realloc this_year (file_of items) callback =
    Ok (Zlen (omap item_key items), if callback then omap item_key items else []).
Proof.
  intros Hall Hn. rewrite pub_parse_keys. unfold file_of. rewrite split_on_lines, keys_of_items by done || (
    rewrite Forall_fmap; eapply Forall_impl; [exact Hall|]; intros [l|l|s] Hi; [by apply line_of_in_line|by apply v1_in_line|apply Hi]).
  pose proof (omap_length_le item_key items). by rewrite u32_small by lia.
Qed.
End Files.
