(* ===== verification/OpenSshSafe.v ===== *)
(** OpenSSH public keys: parsing any file.

    [mismatched] and [long_bits] are the lines for which the code is undefined: the first
    prints memory that has been freed, the second multiplies an int beyond its range.  On
    files without them parsing is defined ([openssh_parse_safe]). *)

From S2P Require Import Decimal Buffer Attributes Prelude Text Armor ArmorSpec Asn1Tlv Asn1Value Asn1Node Sorting Asn1Create Asn1Tables Asn1Decode Asn1Safe Asn1Build Asn1Access OpenSsh OpenSshSpec.
Local Open Scope Z_scope.

(** Decoding gives bytes. *)
Class Base64Bytes `{Base64} : Prop := decode_bytes s : bytes (base64_decode s).

(** A computation that may fail, but is defined; its result satisfies [P]. *)
Definition safe {E A} (P : A -> Prop) (r : res E A) : Prop := match r with Ok a => P a | Err _ => True | Ub => False end.

Lemma safe_bind {E A B} (P : A -> Prop) (Q : B -> Prop) (r : res E A) (f : A -> res E B) :
  safe P r -> (forall a, r = Ok a -> P a -> safe Q (f a)) -> safe Q (r ≫= f).
Proof. intros Hr Hf. destruct r as [a| |]; cbn in *; auto. Qed.

Lemma safe_return {E A} (e : E) (o : option A) (P : A -> Prop) : (forall a, o = Some a -> P a) -> safe P (or_return e o).
Proof. destruct o; cbn; auto. Qed.

Lemma safe_on_failure {E F A} (e : E) (r : res F A) (P : A -> Prop) : safe P r -> safe P (on_failure e r).
Proof. by destruct r. Qed.

(** * Readers *)

(** A reader inside of data of at most [n] bytes. *)
Definition sound (n : Z) (r : Reader) : Prop :=
  let '(b, off, _) := r in buffer_wf b /\ 0 <= off /\ bytes (content b) /\ Buffer.len b < n.

Section Readers.
Context `{Environment} `{GListSort} (n : Z) (Hn : n <= 2 ^ 30).

Lemma get_byte_array_safe r : sound n r ->
  safe (fun '(data, next) => (forall v, data = Some v -> Zlen v < n) /\ forall builder, sound n (next builder)) (get_byte_array r).
Proof.
  destruct r as [[b off] builder]. intros (Hwf & Hoff & Hby & Hl). pose proof (wf_len _ Hwf). pose proof (wf_cap _ Hwf).
  unfold get_byte_array, egg_buffer_get_byte_array.
  destruct (get_uint32_cases b off Hwf Hoff Hby) as [->|(m & -> & Hm & Hfit)]; [done|]. run.
  destruct (m =? 0xffffffff); [run; cbn; split; [done|]; intros; split_and!; [done|lia|done|done]|].
  destruct (0x7fffffff <=? m); [done|]. destruct (out_of_buffer b (off + 4) m) eqn:E; [done|].
  apply out_of_buffer_false in E as [E _]. destruct (content_split b (off + 4) m Hwf ltac:(lia) ltac:(lia) E) as (pre & v & post & Hc & Hp & Hv).
  rewrite <- Hp, <- Hv. rewrite (buffer_load_content b pre v post) by (done || lia). run. cbn. split.
  - intros ? [= <-]. lia.
  - intros builder'. rewrite u64_small by lia. split_and!; [done|lia|done|done].
Qed.

Lemma read_mpi_safe r t : sound n r -> safe (sound n) (read_buffer_mpi r t).
Proof. intros Hr. eapply safe_bind; [by apply get_byte_array_safe|]. intros [data next] _ [_ Hnext]. apply Hnext. Qed.

Lemma add_ulongs_sound r t v t' v' : sound n r -> sound n (add_to_reader (add_to_reader r t v) t' v').
Proof. by destruct r as [[b off] builder]. Qed.

Ltac next_mpi := eapply safe_bind; [apply read_mpi_safe; eassumption|]; intros ? _ ?.

Lemma read_dsa_safe r : sound n r -> safe (sound n) (read_v2_public_dsa r).
Proof.
  intros Hr. do 4 next_mpi. by apply add_ulongs_sound.
Qed.

Lemma read_rsa_safe r : sound n r -> safe (sound n) (read_v2_public_rsa r).
Proof. intros Hr. do 2 next_mpi. by apply add_ulongs_sound. Qed.

Lemma read_ed25519_safe r : sound n r -> safe (sound n) (read_v2_public_ed25519 r).
Proof. intros Hr. next_mpi. by apply add_ulongs_sound. Qed.

Lemma read_der_safe y r t : sound n r -> safe (sound n) (read_buffer_mpi_to_der y r t).
Proof.
  intros Hr. eapply safe_bind; [by apply get_byte_array_safe|]. intros [data next] _ [Hd Hnext].
  rewrite create_ec_point. cbn [defined or_return mbind res_bind]. destruct data as [v|]; cbn [on_data].
  - pose proof (encode_octet_string y v ltac:(specialize (Hd v eq_refl); lia)) as E. cbn zeta in E. rewrite E. apply Hnext.
  - match goal with |- context [egg_asn1x_encode y ?t] => assert (exists a, egg_asn1x_encode y t = Ok (None, a)) as [a ->] end; [|done].
    eexists. vm_compute. reflexivity.
Qed.

Section Strings.
Context (realloc : nat -> option (list Z) -> Z -> option (list Z)) (Hrealloc : realloc_ok realloc) (y : Z).

Lemma get_string_safe b off builder : sound n (b, off, builder) ->
  safe (fun '(v, b') => forall s off', v = Some (s, off') -> forall builder, sound n (b', off', builder)) (egg_buffer_get_string realloc b off (Some G_REALLOC)).
Proof.
  intros (Hwf & Hoff & Hby & Hl). pose proof (wf_len _ Hwf). pose proof (wf_cap _ Hwf). unfold egg_buffer_get_string.
  destruct (get_uint32_cases b off Hwf Hoff Hby) as [->|(m & -> & Hm & Hfit)]; [done|]. run.
  destruct (m =? 0xffffffff); [cbn; intros ? ? [= <- <-] ?; split_and!; [done|lia|done|done]|].
  destruct (0x7fffffff <=? m); [done|]. destruct (out_of_buffer b (off + 4) m) eqn:E; [done|].
  apply out_of_buffer_false in E as [E _]. destruct (content_split b (off + 4) m Hwf ltac:(lia) ltac:(lia) E) as (pre & v & post & Hc & Hp & Hv).
  rewrite <- Hp, <- Hv. rewrite (buffer_load_content b pre v post) by (done || lia). run.
  destruct (bool_decide _); [done|]. destruct (realloc G_REALLOC None (Zlen v + 1)) as [mem|] eqn:Em; [|done].
  destruct (Hrealloc G_REALLOC None (Zlen v + 1) mem ltac:(lia) Em) as [Hml _].
  pose proof (wr_app [] mem [] (v ++ [0])) as Hw. rewrite !app_nil_r in Hw. cbn [app length] in Hw. change (Z.of_nat 0) with 0 in Hw.
  rewrite Hw by (rewrite length_app; cbn [length]; lia). run. intros ? ? [= <- <-] ?. rewrite u64_small by lia. split_and!; [done|lia|done|done].
Qed.

Lemma read_ecdsa_safe r : sound n r -> safe (sound n) (read_v2_public_ecdsa realloc y r).
Proof.
  destruct r as [[b off] builder]. intros Hr. eapply safe_bind; [by eapply get_string_safe|]. intros [v b'] _ Hs.
  eapply safe_bind; [by apply (safe_return _ v (fun p => v = Some p)); intros ? ->|]. intros [curve off'] _ Hv.
  eapply safe_bind; [by apply (safe_return _ _ (fun oid => curve_oid curve = Some oid))|]. intros oid _ Ho.
  destruct (curve_oid_cases curve oid Ho) as [c ->]. rewrite (curve_params_der y c oid Ho). cbn [mbind res_bind].
  eapply safe_bind; [apply read_der_safe; by eapply Hs|]. intros r _ Hr'. by apply add_ulongs_sound.
Qed.
End Strings.
End Readers.

(** * Numbers *)

(** The last ten characters are digits. *)
Definition ten_digits (w : list Z) : bool := (10 <=? Zlen w) && forallb is_digit (take 10 (reverse w)).

Lemma atoin_stops mem p : 0 <= p -> forall n k ret, p + Z.of_nat n <= Zlen mem -> 0 <= ret < 10 ^ Z.of_nat k -> (k <= 9)%nat ->
  (k + n <= 9)%nat \/ (exists j c, (j < n)%nat /\ (j + k < 10)%nat /\ rd mem (p + Z.of_nat (n - 1 - j)) = Some c /\ is_digit c = false) ->
  is_Ok (atoin_loop mem p n ret (10 ^ Z.of_nat k)).
Proof.
  intros Hp. induction n as [|n IH]; intros k ret Hl Hr Hk Hcase; cbn [atoin_loop]; [by eexists|].
  destruct (proj2 (rd_Some_iff mem (p + Z.of_nat n)) ltac:(lia)) as [c Hc]. rewrite Hc. run.
  destruct (is_digit c) eqn:Ed; cbn [negb]; [|by eexists]. pose proof Ed as Hd. unfold is_digit in Hd. rewrite andb_true_iff, !Z.leb_le in Hd.
  assert ((k + 1 <= 9)%nat /\ ((k + 1 + n <= 9)%nat \/ (exists j c, (j < n)%nat /\ (j + (k + 1) < 10)%nat /\
    rd mem (p + Z.of_nat (n - 1 - j)) = Some c /\ is_digit c = false))) as [Hk1 Hnext].
  { destruct Hcase as [Hcase|([|j] & d & Hj & Hjk & Hrd & Hnd)]; [lia|..].
    - replace (S n - 1 - 0)%nat with n in Hrd by lia. congruence.
    - split; [lia|right]. exists j, d. split_and!; [lia|lia| |done]. by replace (n - 1 - j)%nat with (S n - 1 - S j)%nat by lia. }
  assert (10 ^ Z.of_nat k * 10 = 10 ^ Z.of_nat (k + 1)) as Eb by (rewrite Nat2Z.inj_add, Z.pow_add_r by lia; lia).
  assert (10 ^ Z.of_nat (k + 1) <= 10 ^ 9) as Hle by (apply Z.pow_le_mono_r; lia). change (10 ^ 9) with 1000000000 in Hle.
  assert (ret + (c - 48) * 10 ^ Z.of_nat k < 10 ^ Z.of_nat (k + 1)) as Hret by (rewrite <- Eb; nia).
  rewrite Eb, c_assert_true by (apply andb_true_iff; split; apply Z.ltb_lt; lia). run.
  apply IH; [lia|nia|lia|done].
Qed.

Lemma atoin_short w : ten_digits w = false -> is_Ok (atoin w 0 (length w)).
Proof.
  intros Ht. apply (atoin_stops w 0 ltac:(lia) (length w) 0 0); [lia|cbn; lia|lia|].
  unfold ten_digits in Ht. apply andb_false_iff in Ht as [Ht|Ht]; [apply Z.leb_gt in Ht; left; lia|right].
  apply not_true_iff_false in Ht. rewrite forallb_forall in Ht.
  destruct (decide (Forall (fun c => is_digit c = true) (take 10 (reverse w)))) as [Hf|Hf].
  { exfalso. apply Ht. intros c Hin. rewrite Forall_forall in Hf. by apply Hf, list_elem_of_In. }
  apply not_Forall_Exists, Exists_exists in Hf as (c & Hin & Hc); [|apply _].
  apply list_elem_of_lookup in Hin as [j Hj]. apply lookup_take_Some in Hj as [Hj Hj10].
  pose proof (lookup_lt_Some _ _ _ Hj) as Hlt. rewrite length_reverse in Hlt. exists j, c. split_and!; [done|lia| |by apply not_true_iff_false].
  rewrite reverse_lookup in Hj by done. rewrite Z.add_0_l. apply rd_lookup. split; [lia|].
  rewrite <- Hj. f_equal. lia.
Qed.

(** * Keys and lines *)

Lemma split_on_length d l : Forall (fun p => (length p <= length l)%nat) (split_on d l).
Proof.
  induction l as [|c l IH]; cbn [split_on]; [by repeat constructor|]. destruct (c =? d).
  - constructor; [cbn; lia|]. eapply Forall_impl; [exact IH|]. cbn [length]. intros p Hp. lia.
  - destruct (split_on d l) as [|p ps]; [constructor|]. inversion_clear IH as [|? ? Hp Hps]. constructor; [cbn [length]; lia|].
    eapply Forall_impl; [exact Hps|]. cbn [length]. intros q Hq. lia.
Qed.

Lemma split_on_count d l : (length (split_on d l) <= S (length l))%nat.
Proof.
  induction l as [|c l IH]; cbn [split_on length]; [lia|]. destruct (c =? d); [cbn [length]; lia|].
  destruct (split_on d l); cbn [length] in *; lia.
Qed.

Section Lines.
Context `{Environment} `{GListSort} `{Base64Laws} `{!Base64Bytes}.
Context (realloc : nat -> option (list Z) -> Z -> option (list Z)) (Hrealloc : realloc_ok realloc) (y : Z).

(** The algorithm at the beginning of a decoded key is a text, and not the one of the
    line. *)
Definition other_type (algo : Z) (key : list Z) : bool :=
  match egg_buffer_get_string realloc (egg_buffer_init_static (base64_decode key)) 0 (Some G_REALLOC) with
  | Ok (Some (Some stype, _), _) => negb (u64 (s32 (keytype_to_algo (Some stype))) =? algo)
  | _ => false
  end.

(** The algorithm and the key of a line of protocol 2; the first word may be options. *)
Definition v2_words (line : list Z) : option (Z * list Z) :=
  '(word, line) ← next_word line;
  let algo := keytype_to_algo (Some word) in
  '(algo, line) ← (if algo =? G_MAXULONG then '(word, line) ← next_word line; Some (keytype_to_algo (Some word), line) else Some (algo, line));
  '(key, _) ← next_word line;
  Some (algo, key).

Definition mismatched (line : list Z) : bool :=
  match v2_words line with Some (algo, key) => other_type algo key | None => false end.

(** The number of bits of a line of protocol 1 ends in ten digits. *)
Definition long_bits (line : list Z) : bool :=
  let line := skip_spaces line in
  let line := if is_digit (default 0 (hd_error line)) then Some line else snd <$> next_word line in
  match line ≫= next_word with Some (bits, _) => ten_digits bits | None => false end.

Lemma keytype_cases algo : keytype_to_algo algo = G_MAXULONG \/ keytype_to_algo algo = CK "CKK_RSA" \/
  keytype_to_algo algo = CK "CKK_DSA" \/ keytype_to_algo algo = CK "CKK_EC_EDWARDS" \/ keytype_to_algo algo = CK "CKK_ECDSA".
Proof. unfold keytype_to_algo. destruct algo as [a|]; [|by left]. repeat (case_match; [tauto|]). by left. Qed.

Lemma read_key_safe algo data builder : Zlen data < 2 ^ 30 -> bytes data -> algo <> G_MAXULONG ->
  (exists a, algo = keytype_to_algo a) ->
  (match egg_buffer_get_string realloc (egg_buffer_init_static data) 0 (Some G_REALLOC) with
   | Ok (Some (Some stype, _), _) => negb (u64 (s32 (keytype_to_algo (Some stype))) =? algo) | _ => false end = false) ->
  safe (fun _ => True) (read_v2_public_key realloc y algo data builder).
Proof.
  intros Hl Hb Ha [a Hk] Hm. unfold read_v2_public_key.
  assert (sound (2 ^ 30) (egg_buffer_init_static data, 0, builder)) as Hs.
  { split_and!; [apply static_wf; lia|done|by rewrite static_content|cbn; lia]. }
  pose proof (get_string_safe (2 ^ 30) ltac:(lia) realloc Hrealloc _ _ _ Hs) as Hg.
  destruct (egg_buffer_get_string _ _ _ _) as [[v b']| |]; [|done..]. cbn [mbind res_bind safe] in *.
  destruct v as [[stype off']|]; [|done]. cbn [or_return mbind res_bind].
  destruct (u64 (s32 (keytype_to_algo stype)) =? algo) eqn:E; cbn [negb]; [|by destruct stype; [rewrite E in Hm|]].
  specialize (Hg stype off' eq_refl builder). eapply (safe_bind (sound (2 ^ 30))); [|by intros].
  destruct (keytype_cases a) as [Hc|Hc]; rewrite <- Hk in Hc; [done|].
  destruct (Z.eqb_spec algo (CK "CKK_RSA")); [by apply read_rsa_safe|].
  destruct (Z.eqb_spec algo (CK "CKK_DSA")); [by apply read_dsa_safe|].
  destruct (Z.eqb_spec algo (CK "CKK_EC_EDWARDS")); [by apply read_ed25519_safe|].
  destruct (Z.eqb_spec algo (CK "CKK_ECDSA")); [by apply read_ecdsa_safe|]. exfalso. tauto.
Qed.

Lemma decode_key_safe algo key builder : Zlen key < 2 ^ 30 -> algo <> G_MAXULONG -> (exists a, algo = keytype_to_algo a) ->
  other_type algo key = false -> safe (fun _ => True) (decode_v2_public_key realloc y algo key builder).
Proof.
  intros Hl Ha Hk Ho. unfold decode_v2_public_key. pose proof (decode_fits key) as Hf.
  rewrite c_assert_true by (apply Z.leb_le; rewrite u64_small by lia; lia_div). cbn [mbind res_bind].
  destruct (Zlen (base64_decode key) =? 0); [done|]. apply read_key_safe; [lia|apply decode_bytes|done|done|exact Ho].
Qed.

Lemma skip_spaces_next line : next_word (skip_spaces line) = next_word line.
Proof.
  assert (skip_spaces (skip_spaces line) = skip_spaces line) as E; [|unfold next_word; by rewrite E].
  induction line as [|c line IH]; cbn [skip_spaces]; [done|]. destruct (c =? 32) eqn:Ec; [done|]. cbn [skip_spaces]. by rewrite Ec.
Qed.

(** A key that is found is that of the line. *)
Definition of_line (line : list Z) (k : PubKey) : Prop := k_outer k = line.

Lemma parse_v2_safe line : Zlen line < 2 ^ 30 -> mismatched line = false -> safe (of_line line) (parse_v2_public_line realloc y line).
Proof.
  intros Hl Hm. unfold parse_v2_public_line. unfold mismatched, v2_words in Hm. rewrite skip_spaces_next.
  destruct (hd_error _) as [c|]; [|done]. cbn [or_return mbind res_bind]. destruct (c =? 35); [done|].
  destruct (next_word line) as [[word l1]|] eqn:E1; [|done]. apply next_word_length in E1. cbn [or_return mbind res_bind option_bind] in *.
  assert (forall algo options rest, (length rest <= length line)%nat -> algo <> G_MAXULONG -> (exists a, algo = keytype_to_algo a) ->
    (forall key l, next_word rest = Some (key, l) -> other_type algo key = false) ->
    safe (of_line line) ('(word_key, l) ← or_return GCR_ERROR_FAILURE (next_word rest);
      builder ← on_failure GCR_ERROR_FAILURE (decode_v2_public_key realloc y algo word_key []); Ok (finish line l options builder))) as Hend.
  { intros algo options rest Hr Ha Hk Ho. destruct (next_word rest) as [[key l]|] eqn:E; [|done]. cbn [or_return mbind res_bind].
    specialize (Ho key l eq_refl). apply next_word_length in E. eapply safe_bind; [apply safe_on_failure, decode_key_safe; [lia|done..]|]. done. }
  destruct (Z.eqb_spec (keytype_to_algo (Some word)) G_MAXULONG) as [Ea|Ea].
  - destruct (next_word l1) as [[word2 l2]|] eqn:E2; [|done]. apply next_word_length in E2. cbn [or_return mbind res_bind option_bind] in *.
    destruct (Z.eqb_spec (keytype_to_algo (Some word2)) G_MAXULONG) as [Ea2|Ea2]; [done|]. cbn [mbind res_bind].
    apply Hend; [lia|done|by eexists|]. intros key l El. by rewrite El in Hm.
  - cbn [mbind res_bind option_bind] in *. apply Hend; [lia|done|by eexists|]. intros key l El. by rewrite El in Hm.
Qed.

Lemma decimal_safe text builder t : safe (fun _ => True) (read_decimal_mpi text builder t).
Proof.
  unfold read_decimal_mpi. destruct (decide (Forall (fun ch => 48 <= ch <= 57) text)) as [Hd|Hd].
  - destruct (decimal_decode_digits text Hd) as (out & -> & _). done.
  - apply not_Forall_Exists in Hd; [|apply _]. by rewrite (decimal_decode_other text Hd).
Qed.

Lemma parse_v1_safe line : long_bits line = false -> safe (of_line line) (parse_v1_public_line line).
Proof.
  intros Hb. unfold parse_v1_public_line. unfold long_bits in Hb. set (l0 := skip_spaces line) in *.
  destruct (hd_error l0) as [c|]; [|done]. cbn [or_return mbind res_bind] in *. change (default 0 (Some c)) with c in Hb.
  destruct (c =? 35); [done|].
  assert (forall options l, match next_word l with Some (bits, _) => ten_digits bits | None => false end = false ->
    safe (of_line line) ('(word_bits, l) ← or_return GCR_ERROR_UNRECOGNIZED (next_word l);
      '(word_exponent, l) ← or_return GCR_ERROR_UNRECOGNIZED (next_word l);
      '(word_modulus, l) ← or_return GCR_ERROR_UNRECOGNIZED (next_word l);
      bits ← defined (atoin word_bits 0 (length word_bits));
      if bits <=? 0 then Err GCR_ERROR_UNRECOGNIZED else
      builder ← on_failure GCR_ERROR_UNRECOGNIZED (read_decimal_mpi word_exponent [] (CK "CKA_PUBLIC_EXPONENT"));
      builder ← on_failure GCR_ERROR_UNRECOGNIZED (read_decimal_mpi word_modulus builder (CK "CKA_MODULUS"));
      Ok (finish line l options (add_ulong (add_ulong builder (CK "CKA_KEY_TYPE") (CK "CKK_RSA")) (CK "CKA_CLASS") (CK "CKO_PUBLIC_KEY"))))) as Hend.
  { intros options l Hl. destruct (next_word l) as [[bits l1]|]; [|done]. cbn [or_return mbind res_bind].
    destruct (next_word l1) as [[e l2]|]; [|done]. cbn [or_return mbind res_bind]. destruct (next_word l2) as [[m l3]|]; [|done].
    cbn [or_return mbind res_bind]. destruct (atoin_short bits Hl) as [v ->].
    cbn [defined mbind res_bind]. destruct (v <=? 0); [done|].
    do 2 (eapply safe_bind; [apply safe_on_failure, decimal_safe|]; intros ? _ _). done. }
  destruct (is_digit c); cbn [mbind res_bind option_bind] in *; [by apply Hend|].
  destruct (next_word l0) as [[options l]|]; [|done]. cbn [or_return mbind res_bind fmap option_fmap option_map snd option_bind] in *. by apply Hend.
Qed.

(** The lines for which parsing is defined; only what protocol 2 does not recognize is
    taken for protocol 1. *)
Definition defined_line (line : list Z) : bool :=
  negb (mismatched line) &&
  match parse_v2_public_line realloc y line with Err GCR_ERROR_UNRECOGNIZED => negb (long_bits line) | _ => true end.

Lemma parse_line_safe line : Zlen line < 2 ^ 30 -> defined_line line = true -> safe (of_line line) (parse_line realloc y line).
Proof.
  intros Hl [Hm%negb_true_iff Hb]%andb_true_iff. unfold parse_line. pose proof (parse_v2_safe line Hl Hm) as Hv2.
  destruct (parse_v2_public_line realloc y line) as [k|[]|]; [done|done|by apply parse_v1_safe, negb_true_iff|done].
Qed.

Lemma keys_of_safe lines : Forall (fun l => Zlen l < 2 ^ 30 /\ defined_line l = true) lines ->
  exists keys, keys_of realloc y lines = Some keys /\ k_outer <$> keys `sublist_of` lines.
Proof.
  induction 1 as [|line lines (Hl & Hd) _ (keys & IH & Hsub)]; [by exists []|]. cbn [keys_of]. rewrite IH. cbn [mbind option_bind].
  destruct (bool_decide (line = [])); [exists keys; split; [done|by apply sublist_cons]|].
  pose proof (parse_line_safe line Hl Hd) as Hs. destruct (parse_line realloc y line) as [k|e|]; [|by eexists; split; [|apply sublist_cons]|done].
  exists (k :: keys). split; [done|]. cbn [fmap list_fmap]. rewrite Hs. by apply sublist_skip.
Qed.

(** C27: whatever is in a file, if no line of it says another algorithm in its key than in
    front of it, or has ten digits at the end of a number of bits, then parsing ends
    with no undefined behaviour: no byte is read outside of the file or of a key, every
    assertion holds.  The keys it calls back with have lines of the file, in order, and the
    number returned is theirs. *)
Theorem openssh_parse_safe (data : list Z) (callback : bool) : Zlen data < 2 ^ 30 ->
  (forall line, line ∈ split_on 10 data -> defined_line line = true) ->
  exists keys, _gcr_openssh_pub_parse realloc y data callback = Ok (Zlen keys, if callback then keys else []) /\
    k_outer <$> keys `sublist_of` split_on 10 data.
Proof.
  intros Hl Hlines. assert (forall l, l ∈ split_on 10 data -> Zlen l < 2 ^ 30) as Hlen.
  { intros l Hin. pose proof (split_on_length 10 data) as Hs. rewrite Forall_forall in Hs. specialize (Hs l Hin). lia. }
  destruct (keys_of_safe (split_on 10 data)) as (keys & Hk & Hsub).
  { apply Forall_forall. intros l Hin. split; [by apply Hlen|by apply Hlines]. }
  exists keys. split; [|done]. rewrite pub_parse_keys, Hk. apply sublist_length in Hsub. rewrite length_fmap in Hsub.
  pose proof (split_on_count 10 data). by rewrite u32_small by lia.
Qed.
End Lines.
