(* ===== verification/OpenSshAttrs.v ===== *)
(** OpenSSH public keys: the sets of attributes that the callback is given.

    [OpenSsh] keeps what it puts into a [GckBuilder] as a list.  Here the builder is that of
    [src/gck/gck-attributes.c]: [key_attributes] makes the calls for such a list, on a
    builder on the stack, and [builder_holds] says what set comes out. *)

From S2P Require Import Prelude Text StateM Attributes AttrStore AttrOps AttrObjects AttrContract OpenSsh.
Local Open Scope Z_scope.

Section Attrs.
Context `{Environment}.

Fixpoint run_adds (b : Z) (adds : list (Z * option (list Z))) : M unit :=
  match adds with
  | [] => mret tt
  | (t, src) :: adds => gck_builder_add_data b t src (Zlen (default [] src)) false;; run_adds b adds
  end.

(** From [GCK_BUILDER_INIT] to [gck_builder_end]. *)
Definition key_attributes (adds : list (Z * option (list Z))) : M Z := on_stack (fun b => run_adds b adds;; gck_builder_end b).

(** What such a call puts into the set. *)
Definition entry_of (e : Z * option (list Z)) : Entry :=
  (e.1, match e.2 with Some bs => Bytes bs | None => Null 0 end).

Lemma stored_all src : Zlen (default [] src) < 2 ^ 62 ->
  stored src (Zlen (default [] src)) = match src with Some bs => Bytes bs | None => Null 0 end.
Proof.
  intros Hl. unfold stored. rewrite (proj2 (Z.eqb_neq _ _)) by (unfold G_MAXULONG; lia). destruct src as [bs|]; [|done].
  cbn [default]. by rewrite Nat2Z.id, firstn_all.
Qed.

Lemma wp_run_adds b st0 adds : forall st es (Q : unit -> St -> Prop), b <> 0 -> ok [] st -> held [] st + Zlen adds < 2 ^ 31 ->
  Forall (fun e => Zlen (default [] e.2) < 2 ^ 62) adds -> abs st = set_builder b (mk_ab es false 0) st0 ->
  (forall st', ok [] st' -> abs st' = set_builder b (mk_ab (es ++ (entry_of <$> adds)) false 0) st0 -> Q tt st') ->
  wp (run_adds b adds) Q st.
Proof.
  induction adds as [|[t src] adds IH]; intros st es Q Hb Hok Hroom Hall Habs HQ; cbn [run_adds].
  { step. apply HQ; [done|]. by rewrite app_nil_r. }
  apply Forall_cons in Hall as [Hsrc Hall]. cbn [snd length] in *.
  assert (abs_b (abs st) !! b = Some (mk_ab es false 0)) as HB by (rewrite Habs; apply lookup_insert_eq).
  destruct (abs_b_lookup _ _ _ HB) as (r & Hr & E). step. unfold gck_builder_add_data. destruct (Z.eqb_spec b 0); [done|].
  change (builder_push b t) with (take_slot b t false).
  eapply (wp_put_data [] st b t false src _ false r); [exact Hok|lia|exact Hr| |].
  - right. destruct src as [bs|]; [right|by left]. exists bs. split_and!; [done| |cbn; lia].
    assert (secure r = false) as -> by (injection E; congruence). unfold allocatable, MAX_ALIGN. cbn in *. lia.
  - intros st1 (Hok1 & Hput & Hheld1). rewrite (put_place _ _ _ _ _ _ HB) in Hput. apply (inj Some) in Hput.
    cbn [place entries] in Hput. rewrite Habs, set_entries_builder, stored_all in Hput by done.
    apply (IH st1 (es ++ [entry_of (t, src)])); [done|done|lia|done|by rewrite <- Hput|].
    intros st2 Hok2 Habs2. apply HQ; [done|]. rewrite Habs2. by rewrite <- (assoc_L (++)).
Qed.

(** The calls that [OpenSsh] makes on a builder, run by the functions of
    [gck-attributes.c], are defined and give a new set with one reference that has just
    these attributes, in order; nothing else changes and no count is wrong. *)
Theorem builder_holds (st : St) (adds : list (Z * option (list Z))) : ok [] st -> held [] st + Zlen adds < 2 ^ 31 ->
  Forall (fun e => Zlen (default [] e.2) < 2 ^ 62) adds ->
  exists a st', key_attributes adds st = Ok (a, st') /\ ok [] st' /\
    a = new_address (abs_a (abs st)) /\ abs st' = set_attributes a (entry_of <$> adds, 1) (abs st).
Proof.
  intros Hok Hroom Hall.
  assert (wp (key_attributes adds) (fun a st' => ok [] st' /\ a = new_address (abs_a (abs st)) /\
    abs st' = set_attributes a (entry_of <$> adds, 1) (abs st)) st) as Hwp.
  { unfold key_attributes, on_stack. do 2 step. set (b := new_address (builders st)).
    destruct (new_address_fresh (builders st)) as [Hfresh Hpos]. fold b in Hfresh, Hpos.
    step. unfold gck_builder_init. eapply wp_init_full; [exact Hok|lia|by rewrite Hfresh|]. intros st1 (Hok1 & Habs1%(inj Some) & Hheld1) _.
    step. step. eapply (wp_run_adds b (abs st) adds st1 []); [lia|done|lia|done|by rewrite <- Habs1|]. intros st2 Hok2 Habs2. cbn [app] in Habs2.
    assert (abs_b (abs st2) !! b = Some (mk_ab (entry_of <$> adds) false 0)) as HB by (rewrite Habs2; apply lookup_insert_eq).
    eapply wp_end; [exact Hok2|lia|exact HB|]. intros st3 (Hok3 & Habs3%(inj Some) & _) Hbs3. step. step. step.
    destruct (ok_delete_builder [] st3 b (mk_builder None false 0) Hok3) as [G1 G2]; [rewrite Hbs3; apply lookup_insert_eq|done|].
    split; [exact G1|]. split; [by rewrite Habs2|]. rewrite G2, <- Habs3, Habs2, set_entries_builder.
    unfold set_attributes, set_builder. cbn [abs_b abs_a abs_s entries].
    rewrite delete_insert_eq, delete_id; [done|]. cbn [abs abs_b]. by rewrite lookup_fmap, Hfresh. }
  apply wp_run in Hwp as (a & st' & E & Hok' & -> & Habs). by eexists _, st'.
Qed.
End Attrs.
