(* ===== verification/OpenSshCases.v ===== *)
(** OpenSSH public keys: the theorems at concrete files, and lines that the code does not
    treat as it should. *)

From S2P Require Import Decimal Buffer Attributes AttrStore AttrOps AttrObjects AttrContract Prelude Text Armor ArmorSpec Base64 Sorting OpenSsh OpenSshSpec OpenSshSafe OpenSshAttrs.
Local Open Scope Z_scope.

(** * Parameters *)

(** The PKCS#11 constants. *)
Definition pkcs11_constants : list (list Z * Z) := [
  (lit "CKK_RSA", 0); (lit "CKK_DSA", 1); (lit "CKK_ECDSA", 3); (lit "CKK_EC_EDWARDS", 0x40);
  (lit "CKO_PUBLIC_KEY", 2); (lit "CKA_CLASS", 0); (lit "CKA_LABEL", 3); (lit "CKA_VALUE", 0x11); (lit "CKA_KEY_TYPE", 0x100);
  (lit "CKA_MODULUS", 0x120); (lit "CKA_PUBLIC_EXPONENT", 0x122); (lit "CKA_PRIME", 0x130); (lit "CKA_SUBPRIME", 0x131);
  (lit "CKA_BASE", 0x132); (lit "CKA_EC_PARAMS", 0x180); (lit "CKA_EC_POINT", 0x181)].

#[local] Instance pkcs11 : Environment := {|
  garbage p i := 0;
  constant name :=
    match List.find (fun kv => bool_decide (kv.1 = name)) pkcs11_constants with Some (_, v) => v | None => le_val name + 2 ^ 40 end
|}.

#[local] Instance pkcs11_key_types : KeyTypes.
Proof. constructor; decide_now. Qed.

(** [Base64.rfc4648], with results of one byte for any text. *)
#[local] Instance byte64 : Armor.Base64 := {|
  base64_encode := @base64_encode rfc4648;
  base64_decode s := u8 <$> @base64_decode rfc4648 s
|}.

Lemma u8_bytes x : bytes x -> u8 <$> x = x.
Proof.
  intros Hx. rewrite <- (list_fmap_id x) at 2. apply list_fmap_ext. intros i c Hc. apply u8_small.
  by eapply Forall_lookup_1 in Hc; [|exact Hx].
Qed.

#[local] Instance byte64_laws : Base64Laws.
Proof.
  constructor; cbn [base64_encode base64_decode byte64]; intros.
  - rewrite (@decode_encode rfc4648 _) by done. by apply u8_bytes.
  - by rewrite (@decode_lines rfc4648 _ s).
  - rewrite length_fmap. apply (@decode_fits rfc4648 _).
  - apply (@encode_length rfc4648 _).
  - by apply (@encode_chars rfc4648 _).
  - by apply (@encode_groups rfc4648 _).
Qed.

#[local] Instance byte64_bytes : Base64Bytes.
Proof. intros s. cbn. rewrite Forall_fmap. apply Forall_true. intros c. apply u8_range. Qed.

#[local] Existing Instance insertion_sort.

Lemma realloc_zeroed_some a n : is_Some (realloc_zeroed a None n).
Proof. by eexists. Qed.

(** * Files *)

Definition ed_key : KeyLine := mk_line (Some (lit "no-pty")) (Ed25519Key [7; 9; 250]) (Some (lit "me@home ")).
Definition sample_items : list Item := [OtherItem (lit "# keys"); KeyItem ed_key; OtherItem [];
  V1Item (mk_v1 None (lit "2048") (lit "65537") (lit "12345678901234567890") None);
  KeyItem (mk_line None (EcdsaKey P384 [4; 1; 2]) None)].

Lemma sample_options_ok : options_ok (lit "no-pty").
Proof. unfold options_ok, in_line. split_and!; decide_now. Qed.

Lemma sample_label_ok : label_ok (lit "me@home ").
Proof. unfold label_ok, in_line. split_and!; decide_now. Qed.

Lemma sample_items_ok : Forall item_ok sample_items.
Proof.
  repeat apply List.Forall_cons; [| | | | |apply List.Forall_nil]; cbn [item_ok].
  - split; [vm_compute; reflexivity|decide_now].
  - unfold line_ok, key_ok, ed_key. cbn [l_key l_options l_label fields]. split_and!.
    + decide_now.
    + intros o Ho. injection Ho as <-. exact sample_options_ok.
    + intros x Hx. injection Hx as <-. exact sample_label_ok.
  - split; [exact I|decide_now].
  - unfold v1_ok, decimal. cbn [v_options v_bits v_exponent v_modulus v_label]. split_and!; try done; decide_now.
  - unfold line_ok, key_ok. cbn [l_key l_options l_label fields]. split_and!; [decide_now|done|done].
Qed.

Definition sample_keys : list PubKey := Eval vm_compute in omap item_key sample_items.

Lemma openssh_reads_keys_witness :
  Forall item_ok sample_items /\
  _gcr_openssh_pub_parse realloc_zeroed 125 (file_of sample_items) true = Ok (3, sample_keys).
Proof.
  split; [exact sample_items_ok|].
  exact (openssh_reads_keys realloc_zeroed realloc_zeroed_ok (realloc_zeroed_some G_REALLOC) 125 sample_items true sample_items_ok eq_refl).
Defined.

(** A key that is cut off, one of a certificate, and text. *)
Definition sample_file : list Z :=
  lit "ssh-rsa AAAAB3NzaC1yc2EAAAADAQ cut" ++ [10] ++ lit "not a key" ++ [10] ++ lit "ssh-ed25519 AAAAC3NzaC1lZDI1NTE5AAAAAwcJ+g== me".

Lemma sample_file_defined line : line ∈ split_on 10 sample_file -> defined_line realloc_zeroed 125 line = true.
Proof.
  assert (forallb (defined_line realloc_zeroed 125) (split_on 10 sample_file) = true) as Hf by (vm_compute; reflexivity).
  rewrite forallb_forall in Hf. intros Hin. by apply Hf, list_elem_of_In.
Qed.

Lemma openssh_parse_safe_witness :
  exists keys, _gcr_openssh_pub_parse realloc_zeroed 125 sample_file true = Ok (Zlen keys, keys) /\
    k_outer <$> keys `sublist_of` split_on 10 sample_file.
Proof.
  refine (openssh_parse_safe realloc_zeroed realloc_zeroed_ok 125 sample_file true _ sample_file_defined); vm_compute; reflexivity.
Defined.

Lemma builder_holds_witness :
  exists a st', key_attributes [(3, Some (lit "me")); (0x11, None)] start = Ok (a, st') /\ ok [] st' /\
    a = new_address (abs_a (abs start)) /\ abs st' = set_attributes a ([(3, Bytes (lit "me")); (0x11, Null 0)], 1) (abs start).
Proof.
  apply (builder_holds start [(3, Some (lit "me")); (0x11, None)]).
  - exact start_ok.
  - reflexivity.
  - repeat constructor.
Defined.

(** * Lines *)

(** The number of keys found in a text. *)
Definition found (text : list Z) : option Z :=
  match _gcr_openssh_pub_parse realloc_zeroed 125 text true with Ok (n, _) => Some n | _ => None end.

Definition key_text (strings : list (list Z)) : list Z := base64_encode (concat ((fun f => enc_byte_array (Some f)) <$> strings)).

(** The key says ssh-dss: the message about it prints memory that has been freed. *)
Lemma wrong_type_undefined : found (lit "ssh-rsa " ++ key_text [lit "ssh-dss"; [3]; [5]]) = None.
Proof. vm_compute. reflexivity. Qed.

(** Ten digits are more than [atoin] can multiply up. *)
Lemma ten_digits_undefined : found (lit "0000002048 3 15") = None.
Proof. vm_compute. reflexivity. Qed.

(** A quote with a backslash in front, as the OpenSSH manual has it, ends the options. *)
Lemma escaped_quote_lost :
  let q := [34] in
  found (lit "command=" ++ q ++ lit "a b" ++ q ++ lit " ssh-ed25519 " ++ key_text [lit "ssh-ed25519"; [7]]) = Some 1 /\
  found (lit "command=" ++ q ++ lit "a " ++ [92] ++ q ++ lit " b" ++ q ++ lit " ssh-ed25519 " ++ key_text [lit "ssh-ed25519"; [7]]) = Some 0.
Proof. vm_compute. done. Qed.

(** The length 0xffffffff makes a key without a modulus. *)
Lemma null_modulus :
  match _gcr_openssh_pub_parse realloc_zeroed 125
    (lit "ssh-rsa " ++ base64_encode (enc_byte_array (Some (lit "ssh-rsa")) ++ enc_byte_array (Some [3]) ++ enc_byte_array None)) true with
  | Ok (1, [k]) => (CK "CKA_MODULUS", None) ∈ k_attrs k
  | _ => False
  end.
Proof. vm_compute. right. left. Qed.

(** The curve of the algorithm is not compared with that of the key. *)
Lemma other_curve : found (lit "ecdsa-sha2-nistp256 " ++ key_text [lit "ecdsa-sha2-nistp521"; lit "nistp384"; [4]]) = Some 1.
Proof. vm_compute. reflexivity. Qed.

(** What follows the fields of a key is not looked at. *)
Lemma trailing_data : found (lit "ssh-ed25519 " ++ key_text [lit "ssh-ed25519"; [7]; [1; 2; 3]]) = Some 1.
Proof. vm_compute. reflexivity. Qed.
