(* ===== verification/Oid.v ===== *)
(** Names of object identifiers: [src/egg/egg-oid.c].

    A quark is its string, [None] for zero.  The table is filled with quarks once; here it
    has the strings only.  A description is the one in the source, before it is translated. *)

From S2P Require Import Prelude Text.
Local Open Scope Z_scope.

Definition EGG_OID_PRINTABLE : Z := 0x01.
Definition EGG_OID_IS_CHOICE : Z := 0x02.

Record OidInfo := mk_info { oidstr : list Z; attr : option (list Z); description : option (list Z); oid_flags : Z }.

Definition info (oid : string) (attr description : option string) (flags : Z) : OidInfo :=
  mk_info (lit oid) (lit <$> attr) (lit <$> description) flags.

Definition oid_info : list OidInfo := [
  info "0.9.2342.19200300.100.1.25" (Some "DC") (Some "Domain Component") EGG_OID_PRINTABLE;
  info "0.9.2342.19200300.100.1.1" (Some "UID") (Some "User ID") (Z.lor EGG_OID_PRINTABLE EGG_OID_IS_CHOICE);
  info "1.2.840.113549.1.9.1" (Some "EMAIL") (Some "Email Address") EGG_OID_PRINTABLE;
  info "1.2.840.113549.1.9.7" None None (Z.lor EGG_OID_PRINTABLE EGG_OID_IS_CHOICE);
  info "1.2.840.113549.1.9.20" None None EGG_OID_PRINTABLE;
  info "1.3.6.1.5.5.7.9.1" (Some "dateOfBirth") (Some "Date of Birth") EGG_OID_PRINTABLE;
  info "1.3.6.1.5.5.7.9.2" (Some "placeOfBirth") (Some "Place of Birth") EGG_OID_PRINTABLE;
  info "1.3.6.1.5.5.7.9.3" (Some "gender") (Some "Gender") EGG_OID_PRINTABLE;
  info "1.3.6.1.5.5.7.9.4" (Some "countryOfCitizenship") (Some "Country of Citizenship") EGG_OID_PRINTABLE;
  info "1.3.6.1.5.5.7.9.5" (Some "countryOfResidence") (Some "Country of Residence") EGG_OID_PRINTABLE;
  info "2.5.4.3" (Some "CN") (Some "Common Name") (Z.lor EGG_OID_PRINTABLE EGG_OID_IS_CHOICE);
  info "2.5.4.4" (Some "surName") (Some "Surname") (Z.lor EGG_OID_PRINTABLE EGG_OID_IS_CHOICE);
  info "2.5.4.5" (Some "serialNumber") (Some "Serial Number") EGG_OID_PRINTABLE;
  info "2.5.4.6" (Some "C") (Some "Country") EGG_OID_PRINTABLE;
  info "2.5.4.7" (Some "L") (Some "Locality") (Z.lor EGG_OID_PRINTABLE EGG_OID_IS_CHOICE);
  info "2.5.4.8" (Some "ST") (Some "State") (Z.lor EGG_OID_PRINTABLE EGG_OID_IS_CHOICE);
  info "2.5.4.9" (Some "STREET") (Some "Street") (Z.lor EGG_OID_PRINTABLE EGG_OID_IS_CHOICE);
  info "2.5.4.10" (Some "O") (Some "Organization") (Z.lor EGG_OID_PRINTABLE EGG_OID_IS_CHOICE);
  info "2.5.4.11" (Some "OU") (Some "Organizational Unit") (Z.lor EGG_OID_PRINTABLE EGG_OID_IS_CHOICE);
  info "2.5.4.12" (Some "T") (Some "Title") (Z.lor EGG_OID_PRINTABLE EGG_OID_IS_CHOICE);
  info "2.5.4.20" (Some "telephoneNumber") (Some "Telephone Number") EGG_OID_PRINTABLE;
  info "2.5.4.42" (Some "givenName") (Some "Given Name") (Z.lor EGG_OID_PRINTABLE EGG_OID_IS_CHOICE);
  info "2.5.4.43" (Some "initials") (Some "Initials") (Z.lor EGG_OID_PRINTABLE EGG_OID_IS_CHOICE);
  info "2.5.4.44" (Some "generationQualifier") (Some "Generation Qualifier") (Z.lor EGG_OID_PRINTABLE EGG_OID_IS_CHOICE);
  info "2.5.4.46" (Some "dnQualifier") (Some "DN Qualifier") EGG_OID_PRINTABLE;
  info "2.5.4.65" (Some "pseudonym") (Some "Pseudonym") (Z.lor EGG_OID_PRINTABLE EGG_OID_IS_CHOICE);
  info "1.2.643.100.1" (Some "OGRN") (Some "OGRN") EGG_OID_PRINTABLE;
  info "1.2.643.100.3" (Some "SNILS") (Some "SNILS") EGG_OID_PRINTABLE;
  info "1.2.643.100.5" (Some "OGRNIP") (Some "OGRNIP") EGG_OID_PRINTABLE;
  info "1.2.643.3.131.1.1" (Some "INN") (Some "INN") EGG_OID_PRINTABLE;
  info "1.2.840.113549.1.1.1" (Some "rsaEncryption") (Some "RSA") 0;
  info "1.2.840.113549.1.1.2" (Some "md2WithRSAEncryption") (Some "MD2 with RSA") 0;
  info "1.2.840.113549.1.1.4" (Some "md5WithRSAEncryption") (Some "MD5 with RSA") 0;
  info "1.2.840.113549.1.1.5" (Some "sha1WithRSAEncryption") (Some "SHA1 with RSA") 0;
  info "1.2.840.113549.1.1.7" (Some "id-RSAES-OAEP") (Some "RSA with OAEP padding") 0;
  info "1.2.840.113549.1.1.8" (Some "id-mgf1") (Some "RSA with MGF1") 0;
  info "1.2.840.113549.1.1.10" (Some "rsassa-pss") (Some "RSA signature with RSA-PSS") 0;
  info "1.2.840.113549.1.1.11" (Some "sha256WithRSAEncryption") (Some "SHA256 with RSA encryption") 0;
  info "1.2.840.113549.1.1.12" (Some "sha384WithRSAEncryption") (Some "SHA384 with RSA encryption") 0;
  info "1.2.840.113549.1.1.13" (Some "sha512WithRSAEncryption") (Some "SHA512 with RSA encryption") 0;
  info "1.2.840.113549.1.1.14" (Some "sha224WithRSAEncryption") (Some "SHA224 with RSA encryption") 0;
  info "1.2.840.10040.4.1" (Some "dsa") (Some "DSA") 0;
  info "1.2.840.10040.4.3" (Some "sha1WithDSA") (Some "SHA1 with DSA") 0;
  info "1.2.840.10045.2.1" (Some "ec") (Some "Elliptic Curve") 0;
  info "1.2.840.10045.4.1" (Some "sha1WithECDSA") (Some "SHA1 with ECDSA") 0;
  info "1.2.840.10045.4.3.1" (Some "sha224WithECDSA") (Some "SHA224 with ECDSA") 0;
  info "1.2.840.10045.4.3.2" (Some "sha256WithECDSA") (Some "SHA256 with ECDSA") 0;
  info "1.2.840.10045.4.3.3" (Some "sha384WithECDSA") (Some "SHA384 with ECDSA") 0;
  info "1.2.840.10045.4.3.4" (Some "sha512WithECDSA") (Some "SHA512 with ECDSA") 0;
  info "1.2.643.2.2.3" (Some "gostR3411-94-with-gostR3410-2001") (Some "GOST R 34.11-94 with GOST R 34.10-2001") 0;
  info "1.2.643.2.2.19" (Some "gostr3410-2001") (Some "GOST R 34.10-2001") 0;
  info "1.2.643.7.1.1.1.1" (Some "gost-3410-2012-256") (Some "GOST R 34.10-2012 256-bit curve") 0;
  info "1.2.643.7.1.1.1.2" (Some "gost-3410-2012-512") (Some "GOST R 34.10-2012 512-bit curve") 0;
  info "1.2.643.7.1.1.3.2" (Some "signwithdigest-gost-3410-2012-256") (Some "GOST R 34.11-2012/256 with GOST R 34.10-2012 256-bit curve") 0;
  info "1.2.643.7.1.1.3.3" (Some "signwithdigest-gost-3410-2012-512") (Some "GOST R 34.11-2012/512 with GOST R 34.10-2012 512-bit curve") 0;
  info "1.3.6.1.5.5.7.3.1" None (Some "Server Authentication") 0;
  info "1.3.6.1.5.5.7.3.2" None (Some "Client Authentication") 0;
  info "1.3.6.1.5.5.7.3.3" None (Some "Code Signing") 0;
  info "1.3.6.1.5.5.7.3.4" None (Some "Email Protection") 0;
  info "1.3.6.1.5.5.7.3.8" None (Some "Time Stamping") 0;
  info "1.3.6.1.5.5.7.1.1" (Some "authorityInfoAccess") (Some "Certificate Authority Information Access") 0;
  info "2.5.29.9" (Some "subjectDirectoryAttributes") (Some "Subject directory attributes certificate extension") 0;
  info "2.5.29.14" (Some "subjectKeyIdentifier") (Some "Subject key identifier") 0;
  info "2.5.29.15" (Some "keyUsage") (Some "Key usage") 0;
  info "2.5.29.16" (Some "privateKeyUsagePeriod") (Some "Private key usage period") 0;
  info "2.5.29.17" (Some "subjectAltName") (Some "Subject alternative name") 0;
  info "2.5.29.18" (Some "issuerAltName") (Some "Issuer alternative name") 0;
  info "2.5.29.19" (Some "basicConstraints") (Some "Basic constraints") 0;
  info "2.5.29.20" (Some "cRLNumber") (Some "CRL number") 0;
  info "2.5.29.21" (Some "reasonCode") (Some "Reason code") 0;
  info "2.5.29.23" (Some "instructionCode") (Some "Hold instruction code") 0;
  info "2.5.29.24" (Some "invalidityDate") (Some "Invalidity date") 0;
  info "2.5.29.27" (Some "deltaCRLIndicator") (Some "Certificate Revocation List indicator") 0;
  info "2.5.29.28" (Some "issuingDistributionPoint") (Some "Issuing distribution point") 0;
  info "2.5.29.29" (Some "certificateIssuer") (Some "Certificate issuer") 0;
  info "2.5.29.30" (Some "nameConstraints") (Some "Name constraints") 0;
  info "2.5.29.31" (Some "cRLDistributionPoints") (Some "Certificate Revocation List distribution points") 0;
  info "2.5.29.32" (Some "certificatePolicies") (Some "Certificate policies") 0;
  info "2.5.29.33" (Some "policyMappings") (Some "Policy mappings") 0;
  info "2.5.29.34" (Some "policyConstraints") (Some "Policy constraints") 0;
  info "2.5.29.35" (Some "authorityKeyIdentifier") (Some "Authority key identifier") 0;
  info "2.5.29.37" (Some "extendedKeyUsage") (Some "Extended Key Usage") 0;
  info "2.23.140.1.1" None (Some "Extended Validation") 0;
  info "1.3.6.1.5.5.7.2.1" None (Some "Certification Practices Statement") 0;
  info "1.3.6.1.5.5.7.48.1" None (Some "Online Certificate Status Protocol (OCSP)") 0;
  info "1.3.6.1.5.5.7.48.2" None (Some "Certification Authority Issuer") 0].

Definition find_oid_info (oid : list Z) : option OidInfo := List.find (fun i => bool_decide (oidstr i = oid)) oid_info.

#[global] Arguments find_oid_info _ : simpl never.

(** Some entries have no name. *)
Definition egg_oid_get_name (oid : option (list Z)) : option (list Z) :=
  oid ← oid; match find_oid_info oid with None => Some oid | Some i => attr i end.

Definition egg_oid_get_description (oid : option (list Z)) : option (list Z) :=
  oid ← oid; match find_oid_info oid with None => Some oid | Some i => description i end.

Definition egg_oid_get_flags (oid : option (list Z)) : Z :=
  match oid ≫= find_oid_info with None => 0 | Some i => oid_flags i end.
