(* ===== verification/Dn.v ===== *)
(** Distinguished names: [src/egg/egg-dn.c].

    A name is a tree of [Asn1Node]: a list of sets of pairs of a type and a value.  [NULL] is
    [None], also where [g_return_val_if_fail] returns it.  Plain [char] is signed.  Both loops
    over a name take fuel, of which running out is [Err tt]; the number of children suffices
    ([DnSpec]).  GLib's check of UTF-8 and its conversion of BMP strings are parameters. *)

From S2P Require Import Prelude Text Asn1Tlv Asn1Value Asn1Node Sorting Asn1Create Asn1Tables Asn1Decode Asn1Build Asn1Access Oid.
Local Open Scope Z_scope.

(** * Strings *)

Definition HEXC : list Z := lit "0123456789ABCDEF".

Definition hex_digit (i : Z) : Z := default 0 (rd HEXC i).

(** [NULL] bytes have no contents, with a critical message. *)
Definition dn_print_hex_value (val : option (list Z)) : list Z :=
  35 :: concat ((fun c => [hex_digit (Z.land (Z.shiftr c 4) 0xf); hex_digit (Z.land c 0xf)]) <$> default [] val).

Definition ascii_tolower (c : Z) : Z := if (65 <=? c) && (c <=? 90) then c + 32 else c.

(** [g_ascii_strcasecmp (a, b) == 0]; the comparison with [NULL] returns zero. *)
Definition strcase_equal (a : option (list Z)) (b : list Z) : bool :=
  match a with
  | None => true
  | Some a => bool_decide (ascii_tolower <$> c_str a = ascii_tolower <$> c_str b)
  end.

Definition is_ascii_string (string : list Z) : bool :=
  forallb (fun c => ascii_space c || ((32 <=? c) && (c <? 128))) (c_str string).

Definition is_printable_string (string : list Z) : bool :=
  forallb (fun c => is_alpha c || is_digit c || bool_decide (c ∈ lit " '()+,-./:=?")) (c_str string).

(** The end of a loop over the pairs: [done], or a return. *)
Inductive Step (A : Type) := Break (done : bool) | Return (a : A).
Arguments Break {A} _.
Arguments Return {A} _.

Section Dn.
Context `{GListSort} (g_utf8_validate : list Z -> bool) (bmp_to_utf8 : list Z -> option (list Z)).
Context (alloc : Z -> option (list Z)) (this_year : Z).

(** [egg_asn1x_get_bmpstring_as_utf8] of [egg-asn1x.c]. *)
Definition egg_asn1x_get_bmpstring_as_utf8 (an : Anode) : res unit (option (list Z)) :=
  r ← get_string_as_raw alloc an;
  Ok ('(s, n) ← r; bmp_to_utf8 (take (Z.to_nat n) s)).

(** * Printing *)

Definition dn_print_oid_value_parsed (oid : list Z) (flags : Z) (val : Anode) : res unit (option (list Z)) :=
  asn1 ← egg_asn1x_create 20 pkix_asn1_tab oid;
  match asn1 with
  | None => Ok None
  | Some asn1 =>
    '(ok, into) ← egg_asn1x_get_any_into this_year val [asn1];
    if negb ok then Ok None else
    asn1 ← or_ub (hd_error into);
    match (if has flags EGG_OID_IS_CHOICE then snd <$> egg_asn1x_get_choice asn1 else Some asn1) with
    | None => Ok None
    | Some node =>
      bmp ← (if is_type (data node) BMP_STRING then egg_asn1x_get_bmpstring_as_utf8 (data node) else Ok None);
      match bmp with
      | Some result => Ok (Some result)
      | None =>
        match egg_asn1x_get_value_raw (data node) with
        | None => Ok None
        | Some value =>
          Ok (Some (if negb (g_utf8_validate value) then dn_print_hex_value (Some value) else c_str value))
        end
      end
    end
  end.

Definition dn_print_oid_value (oid : list Z) (flags : Z) (val : Anode) : res unit (list Z) :=
  value ← (if has flags EGG_OID_PRINTABLE then dn_print_oid_value_parsed oid flags val else Ok None);
  match value with
  | Some value => Ok value
  | None => Ok (dn_print_hex_value (egg_asn1x_get_element_raw val))
  end.

Definition egg_dn_print_value (oid : list Z) (value : Anode) : res unit (list Z) :=
  dn_print_oid_value oid (egg_oid_get_flags (Some oid)) value.

(** The node that a path leads to. *)
Definition lookup_node (asn : GNode) (args : list Arg) : res unit (option GNode) :=
  path ← egg_asn1x_node asn args;
  match path with
  | None => Ok None
  | Some path => n ← or_ub (node_at path asn); Ok (Some n)
  end.

Definition oid_of_node (node : option GNode) : res unit (option (list Z)) :=
  match node with None => Ok None | Some n => egg_asn1x_get_oid_as_quark (data n) end.

(** [g_strconcat] ends at the first [NULL], which may be the name. *)
Definition g_strconcat (first : option (list Z)) (rest : list Z) : option (list Z) :=
  match first with None => None | Some first => Some (first ++ rest) end.

Definition dn_parse_rdn (asn : GNode) : res unit (option (list Z)) :=
  node ← lookup_node asn [Name (lit "type"); NullArg];
  oid ← oid_of_node node;
  match oid with
  | None => Ok None
  | Some oid =>
    let flags := egg_oid_get_flags (Some oid) in
    let name := egg_oid_get_name (Some oid) in
    value ← lookup_node asn [Name (lit "value"); NullArg];
    match value with
    | None => Ok None
    | Some value =>
      display ← dn_print_oid_value oid flags (data value);
      Ok (g_strconcat (if has flags EGG_OID_PRINTABLE then name else Some oid) (61 :: display))
    end
  end.

(** [for (j = 1; TRUE; ++j)]: [j] at its end and the text, or [None] at a return. *)
Fixpoint read_pairs (fuel : nat) (asn : GNode) (i j : Z) (result : list Z) : res unit (option (Z * list Z)) :=
  match fuel with
  | O => Err tt
  | S fuel =>
    node ← lookup_node asn [Index i; Index j; NullArg];
    match node with
    | None => Ok (Some (j, result))
    | Some node =>
      rdn ← dn_parse_rdn node;
      match rdn with
      | None => Ok None
      | Some rdn =>
        let result := if 1 <? j then result ++ lit "+" else if 1 <? i then result ++ lit ", " else result in
        j' ← gint (j + 1);
        read_pairs fuel asn i j' (result ++ rdn)
      end
    end
  end.

Definition width (asn : GNode) : nat := S (max_list (length <$> (children <$> (asn :: children asn)))).

(** [for (i = 1; !done; ++i)] *)
Fixpoint read_rdns (fuel : nat) (asn : GNode) (i : Z) (result : list Z) : res unit (option (list Z)) :=
  match fuel with
  | O => Err tt
  | S fuel =>
    r ← read_pairs (width asn) asn i 1 result;
    match r with
    | None => Ok None
    | Some (j, result) => if j =? 1 then Ok (Some result) else i' ← gint (i + 1); read_rdns fuel asn i' result
    end
  end.

(** [g_string_free] gives nothing for an empty text. *)
Definition egg_dn_read (asn : GNode) : res unit (option (list Z)) :=
  r ← read_rdns (width asn) asn 1 [];
  Ok (r ≫= fun result => if Zlen result =? 0 then None else Some result).

(** * Parts *)

Fixpoint part_pairs (fuel : nat) (asn : GNode) (match_ : list Z) (i j : Z) : res unit (Step (option (list Z))) :=
  match fuel with
  | O => Err tt
  | S fuel =>
    node ← lookup_node asn [Index i; Index j; Name (lit "type"); NullArg];
    match node with
    | None => Ok (Break (j =? 1))
    | Some node =>
      oid ← egg_asn1x_get_oid_as_quark (data node);
      match oid with
      | None => Ok (Return None)
      | Some oid =>
        if negb (strcase_equal (Some oid) match_) && negb (strcase_equal (egg_oid_get_name (Some oid)) match_)
        then j ← gint (j + 1); part_pairs fuel asn match_ i j
        else
          node ← lookup_node asn [Index i; Index j; Name (lit "value"); NullArg];
          match node with
          | None => Ok (Return None)
          | Some node => v ← dn_print_oid_value oid (egg_oid_get_flags (Some oid)) (data node); Ok (Return (Some v))
          end
      end
    end
  end.

Fixpoint part_rdns (fuel : nat) (asn : GNode) (match_ : list Z) (i : Z) : res unit (option (list Z)) :=
  match fuel with
  | O => Err tt
  | S fuel =>
    r ← part_pairs (width asn) asn match_ i 1;
    match r with
    | Return v => Ok v
    | Break true => Ok None
    | Break false => i ← gint (i + 1); part_rdns fuel asn match_ i
    end
  end.

Definition egg_dn_read_part (asn : GNode) (match_ : list Z) : res unit (option (list Z)) :=
  part_rdns (width asn) asn match_ 1.

(** The calls of the callback, an index, an identifier and a value each; counters are
    unsigned. *)
Definition Call : Type := Z * list Z * GNode.

Fixpoint parse_pairs (fuel : nat) (asn : GNode) (i j : Z) : res unit (Step bool * list Call) :=
  match fuel with
  | O => Err tt
  | S fuel =>
    node ← lookup_node asn [Index (s32 i); Index (s32 j); Name (lit "type"); NullArg];
    match node with
    | None => Ok (Break (j =? 1), [])
    | Some node =>
      oid ← egg_asn1x_get_oid_as_quark (data node);
      match oid with
      | None => Ok (Return false, [])
      | Some oid =>
        node ← lookup_node asn [Index (s32 i); Index (s32 j); Name (lit "value"); NullArg];
        match node with
        | None => Ok (Break (j =? 1), [])
        | Some node => '(r, calls) ← parse_pairs fuel asn i (u32 (j + 1)); Ok (r, (i, oid, node) :: calls)
        end
      end
    end
  end.

Fixpoint parse_rdns (fuel : nat) (asn : GNode) (i : Z) : res unit (bool * list Call) :=
  match fuel with
  | O => Err tt
  | S fuel =>
    '(r, calls) ← parse_pairs (width asn) asn i 1;
    match r with
    | Return b => Ok (b, calls)
    | Break true => Ok (1 <? u32 (i + 1), calls)
    | Break false => '(b, others) ← parse_rdns fuel asn (u32 (i + 1)); Ok (b, calls ++ others)
    end
  end.

Definition egg_dn_parse (asn : GNode) : res unit (bool * list Call) := parse_rdns (width asn) asn 1.

(** * Writing *)

(** A setter applied to the node with a name, or to [NULL]. *)
Definition on_named (n : GNode) (name : list Z) (f : Anode -> res unit Anode) : res unit GNode :=
  path ← egg_asn1x_node n [Name name; NullArg];
  match path with
  | None => Ok n
  | Some path =>
    c ← or_ub (node_at path n);
    an ← f (data c);
    Ok (alter_at (on_data (fun _ => an)) path n)
  end.

Definition set_utf8 (string : list Z) (n : GNode) : GNode :=
  on_data (fun an => (egg_asn1x_set_string_as_utf8 g_utf8_validate an string).2) n.

(** The value, a string of the kind that the string needs. *)
Definition dn_string_value (oid : list Z) (string : list Z) : res unit (option GNode) :=
  value ← egg_asn1x_create 20 pkix_asn1_tab oid;
  match value with
  | None => Ok None
  | Some value =>
    if is_type (data value) CHOICE then
      let name := if is_printable_string string then lit "printableString"
                  else if is_ascii_string string then lit "ia5String"
                  else lit "utf8String" in
      val ← egg_asn1x_node value [Name name; NullArg];
      match val with
      | Some path =>
        let '(_, value) := egg_asn1x_set_choice value (default 0%nat (hd_error path)) in
        Ok (Some (alter_at (set_utf8 string) path value))
      | None => let '(_, value) := egg_asn1x_set_choice value (length (children value)) in Ok (Some value)
      end
    else Ok (Some (set_utf8 string value))
  end.

(** The last child, replaced. *)
Definition on_last (f : GNode -> res unit GNode) (n : GNode) : res unit GNode :=
  let 'N an cs := n in
  match last cs with
  | None => Ok n
  | Some c => c ← f c; Ok (N an (take (pred (length cs)) cs ++ [c]))
  end.

(** [egg_asn1x_append], and what is done with the new node; to [NULL], nothing. *)
Definition appended (n : GNode) (f : GNode -> res unit GNode) : res unit GNode :=
  match egg_asn1x_append n with None => Ok n | Some n => on_last f n end.

Definition egg_dn_add_string_part (asn : GNode) (oid : list Z) (string : list Z) : res unit GNode :=
  let flags := egg_oid_get_flags (Some oid) in
  if negb (has flags EGG_OID_PRINTABLE) then Ok asn
  else
    value ← dn_string_value oid string;
    appended asn (fun rdn => appended rdn (fun pair =>
      pair ← on_named pair (lit "type") (fun an => '(_, an) ← egg_asn1x_set_oid_as_quark an (Some oid); Ok an);
      on_named pair (lit "value") (fun an => match value with Some value => egg_asn1x_set_any_from an value | None => Ok an end))).

End Dn.
