(* ===== verification/DnSpec.v ===== *)
(** What reading a name means: the pairs that have data, set by set, and the three
    functions of [Dn] that go over them. *)

From S2P Require Import Prelude Text Asn1Tlv Asn1Value Asn1Node Asn1Schema Sorting Asn1Create Asn1Tables Asn1Decode Asn1Build Asn1Access Oid Dn.
Local Open Scope Z_scope.

(** * Children with data *)

Definition having (cs : list GNode) : list GNode := List.filter egg_asn1x_have cs.

Lemma nth_having cs : forall k,
  match nth_with_data cs (Z.of_nat (S k)) with
  | Some (i, c) => cs !! i = Some c /\ having cs !! k = Some c
  | None => having cs !! k = None
  end.
Proof.
  unfold having. induction cs as [|c cs IH]; intros k; cbn [nth_with_data List.filter]; [done|].
  destruct (egg_asn1x_have c); cbn [andb]; [destruct k as [|k]; [done|]|].
  - replace (Z.of_nat (S (S k)) - 1) with (Z.of_nat (S k)) by lia. destruct (Z.eqb_spec (Z.of_nat (S k)) 0) as [|_]; [lia|].
    specialize (IH k). by destruct (nth_with_data cs (Z.of_nat (S k))) as [[i d]|].
  - specialize (IH k). by destruct (nth_with_data cs (Z.of_nat (S k))) as [[i d]|].
Qed.

Lemma child_with_name_at cs name i c : anode_child_with_name cs name = Ok (Some (i, c)) -> cs !! i = Some c.
Proof.
  revert i. induction cs as [|d cs IH]; intros i; cbn [anode_child_with_name]; [done|].
  destruct (anode_def_name (data d)) as [n|]; [|done]. run. destruct (bool_decide _); [by intros [= <- <-]|].
  intros H. apply bind_Ok in H as (r & Hr & H). destruct r as [[j e]|]; [|done]. injection H as <- <-. by apply IH.
Qed.

Definition is_list (n : GNode) : bool := is_of_type (anode_def_type (data n)).

Lemma lookup_below n i c args : children n !! i = Some c ->
  (path ← (r ← egg_asn1x_node c args; Ok (fmap (M:=option) (cons i) r));
   match path with None => Ok None | Some path => m ← or_ub (node_at path n); Ok (Some m) end) = lookup_node c args.
Proof.
  intros Hc. unfold lookup_node. destruct (egg_asn1x_node c args) as [[path|]| |]; run; try done.
  cbn [fmap option_fmap option_map node_at]. rewrite Hc. done.
Qed.

Lemma lookup_index n k args : is_list n = true ->
  lookup_node n (Index (Z.of_nat (S k)) :: args) =
    match having (children n) !! k with Some c => lookup_node c args | None => Ok None end.
Proof.
  intros Hl. unfold lookup_node at 1. destruct n as [an cs]. unfold is_list in Hl. cbn [egg_asn1x_node]. rewrite Hl.
  destruct (Z.eqb_spec (Z.of_nat (S k)) 0) as [|_]; [lia|]. cbn [children]. pose proof (nth_having cs k) as Hn.
  destruct (nth_with_data cs (Z.of_nat (S k))) as [[i c]|]; [destruct Hn as [Hi ->]|by rewrite Hn].
  by apply (lookup_below (N an cs)).
Qed.

Lemma lookup_null n : is_list n = false -> lookup_node n [NullArg] = Ok (Some n).
Proof. intros Hl. unfold lookup_node. destruct n as [an cs]. unfold is_list in Hl. cbn [egg_asn1x_node]. by rewrite Hl. Qed.

Lemma lookup_name n name args : is_list n = false ->
  lookup_node n (Name name :: args) =
    r ← anode_child_with_name (children n) name; match r with Some (_, c) => lookup_node c args | None => Ok None end.
Proof.
  intros Hl. unfold lookup_node at 1. destruct n as [an cs]. unfold is_list in Hl. cbn [egg_asn1x_node]. rewrite Hl. cbn [children].
  destruct (anode_child_with_name cs name) as [[[i c]|]| |] eqn:Hc; run; try done.
  by apply (lookup_below (N an cs)), child_with_name_at with (name := name).
Qed.

(** * Names *)

Definition member (n : GNode) (name : list Z) : option GNode :=
  List.find (fun c => bool_decide (anode_def_name (data c) = Some name)) (children n).

(** A pair: its members have names, and two of them are the type and the value. *)
Definition is_pair (n : GNode) : bool :=
  negb (is_list n) && forallb (fun c => negb (is_list c) && bool_decide (is_Some (anode_def_name (data c)))) (children n) &&
  bool_decide (is_Some (member n (lit "type"))) && bool_decide (is_Some (member n (lit "value"))).

Definition is_name (asn : GNode) : bool :=
  is_list asn && forallb (fun r => is_list r && forallb is_pair (children r)) (children asn).

(** The pairs with data, of the sets with data. *)
Definition name_sets (asn : GNode) : list (list GNode) := (fun r => having (children r)) <$> having (children asn).

Lemma having_in cs k c : having cs !! k = Some c -> c ∈ cs.
Proof. intros H. apply list_elem_of_lookup_2 in H. apply list_elem_of_In, filter_In in H as [H _]. by apply list_elem_of_In. Qed.

Lemma lookup_member n name : is_pair n = true -> lookup_node n [Name name; NullArg] = Ok (member n name).
Proof.
  unfold is_pair. rewrite !andb_true_iff, negb_true_iff. intros [[[Hl Hc] _] _]. rewrite lookup_name by done. unfold member.
  induction (children n) as [|c cs IH]; cbn [anode_child_with_name List.find]; [done|].
  cbn [forallb] in Hc. rewrite !andb_true_iff, negb_true_iff in Hc. destruct Hc as [[Hlc Hn] Hc]. specialize (IH Hc).
  apply bool_decide_eq_true in Hn as [m Hm]. rewrite Hm. run. destruct (bool_decide_reflect (name = m)) as [<-|Hne].
  - rewrite bool_decide_eq_true_2 by done. run. by apply lookup_null.
  - rewrite (bool_decide_eq_false_2 (Some m = Some name)) by (by intros [= ->]).
    destruct (anode_child_with_name cs name) as [[[i d]|]| |]; run; done.
Qed.

Lemma lookup_in_name asn i j args : is_name asn = true ->
  lookup_node asn (Index (Z.of_nat (S i)) :: Index (Z.of_nat (S j)) :: args) =
    match name_sets asn !! i ≫= (fun s => s !! j) with Some p => lookup_node p args | None => Ok None end.
Proof.
  unfold is_name. rewrite andb_true_iff, forallb_forall. intros [Hl Hc]. rewrite lookup_index by done.
  unfold name_sets. rewrite list_lookup_fmap. destruct (having (children asn) !! i) as [r|] eqn:Hr; [|done]. cbn.
  apply having_in, list_elem_of_In, Hc in Hr. apply andb_true_iff in Hr as [Hlr _]. exact (lookup_index r j args Hlr).
Qed.

Lemma name_pair asn i s j p : is_name asn = true -> name_sets asn !! i = Some s -> s !! j = Some p -> is_pair p = true.
Proof.
  unfold is_name, name_sets. rewrite andb_true_iff, forallb_forall. intros [_ Hc]. rewrite list_lookup_fmap.
  destruct (having (children asn) !! i) as [r|] eqn:Hr; [|done]. intros [= <-] Hp.
  apply having_in, list_elem_of_In, Hc in Hr. apply andb_true_iff in Hr as [_ Hr]. rewrite forallb_forall in Hr.
  by apply Hr, list_elem_of_In, having_in with (k := j).
Qed.

Lemma lookup_pair asn i j : is_name asn = true ->
  lookup_node asn [Index (Z.of_nat (S i)); Index (Z.of_nat (S j)); NullArg] = Ok (name_sets asn !! i ≫= (fun s => s !! j)).
Proof.
  intros Hn. rewrite lookup_in_name by done. destruct (name_sets asn !! i) as [s|] eqn:Hs; [|done]. cbn.
  destruct (s !! j) as [p|] eqn:Hp; [|done]. apply lookup_null. pose proof (name_pair _ _ _ _ _ Hn Hs Hp) as Hip.
  unfold is_pair in Hip. rewrite !andb_true_iff, negb_true_iff in Hip. apply Hip.
Qed.

Lemma lookup_pair_member asn i j name : is_name asn = true ->
  lookup_node asn [Index (Z.of_nat (S i)); Index (Z.of_nat (S j)); Name name; NullArg] =
    Ok ((name_sets asn !! i ≫= (fun s => s !! j)) ≫= (fun p => member p name)).
Proof.
  intros Hn. rewrite lookup_in_name by done. destruct (name_sets asn !! i) as [s|] eqn:Hs; [|done]. cbn.
  destruct (s !! j) as [p|] eqn:Hp; [|done]. by apply lookup_member, (name_pair _ _ _ _ _ Hn Hs Hp).
Qed.

Lemma member_at asn i s j p name : is_name asn = true -> name_sets asn !! i = Some s -> s !! j = Some p ->
  lookup_node asn [Index (Z.of_nat (S i)); Index (Z.of_nat (S j)); Name name; NullArg] = Ok (member p name).
Proof. intros Hn Hs Hp. by rewrite lookup_pair_member, Hs by done; cbn; rewrite Hp. Qed.

Lemma member_behind asn i j name : is_name asn = true -> (name_sets asn !! i ≫= (fun s => s !! j)) = None ->
  lookup_node asn [Index (Z.of_nat (S i)); Index (Z.of_nat (S j)); Name name; NullArg] = Ok None.
Proof. intros Hn Hs. by rewrite lookup_pair_member, Hs by done. Qed.

Lemma width_sets asn : (length (name_sets asn) < width asn)%nat /\ Forall (fun s => length s < width asn)%nat (name_sets asn).
Proof.
  assert (forall cs, length (having cs) <= length cs)%nat as Hle.
  { intros cs. unfold having. induction cs as [|c cs IH]; cbn [List.filter]; [lia|]. destruct (egg_asn1x_have c); cbn [length]; lia. }
  unfold width, name_sets. rewrite length_fmap. rewrite fmap_cons, fmap_cons, max_list_cons. pose proof (Hle (children asn)). split; [lia|].
  apply Forall_fmap, Forall_forall. intros r Hr. apply list_elem_of_lookup in Hr as [k Hr]. apply having_in in Hr. unfold compose.
  pose proof (Hle (children r)). pose proof (max_list_elem_of_le (length (children r)) (length <$> (children <$> children asn))) as Hm.
  assert (length (children r) ∈ length <$> (children <$> children asn)) as Hin; [|specialize (Hm Hin); lia].
  rewrite <- list_fmap_compose. apply list_elem_of_fmap. by exists r.
Qed.

(** * The three functions over a name *)

Definition joined (sep : list Z) (l : list (list Z)) : list Z :=
  match l with [] => [] | x :: l => x ++ concat (app sep <$> l) end.

(** The loops end at a set without pairs. *)
Fixpoint filled (sets : list (list GNode)) : list (list GNode) :=
  match sets with [] | [] :: _ => [] | s :: sets => s :: filled sets end.

Section Reading.
Context `{GListSort} (g_utf8_validate : list Z -> bool) (bmp_to_utf8 : list Z -> option (list Z)).
Context (alloc : Z -> option (list Z)) (this_year : Z).
Abbreviation rdn_text := (dn_parse_rdn g_utf8_validate bmp_to_utf8 alloc this_year).

(** The texts of all, or none. *)
Fixpoint all_texts {A B} (f : A -> res unit (option B)) (l : list A) : res unit (option (list B)) :=
  match l with
  | [] => Ok (Some [])
  | x :: l =>
    t ← f x;
    match t with None => Ok None | Some t => ts ← all_texts f l; Ok (fmap (M:=option) (cons t) ts) end
  end.

Definition name_text (asn : GNode) : res unit (option (list Z)) :=
  ts ← all_texts (all_texts rdn_text) (filled (name_sets asn));
  Ok (ts ≫= fun ts => match ts with [] => None | _ => Some (joined (lit ", ") (joined (lit "+") <$> ts)) end).

Context (asn : GNode) (Hname : is_name asn = true) (Hwidth : Z.of_nat (width asn) < 2 ^ 31 - 1).

Lemma next_index k n : (k < n)%nat -> Z.of_nat n < 2 ^ 31 - 1 -> (gint (Z.of_nat (S k) + 1) : res unit Z) = Ok (Z.of_nat (S (S k))).
Proof. intros Hk Hn. unfold gint. rewrite c_assert_true; [cbn; f_equal; lia|]. apply andb_true_iff. split; [apply Z.leb_le|apply Z.ltb_lt]; lia. Qed.

Lemma read_pairs_texts i s : name_sets asn !! i = Some s -> forall rest fuel j result,
  (length rest < fuel)%nat -> drop j s = rest -> (j <= length s)%nat ->
  read_pairs g_utf8_validate bmp_to_utf8 alloc this_year fuel asn (Z.of_nat (S i)) (Z.of_nat (S j)) result =
    ts ← all_texts rdn_text rest;
    Ok (fmap (M:=option) (fun ts => (Z.of_nat (S (length s)),
      result ++ match j, ts with
                | O, t :: ts => (if Nat.eqb i 0 then [] else lit ", ") ++ t ++ concat (app (lit "+") <$> ts)
                | _, ts => concat (app (lit "+") <$> ts)
                end)) ts).
Proof.
  intros Hs. destruct (width_sets asn) as [Hw1 Hw2]. assert (length s < width asn)%nat as Hls by by apply (proj1 (Forall_lookup _ _) Hw2 i).
  induction rest as [|p rest IH]; intros [|fuel] j result Hf Hd Hj; [cbn in Hf; lia| |cbn in Hf; lia|];
    cbn [read_pairs all_texts]; rewrite (lookup_pair asn i j Hname), Hs; cbn [mbind res_bind option_bind].
  - assert (j = length s) as -> by (apply (f_equal length) in Hd; rewrite length_drop in Hd; cbn in Hd; lia).
    rewrite lookup_ge_None_2 by lia. cbn. do 3 f_equal. destruct (length s); by rewrite app_nil_r.
  - assert (s !! j = Some p) as -> by by apply (f_equal (.!! 0%nat)) in Hd; rewrite lookup_drop, Nat.add_0_r in Hd.
    destruct (rdn_text p) as [[t|]| |]; cbn [mbind res_bind]; [|done..].
    assert (j < length s)%nat by (apply (f_equal length) in Hd; rewrite length_drop in Hd; cbn in Hd; lia).
    rewrite (next_index j (width asn)) by lia. cbn [mbind res_bind].
    rewrite (IH fuel (S j)); [|cbn in Hf; lia| |lia].
    2: { apply (f_equal (drop 1)) in Hd. by rewrite drop_drop, Nat.add_comm in Hd. }
    destruct (all_texts rdn_text rest) as [[ts|]| |]; cbn; [|done..]. do 3 f_equal. rewrite <- !app_assoc.
    destruct (Z.ltb_spec 1 (Z.of_nat (S j))), (Z.ltb_spec 1 (Z.of_nat (S i))), j, (Nat.eqb_spec i 0); try lia; cbn; rewrite ?app_assoc; by rewrite <- ?app_assoc.
Qed.

Lemma read_rdns_texts : forall rest fuel i result, (length rest < fuel)%nat -> drop i (name_sets asn) = rest -> (i <= length (name_sets asn))%nat ->
  read_rdns g_utf8_validate bmp_to_utf8 alloc this_year fuel asn (Z.of_nat (S i)) result =
    ts ← all_texts (all_texts rdn_text) (filled rest);
    Ok (fmap (M:=option) (fun ts => result ++
      match i, ts with
      | O, t :: ts => joined (lit "+") t ++ concat (app (lit ", ") <$> (joined (lit "+") <$> ts))
      | _, ts => concat (app (lit ", ") <$> (joined (lit "+") <$> ts))
      end) ts).
Proof.
  destruct (width_sets asn) as [Hw1 Hw2].
  induction rest as [|s rest IH]; intros [|fuel] i result Hf Hd Hi; [cbn in Hf; lia| |cbn in Hf; lia|]; cbn [read_rdns].
  - assert (i = length (name_sets asn)) as -> by (apply (f_equal length) in Hd; rewrite length_drop in Hd; cbn in Hd; lia).
    change (read_pairs g_utf8_validate bmp_to_utf8 alloc this_year (width asn) asn) with
      (read_pairs g_utf8_validate bmp_to_utf8 alloc this_year (S (pred (width asn))) asn). cbn [read_pairs].
    change 1 with (Z.of_nat 1) at 2. rewrite (lookup_pair asn _ 0 Hname), lookup_ge_None_2 by lia. cbn. do 2 f_equal.
    destruct (length (name_sets asn)); by rewrite app_nil_r.
  - assert (name_sets asn !! i = Some s) as Hs by by apply (f_equal (.!! 0%nat)) in Hd; rewrite lookup_drop, Nat.add_0_r in Hd.
    assert (length s < width asn)%nat as Hls by by apply (proj1 (Forall_lookup _ _) Hw2 i).
    pose proof (read_pairs_texts i s Hs s (width asn) 0 result ltac:(lia) eq_refl ltac:(lia)) as E.
    change (Z.of_nat 1) with 1 in E. rewrite E. clear E.
    destruct s as [|p s]; [cbn; do 2 f_equal; destruct i; by rewrite !app_nil_r|].
    cbn [filled]. cbn [all_texts]. fold (all_texts rdn_text).
    destruct (rdn_text p) as [[t|]| |]; cbn [mbind res_bind]; [|done..].
    destruct (all_texts rdn_text s) as [[ts|]| |]; cbn [mbind res_bind fmap option_fmap option_map]; [|done..].
    destruct (Z.eqb_spec (Z.of_nat (S (length (p :: s)))) 1) as [E|_]; [cbn in E; lia|].
    assert (i < length (name_sets asn))%nat by (apply (f_equal length) in Hd; rewrite length_drop in Hd; cbn in Hd; lia).
    rewrite (next_index i (width asn)) by lia. cbn [mbind res_bind].
    rewrite (IH fuel (S i)); [|cbn in Hf; lia| |lia].
    2: { apply (f_equal (drop 1)) in Hd. by rewrite drop_drop, Nat.add_comm in Hd. }
    destruct (all_texts (all_texts rdn_text) (filled rest)) as [[tss|]| |]; cbn [mbind res_bind fmap option_fmap option_map]; [|done..]. do 2 f_equal.
    destruct i as [|i]; cbn [Nat.eqb joined fmap list_fmap concat app]; by rewrite <- ?app_assoc.
Qed.

Lemma rdn_text_nonempty p t : rdn_text p = Ok (Some t) -> t <> [].
Proof.
  unfold dn_parse_rdn. intros E. apply bind_Ok in E as (n & _ & E). apply bind_Ok in E as (o & _ & E). destruct o as [o|]; [|done].
  apply bind_Ok in E as (v & _ & E). destruct v as [v|]; [|done]. apply bind_Ok in E as (d & _ & E).
  unfold g_strconcat in E. case_match; [|done]. injection E as <-. by destruct l.
Qed.

Lemma dn_read_reference : egg_dn_read g_utf8_validate bmp_to_utf8 alloc this_year asn = name_text asn.
Proof.
  unfold egg_dn_read, name_text. destruct (width_sets asn) as [Hw1 _]. change 1 with (Z.of_nat 1).
  rewrite (read_rdns_texts (name_sets asn)) by (done || lia).
  destruct (all_texts (all_texts rdn_text) (filled (name_sets asn))) as [[[|t ts]|]| |] eqn:E; cbn; try done.
  destruct (filled (name_sets asn)) as [|s sets] eqn:Ef; [done|]. cbn [all_texts] in E.
  apply bind_Ok in E as (o & Eo & E). destruct o as [t'|]; [|done]. apply bind_Ok in E as (ts' & _ & E). destruct ts' as [ts'|]; [|done]. injection E as -> ->.
  destruct s as [|p s]; [destruct (name_sets asn) as [|[] ?]; done|]. cbn [all_texts] in Eo. apply bind_Ok in Eo as (o & Eo & E).
  destruct o as [tx|]; [|done]. apply bind_Ok in E as (ts' & _ & E). destruct ts' as [ts'|]; [|done]. injection E as <-.
  apply rdn_text_nonempty in Eo. destruct tx as [|c tx]; [done|]. destruct (Z.eqb_spec (Zlen (joined (lit "+") ((c :: tx) :: ts') ++ concat (app (lit ", ") <$> (joined (lit "+") <$> ts)))) 0) as [E0|_]; [|done].
  cbn in E0. rewrite length_app in E0. lia.
Qed.

(** ** Parts *)

Definition pair_type (p : GNode) : res unit (option (list Z)) := oid_of_node (member p (lit "type")).

Definition part_matches (oid match_ : list Z) : bool :=
  strcase_equal (Some oid) match_ || strcase_equal (egg_oid_get_name (Some oid)) match_.

Fixpoint find_part (ps : list GNode) (match_ : list Z) : res unit (option (list Z)) :=
  match ps with
  | [] => Ok None
  | p :: ps =>
    oid ← pair_type p;
    match oid with
    | None => Ok None
    | Some oid =>
      if part_matches oid match_ then
        v ← or_ub (member p (lit "value"));
        t ← egg_dn_print_value g_utf8_validate bmp_to_utf8 alloc this_year oid (data v); Ok (Some t)
      else find_part ps match_
    end
  end.

Lemma pair_members p : is_pair p = true -> exists t v, member p (lit "type") = Some t /\ member p (lit "value") = Some v.
Proof. unfold is_pair. rewrite !andb_true_iff. intros [[_ Ht] Hv]. apply bool_decide_eq_true in Ht as [t Ht], Hv as [v Hv]. eauto. Qed.

(** A loop over the pairs of a set, and one over the sets. *)
Lemma part_pairs_find match_ i s : name_sets asn !! i = Some s -> forall rest fuel j,
  (length rest < fuel)%nat -> drop j s = rest -> (j <= length s)%nat ->
  forall others,
  (r ← part_pairs g_utf8_validate bmp_to_utf8 alloc this_year fuel asn match_ (Z.of_nat (S i)) (Z.of_nat (S j));
   match r with Return v => Ok v | Break true => Ok None | Break false => find_part others match_ end) =
  find_part (rest ++ if bool_decide (s = []) then [] else others) match_.
Proof.
  intros Hs. destruct (width_sets asn) as [Hw1 Hw2]. assert (length s < width asn)%nat as Hls by by apply (proj1 (Forall_lookup _ _) Hw2 i).
  induction rest as [|p rest IH]; intros [|fuel] j Hf Hd Hj others; [cbn in Hf; lia| |cbn in Hf; lia|];
    cbn [part_pairs].
  - assert (j = length s) as -> by (apply (f_equal length) in Hd; rewrite length_drop in Hd; cbn in Hd; lia).
    rewrite (member_behind asn i (length s) (lit "type")) by (done || by rewrite Hs; apply lookup_ge_None_2). run. destruct s as [|p s]; [done|].
    destruct (Z.eqb_spec (Z.of_nat (S (length (p :: s)))) 1) as [E|_]; [cbn in E; lia|done].
  - assert (s !! j = Some p) as Hp by by apply (f_equal (.!! 0%nat)) in Hd; rewrite lookup_drop, Nat.add_0_r in Hd.
    destruct (pair_members p) as (t & v & Ht & Hv); [by apply (name_pair asn i s j)|]. cbn [find_part app]. unfold pair_type.
    rewrite (member_at asn i s j p (lit "type")), Ht by done. cbn [oid_of_node mbind res_bind].
    destruct (egg_asn1x_get_oid_as_quark (data t)) as [[oid|]| |]; cbn [mbind res_bind]; [|done..].
    unfold part_matches. rewrite <- negb_orb. destruct (_ || _); cbn [negb].
    + rewrite (member_at asn i s j p), Hv by done. cbn [or_ub mbind res_bind]. unfold egg_dn_print_value.
      by destruct (dn_print_oid_value _ _ _ _ oid _ (data v)).
    + assert (j < length s)%nat by (apply (f_equal length) in Hd; rewrite length_drop in Hd; cbn in Hd; lia).
      rewrite (next_index j (width asn)) by lia. cbn [mbind res_bind]. apply (IH fuel (S j)); [cbn in Hf; lia| |lia].
      apply (f_equal (drop 1)) in Hd. by rewrite drop_drop, Nat.add_comm in Hd.
Qed.

Lemma part_rdns_find match_ : forall rest fuel i, (length rest < fuel)%nat -> drop i (name_sets asn) = rest -> (i <= length (name_sets asn))%nat ->
  part_rdns g_utf8_validate bmp_to_utf8 alloc this_year fuel asn match_ (Z.of_nat (S i)) = find_part (concat (filled rest)) match_.
Proof.
  destruct (width_sets asn) as [Hw1 Hw2].
  induction rest as [|s rest IH]; intros [|fuel] i Hf Hd Hi; [cbn in Hf; lia| |cbn in Hf; lia|]; cbn [part_rdns].
  - assert (i = length (name_sets asn)) as -> by (apply (f_equal length) in Hd; rewrite length_drop in Hd; cbn in Hd; lia).
    assert (width asn = S (pred (width asn))) as -> by done. cbn [part_pairs].
    pose proof (member_behind asn (length (name_sets asn)) 0 (lit "type") Hname) as E. change (Z.of_nat 1) with 1 in E.
    by rewrite E by by rewrite lookup_ge_None_2.
  - assert (name_sets asn !! i = Some s) as Hs by by apply (f_equal (.!! 0%nat)) in Hd; rewrite lookup_drop, Nat.add_0_r in Hd.
    assert (length s < width asn)%nat as Hls by by apply (proj1 (Forall_lookup _ _) Hw2 i).
    pose proof (part_pairs_find match_ i s Hs s (width asn) 0 ltac:(lia) eq_refl ltac:(lia) (concat (filled rest))) as E.
    change (Z.of_nat 1) with 1 in E. transitivity (find_part (s ++ (if bool_decide (s = []) then [] else concat (filled rest))) match_); [|by destruct s].
    rewrite <- E. clear E. destruct (part_pairs _ _ _ _ (width asn) asn match_ (Z.of_nat (S i)) 1) as [[[]|]| |]; cbn [mbind res_bind]; [done| |done..].
    assert (i < length (name_sets asn))%nat by (apply (f_equal length) in Hd; rewrite length_drop in Hd; cbn in Hd; lia).
    rewrite (next_index i (width asn)) by lia. cbn [mbind res_bind]. apply (IH fuel (S i)); [cbn in Hf; lia| |lia].
    apply (f_equal (drop 1)) in Hd. by rewrite drop_drop, Nat.add_comm in Hd.
Qed.

Lemma dn_read_part_reference match_ :
  egg_dn_read_part g_utf8_validate bmp_to_utf8 alloc this_year asn match_ = find_part (concat (filled (name_sets asn))) match_.
Proof. destruct (width_sets asn) as [Hw1 _]. apply (part_rdns_find match_ (name_sets asn) (width asn) 0); [done|done|lia]. Qed.

(** ** Calls *)

Fixpoint calls_of (ps : list (Z * GNode)) : res unit (bool * list Call) :=
  match ps with
  | [] => Ok (true, [])
  | (i, p) :: ps =>
    oid ← pair_type p;
    match oid with
    | None => Ok (false, [])
    | Some oid => v ← or_ub (member p (lit "value")); '(b, calls) ← calls_of ps; Ok (b, (i, oid, v) :: calls)
    end
  end.

(** The pairs with the number of their set. *)
Fixpoint numbered (i : nat) (sets : list (list GNode)) : list (Z * GNode) :=
  match sets with [] => [] | s :: sets => ((fun p => (Z.of_nat (S i), p)) <$> s) ++ numbered (S i) sets end.

Lemma calls_app_bind ps qs : calls_of (ps ++ qs) = '(b, calls) ← calls_of ps;
  if b : bool then '(b, others) ← calls_of qs; Ok (b, calls ++ others) else Ok (b, calls).
Proof.
  induction ps as [|[i p] ps IH]; cbn [calls_of app]; [run; by destruct (calls_of qs) as [[]| |]|].
  destruct (pair_type p) as [[oid|]| |]; cbn [mbind res_bind]; [|done..]. destruct (or_ub (E := unit) (member p (lit "value"))) as [v| |]; cbn [mbind res_bind]; [|done..].
  rewrite IH. destruct (calls_of ps) as [[[] calls]| |]; cbn [mbind res_bind]; [|done..]. by destruct (calls_of qs) as [[]| |].
Qed.

Lemma next_unsigned k n : (k < n)%nat -> Z.of_nat n < 2 ^ 31 - 1 -> u32 (Z.of_nat (S k) + 1) = Z.of_nat (S (S k)).
Proof. intros Hk Hn. rewrite u32_small by lia. lia. Qed.

Lemma parse_pairs_calls i s : name_sets asn !! i = Some s -> forall rest fuel j,
  (length rest < fuel)%nat -> drop j s = rest -> (j <= length s)%nat ->
  parse_pairs fuel asn (Z.of_nat (S i)) (Z.of_nat (S j)) =
  '(b, calls) ← calls_of ((fun p => (Z.of_nat (S i), p)) <$> rest); Ok (if b : bool then Break (bool_decide (s = [])) else Return false, calls).
Proof.
  intros Hs. destruct (width_sets asn) as [Hw1 Hw2]. assert (length s < width asn)%nat as Hls by by apply (proj1 (Forall_lookup _ _) Hw2 i).
  pose proof (lookup_lt_Some _ _ _ Hs) as Hi.
  induction rest as [|p rest IH]; intros [|fuel] j Hf Hd Hj; [cbn in Hf; lia| |cbn in Hf; lia|]; cbn [parse_pairs fmap list_fmap calls_of];
    rewrite !s32_small by lia.
  - assert (j = length s) as -> by (apply (f_equal length) in Hd; rewrite length_drop in Hd; cbn in Hd; lia).
    rewrite (member_behind asn i (length s) (lit "type")) by (done || by rewrite Hs; apply lookup_ge_None_2). run.
    destruct s as [|p s]; [done|]. destruct (Z.eqb_spec (Z.of_nat (S (length (p :: s)))) 1) as [E|_]; [cbn in E; lia|done].
  - assert (s !! j = Some p) as Hp by by apply (f_equal (.!! 0%nat)) in Hd; rewrite lookup_drop, Nat.add_0_r in Hd.
    assert (j < length s)%nat by (apply (f_equal length) in Hd; rewrite length_drop in Hd; cbn in Hd; lia).
    destruct (pair_members p) as (t & v & Ht & Hv); [by apply (name_pair asn i s j)|]. unfold pair_type.
    rewrite (member_at asn i s j p (lit "type")), (member_at asn i s j p (lit "value")), Ht, Hv by done. cbn [oid_of_node mbind res_bind or_ub].
    destruct (egg_asn1x_get_oid_as_quark (data t)) as [[oid|]| |]; cbn [mbind res_bind]; [|done..].
    rewrite (next_unsigned j (width asn)) by lia. rewrite (IH fuel (S j)); [|cbn in Hf; lia| |lia].
    + destruct (calls_of _) as [[b calls]| |]; done.
    + apply (f_equal (drop 1)) in Hd. by rewrite drop_drop, Nat.add_comm in Hd.
Qed.

Lemma parse_rdns_calls : forall rest fuel i, (length rest < fuel)%nat -> drop i (name_sets asn) = rest -> (i <= length (name_sets asn))%nat ->
  parse_rdns fuel asn (Z.of_nat (S i)) = calls_of (numbered i (filled rest)).
Proof.
  destruct (width_sets asn) as [Hw1 Hw2].
  induction rest as [|s rest IH]; intros [|fuel] i Hf Hd Hi; [cbn in Hf; lia| |cbn in Hf; lia|]; cbn [parse_rdns].
  - assert (i = length (name_sets asn)) as -> by (apply (f_equal length) in Hd; rewrite length_drop in Hd; cbn in Hd; lia).
    assert (width asn = S (pred (width asn))) as -> by done. cbn [parse_pairs]. rewrite !s32_small by lia.
    pose proof (member_behind asn (length (name_sets asn)) 0 (lit "type") Hname) as E. change (Z.of_nat 1) with 1 in E.
    rewrite E by by rewrite lookup_ge_None_2. run. rewrite u32_small by lia. destruct (Z.ltb_spec 1 (Z.of_nat (S (length (name_sets asn))) + 1)); [done|lia].
  - assert (name_sets asn !! i = Some s) as Hs by by apply (f_equal (.!! 0%nat)) in Hd; rewrite lookup_drop, Nat.add_0_r in Hd.
    assert (length s < width asn)%nat as Hls by by apply (proj1 (Forall_lookup _ _) Hw2 i).
    assert (i < length (name_sets asn))%nat by (apply (f_equal length) in Hd; rewrite length_drop in Hd; cbn in Hd; lia).
    pose proof (parse_pairs_calls i s Hs s (width asn) 0 ltac:(lia) eq_refl ltac:(lia)) as E.
    change (Z.of_nat 1) with 1 in E. rewrite E. clear E. destruct s as [|p s].
    + cbn. rewrite u32_small by lia. destruct (Z.ltb_spec 1 (Z.of_nat (S i) + 1)); [done|lia].
    + cbn [filled numbered]. rewrite calls_app_bind. destruct (calls_of ((fun p => (Z.of_nat (S i), p)) <$> p :: s)) as [[[] calls]| |]; cbn [mbind res_bind]; try done.
      rewrite (next_unsigned i (width asn)), (IH fuel (S i)) by (cbn in *; lia || by apply (f_equal (drop 1)) in Hd; rewrite drop_drop, Nat.add_comm in Hd). done.
Qed.

Lemma dn_parse_reference : egg_dn_parse asn = calls_of (numbered 0 (filled (name_sets asn))).
Proof. destruct (width_sets asn) as [Hw1 _]. apply (parse_rdns_calls (name_sets asn) (width asn) 0); [done|done|lia]. Qed.

(** C24: the loops of [egg_dn_read], [egg_dn_read_part] and [egg_dn_parse], which look up
    every pair by two indexes from the root, go over the pairs that have data, set by set up
    to a set without any, and end: the text is that of the pairs, with a plus sign within a
    set and a comma between sets; the part is that of the first pair with the type; and the
    callback gets each pair with the number of its set. *)
Theorem dn_reads_pairs (match_ : list Z) :
  egg_dn_read g_utf8_validate bmp_to_utf8 alloc this_year asn = name_text asn /\
  egg_dn_read_part g_utf8_validate bmp_to_utf8 alloc this_year asn match_ = find_part (concat (filled (name_sets asn))) match_ /\
  egg_dn_parse asn = calls_of (numbered 0 (filled (name_sets asn))).
Proof. split_and!; [apply dn_read_reference|apply dn_read_part_reference|apply dn_parse_reference]. Qed.

End Reading.
