(* ===== verification/DnBuild.v ===== *)
(** Names that are built: what [egg_dn_add_string_part] adds is what [egg_dn_read]
    shows. *)

From S2P Require Import Prelude Text Asn1Tlv Asn1Value Asn1Node Asn1Schema Sorting Asn1Create Asn1Tables Asn1Decode Asn1DecodeSpec Asn1Build Asn1Roundtrip Asn1Access Asn1Strings Oid Dn DnSpec.
Local Open Scope Z_scope.

(** * Values *)

(** The kind of string that is chosen. *)
Definition kind_name (string : list Z) : list Z :=
  if is_printable_string string then lit "printableString"
  else if is_ascii_string string then lit "ia5String"
  else lit "utf8String".

(** A choice of strings, no two with the same tag. *)
Definition string_choice (value : GNode) : bool :=
  let 'N an cs := value in
  is_type an CHOICE && negb (has (anode_def_flags an) FLAG_TAG) && negb (egg_asn1x_have value) &&
  forallb (fun c => stringy (data c) && negb (chosen (data c))) cs && bool_decide (NoDup (tags cs)).

Definition is_leaf (n : GNode) : bool := bool_decide (children n = []).

(** The node of the tree that gets a string, and the flags that go with it. *)
Definition string_node (value : GNode) (string : list Z) : option GNode :=
  if string_choice value then
    match egg_asn1x_node value [Name (kind_name string); NullArg] with
    | Ok (Some [k]) => children value !! k
    | _ => None
    end
  else if stringy (data value) then Some value else None.

Definition fits (n : GNode) (string : list Z) : bool :=
  stringy (data n) && negb (is_type (data n) BMP_STRING) &&
  match anode_validate_size (data n) (Zlen string) with Ok Valid => true | _ => false end.

Definition good_text (g_utf8_validate : list Z -> bool) (string : list Z) : Prop :=
  c_str string = string /\ g_utf8_validate string = true /\ Zlen string < 2 ^ 30.

Section Values.
Context `{GListSort} (g_utf8_validate : list Z -> bool) (bmp_to_utf8 : list Z -> option (list Z)).
Context (alloc : Z -> option (list Z)) (this_year : Z).
Context (oid string : list Z) (value : GNode) (n : GNode).
Context (Hcreate : egg_asn1x_create 20 pkix_asn1_tab oid = Ok (Some value)).
Context (Hnode : string_node value string = Some n) (Hfits : fits n string = true) (Htext : good_text g_utf8_validate string).

Abbreviation printed := (dn_print_oid_value_parsed g_utf8_validate bmp_to_utf8 alloc this_year oid).

Lemma set_utf8_value an cs : stringy an = true -> set_utf8 g_utf8_validate string (N an cs) = N (anode_take_value an string) cs.
Proof.
  rewrite stringy_iff. intros [Ht _]. destruct Htext as (Hc & Hu & _). unfold set_utf8, on_data, egg_asn1x_set_string_as_utf8.
  rewrite Hc, Hu. cbn [negb snd]. unfold egg_asn1x_set_string_as_raw. by rewrite Ht.
Qed.

(** The value of an ANY that holds the TLV of the string. *)
Definition holds (val : Anode) (t : Atlv) : Prop := is_type val ANY = true /\ has (anode_def_flags val) FLAG_TAG = false /\ parsed val = Some t.

Lemma get_any_root val t n' : holds val t -> tag (head t) < 31 -> expected_tag value (anode_def_flags (data value)) t = tag (head t) ->
  anode_decode_one_without_tag (decode_fuel [value]) value t (anode_def_flags (data value)) = Ok (true, n') ->
  egg_asn1x_validate this_year n' true = Ok (true, n') -> egg_asn1x_get_any_into this_year val [value] = Ok (true, [n']).
Proof.
  intros (Hty & Hf & Hp) Ht He Hd Hv. unfold egg_asn1x_get_any_into, egg_asn1x_get_any_into_full. rewrite Hty, Hp. cbn [negb].
  rewrite not_explicit by done. unfold decode_anything, anode_decode_anything. rewrite c_assert_true by done. run.
  cbn [decode_loop]. rewrite He, Z.eqb_refl. cbn [negb]. rewrite Hd. run. cbn [negb decode_loop decode_absent]. run.
  change (negb (has 0 EGG_ASN1X_NO_STRICT)) with true. by rewrite Hv.
Qed.

Lemma print_value m an cs (choice : bool) val : egg_asn1x_get_any_into this_year val [value] = Ok (true, [m]) ->
  (if choice then snd <$> egg_asn1x_get_choice m else Some m) = Some (N an cs) ->
  is_type an BMP_STRING = false -> an_value an = Some string ->
  printed (if choice then Z.lor EGG_OID_PRINTABLE EGG_OID_IS_CHOICE else EGG_OID_PRINTABLE) val = Ok (Some string).
Proof.
  intros Hget Hch Hb Hv. unfold dn_print_oid_value_parsed. rewrite Hcreate. run. rewrite Hget. run. cbn [negb hd_error or_ub]. run.
  assert ((if has (if choice then Z.lor EGG_OID_PRINTABLE EGG_OID_IS_CHOICE else EGG_OID_PRINTABLE) EGG_OID_IS_CHOICE
           then snd <$> egg_asn1x_get_choice m else Some m) = Some (N an cs)) as -> by by destruct choice.
  cbn [data]. rewrite Hb. run. unfold egg_asn1x_get_value_raw. rewrite Hv. destruct Htext as (Hc & -> & _). cbn [negb]. by rewrite Hc.
Qed.

Lemma fits_string : stringy (data n) = true /\ is_type (data n) BMP_STRING = false /\ anode_validate_size (data n) (Zlen string) = Ok Valid.
Proof.
  unfold fits in Hfits. rewrite !andb_true_iff, negb_true_iff in Hfits. destruct Hfits as [[? ?] Hv]. split_and!; [done|done|].
  by destruct (anode_validate_size (data n) (Zlen string)) as [[]| |].
Qed.

Lemma stringy_no_choice an : stringy an = true -> is_type an CHOICE = false.
Proof. rewrite stringy_iff. intros [Ht _]. unfold is_type. apply bool_decide_eq_false. intros E. by rewrite E in Ht. Qed.

(** What is built and stored, printed again. *)
Definition value_returns : Prop :=
  exists built t, dn_string_value g_utf8_validate oid string = Ok (Some built) /\ anode_build_anything built true = Ok (Some t) /\
    forall val, holds val t ->
      printed (if is_type (data value) CHOICE then Z.lor EGG_OID_PRINTABLE EGG_OID_IS_CHOICE else EGG_OID_PRINTABLE) val = Ok (Some string).

Lemma plain_value_returns : string_choice value = false -> value_returns.
Proof.
  intros Hch. destruct fits_string as (Hs & Hb & Hsz). destruct Htext as (_ & _ & Hl).
  assert (n = value) as En.
  { unfold string_node in Hnode. rewrite Hch in Hnode. destruct (stringy (data value)); [congruence|done]. }
  rewrite En in Hs, Hb, Hsz. clear En. unfold value_returns. rewrite (stringy_no_choice _ Hs).
  assert (exists an cs, value = N an cs) as (an & cs & Ev) by (destruct value; eauto). rewrite Ev in Hs, Hb, Hsz. cbn [data] in Hs, Hb, Hsz.
  pose proof (stringy_tag an Hs) as Ht. eexists _, (string_tlv (anode_calc_tag an) string). split_and!; [| |].
  - unfold dn_string_value. rewrite Hcreate. run. rewrite Ev. cbn [data]. by rewrite (stringy_no_choice _ Hs), set_utf8_value.
  - assert (anode_calc_tag an = anode_calc_tag (anode_take_value an string)) as -> by (symmetry; apply core_calc_tag, core_take_value).
    apply build_string; [by rewrite (stringy_core _ an) by apply core_take_value|apply take_value_of|done].
  - intros val Hval. apply (print_value (N (decoded_string an (anode_calc_tag an) string) cs) (decoded_string an (anode_calc_tag an) string) cs false).
    + apply (get_any_root val (string_tlv (anode_calc_tag an) string)); rewrite ?Ev; [done|cbn; lia| | |].
      * unfold expected_tag. cbn [data]. fold (anode_calc_tag an). by destruct (_ =? G_MAXULONG).
      * by apply without_tag_string.
      * apply (validate_string _ string); [by rewrite (stringy_core _ an) by apply core_decoded|apply value_decoded|].
        by rewrite (validate_size_core _ an) by apply core_decoded.
    + done.
    + unfold is_type in *. by rewrite (core_def_type _ an) by by destruct an.
    + by destruct an.
Qed.

Lemma tags_app a b : tags (a ++ b) = tags a ++ tags b.
Proof. apply fmap_app. Qed.

Lemma find_chosen pre c post : Forall (fun c => chosen (data c) = false) (pre ++ post) -> chosen (data c) = true ->
  snd <$> find_child (fun c => chosen (data c)) (pre ++ c :: post) = Some c /\
  List.filter (fun c => chosen (data c)) (pre ++ c :: post) = [c].
Proof.
  intros Hf Hc. apply Forall_app in Hf as [Hpre Hpost].
  assert (forall l, Forall (fun c => chosen (data c) = false) l -> List.filter (fun c => chosen (data c)) l = []) as Hnil.
  { induction 1 as [|d l Hd _ IH]; [done|]. cbn [List.filter]. by rewrite Hd. }
  induction Hpre as [|d pre Hd _ [IH1 IH2]]; cbn [app find_child List.filter].
  - rewrite Hc. by rewrite Hnil.
  - rewrite Hd. split; [|done]. by destruct (find_child _ _) as [[]|].
Qed.

(** The mark on one child. *)
Lemma mark_one pre n0 post  :
  imap (fun i c => on_data (fun an => set_chosen an (Nat.eqb i (length pre))) c) (pre ++ n0 :: post) =
    (on_data (fun an => set_chosen an false) <$> pre) ++ on_data (fun an => set_chosen an true) n0 :: (on_data (fun an => set_chosen an false) <$> post).
Proof.
  rewrite imap_app. f_equal.
  - rewrite <- imap_const. apply imap_ext. intros i x Hi. apply lookup_lt_Some in Hi. destruct (Nat.eqb_spec i (length pre)); [lia|done].
  - cbn [imap]. unfold compose. rewrite Nat.add_0_r, Nat.eqb_refl. f_equal. rewrite <- imap_const. apply imap_ext. intros i x _.
    destruct (Nat.eqb_spec (length pre + S i) (length pre)); [lia|done].
Qed.

Lemma chosen_false_marked (l : list GNode) : Forall (fun c => chosen (data c) = false) (on_data (fun an => set_chosen an false) <$> l).
Proof. apply Forall_fmap, Forall_true. by intros []. Qed.

Lemma build_chosen_at pre c post want : Forall (fun c => chosen (data c) = false) pre -> chosen (data c) = true ->
  build_chosen anode_build_anything (pre ++ c :: post) want = anode_build_anything c want.
Proof. intros Hp Hc. induction Hp as [|d pre Hd _ IH]; cbn [app build_chosen]; [by rewrite Hc|by rewrite Hd]. Qed.

Lemma validate_chosen_at go pre c post : Forall (fun c => chosen (data c) = false) pre -> chosen (data c) = true -> go c = Ok (true, c) ->
  validate_chosen go (pre ++ c :: post) = Ok (Some (true, pre ++ c :: post)).
Proof.
  intros Hp Hc Hgo. induction Hp as [|d pre Hd _ IH]; cbn [app validate_chosen]; [by rewrite Hc, Hgo|].
  rewrite Hd. cbn [app] in IH. by rewrite IH.
Qed.

Lemma choice_value_returns : string_choice value = true -> value_returns.
Proof.
  intros Hch. destruct fits_string as (Hs & Hb & Hsz). destruct Htext as (_ & _ & Hl). unfold string_node in Hnode. rewrite Hch in Hnode.
  destruct (egg_asn1x_node value [Name (kind_name string); NullArg]) as [[[|k [|]]|]| |] eqn:Epath; try done.
  assert (exists an cs, value = N an cs) as (an & cs & Ev) by (destruct value; eauto). rewrite Ev in Hnode, Hch. cbn [children] in Hnode.
  unfold string_choice in Hch. rewrite !andb_true_iff, !negb_true_iff, bool_decide_eq_true, forallb_forall in Hch.
  destruct Hch as [[[[Hty Hf] Hfresh] Hcs] Hnd]. destruct (list_elem_of_split_length _ _ _ Hnode) as (pre & post & -> & ->).
  assert (exists c cc, n = N c cc) as (c & cc & En) by (destruct n; eauto). rewrite En in *. cbn [data] in Hs, Hb, Hsz. clear Hnode.
  assert (Forall (fun c => stringy (data c) = true) (pre ++ N c cc :: post)) as Hstr.
  { apply Forall_forall. intros d Hd. apply list_elem_of_In, Hcs, andb_true_iff in Hd. apply Hd. }
  set (t := string_tlv (anode_calc_tag c) string). pose proof (stringy_tag c Hs) as Htag.
  exists (N an ((on_data (fun an => set_chosen an false) <$> pre) ++ N (anode_take_value (set_chosen c true) string) cc ::
    (on_data (fun an => set_chosen an false) <$> post))), t.
  assert (is_type an BMP_STRING = false) as Hnb by (apply bool_decide_eq_true in Hty; by apply bool_decide_eq_false; rewrite Hty).
  pose proof (bool_decide_eq_true_1 _ Hty) as Hty'. rewrite Ev. cbn [data]. rewrite Hty.
  split_and!.
  - unfold dn_string_value. rewrite Hcreate. run. rewrite Ev in *. cbn [data]. rewrite Hty. fold (kind_name string). rewrite Epath. run.
    change (default 0%nat (hd_error [length pre])) with (length pre).
    unfold egg_asn1x_set_choice. rewrite bool_decide_eq_true_2 by done. cbn [negb]. do 2 f_equal.
    cbn [alter_at]. rewrite mark_one. f_equal. rewrite alter_app_r_alt by (rewrite length_fmap; lia). rewrite length_fmap, Nat.sub_diag. cbn [alter list_alter].
    f_equal. f_equal. cbn [on_data]. apply set_utf8_value. by rewrite (stringy_core _ c) by apply core_set_chosen.
  - cbn [anode_build_anything]. rewrite (bool_decide_eq_false_2 (anode_def_type an = ANY)), (bool_decide_eq_false_2 (anode_def_type an = BIT_STRING)),
      (bool_decide_eq_false_2 (anode_def_type an = INTEGER)), (bool_decide_eq_true_2 (anode_def_type an = CHOICE)) by (done || by rewrite Hty').
    rewrite Hty'. cbn [is_plain_type is_container_type].
    rewrite build_chosen_at by (done || apply chosen_false_marked).
    assert (core (anode_take_value (set_chosen c true) string) = core c) as Hc by by destruct c.
    rewrite (build_string _ string) by (done || by rewrite (stringy_core _ c)). run. unfold anode_calc_tag. rewrite (core_calc_tag _ c) by done.
    rewrite (core_def_flags _ _ Hc). fold (anode_calc_tag c) t. cbn [fmap option_fmap option_map]. unfold anode_build_maybe_explicit.
    pose proof (not_explicit an _ Hf) as Hx. unfold is_explicit in Hx. by destruct (anode_calc_explicit_for_flags an (anode_def_flags an)) as [[] ?].
  - intros val Hval.
    assert (exists f, decode_fuel [value] = S (S f)) as [f Hfuel].
    { exists (2 * max_list (height <$> [value]) - 1)%nat. unfold decode_fuel. rewrite Ev. cbn [fmap list_fmap height]. rewrite max_list_cons. lia. }
    destruct (choice_one f string c cc pre post Hs Hstr Hnd) as (pre' & post' & Hloop & Hun).
    fold t in Hloop.
    set (c' := N (set_chosen (decoded_string c (anode_calc_tag c) string) true) cc) in *.
    destruct (find_chosen pre' c' post' Hun eq_refl) as [Hfind Hone]. apply Forall_app in Hun as [Hun _].
    assert (core (set_chosen (decoded_string c (anode_calc_tag c) string) true) = core c) as Hc by by destruct c.
    apply (print_value (N (set_parsed an t) (pre' ++ c' :: post')) (set_chosen (decoded_string c (anode_calc_tag c) string) true) cc true);
      [|done|by unfold is_type in *; rewrite (core_def_type _ _ Hc)|by destruct c].
    apply (get_any_root val t); [done|cbn; lia| | |]; rewrite ?Ev; cbn [data].
    + unfold expected_tag, anode_calc_tag_for_flags. cbn [data]. by rewrite Hf, Hty'.
    + rewrite <- Ev, Hfuel, Ev. rewrite without_tag_primitive by (done || by apply not_explicit). unfold anode_decode_primitive. rewrite c_assert_true by done. run. cbn [data]. rewrite Hty'.
      unfold anode_decode_choice. rewrite Hloop. done.
    + unfold egg_asn1x_validate. cbn [anode_validate_anything].
      rewrite (core_def_type (set_parsed an t) an), Hty' by by destruct an. rewrite validate_chosen_at; [|done|done|].
      * run. by rewrite Hone.
      * apply (validate_string _ string); [by rewrite (stringy_core _ c)|by destruct c|by rewrite (validate_size_core _ c)].
Qed.

Lemma value_comes_back : value_returns.
Proof. destruct (string_choice value) eqn:E; [by apply choice_value_returns|by apply plain_value_returns]. Qed.
End Values.

(** * Pairs *)

Definition named (name : list Z) (c : GNode) : bool := bool_decide (anode_def_name (data c) = Some name).

Definition cores (cs : list GNode) : list Anode := (fun c => core (data c)) <$> cs.

Lemma cores_cons c c' cs cs' : cores (c :: cs) = cores (c' :: cs') -> core (data c) = core (data c') /\ cores cs = cores cs'.
Proof. intros E. exact (conj (f_equal (List.hd (core (data c))) E) (f_equal tail E)). Qed.

Lemma named_core name c c' : core (data c) = core (data c') -> named name c = named name c'.
Proof. intros Hc. unfold named, anode_def_name. by rewrite (f_equal def Hc : def (data c) = def (data c')). Qed.

Lemma is_list_core n n' : core (data n) = core (data n') -> is_list n = is_list n'.
Proof. intros Hc. unfold is_list. by rewrite (core_def_type _ _ Hc). Qed.

Lemma member_find n name : member n name = snd <$> find_child (named name) (children n).
Proof.
  unfold member. induction (children n) as [|c cs IH]; [done|]. cbn [List.find find_child]. unfold named at 1.
  destruct (bool_decide _); [done|]. rewrite IH. by destruct (find_child _ _) as [[]|].
Qed.

Lemma find_cores name cs cs' : cores cs = cores cs' -> fst <$> find_child (named name) cs = fst <$> find_child (named name) cs'.
Proof.
  revert cs'. induction cs as [|c cs IH]; intros [|c' cs']; try done. intros [Hc Hcs]%cores_cons. cbn [find_child]. rewrite (named_core name c c') by done.
  destruct (named name c'); [done|]. specialize (IH cs' Hcs). destruct (find_child _ cs) as [[]|], (find_child _ cs') as [[]|]; cbn in *; congruence.
Qed.

Lemma find_child_at {f cs i c} : find_child f cs = Some (i, c) -> cs !! i = Some c.
Proof.
  revert i. induction cs as [|d cs IH]; intros i; cbn [find_child]; [done|]. destruct (f d); [by intros [= <- <-]|].
  destruct (find_child f cs) as [[j e]|] eqn:E; [|done]. cbn. intros [= <- <-]. by apply IH.
Qed.

(** The member at the same place of children with the same definitions. *)
Lemma member_cores n n' name i c : cores (children n) = cores (children n') ->
  find_child (named name) (children n) = Some (i, c) -> member n' name = children n' !! i.
Proof.
  intros Hc Hf. pose proof (find_cores name _ _ Hc) as H. rewrite Hf in H. rewrite member_find.
  destruct (find_child (named name) (children n')) as [[j d]|] eqn:E; cbn in H; [|done]. injection H as <-. by rewrite (find_child_at E).
Qed.

Lemma is_pair_cores n n' : core (data n) = core (data n') -> cores (children n) = cores (children n') -> is_pair n = is_pair n'.
Proof.
  intros Hd Hc. unfold is_pair. rewrite (is_list_core _ _ Hd). f_equal; [f_equal; [f_equal|]|].
  - revert Hc. generalize (children n), (children n'). intros cs. induction cs as [|c cs IH]; intros [|c' cs']; try done. intros [H Hcs]%cores_cons.
    cbn [forallb]. rewrite (is_list_core _ _ H), (IH cs' Hcs). unfold anode_def_name. by rewrite (f_equal def H : def (data c) = def (data c')).
  - rewrite !member_find. pose proof (find_cores (lit "type") _ _ Hc) as H. destruct (find_child _ _), (find_child _ _); done.
  - rewrite !member_find. pose proof (find_cores (lit "value") _ _ Hc) as H. destruct (find_child _ _), (find_child _ _); done.
Qed.

Lemma node_member n name : is_pair n = true ->
  egg_asn1x_node n [Name name; NullArg] = Ok ((fun x => [x.1]) <$> find_child (named name) (children n)).
Proof.
  unfold is_pair. rewrite !andb_true_iff, negb_true_iff. intros [[[Hl Hc] _] _]. destruct n as [an cs]. cbn [egg_asn1x_node children] in *.
  unfold is_list in Hl. cbn [data] in Hl. cbn [data]. rewrite Hl.
  assert (anode_child_with_name cs name = Ok (find_child (named name) cs)) as ->.
  { clear Hl. induction cs as [|c cs IH]; cbn [anode_child_with_name find_child]; [done|]. cbn [forallb] in Hc. rewrite !andb_true_iff in Hc.
    destruct Hc as [[_ Hn] Hc]. apply bool_decide_eq_true in Hn as [m Hm]. rewrite Hm. run. unfold named at 1. rewrite Hm.
    destruct (bool_decide_reflect (name = m)) as [<-|Hne]; [by rewrite bool_decide_eq_true_2|].
    rewrite bool_decide_eq_false_2 by (by intros [= ->]). rewrite IH by done. run. by destruct (find_child _ cs) as [[]|]. }
  run. destruct (find_child (named name) cs) as [[i c]|] eqn:E; [|done]. apply find_child_at, list_elem_of_lookup_2, list_elem_of_In in E.
  rewrite forallb_forall in Hc. apply Hc, andb_true_iff in E as [E _]. apply negb_true_iff in E. unfold is_list in E.
  destruct c as [an' cs']. cbn [egg_asn1x_node data] in *. by rewrite E.
Qed.

Lemma on_named_member n name f i c an : is_pair n = true -> find_child (named name) (children n) = Some (i, c) -> f (data c) = Ok an ->
  on_named n name f = Ok (N (data n) (alter (on_data (fun _ => an)) i (children n))).
Proof.
  intros Hp Hf Han. unfold on_named. rewrite node_member, Hf by done. run. destruct n as [nan cs]. cbn [children fst] in *.
  pose proof (find_child_at Hf) as Hi. cbn. rewrite Hi. cbn. by rewrite Han.
Qed.

Lemma cores_alter an i cs c : cs !! i = Some c -> core an = core (data c) -> cores (alter (on_data (fun _ => an)) i cs) = cores cs.
Proof.
  intros Hi Hc. unfold cores. apply list_eq. intros j. rewrite !list_lookup_fmap.
  destruct (decide (i = j)) as [<-|Hne]; [|by rewrite list_lookup_alter_ne].
  rewrite list_lookup_alter, decide_True, Hi by done. destruct c as [can ccs]. cbn [data] in Hc. exact (f_equal Some Hc).
Qed.

Lemma cores_clone cs : cores (anode_clone <$> cs) = cores cs.
Proof. unfold cores. rewrite <- list_fmap_compose. apply list_fmap_ext. intros i c _. unfold compose. by rewrite data_clone, core_core. Qed.

(** A pair that is ready to be filled. *)
Definition pair_template (p : GNode) : bool :=
  is_pair p &&
  match find_child (named (lit "type")) (children p), find_child (named (lit "value")) (children p) with
  | Some (i, t), Some (j, v) =>
    negb (Nat.eqb i j) && is_type (data t) OBJECT_ID && is_type (data v) ANY && negb (has (anode_def_flags (data v)) FLAG_TAG)
  | _, _ => false
  end.

Lemma is_type_core an an' t : core an = core an' -> is_type an t = is_type an' t.
Proof. intros Hc. unfold is_type. by rewrite (core_def_type _ _ Hc). Qed.

Lemma pair_template_core p p' : core (data p) = core (data p') -> cores (children p) = cores (children p') -> pair_template p = pair_template p'.
Proof.
  intros Hd Hc. unfold pair_template. rewrite (is_pair_cores p p') by done. f_equal.
  pose proof (find_cores (lit "type") _ _ Hc) as Ht. pose proof (find_cores (lit "value") _ _ Hc) as Hv.
  destruct (find_child (named (lit "type")) (children p)) as [[i t]|] eqn:E1, (find_child (named (lit "type")) (children p')) as [[i' t']|] eqn:E2; try done.
  destruct (find_child (named (lit "value")) (children p)) as [[j v]|] eqn:E3, (find_child (named (lit "value")) (children p')) as [[j' v']|] eqn:E4; try done.
  injection Ht as <-. injection Hv as <-.
  assert (forall cs cs' k a b, cores cs = cores cs' -> cs !! k = Some a -> cs' !! k = Some b -> core (data a) = core (data b)) as Hat.
  { intros cs cs' k a b E Ha Hb. apply (f_equal (.!! k)) in E. unfold cores in E. rewrite !list_lookup_fmap, Ha, Hb in E. exact (f_equal (from_option id (core (data a))) E). }
  pose proof (Hat _ _ _ _ _ Hc (find_child_at E1) (find_child_at E2)) as Hct. pose proof (Hat _ _ _ _ _ Hc (find_child_at E3) (find_child_at E4)) as Hcv.
  by rewrite (is_type_core _ _ _ Hct), (is_type_core _ _ _ Hcv), (core_def_flags _ _ Hcv).
Qed.

(** A pair with its type and value set. *)
Record filled_pair (p p' : GNode) (oid : list Z) (t : Atlv) : Prop := {
  fp_core : core (data p') = core (data p);
  fp_cores : cores (children p') = cores (children p);
  fp_have : egg_asn1x_have p' = true;
  fp_type : exists n, member p' (lit "type") = Some n /\ egg_asn1x_get_oid_as_quark (data n) = Ok (Some oid);
  fp_value : exists n, member p' (lit "value") = Some n /\ holds (data n) t }.

(** An identifier that is read as it is written. *)
Definition oid_returns (oid : list Z) : bool :=
  match egg_asn1x_set_oid_as_string oid with
  | Ok (Some b) => match anode_read_object_id b with Ok (Some o) => bool_decide (o = oid) | _ => false end
  | _ => false
  end.

Lemma have_child n i c : children n !! i = Some c -> egg_asn1x_have c = true -> egg_asn1x_have n = true.
Proof.
  intros Hi Hc. destruct n as [an cs]. cbn [egg_asn1x_have children] in *. apply orb_true_iff. right. apply existsb_exists.
  exists c. split; [|done]. by apply list_elem_of_In, (list_elem_of_lookup_2 _ i).
Qed.

Lemma fill_pair p oid built t : pair_template p = true -> oid_returns oid = true -> anode_build_anything built true = Ok (Some t) ->
  exists p', (q ← on_named p (lit "type") (fun an => '(_, an) ← egg_asn1x_set_oid_as_quark an (Some oid); Ok an);
              on_named q (lit "value") (fun an => egg_asn1x_set_any_from an built)) = Ok p' /\ filled_pair p p' oid t.
Proof.
  unfold pair_template, oid_returns. intros Hp Ho Hb. apply andb_true_iff in Hp as [Hp Ht].
  destruct (find_child (named (lit "type")) (children p)) as [[i tn]|] eqn:Eti; [|done].
  destruct (find_child (named (lit "value")) (children p)) as [[j vn]|] eqn:Evj; [|done].
  rewrite !andb_true_iff, !negb_true_iff in Ht. destruct Ht as [[[Hij Hto] Hva] Hvf]. apply Nat.eqb_neq in Hij.
  destruct (egg_asn1x_set_oid_as_string oid) as [[b|]| |] eqn:Eb; [|done..]. destruct (anode_read_object_id b) as [[o|]| |] eqn:Er; [|done..].
  apply bool_decide_eq_true in Ho as ->.
  set (tan := anode_take_value (data tn) b). pose proof (find_child_at Eti) as Hi. pose proof (find_child_at Evj) as Hj.
  assert (core tan = core (data tn)) as Htc by apply core_take_value.
  rewrite (on_named_member p (lit "type") _ i tn tan) by (done || by cbn; unfold set_oid_as_string; rewrite Hto, Eb). run.
  set (q := N (data p) (alter (on_data (fun _ => tan)) i (children p))).
  assert (cores (children q) = cores (children p)) as Hq by by apply (cores_alter tan i (children p) tn).
  assert (is_pair q = true) as Hpq by by rewrite (is_pair_cores q p).
  assert (children q !! j = Some vn) as Hjq by by cbn; rewrite list_lookup_alter_ne.
  assert (find_child (named (lit "value")) (children q) = Some (j, vn)) as Evq.
  { pose proof (find_cores (lit "value") _ _ Hq) as H. rewrite Evj in H. destruct (find_child (named (lit "value")) (children q)) as [[k d]|] eqn:E; [|done].
    injection H as ->. pose proof (find_child_at E) as H. rewrite Hjq in H. congruence. }
  set (van := set_parsed (data vn) t).
  assert (core van = core (data vn)) as Hvc by apply core_set_parsed.
  assert (egg_asn1x_set_any_from (data vn) built = Ok van) as Hset.
  { unfold egg_asn1x_set_any_from. rewrite Hva, Hb. run. unfold anode_build_maybe_explicit. pose proof (not_explicit (data vn) _ Hvf) as Hx.
    unfold is_explicit in Hx. by destruct (anode_calc_explicit_for_flags (data vn) (anode_def_flags (data vn))) as [[] ?]. }
  rewrite (on_named_member q (lit "value") _ j vn van) by done. eexists. split; [done|].
  set (r := N (data q) _). assert (cores (children r) = cores (children q)) as Hr by by apply (cores_alter van j (children q) vn).
  assert (children r !! i = Some (on_data (fun _ => tan) tn)) as Hir by (cbn; rewrite list_lookup_alter_ne by done; by rewrite list_lookup_alter, decide_True, Hi).
  assert (children r !! j = Some (on_data (fun _ => van) vn)) as Hjr by (unfold r; cbn [children]; by rewrite list_lookup_alter, decide_True, Hjq).
  split.
  - done.
  - by rewrite Hr.
  - apply (have_child r i _ Hir). destruct tn as [ta tc]. cbn. by destruct ta.
  - exists (on_data (fun _ => tan) tn). split; [by rewrite (member_cores p r _ i tn), Hir by (done || by rewrite Hr)|].
    rewrite data_on_data. unfold egg_asn1x_get_oid_as_quark, egg_asn1x_get_oid_as_string. rewrite (is_type_core _ _ _ Htc), Hto. cbn [negb].
    unfold tan. by rewrite take_value_of.
  - exists (on_data (fun _ => van) vn). split; [by rewrite (member_cores p r _ j vn), Hjr by (done || by rewrite Hr)|].
    rewrite data_on_data. split_and!; [by rewrite (is_type_core _ _ _ Hvc)|by rewrite (core_def_flags _ _ Hvc)|by destruct (data vn)].
Qed.

(** * Parts of a name *)

Record Part := mk_part { p_oid : list Z; p_string : list Z }.

Definition value_tree `{GListSort} (oid : list Z) : option GNode :=
  match egg_asn1x_create 20 pkix_asn1_tab oid with Ok v => v | _ => None end.

Definition string_flags (value : GNode) : Z :=
  if is_type (data value) CHOICE then Z.lor EGG_OID_PRINTABLE EGG_OID_IS_CHOICE else EGG_OID_PRINTABLE.

(** An identifier with a name and a type that is a string, or a choice of strings where
    its flags say so. *)
Definition writable `{GListSort} (oid : list Z) : bool :=
  match find_oid_info oid, value_tree oid with
  | Some i, Some value =>
    bool_decide (is_Some (attr i)) && (oid_flags i =? string_flags value) && oid_returns oid &&
    (string_choice value || stringy (data value))
  | _, _ => false
  end.

(** A string that the type can take. *)
Definition takes `{GListSort} (p : Part) : bool :=
  match value_tree (p_oid p) with
  | Some value => match string_node value (p_string p) with Some n => fits n (p_string p) | None => false end
  | None => false
  end.

Definition part_ok `{GListSort} (g_utf8_validate : list Z -> bool) (p : Part) : Prop :=
  writable (p_oid p) = true /\ takes p = true /\ good_text g_utf8_validate (p_string p).

Definition part_text (p : Part) : list Z := default [] (egg_oid_get_name (Some (p_oid p))) ++ 61 :: p_string p.

(** A name to which parts can be added. *)
Definition appendable (asn : GNode) : bool :=
  is_name asn &&
  match children asn with
  | r :: _ => match children r with p :: _ => pair_template p | [] => false end
  | [] => false
  end.

Lemma appended_list an c cs f : is_list (N an (c :: cs)) = true ->
  appended (N an (c :: cs)) f = d ← f (on_data anode_clear (anode_clone c)); Ok (N an (c :: cs ++ [d])).
Proof.
  unfold is_list, appended. cbn [data egg_asn1x_append]. intros ->. cbn [negb on_last]. rewrite last_snoc.
  rewrite length_app, Nat.add_1_r. cbn [pred]. by rewrite take_app_length.
Qed.

Lemma pairs_clone cs : forallb is_pair (anode_clone <$> cs) = forallb is_pair cs.
Proof.
  induction cs as [|c cs IH]; [done|]. cbn [fmap list_fmap forallb]. rewrite IH.
  by rewrite (is_pair_cores (anode_clone c) c) by (by rewrite data_clone, core_core || by rewrite children_clone, cores_clone).
Qed.

Lemma having_app a b : having (a ++ b) = having a ++ having b.
Proof. apply List.filter_app. Qed.

Lemma having_fresh cs : Forall fresh cs -> having cs = [].
Proof. induction 1 as [|c cs Hc _ IH]; [done|]. unfold having in *. cbn [List.filter]. by rewrite Hc. Qed.

Lemma having_one c : egg_asn1x_have c = true -> having [c] = [c].
Proof. intros Hc. unfold having. cbn [List.filter]. by rewrite Hc. Qed.

Lemma flags_of oid i : find_oid_info oid = Some i -> egg_oid_get_flags (Some oid) = oid_flags i.
Proof. intros Hi. unfold egg_oid_get_flags. change (Some oid ≫= find_oid_info) with (find_oid_info oid). by rewrite Hi. Qed.

Lemma name_of oid i : find_oid_info oid = Some i -> egg_oid_get_name (Some oid) = attr i.
Proof. intros Hi. change (egg_oid_get_name (Some oid)) with (match find_oid_info oid with None => Some oid | Some i => attr i end). by rewrite Hi. Qed.

Section Adding.
Context `{GListSort} (g_utf8_validate : list Z -> bool) (bmp_to_utf8 : list Z -> option (list Z)).
Context (alloc : Z -> option (list Z)) (this_year : Z).

Lemma filled_text p p' part value i name t : pair_template p = true -> filled_pair p p' (p_oid part) t ->
  find_oid_info (p_oid part) = Some i -> attr i = Some name -> oid_flags i = string_flags value ->
  (forall val, holds val t ->
     dn_print_oid_value_parsed g_utf8_validate bmp_to_utf8 alloc this_year (p_oid part) (string_flags value) val = Ok (Some (p_string part))) ->
  dn_parse_rdn g_utf8_validate bmp_to_utf8 alloc this_year p' = Ok (Some (part_text part)).
Proof.
  intros Hp [Hc Hcs _ (tn & Htn & Hoid) (vn & Hvn & Hval)] Hi Hname Hfl Hprint.
  assert (is_pair p' = true) as Hp'.
  { rewrite (is_pair_cores p' p) by done. unfold pair_template in Hp. by apply andb_true_iff in Hp as [Hp _]. }
  unfold dn_parse_rdn. rewrite (lookup_member p' (lit "type")), Htn by done. run. cbn [oid_of_node]. rewrite Hoid. run.
  rewrite (lookup_member p' (lit "value")), Hvn by done. run.
  assert (egg_oid_get_flags (Some (p_oid part)) = string_flags value) as Ef by by rewrite (flags_of _ i).
  assert (egg_oid_get_name (Some (p_oid part)) = Some name) as En by by rewrite (name_of _ i).
  unfold part_text. rewrite Ef, En. assert (has (string_flags value) EGG_OID_PRINTABLE = true) as Hpr by by unfold string_flags; destruct (is_type _ _).
  unfold dn_print_oid_value. rewrite Hpr, Hprint by done. run. done.
Qed.

Lemma add_part asn p : appendable asn = true -> part_ok g_utf8_validate p -> exists asn' pair,
  egg_dn_add_string_part g_utf8_validate asn (p_oid p) (p_string p) = Ok asn' /\ appendable asn' = true /\
  name_sets asn' = name_sets asn ++ [[pair]] /\ (width asn' <= S (width asn))%nat /\
  dn_parse_rdn g_utf8_validate bmp_to_utf8 alloc this_year pair = Ok (Some (part_text p)).
Proof.
  unfold appendable, part_ok, writable, takes, value_tree. rewrite andb_true_iff. intros [Hname Htm] (Hw & Ht & Htext).
  destruct asn as [an [|[ran [|p0 rcs]] cs]]; [done|done|]. cbn [children] in Htm.
  destruct (find_oid_info (p_oid p)) as [i|] eqn:Ei; [|done].
  destruct (egg_asn1x_create 20 pkix_asn1_tab (p_oid p)) as [[value|]| |] eqn:Ecr; [|done..].
  rewrite !andb_true_iff, bool_decide_eq_true, Z.eqb_eq in Hw. destruct Hw as [[[[name Hn] Hfl] Hoid] _].
  destruct (string_node value (p_string p)) as [n|] eqn:En; [|done].
  destruct (value_comes_back g_utf8_validate bmp_to_utf8 alloc this_year (p_oid p) (p_string p) value n Ecr En Ht Htext)
    as (built & t & Hbuilt & Htlv & Hprint). fold (string_flags value) in Hprint.
  unfold is_name in Hname. apply andb_true_iff in Hname as [Hl Hsets]. cbn [children forallb] in Hsets. apply andb_true_iff in Hsets as [Hr Hsets].
  apply andb_true_iff in Hr as [Hrl Hrp]. cbn [children] in Hrp.
  set (p1 := on_data anode_clear (anode_clone (anode_clone p0))).
  assert (core (data p1) = core (data p0)) as Hp1c by (unfold p1; rewrite data_on_data, core_clear, !data_clone, !core_core; done).
  assert (cores (children p1) = cores (children p0)) as Hp1cs by (unfold p1; by rewrite children_on_data, !children_clone, !cores_clone).
  destruct (fill_pair p1 (p_oid p) built t) as (p2 & Hfill & Hfilled); [by rewrite (pair_template_core p1 p0)|done|done|].
  set (r2 := N (anode_clear (core ran)) ((anode_clone <$> p0 :: rcs) ++ [p2])).
  assert (core (anode_clear (core ran)) = core ran) as Hrc by by rewrite core_clear, core_core.
  exists (N an (N ran (p0 :: rcs) :: cs ++ [r2])), p2.
  assert (egg_asn1x_have r2 = true) as Hr2.
  { apply (have_child r2 (length (anode_clone <$> p0 :: rcs)) p2); [cbn [children r2]; by apply list_lookup_middle|apply Hfilled]. }
  assert (is_list r2 = true) as Hr2l by (rewrite (is_list_core r2 (N ran (p0 :: rcs))); [done|exact Hrc]).
  assert (is_pair p2 = true) as Hp2.
  { rewrite (is_pair_cores p2 p0) by (by rewrite (fp_core _ _ _ _ Hfilled) || by rewrite (fp_cores _ _ _ _ Hfilled)). cbn [forallb] in Hrp. by apply andb_true_iff in Hrp as [? _]. }
  assert (having (children r2) = [p2]) as Hh2.
  { cbn [children r2]. rewrite having_app, having_fresh by (apply Forall_fmap, Forall_true; intros; apply clone_fresh).
    by rewrite having_one by apply Hfilled. }
  split_and!.
  - unfold egg_dn_add_string_part. assert (has (egg_oid_get_flags (Some (p_oid p))) EGG_OID_PRINTABLE = true) as ->.
    { rewrite (flags_of _ i), Hfl by done. unfold string_flags. by destruct (is_type _ _). }
    cbn [negb]. rewrite Hbuilt. run. rewrite appended_list by done. cbn [anode_clone on_data fmap list_fmap].
    rewrite appended_list by (rewrite <- Hr2l; by apply is_list_core). fold p1. rewrite Hfill. run. done.
  - unfold is_name. cbn [children]. rewrite Htm, andb_true_r. apply andb_true_iff. split; [done|].
    change (forallb ?f (?x :: ?l)) with (f x && forallb f l). rewrite forallb_app, Hsets. cbn [forallb]. rewrite Hrl, Hr2l, !andb_true_r. cbn [andb].
    apply andb_true_iff. split; [exact Hrp|]. cbn [children r2]. rewrite forallb_app. cbn [forallb]. rewrite Hp2, !andb_true_r. by rewrite pairs_clone.
  - unfold name_sets. cbn [children]. rewrite app_comm_cons, having_app, fmap_app, having_one by done. cbn [fmap list_fmap]. by rewrite Hh2.
  - unfold width. cbn [children r2]. rewrite !fmap_cons, !fmap_app, !max_list_cons, !max_list_app. cbn [fmap list_fmap children].
    rewrite max_list_cons. cbn [length]. rewrite !length_app.
    assert (length (children r2) = S (S (length rcs))) as -> by (cbn; rewrite length_app, length_fmap; cbn; lia). cbn [max_list length]. lia.
  - by apply (filled_text p1 p2 p value i name t); [rewrite (pair_template_core p1 p0)|..].
Qed.
(** The parts one after the other. *)
Fixpoint add_parts (asn : GNode) (parts : list Part) : res unit GNode :=
  match parts with
  | [] => Ok asn
  | p :: parts => asn ← egg_dn_add_string_part g_utf8_validate asn (p_oid p) (p_string p); add_parts asn parts
  end.

Abbreviation text := (dn_parse_rdn g_utf8_validate bmp_to_utf8 alloc this_year).

Lemma texts_app (sets : list (list GNode)) pair s ts : all_texts (all_texts text) sets = Ok (Some ts) -> text pair = Ok (Some s) ->
  all_texts (all_texts text) (sets ++ [[pair]]) = Ok (Some (ts ++ [[s]])).
Proof.
  intros Hts Hs. revert ts Hts. induction sets as [|set sets IH]; intros ts Hts; cbn [app all_texts] in *.
  - injection Hts as <-. by rewrite Hs.
  - apply bind_Ok in Hts as (o & -> & Hts). destruct o as [t|]; [|done]. cbn [mbind res_bind]. apply bind_Ok in Hts as (o & Ho & Hts).
    destruct o as [ts'|]; [|done]. rewrite (IH ts' Ho). injection Hts as <-. done.
Qed.

Lemma filled_app sets pair : filled sets = sets -> filled (sets ++ [[pair]]) = sets ++ [[pair]].
Proof. induction sets as [|[|p s] sets IH]; cbn [filled app]; try done. intros [= E]. by rewrite IH. Qed.

Lemma parts_added parts : forall asn ts, appendable asn = true -> Forall (part_ok g_utf8_validate) parts ->
  filled (name_sets asn) = name_sets asn -> all_texts (all_texts text) (name_sets asn) = Ok (Some ts) ->
  exists asn', add_parts asn parts = Ok asn' /\ appendable asn' = true /\ (width asn' <= width asn + length parts)%nat /\
    filled (name_sets asn') = name_sets asn' /\ all_texts (all_texts text) (name_sets asn') = Ok (Some (ts ++ ((fun p => [part_text p]) <$> parts))).
Proof.
  induction parts as [|p parts IH]; intros asn ts Ha Hall Hf Hts; cbn [add_parts].
  - exists asn. rewrite app_nil_r. split_and!; [done|done|lia|done|done].
  - inversion_clear Hall as [|? ? Hp Hps]. destruct (add_part asn p Ha Hp) as (asn1 & pair & -> & Ha1 & Hs1 & Hw1 & Ht1). run.
    destruct (IH asn1 (ts ++ [[part_text p]]) Ha1 Hps) as (asn' & -> & Ha' & Hw' & Hf' & Ht'); [by rewrite Hs1; apply filled_app|by rewrite Hs1; apply texts_app|].
    exists asn'. split_and!; [done|done|cbn [length]; lia|done|]. rewrite Ht'. cbn [fmap list_fmap]. by rewrite <- app_assoc.
Qed.

(** C23: a name built from parts with [egg_dn_add_string_part], each an identifier of the
    table with a string of the right size, is read by [egg_dn_read] as the names and the
    strings: each value, encoded for the ANY node as a string of the kind that it needs, is
    found again by decoding it. *)
Theorem dn_built_reads (asn : GNode) (parts : list Part) :
  appendable asn = true -> name_sets asn = [] -> Forall (part_ok g_utf8_validate) parts -> Z.of_nat (width asn) + Zlen parts < 2 ^ 31 - 1 ->
  exists asn', add_parts asn parts = Ok asn' /\
    egg_dn_read g_utf8_validate bmp_to_utf8 alloc this_year asn' =
      Ok (match parts with [] => None | _ => Some (joined (lit ", ") (part_text <$> parts)) end).
Proof.
  intros Ha Hn Hp Hw. destruct (parts_added parts asn [] Ha Hp) as (asn' & Hadd & Ha' & Hw' & Hf & Ht); [by rewrite Hn|by rewrite Hn|].
  exists asn'. split; [done|]. unfold appendable in Ha'. apply andb_true_iff in Ha' as [Ha' _].
  rewrite dn_read_reference by (done || lia). unfold name_text. rewrite Hf, Ht. run. cbn [app]. f_equal.
  destruct parts as [|p parts]; [done|]. cbn [fmap list_fmap option_bind mbind]. f_equal. f_equal.
  assert (forall l : list Part, joined (lit "+") <$> ((fun p => [part_text p]) <$> l) = part_text <$> l) as E; [|exact (E (p :: parts))].
  intros l. rewrite <- list_fmap_compose. apply list_fmap_ext. intros i q _. unfold compose. cbn. by rewrite app_nil_r.
Qed.
End Adding.
