(* ===== verification/DnCases.v ===== *)
(** Names of the program's tables: which identifiers have a type for their values, the
    theorems at concrete names, and names that the code does not read as it should. *)

From S2P Require Import Prelude Text Asn1Tlv Asn1Value Asn1Node Asn1Schema Sorting Asn1Create Asn1Tables Asn1Decode Asn1Build Asn1Access Asn1Strings Oid Dn DnSpec DnBuild.
Local Open Scope Z_scope.
#[local] Existing Instance insertion_sort.

(** * The table *)

(** The entries whose value cannot be written, or not be read. *)
Definition odd_oids : list (list Z) := lit <$>
  ["1.2.840.113549.1.9.7"; "1.2.840.113549.1.9.20"; "1.3.6.1.5.5.7.9.1"; "1.3.6.1.5.5.7.9.2"; "1.2.643.100.5"].

(** C30: the table of identifiers has each one once, and what it says fits the definitions:
    an entry that can be printed has a type in [pkix_asn1_tab], a string or, where the flags
    say so, a choice of strings with different tags; its identifier is encoded and decoded;
    and it has a name.  Five entries are different: two have no name, dates are no strings,
    placeOfBirth is a choice that is not marked as one, and OGRNIP has no type. *)
Theorem oid_table_types :
  NoDup (oidstr <$> oid_info) /\
  Forall (fun i => has (oid_flags i) EGG_OID_PRINTABLE = true -> writable (oidstr i) = negb (bool_decide (oidstr i ∈ odd_oids))) oid_info.
Proof.
  split; [apply (bool_decide_eq_true_1 (NoDup _)); vm_compute; reflexivity|].
  assert (forallb (fun i => negb (has (oid_flags i) EGG_OID_PRINTABLE) ||
    Bool.eqb (writable (oidstr i)) (negb (bool_decide (oidstr i ∈ odd_oids)))) oid_info = true) as Hall by (vm_compute; reflexivity).
  rewrite forallb_forall in Hall. apply Forall_forall. intros i Hi Hp. apply list_elem_of_In, Hall in Hi. rewrite Hp in Hi. by apply eqb_prop.
Qed.

(** * Names *)

Definition rdn_sequence : GNode := Eval vm_compute in
  match egg_asn1x_create 20 pkix_asn1_tab (lit "RDNSequence") with Ok (Some n) => n | _ => N (anode_new (mk_def None 0 None)) [] end.

Lemma rdn_sequence_created : egg_asn1x_create 20 pkix_asn1_tab (lit "RDNSequence") = Ok (Some rdn_sequence).
Proof. vm_compute. reflexivity. Qed.

(** Text that is ASCII is UTF-8. *)
Definition ascii_only (s : list Z) : bool := forallb (fun c => (0 <=? c) && (c <? 128)) s.
Definition g_realloc (n : Z) : option (list Z) := Some (replicate (Z.to_nat n) 0).
Abbreviation dn_read := (egg_dn_read ascii_only (fun _ => None) g_realloc 125).

Definition sample_parts : list Part := [mk_part (lit "2.5.4.3") (lit "J. R. Hacker"); mk_part (lit "2.5.4.6") (lit "DE");
  mk_part (lit "1.2.840.113549.1.9.1") (lit "jr@example.com"); mk_part (lit "2.5.4.10") (lit "A*B")].

Ltac part_now := split_and!; [vm_compute; reflexivity|vm_compute; reflexivity|split_and!; [reflexivity|reflexivity|vm_compute; reflexivity]].

Lemma sample_parts_ok : Forall (part_ok ascii_only) sample_parts.
Proof. repeat first [apply List.Forall_nil | apply List.Forall_cons; [part_now|]]. Qed.

Lemma dn_built_reads_witness : exists asn', add_parts ascii_only rdn_sequence sample_parts = Ok asn' /\
  dn_read asn' = Ok (Some (lit "CN=J. R. Hacker, C=DE, EMAIL=jr@example.com, O=A*B")).
Proof.
  apply (dn_built_reads ascii_only (fun _ => None) g_realloc 125 rdn_sequence sample_parts).
  - vm_compute. reflexivity.
  - vm_compute. reflexivity.
  - exact sample_parts_ok.
  - vm_compute. reflexivity.
Defined.

(** A name with two pairs in the second set. *)
Definition ava (oid : list Z) (t : Z) (v : list Z) : list Z :=
  let a := 6 :: Zlen oid :: oid in let b := t :: Zlen v :: v in 0x30 :: Zlen (a ++ b) :: a ++ b.
Definition rdn (pairs : list Z) : list Z := 0x31 :: Zlen pairs :: pairs.
Definition name_der (rdns : list Z) : list Z := 0x30 :: Zlen rdns :: rdns.
Definition cn : list Z := [0x55; 4; 3].
Definition org : list Z := [0x55; 4; 10].

Definition decoded_name (bytes : list Z) : GNode :=
  match egg_asn1x_decode 125 rdn_sequence bytes with Ok (true, n) => n | _ => N (anode_new (mk_def None 0 None)) [] end.

Definition two_sets : GNode := Eval vm_compute in
  decoded_name (name_der (rdn (ava cn 0x13 (lit "x")) ++ rdn (ava cn 0x0c (lit "y") ++ ava org 0x13 (lit "z")))).

Lemma dn_reads_pairs_witness :
  dn_read two_sets = Ok (Some (lit "CN=x, CN=y+O=z")) /\
  egg_dn_read_part ascii_only (fun _ => None) g_realloc 125 two_sets (lit "o") = Ok (Some (lit "z")) /\
  egg_dn_parse two_sets = calls_of (numbered 0 (filled (name_sets two_sets))).
Proof.
  refine (dn_reads_pairs ascii_only (fun _ => None) g_realloc 125 two_sets _ _ (lit "o")); vm_compute; reflexivity.
Defined.

(** * Names that are not read as they should *)

Definition read_der (oid : list Z) (t : Z) (v : list Z) : res unit (option (list Z)) :=
  dn_read (decoded_name (name_der (rdn (ava oid t v)))).

(** placeOfBirth is a choice, but not marked as one: its value is shown in hexadecimal. *)
Lemma place_of_birth_hex : read_der [0x2b; 6; 1; 5; 5; 7; 9; 2] 0x13 (lit "B") = Ok (Some (lit "placeOfBirth=#130142")).
Proof. vm_compute. reflexivity. Qed.

(** The identifier of OGRNIP is defined under the name of OGRN, a second time. *)
Lemma ogrnip_no_type : value_tree (lit "1.2.643.100.5") = None.
Proof. vm_compute. reflexivity. Qed.

(** A pair whose identifier has no name makes the whole name unreadable. *)
Lemma nameless_not_read :
  dn_read (decoded_name (name_der (rdn (ava cn 0x13 (lit "x")) ++ rdn (ava [42; 0x86; 0x48; 0x86; 0xf7; 0x0d; 1; 9; 7] 0x13 (lit "p"))))) = Ok None.
Proof. vm_compute. reflexivity. Qed.

(** ... and is the part that any name asks for. *)
Lemma nameless_matches_all :
  egg_dn_read_part ascii_only (fun _ => None) g_realloc 125
    (decoded_name (name_der (rdn (ava [42; 0x86; 0x48; 0x86; 0xf7; 0x0d; 1; 9; 7] 0x13 (lit "p")) ++ rdn (ava cn 0x13 (lit "x")))))
    (lit "CN") = Ok (Some (lit "p")).
Proof. vm_compute. reflexivity. Qed.

(** An empty name is parsed like any other. *)
Lemma empty_parses : egg_dn_parse rdn_sequence = Ok (true, []).
Proof. vm_compute. reflexivity. Qed.
