(* ===== verification/Crypto.v ===== *)
(** What the program asks of libgcrypt, and its wrappers: [src/egg/egg-crypto-libgcrypt.c]
    and [src/egg/egg-hkdf-libgcrypt.c].

    The library is the class [Gcrypt]: its handles are abstract, and a call that changes
    one returns the next.  What is known of the handles are the laws of [GcryptLaws]. *)

From S2P Require Import Prelude Text.
Local Open Scope Z_scope.

Class Gcrypt := {
  (** whether memory can be had, of the library's and of the secure memory, and whether
      bytes are in secure memory *)
  gcry_malloc : bool -> Z -> bool;
  gcry_is_secure : list Z -> bool;
  egg_secure_alloc : Z -> bool;
  (** big numbers: whether a text is taken *)
  mpi_scans : list Z -> bool;
  (** digests: the algorithms, a handle (with [true] for HMAC) and its use *)
  GCRY_MD_SHA1 : Z;
  GCRY_MD_RMD160 : Z;
  gcry_md_map_name : list Z -> Z;
  gcry_md_get_algo_dlen : Z -> Z;
  gcry_md_hash_buffer : Z -> list Z -> list Z;
  Md : Type;
  gcry_md_open : Z -> bool -> option Md;
  gcry_md_setkey : Md -> list Z -> option Md;
  gcry_md_write : Md -> list Z -> Md;
  gcry_md_reset : Md -> Md;
  gcry_md_read : Md -> list Z;
  gcry_md_get_algo : Md -> Z;
  (** ciphers *)
  GCRY_CIPHER_AES128 : Z;
  GCRY_CIPHER_MODE_CBC : Z;
  Cih : Type;
  gcry_cipher_open : Z -> Z -> option Cih;
  gcry_cipher_setkey : Cih -> list Z -> option Cih;
  gcry_cipher_setiv : Cih -> list Z -> option Cih;
  gcry_cipher_encrypt : Cih -> list Z -> option (list Z * Cih);
  gcry_cipher_decrypt : Cih -> list Z -> option (list Z * Cih);
  (** random bytes, nonces and keys: the draw and how many are asked for *)
  gcry_create_nonce : nat -> nat -> list Z;
  gcry_randomize : nat -> nat -> list Z
}.

(** * Digests and ciphers *)

Inductive EggHashAlgorithm := EGG_HASH_SHA1 | EGG_HASH_RIPEMD160.
Inductive EggCipherAlgorithm := EGG_CIPHER_AES_128_CBC.
Inductive EggRandomStrength := EGG_RANDOM_NONCE | EGG_RANDOM_KEY.

Section Crypto.
Context `{Gcrypt}.

Definition hash_algo_to_gcry (algo : EggHashAlgorithm) : Z :=
  match algo with EGG_HASH_SHA1 => GCRY_MD_SHA1 | EGG_HASH_RIPEMD160 => GCRY_MD_RMD160 end.

Definition egg_hasher_new (algo : EggHashAlgorithm) : option Md := gcry_md_open (hash_algo_to_gcry algo) false.
Definition egg_hasher_hash (hasher : Md) (data : list Z) : Md := gcry_md_write hasher data.
(** The bytes copied out of the digest, which must be there. *)
Definition egg_hasher_free_to_bytes (hasher : Md) : option (list Z) :=
  slice (gcry_md_read hasher) 0 (gcry_md_get_algo_dlen (gcry_md_get_algo hasher)).
Definition egg_hash (algo : EggHashAlgorithm) (data : list Z) : list Z := gcry_md_hash_buffer (hash_algo_to_gcry algo) data.

(** The algorithm and its mode. *)
Definition cipher_algo_to_gcry (algo : EggCipherAlgorithm) : Z * Z :=
  match algo with EGG_CIPHER_AES_128_CBC => (GCRY_CIPHER_AES128, GCRY_CIPHER_MODE_CBC) end.

Definition egg_cipher_new (algo : EggCipherAlgorithm) (key iv : list Z) : option Cih :=
  let '(galgo, mode) := cipher_algo_to_gcry algo in
  cih ← gcry_cipher_open galgo mode;
  cih ← gcry_cipher_setkey cih key;
  gcry_cipher_setiv cih iv.

(** The output has the length that is asked for, which is that of the input wherever the
    program calls these. *)
Definition egg_cipher_encrypt (cipher : Cih) (plaintext : list Z) : option (list Z * Cih) := gcry_cipher_encrypt cipher plaintext.
Definition egg_cipher_decrypt (cipher : Cih) (ciphertext : list Z) : option (list Z * Cih) := gcry_cipher_decrypt cipher ciphertext.

Definition egg_random (draw : nat) (strength : EggRandomStrength) (size : nat) : list Z :=
  match strength with EGG_RANDOM_NONCE => gcry_create_nonce draw size | EGG_RANDOM_KEY => gcry_randomize draw size end.

(** * HKDF *)

(** [for (i = 1; i < 256; ++i)], with [n_output] still to write at [at_]; the bytes written. *)
Fixpoint expand (fuel : nat) (md2 : Md) (hash_len : Z) (info : list Z) (i : Z) (buffer : list Z) (n_output : Z) (at_ : list Z) : res unit (list Z) :=
  match fuel with
  | O => Ok at_
  | S fuel =>
    let md2 := gcry_md_reset md2 in
    let md2 := gcry_md_write md2 buffer in
    let md2 := gcry_md_write md2 info in
    let md2 := gcry_md_write md2 [i] in
    buffer ← or_ub (slice (gcry_md_read md2) 0 hash_len);
    let step := Z.min hash_len n_output in
    let at_ := at_ ++ take (Z.to_nat step) buffer in
    let n_output := n_output - step in
    if n_output =? 0 then Ok at_ else expand fuel md2 hash_len info (i + 1) buffer n_output at_
  end.

(** The bytes written to the output, or [FALSE]. *)
Definition egg_hkdf_perform (hash_algo input : list Z) (salt : option (list Z)) (info : list Z) (n_output : Z) : res unit (list Z) :=
  let algo := gcry_md_map_name hash_algo in
  if algo =? 0 then Err tt else
  let hash_len := gcry_md_get_algo_dlen algo in
  if hash_len =? 0 then Err tt else
  if u32 (255 * hash_len) <? n_output then Err tt else
  if negb (gcry_malloc (gcry_is_secure input) hash_len) then Err tt else
  let salt := match salt with Some salt => salt | None => replicate (Z.to_nat hash_len) 0 end in
  match gcry_md_open algo true with None => Err tt | Some md1 =>
  match gcry_md_setkey md1 salt with None => Err tt | Some md1 =>
  let md1 := gcry_md_write md1 input in
  match gcry_md_open algo true with None => Err tt | Some md2 =>
  key ← or_ub (slice (gcry_md_read md1) 0 hash_len);
  match gcry_md_setkey md2 key with None => Err tt | Some md2 =>
  expand 255 md2 hash_len info 1 [] n_output []
  end end end end.

End Crypto.

(** * What is known of the handles *)

Record md := mk_md { m_algo : Z; m_key : option (list Z); m_text : list Z }.

(** A handle stands for an algorithm, a key with HMAC, and the text written so far; [mac]
    is the digest or the authentication code.  A number of up to a megabyte is read. *)
Class GcryptLaws `{Gcrypt} := {
  mpi_scans_short t : Zlen t <= 2 ^ 20 -> mpi_scans t = true;
  mac : Z -> option (list Z) -> list Z -> list Z;
  md_of : Md -> md;
  mac_length a k t : 0 <= gcry_md_get_algo_dlen a < 2 ^ 20 /\ Zlen (mac a k t) = gcry_md_get_algo_dlen a;
  mac_bytes a k t : bytes (mac a k t);
  md_hash_buffer a t : gcry_md_hash_buffer a t = mac a None t;
  md_open a h m : gcry_md_open a h = Some m -> exists k, md_of m = mk_md a k [] /\ (h = false -> k = None);
  md_setkey m k m' : gcry_md_setkey m k = Some m' -> m_text (md_of m) = [] -> md_of m' = mk_md (m_algo (md_of m)) (Some k) [];
  md_write m t : md_of (gcry_md_write m t) = mk_md (m_algo (md_of m)) (m_key (md_of m)) (m_text (md_of m) ++ t);
  md_reset m : md_of (gcry_md_reset m) = mk_md (m_algo (md_of m)) (m_key (md_of m)) [];
  md_read m : gcry_md_read m = mac (m_algo (md_of m)) (m_key (md_of m)) (m_text (md_of m));
  md_get_algo m : gcry_md_get_algo m = m_algo (md_of m)
}.

(** A handle that encrypts and one that decrypts what it made, block by block. *)
Class CipherLaws `{Gcrypt} := {
  paired : Cih -> Cih -> Prop;
  cipher_new_paired key iv e d : egg_cipher_new EGG_CIPHER_AES_128_CBC key iv = Some e -> egg_cipher_new EGG_CIPHER_AES_128_CBC key iv = Some d -> paired e d;
  cipher_new_works key iv : Zlen key = 16 -> bytes key -> Zlen iv = 16 -> bytes iv -> is_Some (egg_cipher_new EGG_CIPHER_AES_128_CBC key iv);
  cipher_block e d b : paired e d -> Zlen b = 16 -> bytes b -> exists c e' d', gcry_cipher_encrypt e b = Some (c, e') /\
    gcry_cipher_decrypt d c = Some (b, d') /\ Zlen c = 16 /\ bytes c /\ paired e' d';
  nonce_length i n : length (gcry_create_nonce i n) = n /\ bytes (gcry_create_nonce i n)
}.

(** ** The key derivation function of RFC 5869 *)

Section Rfc5869.
Context `{GcryptLaws}.

Definition hkdf_extract (algo : Z) (salt ikm : list Z) : list Z := mac algo (Some salt) ikm.

(** [T(n) = HMAC (PRK, T(n-1) | info | n)] *)
Fixpoint hkdf_t (algo : Z) (prk info : list Z) (n : nat) : list Z :=
  match n with O => [] | S k => mac algo (Some prk) (hkdf_t algo prk info k ++ info ++ [Z.of_nat n]) end.

Definition hkdf_expand (algo : Z) (prk info : list Z) (l : nat) : list Z :=
  take l (concat (hkdf_t algo prk info <$> seq 1 255)).

Lemma hkdf_t_length algo prk info n : (1 <= n)%nat -> Zlen (hkdf_t algo prk info n) = gcry_md_get_algo_dlen algo.
Proof. destruct n; [lia|]. intros _. cbn [hkdf_t]. apply mac_length. Qed.

Lemma slice_whole (l : list Z) n : Zlen l = n -> slice l 0 n = Some l.
Proof. intros <-. apply slice_all. Qed.

Lemma expand_spec algo prk info fuel : forall md2 i n_output at_, (1 <= i)%nat -> 0 <= n_output <= Z.of_nat fuel * gcry_md_get_algo_dlen algo ->
  0 < gcry_md_get_algo_dlen algo -> m_algo (md_of md2) = algo -> m_key (md_of md2) = Some prk ->
  expand fuel md2 (gcry_md_get_algo_dlen algo) info (Z.of_nat i) (hkdf_t algo prk info (i - 1)) n_output at_ =
  Ok (at_ ++ take (Z.to_nat n_output) (concat (hkdf_t algo prk info <$> seq i fuel))).
Proof.
  induction fuel as [|fuel IH]; intros md2 i n_output at_ Hi Hn Hlen Ha Hk.
  { cbn. by rewrite take_nil, app_nil_r. }
  cbn [expand seq fmap list_fmap concat]. rewrite md_read, !md_write, md_reset. cbn [m_algo m_key m_text app].
  rewrite Ha, Hk, <- !app_assoc. assert (mac algo (Some prk) (hkdf_t algo prk info (i - 1) ++ info ++ [Z.of_nat i]) = hkdf_t algo prk info i) as ->.
  { destruct i; [lia|]. cbn [hkdf_t]. by rewrite Nat.sub_1_r. }
  pose proof (hkdf_t_length algo prk info i Hi) as Hl. rewrite slice_whole by done. run.
  set (L := gcry_md_get_algo_dlen algo) in *. destruct (Z.eqb_spec (n_output - L `min` n_output) 0) as [E|E].
  - rewrite take_app_le by lia. by rewrite Z.min_r by lia.
  - assert (L < n_output) by lia. rewrite Z.min_l by lia. replace (Z.of_nat i + 1) with (Z.of_nat (S i)) by lia.
    rewrite (take_ge (hkdf_t algo prk info i)), take_app_ge by lia.
    pose proof (fun md2 => IH md2 (S i) (n_output - L) (at_ ++ hkdf_t algo prk info i)) as IH'. rewrite (Nat.sub_succ i 0), Nat.sub_0_r in IH'.
    rewrite IH'; [|lia|lia|lia|rewrite !md_write, md_reset; done|rewrite !md_write, md_reset; done].
    rewrite <- app_assoc. do 4 f_equal. lia.
Qed.

End Rfc5869.

(** * Properties *)

Section Properties.
Context `{GcryptLaws}.

(** The library has what it is asked for. *)
Definition gcrypt_works (algo : Z) : Prop :=
  (forall secure, gcry_malloc secure (gcry_md_get_algo_dlen algo) = true) /\
  exists m, gcry_md_open algo true = Some m /\ m_algo (md_of m) = algo /\ forall k, is_Some (gcry_md_setkey m k).

Lemma u32_dlen algo : u32 (255 * gcry_md_get_algo_dlen algo) = 255 * gcry_md_get_algo_dlen algo.
Proof. apply u32_small. pose proof (proj1 (mac_length algo None [])). lia. Qed.

Lemma hkdf_eq name input salt info n : let algo := gcry_md_map_name name in
  gcrypt_works algo -> 0 <= n ->
  egg_hkdf_perform name input salt info n =
  if bool_decide (algo <> 0 /\ gcry_md_get_algo_dlen algo <> 0 /\ n <= 255 * gcry_md_get_algo_dlen algo)
  then Ok (hkdf_expand algo (hkdf_extract algo (default (replicate (Z.to_nat (gcry_md_get_algo_dlen algo)) 0) salt) input) info (Z.to_nat n))
  else Err tt.
Proof.
  intros algo (Hm & m & Ho & Ha & Hs) Hn. unfold egg_hkdf_perform. fold algo. rewrite u32_dlen, Hm. cbn [negb].
  pose proof (mac_length algo None []) as [Hd _].
  destruct (Z.eqb_spec algo 0); [rewrite bool_decide_false by naive_solver; done|].
  destruct (Z.eqb_spec (gcry_md_get_algo_dlen algo) 0); [rewrite bool_decide_false by naive_solver; done|].
  destruct (Z.ltb_spec (255 * gcry_md_get_algo_dlen algo) n); [rewrite bool_decide_false by lia; done|].
  rewrite bool_decide_true by lia. rewrite Ho. destruct (md_open _ _ _ Ho) as (k0 & Eo & _).
  set (z := match salt with Some s => s | None => _ end). change (default _ salt) with z. destruct (Hs z) as [m1 E1]. rewrite E1. pose proof (md_setkey _ _ _ E1 ltac:(by rewrite Eo)) as Em.
  rewrite md_read, md_write, Em. cbn [m_algo m_key m_text app]. rewrite Ha, slice_whole by apply mac_length. run.
  set (prk := mac algo (Some z) input). destruct (Hs prk) as [m2 E2]. rewrite E2. pose proof (md_setkey _ _ _ E2 ltac:(by rewrite Eo)) as Em2.
  apply (expand_spec algo prk info 255 m2 1 n []); [lia|lia|lia|by rewrite Em2|by rewrite Em2].
Qed.

(** C22: [egg_hkdf_perform] is the key derivation function of RFC 5869: it extracts a key with
    the salt, zeros by default, and its output is the first octets of [T(1) | T(2) | ...];
    more than 255 digests, an unknown algorithm or one without a digest are refused. *)
Theorem hkdf_is_rfc5869 name input salt info n : let algo := gcry_md_map_name name in
  gcrypt_works algo -> 0 <= n ->
  egg_hkdf_perform name input salt info n =
  if bool_decide (algo <> 0 /\ gcry_md_get_algo_dlen algo <> 0 /\ n <= 255 * gcry_md_get_algo_dlen algo)
  then Ok (hkdf_expand algo (hkdf_extract algo (default (replicate (Z.to_nat (gcry_md_get_algo_dlen algo)) 0) salt) input) info (Z.to_nat n))
  else Err tt.
Proof. apply hkdf_eq. Qed.

(** Hashing in pieces is hashing the whole. *)
Lemma hasher_pieces algo m pieces : egg_hasher_new algo = Some m -> m_algo (md_of m) = hash_algo_to_gcry algo ->
  egg_hasher_free_to_bytes (foldl egg_hasher_hash m pieces) = Some (egg_hash algo (concat pieces)).
Proof.
  intros Ho Ha. destruct (md_open _ _ _ Ho) as (k & Em & Hk). rewrite (Hk eq_refl) in Em. clear k Hk Ho.
  assert (forall ps m t, md_of m = mk_md (hash_algo_to_gcry algo) None t -> md_of (foldl egg_hasher_hash m ps) = mk_md (hash_algo_to_gcry algo) None (t ++ concat ps)) as Hf.
  { induction ps as [|p ps IH]; intros m' t Hm; cbn [foldl concat]; [by rewrite app_nil_r|].
    rewrite (IH _ (t ++ p)); [by rewrite (assoc_L (++))|]. unfold egg_hasher_hash. by rewrite md_write, Hm. }
  unfold egg_hasher_free_to_bytes, egg_hash. rewrite md_get_algo, md_read, (Hf _ _ []) by (rewrite Em in *; by rewrite <- Ha). cbn [m_algo m_key m_text app].
  rewrite slice_whole by apply mac_length. by rewrite md_hash_buffer.
Qed.

End Properties.
