(* ===== verification/Dh.v ===== *)
(** Diffie-Hellman: [src/egg/egg-dh.c] and [src/egg/egg-dh-libgcrypt.c].

    Big integers of libgcrypt are [Z], and what its functions do with them is arithmetic.
    The draws of random numbers are an argument, a function of how many were drawn. *)

From Stdlib Require Import Zpow_facts.
From S2P Require Import Prelude Text Crypto.
Local Open Scope Z_scope.

(** * Groups *)

(** The bytes that digits spell. *)
Definition nibble (c : Z) : Z := if c <? 58 then c - 48 else c - 55.
Fixpoint hex_bytes (s : list Z) : list Z :=
  match s with a :: b :: s => 16 * nibble a + nibble b :: hex_bytes s | _ => [] end.
Definition hex (s : string) : list Z := hex_bytes (lit s).

Definition dh_group_768_prime : list Z :=
  hex "FFFFFFFFFFFFFFFFC90FDAA22168C234C4C6628B80DC1CD129024E088A67CC74020BBEA63B139B22514A08798E3404DD" ++
  hex "EF9519B3CD3A431B302B0A6DF25F14374FE1356D6D51C245E485B576625E7EC6F44C42E9A63A3620FFFFFFFFFFFFFFFF".

Definition dh_group_1024_prime : list Z :=
  hex "FFFFFFFFFFFFFFFFC90FDAA22168C234C4C6628B80DC1CD129024E088A67CC74020BBEA63B139B22514A08798E3404DD" ++
  hex "EF9519B3CD3A431B302B0A6DF25F14374FE1356D6D51C245E485B576625E7EC6F44C42E9A637ED6B0BFF5CB6F406B7ED" ++
  hex "EE386BFB5A899FA5AE9F24117C4B1FE649286651ECE65381FFFFFFFFFFFFFFFF".

Definition dh_group_1536_prime : list Z :=
  hex "FFFFFFFFFFFFFFFFC90FDAA22168C234C4C6628B80DC1CD129024E088A67CC74020BBEA63B139B22514A08798E3404DD" ++
  hex "EF9519B3CD3A431B302B0A6DF25F14374FE1356D6D51C245E485B576625E7EC6F44C42E9A637ED6B0BFF5CB6F406B7ED" ++
  hex "EE386BFB5A899FA5AE9F24117C4B1FE649286651ECE45B3DC2007CB8A163BF0598DA48361C55D39A69163FA8FD24CF5F" ++
  hex "83655D23DCA3AD961C62F356208552BB9ED529077096966D670C354E4ABC9804F1746C08CA237327FFFFFFFFFFFFFFFF".

Definition dh_group_2048_prime : list Z :=
  hex "FFFFFFFFFFFFFFFFC90FDAA22168C234C4C6628B80DC1CD129024E088A67CC74020BBEA63B139B22514A08798E3404DD" ++
  hex "EF9519B3CD3A431B302B0A6DF25F14374FE1356D6D51C245E485B576625E7EC6F44C42E9A637ED6B0BFF5CB6F406B7ED" ++
  hex "EE386BFB5A899FA5AE9F24117C4B1FE649286651ECE45B3DC2007CB8A163BF0598DA48361C55D39A69163FA8FD24CF5F" ++
  hex "83655D23DCA3AD961C62F356208552BB9ED529077096966D670C354E4ABC9804F1746C08CA18217C32905E462E36CE3B" ++
  hex "E39E772C180E86039B2783A2EC07A28FB5C55DF06F4C52C9DE2BCBF6955817183995497CEA956AE515D2261898FA0510" ++
  hex "15728E5A8AACAA68FFFFFFFFFFFFFFFF".

Definition dh_group_3072_prime : list Z :=
  hex "FFFFFFFFFFFFFFFFC90FDAA22168C234C4C6628B80DC1CD129024E088A67CC74020BBEA63B139B22514A08798E3404DD" ++
  hex "EF9519B3CD3A431B302B0A6DF25F14374FE1356D6D51C245E485B576625E7EC6F44C42E9A637ED6B0BFF5CB6F406B7ED" ++
  hex "EE386BFB5A899FA5AE9F24117C4B1FE649286651ECE45B3DC2007CB8A163BF0598DA48361C55D39A69163FA8FD24CF5F" ++
  hex "83655D23DCA3AD961C62F356208552BB9ED529077096966D670C354E4ABC9804F1746C08CA18217C32905E462E36CE3B" ++
  hex "E39E772C180E86039B2783A2EC07A28FB5C55DF06F4C52C9DE2BCBF6955817183995497CEA956AE515D2261898FA0510" ++
  hex "15728E5A8AAAC42DAD33170D04507A33A85521ABDF1CBA64ECFB850458DBEF0A8AEA71575D060C7DB3970F85A6E1E4C7" ++
  hex "ABF5AE8CDB0933D71E8C94E04A25619DCEE3D2261AD2EE6BF12FFA06D98A0864D87602733EC86A64521F2B18177B200C" ++
  hex "BBE117577A615D6C770988C0BAD946E208E24FA074E5AB3143DB5BFCE0FD108E4B82D120A93AD2CAFFFFFFFFFFFFFFFF".

Definition dh_group_4096_prime : list Z :=
  hex "FFFFFFFFFFFFFFFFC90FDAA22168C234C4C6628B80DC1CD129024E088A67CC74020BBEA63B139B22514A08798E3404DD" ++
  hex "EF9519B3CD3A431B302B0A6DF25F14374FE1356D6D51C245E485B576625E7EC6F44C42E9A637ED6B0BFF5CB6F406B7ED" ++
  hex "EE386BFB5A899FA5AE9F24117C4B1FE649286651ECE45B3DC2007CB8A163BF0598DA48361C55D39A69163FA8FD24CF5F" ++
  hex "83655D23DCA3AD961C62F356208552BB9ED529077096966D670C354E4ABC9804F1746C08CA18217C32905E462E36CE3B" ++
  hex "E39E772C180E86039B2783A2EC07A28FB5C55DF06F4C52C9DE2BCBF6955817183995497CEA956AE515D2261898FA0510" ++
  hex "15728E5A8AAAC42DAD33170D04507A33A85521ABDF1CBA64ECFB850458DBEF0A8AEA71575D060C7DB3970F85A6E1E4C7" ++
  hex "ABF5AE8CDB0933D71E8C94E04A25619DCEE3D2261AD2EE6BF12FFA06D98A0864D87602733EC86A64521F2B18177B200C" ++
  hex "BBE117577A615D6C770988C0BAD946E208E24FA074E5AB3143DB5BFCE0FD108E4B82D120A92108011A723C12A787E6D7" ++
  hex "88719A10BDBA5B2699C327186AF4E23C1A946834B6150BDA2583E9CA2AD44CE8DBBBC2DB04DE8EF92E8EFC141FBECAA6" ++
  hex "287C59474E6BC05D99B2964FA090C3A2233BA186515BE7ED1F612970CEE2D7AFB81BDD762170481CD0069127D5B05AA9" ++
  hex "93B4EA988D8FDDC186FFB7DC90A6C08F4DF435C934063199FFFFFFFFFFFFFFFF".

Definition dh_group_8192_prime : list Z :=
  hex "FFFFFFFFFFFFFFFFC90FDAA22168C234C4C6628B80DC1CD129024E088A67CC74020BBEA63B139B22514A08798E3404DD" ++
  hex "EF9519B3CD3A431B302B0A6DF25F14374FE1356D6D51C245E485B576625E7EC6F44C42E9A637ED6B0BFF5CB6F406B7ED" ++
  hex "EE386BFB5A899FA5AE9F24117C4B1FE649286651ECE45B3DC2007CB8A163BF0598DA48361C55D39A69163FA8FD24CF5F" ++
  hex "83655D23DCA3AD961C62F356208552BB9ED529077096966D670C354E4ABC9804F1746C08CA18217C32905E462E36CE3B" ++
  hex "E39E772C180E86039B2783A2EC07A28FB5C55DF06F4C52C9DE2BCBF6955817183995497CEA956AE515D2261898FA0510" ++
  hex "15728E5A8AAAC42DAD33170D04507A33A85521ABDF1CBA64ECFB850458DBEF0A8AEA71575D060C7DB3970F85A6E1E4C7" ++
  hex "ABF5AE8CDB0933D71E8C94E04A25619DCEE3D2261AD2EE6BF12FFA06D98A0864D87602733EC86A64521F2B18177B200C" ++
  hex "BBE117577A615D6C770988C0BAD946E208E24FA074E5AB3143DB5BFCE0FD108E4B82D120A92108011A723C12A787E6D7" ++
  hex "88719A10BDBA5B2699C327186AF4E23C1A946834B6150BDA2583E9CA2AD44CE8DBBBC2DB04DE8EF92E8EFC141FBECAA6" ++
  hex "287C59474E6BC05D99B2964FA090C3A2233BA186515BE7ED1F612970CEE2D7AFB81BDD762170481CD0069127D5B05AA9" ++
  hex "93B4EA988D8FDDC186FFB7DC90A6C08F4DF435C93402849236C3FAB4D27C7026C1D4DCB2602646DEC9751E763DBA37BD" ++
  hex "F8FF9406AD9E530EE5DB382F413001AEB06A53ED9027D831179727B0865A8918DA3EDBEBCF9B14ED44CE6CBACED4BB1B" ++
  hex "DB7F1447E6CC254B332051512BD7AF426FB8F401378CD2BF5983CA01C64B92ECF032EA15D1721D03F482D7CE6E74FEF6" ++
  hex "D55E702F46980C82B5A84031900B1C9E59E7C97FBEC7E8F323A97A7E36CC88BE0F1D45B7FF585AC54BD407B22B4154AA" ++
  hex "CC8F6D7EBF48E1D814CC5ED20F8037E0A79715EEF29BE32806A1D58BB7C5DA76F550AA3D8A1FBFF0EB19CCB1A313D55C" ++
  hex "DA56C9EC2EF29632387FE8D76E3C0468043E8F663F4860EE12BF2D5B0B7474D6E694F91E6DBE115974A3926F12FEE5E4" ++
  hex "38777CB6A932DF8CD8BEC4D073B931BA3BC832B68D9DD300741FA7BF8AFC47ED2576F6936BA424663AAB639C5AE4F568" ++
  hex "3423B4742BF1C978238F16CBE39D652DE3FDB8BEFC848AD922222E04A4037C0713EB57A81A23F0C73473FC646CEA306B" ++
  hex "4BCBC8862F8385DDFA9D4B7FA2C087E879683303ED5BDD3A062B3CF5B3A278A66D2A13F83F44F82DDF310EE074AB6A36" ++
  hex "4597E899A0255DC164F31CC50846851DF9AB48195DED7EA1B1D510BD7EE74D73FAF36BC31ECFA268359046F4EB879F92" ++
  hex "4009438B481C6CD7889A002ED5EE382BC9190DA6FC026E479558E4475677E9AA9E3050E2765694DFC81F56E880B96E71" ++
  hex "60C980DD98EDD3DFFFFFFFFFFFFFFFFF".

Record egg_dh_group := mk_group { g_name : list Z; g_bits : Z; g_prime : list Z; g_base : list Z }.

#[export] Instance egg_dh_group_eq_dec : EqDecision egg_dh_group.
Proof. solve_decision. Defined.

Definition egg_dh_groups : list egg_dh_group := [
  mk_group (lit "ietf-ike-grp-modp-768") 768 dh_group_768_prime [2];
  mk_group (lit "ietf-ike-grp-modp-1024") 1024 dh_group_1024_prime [2];
  mk_group (lit "ietf-ike-grp-modp-1536") 1536 dh_group_1536_prime [2];
  mk_group (lit "ietf-ike-grp-modp-2048") 2048 dh_group_2048_prime [2];
  mk_group (lit "ietf-ike-grp-modp-3072") 3072 dh_group_3072_prime [2];
  mk_group (lit "ietf-ike-grp-modp-4096") 4096 dh_group_4096_prime [2];
  mk_group (lit "ietf-ike-grp-modp-8192") 8192 dh_group_8192_prime [2]].

Definition find_group (name : list Z) : option egg_dh_group := List.find (fun g => bool_decide (g_name g = name)) egg_dh_groups.

Definition egg_dh_default_params_raw (name : list Z) : option (list Z * list Z) :=
  g ← find_group name; Some (g_prime g, g_base g).

(** * Big numbers of libgcrypt *)

Definition gcry_mpi_get_nbits (m : Z) : Z := if m =? 0 then 0 else Z.log2 m + 1.

(** [GCRYMPI_FMT_USG]: big endian, without a sign and without zeros in front. *)
Definition gcry_mpi_print (m : Z) : list Z := be_bytes (Z.to_nat ((gcry_mpi_get_nbits m + 7) / 8)) m.
Definition gcry_mpi_scan `{Gcrypt} (b : list Z) : option Z := if mpi_scans b then Some (be_val b) else None.

(** The bit and all above it. *)
Definition gcry_mpi_clear_highbit (m n : Z) : Z := m mod 2 ^ n.
Definition gcry_mpi_powm (b e m : Z) : Z := Zpow_mod b e m.

Record egg_dh_params := mk_params { prime : Z; base : Z }.

Section Dh.
Context `{Gcrypt}.

Definition egg_dh_default_params (name : list Z) : option egg_dh_params :=
  g ← find_group name;
  prime ← gcry_mpi_scan (g_prime g);
  if negb (gcry_mpi_get_nbits prime =? g_bits g) then None else
  base ← gcry_mpi_scan (g_base g);
  Some (mk_params prime base).

(** [while (gcry_mpi_cmp_ui (priv_inner, 0) == 0)] *)
Fixpoint draw (fuel : nat) (random : nat -> Z) (i : nat) : res unit Z :=
  match fuel with
  | O => Err tt
  | S fuel => let r := random i in if r =? 0 then draw fuel random (S i) else Ok r
  end.

(** The public and the private number. *)
Definition egg_dh_gen_pair (fuel : nat) (params : egg_dh_params) (bits : Z) (random : nat -> Z) : res unit (option (Z * Z)) :=
  let pbits := gcry_mpi_get_nbits (prime params) in
  if negb (1 <? pbits) then Ok None else
  if negb (bits =? 0) && (pbits <? bits) then Ok None else
  let bits := if bits =? 0 then pbits else bits in
  priv ← draw fuel random 0;
  let priv := if bits <? gcry_mpi_get_nbits priv then gcry_mpi_clear_highbit priv bits else priv in
  let priv := if pbits - 1 <? gcry_mpi_get_nbits priv then gcry_mpi_clear_highbit priv (pbits - 1) else priv in
  c_assert (priv <? prime params);;
  Ok (Some (gcry_mpi_powm (base params) priv (prime params), priv)).

(** As many bytes as the prime has. *)
Definition egg_dh_gen_secret (peer priv : option Z) (params : egg_dh_params) : option (list Z) :=
  peer ← peer; priv ← priv;
  let k := gcry_mpi_powm peer priv (prime params) in
  let n_prime := Zlen (gcry_mpi_print (prime params)) in
  if negb (egg_secure_alloc n_prime) then None else
  let value := gcry_mpi_print k in
  if n_prime <? Zlen value then None
  else Some (replicate (Z.to_nat (n_prime - Zlen value)) 0 ++ value).

Definition egg_dh_pubkey_export (pubkey : Z) : list Z := gcry_mpi_print pubkey.

Definition egg_dh_pubkey_new_from_bytes (bytes : list Z) : option Z := gcry_mpi_scan bytes.

End Dh.

(** * Properties *)

Lemma powm_eq b e m : m <> 0 -> gcry_mpi_powm b e m = b ^ e mod m.
Proof. intros Hm. unfold gcry_mpi_powm. by rewrite Zpow_mod_correct. Qed.

Lemma powm_range b e m : 0 < m -> 0 <= gcry_mpi_powm b e m < m.
Proof. intros Hm. rewrite powm_eq by lia. by apply Z.mod_pos_bound. Qed.

Lemma powm_agree g a b m : 0 < m -> 0 <= a -> 0 <= b ->
  gcry_mpi_powm (gcry_mpi_powm g b m) a m = gcry_mpi_powm (gcry_mpi_powm g a m) b m.
Proof.
  intros Hm Ha Hb. rewrite !powm_eq by lia. rewrite <- !Zpower_mod by lia. rewrite <- !Z.pow_mul_r by lia. by rewrite (Z.mul_comm a b).
Qed.

Lemma nbits_pos m : 0 < m -> gcry_mpi_get_nbits m = Z.log2 m + 1.
Proof. intros Hm. unfold gcry_mpi_get_nbits. by destruct (Z.eqb_spec m 0); [lia|]. Qed.

Lemma nbits_bound m : 0 <= m -> m < 2 ^ gcry_mpi_get_nbits m.
Proof.
  intros Hm. unfold gcry_mpi_get_nbits. destruct (Z.eqb_spec m 0) as [->|]; [done|]. rewrite Z.add_1_r. apply Z.log2_spec. lia.
Qed.

Lemma nbits_nonneg m : 0 <= gcry_mpi_get_nbits m.
Proof. unfold gcry_mpi_get_nbits. destruct (Z.eqb_spec m 0); [done|]. pose proof (Z.log2_nonneg m). lia. Qed.

Lemma nbits_mono a b : 0 <= a <= b -> gcry_mpi_get_nbits a <= gcry_mpi_get_nbits b.
Proof.
  intros Hab. unfold gcry_mpi_get_nbits. destruct (Z.eqb_spec a 0), (Z.eqb_spec b 0); try lia.
  - pose proof (Z.log2_nonneg b). lia.
  - pose proof (Z.log2_le_mono a b). lia.
Qed.

Lemma print_scan m : 0 <= m -> be_val (gcry_mpi_print m) = m.
Proof.
  intros Hm. unfold gcry_mpi_print. rewrite be_val_bytes. apply Z.mod_small. split; [done|].
  pose proof (nbits_nonneg m). pose proof (nbits_bound m Hm). rewrite Z2Nat.id by (apply Z.div_pos; lia).
  eapply Z.lt_le_trans; [done|]. change 256 with (2 ^ 8). rewrite <- Z.pow_mul_r by lia_div. apply Z.pow_le_mono_r; [done|]. lia_div.
Qed.

Lemma print_bytes m : bytes (gcry_mpi_print m).
Proof. apply be_bytes_bytes. Qed.

Lemma print_length m : Zlen (gcry_mpi_print m) = (gcry_mpi_get_nbits m + 7) / 8.
Proof. unfold gcry_mpi_print. rewrite be_bytes_length, Z2Nat.id; [done|]. pose proof (nbits_nonneg m). apply Z.div_pos; lia. Qed.

Lemma print_mono a b : 0 <= a <= b -> Zlen (gcry_mpi_print a) <= Zlen (gcry_mpi_print b).
Proof. intros Hab. rewrite !print_length. apply Z.div_le_mono; [lia|]. pose proof (nbits_mono a b Hab). lia. Qed.

(** ** The groups *)

Section Agreement.
Context `{GcryptLaws}.

Definition group_ok (g : egg_dh_group) : bool :=
  (gcry_mpi_get_nbits (be_val (g_prime g)) =? g_bits g) && (Zlen (g_prime g) <=? 2 ^ 20) && bool_decide (g_base g = [2]) && ((g_bits g + 7) / 8 =? Zlen (g_prime g)) &&
  bool_decide (find_group (g_name g) = Some g) && (1 <? g_bits g) && (0 <? be_val (g_prime g)).

Lemma groups_ok : forallb group_ok egg_dh_groups = true.
Proof. vm_compute. reflexivity. Qed.

Definition params_of (g : egg_dh_group) : egg_dh_params := mk_params (be_val (g_prime g)) 2.

Lemma group_facts g : g ∈ egg_dh_groups -> gcry_mpi_get_nbits (be_val (g_prime g)) = g_bits g /\ Zlen (g_prime g) <= 2 ^ 20 /\ g_base g = [2] /\
  (g_bits g + 7) / 8 = Zlen (g_prime g) /\ find_group (g_name g) = Some g /\ 1 < g_bits g /\ 0 < be_val (g_prime g).
Proof.
  intros Hg. pose proof (proj1 (forallb_True _ _) (Is_true_true_2 _ groups_ok)) as Hall. rewrite Forall_forall in Hall. specialize (Hall g Hg).
  unfold group_ok in Hall. rewrite Is_true_true, !andb_true_iff, !Z.eqb_eq, !bool_decide_eq_true, Z.leb_le, !Z.ltb_lt in Hall. naive_solver.
Qed.

Lemma default_params g : g ∈ egg_dh_groups -> egg_dh_default_params (g_name g) = Some (params_of g).
Proof.
  intros Hg. destruct (group_facts g Hg) as (Hb & Hl & Hbase & _ & Hf & _). unfold egg_dh_default_params, gcry_mpi_scan. rewrite Hf. cbn [mbind option_bind].
  rewrite (mpi_scans_short (g_prime g) Hl). cbn [mbind option_bind]. rewrite Hb, Z.eqb_refl, Hbase. cbn [negb]. by rewrite (mpi_scans_short [2]) by (cbn; lia).
Qed.

(** ** A pair *)

(** The generator of random numbers gives one that is not zero before the fuel ends. *)
Definition draws (fuel : nat) (random : nat -> Z) : Prop := (forall i, 0 <= random i) /\ exists k, (k < fuel)%nat /\ random k <> 0.

Lemma draw_ok fuel random : forall i, (exists k, (i <= k < i + fuel)%nat /\ random k <> 0) -> exists k, draw fuel random i = Ok (random k) /\ random k <> 0.
Proof.
  induction fuel as [|fuel IH]; intros i (k & Hk & Hr); [lia|]. cbn [draw]. destruct (Z.eqb_spec (random i) 0) as [E|E]; [|by eexists].
  apply IH. exists k. split; [|done]. destruct (decide (k = i)) as [->|]; [done|lia].
Qed.

(** Cut to [n] bits, if it has more. *)
Lemma cut_bits r n : 0 <= r -> 0 <= n -> let r' := if n <? gcry_mpi_get_nbits r then gcry_mpi_clear_highbit r n else r in 0 <= r' < 2 ^ n /\ r' <= r.
Proof.
  intros Hr Hn. cbv zeta. unfold gcry_mpi_clear_highbit. destruct (Z.ltb_spec n (gcry_mpi_get_nbits r)).
  - split; [apply Z.mod_pos_bound; lia|]. apply Z.mod_le; [done|lia].
  - split; [|done]. split; [done|]. eapply Z.lt_le_trans; [by apply nbits_bound|]. apply Z.pow_le_mono_r; lia.
Qed.

Lemma gen_pair_ok params bits fuel random : 1 < prime params -> 0 <= bits <= gcry_mpi_get_nbits (prime params) -> draws fuel random ->
  exists priv, egg_dh_gen_pair fuel params bits random = Ok (Some (base params ^ priv mod prime params, priv)) /\
    0 <= priv < prime params /\ priv < 2 ^ (gcry_mpi_get_nbits (prime params) - 1) /\ (bits <> 0 -> priv < 2 ^ bits).
Proof.
  intros Hp Hbits [Hnn Hk]. set (p := prime params) in *. unfold egg_dh_gen_pair. fold p. pose proof (Z.log2_pos p Hp).
  pose proof (nbits_pos p ltac:(lia)) as Hnb. destruct (Z.ltb_spec 1 (gcry_mpi_get_nbits p)); [|lia]. cbn [negb].
  assert (negb (bits =? 0) && (gcry_mpi_get_nbits p <? bits) = false) as ->.
  { destruct (Z.ltb_spec (gcry_mpi_get_nbits p) bits); [lia|]. apply andb_false_r. }
  destruct (draw_ok fuel random 0) as (k & -> & _); [destruct Hk as (k & ? & ?); exists k; split; [lia|done]|]. run.
  set (bits' := if bits =? 0 then _ else _). assert (0 <= bits' /\ (bits <> 0 -> bits' = bits)) as [Hb' Heq].
  { subst bits'. destruct (Z.eqb_spec bits 0); lia. }
  pose proof (cut_bits (random k) bits' (Hnn k) Hb') as Hc. cbv zeta in Hc. set (r1 := if bits' <? _ then _ else _) in *.
  pose proof (cut_bits r1 (gcry_mpi_get_nbits p - 1) ltac:(lia) ltac:(lia)) as Hc2. cbv zeta in Hc2. set (r2 := if _ - 1 <? _ then _ else _) in *.
  assert (2 ^ (gcry_mpi_get_nbits p - 1) <= p) as Hlow. { rewrite Hnb, Z.add_simpl_r. apply Z.log2_spec. lia. }
  assert (r2 < p) by lia. exists r2. rewrite c_assert_true by (apply Z.ltb_lt; lia). run. rewrite powm_eq by lia.
  split_and!; try done; try lia. intros Hne. rewrite <- Heq by done. lia.
Qed.

(** ** A secret *)

(** Secure memory can be had, as long as less than 2^31 bytes are asked for. *)
Definition secure_memory : Prop := forall n, 0 < n < 2 ^ 31 -> egg_secure_alloc n = true.

Lemma gen_secret_ok peer priv params : secure_memory -> 0 < prime params -> gcry_mpi_get_nbits (prime params) <= 2 ^ 23 ->
  exists secret, egg_dh_gen_secret (Some peer) (Some priv) params = Some secret /\ bytes secret /\
    Zlen secret = (gcry_mpi_get_nbits (prime params) + 7) / 8 /\ be_val secret = peer ^ priv mod prime params.
Proof.
  intros Ha Hp Hn. unfold egg_dh_gen_secret. cbn [mbind option_bind].
  assert (0 < Zlen (gcry_mpi_print (prime params)) < 2 ^ 31) as Hl.
  { rewrite print_length. rewrite nbits_pos in * by done. pose proof (Z.log2_nonneg (prime params)). lia_div. }
  rewrite (Ha _ Hl). cbn [negb]. pose proof (powm_range peer priv (prime params) Hp) as Hr.
  pose proof (print_mono (gcry_mpi_powm peer priv (prime params)) (prime params) ltac:(lia)) as Hm.
  destruct (Z.ltb_spec (Zlen (gcry_mpi_print (prime params))) (Zlen (gcry_mpi_print (gcry_mpi_powm peer priv (prime params))))); [lia|].
  eexists. split; [reflexivity|]. split_and!.
  - apply Forall_app. split; [|apply print_bytes]. apply Forall_replicate. unfold is_byte. lia.
  - rewrite length_app, length_replicate, Nat2Z.inj_add, Z2Nat.id by lia. rewrite <- print_length. lia.
  - rewrite be_val_zeros, print_scan by lia. apply powm_eq. lia.
Qed.

(** A public key arrives as it was sent. *)
Lemma pubkey_roundtrip pub : 0 <= pub -> gcry_mpi_get_nbits pub <= 2 ^ 23 -> egg_dh_pubkey_new_from_bytes (egg_dh_pubkey_export pub) = Some pub.
Proof.
  intros Hp Hn. unfold egg_dh_pubkey_new_from_bytes, egg_dh_pubkey_export, gcry_mpi_scan. rewrite mpi_scans_short; [by rewrite print_scan|].
  rewrite print_length. transitivity ((2 ^ 23 + 7) / 8); [apply Z.div_le_mono; lia|by vm_compute].
Qed.

(** C21: for every group of the table, key agreement works: each side generates a pair (no
    assertion fails whatever is drawn), writes its public key and reads the other's, and
    both get one secret, [g ^ (a * b)] modulo the prime, of as many octets as the prime. *)
Theorem dh_agreement g fuel random_a random_b : g ∈ egg_dh_groups -> secure_memory ->
  draws fuel random_a -> draws fuel random_b ->
  exists params a b pub_a pub_b secret, egg_dh_default_params (g_name g) = Some params /\
    egg_dh_gen_pair fuel params 0 random_a = Ok (Some (pub_a, a)) /\ egg_dh_gen_pair fuel params 0 random_b = Ok (Some (pub_b, b)) /\
    egg_dh_gen_secret (egg_dh_pubkey_new_from_bytes (egg_dh_pubkey_export pub_b)) (Some a) params = Some secret /\
    egg_dh_gen_secret (egg_dh_pubkey_new_from_bytes (egg_dh_pubkey_export pub_a)) (Some b) params = Some secret /\
    be_val secret = 2 ^ (a * b) mod be_val (g_prime g) /\ Zlen secret = Zlen (g_prime g) /\ bytes secret.
Proof.
  intros Hg Halloc Ha Hb. destruct (group_facts g Hg) as (Hn & Hl & _ & Hlen & _ & Hbits & Hpos). set (p := be_val (g_prime g)) in *.
  exists (params_of g). assert (1 < p) as Hp. { pose proof (nbits_pos p Hpos). destruct (Z.eq_dec p 1) as [E|]; [|lia]. rewrite E in Hn. cbn in Hn. lia. }
  destruct (gen_pair_ok (params_of g) 0 fuel random_a Hp ltac:(cbn; fold p; lia) Ha) as (a & Ea & Hra & _).
  destruct (gen_pair_ok (params_of g) 0 fuel random_b Hp ltac:(cbn; fold p; lia) Hb) as (b & Eb & Hrb & _).
  cbn [prime base params_of] in Ea, Eb, Hra, Hrb. fold p in Ea, Eb, Hra, Hrb.
  assert (forall x, 0 <= 2 ^ x mod p < p) as Hmod by (intros x; apply Z.mod_pos_bound; lia).
  assert (forall x, egg_dh_pubkey_new_from_bytes (egg_dh_pubkey_export (2 ^ x mod p)) = Some (2 ^ x mod p)) as Hrt.
  { intros x. apply pubkey_roundtrip; [apply Hmod|]. transitivity (gcry_mpi_get_nbits p); [apply nbits_mono; specialize (Hmod x); lia|]. rewrite Hn. lia_div. }
  assert (gcry_mpi_get_nbits p <= 2 ^ 23) as Hn23 by (rewrite Hn; lia_div).
  destruct (gen_secret_ok (2 ^ b mod p) a (params_of g) Halloc Hpos Hn23) as (s1 & E1 & B1 & L1 & V1).
  destruct (gen_secret_ok (2 ^ a mod p) b (params_of g) Halloc Hpos Hn23) as (s2 & E2 & B2 & L2 & V2).
  cbn [prime base params_of] in V1, V2, L1, L2. fold p in V1, V2, L1, L2. rewrite <- Zpower_mod, <- Z.pow_mul_r in V1, V2 by lia.
  assert (s1 = s2) as <-. { apply be_val_inj; [done|done|lia|]. rewrite V1, V2. by rewrite Z.mul_comm. }
  exists a, b, (2 ^ a mod p), (2 ^ b mod p), s1. rewrite !Hrt. split_and!; [by apply default_params|exact Ea|exact Eb|exact E1|exact E2|exact V2|by rewrite L1, Hn|exact B1].
Qed.

End Agreement.

(** ** A private key of zero *)

(** The loop draws until the number is not zero, but the bits above are cut off after that:
    when only the highest bit was set the private key is zero, the public key one, and so
    is the secret, whoever the peer. *)
Lemma private_key_zero `{GcryptLaws} (peer : Z) : let params := params_of (mk_group [] 768 dh_group_768_prime [2]) in
  egg_dh_gen_pair 1 params 0 (fun _ => 2 ^ 767) = Ok (Some (1, 0)) /\
  egg_dh_gen_secret (Some peer) (Some 0) params = (if egg_secure_alloc 96 then Some (replicate 95 0 ++ [1]) else None).
Proof.
  cbv zeta. split; [vm_compute; reflexivity|]. unfold egg_dh_gen_secret. cbn [mbind option_bind prime params_of g_prime].
  rewrite powm_eq by (vm_compute; discriminate). rewrite Z.pow_0_r.
  change (Zlen (gcry_mpi_print (be_val dh_group_768_prime))) with 96. change (gcry_mpi_print (1 mod be_val dh_group_768_prime)) with [1].
  by destruct (egg_secure_alloc 96).
Qed.
