(* ===== verification/Exchange.v ===== *)
(** The secret exchange: [src/gcr/gcr-secret-exchange.c].

    An exchange is the record [Exchange]; each call returns its value and the exchange as
    it leaves it.  GLib's key files are the class [KeyFiles], base64 is that of [Armor].
    Random numbers are arguments: the draws of the key pair and the draw of the nonce.  The
    mode FIPS, which is switched off around the calls of [Dh] and put back, is not
    modelled, nor are the messages that are logged. *)

From S2P Require Import Prelude Text Padding Armor ArmorSpec Crypto Dh.
Local Open Scope Z_scope.

Class KeyFiles := {
  KeyFile : Type;
  g_key_file_new : KeyFile;
  g_key_file_set_value : KeyFile -> list Z -> list Z -> list Z -> KeyFile;
  g_key_file_get_value : KeyFile -> list Z -> list Z -> option (list Z);
  g_key_file_has_key : KeyFile -> list Z -> list Z -> bool;
  g_key_file_to_data : KeyFile -> list Z;
  g_key_file_load_from_data : list Z -> option KeyFile
}.

Definition GCR_SECRET_EXCHANGE_PROTOCOL_1 : list Z := lit "sx-aes-1".

Definition EXCHANGE_1_IKE_NAME : list Z := lit "ietf-ike-grp-modp-1536".
Definition EXCHANGE_1_KEY_LENGTH : Z := 16.
Definition EXCHANGE_1_IV_LENGTH : nat := 16.
Definition EXCHANGE_1_HASH_ALGO : list Z := lit "sha256".
Definition EXCHANGE_1_CIPHER_ALGO : EggCipherAlgorithm := EGG_CIPHER_AES_128_CBC.

Record GcrSecretExchangeDefault := mk_default {
  params : egg_dh_params;
  pub : option Z;
  priv : option Z;
  key : option (list Z)
}.

(** [secret] with its terminator; [n_secret] is [None] when it was never written. *)
Record Exchange := mk_exchange {
  default_exchange : option GcrSecretExchangeDefault;
  explicit_protocol : bool;
  generated : bool;
  publi : list Z;
  derived : bool;
  secret : option (list Z);
  n_secret : option Z
}.

Definition set_default (d : GcrSecretExchangeDefault) (x : Exchange) : Exchange :=
  mk_exchange (Some d) (explicit_protocol x) (generated x) (publi x) (derived x) (secret x) (n_secret x).
Definition set_generated (x : Exchange) : Exchange :=
  mk_exchange (default_exchange x) (explicit_protocol x) true (publi x) (derived x) (secret x) (n_secret x).
Definition set_publi (p : list Z) (x : Exchange) : Exchange :=
  mk_exchange (default_exchange x) (explicit_protocol x) (generated x) p (derived x) (secret x) (n_secret x).
Definition set_derived (b : bool) (x : Exchange) : Exchange :=
  mk_exchange (default_exchange x) (explicit_protocol x) (generated x) (publi x) b (secret x) (n_secret x).
Definition set_secret (s : option (list Z)) (n : option Z) (x : Exchange) : Exchange :=
  mk_exchange (default_exchange x) (explicit_protocol x) (generated x) (publi x) (derived x) s n.

Section Exchange.
Context `{Gcrypt} `{KeyFiles} `{Base64}.

Definition key_file_set_base64 (key_file : KeyFile) (section field data : list Z) : KeyFile :=
  g_key_file_set_value key_file section field (base64_encode data).
Definition key_file_get_base64 (key_file : KeyFile) (section field : list Z) : option (list Z) :=
  base64_decode <$> g_key_file_get_value key_file section field.

(** With the property [protocol] of the construction. *)
Definition gcr_secret_exchange_new (protocol : option (list Z)) : Exchange :=
  mk_exchange None (bool_decide (protocol = Some GCR_SECRET_EXCHANGE_PROTOCOL_1)) false [] false None (Some 0).

Definition gcr_secret_exchange_get_protocol (self : Exchange) : option (list Z) :=
  if explicit_protocol self || generated self then Some GCR_SECRET_EXCHANGE_PROTOCOL_1 else None.

Definition clear_secret_exchange (self : Exchange) : Exchange :=
  mk_exchange (default_exchange self) (explicit_protocol self) true [] false None (Some 0).

(** * The protocol sx-aes-1 *)

(** The public key, or [FALSE]. *)
Definition gcr_secret_exchange_default_generate_exchange_key (fuel : nat) (random : nat -> Z) (exchange : Exchange)
    : res unit (option (list Z) * Exchange) :=
  match match default_exchange exchange with
        | Some data => Some data
        | None => params ← egg_dh_default_params EXCHANGE_1_IKE_NAME; Some (mk_default params None None None)
        end with
  | None => Ok (None, exchange)
  | Some data =>
    pair ← egg_dh_gen_pair fuel (params data) 0 random;
    match pair with
    | None => Ok (None, set_default (mk_default (params data) None None (key data)) exchange)
    | Some (pub, priv) =>
      Ok (Some (egg_dh_pubkey_export pub), set_default (mk_default (params data) (Some pub) (Some priv) (key data)) exchange)
    end
  end.

(** Without a pair there are no parameters; without memory the key is written nowhere. *)
Definition gcr_secret_exchange_default_derive_transport_key (exchange : Exchange) (peer : list Z) : res unit (bool * Exchange) :=
  data ← or_ub (default_exchange exchange);
  let peer_pubkey := egg_dh_pubkey_new_from_bytes peer in
  match egg_dh_gen_secret peer_pubkey (priv data) (params data) with
  | None => Ok (false, exchange)
  | Some ikm =>
    key0 ← match key data with
           | Some key => Ok key
           | None => if egg_secure_alloc EXCHANGE_1_KEY_LENGTH then Ok (replicate (Z.to_nat EXCHANGE_1_KEY_LENGTH) 0) else Ub
           end;
    match egg_hkdf_perform EXCHANGE_1_HASH_ALGO ikm None [] EXCHANGE_1_KEY_LENGTH with
    | Ok key => Ok (true, set_default (mk_default (params data) (pub data) (priv data) (Some key)) exchange)
    | Err _ => Ok (false, set_default (mk_default (params data) (pub data) (priv data) (Some key0)) exchange)
    | Ub => Ub
    end
  end.

(** [for (pos = 0; pos < n; pos += 16)]: a block at a time. *)
Fixpoint blocks (step : Cih -> list Z -> option (list Z * Cih)) (fuel : nat) (cih : Cih) (data : list Z) : res unit (list Z) :=
  match fuel, data with
  | _, [] => Ok []
  | O, _ => Ub
  | S fuel, _ =>
    block ← or_ub (slice data 0 16);
    match step cih block with
    | None => Err tt
    | Some (out, cih) => rest ← blocks step fuel cih (drop 16 data); Ok (out ++ rest)
    end
  end.

(** The vector and the text, or [FALSE]. *)
Definition gcr_secret_exchange_default_encrypt_transport_data (nonce : nat) (exchange : Exchange) (plain_text : list Z) : res unit (list Z * list Z) :=
  match default_exchange exchange with None => Err tt | Some data =>
  match key data with None => Err tt | Some key =>
  let iv := egg_random nonce EGG_RANDOM_NONCE EXCHANGE_1_IV_LENGTH in
  match egg_cipher_new EXCHANGE_1_CIPHER_ALGO key iv with None => Err tt | Some cih =>
  '(_, padded) ← egg_padding_pkcs7_pad egg_secure_alloc 16 plain_text true;
  padded ← or_ub padded;
  result ← blocks egg_cipher_encrypt (length padded) cih padded;
  Ok (iv, result)
  end end end.

(** The text with its terminator and its length, [None] twice if the padding is wrong (the
    length is then left as it was, unless memory ran out); or [FALSE]. *)
Definition gcr_secret_exchange_default_decrypt_transport_data (exchange : Exchange) (cipher_text : list Z) (iv : option (list Z))
    : res unit (option (list Z) * option Z) :=
  match default_exchange exchange with None => Err tt | Some data =>
  match key data with None => Err tt | Some key =>
  match iv with None => Err tt | Some iv =>
  if negb (Zlen iv =? Z.of_nat EXCHANGE_1_IV_LENGTH) then Err tt else
  if negb (Zlen cipher_text mod 16 =? 0) then Err tt else
  match egg_cipher_new EXCHANGE_1_CIPHER_ALGO key iv with None => Err tt | Some cih =>
  if negb (egg_secure_alloc (Zlen cipher_text)) then Err tt else
  padded ← blocks egg_cipher_decrypt (length cipher_text) cih cipher_text;
  match egg_padding_pkcs7_unpad egg_secure_alloc 16 padded true with
  | Ok (n_result, result) => Ok (result, Some n_result)
  | Err _ => Ok (None, None)
  | Ub => Ub
  end
  end end end end.

(** * The exchange *)

(** The text, after [g_strchug]. *)
Definition to_text (output : KeyFile) : list Z := chug (g_key_file_to_data output).

Definition gcr_secret_exchange_begin (fuel : nat) (random : nat -> Z) (self : Exchange) : res unit (option (list Z) * Exchange) :=
  let self := clear_secret_exchange self in
  '(public, self) ← gcr_secret_exchange_default_generate_exchange_key fuel random self;
  match public with
  | None => Ok (None, self)
  | Some public =>
    let self := set_generated (set_publi public self) in
    let output := key_file_set_base64 g_key_file_new GCR_SECRET_EXCHANGE_PROTOCOL_1 (lit "public") (publi self) in
    Ok (Some (to_text output), self)
  end.

Definition derive_key (self : Exchange) (input : KeyFile) : res unit (bool * Exchange) :=
  match key_file_get_base64 input GCR_SECRET_EXCHANGE_PROTOCOL_1 (lit "public") with
  | None => Ok (false, self)
  | Some peer =>
    '(ret, self) ← gcr_secret_exchange_default_derive_transport_key self peer;
    Ok (ret, set_derived ret self)
  end.

(** The text is terminated once more, at the length that was found. *)
Definition perform_decrypt (self : Exchange) (input : KeyFile) : res unit (option (list Z) * option Z) :=
  let iv := key_file_get_base64 input GCR_SECRET_EXCHANGE_PROTOCOL_1 (lit "iv") in
  match key_file_get_base64 input GCR_SECRET_EXCHANGE_PROTOCOL_1 (lit "secret") with
  | None => Err tt
  | Some value =>
    '(result, n_result) ← gcr_secret_exchange_default_decrypt_transport_data self value iv;
    match result, n_result with
    | Some result, Some n => Ok (Some (take (Z.to_nat n) result ++ [0]), Some n)
    | _, _ => Ok (None, n_result)
    end
  end.

Definition gcr_secret_exchange_receive (fuel : nat) (random : nat -> Z) (self : Exchange) (exchange : list Z) : res unit (bool * Exchange) :=
  match g_key_file_load_from_data exchange with
  | None => Ok (false, self)
  | Some input =>
    '(ok, self) ← (if generated self then Ok (true, self) else
      '(public, self) ← gcr_secret_exchange_default_generate_exchange_key fuel random self;
      match public with
      | None => Ok (false, self)
      | Some public => Ok (true, set_generated (set_publi public self))
      end);
    if negb ok then Ok (false, self) else
    '(ret, self) ← (if derived self then Ok (true, self) else derive_key self input);
    if negb ret then Ok (false, self) else
    if g_key_file_has_key input GCR_SECRET_EXCHANGE_PROTOCOL_1 (lit "secret") then
      match perform_decrypt self input with
      | Ok (secret, n_secret) => Ok (true, set_secret secret n_secret self)
      | Err _ => Ok (false, self)
      | Ub => Ub
      end
    else Ok (true, set_secret None (Some 0) self)
  end.

Definition gcr_secret_exchange_get_secret (self : Exchange) : option (list Z) * option Z := (secret self, n_secret self).

Definition perform_encrypt (nonce : nat) (self : Exchange) (output : KeyFile) (secret : list Z) : res unit KeyFile :=
  '(iv, result) ← gcr_secret_exchange_default_encrypt_transport_data nonce self secret;
  let output := key_file_set_base64 output GCR_SECRET_EXCHANGE_PROTOCOL_1 (lit "secret") result in
  Ok (key_file_set_base64 output GCR_SECRET_EXCHANGE_PROTOCOL_1 (lit "iv") iv).

(** The bytes at [secret], and how many of them are sent. *)
Definition sent_bytes (secret : list Z) (secret_len : Z) : res unit (list Z) :=
  if secret_len <? 0 then (if bool_decide (0 ∈ secret) then Ok (c_str secret) else Ub)
  else or_ub (slice secret 0 secret_len).

Definition gcr_secret_exchange_send (nonce : nat) (self : Exchange) (secret : option (list Z)) (secret_len : Z) : res unit (option (list Z)) :=
  if negb (derived self) then Ok None else
  let output := key_file_set_base64 g_key_file_new GCR_SECRET_EXCHANGE_PROTOCOL_1 (lit "public") (publi self) in
  match secret with
  | None => Ok (Some (to_text output))
  | Some secret =>
    secret ← sent_bytes secret secret_len;
    match perform_encrypt nonce self output secret with
    | Ok output => Ok (Some (to_text output))
    | Err _ => Ok None
    | Ub => Ub
    end
  end.

End Exchange.
