(* ===== verification/ExchangeSpec.v ===== *)
(** What the secret exchange gives: the two sides come to one key, and from then on each
    secret that one sends is the one the other gets.  Key files, base64 and the library
    are known by their laws only. *)

From Stdlib Require Import Zpow_facts.
From S2P Require Import Prelude Text Padding Armor ArmorSpec Crypto Dh Exchange.
Local Open Scope Z_scope.

(** * Key files *)

Definition fields : list (list Z) := [lit "public"; lit "secret"; lit "iv"].

(** The key files that are written. *)
Inductive written `{KeyFiles} : KeyFile -> Prop :=
  | written_new : written g_key_file_new
  | written_set f k v : written f -> k ∈ fields -> Forall (fun c => base64_char c = true) v ->
      written (g_key_file_set_value f GCR_SECRET_EXCHANGE_PROTOCOL_1 k v).

Class KeyFileLaws `{KeyFiles} := {
  get_new g k : g_key_file_get_value g_key_file_new g k = None;
  get_set_same f g k v : g_key_file_get_value (g_key_file_set_value f g k v) g k = Some v;
  get_set_other f g k v g' k' : (g, k) <> (g', k') -> g_key_file_get_value (g_key_file_set_value f g k v) g' k' = g_key_file_get_value f g' k';
  has_key_get f g k : g_key_file_has_key f g k = bool_decide (is_Some (g_key_file_get_value f g k));
  load_data f : written f -> exists f', g_key_file_load_from_data (to_text f) = Some f' /\
    forall g k, g_key_file_get_value f' g k = g_key_file_get_value f g k
}.

(** * Blocks *)

Section Blocks.
Context `{GcryptLaws} `{!CipherLaws}.

Lemma slice_drop (data : list Z) : 16 <= Zlen data -> slice data 0 16 = Some (take 16 data).
Proof. intros Hl. unfold slice. destruct (Z.leb_spec (0 + 16) (Zlen data)); [done|lia]. Qed.

Lemma blocks_roundtrip n : forall e d data fuel fuel', paired e d -> length data = (16 * n)%nat -> bytes data -> (n <= fuel)%nat -> (n <= fuel')%nat ->
  exists c, blocks egg_cipher_encrypt fuel e data = Ok c /\ blocks egg_cipher_decrypt fuel' d c = Ok data /\ length c = (16 * n)%nat /\ bytes c.
Proof.
  induction n as [|n IH]; intros e d data fuel fuel' Hp Hl Hb Hf Hf'.
  { destruct data; [|done]. exists []. by destruct fuel, fuel'. }
  destruct fuel as [|fuel]; [lia|]. destruct fuel' as [|fuel']; [lia|].
  destruct (cipher_block e d (take 16 data) Hp) as (c & e' & d' & Ee & Ed & Hc & Hcb & Hp'); [rewrite length_take; lia|by apply Forall_take|].
  destruct (IH e' d' (drop 16 data) fuel fuel' Hp') as (cs & E1 & E2 & Hcs & Hcsb); [rewrite length_drop; lia|by apply Forall_drop|lia|lia|].
  exists (c ++ cs). assert (length (c ++ cs) = (16 * S n)%nat) as Hlc by (rewrite length_app; lia). split_and!; [| |done|by apply Forall_app].
  - destruct data as [|x data]; [done|]. cbn [blocks]. rewrite slice_drop by lia. run. unfold egg_cipher_encrypt at 1. rewrite Ee. rewrite E1. run. done.
  - destruct (c ++ cs) as [|x l] eqn:El; [done|]. cbn [blocks]. rewrite slice_drop by lia. run. rewrite <- El.
    rewrite take_app_length', drop_app_length' by lia. unfold egg_cipher_decrypt at 1. rewrite Ed. rewrite E2. run. by rewrite take_drop.
Qed.

End Blocks.

(** * What the exchange relies on *)

Definition sha256 `{Gcrypt} : Z := gcry_md_map_name EXCHANGE_1_HASH_ALGO.

(** Memory can be had, and the library has SHA-256. *)
Record services `{GcryptLaws} : Prop := {
  services_memory : secure_memory;
  services_works : gcrypt_works sha256;
  services_known : sha256 <> 0 /\ gcry_md_get_algo_dlen sha256 = 32
}.

Definition group_1 : egg_dh_group := mk_group (lit "ietf-ike-grp-modp-1536") 1536 dh_group_1536_prime [2].
Abbreviation prime_1 := (be_val dh_group_1536_prime).

Lemma group_1_in : group_1 ∈ egg_dh_groups.
Proof. unfold egg_dh_groups. do 2 right. left. Qed.

Section Exchange.
Context `{GcryptLaws} `{!CipherLaws} `{KeyFileLaws} `{Base64Laws}.
Context (S : services).

(** ** Keys *)

(** The key that is derived of a shared number. *)
Definition derived_key (n : Z) : list Z :=
  hkdf_expand sha256 (hkdf_extract sha256 (replicate 32 0) (be_bytes 192 n)) [] 16.

Lemma concat_length {A} (f : A -> list Z) n l : (forall x, x ∈ l -> Zlen (f x) = n) -> Zlen (concat (f <$> l)) = Zlen l * n.
Proof.
  induction l as [|x l IH]; intros Hl; [done|]. cbn [fmap list_fmap concat]. rewrite length_app, Nat2Z.inj_add, IH by (intros; apply Hl; by right).
  rewrite (Hl x) by left. cbn [length]. lia.
Qed.

Lemma hkdf_expand_length algo prk info l : Z.of_nat l <= 255 * gcry_md_get_algo_dlen algo -> length (hkdf_expand algo prk info l) = l.
Proof.
  intros Hl. unfold hkdf_expand. rewrite length_take, min_l; [done|].
  pose proof (concat_length (hkdf_t algo prk info) (gcry_md_get_algo_dlen algo) (seq 1 255)) as E.
  rewrite length_seq in E. rewrite Nat2Z.inj_le, E; [lia|]. intros x Hx%elem_of_seq. apply hkdf_t_length. lia.
Qed.

Lemma hkdf_expand_bytes algo prk info l : bytes (hkdf_expand algo prk info l).
Proof.
  unfold hkdf_expand. apply Forall_take. apply Forall_concat, Forall_fmap, Forall_forall. intros n _. unfold compose.
  destruct n; [constructor|]. cbn [hkdf_t]. apply mac_bytes.
Qed.

Lemma derived_key_facts n : Zlen (derived_key n) = 16 /\ bytes (derived_key n).
Proof.
  split; [|apply hkdf_expand_bytes]. unfold derived_key. rewrite hkdf_expand_length; [done|]. rewrite (proj2 (services_known S)). lia.
Qed.

(** ** Transport *)

(** Both sides have the key [k]. *)
Definition has_key (k : list Z) (x : Exchange) : Prop := exists d, default_exchange x = Some d /\ key d = Some k.

(** The secret as the receiver has it, and its length. *)
Definition delivered (text : list Z) : option (list Z) * option Z := (Some (text ++ [0]), Some (Zlen text)).

Lemma transport k x nonce text : has_key k x -> Zlen k = 16 -> bytes k -> bytes text -> Zlen text < 2 ^ 30 ->
  exists iv c, gcr_secret_exchange_default_encrypt_transport_data nonce x text = Ok (iv, c) /\ bytes iv /\ bytes c /\
    forall y, has_key k y -> gcr_secret_exchange_default_decrypt_transport_data y c (Some iv) = Ok (delivered text).
Proof.
  intros (dx & Ex & Kx) Hk Hkb Ht Hlen. unfold gcr_secret_exchange_default_encrypt_transport_data. rewrite Ex, Kx.
  set (iv := egg_random nonce EGG_RANDOM_NONCE EXCHANGE_1_IV_LENGTH). destruct (nonce_length nonce EXCHANGE_1_IV_LENGTH) as [Hil Hib].
  assert (Zlen iv = 16) as Hiv by (unfold iv, egg_random; rewrite Hil; done).
  destruct (cipher_new_works k iv Hk Hkb Hiv Hib) as [cih Ec]. unfold EXCHANGE_1_CIPHER_ALGO. rewrite Ec.
  pose proof (cipher_new_paired _ _ _ _ Ec Ec) as Hp.
  destruct (pkcs7_pad_eq egg_secure_alloc 16 text true) as (n & Hn & Hm & ->); [lia|lia|].
  pose proof (services_memory S) as Hmem. unfold pad_result. rewrite Hmem by lia. run.
  set (padded := text ++ _). assert (length padded = (16 * Z.to_nat ((Zlen text + n) / 16))%nat) as Hpl.
  { unfold padded. rewrite length_app, length_replicate. lia_div. }
  destruct (blocks_roundtrip _ cih cih padded (length padded) (length padded) Hp Hpl) as (c & E1 & E2 & Hcl & Hcb).
  { apply Forall_app. split; [done|]. apply Forall_replicate. unfold is_byte. lia. } { lia. } { lia. }
  rewrite E1. run. exists iv, c. split_and!; try done. intros y (dy & Ey & Ky).
  unfold gcr_secret_exchange_default_decrypt_transport_data. rewrite Ey, Ky. assert (Zlen c = Zlen text + n) as Hc by lia_div.
  rewrite Hiv, Hc, Hm. change (16 =? Z.of_nat EXCHANGE_1_IV_LENGTH) with true. change (0 =? 0) with true. cbn [negb].
  unfold EXCHANGE_1_CIPHER_ALGO. rewrite Ec. rewrite Hmem by lia. cbn [negb]. replace (length c) with (length padded) by lia. rewrite E2. run.
  unfold padded. rewrite pkcs7_unpad_shape by lia. unfold unpad_result. by rewrite Hmem by lia.
Qed.

(** ** Texts *)

(** What a text carries: a public key, and perhaps a vector and a secret in cipher. *)
Definition carries (text public : list Z) (m : option (list Z * list Z)) : Prop :=
  exists f, g_key_file_load_from_data text = Some f /\
    key_file_get_base64 f GCR_SECRET_EXCHANGE_PROTOCOL_1 (lit "public") = Some public /\
    g_key_file_has_key f GCR_SECRET_EXCHANGE_PROTOCOL_1 (lit "secret") = bool_decide (is_Some m) /\
    forall iv c, m = Some (iv, c) -> key_file_get_base64 f GCR_SECRET_EXCHANGE_PROTOCOL_1 (lit "secret") = Some c /\
      key_file_get_base64 f GCR_SECRET_EXCHANGE_PROTOCOL_1 (lit "iv") = Some iv.

Lemma written_base64 f k data : written f -> k ∈ fields -> bytes data -> written (key_file_set_base64 f GCR_SECRET_EXCHANGE_PROTOCOL_1 k data).
Proof. intros Hf Hk Hd. by apply written_set, encode_chars. Qed.

Lemma get_set_base64 f k data : bytes data ->
  key_file_get_base64 (key_file_set_base64 f GCR_SECRET_EXCHANGE_PROTOCOL_1 k data) GCR_SECRET_EXCHANGE_PROTOCOL_1 k = Some data.
Proof. intros Hd. unfold key_file_get_base64, key_file_set_base64. rewrite get_set_same. cbn. by rewrite decode_encode. Qed.

Lemma get_other_base64 f k k' data : k <> k' ->
  key_file_get_base64 (key_file_set_base64 f GCR_SECRET_EXCHANGE_PROTOCOL_1 k data) GCR_SECRET_EXCHANGE_PROTOCOL_1 k' =
  key_file_get_base64 f GCR_SECRET_EXCHANGE_PROTOCOL_1 k'.
Proof. intros Hk. unfold key_file_get_base64, key_file_set_base64. rewrite get_set_other; [done|]. by intros [= ]. Qed.

Lemma fields_in : lit "public" ∈ fields /\ lit "secret" ∈ fields /\ lit "iv" ∈ fields.
Proof. unfold fields. set_solver. Qed.

Lemma carries_public public : bytes public ->
  carries (to_text (key_file_set_base64 g_key_file_new GCR_SECRET_EXCHANGE_PROTOCOL_1 (lit "public") public)) public None.
Proof.
  intros Hb. destruct fields_in as (Fp & _). destruct (load_data _ (written_base64 _ _ public written_new Fp Hb)) as (f & Hl & Hg).
  exists f. split_and!; [done| | |done].
  - rewrite <- (get_set_base64 g_key_file_new (lit "public") public Hb). unfold key_file_get_base64. by rewrite Hg.
  - rewrite has_key_get, Hg. unfold key_file_set_base64. rewrite get_set_other, get_new by done. done.
Qed.

Lemma carries_secret public iv c : bytes public -> bytes iv -> bytes c ->
  let P := GCR_SECRET_EXCHANGE_PROTOCOL_1 in
  carries (to_text (key_file_set_base64 (key_file_set_base64 (key_file_set_base64 g_key_file_new P (lit "public") public) P (lit "secret") c) P (lit "iv") iv))
    public (Some (iv, c)).
Proof.
  intros Hb Hi Hc P. destruct fields_in as (Fp & Fs & Fi).
  destruct (load_data _ (written_base64 _ _ iv (written_base64 _ _ c (written_base64 _ _ public written_new Fp Hb) Fs Hc) Fi Hi)) as (f & Hl & Hg).
  assert (forall k, key_file_get_base64 f P k = key_file_get_base64 (key_file_set_base64 (key_file_set_base64 (key_file_set_base64 g_key_file_new P (lit "public") public) P (lit "secret") c) P (lit "iv") iv) P k) as Hf.
  { intros k. unfold key_file_get_base64 at 1. by rewrite Hg. }
  exists f. split_and!; [done| | |].
  - rewrite Hf. unfold P. rewrite !get_other_base64 by done. by apply get_set_base64.
  - rewrite has_key_get, Hg. unfold key_file_set_base64. rewrite get_set_other, get_set_same by done. done.
  - intros iv' c' [= <- <-]. rewrite !Hf. unfold P. rewrite get_other_base64 by done. by rewrite !get_set_base64.
Qed.

(** ** The key pair and the shared key *)

Definition public_of (a : Z) : Z := 2 ^ a mod prime_1.
(** The key of two private keys. *)
Definition shared_key (a b : Z) : list Z := derived_key (2 ^ (a * b) mod prime_1).

Lemma shared_key_sym a b : shared_key a b = shared_key b a.
Proof. unfold shared_key. by rewrite Z.mul_comm. Qed.

Lemma prime_1_facts : 1 < prime_1 /\ gcry_mpi_get_nbits prime_1 = 1536.
Proof. split; [vm_compute; reflexivity|]. exact (proj1 (group_facts group_1 group_1_in)). Qed.

Lemma public_of_read a : egg_dh_pubkey_new_from_bytes (egg_dh_pubkey_export (public_of a)) = Some (public_of a).
Proof.
  destruct prime_1_facts as [Hp Hn]. pose proof (Z.mod_pos_bound (2 ^ a) prime_1 ltac:(lia)) as Hr. fold (public_of a) in Hr.
  apply pubkey_roundtrip; [lia|]. transitivity (gcry_mpi_get_nbits prime_1); [apply nbits_mono; lia|]. rewrite Hn. lia.
Qed.

#[local] Opaque dh_group_1536_prime.

(** The sides have made their pair, and have not heard of the other's. *)
Definition fresh (x : Exchange) : Prop := default_exchange x = None \/ exists d, default_exchange x = Some d /\ params d = params_of group_1.

Lemma default_params_1 : egg_dh_default_params EXCHANGE_1_IKE_NAME = Some (params_of group_1).
Proof. exact (default_params group_1 group_1_in). Qed.

Lemma gen_pair_1 fuel random : draws fuel random ->
  exists a, 0 <= a /\ egg_dh_gen_pair fuel (params_of group_1) 0 random = Ok (Some (public_of a, a)).
Proof.
  intros Hr. destruct prime_1_facts as [Hp Hn]. destruct (gen_pair_ok (params_of group_1) 0 fuel random Hp) as (a & Ea & Ha & _); [|done|].
  - change (0 <= 0 <= gcry_mpi_get_nbits prime_1). rewrite Hn. lia.
  - exists a. split; [lia|exact Ea].
Qed.

Lemma generate_ok fuel random x : fresh x -> draws fuel random ->
  exists a key0, 0 <= a /\ gcr_secret_exchange_default_generate_exchange_key fuel random x =
    Ok (Some (egg_dh_pubkey_export (public_of a)), set_default (mk_default (params_of group_1) (Some (public_of a)) (Some a) key0) x).
Proof.
  intros Hx Hr. destruct (gen_pair_1 fuel random Hr) as (a & Ha & Ea). unfold gcr_secret_exchange_default_generate_exchange_key.
  destruct Hx as [Hx|(d & Hx & Hd)]; rewrite Hx.
  - rewrite default_params_1. cbn [mbind option_bind params]. rewrite Ea. run. exists a, None. split; [exact Ha|reflexivity].
  - rewrite Hd, Ea. run. exists a, (key d). split; [exact Ha|reflexivity].
Qed.

Lemma derive_ok x pub a b key0 : 0 <= a -> 0 <= b -> default_exchange x = Some (mk_default (params_of group_1) pub (Some a) key0) ->
  gcr_secret_exchange_default_derive_transport_key x (egg_dh_pubkey_export (public_of b)) =
  Ok (true, set_default (mk_default (params_of group_1) pub (Some a) (Some (shared_key a b))) x).
Proof.
  intros Ha Hb Ex. unfold gcr_secret_exchange_default_derive_transport_key. rewrite Ex. run. rewrite public_of_read. cbn [params Exchange.priv Exchange.key Exchange.pub].
  destruct prime_1_facts as [Hp Hn]. pose proof (services_memory S) as Hmem.
  destruct (gen_secret_ok (public_of b) a (params_of group_1) Hmem) as (ikm & -> & Hib & Hil & Hiv).
  { cbn [prime params_of g_prime group_1]. lia. } { cbn [prime params_of g_prime group_1]. rewrite Hn. lia. }
  cbn [prime params_of g_prime group_1] in Hil, Hiv. rewrite Hn in Hil. change ((1536 + 7) / 8) with 192 in Hil.
  unfold public_of in Hiv. rewrite <- Zpower_mod, <- Z.pow_mul_r in Hiv by lia.
  assert (ikm = be_bytes 192 (2 ^ (a * b) mod prime_1)) as ->.
  { rewrite Z.mul_comm, <- Hiv. replace 192%nat with (length ikm) by lia. by rewrite be_bytes_val. }
  rewrite Hmem by (unfold EXCHANGE_1_KEY_LENGTH; lia). destruct (services_known S) as [Hne Hd].
  assert (egg_hkdf_perform EXCHANGE_1_HASH_ALGO (be_bytes 192 (2 ^ (a * b) mod prime_1)) None [] EXCHANGE_1_KEY_LENGTH = Ok (shared_key a b)) as E.
  { rewrite hkdf_eq; [|exact (services_works S)|by unfold EXCHANGE_1_KEY_LENGTH]. fold sha256. rewrite bool_decide_true, Hd; [reflexivity|].
    rewrite Hd. split_and!; [exact Hne|lia|unfold EXCHANGE_1_KEY_LENGTH; lia]. }
  rewrite E. destruct key0; run; reflexivity.
Qed.

(** ** One side *)

Lemma export_bytes a : bytes (egg_dh_pubkey_export (public_of a)).
Proof. apply print_bytes. Qed.

(** A side that has its pair, and perhaps the key of the two. *)
Definition has_pair (a : Z) (x : Exchange) : Prop := 0 <= a /\ generated x = true /\ publi x = egg_dh_pubkey_export (public_of a) /\
  exists pub key0, default_exchange x = Some (mk_default (params_of group_1) pub (Some a) key0).
Definition waiting (a : Z) (x : Exchange) : Prop := has_pair a x /\ derived x = false.
Definition joined (a b : Z) (x : Exchange) : Prop := has_pair a x /\ derived x = true /\ has_key (shared_key a b) x.

Lemma begin_ok fuel random x : fresh x -> draws fuel random ->
  exists a text x', gcr_secret_exchange_begin fuel random x = Ok (Some text, x') /\ waiting a x' /\ carries text (egg_dh_pubkey_export (public_of a)) None.
Proof.
  intros Hx Hr. assert (fresh (clear_secret_exchange x)) as Hc by exact Hx.
  destruct (generate_ok fuel random _ Hc Hr) as (a & key0 & Ha & E). unfold gcr_secret_exchange_begin. rewrite E. run.
  exists a. do 2 eexists. split; [reflexivity|]. split; [|apply carries_public, export_bytes].
  split; [|reflexivity]. split; [exact Ha|]. split; [reflexivity|]. split; [reflexivity|]. do 2 eexists. reflexivity.
Qed.

(** What a text says, to a side with the key. *)
Definition says (k text : list Z) (public : list Z) (m : option (list Z)) : Prop :=
  match m with
  | None => carries text public None
  | Some s => exists iv c, carries text public (Some (iv, c)) /\
      forall y, has_key k y -> gcr_secret_exchange_default_decrypt_transport_data y c (Some iv) = Ok (delivered s)
  end.

(** The secret and the length that are then to be had. *)
Definition received (m : option (list Z)) : option (list Z) * option Z :=
  match m with None => (None, Some 0) | Some s => delivered s end.

Definition sendable (m : option (list Z)) : Prop := match m with None => True | Some s => bytes s /\ Zlen s < 2 ^ 30 end.

Lemma send_ok a b x nonce m : joined a b x -> sendable m ->
  exists text, gcr_secret_exchange_send nonce x m (match m with Some s => Zlen s | None => 0 end) = Ok (Some text) /\
    says (shared_key a b) text (egg_dh_pubkey_export (public_of a)) m.
Proof.
  intros ((_ & _ & Hp & _) & Hd & Hk) Hm. unfold gcr_secret_exchange_send. rewrite Hd, Hp. cbn [negb].
  destruct m as [s|]; [|eexists; split; [reflexivity|]; apply carries_public, export_bytes]. destruct Hm as [Hs Hl].
  destruct (derived_key_facts (2 ^ (a * b) mod prime_1)) as [Hkl Hkb]. fold (shared_key a b) in Hkl, Hkb.
  destruct (transport (shared_key a b) x nonce s Hk Hkl Hkb Hs Hl) as (iv & c & Ee & Hi & Hc & Hdec).
  assert (sent_bytes s (Zlen s) = Ok s) as ->. { unfold sent_bytes. destruct (Z.ltb_spec (Zlen s) 0); [lia|]. by rewrite slice_all. }
  run. unfold perform_encrypt. rewrite Ee. run. eexists. split; [reflexivity|]. exists iv, c. split; [|exact Hdec]. by apply carries_secret; [apply export_bytes| |].
Qed.

(** A text is received once the pair and the key are there. *)
Lemma receive_keyed fuel random x x1 x2 k text public m : says k text public m -> has_key k x2 ->
  (if generated x then x1 = x else exists p x0, gcr_secret_exchange_default_generate_exchange_key fuel random x = Ok (Some p, x0) /\ x1 = set_generated (set_publi p x0)) ->
  (if derived x1 then x2 = x1 else exists x0, gcr_secret_exchange_default_derive_transport_key x1 public = Ok (true, x0) /\ x2 = set_derived true x0) ->
  gcr_secret_exchange_receive fuel random x text = Ok (true, set_secret (received m).1 (received m).2 x2).
Proof.
  intros Hm Hk Hg Hd.
  assert (exists mm, carries text public mm /\ match m, mm with None, None => True | Some s, Some (iv, c) =>
    gcr_secret_exchange_default_decrypt_transport_data x2 c (Some iv) = Ok (delivered s) | _, _ => False end) as (mm & (f & Hl & Hp & Hs & Hget) & Hmm).
  { destruct m as [s|]; [|by exists None]. destruct Hm as (iv & c & Hc & Hdec). exists (Some (iv, c)). split; [done|]. by apply Hdec. }
  unfold gcr_secret_exchange_receive. rewrite Hl.
  assert ((if generated x then Ok (true, x) else
      '(public, self) ← gcr_secret_exchange_default_generate_exchange_key fuel random x;
      match public with None => Ok (false, self) | Some public => Ok (true, set_generated (set_publi public self)) end) = @Ok unit _ (true, x1)) as ->.
  { destruct (generated x); [by rewrite Hg|]. destruct Hg as (p & x0 & E & ->). rewrite E. run. reflexivity. }
  run. cbn [negb].
  assert ((if derived x1 then Ok (true, x1) else derive_key x1 f) = @Ok unit _ (true, x2)) as ->.
  { destruct (derived x1); [by rewrite Hd|]. destruct Hd as (x0 & E & ->). unfold derive_key. rewrite Hp, E. run. reflexivity. }
  run. cbn [negb]. rewrite Hs. destruct m as [s|], mm as [[iv c]|]; try done. destruct (Hget iv c eq_refl) as [Hc Hi].
  rewrite bool_decide_true by done. unfold perform_decrypt. rewrite Hc, Hi, Hmm. unfold delivered. run.
  cbn [received delivered fst snd]. by rewrite Nat2Z.id, take_app_length.
Qed.

Lemma joined_set_secret a b x t n : joined a b x -> joined a b (set_secret t n x).
Proof. done. Qed.

Lemma receive_joined fuel random a b x text public m : joined a b x -> says (shared_key a b) text public m ->
  gcr_secret_exchange_receive fuel random x text = Ok (true, set_secret (received m).1 (received m).2 x).
Proof.
  intros ((_ & Hg & _) & Hd & Hk) Hm. apply (receive_keyed fuel random x x x _ _ _ _ Hm Hk); [by rewrite Hg|by rewrite Hd].
Qed.

Lemma receive_waiting fuel random a b x text m : 0 <= b -> waiting a x -> says (shared_key a b) text (egg_dh_pubkey_export (public_of b)) m ->
  exists x', gcr_secret_exchange_receive fuel random x text = Ok (true, set_secret (received m).1 (received m).2 x') /\ joined a b x'.
Proof.
  intros Hb ((Ha & Hg & Hp & pub & key0 & Ex) & Hd) Hm. pose proof (derive_ok x pub a b key0 Ha Hb Ex) as E.
  set (x0 := set_default _ x) in E. exists (set_derived true x0).
  assert (joined a b (set_derived true x0)) as Hj.
  { split; [|split; [reflexivity|eexists; split; reflexivity]]. split; [exact Ha|]. split; [exact Hg|]. split; [exact Hp|]. do 2 eexists. reflexivity. }
  split; [|exact Hj]. apply (receive_keyed fuel random x x _ _ _ _ _ Hm); [exact (proj2 (proj2 Hj))|by rewrite Hg|].
  rewrite Hd. by exists x0.
Qed.

Lemma receive_new fuel random b x text : 0 <= b -> default_exchange x = None -> generated x = false -> derived x = false -> draws fuel random ->
  carries text (egg_dh_pubkey_export (public_of b)) None ->
  exists a x', gcr_secret_exchange_receive fuel random x text = Ok (true, set_secret None (Some 0) x') /\ joined a b x'.
Proof.
  intros Hb Hn Hg Hd Hr Hm. destruct (generate_ok fuel random x (or_introl Hn) Hr) as (a & key0 & Ha & E).
  set (x0 := set_default _ x) in E. set (x1 := set_generated (set_publi (egg_dh_pubkey_export (public_of a)) x0)).
  pose proof (derive_ok x1 (Some (public_of a)) a b key0 Ha Hb eq_refl) as E2. set (x2 := set_default _ x1) in E2.
  exists a, (set_derived true x2). assert (joined a b (set_derived true x2)) as Hj.
  { split; [|split; [reflexivity|eexists; split; reflexivity]]. split; [exact Ha|]. split; [reflexivity|]. split; [reflexivity|]. do 2 eexists. reflexivity. }
  split; [|exact Hj]. apply (receive_keyed fuel random x x1 _ (shared_key a b) _ (egg_dh_pubkey_export (public_of b)) None Hm (proj2 (proj2 Hj))).
  - rewrite Hg. by exists (egg_dh_pubkey_export (public_of a)), x0.
  - change (derived x1) with (derived x). rewrite Hd. by exists x2.
Qed.

End Exchange.

(** * A conversation *)

(** A text that one side sends, the one that began or the other, with a secret or
    without. *)
Record turn := mk_turn { from_first : bool; draw : nat; what : option (list Z) }.

Section Conversation.
Context `{Gcrypt} `{KeyFiles} `{Base64}.

(** The turns one after the other; after each, whether the text was received and what
    [gcr_secret_exchange_get_secret] then gives. *)
Fixpoint converse (fuel : nat) (random : nat -> Z) (turns : list turn) (x y : Exchange) : res unit (list (bool * (option (list Z) * option Z))) :=
  match turns with
  | [] => Ok []
  | t :: turns =>
    let '(sender, receiver) := if from_first t then (x, y) else (y, x) in
    text ← gcr_secret_exchange_send (draw t) sender (what t) (match what t with Some s => Zlen s | None => 0 end);
    match text with
    | None => Err tt
    | Some text =>
      '(ok, receiver) ← gcr_secret_exchange_receive fuel random receiver text;
      rest ← (if from_first t then converse fuel random turns sender receiver else converse fuel random turns receiver sender);
      Ok ((ok, gcr_secret_exchange_get_secret receiver) :: rest)
    end
  end.

End Conversation.

Section Properties.
Context `{GcryptLaws} `{!CipherLaws} `{KeyFileLaws} `{Base64Laws}.

Definition outcome (t : turn) : bool * (option (list Z) * option Z) := (true, received (what t)).

Lemma converse_joined fuel random a b turns : services -> forall x y, joined a b x -> joined b a y -> Forall (fun t => sendable (what t)) turns ->
  converse fuel random turns x y = Ok (outcome <$> turns).
Proof.
  intros S. induction turns as [|[first nonce m] turns IH]; intros x y Hx Hy Ht; [done|].
  apply Forall_cons in Ht as [Hm Ht]. cbn [converse from_first draw what fmap list_fmap] in *.
  destruct first; cbn [outcome what].
  - destruct (send_ok S a b x nonce m Hx Hm) as (text & E & Hs). rewrite E. run. rewrite shared_key_sym in Hs.
    rewrite (receive_joined fuel random b a y text _ m Hy Hs). run. rewrite (IH _ _ Hx (joined_set_secret b a y _ _ Hy) Ht). run. by destruct m.
  - destruct (send_ok S b a y nonce m Hy Hm) as (text & E & Hs). rewrite E. run. rewrite shared_key_sym in Hs.
    rewrite (receive_joined fuel random a b x text _ m Hx Hs). run. rewrite (IH _ _ (joined_set_secret a b x _ _ Hx) Hy Ht). run. by destruct m.
Qed.

(** C4: the exchange of secrets, from end to end.  One side begins, the other, a new
    exchange, receives the text and answers; from then on whatever either side sends, in
    any order and any number of times, with a secret or without, is received, and the
    other side then has that secret, terminated and with its length.  Of the library, of
    key files and of base64 only their laws are used. *)
Theorem secrets_arrive protocol_x protocol_y fuel random_x random_y nonce answer turns : services ->
  draws fuel random_x -> draws fuel random_y -> sendable answer -> Forall (fun t => sendable (what t)) turns ->
  exists text x y, gcr_secret_exchange_begin fuel random_x (gcr_secret_exchange_new protocol_x) = Ok (Some text, x) /\
    gcr_secret_exchange_receive fuel random_y (gcr_secret_exchange_new protocol_y) text = Ok (true, y) /\
    converse fuel random_x (mk_turn false nonce answer :: turns) x y = Ok (outcome <$> mk_turn false nonce answer :: turns).
Proof.
  intros S Hrx Hry Hm Ht. destruct (begin_ok S fuel random_x (gcr_secret_exchange_new protocol_x) (or_introl eq_refl) Hrx) as (a & text & x & Eb & Hx & Hc).
  assert (0 <= a) as Ha by apply Hx.
  destruct (receive_new S fuel random_y a (gcr_secret_exchange_new protocol_y) text Ha eq_refl eq_refl eq_refl Hry Hc) as (b & y & Er & Hy).
  exists text, x, (set_secret None (Some 0) y). split; [exact Eb|]. split; [exact Er|]. pose proof (joined_set_secret b a y None (Some 0) Hy) as Hy'.
  cbn [converse from_first draw what fmap list_fmap]. destruct (send_ok S b a _ nonce answer Hy' Hm) as (text2 & E & Hs). rewrite E. run.
  assert (0 <= b) as Hb by apply Hy. rewrite shared_key_sym in Hs. destruct (receive_waiting S fuel random_x a b x text2 answer Hb Hx Hs) as (x2 & E2 & Hx2).
  rewrite E2. run. rewrite (converse_joined fuel random_x a b turns S _ _ (joined_set_secret a b x2 _ _ Hx2) Hy' Ht). run. by destruct answer.
Qed.

End Properties.
