(* ===== verification/ExchangeSafe.v ===== *)
(** The secret exchange whatever it is sent: no text makes it read what is not there, use
    a key it has not got or fail an assertion; a text that is refused leaves the last
    secret in place. *)

From S2P Require Import Prelude Text Padding Armor ArmorSpec Crypto Dh Exchange ExchangeSpec.
Local Open Scope Z_scope.

(** * Calls *)

(** The calls of a program: what it is sent may be any text, what it sends any secret. *)
Inductive call : Type :=
  | Begin (fuel : nat) (random : nat -> Z)
  | Receive (fuel : nat) (random : nat -> Z) (text : list Z)
  | Send (nonce : nat) (secret : option (list Z)) (secret_len : Z).

(** Random numbers are to be had, and a secret is as long as the program says it is. *)
Definition fair (c : call) : Prop :=
  match c with
  | Begin fuel random | Receive fuel random _ => draws fuel random
  | Send _ (Some s) n => Zlen s < 2 ^ 63 /\ if n <? 0 then 0 ∈ s else n <= Zlen s
  | Send _ None _ => True
  end.

Section Calls.
Context `{Gcrypt} `{KeyFiles} `{Base64}.

Definition call_once (c : call) (x : Exchange) : res unit Exchange :=
  match c with
  | Begin fuel random => '(_, x) ← gcr_secret_exchange_begin fuel random x; Ok x
  | Receive fuel random text => '(_, x) ← gcr_secret_exchange_receive fuel random x text; Ok x
  | Send nonce s n => _ ← gcr_secret_exchange_send nonce x s n; Ok x
  end.

Fixpoint call_all (cs : list call) (x : Exchange) : res unit Exchange :=
  match cs with [] => Ok x | c :: cs => x ← call_once c x; call_all cs x end.

End Calls.

(** * Each function *)

Section Safe.
Context `{GcryptLaws} `{!CipherLaws} `{KeyFileLaws} `{Base64Laws}.

(** A side that has generated a pair has one, of the group; and a side that has derived a
    key has one too. *)
Definition sound (x : Exchange) : Prop :=
  fresh x /\ (generated x = true -> default_exchange x <> None) /\ (derived x = true -> exists k, has_key k x).

Lemma unpad_defined block padded : exists r, egg_padding_pkcs7_unpad egg_secure_alloc block padded true = r /\ r <> Ub.
Proof.
  eexists. split; [reflexivity|]. unfold egg_padding_pkcs7_unpad. destruct (Z.eqb_spec (Zlen padded) 0); [done|].
  destruct (rd padded (Zlen padded - 1)) eqn:E; [|exfalso; apply (is_Some_None (A:=Z)); rewrite <- E; apply rd_Some_iff; lia].
  run. repeat case_match; try done. unfold unpad_result. by case_match.
Qed.

Lemma blocks_defined op n : forall cih data fuel, length data = (16 * n)%nat -> (n <= fuel)%nat -> blocks op fuel cih data <> Ub.
Proof.
  induction n as [|n IH]; intros cih data fuel Hl Hf; [destruct data; [by destruct fuel|done]|].
  destruct fuel as [|fuel]; [lia|]. destruct data as [|x data]; [done|]. cbn [blocks]. rewrite slice_drop by lia. run.
  destruct (op cih _) as [[out c]|]; [|done]. pose proof (IH c (drop 16 (x :: data)) fuel) as Hb.
  destruct (blocks op fuel c (drop 16 (x :: data))); run; try done. apply Hb; [rewrite length_drop; lia|lia].
Qed.

Lemma decrypt_defined x text iv : gcr_secret_exchange_default_decrypt_transport_data x text iv <> Ub.
Proof.
  unfold gcr_secret_exchange_default_decrypt_transport_data. destruct (default_exchange x); [|done]. destruct (key _); [|done]. destruct iv as [iv|]; [|done].
  destruct (negb (Zlen iv =? _)); [done|]. destruct (Z.eqb_spec (Zlen text mod 16) 0); [|done]. cbn [negb]. destruct (egg_cipher_new _ _ _); [|done].
  destruct (egg_secure_alloc (Zlen text)); [|done]. cbn [negb].
  pose proof (blocks_defined egg_cipher_decrypt (length text / 16) c text (length text)) as Hb.
  assert (length text = (16 * (length text / 16))%nat) as Hl.
  { apply Nat.Div0.div_exact. apply Nat2Z.inj. by rewrite Nat2Z.inj_mod. }
  specialize (Hb Hl ltac:(apply Nat.Div0.div_le_upper_bound; lia)). destruct (blocks _ _ _ _) as [padded| |]; run; try done.
  destruct (unpad_defined 16 padded) as (r & -> & Hr). destruct r as [[n r]| |]; done.
Qed.

Lemma encrypt_defined nonce x text : Zlen text < 2 ^ 63 -> gcr_secret_exchange_default_encrypt_transport_data nonce x text <> Ub.
Proof.
  intros Ht. unfold gcr_secret_exchange_default_encrypt_transport_data. destruct (default_exchange x); [|done]. destruct (key _); [|done]. destruct (egg_cipher_new _ _ _); [|done].
  destruct (pkcs7_pad_eq egg_secure_alloc 16 text true) as (n & Hn & Hm & ->); [lia|lia|]. unfold pad_result. case_match; [|done]. run.
  set (padded := text ++ _). assert (length padded = (16 * Z.to_nat ((Zlen text + n) / 16))%nat) as Hpl.
  { unfold padded. rewrite length_app, length_replicate. lia_div. }
  pose proof (blocks_defined egg_cipher_encrypt _ c padded (length padded) Hpl ltac:(lia)) as Hb. by destruct (blocks _ _ _ _).
Qed.

Lemma send_defined nonce x secret n : fair (Send nonce secret n) -> exists r, gcr_secret_exchange_send nonce x secret n = Ok r.
Proof.
  intros Hf. unfold gcr_secret_exchange_send. destruct (derived x); [|by eexists]. cbn [negb]. destruct secret as [s|]; [|by eexists]. cbn [fair] in Hf.
  destruct Hf as [Hl Hf].
  assert (exists t, sent_bytes s n = Ok t /\ Zlen t < 2 ^ 63) as (t & -> & Ht).
  { unfold sent_bytes. destruct (Z.ltb_spec n 0).
    - rewrite bool_decide_true by done. eexists. split; [done|]. pose proof (c_str_length s). lia.
    - destruct (slice s 0 n) as [t|] eqn:E; [exists t; split; [done|]; apply slice_length in E; lia|].
      unfold slice in E. destruct (Z.leb_spec 0 n), (Z.leb_spec (0 + n) (Zlen s)); try lia. done. }
  run. pose proof (encrypt_defined nonce x t Ht) as He. unfold perform_encrypt.
  destruct (gcr_secret_exchange_default_encrypt_transport_data nonce x t) as [[iv c]| |]; run; [by eexists|by eexists|done].
Qed.

(** ** Any text *)

Context (S : services).

Lemma derive_sound x peer : fresh x -> default_exchange x <> None ->
  exists ret x', gcr_secret_exchange_default_derive_transport_key x peer = Ok (ret, x') /\ fresh x' /\ default_exchange x' <> None /\
    generated x' = generated x /\ derived x' = derived x /\ secret x' = secret x /\ n_secret x' = n_secret x /\ (ret = true -> exists k, has_key k x').
Proof.
  intros [|(d & Ex & Hd)] Hne; [done|]. unfold gcr_secret_exchange_default_derive_transport_key. rewrite Ex. run.
  destruct (egg_dh_gen_secret _ _ _) as [ikm|]; [|exists false, x; split_and!; try done; right; by exists d].
  assert (exists k0, (match key d with Some key => Ok key | None => if egg_secure_alloc EXCHANGE_1_KEY_LENGTH then Ok (replicate (Z.to_nat EXCHANGE_1_KEY_LENGTH) 0) else Ub end) = @Ok unit _ k0) as [k0 ->].
  { destruct (key d) as [k0|]; [by exists k0|]. rewrite (services_memory S) by (unfold EXCHANGE_1_KEY_LENGTH; lia). by eexists. }
  run. destruct (services_known S) as [Hn Hd32].
  rewrite hkdf_eq; [|exact (services_works S)|by unfold EXCHANGE_1_KEY_LENGTH]. fold sha256. rewrite bool_decide_true by (rewrite Hd32; split_and!; [exact Hn|lia|unfold EXCHANGE_1_KEY_LENGTH; lia]).
  do 2 eexists. split; [reflexivity|]. split_and!; try done; [right; eexists; split; [reflexivity|exact Hd]|]. intros _. do 2 eexists. by split.
Qed.

Lemma generate_sound fuel random x : fresh x -> draws fuel random -> exists p x', gcr_secret_exchange_default_generate_exchange_key fuel random x = Ok (Some p, x') /\
  fresh x' /\ default_exchange x' <> None /\ derived x' = derived x /\ secret x' = secret x /\ n_secret x' = n_secret x /\ (forall k, has_key k x -> has_key k x').
Proof.
  intros Hx Hr. destruct (gen_pair_1 fuel random Hr) as (a & Ha & Ea). unfold gcr_secret_exchange_default_generate_exchange_key.
  destruct Hx as [Hx|(d & Hx & Hd)]; rewrite Hx.
  - rewrite default_params_1. cbn [mbind option_bind params]. rewrite Ea. run. do 2 eexists. split; [reflexivity|]. split_and!; try reflexivity; [right; eexists; split; reflexivity|discriminate|].
    intros k (d & E & _). congruence.
  - rewrite Hd, Ea. run. do 2 eexists. split; [reflexivity|]. split_and!; try reflexivity; [right; eexists; split; reflexivity|discriminate|].
    intros k (d' & E & Hk). eexists. split; [reflexivity|]. cbn. congruence.
Qed.

(** What a call of [gcr_secret_exchange_receive] does, whatever the text: it returns, the
    exchange is sound, and the secret is as it was if it returns [FALSE]. *)
Lemma receive_sound fuel random x text : sound x -> draws fuel random ->
  exists ret x', gcr_secret_exchange_receive fuel random x text = Ok (ret, x') /\ sound x' /\
    (ret = true -> derived x' = true) /\ (ret = false -> gcr_secret_exchange_get_secret x' = gcr_secret_exchange_get_secret x).
Proof.
  intros (Hf & Hg & Hd) Hr. unfold gcr_secret_exchange_receive. destruct (g_key_file_load_from_data text) as [f|]; [|by exists false, x].
  assert (exists x1, (if generated x then Ok (true, x) else
      '(public, self) ← gcr_secret_exchange_default_generate_exchange_key fuel random x;
      match public with None => Ok (false, self) | Some public => Ok (true, set_generated (set_publi public self)) end) = @Ok unit _ (true, x1) /\
    fresh x1 /\ default_exchange x1 <> None /\ (derived x1 = true -> exists k, has_key k x1) /\ gcr_secret_exchange_get_secret x1 = gcr_secret_exchange_get_secret x)
    as (x1 & -> & Hf1 & Hn1 & Hd1 & Hs1).
  { destruct (generated x); [exists x; by split_and!; auto|]. destruct (generate_sound fuel random x Hf Hr) as (p & x0 & E & J1 & J2 & J3 & J4 & J5 & J6).
    rewrite E. run. eexists. split; [reflexivity|]. split_and!; try done.
    - intros Hx. change (derived x0 = true) in Hx. destruct Hd as [k Hk]; [congruence|]. exists k. by apply J6.
    - unfold gcr_secret_exchange_get_secret. cbn. by rewrite J4, J5. }
  run. cbn [negb].
  assert (exists ret x2, (if derived x1 then Ok (true, x1) else derive_key x1 f) = @Ok unit _ (ret, x2) /\
    fresh x2 /\ default_exchange x2 <> None /\ (derived x2 = true -> exists k, has_key k x2) /\ (ret = true -> derived x2 = true) /\
    gcr_secret_exchange_get_secret x2 = gcr_secret_exchange_get_secret x) as (ret & x2 & -> & Hf2 & Hn2 & Hd2 & Hr2 & Hs2).
  { destruct (derived x1) eqn:E1; [exists true, x1; split_and!; auto|]. unfold derive_key. destruct (key_file_get_base64 _ _ _) as [peer|]; [|exists false, x1; split_and!; try done; by rewrite E1].
    destruct (derive_sound x1 peer Hf1 Hn1) as (ret & x0 & E & J1 & J2 & J3 & J4 & J5 & J6 & J7). rewrite E. run. do 2 eexists. split; [reflexivity|].
    split_and!; try done. unfold gcr_secret_exchange_get_secret in *. cbn. by rewrite J5, J6. }
  run. assert (sound x2) as Hx2 by by split. destruct ret; cbn [negb]; [|by exists false, x2].
  assert (forall t n, sound (set_secret t n x2)) as Hset by (intros; exact Hx2).
  destruct (g_key_file_has_key _ _ _); [|exists true; eexists; split; [reflexivity|]; split; [apply Hset|]; by split; [intros _; apply Hr2|]].
  assert (perform_decrypt x2 f <> Ub) as Hdef.
  { unfold perform_decrypt. destruct (key_file_get_base64 f _ (lit "secret")) as [v|]; [|done].
    pose proof (decrypt_defined x2 v (key_file_get_base64 f GCR_SECRET_EXCHANGE_PROTOCOL_1 (lit "iv"))) as Hdd.
    destruct (gcr_secret_exchange_default_decrypt_transport_data _ _ _) as [[t n]| |]; run; [by destruct t, n|done|done]. }
  destruct (perform_decrypt x2 f) as [[t n]| |]; [|by exists false, x2; split_and!|done].
  exists true. eexists. split; [reflexivity|]. split; [apply Hset|]. split; [intros _; by apply Hr2|done].
Qed.

Lemma call_once_sound c x : fair c -> sound x -> exists x', call_once c x = Ok x' /\ sound x'.
Proof.
  intros Hc Hx. destruct c as [fuel random|fuel random text|nonce s n]; cbn [call_once].
  - unfold gcr_secret_exchange_begin. assert (fresh (clear_secret_exchange x)) as Hf by apply Hx.
    destruct (generate_sound fuel random _ Hf Hc) as (p & x1 & E & J1 & J2 & J3 & _). rewrite E. run. eexists. split; [reflexivity|].
    split; [exact J1|]. split; [intros _; exact J2|]. intros Hd. change (derived x1 = true) in Hd. by rewrite J3 in Hd.
  - destruct (receive_sound fuel random x text Hx Hc) as (ret & x1 & E & J1 & _). rewrite E. run. by exists x1.
  - destruct (send_defined nonce x s n Hc) as [r E]. rewrite E. run. by exists x.
Qed.

Lemma call_all_sound cs : forall x, Forall fair cs -> sound x -> exists x', call_all cs x = Ok x' /\ sound x'.
Proof.
  induction cs as [|c cs IH]; intros x Hc Hx; [by exists x|]. apply Forall_cons in Hc as [Hc Hcs]. cbn [call_all].
  destruct (call_once_sound c x Hc Hx) as (x1 & -> & Hx1). run. by apply IH.
Qed.

Lemma new_sound protocol : sound (gcr_secret_exchange_new protocol).
Proof. split; [by left|done]. Qed.

End Safe.

Section Properties.
Context `{GcryptLaws} `{!CipherLaws} `{KeyFileLaws} `{Base64Laws}.

(** C14: an exchange takes whatever it is sent.  After any calls, with any texts received and
    any secrets sent, no assertion has failed and nothing was read that is not there; then
    any text at all can be received: if it is, the exchange has a key and can send, and if
    it is refused the last secret is as it was. *)
Theorem exchange_safe protocol calls fuel random text : services -> Forall fair calls -> draws fuel random ->
  exists x ret x', call_all calls (gcr_secret_exchange_new protocol) = Ok x /\ gcr_secret_exchange_receive fuel random x text = Ok (ret, x') /\
    if ret then derived x' = true /\ exists k, has_key k x' else gcr_secret_exchange_get_secret x' = gcr_secret_exchange_get_secret x.
Proof.
  intros S Hc Hr. destruct (call_all_sound S calls _ Hc (new_sound protocol)) as (x & Ex & Hx).
  destruct (receive_sound S fuel random x text Hx Hr) as (ret & x' & E & Hx' & Ht & Hf). exists x, ret, x'. split; [done|]. split; [done|].
  destruct ret; [|by apply Hf]. split; [by apply Ht|]. by apply Hx', Ht.
Qed.

(** ** What the other side does not hear of *)

(** A side that has a key does not look at the public key of a text: when the other side
    begins again, with a new pair, the text is received and the old key is kept. *)
Lemma begin_again_ignored fuel random a b x text public : joined a b x -> carries text public None ->
  gcr_secret_exchange_receive fuel random x text = Ok (true, set_secret None (Some 0) x).
Proof. intros Hx Hc. exact (receive_joined fuel random a b x text public None Hx Hc). Qed.

(** A text whose padding is wrong, as it is under another key, is received: [TRUE] is
    returned, there is no secret, and its length is never written. *)
Lemma wrong_padding_received fuel random a b x text public iv c : joined a b x -> carries text public (Some (iv, c)) ->
  gcr_secret_exchange_default_decrypt_transport_data x c (Some iv) = Ok (None, None) ->
  gcr_secret_exchange_receive fuel random x text = Ok (true, set_secret None None x).
Proof.
  intros ((_ & Hg & _) & Hd & Hk) (f & Hl & Hp & Hs & Hget) Hdec. unfold gcr_secret_exchange_receive. rewrite Hl, Hg. run. cbn [negb]. rewrite Hd. run. cbn [negb].
  rewrite Hs, bool_decide_true by done. destruct (Hget iv c eq_refl) as [Hc Hi]. unfold perform_decrypt. rewrite Hc, Hi, Hdec. run. done.
Qed.

End Properties.
