(* ===== verification/ExchangeCases.v ===== *)
(** A library, key files and a base64 that keep the laws the secret exchange relies on, and
    what its theorems say of concrete exchanges. *)

From S2P Require Import Prelude Text Padding Armor ArmorSpec Base64 Crypto Dh Exchange ExchangeSpec ExchangeSafe.
Local Open Scope Z_scope.

(** * Key files *)

(** A key file as its entries: group, key and value. *)
Definition entry : Type := list Z * list Z * list Z.
Definition is_at (g k : list Z) (e : entry) : bool := bool_decide (e.1 = (g, k)).

Definition header (g : list Z) : list Z := 91 :: g ++ [93].
Definition entry_lines (e : entry) : list (list Z) := [header e.1.1; e.1.2 ++ 61 :: e.2].
Definition print_entries (f : list entry) : list Z := concat ((fun l => l ++ [10]) <$> concat (entry_lines <$> f)).

Fixpoint read_entries (g : list Z) (ls : list (list Z)) : list entry :=
  match ls with
  | [] => []
  | l :: ls =>
    match l with
    | 91 :: rest => read_entries (take (length rest - 1) rest) ls
    | _ => match index_of 61 l with Some i => (g, take i l, drop (S i) l) :: read_entries g ls | None => read_entries g ls end
    end
  end.

#[export] Instance entries : KeyFiles := {
  KeyFile := list entry;
  g_key_file_new := [];
  g_key_file_set_value f g k v := List.filter (fun e => negb (is_at g k e)) f ++ [(g, k, v)];
  g_key_file_get_value f g k := snd <$> List.find (is_at g k) f;
  g_key_file_has_key f g k := existsb (is_at g k) f;
  g_key_file_to_data := print_entries;
  g_key_file_load_from_data d := Some (read_entries [] (split_on 10 d))
}.

Definition entry_ok (e : entry) : Prop := e.1.1 = GCR_SECRET_EXCHANGE_PROTOCOL_1 /\ e.1.2 ∈ fields /\ Forall (fun c => base64_char c = true) e.2.

Lemma written_ok f : written f -> Forall entry_ok f.
Proof.
  induction 1 as [|f k v Hf IH Hk Hv]; [constructor|]. apply Forall_app. split; [|constructor; [by split_and!|constructor]].
  rewrite Forall_forall in IH |- *. intros e [He _]%list_elem_of_In%filter_In. by apply IH, list_elem_of_In.
Qed.

Lemma field_facts k : k ∈ fields -> (10 ∉ k) /\ (61 ∉ k) /\ head k <> Some 91 /\ k <> [].
Proof.
  unfold fields. rewrite !elem_of_cons, elem_of_nil. intros [->|[->|[->|[]]]]; split_and!; try done; decide_now.
Qed.

Lemma parse_entries f : forall g, Forall entry_ok f -> read_entries g (concat (entry_lines <$> f) ++ [[]]) = f.
Proof.
  induction f as [|[[g' k] v] f IH]; intros g Hf; [done|]. apply Forall_cons in Hf as [(Hg & Hk & Hv) Hf]. cbn [fst snd] in *.
  cbn [fmap list_fmap concat entry_lines app fst snd read_entries header].
  rewrite length_app, Nat.add_sub, take_app_length. destruct (field_facts k Hk) as (_ & H61 & H91 & Hne).
  destruct k as [|c k]; [done|]. cbn [app read_entries]. destruct (decide (c = 91)) as [->|Hc]; [done|].
  assert (index_of 61 (c :: k ++ 61 :: v) = Some (length (c :: k))) as Hi by (apply (index_of_app_l 61 (c :: k) v); exact H61).
  assert (forall A (a b : A), (match c with 91 => a | _ => b end) = b) as Hm by (intros A a b; repeat case_match; congruence).
  rewrite Hm, Hi. change (c :: k ++ 61 :: v) with ((c :: k) ++ 61 :: v). rewrite take_app_length. f_equal; [|by apply IH].
  f_equal. change (S (length (c :: k))) with (1 + length (c :: k))%nat. rewrite Nat.add_comm, <- drop_drop, drop_app_length. reflexivity.
Qed.

Lemma is_at_other g k g' k' e : (g, k) <> (g', k') -> is_at g k e = true -> is_at g' k' e = false.
Proof. unfold is_at. rewrite bool_decide_eq_true. intros Hne ->. by apply bool_decide_eq_false. Qed.

Lemma find_filter g k g' k' f : (g, k) <> (g', k') -> List.find (is_at g' k') (List.filter (fun e => negb (is_at g k e)) f) = List.find (is_at g' k') f.
Proof.
  intros Hne. induction f as [|e f IH]; [done|]. cbn [List.filter List.find]. destruct (is_at g k e) eqn:E; cbn [negb List.find]; [|by rewrite IH].
  by rewrite (is_at_other _ _ _ _ _ Hne E).
Qed.

Lemma find_filter_same g k f : List.find (is_at g k) (List.filter (fun e => negb (is_at g k e)) f) = None.
Proof. induction f as [|e f IH]; [done|]. cbn [List.filter]. destruct (is_at g k e) eqn:E; [done|]. cbn [negb List.find]. by rewrite E. Qed.

Lemma find_snoc (p : entry -> bool) f e : List.find p (f ++ [e]) = match List.find p f with Some x => Some x | None => if p e then Some e else None end.
Proof. induction f as [|x f IH]; [done|]. cbn [app List.find]. by destruct (p x). Qed.

Lemma print_load f : Forall entry_ok f -> read_entries [] (split_on 10 (chug (print_entries f))) = f.
Proof.
  intros Hf. assert (chug (print_entries f) = print_entries f) as -> by by destruct f as [|[[g k] v] f].
  unfold print_entries. rewrite split_on_lines; [by apply parse_entries|]. apply Forall_concat, Forall_fmap, (Forall_impl _ _ _ Hf).
  intros [[g k] v] (Hg & Hk & Hv). cbn [fst snd] in *. subst g. unfold compose, entry_lines. cbn [fst snd]. repeat constructor.
  - decide_now.
  - destruct (field_facts k Hk) as (Hk10 & _). rewrite elem_of_app, elem_of_cons. intros [?|[?|Hin]]; [done|done|].
    rewrite Forall_forall in Hv. by specialize (Hv 10 Hin).
Qed.

#[export] Instance entries_laws : KeyFileLaws.
Proof.
  constructor; cbn [g_key_file_get_value g_key_file_new g_key_file_set_value g_key_file_has_key g_key_file_load_from_data entries].
  - done.
  - intros f g k v. rewrite find_snoc, find_filter_same. unfold is_at. cbn [fst]. by rewrite bool_decide_true.
  - intros f g k v g' k' Hne. rewrite find_snoc, find_filter by done. rewrite (is_at_other g k g' k') by (done || by apply bool_decide_eq_true). by destruct (List.find _ f).
  - intros f g k. induction f as [|e f IH]; [done|]. cbn [existsb List.find]. destruct (is_at g k e); [done|]. exact IH.
  - intros f Hf. exists f. split; [|done]. unfold to_text. cbn [g_key_file_to_data entries]. by rewrite print_load by by apply written_ok.
Qed.

(** * A library *)

(** A digest of 32 bytes, of 20 of them for SHA-1 and RIPEMD-160, that depends on the key, the
    text and its length. *)
Definition small_dlen (a : Z) : Z := if a =? 8 then 32 else 20.
Definition small_mac (a : Z) (k : option (list Z)) (t : list Z) : list Z :=
  be_bytes (Z.to_nat (small_dlen a)) ((256 ^ 16 + 1) * (a + 31 * be_val (default [] k) + 7 * be_val t + Zlen t)).

Definition sixteen (b : list Z) : bool := bool_decide (length b = 16%nat /\ bytes b).

(** A cipher: each block is moved by the key and by the block before it. *)
Definition add_bytes (a b : list Z) : list Z := zip_with (fun x y => (x + y) mod 256) a b.
Definition sub_bytes (a b : list Z) : list Z := zip_with (fun x y => (x - y) mod 256) a b.

#[export] Instance small_gcrypt : Gcrypt := {
  gcry_malloc _ _ := true;
  gcry_is_secure _ := true;
  egg_secure_alloc n := (0 <? n) && (n <? 2 ^ 31);
  mpi_scans t := Zlen t <=? 2 ^ 20;
  GCRY_MD_SHA1 := 2;
  GCRY_MD_RMD160 := 3;
  gcry_md_map_name s := if bool_decide (s = lit "sha256") then 8 else 0;
  gcry_md_get_algo_dlen := small_dlen;
  gcry_md_hash_buffer a t := small_mac a None t;
  Md := md;
  gcry_md_open a h := Some (mk_md a (if h then Some [] else None) []);
  gcry_md_setkey m k := Some (mk_md (m_algo m) (Some k) []);
  gcry_md_write m t := mk_md (m_algo m) (m_key m) (m_text m ++ t);
  gcry_md_reset m := mk_md (m_algo m) (m_key m) [];
  gcry_md_read m := small_mac (m_algo m) (m_key m) (m_text m);
  gcry_md_get_algo := m_algo;
  GCRY_CIPHER_AES128 := 7;
  GCRY_CIPHER_MODE_CBC := 3;
  Cih := list Z * list Z;
  gcry_cipher_open _ _ := Some ([], []);
  gcry_cipher_setkey c k := if sixteen k then Some (k, c.2) else None;
  gcry_cipher_setiv c v := if sixteen v then Some (c.1, v) else None;
  gcry_cipher_encrypt c b := let out := add_bytes (add_bytes b c.1) c.2 in Some (out, (c.1, out));
  gcry_cipher_decrypt c b := Some (sub_bytes (sub_bytes b c.2) c.1, (c.1, b));
  gcry_create_nonce i n := replicate n (u8 (Z.of_nat i));
  gcry_randomize i n := replicate n (u8 (Z.of_nat i))
}.

#[export] Instance small_laws : GcryptLaws.
Proof.
  refine {| mac := small_mac; md_of := fun m : Md => (m : md) |}; try done.
  - intros t Ht. by apply Z.leb_le.
  - intros a k t. cbn [gcry_md_get_algo_dlen small_gcrypt]. unfold small_mac. rewrite be_bytes_length. unfold small_dlen. destruct (a =? 8); by split.
  - intros a k t. apply be_bytes_bytes.
  - intros a h m [= <-]. eexists. split; [reflexivity|]. by intros ->.
  - intros m k m' [= <-] _. reflexivity.
Defined.

Lemma add_bytes_ok a b : length a = length b -> length (add_bytes a b) = length a /\ bytes (add_bytes a b).
Proof.
  intros Hl. unfold add_bytes. split; [rewrite length_zip_with; lia|]. apply Forall_zip_with_fst with (P := fun _ => True); [by apply Forall_true|].
  apply Forall_true. intros y x _. apply Z.mod_pos_bound. lia.
Qed.

Lemma sub_add_bytes a : forall b, bytes a -> length a = length b -> sub_bytes (add_bytes a b) b = a.
Proof.
  induction a as [|x a IH]; intros [|y b] Ha Hl; try done. apply Forall_cons in Ha as [Hx Ha]. unfold add_bytes, sub_bytes in *. cbn [zip_with].
  rewrite IH by (done || injection Hl; done). f_equal. rewrite Zminus_mod_idemp_l, Z.add_simpl_r. by apply Z.mod_small.
Qed.

Lemma sixteen_true b : sixteen b = true <-> length b = 16%nat /\ bytes b.
Proof. unfold sixteen. by rewrite bool_decide_eq_true. Qed.

#[export] Instance small_cipher : CipherLaws.
Proof.
  refine {| paired := fun e d : Cih => (e : list Z * list Z) = d /\ sixteen (fst e) = true /\ sixteen (snd e) = true |}.
  - intros key iv e d. unfold egg_cipher_new. cbn. destruct (sixteen key) eqn:Ek; [|done]. cbn. destruct (sixteen iv) eqn:Ei; [|done]. by intros [= <-] [= <-].
  - intros key iv Hk Hkb Hi Hib. unfold egg_cipher_new. cbn. rewrite (proj2 (sixteen_true key)) by (split; [lia|done]). cbn.
    rewrite (proj2 (sixteen_true iv)) by (split; [lia|done]). by eexists.
  - intros [k p] d b (<- & [Hk Hkb]%sixteen_true & [Hp Hpb]%sixteen_true) Hb Hbb. cbn [fst snd] in *. do 3 eexists. cbn [gcry_cipher_encrypt gcry_cipher_decrypt small_gcrypt fst snd].
    split; [reflexivity|]. destruct (add_bytes_ok b k) as [L1 B1]; [lia|]. destruct (add_bytes_ok (add_bytes b k) p) as [L2 B2]; [lia|].
    rewrite !sub_add_bytes by (done || lia). split; [reflexivity|]. split_and!; try done.
    + rewrite L2, L1. exact Hb.
    + by apply sixteen_true.
    + cbn [fst snd]. apply sixteen_true. split; [rewrite L2, L1; lia|exact B2].
  - intros i n. cbn. rewrite length_replicate. split; [done|]. apply Forall_replicate, u8_range.
Defined.

Lemma small_services : services.
Proof.
  split.
  - intros n Hn. cbn. apply andb_true_iff. rewrite !Z.ltb_lt. lia.
  - split; [done|]. eexists. split; [reflexivity|]. split; [reflexivity|]. by eexists.
  - by split.
Qed.

(** * Exchanges *)

Definition draws_of (n : Z) : nat -> Z := fun _ => n.

Lemma draws_draws_of n : 0 < n -> draws 1 (draws_of n).
Proof. intros Hn. split; [unfold draws_of; lia|]. exists 0%nat. unfold draws_of. lia. Qed.

(** What the first side sends. *)
Example begin_text : fst <$> gcr_secret_exchange_begin 1 (draws_of 5) (gcr_secret_exchange_new None) =
  Ok (Some (lit "[sx-aes-1]" ++ [10] ++ lit "public=IA==" ++ [10])).
Proof. vm_compute. reflexivity. Qed.

Definition some_turns : list turn := [mk_turn true 1 None; mk_turn true 2 (Some (lit "silver")); mk_turn false 3 (Some [])].

Lemma secrets_arrive_witness : exists text x y,
  gcr_secret_exchange_begin 1 (draws_of 5) (gcr_secret_exchange_new None) = Ok (Some text, x) /\
  gcr_secret_exchange_receive 1 (draws_of 7) (gcr_secret_exchange_new (Some (lit "sx-aes-1"))) text = Ok (true, y) /\
  converse 1 (draws_of 5) (mk_turn false 0 (Some (lit "gold")) :: some_turns) x y = Ok (outcome <$> mk_turn false 0 (Some (lit "gold")) :: some_turns).
Proof.
  apply (secrets_arrive None (Some (lit "sx-aes-1")) 1 (draws_of 5) (draws_of 7) 0 (Some (lit "gold")) some_turns).
  - exact small_services.
  - by apply draws_draws_of.
  - by apply draws_draws_of.
  - split; [decide_now|reflexivity].
  - unfold some_turns. repeat (apply Forall_cons; split); [exact I|split; [decide_now|reflexivity]|split; [decide_now|reflexivity]|apply Forall_nil; exact I].
Defined.

(** The first side begins twice; then a secret comes from the second. *)
Definition begun_again : res unit (bool * bool * (option (list Z) * option Z)) :=
  '(t1, a) ← gcr_secret_exchange_begin 1 (draws_of 5) (gcr_secret_exchange_new None);
  '(_, b) ← gcr_secret_exchange_receive 1 (draws_of 7) (gcr_secret_exchange_new None) (default [] t1);
  '(t2, a) ← gcr_secret_exchange_begin 1 (draws_of 11) a;
  '(ok1, b) ← gcr_secret_exchange_receive 1 (draws_of 7) b (default [] t2);
  t3 ← gcr_secret_exchange_send 9 b (Some (lit "gold")) 4;
  '(ok2, a) ← gcr_secret_exchange_receive 1 (draws_of 5) a (default [] t3);
  Ok (ok1, ok2, gcr_secret_exchange_get_secret a).

(** When the first side begins a second time, every call succeeds and the secret is lost,
    with a length that was never written. *)
Example begin_again_lost : begun_again = Ok (true, true, (None, None)).
Proof. vm_compute. reflexivity. Qed.

Definition some_calls : list call := [Send 0 None 0; Receive 1 (draws_of 7) (lit "[sx-aes-1]" ++ [10] ++ lit "public=IA==" ++ [10] ++ lit "secret=IA=="); Begin 1 (draws_of 5)].

Lemma exchange_safe_witness : exists x ret x', call_all some_calls (gcr_secret_exchange_new None) = Ok x /\
  gcr_secret_exchange_receive 1 (draws_of 3) x (lit "secret") = Ok (ret, x') /\
  if ret then derived x' = true /\ exists k, has_key k x' else gcr_secret_exchange_get_secret x' = gcr_secret_exchange_get_secret x.
Proof.
  apply (exchange_safe None some_calls 1 (draws_of 3) (lit "secret")).
  - exact small_services.
  - unfold some_calls. repeat (apply Forall_cons; split); [exact I|by apply draws_draws_of|by apply draws_draws_of|apply Forall_nil; exact I].
  - by apply draws_draws_of.
Defined.

Lemma dh_agreement_witness : exists params a b pub_a pub_b secret, egg_dh_default_params (lit "ietf-ike-grp-modp-1536") = Some params /\
  egg_dh_gen_pair 1 params 0 (draws_of 5) = Ok (Some (pub_a, a)) /\ egg_dh_gen_pair 1 params 0 (draws_of 7) = Ok (Some (pub_b, b)) /\
  egg_dh_gen_secret (egg_dh_pubkey_new_from_bytes (egg_dh_pubkey_export pub_b)) (Some a) params = Some secret /\
  egg_dh_gen_secret (egg_dh_pubkey_new_from_bytes (egg_dh_pubkey_export pub_a)) (Some b) params = Some secret /\
  be_val secret = 2 ^ (a * b) mod be_val (g_prime group_1) /\ Zlen secret = Zlen (g_prime group_1) /\ bytes secret.
Proof.
  apply (dh_agreement group_1 1 (draws_of 5) (draws_of 7) group_1_in (services_memory small_services)); by apply draws_draws_of.
Defined.

Lemma hkdf_is_rfc5869_witness : egg_hkdf_perform (lit "sha256") (lit "secret") None (lit "info") 70 =
  Ok (hkdf_expand 8 (hkdf_extract 8 (replicate 32 0) (lit "secret")) (lit "info") 70).
Proof.
  rewrite (hkdf_is_rfc5869 (lit "sha256") (lit "secret") None (lit "info") 70); [|exact (services_works small_services)|lia].
  rewrite bool_decide_true by (vm_compute; split_and!; discriminate). reflexivity.
Defined.
