(* ===== verification/OpenPgp.v ===== *)
(** OpenPGP packets: [src/gcr/gcr-openpgp.c].

    Pointers into the data are offsets, [None] is NULL.  A function that reads is a value of
    [reader]: it takes the pointer and the records made so far, and gives what it read or
    [FALSE], with the pointer and the records as it leaves them.  What is read beyond the data
    is [Ub].  Records are those of [Record]; a pointer to one is its index. *)

From S2P Require Import Prelude Text Record Hex Crypto.
Local Open Scope Z_scope.

(** What the record functions ask of GLib: numbers, quarks and base64. *)
Class GRecords := {
  g_ascii_strtoull : list Z -> Z * list Z;
  g_quark : list Z -> Z;
  g_base64_encode : list Z -> list Z
}.

(** * Constants *)

Definition OPENPGP_PKT_SIGNATURE : Z := 2.
Definition OPENPGP_PKT_SECRET_KEY : Z := 5.
Definition OPENPGP_PKT_PUBLIC_KEY : Z := 6.
Definition OPENPGP_PKT_SECRET_SUBKEY : Z := 7.
Definition OPENPGP_PKT_RING_TRUST : Z := 12.
Definition OPENPGP_PKT_USER_ID : Z := 13.
Definition OPENPGP_PKT_PUBLIC_SUBKEY : Z := 14.
Definition OPENPGP_PKT_ATTRIBUTE : Z := 17.

Definition OPENPGP_SIG_CREATION : Z := 2.
Definition OPENPGP_SIG_EXPIRY : Z := 3.
Definition OPENPGP_SIG_EXPORTABLE : Z := 4.
Definition OPENPGP_SIG_TRUST : Z := 5.
Definition OPENPGP_SIG_REGULAR_EXPRESSION : Z := 6.
Definition OPENPGP_SIG_REVOCABLE : Z := 7.
Definition OPENPGP_SIG_KEY_EXPIRY : Z := 9.
Definition OPENPGP_SIG_SYMMETRIC_ALGOS : Z := 11.
Definition OPENPGP_SIG_REVOCATION_KEY : Z := 12.
Definition OPENPGP_SIG_ISSUER : Z := 16.
Definition OPENPGP_SIG_NOTATION_DATA : Z := 20.
Definition OPENPGP_SIG_HASH_ALGOS : Z := 21.
Definition OPENPGP_SIG_COMPRESSION_ALGOS : Z := 22.
Definition OPENPGP_SIG_KEYSERVER_PREFS : Z := 23.
Definition OPENPGP_SIG_PREFERRED_KEYSERVER : Z := 24.
Definition OPENPGP_SIG_PRIMARY_USERID : Z := 25.
Definition OPENPGP_SIG_POLICY_URI : Z := 26.
Definition OPENPGP_SIG_KEY_FLAGS : Z := 27.
Definition OPENPGP_SIG_SIGNER_USERID : Z := 28.
Definition OPENPGP_SIG_REVOCATION_REASON : Z := 29.
Definition OPENPGP_SIG_FEATURES : Z := 30.
Definition OPENPGP_SIG_TARGET : Z := 31.
Definition OPENPGP_SIG_EMBEDDED_SIGNATURE : Z := 32.

Definition GCR_OPENPGP_ALGO_RSA : Z := 1.
Definition GCR_OPENPGP_ALGO_RSA_E : Z := 2.
Definition GCR_OPENPGP_ALGO_RSA_S : Z := 3.
Definition GCR_OPENPGP_ALGO_ELG_E : Z := 16.
Definition GCR_OPENPGP_ALGO_DSA : Z := 17.

Definition GCR_OPENPGP_PARSE_KEYS : Z := 2.
Definition GCR_OPENPGP_PARSE_NO_RECORDS : Z := 4.
Definition GCR_OPENPGP_PARSE_SIGNATURES : Z := 8.
Definition GCR_OPENPGP_PARSE_ATTRIBUTES : Z := 16.

Definition GCR_RECORD_TRUST : Z := 1.
Definition GCR_RECORD_FPR_FINGERPRINT : Z := 9.
Definition GCR_RECORD_FPR_MAX : Z := 10.
Definition GCR_RECORD_KEY_BITS : Z := 2.
Definition GCR_RECORD_KEY_ALGO : Z := 3.
Definition GCR_RECORD_KEY_KEYID : Z := 4.
Definition GCR_RECORD_KEY_TIMESTAMP : Z := 5.
Definition GCR_RECORD_KEY_EXPIRY : Z := 6.
Definition GCR_RECORD_KEY_OWNERTRUST : Z := 8.
Definition GCR_RECORD_PUB_CAPS : Z := 11.
Definition GCR_RECORD_PUB_MAX : Z := 12.
Definition GCR_RECORD_SEC_MAX : Z := 15.
Definition GCR_RECORD_UID_TIMESTAMP : Z := 5.
Definition GCR_RECORD_UID_FINGERPRINT : Z := 7.
Definition GCR_RECORD_UID_USERID : Z := 9.
Definition GCR_RECORD_UID_MAX : Z := 10.
Definition GCR_RECORD_SIG_ALGO : Z := 3.
Definition GCR_RECORD_SIG_KEYID : Z := 4.
Definition GCR_RECORD_SIG_TIMESTAMP : Z := 5.
Definition GCR_RECORD_SIG_EXPIRY : Z := 6.
Definition GCR_RECORD_SIG_USERID : Z := 9.
Definition GCR_RECORD_SIG_CLASS : Z := 10.
Definition GCR_RECORD_SIG_MAX : Z := 11.
Definition GCR_RECORD_RVK_ALGO : Z := 3.
Definition GCR_RECORD_RVK_FINGERPRINT : Z := 9.
Definition GCR_RECORD_RVK_CLASS : Z := 10.
Definition GCR_RECORD_RVK_MAX : Z := 11.
Definition GCR_RECORD_UAT_FINGERPRINT : Z := 7.
Definition GCR_RECORD_UAT_COUNT_SIZE : Z := 9.
Definition GCR_RECORD_UAT_MAX : Z := 10.
Definition GCR_RECORD_XA1_LENGTH : Z := 2.
Definition GCR_RECORD_XA1_TYPE : Z := 3.
Definition GCR_RECORD_XA1_FINGERPRINT : Z := 7.
Definition GCR_RECORD_XA1_DATA : Z := 9.
Definition GCR_RECORD_XA1_MAX : Z := 11.

Definition GCR_RECORD_SCHEMA_FPR : list Z := lit "fpr".
Definition GCR_RECORD_SCHEMA_PUB : list Z := lit "pub".
Definition GCR_RECORD_SCHEMA_SUB : list Z := lit "sub".
Definition GCR_RECORD_SCHEMA_SEC : list Z := lit "sec".
Definition GCR_RECORD_SCHEMA_SSB : list Z := lit "ssb".
Definition GCR_RECORD_SCHEMA_UID : list Z := lit "uid".
Definition GCR_RECORD_SCHEMA_UAT : list Z := lit "uat".
Definition GCR_RECORD_SCHEMA_XA1 : list Z := lit "xa1".
Definition GCR_RECORD_SCHEMA_SIG : list Z := lit "sig".
Definition GCR_RECORD_SCHEMA_RVK : list Z := lit "rvk".

Inductive GcrDataError := GCR_SUCCESS | GCR_ERROR_FAILURE | GCR_ERROR_UNRECOGNIZED.

(** [flags & flag] *)
Definition flag_set (flags flag : Z) : bool := negb (Z.land flags flag =? 0).

(** * Readers *)

(** The pointer and the records. *)
Record state := mk_state { at_ : option Z; records : list GcrRecord }.

Definition reader (A : Type) : Type := state -> res unit (option A * state).

(** A call that is followed by a call; [FALSE] ends the sequence. *)
#[export] Instance reader_ret : MRet reader := fun A a s => Ok (Some a, s).
#[export] Instance reader_bind : MBind reader := fun A B f m s =>
  match m s with
  | Ok (Some a, s) => f a s
  | Ok (None, s) => Ok (None, s)
  | Err e => Err e
  | Ub => Ub
  end.

Definition no {A} : reader A := fun s => Ok (None, s).
Definition lift {A} (m : res unit A) : reader A := fun s => match m with Ok a => Ok (Some a, s) | Err e => Err e | Ub => Ub end.
Definition get_at : reader (option Z) := fun s => Ok (Some (at_ s), s).
Definition set_at (at_ : option Z) : reader unit := fun s => Ok (Some tt, mk_state at_ (records s)).
Definition get_records : reader (list GcrRecord) := fun s => Ok (Some (records s), s).
Definition put_records (rs : list GcrRecord) : reader unit := fun s => Ok (Some tt, mk_state (at_ s) rs).
Definition g_ptr_array_add (r : GcrRecord) : reader unit := fun s => Ok (Some tt, mk_state (at_ s) (records s ++ [r])).
(** A pointer that is used as one: NULL is not read. *)
Definition pointer : reader Z := fun s => match at_ s with Some p => Ok (Some p, s) | None => Ub end.

(** [%d] *)
Definition print_d (z : Z) : list Z := let z := s32 z in if z <? 0 then 45 :: print_u (- z) else print_u z.
(** [%02x] and [%02X] *)
Definition print_02x (b : Z) : list Z := hex_pair Hex.HEXC_LOWER b.
Definition print_02X (b : Z) : list Z := hex_pair HEXC_UPPER b.

Section OpenPgp.
Context `{Gcrypt} `{GRecords} (data : list Z).

Definition bytes_at (beg end_ : Z) : res unit (list Z) := or_ub (slice data beg (end_ - beg)).

Definition read_byte (end_ : Z) : reader Z := fun s =>
  match (if bool_decide (at_ s = Some end_) then None else at_ s) with
  | None => Ok (None, mk_state None (records s))
  | Some p => c ← or_ub (rd data p); Ok (Some c, mk_state (Some (p + 1)) (records s))
  end.

Definition read_bytes (end_ length_ : Z) : reader (list Z) := fun s =>
  match (match at_ s with Some p => if end_ <? p + length_ then None else Some p | None => None end) with
  | None => Ok (None, mk_state None (records s))
  | Some p => b ← or_ub (slice data p length_); Ok (Some b, mk_state (Some (p + length_)) (records s))
  end.

Definition read_uint32 (end_ : Z) : reader Z := buf ← read_bytes end_ 4; mret (be_val buf).
Definition read_uint16 (end_ : Z) : reader Z := buf ← read_bytes end_ 2; mret (be_val buf).

(** The number of bits and the bytes. *)
Definition read_mpi (end_ : Z) : reader (Z * list Z) :=
  bits ← read_uint16 end_;
  let bytes := (bits + 7) / 8 in
  if bytes =? 0 then no else
  value ← read_bytes end_ bytes;
  mret (bits, value).

Definition read_new_length (end_ : Z) : reader Z :=
  c ← read_byte end_;
  if c <? 192 then mret c
  else if (192 <=? c) && (c <=? 223) then
    c1 ← read_byte end_;
    mret (Z.shiftl (c - 192) 8 + c1 + 192)
  else if c =? 255 then read_uint32 end_
  else no.

Definition read_old_length (end_ ctb : Z) : reader Z :=
  let llen := Z.land ctb 0x03 in
  if llen =? 0 then read_byte end_
  else if llen =? 1 then read_uint16 end_
  else if llen =? 2 then read_uint32 end_
  else p ← pointer; mret (end_ - p).

(** The error, and the type and the length of the packet. *)
Definition read_openpgp_packet (end_ : Z) : reader (GcrDataError * Z * Z) := fun s =>
  match read_byte end_ s with
  | Ok (None, s) => Ok (Some (GCR_ERROR_UNRECOGNIZED, 0, 0), s)
  | Ok (Some ctb, s) =>
    if Z.land ctb 0x80 =? 0 then Ok (Some (GCR_ERROR_UNRECOGNIZED, 0, 0), s) else
    let new_ctb := negb (Z.land ctb 0x40 =? 0) in
    let pkt_type := if new_ctb then Z.land ctb 0x3f else Z.shiftr (Z.land ctb 0x3f) 2 in
    if 63 <? pkt_type then Ok (Some (GCR_ERROR_UNRECOGNIZED, 0, 0), s) else
    match (if new_ctb then read_new_length end_ else read_old_length end_ ctb) s with
    | Ok (None, s) => Ok (Some (GCR_ERROR_UNRECOGNIZED, 0, 0), s)
    | Ok (Some length_, s) =>
      match at_ s with
      | Some p => if end_ <? p + length_ then Ok (Some (GCR_ERROR_FAILURE, 0, 0), s) else Ok (Some (GCR_SUCCESS, pkt_type, length_), s)
      | None => Ub
      end
    | Err e => Err e
    | Ub => Ub
    end
  | Err e => Err e
  | Ub => Ub
  end.

(** * Keys *)

(** The 20 bytes of the array [digest]. *)
Definition hash_user_id_or_attribute (beg end_ : Z) : res unit (list Z) :=
  c_assert (beg <? end_);;
  text ← bytes_at beg end_;
  digest ← or_ub (slice (egg_hash EGG_HASH_RIPEMD160 text) 0 20);
  Ok (egg_hex_encode_full digest true None 0).

(** The bits and the key id. *)
Definition parse_v3_rsa_bits_and_keyid (end_ : Z) : reader (Z * list Z) :=
  '(bits, n) ← read_mpi end_;
  let bytes := (bits + 7) / 8 in
  if bytes <? 8 then no else
  last ← lift (or_ub (slice n (bytes - 8) 8));
  mret (bits, egg_hex_encode_full last true None 0).

(** The key id and the fingerprint; [None] is NULL, and then there is none. *)
Definition hash_v4_keyid (beg end_ : Z) : res unit (option (list Z * list Z)) :=
  c_assert (beg <? end_);;
  let len := end_ - beg in
  if negb (len <? 65535) then Ok None else
  let header := [0x99; Z.land (Z.shiftr len 8) 0xff; Z.land len 0xff] in
  match egg_hasher_new EGG_HASH_SHA1 with
  | None => Ok None
  | Some mdh =>
    text ← bytes_at beg end_;
    bytes ← or_ub (egg_hasher_free_to_bytes (egg_hasher_hash (egg_hasher_hash mdh header) text));
    keyid ← or_ub (slice bytes 12 8);
    fingerprint ← or_ub (slice bytes 0 20);
    Ok (Some (egg_hex_encode_full keyid true None 0, egg_hex_encode_full fingerprint true None 0))
  end.

Definition parse_v4_algo_bits (end_ algo : Z) : reader Z :=
  if (algo =? GCR_OPENPGP_ALGO_RSA) || (algo =? GCR_OPENPGP_ALGO_RSA_E) || (algo =? GCR_OPENPGP_ALGO_RSA_S) then
    '(bits, _) ← read_mpi end_; _ ← read_mpi end_; mret bits
  else if algo =? GCR_OPENPGP_ALGO_DSA then
    '(bits, _) ← read_mpi end_; _ ← read_mpi end_; _ ← read_mpi end_; _ ← read_mpi end_; mret bits
  else if algo =? GCR_OPENPGP_ALGO_ELG_E then
    '(bits, _) ← read_mpi end_; _ ← read_mpi end_; _ ← read_mpi end_; mret bits
  else no.

Definition default_caps_for_algo (algo : Z) : list Z :=
  if algo =? GCR_OPENPGP_ALGO_RSA then lit "cse"
  else if algo =? GCR_OPENPGP_ALGO_RSA_E then lit "e"
  else if algo =? GCR_OPENPGP_ALGO_RSA_S then lit "s"
  else if algo =? GCR_OPENPGP_ALGO_ELG_E then lit "e"
  else if algo =? GCR_OPENPGP_ALGO_DSA then lit "sca"
  else [].

(** A string that may be NULL, which the setter refuses. *)
Definition take_raw (r : GcrRecord) (column : Z) (value : option (list Z)) : res unit GcrRecord :=
  match value with Some v => _gcr_record_take_raw r column v | None => Ok r end.

Definition parse_public_key_or_subkey (schema : list Z) (n_columns end_ : Z) : reader unit :=
  beg ← pointer;
  version ← read_byte end_;
  if (version <? 2) || (4 <? version) then no else
  timestamp ← read_uint32 end_;
  ndays ← (if version <? 4 then read_uint16 end_ else mret 0);
  algo ← read_byte end_;
  '(bits, keyid, fingerprint) ← (if version <? 4 then '(bits, keyid) ← parse_v3_rsa_bits_and_keyid end_; mret (bits, Some keyid, None)
    else
      bits ← parse_v4_algo_bits end_ algo;
      p ← pointer;
      ids ← lift (hash_v4_keyid beg p);
      mret (bits, fst <$> ids, snd <$> ids));
  r ← lift (
    r ← _gcr_record_new schema n_columns 58;
    r ← _gcr_record_set_uint r GCR_RECORD_KEY_BITS bits;
    r ← _gcr_record_set_uint r GCR_RECORD_KEY_ALGO algo;
    r ← take_raw r GCR_RECORD_KEY_KEYID keyid;
    r ← _gcr_record_set_ulong r GCR_RECORD_KEY_TIMESTAMP timestamp;
    r ← (if negb (bool_decide (schema = GCR_RECORD_SCHEMA_SEC)) && negb (bool_decide (schema = GCR_RECORD_SCHEMA_SSB))
         then _gcr_record_set_raw r GCR_RECORD_PUB_CAPS (default_caps_for_algo algo) else Ok r);
    if 0 <? ndays then _gcr_record_set_ulong r GCR_RECORD_KEY_EXPIRY (timestamp + ndays * 86400) else Ok r);
  _ ← g_ptr_array_add r;
  match fingerprint with
  | Some fingerprint =>
    if bool_decide (schema = GCR_RECORD_SCHEMA_PUB) || bool_decide (schema = GCR_RECORD_SCHEMA_SEC) then
      r ← lift (r ← _gcr_record_new GCR_RECORD_SCHEMA_FPR GCR_RECORD_FPR_MAX 58; _gcr_record_take_raw r GCR_RECORD_FPR_FINGERPRINT fingerprint);
      g_ptr_array_add r
    else mret tt
  | None => mret tt
  end.

Definition parse_secret_key_or_subkey (schema : list Z) (end_ : Z) : reader unit :=
  _ ← parse_public_key_or_subkey schema GCR_RECORD_SEC_MAX end_;
  set_at (Some end_).

(** * User ids and attributes *)

Definition parse_user_id (end_ : Z) : reader unit :=
  p ← get_at;
  match p with
  | None => no
  | Some p =>
    if end_ <? p then no else
    text ← lift (bytes_at p end_);
    fingerprint ← lift (hash_user_id_or_attribute p end_);
    r ← lift (
      r ← _gcr_record_new GCR_RECORD_SCHEMA_UID GCR_RECORD_UID_MAX 58;
      r ← _gcr_record_take_raw r GCR_RECORD_UID_FINGERPRINT fingerprint;
      _gcr_record_set_string r GCR_RECORD_UID_USERID (c_str text));
    _ ← g_ptr_array_add r;
    set_at (Some end_)
  end.

Definition parse_user_attribute_packet (end_ subpkt_type : Z) : reader unit :=
  p ← pointer;
  r ← lift (
    r ← _gcr_record_new GCR_RECORD_SCHEMA_XA1 GCR_RECORD_XA1_MAX 58;
    r ← _gcr_record_set_uint r GCR_RECORD_XA1_LENGTH (u32 (end_ - p));
    r ← _gcr_record_set_uint r GCR_RECORD_XA1_TYPE subpkt_type;
    fingerprint ← hash_user_id_or_attribute p end_;
    r ← _gcr_record_take_raw r GCR_RECORD_XA1_FINGERPRINT fingerprint;
    text ← bytes_at p end_;
    _gcr_record_set_base64 g_base64_encode chomp r GCR_RECORD_XA1_DATA text);
  _ ← g_ptr_array_add r;
  set_at (Some end_).

(** [while (at != end)]; the pointer can be taken beyond the end.  A length of zero makes
    [subpkt_len - 1] wrap around, which takes the pointer back by one. *)
Fixpoint attribute_loop (fuel : nat) (end_ flags count : Z) : reader Z :=
  match fuel with
  | O => lift Ub
  | S fuel =>
    p ← get_at;
    if bool_decide (p = Some end_) then mret count else
    subpkt_len ← read_new_length end_;
    subpkt_type ← read_byte end_;
    p ← pointer;
    _ ← (if flag_set flags GCR_OPENPGP_PARSE_ATTRIBUTES
         then parse_user_attribute_packet (p + (subpkt_len - 1)) subpkt_type
         else set_at (Some (p + (subpkt_len - 1))));
    attribute_loop fuel end_ flags (u32 (count + 1))
  end.

Definition parse_user_attribute (end_ flags : Z) : reader unit :=
  start ← pointer;
  count ← attribute_loop (S (length data)) end_ flags 0;
  p ← pointer;
  r ← lift (
    fingerprint ← hash_user_id_or_attribute start end_;
    r ← _gcr_record_new GCR_RECORD_SCHEMA_UAT GCR_RECORD_UAT_MAX 58;
    r ← _gcr_record_take_raw r GCR_RECORD_UAT_FINGERPRINT fingerprint;
    _gcr_record_take_raw r GCR_RECORD_UAT_COUNT_SIZE (print_d count ++ [32] ++ print_d (p - start)));
  g_ptr_array_add r.

(** * Signatures *)

Definition skip_signature_mpis (end_ algo : Z) : reader unit :=
  if algo =? GCR_OPENPGP_ALGO_RSA then _ ← read_mpi end_; mret tt
  else if algo =? GCR_OPENPGP_ALGO_DSA then _ ← read_mpi end_; _ ← read_mpi end_; mret tt
  else no.

Definition parse_v3_signature (end_ flags : Z) : reader unit :=
  sig_len ← read_byte end_;
  if negb (sig_len =? 5) then no else
  sig_type ← read_byte end_;
  sig_time ← read_uint32 end_;
  keyid ← read_bytes end_ 8;
  key_algo ← read_byte end_;
  hash_algo ← read_byte end_;
  left_bits ← read_uint16 end_;
  _ ← skip_signature_mpis end_ key_algo;
  if flag_set flags GCR_OPENPGP_PARSE_SIGNATURES then
    r ← lift (
      r ← _gcr_record_new GCR_RECORD_SCHEMA_SIG GCR_RECORD_SIG_MAX 58;
      r ← _gcr_record_set_uint r GCR_RECORD_SIG_ALGO key_algo;
      r ← _gcr_record_take_raw r GCR_RECORD_SIG_KEYID (egg_hex_encode_full keyid true None 0);
      r ← _gcr_record_set_ulong r GCR_RECORD_SIG_TIMESTAMP sig_time;
      _gcr_record_take_raw r GCR_RECORD_SIG_CLASS (print_02x sig_type ++ [120]));
    g_ptr_array_add r
  else mret tt.

Record SigSubpacket := mk_subpacket {
  key_expiry : Z;
  exportable : bool;
  primary : Z;
  key_flags : Z;
  revocation : option GcrRecord
}.

Definition parse_v4_signature_revocation (end_ : Z) (revocation : GcrRecord) : reader GcrRecord :=
  klass ← read_byte end_;
  algo ← read_byte end_;
  fingerprint ← read_bytes end_ 20;
  lift (
    r ← _gcr_record_set_uint revocation GCR_RECORD_RVK_ALGO algo;
    r ← _gcr_record_take_raw r GCR_RECORD_RVK_FINGERPRINT (egg_hex_encode_full fingerprint true None 0);
    _gcr_record_take_raw r GCR_RECORD_RVK_CLASS (print_02X klass)).

(** The types that are passed over. *)
Definition ignored_types : list Z :=
  [OPENPGP_SIG_SYMMETRIC_ALGOS; OPENPGP_SIG_HASH_ALGOS; OPENPGP_SIG_COMPRESSION_ALGOS; OPENPGP_SIG_REVOCABLE; OPENPGP_SIG_TRUST;
   OPENPGP_SIG_REGULAR_EXPRESSION; OPENPGP_SIG_NOTATION_DATA; OPENPGP_SIG_KEYSERVER_PREFS; OPENPGP_SIG_PREFERRED_KEYSERVER;
   OPENPGP_SIG_POLICY_URI; OPENPGP_SIG_REVOCATION_REASON; OPENPGP_SIG_FEATURES; OPENPGP_SIG_TARGET; OPENPGP_SIG_EMBEDDED_SIGNATURE].

(** The record of the signature and what is to go to the key, as they are afterwards. *)
Definition parse_v4_signature_subpacket (end_ sub_type : Z) (record : GcrRecord) (subpkt : SigSubpacket) : reader (GcrRecord * SigSubpacket) :=
  let critical := negb (Z.land sub_type 0x80 =? 0) in
  let sub_type := Z.land sub_type 0x3f in
  let 'mk_subpacket expiry exp prim flags rev := subpkt in
  if sub_type =? OPENPGP_SIG_CREATION then
    when_ ← read_uint32 end_;
    r ← lift (_gcr_record_set_ulong record GCR_RECORD_SIG_TIMESTAMP when_);
    mret (r, subpkt)
  else if sub_type =? OPENPGP_SIG_ISSUER then
    keyid ← read_bytes end_ 8;
    r ← lift (_gcr_record_take_raw record GCR_RECORD_SIG_KEYID (egg_hex_encode_full keyid true None 0));
    mret (r, subpkt)
  else if sub_type =? OPENPGP_SIG_KEY_EXPIRY then
    when_ ← read_uint32 end_;
    mret (record, mk_subpacket when_ exp prim flags rev)
  else if sub_type =? OPENPGP_SIG_EXPIRY then
    when_ ← read_uint32 end_;
    r ← lift (_gcr_record_set_ulong record GCR_RECORD_SIG_EXPIRY when_);
    mret (r, subpkt)
  else if sub_type =? OPENPGP_SIG_EXPORTABLE then
    byte ← read_byte end_;
    if negb (byte =? 0) && negb (byte =? 1) then no else
    mret (record, mk_subpacket expiry (negb (byte =? 0)) prim flags rev)
  else if sub_type =? OPENPGP_SIG_PRIMARY_USERID then
    byte ← read_byte end_;
    if negb (byte =? 0) && negb (byte =? 1) then no else
    mret (record, mk_subpacket expiry exp byte flags rev)
  else if sub_type =? OPENPGP_SIG_KEY_FLAGS then
    byte ← read_byte end_;
    _ ← set_at (Some end_);
    mret (record, mk_subpacket expiry exp prim byte rev)
  else if sub_type =? OPENPGP_SIG_SIGNER_USERID then
    p ← pointer;
    text ← lift (bytes_at p end_);
    r ← lift (_gcr_record_set_string record GCR_RECORD_SIG_USERID (c_str text));
    mret (r, subpkt)
  else if sub_type =? OPENPGP_SIG_REVOCATION_KEY then
    revocation ← lift (_gcr_record_new GCR_RECORD_SCHEMA_RVK GCR_RECORD_RVK_MAX 58);
    revocation ← parse_v4_signature_revocation end_ revocation;
    mret (record, mk_subpacket expiry exp prim flags (Some revocation))
  else if bool_decide (sub_type ∈ ignored_types) then
    _ ← set_at (Some end_);
    mret (record, subpkt)
  else if critical then no
  else
    _ ← set_at (Some end_);
    mret (record, subpkt).

Fixpoint parse_v4_signature_subpackets (fuel : nat) (end_ : Z) (record : GcrRecord) (subpkt : SigSubpacket) : reader (GcrRecord * SigSubpacket) :=
  match fuel with
  | O => lift Ub
  | S fuel =>
    p ← get_at;
    if bool_decide (p = Some end_) then mret (record, subpkt) else
    length_ ← read_new_length end_;
    sub_type ← read_byte end_;
    if length_ =? 0 then no else
    let length_ := length_ - 1 in
    p ← pointer;
    let stop := p + length_ in
    if end_ <? stop then no else
    '(record, subpkt) ← parse_v4_signature_subpacket stop sub_type record subpkt;
    p ← get_at;
    if negb (bool_decide (p = Some stop)) then no else
    parse_v4_signature_subpackets fuel end_ record subpkt
  end.

Definition schema_is (r : GcrRecord) (schema : list Z) : bool := _gcr_record_get_schema g_quark r =? g_quark schema.

Definition uid_or_uat_find_for_self_signature (records : list GcrRecord) (sig_type : Z) : option nat :=
  if bool_decide (sig_type ∈ [0x10; 0x11; 0x12; 0x13]) then
    r ← last records;
    if schema_is r GCR_RECORD_SCHEMA_UID || schema_is r GCR_RECORD_SCHEMA_UAT then Some (length records - 1)%nat else None
  else None.

(** [for (i = records->len - 1; i >= 0; i--)], on the records before [i], the last first. *)
Fixpoint find_key (rev_records : list GcrRecord) (keyid : list Z) : option nat :=
  match rev_records with
  | [] => None
  | record :: rest =>
    if schema_is record GCR_RECORD_SCHEMA_PUB || schema_is record GCR_RECORD_SCHEMA_SEC then
      match _gcr_record_get_raw record GCR_RECORD_KEY_KEYID with
      | Some check => if bool_decide (check = keyid) then Some (length rest) else None
      | None => None
      end
    else find_key rest keyid
  end.

Definition key_or_sub_find_for_self_signature (records : list GcrRecord) (sig_type : Z) (keyid : list Z) : option nat :=
  if bool_decide (sig_type ∈ [0x10; 0x11; 0x12; 0x13]) then find_key (reverse records) keyid
  else if bool_decide (sig_type ∈ [0x18; 0x19]) then
    r ← last records;
    if schema_is r GCR_RECORD_SCHEMA_SUB then Some (length records - 1)%nat else None
  else None.

Definition pub_or_sub_set_key_caps (record : GcrRecord) (key_flags : Z) : res unit GcrRecord :=
  if schema_is record GCR_RECORD_SCHEMA_SEC || schema_is record GCR_RECORD_SCHEMA_SSB then Ok record else
  let string :=
    (if flag_set key_flags 0x02 then lit "s" else []) ++ (if flag_set key_flags 0x01 then lit "c" else []) ++
    (if flag_set key_flags 0x04 || flag_set key_flags 0x08 then lit "e" else []) ++ (if flag_set key_flags 0x20 then lit "a" else []) in
  _gcr_record_take_raw record GCR_RECORD_PUB_CAPS string.

(** What is filled in on the key that is found. *)
Definition fill_key (subpkt : SigSubpacket) (key : GcrRecord) : res unit GcrRecord :=
  key ← (if negb (key_expiry subpkt =? 0) then
           match _gcr_record_get_ulong g_ascii_strtoull key GCR_RECORD_KEY_TIMESTAMP with
           | Some timestamp => _gcr_record_set_ulong key GCR_RECORD_KEY_EXPIRY (u64 (timestamp + key_expiry subpkt))
           | None => Ok key
           end
         else Ok key);
  if negb (key_flags subpkt =? 0) then pub_or_sub_set_key_caps key (key_flags subpkt) else Ok key.

Definition fill_uid (record uid : GcrRecord) : res unit GcrRecord :=
  match _gcr_record_get_ulong g_ascii_strtoull record GCR_RECORD_SIG_TIMESTAMP with
  | Some timestamp => _gcr_record_set_ulong uid GCR_RECORD_UID_TIMESTAMP timestamp
  | None => Ok uid
  end.

(** A change of the record at an index. *)
Definition update (i : nat) (f : GcrRecord -> res unit GcrRecord) (rs : list GcrRecord) : res unit (list GcrRecord) :=
  match rs !! i with Some r => r ← f r; Ok (<[i := r]> rs) | None => Ok rs end.

Definition fill_records (sig_type : Z) (record : GcrRecord) (subpkt : SigSubpacket) (rs : list GcrRecord) : res unit (list GcrRecord) :=
  let keyid := default [] (_gcr_record_get_raw record GCR_RECORD_SIG_KEYID) in
  match key_or_sub_find_for_self_signature rs sig_type keyid with
  | None => Ok rs
  | Some i =>
    rs ← update i (fill_key subpkt) rs;
    if match rs !! i with Some key => schema_is key GCR_RECORD_SCHEMA_PUB | None => false end then
      match uid_or_uat_find_for_self_signature rs sig_type with
      | Some j => update j (fill_uid record) rs
      | None => Ok rs
      end
    else Ok rs
  end.

Definition parse_v4_signature (end_ flags : Z) : reader unit :=
  sig_type ← read_byte end_;
  key_algo ← read_byte end_;
  hash_algo ← read_byte end_;
  hashed_len ← read_uint16 end_;
  record ← lift (_gcr_record_new GCR_RECORD_SCHEMA_SIG GCR_RECORD_SIG_MAX 58);
  p ← pointer;
  if end_ <? p + hashed_len then no else
  '(record, subpkt) ← parse_v4_signature_subpackets (S (length data)) (p + hashed_len) record (mk_subpacket 0 true 0 0 None);
  unhashed_len ← read_uint16 end_;
  p ← pointer;
  if end_ <? p + unhashed_len then no else
  '(record, subpkt) ← parse_v4_signature_subpackets (S (length data)) (p + unhashed_len) record subpkt;
  left_bits ← read_uint16 end_;
  _ ← skip_signature_mpis end_ key_algo;
  _ ← (match revocation subpkt with Some r => g_ptr_array_add r | None => mret tt end);
  rs ← get_records;
  rs ← lift (fill_records sig_type record subpkt rs);
  _ ← put_records rs;
  if flag_set flags GCR_OPENPGP_PARSE_SIGNATURES then
    r ← lift (
      r ← _gcr_record_set_uint record GCR_RECORD_SIG_ALGO key_algo;
      _gcr_record_take_raw r GCR_RECORD_SIG_CLASS (print_02x sig_type ++ (if exportable subpkt then lit "x" else lit "l")));
    g_ptr_array_add r
  else mret tt.

Definition parse_signature (end_ flags : Z) : reader unit :=
  version ← read_byte end_;
  if version =? 3 then parse_v3_signature end_ flags
  else if version =? 4 then parse_v4_signature end_ flags
  else no.

(** * Packets *)

(** The reader of a packet, if it is of a type that is understood. *)
Definition packet_reader (pkt_type end_ flags : Z) : option (reader unit) :=
  if pkt_type =? OPENPGP_PKT_PUBLIC_KEY then Some (parse_public_key_or_subkey GCR_RECORD_SCHEMA_PUB GCR_RECORD_PUB_MAX end_)
  else if pkt_type =? OPENPGP_PKT_PUBLIC_SUBKEY then Some (parse_public_key_or_subkey GCR_RECORD_SCHEMA_SUB GCR_RECORD_PUB_MAX end_)
  else if pkt_type =? OPENPGP_PKT_USER_ID then Some (parse_user_id end_)
  else if pkt_type =? OPENPGP_PKT_ATTRIBUTE then Some (parse_user_attribute end_ flags)
  else if pkt_type =? OPENPGP_PKT_SIGNATURE then Some (parse_signature end_ flags)
  else if pkt_type =? OPENPGP_PKT_SECRET_KEY then Some (parse_secret_key_or_subkey GCR_RECORD_SCHEMA_SEC end_)
  else if pkt_type =? OPENPGP_PKT_SECRET_SUBKEY then Some (parse_secret_key_or_subkey GCR_RECORD_SCHEMA_SSB end_)
  else None.

(** The pointer is a copy. *)
Definition parse_openpgp_packet (at_0 end_ pkt_type flags : Z) (records_0 : list GcrRecord) : res unit (GcrDataError * list GcrRecord) :=
  match packet_reader pkt_type end_ flags with
  | None => Ok (GCR_SUCCESS, records_0)
  | Some read =>
    '(ret, s) ← read (mk_state (Some at_0) records_0);
    match ret with
    | Some _ => if bool_decide (at_ s = Some end_) then Ok (GCR_SUCCESS, records s) else Ok (GCR_ERROR_FAILURE, records s)
    | None => Ok (GCR_ERROR_FAILURE, records s)
    end
  end.

(** * Records of a key *)

Definition append_key_capabilities (string caps : list Z) : list Z :=
  foldl (fun string c => let cap := g_ascii_toupper c in if bool_decide (cap ∈ string) then string else string ++ [cap]) string caps.

Fixpoint gather_capabilities (string : list Z) (rs : list GcrRecord) : res unit (list Z) :=
  match rs with
  | [] => Ok string
  | r :: rs =>
    if schema_is r GCR_RECORD_SCHEMA_PUB || schema_is r GCR_RECORD_SCHEMA_SUB then
      caps ← or_ub (_gcr_record_get_raw r GCR_RECORD_PUB_CAPS);
      gather_capabilities (append_key_capabilities string caps) rs
    else gather_capabilities string rs
  end.

(** On the first record and all of them; [g_string_new (NULL)] is the empty string. *)
Definition normalize_capabilities (first : GcrRecord) (rs : list GcrRecord) : res unit GcrRecord :=
  string ← gather_capabilities (default [] (_gcr_record_get_raw first GCR_RECORD_PUB_CAPS)) rs;
  _gcr_record_take_raw first GCR_RECORD_PUB_CAPS string.

(** [current > expiry] compares as unsigned numbers. *)
Definition check_key_expiry (now : Z) (record : GcrRecord) : bool :=
  match _gcr_record_get_ulong g_ascii_strtoull record GCR_RECORD_KEY_EXPIRY with
  | Some expiry => if expiry =? 0 then false else expiry <? u64 now
  | None => false
  end.

Definition set_trust (force : bool) (trust : Z) (r : GcrRecord) : res unit GcrRecord :=
  if negb force && match _gcr_record_get_raw r GCR_RECORD_TRUST with Some (c :: _) => negb (c =? 0) | _ => false end then Ok r else
  if negb (schema_is r GCR_RECORD_SCHEMA_SIG) && negb (schema_is r GCR_RECORD_SCHEMA_FPR) then _gcr_record_set_char r GCR_RECORD_TRUST trust else Ok r.

Fixpoint set_trusts (force : bool) (trust : Z) (rs : list GcrRecord) : res unit (list GcrRecord) :=
  match rs with
  | [] => Ok []
  | r :: rs => r ← set_trust force trust r; rs ← set_trusts force trust rs; Ok (r :: rs)
  end.

Definition normalize_key_records (now : Z) (rs : list GcrRecord) : res unit (list GcrRecord) :=
  match rs with
  | [] => Ok rs
  | first :: rest =>
    if schema_is first GCR_RECORD_SCHEMA_PUB then
      let expired := check_key_expiry now first in
      first ← (if expired then Ok first else normalize_capabilities first rs);
      first ← _gcr_record_set_char first GCR_RECORD_KEY_OWNERTRUST 111;
      set_trusts expired (if expired then 101 else 111) (first :: rest)
    else Ok rs
  end.

(** * The whole *)

(** What the callback gets. *)
Record block := mk_block { b_records : list GcrRecord; b_outer : list Z }.

(** [count], the calls so far, and the records of the closure. *)
Record closure := mk_closure { count : Z; emitted : list block; c_records : list GcrRecord }.

Definition maybe_emit_openpgp_block (c : closure) (block : option Z) (end_ : Z) : res unit closure :=
  match block with
  | None => Ok c
  | Some block =>
    if block =? end_ then Ok c else
    c_assert (block <? end_);;
    outer ← bytes_at block end_;
    Ok (mk_closure (u32 (count c + 1)) (emitted c ++ [mk_block (c_records c) outer]) [])
  end.

Definition normalize (now flags : Z) (c : closure) : res unit closure :=
  if flag_set flags GCR_OPENPGP_PARSE_KEYS then
    rs ← normalize_key_records now (c_records c);
    Ok (mk_closure (count c) (emitted c) rs)
  else Ok c.

(** [while (at != NULL && at != end)]: the closure, the block and the pointer at its end. *)
Fixpoint packet_loop (fuel : nat) (now flags end_ : Z) (c : closure) (block : option Z) (at_0 : option Z) : res unit (closure * option Z * option Z) :=
  match fuel with
  | O => Ub
  | S fuel =>
    match at_0 with
    | None => Ok (c, block, None)
    | Some beg =>
      if beg =? end_ then Ok (c, block, Some beg) else
      '(r, s) ← read_openpgp_packet end_ (mk_state (Some beg) []);
      match r with
      | Some (GCR_SUCCESS, pkt_type, length_) =>
        p ← or_ub (at_ s);
        let new_key := (pkt_type =? OPENPGP_PKT_PUBLIC_KEY) || (pkt_type =? OPENPGP_PKT_SECRET_KEY) in
        c ← (if new_key then normalize now flags c else Ok c);
        '(c, block) ← (if negb (flag_set flags GCR_OPENPGP_PARSE_KEYS) || new_key
                       then c ← maybe_emit_openpgp_block c block beg; Ok (c, Some beg) else Ok (c, block));
        c ← (if negb (flag_set flags GCR_OPENPGP_PARSE_NO_RECORDS) then
               '(_, rs) ← parse_openpgp_packet p (p + length_) pkt_type flags (c_records c);
               Ok (mk_closure (count c) (emitted c) rs)
             else Ok c);
        packet_loop fuel now flags end_ c block (Some (p + length_))
      | _ =>
        c ← match block with Some b => if negb (b =? beg) then maybe_emit_openpgp_block c block beg else Ok c | None => Ok c end;
        Ok (c, None, at_ s)
      end
    end
  end.

(** The count and what the callback got. *)
Definition _gcr_openpgp_parse (now flags : Z) : res unit (Z * list block) :=
  let end_ := Zlen data in
  '(c, block, at_1) ← packet_loop (S (length data)) now flags end_ (mk_closure 0 [] []) None (Some 0);
  c ← normalize now flags c;
  c ← match block with None => Ok c | Some _ => p ← or_ub at_1; maybe_emit_openpgp_block c block p end;
  Ok (count c, emitted c).

End OpenPgp.
