(* ===== verification/OpenPgpSpec.v ===== *)
(** The packets of OpenPGP data as lists of bytes: how a text is divided, and that the
    readers divide it so. *)

From S2P Require Import Prelude Text Record Hex Crypto OpenPgp.
Local Open Scope Z_scope.

(** * Framing *)

(** The length at the head of a text and what follows it; RFC 4880, 4.2.2 without partial
    lengths. *)
Definition new_length (l : list Z) : option (Z * list Z) :=
  match l with
  | [] => None
  | c :: l =>
    if c <? 192 then Some (c, l)
    else if c <=? 223 then match l with c1 :: l => Some ((c - 192) * 256 + c1 + 192, l) | [] => None end
    else if c =? 255 then match l with a :: b :: c :: d :: l => Some (be_val [a; b; c; d], l) | _ => None end
    else None
  end.

(** RFC 4880, 4.2.1: the length has [2 ^ n] bytes, or is that of what follows. *)
Definition old_length (llen : Z) (l : list Z) : option (Z * list Z) :=
  if llen =? 3 then Some (Zlen l, l) else
  let n := Z.to_nat (2 ^ llen) in
  if (length l <? n)%nat then None else Some (be_val (take n l), drop n l).

(** A packet: its type, its body, and all of it. *)
Record packet := mk_packet { p_type : Z; p_body : list Z; p_whole : list Z }.

Definition header (l : list Z) : option (Z * Z * list Z) :=
  match l with
  | [] => None
  | ctb :: l =>
    if ctb <? 128 then None
    else if 192 <=? ctb then '(n, l) ← new_length l; Some (ctb - 192, n, l)
    else '(n, l) ← old_length (ctb mod 4) l; Some ((ctb - 128) / 4, n, l)
  end.

(** The first packet and what follows it, if the text has all of it. *)
Definition first_packet (l : list Z) : option (packet * list Z) :=
  match header l with
  | Some (ty, n, rest) =>
    if Zlen rest <? n then None
    else Some (mk_packet ty (take (Z.to_nat n) rest) (take (length l - (length rest - Z.to_nat n)) l), drop (Z.to_nat n) rest)
  | None => None
  end.

Fixpoint packets (fuel : nat) (l : list Z) : list packet :=
  match fuel with
  | O => []
  | S fuel => match first_packet l with Some (p, rest) => p :: packets fuel rest | None => [] end
  end.

Definition is_key (p : packet) : bool := (p_type p =? OPENPGP_PKT_PUBLIC_KEY) || (p_type p =? OPENPGP_PKT_SECRET_KEY).

(** Blocks: a packet each, or a key with the packets that follow it; what comes before the
    first key is of no block. *)
Fixpoint key_blocks (current : option (list Z)) (ps : list packet) : list (list Z) :=
  match ps with
  | [] => match current with Some b => [b] | None => [] end
  | p :: ps =>
    if is_key p then match current with Some b => [b] | None => [] end ++ key_blocks (Some (p_whole p)) ps
    else key_blocks (option_map (fun b => b ++ p_whole p) current) ps
  end.
Definition blocks_of (by_key : bool) (ps : list packet) : list (list Z) := if by_key then key_blocks None ps else p_whole <$> ps.

(** * What the readers read *)

Section Readers.
Context `{Gcrypt} `{GRecords} (data : list Z) (Hdata : bytes data).

(** The bytes from [p] to [end_]. *)
Definition piece (p end_ : Z) : list Z := take (Z.to_nat (end_ - p)) (drop (Z.to_nat p) data).

Lemma piece_length p end_ : 0 <= p <= end_ -> end_ <= Zlen data -> Zlen (piece p end_) = end_ - p.
Proof. intros. unfold piece. rewrite length_take, length_drop. lia. Qed.

Lemma piece_bytes p end_ : bytes (piece p end_).
Proof. apply Forall_take, Forall_drop, Hdata. Qed.

Lemma piece_from p end_ n : 0 <= p -> 0 <= n -> drop (Z.to_nat n) (piece p end_) = piece (p + n) end_.
Proof.
  intros Hp Hn. unfold piece. rewrite skipn_firstn_comm, drop_drop. f_equal; [lia|f_equal; lia].
Qed.

Lemma piece_take p end_ n : 0 <= n <= end_ - p -> take (Z.to_nat n) (piece p end_) = piece p (p + n).
Proof. intros Hn. unfold piece. rewrite take_take. f_equal. lia. Qed.

Lemma slice_piece p n : 0 <= p -> 0 <= n -> p + n <= Zlen data -> slice data p n = Some (piece p (p + n)).
Proof.
  intros Hp Hn Hl. unfold slice. destruct (Z.leb_spec 0 p), (Z.leb_spec 0 n), (Z.leb_spec (p + n) (Zlen data)); try lia. cbn [andb].
  unfold piece. do 2 f_equal. lia.
Qed.

Lemma bytes_at_piece p q : 0 <= p <= q -> q <= Zlen data -> bytes_at data p q = Ok (piece p q).
Proof. intros Hp Hq. unfold bytes_at. rewrite slice_piece by lia. cbn. do 2 f_equal. lia. Qed.

Lemma piece_cons p end_ c l : 0 <= p <= end_ -> piece p end_ = c :: l -> rd data p = Some c /\ p < end_ /\ piece (p + 1) end_ = l.
Proof.
  intros Hp E. assert (p < end_) as Hlt. { destruct (Z.lt_ge_cases p end_); [done|]. unfold piece in E. by replace (Z.to_nat (end_ - p)) with 0%nat in E by lia. }
  split; [|split; [done|]].
  - apply rd_lookup. split; [lia|]. assert (piece p end_ !! 0%nat = Some c) as Hc by by rewrite E.
    unfold piece in Hc. rewrite lookup_take_lt, lookup_drop, Nat.add_0_r in Hc by lia. done.
  - rewrite <- (piece_from p end_ 1), E by lia. done.
Qed.

Lemma piece_nil p end_ : 0 <= p <= end_ -> end_ <= Zlen data -> piece p end_ = [] -> p = end_.
Proof. intros Hp Hl E. pose proof (piece_length p end_ Hp Hl) as Hz. rewrite E in Hz. cbn in Hz. lia. Qed.

(** What a reader reads of a text, a value and the rest, or [FALSE]. *)
Definition reads {A} (m : reader A) (p end_ : Z) (r : option (A * list Z)) : Prop :=
  forall rs, match r with
  | Some (a, rest) => m (mk_state (Some p) rs) = Ok (Some a, mk_state (Some (end_ - Zlen rest)) rs)
  | None => exists at_', m (mk_state (Some p) rs) = Ok (None, mk_state at_' rs)
  end.

Lemma read_byte_ok p end_ : 0 <= p <= end_ -> end_ <= Zlen data ->
  reads (read_byte data end_) p end_ (match piece p end_ with c :: l => Some (c, l) | [] => None end).
Proof.
  intros Hp Hl rs. unfold read_byte. cbn [at_]. destruct (piece p end_) as [|c l] eqn:E.
  - pose proof (piece_nil _ _ Hp Hl E) as ->. rewrite bool_decide_true by done. by eexists.
  - destruct (piece_cons _ _ _ _ Hp E) as (Hr & Hlt & El). rewrite bool_decide_false by (intros [= ?]; lia). rewrite Hr. run.
    pose proof (piece_length (p + 1) end_ ltac:(lia) Hl) as Hz. rewrite El in Hz. do 4 f_equal. lia.
Qed.

Lemma read_bytes_ok p end_ n : 0 <= p <= end_ -> end_ <= Zlen data -> 0 <= n ->
  reads (read_bytes data end_ n) p end_ (let l := piece p end_ in if Zlen l <? n then None else Some (take (Z.to_nat n) l, drop (Z.to_nat n) l)).
Proof.
  intros Hp Hl Hn rs. cbv zeta. rewrite piece_length by done. unfold read_bytes. cbn [at_].
  destruct (Z.ltb_spec end_ (p + n)), (Z.ltb_spec (end_ - p) n); try lia; [by eexists|].
  rewrite slice_piece by lia. run. rewrite piece_take, piece_from by lia. rewrite piece_length by lia. do 4 f_equal. lia.
Qed.

Lemma reads_rest {A} (m : reader A) p end_ a rest rs : reads m p end_ (Some (a, rest)) ->
  m (mk_state (Some p) rs) = Ok (Some a, mk_state (Some (end_ - Zlen rest)) rs).
Proof. intros Hm. exact (Hm rs). Qed.

(** A sequence of two. *)
Lemma reads_bind {A B} (m : reader A) (f : A -> reader B) p end_ r r' : reads m p end_ r ->
  match r with Some (a, rest) => reads (f a) (end_ - Zlen rest) end_ r' | None => r' = None end -> reads (m ≫= f) p end_ r'.
Proof.
  intros Hm Hf rs. unfold mbind, reader_bind. destruct r as [[a rest]|].
  - rewrite (Hm rs). apply (Hf rs).
  - subst r'. destruct (Hm rs) as [q E]. exists q. by rewrite E.
Qed.

Lemma reads_ret {A} (a : A) p end_ : 0 <= p <= end_ -> end_ <= Zlen data -> reads (mret a) p end_ (Some (a, piece p end_)).
Proof. intros Hp Hl rs. unfold mret, reader_ret. rewrite piece_length by done. do 4 f_equal. lia. Qed.

Lemma read_uint_ok (m : reader Z) n p end_ : m = (buf ← read_bytes data end_ n; mret (be_val buf)) -> 0 <= p <= end_ -> end_ <= Zlen data -> 0 <= n ->
  reads m p end_ (let l := piece p end_ in if Zlen l <? n then None else Some (be_val (take (Z.to_nat n) l), drop (Z.to_nat n) l)).
Proof.
  intros -> Hp Hl Hn. eapply reads_bind; [by apply read_bytes_ok|]. cbv zeta. pose proof (piece_length p end_ Hp Hl) as Hz.
  destruct (Z.ltb_spec (Zlen (piece p end_)) n); [done|]. rewrite piece_from by lia. rewrite piece_length by lia.
  replace (end_ - (end_ - (p + n))) with (p + n) by lia. apply reads_ret; lia.
Qed.

Lemma read_new_length_ok p end_ : 0 <= p <= end_ -> end_ <= Zlen data -> reads (read_new_length data end_) p end_ (new_length (piece p end_)).
Proof.
  intros Hp Hl. eapply reads_bind; [by apply read_byte_ok|]. pose proof (piece_bytes p end_) as Hb. pose proof (piece_length p end_ Hp Hl) as Hz.
  destruct (piece p end_) as [|c l] eqn:E; [done|]. destruct (piece_cons _ _ _ _ Hp E) as (_ & Hlt & El). cbn [new_length length] in *.
  apply Forall_cons in Hb as [Hc Hb]. unfold is_byte in Hc. replace (end_ - Zlen l) with (p + 1) by lia. subst l.
  destruct (Z.ltb_spec c 192); [by apply reads_ret; lia|]. destruct (Z.leb_spec 192 c); [|lia]. cbn [andb]. destruct (Z.leb_spec c 223).
  - eapply reads_bind; [apply read_byte_ok; lia|]. pose proof (piece_length (p + 1) end_ ltac:(lia) Hl) as Hz1.
    destruct (piece (p + 1) end_) as [|c1 l] eqn:E1; [done|]. destruct (piece_cons (p + 1) end_ _ _ ltac:(lia) E1) as (_ & Hlt1 & El1). cbn [length] in *.
    replace (end_ - Zlen l) with (p + 1 + 1) by lia. subst l. rewrite Z.shiftl_mul_pow2 by lia. apply reads_ret; lia.
  - destruct (Z.eqb_spec c 255); [|intros rs; by eexists]. pose proof (read_uint_ok (read_uint32 data end_) 4 (p + 1) end_ eq_refl ltac:(lia) Hl ltac:(lia)) as Hr.
    cbv zeta in Hr. destruct (piece (p + 1) end_) as [|b0 [|b1 [|b2 [|b3 l]]]]; try exact Hr. cbn [length] in Hr.
    destruct (Z.ltb_spec (Z.of_nat (S (S (S (S (length l)))))) 4); [lia|]. exact Hr.
Qed.

Lemma read_old_length_ok p end_ ctb : 0 <= p <= end_ -> end_ <= Zlen data -> 0 <= ctb ->
  reads (read_old_length data end_ ctb) p end_ (old_length (ctb mod 4) (piece p end_)).
Proof.
  intros Hp Hl Hctb. unfold read_old_length, old_length. assert (Z.land ctb 3 = ctb mod 4) as -> by (change 3 with (Z.ones 2); by rewrite Z.land_ones).
  pose proof (Z.mod_pos_bound ctb 4 ltac:(lia)) as Hm. pose proof (piece_length p end_ Hp Hl) as Hz. set (n := ctb mod 4) in *.
  assert (forall k, (length (piece p end_) <? k)%nat = (Zlen (piece p end_) <? Z.of_nat k)) as Hlt.
  { intros k. destruct (Nat.ltb_spec (length (piece p end_)) k), (Z.ltb_spec (Zlen (piece p end_)) (Z.of_nat k)); lia. }
  assert (n = 0 \/ n = 1 \/ n = 2 \/ n = 3) as [->|[->|[->| ->]]] by lia; cbn [Z.eqb Pos.eqb]; rewrite ?Hlt; clear Hlt.
  - change (Z.to_nat (2 ^ 0)) with 1%nat. pose proof (read_byte_ok p end_ Hp Hl) as Hr. destruct (piece p end_) as [|c l]; [exact Hr|].
    cbn [length] in *. destruct (Z.ltb_spec (Z.of_nat (S (length l))) (Z.of_nat 1)); [lia|]. cbn [take drop firstn skipn].
    replace (be_val [c]) with c by (unfold be_val; cbn; lia). exact Hr.
  - exact (read_uint_ok (read_uint16 data end_) 2 p end_ eq_refl Hp Hl ltac:(lia)).
  - exact (read_uint_ok (read_uint32 data end_) 4 p end_ eq_refl Hp Hl ltac:(lia)).
  - intros rs. unfold pointer, mbind, reader_bind, mret, reader_ret. cbn [at_]. repeat f_equal; lia.
Qed.

(** ** A packet *)

Lemma ctb_bits : forall c, 0 <= c < 256 ->
  (Z.land c 0x80 =? 0) = (c <? 128) /\ (128 <= c -> negb (Z.land c 0x40 =? 0) = (192 <=? c)) /\
  (192 <= c -> Z.land c 0x3f = c - 192) /\ (128 <= c < 192 -> Z.shiftr (Z.land c 0x3f) 2 = (c - 128) / 4) /\ Z.land c 0x3f <= 63 /\ Z.shiftr (Z.land c 0x3f) 2 <= 63.
Proof.
  intros c Hc. pose proof (range_check (fun c => Bool.eqb (Z.land c 0x80 =? 0) (c <? 128) && (negb (128 <=? c) || Bool.eqb (negb (Z.land c 0x40 =? 0)) (192 <=? c)) &&
    (negb (192 <=? c) || (Z.land c 0x3f =? c - 192)) && (negb ((128 <=? c) && (c <? 192)) || (Z.shiftr (Z.land c 0x3f) 2 =? (c - 128) / 4)) &&
    (Z.land c 0x3f <=? 63) && (Z.shiftr (Z.land c 0x3f) 2 <=? 63)) 0 256 ltac:(vm_compute; reflexivity) c Hc) as E.
  cbv beta in E. rewrite !andb_true_iff, !orb_true_iff, !negb_true_iff, !Z.leb_le, !Z.eqb_eq, !Bool.eqb_true_iff, !Z.leb_gt, andb_false_iff, Z.leb_gt, Z.ltb_ge in E.
  destruct E as (((((E1 & E2) & E3) & E4) & E5) & E6). split_and!; try done; intros; [destruct E2; [lia|done]|destruct E3; [lia|done]|destruct E4 as [[]|]; [lia|lia|done]].
Qed.

Lemma new_length_facts l v rest : bytes l -> new_length l = Some (v, rest) -> 0 <= v < 2 ^ 32 /\ (length rest < length l)%nat /\ rest = drop (length l - length rest) l.
Proof.
  intros Hb. destruct l as [|c l]; [done|]. apply Forall_cons in Hb as [Hc Hb]. unfold is_byte in Hc. cbn [new_length].
  assert (forall pre, c :: l = pre ++ rest -> pre <> [] -> (length rest < length (c :: l))%nat /\ rest = drop (length (c :: l) - length rest) (c :: l)) as Hpre.
  { intros pre E Hpre. rewrite E, length_app. replace (length pre + length rest - length rest)%nat with (length pre) by lia. rewrite drop_app_length.
    split; [|done]. destruct pre; [done|]. cbn. lia. }
  destruct (Z.ltb_spec c 192); [intros [= <- <-]; split; [lia|]; by apply (Hpre [c])|]. destruct (Z.leb_spec c 223).
  - destruct l as [|c1 l]; [done|]. apply Forall_cons in Hb as [Hc1 _]. unfold is_byte in Hc1. intros [= <- <-]. split; [lia|]. by apply (Hpre [c; c1]).
  - destruct (Z.eqb_spec c 255); [|done]. destruct l as [|x0 [|x1 [|x2 [|x3 l]]]]; try done. intros [= <- <-]. split; [|by apply (Hpre [c; x0; x1; x2; x3])].
    assert (bytes [x0; x1; x2; x3]) as Hx by (exact (Forall_take is_byte 4 _ Hb)). pose proof (be_val_bound _ Hx). cbn [length] in *. change (2 ^ 32) with (256 ^ Z.of_nat 4). done.
Qed.

Lemma old_length_facts n l v rest : 0 <= n < 4 -> bytes l -> old_length n l = Some (v, rest) -> 0 <= v /\ (length rest <= length l)%nat /\ rest = drop (length l - length rest) l.
Proof.
  intros Hn Hb. unfold old_length. destruct (Z.eqb_spec n 3); [intros [= <- <-]; split_and!; [lia|done|by rewrite Nat.sub_diag]|].
  set (k := Z.to_nat (2 ^ n)). destruct (Nat.ltb_spec (length l) k); [done|]. intros [= <- <-].
  pose proof (be_val_bound (take k l) ltac:(by apply Forall_take)). rewrite length_drop. split_and!; [lia|lia|]. f_equal. lia.
Qed.

Lemma header_ok p end_ rs : 0 <= p < end_ -> end_ <= Zlen data ->
  match header (piece p end_) with
  | Some (ty, n, rest) => exists q, p < q <= end_ /\ rest = piece q end_ /\ 0 <= n /\ read_openpgp_packet data end_ (mk_state (Some p) rs) =
      if end_ <? q + n then Ok (Some (GCR_ERROR_FAILURE, 0, 0), mk_state (Some q) rs) else Ok (Some (GCR_SUCCESS, ty, n), mk_state (Some q) rs)
  | None => exists q, read_openpgp_packet data end_ (mk_state (Some p) rs) = Ok (Some (GCR_ERROR_UNRECOGNIZED, 0, 0), mk_state q rs)
  end.
Proof.
  intros Hp Hl. pose proof (read_byte_ok p end_ ltac:(lia) Hl rs) as Hr. pose proof (piece_bytes p end_) as Hb. pose proof (piece_length p end_ ltac:(lia) Hl) as Hz.
  destruct (piece p end_) as [|c l] eqn:E; [cbn in Hz; lia|]. destruct (piece_cons p end_ _ _ ltac:(lia) E) as (_ & _ & El).
  apply Forall_cons in Hb as [Hc Hb]. unfold read_openpgp_packet. rewrite Hr. cbn [length] in Hz. replace (end_ - Zlen l) with (p + 1) by lia. clear Hr. subst l.
  destruct (ctb_bits c Hc) as (B1 & B2 & B3 & B4 & B5 & B6). cbn [header]. rewrite B1. destruct (Z.ltb_spec c 128); [by eexists|]. rewrite B2 by lia.
  set (l := piece (p + 1) end_) in *. destruct (Z.leb_spec 192 c).
  - rewrite B3 by lia. unfold is_byte in Hc. destruct (Z.ltb_spec 63 (c - 192)); [lia|].
    pose proof (read_new_length_ok (p + 1) end_ ltac:(lia) Hl rs) as Hn. fold l in Hn. destruct (new_length l) as [[n rest]|] eqn:En; cbn [mbind option_bind].
    + destruct (new_length_facts l n rest Hb En) as (Hn0 & Hlt & Hrest). rewrite Hn. cbn [at_]. exists (end_ - Zlen rest). split; [lia|].
      split; [|split; [lia|done]]. rewrite Hrest at 1. rewrite <- (Nat2Z.id (length l - length rest)). unfold l at 2. rewrite piece_from by lia. f_equal. lia.
    + destruct Hn as [q Hn]. exists q. by rewrite Hn.
  - rewrite B4 by lia. destruct (Z.ltb_spec 63 ((c - 128) / 4)); [lia_div|].
    pose proof (read_old_length_ok (p + 1) end_ c ltac:(lia) Hl ltac:(lia) rs) as Hn. fold l in Hn. destruct (old_length (c mod 4) l) as [[n rest]|] eqn:En; cbn [mbind option_bind].
    + destruct (old_length_facts (c mod 4) l n rest ltac:(apply Z.mod_pos_bound; lia) Hb En) as (Hn0 & Hlt & Hrest). rewrite Hn. cbn [at_]. exists (end_ - Zlen rest). split; [lia|].
      split; [|split; [lia|done]]. rewrite Hrest at 1. rewrite <- (Nat2Z.id (length l - length rest)). unfold l at 2. rewrite piece_from by lia. f_equal. lia.
    + destruct Hn as [q Hn]. exists q. by rewrite Hn.
Qed.

Lemma first_packet_ok p end_ rs : 0 <= p < end_ -> end_ <= Zlen data ->
  match first_packet (piece p end_) with
  | Some (pk, rest) => exists q r, p < q <= r /\ r <= end_ /\ pk = mk_packet (p_type pk) (piece q r) (piece p r) /\ rest = piece r end_ /\
      read_openpgp_packet data end_ (mk_state (Some p) rs) = Ok (Some (GCR_SUCCESS, p_type pk, r - q), mk_state (Some q) rs)
  | None => exists e q, e <> GCR_SUCCESS /\ read_openpgp_packet data end_ (mk_state (Some p) rs) = Ok (Some (e, 0, 0), mk_state q rs)
  end.
Proof.
  intros Hp Hl. pose proof (header_ok p end_ rs Hp Hl) as Hh. unfold first_packet. destruct (header (piece p end_)) as [[[ty n] rest]|]; [|by destruct Hh as [q Hh]; exists GCR_ERROR_UNRECOGNIZED, q].
  destruct Hh as (q & Hq & -> & Hn & E). pose proof (piece_length q end_ ltac:(lia) Hl) as Hz. pose proof (piece_length p end_ ltac:(lia) Hl) as Hzp.
  destruct (Z.ltb_spec (Zlen (piece q end_)) n), (Z.ltb_spec end_ (q + n)); try lia; [by exists GCR_ERROR_FAILURE, (Some q)|].
  exists q, (q + n). split; [lia|]. split; [lia|]. cbn [p_type]. split; [|split; [rewrite piece_from by lia; f_equal; lia|rewrite E; do 4 f_equal; lia]].
  f_equal; [rewrite piece_take by lia; done|]. rewrite <- (Nat2Z.id (_ - _)). rewrite piece_take; [f_equal; lia|lia].
Qed.

End Readers.
