(* ===== verification/OpenPgpSafe.v ===== *)
(** Reading packets is safe: a rule for sequences of readers, the readers of each packet by
    it, and the loop over packets. *)

From S2P Require Import Prelude Text Record Hex Crypto OpenPgp OpenPgpSpec.
Local Open Scope Z_scope.

(** * What is relied on *)

(** Quarks tell texts apart, and base64 has the length it should have. *)
Class GRecordsLaws `{GRecords} := {
  quark_inj s t : g_quark s = g_quark t -> s = t;
  base64_length x : Zlen (g_base64_encode x) <= 4 * ((Zlen x + 2) / 3) + 1
}.

(** The digests have twenty bytes. *)
Definition twenty `{Gcrypt} : Prop := gcry_md_get_algo_dlen GCRY_MD_SHA1 = 20 /\ gcry_md_get_algo_dlen GCRY_MD_RMD160 = 20.

(** * Packets that are read safely *)

(** A subpacket takes no more than there is, and has room for its type; with the flag it has
    more than its type. *)
Fixpoint tame_attribute (fuel : nat) (least : Z) (l : list Z) : bool :=
  match fuel with
  | O => true
  | S fuel =>
    match new_length l with
    | None | Some (_, []) => true
    | Some (n, _ :: l) => (least <=? n) && (n - 1 <=? Zlen l) && tame_attribute fuel least (drop (Z.to_nat (n - 1)) l)
    end
  end.

(** User ids and attributes are not empty. *)
Definition tame_packet (flags : Z) (p : packet) : bool :=
  if p_type p =? OPENPGP_PKT_USER_ID then negb (bool_decide (p_body p = []))
  else if p_type p =? OPENPGP_PKT_ATTRIBUTE then
    negb (bool_decide (p_body p = [])) &&
    tame_attribute (length (p_body p)) (if flag_set flags GCR_OPENPGP_PARSE_ATTRIBUTES then 2 else 1) (p_body p)
  else true.

(** * Records *)

(** The schemas of the records that are made, with their numbers of columns. *)
Definition schemas : list (list Z * Z) :=
  [(GCR_RECORD_SCHEMA_PUB, GCR_RECORD_PUB_MAX); (GCR_RECORD_SCHEMA_SUB, GCR_RECORD_PUB_MAX);
   (GCR_RECORD_SCHEMA_SEC, GCR_RECORD_SEC_MAX); (GCR_RECORD_SCHEMA_SSB, GCR_RECORD_SEC_MAX);
   (GCR_RECORD_SCHEMA_FPR, GCR_RECORD_FPR_MAX); (GCR_RECORD_SCHEMA_UID, GCR_RECORD_UID_MAX);
   (GCR_RECORD_SCHEMA_UAT, GCR_RECORD_UAT_MAX); (GCR_RECORD_SCHEMA_XA1, GCR_RECORD_XA1_MAX);
   (GCR_RECORD_SCHEMA_SIG, GCR_RECORD_SIG_MAX); (GCR_RECORD_SCHEMA_RVK, GCR_RECORD_RVK_MAX)].

(** A schema and its number of columns. *)
Definition schema_n (schema : list Z) (n : Z) : Prop := (schema, n) ∈ schemas.

(** The records that are made: the first column is the name of a schema, and there are as many
    columns as the schema has. *)
Definition good (r : GcrRecord) : Prop := exists s, columns r !! 0%nat = Some s /\ schema_n s (n_columns r).

Lemma schema_n_bounds schema n : schema_n schema n -> n <= MAX_COLUMNS /\ 0 < n.
Proof.
  intros H. assert (Forall (fun e => (e.2 <=? MAX_COLUMNS) && (0 <? e.2) = true) schemas) as F by (by repeat constructor).
  pose proof (proj1 (Forall_forall _ _) F _ H) as E. cbn [snd] in E. lia.
Qed.

Lemma schema_n_pub schema n : schema_n schema n -> schema = GCR_RECORD_SCHEMA_PUB \/ schema = GCR_RECORD_SCHEMA_SUB -> n = GCR_RECORD_PUB_MAX.
Proof.
  intros H Hs. assert (Forall (fun e => e.1 = GCR_RECORD_SCHEMA_PUB \/ e.1 = GCR_RECORD_SCHEMA_SUB -> e.2 = GCR_RECORD_PUB_MAX) schemas) as F.
  { repeat constructor; cbn [fst snd]; try done; by intros []. }
  exact (proj1 (Forall_forall _ _) F _ H Hs).
Qed.

(** A schema is one of the table: by computation. *)
Ltac schema := unfold schema_n, schemas; repeat first [apply list_elem_of_here|apply list_elem_of_further].

(** A call on a record that leaves its schema. *)
Definition keeps (r : GcrRecord) (m : res unit GcrRecord) : Prop :=
  exists r', m = Ok r' /\ n_columns r' = n_columns r /\ columns r' !! 0%nat = columns r !! 0%nat.

Lemma keeps_good r m : keeps r m -> good r -> exists r', m = Ok r' /\ good r'.
Proof. intros (r' & -> & Hn & H0) (s & Hs & Hp). exists r'. split; [done|]. exists s. by rewrite H0, Hn. Qed.

Lemma keeps_bind r m f : keeps r m -> (forall r', keeps r' (f r')) -> keeps r (m ≫= f).
Proof. intros (r1 & -> & Hn & H0) Hf. run. destruct (Hf r1) as (r2 & E & Hn2 & H02). exists r2. split; [done|]. by rewrite Hn2, H02. Qed.

Lemma keeps_same r : keeps r (Ok r).
Proof. by exists r. Qed.

Lemma take_column_keeps r column v : 0 < column -> column < n_columns r -> keeps r (record_take_column r column v).
Proof.
  intros H0 Hc. unfold record_take_column. rewrite c_assert_true by by apply Z.ltb_lt. run. eexists. split; [reflexivity|]. unfold n_columns. cbn [columns].
  rewrite length_insert. split; [done|]. apply list_lookup_insert_ne. lia.
Qed.

Lemma set_column_keeps r column v : 0 < column -> keeps r (set_column r column v).
Proof. intros H0. unfold set_column. destruct (Z.ltb_spec column (n_columns r)); [by apply take_column_keeps|apply keeps_same]. Qed.

Lemma set_uint_keeps r column v : 0 < column -> keeps r (_gcr_record_set_uint r column v).
Proof. intros H0. unfold _gcr_record_set_uint. destruct (Z.ltb_spec column (n_columns r)); [by apply take_column_keeps|apply keeps_same]. Qed.

Lemma set_ulong_keeps r column v : 0 < column -> keeps r (_gcr_record_set_ulong r column v).
Proof. intros H0. unfold _gcr_record_set_ulong. destruct (Z.ltb_spec column (n_columns r)); [by apply take_column_keeps|apply keeps_same]. Qed.

Lemma set_char_keeps r column v : 0 < column -> keeps r (_gcr_record_set_char r column v).
Proof.
  intros H0. unfold _gcr_record_set_char. destruct (Z.ltb_spec column (n_columns r)); [|apply keeps_same]. cbn [negb].
  destruct (v =? 0); [apply keeps_same|by apply take_column_keeps].
Qed.

Lemma set_string_keeps r column v : 0 < column -> keeps r (_gcr_record_set_string r column v).
Proof.
  intros H0. unfold _gcr_record_set_string. destruct (Z.ltb_spec column (n_columns r)); [|apply keeps_same]. cbn [negb].
  destruct (c_colons_escape_enc (delimiter r) v) as (e & -> & _). run. by apply take_column_keeps.
Qed.

Lemma take_raw_keeps r column v : 0 < column -> keeps r (take_raw r column v).
Proof. intros H0. destruct v; [by apply set_column_keeps|apply keeps_same]. Qed.

Create HintDb keeps.
#[export] Hint Resolve set_column_keeps set_uint_keeps set_ulong_keeps set_char_keeps set_string_keeps take_raw_keeps keeps_same : keeps.
#[export] Hint Extern 1 (0 < _) => (vm_compute; reflexivity) : keeps.
#[export] Hint Unfold _gcr_record_set_raw _gcr_record_take_raw : keeps.

Lemma set_base64_keeps `{GRecordsLaws} r column v : 0 < column -> keeps r (_gcr_record_set_base64 g_base64_encode chomp r column v).
Proof.
  intros H1. unfold _gcr_record_set_base64. destruct (Z.ltb_spec column (n_columns r)); [|apply keeps_same]. cbn [negb].
  rewrite c_assert_true; [run; by apply take_column_keeps|]. apply Z.ltb_lt. pose proof (base64_length v). lia_div.
Qed.

(** A record that has just been made. *)
Lemma new_good schema n : schema_n schema n -> exists r, _gcr_record_new schema n 58 = Ok r /\ good r.
Proof.
  intros Hs. destruct (schema_n_bounds _ _ Hs) as [Hn H0]. unfold _gcr_record_new. rewrite c_assert_true by by apply Z.leb_le. run.
  eexists. split; [reflexivity|]. exists schema. unfold n_columns. cbn [columns].
  rewrite length_insert, length_replicate, Z2Nat.id by lia. split; [apply list_lookup_insert_eq; rewrite length_replicate; lia|done].
Qed.

(** * A sequence of readers *)

Section Yields.
Context (end_ : Z).

(** From the pointer [p] the reader returns; if it does not fail the pointer is at [q] or
    beyond and not beyond the end, and the value is as [V] says; the records are good. *)
Definition yields {A} (p : Z) (rs : list GcrRecord) (q : Z) (V : A -> Prop) (m : reader A) : Prop :=
  exists r s, m (mk_state (Some p) rs) = Ok (r, s) /\ Forall good (records s) /\
    match r with Some a => V a /\ exists p', at_ s = Some p' /\ q <= p' <= end_ | None => True end.

Lemma yields_bind {A B} p rs q q' (V : A -> Prop) (W : B -> Prop) m f : yields p rs q V m ->
  (forall a p' rs', V a -> q <= p' <= end_ -> Forall good rs' -> yields p' rs' q' W (f a)) -> yields p rs q' W (m ≫= f).
Proof.
  intros (r & [at_' rs'] & E & Hg & Hr) Hf. unfold yields, mbind, reader_bind. rewrite E. destruct r as [a|]; [|by exists None, (mk_state at_' rs')].
  destruct Hr as (Ha & p' & Hp & Hq). cbn [at_] in Hp. subst at_'. apply (Hf a p' rs' Ha Hq Hg).
Qed.

Lemma yields_ret {A} p rs q (V : A -> Prop) a : V a -> q <= p <= end_ -> Forall good rs -> yields p rs q V (mret a).
Proof. intros Ha Hq Hg. do 2 eexists. split; [reflexivity|]. split; [done|]. split; [done|]. by exists p. Qed.

Lemma yields_no {A} p rs q (V : A -> Prop) : Forall good rs -> yields p rs q V no.
Proof. intros Hg. by do 2 eexists. Qed.

Lemma yields_lift {A} p rs q (V : A -> Prop) m : (exists a, m = Ok a /\ V a) -> q <= p <= end_ -> Forall good rs -> yields p rs q V (lift m).
Proof. intros (a & -> & Ha) Hq Hg. by apply yields_ret. Qed.

(** The pointer itself. *)
Lemma yields_pointer {A} p rs q (V : A -> Prop) f : yields p rs q V (f p) -> yields p rs q V (pointer ≫= f).
Proof. intros Hf. exact Hf. Qed.

Lemma yields_get_at {A} p rs q (V : A -> Prop) f : yields p rs q V (f (Some p)) -> yields p rs q V (get_at ≫= f).
Proof. intros Hf. exact Hf. Qed.

Lemma yields_get_records {A} p rs q (V : A -> Prop) f : yields p rs q V (f rs) -> yields p rs q V (get_records ≫= f).
Proof. intros Hf. exact Hf. Qed.

Lemma yields_put_records {A} p rs rs' q (V : A -> Prop) f : yields p rs' q V (f tt) -> yields p rs q V (put_records rs' ≫= f).
Proof. intros Hf. exact Hf. Qed.

Lemma yields_set_at p rs q r : q <= r <= end_ -> Forall good rs -> yields p rs q (fun _ => True) (set_at (Some r)).
Proof. intros Hq Hg. do 2 eexists. split; [reflexivity|]. split; [done|]. split; [done|]. by exists r. Qed.

Lemma yields_add p rs q r : good r -> q <= p <= end_ -> Forall good rs -> yields p rs q (fun _ => True) (g_ptr_array_add r).
Proof. intros Hr Hq Hg. do 2 eexists. split; [reflexivity|]. split; [apply Forall_app; by repeat constructor|]. split; [done|]. by exists p. Qed.

Lemma yields_weaken {A} p rs q q' (V W : A -> Prop) m : yields p rs q V m -> q' <= q -> (forall a, V a -> W a) -> yields p rs q' W m.
Proof. intros (r & s & E & Hg & Hr) Hq HV. exists r, s. split; [done|]. split; [done|]. destruct r; [|done]. destruct Hr as (Ha & p' & Hp & Hq'). split; [by apply HV|]. exists p'. split; [done|lia]. Qed.

End Yields.

(** A reader that keeps to an end that comes before. *)
Lemma yields_bind_end {A B} end1 end2 p rs q q' (V : A -> Prop) (W : B -> Prop) m f : yields end1 p rs q V m -> end1 <= end2 ->
  (forall a p' rs', V a -> q <= p' <= end1 -> Forall good rs' -> yields end2 p' rs' q' W (f a)) -> yields end2 p rs q' W (m ≫= f).
Proof.
  intros (r & [at_' rs'] & E & Hg & Hr) He Hf. unfold yields, mbind, reader_bind. rewrite E. destruct r as [a|]; [|by exists None, (mk_state at_' rs')].
  destruct Hr as (Ha & p' & Hp & Hq). cbn [at_] in Hp. subst at_'. apply (Hf a p' rs' Ha Hq Hg).
Qed.

Section Readers.
Context `{Gcrypt} `{GRecords} (data : list Z) (Hdata : bytes data).

Lemma reads_yields {A} (m : reader A) p end_ rs q (V : A -> Prop) r : 0 <= p <= end_ -> reads m p end_ r -> Forall good rs ->
  match r with Some (a, rest) => V a /\ q <= end_ - Zlen rest | None => True end -> yields end_ p rs q V m.
Proof.
  intros Hp Hm Hg Hr. destruct r as [[a rest]|].
  - do 2 eexists. split; [exact (Hm rs)|]. split; [done|]. split; [apply Hr|]. eexists. split; [reflexivity|]. lia.
  - destruct (Hm rs) as [at_' E]. do 2 eexists. split; [exact E|]. by split.
Qed.

Context (end_ : Z) (Hend : end_ <= Zlen data).

Lemma yields_byte p rs : 0 <= p <= end_ -> Forall good rs -> yields end_ p rs (p + 1) is_byte (read_byte data end_).
Proof.
  intros Hp Hg. pose proof (read_byte_ok data p end_ Hp Hend) as Hr. eapply reads_yields; [done|exact Hr|done|].
  pose proof (piece_length data p end_ Hp Hend) as Hz. pose proof (piece_bytes data Hdata p end_) as Hb.
  destruct (piece data p end_); [done|]. apply Forall_cons in Hb as [Hb _]. split; [done|]. cbn [length] in Hz. lia.
Qed.

Lemma yields_bytes p rs n : 0 <= p <= end_ -> 0 <= n -> Forall good rs -> yields end_ p rs (p + n) (fun b => bytes b /\ Zlen b = n) (read_bytes data end_ n).
Proof.
  intros Hp Hn Hg. pose proof (read_bytes_ok data p end_ n Hp Hend Hn) as Hr. eapply reads_yields; [done|exact Hr|done|]. cbv zeta.
  pose proof (piece_length data p end_ Hp Hend) as Hz. pose proof (piece_bytes data Hdata p end_) as Hb.
  destruct (Z.ltb_spec (Zlen (piece data p end_)) n); [done|]. split; [split; [by apply Forall_take|rewrite length_take; lia]|rewrite length_drop; lia].
Qed.

Lemma yields_uint32 p rs : 0 <= p <= end_ -> Forall good rs -> yields end_ p rs (p + 4) (fun v => 0 <= v < 2 ^ 32) (read_uint32 data end_).
Proof.
  intros Hp Hg. eapply yields_bind; [by apply yields_bytes|]. intros b p' rs' [Hb Hl] Hp' Hg'. apply yields_ret; [|done|done].
  pose proof (be_val_bound b Hb) as Hv. rewrite Hl in Hv. exact Hv.
Qed.

Lemma yields_uint16 p rs : 0 <= p <= end_ -> Forall good rs -> yields end_ p rs (p + 2) (fun v => 0 <= v < 2 ^ 16) (read_uint16 data end_).
Proof.
  intros Hp Hg. eapply yields_bind; [by apply yields_bytes|]. intros b p' rs' [Hb Hl] Hp' Hg'. apply yields_ret; [|done|done].
  pose proof (be_val_bound b Hb) as Hv. rewrite Hl in Hv. exact Hv.
Qed.

Lemma yields_mpi p rs : 0 <= p <= end_ -> Forall good rs ->
  yields end_ p rs (p + 3) (fun v => 0 <= v.1 < 2 ^ 16 /\ Zlen v.2 = (v.1 + 7) / 8) (read_mpi data end_).
Proof.
  intros Hp Hg. eapply yields_bind; [by apply yields_uint16|]. intros v p' rs' Hv Hp' Hg'. cbv beta in Hv. cbv zeta.
  destruct (Z.eqb_spec ((v + 7) / 8) 0); [by apply yields_no|]. eapply yields_bind; [apply yields_bytes; [lia|lia_div|done]|].
  intros b p2 rs2 [Hb Hl] Hp2 Hg2. apply yields_ret; [done| |done]. lia_div.
Qed.

Lemma yields_new_length p rs : 0 <= p <= end_ -> Forall good rs -> yields end_ p rs (p + 1) (fun v => 0 <= v < 2 ^ 32) (read_new_length data end_).
Proof.
  intros Hp Hg. eapply reads_yields; [done|by apply read_new_length_ok|done|]. pose proof (piece_length data p end_ Hp Hend) as Hz.
  destruct (new_length (piece data p end_)) as [[v rest]|] eqn:E; [|done]. destruct (new_length_facts _ _ _ (piece_bytes data Hdata p end_) E) as (Hv & Hl & _).
  split; [done|]. lia.
Qed.

End Readers.

(** * Each packet *)

(** Takes one reader of a sequence. *)
Ltac next_reader l := eapply yields_bind; [apply l; (done || lia)|intros ? ? ? ? ? ?; cbv beta in *].

Section Packets.
Context `{GcryptLaws} `{GRecordsLaws} (data : list Z) (Hdata : bytes data) (Htwenty : twenty).

Lemma ripemd_ok p q : 0 <= p < q -> q <= Zlen data -> exists d, hash_user_id_or_attribute data p q = Ok d.
Proof.
  intros Hp Hq. unfold hash_user_id_or_attribute. rewrite c_assert_true by (apply Z.ltb_lt; lia). run. rewrite bytes_at_piece by lia. run.
  unfold egg_hash. rewrite md_hash_buffer. pose proof (mac_length (hash_algo_to_gcry EGG_HASH_RIPEMD160) None (piece data p q)) as [_ Hl].
  cbn [hash_algo_to_gcry] in *. rewrite (proj2 Htwenty) in Hl. rewrite <- Hl. rewrite slice_all. run. by eexists.
Qed.

Lemma sha1_digest m text header : egg_hasher_new EGG_HASH_SHA1 = Some m ->
  egg_hasher_free_to_bytes (egg_hasher_hash (egg_hasher_hash m header) text) = Some (mac GCRY_MD_SHA1 None (header ++ text)).
Proof.
  intros Hm. destruct (md_open _ _ _ Hm) as (k & Em & Hk). rewrite (Hk eq_refl) in Em. unfold egg_hasher_free_to_bytes, egg_hasher_hash.
  rewrite md_get_algo, md_read, !md_write, Em. cbn [m_algo m_key m_text app hash_algo_to_gcry]. apply slice_whole. apply mac_length.
Qed.

Lemma keyid_ok p q : 0 <= p < q -> q <= Zlen data -> exists r, hash_v4_keyid data p q = Ok r.
Proof.
  intros Hp Hq. unfold hash_v4_keyid. rewrite c_assert_true by (apply Z.ltb_lt; lia). run. destruct (q - p <? 65535); [|by eexists]. cbn [negb].
  destruct (egg_hasher_new EGG_HASH_SHA1) as [m|] eqn:Hm; [|by eexists]. rewrite bytes_at_piece by lia. run. rewrite (sha1_digest m _ _ Hm). run.
  set (d := mac _ _ _). assert (Zlen d = 20) as Hd by (unfold d; rewrite (proj2 (mac_length _ _ _)); apply Htwenty).
  unfold slice. rewrite !Hd. run. by eexists.
Qed.

Context (end_ : Z) (Hend : end_ <= Zlen data).

Lemma yields_v3_keyid p rs : 0 <= p <= end_ -> Forall good rs -> yields end_ p rs (p + 1) (fun v => 0 <= v.1 < 2 ^ 16) (parse_v3_rsa_bits_and_keyid data end_).
Proof.
  intros Hp Hg. unfold parse_v3_rsa_bits_and_keyid. next_reader yields_mpi. destruct a as [bits n]. cbn [fst snd] in *.
  destruct (Z.ltb_spec ((bits + 7) / 8) 8); [by apply yields_no|]. eapply (yields_bind _ _ _ (p + 1) _ (fun _ => True)).
  - apply yields_lift; [|lia|done]. unfold slice. destruct (Z.leb_spec 0 ((bits + 7) / 8 - 8)), (Z.leb_spec ((bits + 7) / 8 - 8 + 8) (Zlen n)); try lia. run. by eexists.
  - intros b p2 rs2 _ Hp2 Hg2. apply yields_ret; [cbn; lia|lia|done].
Qed.

Lemma yields_v4_bits p rs algo : 0 <= p <= end_ -> Forall good rs -> yields end_ p rs (p + 1) (fun v => 0 <= v < 2 ^ 16) (parse_v4_algo_bits data end_ algo).
Proof.
  intros Hp Hg. unfold parse_v4_algo_bits. destruct (_ || _ || _); [|destruct (algo =? GCR_OPENPGP_ALGO_DSA); [|destruct (algo =? GCR_OPENPGP_ALGO_ELG_E); [|by apply yields_no]]].
  all: next_reader yields_mpi; destruct a as [bits n]; cbn [fst snd] in *; repeat (next_reader yields_mpi); apply yields_ret; [lia|lia|done].
Qed.

Lemma key_record_ok schema n keyid bits algo timestamp ndays : schema_n schema n ->
  exists r, (r ← _gcr_record_new schema n 58;
    r ← _gcr_record_set_uint r GCR_RECORD_KEY_BITS bits;
    r ← _gcr_record_set_uint r GCR_RECORD_KEY_ALGO algo;
    r ← take_raw r GCR_RECORD_KEY_KEYID keyid;
    r ← _gcr_record_set_ulong r GCR_RECORD_KEY_TIMESTAMP timestamp;
    r ← (if negb (bool_decide (schema = GCR_RECORD_SCHEMA_SEC)) && negb (bool_decide (schema = GCR_RECORD_SCHEMA_SSB))
         then _gcr_record_set_raw r GCR_RECORD_PUB_CAPS (default_caps_for_algo algo) else Ok r);
    if 0 <? ndays then _gcr_record_set_ulong r GCR_RECORD_KEY_EXPIRY (timestamp + ndays * 86400) else Ok r) = Ok r /\ good r.
Proof.
  intros Hs. destruct (new_good schema n Hs) as (r & -> & Hr). run. apply (keeps_good r); [|exact Hr].
  repeat (apply keeps_bind; [auto with keeps|intros ?]); repeat case_match; auto with keeps.
Qed.

Lemma fpr_record_ok fingerprint : exists r, (r ← _gcr_record_new GCR_RECORD_SCHEMA_FPR GCR_RECORD_FPR_MAX 58;
  _gcr_record_take_raw r GCR_RECORD_FPR_FINGERPRINT fingerprint) = Ok r /\ good r.
Proof.
  destruct (new_good GCR_RECORD_SCHEMA_FPR GCR_RECORD_FPR_MAX) as (r & -> & Hr); [schema|]. run. apply (keeps_good r); [|done]. auto with keeps.
Qed.

Lemma yields_public_key p rs schema n : 0 <= p <= end_ -> Forall good rs -> schema_n schema n ->
  yields end_ p rs p (fun _ => True) (parse_public_key_or_subkey data schema n end_).
Proof.
  intros Hp Hg Hs. unfold parse_public_key_or_subkey. apply yields_pointer. eapply yields_bind; [apply yields_byte; (done || lia)|]. intros version p1 rs1 _ Hp1 Hg1.
  destruct (_ || _); [by apply yields_no|]. eapply yields_bind; [apply yields_uint32; (done || lia)|]. intros timestamp p2 rs2 _ Hp2 Hg2.
  eapply (yields_bind _ _ _ (p + 5) _ (fun _ => True)).
  { destruct (version <? 4); [|apply yields_ret; [done|lia|done]]. eapply yields_weaken; [apply yields_uint16; (done || lia)|lia|done]. }
  intros ndays p3 rs3 _ Hp3 Hg3. eapply yields_bind; [apply yields_byte; (done || lia)|]. intros algo p4 rs4 _ Hp4 Hg4. eapply (yields_bind _ _ _ (p + 6) _ (fun _ => True)).
  { destruct (version <? 4).
    - eapply yields_bind; [apply yields_v3_keyid; (done || lia)|]. intros [bits keyid] p5 rs5 _ Hp5 Hg5. apply yields_ret; [done|lia|done].
    - eapply yields_bind; [apply yields_v4_bits; (done || lia)|]. intros bits p5 rs5 _ Hp5 Hg5. apply yields_pointer.
      eapply yields_bind; [apply (yields_lift _ _ _ (p + 6) (fun _ => True)); [|lia|done]|].
      { destruct (keyid_ok p p5 ltac:(lia) ltac:(lia)) as [r ->]. by exists r. }
      intros ids p6 rs6 _ Hp6 Hg6. by apply yields_ret. }
  intros [[bits keyid] fingerprint] p5 rs5 _ Hp5 Hg5. eapply yields_bind; [apply (yields_lift _ _ _ p good); [by apply key_record_ok|lia|done]|].
  intros r p6 rs6 Hr Hp6 Hg6. eapply yields_bind; [by apply yields_add|]. intros _ p7 rs7 _ Hp7 Hg7.
  destruct fingerprint as [fingerprint|]; [|by apply yields_ret]. destruct (_ || _); [|by apply yields_ret].
  eapply yields_bind; [apply (yields_lift _ _ _ p good); [apply fpr_record_ok|lia|done]|]. intros r2 p8 rs8 Hr2 Hp8 Hg8. by apply yields_add.
Qed.

Lemma yields_secret_key p rs schema : 0 <= p <= end_ -> Forall good rs -> schema_n schema GCR_RECORD_SEC_MAX ->
  yields end_ p rs p (fun _ => True) (parse_secret_key_or_subkey data schema end_).
Proof. intros Hp Hg Hs. eapply yields_bind; [by apply yields_public_key|]. intros _ p2 rs2 _ Hp2 Hg2. apply yields_set_at; [lia|done]. Qed.

Lemma yields_user_id p rs : 0 <= p < end_ -> Forall good rs -> yields end_ p rs p (fun _ => True) (parse_user_id data end_).
Proof.
  intros Hp Hg. unfold parse_user_id. apply yields_get_at. destruct (Z.ltb_spec end_ p); [lia|].
  eapply yields_bind; [apply (yields_lift _ _ _ p (fun _ => True)); [|lia|done]|]; [rewrite bytes_at_piece by lia; by eexists|].
  intros text p2 rs2 _ Hp2 Hg2. eapply yields_bind; [apply (yields_lift _ _ _ p (fun _ => True)); [|lia|done]|].
  { destruct (ripemd_ok p end_ ltac:(lia) Hend) as [d ->]. by exists d. }
  intros fingerprint p3 rs3 _ Hp3 Hg3. eapply yields_bind; [apply (yields_lift _ _ _ p good); [|lia|done]|].
  { destruct (new_good GCR_RECORD_SCHEMA_UID GCR_RECORD_UID_MAX) as (r & -> & Hr); [schema|]. run. apply (keeps_good r); [|done].
    apply keeps_bind; [auto with keeps|intros ?; auto with keeps]. }
  intros r p4 rs4 Hr Hp4 Hg4. eapply yields_bind; [by apply yields_add|]. intros _ p5 rs5 _ Hp5 Hg5. apply yields_set_at; [lia|done].
Qed.

(** ** Attributes *)

Lemma yields_attribute_packet p rs q ty : 0 <= p < q -> q <= Zlen data -> Forall good rs -> yields q p rs q (fun _ => True) (parse_user_attribute_packet data q ty).
Proof.
  intros Hp Hq Hg. unfold parse_user_attribute_packet. apply yields_pointer. eapply yields_bind; [apply (yields_lift _ _ _ p good); [|lia|done]|].
  { destruct (new_good GCR_RECORD_SCHEMA_XA1 GCR_RECORD_XA1_MAX) as (r & -> & Hr); [schema|]. run. apply (keeps_good r); [|done].
    apply keeps_bind; [auto with keeps|intros ?]. apply keeps_bind; [auto with keeps|intros ?]. destruct (ripemd_ok p q ltac:(lia) ltac:(lia)) as [d ->]. run.
    apply keeps_bind; [auto with keeps|intros ?]. rewrite bytes_at_piece by lia. run. by apply set_base64_keeps. }
  intros r p2 rs2 Hr Hp2 Hg2. eapply yields_bind; [by apply yields_add|]. intros _ p3 rs3 _ Hp3 Hg3. apply yields_set_at; [lia|done].
Qed.

Lemma yields_reads {A B} (m : reader A) (f : A -> reader B) p rs q (W : B -> Prop) r : reads m p end_ r -> Forall good rs ->
  match r with Some (a, rest) => yields end_ (end_ - Zlen rest) rs q W (f a) | None => True end -> yields end_ p rs q W (m ≫= f).
Proof.
  intros Hm Hg Hf. unfold yields, mbind, reader_bind. destruct r as [[a rest]|].
  - rewrite (Hm rs). exact Hf.
  - destruct (Hm rs) as [q' E]. rewrite E. by do 2 eexists.
Qed.

Lemma yields_attributes flags fuel : forall fuel2 p rs count, 0 <= p <= end_ -> Forall good rs -> end_ - p < Z.of_nat fuel -> end_ - p <= Z.of_nat fuel2 ->
  tame_attribute fuel2 (if flag_set flags GCR_OPENPGP_PARSE_ATTRIBUTES then 2 else 1) (piece data p end_) = true ->
  yields end_ p rs p (fun _ => True) (attribute_loop data fuel end_ flags count).
Proof.
  induction fuel as [|fuel IH]; intros fuel2 p rs count Hp Hg Hf Hf2 Ht; [lia|]. cbn [attribute_loop].
  apply yields_get_at. destruct (decide (p = end_)) as [->|Hne]; [rewrite bool_decide_true by done; by apply yields_ret|].
  rewrite bool_decide_false by congruence. destruct fuel2 as [|fuel2]; [lia|]. cbn [tame_attribute] in Ht. set (least := if flag_set _ _ then _ else _) in *.
  eapply yields_reads; [exact (read_new_length_ok data Hdata p end_ Hp Hend)|done|]. destruct (new_length (piece data p end_)) as [[n rest]|] eqn:En; [|done].
  destruct (new_length_facts _ _ _ (piece_bytes data Hdata p end_) En) as (Hn & Hlt & Hrest). pose proof (piece_length data p end_ Hp Hend) as Hz.
  remember (end_ - Zlen rest) as q eqn:Eq. assert (rest = piece data q end_) as Hr.
  { rewrite Hrest at 1. rewrite <- (Nat2Z.id (_ - _)), piece_from by lia. f_equal. lia. }
  clear Hrest. eapply yields_reads; [exact (read_byte_ok data q end_ ltac:(lia) Hend)|done|]. rewrite <- Hr. destruct rest as [|ty l]; [done|]. cbn [length] in *.
  rewrite !andb_true_iff, !Z.leb_le in Ht. destruct Ht as [[Hleast Hfit] Ht]. remember (end_ - Zlen l) as r eqn:Er. assert (l = piece data r end_) as Hl.
  { destruct (piece_cons data q end_ ty l ltac:(lia) (eq_sym Hr)) as (_ & _ & <-). f_equal. lia. }
  apply yields_pointer. assert (1 <= n) as Hn1 by (unfold least in Hleast; destruct (flag_set flags GCR_OPENPGP_PARSE_ATTRIBUTES); lia).
  remember (r + (n - 1)) as e eqn:Ee.
  assert (yields e r rs e (fun _ => True) (if flag_set flags GCR_OPENPGP_PARSE_ATTRIBUTES then parse_user_attribute_packet data e ty else set_at (Some e))) as Hy.
  { unfold least in Hleast. destruct (flag_set flags GCR_OPENPGP_PARSE_ATTRIBUTES); [apply yields_attribute_packet; first [assumption|lia]|apply yields_set_at; first [assumption|lia]]. }
  eapply (yields_bind_end e); [exact Hy|lia|]. intros _ p1 rs1 _ Hp1 Hg1. assert (p1 = e) as -> by lia.
  eapply yields_weaken; [apply (IH fuel2); [lia|done|lia|lia|]|lia|done].
  rewrite Hl, piece_from in Ht by lia. rewrite Ee. exact Ht.
Qed.

Lemma yields_user_attribute flags p rs : 0 <= p < end_ -> Forall good rs ->
  tame_attribute (length (piece data p end_)) (if flag_set flags GCR_OPENPGP_PARSE_ATTRIBUTES then 2 else 1) (piece data p end_) = true ->
  yields end_ p rs p (fun _ => True) (parse_user_attribute data end_ flags).
Proof.
  intros Hp Hg Ht. unfold parse_user_attribute. apply yields_pointer. pose proof (piece_length data p end_ ltac:(lia) Hend) as Hz. eapply yields_bind.
  { apply (yields_attributes flags _ (length (piece data p end_))); [lia|done|lia|lia|exact Ht]. }
  intros count p2 rs2 _ Hp2 Hg2. apply yields_pointer. eapply yields_bind; [apply (yields_lift _ _ _ p good); [|lia|done]|].
  { destruct (ripemd_ok p end_ ltac:(lia) Hend) as [d ->]. run.
    destruct (new_good GCR_RECORD_SCHEMA_UAT GCR_RECORD_UAT_MAX) as (r & -> & Hr); [schema|]. run. apply (keeps_good r); [|done].
    apply keeps_bind; [auto with keeps|intros ?; auto with keeps]. }
  intros r p3 rs3 Hr Hp3 Hg3. by apply yields_add.
Qed.

(** ** Signatures *)

Lemma yields_skip_mpis p rs algo : 0 <= p <= end_ -> Forall good rs -> yields end_ p rs p (fun _ => True) (skip_signature_mpis data end_ algo).
Proof.
  intros Hp Hg. unfold skip_signature_mpis. destruct (_ =? _); [|destruct (_ =? _); [|by apply yields_no]].
  - next_reader yields_mpi. apply yields_ret; [done|lia|done].
  - next_reader yields_mpi. next_reader yields_mpi. apply yields_ret; [done|lia|done].
Qed.

Lemma sig_record_ok : exists r, _gcr_record_new GCR_RECORD_SCHEMA_SIG GCR_RECORD_SIG_MAX 58 = Ok r /\ good r.
Proof. apply new_good. schema. Qed.

Lemma yields_v3_signature flags p rs : 0 <= p <= end_ -> Forall good rs -> yields end_ p rs p (fun _ => True) (parse_v3_signature data end_ flags).
Proof.
  intros Hp Hg. unfold parse_v3_signature. next_reader yields_byte. destruct (negb _); [by apply yields_no|]. next_reader yields_byte. next_reader yields_uint32.
  next_reader yields_bytes. next_reader yields_byte. next_reader yields_byte. next_reader yields_uint16. next_reader yields_skip_mpis.
  destruct (flag_set _ _); [|apply yields_ret; [done|lia|done]]. eapply yields_bind; [apply (yields_lift _ _ _ p good); [|lia|done]|].
  { destruct sig_record_ok as (r & -> & Hr). run. apply (keeps_good r); [|done]. repeat (apply keeps_bind; [auto with keeps|intros ?]). auto with keeps. }
  intros r p9 rs9 Hr Hp9 Hg9. by apply yields_add.
Qed.

(** The record of a signature and what is found for the key. *)
Definition good_pair (v : GcrRecord * SigSubpacket) : Prop :=
  good v.1 /\ match revocation v.2 with Some r => good r | None => True end.

Lemma yields_record {A} p rs q r m (f : GcrRecord -> reader A) (V : A -> Prop) : keeps r m -> good r -> (forall r', good r' -> yields end_ p rs q V (f r')) -> yields end_ p rs q V (lift m ≫= f).
Proof.
  intros Hm Hr Hf. destruct (keeps_good r m Hm Hr) as (r' & -> & Hr'). exact (Hf r' Hr').
Qed.

Lemma yields_subpacket p rs ty record subpkt : 0 <= p <= end_ -> Forall good rs -> good record -> match revocation subpkt with Some r => good r | None => True end ->
  yields end_ p rs p good_pair (parse_v4_signature_subpacket data end_ ty record subpkt).
Proof.
  intros Hp Hg Hr Hs. unfold parse_v4_signature_subpacket. destruct subpkt as [expiry exp prim flags rev]. cbn [revocation] in Hs. cbv zeta.
  set (sub := Z.land ty 0x3f). clearbody sub.
  destruct (sub =? OPENPGP_SIG_CREATION).
  { next_reader yields_uint32. eapply (yields_record _ _ _ record); [auto with keeps|done|]. intros r' Hr'. apply yields_ret; [by split|lia|done]. }
  destruct (sub =? OPENPGP_SIG_ISSUER).
  { next_reader yields_bytes. eapply (yields_record _ _ _ record); [auto with keeps|done|]. intros r' Hr'. apply yields_ret; [by split|lia|done]. }
  destruct (sub =? OPENPGP_SIG_KEY_EXPIRY); [next_reader yields_uint32; apply yields_ret; [by split|lia|done]|].
  destruct (sub =? OPENPGP_SIG_EXPIRY).
  { next_reader yields_uint32. eapply (yields_record _ _ _ record); [auto with keeps|done|]. intros r' Hr'. apply yields_ret; [by split|lia|done]. }
  destruct (sub =? OPENPGP_SIG_EXPORTABLE).
  { next_reader yields_byte. destruct (_ && _); [by apply yields_no|]. apply yields_ret; [by split|lia|done]. }
  destruct (sub =? OPENPGP_SIG_PRIMARY_USERID).
  { next_reader yields_byte. destruct (_ && _); [by apply yields_no|]. apply yields_ret; [by split|lia|done]. }
  destruct (sub =? OPENPGP_SIG_KEY_FLAGS).
  { next_reader yields_byte. eapply yields_bind; [apply (yields_set_at _ _ _ p); [lia|done]|]. intros _ p2 rs2 _ Hp2 Hg2. apply yields_ret; [by split|lia|done]. }
  destruct (sub =? OPENPGP_SIG_SIGNER_USERID).
  { apply yields_pointer. rewrite bytes_at_piece by lia. eapply yields_bind; [apply (yields_lift _ _ _ p (fun _ => True)); [by eexists|lia|done]|]. intros text p2 rs2 _ Hp2 Hg2.
    eapply (yields_record _ _ _ record); [auto with keeps|done|]. intros r' Hr'. apply yields_ret; [by split|lia|done]. }
  destruct (sub =? OPENPGP_SIG_REVOCATION_KEY).
  { eapply yields_bind; [apply (yields_lift _ _ _ p good); [apply new_good; schema|lia|done]|]. intros rvk p2 rs2 Hrvk Hp2 Hg2.
    eapply (yields_bind _ _ _ p _ good); [|intros r p3 rs3 Hr3 Hp3 Hg3; apply yields_ret; [by split|lia|done]].
    unfold parse_v4_signature_revocation. next_reader yields_byte. next_reader yields_byte. next_reader yields_bytes. apply yields_lift; [|lia|done].
    apply (keeps_good rvk); [|done]. repeat (apply keeps_bind; [auto with keeps|intros ?]). auto with keeps. }
  destruct (bool_decide _); [|destruct (negb _); [by apply yields_no|]].
  all: eapply yields_bind; [apply (yields_set_at _ _ _ p); [lia|done]|]; intros _ p2 rs2 _ Hp2 Hg2; apply yields_ret; [by split|lia|done].
Qed.

End Packets.

Section Signatures.
Context `{GcryptLaws} `{GRecordsLaws} (data : list Z) (Hdata : bytes data) (Htwenty : twenty).

Lemma yields_subpackets end_ fuel : end_ <= Zlen data -> forall p rs record subpkt, 0 <= p <= end_ -> end_ - p < Z.of_nat fuel -> Forall good rs ->
  good record -> match revocation subpkt with Some r => good r | None => True end ->
  yields end_ p rs p good_pair (parse_v4_signature_subpackets data fuel end_ record subpkt).
Proof.
  intros Hend. induction fuel as [|fuel IH]; intros p rs record subpkt Hp Hf Hg Hr Hs; [lia|]. cbn [parse_v4_signature_subpackets].
  apply yields_get_at. destruct (bool_decide _); [apply yields_ret; [by split|lia|done]|].
  eapply yields_bind; [apply yields_new_length; (done || lia)|]. intros n p1 rs1 Hn Hp1 Hg1. cbv beta in Hn.
  eapply yields_bind; [apply yields_byte; (done || lia)|]. intros ty p2 rs2 _ Hp2 Hg2. destruct (Z.eqb_spec n 0); [by apply yields_no|]. cbv zeta.
  apply yields_pointer. destruct (Z.ltb_spec end_ (p2 + (n - 1))); [by apply yields_no|].
  eapply (yields_bind_end (p2 + (n - 1))); [apply yields_subpacket; try done; lia|lia|]. intros [r sp] p3 rs3 [Hr3 Hs3] Hp3 Hg3. cbn [fst snd] in *.
  apply yields_get_at. destruct (negb _); [by apply yields_no|]. eapply yields_weaken; [apply IH; try done; lia|lia|done].
Qed.

(** ** What is filled in *)

Lemma update_good i f rs : (forall r, good r -> exists r', f r = Ok r' /\ good r') -> Forall good rs -> exists rs', update i f rs = Ok rs' /\ Forall good rs'.
Proof.
  intros Hf Hg. unfold update. destruct (rs !! i) as [r|] eqn:E; [|by exists rs]. destruct (Hf r) as (r' & -> & Hr').
  { rewrite Forall_lookup in Hg. by eapply Hg. }
  run. eexists. split; [reflexivity|]. by apply Forall_insert.
Qed.

Lemma fill_key_keeps subpkt key : keeps key (fill_key subpkt key).
Proof.
  unfold fill_key. apply keeps_bind.
  - repeat case_match; auto with keeps.
  - intros r. destruct (negb _); [|auto with keeps]. unfold pub_or_sub_set_key_caps. destruct (_ || _); [auto with keeps|]. by apply set_column_keeps.
Qed.

Lemma fill_uid_keeps record uid : keeps uid (fill_uid record uid).
Proof. unfold fill_uid. case_match; auto with keeps. Qed.

Lemma fill_good sig_type record subpkt rs : Forall good rs -> exists rs', fill_records sig_type record subpkt rs = Ok rs' /\ Forall good rs'.
Proof.
  intros Hg. unfold fill_records. destruct (key_or_sub_find_for_self_signature _ _ _) as [i|]; [|by exists rs].
  destruct (update_good i (fill_key subpkt) rs) as (rs1 & -> & Hg1); [intros r Hr; by apply (keeps_good r), Hr; apply fill_key_keeps|done|]. run.
  destruct (match rs1 !! i with Some key => _ | None => false end); [|by exists rs1]. destruct (uid_or_uat_find_for_self_signature _ _) as [j|]; [|by exists rs1].
  apply update_good; [|done]. intros r Hr. by apply (keeps_good r), Hr; apply fill_uid_keeps.
Qed.

Lemma yields_v4_signature end_ flags p rs : end_ <= Zlen data -> 0 <= p <= end_ -> Forall good rs -> yields end_ p rs p (fun _ => True) (parse_v4_signature data end_ flags).
Proof.
  intros Hend Hp Hg. unfold parse_v4_signature. eapply yields_bind; [apply yields_byte; (done || lia)|]. intros sig_type p1 rs1 _ Hp1 Hg1. next_reader yields_byte. next_reader yields_byte.
  eapply yields_bind; [apply yields_uint16; (done || lia)|]. intros hashed p4 rs4 Hh Hp4 Hg4. cbv beta in Hh.
  destruct sig_record_ok as (r & Er & Hr). eapply yields_bind; [apply (yields_lift _ _ _ p good); [by exists r|lia|done]|]. intros r5 p5 rs5 Hr5 Hp5 Hg5.
  apply yields_pointer. destruct (Z.ltb_spec end_ (p5 + hashed)); [by apply yields_no|].
  eapply (yields_bind_end (p5 + hashed)); [apply yields_subpackets; try done; lia|lia|]. intros [r6 sp6] p6 rs6 [Hr6 Hs6] Hp6 Hg6. cbn [fst snd] in *.
  eapply yields_bind; [apply yields_uint16; (done || lia)|]. intros unhashed p7 rs7 Hu Hp7 Hg7. cbv beta in Hu.
  apply yields_pointer. destruct (Z.ltb_spec end_ (p7 + unhashed)); [by apply yields_no|].
  eapply (yields_bind_end (p7 + unhashed)); [apply yields_subpackets; try done; lia|lia|]. intros [r8 sp8] p8 rs8 [Hr8 Hs8] Hp8 Hg8. cbn [fst snd] in *.
  eapply yields_bind; [apply yields_uint16; (done || lia)|]. intros left_bits p9 rs9 _ Hp9 Hg9. next_reader yields_skip_mpis.
  eapply (yields_bind _ _ _ p _ (fun _ => True)). { destruct (revocation sp8); [apply yields_add; (done || lia)|apply yields_ret; (done || lia)]. }
  intros _ p10 rs10 _ Hp10 Hg10. destruct (fill_good sig_type r8 sp8 rs10 Hg10) as (rs11 & E11 & Hg11).
  apply yields_get_records. rewrite E11. change (lift (Ok rs11)) with (mret (M := reader) rs11). eapply (yields_bind _ _ _ p _ (fun a => a = rs11)); [by apply yields_ret|].
  intros ? p11 rs12 -> Hp11 Hg12. apply yields_put_records. destruct (flag_set _ _); [|apply yields_ret; [done|lia|done]].
  eapply (yields_record _ _ _ _ r8); [apply keeps_bind; [auto with keeps|intros ?; auto with keeps]|done|]. intros r13 Hr13. apply yields_add; [done|lia|done].
Qed.

Lemma yields_signature end_ flags p rs : end_ <= Zlen data -> 0 <= p <= end_ -> Forall good rs -> yields end_ p rs p (fun _ => True) (parse_signature data end_ flags).
Proof.
  intros Hend Hp Hg. unfold parse_signature. eapply yields_bind; [apply yields_byte; (done || lia)|]. intros version p1 rs1 _ Hp1 Hg1.
  destruct (version =? 3); [|destruct (version =? 4); [|by apply yields_no]].
  - eapply yields_weaken; [apply yields_v3_signature; (done || lia)|lia|done].
  - eapply yields_weaken; [apply yields_v4_signature; (done || lia)|lia|done].
Qed.

(** ** A packet *)

Lemma packet_safe flags ty p end_ rs : 0 <= p <= end_ -> end_ <= Zlen data -> Forall good rs -> tame_packet flags (mk_packet ty (piece data p end_) []) = true ->
  exists r rs', parse_openpgp_packet data p end_ ty flags rs = Ok (r, rs') /\ Forall good rs'.
Proof.
  intros Hp Hend Hg Ht. unfold parse_openpgp_packet. destruct (packet_reader data ty end_ flags) as [m|] eqn:Em; [|by eexists _, rs].
  assert (yields end_ p rs p (fun _ => True) m) as (r & s & E & Hs & _).
  { unfold packet_reader in Em. unfold tame_packet in Ht. cbn [p_type p_body] in Ht. pose proof (piece_length data p end_ Hp Hend) as Hz.
    assert (forall b, negb (bool_decide (piece data p end_ = [])) = true -> b = true -> p < end_) as Hne.
    { intros b Hb _. apply negb_true_iff, bool_decide_eq_false in Hb. destruct (piece data p end_); [done|]. cbn [length] in Hz. lia. }
    destruct (ty =? OPENPGP_PKT_PUBLIC_KEY); [injection Em as <-; apply yields_public_key; try done; schema|].
    destruct (ty =? OPENPGP_PKT_PUBLIC_SUBKEY); [injection Em as <-; apply yields_public_key; try done; schema|].
    destruct (ty =? OPENPGP_PKT_USER_ID). { injection Em as <-. pose proof (Hne true Ht eq_refl). apply yields_user_id; (done || lia). }
    destruct (ty =? OPENPGP_PKT_ATTRIBUTE). { injection Em as <-. apply andb_true_iff in Ht as [Hb Ht]. pose proof (Hne true Hb eq_refl). apply yields_user_attribute; (done || lia). }
    destruct (ty =? OPENPGP_PKT_SIGNATURE); [injection Em as <-; by apply yields_signature|].
    destruct (ty =? OPENPGP_PKT_SECRET_KEY); [injection Em as <-; apply yields_secret_key; try done; schema|].
    destruct (ty =? OPENPGP_PKT_SECRET_SUBKEY); [injection Em as <-; apply yields_secret_key; try done; schema|done]. }
  rewrite E. run. destruct r; [|by do 2 eexists]. destruct (bool_decide _); by do 2 eexists.
Qed.

End Signatures.
