(* ===== verification/OpenPgpBlocks.v ===== *)
(** The loop over packets: its blocks are those of the division of the data in packets, and
    data that are made of packets are divided in these. *)

From S2P Require Import Prelude Text Record Hex Crypto OpenPgp OpenPgpSpec OpenPgpSafe.
Local Open Scope Z_scope.

(** * Records of a key *)

Section Normalize.
Context `{Gcrypt} `{GRecordsLaws}.

Lemma schema_is_eq r schema : good r -> schema_is r schema = true -> columns r !! 0%nat = Some schema.
Proof.
  intros (s & Hs & _). unfold schema_is, _gcr_record_get_schema, _gcr_record_get_raw. apply lookup_lt_Some in Hs as Hl.
  destruct (Z.leb_spec (n_columns r) 0); [unfold n_columns in *; lia|]. change (Z.to_nat 0) with 0%nat. rewrite Hs, Z.eqb_eq. by intros <-%quark_inj.
Qed.

Lemma gather_ok rs : forall string, Forall good rs -> exists s, gather_capabilities string rs = Ok s.
Proof.
  induction rs as [|r rs IH]; intros string Hg; [by exists string|]. apply Forall_cons in Hg as [Hr Hg]. cbn [gather_capabilities].
  destruct (_ || _) eqn:E; [|by apply IH]. assert (n_columns r = 12) as Hn.
  { destruct Hr as (s & Hs & Hp). apply (schema_n_pub s); [done|]. apply orb_true_iff in E as [E|E]; apply schema_is_eq in E; try (by exists s); [left|right]; congruence. }
  unfold _gcr_record_get_raw. rewrite Hn. change (12 <=? GCR_RECORD_PUB_CAPS) with false. cbn match.
  destruct (columns r !! Z.to_nat GCR_RECORD_PUB_CAPS) as [caps|] eqn:Ec; [run; by apply IH|]. apply lookup_ge_None in Ec. unfold n_columns in Hn.
  change (Z.to_nat GCR_RECORD_PUB_CAPS) with 11%nat in Ec. lia.
Qed.

Lemma set_trusts_ok force trust rs : Forall good rs -> exists rs', set_trusts force trust rs = Ok rs' /\ Forall good rs'.
Proof.
  induction rs as [|r rs IH]; intros Hg; [by exists []|]. apply Forall_cons in Hg as [Hr Hg]. cbn [set_trusts].
  assert (keeps r (set_trust force trust r)) as Hk.
  { unfold set_trust. destruct (negb force && _); [auto with keeps|]. destruct (_ && _); auto with keeps. }
  destruct (keeps_good r _ Hk Hr) as (r' & -> & Hr'). run. destruct (IH Hg) as (rs' & -> & Hg'). run. eexists. split; [reflexivity|]. by constructor.
Qed.

Lemma normalize_ok now rs : Forall good rs -> exists rs', normalize_key_records now rs = Ok rs' /\ Forall good rs'.
Proof.
  intros Hg. destruct rs as [|first rest]; [by exists []|]. cbn [normalize_key_records]. destruct (schema_is first GCR_RECORD_SCHEMA_PUB); [|by eexists].
  pose proof (gather_ok (first :: rest) (default [] (_gcr_record_get_raw first GCR_RECORD_PUB_CAPS)) Hg) as [s Es]. apply Forall_cons in Hg as [Hr Hg].
  set (trust := if check_key_expiry _ _ then 101 else 111). clearbody trust.
  assert (keeps first (r ← (if check_key_expiry now first then Ok first else normalize_capabilities first (first :: rest)); _gcr_record_set_char r GCR_RECORD_KEY_OWNERTRUST 111)) as Hk.
  { apply keeps_bind; [|intros ?; auto with keeps]. destruct (check_key_expiry _ _); [auto with keeps|]. unfold normalize_capabilities. rewrite Es. run. by apply set_column_keeps. }
  destruct (keeps_good first _ Hk Hr) as (first' & E & Hr').
  destruct (if check_key_expiry now first then Ok first else normalize_capabilities first (first :: rest)) as [f1| |]; run; cbn [mbind res_bind] in E; try done.
  rewrite E. run. apply set_trusts_ok. by constructor.
Qed.

Lemma normalize_closure now flags c : Forall good (c_records c) -> exists c', normalize now flags c = Ok c' /\ Forall good (c_records c') /\ emitted c' = emitted c /\ count c' = count c.
Proof.
  intros Hg. unfold normalize. destruct (flag_set _ _); [|by exists c]. destruct (normalize_ok now (c_records c) Hg) as (rs & -> & Hrs). run. by eexists.
Qed.

End Normalize.

(** * The loop *)

Definition remaining (by_key : bool) (current : option (list Z)) (ps : list packet) : list (list Z) :=
  if by_key then key_blocks current ps else match current with Some b => [b] | None => [] end ++ (p_whole <$> ps).

Section Loop.
Context `{GcryptLaws} `{GRecordsLaws} (data : list Z) (Hdata : bytes data) (Htwenty : twenty) (now flags : Z).

Lemma packets_step fuel l p rest : first_packet l = Some (p, rest) -> packets (S fuel) l = p :: packets fuel rest.
Proof. intros E. cbn [packets]. by rewrite E. Qed.

(** The closure counts what it has emitted. *)
Definition counts (c : closure) : Prop := count c = u32 (Zlen (emitted c)) /\ Forall good (c_records c) /\ Forall (fun b => Forall good (b_records b)) (emitted c).

Lemma emit_ok c b e : counts c -> 0 <= b < e -> e <= Zlen data -> exists c', maybe_emit_openpgp_block data c (Some b) e = Ok c' /\ counts c' /\
  b_outer <$> emitted c' = (b_outer <$> emitted c) ++ [piece data b e].
Proof.
  intros (Hc & Hg & He) Hb Hl. unfold maybe_emit_openpgp_block. destruct (Z.eqb_spec b e); [lia|]. rewrite c_assert_true by (apply Z.ltb_lt; lia). run.
  rewrite bytes_at_piece by lia. run. eexists. split; [reflexivity|]. split; [|cbn [emitted]; by rewrite fmap_app].
  split; cbn [count emitted c_records]; [|split; [constructor|]].
  - rewrite Hc, length_app, Nat2Z.inj_add. unfold u32. by rewrite Zplus_mod_idemp_l.
  - apply Forall_app. split; [done|]. constructor; [exact Hg|constructor].
Qed.

Definition listed (current : option (list Z)) : list (list Z) := match current with Some b => [b] | None => [] end.

Lemma remaining_cons by_key current pk ps : remaining by_key current (pk :: ps) =
  if negb by_key || is_key pk then listed current ++ remaining by_key (Some (p_whole pk)) ps
  else remaining by_key (option_map (fun b => b ++ p_whole pk) current) ps.
Proof. unfold remaining. destruct by_key; cbn [negb orb]; [|by destruct current]. cbn [key_blocks]. by destruct (is_key pk). Qed.

(** The block that is open at [p]. *)
Definition open (block : option Z) (p : Z) : option (list Z) := (fun b => piece data b p) <$> block.

Lemma piece_app p q r : 0 <= p <= q -> q <= r -> r <= Zlen data -> piece data p q ++ piece data q r = piece data p r.
Proof.
  intros Hp Hq Hr. rewrite <- (take_drop (Z.to_nat (q - p)) (piece data p r)). rewrite piece_take by lia. rewrite piece_from by lia.
  replace (p + (q - p)) with q by lia. done.
Qed.

Lemma loop_ok fuel : forall fuel2 c block p, counts c -> 0 <= p <= Zlen data -> Zlen data - p < Z.of_nat fuel -> Zlen data - p <= Z.of_nat fuel2 ->
  match block with Some b => 0 <= b < p | None => True end ->
  flag_set flags GCR_OPENPGP_PARSE_NO_RECORDS = true \/ Forall (fun pk => tame_packet flags pk = true) (packets fuel2 (piece data p (Zlen data))) ->
  exists c' block' at', packet_loop data fuel now flags (Zlen data) c block (Some p) = Ok (c', block', at') /\ counts c' /\
    match block' with Some b => exists q, at' = Some q /\ 0 <= b < q /\ q <= Zlen data | None => True end /\
    (b_outer <$> emitted c') ++ match block', at' with Some b, Some q => [piece data b q] | _, _ => [] end =
    (b_outer <$> emitted c) ++ remaining (flag_set flags GCR_OPENPGP_PARSE_KEYS) (open block p) (packets fuel2 (piece data p (Zlen data))).
Proof.
  set (end_ := Zlen data). induction fuel as [|fuel IH]; intros fuel2 c block p Hc Hp Hf Hf2 Hb Ht; [lia|]. cbn [packet_loop].
  destruct (Z.eqb_spec p end_) as [->|Hne].
  { exists c, block, (Some end_). split; [done|]. split; [done|]. assert (packets fuel2 (piece data end_ end_) = []) as ->.
    { unfold piece. rewrite Z.sub_diag. cbn [Z.to_nat take]. by destruct fuel2. }
    split; [destruct block; [|done]; exists end_; split; [done|lia]|]. f_equal. unfold remaining, open. destruct block, (flag_set flags GCR_OPENPGP_PARSE_KEYS); done. }
  destruct fuel2 as [|fuel2]; [lia|]. pose proof (first_packet_ok data Hdata p end_ [] ltac:(lia) ltac:(lia)) as Hfp.
  destruct (first_packet (piece data p end_)) as [[pk rest]|] eqn:Efp.
  - destruct Hfp as (q & r & Hq & Hr & Hpk & -> & E). rewrite E. run. cbn [at_ or_ub]. run. rewrite (packets_step _ _ _ _ Efp) in Ht |- *. rewrite remaining_cons.
    change ((p_type pk =? OPENPGP_PKT_PUBLIC_KEY) || (p_type pk =? OPENPGP_PKT_SECRET_KEY)) with (is_key pk).
    set (ps := packets fuel2 (piece data r end_)) in *. set (by_key := flag_set flags GCR_OPENPGP_PARSE_KEYS) in *.
    assert (exists c1, (if is_key pk then normalize now flags c else Ok c) = Ok c1 /\ counts c1 /\ emitted c1 = emitted c) as (c1 & -> & Hc1 & Ee1).
    { destruct (is_key pk); [|by exists c]. destruct Hc as (K1 & K2 & K3). destruct (normalize_closure now flags c K2) as (c1 & -> & Hg1 & Em & Ec).
      exists c1. split; [done|]. split; [|done]. unfold counts. by rewrite Em, Ec. }
    run. set (starts := negb by_key || is_key pk). set (block2 := if starts then Some p else block).
    assert (exists c2, (if starts then c ← maybe_emit_openpgp_block data c1 block p; Ok (c, Some p) else Ok (c1, block)) = @Ok unit _ (c2, block2) /\ counts c2 /\
      b_outer <$> emitted c2 = (b_outer <$> emitted c) ++ if starts then listed (open block p) else []) as (c2 & -> & Hc2 & Ee2).
    { unfold block2. destruct starts; [|exists c1; split; [done|]; split; [done|]; by rewrite Ee1, app_nil_r]. destruct block as [b|]; [|exists c1; split; [done|]; split; [done|]; by rewrite Ee1, app_nil_r].
      destruct (emit_ok c1 b p Hc1 Hb ltac:(lia)) as (c2 & -> & Hc2 & Ee2). run. exists c2. split; [done|]. split; [done|]. by rewrite Ee2, Ee1. }
    run.
    assert (exists c3, (if negb (flag_set flags GCR_OPENPGP_PARSE_NO_RECORDS) then
        '(_, rs) ← parse_openpgp_packet data q (q + (r - q)) (p_type pk) flags (c_records c2); Ok (mk_closure (count c2) (emitted c2) rs) else Ok c2) = @Ok unit _ c3 /\
      counts c3 /\ emitted c3 = emitted c2) as (c3 & -> & Hc3 & Ee3).
    { destruct (flag_set flags GCR_OPENPGP_PARSE_NO_RECORDS) eqn:Enr; [by exists c2|]. cbn [negb]. destruct Hc2 as (K1 & K2 & K3).
      destruct Ht as [|Ht]; [done|]. apply Forall_cons in Ht as [Htp _]. rewrite Hpk in Htp. replace (q + (r - q)) with r by lia.
      destruct (packet_safe data Hdata Htwenty flags (p_type pk) q r (c_records c2)) as (e & rs & -> & Hrs); [lia|lia|done|exact Htp|]. run.
      eexists. split; [reflexivity|]. by split. }
    run. replace (q + (r - q)) with r by lia.
    destruct (IH fuel2 c3 block2 r Hc3) as (c' & block' & at' & E' & Hc' & Hb' & Heq); [lia|lia|lia| |destruct Ht as [|Ht]; [by left|right; by apply Forall_cons in Ht as [_ Ht]]|].
    { unfold block2. destruct starts; [lia|]. destruct block; [lia|done]. }
    exists c', block', at'. split; [exact E'|]. split; [done|]. split; [done|]. rewrite Heq. fold ps by_key. rewrite Ee3, Ee2. fold starts.
    assert (open block2 r = if starts then Some (p_whole pk) else option_map (fun b => b ++ p_whole pk) (open block p)) as ->.
    { rewrite Hpk. cbn [p_whole]. unfold block2. destruct starts; [done|]. destruct block as [b|]; [|done]. cbn. by rewrite piece_app by lia. }
    destruct starts; by rewrite <- ?(assoc_L (++)).
  - destruct Hfp as (e & at' & He & E). rewrite E. run. cbn [packets]. rewrite Efp.
    assert (exists c1, match block with Some b => if negb (b =? p) then maybe_emit_openpgp_block data c block p else Ok c | None => Ok c end = Ok c1 /\ counts c1 /\
      b_outer <$> emitted c1 = (b_outer <$> emitted c) ++ listed (open block p)) as (c1 & Ec1 & Hc1 & Ee1).
    { destruct block as [b|]; [|exists c; split; [done|]; split; [done|]; by rewrite app_nil_r]. destruct (Z.eqb_spec b p); [lia|]. apply emit_ok; [done|lia|lia]. }
    destruct e; [done| |]; rewrite Ec1; run; exists c1, None, at'; (split; [done|]); (split; [done|]); (split; [done|]); rewrite app_nil_r, Ee1; f_equal;
      unfold remaining, listed; destruct (flag_set flags GCR_OPENPGP_PARSE_KEYS), (open block p); done.
Qed.

End Loop.

(** * Data made of packets *)

(** The ways to write a header: the new format, its length as short as it can be, and the old
    format with a length of one, two or four bytes. *)
Inductive format := New | Old (k : Z).

Definition new_header (ty n : Z) : list Z :=
  192 + ty :: (if n <? 192 then [n] else if n <? 8384 then [192 + (n - 192) / 256; (n - 192) mod 256] else 255 :: be_bytes 4 n).
Definition old_header (ty k n : Z) : list Z := 128 + 4 * ty + k :: be_bytes (Z.to_nat (2 ^ k)) n.

Definition framed (f : format) (ty : Z) (body : list Z) : packet :=
  mk_packet ty body ((match f with New => new_header ty (Zlen body) | Old k => old_header ty k (Zlen body) end) ++ body).

(** What a format can write. *)
Definition fits (x : format * Z * list Z) : bool :=
  let '(f, ty, body) := x in
  match f with
  | New => (0 <=? ty) && (ty <? 64) && (Zlen body <? 2 ^ 32)
  | Old k => (0 <=? ty) && (ty <? 16) && (0 <=? k) && (k <? 3) && (Zlen body <? 256 ^ (2 ^ k))
  end.

Lemma header_new ty n rest : 0 <= ty < 64 -> 0 <= n < 2 ^ 32 -> header (new_header ty n ++ rest) = Some (ty, n, rest).
Proof.
  intros Ht Hn. unfold new_header. cbn [app header]. destruct (Z.ltb_spec (192 + ty) 128); [lia|]. destruct (Z.leb_spec 192 (192 + ty)); [|lia].
  replace (192 + ty - 192) with ty by lia. assert (forall l, new_length l = Some (n, rest) -> ('(n, l) ← new_length l; Some (ty, n, l)) = Some (ty, n, rest)) as Hf by by intros l ->.
  apply Hf. clear Hf. destruct (Z.ltb_spec n 192); [cbn [app new_length]; by destruct (Z.ltb_spec n 192); [|lia]|]. destruct (Z.ltb_spec n 8384).
  - cbn [app new_length]. assert (0 <= (n - 192) / 256 < 32) as Hq by lia_div. destruct (Z.ltb_spec (192 + (n - 192) / 256) 192); [lia|].
    destruct (Z.leb_spec (192 + (n - 192) / 256) 223); [|lia]. do 2 f_equal. pose proof (Z.div_mod (n - 192) 256 ltac:(lia)). lia.
  - pose proof (be_val_bytes 4 n) as Hv. pose proof (be_bytes_length 4 n) as Hl. rewrite Z.mod_small in Hv by (change (256 ^ Z.of_nat 4) with (2 ^ 32); lia).
    destruct (be_bytes 4 n) as [|a [|b [|c [|d []]]]]; try done. cbn [app new_length]. cbn [Z.ltb Z.leb Z.eqb Z.compare Pos.compare Pos.compare_cont Pos.eqb]. by rewrite Hv.
Qed.

Lemma header_old ty k n rest : 0 <= ty < 16 -> 0 <= k < 3 -> 0 <= n < 256 ^ (2 ^ k) -> header (old_header ty k n ++ rest) = Some (ty, n, rest).
Proof.
  intros Ht Hk Hn. unfold old_header. cbn [app header]. destruct (Z.ltb_spec (128 + 4 * ty + k) 128); [lia|]. destruct (Z.leb_spec 192 (128 + 4 * ty + k)); [lia|].
  assert ((128 + 4 * ty + k) mod 4 = k) as -> by lia_div. assert ((128 + 4 * ty + k - 128) / 4 = ty) as -> by lia_div.
  unfold old_length. destruct (Z.eqb_spec k 3); [lia|]. pose proof (be_bytes_length (Z.to_nat (2 ^ k)) n) as Hl. set (m := Z.to_nat (2 ^ k)) in *.
  destruct (Nat.ltb_spec (length (be_bytes m n ++ rest)) m) as [Hlt|]; [rewrite length_app in Hlt; lia|]. cbn [mbind option_bind].
  rewrite take_app_length', drop_app_length' by done. rewrite be_val_bytes. unfold m. rewrite Z2Nat.id by (apply Z.pow_nonneg; lia). by rewrite Z.mod_small.
Qed.

Lemma first_framed f ty body rest : fits (f, ty, body) = true -> first_packet (p_whole (framed f ty body) ++ rest) = Some (framed f ty body, rest).
Proof.
  intros Hf. unfold first_packet, framed. cbn [p_whole]. set (head := match f with New => _ | Old k => _ end). rewrite <- (assoc_L (++)).
  assert (header (head ++ body ++ rest) = Some (ty, Zlen body, body ++ rest)) as ->.
  { unfold head, fits in *. destruct f as [|k]; rewrite !andb_true_iff, !Z.leb_le, !Z.ltb_lt in Hf; [apply header_new; lia|apply header_old; lia]. }
  destruct (Z.ltb_spec (Zlen (body ++ rest)) (Zlen body)) as [Hlt|]; [rewrite length_app in Hlt; lia|]. rewrite Nat2Z.id, take_app_length, drop_app_length. do 3 f_equal.
  rewrite (assoc_L (++)). apply take_app_length'. rewrite !length_app. lia.
Qed.

Lemma packets_framed xs : forall fuel, Forall (fun x => fits x = true) xs -> (length xs <= fuel)%nat ->
  packets fuel (concat ((fun x => p_whole (framed x.1.1 x.1.2 x.2)) <$> xs)) = (fun x => framed x.1.1 x.1.2 x.2) <$> xs.
Proof.
  induction xs as [|[[f ty] body] xs IH]; intros fuel Hx Hf; [by destruct fuel|]. destruct fuel as [|fuel]; [cbn in Hf; lia|].
  apply Forall_cons in Hx as [Hx Hxs]. cbn [fmap list_fmap concat packets fst snd]. rewrite first_framed by done. f_equal. apply IH; [done|]. cbn in Hf. lia.
Qed.

Lemma framed_bytes f ty body : fits (f, ty, body) = true -> bytes body -> bytes (p_whole (framed f ty body)) /\ (0 < length (p_whole (framed f ty body)))%nat.
Proof.
  intros Hf Hb. unfold framed. cbn [p_whole]. split; [|destruct f; cbn; lia]. apply Forall_app. split; [|done].
  unfold fits in Hf. destruct f as [|k]; rewrite !andb_true_iff, !Z.leb_le, !Z.ltb_lt in Hf.
  - unfold new_header. constructor; [unfold is_byte; lia|]. destruct (Z.ltb_spec (Zlen body) 192); [repeat constructor; lia|]. destruct (Z.ltb_spec (Zlen body) 8384).
    + repeat constructor; unfold is_byte; lia_div.
    + constructor; [unfold is_byte; lia|apply be_bytes_bytes].
  - unfold old_header. constructor; [unfold is_byte; lia|apply be_bytes_bytes].
Qed.

(** * Properties *)

Section Properties.
Context `{GcryptLaws} `{GRecordsLaws}.

Lemma parse_blocks data now flags : bytes data -> twenty ->
  flag_set flags GCR_OPENPGP_PARSE_NO_RECORDS = true \/ Forall (fun pk => tame_packet flags pk = true) (packets (length data) data) ->
  exists bs, _gcr_openpgp_parse data now flags = Ok (u32 (Zlen bs), bs) /\
    b_outer <$> bs = blocks_of (flag_set flags GCR_OPENPGP_PARSE_KEYS) (packets (length data) data) /\ Forall (fun b => Forall good (b_records b)) bs.
Proof.
  intros Hdata Htwenty Ht. assert (piece data 0 (Zlen data) = data) as Hall by (unfold piece; change (drop (Z.to_nat 0) data) with data; rewrite take_ge by lia; done).
  destruct (loop_ok data Hdata Htwenty now flags (S (length data)) (length data) (mk_closure 0 [] []) None 0) as (c & block & at' & E & Hc & Hb & Heq); try done; try lia.
  { by rewrite Hall. }
  rewrite Hall in Heq. unfold _gcr_openpgp_parse. rewrite E. run. destruct Hc as (K1 & K2 & K3). destruct (normalize_closure now flags c K2) as (c1 & -> & Hg1 & Em & Ec). run.
  assert (counts c1) as Hc1 by (unfold counts; by rewrite Em, Ec).
  assert (forall by_key ps, remaining by_key (open data None 0) ps = blocks_of by_key ps) as Hrem by by intros [].
  rewrite Hrem in Heq. cbn [emitted fmap list_fmap app] in Heq. rewrite <- Heq, <- Em. destruct block as [b|].
  - destruct Hb as (q & -> & Hq & Hl). run. destruct (emit_ok data c1 b q Hc1 Hq Hl) as (c2 & -> & (G1 & G2 & G3) & Ee). run. exists (emitted c2). by rewrite G1, Ee.
  - run. destruct Hc1 as (G1 & G2 & G3). exists (emitted c1). by rewrite G1, app_nil_r.
Qed.

(** C16: OpenPGP data of any kind are divided as RFC 4880 says: the calls of the callback are
    in order for the packets of the data, one for each or one for each key with the packets
    that follow it, up to the first packet that is cut off or has no header, and each gets
    just the bytes of its packets.  The parse ends, makes only records of the known schemas,
    each with the columns of its schema, and reads nothing outside the data, but for empty user ids and attributes that are not
    [tame_packet]. *)
Theorem openpgp_parse_blocks data now flags : bytes data -> twenty ->
  flag_set flags GCR_OPENPGP_PARSE_NO_RECORDS = true \/ Forall (fun pk => tame_packet flags pk = true) (packets (length data) data) ->
  exists bs, _gcr_openpgp_parse data now flags = Ok (u32 (Zlen bs), bs) /\
    b_outer <$> bs = blocks_of (flag_set flags GCR_OPENPGP_PARSE_KEYS) (packets (length data) data) /\ Forall (fun b => Forall good (b_records b)) bs.
Proof. apply parse_blocks. Qed.

Lemma concat_bytes (ls : list (list Z)) : Forall (fun l => bytes l /\ (0 < length l)%nat) ls -> bytes (concat ls) /\ (length ls <= length (concat ls))%nat.
Proof.
  induction 1 as [|l ls [Hb Hl] _ [IHb IHl]]; [done|]. cbn [concat length]. split; [by apply Forall_app|]. rewrite length_app. lia.
Qed.

(** Packets that are written, in the new format or the old one with any of its lengths,
    are found again: the blocks of their concatenation are the packets, or the keys with the
    packets that follow them, byte for byte. *)
Theorem openpgp_reads_packets xs now flags : twenty -> Forall (fun x => fits x = true /\ bytes x.2 /\
    (flag_set flags GCR_OPENPGP_PARSE_NO_RECORDS = true \/ tame_packet flags (framed x.1.1 x.1.2 x.2) = true)) xs ->
  exists bs, _gcr_openpgp_parse (concat ((fun x => p_whole (framed x.1.1 x.1.2 x.2)) <$> xs)) now flags = Ok (u32 (Zlen bs), bs) /\
    b_outer <$> bs = blocks_of (flag_set flags GCR_OPENPGP_PARSE_KEYS) ((fun x => framed x.1.1 x.1.2 x.2) <$> xs).
Proof.
  intros Htwenty Hx. set (wholes := (fun x => p_whole (framed x.1.1 x.1.2 x.2)) <$> xs).
  assert (Forall (fun l => bytes l /\ (0 < length l)%nat) wholes) as Hw.
  { apply Forall_fmap. eapply Forall_impl; [exact Hx|]. intros [[f ty] body] (Hf & Hb & _). by apply framed_bytes. }
  destruct (concat_bytes wholes Hw) as [Hb Hl]. unfold wholes at 1 in Hl. rewrite length_fmap in Hl.
  assert (Forall (fun x => fits x = true) xs) as Hfits by (eapply Forall_impl; [exact Hx|]; by intros ? [? _]).
  assert (packets (length (concat wholes)) (concat wholes) = (fun x => framed x.1.1 x.1.2 x.2) <$> xs) as Hp by (by apply packets_framed).
  destruct (parse_blocks (concat wholes) now flags Hb Htwenty) as (bs & E & Eb & _).
  - rewrite Hp. destruct (flag_set flags GCR_OPENPGP_PARSE_NO_RECORDS); [by left|right]. apply Forall_fmap. eapply Forall_impl; [exact Hx|]. by intros x (_ & _ & [|]).
  - exists bs. by rewrite <- Hp.
Qed.

End Properties.
