(* ===== verification/OpenPgpKeys.v ===== *)
(** What the records say: keys of every algorithm and user ids, column by column. *)

From S2P Require Import Prelude Text Record Hex Crypto OpenPgp OpenPgpSpec OpenPgpSafe.
Local Open Scope Z_scope.

(** * Keys as bytes *)

(** A big number: its bits and its bytes. *)
Definition mpi_bytes (m : Z * list Z) : list Z := be_bytes 2 m.1 ++ m.2.
Definition mpi_ok (m : Z * list Z) : Prop := 0 < m.1 < 2 ^ 16 /\ Zlen m.2 = (m.1 + 7) / 8 /\ bytes m.2.

(** How many numbers a public key has; RFC 4880, 5.5.2. *)
Definition key_numbers (algo : Z) : option nat :=
  if (algo =? 1) || (algo =? 2) || (algo =? 3) then Some 2%nat else if algo =? 17 then Some 4%nat else if algo =? 16 then Some 3%nat else None.

Record public_key := mk_key { k_time : Z; k_algo : Z; k_numbers : list (Z * list Z) }.

Definition key_bytes (k : public_key) : list Z := 4 :: be_bytes 4 (k_time k) ++ k_algo k :: concat (mpi_bytes <$> k_numbers k).
Definition key_bits (k : public_key) : Z := default 0 (fst <$> head (k_numbers k)).

Definition key_ok (k : public_key) : Prop :=
  0 <= k_time k < 2 ^ 32 /\ key_numbers (k_algo k) = Some (length (k_numbers k)) /\ Forall mpi_ok (k_numbers k) /\ Zlen (key_bytes k) < 65535.

(** * Reading them *)

Section Read.
Context `{Gcrypt} `{GRecords} (data : list Z) (Hdata : bytes data) (end_ : Z) (Hend : end_ <= Zlen data).

Lemma piece_suffix p pre rest : 0 <= p <= end_ -> piece data p end_ = pre ++ rest -> piece data (end_ - Zlen rest) end_ = rest /\ 0 <= end_ - Zlen rest <= end_ /\ p <= end_ - Zlen rest.
Proof.
  intros Hp E. pose proof (piece_length data p end_ Hp Hend) as Hz. rewrite E, length_app in Hz.
  assert (piece data (p + Zlen pre) end_ = rest) as <-; [|split; [f_equal; rewrite piece_length; lia|split; rewrite piece_length; lia]].
  rewrite <- (piece_from data p end_ (Zlen pre)), E, Nat2Z.id by lia. by rewrite drop_app_length.
Qed.

Lemma bind_known {A B} (m : reader A) (f : A -> reader B) s a s' : m s = Ok (Some a, s') -> (m ≫= f) s = f a s'.
Proof. intros E. unfold mbind, reader_bind. by rewrite E. Qed.

Lemma bind_pointer {A} (f : Z -> reader A) p rs : (pointer ≫= f) (mk_state (Some p) rs) = f p (mk_state (Some p) rs).
Proof. reflexivity. Qed.

Lemma bind_mret {A B} (f : A -> reader B) a s : (mret (M := reader) a ≫= f) s = f a s.
Proof. reflexivity. Qed.

Lemma bind_add {A} (f : unit -> reader A) r p rs : (g_ptr_array_add r ≫= f) (mk_state p rs) = f tt (mk_state p (rs ++ [r])).
Proof. reflexivity. Qed.

Lemma read_byte_at p c l rs : 0 <= p <= end_ -> piece data p end_ = c :: l -> read_byte data end_ (mk_state (Some p) rs) = Ok (Some c, mk_state (Some (end_ - Zlen l)) rs).
Proof. intros Hp E. pose proof (read_byte_ok data p end_ Hp Hend rs) as Hr. rewrite E in Hr. exact Hr. Qed.

Lemma read_uint32_at p v l rs : 0 <= p <= end_ -> 0 <= v < 2 ^ 32 -> piece data p end_ = be_bytes 4 v ++ l ->
  read_uint32 data end_ (mk_state (Some p) rs) = Ok (Some v, mk_state (Some (end_ - Zlen l)) rs).
Proof.
  intros Hp Hv E. pose proof (read_uint_ok data (read_uint32 data end_) 4 p end_ eq_refl Hp Hend ltac:(lia) rs) as Hr. cbv zeta in Hr. rewrite E in Hr.
  pose proof (be_bytes_length 4 v) as Hl. destruct (Z.ltb_spec (Zlen (be_bytes 4 v ++ l)) 4) as [Hlt|]; [rewrite length_app in Hlt; lia|].
  rewrite take_app_length', drop_app_length', be_val_bytes in Hr by done. change (256 ^ Z.of_nat 4) with (2 ^ 32) in Hr. by rewrite Z.mod_small in Hr.
Qed.

Lemma read_mpi_reads p m l : 0 <= p <= end_ -> mpi_ok m -> piece data p end_ = mpi_bytes m ++ l -> reads (read_mpi data end_) p end_ (Some (m, l)).
Proof.
  destruct m as [bits v]. intros Hp (Hb & Hl & _) E. unfold mpi_bytes in E. cbn [fst snd] in *. rewrite <- (assoc_L (++)) in E.
  assert (reads (read_uint16 data end_) p end_ (Some (bits, v ++ l))) as H16.
  { pose proof (read_uint_ok data (read_uint16 data end_) 2 p end_ eq_refl Hp Hend ltac:(lia)) as Hr. cbv zeta in Hr. rewrite E in Hr.
    pose proof (be_bytes_length 2 bits) as Hl2. destruct (Z.ltb_spec (Zlen (be_bytes 2 bits ++ v ++ l)) 2) as [Hlt|]; [rewrite length_app in Hlt; lia|].
    rewrite take_app_length', drop_app_length', be_val_bytes in Hr by done. change (256 ^ Z.of_nat 2) with (2 ^ 16) in Hr. by rewrite Z.mod_small in Hr by lia. }
  eapply reads_bind; [exact H16|]. destruct (piece_suffix p (be_bytes 2 bits) (v ++ l) Hp E) as (Es & Hp2 & _). set (q := end_ - _) in *. cbv zeta.
  destruct (Z.eqb_spec ((bits + 7) / 8) 0); [lia_div|]. eapply reads_bind; [apply read_bytes_ok; [exact Hp2|exact Hend|lia_div]|]. cbv zeta. rewrite Es.
  destruct (Z.ltb_spec (Zlen (v ++ l)) ((bits + 7) / 8)) as [Hlt|]; [rewrite length_app in Hlt; lia|].
  rewrite take_app_length', drop_app_length' by lia. destruct (piece_suffix q v l Hp2 Es) as (El & Hp3 & _). rewrite <- El at 2. apply reads_ret; [exact Hp3|exact Hend].
Qed.

(** The numbers of a key: the bits are those of the first. *)
Lemma algo_bits_reads p algo ms l : 0 <= p <= end_ -> key_numbers algo = Some (length ms) -> Forall mpi_ok ms -> piece data p end_ = concat (mpi_bytes <$> ms) ++ l ->
  reads (parse_v4_algo_bits data end_ algo) p end_ (Some (default 0 (fst <$> head ms), l)).
Proof.
  intros Hp Hn Hm E.
  assert (forall m ms p, 0 <= p <= end_ -> Forall mpi_ok (m :: ms) -> piece data p end_ = concat (mpi_bytes <$> m :: ms) ++ l ->
    exists l2, reads (read_mpi data end_) p end_ (Some (m, l2)) /\ 0 <= end_ - Zlen l2 <= end_ /\ piece data (end_ - Zlen l2) end_ = concat (mpi_bytes <$> ms) ++ l /\ Forall mpi_ok ms) as Hstep.
  { clear p Hp ms Hn Hm E. intros m ms p Hp Hm E. apply Forall_cons in Hm as [Hm Hms]. cbn [fmap list_fmap concat] in E. rewrite <- (assoc_L (++)) in E.
    exists (concat (mpi_bytes <$> ms) ++ l). destruct (piece_suffix p _ _ Hp E) as (Es & Hq & _). split; [by apply read_mpi_reads|]. split; [lia|]. by split. }
  assert (forall p v, 0 <= p <= end_ -> piece data p end_ = concat (mpi_bytes <$> []) ++ l -> reads (mret v : reader Z) p end_ (Some (v, l))) as Hret.
  { intros p' v Hp' E'. cbn in E'. rewrite <- E'. by apply reads_ret. }
  unfold key_numbers in Hn. unfold parse_v4_algo_bits.
  change GCR_OPENPGP_ALGO_RSA with 1. change GCR_OPENPGP_ALGO_RSA_E with 2. change GCR_OPENPGP_ALGO_RSA_S with 3. change GCR_OPENPGP_ALGO_DSA with 17. change GCR_OPENPGP_ALGO_ELG_E with 16.
  destruct (_ || _ || _); [|destruct (algo =? 17); [|destruct (algo =? 16); [|done]]]; injection Hn as Hn;
    (destruct ms as [|m1 ms]; [done|]); (destruct (Hstep _ _ _ Hp Hm E) as (l1 & R1 & Hp1 & E1 & Hm1)); (eapply reads_bind; [exact R1|]); destruct m1 as [bits v]; cbn [head fmap option_fmap option_map fst default];
    (destruct ms as [|m2 ms]; [done|]); (destruct (Hstep _ _ _ Hp1 Hm1 E1) as (l2 & R2 & Hp2 & E2 & Hm2)); (eapply reads_bind; [exact R2|]).
  - destruct ms; [|done]. by apply Hret.
  - destruct ms as [|m3 ms]; [done|]. destruct (Hstep _ _ _ Hp2 Hm2 E2) as (l3 & R3 & Hp3 & E3 & Hm3). eapply reads_bind; [exact R3|].
    destruct ms as [|m4 ms]; [done|]. destruct (Hstep _ _ _ Hp3 Hm3 E3) as (l4 & R4 & Hp4 & E4 & Hm4). eapply reads_bind; [exact R4|]. destruct ms; [|done]. by apply Hret.
  - destruct ms as [|m3 ms]; [done|]. destruct (Hstep _ _ _ Hp2 Hm2 E2) as (l3 & R3 & Hp3 & E3 & Hm3). eapply reads_bind; [exact R3|]. destruct ms; [|done]. by apply Hret.
Qed.

End Read.

(** * The records *)

Definition hex_upper (l : list Z) : list Z := egg_hex_encode_full l true None 0.

Lemma hex_pair_nonzero b : is_byte b -> 0 ∉ hex_pair HEXC_UPPER b.
Proof.
  intros Hb. unfold hex_pair. destruct (byte_nibbles_range b) as [H1 H2].
  assert (forall d, 0 <= d < 16 -> default 0 (rd HEXC_UPPER d) <> 0) as Hd.
  { intros d Hd. pose proof (range_check (fun d => negb (default 0 (rd HEXC_UPPER d) =? 0)) 0 16 ltac:(vm_compute; reflexivity) d Hd) as E. cbv beta in E. by apply negb_true_iff, Z.eqb_neq in E. }
  rewrite !elem_of_cons, elem_of_nil. intros [E|[E|[]]]; symmetry in E; by apply Hd in E.
Qed.

Lemma hex_upper_nonzero l : bytes l -> c_str (hex_upper l) = hex_upper l.
Proof.
  intros Hl. apply c_str_id. unfold hex_upper, egg_hex_encode_full. cbn match.
  assert (forall g n, 0 ∉ hex_encode_loop HEXC_UPPER None g n l) as Hn; [|apply Hn].
  induction Hl as [|b l Hb Hl IH]; intros g n; [by intros ?%elem_of_nil|].
  cbn [hex_encode_loop app]. rewrite elem_of_app. intros [Hin|Hin]; [by apply hex_pair_nonzero in Hin|by apply IH in Hin].
Qed.

Section Records.
Context `{GcryptLaws} `{GRecords} (data : list Z) (Hdata : bytes data) (Htwenty : twenty) (Hsha1 : is_Some (egg_hasher_new EGG_HASH_SHA1)).

(** RFC 4880, 12.2. *)
Definition fingerprint (k : public_key) : list Z :=
  mac GCRY_MD_SHA1 None ([0x99; Z.land (Z.shiftr (Zlen (key_bytes k)) 8) 0xff; Z.land (Zlen (key_bytes k)) 0xff] ++ key_bytes k).

Definition is_primary (schema : list Z) : bool := bool_decide (schema = GCR_RECORD_SCHEMA_PUB) || bool_decide (schema = GCR_RECORD_SCHEMA_SEC).
Definition is_secret (schema : list Z) : bool := bool_decide (schema = GCR_RECORD_SCHEMA_SEC) || bool_decide (schema = GCR_RECORD_SCHEMA_SSB).

(** The record of a key, and that of its fingerprint. *)
Definition key_record (schema : list Z) (k : public_key) : GcrRecord :=
  mk_record ([schema; []; print_u (key_bits k); print_u (k_algo k); hex_upper (drop 12 (fingerprint k)); print_lu (k_time k); []; []; []; []; []] ++
    (if is_secret schema then replicate 4 [] else [default_caps_for_algo (k_algo k)])) 58.
Definition fpr_record (k : public_key) : GcrRecord :=
  mk_record ([GCR_RECORD_SCHEMA_FPR; []; []; []; []; []; []; []; []] ++ [hex_upper (fingerprint k)]) 58.

Lemma fingerprint_facts k : Zlen (fingerprint k) = 20 /\ bytes (fingerprint k).
Proof. split; [unfold fingerprint; rewrite (proj2 (mac_length _ _ _)); apply Htwenty|apply mac_bytes]. Qed.

Definition schema_columns (schema : list Z) : Z := if is_secret schema then GCR_RECORD_SEC_MAX else GCR_RECORD_PUB_MAX.
Definition key_schemas : list (list Z) := [GCR_RECORD_SCHEMA_PUB; GCR_RECORD_SCHEMA_SUB; GCR_RECORD_SCHEMA_SEC; GCR_RECORD_SCHEMA_SSB].

Lemma print_u_text v : 0 <= v < 10 ^ 9 -> c_str (print_u v) = print_u v.
Proof. intros Hv. apply c_str_id. unfold print_u. apply print_no_nul; [cbn; lia|lia|by intros ?%elem_of_nil]. Qed.

Lemma print_lu_text v : 0 <= v < 10 ^ 19 -> c_str (print_lu v) = print_lu v.
Proof. intros Hv. apply c_str_id. unfold print_lu. apply print_no_nul; [cbn; lia|lia|by intros ?%elem_of_nil]. Qed.

Lemma caps_text algo : c_str (default_caps_for_algo algo) = default_caps_for_algo algo.
Proof. unfold default_caps_for_algo. repeat case_match; reflexivity. Qed.

Lemma key_record_built schema bits algo keyid timestamp : schema ∈ key_schemas ->
  (r ← _gcr_record_new schema (schema_columns schema) 58;
   r ← _gcr_record_set_uint r GCR_RECORD_KEY_BITS bits;
   r ← _gcr_record_set_uint r GCR_RECORD_KEY_ALGO algo;
   r ← take_raw r GCR_RECORD_KEY_KEYID (Some keyid);
   r ← _gcr_record_set_ulong r GCR_RECORD_KEY_TIMESTAMP timestamp;
   r ← (if negb (bool_decide (schema = GCR_RECORD_SCHEMA_SEC)) && negb (bool_decide (schema = GCR_RECORD_SCHEMA_SSB))
        then _gcr_record_set_raw r GCR_RECORD_PUB_CAPS (default_caps_for_algo algo) else Ok r);
   if 0 <? 0 then _gcr_record_set_ulong r GCR_RECORD_KEY_EXPIRY (timestamp + 0 * 86400) else Ok r) =
  Ok (mk_record ([schema; []; c_str (print_u bits); c_str (print_u algo); c_str keyid; c_str (print_lu timestamp); []; []; []; []; []] ++
    (if is_secret schema then replicate 4 [] else [c_str (default_caps_for_algo algo)])) 58).
Proof.
  unfold _gcr_record_set_uint, _gcr_record_set_ulong, take_raw, _gcr_record_set_raw, _gcr_record_take_raw, set_column.
  generalize (print_u bits) (print_u algo) (print_lu timestamp) (default_caps_for_algo algo). intros b a t caps.
  unfold key_schemas. rewrite !elem_of_cons, elem_of_nil. intros [->|[->|[->|[->|[]]]]]; vm_compute; reflexivity.
Qed.

Lemma fpr_built t : (r ← _gcr_record_new GCR_RECORD_SCHEMA_FPR GCR_RECORD_FPR_MAX 58; _gcr_record_take_raw r GCR_RECORD_FPR_FINGERPRINT t) =
  Ok (mk_record ([GCR_RECORD_SCHEMA_FPR; []; []; []; []; []; []; []; []] ++ [c_str t]) 58).
Proof. unfold _gcr_record_take_raw, set_column. vm_compute. reflexivity. Qed.

Lemma small_algo algo n : key_numbers algo = Some n -> 0 <= algo < 256.
Proof. unfold key_numbers. destruct (Z.eqb_spec algo 1), (Z.eqb_spec algo 2), (Z.eqb_spec algo 3), (Z.eqb_spec algo 17), (Z.eqb_spec algo 16); intros; subst; try lia. done. Qed.

Lemma keyid_eq k p q : 0 <= p -> q <= Zlen data -> Zlen (key_bytes k) < 65535 -> piece data p q = key_bytes k ->
  hash_v4_keyid data p q = Ok (Some (hex_upper (drop 12 (fingerprint k)), hex_upper (fingerprint k))).
Proof.
  intros Hp Hq Hl E. assert (p < q) as Hpq.
  { destruct (Z.lt_ge_cases p q); [done|]. unfold piece in E. by replace (Z.to_nat (q - p)) with 0%nat in E by lia. }
  pose proof (piece_length data p q ltac:(lia) Hq) as Hz. rewrite E in Hz. unfold hash_v4_keyid. rewrite c_assert_true by by apply Z.ltb_lt. run.
  destruct (Z.ltb_spec (q - p) 65535); [|lia]. cbn [negb]. destruct Hsha1 as [m Em]. rewrite Em, bytes_at_piece by lia. run.
  rewrite (sha1_digest m _ _ Em). run. rewrite E, <- Hz. fold (fingerprint k). destruct (fingerprint_facts k) as [Hfl Hfb].
  unfold slice. rewrite !Hfl. change ((0 <=? 12) && (0 <=? 8) && (12 + 8 <=? 20)) with true. change ((0 <=? 0) && (0 <=? 20) && (0 + 20 <=? 20)) with true. run.
  change (Z.to_nat 12) with 12%nat. rewrite (take_ge (drop 12 (fingerprint k))) by (rewrite length_drop; lia). change (drop (Z.to_nat 0) (fingerprint k)) with (fingerprint k).
  by rewrite take_ge by lia.
Qed.

Lemma read_key_ok schema k p end_ extra rs : schema ∈ key_schemas -> key_ok k -> 0 <= p <= end_ -> end_ <= Zlen data ->
  piece data p end_ = key_bytes k ++ extra ->
  parse_public_key_or_subkey data schema (schema_columns schema) end_ (mk_state (Some p) rs) =
  Ok (Some tt, mk_state (Some (end_ - Zlen extra)) (rs ++ key_record schema k :: if is_primary schema then [fpr_record k] else [])).
Proof.
  intros Hs (Ht & Hn & Hm & Hl) Hp Hend E. unfold parse_public_key_or_subkey. unfold key_bytes in E. cbn [app] in E.
  set (l1 := (be_bytes 4 (k_time k) ++ k_algo k :: concat (mpi_bytes <$> k_numbers k)) ++ extra) in E.
  destruct (piece_suffix data end_ Hend p [4] l1 Hp E) as (E1 & Hp1 & _). set (p1 := end_ - Zlen l1) in *.
  assert (l1 = be_bytes 4 (k_time k) ++ (k_algo k :: concat (mpi_bytes <$> k_numbers k)) ++ extra) as El1 by (unfold l1; by rewrite <- (assoc_L (++))). rewrite El1 in E1.
  destruct (piece_suffix data end_ Hend p1 _ _ Hp1 E1) as (E2 & Hp2 & _). set (p2 := end_ - Zlen (_ ++ extra)) in *. cbn [app] in E2.
  destruct (piece_suffix data end_ Hend p2 [k_algo k] _ Hp2 E2) as (E3 & Hp3 & _). set (p3 := end_ - Zlen (concat _ ++ extra)) in *.
  rewrite bind_pointer. rewrite (bind_known _ _ _ _ _ (read_byte_at data end_ Hend p 4 l1 rs Hp E)). fold p1.
  change ((4 <? 2) || (4 <? 4)) with false. cbn match.
  rewrite (bind_known _ _ _ _ _ (read_uint32_at data end_ Hend p1 _ _ rs Hp1 Ht E1)). fold p2. change (4 <? 4) with false. cbn match.
  rewrite bind_mret. rewrite (bind_known _ _ _ _ _ (read_byte_at data end_ Hend p2 _ _ rs Hp2 E2)). fold p3.
  pose proof (algo_bits_reads data end_ Hend p3 _ _ _ Hp3 Hn Hm E3 rs) as Eb. cbn match in Eb. set (p4 := end_ - Zlen extra) in *. fold (key_bits k) in Eb.
  assert (piece data p p4 = key_bytes k) as Ek.
  { assert (piece data p end_ = key_bytes k ++ extra) as E' by exact E. pose proof (piece_length data p end_ Hp Hend) as Hz. rewrite E', length_app in Hz.
    assert (p4 = p + Zlen (key_bytes k)) as -> by (unfold p4; lia). rewrite <- (piece_take data p end_) by lia. rewrite E', Nat2Z.id. apply take_app_length. }
  assert (0 <= p <= p4 /\ p4 <= end_) as Hp4.
  { pose proof (piece_length data p end_ Hp Hend) as Hz. unfold p4. assert (Zlen extra <= end_ - p); [|lia]. rewrite <- Hz, E. unfold l1. cbn [length]. rewrite length_app. lia. }
  set (ids := lift (hash_v4_keyid data p p4)) in *.
  rewrite (bind_known _ _ _ (key_bits k, Some (hex_upper (drop 12 (fingerprint k))), Some (hex_upper (fingerprint k))) (mk_state (Some p4) rs)).
  2: { rewrite (bind_known _ _ _ _ _ Eb). rewrite bind_pointer.
       rewrite (bind_known _ _ _ (Some (hex_upper (drop 12 (fingerprint k)), hex_upper (fingerprint k))) (mk_state (Some p4) rs)); [done|].
       unfold lift. by rewrite (keyid_eq k p p4 ltac:(lia) ltac:(lia) Hl Ek). }
  cbn match. rewrite (bind_known _ _ _ (key_record schema k) (mk_state (Some p4) rs)).
  2: { unfold lift. rewrite key_record_built by done. destruct (fingerprint_facts k) as [Hfl Hfb]. pose proof (small_algo _ _ Hn) as Ha.
       unfold key_record. rewrite !print_u_text, print_lu_text, caps_text, hex_upper_nonzero; [done|by apply Forall_drop|lia|lia|].
       destruct (k_numbers k) as [|[b v] ms] eqn:Ems; [unfold key_bits; rewrite Ems; cbn; lia|]. apply Forall_cons in Hm as [[Hb _] _]. unfold key_bits. rewrite Ems. cbn in *. lia. }
  rewrite bind_add. unfold is_primary. destruct (_ || _); [|done].
  rewrite (bind_known _ _ _ (fpr_record k) (mk_state (Some p4) (rs ++ [key_record schema k]))).
  2: { unfold lift. rewrite fpr_built, hex_upper_nonzero; [done|]. apply fingerprint_facts. }
  unfold g_ptr_array_add. cbn [at_ records]. by rewrite <- (assoc_L (++)).
Qed.

End Records.

(** * Packets *)

Section Packets.
Context `{GcryptLaws} `{GRecords}.

Definition key_packet (ty : Z) : option (list Z) :=
  if ty =? OPENPGP_PKT_PUBLIC_KEY then Some GCR_RECORD_SCHEMA_PUB else if ty =? OPENPGP_PKT_PUBLIC_SUBKEY then Some GCR_RECORD_SCHEMA_SUB
  else if ty =? OPENPGP_PKT_SECRET_KEY then Some GCR_RECORD_SCHEMA_SEC else if ty =? OPENPGP_PKT_SECRET_SUBKEY then Some GCR_RECORD_SCHEMA_SSB else None.

Definition key_records (schema : list Z) (k : public_key) : list GcrRecord := key_record schema k :: if is_primary schema then [fpr_record k] else [].

Lemma piece_middle (pre body post : list Z) : piece (pre ++ body ++ post) (Zlen pre) (Zlen pre + Zlen body) = body.
Proof. unfold piece. rewrite Nat2Z.id, drop_app_length. replace (Z.to_nat (Zlen pre + Zlen body - Zlen pre)) with (length body) by lia. apply take_app_length. Qed.

Lemma key_schema_in ty schema : key_packet ty = Some schema -> schema ∈ key_schemas.
Proof. unfold key_packet, key_schemas. rewrite !elem_of_cons. repeat case_match; intros [= <-]; auto. Qed.

Lemma packet_read data p end_ ty flags rs (read : reader unit) rs' : packet_reader data ty end_ flags = Some read ->
  read (mk_state (Some p) rs) = Ok (Some tt, mk_state (Some end_) rs') -> parse_openpgp_packet data p end_ ty flags rs = Ok (GCR_SUCCESS, rs').
Proof. intros Hr E. unfold parse_openpgp_packet. rewrite Hr, E. run. cbn [at_ records]. by rewrite bool_decide_true. Qed.

Lemma secret_read data schema end_ p q rs rs' : parse_public_key_or_subkey data schema GCR_RECORD_SEC_MAX end_ (mk_state (Some p) rs) = Ok (Some tt, mk_state (Some q) rs') ->
  parse_secret_key_or_subkey data schema end_ (mk_state (Some p) rs) = Ok (Some tt, mk_state (Some end_) rs').
Proof. intros E. unfold parse_secret_key_or_subkey. by rewrite (bind_known _ _ _ _ _ E). Qed.

Lemma key_packet_ok pre body post ty schema k extra flags rs : twenty -> is_Some (egg_hasher_new EGG_HASH_SHA1) ->
  key_packet ty = Some schema -> key_ok k -> body = key_bytes k ++ extra -> is_secret schema = true \/ extra = [] ->
  parse_openpgp_packet (pre ++ body ++ post) (Zlen pre) (Zlen pre + Zlen body) ty flags rs = Ok (GCR_SUCCESS, rs ++ key_records schema k).
Proof.
  intros Htwenty Hsha1 Hty Hk Hb Hx. set (end_ := Zlen pre + Zlen body). assert (end_ <= Zlen (pre ++ body ++ post)) as Hend by (rewrite !length_app; lia).
  pose proof (read_key_ok (pre ++ body ++ post) Htwenty Hsha1 schema k (Zlen pre) end_ extra rs (key_schema_in _ _ Hty) Hk ltac:(lia) Hend) as Hr.
  unfold end_ in Hr. rewrite piece_middle in Hr. specialize (Hr Hb). fold end_ in Hr. fold (key_records schema k) in Hr. clearbody end_.
  assert (is_secret schema = false -> end_ - Zlen extra = end_) as Hz by (destruct Hx as [->| ->]; [done|intros _; cbn; lia]).
  unfold key_packet in Hty. destruct (Z.eqb_spec ty OPENPGP_PKT_PUBLIC_KEY) as [->|?]; [|destruct (Z.eqb_spec ty OPENPGP_PKT_PUBLIC_SUBKEY) as [->|?];
    [|destruct (Z.eqb_spec ty OPENPGP_PKT_SECRET_KEY) as [->|?]; [|destruct (Z.eqb_spec ty OPENPGP_PKT_SECRET_SUBKEY) as [->|?]; [|done]]]]; injection Hty as <-.
  1, 2: rewrite Hz in Hr by reflexivity; eapply packet_read; [reflexivity|exact Hr].
  all: eapply packet_read; [reflexivity|eapply secret_read; exact Hr].
Qed.

(** The record of a user id. *)
Definition uid_record (text : list Z) : GcrRecord :=
  mk_record [GCR_RECORD_SCHEMA_UID; []; []; []; []; []; []; hex_upper (mac GCRY_MD_RMD160 None text); []; enc 58 text] 58.

Lemma uid_built t s : c_str s = s -> (r ← _gcr_record_new GCR_RECORD_SCHEMA_UID GCR_RECORD_UID_MAX 58;
  r ← _gcr_record_take_raw r GCR_RECORD_UID_FINGERPRINT t; _gcr_record_set_string r GCR_RECORD_UID_USERID s) =
  Ok (mk_record [GCR_RECORD_SCHEMA_UID; []; []; []; []; []; []; c_str t; []; c_str (enc 58 s)] 58).
Proof.
  intros Hs. change (r ← _gcr_record_new GCR_RECORD_SCHEMA_UID GCR_RECORD_UID_MAX 58; r ← _gcr_record_take_raw r GCR_RECORD_UID_FINGERPRINT t; _gcr_record_set_string r GCR_RECORD_UID_USERID s)
    with (e ← c_colons_escape s 58; record_take_column (mk_record [GCR_RECORD_SCHEMA_UID; []; []; []; []; []; []; c_str t; []; []] 58) GCR_RECORD_UID_USERID (match e with Some e => c_str e | None => s end)).
  destruct (c_colons_escape_enc 58 s) as (e & -> & He). run. rewrite <- He. destruct e as [e|]; [|reflexivity].
  change (@Ok unit _ (mk_record [GCR_RECORD_SCHEMA_UID; []; []; []; []; []; []; c_str t; []; c_str (c_str e)] 58) = Ok (mk_record [GCR_RECORD_SCHEMA_UID; []; []; []; []; []; []; c_str t; []; c_str e] 58)).
  by rewrite (c_str_id (c_str e)) by apply c_str_no_nul.
Qed.

Lemma uid_packet_ok pre text post flags rs : bytes text -> twenty -> text <> [] -> 0 ∉ text ->
  parse_openpgp_packet (pre ++ text ++ post) (Zlen pre) (Zlen pre + Zlen text) OPENPGP_PKT_USER_ID flags rs = Ok (GCR_SUCCESS, rs ++ [uid_record text]).
Proof.
  intros Hb Htwenty Hne H0'. eapply packet_read; [reflexivity|]. set (end_ := Zlen pre + Zlen text).
  assert (end_ <= Zlen (pre ++ text ++ post)) as Hend by (rewrite !length_app; lia). assert (Zlen pre < end_) as Hlt by (unfold end_; destruct text; [done|]; cbn; lia).
  assert (bytes_at (pre ++ text ++ post) (Zlen pre) end_ = Ok text) as Ht by (rewrite bytes_at_piece by lia; unfold end_; by rewrite piece_middle).
  assert (hash_user_id_or_attribute (pre ++ text ++ post) (Zlen pre) end_ = Ok (hex_upper (mac GCRY_MD_RMD160 None text))) as Hh.
  { unfold hash_user_id_or_attribute. rewrite c_assert_true by by apply Z.ltb_lt. rewrite Ht. run. unfold egg_hash. cbn [hash_algo_to_gcry].
    rewrite md_hash_buffer, slice_whole; [done|]. rewrite (proj2 (mac_length _ _ _)). apply Htwenty. }
  unfold parse_user_id. set (s0 := mk_state _ _).
  rewrite (bind_known _ _ _ (Some (Zlen pre)) s0) by done. cbn match. destruct (Z.ltb_spec end_ (Zlen pre)); [lia|].
  rewrite (bind_known _ _ _ text s0) by (unfold lift; by rewrite Ht). rewrite (bind_known _ _ _ _ s0) by (unfold lift; by rewrite Hh).
  rewrite (c_str_id text) by done. rewrite (bind_known _ _ _ (uid_record text) s0).
  2: { unfold lift. rewrite uid_built by by apply c_str_id. unfold uid_record. rewrite hex_upper_nonzero by apply mac_bytes.
       rewrite c_str_enc; [done|]. eapply Forall_impl; [apply enc_safe; [by left|done|done]|]. by intros ? [? _]. }
  done.
Qed.

End Packets.
