(* ===== verification/OpenPgpRecords.v ===== *)
(** A keyring: keys and user ids, in packets of any format, and the records that the parse
    makes of them, block by block. *)

From S2P Require Import Prelude Text Record Hex Crypto OpenPgp OpenPgpSpec OpenPgpSafe OpenPgpBlocks OpenPgpKeys.
Local Open Scope Z_scope.

(** * Keyrings *)

(** A key in a packet of the given type, with what follows the public part in that of a
    secret key; a user id; a packet of a type that is passed over. *)
Inductive item := KeyItem (ty : Z) (k : public_key) (secret : list Z) | UserIdItem (text : list Z) | OtherItem (ty : Z) (body : list Z).

Definition item_type (it : item) : Z := match it with KeyItem ty _ _ | OtherItem ty _ => ty | UserIdItem _ => OPENPGP_PKT_USER_ID end.
Definition item_body (it : item) : list Z := match it with KeyItem _ k secret => key_bytes k ++ secret | UserIdItem text => text | OtherItem _ body => body end.

(** The types that are understood. *)
Definition known_types : list Z :=
  [OPENPGP_PKT_PUBLIC_KEY; OPENPGP_PKT_PUBLIC_SUBKEY; OPENPGP_PKT_USER_ID; OPENPGP_PKT_ATTRIBUTE; OPENPGP_PKT_SIGNATURE; OPENPGP_PKT_SECRET_KEY; OPENPGP_PKT_SECRET_SUBKEY].

Definition item_ok (it : item) : Prop :=
  match it with
  | KeyItem ty k secret => key_ok k /\ bytes secret /\ exists schema, key_packet ty = Some schema /\ (is_secret schema = true \/ secret = [])
  | UserIdItem text => bytes text /\ text <> [] /\ 0 ∉ text
  | OtherItem ty body => bytes body /\ ty ∉ known_types
  end.

(** An item and the format of its packet. *)
Definition sent : Type := format * item.
Definition sent_packet (x : sent) : packet := framed x.1 (item_type x.2) (item_body x.2).
Definition sent_ok (x : sent) : Prop := item_ok x.2 /\ fits (x.1, item_type x.2, item_body x.2) = true.
Definition whole (xs : list sent) : list Z := concat ((fun x => p_whole (sent_packet x)) <$> xs).

(** A block for each packet, or for each primary key with what follows it. *)
Fixpoint groups (by_key : bool) (current : list sent) (xs : list sent) : list (list sent) :=
  match xs with
  | [] => match current with [] => [] | _ => [current] end
  | x :: xs =>
    if negb by_key || is_key (sent_packet x) then (match current with [] => [] | _ => [current] end) ++ groups by_key [x] xs
    else groups by_key (current ++ [x]) xs
  end.

Section Records.
Context `{GcryptLaws} `{GRecordsLaws} (Htwenty : twenty) (Hsha1 : is_Some (egg_hasher_new EGG_HASH_SHA1)).

Definition item_records (it : item) : list GcrRecord :=
  match it with
  | KeyItem ty k _ => match key_packet ty with Some schema => key_records schema k | None => [] end
  | UserIdItem text => [uid_record text]
  | OtherItem _ _ => []
  end.

Definition all_records (xs : list sent) : list GcrRecord := concat ((fun x => item_records x.2) <$> xs).

Lemma other_reader data ty end_ flags : ty ∉ known_types -> packet_reader data ty end_ flags = None.
Proof.
  unfold known_types, packet_reader. rewrite !not_elem_of_cons. intros (H1' & H2' & H3' & H4' & H5' & H6' & H7' & _).
  repeat (match goal with |- context [ty =? ?v] => destruct (Z.eqb_spec ty v); [done|] end). done.
Qed.

Lemma item_packet_ok data p q it flags rs : 0 <= p <= q -> q <= Zlen data -> item_ok it -> piece data p q = item_body it ->
  parse_openpgp_packet data p q (item_type it) flags rs = Ok (GCR_SUCCESS, rs ++ item_records it).
Proof.
  intros Hp Hq Hit Hb. set (pre := take (Z.to_nat p) data). set (post := drop (Z.to_nat q) data).
  assert (data = pre ++ item_body it ++ post) as Hd.
  { rewrite <- Hb. unfold pre, post, piece. rewrite <- (take_drop (Z.to_nat p) data) at 1. f_equal. rewrite <- (take_drop (Z.to_nat (q - p)) (drop (Z.to_nat p) data)) at 1. f_equal.
    rewrite drop_drop. f_equal. lia. }
  assert (p = Zlen pre) as Hp' by (unfold pre; rewrite length_take; lia).
  assert (q = Zlen pre + Zlen (item_body it)) as Hq' by (rewrite <- Hb, piece_length by lia; lia). clearbody pre post. subst data p q. clear Hp Hq Hb.
  destruct it as [ty k secret|text|ty body]; cbn [item_ok item_type item_body item_records] in *.
  - destruct Hit as (Hk & _ & schema & Hs & Hx). rewrite Hs. by eapply key_packet_ok.
  - destruct Hit as (Hb & Hne & H0'). by apply uid_packet_ok.
  - destruct Hit as (_ & Ht). unfold parse_openpgp_packet. rewrite other_reader, app_nil_r by done. done.
Qed.

Lemma item_good it : item_ok it -> Forall good (item_records it).
Proof.
  destruct it as [ty k secret|text|ty body]; cbn [item_ok item_records]; [|intros _|constructor].
  - intros (_ & _ & schema & Hs & _). rewrite Hs. unfold key_records, key_record, fpr_record. constructor; [|destruct (is_primary schema); repeat constructor].
    + exists schema. split; [done|]. apply key_schema_in in Hs. unfold key_schemas in Hs. rewrite !elem_of_cons in Hs.
      destruct Hs as [-> | [-> | [-> | [-> | []%elem_of_nil]]]]; schema.
    + exists GCR_RECORD_SCHEMA_FPR. split; [done|]. schema.
  - constructor; [|constructor]. exists GCR_RECORD_SCHEMA_UID. split; [done|]. schema.
Qed.

Lemma all_good xs : Forall sent_ok xs -> Forall good (all_records xs).
Proof. intros Hx. unfold all_records. apply Forall_concat, Forall_fmap. eapply Forall_impl; [exact Hx|]. intros x [Hi _]. by apply item_good. Qed.

Lemma item_body_bytes it : item_ok it -> bytes (item_body it).
Proof.
  destruct it as [ty k secret|text|ty body]; cbn [item_ok item_body]; [|tauto|tauto]. intros ((Ht & Hn & Hm & _) & Hs & _). apply Forall_app. split; [|exact Hs].
  constructor; [unfold is_byte; lia|]. apply Forall_app. split; [apply be_bytes_bytes|]. constructor; [pose proof (small_algo _ _ Hn); unfold is_byte; lia|].
  apply Forall_concat, Forall_fmap. eapply Forall_impl; [exact Hm|]. intros [b v] (_ & _ & Hv). apply Forall_app. split; [apply be_bytes_bytes|exact Hv].
Qed.

Lemma sent_whole x : sent_ok x -> bytes (p_whole (sent_packet x)) /\ (0 < length (p_whole (sent_packet x)))%nat.
Proof. intros [Hi Hf]. apply framed_bytes; [exact Hf|by apply item_body_bytes]. Qed.

Lemma whole_bytes xs : Forall sent_ok xs -> bytes (whole xs) /\ (length xs <= length (whole xs))%nat.
Proof.
  intros Hx. destruct (concat_bytes ((fun x => p_whole (sent_packet x)) <$> xs)) as [Hb Hl].
  - apply Forall_fmap. eapply Forall_impl; [exact Hx|]. apply sent_whole.
  - rewrite length_fmap in Hl. by split.
Qed.

(** * The loop *)

Section Loop.
Context (data : list Z) (Hdata : bytes data) (now flags : Z) (Hrecords : flag_set flags GCR_OPENPGP_PARSE_NO_RECORDS = false).

(** The block of a group: its bytes, and its records, which are put in order for a key. *)
Definition matches (g : list sent) (b : block) : Prop :=
  b_outer b = whole g /\ (if flag_set flags GCR_OPENPGP_PARSE_KEYS then normalize_key_records now (all_records g) else Ok (all_records g)) = Ok (b_records b).

Lemma close_group c b p g : c_records c = all_records g -> Forall sent_ok g -> 0 <= b < p -> p <= Zlen data -> piece data b p = whole g ->
  exists bl, (c ← normalize now flags c; maybe_emit_openpgp_block data c (Some b) p) = Ok (mk_closure (u32 (count c + 1)) (emitted c ++ [bl]) []) /\ matches g bl.
Proof.
  intros Hc Hg Hb Hp Hw. set (by_key := flag_set flags GCR_OPENPGP_PARSE_KEYS).
  assert (exists rs, normalize now flags c = Ok (mk_closure (count c) (emitted c) rs) /\ (if by_key then normalize_key_records now (all_records g) else Ok (all_records g)) = Ok rs) as (rs & -> & Hrs).
  { unfold normalize. fold by_key. destruct by_key; [|exists (c_records c); destruct c; cbn in *; by rewrite Hc].
    destruct (normalize_ok now (all_records g) (all_good g Hg)) as (rs & E & _). exists rs. by rewrite Hc, E. }
  run. unfold maybe_emit_openpgp_block. destruct (Z.eqb_spec b p); [lia|]. rewrite c_assert_true by (apply Z.ltb_lt; lia). run. rewrite bytes_at_piece by lia. run.
  eexists. split; [reflexivity|]. split; [exact Hw|exact Hrs].
Qed.

Lemma step_packet x xs p : sent_ok x -> 0 <= p <= Zlen data -> piece data p (Zlen data) = whole (x :: xs) ->
  exists q r, p < q <= r /\ r <= Zlen data /\ piece data p r = p_whole (sent_packet x) /\ piece data r (Zlen data) = whole xs /\
    read_openpgp_packet data (Zlen data) (mk_state (Some p) []) = Ok (Some (GCR_SUCCESS, item_type x.2, r - q), mk_state (Some q) []) /\
    forall rs, parse_openpgp_packet data q (q + (r - q)) (item_type x.2) flags rs = Ok (GCR_SUCCESS, rs ++ item_records x.2).
Proof.
  intros [Hi Hf] Hp E. assert (p < Zlen data) as Hlt.
  { destruct (sent_whole x (conj Hi Hf)) as [_ Hl]. pose proof (piece_length data p (Zlen data) Hp ltac:(lia)) as Hz. rewrite E in Hz. unfold whole in Hz. cbn [fmap list_fmap concat] in Hz. rewrite length_app in Hz. lia. }
  pose proof (first_packet_ok data Hdata p (Zlen data) [] ltac:(lia) ltac:(lia)) as Hfp. rewrite E in Hfp. unfold whole, sent_packet in Hfp. cbn [fmap list_fmap concat] in Hfp.
  rewrite first_framed in Hfp by exact Hf. destruct Hfp as (q & r & Hq & Hr & Hpk & Hrest & Er). exists q, r. unfold sent_packet.
  replace (q + (r - q)) with r by lia. cbn [p_type framed] in Er, Hpk. split_and!; try lia; try done.
  - injection Hpk as _ <-. done.
  - intros rs. apply item_packet_ok; [lia|lia|exact Hi|]. injection Hpk as <- _. done.
Qed.

(** What is done after the loop. *)
Definition finish (m : res unit (closure * option Z * option Z)) : res unit closure :=
  '(c, block, at_1) ← m; c ← normalize now flags c;
  match block with None => Ok c | Some _ => p ← or_ub at_1; maybe_emit_openpgp_block data c block p end.

Lemma keyring_loop fuel : forall xs cur c block p, Forall sent_ok cur -> Forall sent_ok xs -> 0 <= p <= Zlen data -> (length xs < fuel)%nat ->
  piece data p (Zlen data) = whole xs -> c_records c = all_records cur -> count c = u32 (Zlen (emitted c)) ->
  match block with
  | Some b => cur <> [] /\ 0 <= b < p /\ piece data b p = whole cur
  | None => cur = [] /\ (flag_set flags GCR_OPENPGP_PARSE_KEYS = true -> match xs with x :: _ => is_key (sent_packet x) = true | [] => True end)
  end ->
  exists c' bs, finish (packet_loop data fuel now flags (Zlen data) c block (Some p)) = Ok c' /\ Forall2 matches (groups (flag_set flags GCR_OPENPGP_PARSE_KEYS) cur xs) bs /\
    emitted c' = emitted c ++ bs /\ count c' = u32 (Zlen (emitted c')).
Proof.
  induction fuel as [|fuel IH]; intros xs cur c block p Hcur Hxs Hp Hf Hw Hc Hn Hb; [lia|]. cbn [packet_loop]. destruct xs as [|x xs].
  - assert (p = Zlen data) as -> by (apply (piece_nil data p (Zlen data)) in Hw; lia). rewrite Z.eqb_refl. unfold finish. run. cbn [groups]. destruct block as [b|].
    + destruct Hb as (Hne & Hb & Hbw). run. destruct (close_group c b (Zlen data) cur Hc Hcur Hb ltac:(lia) Hbw) as (bl & -> & Hbl).
      eexists _, [bl]. split; [reflexivity|]. destruct cur as [|y cur]; [done|]. split; [constructor; [exact Hbl|constructor]|]. split; [done|]. cbn [count emitted].
      rewrite Hn, length_app, Nat2Z.inj_add. unfold u32. by rewrite Zplus_mod_idemp_l.
    + destruct Hb as (-> & _). exists c, []. rewrite app_nil_r. split_and!; try done. cbn [all_records fmap list_fmap concat] in Hc.
      unfold normalize. rewrite Hc. destruct c as [n e rs]. cbn in *. subst rs. by destruct (flag_set flags GCR_OPENPGP_PARSE_KEYS).
  - apply Forall_cons in Hxs as [Hx Hxs]. destruct (step_packet x xs p Hx Hp Hw) as (q & r & Hq & Hr & Hwx & Hwr & -> & Hparse). run. cbn [at_ or_ub]. run. rewrite Hrecords. cbn [negb].
    destruct (Z.eqb_spec p (Zlen data)); [lia|]. change ((item_type x.2 =? OPENPGP_PKT_PUBLIC_KEY) || (item_type x.2 =? OPENPGP_PKT_SECRET_KEY)) with (is_key (sent_packet x)).
    set (by_key := flag_set flags GCR_OPENPGP_PARSE_KEYS) in *. cbn [groups]. destruct (negb by_key || is_key (sent_packet x)) eqn:Es.
    + assert ((if is_key (sent_packet x) then normalize now flags c else Ok c) = normalize now flags c) as ->.
      { unfold normalize. fold by_key. by destruct by_key, (is_key (sent_packet x)). }
      assert (exists c1 bs1, (c ← normalize now flags c; maybe_emit_openpgp_block data c block p) = Ok c1 /\ c_records c1 = [] /\ emitted c1 = emitted c ++ bs1 /\
        Forall2 matches (match cur with [] => [] | _ => [cur] end) bs1 /\ count c1 = u32 (Zlen (emitted c1))) as (c1 & bs1 & E1 & Hc1 & He1 & Hm1 & Hn1).
      { destruct block as [b|].
        - destruct Hb as (Hne & Hb & Hbw). destruct (close_group c b p cur Hc Hcur Hb ltac:(lia) Hbw) as (bl & -> & Hbl). eexists _, [bl].
          split; [reflexivity|]. split_and!; try done; [destruct cur; [done|constructor; [exact Hbl|constructor]]|]. cbn [count emitted]. rewrite Hn, length_app, Nat2Z.inj_add. unfold u32. by rewrite Zplus_mod_idemp_l.
        - destruct Hb as (-> & _). exists c, []. rewrite app_nil_r. unfold normalize. rewrite Hc. destruct c as [n0 e rs]. cbn in *. subst rs. split_and!; try done.
          by destruct (flag_set flags GCR_OPENPGP_PARSE_KEYS). }
      destruct (normalize now flags c) as [c0| |]; run; try done. cbn [mbind res_bind] in E1. rewrite E1. run. rewrite Hparse. run. replace (q + (r - q)) with r by lia.
      destruct (IH xs [x] (mk_closure (count c1) (emitted c1) (c_records c1 ++ item_records x.2)) (Some p) r) as (c' & bs & -> & Hm & He & Hn'); try done; try lia.
      * by constructor.
      * cbn in Hf. lia.
      * cbn [c_records]. rewrite Hc1. unfold all_records. cbn. by rewrite app_nil_r.
      * split; [done|]. split; [lia|]. rewrite Hwx. unfold whole. cbn. by rewrite app_nil_r.
      * exists c', (bs1 ++ bs). split; [done|]. split; [by apply Forall2_app|]. split; [|done]. rewrite He. cbn [emitted]. by rewrite He1, (assoc_L (++)).
    + apply orb_false_iff in Es as [Ek Ei]. apply negb_false_iff in Ek. rewrite Ei. run. destruct block as [b|]; [|destruct Hb as [_ Hb]; specialize (Hb Ek); congruence]. destruct Hb as (Hne & Hb & Hbw).
      rewrite Ek. cbn [negb orb]. rewrite Hparse. run. replace (q + (r - q)) with r by lia.
      destruct (IH xs (cur ++ [x]) (mk_closure (count c) (emitted c) (c_records c ++ item_records x.2)) (Some b) r) as (c' & bs & -> & Hm & He & Hn'); try done; try lia.
      * apply Forall_app. split; [done|by constructor].
      * cbn in Hf. lia.
      * cbn [c_records]. rewrite Hc. unfold all_records. rewrite fmap_app, concat_app. cbn. by rewrite app_nil_r.
      * split; [by destruct cur|]. split; [lia|]. rewrite <- (piece_app data b p r) by lia. rewrite Hbw, Hwx. unfold whole. rewrite fmap_app, concat_app. cbn. by rewrite app_nil_r.
      * exists c', bs. rewrite Ek in Hm. by split_and!.
Qed.

End Loop.

(** C15: a keyring is read as what it says.  Data that are made of public and secret keys of
    version 4 (RSA, DSA and ElGamal, of less than 65535 octets), of user ids that are not empty and have no NUL, and of packets of types that are
    passed over (no signatures and no attributes), in any formats with a length, are taken
    apart, when records are asked for, in a block for each packet, or with the flag for keys,
    if they begin with a key, in a block for each primary key with all that follows it; a block
    has just the bytes of its packets, and the records of what is in them, column by column:
    the length, the algorithm, the id, the time and the capabilities of a key, its SHA-1
    fingerprint, and a user id with its RIPEMD-160.  Those of a key are then put in order as
    [normalize_key_records] does. *)
Theorem openpgp_reads_keyring xs now flags : Forall sent_ok xs -> flag_set flags GCR_OPENPGP_PARSE_NO_RECORDS = false ->
  (flag_set flags GCR_OPENPGP_PARSE_KEYS = true -> match xs with x :: _ => is_key (sent_packet x) = true | [] => True end) ->
  exists bs, _gcr_openpgp_parse (whole xs) now flags = Ok (u32 (Zlen bs), bs) /\
    Forall2 (matches now flags) (groups (flag_set flags GCR_OPENPGP_PARSE_KEYS) [] xs) bs.
Proof.
  intros Hxs Hr Hk. destruct (whole_bytes xs Hxs) as [Hb Hl].
  destruct (keyring_loop (whole xs) Hb now flags Hr (S (length (whole xs))) xs [] (mk_closure 0 [] []) None 0) as (c & bs & E & Hm & He & Hn); try done; try lia.
  { unfold piece. change (drop (Z.to_nat 0) ?l) with l. by rewrite take_ge by lia. }
  exists bs. split; [|exact Hm]. cbn [emitted app] in He. rewrite <- He, <- Hn. unfold _gcr_openpgp_parse. unfold finish in E.
  destruct (packet_loop _ _ _ _ _ _ _ _) as [[[c0 block] at_1]| |]; run; try done. cbn [mbind res_bind] in E.
  destruct (normalize now flags c0) as [c1| |]; run; try done. cbn [mbind res_bind] in E. by rewrite E.
Qed.

End Records.
