(* ===== verification/OpenPgpCases.v ===== *)
(** Numbers, quarks and a base64 that keep the laws the OpenPGP parser relies on, and what its
    theorems and the parser itself say of concrete data. *)

From S2P Require Import Prelude Text Armor Base64 Record Hex Crypto ExchangeCases OpenPgp OpenPgpSpec OpenPgpSafe OpenPgpBlocks OpenPgpKeys OpenPgpRecords.
Local Open Scope Z_scope.

(** * What is relied on *)

(** A quark for each text, and a base64 with a line break at its end. *)
#[export] Instance small_records : GRecords := {
  g_ascii_strtoull := strtoull_digits;
  g_quark := encode_Z;
  g_base64_encode x := encode x ++ [10]
}.

Lemma encode_size x : Zlen (encode x) = 4 * ((Zlen x + 2) / 3).
Proof.
  induction x as [|a|a b|a b c x IH] using triple_ind; [done|done|done|]. cbn [encode length]. rewrite !Nat2Z.inj_succ, IH.
  replace (Z.succ (Z.succ (Z.succ (Zlen x))) + 2) with (Zlen x + 2 + 1 * 3) by lia. rewrite Z.div_add by lia. lia.
Qed.

#[export] Instance small_records_laws : GRecordsLaws.
Proof.
  constructor; cbn [g_quark g_base64_encode small_records]; [by intros s t ?%(inj encode_Z)|].
  intros x. rewrite length_app, Nat2Z.inj_add, encode_size. cbn. lia.
Defined.

Lemma small_twenty : twenty.
Proof. by split. Qed.

Lemma small_sha1 : is_Some (egg_hasher_new EGG_HASH_SHA1).
Proof. by eexists. Qed.

(** * A keyring *)

Definition some_key : public_key := mk_key 1000 1 [(9, [1; 1]); (2, [3])].
Definition some_subkey : public_key := mk_key 2000 16 [(8, [255]); (2, [2]); (1, [1])].
Definition some_sent : list sent :=
  [(New, KeyItem 6 some_key []); (Old 0, UserIdItem (lit "Ann: <a>")); (New, OtherItem 12 [7]); (Old 1, KeyItem 14 some_subkey []); (New, KeyItem 5 some_key [1; 2; 3])].

Lemma some_sent_ok : Forall sent_ok some_sent.
Proof.
  assert (key_ok some_key) as Hk by (unfold key_ok; split_and!; [done|done|reflexivity|repeat constructor; done|reflexivity]).
  assert (key_ok some_subkey) as Hs by (unfold key_ok; split_and!; [done|done|reflexivity|repeat constructor; done|reflexivity]).
  unfold some_sent. repeat (apply Forall_cons; split); [..|constructor]; (split; [cbn [snd item_ok]|reflexivity]).
  - split; [exact Hk|]. split; [constructor|]. eexists. split; [reflexivity|by right].
  - split_and!; [decide_now|done|decide_now].
  - split; decide_now.
  - split; [exact Hs|]. split; [constructor|]. eexists. split; [reflexivity|by right].
  - split; [exact Hk|]. split; [decide_now|]. eexists. split; [reflexivity|by left].
Qed.
Lemma openpgp_reads_keyring_witness : exists bs, _gcr_openpgp_parse (whole some_sent) 5000 GCR_OPENPGP_PARSE_KEYS = Ok (u32 (Zlen bs), bs) /\
  Forall2 (matches 5000 GCR_OPENPGP_PARSE_KEYS) (groups true [] some_sent) bs.
Proof. exact (openpgp_reads_keyring small_twenty small_sha1 some_sent 5000 GCR_OPENPGP_PARSE_KEYS some_sent_ok eq_refl (fun _ => eq_refl)). Defined.

Definition cut : list Z := whole some_sent ++ [0xC6; 9; 4].
Lemma openpgp_parse_blocks_witness : exists bs, _gcr_openpgp_parse cut 5000 GCR_OPENPGP_PARSE_KEYS = Ok (u32 (Zlen bs), bs) /\
  b_outer <$> bs = blocks_of true (packets (length cut) cut) /\ Forall (fun b => Forall good (b_records b)) bs.
Proof. apply (openpgp_parse_blocks cut 5000 GCR_OPENPGP_PARSE_KEYS); [decide_now|exact small_twenty|right; decide_now]. Defined.

Definition some_packets : list (format * Z * list Z) := [(Old 2, 12, [1; 2]); (New, 63, []); (New, 6, replicate 200 9); (Old 0, 13, [65]); (New, 17, [1; 1])].
Lemma openpgp_reads_packets_witness : exists bs,
  _gcr_openpgp_parse (concat ((fun x => p_whole (framed x.1.1 x.1.2 x.2)) <$> some_packets)) 5000 0 = Ok (u32 (Zlen bs), bs) /\
  b_outer <$> bs = blocks_of false ((fun x => framed x.1.1 x.1.2 x.2) <$> some_packets).
Proof.
  apply (openpgp_reads_packets some_packets 5000 0); [exact small_twenty|]. unfold some_packets.
  repeat (apply Forall_cons; split); [..|constructor]; (split; [reflexivity|split; [decide_now|right; reflexivity]]).
Defined.

(** * What the parser does with some data *)

(** An empty user id and an empty attribute fail the assertion on what is hashed. *)
Example empty_user_id_stops : _gcr_openpgp_parse [0xCD; 0] 5000 0 = Ub.
Proof. vm_compute. reflexivity. Qed.
Example empty_attribute_stops : _gcr_openpgp_parse [0xD1; 0] 5000 0 = Ub.
Proof. vm_compute. reflexivity. Qed.
(** So does an attribute with only its type, when attributes are asked for. *)
Example bare_attribute_stops : _gcr_openpgp_parse [0xD1; 2; 1; 1] 5000 GCR_OPENPGP_PARSE_ATTRIBUTES = Ub.
Proof. vm_compute. reflexivity. Qed.
(** An attribute that says it is longer than its packet is read beyond the data. *)
Example long_attribute_overruns : _gcr_openpgp_parse [0xD1; 2; 5; 1] 5000 0 = Ub /\ _gcr_openpgp_parse [0xD1; 2; 5; 1] 5000 GCR_OPENPGP_PARSE_ATTRIBUTES = Ub.
Proof. vm_compute. by split. Qed.

(** A signature of version 4 by RSA, with its hashed and its other subpackets. *)
Definition signature (sig_type : Z) (hashed unhashed : list Z) : list Z :=
  [4; sig_type; 1; 8] ++ be_bytes 2 (Zlen hashed) ++ hashed ++ be_bytes 2 (Zlen unhashed) ++ unhashed ++ [0; 0] ++ mpi_bytes (1, [1]).
Definition with_signature (xs : list sent) (s : list Z) : list Z := whole xs ++ p_whole (framed New OPENPGP_PKT_SIGNATURE s).

(** A column of a record of the first block. *)
Definition column_of (m : res unit (Z * list block)) (record column : nat) : option (list Z) :=
  match m with Ok (_, b :: _) => r ← b_records b !! record; columns r !! column | _ => None end.
Definition a_key_and_subkey : list sent := [(New, KeyItem 6 some_key []); (New, KeyItem 14 some_subkey [])].

(** The expiry of a subkey, a second after it was made, is taken from a subpacket that is not
    hashed, and so not signed, as from one that is. *)
Example unhashed_is_used :
  let expiry := 5 :: OPENPGP_SIG_KEY_EXPIRY :: be_bytes 4 1 in
  column_of (_gcr_openpgp_parse (with_signature a_key_and_subkey (signature 0x18 expiry [])) 1500 GCR_OPENPGP_PARSE_KEYS) 2 6 = Some (lit "2001") /\
  column_of (_gcr_openpgp_parse (with_signature a_key_and_subkey (signature 0x18 [] expiry)) 1500 GCR_OPENPGP_PARSE_KEYS) 2 6 = Some (lit "2001").
Proof. vm_compute. by split. Qed.

(** How many records the first block has. *)
Definition records_of (m : res unit (Z * list block)) : option nat :=
  match m with Ok (_, b :: _) => Some (length (b_records b)) | _ => None end.

(** A signature that names its signer is not taken: the reader of that subpacket leaves the
    pointer where it was. *)
Example signer_user_id_rejected :
  let signer := [2; OPENPGP_SIG_SIGNER_USERID; 65] in
  records_of (_gcr_openpgp_parse (with_signature [] (signature 0x10 [] [])) 1500 GCR_OPENPGP_PARSE_SIGNATURES) = Some 1%nat /\
  records_of (_gcr_openpgp_parse (with_signature [] (signature 0x10 signer [])) 1500 GCR_OPENPGP_PARSE_SIGNATURES) = Some 0%nat.
Proof. vm_compute. by split. Qed.

(** The records of the last key are put in order at the end of the data, but not before a
    packet that is cut off: no capabilities are gathered and no trust is set. *)
Example cut_off_not_normalized :
  column_of (_gcr_openpgp_parse (whole a_key_and_subkey) 5000 GCR_OPENPGP_PARSE_KEYS) 0 1 = Some (lit "o") /\
  column_of (_gcr_openpgp_parse (whole a_key_and_subkey ++ [0xC6; 9; 4]) 5000 GCR_OPENPGP_PARSE_KEYS) 0 1 = Some [].
Proof. vm_compute. by split. Qed.

(** The records of packets before the first key are put in front of those of that key, which
    then are not put in order. *)
Example stray_user_id_kept :
  column_of (_gcr_openpgp_parse (whole ((New, UserIdItem (lit "A")) :: a_key_and_subkey)) 5000 GCR_OPENPGP_PARSE_KEYS) 0 0 = Some (lit "uid") /\
  column_of (_gcr_openpgp_parse (whole ((New, UserIdItem (lit "A")) :: a_key_and_subkey)) 5000 GCR_OPENPGP_PARSE_KEYS) 1 1 = Some [].
Proof. vm_compute. by split. Qed.

(** The capabilities of the primary key alone stay in lower case in front of the gathered
    ones in upper case. *)
Example gathered_capabilities :
  column_of (_gcr_openpgp_parse (whole a_key_and_subkey) 5000 GCR_OPENPGP_PARSE_KEYS) 0 11 = Some (lit "cseCSE").
Proof. vm_compute. reflexivity. Qed.
